(* ===== verification/_CoqProject ===== *)
-Q . S2P
Prelude.v
DataReader.v
DataWriter.v
Encodings.v
PacketNumbers.v
PacketNumberQueue.v
FramerTypes.v
GoogleFrames.v
StreamFrames.v
IetfFrames.v
AckFrames.v
AckRoundTrip.v
AckTruncation.v
LibquicAck.v
IetfAck.v
PacketHeader.v
Framer.v
FramerSafety.v
PacketRoundTrip.v
FrameLengths.v
VersionNegotiation.v
Versions.v
Visitors.v
FramerTheorems.v
WireTheorems.v
QuicUnits.v
WindowedFilter.v
Sampler.v
BbrSenderV5.v
BbrInvariants.v
BbrAccounting.v
BbrModes.v
ControllerPacing.v
CongestionTheorems.v
ClusterSender.v
BbrClusters.v
BbrSafety.v
BbrControl.v
ClusterTheorems.v
UnackedPackets.v
RttEstimates.v
LossDetection.v
SendAlgorithm.v
BandwidthRecorder.v
PacedSending.v
UnackedInvariants.v
SentPackets.v
SentInvariants.v
AckedRanges.v
SentRuns.v
ReceivedPackets.v
ReceiverApp.v
SenderApp.v
Datagrams.v
EmptyAcks.v
AckPolicy.v
SenderLoop.v
AppTheorems.v
SentManager.v
SentTheorems.v
IndexedQueue.v
BandwidthSamplers.v
LibquicBbr.v
BbrWindows.v
BbrEvents.v
AlgorithmLaws.v
BbrTheorems.v
