(* ===== verification/Prelude.v ===== *)
(** * A verification of a QUIC sender and receiver: framer, packet managers, controllers

    The repository is an ns-3 experiment on congestion control.  Its own code is
    a QUIC framer, [MyQuicFramer] (src/quic/model/my_quic_framer.cc), that turns
    frames into datagrams and back, ns-3 applications that drive it, and
    congestion controllers derived from BBR (src/delay-bbr,
    src/my_quic_2/libquic/net); all of it sits on chromium's libquic, of which a
    copy is kept under src/my_quic_2/libquic/net/third_party.

    ** How the code is modelled

    A C++ method is a Rocq function with the method's name.  Integers are [Z]
    with the wrap-around of their width written out ([u8] ... [u64], [i64]);
    bytes are [Z] in [0, 256); buffers are lists of bytes.  A method that can
    return false or null is a computation of the state-and-failure monad [M]:
    the state it leaves behind when it fails is kept, because the framer records
    its error there.  Loops are fixpoints; where the recursion is not structural
    they carry fuel, and a theorem shows that the fuel given is enough (each
    iteration of the frame loop consumes a byte, so the bytes that remain bound
    it; likewise for the ack, timestamp and version-label loops).  Logging and
    DCHECK, which release builds drop, are not modelled.

    The framer and the applications are compiled against a libquic older than the
    copy in the repository; what they use of it (reader, writer, ack queue,
    constants, packet managers) is modelled from that copy, which is the text
    available.  What neither
    has is a parameter: the ciphers ([Ciphers]), crypto handshake messages
    ([HandshakeMessages]), version labels ([VersionLabels], with the labels of
    quic_versions.cc as an instance), the data producer of a session, and
    [QuicDataWriter::WriteUInt8AtOffset].

    ** The files

    - [Prelude]: widths, byte strings in both endiannesses, the monad, tactics.
    - [DataReader], [DataWriter], [Encodings]: quic_data_reader.cc,
      quic_data_writer.cc.  [reads] and [writes] are the specifications of a read
      and a write: which bytes are consumed or appended, and the result; the
      round trips of the variable-length integer and the 16-bit float.
    - [PacketNumbers]: truncated packet numbers and their lengths;
      my_quic_header.cc is its Module [Header].
    - [PacketNumberQueue]: the interval deque of an ack frame; [mem] is the set it
      stands for and [wf] its invariant.
    - [FramerTypes]: frames, headers, the framer record, and the class
      [MyQuicFramerVisitorInterface] that a framer calls back.
    - [GoogleFrames], [StreamFrames], [IetfFrames], [AckFrames], [IetfAck]: one
      writer and one reader per frame type; [wire_rst], [wire_ack] and so on
      are the byte strings that both sides are proved against.  [AckRoundTrip]
      relates ack blocks and gaps to the intervals; [AckTruncation] is about the
      frames that had to leave out blocks: how many bytes the parser takes at least
      ([takes]), and frames cut inside a gap.
    - [LibquicAck]: the second ack writer, libquic/net/my_quic_framer.cc, whose
      DCHECKs abort; it agrees with the first ([ack_writers_agree]).
    - [PacketHeader]: public header, public reset and version negotiation.
    - [Framer]: [BuildDataPacket], encryption, [ProcessPacket] and everything
      between; [FramerSafety] (termination, errors are explained),
      [PacketRoundTrip], [FrameLengths] and [VersionNegotiation] prove its
      theorems; [Versions] and [Visitors] discharge its interfaces.
    - [FramerTheorems], [WireTheorems]: the properties of the framer, with witnesses
      evaluated on two framers joined back to back (Module [Loopback]).
    - [QuicUnits]: quic_time.h and quic_bandwidth.h at [int64_t] width, and the
      single and double precision products of the gains, computed bit by bit.
    - [WindowedFilter]: windowed_filter.h over any comparison (class [Compare]).
    - [Sampler]: delay-bbr/sampler.cc.
    - [BbrSenderV5]: delay-bbr/bbr_sender_v5.cc; [BbrInvariants] (gains, offsets and
      rates stay in range through every handler), [BbrAccounting] (the packets in
      flight against a [Ledger] of what was sent and acknowledged), [BbrModes] (the
      mode machine, whose steps are [mode_edge], and what an acknowledgement announces).
    - [ControllerPacing]: the controller interface of my_controller_interface.h as the
      class [CongestionController], its promises as [ControllerLaws], and
      my_pacing_sender.cc over any instance.
    - [CongestionTheorems]: the properties of the above, with [MyBbrSenderV5] as an
      instance of the interface.
    - [ClusterSender]: libquic/net/my_bbr_sender.cc and the clusters of
      my_controller_interface.cc, which point at each other; a heap of addresses
      makes use after free and leaks expressible.  [BbrClusters] is the theory of
      the linked clusters, [BbrSafety] the memory-safety invariant, [BbrControl] the
      gains and rates; [ClusterTheorems] has the properties and the second instance
      of the interface.
    - [UnackedPackets]: quic_unacked_packet_map.cc, the deque of packets sent with the
      links between retransmissions; [None] is an access outside of it.
      [UnackedInvariants]: its invariant [unacked_ok], kept by every operation.
    - [RttEstimates]: rtt_stats.cc.  [LossDetection]: general_loss_algorithm.cc, and the
      specification [lost_packets] that its scan is proved equal to.
    - [SendAlgorithm]: the options of quic_config.cc and the interface of the send
      algorithms (class [SendAlgorithmInterface]).  [BandwidthRecorder]:
      quic_sustained_bandwidth_recorder.cc.  [PacedSending]: pacing_sender.cc over any send
      algorithm, its schedule and its bursts.
    - [SentPackets]: quic_sent_packet_manager.cc over any send algorithm, with and without
      pacing.  [SentInvariants]: its invariant [manager_ok] and that
      sending, acknowledging and losing packets keep it.  [AckedRanges]: the ranges of
      an ack frame against the set acknowledged before.  [SentRuns]: timeouts, whole
      frames, and any sequence of operations [Op].
    - [ReceivedPackets]: quic_received_packet_manager.cc, refined to the set of packets
      received.
    - [ReceiverApp], [SenderApp]: the two ns-3 applications.  A handler is a
      function on the fields at a time of the clock; datagrams sent and trace calls
      are an output list, a timer is the time it is due.  The sender runs on the
      interface [QuicSentPacketManager] and is itself a visitor of the framer.
    - [Datagrams]: the bytes the applications exchange; [EmptyAcks]: those of an
      acknowledgement of nothing.  [AckPolicy]: the receiver
      under the simulator's event queue, and its loss trace.  [SenderLoop]: the
      sender's heart beat over any manager that keeps [SentPacketManagerLaws].
      [AppTheorems]: their properties.
    - [SentManager]: the manager of [SentPackets] discharges the laws the sender relies
      on ([LibquicLaws]), and the sender over time, as the relation [sender_reaches].
      [SentTheorems]: the properties of the packets sent and of sender and manager
      together.
    - [IndexedQueue]: packet_number_indexed_queue.h, refined to a finite map.
      [BandwidthSamplers]: bandwidth_sampler.cc on it, which mirrors [Sampler].
    - [LibquicBbr]: bbr_sender.cc, the send algorithm the sender's manager is created
      with.  [BbrWindows]: its invariants, of windows, modes and gains, through every
      handler.  [BbrEvents]: recovery, its window and PROBE_RTT over one congestion event.
    - [AlgorithmLaws]: an invariant of a send algorithm (class [AlgorithmInvariant]) holds
      in every state of the application, by a second instance of the laws of the manager.
      [BbrTheorems]: the properties of the queue, the sampler, [BbrSender], and of sender,
      manager and [BbrSender] together.

    ** What the theorems show

    Framer: round trips for every frame and for whole packets; every rejected
    packet is explained and every loop ends, on arbitrary bytes and with an
    arbitrary visitor; lengths announced are the lengths written; the ack queue
    refines a set.  Three theorems describe defects: the IETF ack reader gives every
    block the length of the first one and so acknowledges packets that were not
    received ([ietf_ack_overacknowledges]); a truncated ack can be granted room in
    which it does not fit ([truncated_ack_does_not_fit]); and where not even one of
    its further blocks fits, the gQUIC writer's flag and count disagree, and the
    reader rejects the frame (the last part of [ack_roundtrip]).

    Congestion control: [bytes_in_flight_] refines the ledger and no event divides
    by zero ([bbr_in_flight]); the mode follows from the one before and what an
    acknowledgement measured, DECREASE being entered from every mode when the minimum
    RTT expires, which the header of the class does not say, and a drained
    controller leaves its draining mode ([bbr_mode_machine], [bbr_recovers]); gains
    and rates belong to the mode; samples exceed neither rate they are made from;
    the filter's best is a sample of the window that no later one beats; a sender
    that waits as the pacer asks stays below the cap, whatever lawful controller it
    runs ([pacing_cap]).  The clusters of [MyBbrSender] are memory safe and not
    leaked over all traces ([cluster_memory_safe]), and an acknowledgement is booked
    as a search would book it (lemma [note_ack_equiv]); that controller can pace below its
    minimum ([probe_rtt_below_minimum]).  Runs are bounded only by what keeps the
    counters in range: times below 2^56 microseconds and packet numbers below 2^60
    for [MyBbrSender], 2^61 microseconds for the pacer.

    Applications: what one writes the other understands ([ack_reaches_sender]); an
    acknowledgement is never delayed by more than 26 milliseconds
    ([ack_delay_bound]); the sender's loop ends, sends what its manager
    lets out ([lets_out]) and numbers the packets consecutively ([sender_heart_beat]); the received packets are tracked exactly
    ([received_packets_refine]), and the loss trace reports what it should except
    that it takes reordering for loss ([loss_trace]).  [stale_ack_rejected] (an
    alarm that goes off when the queue is empty) and [datagram_out_of_bounds] describe
    defects.

    Packets sent: over any run of operations the deque covers the packets up to the
    largest sent, its links lead forward (so that following them ends within the fuel
    [chain_fuel], the length of the deque and one), and the bytes in flight are what
    they count, however the manager is configured ([manager_runs]); an ack frame acknowledges exactly its packets
    ([ack_frame_exact]); the optimised scan finds exactly the lost packets
    ([loss_detection_exact]).  Composed with the sender this means that it never leaves
    the deque, whatever acknowledgements of its packets, of up to 150 blocks, arrive
    and when ([sender_never_faults]).  Runs are bounded by 2^46 packets ([max_packets]), which
    keeps the bytes in flight within 64 bits.  [unsent_ack_faults], [unended_ack_faults]
    and [sender_stalls] describe defects of the sender: it does not reject
    acknowledgements of packets it did not send, never ends a frame that was cut
    inside a gap (with a trace, [unended_ack_trace]), and has no retransmission timer.

    BbrSender: the queue of its sampler is a finite map that grows at its end
    ([indexed_queue_refines]) and its samples are those of delay-bbr's sampler
    ([samplers_agree]).  However it is configured, its window stays within its limits and
    lets a packet out below the minimum ([bbr_window_bounds]); its modes move along their
    graph, PROBE_RTT ends and recovery follows the losses ([bbr_mode_edges],
    [probe_rtt_ends], [bbr_recovery]).  As the algorithm of the application it is never
    given an event it divides by zero on ([sender_with_bbr]), and the application does not
    stall with less than four segments in flight ([bbr_keeps_sending]).  A connection that
    turns pacing on stays below the cap of its pacing sender with any algorithm
    ([pacing_sender_cap]), and no more than ten packets go unpaced whenever it leaves
    quiescence (lemma [burst_bound]); clocks are below 2^61 microseconds.

    ** What is not modelled

    Trace files, the set-up of sockets and simulations, scripts and test programs.  Of
    the sent packet manager: observers, none of which the sender sets, and the case that a
    session decides what to write.
    The other send algorithms of libquic (cubic, reno, PCC), which the sender does not
    select, stand behind [SendAlgorithmInterface]; the theorems on the manager hold for
    any.  Of [BbrSender] the printing of its debug state, and of [QuicConfig] everything
    but the connection options and the initial round trip time, are left out.  The rest of
    libquic (connections, sessions, streams, crypto) is not reached by the repository's
    own code. *)
From Stdlib Require Export ZArith Lia.
From stdpp Require Export base tactics numbers list option.
From stdpp Require Export list_basics.
Export ListNotations.

Open Scope Z_scope.

(** * Machine integers *)

(** Unsigned wrap-around at width [w]: the value a [uintw_t] object holds after
    an assignment from the mathematical value [x]. *)
Definition wrap (w x : Z) : Z := x mod 2 ^ w.

Abbreviation u8 := (wrap 8).
Abbreviation u16 := (wrap 16).
Abbreviation u32 := (wrap 32).
Abbreviation u64 := (wrap 64).

(** [x] is representable in an unsigned object of width [w]. *)
Definition fits (w x : Z) : Prop := 0 <= x < 2 ^ w.

(** Conversion to a signed [w]-bit object (two's complement). *)
Definition swrap (w x : Z) : Z :=
  let y := wrap w x in if y <? 2 ^ (w - 1) then y else y - 2 ^ w.

Abbreviation i32 := (swrap 32).
Abbreviation i64 := (swrap 64).

(** Turns every boolean integer comparison of the context into a proposition. *)
Ltac zbool :=
  repeat match goal with
  | H : (_ && _)%bool = true |- _ => apply andb_true_iff in H; destruct H
  | H : (_ || _)%bool = false |- _ => apply orb_false_iff in H; destruct H
  | H : negb _ = true |- _ => apply negb_true_iff in H
  | H : negb _ = false |- _ => apply negb_false_iff in H
  | H : (_ <? _) = true |- _ => apply Z.ltb_lt in H
  | H : (_ <? _) = false |- _ => apply Z.ltb_ge in H
  | H : (_ <=? _) = true |- _ => apply Z.leb_le in H
  | H : (_ <=? _) = false |- _ => apply Z.leb_gt in H
  | H : (_ =? _) = true |- _ => apply Z.eqb_eq in H
  | H : (_ =? _) = false |- _ => apply Z.eqb_neq in H
  end.

(** Case analysis on the comparisons of the goal, with the facts they give. *)
Ltac zcase :=
  match goal with
  | |- context [?a <? ?b] => destruct (Z.ltb_spec a b)
  | |- context [?a <=? ?b] => destruct (Z.leb_spec a b)
  | |- context [?a =? ?b] => destruct (Z.eqb_spec a b)
  end.
Ltac zcases := repeat (zcase; try lia; simpl).

(** Linear arithmetic with division and remainder by constants. *)
Ltac dlia := Z.to_euclidean_division_equations; lia.

Create HintDb ints.

Lemma wrap_small w x : fits w x -> wrap w x = x.
Proof. intros H. apply Z.mod_small, H. Qed.

Lemma wrap_fits w x : 0 <= w -> fits w (wrap w x).
Proof. intros Hw. apply Z.mod_pos_bound, Z.pow_pos_nonneg; lia. Qed.

Lemma fits_weaken w w' x : 0 <= w <= w' -> fits w x -> fits w' x.
Proof.
  intros Hw [? Hx]. split; [lia|].
  eapply Z.lt_le_trans; [exact Hx|]. apply Z.pow_le_mono_r; lia.
Qed.

Lemma wrap_add_l w x y : wrap w (wrap w x + y) = wrap w (x + y).
Proof. apply Zplus_mod_idemp_l. Qed.

Lemma wrap_sub_l w x y : wrap w (wrap w x - y) = wrap w (x - y).
Proof. apply Zminus_mod_idemp_l. Qed.

#[export] Hint Resolve wrap_fits fits_weaken : ints.

(** * Byte strings *)

(** Memory is modelled as a list of byte values, each in [0, 256). *)
Definition byte_ok (b : Z) : Prop := 0 <= b < 256.
Definition bytes_ok (bs : list Z) : Prop := Forall byte_ok bs.

(** The [n] bytes a little-endian host stores for the integer [v]. *)
Fixpoint le_bytes (n : nat) (v : Z) : list Z :=
  match n with
  | O => []
  | S n => v mod 256 :: le_bytes n (v / 256)
  end.

(** The integer a little-endian host loads from the bytes [bs]. *)
Fixpoint le_val (bs : list Z) : Z :=
  match bs with
  | [] => 0
  | b :: bs => b + 256 * le_val bs
  end.

(** Big-endian (network order) counterparts. *)
Definition be_bytes (n : nat) (v : Z) : list Z := reverse (le_bytes n v).
Definition be_val (bs : list Z) : Z := le_val (reverse bs).

Lemma length_le_bytes n v : length (le_bytes n v) = n.
Proof. revert v; induction n; intros; simpl; auto. Qed.

Lemma length_be_bytes n v : length (be_bytes n v) = n.
Proof. unfold be_bytes. by rewrite length_reverse, length_le_bytes. Qed.

Lemma le_bytes_ok n v : bytes_ok (le_bytes n v).
Proof.
  revert v; induction n as [|n IH]; intros; simpl; constructor; [|apply IH].
  apply Z.mod_pos_bound; lia.
Qed.

Lemma be_bytes_ok n v : bytes_ok (be_bytes n v).
Proof. unfold be_bytes. apply Forall_reverse, le_bytes_ok. Qed.

Lemma pow256_S n : 256 ^ Z.of_nat (S n) = 256 * 256 ^ Z.of_nat n.
Proof. rewrite Nat2Z.inj_succ, Z.pow_succ_r by lia. lia. Qed.

Lemma pow256_pos n : 0 < 256 ^ Z.of_nat n.
Proof. apply Z.pow_pos_nonneg; lia. Qed.

Lemma le_val_le_bytes n v : le_val (le_bytes n v) = v mod 256 ^ Z.of_nat n.
Proof.
  revert v; induction n as [|n IH]; intros v.
  - simpl. by rewrite Z.mod_1_r.
  - cbn [le_bytes le_val]. rewrite IH, pow256_S.
    pose proof (pow256_pos n). rewrite Z.rem_mul_r by lia. lia.
Qed.

Lemma be_val_be_bytes n v : be_val (be_bytes n v) = v mod 256 ^ Z.of_nat n.
Proof. unfold be_val, be_bytes. by rewrite reverse_involutive, le_val_le_bytes. Qed.

Lemma le_val_bound bs : bytes_ok bs -> 0 <= le_val bs < 256 ^ Z.of_nat (length bs).
Proof.
  induction 1 as [|b bs Hb _ IH]; cbn [le_val length]; [lia|].
  rewrite pow256_S. unfold byte_ok in Hb. lia.
Qed.

Lemma be_val_bound bs : bytes_ok bs -> 0 <= be_val bs < 256 ^ Z.of_nat (length bs).
Proof.
  intros H. unfold be_val. rewrite <- length_reverse.
  apply le_val_bound. by apply Forall_reverse.
Qed.

Lemma le_bytes_le_val bs : bytes_ok bs -> le_bytes (length bs) (le_val bs) = bs.
Proof.
  induction 1 as [|b bs Hb _ IH]; cbn [le_val length le_bytes]; [done|].
  unfold byte_ok in Hb.
  assert (Hm : (b + 256 * le_val bs) mod 256 = b).
  { rewrite Z.mul_comm, Z_mod_plus_full. apply Z.mod_small. lia. }
  assert (Hd : (b + 256 * le_val bs) / 256 = le_val bs).
  { rewrite Z.mul_comm, Z.div_add by lia. rewrite Z.div_small; lia. }
  by rewrite Hm, Hd, IH.
Qed.

Lemma be_bytes_be_val bs : bytes_ok bs -> be_bytes (length bs) (be_val bs) = bs.
Proof.
  intros H. unfold be_bytes, be_val.
  rewrite <- length_reverse, le_bytes_le_val by by apply Forall_reverse.
  apply reverse_involutive.
Qed.

Lemma le_val_app bs bs' :
  le_val (bs ++ bs') = le_val bs + 256 ^ Z.of_nat (length bs) * le_val bs'.
Proof.
  induction bs as [|b bs IH]; cbn [le_val length app].
  - change (Z.of_nat 0) with 0. lia.
  - rewrite IH, pow256_S. lia.
Qed.

Lemma le_val_zeros n : le_val (replicate n 0) = 0.
Proof. induction n as [|n IH]; simpl; [done|]. rewrite IH. lia. Qed.

Lemma le_bytes_take n m v : (m <= n)%nat -> take m (le_bytes n v) = le_bytes m v.
Proof.
  revert m v; induction n as [|n IH]; intros [|m] v Hm; simpl; try lia; auto.
  rewrite IH by lia. done.
Qed.

Lemma be_bytes_drop n m v :
  (m <= n)%nat -> drop (n - m) (be_bytes n v) = be_bytes m v.
Proof.
  intros Hm. unfold be_bytes.
  rewrite <- (reverse_involutive (drop _ _)). f_equal.
  rewrite <- (le_bytes_take n m v) by lia.
  rewrite <- (take_drop (m) (le_bytes n v)) at 1.
  rewrite reverse_app, drop_app_length'.
  - by rewrite reverse_involutive.
  - rewrite length_reverse, length_drop, length_le_bytes. lia.
Qed.

Lemma be_val_zeros_app n bs : be_val (replicate n 0 ++ bs) = be_val bs.
Proof.
  unfold be_val. rewrite reverse_app, le_val_app, reverse_replicate, le_val_zeros. lia.
Qed.

Lemma le_val_app_zeros n bs : le_val (bs ++ replicate n 0) = le_val bs.
Proof. rewrite le_val_app, le_val_zeros. lia. Qed.

(** ** Byte swapping: [QuicEndian::HostToNet16/32/64] on a little-endian host *)
Definition byteswap (n : nat) (v : Z) : Z := le_val (reverse (le_bytes n v)).

Lemma le_bytes_byteswap n v : le_bytes n (byteswap n v) = be_bytes n v.
Proof.
  unfold byteswap, be_bytes.
  rewrite <- (length_le_bytes n v) at 1.
  rewrite <- length_reverse. apply le_bytes_le_val.
  apply Forall_reverse, le_bytes_ok.
Qed.

Lemma byteswap_le_val bs :
  bytes_ok bs -> byteswap (length bs) (le_val bs) = be_val bs.
Proof. intros H. unfold byteswap, be_val. by rewrite le_bytes_le_val. Qed.

(** * The state-and-failure monad *)

(** A C++ member function that returns [bool], mutates its object [S] and fills
    output parameters [A]: [None] is [return false]; the state reached is kept
    on both exits, because the mutations made before the failure persist. *)
Definition M (S A : Type) : Type := S -> option A * S.

#[export] Instance M_ret S : MRet (M S) := fun A a s => (Some a, s).
#[export] Instance M_bind S : MBind (M S) := fun A B k m s =>
  match m s with
  | (Some a, s') => k a s'
  | (None, s') => (None, s')
  end.

Section monad.
Context {S : Type}.

(** [return false]. *)
Definition fail {A} : M S A := fun s => (None, s).
Definition gets {A} (f : S -> A) : M S A := fun s => (Some (f s), s).
Definition modify (f : S -> S) : M S unit := fun s => (Some tt, f s).
(** [if (!m) { h; return false; }] *)
Definition or_fail {A} (m : M S A) (h : S -> S) : M S A := fun s =>
  match m s with
  | (Some a, s') => (Some a, s')
  | (None, s') => (None, h s')
  end.
(** [if (b) { h; return false; }] *)
Definition fail_if (b : bool) (h : S -> S) : M S unit := fun s =>
  if b then (None, h s) else (Some tt, s).
(** The call of a member function of a sub-object. *)
Definition zoom {T A} (get : S -> T) (put : T -> S -> S) (m : M T A) : M S A :=
  fun s => let '(o, t) := m (get s) in (o, put t s).

Lemma gets_bind {A B} (f : S -> A) (k : A -> M S B) s : (gets f ≫= k) s = k (f s) s.
Proof. done. Qed.

Lemma modify_bind {B} (f : S -> S) (k : unit -> M S B) s : (modify f ≫= k) s = k tt (f s).
Proof. done. Qed.

(** Running a bind or a guarded call whose first part succeeds. *)
Lemma bind_run {A B} (m : M S A) (k : A -> M S B) s a s' :
  m s = (Some a, s') -> (m ≫= k) s = k a s'.
Proof. intros H. unfold mbind, M_bind. by rewrite H. Qed.

Lemma or_fail_run {A} (m : M S A) h s a s' :
  m s = (Some a, s') -> or_fail m h s = (Some a, s').
Proof. intros H. unfold or_fail. by rewrite H. Qed.
End monad.
