(* ===== verification/DataReader.v ===== *)
(** [QuicDataReader] (net/third_party/quic/core/quic_data_reader.cc): a cursor
    over a received byte string.  Every read either consumes bytes and delivers
    a value or returns [false].  The second half gives the reasoning principle
    used by every parser of the development: [reads m bs a]. *)
From S2P Require Import Prelude.

(** ** Byte order *)
Inductive Endianness := NETWORK_BYTE_ORDER | HOST_BYTE_ORDER.
#[export] Instance Endianness_eq_dec : EqDecision Endianness.
Proof. solve_decision. Defined.

Definition is_network (e : Endianness) : bool :=
  match e with NETWORK_BYTE_ORDER => true | HOST_BYTE_ORDER => false end.

(** [QuicEndian::HostToNet*] and [NetToHost*] on a little-endian host. *)
Definition HostToNet16 (x : Z) : Z := byteswap 2 x.
Definition HostToNet32 (x : Z) : Z := byteswap 4 x.
Definition HostToNet64 (x : Z) : Z := byteswap 8 x.
Definition NetToHost16 (x : Z) : Z := byteswap 2 x.
Definition NetToHost32 (x : Z) : Z := byteswap 4 x.
Definition NetToHost64 (x : Z) : Z := byteswap 8 x.

(** ** Constants of quic_constants.h *)
Definition kUFloat16ExponentBits : Z := 5.
Definition kUFloat16MaxExponent : Z := Z.shiftl 1 kUFloat16ExponentBits - 2.
Definition kUFloat16MantissaBits : Z := 16 - kUFloat16ExponentBits.
Definition kUFloat16MantissaEffectiveBits : Z := kUFloat16MantissaBits + 1.
Definition kUFloat16MaxValue : Z :=
  Z.shiftl (Z.shiftl 1 kUFloat16MantissaEffectiveBits - 1) kUFloat16MaxExponent.
Definition kMaxQuicStreamId : Z := 0xffffffff.

(** ** The object *)
Record QuicDataReader := mkReader {
  data_ : list Z;
  len_ : Z;
  pos_ : Z;
  rd_endianness_ : Endianness;
}.

Definition make_reader (data : list Z) (e : Endianness) : QuicDataReader :=
  mkReader data (Z.of_nat (length data)) 0 e.

Definition set_pos (p : Z) (r : QuicDataReader) : QuicDataReader :=
  mkReader (data_ r) (len_ r) p (rd_endianness_ r).

Definition set_endianness (e : Endianness) (r : QuicDataReader) : QuicDataReader :=
  mkReader (data_ r) (len_ r) (pos_ r) e.

Definition CanRead (bytes : Z) (r : QuicDataReader) : bool := bytes <=? len_ r - pos_ r.

Definition OnFailure (r : QuicDataReader) : QuicDataReader := set_pos (len_ r) r.

Definition BytesRemaining (r : QuicDataReader) : Z := len_ r - pos_ r.

Definition IsDoneReading (r : QuicDataReader) : bool := len_ r =? pos_ r.

(** [size] bytes of memory starting at [data_ + pos_]. *)
Definition mem_at (size : Z) (r : QuicDataReader) : list Z :=
  take (Z.to_nat size) (drop (Z.to_nat (pos_ r)) (data_ r)).

(** The byte at [data_ + pos_ + i]. *)
Definition byte_at (i : Z) (r : QuicDataReader) : Z :=
  nth (Z.to_nat (pos_ r + i)) (data_ r) 0.

Definition PeekByte (r : QuicDataReader) : Z :=
  if len_ r <=? pos_ r then 0 else byte_at 0 r.

Definition PeekRemainingPayload (r : QuicDataReader) : list Z :=
  mem_at (len_ r - pos_ r) r.

Section reads_ops.
Let R := M QuicDataReader.

Definition ReadBytes (size : Z) : R (list Z) := fun r =>
  if CanRead size r then (Some (mem_at size r), set_pos (pos_ r + size) r)
  else (None, OnFailure r).

Definition ReadStringPiece (size : Z) : R (list Z) := fun r =>
  if CanRead size r then (Some (mem_at size r), set_pos (pos_ r + size) r)
  else (None, OnFailure r).

Definition ReadRemainingPayload : R (list Z) := fun r =>
  (Some (PeekRemainingPayload r), set_pos (len_ r) r).

Definition ReadUInt8 : R Z := b ← ReadBytes 1; mret (le_val b).

Definition ReadUInt16 : R Z :=
  b ← ReadBytes 2;
  e ← gets rd_endianness_;
  mret (if is_network e then NetToHost16 (le_val b) else le_val b).

Definition ReadUInt32 : R Z :=
  b ← ReadBytes 4;
  e ← gets rd_endianness_;
  mret (if is_network e then NetToHost32 (le_val b) else le_val b).

Definition ReadUInt64 : R Z :=
  b ← ReadBytes 8;
  e ← gets rd_endianness_;
  mret (if is_network e then NetToHost64 (le_val b) else le_val b).

(** The result object is zeroed first; the bytes land at its start (host
    order) or at its end (network order). *)
Definition ReadBytesToUInt64 (num_bytes : Z) : R Z :=
  _ ← fail_if (8 <? num_bytes) id;
  e ← gets rd_endianness_;
  b ← ReadBytes num_bytes;
  let pad := replicate (8 - length b) 0 in
  mret (if is_network e then NetToHost64 (le_val (pad ++ b)) else le_val (b ++ pad)).

Definition ReadUFloat16 : R Z :=
  value ← ReadUInt16;
  if value <? Z.shiftl 1 kUFloat16MantissaEffectiveBits then mret value
  else
    let exponent := Z.shiftr value kUFloat16MantissaBits - 1 in
    let result := u64 (value - Z.shiftl exponent kUFloat16MantissaBits) in
    mret (u64 (Z.shiftl result exponent)).

Definition ReadStringPiece16 : R (list Z) :=
  result_len ← ReadUInt16;
  ReadStringPiece result_len.

Definition ReadConnectionId : R Z :=
  b ← ReadBytes 8;
  mret (NetToHost64 (le_val b)).

Definition ReadTag : R Z := b ← ReadBytes 4; mret (le_val b).

(** The length the two top bits of the next byte announce, 0 at the end. *)
Definition PeekVarInt62Length (r : QuicDataReader) : Z :=
  if BytesRemaining r =? 0 then 0
  else Z.shiftl 1 (Z.shiftr (Z.land (byte_at 0 r) 0xc0) 6).

(** A failing [ReadVarInt62] does not move the cursor. *)
Definition ReadVarInt62 : R Z := fun r =>
  let remaining := BytesRemaining r in
  let next i := byte_at i r in
  if remaining =? 0 then (None, r)
  else
    let tag := Z.land (next 0) 0xc0 in
    if tag =? 0xc0 then
      if 8 <=? remaining then
        (Some (Z.shiftl (Z.land (next 0) 0x3f) 56 + Z.shiftl (next 1) 48 +
               Z.shiftl (next 2) 40 + Z.shiftl (next 3) 32 +
               Z.shiftl (next 4) 24 + Z.shiftl (next 5) 16 +
               Z.shiftl (next 6) 8 + Z.shiftl (next 7) 0),
         set_pos (pos_ r + 8) r)
      else (None, r)
    else if tag =? 0x80 then
      if 4 <=? remaining then
        (Some (Z.shiftl (Z.land (next 0) 0x3f) 24 + Z.shiftl (next 1) 16 +
               Z.shiftl (next 2) 8 + Z.shiftl (next 3) 0),
         set_pos (pos_ r + 4) r)
      else (None, r)
    else if tag =? 0x40 then
      if 2 <=? remaining then
        (Some (Z.shiftl (Z.land (next 0) 0x3f) 8 + next 1), set_pos (pos_ r + 2) r)
      else (None, r)
    else (Some (Z.land (next 0) 0x3f), set_pos (pos_ r + 1) r).

Definition ReadVarIntStreamId : R Z :=
  temp_uint64 ← ReadVarInt62;
  _ ← fail_if (kMaxQuicStreamId <? temp_uint64) id;
  mret (u32 temp_uint64).
End reads_ops.

(** * Reasoning principle *)

(** A reader that has consumed [pre] and still holds [suf]. *)
Definition reader_at (e : Endianness) (pre suf : list Z) : QuicDataReader :=
  mkReader (pre ++ suf) (Z.of_nat (length (pre ++ suf))) (Z.of_nat (length pre)) e.

(** The invariant of the class: the cursor stays inside the buffer. *)
Definition reader_ok (r : QuicDataReader) : Prop :=
  len_ r = Z.of_nat (length (data_ r)) /\ 0 <= pos_ r <= len_ r.

Lemma reader_ok_at r :
  reader_ok r <-> exists pre suf, r = reader_at (rd_endianness_ r) pre suf.
Proof.
  split.
  - destruct r as [d l p e]; intros [Hl Hp]; simpl in *; subst l.
    exists (take (Z.to_nat p) d), (drop (Z.to_nat p) d).
    unfold reader_at. rewrite take_drop, length_take. f_equal. lia.
  - intros (pre & suf & ->). unfold reader_ok; simpl. rewrite length_app. lia.
Qed.

Lemma mem_at_reader_at e pre suf n :
  mem_at n (reader_at e pre suf) = take (Z.to_nat n) suf.
Proof. unfold mem_at; simpl. by rewrite Nat2Z.id, drop_app_length. Qed.

Lemma byte_at_reader_at e pre suf i :
  0 <= i -> byte_at i (reader_at e pre suf) = nth (Z.to_nat i) suf 0.
Proof.
  intros Hi. unfold byte_at; simpl.
  rewrite Z2Nat.inj_add, Nat2Z.id by lia.
  rewrite app_nth2 by lia. f_equal. lia.
Qed.

Lemma remaining_reader_at e pre suf :
  len_ (reader_at e pre suf) - pos_ (reader_at e pre suf) = Z.of_nat (length suf).
Proof. simpl. rewrite length_app. lia. Qed.

Lemma set_pos_reader_at e pre bs rest :
  set_pos (pos_ (reader_at e pre (bs ++ rest)) + Z.of_nat (length bs))
    (reader_at e pre (bs ++ rest)) = reader_at e (pre ++ bs) rest.
Proof.
  unfold set_pos, reader_at; simpl. rewrite <- app_assoc. f_equal.
  rewrite !length_app. lia.
Qed.

Section reads.
(** [i1] and [i2] put a reader into the state of the computation before and
    after it, so that the same rules serve the reader's own methods and the
    framer's methods, callbacks and all. *)
Context {S : Type} (e : Endianness).
Implicit Types i : QuicDataReader -> S.

(** [reads2 i1 i2 m bs a]: on input [bs ++ rest], whatever was consumed before
    and whatever follows, [m] consumes exactly [bs] and yields [a]; on every
    proper prefix of [bs] it returns [false]. *)
Definition reads2 {A} i1 i2 (m : M S A) (bs : list Z) (a : A) : Prop :=
  (forall pre rest,
     m (i1 (reader_at e pre (bs ++ rest))) =
     (Some a, i2 (reader_at e (pre ++ bs) rest))) /\
  (forall pre t, t `prefix_of` bs -> t <> bs ->
     fst (m (i1 (reader_at e pre t))) = None).

(** The common case: the surrounding state does not change. *)
Definition reads {A} i (m : M S A) (bs : list Z) (a : A) : Prop := reads2 i i m bs a.

(** A computation that touches no byte. *)
Lemma reads2_pure {A} i1 i2 (m : M S A) a :
  (forall pre suf, m (i1 (reader_at e pre suf)) = (Some a, i2 (reader_at e pre suf))) ->
  reads2 i1 i2 m [] a.
Proof.
  intros H. split.
  - intros pre rest. cbn. by rewrite app_nil_r.
  - intros pre t [k Hk] Ht. symmetry in Hk. apply app_nil in Hk as [-> _]. done.
Qed.

Lemma reads_ret {A} i (a : A) : reads i (mret a) [] a.
Proof. by apply reads2_pure. Qed.

Lemma reads2_bind {A B} i1 i2 i3 (m : M S A) (k : A -> M S B) bs1 bs2 a b :
  reads2 i1 i2 m bs1 a -> reads2 i2 i3 (k a) bs2 b ->
  reads2 i1 i3 (m ≫= k) (bs1 ++ bs2) b.
Proof.
  intros [Hm Hmt] [Hk Hkt]. split.
  - intros pre rest. unfold mbind, M_bind.
    rewrite <- app_assoc, Hm, Hk. by rewrite <- app_assoc.
  - intros pre t Ht Hne. unfold mbind, M_bind.
    destruct Ht as [u Hu].
    destruct (app_eq_app _ _ _ _ Hu) as (l & [[H1 H2]|[H1 H2]]).
    + subst bs1. destruct l as [|x l].
      * rewrite app_nil_r in *. simpl in H2. subst u.
        specialize (Hm pre []). rewrite app_nil_r in Hm. rewrite Hm.
        apply Hkt; [apply prefix_nil|]. intros <-. rewrite app_nil_r in Hne. done.
      * specialize (Hmt pre t).
        destruct (m _) as [[x'|] s']; [|done]. exfalso.
        assert (Some x' = None); [|done]. apply Hmt; [by eexists|].
        intros Heq. apply (f_equal length) in Heq. rewrite length_app in Heq.
        simpl in Heq. lia.
    + subst t bs2. rewrite Hm. apply Hkt; [by eexists|].
      intros Heq. by rewrite <- Heq in Hne.
Qed.

Lemma reads_bind {A B} i (m : M S A) (k : A -> M S B) bs1 bs2 a b :
  reads i m bs1 a -> reads i (k a) bs2 b -> reads i (m ≫= k) (bs1 ++ bs2) b.
Proof. apply reads2_bind. Qed.

(** The last component of a record of fields. *)
Lemma reads2_bind_nil {A B} i1 i2 i3 (m : M S A) (k : A -> M S B) bs a b :
  reads2 i1 i2 m bs a -> reads2 i2 i3 (k a) [] b -> reads2 i1 i3 (m ≫= k) bs b.
Proof. intros. rewrite <- (app_nil_r bs). by eapply reads2_bind. Qed.

Lemma reads_bind_nil {A B} i (m : M S A) (k : A -> M S B) bs a b :
  reads i m bs a -> reads i (k a) [] b -> reads i (m ≫= k) bs b.
Proof. apply reads2_bind_nil. Qed.

Lemma reads2_bind_0 {A B} i1 i2 i3 (m : M S A) (k : A -> M S B) bs a b :
  reads2 i1 i2 m [] a -> reads2 i2 i3 (k a) bs b -> reads2 i1 i3 (m ≫= k) bs b.
Proof. intros. change bs with ([] ++ bs). by eapply reads2_bind. Qed.

Lemma reads_bind_0 {A B} i (m : M S A) (k : A -> M S B) bs a b :
  reads i m [] a -> reads i (k a) bs b -> reads i (m ≫= k) bs b.
Proof. apply reads2_bind_0. Qed.

Lemma reads2_bind_keep {A B} i1 i2 (m : M S A) (k : A -> M S B) bs1 bs2 a b :
  reads i1 m bs1 a -> reads2 i1 i2 (k a) bs2 b -> reads2 i1 i2 (m ≫= k) (bs1 ++ bs2) b.
Proof. apply reads2_bind. Qed.

Lemma reads2_bind_keep_0 {A B} i1 i2 (m : M S A) (k : A -> M S B) bs a b :
  reads i1 m [] a -> reads2 i1 i2 (k a) bs b -> reads2 i1 i2 (m ≫= k) bs b.
Proof. apply reads2_bind_0. Qed.

Lemma reads2_or_fail {A} i1 i2 (m : M S A) h bs a :
  reads2 i1 i2 m bs a -> reads2 i1 i2 (or_fail m h) bs a.
Proof.
  intros [H Ht]. split; unfold or_fail.
  - intros. by rewrite H.
  - intros pre t ? ?. specialize (Ht pre t).
    destruct (m _) as [[x|] s']; simpl in *; [by rewrite Ht|done].
Qed.

Lemma reads_fail_if i b h : b = false -> reads i (fail_if b h) [] tt.
Proof. intros ->. exact (reads_ret i tt). Qed.

Lemma reads_gets {A} i (f : S -> A) a :
  (forall pre suf, f (i (reader_at e pre suf)) = a) -> reads i (gets f) [] a.
Proof. intros Hf. apply reads2_pure. intros. unfold gets. by rewrite Hf. Qed.
End reads.

Lemma reads2_eq {S A} e (i1 i2 : QuicDataReader -> S) (m : M S A) bs bs' a :
  bs = bs' -> reads2 e i1 i2 m bs a -> reads2 e i1 i2 m bs' a.
Proof. by intros ->. Qed.

Lemma reads_eq {S A} e (inj : QuicDataReader -> S) (m : M S A) bs bs' a :
  bs = bs' -> reads e inj m bs a -> reads e inj m bs' a.
Proof. by intros ->. Qed.

(** Calls of the reader's methods from an object that holds the reader. *)
Lemma reads_zoom {S A} e (inj : QuicDataReader -> S) get put (m : M QuicDataReader A) bs a :
  (forall r, get (inj r) = r) ->
  (forall r r', put r' (inj r) = inj r') ->
  reads e id m bs a -> reads e inj (zoom get put m) bs a.
Proof.
  intros Hg Hp [H Ht]. split; unfold zoom.
  - intros. unfold id in H. rewrite Hg, H, Hp. done.
  - intros pre t ? ?. rewrite Hg. specialize (Ht pre t). unfold id in Ht.
    destruct (m _); simpl in *. by apply Ht.
Qed.

Create HintDb wire.

(** ** The primitives *)

Lemma ReadBytes_reads e bs :
  reads e id (ReadBytes (Z.of_nat (length bs))) bs bs.
Proof.
  split.
  - intros pre rest. unfold ReadBytes, CanRead, id.
    rewrite remaining_reader_at, length_app.
    destruct (Z.leb_spec (Z.of_nat (length bs)) (Z.of_nat (length bs + length rest))); [|lia].
    rewrite mem_at_reader_at, set_pos_reader_at, Nat2Z.id.
    by rewrite take_app_length.
  - intros pre t Ht Hne. unfold ReadBytes, CanRead, id. rewrite remaining_reader_at.
    destruct (Z.leb_spec (Z.of_nat (length bs)) (Z.of_nat (length t))); [|done].
    exfalso. apply Hne. apply prefix_length_eq; [done|lia].
Qed.

Lemma ReadBytes_reads' e n bs :
  n = Z.of_nat (length bs) -> reads e id (ReadBytes n) bs bs.
Proof. intros ->. apply ReadBytes_reads. Qed.

Lemma ReadStringPiece_reads e n bs :
  n = Z.of_nat (length bs) -> reads e id (ReadStringPiece n) bs bs.
Proof. apply ReadBytes_reads'. Qed.

(** The memory image of an integer of [n] bytes on a stream of byte order [e]. *)
Definition wire_uint (e : Endianness) (n : nat) (v : Z) : list Z :=
  if is_network e then be_bytes n v else le_bytes n v.

Lemma length_wire_uint e n v : length (wire_uint e n v) = n.
Proof. destruct e; [apply length_be_bytes|apply length_le_bytes]. Qed.

Lemma wire_uint_ok e n v : bytes_ok (wire_uint e n v).
Proof. destruct e; [apply be_bytes_ok|apply le_bytes_ok]. Qed.

(** Loading a fixed-width integer. *)
Definition load (e : Endianness) (n : nat) (b : list Z) : Z :=
  if is_network e then byteswap n (le_val b) else le_val b.

Lemma load_wire_uint e n v :
  0 <= v < 256 ^ Z.of_nat n -> load e n (wire_uint e n v) = v.
Proof.
  intros Hv. unfold load, wire_uint. destruct e; simpl.
  - rewrite <- (length_be_bytes n v) at 1.
    rewrite byteswap_le_val by apply be_bytes_ok.
    rewrite be_val_be_bytes. by apply Z.mod_small.
  - rewrite le_val_le_bytes. by apply Z.mod_small.
Qed.

Lemma load_reads e n v (k : Endianness -> list Z -> Z) :
  (forall b, k e b = load e n b) -> 0 <= v < 256 ^ Z.of_nat n ->
  reads e id (b ← ReadBytes (Z.of_nat n); e' ← gets rd_endianness_; mret (k e' b))
    (wire_uint e n v) v.
Proof.
  intros Hk Hv.
  eapply reads_bind_nil; [apply ReadBytes_reads'; by rewrite length_wire_uint|].
  eapply reads_bind_0; [by apply (reads_gets e id _ e)|].
  rewrite Hk, load_wire_uint by done. apply reads_ret.
Qed.

Lemma ReadUInt16_reads e v : fits 16 v -> reads e id ReadUInt16 (wire_uint e 2 v) v.
Proof. intros Hv. by apply (load_reads e 2 v (fun e b => if is_network e then _ else _)). Qed.

Lemma ReadUInt32_reads e v : fits 32 v -> reads e id ReadUInt32 (wire_uint e 4 v) v.
Proof. intros Hv. by apply (load_reads e 4 v (fun e b => if is_network e then _ else _)). Qed.

Lemma ReadUInt64_reads e v : fits 64 v -> reads e id ReadUInt64 (wire_uint e 8 v) v.
Proof. intros Hv. by apply (load_reads e 8 v (fun e b => if is_network e then _ else _)). Qed.

Lemma ReadUInt8_reads e v : fits 8 v -> reads e id ReadUInt8 [v] v.
Proof.
  intros Hv. eapply reads_bind_nil; [by apply ReadBytes_reads'|].
  replace (le_val [v]) with v by (simpl; lia). apply reads_ret.
Qed.

Lemma ReadBytesToUInt64_reads e (n : nat) v :
  (n <= 8)%nat -> 0 <= v < 256 ^ Z.of_nat n ->
  reads e id (ReadBytesToUInt64 (Z.of_nat n)) (wire_uint e n v) v.
Proof.
  intros Hn Hv. unfold ReadBytesToUInt64.
  eapply reads_bind_0; [apply reads_fail_if, Z.ltb_ge; lia|].
  eapply reads_bind_0; [by apply (reads_gets e id _ e)|].
  eapply reads_bind_nil; [apply ReadBytes_reads'; by rewrite length_wire_uint|].
  rewrite length_wire_uint.
  match goal with |- reads _ _ (mret ?x) _ _ => replace x with v end; [apply reads_ret|].
  unfold wire_uint; destruct e; simpl.
  - unfold NetToHost64.
    replace 8%nat with (length (replicate (8 - n) 0 ++ be_bytes n v)) at 1
      by (rewrite length_app, length_replicate, length_be_bytes; lia).
    rewrite byteswap_le_val, be_val_zeros_app, be_val_be_bytes.
    + by rewrite Z.mod_small.
    + apply Forall_app; split; [|apply be_bytes_ok].
      apply Forall_replicate. unfold byte_ok; lia.
  - rewrite le_val_app_zeros, le_val_le_bytes. by rewrite Z.mod_small.
Qed.

Lemma ReadBytesToUInt64_reads' e n v :
  0 <= n <= 8 -> 0 <= v < 256 ^ n ->
  reads e id (ReadBytesToUInt64 n) (wire_uint e (Z.to_nat n) v) v.
Proof.
  intros Hn Hv. rewrite <- (Z2Nat.id n) at 1 by lia.
  apply ReadBytesToUInt64_reads; [lia|]. by rewrite Z2Nat.id by lia.
Qed.

Lemma ReadConnectionId_reads e v : fits 64 v -> reads e id ReadConnectionId (be_bytes 8 v) v.
Proof.
  intros Hv. eapply reads_bind_nil.
  - apply ReadBytes_reads'. by rewrite length_be_bytes.
  - pose proof (load_wire_uint NETWORK_BYTE_ORDER 8 v Hv) as H.
    unfold load, wire_uint in H; cbn [is_network] in H. unfold NetToHost64. rewrite H. apply reads_ret.
Qed.

Lemma ReadTag_reads e v : fits 32 v -> reads e id ReadTag (le_bytes 4 v) v.
Proof.
  intros Hv. eapply reads_bind_nil.
  - apply ReadBytes_reads'. by rewrite length_le_bytes.
  - rewrite le_val_le_bytes, Z.mod_small by done. apply reads_ret.
Qed.

Lemma ReadStringPiece16_reads e bs :
  fits 16 (Z.of_nat (length bs)) ->
  reads e id ReadStringPiece16 (wire_uint e 2 (Z.of_nat (length bs)) ++ bs) bs.
Proof.
  intros H. eapply reads_bind; [by apply ReadUInt16_reads|].
  by apply ReadStringPiece_reads.
Qed.

(** * Safety of every read *)

(** Whatever the input bytes, a read keeps the cursor inside the buffer, never
    moves it backwards, and leaves buffer and byte order alone. *)
Definition safe_read {A} (m : M QuicDataReader A) : Prop := forall r,
  reader_ok r -> bytes_ok (data_ r) ->
  let r' := snd (m r) in
  reader_ok r' /\ pos_ r <= pos_ r' /\ data_ r' = data_ r /\
  rd_endianness_ r' = rd_endianness_ r.

Lemma safe_ret {A} (a : A) : safe_read (mret a).
Proof. intros r Hr Hb. cbn. auto with lia. Qed.

Lemma safe_gets {A} (f : QuicDataReader -> A) : safe_read (gets f).
Proof. intros r Hr Hb. cbn. auto with lia. Qed.

Lemma safe_fail_if b : safe_read (fail_if b id).
Proof. intros r Hr Hb. unfold fail_if. destruct b; cbn; auto with lia. Qed.

Lemma safe_bind {A B} (m : M QuicDataReader A) (k : A -> M QuicDataReader B) :
  safe_read m -> (forall a, safe_read (k a)) -> safe_read (m ≫= k).
Proof.
  intros Hm Hk r Hr Hb. unfold mbind, M_bind. specialize (Hm r Hr Hb).
  destruct (m r) as [[a|] r1]; cbn in *; [|done].
  destruct Hm as (H1 & H2 & H3 & H4).
  destruct (Hk a r1 H1 ltac:(congruence)) as (K1 & K2 & K3 & K4).
  split_and!; [done|lia|congruence|congruence].
Qed.

Lemma safe_set_pos r p :
  reader_ok r -> pos_ r <= p <= len_ r ->
  reader_ok (set_pos p r) /\ pos_ r <= pos_ (set_pos p r) /\
  data_ (set_pos p r) = data_ r /\ rd_endianness_ (set_pos p r) = rd_endianness_ r.
Proof. intros [Hl Hp] H. unfold reader_ok, set_pos; simpl. split_and!; auto; lia. Qed.

Lemma safe_ReadBytes n : 0 <= n -> safe_read (ReadBytes n).
Proof.
  intros Hn r Hr Hb. unfold ReadBytes, CanRead, OnFailure.
  destruct (Z.leb_spec n (len_ r - pos_ r)); simpl; apply safe_set_pos; auto;
    destruct Hr; lia.
Qed.

Lemma safe_ReadStringPiece n : 0 <= n -> safe_read (ReadStringPiece n).
Proof. apply safe_ReadBytes. Qed.

Create HintDb safe.
#[export] Hint Resolve safe_ret safe_gets safe_fail_if safe_ReadBytes safe_ReadStringPiece : safe.
#[export] Hint Extern 1 (0 <= _) => lia : safe.
Ltac safe_step := repeat (apply safe_bind; [eauto with safe|intros ?]); eauto with safe.

Lemma safe_ReadUInt8 : safe_read ReadUInt8.
Proof. unfold ReadUInt8. safe_step. Qed.
Lemma safe_ReadUInt16 : safe_read ReadUInt16.
Proof. unfold ReadUInt16. safe_step. Qed.
Lemma safe_ReadUInt32 : safe_read ReadUInt32.
Proof. unfold ReadUInt32. safe_step. Qed.
Lemma safe_ReadUInt64 : safe_read ReadUInt64.
Proof. unfold ReadUInt64. safe_step. Qed.
Lemma safe_ReadTag : safe_read ReadTag.
Proof. unfold ReadTag. safe_step. Qed.
Lemma safe_ReadConnectionId : safe_read ReadConnectionId.
Proof. unfold ReadConnectionId. safe_step. Qed.
Lemma safe_ReadBytesToUInt64 n : 0 <= n -> safe_read (ReadBytesToUInt64 n).
Proof. intros. unfold ReadBytesToUInt64. safe_step. Qed.
#[export] Hint Resolve safe_ReadUInt8 safe_ReadUInt16 safe_ReadUInt32 safe_ReadUInt64
  safe_ReadTag safe_ReadConnectionId safe_ReadBytesToUInt64 : safe.

Lemma safe_ReadUFloat16 : safe_read ReadUFloat16.
Proof.
  apply safe_bind; [eauto with safe|intros v]. destruct (_ <? _); eauto with safe.
Qed.

(** A 16-bit length read from memory is not negative. *)
Lemma ReadUInt16_nonneg r n r' : bytes_ok (data_ r) -> ReadUInt16 r = (Some n, r') -> 0 <= n.
Proof.
  intros Hb. unfold ReadUInt16, ReadBytes, mbind, M_bind, gets. destruct (CanRead 2 r); [|done].
  intros [= <- _]. unfold NetToHost16, byteswap, mem_at.
  destruct (is_network _); [apply (le_val_bound (be_bytes 2 _)), be_bytes_ok|].
  apply le_val_bound. by apply Forall_take, Forall_drop.
Qed.

Lemma safe_ReadStringPiece16 : safe_read ReadStringPiece16.
Proof.
  intros r Hr Hb. unfold ReadStringPiece16, mbind, M_bind.
  pose proof (safe_ReadUInt16 r Hr Hb) as Hs. destruct (ReadUInt16 r) as [[n|] r1] eqn:E; [|done].
  cbn [snd] in Hs. destruct Hs as (H1 & H2 & H3 & H4). apply ReadUInt16_nonneg in E; [|done].
  destruct (safe_ReadStringPiece n E r1 H1 ltac:(congruence)) as (K1 & K2 & K3 & K4).
  cbn in *. split_and!; [done|lia|congruence|congruence].
Qed.

Lemma safe_ReadVarInt62 : safe_read ReadVarInt62.
Proof.
  intros r Hr Hb. unfold ReadVarInt62, BytesRemaining.
  destruct (Z.eqb_spec (len_ r - pos_ r) 0); [cbn; auto with lia|].
  repeat match goal with |- context [if ?b then _ else _] => destruct b eqn:? end;
    zbool; cbn [snd]; try (apply safe_set_pos; [done|destruct Hr; lia]);
    auto with lia.
Qed.
#[export] Hint Resolve safe_ReadUFloat16 safe_ReadVarInt62 safe_ReadStringPiece16 : safe.

Lemma safe_ReadVarIntStreamId : safe_read ReadVarIntStreamId.
Proof. unfold ReadVarIntStreamId. safe_step. Qed.
#[export] Hint Resolve safe_ReadVarIntStreamId : safe.

#[export] Hint Resolve ReadUInt8_reads ReadUInt16_reads ReadUInt32_reads ReadUInt64_reads
  ReadBytesToUInt64_reads ReadBytesToUInt64_reads' ReadConnectionId_reads ReadTag_reads ReadStringPiece16_reads
  ReadStringPiece_reads ReadBytes_reads' : wire.
