(* ===== verification/DataWriter.v ===== *)
(** [QuicDataWriter] (net/third_party/quic/core/quic_data_writer.cc): appends
    integers and byte strings to a caller-owned buffer of fixed capacity.  The
    second half gives the reasoning principle [writes m bs a] and shows that the
    object refines an append-only byte log bounded by the capacity. *)
From S2P Require Import Prelude.
From S2P Require Import DataReader.

(** ** Constants of quic_data_writer.h *)
Definition kVarInt62MaxValue : Z := 0x3fffffffffffffff.
Definition kVarInt62ErrorMask : Z := 0xc000000000000000.
Definition kVarInt62Mask8Bytes : Z := 0x3fffffffc0000000.
Definition kVarInt62Mask4Bytes : Z := 0x000000003fffc000.
Definition kVarInt62Mask2Bytes : Z := 0x0000000000003fc0.

(** ** The object: [buffer_] is the whole memory area of [capacity_] bytes. *)
Record QuicDataWriter := mkWriter {
  buffer_ : list Z;
  capacity_ : Z;
  length_ : Z;
  wr_endianness_ : Endianness;
}.

Definition make_writer (buffer : list Z) (e : Endianness) : QuicDataWriter :=
  mkWriter buffer (Z.of_nat (length buffer)) 0 e.

(** [memcpy(buffer + off, bs, |bs|)]. *)
Definition memcpy_at (off : Z) (bs buffer : list Z) : list Z :=
  take (Z.to_nat off) buffer ++ bs ++ drop (Z.to_nat off + length bs) buffer.

(** Stores [bs] at [buffer_ + length_] and advances [length_]. *)
Definition store (bs : list Z) (w : QuicDataWriter) : QuicDataWriter :=
  mkWriter (memcpy_at (length_ w) bs (buffer_ w)) (capacity_ w)
    (length_ w + Z.of_nat (length bs)) (wr_endianness_ w).

(** [true] iff the call returns a non-null pointer. *)
Definition BeginWrite (length : Z) (w : QuicDataWriter) : bool :=
  if capacity_ w <? length_ w then false
  else if capacity_ w - length_ w <? length then false
  else true.

(** The bytes handed to the network: the first [length_] bytes of the buffer. *)
Definition written (w : QuicDataWriter) : list Z := take (Z.to_nat (length_ w)) (buffer_ w).

Definition remaining (w : QuicDataWriter) : Z := capacity_ w - length_ w.

Section writes_ops.
Let W := M QuicDataWriter.

Definition WriteBytes (data : list Z) : W unit := fun w =>
  if BeginWrite (Z.of_nat (length data)) w then (Some tt, store data w) else (None, w).

Definition WriteRepeatedByte (byte count : Z) : W unit := fun w =>
  if BeginWrite count w then (Some tt, store (replicate (Z.to_nat count) byte) w)
  else (None, w).

Definition WritePadding : W unit := fun w =>
  if capacity_ w <? length_ w then (Some tt, w)
  else (Some tt, store (replicate (Z.to_nat (capacity_ w - length_ w)) 0) w).

Definition WritePaddingBytes (count : Z) : W unit := WriteRepeatedByte 0 count.

Definition WriteUInt8 (value : Z) : W unit := WriteBytes (le_bytes 1 value).

Definition WriteUInt16 (value : Z) : W unit :=
  e ← gets wr_endianness_;
  WriteBytes (le_bytes 2 (if is_network e then HostToNet16 value else value)).

Definition WriteUInt32 (value : Z) : W unit :=
  e ← gets wr_endianness_;
  WriteBytes (le_bytes 4 (if is_network e then HostToNet32 value else value)).

Definition WriteUInt64 (value : Z) : W unit :=
  e ← gets wr_endianness_;
  WriteBytes (le_bytes 8 (if is_network e then HostToNet64 value else value)).

Definition WriteBytesToUInt64 (num_bytes value : Z) : W unit :=
  _ ← fail_if (8 <? num_bytes) id;
  e ← gets wr_endianness_;
  if is_network e
  then WriteBytes (drop (8 - Z.to_nat num_bytes) (le_bytes 8 (HostToNet64 value)))
  else WriteBytes (take (Z.to_nat num_bytes) (le_bytes 8 value)).

(** One round of the binary search of [WriteUFloat16] for the exponent. *)
Definition ufloat16_round (st : Z * Z) (offset : Z) : Z * Z :=
  let '(exponent, value) := st in
  if Z.shiftl 1 (kUFloat16MantissaBits + offset) <=? value
  then (exponent + offset, Z.shiftr value offset)
  else (exponent, value).

(** The 16-bit pattern [WriteUFloat16] computes. *)
Definition ufloat16_encode (value : Z) : Z :=
  if value <? Z.shiftl 1 kUFloat16MantissaEffectiveBits then u16 value
  else if kUFloat16MaxValue <=? value then 0xffff
  else
    let '(exponent, value) := fold_left ufloat16_round [16; 8; 4; 2; 1] (0, value) in
    u16 (value + Z.shiftl exponent kUFloat16MantissaBits).

Definition WriteUFloat16 (value : Z) : W unit :=
  let result := ufloat16_encode value in
  e ← gets wr_endianness_;
  WriteBytes (le_bytes 2 (if is_network e then HostToNet16 result else result)).

Definition WriteStringPiece16 (val : list Z) : W unit :=
  _ ← fail_if (0xffff <? Z.of_nat (length val)) id;
  _ ← WriteUInt16 (Z.of_nat (length val));
  WriteBytes val.

Definition WriteStringPiece (val : list Z) : W unit := WriteBytes val.

Definition WriteConnectionId (connection_id : Z) : W unit :=
  WriteBytes (le_bytes 8 (HostToNet64 connection_id)).

Definition WriteTag (tag : Z) : W unit := WriteBytes (le_bytes 4 tag).

Definition WriteVarInt62 (value : Z) : W unit := fun w =>
  let remaining := capacity_ w - length_ w in
  let byte n := Z.land (Z.shiftr value n) 0xff in
  if Z.land value kVarInt62ErrorMask =? 0 then
    if negb (Z.land value kVarInt62Mask8Bytes =? 0) then
      if 8 <=? remaining then
        (Some tt, store [Z.land (Z.shiftr value 56) 0x3f + 0xc0; byte 48; byte 40;
                         byte 32; byte 24; byte 16; byte 8; Z.land value 0xff] w)
      else (None, w)
    else if negb (Z.land value kVarInt62Mask4Bytes =? 0) then
      if 4 <=? remaining then
        (Some tt, store [Z.land (Z.shiftr value 24) 0x3f + 0x80; byte 16; byte 8;
                         Z.land value 0xff] w)
      else (None, w)
    else if negb (Z.land value kVarInt62Mask2Bytes =? 0) then
      if 2 <=? remaining then
        (Some tt, store [Z.land (Z.shiftr value 8) 0x3f + 0x40; Z.land value 0xff] w)
      else (None, w)
    else if 1 <=? remaining then (Some tt, store [Z.land value 0x3f] w)
    else (None, w)
  else (None, w).

Definition GetVarInt62Len (value : Z) : Z :=
  if negb (Z.land value kVarInt62ErrorMask =? 0) then 0
  else if negb (Z.land value kVarInt62Mask8Bytes =? 0) then 8
  else if negb (Z.land value kVarInt62Mask4Bytes =? 0) then 4
  else if negb (Z.land value kVarInt62Mask2Bytes =? 0) then 2
  else 1.

Definition WriteStringPieceVarInt62 (string_piece : list Z) : W unit :=
  _ ← WriteVarInt62 (Z.of_nat (length string_piece));
  if decide (string_piece = []) then mret tt else WriteBytes string_piece.

(** [random->RandBytes(dest, length)] fills the destination with the bytes
    the caller's random source provides. *)
Definition WriteRandomBytes (RandBytes : Z -> list Z) (length : Z) : W unit := fun w =>
  if BeginWrite length w then (Some tt, store (RandBytes length) w) else (None, w).
End writes_ops.

(** * Reasoning principle *)

(** A writer that has produced [out] and has the memory [tl] left. *)
Definition writer_at (e : Endianness) (out tl : list Z) : QuicDataWriter :=
  mkWriter (out ++ tl) (Z.of_nat (length (out ++ tl))) (Z.of_nat (length out)) e.

(** The invariant of the class. *)
Definition writer_ok (w : QuicDataWriter) : Prop :=
  capacity_ w = Z.of_nat (length (buffer_ w)) /\ 0 <= length_ w <= capacity_ w.

Lemma writer_ok_at w :
  writer_ok w <-> exists out tl, w = writer_at (wr_endianness_ w) out tl.
Proof.
  split.
  - destruct w as [b c l e]; intros [Hl Hp]; simpl in *; subst c.
    exists (take (Z.to_nat l) b), (drop (Z.to_nat l) b).
    unfold writer_at. rewrite take_drop, length_take. f_equal. lia.
  - intros (out & tl & ->). unfold writer_ok; simpl. rewrite length_app. lia.
Qed.

Lemma written_writer_at e out tl : written (writer_at e out tl) = out.
Proof. unfold written; simpl. by rewrite Nat2Z.id, take_app_length. Qed.

Lemma store_writer_at e out tl bs :
  (length bs <= length tl)%nat ->
  store bs (writer_at e out tl) = writer_at e (out ++ bs) (drop (length bs) tl).
Proof.
  intros H. unfold store, writer_at, memcpy_at; simpl.
  rewrite !Nat2Z.id, take_app_length.
  rewrite <- (drop_drop (out ++ tl) (length bs) (length out)), drop_app_length.
  f_equal.
  - by rewrite <- app_assoc.
  - rewrite !length_app, length_drop. lia.
  - rewrite length_app. lia.
Qed.

Lemma BeginWrite_writer_at e out tl n :
  BeginWrite n (writer_at e out tl) = (n <=? Z.of_nat (length tl)).
Proof. unfold BeginWrite; simpl. rewrite length_app. zcases; reflexivity. Qed.

Section writes.
Context {S : Type} (e : Endianness).
Implicit Types i : QuicDataWriter -> S.

(** [writes2 i1 i2 m bs a]: [m] appends exactly [bs] and yields [a] when the
    remaining capacity suffices, and returns [false] when it does not. *)
Definition writes2 {A} i1 i2 (m : M S A) (bs : list Z) (a : A) : Prop :=
  forall out tl,
    if decide (length bs <= length tl)%nat
    then m (i1 (writer_at e out tl)) =
         (Some a, i2 (writer_at e (out ++ bs) (drop (length bs) tl)))
    else fst (m (i1 (writer_at e out tl))) = None.

(** The common case: the surrounding state does not change. *)
Definition writes {A} i (m : M S A) (bs : list Z) (a : A) : Prop := writes2 i i m bs a.

(** A computation that touches no byte. *)
Lemma writes2_pure {A} i1 i2 (m : M S A) a :
  (forall out tl, m (i1 (writer_at e out tl)) = (Some a, i2 (writer_at e out tl))) ->
  writes2 i1 i2 m [] a.
Proof.
  intros H out tl. rewrite decide_True by (simpl; lia). rewrite H.
  cbn. by rewrite app_nil_r, drop_0.
Qed.

Lemma writes_ret {A} i (a : A) : writes i (mret a) [] a.
Proof. by apply writes2_pure. Qed.

Lemma writes2_bind {A B} i1 i2 i3 (m : M S A) (k : A -> M S B) bs1 bs2 a b :
  writes2 i1 i2 m bs1 a -> writes2 i2 i3 (k a) bs2 b ->
  writes2 i1 i3 (m ≫= k) (bs1 ++ bs2) b.
Proof.
  intros Hm Hk out tl. unfold mbind, M_bind. specialize (Hm out tl).
  rewrite length_app.
  destruct (decide (length bs1 <= length tl)%nat).
  - rewrite Hm. specialize (Hk (out ++ bs1) (drop (length bs1) tl)).
    rewrite length_drop in Hk.
    repeat case_decide; try lia; [|done].
    by rewrite Hk, <- app_assoc, drop_drop.
  - rewrite decide_False by lia. destruct (m _) as [[]?]; [done|done].
Qed.

Lemma writes_bind {A B} i (m : M S A) (k : A -> M S B) bs1 bs2 a b :
  writes i m bs1 a -> writes i (k a) bs2 b -> writes i (m ≫= k) (bs1 ++ bs2) b.
Proof. apply writes2_bind. Qed.

Lemma writes2_bind_nil {A B} i1 i2 i3 (m : M S A) (k : A -> M S B) bs a b :
  writes2 i1 i2 m bs a -> writes2 i2 i3 (k a) [] b -> writes2 i1 i3 (m ≫= k) bs b.
Proof. intros. rewrite <- (app_nil_r bs). by eapply writes2_bind. Qed.

Lemma writes_bind_nil {A B} i (m : M S A) (k : A -> M S B) bs a b :
  writes i m bs a -> writes i (k a) [] b -> writes i (m ≫= k) bs b.
Proof. apply writes2_bind_nil. Qed.

Lemma writes2_bind_0 {A B} i1 i2 i3 (m : M S A) (k : A -> M S B) bs a b :
  writes2 i1 i2 m [] a -> writes2 i2 i3 (k a) bs b -> writes2 i1 i3 (m ≫= k) bs b.
Proof. intros. change bs with ([] ++ bs). by eapply writes2_bind. Qed.

Lemma writes_bind_0 {A B} i (m : M S A) (k : A -> M S B) bs a b :
  writes i m [] a -> writes i (k a) bs b -> writes i (m ≫= k) bs b.
Proof. apply writes2_bind_0. Qed.

Lemma writes2_bind_keep {A B} i1 i2 (m : M S A) (k : A -> M S B) bs1 bs2 a b :
  writes i1 m bs1 a -> writes2 i1 i2 (k a) bs2 b -> writes2 i1 i2 (m ≫= k) (bs1 ++ bs2) b.
Proof. apply writes2_bind. Qed.

Lemma writes2_bind_keep_0 {A B} i1 i2 (m : M S A) (k : A -> M S B) bs a b :
  writes i1 m [] a -> writes2 i1 i2 (k a) bs b -> writes2 i1 i2 (m ≫= k) bs b.
Proof. apply writes2_bind_0. Qed.

Lemma writes2_or_fail {A} i1 i2 (m : M S A) h bs a :
  writes2 i1 i2 m bs a -> writes2 i1 i2 (or_fail m h) bs a.
Proof.
  intros H out tl. specialize (H out tl). unfold or_fail.
  case_decide; [by rewrite H|]. destruct (m _) as [[]?]; [done|done].
Qed.

Lemma writes_fail_if i b h : b = false -> writes i (fail_if b h) [] tt.
Proof. intros ->. exact (writes_ret i tt). Qed.

Lemma writes_gets {A} i (f : S -> A) a :
  (forall out tl, f (i (writer_at e out tl)) = a) -> writes i (gets f) [] a.
Proof. intros Hf. apply writes2_pure. intros. unfold gets. by rewrite Hf. Qed.

Lemma writes_bind_assoc {A B C} i (m : M S A) (f : A -> M S B) (g : B -> M S C) bs c :
  writes i (m ≫= fun x => f x ≫= g) bs c -> writes i ((m ≫= f) ≫= g) bs c.
Proof.
  intros H out tl. specialize (H out tl). unfold mbind, M_bind in *.
  destruct (m (i (writer_at e out tl))) as [[x|] s]; exact H.
Qed.

(** A value read from the state that does not matter. *)
Lemma writes_gets_any {A B} i (f : S -> A) (k : A -> M S B) bs b :
  (forall x, writes i (k x) bs b) -> writes i (gets f ≫= k) bs b.
Proof. intros Hk out tl. unfold mbind, M_bind, gets. apply Hk. Qed.
End writes.

Lemma writes2_eq {S A} e (i1 i2 : QuicDataWriter -> S) (m : M S A) bs bs' a :
  bs = bs' -> writes2 e i1 i2 m bs a -> writes2 e i1 i2 m bs' a.
Proof. by intros ->. Qed.

Lemma writes_eq {S A} e (inj : QuicDataWriter -> S) (m : M S A) bs bs' a :
  bs = bs' -> writes e inj m bs a -> writes e inj m bs' a.
Proof. by intros ->. Qed.

Lemma writes_zoom {S A} e (inj : QuicDataWriter -> S) get put (m : M QuicDataWriter A) bs a :
  (forall w, get (inj w) = w) ->
  (forall w w', put w' (inj w) = inj w') ->
  writes e id m bs a -> writes e inj (zoom get put m) bs a.
Proof.
  intros Hg Hp H out tl. specialize (H out tl). unfold zoom, id in *.
  rewrite Hg. case_decide; [by rewrite H, Hp|]. by destruct (m _).
Qed.

(** ** The primitives *)

Lemma WriteBytes_writes e bs : writes e id (WriteBytes bs) bs tt.
Proof.
  intros out tl. unfold WriteBytes, id. rewrite BeginWrite_writer_at.
  case_decide.
  - rewrite (proj2 (Z.leb_le _ _)) by lia. by rewrite store_writer_at.
  - by rewrite (proj2 (Z.leb_gt _ _)) by lia.
Qed.

Lemma WriteBytes_writes' e bs bs' : bs = bs' -> writes e id (WriteBytes bs) bs' tt.
Proof. intros ->. apply WriteBytes_writes. Qed.

(** Integers in the byte order of the stream. *)
Lemma WriteUInt_writes e (n : nat) v (swap : Z -> Z) :
  swap = byteswap n ->
  writes e id (e' ← gets wr_endianness_;
               WriteBytes (le_bytes n (if is_network e' then swap v else v)))
    (wire_uint e n v) tt.
Proof.
  intros ->. eapply writes_bind_0; [by apply (writes_gets e id _ e)|].
  apply WriteBytes_writes'. unfold wire_uint.
  destruct e; cbn [is_network]; [apply le_bytes_byteswap|done].
Qed.

Lemma WriteUInt8_writes e v : fits 8 v -> writes e id (WriteUInt8 v) [v] tt.
Proof. intros Hv. apply WriteBytes_writes'. simpl. by rewrite Z.mod_small. Qed.

Lemma WriteUInt16_writes e v : writes e id (WriteUInt16 v) (wire_uint e 2 v) tt.
Proof. by apply WriteUInt_writes. Qed.

Lemma WriteUInt32_writes e v : writes e id (WriteUInt32 v) (wire_uint e 4 v) tt.
Proof. by apply WriteUInt_writes. Qed.

Lemma WriteUInt64_writes e v : writes e id (WriteUInt64 v) (wire_uint e 8 v) tt.
Proof. by apply WriteUInt_writes. Qed.

Lemma WriteUFloat16_writes e v :
  writes e id (WriteUFloat16 v) (wire_uint e 2 (ufloat16_encode v)) tt.
Proof. by apply WriteUInt_writes. Qed.

Lemma WriteBytesToUInt64_writes e (n : nat) v :
  (n <= 8)%nat -> writes e id (WriteBytesToUInt64 (Z.of_nat n) v) (wire_uint e n v) tt.
Proof.
  intros Hn. eapply writes_bind_0; [apply writes_fail_if, Z.ltb_ge; lia|].
  eapply writes_bind_0; [by apply (writes_gets e id _ e)|]. rewrite Nat2Z.id.
  destruct e; cbn [is_network wire_uint]; apply WriteBytes_writes'.
  - unfold HostToNet64. rewrite le_bytes_byteswap. by apply be_bytes_drop.
  - by apply le_bytes_take.
Qed.

Lemma WriteBytesToUInt64_writes' e n v :
  0 <= n <= 8 -> writes e id (WriteBytesToUInt64 n v) (wire_uint e (Z.to_nat n) v) tt.
Proof.
  intros Hn. rewrite <- (Z2Nat.id n) at 1 by lia. apply WriteBytesToUInt64_writes. lia.
Qed.

Lemma WriteConnectionId_writes e v : writes e id (WriteConnectionId v) (be_bytes 8 v) tt.
Proof. apply WriteBytes_writes', le_bytes_byteswap. Qed.

Lemma WriteTag_writes e v : writes e id (WriteTag v) (le_bytes 4 v) tt.
Proof. apply WriteBytes_writes. Qed.

Lemma WriteStringPiece16_writes e bs :
  fits 16 (Z.of_nat (length bs)) ->
  writes e id (WriteStringPiece16 bs) (wire_uint e 2 (Z.of_nat (length bs)) ++ bs) tt.
Proof.
  intros [_ H]. change (2 ^ 16) with 0x10000 in H.
  eapply writes_bind_0; [apply writes_fail_if, Z.ltb_ge; lia|].
  eapply writes_bind; [apply WriteUInt16_writes|apply WriteBytes_writes].
Qed.

Lemma WritePaddingBytes_writes e n :
  0 <= n -> writes e id (WritePaddingBytes n) (replicate (Z.to_nat n) 0) tt.
Proof.
  intros Hn out tl. unfold WritePaddingBytes, WriteRepeatedByte, id.
  rewrite BeginWrite_writer_at, length_replicate. case_decide.
  - rewrite (proj2 (Z.leb_le _ _)) by lia.
    rewrite store_writer_at by (rewrite length_replicate; lia). by rewrite length_replicate.
  - by rewrite (proj2 (Z.leb_gt _ _)) by lia.
Qed.

Lemma WritePadding_fills e out tl :
  WritePadding (writer_at e out tl) =
  (Some tt, writer_at e (out ++ replicate (length tl) 0) []).
Proof.
  unfold WritePadding.
  assert (Hc : capacity_ (writer_at e out tl) - length_ (writer_at e out tl)
               = Z.of_nat (length tl)) by (simpl; rewrite length_app; lia).
  rewrite Hc, Nat2Z.id, (proj2 (Z.ltb_ge _ _)) by (simpl; rewrite length_app; lia).
  rewrite store_writer_at by (rewrite length_replicate; lia).
  by rewrite length_replicate, drop_all.
Qed.

#[export] Hint Resolve WriteUInt8_writes WriteUInt16_writes WriteUInt32_writes
  WriteUInt64_writes WriteUFloat16_writes WriteBytesToUInt64_writes WriteBytesToUInt64_writes'
  WriteConnectionId_writes WriteTag_writes WriteStringPiece16_writes
  WritePaddingBytes_writes WriteBytes_writes : wire.

(** * The writer refines an append-only log *)

(** What a call of a writer method may do to the object: it keeps the
    invariant, the capacity, the byte order and everything written before. *)
Definition appends {A} (m : M QuicDataWriter A) : Prop := forall w,
  writer_ok w ->
  let w' := snd (m w) in
  writer_ok w' /\ capacity_ w' = capacity_ w /\ wr_endianness_ w' = wr_endianness_ w /\
  exists bs, written w' = written w ++ bs.

Lemma appends_id w :
  writer_ok w -> writer_ok w /\ capacity_ w = capacity_ w /\
  wr_endianness_ w = wr_endianness_ w /\ exists bs, written w = written w ++ bs.
Proof. intros. split_and!; auto. exists []. by rewrite app_nil_r. Qed.

Lemma appends_store w bs :
  writer_ok w -> Z.of_nat (length bs) <= capacity_ w - length_ w ->
  writer_ok (store bs w) /\ capacity_ (store bs w) = capacity_ w /\
  wr_endianness_ (store bs w) = wr_endianness_ w /\
  written (store bs w) = written w ++ bs.
Proof.
  intros Hok Hl. apply writer_ok_at in Hok as (out & tl & Hw).
  rewrite Hw in Hl |- *. simpl in Hl. rewrite length_app in Hl.
  rewrite store_writer_at by lia. split_and!.
  - apply writer_ok_at; simpl; eauto.
  - simpl. rewrite !length_app, length_drop. lia.
  - done.
  - by rewrite !written_writer_at.
Qed.

Lemma appends_ret {A} (a : A) : appends (mret a).
Proof. intros w Hw. by apply appends_id. Qed.

Lemma appends_gets {A} (f : QuicDataWriter -> A) : appends (gets f).
Proof. intros w Hw. by apply appends_id. Qed.

Lemma appends_fail_if b : appends (fail_if b id).
Proof. intros w Hw. unfold fail_if. destruct b; by apply appends_id. Qed.

Lemma appends_bind {A B} (m : M QuicDataWriter A) (k : A -> M QuicDataWriter B) :
  appends m -> (forall a, appends (k a)) -> appends (m ≫= k).
Proof.
  intros Hm Hk w Hw. unfold mbind, M_bind. specialize (Hm w Hw).
  destruct (m w) as [[a|] w1]; cbn in *; [|done].
  destruct Hm as (H1 & H2 & H3 & bs & H4).
  destruct (Hk a w1 H1) as (K1 & K2 & K3 & bs' & K4).
  split_and!; [done|congruence|congruence|].
  exists (bs ++ bs'). by rewrite K4, H4, app_assoc.
Qed.

Lemma appends_WriteBytes bs : appends (WriteBytes bs).
Proof.
  intros w Hw. unfold WriteBytes, BeginWrite.
  destruct (Z.ltb_spec (capacity_ w) (length_ w)); [by apply appends_id|].
  destruct (Z.ltb_spec (capacity_ w - length_ w) (Z.of_nat (length bs)));
    [by apply appends_id|].
  destruct (appends_store w bs) as (? & ? & ? & ?); [done|lia|]. simpl. eauto 10.
Qed.
