(* ===== verification/Encodings.v ===== *)
(** The two variable-precision integer encodings of the wire format: the IETF
    variable-length integer (quic_data_writer.cc:169-272, quic_data_reader.cc:165-273)
    and the 16-bit unsigned float (quic_data_writer.cc:77-116,
    quic_data_reader.cc:62-91). *)
From S2P Require Import Prelude.
From S2P Require Import DataReader.
From S2P Require Import DataWriter.

(** * IETF variable-length integers *)

(** The specification: the shortest of the four big-endian forms, its length
    coded in the two top bits. *)
Definition varint62_bytes (v : Z) : list Z :=
  if v <? 2 ^ 6 then [v]
  else if v <? 2 ^ 14 then be_bytes 2 (v + 2 ^ 14)
  else if v <? 2 ^ 30 then be_bytes 4 (v + 2 ^ 31)
  else be_bytes 8 (v + 0xc000000000000000).

(** Masking the bits from [a] up clears the [a] low bits. *)
Lemma land_mask v a b :
  0 <= a <= b -> 0 <= v < 2 ^ b ->
  Z.land v (Z.shiftl (Z.ones (b - a)) a) = v / 2 ^ a * 2 ^ a.
Proof.
  intros Hab Hv.
  rewrite <- Z.shiftr_div_pow2, <- Z.shiftl_mul_pow2 by lia.
  apply Z.bits_inj'. intros n Hn.
  rewrite Z.land_spec, Z.shiftl_spec, Z.shiftl_spec by lia.
  destruct (Z.ltb_spec n a).
  - rewrite !(Z.testbit_neg_r _ (n - a)) by lia. by rewrite andb_false_r.
  - rewrite Z.shiftr_spec by lia. replace (n - a + a) with n by lia.
    rewrite Z.testbit_ones_nonneg by lia.
    destruct (Z.ltb_spec (n - a) (b - a)); [by rewrite andb_true_r|].
    rewrite andb_false_r. symmetry.
    destruct (Z.eq_dec v 0) as [->|]; [apply Z.bits_0|]. apply Z.bits_above_log2; [lia|].
    apply Z.log2_lt_pow2; [lia|]. eapply Z.lt_le_trans; [apply Hv|].
    apply Z.pow_le_mono_r; lia.
Qed.

(** A mask of consecutive ones detects the values at or above its lowest bit. *)
Lemma land_mask_zero v a b :
  0 <= a <= b -> 0 <= v < 2 ^ b ->
  (Z.land v (Z.shiftl (Z.ones (b - a)) a) =? 0) = (v <? 2 ^ a).
Proof.
  intros Hab Hv. rewrite land_mask by done.
  assert (0 < 2 ^ a) by (apply Z.pow_pos_nonneg; lia).
  destruct (Z.ltb_spec v (2 ^ a)).
  - rewrite Z.div_small by lia. done.
  - apply Z.eqb_neq. assert (1 <= v / 2 ^ a) by (apply Z.div_le_lower_bound; lia). nia.
Qed.

Lemma land_c0 b : byte_ok b -> Z.land b 0xc0 = b / 64 * 64.
Proof. intros. by apply (land_mask b 6 8). Qed.

Lemma error_mask v : fits 64 v -> (Z.land v kVarInt62ErrorMask =? 0) = (v <? 2 ^ 62).
Proof. intros. apply (land_mask_zero v 62 64); [lia|done]. Qed.
Lemma mask8 v : 0 <= v < 2 ^ 62 -> (Z.land v kVarInt62Mask8Bytes =? 0) = (v <? 2 ^ 30).
Proof. intros. apply (land_mask_zero v 30 62); [lia|done]. Qed.
Lemma mask4 v : 0 <= v < 2 ^ 30 -> (Z.land v kVarInt62Mask4Bytes =? 0) = (v <? 2 ^ 14).
Proof. intros. apply (land_mask_zero v 14 30); [lia|done]. Qed.
Lemma mask2 v : 0 <= v < 2 ^ 14 -> (Z.land v kVarInt62Mask2Bytes =? 0) = (v <? 2 ^ 6).
Proof. intros. apply (land_mask_zero v 6 14); [lia|done]. Qed.

Lemma land_ff v : Z.land v 0xff = v mod 256.
Proof. apply (Z.land_ones v 8). lia. Qed.
Lemma land_3f v : Z.land v 0x3f = v mod 64.
Proof. apply (Z.land_ones v 6). lia. Qed.

Lemma length_varint62_bytes v :
  fits 62 v -> Z.of_nat (length (varint62_bytes v)) = GetVarInt62Len v.
Proof.
  intros Hv. unfold varint62_bytes, GetVarInt62Len. unfold fits in Hv.
  rewrite error_mask by (unfold fits; lia). rewrite mask8 by lia.
  rewrite (proj2 (Z.ltb_lt v (2 ^ 62))) by lia. cbn [negb].
  destruct (Z.ltb_spec v (2 ^ 30)); cbn [negb].
  2:{ rewrite !(proj2 (Z.ltb_ge _ _)) by lia. by rewrite length_be_bytes. }
  rewrite mask4 by lia. destruct (Z.ltb_spec v (2 ^ 14)); cbn [negb].
  2:{ rewrite !(proj2 (Z.ltb_ge _ _)) by lia. by rewrite length_be_bytes. }
  rewrite mask2 by lia. destruct (Z.ltb_spec v (2 ^ 6)); cbn [negb]; [done|].
  by rewrite length_be_bytes.
Qed.

(** The byte [k] of [v], and its value in a number whose higher digits differ. *)
Lemma byte_digit v c k : 0 <= k ->
  Z.land (Z.shiftr v k) 0xff = ((v + c * 256 * 2 ^ k) / 2 ^ k) mod 256.
Proof.
  intros Hk. rewrite land_ff, Z.shiftr_div_pow2 by lia.
  rewrite Z.div_add by (apply Z.pow_nonzero; lia).
  by rewrite Z_mod_plus_full.
Qed.

(** The top byte: six value bits and the two-bit tag [t]. *)
Lemma top_digit v t k : 0 <= k -> 0 <= v < 2 ^ (k + 6) -> 0 <= t < 4 ->
  Z.land (Z.shiftr v k) 0x3f + t * 64 = ((v + t * 64 * 2 ^ k) / 2 ^ k) mod 256.
Proof.
  intros Hk Hv Ht. rewrite land_3f, Z.shiftr_div_pow2 by lia.
  rewrite Z.div_add by (apply Z.pow_nonzero; lia).
  rewrite Z.pow_add_r in Hv by lia.
  assert (0 < 2 ^ k) by (apply Z.pow_pos_nonneg; lia).
  assert (0 <= v / 2 ^ k < 64).
  { split; [apply Z.div_pos; lia|apply Z.div_lt_upper_bound; lia]. }
  rewrite !Z.mod_small; lia.
Qed.

(** What each branch of the writer stores, as digits in base 256. *)
Lemma varint_digits_2 v : 0 <= v < 2 ^ 14 ->
  [Z.land (Z.shiftr v 8) 0x3f + 0x40; Z.land v 0xff] = be_bytes 2 (v + 2 ^ 14).
Proof.
  intros Hv. change 0x40 with (1 * 64). rewrite (top_digit v 1 8) by lia.
  rewrite land_ff. unfold be_bytes; cbn [le_bytes].
  change (reverse [?a; ?b]) with [b; a]. f_equal. f_equal.
  change (2 ^ 14) with (64 * 256). by rewrite Z_mod_plus_full.
Qed.

Lemma varint_digits_4 v : 0 <= v < 2 ^ 30 ->
  [Z.land (Z.shiftr v 24) 0x3f + 0x80; Z.land (Z.shiftr v 16) 0xff;
   Z.land (Z.shiftr v 8) 0xff; Z.land v 0xff] = be_bytes 4 (v + 2 ^ 31).
Proof.
  intros Hv. change 0x80 with (2 * 64).
  rewrite (top_digit v 2 24), (byte_digit v (2 ^ 7) 16), (byte_digit v (2 ^ 15) 8) by lia.
  rewrite <- (Z.shiftr_0_r v) at 4. rewrite (byte_digit v (2 ^ 23) 0) by lia.
  unfold be_bytes; cbn [le_bytes].
  rewrite !Z.div_div by lia. rewrite Z.pow_0_r, Z.div_1_r. reflexivity.
Qed.

Lemma varint_digits_8 v : 0 <= v < 2 ^ 62 ->
  [Z.land (Z.shiftr v 56) 0x3f + 0xc0; Z.land (Z.shiftr v 48) 0xff;
   Z.land (Z.shiftr v 40) 0xff; Z.land (Z.shiftr v 32) 0xff;
   Z.land (Z.shiftr v 24) 0xff; Z.land (Z.shiftr v 16) 0xff;
   Z.land (Z.shiftr v 8) 0xff; Z.land v 0xff] = be_bytes 8 (v + 0xc000000000000000).
Proof.
  intros Hv. change 0xc0 with (3 * 64).
  rewrite (top_digit v 3 56), (byte_digit v (3 * 2 ^ 6) 48), (byte_digit v (3 * 2 ^ 14) 40),
    (byte_digit v (3 * 2 ^ 22) 32), (byte_digit v (3 * 2 ^ 30) 24),
    (byte_digit v (3 * 2 ^ 38) 16), (byte_digit v (3 * 2 ^ 46) 8) by lia.
  rewrite <- (Z.shiftr_0_r v) at 8. rewrite (byte_digit v (3 * 2 ^ 54) 0) by lia.
  unfold be_bytes; cbn [le_bytes].
  rewrite !Z.div_div by lia. rewrite Z.pow_0_r, Z.div_1_r. reflexivity.
Qed.

Lemma store_writes e v bs out tl (n : Z) :
  n = Z.of_nat (length bs) -> v = bs ->
  if decide (length bs <= length tl)%nat
  then (if n <=? capacity_ (writer_at e out tl) - length_ (writer_at e out tl)
        then (Some tt, store v (writer_at e out tl)) else (None, writer_at e out tl)) =
       (Some tt, writer_at e (out ++ bs) (drop (length bs) tl))
  else fst (if n <=? capacity_ (writer_at e out tl) - length_ (writer_at e out tl)
        then (Some tt, store v (writer_at e out tl)) else (None, writer_at e out tl)) = None.
Proof.
  intros -> ->.
  replace (capacity_ (writer_at e out tl) - length_ (writer_at e out tl))
    with (Z.of_nat (length tl)) by (simpl; rewrite length_app; lia).
  case_decide.
  - rewrite (proj2 (Z.leb_le _ _)) by lia. by rewrite store_writer_at.
  - by rewrite (proj2 (Z.leb_gt _ _)) by lia.
Qed.

Lemma WriteVarInt62_writes e v :
  fits 62 v -> writes e id (WriteVarInt62 v) (varint62_bytes v) tt.
Proof.
  unfold fits. intros Hv out tl. unfold WriteVarInt62, varint62_bytes, id. cbv zeta.
  rewrite error_mask by (unfold fits; lia). rewrite (proj2 (Z.ltb_lt v (2 ^ 62))) by lia.
  rewrite mask8 by lia. destruct (Z.ltb_spec v (2 ^ 30)); cbn [negb].
  2:{ rewrite !(proj2 (Z.ltb_ge v _)) by lia.
      apply store_writes; [by rewrite length_be_bytes|apply varint_digits_8; lia]. }
  rewrite mask4 by lia. destruct (Z.ltb_spec v (2 ^ 14)); cbn [negb].
  2:{ rewrite !(proj2 (Z.ltb_ge v _)) by lia.
      apply store_writes; [by rewrite length_be_bytes|apply varint_digits_4; lia]. }
  rewrite mask2 by lia. destruct (Z.ltb_spec v (2 ^ 6)); cbn [negb].
  - apply store_writes; [done|]. rewrite land_3f, Z.mod_small by lia. done.
  - apply store_writes; [by rewrite length_be_bytes|apply varint_digits_2; lia].
Qed.

(** A value that needs more than 62 bits is refused, whatever the space left. *)
Lemma WriteVarInt62_too_big v w :
  fits 64 v -> 2 ^ 62 <= v -> WriteVarInt62 v w = (None, w).
Proof.
  intros Hv Hb. unfold WriteVarInt62. rewrite error_mask by done.
  by rewrite (proj2 (Z.ltb_ge _ _)) by lia.
Qed.

(** ** The reader *)

(** The reader on a cursor with the bytes [suf] left. *)
Lemma ReadVarInt62_at e pre b0 suf :
  byte_ok b0 ->
  let next i := nth i (b0 :: suf) 0 in
  let rem := Z.of_nat (length (b0 :: suf)) in
  let r := reader_at e pre (b0 :: suf) in
  ReadVarInt62 r =
  if 192 <=? b0 then
    if 8 <=? rem then
      (Some (b0 mod 64 * 2 ^ 56 + next 1%nat * 2 ^ 48 + next 2%nat * 2 ^ 40 +
             next 3%nat * 2 ^ 32 + next 4%nat * 2 ^ 24 + next 5%nat * 2 ^ 16 +
             next 6%nat * 2 ^ 8 + next 7%nat), set_pos (pos_ r + 8) r)
    else (None, r)
  else if 128 <=? b0 then
    if 4 <=? rem then
      (Some (b0 mod 64 * 2 ^ 24 + next 1%nat * 2 ^ 16 + next 2%nat * 2 ^ 8 +
             next 3%nat), set_pos (pos_ r + 4) r)
    else (None, r)
  else if 64 <=? b0 then
    if 2 <=? rem then
      (Some (b0 mod 64 * 2 ^ 8 + next 1%nat), set_pos (pos_ r + 2) r)
    else (None, r)
  else (Some (b0 mod 64), set_pos (pos_ r + 1) r).
Proof.
  intros Hb next rem r. unfold ReadVarInt62, BytesRemaining, r.
  rewrite remaining_reader_at, !byte_at_reader_at by lia.
  rewrite !Z.shiftl_mul_pow2 by lia. rewrite land_3f, Z.pow_0_r, !Z.mul_1_r.
  change (nth (Z.to_nat 0) (b0 :: suf) 0) with b0.
  rewrite land_c0 by done. unfold byte_ok in Hb.
  rewrite (proj2 (Z.eqb_neq (Z.of_nat (length (b0 :: suf))) 0)) by (simpl; lia).
  replace (b0 / 64 * 64 =? 192) with (192 <=? b0) by (zcases; try done; dlia).
  replace (b0 / 64 * 64 =? 128) with ((128 <=? b0) && negb (192 <=? b0)) by (zcases; try done; dlia).
  replace (b0 / 64 * 64 =? 64) with ((64 <=? b0) && negb (128 <=? b0)) by (zcases; try done; dlia).
  destruct (Z.leb_spec 192 b0), (Z.leb_spec 128 b0), (Z.leb_spec 64 b0); try lia; reflexivity.
Qed.

(** A cursor whose remaining bytes are a proper prefix of [b0 :: bs]. *)
Lemma prefix_cases (b0 : Z) bs t :
  t `prefix_of` b0 :: bs -> t <> b0 :: bs ->
  t = [] \/ exists t', t = b0 :: t' /\ (length t' < length bs)%nat.
Proof.
  intros Ht Hne. destruct t as [|x t]; [by left|right].
  pose proof (prefix_cons_inv_1 _ _ _ _ Ht) as ->.
  exists t. split; [done|]. apply prefix_cons_inv_2 in Ht.
  destruct (decide (length t < length bs)%nat); [done|].
  exfalso. apply Hne. f_equal. apply prefix_length_eq; [done|lia].
Qed.

Lemma ReadVarInt62_nil e pre : fst (ReadVarInt62 (reader_at e pre [])) = None.
Proof. unfold ReadVarInt62, BytesRemaining. by rewrite remaining_reader_at. Qed.

(** The length announced by the first byte. *)
Definition varint_len (b0 : Z) : Z :=
  if 192 <=? b0 then 8 else if 128 <=? b0 then 4 else if 64 <=? b0 then 2 else 1.

(** Each form is read as its big-endian value less the tag. *)
Lemma ReadVarInt62_form e bs b0 v :
  bytes_ok bs -> head bs = Some b0 -> Z.of_nat (length bs) = varint_len b0 ->
  be_val bs = v + b0 / 64 * 64 * 256 ^ (Z.of_nat (length bs) - 1) ->
  reads e id ReadVarInt62 bs v.
Proof.
  intros Hok Hh Hl Hv. destruct bs as [|b bs]; [done|]. simplify_eq/=.
  assert (Hb : byte_ok b0) by by inversion Hok.
  split; unfold id.
  - intros pre rest. change ((b0 :: bs) ++ rest) with (b0 :: (bs ++ rest)).
    rewrite ReadVarInt62_at by done. cbv zeta.
    rewrite <- (set_pos_reader_at e pre (b0 :: bs) rest).
    unfold varint_len in Hl. unfold be_val in Hv. unfold byte_ok in Hb.
    repeat case_match; zbool;
      repeat (destruct bs as [|? bs]; simpl length in *; try lia);
      try (simpl length in *; rewrite ?length_app in *; lia);
      cbn [nth app length] in *; cbv [reverse rev_append le_val] in Hv;
      (do 2 f_equal; dlia).
  - intros pre t Ht Hne. apply prefix_cases in Ht as [->|(t' & -> & Ht')];
      [apply ReadVarInt62_nil| |done].
    rewrite ReadVarInt62_at by done. cbv zeta. unfold varint_len in Hl.
    repeat case_match; zbool; simpl length in *; try lia; done.
Qed.

Lemma be_val_cons b bs : be_val (b :: bs) = b * 256 ^ Z.of_nat (length bs) + be_val bs.
Proof.
  unfold be_val. rewrite reverse_cons, le_val_app, length_reverse. cbn [le_val]. lia.
Qed.

(** The first digit of a big-endian image. *)
Lemma be_bytes_head (n : nat) v :
  0 <= v < 256 ^ Z.of_nat (S n) ->
  exists bs, be_bytes (S n) v = v / 256 ^ Z.of_nat n :: bs /\ length bs = n.
Proof.
  intros Hv. pose proof (length_be_bytes (S n) v) as Hl.
  pose proof (be_val_be_bytes (S n) v) as Hb.
  pose proof (be_bytes_ok (S n) v) as Hok.
  destruct (be_bytes (S n) v) as [|b bs]; [done|]. simpl in Hl.
  exists bs. split; [|lia]. f_equal.
  rewrite Z.mod_small, be_val_cons in Hb by done.
  replace (length bs) with n in Hb by lia.
  apply Forall_cons_1 in Hok as [_ Hok]. pose proof (be_val_bound bs Hok) as Hbs.
  replace (length bs) with n in Hbs by lia. pose proof (pow256_pos n).
  rewrite <- Hb, Z.div_add_l by lia. rewrite Z.div_small; lia.
Qed.

Lemma ReadVarInt62_be e (n : nat) t v :
  0 <= v < 64 * 256 ^ Z.of_nat n -> 1 <= t < 4 ->
  Z.of_nat (S n) = varint_len (t * 64) ->
  reads e id ReadVarInt62 (be_bytes (S n) (v + t * 64 * 256 ^ Z.of_nat n)) v.
Proof.
  intros Hv Ht Hn. pose proof (pow256_pos n) as Hp.
  assert (Hr : 0 <= v + t * 64 * 256 ^ Z.of_nat n < 256 ^ Z.of_nat (S n))
    by (rewrite pow256_S; nia).
  destruct (be_bytes_head n _ Hr) as (bs & Heq & Hl).
  rewrite Z.div_add in Heq by lia.
  assert (Hq : 0 <= v / 256 ^ Z.of_nat n < 64).
  { split; [apply Z.div_pos; lia|apply Z.div_lt_upper_bound; lia]. }
  apply (ReadVarInt62_form e _ (v / 256 ^ Z.of_nat n + t * 64)).
  - apply be_bytes_ok.
  - by rewrite Heq.
  - rewrite length_be_bytes, Hn. unfold varint_len. zcases; done.
  - rewrite be_val_be_bytes, Z.mod_small, length_be_bytes by done.
    rewrite Z.div_add, (Z.div_small (v / _)) by lia.
    replace (Z.of_nat (S n) - 1) with (Z.of_nat n) by lia. lia.
Qed.

Lemma ReadVarInt62_reads e v :
  fits 62 v -> reads e id ReadVarInt62 (varint62_bytes v) v.
Proof.
  unfold fits, varint62_bytes. intros Hv.
  destruct (Z.ltb_spec v (2 ^ 6)) as [H|H].
  - apply (ReadVarInt62_form e _ v); [repeat constructor; lia|done| |].
    + unfold varint_len. simpl. zcases; done.
    + rewrite Z.div_small by lia. cbv [be_val reverse rev_append le_val]. lia.
  - destruct (Z.ltb_spec v (2 ^ 14)); [apply (ReadVarInt62_be e 1 1); [cbn; lia|lia|done]|].
    destruct (Z.ltb_spec v (2 ^ 30)); [apply (ReadVarInt62_be e 3 2); [cbn; lia|lia|done]|].
    apply (ReadVarInt62_be e 7 3); [cbn; lia|lia|done].
Qed.

Lemma ReadVarIntStreamId_reads e v :
  fits 32 v -> reads e id ReadVarIntStreamId (varint62_bytes v) v.
Proof.
  intros Hv. unfold fits in Hv.
  eapply reads_bind_nil; [apply ReadVarInt62_reads; unfold fits; lia|].
  eapply reads_bind_0; [apply reads_fail_if, Z.ltb_ge; unfold kMaxQuicStreamId; lia|].
  rewrite wrap_small by done. apply reads_ret.
Qed.

Lemma WriteStringPieceVarInt62_writes e bs :
  fits 62 (Z.of_nat (length bs)) ->
  writes e id (WriteStringPieceVarInt62 bs) (varint62_bytes (Z.of_nat (length bs)) ++ bs) tt.
Proof.
  intros H. eapply writes_bind; [by apply WriteVarInt62_writes|].
  case_decide; [subst; apply writes_ret|apply WriteBytes_writes].
Qed.

#[export] Hint Resolve WriteVarInt62_writes ReadVarInt62_reads ReadVarIntStreamId_reads
  WriteStringPieceVarInt62_writes : wire.

(** * The 16-bit unsigned float *)

(** The value a 16-bit pattern stands for. *)
Definition ufloat16_decode (value : Z) : Z :=
  if value <? Z.shiftl 1 kUFloat16MantissaEffectiveBits then value
  else
    let exponent := Z.shiftr value kUFloat16MantissaBits - 1 in
    u64 (Z.shiftl (u64 (value - Z.shiftl exponent kUFloat16MantissaBits)) exponent).

Lemma ReadUFloat16_reads e x :
  fits 16 x -> reads e id ReadUFloat16 (wire_uint e 2 x) (ufloat16_decode x).
Proof.
  intros Hx. eapply reads_bind_nil; [by apply ReadUInt16_reads|].
  unfold ufloat16_decode. destruct (_ <? _); apply reads_ret.
Qed.

(** One round of the binary search with a power of two offset: either the
    exponent grows and the value is divided, or the value is already small. *)
Definition ufloat16_inv (v b : Z) (st : Z * Z) : Prop :=
  let '(ex, w) := st in
  0 <= ex /\ w = v / 2 ^ ex /\ 2 ^ 11 <= w /\ w < 2 ^ (11 + b).

Lemma ufloat16_round_inv v off st :
  0 < off -> ufloat16_inv v (2 * off) st -> ufloat16_inv v off (ufloat16_round st off).
Proof.
  intros Ho. destruct st as [ex w]. unfold ufloat16_inv, ufloat16_round.
  intros (He & Hw & Hl & Hu).
  change kUFloat16MantissaBits with 11. rewrite Z.shiftl_1_l.
  assert (0 < 2 ^ off) by (apply Z.pow_pos_nonneg; lia).
  rewrite Z.pow_add_r in Hu |- * by lia.
  replace (2 * off) with (off + off) in Hu by lia. rewrite Z.pow_add_r in Hu by lia.
  destruct (Z.leb_spec (2 ^ 11 * 2 ^ off) w); rewrite ?Z.shiftr_div_pow2 by lia; split_and!;
    try lia.
  - rewrite Hw, Z.div_div, <- Z.pow_add_r by lia. done.
  - apply Z.div_le_lower_bound; lia.
  - apply Z.div_lt_upper_bound; nia.
Qed.

(** The exponent of a value of the normal range. *)
Lemma ufloat16_search v :
  2 ^ 12 <= v < kUFloat16MaxValue ->
  exists ex, fold_left ufloat16_round [16; 8; 4; 2; 1] (0, v) = (ex, v / 2 ^ ex) /\
    1 <= ex <= 30 /\ 2 ^ 11 * 2 ^ ex <= v < 2 ^ 12 * 2 ^ ex.
Proof.
  intros Hv. change kUFloat16MaxValue with 4396972769280 in Hv.
  assert (H : ufloat16_inv v 1 (fold_left ufloat16_round [16; 8; 4; 2; 1] (0, v))).
  { cbn [fold_left]. do 5 (apply ufloat16_round_inv; [lia|]).
    split_and!; rewrite ?Z.pow_0_r, ?Z.div_1_r; lia. }
  destruct (fold_left _ _ _) as [ex w]. destruct H as (He & -> & Hl & Hu).
  assert (0 < 2 ^ ex) by (apply Z.pow_pos_nonneg; lia).
  assert (Hlo : 2 ^ 11 * 2 ^ ex <= v) by (pose proof (Z.mul_div_le v (2 ^ ex)); nia).
  assert (Hhi : v < 2 ^ 12 * 2 ^ ex).
  { pose proof (Z.mul_succ_div_gt v (2 ^ ex)). change (11 + 1) with 12 in Hu. nia. }
  exists ex. split_and!; try done.
  - destruct (Z.eq_dec ex 0) as [->|]; [|lia]. rewrite Z.pow_0_r in Hhi. lia.
  - destruct (Z.leb_spec ex 30); [done|].
    assert (2 ^ 31 <= 2 ^ ex) by (apply Z.pow_le_mono_r; lia). lia.
Qed.

Lemma ufloat16_decode_normal ex m :
  1 <= ex <= 30 -> 2 ^ 11 <= m < 2 ^ 12 -> ufloat16_decode (m + ex * 2 ^ 11) = m * 2 ^ ex.
Proof.
  intros He Hm. unfold ufloat16_decode.
  change kUFloat16MantissaEffectiveBits with 12. change kUFloat16MantissaBits with 11.
  rewrite Z.shiftr_div_pow2, Z.shiftl_1_l, Z.div_add by lia.
  replace (m / 2 ^ 11) with 1 by dlia. rewrite (proj2 (Z.ltb_ge _ _)) by lia.
  replace (1 + ex - 1) with ex by lia. rewrite !Z.shiftl_mul_pow2 by lia.
  replace (m + ex * 2 ^ 11 - ex * 2 ^ 11) with m by lia.
  assert (1 <= 2 ^ ex <= 2 ^ 30) by (split; [apply (Z.pow_le_mono_r 2 0); lia|apply Z.pow_le_mono_r; lia]).
  rewrite (wrap_small 64 m), wrap_small by (unfold fits; nia). done.
Qed.

Lemma ufloat16_encode_normal v :
  2 ^ 12 <= v < kUFloat16MaxValue ->
  exists ex, ufloat16_encode v = v / 2 ^ ex + ex * 2 ^ 11 /\
    1 <= ex <= 30 /\ 2 ^ 11 * 2 ^ ex <= v < 2 ^ 12 * 2 ^ ex /\
    2 ^ 11 <= v / 2 ^ ex < 2 ^ 12.
Proof.
  intros Hv. destruct (ufloat16_search v Hv) as (ex & Hf & He & Hb). exists ex.
  assert (0 < 2 ^ ex) by (apply Z.pow_pos_nonneg; lia).
  assert (2 ^ 11 <= v / 2 ^ ex < 2 ^ 12).
  { split; [apply Z.div_le_lower_bound; lia|apply Z.div_lt_upper_bound; lia]. }
  split; [|done]. unfold ufloat16_encode.
  change kUFloat16MantissaEffectiveBits with 12. change kUFloat16MantissaBits with 11.
  rewrite Z.shiftl_1_l, (proj2 (Z.ltb_ge _ _)), (proj2 (Z.leb_gt _ _)), Hf by lia.
  rewrite Z.shiftl_mul_pow2, wrap_small by (unfold fits; lia). done.
Qed.

Lemma ufloat16_encode_fits v : 0 <= v -> fits 16 (ufloat16_encode v).
Proof.
  intros Hv. destruct (Z.ltb_spec v (2 ^ 12)).
  { unfold ufloat16_encode. change (Z.shiftl 1 _) with (2 ^ 12).
    rewrite (proj2 (Z.ltb_lt _ _)) by lia. by apply wrap_fits. }
  destruct (Z.ltb_spec v kUFloat16MaxValue).
  - destruct (ufloat16_encode_normal v) as (ex & -> & ? & ? & ?); [lia|]. unfold fits. lia.
  - unfold ufloat16_encode. change (Z.shiftl 1 _) with (2 ^ 12).
    rewrite (proj2 (Z.ltb_ge _ _)), (proj2 (Z.leb_le _ _)) by lia. done.
Qed.

(** What a receiver decodes for a sender's value: exact below 4096, rounded down
    with a relative error under 2^-11 up to the largest value, clamped above. *)
Lemma ufloat16_precision v :
  0 <= v ->
  let d := ufloat16_decode (ufloat16_encode v) in
  (v < 2 ^ 12 -> d = v) /\
  (2 ^ 12 <= v < kUFloat16MaxValue -> d <= v /\ (v - d) * 2 ^ 11 < v) /\
  (kUFloat16MaxValue <= v -> d = kUFloat16MaxValue).
Proof.
  intros Hv d. unfold d. split_and!.
  - intros H. unfold ufloat16_encode. change (Z.shiftl 1 _) with (2 ^ 12).
    rewrite (proj2 (Z.ltb_lt _ _)), wrap_small by (unfold fits; lia).
    unfold ufloat16_decode. change (Z.shiftl 1 _) with (2 ^ 12).
    by rewrite (proj2 (Z.ltb_lt _ _)) by lia.
  - intros H. destruct (ufloat16_encode_normal v H) as (ex & -> & He & Hb & Hm).
    rewrite ufloat16_decode_normal by done.
    assert (0 < 2 ^ ex) by (apply Z.pow_pos_nonneg; lia).
    pose proof (Z.mul_div_le v (2 ^ ex)). pose proof (Z.mul_succ_div_gt v (2 ^ ex)).
    split; nia.
  - intros H. unfold ufloat16_encode. change (Z.shiftl 1 _) with (2 ^ 12).
    rewrite (proj2 (Z.ltb_ge _ _)), (proj2 (Z.leb_le _ _)); [done|done|].
    change kUFloat16MaxValue with 4396972769280 in H. lia.
Qed.

Lemma pow2_block_unique e e' v :
  0 <= e -> 0 <= e' -> 2 ^ e <= v < 2 * 2 ^ e -> 2 ^ e' <= v < 2 * 2 ^ e' -> e = e'.
Proof.
  intros He He' H H'. rewrite <- !Z.pow_succ_r in * by lia.
  rewrite <- (Z.log2_unique v e), <- (Z.log2_unique v e') by lia. done.
Qed.

(** Every 16-bit pattern is the encoding of the value it stands for. *)
Lemma ufloat16_encode_decode x : fits 16 x -> ufloat16_encode (ufloat16_decode x) = x.
Proof.
  unfold fits. intros Hx. destruct (Z.ltb_spec x (2 ^ 12)).
  { unfold ufloat16_decode. change (Z.shiftl 1 _) with (2 ^ 12).
    rewrite (proj2 (Z.ltb_lt _ _)) by lia. unfold ufloat16_encode.
    change (Z.shiftl 1 _) with (2 ^ 12). rewrite (proj2 (Z.ltb_lt _ _)) by lia.
    apply wrap_small. done. }
  destruct (Z.eq_dec x 0xffff) as [->|]; [reflexivity|].
  set (ex := x / 2 ^ 11 - 1). set (m := x - ex * 2 ^ 11).
  assert (1 <= ex <= 30) by (unfold ex; dlia).
  assert (2 ^ 11 <= m < 2 ^ 12) by (unfold m, ex; dlia).
  assert (Hn : ex = 30 -> m < 4095) by (unfold m; lia).
  replace x with (m + ex * 2 ^ 11) by (unfold m; lia). clearbody m ex.
  rewrite ufloat16_decode_normal by done.
  assert (1 <= 2 ^ ex <= 2 ^ 30) by (split; [apply (Z.pow_le_mono_r 2 0); lia|apply Z.pow_le_mono_r; lia]).
  assert (2 <= 2 ^ ex) by (apply (Z.pow_le_mono_r 2 1); lia).
  assert (m * 2 ^ ex < kUFloat16MaxValue).
  { change kUFloat16MaxValue with (4095 * 2 ^ 30).
    destruct (Z.eq_dec ex 30) as [->|]; [lia|].
    assert (2 ^ ex <= 2 ^ 29) by (apply Z.pow_le_mono_r; lia). nia. }
  destruct (ufloat16_encode_normal (m * 2 ^ ex)) as (ex' & -> & He' & Hb' & _); [nia|].
  assert (ex = ex') as <-.
  { enough (11 + ex = 11 + ex') by lia.
    apply (pow2_block_unique _ _ (m * 2 ^ ex)); rewrite ?Z.pow_add_r by lia; nia. }
  rewrite Z.div_mul by lia. done.
Qed.
