(* ===== verification/PacketNumbers.v ===== *)
(** Packet numbers on the wire: how many bytes a number takes, the two-bit code
    of that width, and the reconstruction of a full number (or timestamp) from
    its low bytes.  Models my_quic_header.cc (both copies) and the packet-number
    helpers of quic/model/my_quic_framer.cc. *)
From S2P Require Import Prelude.
From S2P Require Import DataReader.
From S2P Require Import DataWriter.
From S2P Require Import Encodings.

(** ** Enumerations of quic_types.h *)
Definition PACKET_1BYTE_PACKET_NUMBER : Z := 1.
Definition PACKET_2BYTE_PACKET_NUMBER : Z := 2.
Definition PACKET_4BYTE_PACKET_NUMBER : Z := 4.
Definition PACKET_6BYTE_PACKET_NUMBER : Z := 6.
Definition PACKET_8BYTE_PACKET_NUMBER : Z := 8.

Definition PACKET_FLAGS_1BYTE_PACKET : Z := 0.
Definition PACKET_FLAGS_2BYTE_PACKET : Z := 1.
Definition PACKET_FLAGS_4BYTE_PACKET : Z := 2.
Definition PACKET_FLAGS_8BYTE_PACKET : Z := 3.

(** A transport version is the number of its enumerator. *)
Definition QUIC_VERSION_37 : Z := 37.
Definition QUIC_VERSION_38 : Z := 38.
Definition QUIC_VERSION_41 : Z := 41.

Ltac unfold_lengths :=
  unfold PACKET_1BYTE_PACKET_NUMBER, PACKET_2BYTE_PACKET_NUMBER, PACKET_4BYTE_PACKET_NUMBER,
    PACKET_6BYTE_PACKET_NUMBER, PACKET_8BYTE_PACKET_NUMBER in *.

(** * my_quic_header.cc *)
Module Header.

(** [my_quic_header_t] *)
Record my_quic_header_t := mk_header { seq_len : Z; seq : Z }.

Definition GetMinSeqLength (packet_number : Z) : Z :=
  if packet_number <? Z.shiftl 1 (PACKET_1BYTE_PACKET_NUMBER * 8)
  then PACKET_1BYTE_PACKET_NUMBER
  else if packet_number <? Z.shiftl 1 (PACKET_2BYTE_PACKET_NUMBER * 8)
  then PACKET_2BYTE_PACKET_NUMBER
  else if packet_number <? Z.shiftl 1 (PACKET_4BYTE_PACKET_NUMBER * 8)
  then PACKET_4BYTE_PACKET_NUMBER
  else PACKET_6BYTE_PACKET_NUMBER.

Definition ReadSequenceNumberLength (flags : Z) : Z :=
  let f := Z.land flags PACKET_FLAGS_8BYTE_PACKET in
  if f =? PACKET_FLAGS_8BYTE_PACKET then PACKET_6BYTE_PACKET_NUMBER
  else if f =? PACKET_FLAGS_4BYTE_PACKET then PACKET_4BYTE_PACKET_NUMBER
  else if f =? PACKET_FLAGS_2BYTE_PACKET then PACKET_2BYTE_PACKET_NUMBER
  else if f =? PACKET_FLAGS_1BYTE_PACKET then PACKET_1BYTE_PACKET_NUMBER
  else PACKET_6BYTE_PACKET_NUMBER.

Definition GetPacketNumberFlags (seq_len : Z) : Z :=
  if seq_len =? PACKET_1BYTE_PACKET_NUMBER then PACKET_FLAGS_1BYTE_PACKET
  else if seq_len =? PACKET_2BYTE_PACKET_NUMBER then PACKET_FLAGS_2BYTE_PACKET
  else if seq_len =? PACKET_4BYTE_PACKET_NUMBER then PACKET_FLAGS_4BYTE_PACKET
  else if (seq_len =? PACKET_6BYTE_PACKET_NUMBER) || (seq_len =? PACKET_8BYTE_PACKET_NUMBER)
  then PACKET_FLAGS_8BYTE_PACKET
  else PACKET_FLAGS_8BYTE_PACKET.

Lemma GetMinSeqLength_cases pn :
  GetMinSeqLength pn = 1 \/ GetMinSeqLength pn = 2 \/
  GetMinSeqLength pn = 4 \/ GetMinSeqLength pn = 6.
Proof. unfold GetMinSeqLength. repeat case_match; auto. Qed.

(** The chosen width is one the flags can express. *)
Lemma flags_roundtrip pn :
  ReadSequenceNumberLength (GetPacketNumberFlags (GetMinSeqLength pn)) = GetMinSeqLength pn.
Proof. destruct (GetMinSeqLength_cases pn) as [->|[->|[->| ->]]]; reflexivity. Qed.

(** It holds the number, as far as 48 bits go. *)
Lemma GetMinSeqLength_enough pn :
  0 <= pn < 2 ^ 48 -> pn < 256 ^ GetMinSeqLength pn.
Proof.
  intros H. unfold GetMinSeqLength.
  change (Z.shiftl 1 (PACKET_1BYTE_PACKET_NUMBER * 8)) with 256.
  change (Z.shiftl 1 (PACKET_2BYTE_PACKET_NUMBER * 8)) with (2 ^ 16).
  change (Z.shiftl 1 (PACKET_4BYTE_PACKET_NUMBER * 8)) with (2 ^ 32).
  repeat case_match; zbool; unfold_lengths; lia.
Qed.

(** And no narrower width the flags can express would do. *)
Lemma GetMinSeqLength_minimal pn l :
  0 <= pn -> l ∈ [1; 2; 4] -> pn < 256 ^ l -> GetMinSeqLength pn <= l.
Proof.
  intros Hp Hl Hb. unfold GetMinSeqLength.
  change (Z.shiftl 1 (PACKET_1BYTE_PACKET_NUMBER * 8)) with 256.
  change (Z.shiftl 1 (PACKET_2BYTE_PACKET_NUMBER * 8)) with (2 ^ 16).
  change (Z.shiftl 1 (PACKET_4BYTE_PACKET_NUMBER * 8)) with (2 ^ 32).
  rewrite !elem_of_cons, elem_of_nil in Hl.
  destruct Hl as [->|[->|[->|[]]]]; repeat case_match; zbool; unfold_lengths; lia.
Qed.
End Header.

(** * quic/model/my_quic_framer.cc *)

(** Lines 144-156. *)
Definition Delta (a b : Z) : Z := if a <? b then u64 (b - a) else u64 (a - b).

Definition ClosestTo (target a b : Z) : Z :=
  if Delta target a <? Delta target b then a else b.

(** Lines 158-190. *)
Definition ReadSequenceNumberLength (flags : Z) : Z :=
  let f := Z.land flags PACKET_FLAGS_8BYTE_PACKET in
  if f =? PACKET_FLAGS_8BYTE_PACKET then PACKET_6BYTE_PACKET_NUMBER
  else if f =? PACKET_FLAGS_4BYTE_PACKET then PACKET_4BYTE_PACKET_NUMBER
  else if f =? PACKET_FLAGS_2BYTE_PACKET then PACKET_2BYTE_PACKET_NUMBER
  else if f =? PACKET_FLAGS_1BYTE_PACKET then PACKET_1BYTE_PACKET_NUMBER
  else PACKET_6BYTE_PACKET_NUMBER.

Definition ReadAckPacketNumberLength (version flags : Z) : Z :=
  let f := Z.land flags PACKET_FLAGS_8BYTE_PACKET in
  if f =? PACKET_FLAGS_8BYTE_PACKET then
    if negb (version =? QUIC_VERSION_41) then PACKET_6BYTE_PACKET_NUMBER
    else PACKET_8BYTE_PACKET_NUMBER
  else if f =? PACKET_FLAGS_4BYTE_PACKET then PACKET_4BYTE_PACKET_NUMBER
  else if f =? PACKET_FLAGS_2BYTE_PACKET then PACKET_2BYTE_PACKET_NUMBER
  else if f =? PACKET_FLAGS_1BYTE_PACKET then PACKET_1BYTE_PACKET_NUMBER
  else PACKET_6BYTE_PACKET_NUMBER.

(** Lines 192-205; the default branch reports a bug and answers the first type. *)
Inductive QuicShortHeaderType :=
  | SHORT_HEADER_1_BYTE_PACKET_NUMBER
  | SHORT_HEADER_2_BYTE_PACKET_NUMBER
  | SHORT_HEADER_4_BYTE_PACKET_NUMBER.

Definition PacketNumberLengthToShortHeaderType (packet_number_length : Z) : QuicShortHeaderType :=
  if packet_number_length =? PACKET_1BYTE_PACKET_NUMBER then SHORT_HEADER_1_BYTE_PACKET_NUMBER
  else if packet_number_length =? PACKET_2BYTE_PACKET_NUMBER then SHORT_HEADER_2_BYTE_PACKET_NUMBER
  else if packet_number_length =? PACKET_4BYTE_PACKET_NUMBER then SHORT_HEADER_4_BYTE_PACKET_NUMBER
  else SHORT_HEADER_1_BYTE_PACKET_NUMBER.

(** [~(epoch_delta - 1)] on 64 bits. *)
Definition epoch_mask (epoch_delta : Z) : Z := u64 (Z.lnot (epoch_delta - 1)).

(** The selection shared by packet numbers and timestamps: the candidate of the
    current, previous or next epoch closest to [target]. *)
Definition closest_in_epochs (epoch_delta base target wire : Z) : Z :=
  let epoch := Z.land base (epoch_mask epoch_delta) in
  let prev_epoch := u64 (epoch - epoch_delta) in
  let next_epoch := u64 (epoch + epoch_delta) in
  ClosestTo target (u64 (epoch + wire))
    (ClosestTo target (u64 (prev_epoch + wire)) (u64 (next_epoch + wire))).

(** Lines 959-981.  [UINT64_C(1) << 64] is undefined: the caller's length is at
    most 6 (ReadSequenceNumberLength). *)
Definition CalculatePacketNumberFromWire (packet_number_length base_packet_number packet_number : Z) : Z :=
  closest_in_epochs (u64 (Z.shiftl 1 (8 * packet_number_length)))
    base_packet_number (u64 (base_packet_number + 1)) packet_number.

(** Lines 936-957, as microseconds; [last_timestamp] is the state read. *)
Definition CalculateTimestampFromWire (last_timestamp time_delta_us : Z) : Z :=
  i64 (closest_in_epochs (u64 (Z.shiftl 1 32)) (u64 last_timestamp) (u64 last_timestamp)
         time_delta_us).

(** Lines 1068-1081. *)
Definition GetMinPacketNumberLength (version packet_number : Z) : Z :=
  if packet_number <? Z.shiftl 1 (PACKET_1BYTE_PACKET_NUMBER * 8)
  then PACKET_1BYTE_PACKET_NUMBER
  else if packet_number <? Z.shiftl 1 (PACKET_2BYTE_PACKET_NUMBER * 8)
  then PACKET_2BYTE_PACKET_NUMBER
  else if packet_number <? Z.shiftl 1 (PACKET_4BYTE_PACKET_NUMBER * 8)
  then PACKET_4BYTE_PACKET_NUMBER
  else if negb (version =? QUIC_VERSION_41) then PACKET_6BYTE_PACKET_NUMBER
  else PACKET_8BYTE_PACKET_NUMBER.

(** Lines 1084-1100. *)
Definition GetPacketNumberFlags (packet_number_length : Z) : Z :=
  if packet_number_length =? PACKET_1BYTE_PACKET_NUMBER then PACKET_FLAGS_1BYTE_PACKET
  else if packet_number_length =? PACKET_2BYTE_PACKET_NUMBER then PACKET_FLAGS_2BYTE_PACKET
  else if packet_number_length =? PACKET_4BYTE_PACKET_NUMBER then PACKET_FLAGS_4BYTE_PACKET
  else PACKET_FLAGS_8BYTE_PACKET.

(** ** Reconstruction picks the nearest congruent number *)

Lemma length_bounds len : len ∈ [1; 2; 4; 6] -> 1 <= len <= 6.
Proof. rewrite !elem_of_cons, elem_of_nil. lia. Qed.

Lemma land_epoch_mask base len :
  len ∈ [1; 2; 4; 6] -> fits 64 base ->
  Z.land base (epoch_mask (u64 (Z.shiftl 1 (8 * len)))) =
  base / 2 ^ (8 * len) * 2 ^ (8 * len).
Proof.
  intros Hl Hb. rewrite !elem_of_cons, elem_of_nil in Hl.
  destruct Hl as [->|[->|[->|[->|[]]]]];
    [apply (land_mask base 8 64)|apply (land_mask base 16 64)|apply (land_mask base 32 64)
    |apply (land_mask base 48 64)]; try lia; done.
Qed.

Lemma Delta_abs a b : fits 64 a -> fits 64 b -> Delta a b = Z.abs (a - b).
Proof.
  unfold fits, Delta. intros. destruct (Z.ltb_spec a b); rewrite wrap_small by (unfold fits; lia); lia.
Qed.

(** The arithmetic core, with the epoch length a constant. *)
Lemma nearest_of_three D p base target wire c0 cp cn :
  D = 256 \/ D = 65536 \/ D = 4294967296 \/ D = 281474976710656 ->
  0 <= base < 2 ^ 62 -> base <= target <= base + 1 -> 0 <= wire < D ->
  p * D <= base < p * D + D -> 0 <= p ->
  c0 = p * D + wire ->
  cp = (if p =? 0 then 2 ^ 64 - D + wire else p * D - D + wire) ->
  cn = p * D + D + wire ->
  let inner := if Z.abs (target - cp) <? Z.abs (target - cn) then cp else cn in
  let r := if Z.abs (target - c0) <? Z.abs (target - inner) then c0 else inner in
  0 <= r < 2 ^ 63 /\ r mod D = wire /\
  forall x, 0 <= x -> x mod D = wire -> Z.abs (r - target) <= Z.abs (x - target).
Proof.
  intros HD Hb Ht Hw Hp Hp0 Hc0 Hcp Hcn inner r.
  assert (Hr : r = p * D + wire \/ r = p * D + D + wire \/ (0 < p /\ r = p * D - D + wire)).
  { unfold r, inner. destruct (Z.ltb_spec (Z.abs (target - cp)) (Z.abs (target - cn)));
      zcase; destruct (Z.eqb_spec p 0); destruct HD as [->|[->|[->| ->]]]; lia. }
  assert (Hmin : Z.abs (r - target) <= Z.abs (p * D + wire - target) /\
                 Z.abs (r - target) <= Z.abs (p * D + D + wire - target) /\
                 (0 < p -> Z.abs (r - target) <= Z.abs (p * D - D + wire - target))).
  { unfold r, inner. destruct (Z.ltb_spec (Z.abs (target - cp)) (Z.abs (target - cn)));
      zcase; destruct (Z.eqb_spec p 0); destruct HD as [->|[->|[->| ->]]]; lia. }
  clearbody r. clear inner Hc0 Hcp Hcn. split_and!.
  - destruct HD as [->|[->|[->| ->]]]; lia.
  - destruct HD as [->|[->|[->| ->]]]; lia.
  - destruct Hr as [->|[->|[_ ->]]]; destruct HD as [->|[->|[->| ->]]]; dlia.
  - intros x Hx Hm. pose proof (Z.div_mod x D ltac:(lia)) as Hd. rewrite Hm in Hd.
    set (q := x / D) in *. clearbody q.
    destruct HD as [->|[->|[->| ->]]]; lia.
Qed.

(** The epoch of [base] and its two neighbours hold the nearest candidate; when
    there is no previous epoch its wrapped candidate is far away. *)
Lemma closest_in_epochs_nearest len base target wire :
  len ∈ [1; 2; 4; 6] -> 0 <= base < 2 ^ 62 -> base <= target <= base + 1 ->
  0 <= wire < 2 ^ (8 * len) ->
  let r := closest_in_epochs (u64 (Z.shiftl 1 (8 * len))) base target wire in
  0 <= r < 2 ^ 63 /\ r mod 2 ^ (8 * len) = wire /\
  forall x, 0 <= x -> x mod 2 ^ (8 * len) = wire -> Z.abs (r - target) <= Z.abs (x - target).
Proof.
  intros Hl Hb Ht Hw. unfold closest_in_epochs. cbv zeta.
  rewrite land_epoch_mask by (try done; unfold fits; lia).
  assert (HD : exists D, 2 ^ (8 * len) = D /\ u64 (Z.shiftl 1 (8 * len)) = D /\
    (D = 256 \/ D = 65536 \/ D = 4294967296 \/ D = 281474976710656)).
  { rewrite !elem_of_cons, elem_of_nil in Hl.
    destruct Hl as [->|[->|[->|[->|[]]]]]; eexists; repeat split; auto. }
  destruct HD as (D & E1 & E2 & HD). rewrite E2. rewrite E1 in *. clear E1 E2.
  set (p := base / D). assert (Hp : p * D <= base < p * D + D) by (subst p; destruct HD as [->|[->|[->| ->]]]; dlia).
  assert (0 <= p) by (destruct HD as [->|[->|[->| ->]]]; lia). clearbody p.
  set (c0 := u64 (p * D + wire)). set (cp := u64 (u64 (p * D - D) + wire)).
  set (cn := u64 (u64 (p * D + D) + wire)).
  assert (H0 : c0 = p * D + wire) by (apply wrap_small; unfold fits; destruct HD as [->|[->|[->| ->]]]; lia).
  assert (Hn : cn = p * D + D + wire).
  { unfold cn. rewrite (wrap_small 64 (p * D + D)), wrap_small; auto; unfold fits;
      destruct HD as [->|[->|[->| ->]]]; lia. }
  assert (Hpr : cp = if p =? 0 then 2 ^ 64 - D + wire else p * D - D + wire).
  { unfold cp. rewrite wrap_add_l. unfold wrap.
    destruct (Z.eqb_spec p 0) as [->|].
    - rewrite <- (Z_mod_plus_full _ 1), Z.mod_small; destruct HD as [->|[->|[->| ->]]]; lia.
    - rewrite Z.mod_small; destruct HD as [->|[->|[->| ->]]]; lia. }
  clearbody c0 cp cn. unfold ClosestTo.
  assert (Hf : fits 64 c0 /\ fits 64 cp /\ fits 64 cn /\ fits 64 target).
  { unfold fits. rewrite H0, Hpr, Hn.
    destruct (Z.eqb_spec p 0); destruct HD as [->|[->|[->| ->]]]; lia. }
  destruct Hf as (F0 & Fp & Fn & Ft). rewrite (Delta_abs target c0), (Delta_abs target cp), (Delta_abs target cn) by done.
  rewrite (Delta_abs target (if _ <? _ then _ else _)) by (repeat case_match; done).
  by apply (nearest_of_three D p base target wire c0 cp cn).
Qed.

(** The reconstruction inverts truncation as long as the number sent is within
    half an epoch of the receiver's next expected number. *)
Lemma closest_in_epochs_exact len base target x :
  len ∈ [1; 2; 4; 6] -> 0 <= base < 2 ^ 62 -> base <= target <= base + 1 -> 0 <= x ->
  2 * Z.abs (x - target) < 2 ^ (8 * len) ->
  closest_in_epochs (u64 (Z.shiftl 1 (8 * len))) base target (x mod 2 ^ (8 * len)) = x.
Proof.
  intros Hl Hb Ht Hx Hd.
  assert (0 < 2 ^ (8 * len)) by (apply length_bounds in Hl; apply Z.pow_pos_nonneg; lia).
  destruct (closest_in_epochs_nearest len base target (x mod 2 ^ (8 * len))) as (Hr & Hm & Hn);
    [done|done|done|by apply Z.mod_pos_bound|].
  specialize (Hn x Hx eq_refl). set (r := closest_in_epochs _ _ _ _) in *. clearbody r.
  set (D := 2 ^ (8 * len)) in *. clearbody D.
  assert (Hq : (r - x) mod D = 0).
  { by rewrite Zminus_mod, Hm, Z.sub_diag, Z.mod_0_l by lia. }
  apply Z.mod_divide in Hq as [q Hq]; [|lia].
  assert (Z.abs (r - x) < D) by lia.
  assert (q = 0) by nia. lia.
Qed.

Lemma CalculatePacketNumberFromWire_exact len base pn :
  len ∈ [1; 2; 4; 6] -> 0 <= base < 2 ^ 62 -> 0 <= pn ->
  2 * Z.abs (pn - (base + 1)) < 2 ^ (8 * len) ->
  CalculatePacketNumberFromWire len base (pn mod 2 ^ (8 * len)) = pn.
Proof.
  intros. unfold CalculatePacketNumberFromWire.
  rewrite (wrap_small 64 (base + 1)) by (unfold fits; lia).
  apply closest_in_epochs_exact; auto; lia.
Qed.

Lemma CalculateTimestampFromWire_exact last t :
  0 <= last < 2 ^ 62 -> 0 <= t < 2 ^ 63 -> Z.abs (t - last) < 2 ^ 31 ->
  CalculateTimestampFromWire last (t mod 2 ^ 32) = t.
Proof.
  intros Hl Ht Hd. unfold CalculateTimestampFromWire.
  rewrite (wrap_small 64 last) by (unfold fits; lia).
  change (Z.shiftl 1 32) with (Z.shiftl 1 (8 * 4)).
  change (t mod 2 ^ 32) with (t mod 2 ^ (8 * 4)).
  rewrite closest_in_epochs_exact; [|by do 2 right; left|lia|lia|lia|change (8 * 4) with 32; lia].
  unfold swrap. rewrite wrap_small by (unfold fits; lia).
  by rewrite (proj2 (Z.ltb_lt _ _)) by (simpl; lia).
Qed.

(** ** Widths and their codes *)

Lemma GetMinPacketNumberLength_cases v pn :
  GetMinPacketNumberLength v pn ∈ [1; 2; 4; if v =? QUIC_VERSION_41 then 8 else 6].
Proof.
  unfold GetMinPacketNumberLength. unfold_lengths. rewrite !elem_of_cons.
  repeat case_match; zbool; auto; discriminate.
Qed.

Lemma GetMinPacketNumberLength_enough v pn :
  fits (if v =? QUIC_VERSION_41 then 64 else 48) pn ->
  pn < 256 ^ GetMinPacketNumberLength v pn.
Proof.
  unfold fits. intros H. unfold GetMinPacketNumberLength.
  change (Z.shiftl 1 (PACKET_1BYTE_PACKET_NUMBER * 8)) with 256.
  change (Z.shiftl 1 (PACKET_2BYTE_PACKET_NUMBER * 8)) with (2 ^ 16).
  change (Z.shiftl 1 (PACKET_4BYTE_PACKET_NUMBER * 8)) with (2 ^ 32).
  destruct (v =? QUIC_VERSION_41); cbn [negb]; repeat case_match; zbool; unfold_lengths; lia.
Qed.

(** The two-bit code of a width, read back by an ack frame's parser. *)
Lemma ack_length_roundtrip v pn :
  ReadAckPacketNumberLength v (GetPacketNumberFlags (GetMinPacketNumberLength v pn)) =
  GetMinPacketNumberLength v pn.
Proof.
  pose proof (GetMinPacketNumberLength_cases v pn) as H. rewrite !elem_of_cons, elem_of_nil in H.
  unfold ReadAckPacketNumberLength.
  destruct H as [->|[->|[->|[->|[]]]]]; try reflexivity.
  destruct (v =? QUIC_VERSION_41); reflexivity.
Qed.
