(* ===== verification/PacketNumberQueue.v ===== *)
(** [PacketNumberQueue] and [QuicAckFrame]
    (net/third_party/quic/core/frames/quic_ack_frame.cc): the set of received
    packet numbers, kept as a deque of disjoint, non-adjacent intervals.  The
    operations are shown to refine operations on sets of packet numbers. *)
From S2P Require Import Prelude.

(** [QuicInterval<QuicPacketNumber>]: the half-open interval [imin, imax). *)
Record Interval := mkI { imin : Z; imax : Z }.

Definition IContains (iv : Interval) (x : Z) : bool := (imin iv <=? x) && (x <? imax iv).
Definition ILength (iv : Interval) : Z := u64 (imax iv - imin iv).

(** [packet_number_deque_], front first. *)
Abbreviation PacketNumberQueue := (list Interval).

Definition SetMax (m : Z) (iv : Interval) : Interval := mkI (imin iv) m.
Definition SetMin (m : Z) (iv : Interval) : Interval := mkI m (imax iv).

(** Update of the last element of the deque. *)
Definition alter_back (f : Interval -> Interval) (d : PacketNumberQueue) : PacketNumberQueue :=
  alter f (pred (length d)) d.

(** The backwards search of [Add] (lines 109-146) from index [n - 1]. *)
Fixpoint Add_loop (n : nat) (packet_number : Z) (d : PacketNumberQueue) : PacketNumberQueue :=
  match n with
  | O => d
  | S i =>
    match d !! i with
    | None => d
    | Some packet_interval =>
      if IContains packet_interval packet_number then d
      else if imax packet_interval =? packet_number then
        alter (SetMax (u64 (packet_number + 1))) i d
      else if imin packet_interval =? u64 (packet_number + 1) then
        let d := alter (SetMin packet_number) i d in
        match i, d !! pred i with
        | S j, Some prev =>
          if packet_number =? imax prev
          then delete i (alter (SetMax (imax packet_interval)) j d)
          else d
        | _, _ => d
        end
      else if imax packet_interval <? u64 (packet_number + 1) then
        take (i + 1) d ++ [mkI packet_number (u64 (packet_number + 1))] ++ drop (i + 1) d
      else Add_loop i packet_number d
    end
  end.

Definition Add (packet_number : Z) (d : PacketNumberQueue) : PacketNumberQueue :=
  match d, last d with
  | front :: _, Some back =>
    if imax back =? packet_number then alter_back (SetMax (u64 (packet_number + 1))) d
    else if imax back <? packet_number then
      d ++ [mkI packet_number (u64 (packet_number + 1))]
    else if u64 (packet_number + 1) <? imin front then
      mkI packet_number (u64 (packet_number + 1)) :: d
    else if imin front =? u64 (packet_number + 1) then
      alter (SetMin packet_number) 0%nat d
    else Add_loop (length d) packet_number d
  | _, _ => [mkI packet_number (u64 (packet_number + 1))]
  end.

Definition AddRange (lower higher : Z) (d : PacketNumberQueue) : PacketNumberQueue :=
  if higher <=? lower then d
  else match d, last d with
  | front :: _, Some back =>
    if imax back =? lower then alter_back (SetMax higher) d
    else if imax back <? lower then d ++ [mkI lower higher]
    else if imin front =? higher then alter (SetMin lower) 0%nat d
    else if higher <? imin front then mkI lower higher :: d
    else d
  | _, _ => [mkI lower higher]
  end.

Definition Empty (d : PacketNumberQueue) : bool := match d with [] => true | _ => false end.

(** [Min], [Max] and [LastIntervalLength] are only called on a non-empty queue
    ([DCHECK]); the value on the empty one is immaterial. *)
Definition Min (d : PacketNumberQueue) : Z := match d with iv :: _ => imin iv | [] => 0 end.
Definition Max (d : PacketNumberQueue) : Z :=
  match last d with Some iv => u64 (imax iv - 1) | None => 0 end.
Definition LastIntervalLength (d : PacketNumberQueue) : Z :=
  match last d with Some iv => ILength iv | None => 0 end.

(** The loop of [RemoveUpTo] (lines 194-207). *)
Fixpoint RemoveUpTo_loop (higher : Z) (d : PacketNumberQueue) : PacketNumberQueue :=
  match d with
  | [] => []
  | front :: d' =>
    if imax front <? higher then RemoveUpTo_loop higher d'
    else if (imin front <? higher) && (higher <=? imax front) then
      if imax front =? higher then d' else SetMin higher front :: d'
    else d
  end.

Definition RemoveUpTo (higher : Z) (d : PacketNumberQueue) : bool * PacketNumberQueue :=
  if Empty d then (false, d)
  else
    let old_min := Min d in
    let d' := RemoveUpTo_loop higher d in
    (Empty d' || negb (old_min =? Min d'), d').

Definition RemoveSmallestInterval (d : PacketNumberQueue) : PacketNumberQueue := tail d.
Definition Clear (d : PacketNumberQueue) : PacketNumberQueue := [].

Definition Contains (packet_number : Z) (d : PacketNumberQueue) : bool :=
  match d, last d with
  | front :: _, Some back =>
    if (packet_number <? imin front) || (imax back <=? packet_number) then false
    else existsb (fun interval => IContains interval packet_number) d
  | _, _ => false
  end.

Definition NumPacketsSlow (d : PacketNumberQueue) : Z :=
  fold_left (fun n interval => u64 (n + ILength interval)) d 0.
Definition NumIntervals (d : PacketNumberQueue) : Z := Z.of_nat (length d).

(** * Specification *)

(** The set of packet numbers a queue stands for. *)
Definition in_iv (x : Z) (iv : Interval) : Prop := imin iv <= x < imax iv.
Definition mem (d : PacketNumberQueue) (x : Z) : Prop := Exists (in_iv x) d.

(** The representation invariant: non-empty intervals in increasing order with
    a gap between any two; [lo] bounds the first from below. *)
Fixpoint wf_from (lo : Z) (d : PacketNumberQueue) : Prop :=
  match d with
  | [] => True
  | iv :: d => lo < imin iv /\ imin iv < imax iv /\ wf_from (imax iv) d
  end.
Definition wf (d : PacketNumberQueue) : Prop :=
  wf_from (-1) d /\ Forall (fun iv => imax iv < 2 ^ 64) d.

(** The end of the last interval. *)
Fixpoint end_of (lo : Z) (d : PacketNumberQueue) : Z :=
  match d with [] => lo | iv :: d => end_of (imax iv) d end.

Lemma wf_from_app lo d1 d2 :
  wf_from lo (d1 ++ d2) <-> wf_from lo d1 /\ wf_from (end_of lo d1) d2.
Proof.
  revert lo; induction d1 as [|iv d1 IH]; intros lo; simpl; [tauto|]. rewrite IH. tauto.
Qed.

Lemma end_of_app lo d1 d2 : end_of lo (d1 ++ d2) = end_of (end_of lo d1) d2.
Proof. revert lo; induction d1 as [|iv d1 IH]; intros lo; simpl; auto. Qed.

Lemma wf_from_weaken lo lo' d : lo' <= lo -> wf_from lo d -> wf_from lo' d.
Proof. destruct d; simpl; [done|]. intros ? (? & ? & ?). split_and!; auto; lia. Qed.

Lemma end_of_ge lo d : wf_from lo d -> lo <= end_of lo d.
Proof.
  revert lo; induction d as [|iv d IH]; intros lo; simpl; [lia|].
  intros (? & ? & H). apply IH in H. lia.
Qed.

(** Members of a well-formed queue lie between its ends. *)
Lemma mem_bounds lo d x : wf_from lo d -> mem d x -> lo < x < end_of lo d.
Proof.
  revert lo; induction d as [|iv d IH]; intros lo; simpl; [inversion 2|].
  intros (? & ? & H) [Hx|Hx]%Exists_cons.
  - apply end_of_ge in H. unfold in_iv in Hx. lia.
  - apply (IH _ H) in Hx. lia.
Qed.

Lemma mem_app d1 d2 x : mem (d1 ++ d2) x <-> mem d1 x \/ mem d2 x.
Proof. apply Exists_app. Qed.

Lemma mem_cons iv d x : mem (iv :: d) x <-> in_iv x iv \/ mem d x.
Proof. apply Exists_cons. Qed.

Lemma IContains_in iv x : IContains iv x = true <-> in_iv x iv.
Proof. unfold IContains, in_iv. rewrite andb_true_iff, Z.leb_le, Z.ltb_lt. done. Qed.

Lemma not_IContains iv x : IContains iv x = false -> x < imin iv \/ imax iv <= x.
Proof.
  unfold IContains. rewrite andb_false_iff, Z.leb_gt, Z.ltb_ge. done.
Qed.

(** ** Updates at the ends and in the middle of the deque *)

Lemma alter_middle f (l1 l2 : PacketNumberQueue) iv :
  alter f (length l1) (l1 ++ iv :: l2) = l1 ++ f iv :: l2.
Proof. rewrite <- (Nat.add_0_r (length l1)). by rewrite alter_app_r. Qed.

Lemma alter_back_snoc f (l : PacketNumberQueue) iv : alter_back f (l ++ [iv]) = l ++ [f iv].
Proof.
  unfold alter_back. rewrite length_app. simpl.
  rewrite Nat.add_1_r. apply (alter_middle f l []).
Qed.

Lemma insert_after_middle (l1 l2 : PacketNumberQueue) iv x :
  take (length l1 + 1) (l1 ++ iv :: l2) ++ [x] ++ drop (length l1 + 1) (l1 ++ iv :: l2)
  = l1 ++ iv :: x :: l2.
Proof.
  rewrite !(cons_middle iv), !(assoc_L (++)).
  rewrite take_app_length', drop_app_length' by (rewrite length_app; simpl; lia).
  by rewrite <- !(assoc_L (++)).
Qed.

Lemma delete_snoc2 (l l2 : PacketNumberQueue) p q :
  delete (S (length l)) (l ++ p :: q :: l2) = l ++ p :: l2.
Proof.
  rewrite (cons_middle p), (assoc_L (++)).
  replace (S (length l)) with (length (l ++ [p])) by (rewrite length_app; simpl; lia).
  rewrite delete_middle. by rewrite <- (assoc_L (++)).
Qed.

(** What an operation that adds the set [P] must do. *)
Definition adds (P : Z -> Prop) (lo : Z) (d d' : PacketNumberQueue) : Prop :=
  wf_from lo d' /\ forall x, mem d' x <-> P x \/ mem d x.

(** Splits well-formedness and membership over the pieces of a deque. *)
Ltac deque_simpl :=
  repeat (rewrite ?wf_from_app, ?end_of_app, ?mem_app, ?mem_cons in *; simpl in *;
          unfold in_iv, SetMin, SetMax in *).
Ltac deque_split :=
  repeat match goal with
  | H : _ /\ _ |- _ => destruct H
  | |- _ /\ _ => split
  end.

(** Membership after an update, by comparison with the number [y] added. *)
Ltac deque_mem y :=
  let x := fresh "x" in
  intros x; deque_simpl; destruct (decide (x = y)); subst; intuition lia.

Lemma Add_loop_spec l1 l2 pn lo :
  lo < pn -> fits 64 (pn + 1) ->
  wf_from lo (l1 ++ l2) -> wf_from (pn + 1) l2 ->
  Exists (fun iv => imin iv <= pn) l1 ->
  adds (eq pn) lo (l1 ++ l2) (Add_loop (length l1) pn (l1 ++ l2)).
Proof.
  intros Hlo Hf. revert l2. induction l1 as [|iv l IH] using rev_ind; intros l2 Hwf Hl2 He.
  { by apply Exists_nil in He. }
  assert (Hnil : forall x, mem [] x <-> False) by (intros; apply Exists_nil).
  rewrite length_app, Nat.add_1_r. rewrite <- (assoc_L (++)) in *. cbn [app] in *.
  cbn [Add_loop]. rewrite list_lookup_middle by done.
  rewrite (wrap_small 64 (pn + 1)) by done.
  assert (Hsep : end_of lo l < imin iv /\ imin iv < imax iv /\ wf_from (imax iv) l2)
    by (deque_simpl; tauto).
  assert (Hwl : wf_from lo l) by (deque_simpl; tauto).
  destruct (IContains iv pn) eqn:Hc.
  { apply IContains_in in Hc. split; [done|]. deque_simpl. deque_mem pn. }
  apply not_IContains in Hc.
  destruct (Z.eqb_spec (imax iv) pn) as [Hm|Hm].
  { rewrite alter_middle. split; deque_simpl; [deque_split; auto; lia|].
    deque_mem pn. }
  destruct (Z.eqb_spec (imin iv) (pn + 1)) as [Hi|Hi].
  { rewrite alter_middle. unfold SetMin.
    destruct l as [|prev l _] using rev_ind; cbn [length].
    { split; deque_simpl; [deque_split; auto; lia|]. deque_mem pn. }
    rewrite length_app, Nat.add_1_r. cbn [Nat.pred]. rewrite <- !(assoc_L (++)). cbn [app].
    rewrite list_lookup_middle by done.
    destruct (Z.eqb_spec pn (imax prev)) as [Hp|Hp].
    - rewrite alter_middle, delete_snoc2. unfold SetMax.
      split; deque_simpl; [deque_split; auto; lia|]. deque_mem pn.
    - split; deque_simpl; [deque_split; auto; lia|]. deque_mem pn. }
  destruct (Z.ltb_spec (imax iv) (pn + 1)).
  { rewrite insert_after_middle. split; deque_simpl; [deque_split; auto; lia|].
    deque_mem pn. }
  apply (IH (iv :: l2)); [done|simpl; destruct_and!; split_and!; auto; lia|].
  apply Exists_app in He as [He|[He|He]%Exists_cons]; [done|lia|by apply Exists_nil in He].
Qed.

Lemma last_cases (d : PacketNumberQueue) :
  d = [] \/ exists l back front l', d = l ++ [back] /\ d = front :: l' /\ last d = Some back.
Proof.
  destruct d as [|front l'] using rev_ind; [by left|right].
  destruct l' as [|f l'']; simpl.
  - exists [], front, front, []. done.
  - exists (f :: l''), front, f, (l'' ++ [front]).
    split_and!; [done|done|]. apply (last_snoc front (f :: l'')).
Qed.

Lemma Add_adds pn d :
  0 <= pn -> fits 64 (pn + 1) -> wf_from (-1) d -> adds (eq pn) (-1) d (Add pn d).
Proof.
  intros Hp Hf Hwf. assert (Hnil : forall x, mem [] x <-> False) by (intros; apply Exists_nil).
  destruct (last_cases d) as [->|(l & back & front & l' & E1 & -> & E3)].
  { unfold Add; simpl. rewrite wrap_small by done. split; [simpl; lia|].
    intros x. deque_simpl. intuition lia. }
  unfold Add. rewrite E3. rewrite !(wrap_small 64 (pn + 1)) by done.
  destruct (Z.eqb_spec (imax back) pn) as [H1|H1].
  { rewrite E1, alter_back_snoc. rewrite E1 in Hwf. split; deque_simpl; [intuition lia|].
    deque_mem pn. }
  destruct (Z.ltb_spec (imax back) pn).
  { rewrite E1. rewrite E1 in Hwf. split; deque_simpl; [intuition lia|]. deque_mem pn. }
  destruct (Z.ltb_spec (pn + 1) (imin front)).
  { split; deque_simpl; [intuition lia|]. deque_mem pn. }
  destruct (Z.eqb_spec (imin front) (pn + 1)).
  { cbn [alter list_alter]. split; deque_simpl; [intuition lia|].
    deque_mem pn. }
  pose proof (Add_loop_spec (front :: l') [] pn (-1)) as H'. rewrite app_nil_r in H'.
  apply H'; [lia|done|done|done|]. apply Exists_cons. left. lia.
Qed.

Lemma AddRange_adds lower higher d :
  0 <= lower -> wf_from (-1) d ->
  d = [] \/ end_of (-1) d <= lower \/ (lower < higher -> higher <= Min d) ->
  adds (fun x => lower <= x < higher) (-1) d (AddRange lower higher d).
Proof.
  intros Hl Hwf Hside. assert (Hnil : forall x, mem [] x <-> False) by (intros; apply Exists_nil).
  unfold AddRange. destruct (Z.leb_spec higher lower).
  { split; [done|]. intros x. intuition lia. }
  destruct (last_cases d) as [->|(l & back & front & l' & E1 & -> & E3)].
  { simpl. split; [simpl; lia|]. intros x. deque_simpl. intuition lia. }
  rewrite E3.
  assert (He : end_of (-1) (front :: l') = imax back) by (rewrite E1, end_of_app; done).
  rewrite He in Hside. cbn [Min] in Hside.
  assert (imin front < imax front /\ imax front <= imax back).
  { rewrite <- He. simpl in *. split; [lia|]. apply end_of_ge; tauto. }
  destruct (Z.eqb_spec (imax back) lower).
  { rewrite E1, alter_back_snoc. rewrite E1 in Hwf.
    split; deque_simpl; [intuition lia|]. intros x; deque_simpl; intuition lia. }
  destruct (Z.ltb_spec (imax back) lower).
  { rewrite E1. rewrite E1 in Hwf. split; deque_simpl; [intuition lia|].
    intros x; deque_simpl; intuition lia. }
  destruct (Z.eqb_spec (imin front) higher).
  { cbn [alter list_alter]. split; deque_simpl; [intuition lia|].
    intros x; deque_simpl; intuition lia. }
  destruct (Z.ltb_spec higher (imin front)).
  { split; deque_simpl; [intuition lia|].
    intros x; deque_simpl; intuition lia. }
  exfalso. destruct Hside as [?|[Hs|Hs]]; [done|lia|specialize (Hs ltac:(lia)); lia].
Qed.

(** ** Removal and queries *)

Lemma RemoveUpTo_loop_spec higher lo d :
  wf_from lo d ->
  wf_from lo (RemoveUpTo_loop higher d) /\
  (forall x, mem (RemoveUpTo_loop higher d) x <-> mem d x /\ higher <= x).
Proof.
  revert lo; induction d as [|front d IH]; intros lo; cbn [RemoveUpTo_loop].
  { intros _. split; [done|]. intros x. unfold mem. rewrite Exists_nil. tauto. }
  intros (Ha & Hb & Hd). destruct (IH _ Hd) as [IHw IHm].
  destruct (Z.ltb_spec (imax front) higher).
  { split; [eapply wf_from_weaken; [|exact IHw]; lia|].
    intros x. rewrite IHm, mem_cons. unfold in_iv. intuition lia. }
  assert (Hge : forall x, mem d x -> imax front < x) by (intros x Hx; apply (mem_bounds _ _ _ Hd Hx)).
  destruct (Z.ltb_spec (imin front) higher), (Z.leb_spec higher (imax front)); cbn [andb]; try lia.
  - destruct (Z.eqb_spec (imax front) higher).
    + split; [eapply wf_from_weaken; [|exact Hd]; lia|].
      intros x. rewrite mem_cons. unfold in_iv. specialize (Hge x). intuition lia.
    + split; [simpl; split_and!; auto; lia|].
      intros x. rewrite !mem_cons. unfold in_iv, SetMin; simpl. specialize (Hge x). intuition lia.
  - split; [done|]. intros x. rewrite !mem_cons. unfold in_iv. specialize (Hge x). intuition lia.
Qed.

Lemma mem_Min lo d : wf_from lo d -> d <> [] -> mem d (Min d) /\ forall x, mem d x -> Min d <= x.
Proof.
  destruct d as [|front d]; [done|]. intros (? & ? & Hd) _. cbn [Min].
  split; [apply mem_cons; left; unfold in_iv; lia|].
  intros x [Hx|Hx]%mem_cons; [unfold in_iv in Hx; lia|]. apply (mem_bounds _ _ _ Hd) in Hx. lia.
Qed.

Lemma mem_Max d :
  wf d -> d <> [] -> mem d (Max d) /\ (forall x, mem d x -> x <= Max d) /\
  Max d = end_of (-1) d - 1.
Proof.
  intros [Hwf Hb] Hne.
  destruct (last_cases d) as [->|(l & back & front & l' & E1 & E2 & E3)]; [done|].
  unfold Max. rewrite E3. rewrite E1 in *. clear E2 E3.
  apply wf_from_app in Hwf as [Hl (H1 & H2 & _)].
  apply end_of_ge in Hl as Hl'. rewrite Forall_app, Forall_singleton in Hb.
  rewrite wrap_small by (unfold fits; lia). rewrite end_of_app. simpl.
  split_and!; [|intros x Hx|done].
  - apply mem_app. right. apply mem_cons. left. unfold in_iv. lia.
  - apply mem_app in Hx as [Hx|[Hx|Hx]%mem_cons].
    + apply (mem_bounds _ _ _ Hl) in Hx. lia.
    + unfold in_iv in Hx. lia.
    + by apply Exists_nil in Hx.
Qed.

Lemma Contains_spec pn d : wf_from (-1) d -> Contains pn d = true <-> mem d pn.
Proof.
  intros Hwf. destruct (last_cases d) as [->|(l & back & front & l' & E1 & -> & E3)].
  { simpl. unfold mem. by rewrite Exists_nil. }
  unfold Contains. rewrite E3.
  assert (He : end_of (-1) (front :: l') = imax back) by (rewrite E1, end_of_app; done).
  assert (Hx : existsb (fun iv => IContains iv pn) (front :: l') = true <-> mem (front :: l') pn).
  { rewrite existsb_exists. unfold mem. rewrite Exists_exists.
    split; intros (iv & Hin & Hc); exists iv; rewrite IContains_in in *;
      split; auto; by apply list_elem_of_In. }
  destruct (Z.ltb_spec pn (imin front)); [|destruct (Z.leb_spec (imax back) pn)];
    cbn [orb]; [| |exact Hx]; (split; [done|intros Hm]).
  - apply (mem_Min _ _ Hwf) in Hm; [|done]. simpl in Hm. lia.
  - apply (mem_bounds _ _ _ Hwf) in Hm. lia.
Qed.

(** ** The bound on interval ends is kept *)

Definition ends_bounded (d : PacketNumberQueue) : Prop := Forall (fun iv => imax iv < 2 ^ 64) d.

Lemma wf_ends lo d b : wf_from lo d -> (forall x, mem d x -> x < b) ->
  Forall (fun iv => imax iv <= b) d.
Proof.
  revert lo; induction d as [|iv d IH]; intros lo; [constructor|].
  intros (? & ? & Hd) Hx. constructor.
  - assert (imax iv - 1 < b); [|lia]. apply Hx, mem_cons. left. unfold in_iv. lia.
  - eapply IH; [exact Hd|]. intros x Hm. apply Hx, mem_cons. by right.
Qed.

Lemma wf_of_adds P d d' :
  wf d -> adds P (-1) d d' -> (forall x, P x -> x < 2 ^ 64 - 1) -> wf d'.
Proof.
  intros [Hwf Hb] [Hwf' Hm] HP. split; [done|].
  assert (He : Forall (fun iv => imax iv <= 2 ^ 64 - 1) d').
  2:{ rewrite Forall_forall in *. intros iv Hin. specialize (He iv Hin). lia. }
  apply (wf_ends (-1)); [done|]. intros x [Hx|Hx]%Hm; [by apply HP|].
  apply Exists_exists in Hx as (iv & Hin & Hx).
  rewrite Forall_forall in Hb. specialize (Hb _ Hin). unfold in_iv in Hx. lia.
Qed.
