(* ===== verification/FramerTypes.v ===== *)
(** The framer's data: constants, frames, packet headers, the framer object
    itself, and the interfaces of the code it calls (visitor, ciphers, version
    labels, handshake messages).  Models quic/model/my_quic_framer.h and the
    frame structures of net/third_party/quic/core/frames. *)
From stdpp Require Export strings pretty.
From S2P Require Import Prelude.
From S2P Require Import DataReader.
From S2P Require Import DataWriter.
From S2P Require Import PacketNumbers.
From S2P Require Import PacketNumberQueue.

(** ** Enumerations *)
Inductive Perspective := IS_SERVER | IS_CLIENT.
Inductive EncryptionLevel := ENCRYPTION_NONE | ENCRYPTION_INITIAL | ENCRYPTION_FORWARD_SECURE.
Inductive HandshakeProtocol := PROTOCOL_UNSUPPORTED | PROTOCOL_QUIC_CRYPTO | PROTOCOL_TLS1_3.

#[export] Instance Perspective_eq_dec : EqDecision Perspective.
Proof. solve_decision. Defined.
#[export] Instance EncryptionLevel_eq_dec : EqDecision EncryptionLevel.
Proof. solve_decision. Defined.
#[export] Instance HandshakeProtocol_eq_dec : EqDecision HandshakeProtocol.
Proof. solve_decision. Defined.

(** [ParsedQuicVersion]; the transport version is the enumerator's number. *)
Record ParsedQuicVersion := mkVersion {
  handshake_protocol : HandshakeProtocol;
  transport_version : Z;
}.
#[export] Instance ParsedQuicVersion_eq_dec : EqDecision ParsedQuicVersion.
Proof. solve_decision. Defined.

(** Error codes of quic_error_codes.h. *)
Definition QUIC_NO_ERROR : Z := 0.
Definition QUIC_INTERNAL_ERROR : Z := 1.
Definition QUIC_INVALID_PACKET_HEADER : Z := 3.
Definition QUIC_INVALID_FRAME_DATA : Z := 4.
Definition QUIC_INVALID_RST_STREAM_DATA : Z := 6.
Definition QUIC_INVALID_CONNECTION_CLOSE_DATA : Z := 7.
Definition QUIC_INVALID_GOAWAY_DATA : Z := 8.
Definition QUIC_INVALID_ACK_DATA : Z := 9.
Definition QUIC_INVALID_VERSION_NEGOTIATION_PACKET : Z := 10.
Definition QUIC_INVALID_PUBLIC_RST_PACKET : Z := 11.
Definition QUIC_DECRYPTION_FAILURE : Z := 12.
Definition QUIC_ENCRYPTION_FAILURE : Z := 13.
Definition QUIC_PACKET_TOO_LARGE : Z := 14.
Definition QUIC_INVALID_STREAM_DATA : Z := 46.
Definition QUIC_MISSING_PAYLOAD : Z := 48.
Definition QUIC_INVALID_WINDOW_UPDATE_DATA : Z := 57.
Definition QUIC_INVALID_BLOCKED_DATA : Z := 58.
Definition QUIC_INVALID_STOP_WAITING_DATA : Z := 60.
Definition QUIC_LAST_ERROR : Z := 120.
Definition QUIC_STREAM_LAST_ERROR : Z := 17.

(** Connection id lengths and public flags of quic_types.h. *)
Definition PACKET_0BYTE_CONNECTION_ID : Z := 0.
Definition PACKET_8BYTE_CONNECTION_ID : Z := 8.
Definition PACKET_PUBLIC_FLAGS_VERSION : Z := 1.
Definition PACKET_PUBLIC_FLAGS_RST : Z := 2.
Definition PACKET_PUBLIC_FLAGS_NONCE : Z := 4.
Definition PACKET_PUBLIC_FLAGS_0BYTE_CONNECTION_ID : Z := 0.
Definition PACKET_PUBLIC_FLAGS_8BYTE_CONNECTION_ID : Z := 8.
Definition PACKET_PUBLIC_FLAGS_8BYTE_CONNECTION_ID_OLD : Z := 12.
Definition PACKET_PUBLIC_FLAGS_MAX : Z := 0x3f.

(** Sizes of quic_constants.h. *)
Definition kMaxPacketSize : Z := 1452.
Definition kPublicFlagsSize : Z := 1.
Definition kQuicVersionSize : Z := 4.
Definition kDiversificationNonceSize : Z := 32.
Definition kPacketHeaderTypeSize : Z := 1.
Definition kQuicPathFrameBufferSize : Z := 8.

(** my_quic_framer.cc:39-64 *)
Definition kQuicFrameTypeSize : Z := 1.
Definition kQuicErrorCodeSize : Z := 4.
Definition kQuicErrorDetailsLengthSize : Z := 2.
Definition kQuicMaxStreamIdSize : Z := 4.
Definition kQuicMaxStreamOffsetSize : Z := 8.
Definition kQuicStreamPayloadLengthSize : Z := 2.
Definition kQuicDeltaTimeLargestObservedSize : Z := 2.
Definition kQuicNumTimestampsSize : Z := 1.
Definition kNumberOfAckBlocksSize : Z := 1.
Definition kMaxAckBlocks : Z := Z.shiftl 1 (kNumberOfAckBlocksSize * 8) - 1.

(** my_quic_framer.cc:73-141 *)
Definition kIetfAckTimestampShift : Z := 3.
Definition kPublicHeaderSequenceNumberShift : Z := 4.
Definition kQuicFrameTypeSpecialMask : Z := 0xe0.
Definition kQuicFrameTypeStreamMask_Pre40 : Z := 0x80.
Definition kQuicFrameTypeStreamMask : Z := 0xc0.
Definition kQuicFrameTypeAckMask_Pre40 : Z := 0x40.
Definition kQuicFrameTypeAckMask : Z := 0xa0.
Definition kQuicStreamIdShift_Pre40 : Z := 2.
Definition kQuicStreamIDLengthMask_Pre40 : Z := 0x3.
Definition kQuicStreamIDLengthShift : Z := 3.
Definition kQuicStreamIDLengthNumBits : Z := 2.
Definition kQuicStreamShift_Pre40 : Z := 3.
Definition kQuicStreamOffsetMask_Pre40 : Z := 0x7.
Definition kQuicStreamOffsetNumBits : Z := 2.
Definition kQuicStreamOffsetShift : Z := 1.
Definition kQuicStreamDataLengthShift_Pre40 : Z := 1.
Definition kQuicStreamDataLengthMask_Pre40 : Z := 0x1.
Definition kQuicStreamDataLengthShift : Z := 0.
Definition kQuicStreamFinShift_Pre40 : Z := 1.
Definition kQuicStreamFinMask_Pre40 : Z := 0x1.
Definition kQuicStreamFinShift : Z := 5.
Definition kQuicSequenceNumberLengthNumBits : Z := 2.
Definition kActBlockLengthOffset : Z := 0.
Definition kLargestAckedOffset : Z := 2.
Definition kQuicHasMultipleAckBlocksOffset_Pre40 : Z := 5.
Definition kQuicHasMultipleAckBlocksOffset : Z := 4.
Definition kMaxErrorStringLength : Z := 256.

(** [QuicTime::Delta::Infinite()], in microseconds. *)
Definition kQuicInfiniteTimeUs : Z := 2 ^ 63 - 1.

(** ** Frames *)
Record QuicStreamFrame := mkStreamFrame {
  sf_stream_id : Z;
  sf_fin : bool;
  sf_offset : Z;
  sf_data_buffer : list Z;
  sf_data_length : Z;
}.

Record QuicAckFrame := mkAckFrame {
  largest_acked : Z;
  ack_delay_time : Z;
  received_packet_times : list (Z * Z);
  packets : PacketNumberQueue;
}.

(** The constructor and [LargestAcked] of quic_ack_frame.h. *)
Definition emptyAckFrame : QuicAckFrame := mkAckFrame 0 kQuicInfiniteTimeUs [] [].
Definition LargestAcked (frame : QuicAckFrame) : Z := largest_acked frame.

Record QuicRstStreamFrame := mkRst { rst_stream_id : Z; rst_error_code : Z; rst_byte_offset : Z }.
Record QuicConnectionCloseFrame := mkClose { cc_error_code : Z; cc_error_details : list Z }.
Record QuicGoAwayFrame :=
  mkGoAway { ga_error_code : Z; ga_last_good_stream_id : Z; ga_reason_phrase : list Z }.
Record QuicWindowUpdateFrame := mkWindowUpdate { wu_stream_id : Z; wu_byte_offset : Z }.
Record QuicBlockedFrame := mkBlocked { bl_stream_id : Z }.
Record QuicStopWaitingFrame := mkStopWaiting { least_unacked : Z }.
Record QuicPaddingFrame := mkPadding { num_padding_bytes : Z }.
Record QuicStopSendingFrame := mkStopSending { ss_stream_id : Z; ss_application_error_code : Z }.
Record QuicPathChallengeFrame := mkPathChallenge { pc_data_buffer : list Z }.
Record QuicPathResponseFrame := mkPathResponse { pr_data_buffer : list Z }.
Record QuicIetfMaxStreamIdFrame := mkMaxStreamId { max_stream_id : Z }.
Record QuicIetfBlockedFrame := mkIetfBlocked { ibl_offset : Z }.
Record QuicIetfStreamIdBlockedFrame := mkStreamIdBlocked { sib_stream_id : Z }.

(** [QuicFrame]: the tagged union handed to the serializer.  [OTHER_FRAME]
    stands for the enumerators the serializer has no case for. *)
Inductive QuicFrame :=
  | PADDING_FRAME (f : QuicPaddingFrame)
  | RST_STREAM_FRAME (f : QuicRstStreamFrame)
  | CONNECTION_CLOSE_FRAME (f : QuicConnectionCloseFrame)
  | GOAWAY_FRAME (f : QuicGoAwayFrame)
  | WINDOW_UPDATE_FRAME (f : QuicWindowUpdateFrame)
  | BLOCKED_FRAME (f : QuicBlockedFrame)
  | STOP_WAITING_FRAME (f : QuicStopWaitingFrame)
  | PING_FRAME
  | STREAM_FRAME (f : QuicStreamFrame)
  | ACK_FRAME (f : QuicAckFrame)
  | MTU_DISCOVERY_FRAME
  | OTHER_FRAME (type : Z).

(** [frame.type] as a byte. *)
Definition frame_type_code (frame : QuicFrame) : Z :=
  match frame with
  | PADDING_FRAME _ => 0
  | RST_STREAM_FRAME _ => 1
  | CONNECTION_CLOSE_FRAME _ => 2
  | GOAWAY_FRAME _ => 3
  | WINDOW_UPDATE_FRAME _ => 4
  | BLOCKED_FRAME _ => 5
  | STOP_WAITING_FRAME _ => 6
  | PING_FRAME => 7
  | STREAM_FRAME _ => 8
  | ACK_FRAME _ => 9
  | MTU_DISCOVERY_FRAME => 10
  | OTHER_FRAME type => u8 type
  end.

(** ** Packets *)
Record QuicPacketHeader := mkHeader {
  connection_id : Z;
  connection_id_length : Z;
  reset_flag : bool;
  version_flag : bool;
  packet_number_length : Z;
  h_version : ParsedQuicVersion;
  nonce : option (list Z);
  packet_number : Z;
}.

(** The header object as constructed before parsing. *)
Definition emptyHeader : QuicPacketHeader :=
  mkHeader 0 PACKET_8BYTE_CONNECTION_ID false false PACKET_6BYTE_PACKET_NUMBER
    (mkVersion PROTOCOL_UNSUPPORTED 0) None 0.

Record QuicVersionNegotiationPacket := mkVersionNegotiation {
  vn_connection_id : Z;
  vn_versions : list ParsedQuicVersion;
}.

(** * Interfaces of the code the framer calls *)

(** Handshake messages and socket addresses (crypto_framer.h,
    quic_socket_address_coder.h). *)
Class HandshakeMessages := {
  CryptoHandshakeMessage : Type;
  ParseMessage : list Z -> Perspective -> option CryptoHandshakeMessage;
  message_tag : CryptoHandshakeMessage -> Z;
  GetUint64 : Z -> CryptoHandshakeMessage -> option Z;
  GetStringPiece : Z -> CryptoHandshakeMessage -> option (list Z);
  SocketAddress : Type;
  DecodeAddress : list Z -> option SocketAddress;
}.

Record QuicPublicResetPacket `{HandshakeMessages} := mkPublicReset {
  pr_connection_id : Z;
  pr_nonce_proof : Z;
  pr_client_address : option SocketAddress;
}.

(** [MyQuicFramerVisitorInterface].  A callback that returns [bool] yields it
    with the visitor's new state; [OnProtocolVersionMismatch] may also install a
    version in the framer, as its comment says. *)
Class MyQuicFramerVisitorInterface `{HandshakeMessages} := {
  Visitor : Type;
  OnError : Z -> string -> Visitor -> Visitor;
  OnProtocolVersionMismatch :
    ParsedQuicVersion -> Visitor -> bool * option ParsedQuicVersion * Visitor;
  OnPacket : Visitor -> Visitor;
  OnPublicResetPacket : QuicPublicResetPacket -> Visitor -> Visitor;
  OnVersionNegotiationPacket : QuicVersionNegotiationPacket -> Visitor -> Visitor;
  OnUnauthenticatedPublicHeader : QuicPacketHeader -> Visitor -> bool * Visitor;
  OnUnauthenticatedHeader : QuicPacketHeader -> Visitor -> bool * Visitor;
  OnDecryptedPacket : EncryptionLevel -> Visitor -> Visitor;
  OnPacketHeader : QuicPacketHeader -> Visitor -> bool * Visitor;
  OnStreamFrame : QuicStreamFrame -> Visitor -> bool * Visitor;
  OnAckFrame : QuicAckFrame -> Visitor -> bool * Visitor;
  OnAckFrameStart : Z -> Z -> Visitor -> bool * Visitor;
  OnAckRange : Z -> Z -> bool -> Visitor -> bool * Visitor;
  OnStopWaitingFrame : QuicStopWaitingFrame -> Visitor -> bool * Visitor;
  OnPaddingFrame : QuicPaddingFrame -> Visitor -> bool * Visitor;
  OnPingFrame : Visitor -> bool * Visitor;
  OnRstStreamFrame : QuicRstStreamFrame -> Visitor -> bool * Visitor;
  OnConnectionCloseFrame : QuicConnectionCloseFrame -> Visitor -> bool * Visitor;
  OnGoAwayFrame : QuicGoAwayFrame -> Visitor -> bool * Visitor;
  OnWindowUpdateFrame : QuicWindowUpdateFrame -> Visitor -> bool * Visitor;
  OnBlockedFrame : QuicBlockedFrame -> Visitor -> bool * Visitor;
  OnPacketComplete : Visitor -> Visitor;
}.

(** [QuicDecrypter] and [QuicEncrypter]: version, packet number, associated
    data, input, and the room for the output; [None] is failure. *)
Class Ciphers := {
  Decrypter : Type;
  DecryptPacket : Decrypter -> Z -> Z -> list Z -> list Z -> Z -> option (list Z);
  SetDiversificationNonce : list Z -> Decrypter -> Decrypter;
  Encrypter : Type;
  EncryptPacket : Encrypter -> Z -> Z -> list Z -> list Z -> Z -> option (list Z);
  GetMaxPlaintextSize_cipher : Encrypter -> Z -> Z;
}.

(** Version labels (quic_versions.h). *)
Class VersionLabels := {
  CreateQuicVersionLabel : ParsedQuicVersion -> Z;
  ParseQuicVersionLabel : Z -> ParsedQuicVersion;
}.

(** * The framer object *)
Section framer.
Context {HM : HandshakeMessages} {VI : MyQuicFramerVisitorInterface} {CI : Ciphers}.

(** my_quic_framer.h:574-628 *)
Record MyQuicFramer := mkFramer {
  detailed_error_ : string;
  visitor_ : Visitor;
  error_ : Z;
  largest_packet_number_ : Z;
  last_serialized_connection_id_ : Z;
  last_version_label_ : Z;
  last_packet_is_ietf_quic_ : bool;
  version_ : ParsedQuicVersion;
  supported_versions_ : list ParsedQuicVersion;
  decrypter_ : option Decrypter;
  alternative_decrypter_ : option Decrypter;
  decrypter_level_ : EncryptionLevel;
  alternative_decrypter_level_ : EncryptionLevel;
  alternative_decrypter_latch_ : bool;
  encrypter_ : EncryptionLevel -> option Encrypter;
  perspective_ : Perspective;
  validate_flags_ : bool;
  creation_time_ : Z;
  last_timestamp_ : Z;
  last_nonce_ : list Z;
  data_producer_ : option (Z -> Z -> Z -> M QuicDataWriter unit);
  use_incremental_ack_processing_ : bool;
}.

(** Assignments to the data members. *)
Definition set_detailed_error (x : string) (fr : MyQuicFramer) : MyQuicFramer :=
  mkFramer x (visitor_ fr) (error_ fr) (largest_packet_number_ fr)
    (last_serialized_connection_id_ fr) (last_version_label_ fr)
    (last_packet_is_ietf_quic_ fr) (version_ fr) (supported_versions_ fr) (decrypter_ fr)
    (alternative_decrypter_ fr) (decrypter_level_ fr) (alternative_decrypter_level_ fr)
    (alternative_decrypter_latch_ fr) (encrypter_ fr) (perspective_ fr)
    (validate_flags_ fr) (creation_time_ fr) (last_timestamp_ fr) (last_nonce_ fr)
    (data_producer_ fr) (use_incremental_ack_processing_ fr).
Definition set_visitor (x : Visitor) (fr : MyQuicFramer) : MyQuicFramer :=
  mkFramer (detailed_error_ fr) x (error_ fr) (largest_packet_number_ fr)
    (last_serialized_connection_id_ fr) (last_version_label_ fr)
    (last_packet_is_ietf_quic_ fr) (version_ fr) (supported_versions_ fr) (decrypter_ fr)
    (alternative_decrypter_ fr) (decrypter_level_ fr) (alternative_decrypter_level_ fr)
    (alternative_decrypter_latch_ fr) (encrypter_ fr) (perspective_ fr)
    (validate_flags_ fr) (creation_time_ fr) (last_timestamp_ fr) (last_nonce_ fr)
    (data_producer_ fr) (use_incremental_ack_processing_ fr).
Definition set_error (x : Z) (fr : MyQuicFramer) : MyQuicFramer :=
  mkFramer (detailed_error_ fr) (visitor_ fr) x (largest_packet_number_ fr)
    (last_serialized_connection_id_ fr) (last_version_label_ fr)
    (last_packet_is_ietf_quic_ fr) (version_ fr) (supported_versions_ fr) (decrypter_ fr)
    (alternative_decrypter_ fr) (decrypter_level_ fr) (alternative_decrypter_level_ fr)
    (alternative_decrypter_latch_ fr) (encrypter_ fr) (perspective_ fr)
    (validate_flags_ fr) (creation_time_ fr) (last_timestamp_ fr) (last_nonce_ fr)
    (data_producer_ fr) (use_incremental_ack_processing_ fr).
Definition set_largest_packet_number (x : Z) (fr : MyQuicFramer) : MyQuicFramer :=
  mkFramer (detailed_error_ fr) (visitor_ fr) (error_ fr) x
    (last_serialized_connection_id_ fr) (last_version_label_ fr)
    (last_packet_is_ietf_quic_ fr) (version_ fr) (supported_versions_ fr) (decrypter_ fr)
    (alternative_decrypter_ fr) (decrypter_level_ fr) (alternative_decrypter_level_ fr)
    (alternative_decrypter_latch_ fr) (encrypter_ fr) (perspective_ fr)
    (validate_flags_ fr) (creation_time_ fr) (last_timestamp_ fr) (last_nonce_ fr)
    (data_producer_ fr) (use_incremental_ack_processing_ fr).
Definition set_last_serialized_connection_id (x : Z) (fr : MyQuicFramer) : MyQuicFramer :=
  mkFramer (detailed_error_ fr) (visitor_ fr) (error_ fr) (largest_packet_number_ fr) x
    (last_version_label_ fr) (last_packet_is_ietf_quic_ fr) (version_ fr)
    (supported_versions_ fr) (decrypter_ fr) (alternative_decrypter_ fr)
    (decrypter_level_ fr) (alternative_decrypter_level_ fr)
    (alternative_decrypter_latch_ fr) (encrypter_ fr) (perspective_ fr)
    (validate_flags_ fr) (creation_time_ fr) (last_timestamp_ fr) (last_nonce_ fr)
    (data_producer_ fr) (use_incremental_ack_processing_ fr).
Definition set_last_version_label (x : Z) (fr : MyQuicFramer) : MyQuicFramer :=
  mkFramer (detailed_error_ fr) (visitor_ fr) (error_ fr) (largest_packet_number_ fr)
    (last_serialized_connection_id_ fr) x (last_packet_is_ietf_quic_ fr) (version_ fr)
    (supported_versions_ fr) (decrypter_ fr) (alternative_decrypter_ fr)
    (decrypter_level_ fr) (alternative_decrypter_level_ fr)
    (alternative_decrypter_latch_ fr) (encrypter_ fr) (perspective_ fr)
    (validate_flags_ fr) (creation_time_ fr) (last_timestamp_ fr) (last_nonce_ fr)
    (data_producer_ fr) (use_incremental_ack_processing_ fr).
Definition set_last_packet_is_ietf_quic (x : bool) (fr : MyQuicFramer) : MyQuicFramer :=
  mkFramer (detailed_error_ fr) (visitor_ fr) (error_ fr) (largest_packet_number_ fr)
    (last_serialized_connection_id_ fr) (last_version_label_ fr) x (version_ fr)
    (supported_versions_ fr) (decrypter_ fr) (alternative_decrypter_ fr)
    (decrypter_level_ fr) (alternative_decrypter_level_ fr)
    (alternative_decrypter_latch_ fr) (encrypter_ fr) (perspective_ fr)
    (validate_flags_ fr) (creation_time_ fr) (last_timestamp_ fr) (last_nonce_ fr)
    (data_producer_ fr) (use_incremental_ack_processing_ fr).
Definition set_version (x : ParsedQuicVersion) (fr : MyQuicFramer) : MyQuicFramer :=
  mkFramer (detailed_error_ fr) (visitor_ fr) (error_ fr) (largest_packet_number_ fr)
    (last_serialized_connection_id_ fr) (last_version_label_ fr)
    (last_packet_is_ietf_quic_ fr) x (supported_versions_ fr) (decrypter_ fr)
    (alternative_decrypter_ fr) (decrypter_level_ fr) (alternative_decrypter_level_ fr)
    (alternative_decrypter_latch_ fr) (encrypter_ fr) (perspective_ fr)
    (validate_flags_ fr) (creation_time_ fr) (last_timestamp_ fr) (last_nonce_ fr)
    (data_producer_ fr) (use_incremental_ack_processing_ fr).
Definition set_supported_versions (x : list ParsedQuicVersion) (fr : MyQuicFramer) : MyQuicFramer :=
  mkFramer (detailed_error_ fr) (visitor_ fr) (error_ fr) (largest_packet_number_ fr)
    (last_serialized_connection_id_ fr) (last_version_label_ fr)
    (last_packet_is_ietf_quic_ fr) (version_ fr) x (decrypter_ fr)
    (alternative_decrypter_ fr) (decrypter_level_ fr) (alternative_decrypter_level_ fr)
    (alternative_decrypter_latch_ fr) (encrypter_ fr) (perspective_ fr)
    (validate_flags_ fr) (creation_time_ fr) (last_timestamp_ fr) (last_nonce_ fr)
    (data_producer_ fr) (use_incremental_ack_processing_ fr).
Definition set_decrypter (x : option Decrypter) (fr : MyQuicFramer) : MyQuicFramer :=
  mkFramer (detailed_error_ fr) (visitor_ fr) (error_ fr) (largest_packet_number_ fr)
    (last_serialized_connection_id_ fr) (last_version_label_ fr)
    (last_packet_is_ietf_quic_ fr) (version_ fr) (supported_versions_ fr) x
    (alternative_decrypter_ fr) (decrypter_level_ fr) (alternative_decrypter_level_ fr)
    (alternative_decrypter_latch_ fr) (encrypter_ fr) (perspective_ fr)
    (validate_flags_ fr) (creation_time_ fr) (last_timestamp_ fr) (last_nonce_ fr)
    (data_producer_ fr) (use_incremental_ack_processing_ fr).
Definition set_alternative_decrypter (x : option Decrypter) (fr : MyQuicFramer) : MyQuicFramer :=
  mkFramer (detailed_error_ fr) (visitor_ fr) (error_ fr) (largest_packet_number_ fr)
    (last_serialized_connection_id_ fr) (last_version_label_ fr)
    (last_packet_is_ietf_quic_ fr) (version_ fr) (supported_versions_ fr) (decrypter_ fr)
    x (decrypter_level_ fr) (alternative_decrypter_level_ fr)
    (alternative_decrypter_latch_ fr) (encrypter_ fr) (perspective_ fr)
    (validate_flags_ fr) (creation_time_ fr) (last_timestamp_ fr) (last_nonce_ fr)
    (data_producer_ fr) (use_incremental_ack_processing_ fr).
Definition set_decrypter_level (x : EncryptionLevel) (fr : MyQuicFramer) : MyQuicFramer :=
  mkFramer (detailed_error_ fr) (visitor_ fr) (error_ fr) (largest_packet_number_ fr)
    (last_serialized_connection_id_ fr) (last_version_label_ fr)
    (last_packet_is_ietf_quic_ fr) (version_ fr) (supported_versions_ fr) (decrypter_ fr)
    (alternative_decrypter_ fr) x (alternative_decrypter_level_ fr)
    (alternative_decrypter_latch_ fr) (encrypter_ fr) (perspective_ fr)
    (validate_flags_ fr) (creation_time_ fr) (last_timestamp_ fr) (last_nonce_ fr)
    (data_producer_ fr) (use_incremental_ack_processing_ fr).
Definition set_alternative_decrypter_level (x : EncryptionLevel) (fr : MyQuicFramer) : MyQuicFramer :=
  mkFramer (detailed_error_ fr) (visitor_ fr) (error_ fr) (largest_packet_number_ fr)
    (last_serialized_connection_id_ fr) (last_version_label_ fr)
    (last_packet_is_ietf_quic_ fr) (version_ fr) (supported_versions_ fr) (decrypter_ fr)
    (alternative_decrypter_ fr) (decrypter_level_ fr) x (alternative_decrypter_latch_ fr)
    (encrypter_ fr) (perspective_ fr) (validate_flags_ fr) (creation_time_ fr)
    (last_timestamp_ fr) (last_nonce_ fr) (data_producer_ fr)
    (use_incremental_ack_processing_ fr).
Definition set_alternative_decrypter_latch (x : bool) (fr : MyQuicFramer) : MyQuicFramer :=
  mkFramer (detailed_error_ fr) (visitor_ fr) (error_ fr) (largest_packet_number_ fr)
    (last_serialized_connection_id_ fr) (last_version_label_ fr)
    (last_packet_is_ietf_quic_ fr) (version_ fr) (supported_versions_ fr) (decrypter_ fr)
    (alternative_decrypter_ fr) (decrypter_level_ fr) (alternative_decrypter_level_ fr) x
    (encrypter_ fr) (perspective_ fr) (validate_flags_ fr) (creation_time_ fr)
    (last_timestamp_ fr) (last_nonce_ fr) (data_producer_ fr)
    (use_incremental_ack_processing_ fr).
Definition set_encrypter (x : EncryptionLevel -> option Encrypter) (fr : MyQuicFramer) : MyQuicFramer :=
  mkFramer (detailed_error_ fr) (visitor_ fr) (error_ fr) (largest_packet_number_ fr)
    (last_serialized_connection_id_ fr) (last_version_label_ fr)
    (last_packet_is_ietf_quic_ fr) (version_ fr) (supported_versions_ fr) (decrypter_ fr)
    (alternative_decrypter_ fr) (decrypter_level_ fr) (alternative_decrypter_level_ fr)
    (alternative_decrypter_latch_ fr) x (perspective_ fr) (validate_flags_ fr)
    (creation_time_ fr) (last_timestamp_ fr) (last_nonce_ fr) (data_producer_ fr)
    (use_incremental_ack_processing_ fr).
Definition set_validate_flags (x : bool) (fr : MyQuicFramer) : MyQuicFramer :=
  mkFramer (detailed_error_ fr) (visitor_ fr) (error_ fr) (largest_packet_number_ fr)
    (last_serialized_connection_id_ fr) (last_version_label_ fr)
    (last_packet_is_ietf_quic_ fr) (version_ fr) (supported_versions_ fr) (decrypter_ fr)
    (alternative_decrypter_ fr) (decrypter_level_ fr) (alternative_decrypter_level_ fr)
    (alternative_decrypter_latch_ fr) (encrypter_ fr) (perspective_ fr) x
    (creation_time_ fr) (last_timestamp_ fr) (last_nonce_ fr) (data_producer_ fr)
    (use_incremental_ack_processing_ fr).
Definition set_last_timestamp (x : Z) (fr : MyQuicFramer) : MyQuicFramer :=
  mkFramer (detailed_error_ fr) (visitor_ fr) (error_ fr) (largest_packet_number_ fr)
    (last_serialized_connection_id_ fr) (last_version_label_ fr)
    (last_packet_is_ietf_quic_ fr) (version_ fr) (supported_versions_ fr) (decrypter_ fr)
    (alternative_decrypter_ fr) (decrypter_level_ fr) (alternative_decrypter_level_ fr)
    (alternative_decrypter_latch_ fr) (encrypter_ fr) (perspective_ fr)
    (validate_flags_ fr) (creation_time_ fr) x (last_nonce_ fr) (data_producer_ fr)
    (use_incremental_ack_processing_ fr).
Definition set_last_nonce (x : list Z) (fr : MyQuicFramer) : MyQuicFramer :=
  mkFramer (detailed_error_ fr) (visitor_ fr) (error_ fr) (largest_packet_number_ fr)
    (last_serialized_connection_id_ fr) (last_version_label_ fr)
    (last_packet_is_ietf_quic_ fr) (version_ fr) (supported_versions_ fr) (decrypter_ fr)
    (alternative_decrypter_ fr) (decrypter_level_ fr) (alternative_decrypter_level_ fr)
    (alternative_decrypter_latch_ fr) (encrypter_ fr) (perspective_ fr)
    (validate_flags_ fr) (creation_time_ fr) (last_timestamp_ fr) x (data_producer_ fr)
    (use_incremental_ack_processing_ fr).
Definition set_data_producer (x : option (Z -> Z -> Z -> M QuicDataWriter unit)) (fr : MyQuicFramer) : MyQuicFramer :=
  mkFramer (detailed_error_ fr) (visitor_ fr) (error_ fr) (largest_packet_number_ fr)
    (last_serialized_connection_id_ fr) (last_version_label_ fr)
    (last_packet_is_ietf_quic_ fr) (version_ fr) (supported_versions_ fr) (decrypter_ fr)
    (alternative_decrypter_ fr) (decrypter_level_ fr) (alternative_decrypter_level_ fr)
    (alternative_decrypter_latch_ fr) (encrypter_ fr) (perspective_ fr)
    (validate_flags_ fr) (creation_time_ fr) (last_timestamp_ fr) (last_nonce_ fr) x
    (use_incremental_ack_processing_ fr).

(** [MyQuicFramer::endianness] (lines 2941-2944). *)
Definition endianness (fr : MyQuicFramer) : Endianness :=
  if QUIC_VERSION_38 <? transport_version (version_ fr)
  then NETWORK_BYTE_ORDER else HOST_BYTE_ORDER.

(** [transport_version() != QUIC_VERSION_41], the test of every version-dependent layout. *)
Definition not_v41 (fr : MyQuicFramer) : bool :=
  negb (transport_version (version_ fr) =? QUIC_VERSION_41).

(** [RaiseError] (lines 2933-2939); its result is always [false]. *)
Definition RaiseError (error : Z) (fr : MyQuicFramer) : MyQuicFramer :=
  let fr := set_error error fr in
  set_visitor (OnError error (detailed_error_ fr) (visitor_ fr)) fr.

(** ** Parsing: the framer with the reader it was given *)
Record PState := mkP { fr : MyQuicFramer; rd : QuicDataReader }.
Definition on_fr (f : MyQuicFramer -> MyQuicFramer) (s : PState) : PState :=
  mkP (f (fr s)) (rd s).
Definition set_rd (r : QuicDataReader) (s : PState) : PState := mkP (fr s) r.

(** [if (!reader->m) { set_detailed_error(msg); return false; }] *)
Definition reading {A} (msg : string) (m : M QuicDataReader A) : M PState A :=
  or_fail (zoom rd set_rd m) (on_fr (set_detailed_error msg)).
(** [if (b) { set_detailed_error(msg); return false; }] *)
Definition reject_if (b : bool) (msg : string) : M PState unit :=
  fail_if b (on_fr (set_detailed_error msg)).
(** A visitor callback: its answer, with the visitor's new state stored. *)
Definition callback (f : Visitor -> bool * Visitor) : M PState bool := fun s =>
  let '(b, v) := f (visitor_ (fr s)) in (Some b, on_fr (set_visitor v) s).

(** ** Serializing: the framer with the writer it was given *)
Record WState := mkW { wfr : MyQuicFramer; wr : QuicDataWriter }.
Definition on_wfr (f : MyQuicFramer -> MyQuicFramer) (s : WState) : WState :=
  mkW (f (wfr s)) (wr s).
Definition set_wr (w : QuicDataWriter) (s : WState) : WState := mkW (wfr s) w.

(** [if (!writer->m) return false;] *)
Definition write {A} (m : M QuicDataWriter A) : M WState A := zoom wr set_wr m.
(** [if (!writer->m) { set_detailed_error(msg); return false; }] *)
Definition writing {A} (msg : string) (m : M QuicDataWriter A) : M WState A :=
  or_fail (write m) (on_wfr (set_detailed_error msg)).

(** ** The rules for these combinators *)
Lemma reads_reading {A} e f msg (m : M QuicDataReader A) bs a :
  reads e id m bs a -> reads e (mkP f) (reading msg m) bs a.
Proof. intros Hm. apply reads2_or_fail. by apply reads_zoom. Qed.

Lemma reads_reject_if e f b msg : b = false -> reads e (mkP f) (reject_if b msg) [] tt.
Proof. apply reads_fail_if. Qed.

Lemma reads_callback e f cb b v :
  cb (visitor_ f) = (b, v) -> reads2 e (mkP f) (mkP (set_visitor v f)) (callback cb) [] b.
Proof. intros Hc. apply reads2_pure. intros. unfold callback; simpl. by rewrite Hc. Qed.

Lemma writes_write {A} e f (m : M QuicDataWriter A) bs a :
  writes e id m bs a -> writes e (mkW f) (write m) bs a.
Proof. intros Hm. by apply writes_zoom. Qed.

Lemma writes_writing {A} e f msg (m : M QuicDataWriter A) bs a :
  writes e id m bs a -> writes e (mkW f) (writing msg m) bs a.
Proof. intros Hm. apply writes2_or_fail. by apply writes_zoom. Qed.
End framer.

#[export] Hint Resolve reads_reading reads_reject_if writes_write writes_writing : wire.

(** One step of a parser or serializer proof: peel the next bind, its first
    half solved from the [wire] rules. *)
Ltac rd_step := first
  [ eapply reads_bind; [solve [eauto with wire]|]
  | eapply reads_bind_0; [solve [eauto with wire]|]
  | eapply reads2_bind_keep; [solve [eauto with wire]|]
  | eapply reads2_bind_keep_0; [solve [eauto with wire]|] ].
Ltac wr_step := first
  [ eapply writes_bind; [solve [eauto with wire]|]
  | eapply writes_bind_0; [solve [eauto with wire]|]
  | eapply writes2_bind_keep; [solve [eauto with wire]|]
  | eapply writes2_bind_keep_0; [solve [eauto with wire]|] ].
