(* ===== verification/GoogleFrames.v ===== *)
(** The Google-QUIC frames other than ACK: sizes, serializers and parsers of
    quic/model/my_quic_framer.cc, and that each parser inverts its serializer.
    In the C++ a parser fills a frame the caller has constructed; the frame is
    looked at only when the parser returns [true], so it is the result here. *)
From S2P Require Import Prelude.
From S2P Require Import DataReader.
From S2P Require Import DataWriter.
From S2P Require Import Encodings.
From S2P Require Import PacketNumbers.
From S2P Require Import PacketNumberQueue.
From S2P Require Import FramerTypes.

Open Scope string_scope.
Open Scope list_scope.
Open Scope Z_scope.

(** * Bit fields (lines 1355-1379) *)
Definition GetMaskFromNumBits (num_bits : Z) : Z := u8 (Z.shiftl 1 num_bits - 1).
Definition ExtractBits (flags num_bits offset : Z) : Z :=
  Z.land (Z.shiftr flags offset) (GetMaskFromNumBits num_bits).
Definition ExtractBit (flags offset : Z) : bool :=
  negb (Z.land (Z.shiftr flags offset) (GetMaskFromNumBits 1) =? 0).
Definition SetBits (flags val num_bits offset : Z) : Z :=
  u8 (Z.lor flags (Z.shiftl val offset)).
Definition SetBit (flags : Z) (val : bool) (offset : Z) : Z :=
  SetBits flags (if val then 1 else 0) 1 offset.

(** * Sizes (lines 243-343) *)

(** [for (int i = 1; i <= 4; ++i) { stream_id >>= 8; if (!stream_id) return i; }] *)
Fixpoint stream_id_size_loop (n : nat) (i stream_id : Z) : Z :=
  match n with
  | O => 4
  | S n =>
    let stream_id := Z.shiftr stream_id 8 in
    if stream_id =? 0 then i else stream_id_size_loop n (i + 1) stream_id
  end.
Definition GetStreamIdSize (stream_id : Z) : Z := stream_id_size_loop 4 1 stream_id.

(** [for (int i = 2; i <= 8; ++i) { offset >>= 8; if (!offset) return i; }] *)
Fixpoint stream_offset_size_loop (n : nat) (i offset : Z) : Z :=
  match n with
  | O => 8
  | S n =>
    let offset := Z.shiftr offset 8 in
    if offset =? 0 then i else stream_offset_size_loop n (i + 1) offset
  end.

Definition GetStreamOffsetSize (version offset : Z) : Z :=
  if negb (version =? QUIC_VERSION_41) then
    if offset =? 0 then 0 else stream_offset_size_loop 7 2 (Z.shiftr offset 8)
  else if Z.shiftr offset (8 * 0) =? 0 then 0
  else if Z.shiftr offset (8 * 2) =? 0 then 2
  else if Z.shiftr offset (8 * 4) =? 0 then 4
  else 8.

Definition GetMinStreamFrameSize (version stream_id offset : Z) (last_frame_in_packet : bool) : Z :=
  kQuicFrameTypeSize + GetStreamIdSize stream_id + GetStreamOffsetSize version offset +
  (if last_frame_in_packet then 0 else kQuicStreamPayloadLengthSize).
Definition GetMinAckFrameSize (version largest_observed_length : Z) : Z :=
  kQuicFrameTypeSize + largest_observed_length + kQuicDeltaTimeLargestObservedSize +
  kQuicNumTimestampsSize.
Definition GetStopWaitingFrameSize (version packet_number_length : Z) : Z :=
  kQuicFrameTypeSize + packet_number_length.
Definition GetRstStreamFrameSize : Z :=
  kQuicFrameTypeSize + kQuicMaxStreamIdSize + kQuicMaxStreamOffsetSize + kQuicErrorCodeSize.
Definition GetMinConnectionCloseFrameSize : Z :=
  kQuicFrameTypeSize + kQuicErrorCodeSize + kQuicErrorDetailsLengthSize.
Definition GetMinGoAwayFrameSize : Z :=
  kQuicFrameTypeSize + kQuicErrorCodeSize + kQuicErrorDetailsLengthSize + kQuicMaxStreamIdSize.
Definition GetWindowUpdateFrameSize : Z :=
  kQuicFrameTypeSize + kQuicMaxStreamIdSize + kQuicMaxStreamOffsetSize.
Definition GetBlockedFrameSize : Z := kQuicFrameTypeSize + kQuicMaxStreamIdSize.
Definition GetVersionNegotiationPacketSize (number_versions : Z) : Z :=
  kPublicFlagsSize + PACKET_8BYTE_CONNECTION_ID + number_versions * kQuicVersionSize.

(** [TruncateErrorString] (lines 2964-2969). *)
Definition TruncateErrorString (error : list Z) : list Z :=
  if Z.of_nat (length error) <=? kMaxErrorStringLength then error
  else take (Z.to_nat kMaxErrorStringLength) error.

Section frames.
Context {HM : HandshakeMessages} {VI : MyQuicFramerVisitorInterface} {CI : Ciphers}.

(** * Serializers *)

(** Lines 2309-2350. *)
Definition AppendPacketNumber (packet_number_length packet_number : Z) : M QuicDataWriter unit :=
  _ ← fail_if (negb ((packet_number_length =? 1) || (packet_number_length =? 2) ||
               (packet_number_length =? 4) || (packet_number_length =? 6) ||
               (packet_number_length =? 8))) id;
  WriteBytesToUInt64 packet_number_length packet_number.
Definition AppendStreamId (stream_id_length stream_id : Z) : M QuicDataWriter unit :=
  _ ← fail_if ((stream_id_length =? 0) || (4 <? stream_id_length)) id;
  WriteBytesToUInt64 stream_id_length stream_id.
Definition AppendStreamOffset (offset_length offset : Z) : M QuicDataWriter unit :=
  _ ← fail_if ((offset_length =? 1) || (8 <? offset_length)) id;
  WriteBytesToUInt64 offset_length offset.
Definition AppendAckBlock (gap length_length length : Z) : M QuicDataWriter unit :=
  _ ← WriteUInt8 gap;
  AppendPacketNumber length_length length.

(** Lines 2715-2738. *)
Definition AppendStopWaitingFrame (header : QuicPacketHeader) (frame : QuicStopWaitingFrame)
    : M WState unit :=
  let least_unacked_delta := u64 (packet_number header - least_unacked frame) in
  let length_shift := packet_number_length header * 8 in
  _ ← fail_if (0 <? Z.shiftr least_unacked_delta length_shift) id;
  write (AppendPacketNumber (packet_number_length header) least_unacked_delta).

(** Lines 2838-2862. *)
Definition AppendRstStreamFrame (frame : QuicRstStreamFrame) : M WState unit :=
  pre ← gets (fun s : WState => not_v41 (wfr s));
  _ ← write (WriteUInt32 (rst_stream_id frame));
  _ ← (if pre : bool then write (WriteUInt64 (rst_byte_offset frame)) else mret tt);
  _ ← write (WriteUInt32 (rst_error_code frame));
  (if pre : bool then mret tt else write (WriteUInt64 (rst_byte_offset frame))).

(** Lines 2864-2912. *)
Definition AppendConnectionCloseFrame (frame : QuicConnectionCloseFrame) : M WState unit :=
  _ ← write (WriteUInt32 (cc_error_code frame));
  write (WriteStringPiece16 (TruncateErrorString (cc_error_details frame))).
Definition AppendGoAwayFrame (frame : QuicGoAwayFrame) : M WState unit :=
  _ ← write (WriteUInt32 (ga_error_code frame));
  _ ← write (WriteUInt32 (ga_last_good_stream_id frame));
  write (WriteStringPiece16 (TruncateErrorString (ga_reason_phrase frame))).
Definition AppendWindowUpdateFrame (frame : QuicWindowUpdateFrame) : M WState unit :=
  _ ← write (WriteUInt32 (wu_stream_id frame));
  write (WriteUInt64 (wu_byte_offset frame)).
Definition AppendBlockedFrame (frame : QuicBlockedFrame) : M WState unit :=
  write (WriteUInt32 (bl_stream_id frame)).

(** Lines 2914-2931. *)
Definition AppendPaddingFrame (frame : QuicPaddingFrame) : M WState unit := fun s =>
  if transport_version (version_ (wfr s)) <=? QUIC_VERSION_37 then write WritePadding s
  else if num_padding_bytes frame =? 0 then (None, s)
  else if num_padding_bytes frame <? 0 then write WritePadding s
  else write (WritePaddingBytes (num_padding_bytes frame - 1)) s.

(** * Parsers *)

(** Lines 1811-1827. *)
Definition ProcessStopWaitingFrame (header : QuicPacketHeader) : M PState QuicStopWaitingFrame :=
  least_unacked_delta ← reading "Unable to read least unacked delta."
                          (ReadBytesToUInt64 (packet_number_length header));
  _ ← reject_if (packet_number header <? least_unacked_delta) "Invalid unacked delta.";
  mret (mkStopWaiting (packet_number header - least_unacked_delta)).

(** Lines 1829-1864. *)
Definition ProcessRstStreamFrame : M PState QuicRstStreamFrame :=
  pre ← gets (fun s : PState => not_v41 (fr s));
  stream_id ← reading "Unable to read stream_id." ReadUInt32;
  byte_offset ← (if pre : bool
                 then reading "Unable to read rst stream sent byte offset." ReadUInt64
                 else mret 0);
  error_code ← reading "Unable to read rst stream error code." ReadUInt32;
  let error_code := if QUIC_STREAM_LAST_ERROR <=? error_code
                    then QUIC_STREAM_LAST_ERROR else error_code in
  byte_offset ← (if pre : bool then mret byte_offset
                 else reading "Unable to read rst stream sent byte offset." ReadUInt64);
  mret (mkRst stream_id error_code byte_offset).

(** Lines 1866-1889. *)
Definition ProcessConnectionCloseFrame : M PState QuicConnectionCloseFrame :=
  error_code ← reading "Unable to read connection close error code." ReadUInt32;
  let error_code := if QUIC_LAST_ERROR <=? error_code then QUIC_LAST_ERROR else error_code in
  error_details ← reading "Unable to read connection close error details." ReadStringPiece16;
  mret (mkClose error_code error_details).

(** Lines 1891-1920. *)
Definition ProcessGoAwayFrame : M PState QuicGoAwayFrame :=
  error_code ← reading "Unable to read go away error code." ReadUInt32;
  let error_code := if QUIC_LAST_ERROR <=? error_code then QUIC_LAST_ERROR else error_code in
  stream_id ← reading "Unable to read last good stream id." ReadUInt32;
  reason_phrase ← reading "Unable to read goaway reason." ReadStringPiece16;
  mret (mkGoAway error_code stream_id reason_phrase).

(** Lines 1922-1945. *)
Definition ProcessWindowUpdateFrame : M PState QuicWindowUpdateFrame :=
  stream_id ← reading "Unable to read stream_id." ReadUInt32;
  byte_offset ← reading "Unable to read window byte_offset." ReadUInt64;
  mret (mkWindowUpdate stream_id byte_offset).
Definition ProcessBlockedFrame : M PState QuicBlockedFrame :=
  stream_id ← reading "Unable to read stream_id." ReadUInt32;
  mret (mkBlocked stream_id).

(** The loop of lines 1957-1961; [n] bounds the bytes left in the buffer. *)
Fixpoint padding_loop (n : nat) (num_padding_bytes : Z) (r : QuicDataReader)
    : Z * QuicDataReader :=
  match n with
  | O => (num_padding_bytes, r)
  | S n =>
    if negb (IsDoneReading r) && (PeekByte r =? 0)
    then padding_loop n (num_padding_bytes + 1) (snd (ReadBytes 1 r))
    else (num_padding_bytes, r)
  end.

(** Lines 1947-1962. *)
Definition ProcessPaddingFrame : M PState QuicPaddingFrame := fun s =>
  if transport_version (version_ (fr s)) <=? QUIC_VERSION_37 then
    let n := BytesRemaining (rd s) + 1 in
    (Some (mkPadding n), set_rd (snd (ReadRemainingPayload (rd s))) s)
  else
    let '(n, r) := padding_loop (Z.to_nat (BytesRemaining (rd s))) 1 (rd s) in
    (Some (mkPadding n), set_rd r s).

(** * Wire formats and round trips of the control frames *)

(** A frame whose error code is one the enumeration knows is delivered as
    sent; any other code is folded into the last enumerator. *)
Definition clamp_code (last code : Z) : Z := if last <=? code then last else code.

Definition wire_rst (e : Endianness) (pre : bool) (frame : QuicRstStreamFrame) : list Z :=
  wire_uint e 4 (rst_stream_id frame) ++
  (if pre then wire_uint e 8 (rst_byte_offset frame) else []) ++
  wire_uint e 4 (rst_error_code frame) ++
  (if pre then [] else wire_uint e 8 (rst_byte_offset frame)).

Lemma writes_if {S A} e (i : QuicDataWriter -> S) (b : bool) (m1 m2 : M S A) bs1 bs2 a :
  writes e i m1 bs1 a -> writes e i m2 bs2 a ->
  writes e i (if b then m1 else m2) (if b then bs1 else bs2) a.
Proof. by destruct b. Qed.

Lemma AppendRstStreamFrame_writes e f frame :
  writes e (mkW f) (AppendRstStreamFrame frame) (wire_rst e (not_v41 f) frame) tt.
Proof.
  eapply writes_bind_0; [by apply (writes_gets e (mkW f) _ (not_v41 f))|].
  wr_step. eapply writes_bind; [apply writes_if; [by eauto with wire|apply writes_ret]|].
  wr_step. apply writes_if; [apply writes_ret|by eauto with wire].
Qed.

Lemma ProcessRstStreamFrame_reads e f frame :
  fits 32 (rst_stream_id frame) -> fits 64 (rst_byte_offset frame) ->
  fits 32 (rst_error_code frame) ->
  reads e (mkP f) ProcessRstStreamFrame (wire_rst e (not_v41 f) frame)
    (mkRst (rst_stream_id frame) (clamp_code QUIC_STREAM_LAST_ERROR (rst_error_code frame))
       (rst_byte_offset frame)).
Proof.
  intros H1 H2 H3. unfold ProcessRstStreamFrame, wire_rst.
  eapply reads_bind_0; [by apply (reads_gets e (mkP f) _ (not_v41 f))|].
  rd_step. destruct (not_v41 f); cbn [app].
  - rd_step. rd_step. eapply reads_bind_0; apply reads_ret.
  - eapply reads_bind_0; [apply reads_ret|]. rd_step.
    eapply reads_bind_nil; [by eauto with wire|apply reads_ret].
Qed.

Definition wire_close (e : Endianness) (frame : QuicConnectionCloseFrame) : list Z :=
  let details := TruncateErrorString (cc_error_details frame) in
  wire_uint e 4 (cc_error_code frame) ++ wire_uint e 2 (Z.of_nat (length details)) ++ details.

Lemma length_TruncateErrorString s : Z.of_nat (length (TruncateErrorString s)) <= 256.
Proof.
  unfold TruncateErrorString, kMaxErrorStringLength.
  destruct (Z.leb_spec (Z.of_nat (length s)) 256); [done|]. rewrite length_take. lia.
Qed.

Lemma Truncate_fits s : fits 16 (Z.of_nat (length (TruncateErrorString s))).
Proof. pose proof (length_TruncateErrorString s). unfold fits. lia. Qed.

Lemma AppendConnectionCloseFrame_writes e f frame :
  writes e (mkW f) (AppendConnectionCloseFrame frame) (wire_close e frame) tt.
Proof. wr_step. apply writes_write, WriteStringPiece16_writes, Truncate_fits. Qed.

Lemma ProcessConnectionCloseFrame_reads e f frame :
  fits 32 (cc_error_code frame) ->
  reads e (mkP f) ProcessConnectionCloseFrame (wire_close e frame)
    (mkClose (clamp_code QUIC_LAST_ERROR (cc_error_code frame))
       (TruncateErrorString (cc_error_details frame))).
Proof.
  intros H1. rd_step. eapply reads_bind_nil; [|apply reads_ret].
  apply reads_reading, ReadStringPiece16_reads, Truncate_fits.
Qed.

Definition wire_goaway (e : Endianness) (frame : QuicGoAwayFrame) : list Z :=
  let reason := TruncateErrorString (ga_reason_phrase frame) in
  wire_uint e 4 (ga_error_code frame) ++ wire_uint e 4 (ga_last_good_stream_id frame) ++
  wire_uint e 2 (Z.of_nat (length reason)) ++ reason.

Lemma AppendGoAwayFrame_writes e f frame :
  writes e (mkW f) (AppendGoAwayFrame frame) (wire_goaway e frame) tt.
Proof. do 2 wr_step. apply writes_write, WriteStringPiece16_writes, Truncate_fits. Qed.

Lemma ProcessGoAwayFrame_reads e f frame :
  fits 32 (ga_error_code frame) -> fits 32 (ga_last_good_stream_id frame) ->
  reads e (mkP f) ProcessGoAwayFrame (wire_goaway e frame)
    (mkGoAway (clamp_code QUIC_LAST_ERROR (ga_error_code frame)) (ga_last_good_stream_id frame)
       (TruncateErrorString (ga_reason_phrase frame))).
Proof.
  intros H1 H2. do 2 rd_step. eapply reads_bind_nil; [|apply reads_ret].
  apply reads_reading, ReadStringPiece16_reads, Truncate_fits.
Qed.

Definition wire_window_update (e : Endianness) (frame : QuicWindowUpdateFrame) : list Z :=
  wire_uint e 4 (wu_stream_id frame) ++ wire_uint e 8 (wu_byte_offset frame).

Lemma AppendWindowUpdateFrame_writes e f frame :
  writes e (mkW f) (AppendWindowUpdateFrame frame) (wire_window_update e frame) tt.
Proof. wr_step. by eauto with wire. Qed.

Lemma ProcessWindowUpdateFrame_reads e f frame :
  fits 32 (wu_stream_id frame) -> fits 64 (wu_byte_offset frame) ->
  reads e (mkP f) ProcessWindowUpdateFrame (wire_window_update e frame) frame.
Proof.
  intros H1 H2. rd_step. eapply reads_bind_nil; [by eauto with wire|].
  destruct frame. apply reads_ret.
Qed.

Definition wire_blocked (e : Endianness) (frame : QuicBlockedFrame) : list Z :=
  wire_uint e 4 (bl_stream_id frame).

Lemma AppendBlockedFrame_writes e f frame :
  writes e (mkW f) (AppendBlockedFrame frame) (wire_blocked e frame) tt.
Proof. by apply writes_write, WriteUInt32_writes. Qed.

Lemma ProcessBlockedFrame_reads e f frame :
  fits 32 (bl_stream_id frame) ->
  reads e (mkP f) ProcessBlockedFrame (wire_blocked e frame) frame.
Proof.
  intros H1. eapply reads_bind_nil; [by eauto with wire|]. destruct frame. apply reads_ret.
Qed.

(** STOP_WAITING is relative to the packet number of its own packet. *)
Definition wire_stop_waiting (e : Endianness) (header : QuicPacketHeader)
    (frame : QuicStopWaitingFrame) : list Z :=
  wire_uint e (Z.to_nat (packet_number_length header))
    (packet_number header - least_unacked frame).

Definition valid_length (n : Z) : Prop := n ∈ [1; 2; 4; 6; 8].

Lemma valid_length_bounds n : valid_length n -> 1 <= n <= 8.
Proof. unfold valid_length. rewrite !elem_of_cons, elem_of_nil. lia. Qed.

Lemma AppendPacketNumber_writes e n pn :
  valid_length n ->
  writes e id (AppendPacketNumber n pn) (wire_uint e (Z.to_nat n) pn) tt.
Proof.
  intros Hn. eapply writes_bind_0.
  - apply writes_fail_if. unfold valid_length in Hn. rewrite !elem_of_cons, elem_of_nil in Hn.
    destruct Hn as [->|[->|[->|[->|[->|[]]]]]]; done.
  - apply WriteBytesToUInt64_writes'. apply valid_length_bounds in Hn. lia.
Qed.

Lemma AppendStopWaitingFrame_writes e f header frame :
  valid_length (packet_number_length header) -> fits 64 (packet_number header) ->
  0 <= least_unacked frame <= packet_number header ->
  packet_number header - least_unacked frame < 256 ^ packet_number_length header ->
  writes e (mkW f) (AppendStopWaitingFrame header frame)
    (wire_stop_waiting e header frame) tt.
Proof.
  intros Hl Hp Hu Hd. pose proof (valid_length_bounds _ Hl) as Hb.
  unfold AppendStopWaitingFrame. unfold fits in Hp.
  rewrite wrap_small by (unfold fits; lia).
  eapply writes_bind_0; [|by apply writes_write, AppendPacketNumber_writes].
  apply writes_fail_if, Z.ltb_ge. rewrite Z.shiftr_div_pow2 by lia.
  rewrite Z.div_small; [lia|]. split; [lia|].
  replace (packet_number_length header * 8) with (8 * packet_number_length header) by lia.
  rewrite Z.pow_mul_r by lia. done.
Qed.

Lemma ProcessStopWaitingFrame_reads e f header frame :
  valid_length (packet_number_length header) ->
  0 <= least_unacked frame <= packet_number header ->
  packet_number header - least_unacked frame < 256 ^ packet_number_length header ->
  reads e (mkP f) (ProcessStopWaitingFrame header) (wire_stop_waiting e header frame) frame.
Proof.
  intros Hl Hu Hd. apply valid_length_bounds in Hl.
  eapply reads_bind_nil; [apply reads_reading, ReadBytesToUInt64_reads'; lia|].
  eapply reads_bind_0; [apply reads_reject_if, Z.ltb_ge; lia|].
  replace (mkStopWaiting _) with frame by (destruct frame; simpl; f_equal; lia).
  apply reads_ret.
Qed.
End frames.
