(* ===== verification/StreamFrames.v ===== *)
(** STREAM and PADDING frames of Google QUIC (quic/model/my_quic_framer.cc): the
    frame type byte, the variable-width stream id and offset, and the two ways a
    stream frame ends (an explicit length, or the end of the packet). *)
From S2P Require Import Prelude.
From S2P Require Import DataReader.
From S2P Require Import DataWriter.
From S2P Require Import Encodings.
From S2P Require Import PacketNumbers.
From S2P Require Import PacketNumberQueue.
From S2P Require Import FramerTypes.
From S2P Require Import GoogleFrames.

Open Scope string_scope.
Open Scope list_scope.
Open Scope Z_scope.

(** * The type byte of a stream frame *)

(** Lines 2238-2258: 1fdooossb. *)
Definition stream_type_pre40 (fin no_stream_frame_length : bool) (offset_len id_len : Z) : Z :=
  let type_byte := Z.lor 0 (if fin then kQuicStreamFinMask_Pre40 else 0) in
  let type_byte := u8 (Z.shiftl type_byte kQuicStreamDataLengthShift_Pre40) in
  let type_byte :=
    Z.lor type_byte (if no_stream_frame_length then 0 else kQuicStreamDataLengthMask_Pre40) in
  let type_byte := u8 (Z.shiftl type_byte kQuicStreamShift_Pre40) in
  let type_byte := if 0 <? offset_len then u8 (Z.lor type_byte (offset_len - 1)) else type_byte in
  let type_byte := u8 (Z.shiftl type_byte kQuicStreamIdShift_Pre40) in
  let type_byte := u8 (Z.lor type_byte (id_len - 1)) in
  Z.lor type_byte kQuicFrameTypeStreamMask_Pre40.

(** Lines 2260-2291: 11FSSOOD. *)
Definition stream_type_v41 (fin no_stream_frame_length : bool) (offset_len id_len : Z) : Z :=
  let type_byte := SetBit 0 fin kQuicStreamFinShift in
  let type_byte := SetBit type_byte (negb no_stream_frame_length) kQuicStreamDataLengthShift in
  let offset_len_encode :=
    if offset_len =? 0 then 0 else if offset_len =? 2 then 1
    else if offset_len =? 4 then 2 else if offset_len =? 8 then 3 else 3 in
  let type_byte := SetBits type_byte offset_len_encode kQuicStreamOffsetNumBits
                     kQuicStreamOffsetShift in
  let type_byte := SetBits type_byte (u8 (id_len - 1)) kQuicStreamIDLengthNumBits
                     kQuicStreamIDLengthShift in
  Z.lor type_byte kQuicFrameTypeStreamMask.

(** Lines 1385-1427: the fields of the type byte, as (stream id length, offset
    length, has data length, fin). *)
Definition stream_flags_pre40 (frame_type : Z) : Z * Z * bool * bool :=
  let stream_flags := Z.land frame_type (u8 (Z.lnot kQuicFrameTypeStreamMask_Pre40)) in
  let stream_id_length := Z.land stream_flags kQuicStreamIDLengthMask_Pre40 + 1 in
  let stream_flags := Z.shiftr stream_flags kQuicStreamIdShift_Pre40 in
  let offset_length := Z.land stream_flags kQuicStreamOffsetMask_Pre40 in
  let offset_length := if 0 <? offset_length then offset_length + 1 else offset_length in
  let stream_flags := Z.shiftr stream_flags kQuicStreamShift_Pre40 in
  let has_data_length :=
    Z.land stream_flags kQuicStreamDataLengthMask_Pre40 =? kQuicStreamDataLengthMask_Pre40 in
  let stream_flags := Z.shiftr stream_flags kQuicStreamDataLengthShift_Pre40 in
  let fin := Z.land stream_flags kQuicStreamFinMask_Pre40 =? kQuicStreamFinShift_Pre40 in
  (stream_id_length, offset_length, has_data_length, fin).

Definition stream_flags_v41 (frame_type : Z) : Z * Z * bool * bool :=
  let stream_flags := Z.land frame_type (u8 (Z.lnot kQuicFrameTypeStreamMask)) in
  let stream_id_length :=
    1 + ExtractBits stream_flags kQuicStreamIDLengthNumBits kQuicStreamIDLengthShift in
  let offset_length :=
    Z.shiftl 1 (ExtractBits stream_flags kQuicStreamOffsetNumBits kQuicStreamOffsetShift) in
  let offset_length := if offset_length =? 1 then 0 else offset_length in
  let has_data_length := ExtractBit stream_flags kQuicStreamDataLengthShift in
  let fin := ExtractBit stream_flags kQuicStreamFinShift in
  (stream_id_length, offset_length, has_data_length, fin).

Section stream.
Context {HM : HandshakeMessages} {VI : MyQuicFramerVisitorInterface} {CI : Ciphers}.

(** The type byte of a frame (lines 2228-2303); ACK frames write their own. *)
Definition type_byte_of (fr : MyQuicFramer) (frame : QuicFrame) (no_stream_frame_length : bool) : Z :=
  match frame with
  | STREAM_FRAME f =>
    let offset_len := GetStreamOffsetSize (transport_version (version_ fr)) (sf_offset f) in
    let id_len := GetStreamIdSize (sf_stream_id f) in
    if not_v41 fr then stream_type_pre40 (sf_fin f) no_stream_frame_length offset_len id_len
    else stream_type_v41 (sf_fin f) no_stream_frame_length offset_len id_len
  | MTU_DISCOVERY_FRAME => frame_type_code PING_FRAME
  | _ => frame_type_code frame
  end.

Definition AppendTypeByte (frame : QuicFrame) (no_stream_frame_length : bool) : M WState unit :=
  fun s =>
  match frame with
  | ACK_FRAME _ => (Some tt, s)
  | _ => write (WriteUInt8 (type_byte_of (wfr s) frame no_stream_frame_length)) s
  end.

(** Lines 2352-2392.  [data_buffer] is the memory the frame points to. *)
Definition AppendStreamFrame (frame : QuicStreamFrame) (no_stream_frame_length : bool)
    : M WState unit :=
  version ← gets (fun s : WState => transport_version (version_ (wfr s)));
  producer ← gets (fun s : WState => data_producer_ (wfr s));
  _ ← write (AppendStreamId (GetStreamIdSize (sf_stream_id frame)) (sf_stream_id frame));
  _ ← write (AppendStreamOffset (GetStreamOffsetSize version (sf_offset frame)) (sf_offset frame));
  _ ← (if no_stream_frame_length then mret tt
       else _ ← fail_if (0xffff <? sf_data_length frame) id;
            write (WriteUInt16 (u16 (sf_data_length frame))));
  match (producer : option (Z -> Z -> Z -> M QuicDataWriter unit)) with
  | Some WriteStreamData =>
    if sf_data_length frame =? 0 then mret tt
    else write (WriteStreamData (sf_stream_id frame) (sf_offset frame) (sf_data_length frame))
  | None => write (WriteBytes (take (Z.to_nat (sf_data_length frame)) (sf_data_buffer frame)))
  end.

(** Lines 1382-1458. *)
Definition ProcessStreamFrame (frame_type : Z) : M PState QuicStreamFrame :=
  pre ← gets (fun s : PState => not_v41 (fr s));
  let '(stream_id_length, offset_length, has_data_length, fin) :=
    if pre : bool then stream_flags_pre40 frame_type else stream_flags_v41 frame_type in
  stream_id ← reading "Unable to read stream_id." (ReadBytesToUInt64 stream_id_length);
  offset ← reading "Unable to read offset." (ReadBytesToUInt64 offset_length);
  data ← (if has_data_length : bool
          then reading "Unable to read frame data." ReadStringPiece16
          else remaining ← gets (fun s : PState => BytesRemaining (rd s));
               reading "Unable to read frame data." (ReadStringPiece remaining));
  mret (mkStreamFrame (u32 stream_id) fin offset data (u16 (Z.of_nat (length data)))).

(** * Widths of the variable fields *)

Lemma shiftr8 x : Z.shiftr x 8 = x / 256.
Proof. by rewrite Z.shiftr_div_pow2 by lia. Qed.

Lemma GetStreamIdSize_spec id :
  fits 32 id ->
  let n := GetStreamIdSize id in
  1 <= n <= 4 /\ id < 256 ^ n /\ (forall m, 1 <= m < n -> 256 ^ m <= id).
Proof.
  unfold fits. intros Hid. unfold GetStreamIdSize. cbn [stream_id_size_loop].
  rewrite !shiftr8. change (1 + 1) with 2. change (2 + 1) with 3. change (3 + 1) with 4.
  assert (Hm : forall n m, 1 <= m < n -> n <= 4 -> m = 1 \/ m = 2 \/ m = 3) by lia.
  repeat case_match; zbool; (split; [lia|split; [dlia|]]); intros m Hm';
    destruct (Hm _ _ Hm' ltac:(lia)) as [->|[->| ->]]; dlia.
Qed.

Lemma GetStreamOffsetSize_spec v off :
  fits 64 off ->
  let n := GetStreamOffsetSize v off in
  off < 256 ^ n /\
  n ∈ (if negb (v =? QUIC_VERSION_41) then [0; 2; 3; 4; 5; 6; 7; 8] else [0; 2; 4; 8]).
Proof.
  unfold fits. intros Ho. unfold GetStreamOffsetSize.
  destruct (v =? QUIC_VERSION_41); cbn [negb].
  - rewrite !Z.shiftr_div_pow2 by lia. rewrite !elem_of_cons, elem_of_nil.
    repeat case_match; zbool; split; try dlia; tauto.
  - cbn [stream_offset_size_loop]. rewrite !shiftr8, !elem_of_cons, elem_of_nil.
    change (2 + 1) with 3. change (3 + 1) with 4. change (4 + 1) with 5.
    change (5 + 1) with 6. change (6 + 1) with 7. change (7 + 1) with 8.
    rewrite !Z.div_div by lia.
    repeat case_match; zbool; split; try tauto; dlia.
Qed.

Lemma stream_flags_roundtrip_pre40 fin nolen off_len id_len :
  off_len ∈ [0; 2; 3; 4; 5; 6; 7; 8] -> 1 <= id_len <= 4 ->
  stream_flags_pre40 (stream_type_pre40 fin nolen off_len id_len) =
  (id_len, off_len, negb nolen, fin).
Proof.
  intros Ho Hi. assert (Hi' : id_len ∈ [1; 2; 3; 4])
    by (rewrite !elem_of_cons, elem_of_nil; lia).
  rewrite !elem_of_cons, elem_of_nil in Ho. rewrite !elem_of_cons, elem_of_nil in Hi'.
  destruct fin, nolen; destruct_or?; subst; try done; reflexivity.
Qed.

Lemma stream_flags_roundtrip_v41 fin nolen off_len id_len :
  off_len ∈ [0; 2; 4; 8] -> 1 <= id_len <= 4 ->
  stream_flags_v41 (stream_type_v41 fin nolen off_len id_len) =
  (id_len, off_len, negb nolen, fin).
Proof.
  intros Ho Hi. assert (Hi' : id_len ∈ [1; 2; 3; 4])
    by (rewrite !elem_of_cons, elem_of_nil; lia).
  rewrite !elem_of_cons, elem_of_nil in Ho. rewrite !elem_of_cons, elem_of_nil in Hi'.
  destruct fin, nolen; destruct_or?; subst; try done; reflexivity.
Qed.

(** The type byte determines the field widths for the parser. *)
Lemma stream_flags_of_type f frame nolen :
  fits 32 (sf_stream_id frame) -> fits 64 (sf_offset frame) ->
  (if not_v41 f then stream_flags_pre40 (type_byte_of f (STREAM_FRAME frame) nolen)
   else stream_flags_v41 (type_byte_of f (STREAM_FRAME frame) nolen)) =
  (GetStreamIdSize (sf_stream_id frame),
   GetStreamOffsetSize (transport_version (version_ f)) (sf_offset frame),
   negb nolen, sf_fin frame).
Proof.
  intros Hid Hoff. destruct (GetStreamIdSize_spec _ Hid) as (Hi & _ & _).
  destruct (GetStreamOffsetSize_spec (transport_version (version_ f)) _ Hoff) as [_ Ho].
  cbn [type_byte_of]. unfold not_v41 in *.
  destruct (transport_version (version_ f) =? QUIC_VERSION_41); cbn [negb] in *.
  - by apply stream_flags_roundtrip_v41.
  - by apply stream_flags_roundtrip_pre40.
Qed.

(** * Round trip *)

(** The header fields after the type byte. *)
Definition wire_stream_fields (e : Endianness) (v : Z) (frame : QuicStreamFrame) : list Z :=
  wire_uint e (Z.to_nat (GetStreamIdSize (sf_stream_id frame))) (sf_stream_id frame) ++
  wire_uint e (Z.to_nat (GetStreamOffsetSize v (sf_offset frame))) (sf_offset frame).

(** A frame as sent: its length field agrees with the memory it points to. *)
Definition stream_frame_ok (frame : QuicStreamFrame) : Prop :=
  fits 32 (sf_stream_id frame) /\ fits 64 (sf_offset frame) /\
  fits 16 (sf_data_length frame) /\
  sf_data_length frame = Z.of_nat (length (sf_data_buffer frame)).

Definition wire_stream (e : Endianness) (v : Z) (frame : QuicStreamFrame) (nolen : bool) : list Z :=
  wire_stream_fields e v frame ++
  (if nolen then [] else wire_uint e 2 (sf_data_length frame)) ++ sf_data_buffer frame.

Lemma AppendStreamId_writes e n x :
  1 <= n <= 4 -> writes e id (AppendStreamId n x) (wire_uint e (Z.to_nat n) x) tt.
Proof.
  intros Hn. eapply writes_bind_0; [apply writes_fail_if|apply WriteBytesToUInt64_writes'; lia].
  apply orb_false_iff. rewrite Z.eqb_neq, Z.ltb_ge. lia.
Qed.

Lemma AppendStreamOffset_writes e n x :
  0 <= n <= 8 -> n <> 1 ->
  writes e id (AppendStreamOffset n x) (wire_uint e (Z.to_nat n) x) tt.
Proof.
  intros Hn H1. eapply writes_bind_0; [apply writes_fail_if|apply WriteBytesToUInt64_writes'; lia].
  apply orb_false_iff. rewrite Z.eqb_neq, Z.ltb_ge. lia.
Qed.

Lemma offset_size_range v off :
  fits 64 off -> 0 <= GetStreamOffsetSize v off <= 8 /\ GetStreamOffsetSize v off <> 1.
Proof.
  intros Ho. destruct (GetStreamOffsetSize_spec v off Ho) as [_ Hn].
  destruct (negb _); rewrite !elem_of_cons, elem_of_nil in Hn; lia.
Qed.

Lemma AppendStreamFrame_writes e f frame nolen :
  stream_frame_ok frame -> data_producer_ f = None ->
  writes e (mkW f) (AppendStreamFrame frame nolen)
    (wire_stream e (transport_version (version_ f)) frame nolen) tt.
Proof.
  intros (Hid & Hoff & Hlen & Hdata) Hp. unfold AppendStreamFrame, wire_stream, wire_stream_fields.
  eapply writes_bind_0; [by apply (writes_gets e (mkW f) _ (transport_version (version_ f)))|].
  eapply writes_bind_0; [by apply (writes_gets e (mkW f) _ None)|].
  rewrite <- app_assoc.
  eapply writes_bind; [apply writes_write, AppendStreamId_writes, (GetStreamIdSize_spec _ Hid)|].
  eapply writes_bind.
  { destruct (offset_size_range (transport_version (version_ f)) _ Hoff).
    by apply writes_write, AppendStreamOffset_writes. }
  eapply writes_bind.
  - apply writes_if; [apply writes_ret|].
    eapply writes_bind_0; [apply writes_fail_if, Z.ltb_ge; unfold fits in Hlen; lia|].
    rewrite wrap_small by done. by eauto with wire.
  - rewrite Hdata, Nat2Z.id, firstn_all. apply writes_write, WriteBytes_writes.
Qed.

(** The parser up to the payload. *)
Lemma ProcessStreamFrame_fields e f frame nolen i2 bs a :
  stream_frame_ok frame ->
  (let data_step :=
     if negb nolen then reading "Unable to read frame data." ReadStringPiece16
     else remaining ← gets (fun s : PState => BytesRemaining (rd s));
          reading "Unable to read frame data." (ReadStringPiece remaining) in
   reads2 e (mkP f) i2
     (data ← data_step;
      mret (mkStreamFrame (sf_stream_id frame) (sf_fin frame) (sf_offset frame) data
              (u16 (Z.of_nat (length data))))) bs a) ->
  reads2 e (mkP f) i2
    (ProcessStreamFrame (type_byte_of f (STREAM_FRAME frame) nolen))
    (wire_stream_fields e (transport_version (version_ f)) frame ++ bs) a.
Proof.
  intros (Hid & Hoff & _) Hk. unfold ProcessStreamFrame, wire_stream_fields.
  eapply reads2_bind_keep_0; [by apply (reads_gets e (mkP f) _ (not_v41 f))|].
  cbv beta. rewrite stream_flags_of_type by done. rewrite <- app_assoc.
  destruct (GetStreamIdSize_spec _ Hid) as (Hi & Hib & _).
  destruct (offset_size_range (transport_version (version_ f)) _ Hoff) as [Hn _].
  destruct (GetStreamOffsetSize_spec (transport_version (version_ f)) _ Hoff) as [Hob _].
  unfold fits in Hid, Hoff.
  eapply reads2_bind_keep; [apply reads_reading, ReadBytesToUInt64_reads'; lia|].
  eapply reads2_bind_keep; [apply reads_reading, ReadBytesToUInt64_reads'; lia|].
  rewrite (wrap_small 32) by done. exact Hk.
Qed.

(** With an explicit length the frame is self-delimiting. *)
Lemma ProcessStreamFrame_reads e f frame :
  stream_frame_ok frame ->
  reads e (mkP f) (ProcessStreamFrame (type_byte_of f (STREAM_FRAME frame) false))
    (wire_stream e (transport_version (version_ f)) frame false) frame.
Proof.
  intros Hok. apply ProcessStreamFrame_fields; [done|]. cbv zeta. cbn [negb].
  destruct Hok as (_ & _ & Hlen & Hdata). rewrite Hdata in *.
  eapply reads_bind_nil; [by apply reads_reading, ReadStringPiece16_reads|].
  rewrite wrap_small by done. rewrite <- Hdata. destruct frame. apply reads_ret.
Qed.

(** Without one it extends to the end of the packet. *)
Lemma ProcessStreamFrame_last e f frame pre :
  stream_frame_ok frame ->
  let bs := wire_stream e (transport_version (version_ f)) frame true in
  ProcessStreamFrame (type_byte_of f (STREAM_FRAME frame) true) (mkP f (reader_at e pre bs)) =
  (Some frame, mkP f (reader_at e (pre ++ bs) [])).
Proof.
  intros Hok bs. unfold bs, wire_stream. cbn [app].
  assert (Hk : forall pre',
    (data ← (remaining ← gets (fun s : PState => BytesRemaining (rd s));
             reading "Unable to read frame data." (ReadStringPiece remaining));
     mret (mkStreamFrame (sf_stream_id frame) (sf_fin frame) (sf_offset frame) data
             (u16 (Z.of_nat (length data))))) (mkP f (reader_at e pre' (sf_data_buffer frame))) =
    (Some frame, mkP f (reader_at e (pre' ++ sf_data_buffer frame) []))).
  { intros pre'. unfold mbind, M_bind, gets. cbn [rd].
    unfold BytesRemaining. rewrite remaining_reader_at.
    destruct (reads_reading e f "Unable to read frame data." _ _ _
                (ReadStringPiece_reads e _ (sf_data_buffer frame) eq_refl)) as [Hr _].
    specialize (Hr pre' []). rewrite app_nil_r in Hr. rewrite Hr.
    destruct Hok as (_ & _ & Hlen & Hdata). rewrite wrap_small, <- Hdata by congruence.
    by destruct frame. }
  destruct Hok as (Hid & Hoff & Hlen & Hdata).
  unfold ProcessStreamFrame. unfold mbind at 1, M_bind at 1, gets at 1. cbn [fr].
  rewrite stream_flags_of_type by done. cbn [negb].
  destruct (GetStreamIdSize_spec _ Hid) as (Hi & Hib & _).
  destruct (offset_size_range (transport_version (version_ f)) _ Hoff) as [Hn _].
  destruct (GetStreamOffsetSize_spec (transport_version (version_ f)) _ Hoff) as [Hob _].
  unfold wire_stream_fields. rewrite <- app_assoc. unfold fits in Hid, Hoff.
  unfold mbind at 1, M_bind at 1.
  destruct (reads_reading e f "Unable to read stream_id." _ _ _
     (ReadBytesToUInt64_reads' e (GetStreamIdSize (sf_stream_id frame)) (sf_stream_id frame)
        ltac:(lia) ltac:(lia))) as [H1 _]. rewrite H1.
  unfold mbind at 1, M_bind at 1.
  destruct (reads_reading e f "Unable to read offset." _ _ _
     (ReadBytesToUInt64_reads' e (GetStreamOffsetSize (transport_version (version_ f)) (sf_offset frame))
        (sf_offset frame) ltac:(lia) ltac:(lia))) as [H2 _]. rewrite H2.
  rewrite (wrap_small 32) by done. rewrite Hk. by rewrite !app_assoc.
Qed.

(** * Padding *)

(** A byte string that does not continue a run of zeros. *)
Definition no_zero_ahead (rest : list Z) : Prop :=
  match rest with [] => True | b :: _ => b <> 0 end.

Lemma padding_loop_spec e pre k n c rest :
  (k <= n)%nat -> no_zero_ahead rest ->
  padding_loop n c (reader_at e pre (replicate k 0 ++ rest)) =
  (c + Z.of_nat k, reader_at e (pre ++ replicate k 0) rest).
Proof.
  revert pre n c; induction k as [|k IH]; intros pre n c Hk Hr.
  - cbn [replicate app]. rewrite app_nil_r, Z.add_0_r.
    destruct n as [|n]; [done|]. cbn [padding_loop].
    destruct rest as [|b rest].
    + unfold IsDoneReading. cbn [len_ pos_ reader_at]. rewrite app_nil_r.
      rewrite Z.eqb_refl. done.
    + unfold PeekByte. rewrite (byte_at_reader_at e pre (b :: rest) 0) by lia.
      change (nth (Z.to_nat 0) (b :: rest) 0) with b. rewrite (proj2 (Z.leb_gt _ _))
        by (simpl; rewrite length_app; simpl; lia).
      simpl in Hr. rewrite (proj2 (Z.eqb_neq b 0)) by done. by rewrite andb_false_r.
  - destruct n as [|n]; [lia|]. cbn [replicate app padding_loop].
    unfold IsDoneReading, PeekByte.
    rewrite (byte_at_reader_at e pre (0 :: replicate k 0 ++ rest) 0) by lia.
    change (nth (Z.to_nat 0) (0 :: replicate k 0 ++ rest) 0) with 0.
    assert (Hd : (len_ (reader_at e pre (0 :: replicate k 0 ++ rest)) =?
                  pos_ (reader_at e pre (0 :: replicate k 0 ++ rest))) = false).
    { apply Z.eqb_neq. simpl. rewrite length_app. simpl. lia. }
    rewrite Hd. destruct (_ <=? _); cbn [negb andb Z.eqb].
    all: pose proof (proj1 (ReadBytes_reads e [0]) pre (replicate k 0 ++ rest)) as Hread;
      unfold id in Hread; cbn [app length] in Hread; change (Z.of_nat 1) with 1 in Hread;
      rewrite Hread; cbn [snd]; rewrite IH by (done || lia);
      rewrite <- app_assoc; cbn [app]; f_equal; lia.
Qed.

(** A run of padding is one frame: as many bytes as zeros in a row. *)
Lemma ProcessPaddingFrame_run e f pre k rest :
  QUIC_VERSION_37 < transport_version (version_ f) -> no_zero_ahead rest ->
  ProcessPaddingFrame (mkP f (reader_at e pre (replicate k 0 ++ rest))) =
  (Some (mkPadding (Z.of_nat k + 1)), mkP f (reader_at e (pre ++ replicate k 0) rest)).
Proof.
  intros Hv Hr. unfold ProcessPaddingFrame. cbn [fr rd].
  rewrite (proj2 (Z.leb_gt _ _)) by done. unfold BytesRemaining.
  rewrite remaining_reader_at, Nat2Z.id.
  rewrite padding_loop_spec by (rewrite ?length_app, ?length_replicate; done || lia).
  cbn [set_rd fr]. do 3 f_equal. lia.
Qed.

Lemma AppendPaddingFrame_writes e f n :
  QUIC_VERSION_37 < transport_version (version_ f) -> 0 < n ->
  writes e (mkW f) (AppendPaddingFrame (mkPadding n)) (replicate (Z.to_nat (n - 1)) 0) tt.
Proof.
  intros Hv Hn out tl. unfold AppendPaddingFrame. cbn [wfr num_padding_bytes].
  rewrite (proj2 (Z.leb_gt _ _)), (proj2 (Z.eqb_neq _ _)), (proj2 (Z.ltb_ge _ _)) by lia.
  apply writes_write. apply WritePaddingBytes_writes. lia.
Qed.
End stream.
