(* ===== verification/IetfFrames.v ===== *)
(** The IETF-format frames other than ACK (quic/model/my_quic_framer.cc): every
    serializer writes the type byte itself, every parser starts after it. *)
From S2P Require Import Prelude.
From S2P Require Import DataReader.
From S2P Require Import DataWriter.
From S2P Require Import Encodings.
From S2P Require Import PacketNumbers.
From S2P Require Import PacketNumberQueue.
From S2P Require Import FramerTypes.
From S2P Require Import GoogleFrames.
From S2P Require Import StreamFrames.

Open Scope string_scope.
Open Scope list_scope.
Open Scope Z_scope.

(** ** Enumerations of quic_types.h *)
Definition IETF_RST_STREAM : Z := 0x01.
Definition IETF_CONNECTION_CLOSE : Z := 0x02.
Definition IETF_APPLICATION_CLOSE : Z := 0x03.
Definition IETF_MAX_DATA : Z := 0x04.
Definition IETF_MAX_STREAM_DATA : Z := 0x05.
Definition IETF_MAX_STREAM_ID : Z := 0x06.
Definition IETF_BLOCKED : Z := 0x08.
Definition IETF_STREAM_BLOCKED : Z := 0x09.
Definition IETF_STREAM_ID_BLOCKED : Z := 0x0a.
Definition IETF_STOP_SENDING : Z := 0x0c.
Definition IETF_PATH_CHALLENGE : Z := 0x0e.
Definition IETF_PATH_RESPONSE : Z := 0x0f.
Definition IETF_STREAM : Z := 0x10.
Definition IETF_ACK : Z := 0x1a.
Definition IETF_STREAM_FRAME_FIN_BIT : Z := 0x01.
Definition IETF_STREAM_FRAME_LEN_BIT : Z := 0x02.
Definition IETF_STREAM_FRAME_OFF_BIT : Z := 0x04.

(** [frame_type & bit] as a condition. *)
Definition has_bit (frame_type bit : Z) : bool := negb (Z.land frame_type bit =? 0).

Section ietf.
Context {HM : HandshakeMessages} {VI : MyQuicFramerVisitorInterface} {CI : Ciphers}.

(** * STREAM *)

(** Lines 2402-2419. *)
Definition ietf_stream_type (frame : QuicStreamFrame) (last_frame_in_packet : bool) : Z :=
  let frame_type := IETF_STREAM in
  let frame_type := if sf_fin frame then Z.lor frame_type IETF_STREAM_FRAME_FIN_BIT
                    else frame_type in
  let frame_type := if negb (sf_offset frame =? 0)
                    then Z.lor frame_type IETF_STREAM_FRAME_OFF_BIT else frame_type in
  if negb last_frame_in_packet then Z.lor frame_type IETF_STREAM_FRAME_LEN_BIT
  else frame_type.

(** Lines 2397-2466. *)
Definition AppendIetfStreamFrame (frame : QuicStreamFrame) (last_frame_in_packet : bool)
    : M WState unit :=
  producer ← gets (fun s : WState => data_producer_ (wfr s));
  let frame_type := ietf_stream_type frame last_frame_in_packet in
  _ ← writing "Unable to write frame-type." (WriteUInt8 frame_type);
  _ ← writing "Writing stream id failed." (WriteVarInt62 (sf_stream_id frame));
  _ ← (if has_bit frame_type IETF_STREAM_FRAME_OFF_BIT
       then writing "Writing data offset failed." (WriteVarInt62 (sf_offset frame))
       else mret tt);
  _ ← (if has_bit frame_type IETF_STREAM_FRAME_LEN_BIT
       then writing "Writing data length failed." (WriteVarInt62 (sf_data_length frame))
       else mret tt);
  match (producer : option (Z -> Z -> Z -> M QuicDataWriter unit)) with
  | None => writing "Writing frame data failed."
              (WriteBytes (take (Z.to_nat (sf_data_length frame)) (sf_data_buffer frame)))
  | Some WriteStreamData =>
    writing "Writing frame data failed."
      (WriteStreamData (sf_stream_id frame) (sf_offset frame) (sf_data_length frame))
  end.

(** Lines 1460-1514. *)
Definition ProcessIetfStreamFrame (frame_type : Z) : M PState QuicStreamFrame :=
  stream_id ← reading "Unable to read stream_id." ReadVarIntStreamId;
  offset ← (if has_bit frame_type IETF_STREAM_FRAME_OFF_BIT
            then reading "Unable to read stream data offset." ReadVarInt62
            else mret 0);
  data_length ← (if has_bit frame_type IETF_STREAM_FRAME_LEN_BIT
                 then length ← reading "Unable to read stream data length." ReadVarInt62;
                      _ ← reject_if (0xffff <? length) "Stream data length is too large.";
                      mret length
                 else gets (fun s : PState => BytesRemaining (rd s)));
  let fin := has_bit frame_type IETF_STREAM_FRAME_FIN_BIT in
  data ← reading "Unable to read frame data." (ReadStringPiece data_length);
  mret (mkStreamFrame stream_id fin offset data (Z.of_nat (length data))).

(** * CONNECTION_CLOSE and APPLICATION_CLOSE *)

(** Lines 2993-3018. *)
Definition AppendIetfCloseFrame (type code : Z) (phrase : list Z) : M WState unit :=
  _ ← writing "Can not write close frame type byte" (WriteUInt8 type);
  _ ← writing "Can not write close frame code" (WriteUInt16 code);
  _ ← writing "Can not write phrase-length" (WriteVarInt62 (Z.of_nat (length phrase)));
  (if decide (phrase = []) then mret tt
   else writing "Can not write phrase" (WriteBytes phrase)).

(** Lines 2971-2985. *)
Definition AppendIetfConnectionCloseFrame (frame : QuicConnectionCloseFrame) : M WState unit :=
  AppendIetfCloseFrame IETF_CONNECTION_CLOSE (u16 (cc_error_code frame)) (cc_error_details frame).
Definition AppendIetfApplicationCloseFrame (frame : QuicConnectionCloseFrame) : M WState unit :=
  AppendIetfCloseFrame IETF_APPLICATION_CLOSE (u16 (cc_error_code frame)) (cc_error_details frame).

(** Lines 3040-3063. *)
Definition ProcessIetfCloseFrame (frame_type : Z) : M PState QuicConnectionCloseFrame :=
  code ← reading "Unable to read close frame code." ReadUInt16;
  phrase_length ← reading "Unable to read phrase length" ReadVarInt62;
  phrase ← reading "Can not read extended close information phrase" (ReadStringPiece phrase_length);
  mret (mkClose code phrase).

(** Lines 3026-3038. *)
Definition ProcessIetfConnectionCloseFrame (frame_type : Z) := ProcessIetfCloseFrame frame_type.
Definition ProcessIetfApplicationCloseFrame (frame_type : Z) := ProcessIetfCloseFrame frame_type.

(** * PADDING (lines 3068-3088) *)
Definition AppendIetfPaddingFrame (frame : QuicPaddingFrame) : M WState unit :=
  _ ← writing "Can not write close frame type byte" (WriteUInt8 0);
  AppendPaddingFrame frame.
Definition ProcessIetfPaddingFrame : M PState QuicPaddingFrame := ProcessPaddingFrame.

(** * PATH_CHALLENGE and PATH_RESPONSE (lines 3091-3136) *)
Definition ProcessIetfPathChallengeFrame : M PState QuicPathChallengeFrame :=
  data_buffer ← reading "Can not read path Challenge data" (ReadBytes kQuicPathFrameBufferSize);
  mret (mkPathChallenge data_buffer).
Definition ProcessIetfPathResponseFrame : M PState QuicPathResponseFrame :=
  data_buffer ← reading "Can not read path Response data" (ReadBytes kQuicPathFrameBufferSize);
  mret (mkPathResponse data_buffer).
Definition AppendIetfPathChallengeFrame (frame : QuicPathChallengeFrame) : M WState unit :=
  _ ← writing "Can not write Path Challenge frame type byte" (WriteUInt8 IETF_PATH_CHALLENGE);
  writing "Writing Path Challenge data failed." (WriteBytes (pc_data_buffer frame)).
Definition AppendIetfPathResponseFrame (frame : QuicPathResponseFrame) : M WState unit :=
  _ ← writing "Can not write Path Response frame type byte" (WriteUInt8 IETF_PATH_RESPONSE);
  writing "Writing Path Response data failed." (WriteBytes (pr_data_buffer frame)).

(** * RST_STREAM (lines 3143-3187) *)
Definition AppendIetfResetStreamFrame (frame : QuicRstStreamFrame) : M WState unit :=
  _ ← writing "Unable to write reset-stream frame-type." (WriteUInt8 IETF_RST_STREAM);
  _ ← writing "Writing reset-stream stream id failed." (WriteVarInt62 (rst_stream_id frame));
  _ ← writing "Writing reset-stream error code failed." (WriteUInt16 (u16 (rst_error_code frame)));
  writing "Writing reset-stream final-offset failed." (WriteVarInt62 (rst_byte_offset frame)).
Definition ProcessIetfResetStreamFrame : M PState QuicRstStreamFrame :=
  stream_id ← reading "Reading reset-stream stream id failed." ReadVarIntStreamId;
  error_code ← reading "Reading reset-stream error code failed." ReadUInt16;
  byte_offset ← reading "Reading reset-stream final-offset failed." ReadVarInt62;
  mret (mkRst stream_id error_code byte_offset).

(** * STOP_SENDING (lines 3189-3220) *)
Definition ProcessIetfStopSendingFrame : M PState QuicStopSendingFrame :=
  stream_id ← reading "Unable to read stream id" ReadVarIntStreamId;
  code ← reading "Unable to read application error code." ReadUInt16;
  mret (mkStopSending stream_id code).
Definition AppendIetfStopSendingFrame (frame : QuicStopSendingFrame) : M WState unit :=
  _ ← writing "Can not write stop sending frame type byte" (WriteUInt8 IETF_STOP_SENDING);
  _ ← writing "Can not write stop sending stream id" (WriteVarInt62 (ss_stream_id frame));
  writing "Can not write application error code" (WriteUInt16 (ss_application_error_code frame)).

(** * MAX_DATA and MAX_STREAM_DATA (lines 3225-3279) *)
Definition AppendIetfMaxDataFrame (frame : QuicWindowUpdateFrame) : M WState unit :=
  _ ← writing "Can not write IETF_MAX_DATA frame type byte" (WriteUInt8 IETF_MAX_DATA);
  writing "Can not write IETF_MAX_DATA byte-offset" (WriteVarInt62 (wu_byte_offset frame)).
Definition ProcessIetfMaxDataFrame : M PState QuicWindowUpdateFrame :=
  byte_offset ← reading "Can not read IETF_MAX_DATA byte-offset" ReadVarInt62;
  mret (mkWindowUpdate 0 byte_offset).
Definition AppendIetfMaxStreamDataFrame (frame : QuicWindowUpdateFrame) : M WState unit :=
  _ ← writing "Can not write IETF_MAX_STREAM_DATA frame type byte"
        (WriteUInt8 IETF_MAX_STREAM_DATA);
  _ ← writing "Can not write IETF_MAX_STREAM_DATA stream id" (WriteVarInt62 (wu_stream_id frame));
  writing "Can not write IETF_MAX_STREAM_DATA byte-offset" (WriteVarInt62 (wu_byte_offset frame)).
Definition ProcessIetfMaxStreamDataFrame : M PState QuicWindowUpdateFrame :=
  stream_id ← reading "Can not read IETF_MAX_STREAM_DATA stream id" ReadVarIntStreamId;
  byte_offset ← reading "Can not read IETF_MAX_STREAM_DATA byte-count" ReadVarInt62;
  mret (mkWindowUpdate stream_id byte_offset).

(** * MAX_STREAM_ID, BLOCKED, STREAM_BLOCKED, STREAM_ID_BLOCKED (lines 3281-3379) *)
Definition AppendIetfMaxStreamIdFrame (frame : QuicIetfMaxStreamIdFrame) : M WState unit :=
  _ ← writing "Can not write IETF_MAX_STREAM_ID frame type byte" (WriteUInt8 IETF_MAX_STREAM_ID);
  writing "Can not write IETF_MAX_STREAM_ID stream id" (WriteVarInt62 (max_stream_id frame)).
Definition ProcessIetfMaxStreamIdFrame : M PState QuicIetfMaxStreamIdFrame :=
  id ← reading "Can not read IETF_MAX_STREAM_ID stream id" ReadVarIntStreamId;
  mret (mkMaxStreamId id).
Definition AppendIetfBlockedFrame (frame : QuicIetfBlockedFrame) : M WState unit :=
  _ ← writing "Can not write IETF_BLOCKED frame type byte" (WriteUInt8 IETF_BLOCKED);
  writing "Can not write IETF_BLOCKED offset" (WriteVarInt62 (ibl_offset frame)).
Definition ProcessIetfBlockedFrame : M PState QuicIetfBlockedFrame :=
  offset ← reading "Can not read IETF_BLOCKED offset" ReadVarInt62;
  mret (mkIetfBlocked offset).
Definition AppendIetfStreamBlockedFrame (frame : QuicWindowUpdateFrame) : M WState unit :=
  _ ← writing "Can not write IETF_STREAM_BLOCKED frame type byte" (WriteUInt8 IETF_STREAM_BLOCKED);
  _ ← writing "Can not write IETF_STREAM_BLOCKED stream id" (WriteVarInt62 (wu_stream_id frame));
  writing "Can not write IETF_STREAM_BLOCKED offset" (WriteVarInt62 (wu_byte_offset frame)).
Definition ProcessIetfStreamBlockedFrame : M PState QuicWindowUpdateFrame :=
  stream_id ← reading "Can not read IETF_STREAM_BLOCKED stream id" ReadVarIntStreamId;
  byte_offset ← reading "Can not read IETF_STREAM_BLOCKED offset" ReadVarInt62;
  mret (mkWindowUpdate stream_id byte_offset).
Definition AppendIetfStreamIdBlockedFrame (frame : QuicIetfStreamIdBlockedFrame) : M WState unit :=
  _ ← writing "Can not write IETF_STREAM_ID_BLOCKED frame type byte"
        (WriteUInt8 IETF_STREAM_ID_BLOCKED);
  writing "Can not write IETF_STREAM_ID_BLOCKED stream id" (WriteVarInt62 (sib_stream_id frame)).
Definition ProcessIetfStreamIdBlockedFrame : M PState QuicIetfStreamIdBlockedFrame :=
  id ← reading "Can not read IETF_STREAM_ID_BLOCKED stream id" ReadVarIntStreamId;
  mret (mkStreamIdBlocked id).

(** * Round trips *)

(** A frame format: its type byte, the frames it can carry, its serializer and
    its parser. *)
Record codec := mkCodec {
  c_frame : Type;
  c_type : Z;
  c_ok : c_frame -> Prop;
  c_append : c_frame -> M WState unit;
  c_process : M PState c_frame;
}.

(** The serializer emits the type byte and a body that the parser turns back
    into the frame, consuming it exactly, whatever the byte order and whatever
    framers the two ends have; a cut-off body is refused. *)
Definition codec_roundtrips (c : codec) : Prop := forall e f f' frame,
  c_ok c frame ->
  exists body, writes e (mkW f) (c_append c frame) (c_type c :: body) tt /\
               reads e (mkP f') (c_process c) body frame.

Definition close_ok (frame : QuicConnectionCloseFrame) : Prop :=
  fits 16 (cc_error_code frame) /\ fits 62 (Z.of_nat (length (cc_error_details frame))).

Definition ietf_codecs : list codec :=
  [ mkCodec _ IETF_RST_STREAM
      (fun fr => fits 32 (rst_stream_id fr) /\ fits 16 (rst_error_code fr) /\
                 fits 62 (rst_byte_offset fr))
      AppendIetfResetStreamFrame ProcessIetfResetStreamFrame;
    mkCodec _ IETF_CONNECTION_CLOSE close_ok AppendIetfConnectionCloseFrame
      (ProcessIetfConnectionCloseFrame IETF_CONNECTION_CLOSE);
    mkCodec _ IETF_APPLICATION_CLOSE close_ok AppendIetfApplicationCloseFrame
      (ProcessIetfApplicationCloseFrame IETF_APPLICATION_CLOSE);
    mkCodec _ IETF_MAX_DATA
      (fun fr => wu_stream_id fr = 0 /\ fits 62 (wu_byte_offset fr))
      AppendIetfMaxDataFrame ProcessIetfMaxDataFrame;
    mkCodec _ IETF_MAX_STREAM_DATA
      (fun fr => fits 32 (wu_stream_id fr) /\ fits 62 (wu_byte_offset fr))
      AppendIetfMaxStreamDataFrame ProcessIetfMaxStreamDataFrame;
    mkCodec _ IETF_MAX_STREAM_ID (fun fr => fits 32 (max_stream_id fr))
      AppendIetfMaxStreamIdFrame ProcessIetfMaxStreamIdFrame;
    mkCodec _ IETF_BLOCKED (fun fr => fits 62 (ibl_offset fr))
      AppendIetfBlockedFrame ProcessIetfBlockedFrame;
    mkCodec _ IETF_STREAM_BLOCKED
      (fun fr => fits 32 (wu_stream_id fr) /\ fits 62 (wu_byte_offset fr))
      AppendIetfStreamBlockedFrame ProcessIetfStreamBlockedFrame;
    mkCodec _ IETF_STREAM_ID_BLOCKED (fun fr => fits 32 (sib_stream_id fr))
      AppendIetfStreamIdBlockedFrame ProcessIetfStreamIdBlockedFrame;
    mkCodec _ IETF_STOP_SENDING
      (fun fr => fits 32 (ss_stream_id fr) /\ fits 16 (ss_application_error_code fr))
      AppendIetfStopSendingFrame ProcessIetfStopSendingFrame;
    mkCodec _ IETF_PATH_CHALLENGE
      (fun fr => Z.of_nat (length (pc_data_buffer fr)) = kQuicPathFrameBufferSize)
      AppendIetfPathChallengeFrame ProcessIetfPathChallengeFrame;
    mkCodec _ IETF_PATH_RESPONSE
      (fun fr => Z.of_nat (length (pr_data_buffer fr)) = kQuicPathFrameBufferSize)
      AppendIetfPathResponseFrame ProcessIetfPathResponseFrame ].

Lemma fits_32_62 x : fits 32 x -> fits 62 x.
Proof. apply fits_weaken. lia. Qed.

(** The type byte comes first. *)
Lemma writes_type e f msg t (m : M WState unit) body :
  fits 8 t -> writes e (mkW f) m body tt ->
  writes e (mkW f) (_ ← writing msg (WriteUInt8 t); m) (t :: body) tt.
Proof.
  intros Ht Hm. change (t :: body) with ([t] ++ body).
  eapply writes_bind; [by apply writes_writing, WriteUInt8_writes|done].
Qed.

(** A parser that ends by building the frame from the fields it has read. *)
Lemma reads_last {A B} e f msg (m : M QuicDataReader A) (k : A -> B) bs a b :
  reads e id m bs a -> k a = b ->
  reads e (mkP f) (x ← reading msg m; mret (k x)) bs b.
Proof.
  intros Hm <-. eapply reads_bind_nil; [by apply reads_reading|]. cbv beta. apply reads_ret.
Qed.

Hint Resolve fits_32_62 : wire.
(** The common proof: the fields one by one on both sides. *)
Ltac ietf_fields frame :=
  eexists; split;
  [ apply writes_type; [done|]; repeat wr_step; apply writes_writing; eauto with wire
  | repeat rd_step; eapply reads_last; [by eauto with wire|destruct frame; simpl in *; by subst] ].

Lemma close_roundtrips t :
  fits 8 t ->
  codec_roundtrips (mkCodec _ t close_ok
    (fun frame => AppendIetfCloseFrame t (u16 (cc_error_code frame)) (cc_error_details frame))
    (ProcessIetfCloseFrame t)).
Proof.
  intros Ht e f f' [code details] [Hc Hl]; cbn [c_ok c_append c_process c_type cc_error_code
    cc_error_details] in *. rewrite wrap_small by done.
  exists (wire_uint e 2 code ++ varint62_bytes (Z.of_nat (length details)) ++ details). split.
  - apply writes_type; [done|]. do 2 wr_step.
    case_decide; [subst; apply writes_ret|by eauto with wire].
  - do 2 rd_step. eapply reads_last; [by eauto with wire|done].
Qed.

(** C19: Each IETF control frame (RST_STREAM, the two CLOSE frames, MAX_DATA,
    MAX_STREAM_DATA, MAX_STREAM_ID, BLOCKED, STREAM_BLOCKED, STREAM_ID_BLOCKED,
    STOP_SENDING, PATH_CHALLENGE, PATH_RESPONSE) is written as its type byte and
    a body its parser turns back into the same frame, whatever follows; a
    cut-off body is refused. *)
Theorem ietf_frames_roundtrip : Forall codec_roundtrips ietf_codecs.
Proof.
  repeat constructor; try (by apply close_roundtrips); intros e f f' frame Hok;
    cbn [c_ok c_append c_process c_type c_frame] in *.
  - destruct Hok as (H1 & H2 & H3). unfold AppendIetfResetStreamFrame.
    rewrite wrap_small by done. ietf_fields frame.
  - destruct Hok as (H1 & H2). ietf_fields frame.
  - destruct Hok as (H1 & H2). ietf_fields frame.
  - ietf_fields frame.
  - ietf_fields frame.
  - destruct Hok as (H1 & H2). ietf_fields frame.
  - ietf_fields frame.
  - destruct Hok as (H1 & H2). ietf_fields frame.
  - ietf_fields frame.
  - ietf_fields frame.
Qed.

(** ** STREAM *)

Lemma ietf_stream_type_bits frame last :
  let t := ietf_stream_type frame last in
  fits 8 t /\ has_bit t IETF_STREAM_FRAME_FIN_BIT = sf_fin frame /\
  has_bit t IETF_STREAM_FRAME_OFF_BIT = negb (sf_offset frame =? 0) /\
  has_bit t IETF_STREAM_FRAME_LEN_BIT = negb last.
Proof.
  unfold ietf_stream_type. destruct (sf_fin frame), (sf_offset frame =? 0), last; done.
Qed.

Definition ietf_stream_ok (frame : QuicStreamFrame) : Prop :=
  fits 32 (sf_stream_id frame) /\ fits 62 (sf_offset frame) /\
  fits 16 (sf_data_length frame) /\
  sf_data_length frame = Z.of_nat (length (sf_data_buffer frame)).

(** What follows the type byte. *)
Definition wire_ietf_stream (frame : QuicStreamFrame) (last : bool) : list Z :=
  varint62_bytes (sf_stream_id frame) ++
  (if negb (sf_offset frame =? 0) then varint62_bytes (sf_offset frame) else []) ++
  (if negb last then varint62_bytes (sf_data_length frame) else []) ++
  sf_data_buffer frame.

Lemma AppendIetfStreamFrame_writes e f frame last :
  ietf_stream_ok frame -> data_producer_ f = None ->
  writes e (mkW f) (AppendIetfStreamFrame frame last)
    (ietf_stream_type frame last :: wire_ietf_stream frame last) tt.
Proof.
  intros (Hid & Hoff & Hlen & Hdata) Hp. unfold AppendIetfStreamFrame, wire_ietf_stream.
  eapply writes_bind_0; [by apply (writes_gets e (mkW f) _ None)|].
  destruct (ietf_stream_type_bits frame last) as (Ht & _ & Ho & Hl).
  apply writes_type; [done|]. rewrite Ho, Hl. wr_step.
  do 2 (eapply writes_bind; [apply writes_if; [|apply writes_ret]; apply writes_writing;
    eauto using fits_weaken with wire lia|]).
  { apply WriteVarInt62_writes. eapply fits_weaken; [|exact Hlen]. lia. }
  rewrite Hdata, Nat2Z.id, firstn_all. apply writes_writing, WriteBytes_writes.
Qed.

Lemma ProcessIetfStreamFrame_reads e f frame :
  ietf_stream_ok frame ->
  reads e (mkP f) (ProcessIetfStreamFrame (ietf_stream_type frame false))
    (wire_ietf_stream frame false) frame.
Proof.
  intros (Hid & Hoff & Hlen & Hdata). unfold ProcessIetfStreamFrame, wire_ietf_stream.
  destruct (ietf_stream_type_bits frame false) as (_ & Hf & Ho & Hl). rewrite Hf, Ho, Hl.
  assert (fits 62 (sf_data_length frame)) by (eapply fits_weaken; [|exact Hlen]; lia).
  rd_step. eapply (reads_bind _ _ _ _ _ _ (sf_offset frame)).
  { destruct (Z.eqb_spec (sf_offset frame) 0) as [->|]; cbn [negb]; [apply reads_ret|].
    by eauto with wire. }
  cbn [negb]. eapply reads_bind.
  { eapply reads_bind_nil; [by eauto with wire|].
    eapply reads_bind_0; [|apply reads_ret].
    apply reads_reject_if, Z.ltb_ge. unfold fits in Hlen. lia. }
  eapply reads_last; [by eauto with wire|]. rewrite <- Hdata. by destruct frame.
Qed.
End ietf.
