(* ===== verification/AckFrames.v ===== *)
(** The Google-QUIC ACK frame (quic/model/my_quic_framer.cc): the block summary,
    the serializer with its truncation to the room left in the packet, the
    parser with its incremental callbacks, and receive timestamps. *)
From S2P Require Import Prelude.
From S2P Require Import DataReader.
From S2P Require Import DataWriter.
From S2P Require Import Encodings.
From S2P Require Import PacketNumbers.
From S2P Require Import PacketNumberQueue.
From S2P Require Import FramerTypes.
From S2P Require Import GoogleFrames.

Open Scope string_scope.
Open Scope list_scope.
Open Scope Z_scope.

(** [std::numeric_limits<uint8_t>::max()] *)
Definition uint8_max : Z := 255.

(** * GetAckFrameInfo (lines 1103-1131) *)
Record AckFrameInfo := mkInfo {
  max_block_length : Z;
  first_block_length : Z;
  num_ack_blocks : Z;
}.

(** Blocks needed for a gap: one per 255 packets, rounded up. *)
Definition encoded_gaps (total_gap : Z) : Z := u64 (u64 (total_gap + uint8_max) - 1) / uint8_max.

Fixpoint ack_info_loop (previous_start num max_len : Z) (itr : list Interval) : Z * Z :=
  match itr with
  | [] => (num, max_len)
  | interval :: itr =>
    if num <? uint8_max then
      let total_gap := u64 (previous_start - imax interval) in
      ack_info_loop (imin interval) (u64 (num + encoded_gaps total_gap))
        (Z.max max_len (ILength interval)) itr
    else (num, max_len)
  end.

Definition GetAckFrameInfo (frame : QuicAckFrame) : AckFrameInfo :=
  match reverse (packets frame) with
  | [] => mkInfo 0 0 0
  | back :: itr =>
    let '(num, max_len) := ack_info_loop (imin back) 0 (ILength back) itr in
    mkInfo max_len (LastIntervalLength (packets frame)) num
  end.

(** Lines 2142-2178; [incremental] is [use_incremental_ack_processing_]. *)
Definition GetAckFrameTimeStampSize (ack : QuicAckFrame) : Z :=
  match received_packet_times ack with
  | [] => 0
  | ts => 5 + 3 * (Z.of_nat (length ts) - 1)
  end.

Definition GetAckFrameSize (version : Z) (incremental : bool) (ack : QuicAckFrame) : Z :=
  let ack_info := GetAckFrameInfo ack in
  let largest_acked_length := GetMinPacketNumberLength version (LargestAcked ack) in
  let ack_block_length := GetMinPacketNumberLength version (max_block_length ack_info) in
  GetMinAckFrameSize version largest_acked_length + ack_block_length +
  (if negb (num_ack_blocks ack_info =? 0)
   then kNumberOfAckBlocksSize +
        Z.min (num_ack_blocks ack_info) kMaxAckBlocks *
        (ack_block_length + PACKET_1BYTE_PACKET_NUMBER)
   else 0) +
  (if incremental then 0 else GetAckFrameTimeStampSize ack).

Section ack.
Context {HM : HandshakeMessages} {VI : MyQuicFramerVisitorInterface} {CI : Ciphers}.

(** * Serializer *)

(** Lines 2593-2601; [fuel] bounds the blocks that may still be written. *)
Fixpoint append_empty_blocks (fuel : nat) (i num_encoded_gaps ack_block_length written num : Z)
    : M QuicDataWriter Z :=
  if (i <? num_encoded_gaps) && (written <? num) then
    match fuel with
    | O => mret written
    | S fuel =>
      _ ← AppendAckBlock uint8_max ack_block_length 0;
      append_empty_blocks fuel (i + 1) num_encoded_gaps ack_block_length (written + 1) num
    end
  else mret written.

(** Lines 2582-2619. *)
Fixpoint append_ack_blocks (previous_start ack_block_length written num : Z)
    (itr : list Interval) : M QuicDataWriter Z :=
  match itr with
  | [] => mret written
  | interval :: itr =>
    if written <? num then
      let total_gap := u64 (previous_start - imax interval) in
      let num_encoded_gaps := encoded_gaps total_gap in
      written ← append_empty_blocks (Z.to_nat (num - written)) 1 num_encoded_gaps
                  ack_block_length written num;
      if num <=? written then mret written
      else
        let last_gap := u8 (total_gap - (num_encoded_gaps - 1) * uint8_max) in
        _ ← AppendAckBlock last_gap ack_block_length (ILength interval);
        append_ack_blocks (imin interval) ack_block_length (written + 1) num itr
    else mret written
  end.

(** The type byte (lines 2491-2507). *)
Definition ack_type_byte (pre multiple : bool) (largest_acked_length ack_block_length : Z) : Z :=
  let type_byte := SetBit 0 multiple (if pre : bool then kQuicHasMultipleAckBlocksOffset_Pre40
                                      else kQuicHasMultipleAckBlocksOffset) in
  let type_byte := SetBits type_byte (GetPacketNumberFlags largest_acked_length)
                     kQuicSequenceNumberLengthNumBits kLargestAckedOffset in
  let type_byte := SetBits type_byte (GetPacketNumberFlags ack_block_length)
                     kQuicSequenceNumberLengthNumBits kActBlockLengthOffset in
  Z.lor type_byte (if pre : bool then kQuicFrameTypeAckMask_Pre40 else kQuicFrameTypeAckMask).

(** The number of blocks that fit (lines 2482-2522): [room] is
    [writer->capacity() - writer->length()]. *)
Definition ack_blocks_that_fit (version room : Z) (info : AckFrameInfo)
    (largest_acked_length ack_block_length : Z) : Z :=
  let available := i32 (room - ack_block_length - GetMinAckFrameSize version largest_acked_length -
                        (if negb (num_ack_blocks info =? 0) then kNumberOfAckBlocksSize else 0)) in
  let max_num_ack_blocks := u64 (Z.quot available (ack_block_length + PACKET_1BYTE_PACKET_NUMBER)) in
  let num := Z.min (num_ack_blocks info) max_num_ack_blocks in
  if uint8_max <? num then uint8_max else num.

(** [kUFloat16MaxValue] stands for an infinite delay (lines 2544-2548). *)
Definition wire_ack_delay (delay : Z) : Z :=
  if delay =? kQuicInfiniteTimeUs then kUFloat16MaxValue else u64 delay.

(** Lines 2694-2711. *)
Fixpoint append_timestamps_loop (largest prev_time : Z) (ts : list (Z * Z)) : M QuicDataWriter unit :=
  match ts with
  | [] => mret tt
  | (packet_number, time) :: ts =>
    let delta := u64 (largest - packet_number) in
    _ ← fail_if (uint8_max <? delta) id;
    _ ← WriteUInt8 delta;
    _ ← WriteUFloat16 (u64 (time - prev_time));
    append_timestamps_loop largest time ts
  end.

(** [QuicDataWriter::WriteUInt8AtOffset], which the repository's copy of the
    writer does not have: a parameter. *)
Variable WriteUInt8AtOffset : Z -> Z -> M QuicDataWriter unit.

(** Lines 2643-2713. *)
Definition AppendTimestampsToAckFrame (frame : QuicAckFrame) (num_timestamps_offset : Z)
    : M WState unit :=
  pre ← gets (fun s : WState => not_v41 (wfr s));
  creation_time ← gets (fun s : WState => creation_time_ (wfr s));
  let n := Z.of_nat (length (received_packet_times frame)) in
  _ ← fail_if (uint8_max <? n) id;
  _ ← (if pre : bool then write (WriteBytes (le_bytes 1 n))
       else write (WriteUInt8AtOffset n num_timestamps_offset));
  match received_packet_times frame with
  | [] => mret tt
  | (packet_number, time) :: ts =>
    let delta := u64 (LargestAcked frame - packet_number) in
    _ ← fail_if (uint8_max <? delta) id;
    _ ← write (WriteUInt8 delta);
    _ ← write (WriteUInt32 (Z.land (i64 (time - creation_time)) (Z.shiftl 1 32 - 1)));
    write (append_timestamps_loop (LargestAcked frame) time ts)
  end.

(** Lines 2473-2641. *)
Definition AppendAckFrameAndTypeByte (frame : QuicAckFrame) : M WState unit :=
  version ← gets (fun s : WState => transport_version (version_ (wfr s)));
  pre ← gets (fun s : WState => not_v41 (wfr s));
  incremental ← gets (fun s : WState => use_incremental_ack_processing_ (wfr s));
  room ← gets (fun s : WState => capacity_ (wr s) - length_ (wr s));
  let new_ack_info := GetAckFrameInfo frame in
  let largest_acked := LargestAcked frame in
  let largest_acked_length := GetMinPacketNumberLength version largest_acked in
  let ack_block_length := GetMinPacketNumberLength version (max_block_length new_ack_info) in
  let multiple := negb (num_ack_blocks new_ack_info =? 0) in
  _ ← write (WriteUInt8 (ack_type_byte pre multiple largest_acked_length ack_block_length));
  let num := ack_blocks_that_fit version room new_ack_info largest_acked_length ack_block_length in
  num_timestamps_offset ←
    (if pre : bool then mret 0
     else _ ← (if 0 <? num then write (WriteBytes (le_bytes 1 num)) else mret tt);
          offset ← gets (fun s : WState => length_ (wr s));
          _ ← write (WriteUInt8 0);
          mret offset);
  _ ← write (AppendPacketNumber largest_acked_length largest_acked);
  _ ← write (WriteUFloat16 (wire_ack_delay (ack_delay_time frame)));
  _ ← (if pre && (0 <? num) then write (WriteBytes (le_bytes 1 num)) else mret tt);
  _ ← write (AppendPacketNumber ack_block_length (first_block_length new_ack_info));
  _ ← (if 0 <? num then
         match reverse (packets frame) with
         | [] => mret 0
         | back :: itr => write (append_ack_blocks (imin back) ack_block_length 0 num itr)
         end
       else mret 0);
  room_left ← gets (fun s : WState => capacity_ (wr s) - length_ (wr s));
  (if negb incremental && (GetAckFrameTimeStampSize frame <=? room_left)
   then AppendTimestampsToAckFrame frame num_timestamps_offset
   else if pre : bool then write (WriteBytes (le_bytes 1 0)) else mret tt).

(** * Parser *)

(** The visitor's refusal is an error in the middle of an ack frame. *)
Definition ack_callback (f : Visitor -> bool * Visitor) : M PState unit :=
  b ← callback f;
  reject_if (negb b) "Visitor suppresses further processing of ack frame.".

(** Lines 1633-1670; [n] blocks are still to be read. *)
Fixpoint ack_block_loop (n : nat) (incremental : bool) (ack_block_length first_received : Z)
    (ack_frame : QuicAckFrame) : M PState QuicAckFrame :=
  match n with
  | O => mret ack_frame
  | S n =>
    gap ← reading "Unable to read gap to next ack block." ReadUInt8;
    current_block_length ← reading "Unable to ack block length."
                             (ReadBytesToUInt64 ack_block_length);
    _ ← reject_if (first_received <? u64 (gap + current_block_length))
          ("Underflow with ack block length " +:+ pretty (Z.to_N current_block_length) +:+
           ", end of block is " +:+ pretty (Z.to_N (u64 (first_received - gap))) +:+ ".");
    let first_received := u64 (first_received - u64 (gap + current_block_length)) in
    let hi := u64 (first_received + current_block_length) in
    (if 0 <? current_block_length then
       if incremental then
         _ ← ack_callback (OnAckRange first_received hi (n =? 0)%nat);
         ack_block_loop n incremental ack_block_length first_received ack_frame
       else
         ack_block_loop n incremental ack_block_length first_received
           (mkAckFrame (largest_acked ack_frame) (ack_delay_time ack_frame)
              (received_packet_times ack_frame)
              (AddRange first_received hi (packets ack_frame)))
     else ack_block_loop n incremental ack_block_length first_received ack_frame)
  end.

Definition add_timestamp (seq time : Z) (frame : QuicAckFrame) : QuicAckFrame :=
  mkAckFrame (largest_acked frame) (ack_delay_time frame)
    (received_packet_times frame ++ [(seq, time)]) (packets frame).

(** Lines 1711-1731. *)
Fixpoint timestamps_loop (n : nat) (ack_frame : QuicAckFrame) : M PState QuicAckFrame :=
  match n with
  | O => mret ack_frame
  | S n =>
    delta ← reading "Unable to read sequence delta in received packets." ReadUInt8;
    let seq_num := u64 (LargestAcked ack_frame - delta) in
    incremental_time_delta_us ←
      reading "Unable to read incremental time delta in received packets." ReadUFloat16;
    _ ← modify (fun s => on_fr (set_last_timestamp
                           (i64 (last_timestamp_ (fr s) + incremental_time_delta_us))) s);
    now ← gets (fun s => i64 (creation_time_ (fr s) + last_timestamp_ (fr s)));
    timestamps_loop n (add_timestamp seq_num now ack_frame)
  end.

(** Lines 1686-1734. *)
Definition ProcessTimestampsInAckFrame (num_received_packets : Z) (ack_frame : QuicAckFrame)
    : M PState QuicAckFrame :=
  if 0 <? num_received_packets then
    delta ← reading "Unable to read sequence delta in received packets." ReadUInt8;
    let seq_num := u64 (LargestAcked ack_frame - delta) in
    time_delta_us ← reading "Unable to read time delta in received packets." ReadUInt32;
    _ ← modify (fun s => on_fr (set_last_timestamp
                           (CalculateTimestampFromWire (last_timestamp_ (fr s)) time_delta_us)) s);
    now ← gets (fun s => i64 (creation_time_ (fr s) + last_timestamp_ (fr s)));
    timestamps_loop (Z.to_nat (num_received_packets - 1)) (add_timestamp seq_num now ack_frame)
  else mret ack_frame.

(** The delay as a [QuicTime::Delta] (lines 1561-1575). *)
Definition ack_delay_of_wire (us : Z) : Z :=
  if us =? kUFloat16MaxValue then kQuicInfiniteTimeUs else us.

(** Lines 1516-1684. *)
Definition ProcessAckFrame (frame_type : Z) (ack_frame : QuicAckFrame) : M PState QuicAckFrame :=
  version ← gets (fun s : PState => transport_version (version_ (fr s)));
  pre ← gets (fun s : PState => not_v41 (fr s));
  incremental ← gets (fun s : PState => use_incremental_ack_processing_ (fr s));
  let has_ack_blocks :=
    ExtractBit frame_type (if pre : bool then kQuicHasMultipleAckBlocksOffset_Pre40
                           else kQuicHasMultipleAckBlocksOffset) in
  num_ack_blocks ← (if negb pre && has_ack_blocks
                    then reading "Unable to read num of ack blocks." ReadUInt8 else mret 0);
  num_received_packets ← (if negb pre
                          then reading "Unable to read num received packets." ReadUInt8
                          else mret 0);
  let ack_block_length := ReadAckPacketNumberLength version
    (ExtractBits frame_type kQuicSequenceNumberLengthNumBits kActBlockLengthOffset) in
  let largest_acked_length := ReadAckPacketNumberLength version
    (ExtractBits frame_type kQuicSequenceNumberLengthNumBits kLargestAckedOffset) in
  largest_acked ← reading "Unable to read largest acked." (ReadBytesToUInt64 largest_acked_length);
  ack_delay_time_us ← reading "Unable to read ack delay time." ReadUFloat16;
  let delay := ack_delay_of_wire ack_delay_time_us in
  let ack_frame := if incremental : bool then ack_frame
    else mkAckFrame (FramerTypes.largest_acked ack_frame) delay
           (received_packet_times ack_frame) (packets ack_frame) in
  _ ← (if incremental : bool then ack_callback (OnAckFrameStart largest_acked delay) else mret tt);
  num_ack_blocks ← (if has_ack_blocks && pre
                    then reading "Unable to read num of ack blocks." ReadUInt8
                    else mret num_ack_blocks);
  first_block_length ← reading "Unable to read first ack block length."
                         (ReadBytesToUInt64 ack_block_length);
  _ ← reject_if ((first_block_length =? 0) &&
                 (negb (largest_acked =? 0) || negb (num_ack_blocks =? 0)))
        ("First block length is zero but ACK is not empty. largest acked is " +:+
         pretty (Z.to_N largest_acked) +:+ ", num ack blocks is " +:+
         pretty (Z.to_N num_ack_blocks) +:+ ".");
  _ ← reject_if (u64 (largest_acked + 1) <? first_block_length)
        ("Underflow with first ack block length " +:+ pretty (Z.to_N first_block_length) +:+
         " largest acked is " +:+ pretty (Z.to_N largest_acked) +:+ ".");
  let first_received := u64 (u64 (largest_acked + 1) - first_block_length) in
  _ ← (if incremental : bool
       then ack_callback (OnAckRange first_received (u64 (largest_acked + 1)) (negb has_ack_blocks))
       else mret tt);
  let ack_frame := if incremental : bool then ack_frame
    else mkAckFrame largest_acked (ack_delay_time ack_frame) (received_packet_times ack_frame)
           (AddRange first_received (u64 (largest_acked + 1)) (packets ack_frame)) in
  ack_frame ← ack_block_loop (Z.to_nat num_ack_blocks) incremental ack_block_length
                first_received ack_frame;
  num_received_packets ← (if pre : bool then reading "Unable to read num received packets." ReadUInt8
                          else mret num_received_packets);
  ProcessTimestampsInAckFrame num_received_packets ack_frame.
End ack.
