(* ===== verification/AckRoundTrip.v ===== *)
(** What the receiver of an ACK frame learns.  The serializer turns the interval
    queue into (gap, length) blocks, cuts them to the room left and writes them;
    the parser rebuilds ranges and hands them to the visitor.  Whatever the
    truncation, the ranges delivered are the highest intervals of the queue. *)
From S2P Require Import Prelude.
From S2P Require Import DataReader.
From S2P Require Import DataWriter.
From S2P Require Import Encodings.
From S2P Require Import PacketNumbers.
From S2P Require Import PacketNumberQueue.
From S2P Require Import FramerTypes.
From S2P Require Import GoogleFrames.
From S2P Require Import AckFrames.

Open Scope string_scope.
Open Scope list_scope.
Open Scope Z_scope.

(** * Blocks *)

(** A gap of [total] followed by an acked run of [len]: full gaps with empty
    blocks, then the remaining gap with the run. *)
Definition gap_blocks (total len : Z) : list (Z * Z) :=
  let n := encoded_gaps total in
  replicate (Z.to_nat (n - 1)) (uint8_max, 0) ++ [(total - (n - 1) * uint8_max, len)].

(** The blocks below the packet [prev], for intervals in descending order. *)
Fixpoint blocks_of (prev : Z) (itr : list Interval) : list (Z * Z) :=
  match itr with
  | [] => []
  | iv :: itr => gap_blocks (prev - imax iv) (imax iv - imin iv) ++ blocks_of (imin iv) itr
  end.

(** Descending, disjoint, non-adjacent intervals below [prev]. *)
Fixpoint desc (prev : Z) (itr : list Interval) : Prop :=
  match itr with
  | [] => True
  | iv :: itr => 0 <= imin iv < imax iv /\ imax iv < prev /\ desc (imin iv) itr
  end.

Lemma desc_weaken prev prev' itr : prev <= prev' -> desc prev itr -> desc prev' itr.
Proof. destruct itr; simpl; [done|]. intros ? (? & ? & ?). split_and!; auto; lia. Qed.

(** A well-formed queue read from the back. *)
Lemma wf_desc lo d :
  wf_from lo d -> -1 <= lo ->
  match reverse d with
  | [] => d = []
  | back :: itr => lo < imin back < imax back /\ desc (imin back) itr /\ imax back = end_of lo d
  end.
Proof.
  revert lo; induction d as [|iv d IH] using rev_ind; intros lo; [done|].
  rewrite wf_from_app, reverse_app, end_of_app. simpl. intros (Hd & Hiv & Hlt & _) Hlo.
  pose proof (end_of_ge _ _ Hd) as He. split_and!; auto; [lia|].
  specialize (IH _ Hd Hlo).
  destruct (reverse d) as [|p itr]; [done|]. simpl.
  destruct IH as (Hp & Hdesc & Hend). split_and!; auto; lia.
Qed.

Lemma encoded_gaps_spec total :
  1 <= total < 2 ^ 63 ->
  let n := encoded_gaps total in
  1 <= n /\ (n - 1) * 255 < total <= n * 255.
Proof.
  intros Ht. unfold encoded_gaps, uint8_max. cbv zeta.
  rewrite (wrap_small 64 (total + 255)), wrap_small by (unfold fits; lia). dlia.
Qed.

Section write_blocks.
Context (e : Endianness) (ack_block_length : Z) (Hlen : valid_length ack_block_length).

Definition wire_block (b : Z * Z) : list Z :=
  fst b :: wire_uint e (Z.to_nat ack_block_length) (snd b).
Definition wire_blocks (bl : list (Z * Z)) : list Z := concat (map wire_block bl).

Lemma wire_blocks_app bl bl' : wire_blocks (bl ++ bl') = wire_blocks bl ++ wire_blocks bl'.
Proof. unfold wire_blocks. by rewrite map_app, concat_app. Qed.

Lemma wire_blocks_cons b bl : wire_blocks (b :: bl) = wire_block b ++ wire_blocks bl.
Proof. done. Qed.

Lemma length_wire_blocks bl :
  Z.of_nat (length (wire_blocks bl)) = Z.of_nat (length bl) * (ack_block_length + 1).
Proof.
  apply valid_length_bounds in Hlen. induction bl as [|b bl IH]; [done|].
  unfold wire_blocks in *. cbn [map concat]. rewrite length_app, Nat2Z.inj_add, IH.
  unfold wire_block. cbn [length]. rewrite length_wire_uint. lia.
Qed.

Lemma AppendAckBlock_writes g b :
  fits 8 g -> writes e id (AppendAckBlock g ack_block_length b) (wire_block (g, b)) tt.
Proof.
  intros Hg. unfold AppendAckBlock, wire_block. cbn [fst snd].
  change (g :: ?x) with ([g] ++ x).
  eapply writes_bind; [by apply WriteUInt8_writes|by apply AppendPacketNumber_writes].
Qed.

Lemma append_empty_blocks_writes fuel i n written num :
  let k := Nat.min (Z.to_nat (n - i)) (Z.to_nat (num - written)) in
  (k <= fuel)%nat ->
  writes e id (append_empty_blocks fuel i n ack_block_length written num)
    (wire_blocks (replicate k (uint8_max, 0))) (written + Z.of_nat k).
Proof.
  revert i written; induction fuel as [|fuel IH]; intros i written k Hk;
    cbn [append_empty_blocks].
  - replace k with 0%nat by lia. cbn [replicate]. rewrite Z.add_0_r.
    destruct (_ && _); apply writes_ret.
  - destruct (Z.ltb_spec i n), (Z.ltb_spec written num); cbn [andb].
    2-4: replace k with 0%nat by lia; cbn [replicate]; rewrite Z.add_0_r; apply writes_ret.
    specialize (IH (i + 1) (written + 1)). cbv zeta in IH.
    set (k' := Nat.min (Z.to_nat (n - (i + 1))) (Z.to_nat (num - (written + 1)))) in *.
    assert (Hk' : k = S k') by lia. rewrite Hk'.
    replace (written + Z.of_nat (S k')) with (written + 1 + Z.of_nat k') by lia.
    cbn [replicate]. rewrite wire_blocks_cons.
    eapply writes_bind; [by apply AppendAckBlock_writes|apply IH; lia].
Qed.

Lemma append_ack_blocks_writes prev written num itr :
  desc prev itr -> prev < 2 ^ 63 -> written <= num ->
  let bl := take (Z.to_nat (num - written)) (blocks_of prev itr) in
  writes e id (append_ack_blocks prev ack_block_length written num itr)
    (wire_blocks bl) (written + Z.of_nat (length bl)).
Proof.
  revert prev written; induction itr as [|iv itr IH]; intros prev written Hd Hp Hw; cbv zeta.
  { cbn [blocks_of append_ack_blocks]. rewrite firstn_nil. simpl. rewrite Z.add_0_r.
    apply writes_ret. }
  destruct Hd as (Hiv & Hgap & Hd). cbn [append_ack_blocks blocks_of].
  destruct (Z.ltb_spec written num).
  2:{ replace (Z.to_nat (num - written)) with 0%nat by lia. rewrite firstn_O. simpl.
      rewrite Z.add_0_r. apply writes_ret. }
  rewrite (wrap_small 64 (prev - imax iv)) by (unfold fits; lia).
  unfold ILength. rewrite (wrap_small 64 (imax iv - imin iv)) by (unfold fits; lia).
  pose proof (encoded_gaps_spec (prev - imax iv) ltac:(lia)) as Hn. cbv zeta in Hn.
  unfold gap_blocks. set (n := encoded_gaps (prev - imax iv)) in *.
  pose proof (append_empty_blocks_writes (Z.to_nat (num - written)) 1 n written num) as He.
  cbv zeta in He. specialize (He ltac:(lia)). rewrite <- (assoc_L (++)). cbn [app].
  destruct (Z.leb_spec num (written + (n - 1))) as [Hcut|Hcut].
  - replace (Nat.min (Z.to_nat (n - 1)) (Z.to_nat (num - written)))
      with (Z.to_nat (num - written)) in He by lia.
    rewrite take_app_le by (rewrite length_replicate; lia).
    rewrite take_replicate, Nat.min_l by lia. rewrite length_replicate.
    eapply writes_bind_nil; [exact He|]. cbv beta.
    rewrite (proj2 (Z.leb_le _ _)) by lia. apply writes_ret.
  - replace (Nat.min (Z.to_nat (n - 1)) (Z.to_nat (num - written)))
      with (Z.to_nat (n - 1)) in He by lia.
    rewrite take_app_ge by (rewrite length_replicate; lia). rewrite length_replicate.
    replace (Z.to_nat (num - written) - Z.to_nat (n - 1))%nat
      with (S (Z.to_nat (num - (written + (n - 1) + 1)))) by lia.
    rewrite wire_blocks_app, length_app, length_replicate. cbn [take].
    eapply writes_bind; [exact He|]. cbv beta.
    rewrite Z2Nat.id by lia. rewrite (proj2 (Z.leb_gt _ _)) by lia.
    rewrite wire_blocks_cons. eapply writes_bind.
    { rewrite wrap_small by (unfold fits, uint8_max; lia).
      apply AppendAckBlock_writes. unfold fits, uint8_max. lia. }
    cbn [length app].
    specialize (IH (imin iv) (written + (n - 1) + 1) Hd ltac:(lia) ltac:(lia)). cbv zeta in IH.
    match goal with |- writes _ _ _ _ ?x =>
      match type of IH with writes _ _ _ _ ?y => replace x with y by lia end end.
    exact IH.
Qed.
End write_blocks.

(** * Ranges *)

(** The ranges a parser starting at [first_received] reports for the blocks: low
    end, high end, and whether it is announced as the last one. *)
Fixpoint ranges_of (first_received : Z) (bl : list (Z * Z)) : list (Z * Z * bool) :=
  match bl with
  | [] => []
  | (gap, len) :: bl =>
    let lo := first_received - (gap + len) in
    (if 0 <? len then [(lo, lo + len, match bl with [] => true | _ => false end)] else []) ++
    ranges_of lo bl
  end.

(** Blocks a parser accepts: one-byte gaps, lengths of the announced width, and
    no step below packet zero. *)
Fixpoint valid_blocks (len first_received : Z) (bl : list (Z * Z)) : Prop :=
  match bl with
  | [] => True
  | (gap, b) :: bl =>
    0 <= gap < 256 /\ 0 <= b < 256 ^ len /\ gap + b <= first_received /\
    valid_blocks len (first_received - (gap + b)) bl
  end.

Lemma valid_blocks_take len fr bl n : valid_blocks len fr bl -> valid_blocks len fr (take n bl).
Proof.
  revert fr n; induction bl as [|[g b] bl IH]; intros fr [|n]; simpl; auto.
  intros (? & ? & ? & ?). auto.
Qed.

(** The interval as the parser reports it. *)
Definition iv_range (iv : Interval) : Z * Z := (imin iv, imax iv).

Lemma ranges_of_gap fr k bl :
  bl <> [] -> ranges_of fr (replicate k (uint8_max, 0) ++ bl) = ranges_of (fr - Z.of_nat k * 255) bl.
Proof.
  intros Hbl. revert fr; induction k as [|k IH]; intros fr.
  - simpl. f_equal. lia.
  - cbn [replicate app ranges_of]. cbn [Z.ltb Z.compare app]. rewrite IH. f_equal.
    unfold uint8_max. lia.
Qed.

Lemma ranges_of_empty fr k : ranges_of fr (replicate k (uint8_max, 0)) = [].
Proof. revert fr; induction k as [|k IH]; intros fr; [done|]. cbn. apply IH. Qed.

Lemma gap_blocks_ranges prev iv bl :
  0 <= imin iv < imax iv -> imax iv < prev -> prev < 2 ^ 63 ->
  ranges_of prev (gap_blocks (prev - imax iv) (imax iv - imin iv) ++ bl) =
  (imin iv, imax iv, match bl with [] => true | _ => false end) :: ranges_of (imin iv) bl.
Proof.
  intros H1 H2 H3. pose proof (encoded_gaps_spec (prev - imax iv) ltac:(lia)) as Hn.
  unfold gap_blocks. set (n := encoded_gaps (prev - imax iv)) in *. cbv zeta in Hn.
  rewrite <- (assoc_L (++)), ranges_of_gap by done. rewrite Z2Nat.id by lia.
  cbn [app ranges_of]. rewrite (proj2 (Z.ltb_lt _ _)) by lia. unfold uint8_max.
  match goal with |- context [ranges_of ?lo bl] => replace lo with (imin iv) by lia end.
  by replace (imin iv + (imax iv - imin iv)) with (imax iv) by lia.
Qed.

(** Cut anywhere, the blocks still describe a prefix of the intervals. *)
Lemma ranges_of_take prev itr m :
  desc prev itr -> prev < 2 ^ 63 ->
  exists k, map fst (ranges_of prev (take m (blocks_of prev itr))) = map iv_range (take k itr) /\
            ((length (blocks_of prev itr) <= m)%nat -> (length itr <= k)%nat).
Proof.
  revert prev m; induction itr as [|iv itr IH]; intros prev m Hd Hp.
  { exists 0%nat. cbn. by rewrite firstn_nil. }
  destruct Hd as (H1 & H2 & Hd). cbn [blocks_of].
  pose proof (encoded_gaps_spec (prev - imax iv) ltac:(lia)) as Hn. cbv zeta in Hn.
  set (gb := gap_blocks (prev - imax iv) (imax iv - imin iv)).
  assert (Hgb : length gb = Z.to_nat (encoded_gaps (prev - imax iv))).
  { unfold gb, gap_blocks. rewrite length_app, length_replicate. simpl. lia. }
  destruct (le_lt_dec (length gb) m) as [Hm|Hm].
  - destruct (IH (imin iv) (m - length gb)%nat Hd ltac:(lia)) as (k & Hk & Hall).
    exists (S k). rewrite take_app_ge by done. unfold gb at 1. rewrite gap_blocks_ranges by lia.
    cbn [map take fst]. rewrite Hk. split; [done|]. rewrite length_app. cbn [length]. intros Hl.
    specialize (Hall ltac:(lia)). lia.
  - exists 0%nat. rewrite take_app_le by lia. split; [|rewrite length_app; lia].
    unfold gb, gap_blocks. rewrite take_app_le by (rewrite length_replicate; lia).
    by rewrite take_replicate, ranges_of_empty.
Qed.

(** Uncut, the last range is the only one marked so. *)
Fixpoint mark_last {A} (l : list A) : list (A * bool) :=
  match l with
  | [] => []
  | x :: l => (x, match l with [] => true | _ => false end) :: mark_last l
  end.

Lemma blocks_of_nil prev itr : blocks_of prev itr = [] <-> itr = [].
Proof.
  destruct itr as [|iv itr]; [done|]. split; [|done]. simpl. unfold gap_blocks.
  intros H%app_nil. destruct H as [H%app_nil _]. by destruct H.
Qed.

Lemma ranges_of_all prev itr :
  desc prev itr -> prev < 2 ^ 63 ->
  ranges_of prev (blocks_of prev itr) = mark_last (map iv_range itr).
Proof.
  revert prev; induction itr as [|iv itr IH]; intros prev Hd Hp; [done|].
  destruct Hd as (H1 & H2 & Hd). cbn [blocks_of map mark_last].
  rewrite gap_blocks_ranges by lia. rewrite IH by (done || lia). do 2 f_equal.
  destruct itr as [|iv' itr]; [done|]. cbn [map].
  destruct (blocks_of (imin iv) (iv' :: itr)) eqn:E; [|done]. by apply blocks_of_nil in E.
Qed.

Lemma blocks_of_valid len prev itr :
  desc prev itr -> prev < 2 ^ 63 -> 0 <= len ->
  forall n, (forall g b, (g, b) ∈ take n (blocks_of prev itr) -> b < 256 ^ len) ->
  valid_blocks len prev (take n (blocks_of prev itr)).
Proof.
  intros Hd Hp Hlen. revert prev Hd Hp; induction itr as [|iv itr IH]; intros prev Hd Hp n Hb.
  { by rewrite firstn_nil. }
  destruct Hd as (H1 & H2 & Hd). cbn [blocks_of] in *. unfold gap_blocks in *.
  pose proof (encoded_gaps_spec (prev - imax iv) ltac:(lia)) as Hn. cbv zeta in Hn.
  set (N := encoded_gaps (prev - imax iv)) in *. rewrite <- (assoc_L (++)) in *. cbn [app] in *.
  assert (Hpos : 0 < 256 ^ len) by (apply Z.pow_pos_nonneg; lia).
  assert (Hgen : forall k n p, Z.of_nat k * 255 <= p - imax iv ->
    (forall g b, (g, b) ∈ take n (replicate k (uint8_max, 0) ++
       (p - imax iv - Z.of_nat k * 255, imax iv - imin iv) :: blocks_of (imin iv) itr) -> b < 256 ^ len) ->
    p - imax iv - Z.of_nat k * 255 <= 255 ->
    valid_blocks len p (take n (replicate k (uint8_max, 0) ++
       (p - imax iv - Z.of_nat k * 255, imax iv - imin iv) :: blocks_of (imin iv) itr))).
  { clear n Hb. induction k as [|k IHk]; intros n p Hk Hb Hlast.
    - cbn [replicate app] in *. destruct n as [|n]; [done|]. cbn [take valid_blocks].
      replace (p - imax iv - Z.of_nat 0 * 255) with (p - imax iv) in * by lia.
      split_and!; try lia.
      + eapply Hb. cbn [take]. left.
      + replace (p - (p - imax iv + (imax iv - imin iv))) with (imin iv) by lia.
        apply IH; [done|lia|]. intros g b Hin. eapply Hb. cbn [take]. right. exact Hin.
    - destruct n as [|n]; [done|]. cbn [replicate app take valid_blocks].
      replace (p - imax iv - Z.of_nat (S k) * 255)
        with (p - 255 - imax iv - Z.of_nat k * 255) in * by lia.
      unfold uint8_max at 1 2 3 4. split_and!; try lia.
      replace (p - (255 + 0)) with (p - 255) by lia. apply IHk; [lia| |lia].
      intros g b Hin. eapply Hb. cbn [replicate app take]. right. exact Hin. }
  specialize (Hgen (Z.to_nat (N - 1)) n prev). rewrite Z2Nat.id in Hgen by lia.
  unfold uint8_max in Hb |- * at 2. apply Hgen; [lia|exact Hb|lia].
Qed.

(** * The block summary *)

Lemma length_gap_blocks total len :
  1 <= total < 2 ^ 63 -> Z.of_nat (length (gap_blocks total len)) = encoded_gaps total.
Proof.
  intros Ht. pose proof (encoded_gaps_spec total Ht) as Hn. cbv zeta in Hn.
  unfold gap_blocks. rewrite length_app, length_replicate. simpl. lia.
Qed.

Lemma gap_blocks_len total len g b :
  (g, b) ∈ gap_blocks total len -> 0 <= len -> b <= len.
Proof.
  unfold gap_blocks. rewrite elem_of_app, list_elem_of_singleton. intros [Hin|[= -> ->]] Hl; [|done].
  apply elem_of_replicate in Hin as [[= -> ->] _]. done.
Qed.

(** Blocks in the first 255 have lengths covered by the maximum collected, and
    the count is exact unless it has reached 255. *)
Lemma ack_info_loop_spec prev num ml itr :
  desc prev itr -> prev < 2 ^ 63 -> 0 <= num ->
  let '(num', ml') := ack_info_loop prev num ml itr in
  let len := Z.of_nat (length (blocks_of prev itr)) in
  num <= num' <= num + len /\ (num' = num + len \/ 255 <= num') /\
  ml <= ml' <= Z.max ml prev /\
  forall g b, (g, b) ∈ take (Z.to_nat (255 - num)) (blocks_of prev itr) -> b <= ml'.
Proof.
  revert prev num ml; induction itr as [|iv itr IH]; intros prev num ml Hd Hp Hnum.
  { cbn. rewrite firstn_nil. split_and!; try lia. intros g b Hin. by apply elem_of_nil in Hin. }
  destruct Hd as (H1 & H2 & Hd). cbn [ack_info_loop blocks_of].
  rewrite length_app, Nat2Z.inj_add, length_gap_blocks by lia.
  pose proof (encoded_gaps_spec (prev - imax iv) ltac:(lia)) as Hn. cbv zeta in Hn.
  unfold uint8_max at 1. destruct (Z.ltb_spec num 255).
  - rewrite (wrap_small 64 (prev - imax iv)) by (unfold fits; lia).
    rewrite (wrap_small 64 (num + _)) by (unfold fits; lia).
    unfold ILength. rewrite (wrap_small 64 (imax iv - imin iv)) by (unfold fits; lia).
    specialize (IH (imin iv) (num + encoded_gaps (prev - imax iv))
                  (Z.max ml (imax iv - imin iv)) Hd ltac:(lia) ltac:(lia)).
    destruct (ack_info_loop _ _ _ _) as [num' ml'].
    destruct IH as (IH1 & IH2 & IH3 & IH4). split_and!; try lia.
    intros g b Hin. destruct (le_lt_dec (length (gap_blocks (prev - imax iv) (imax iv - imin iv)))
                               (Z.to_nat (255 - num))) as [Hl|Hl].
    + rewrite take_app_ge in Hin by done.
      apply elem_of_app in Hin as [Hin|Hin].
      * apply gap_blocks_len in Hin; lia.
      * eapply IH4. pose proof (length_gap_blocks (prev - imax iv) (imax iv - imin iv) ltac:(lia)).
        replace (Z.to_nat (255 - (num + encoded_gaps (prev - imax iv))))
          with (Z.to_nat (255 - num) - length (gap_blocks (prev - imax iv) (imax iv - imin iv)))%nat
          by lia. exact Hin.
    + rewrite take_app_le in Hin by lia.
      assert (Hin' : (g, b) ∈ gap_blocks (prev - imax iv) (imax iv - imin iv))
        by (by eapply subseteq_take).
      apply gap_blocks_len in Hin'; lia.
  - split_and!; try lia. replace (Z.to_nat (255 - num)) with 0%nat by lia.
    rewrite take_0. intros g b Hin. by apply elem_of_nil in Hin.
Qed.

(** * The parser *)
Section parse_blocks.
Context {HM : HandshakeMessages} {VI : MyQuicFramerVisitorInterface} {CI : Ciphers}.

(** The visitor after the ranges, if it never asks to stop. *)
Fixpoint feed (rs : list (Z * Z * bool)) (v : Visitor) : option Visitor :=
  match rs with
  | [] => Some v
  | (lo, hi, is_last) :: rs =>
    let '(b, v) := OnAckRange lo hi is_last v in if b then feed rs v else None
  end.

Lemma reads_ack_callback e f cb v :
  cb (visitor_ f) = (true, v) ->
  reads2 e (mkP f) (mkP (set_visitor v f)) (ack_callback cb) [] tt.
Proof.
  intros Hc. eapply reads2_bind_0; [by apply reads_callback|]. by apply reads_reject_if.
Qed.

Lemma set_visitor_id f : set_visitor (visitor_ f) f = f.
Proof. by destruct f. Qed.

Lemma ack_block_loop_reads e f len fr bl frame v' :
  valid_length len -> fr < 2 ^ 63 -> valid_blocks len fr bl ->
  feed (ranges_of fr bl) (visitor_ f) = Some v' ->
  reads2 e (mkP f) (mkP (set_visitor v' f))
    (ack_block_loop (length bl) true len fr frame) (wire_blocks e len bl) frame.
Proof.
  intros Hlen. pose proof (valid_length_bounds _ Hlen) as Hb.
  revert f fr; induction bl as [|[g b] bl IH]; intros f fr Hfr Hv Hf.
  { cbn in *. injection Hf as <-. rewrite set_visitor_id. apply reads_ret. }
  destruct Hv as (Hg & Hbl & Hsum & Hv). cbn [length ack_block_loop ranges_of] in *.
  rewrite wire_blocks_cons. unfold wire_block. cbn [fst snd].
  change (g :: ?x) with ([g] ++ x). rewrite <- (assoc_L (++)).
  eapply reads2_bind_keep; [by apply reads_reading, ReadUInt8_reads|].
  eapply reads2_bind_keep; [apply reads_reading, ReadBytesToUInt64_reads'; lia|].
  assert (256 ^ len <= 256 ^ 8) by (apply Z.pow_le_mono_r; lia).
  rewrite !(wrap_small 64 (g + b)) by (unfold fits; lia).
  eapply reads2_bind_keep_0; [apply reads_reject_if, Z.ltb_ge; lia|]. cbv zeta.
  rewrite !(wrap_small 64 (fr - (g + b))) by (unfold fits; lia).
  rewrite !(wrap_small 64 (fr - (g + b) + b)) by (unfold fits; lia).
  destruct (Z.ltb_spec 0 b).
  - cbn [app feed] in Hf.
    destruct (OnAckRange _ _ _ (visitor_ f)) as [[] v] eqn:Hcb; [|done].
    eapply reads2_bind_0.
    { apply reads_ack_callback. rewrite <- Hcb. f_equal. by destruct bl. }
    change (set_visitor v' f) with (set_visitor v' (set_visitor v f)).
    apply IH; [lia|done|done].
  - apply IH; [lia|done|done].
Qed.
End parse_blocks.

(** * The whole frame *)

(** An ack frame as the receiver's packet manager keeps it: a well-formed,
    non-empty queue whose maximum is the largest acked packet, within the range
    the widest length field of the version can carry. *)
Definition ack_frame_ok (version : Z) (frame : QuicAckFrame) : Prop :=
  wf (packets frame) /\ packets frame <> [] /\
  largest_acked frame = Max (packets frame) /\
  largest_acked frame + 1 < (if version =? QUIC_VERSION_41 then 2 ^ 62 else 2 ^ 48) /\
  0 <= ack_delay_time frame < 2 ^ 63.

(** The lengths and the number of blocks the serializer chooses. *)
Definition ack_lengths (version : Z) (frame : QuicAckFrame) : Z * Z :=
  (GetMinPacketNumberLength version (largest_acked frame),
   GetMinPacketNumberLength version (max_block_length (GetAckFrameInfo frame))).

Definition ack_blocks (frame : QuicAckFrame) : list (Z * Z) :=
  match reverse (packets frame) with
  | [] => []
  | back :: itr => blocks_of (imin back) itr
  end.

(** The bytes after the type byte, with [num] blocks. *)
Definition wire_ack (e : Endianness) (version num : Z) (frame : QuicAckFrame) : list Z :=
  let pre := negb (version =? QUIC_VERSION_41) in
  let '(la, lb) := ack_lengths version frame in
  let count := if 0 <? num then [num] else [] in
  (if pre then [] else count ++ [0]) ++
  wire_uint e (Z.to_nat la) (largest_acked frame) ++
  wire_uint e 2 (ufloat16_encode (wire_ack_delay (ack_delay_time frame))) ++
  (if pre then count else []) ++
  wire_uint e (Z.to_nat lb) (first_block_length (GetAckFrameInfo frame)) ++
  wire_blocks e lb (take (Z.to_nat num) (ack_blocks frame)) ++
  (if pre then [0] else []).

Lemma ack_type_bits pre multiple la lb :
  valid_length la -> valid_length lb ->
  let t := ack_type_byte pre multiple la lb in
  fits 8 t /\
  ExtractBit t (if pre then kQuicHasMultipleAckBlocksOffset_Pre40
                else kQuicHasMultipleAckBlocksOffset) = multiple /\
  ExtractBits t kQuicSequenceNumberLengthNumBits kActBlockLengthOffset = GetPacketNumberFlags lb /\
  ExtractBits t kQuicSequenceNumberLengthNumBits kLargestAckedOffset = GetPacketNumberFlags la.
Proof.
  unfold valid_length. rewrite !elem_of_cons, !elem_of_nil. intros Ha Hb.
  destruct pre, multiple; destruct_or! Ha; destruct_or! Hb; subst; done.
Qed.

Lemma min_length_valid v x : valid_length (GetMinPacketNumberLength v x).
Proof.
  pose proof (GetMinPacketNumberLength_cases v x) as H. unfold valid_length.
  rewrite !elem_of_cons, elem_of_nil in *. destruct (v =? QUIC_VERSION_41); tauto.
Qed.

(** Facts about the summary of a well-formed frame. *)
Lemma ack_info_ok version frame :
  ack_frame_ok version frame ->
  let info := GetAckFrameInfo frame in
  let bl := ack_blocks frame in
  exists back itr, reverse (packets frame) = back :: itr /\
    0 <= imin back < imax back /\ imax back = largest_acked frame + 1 /\
    desc (imin back) itr /\
    first_block_length info = imax back - imin back /\
    0 <= num_ack_blocks info <= Z.of_nat (length bl) /\
    (num_ack_blocks info = Z.of_nat (length bl) \/ 255 <= num_ack_blocks info) /\
    first_block_length info <= max_block_length info <= largest_acked frame + 1 /\
    forall g b, (g, b) ∈ take 255 bl -> b <= max_block_length info.
Proof.
  intros (Hwf & Hne & Hmax & Hlt & _).
  destruct (mem_Max _ Hwf Hne) as (_ & _ & Hend).
  pose proof (wf_desc (-1) (packets frame) (proj1 Hwf) ltac:(lia)) as Hd.
  unfold GetAckFrameInfo, ack_blocks, LastIntervalLength.
  destruct (reverse (packets frame)) as [|back itr] eqn:Hrev.
  { apply (f_equal reverse) in Hrev. rewrite reverse_involutive in Hrev. done. }
  assert (Hlast : last (packets frame) = Some back).
  { rewrite <- (reverse_involutive (packets frame)), Hrev, reverse_cons. apply last_snoc. }
  destruct Hd as (Hb & Hdesc & He). rewrite Hmax, Hend, <- He in *. rewrite Hlast.
  exists back, itr.
  assert (Hbound : imax back < 2 ^ 63) by (destruct (version =? QUIC_VERSION_41); lia).
  pose proof (ack_info_loop_spec (imin back) 0 (ILength back) itr Hdesc ltac:(lia) ltac:(lia)) as Hi.
  destruct (ack_info_loop _ _ _ _) as [num ml]. cbv zeta in *.
  cbn [first_block_length num_ack_blocks max_block_length].
  destruct Hi as (Hi1 & Hi2 & Hi3 & Hi4). unfold ILength in *.
  rewrite (wrap_small 64 (imax back - imin back)) in * by (unfold fits; lia).
  split_and!; auto; try lia.
Qed.

(** The space the serializer reserves before it counts blocks. *)
Definition ack_fixed_size (version : Z) (frame : QuicAckFrame) : Z :=
  let '(la, lb) := ack_lengths version frame in
  lb + GetMinAckFrameSize version la +
  (if negb (num_ack_blocks (GetAckFrameInfo frame) =? 0) then kNumberOfAckBlocksSize else 0).

Definition ack_num (version room : Z) (frame : QuicAckFrame) : Z :=
  let '(la, lb) := ack_lengths version frame in
  ack_blocks_that_fit version room (GetAckFrameInfo frame) la lb.

Lemma ack_num_spec version room frame :
  ack_frame_ok version frame -> ack_fixed_size version frame <= room < 2 ^ 31 ->
  let num := ack_num version room frame in
  let '(_, lb) := ack_lengths version frame in
  0 <= num <= 255 /\ num <= Z.of_nat (length (ack_blocks frame)) /\
  num <= num_ack_blocks (GetAckFrameInfo frame) /\
  num * (lb + 1) <= room - ack_fixed_size version frame /\
  (num = num_ack_blocks (GetAckFrameInfo frame) \/ num = 255 \/
   room - ack_fixed_size version frame < (num + 1) * (lb + 1)).
Proof.
  intros Hok Hroom. destruct (ack_info_ok _ _ Hok) as (back & itr & _ & _ & _ & _ & _ & Hn & _).
  unfold ack_num, ack_fixed_size, ack_lengths in *. unfold ack_blocks_that_fit.
  set (info := GetAckFrameInfo frame) in *.
  set (la := GetMinPacketNumberLength version (largest_acked frame)) in *.
  set (lb := GetMinPacketNumberLength version (max_block_length info)) in *.
  pose proof (valid_length_bounds _ (min_length_valid version (largest_acked frame))) as Hla.
  pose proof (valid_length_bounds _ (min_length_valid version (max_block_length info))) as Hlb.
  fold la in Hla. fold lb in Hlb. unfold PACKET_1BYTE_PACKET_NUMBER.
  set (m := if negb (num_ack_blocks info =? 0) then kNumberOfAckBlocksSize else 0) in *.
  assert (0 <= m <= 1) by (unfold m, kNumberOfAckBlocksSize; case_match; lia).
  unfold GetMinAckFrameSize, kQuicFrameTypeSize, kQuicDeltaTimeLargestObservedSize,
    kQuicNumTimestampsSize in *.
  set (av := room - lb - (1 + la + 2 + 1) - m). assert (0 <= av < 2 ^ 31) by lia.
  replace (i32 av) with av.
  2:{ unfold swrap. rewrite wrap_small by (unfold fits; lia).
      by rewrite (proj2 (Z.ltb_lt _ _)) by (simpl; lia). }
  rewrite Z.quot_div_nonneg by lia.
  assert (Hq : 0 <= av / (lb + 1) <= av) by (split; [apply Z.div_pos; lia|apply Z.div_le_upper_bound; nia]).
  rewrite (wrap_small 64 (av / (lb + 1))) by (unfold fits; lia). unfold uint8_max.
  pose proof (Z.mul_div_le av (lb + 1) ltac:(lia)).
  pose proof (Z.mul_succ_div_gt av (lb + 1) ltac:(lia)).
  replace (room - (lb + (1 + la + 2 + 1) + m)) with av by lia.
  destruct (Z.ltb_spec 255 (Z.min (num_ack_blocks info) (av / (lb + 1)))); split_and!; try lia; try nia.
Qed.

Section whole_frame.
Context {HM : HandshakeMessages} {VI : MyQuicFramerVisitorInterface} {CI : Ciphers}.
Context (WriteUInt8AtOffset : Z -> Z -> M QuicDataWriter unit).

(** The type byte the serializer chooses. *)
Definition ack_type (version : Z) (frame : QuicAckFrame) : Z :=
  let '(la, lb) := ack_lengths version frame in
  ack_type_byte (negb (version =? QUIC_VERSION_41))
    (negb (num_ack_blocks (GetAckFrameInfo frame) =? 0)) la lb.

Lemma length_wire_ack e version num frame :
  0 <= num <= Z.of_nat (length (ack_blocks frame)) ->
  num <= num_ack_blocks (GetAckFrameInfo frame) ->
  Z.of_nat (length (wire_ack e version num frame)) + 1 <=
  ack_fixed_size version frame + num * (snd (ack_lengths version frame) + 1).
Proof.
  intros Hn Hi. unfold wire_ack, ack_fixed_size, ack_lengths. cbn [snd].
  set (la := GetMinPacketNumberLength version (largest_acked frame)).
  set (lb := GetMinPacketNumberLength version _).
  pose proof (min_length_valid version (largest_acked frame)) as Hla. fold la in Hla.
  assert (Hlb : valid_length lb) by apply min_length_valid.
  apply valid_length_bounds in Hla. pose proof (valid_length_bounds _ Hlb).
  rewrite !length_app, !length_wire_uint, !Nat2Z.inj_add, length_wire_blocks by done.
  rewrite length_take, Nat.min_l by lia.
  unfold GetMinAckFrameSize, kQuicFrameTypeSize, kQuicDeltaTimeLargestObservedSize,
    kQuicNumTimestampsSize, kNumberOfAckBlocksSize.
  destruct (version =? QUIC_VERSION_41), (Z.ltb_spec 0 num),
    (Z.eqb_spec (num_ack_blocks (GetAckFrameInfo frame)) 0);
    cbn [negb app length]; rewrite ?length_app; cbn [length]; lia.
Qed.

Lemma le_bytes_1 x : fits 8 x -> le_bytes 1 x = [x].
Proof. intros Hx. cbn. by rewrite Z.mod_small. Qed.

(** The counters version 41 writes up front, and the position of the one it
    may overwrite later. *)
Lemma writes_v41_counts {A} e f (pre : bool) (mc : M WState unit) count (k : Z -> M WState A) bs a :
  writes e (mkW f) mc count tt -> (forall x, writes e (mkW f) (k x) bs a) ->
  writes e (mkW f)
    (n ← (if pre then mret 0
          else _ ← mc; offset ← gets (fun s : WState => length_ (wr s));
               _ ← write (WriteUInt8 0); mret offset); k n)
    ((if pre then [] else count ++ [0]) ++ bs) a.
Proof.
  intros Hc Hk. destruct pre.
  { apply (writes_bind e (mkW f) (mret 0) k [] bs 0); [apply writes_ret|apply Hk]. }
  apply writes_bind_assoc. rewrite <- (assoc_L (++)). eapply writes_bind; [exact Hc|].
  apply writes_bind_assoc, writes_gets_any. intros x.
  apply writes_bind_assoc. eapply writes_bind; [by apply writes_write, WriteUInt8_writes|].
  eapply writes_bind_0; [apply writes_ret|apply Hk].
Qed.

(** With the number of blocks fixed the rest of the serializer is a writer of
    exactly these bytes. *)
Lemma AppendAck_bytes e f frame out tl :
  let version := transport_version (version_ f) in
  ack_frame_ok version frame -> use_incremental_ack_processing_ f = true ->
  ack_fixed_size version frame <= Z.of_nat (length tl) < 2 ^ 31 ->
  let num := ack_num version (Z.of_nat (length tl)) frame in
  let bs := ack_type version frame :: wire_ack e version num frame in
  AppendAckFrameAndTypeByte WriteUInt8AtOffset frame (mkW f (writer_at e out tl)) =
  (Some tt, mkW f (writer_at e (out ++ bs) (drop (length bs) tl))).
Proof.
  intros version Hok Hinc Hroom num bs.
  pose proof (ack_num_spec version _ frame Hok Hroom) as Hnum. fold num in Hnum. cbv zeta in Hnum.
  destruct (ack_info_ok _ _ Hok) as (back & itr & Hrev & Hb & He & Hd & Hfb & _).
  assert (Hlen : (length bs <= length tl)%nat).
  { pose proof (length_wire_ack e version num frame) as Hl. unfold bs. cbn [length].
    unfold ack_lengths in *. cbn [snd] in Hl. lia. }
  unfold AppendAckFrameAndTypeByte. rewrite !gets_bind. cbn [wfr wr].
  fold version. rewrite Hinc.
  replace (capacity_ (writer_at e out tl) - length_ (writer_at e out tl))
    with (Z.of_nat (length tl)) by (simpl; rewrite length_app; lia).
  unfold not_v41. fold version. unfold LargestAcked.
  change (ack_blocks_that_fit version (Z.of_nat (length tl)) (GetAckFrameInfo frame)
    (GetMinPacketNumberLength version (largest_acked frame))
    (GetMinPacketNumberLength version (max_block_length (GetAckFrameInfo frame)))) with num.
  match goal with |- ?m (mkW f (writer_at e out tl)) = _ =>
    enough (Hw : writes e (mkW f) m bs tt)
      by (specialize (Hw out tl); rewrite decide_True in Hw by done; exact Hw) end.
  unfold bs, ack_type, wire_ack, ack_lengths in *. clear bs Hlen.
  set (pre := negb (version =? QUIC_VERSION_41)).
  set (la := GetMinPacketNumberLength version (largest_acked frame)) in *.
  set (lb := GetMinPacketNumberLength version (max_block_length (GetAckFrameInfo frame))) in *.
  assert (Hla : valid_length la) by apply min_length_valid.
  assert (Hlb : valid_length lb) by apply min_length_valid.
  destruct (ack_type_bits pre (negb (num_ack_blocks (GetAckFrameInfo frame) =? 0)) la lb Hla Hlb)
    as (Ht & _).
  change (?t :: ?x) with ([t] ++ x).
  eapply writes_bind; [by apply writes_write, WriteUInt8_writes|].
  assert (Hcount : writes e (mkW f)
    (if 0 <? num then write (WriteBytes (le_bytes 1 num)) else mret tt)
    (if 0 <? num then [num] else []) tt).
  { apply writes_if; [|apply writes_ret]. rewrite le_bytes_1 by (unfold fits; lia).
    apply writes_write, WriteBytes_writes. }
  apply writes_v41_counts; [done|]. intros off.
  eapply writes_bind; [by apply writes_write, AppendPacketNumber_writes|].
  eapply writes_bind; [apply writes_write, WriteUFloat16_writes|].
  eapply writes_bind.
  { instantiate (1 := tt). destruct pre; cbn [andb]; [exact Hcount|apply writes_ret]. }
  eapply writes_bind; [by apply writes_write, AppendPacketNumber_writes|].
  eapply writes_bind.
  { unfold ack_blocks. rewrite Hrev. destruct (Z.ltb_spec 0 num).
    - apply writes_write. replace num with (num - 0) at 2 by lia.
      apply append_ack_blocks_writes; [done|done| |lia].
      destruct Hok as (_ & _ & _ & Hlt & _). destruct (version =? QUIC_VERSION_41); lia.
    - replace (Z.to_nat num) with 0%nat by lia. rewrite take_0.
      replace (Z.to_nat (num - 0)) with 0%nat by lia. apply writes_ret. }
  apply writes_gets_any. intros room_left. cbn [negb andb].
  apply writes_if; [|apply writes_ret].
  rewrite le_bytes_1 by (unfold fits; lia). apply writes_write, WriteBytes_writes.
Qed.

(** The visitor after the start of the frame and its ranges. *)
Definition ack_feed (largest delay : Z) (rs : list (Z * Z * bool)) (v : Visitor) : option Visitor :=
  let '(b, v) := OnAckFrameStart largest delay v in if b then feed rs v else None.

(** The delay after its trip through the 16-bit float. *)
Definition received_delay (delay : Z) : Z :=
  ack_delay_of_wire (ufloat16_decode (ufloat16_encode (wire_ack_delay delay))).

(** The ranges announced for [num] blocks. *)
Definition ack_ranges (num : Z) (frame : QuicAckFrame) : list (Z * Z * bool) :=
  match reverse (packets frame) with
  | [] => []
  | back :: itr =>
    (imin back, imax back, num_ack_blocks (GetAckFrameInfo frame) =? 0) ::
    ranges_of (imin back) (take (Z.to_nat num) (blocks_of (imin back) itr))
  end.

(** The widths chosen hold everything written with them. *)
Lemma ack_widths version frame :
  ack_frame_ok version frame ->
  let '(la, lb) := ack_lengths version frame in
  0 <= largest_acked frame < 256 ^ la /\
  0 <= first_block_length (GetAckFrameInfo frame) < 256 ^ lb /\
  forall g b, (g, b) ∈ take 255 (ack_blocks frame) -> b < 256 ^ lb.
Proof.
  intros Hok. destruct (ack_info_ok _ _ Hok) as
    (back & itr & _ & Hb & He & _ & Hfb & _ & _ & Hml & Hall).
  destruct Hok as (_ & _ & _ & Hlt & _). unfold ack_lengths.
  assert (Hl : largest_acked frame < 256 ^ GetMinPacketNumberLength version (largest_acked frame)).
  { apply GetMinPacketNumberLength_enough. unfold fits. destruct (version =? _); lia. }
  assert (Hm : max_block_length (GetAckFrameInfo frame) <
               256 ^ GetMinPacketNumberLength version (max_block_length (GetAckFrameInfo frame))).
  { apply GetMinPacketNumberLength_enough. unfold fits. destruct (version =? _); lia. }
  split_and!; try lia. intros g b Hin. specialize (Hall g b Hin). lia.
Qed.

Lemma reads_if_count e f msg (c : bool) num :
  fits 8 num -> (c = false -> num = 0) ->
  reads e (mkP f) (if c then reading msg ReadUInt8 else mret 0) (if c then [num] else []) num.
Proof.
  intros Hf Hz. destruct c; [by apply reads_reading, ReadUInt8_reads|].
  rewrite (Hz eq_refl). apply reads_ret.
Qed.

(** The tail of the parser, from the first block on. *)
Lemma ProcessAck_tail e f lb largest first num bl has pre v' (frame : QuicAckFrame) :
  valid_length lb -> 0 <= largest < 2 ^ 62 -> 0 < first <= largest + 1 -> first < 256 ^ lb ->
  num = Z.of_nat (length bl) ->
  valid_blocks lb (largest + 1 - first) bl ->
  feed ((largest + 1 - first, largest + 1, negb has) :: ranges_of (largest + 1 - first) bl)
    (visitor_ f) = Some v' ->
  reads2 e (mkP f) (mkP (set_visitor v' f))
    (first_block_length ← reading "Unable to read first ack block length." (ReadBytesToUInt64 lb);
     _ ← reject_if ((first_block_length =? 0) && (negb (largest =? 0) || negb (num =? 0)))
           ("First block length is zero but ACK is not empty. largest acked is " +:+
            pretty (Z.to_N largest) +:+ ", num ack blocks is " +:+ pretty (Z.to_N num) +:+ ".");
     _ ← reject_if (u64 (largest + 1) <? first_block_length)
           ("Underflow with first ack block length " +:+ pretty (Z.to_N first_block_length) +:+
            " largest acked is " +:+ pretty (Z.to_N largest) +:+ ".");
     let first_received := u64 (u64 (largest + 1) - first_block_length) in
     _ ← ack_callback (OnAckRange first_received (u64 (largest + 1)) (negb has));
     ack_frame ← ack_block_loop (Z.to_nat num) true lb first_received frame;
     num_received_packets ← (if pre : bool then reading "Unable to read num received packets." ReadUInt8
                             else mret 0);
     ProcessTimestampsInAckFrame num_received_packets ack_frame)
    (wire_uint e (Z.to_nat lb) first ++ wire_blocks e lb bl ++ (if pre then [0] else [])) frame.
Proof.
  intros Hlb Hl Hf Hfw -> Hv Hfeed. pose proof (valid_length_bounds _ Hlb).
  eapply reads2_bind_keep; [apply reads_reading, ReadBytesToUInt64_reads'; lia|].
  eapply reads2_bind_keep_0.
  { apply reads_reject_if. rewrite (proj2 (Z.eqb_neq first 0)) by lia. done. }
  rewrite !(wrap_small 64 (largest + 1)) by (unfold fits; lia).
  eapply reads2_bind_keep_0; [apply reads_reject_if, Z.ltb_ge; lia|]. cbv zeta.
  rewrite !(wrap_small 64 (largest + 1 - first)) by (unfold fits; lia).
  cbn [feed] in Hfeed. destruct (OnAckRange _ _ _ (visitor_ f)) as [[] v1] eqn:Hcb; [|done].
  eapply reads2_bind_0; [by apply reads_ack_callback|].
  rewrite Nat2Z.id. eapply reads2_bind.
  { apply ack_block_loop_reads; [done| |done|exact Hfeed]. lia. }
  change (set_visitor v' (set_visitor v1 f)) with (set_visitor v' f).
  eapply (reads2_bind_nil _ _ _ _ _ _ _ 0).
  { destruct pre; [by apply reads_reading, ReadUInt8_reads|apply reads_ret]. }
  apply reads_ret.
Qed.

(** What the reader makes of the type byte. *)
Lemma ack_type_read version frame :
  let '(la, lb) := ack_lengths version frame in
  let t := ack_type version frame in
  ExtractBit t (if negb (version =? QUIC_VERSION_41) then kQuicHasMultipleAckBlocksOffset_Pre40
                else kQuicHasMultipleAckBlocksOffset) = negb (num_ack_blocks (GetAckFrameInfo frame) =? 0) /\
  ReadAckPacketNumberLength version (ExtractBits t kQuicSequenceNumberLengthNumBits kActBlockLengthOffset) = lb /\
  ReadAckPacketNumberLength version (ExtractBits t kQuicSequenceNumberLengthNumBits kLargestAckedOffset) = la /\
  valid_length la /\ valid_length lb.
Proof.
  unfold ack_type, ack_lengths. set (la := GetMinPacketNumberLength version (largest_acked frame)).
  set (lb := GetMinPacketNumberLength version _).
  assert (Hla : valid_length la) by apply min_length_valid.
  assert (Hlb : valid_length lb) by apply min_length_valid.
  destruct (ack_type_bits (negb (version =? QUIC_VERSION_41)) (negb (num_ack_blocks (GetAckFrameInfo frame) =? 0))
    la lb Hla Hlb) as (_ & -> & -> & ->).
  split_and!; [done|apply ack_length_roundtrip|apply ack_length_roundtrip|done|done].
Qed.

Lemma ack_delay_fits delay : fits 16 (ufloat16_encode (wire_ack_delay delay)).
Proof. apply ufloat16_encode_fits. unfold wire_ack_delay. case_match; [done|]. by apply wrap_fits. Qed.

Lemma ack_largest_bound version frame : ack_frame_ok version frame -> largest_acked frame + 1 < 2 ^ 62.
Proof. intros (_ & _ & _ & Hlt & _). destruct (version =? QUIC_VERSION_41); lia. Qed.

(** The number of blocks, which comes before or after the delay. *)
Lemma reads_early_count e f msg (pre : bool) num :
  0 <= num <= 255 ->
  reads e (mkP f) (if negb pre && (0 <? num) then reading msg ReadUInt8 else mret 0)
    (if pre then [] else if 0 <? num then [num] else []) (if pre then 0 else num).
Proof.
  intros Hn. destruct pre; cbn [negb andb]; [apply reads_ret|].
  apply reads_if_count; [unfold fits; lia|]. destruct (Z.ltb_spec 0 num); [done|lia].
Qed.
Lemma reads_late_count e f msg (pre : bool) num :
  0 <= num <= 255 ->
  reads e (mkP f) (if (0 <? num) && pre then reading msg ReadUInt8 else mret (if pre then 0 else num))
    (if pre then if 0 <? num then [num] else [] else []) num.
Proof.
  intros Hn. destruct pre; rewrite ?andb_true_r, ?andb_false_r; [|apply reads_ret].
  apply reads_if_count; [unfold fits; lia|]. destruct (Z.ltb_spec 0 num); [done|lia].
Qed.

Lemma ProcessAck_bytes e f frame num v' :
  let version := transport_version (version_ f) in
  ack_frame_ok version frame -> use_incremental_ack_processing_ f = true ->
  0 <= num <= 255 -> num <= Z.of_nat (length (ack_blocks frame)) ->
  (num = 0 <-> num_ack_blocks (GetAckFrameInfo frame) = 0) ->
  ack_feed (largest_acked frame) (received_delay (ack_delay_time frame)) (ack_ranges num frame)
    (visitor_ f) = Some v' ->
  reads2 e (mkP f) (mkP (set_visitor v' f))
    (ProcessAckFrame (ack_type version frame) emptyAckFrame)
    (wire_ack e version num frame) emptyAckFrame.
Proof.
  intros version Hok Hinc Hnum Hbl Hz Hfeed.
  pose proof (ack_widths version frame Hok) as Hw. pose proof (ack_type_read version frame) as Ht.
  pose proof (ack_delay_fits (ack_delay_time frame)) as Hdelay. pose proof (ack_largest_bound _ _ Hok) as Hlt.
  destruct (ack_info_ok _ _ Hok) as (back & itr & Hrev & Hb & He & Hd & Hfb & _ & _ & _ & _).
  unfold ProcessAckFrame, wire_ack, ack_lengths in *.
  eapply reads2_bind_keep_0; [by apply (reads_gets e (mkP f) _ version)|].
  eapply reads2_bind_keep_0; [by apply (reads_gets e (mkP f) _ (not_v41 f))|].
  eapply reads2_bind_keep_0; [by apply (reads_gets e (mkP f) _ true)|].
  unfold not_v41. fold version. destruct Ht as (-> & -> & -> & Hla & Hlb).
  set (pre := negb (version =? QUIC_VERSION_41)).
  set (la := GetMinPacketNumberLength version (largest_acked frame)) in *.
  set (lb := GetMinPacketNumberLength version (max_block_length (GetAckFrameInfo frame))) in *.
  assert (Hmult : negb (num_ack_blocks (GetAckFrameInfo frame) =? 0) = (0 <? num)).
  { destruct (Z.eqb_spec (num_ack_blocks (GetAckFrameInfo frame)) 0);
      destruct (Z.ltb_spec 0 num); simpl; auto; lia. }
  rewrite Hmult. pose proof (valid_length_bounds _ Hla). pose proof (valid_length_bounds _ Hlb).
  unfold ack_feed in Hfeed.
  destruct (OnAckFrameStart _ _ (visitor_ f)) as [[] v0] eqn:Hstart; [|done].
  set (count := if 0 <? num then [num] else []).
  match goal with |- reads2 _ _ _ _ ((if pre then [] else count ++ [0]) ++ ?x) _ =>
    apply (reads2_eq _ _ _ _ ((if pre then [] else count) ++ (if pre then [] else [0]) ++ x));
      [destruct pre; [done|by rewrite <- (assoc_L (++))]|] end.
  eapply reads2_bind_keep; [by apply reads_early_count|].
  eapply (reads2_bind_keep _ _ _ _ _ _ _ 0).
  { destruct pre; cbn [negb]; [apply reads_ret|by apply reads_reading, ReadUInt8_reads]. }
  eapply reads2_bind_keep; [apply reads_reading, ReadBytesToUInt64_reads'; lia|].
  eapply reads2_bind_keep; [by apply reads_reading, ReadUFloat16_reads|].
  eapply reads2_bind_0; [apply reads_ack_callback; exact Hstart|].
  eapply reads2_bind_keep; [by apply reads_late_count|].
  unfold ack_ranges in Hfeed. rewrite Hrev in Hfeed.
  unfold ack_blocks in *. rewrite Hrev in *.
  change (set_visitor v' f) with (set_visitor v' (set_visitor v0 f)).
  assert (Hback : largest_acked frame + 1 - first_block_length (GetAckFrameInfo frame) = imin back) by lia.
  apply (ProcessAck_tail e (set_visitor v0 f) lb (largest_acked frame)
           (first_block_length (GetAckFrameInfo frame)) num
           (take (Z.to_nat num) (blocks_of (imin back) itr)) (0 <? num) pre v' emptyAckFrame);
    try done; try lia.
  - rewrite length_take, Nat.min_l by lia. lia.
  - rewrite Hback. apply blocks_of_valid; [done|lia|lia|].
    intros g b Hin. eapply (proj2 (proj2 Hw)).
    rewrite elem_of_take in *. destruct Hin as (i & Hi & Hlt'). exists i. split; [done|lia].
  - rewrite Hback, He in *. rewrite <- Hmult, negb_involutive. exact Hfeed.
Qed.

(** ** What the ranges say *)

Lemma ack_ranges_prefix version num frame :
  ack_frame_ok version frame ->
  exists k, map fst (ack_ranges num frame) = map iv_range (take (S k) (reverse (packets frame))).
Proof.
  intros Hok. destruct (ack_info_ok _ _ Hok) as (back & itr & Hrev & Hb & He & Hd & _).
  unfold ack_ranges. rewrite Hrev.
  destruct (ranges_of_take (imin back) itr (Z.to_nat num) Hd) as (k & Hk & _).
  { destruct Hok as (_ & _ & _ & Hlt & _). destruct (version =? _); lia. }
  exists k. cbn [map fst take]. by rewrite Hk.
Qed.

Lemma ack_ranges_complete version num frame :
  ack_frame_ok version frame -> num = Z.of_nat (length (ack_blocks frame)) -> num < 255 ->
  ack_ranges num frame = mark_last (map iv_range (reverse (packets frame))).
Proof.
  intros Hok Hnum Hlt. destruct (ack_info_ok _ _ Hok) as (back & itr & Hrev & Hb & He & Hd & _ & Hn & Hn' & _).
  unfold ack_ranges, ack_blocks in *. rewrite Hrev in *. subst num. rewrite Nat2Z.id, firstn_all.
  rewrite ranges_of_all; [|done|destruct Hok as (_ & _ & _ & Hl & _); destruct (version =? _); lia].
  cbn [map mark_last]. do 2 f_equal.
  replace (num_ack_blocks (GetAckFrameInfo frame)) with (Z.of_nat (length (blocks_of (imin back) itr))) by lia.
  destruct itr as [|iv itr]; [done|]. cbn [map].
  destruct (blocks_of (imin back) (iv :: itr)) eqn:E; [by apply blocks_of_nil in E|done].
Qed.

(** Every packet number a range covers was in the queue. *)
Lemma ack_ranges_sound version num frame lo hi is_last x :
  ack_frame_ok version frame -> (lo, hi, is_last) ∈ ack_ranges num frame -> lo <= x < hi ->
  mem (packets frame) x.
Proof.
  intros Hok Hin Hx. destruct (ack_ranges_prefix _ num _ Hok) as [k Hk].
  assert (Hr : (lo, hi) ∈ map fst (ack_ranges num frame)).
  { apply list_elem_of_fmap. exists (lo, hi, is_last). done. }
  rewrite Hk in Hr. apply list_elem_of_fmap in Hr as (iv & [= -> ->] & Hiv).
  apply subseteq_take in Hiv. apply Exists_exists. exists iv. split; [|exact Hx].
  by apply elem_of_reverse.
Qed.
End whole_frame.
