(* ===== verification/AckTruncation.v ===== *)
(** Ack frames for which there was no room.  How many bytes a parser takes at least when
    it succeeds, and what follows for an ack frame written without any of its further
    blocks: its type byte still announces them, so that the parser is short of a byte. *)
From S2P Require Import Prelude.
From S2P Require Import DataReader.
From S2P Require Import DataWriter.
From S2P Require Import Encodings.
From S2P Require Import PacketNumbers.
From S2P Require Import PacketNumberQueue.
From S2P Require Import FramerTypes.
From S2P Require Import GoogleFrames.
From S2P Require Import AckFrames.
From S2P Require Import AckRoundTrip.

Open Scope string_scope.
Open Scope list_scope.
Open Scope Z_scope.

(** * The bytes a parser takes *)

Section takes.
Context {S : Type} (get : S -> QuicDataReader).

(** When [m] succeeds it has taken at least [n] bytes that were left. *)
Definition takes {A} (n : Z) (m : M S A) : Prop := forall s a s',
  0 <= BytesRemaining (get s) -> m s = (Some a, s') ->
  0 <= BytesRemaining (get s') <= BytesRemaining (get s) - n.

Lemma takes_ret {A} (a : A) : takes 0 (mret a).
Proof. intros s b s' Hs [= _ <-]. lia. Qed.

Lemma takes_gets {A} (f : S -> A) : takes 0 (gets f).
Proof. intros s b s' Hs [= _ <-]. lia. Qed.

Lemma takes_bind {A B} n k (m : M S A) (f : A -> M S B) :
  takes n m -> (forall a, takes k (f a)) -> takes (n + k) (m ≫= f).
Proof.
  intros Hm Hf s b s' Hs E. unfold mbind, M_bind in E. destruct (m s) as [[a|] s1] eqn:E1; [|done].
  specialize (Hm s a s1 Hs E1). specialize (Hf a s1 b s' ltac:(lia) E). lia.
Qed.

Lemma takes_bind_0 {A B} n (m : M S A) (f : A -> M S B) :
  takes 0 m -> (forall a, takes n (f a)) -> takes n (m ≫= f).
Proof. intros. by apply (takes_bind 0 n). Qed.

Lemma takes_weaken {A} n k (m : M S A) : n <= k -> takes k m -> takes n m.
Proof. intros Hle Hm s a s' Hs E. specialize (Hm s a s' Hs E). lia. Qed.

Lemma takes_if {A} (b : bool) n k (m1 m2 : M S A) :
  takes n m1 -> takes k m2 -> takes (if b then n else k) (if b then m1 else m2).
Proof. by destruct b. Qed.

(** A parser that takes more than is left fails. *)
Lemma takes_short {A} n (m : M S A) s :
  takes n m -> 0 <= BytesRemaining (get s) < n -> fst (m s) = None.
Proof.
  intros Hm Hs. destruct (m s) as [[a|] s'] eqn:E; [|done].
  specialize (Hm s a s' ltac:(lia) E). lia.
Qed.
End takes.

Abbreviation bytes_taken := (takes (fun r : QuicDataReader => r)).

Lemma takes_ReadBytes n : 0 <= n -> bytes_taken n (ReadBytes n).
Proof.
  intros Hn r a r' Hr. unfold ReadBytes, CanRead. destruct (Z.leb_spec n (len_ r - pos_ r)); [|done].
  intros [= _ <-]. unfold BytesRemaining in *. cbn. lia.
Qed.

Lemma takes_fail_if {S} (get : S -> QuicDataReader) b h : takes get 0 (fail_if b h).
Proof. intros s a s' Hs. unfold fail_if. destruct b; [done|]. intros [= _ <-]. lia. Qed.

Lemma takes_ReadUInt8 : bytes_taken 1 ReadUInt8.
Proof. apply (takes_bind _ 1 0); [by apply takes_ReadBytes|intros; apply takes_ret]. Qed.

Lemma takes_ReadUInt16 : bytes_taken 2 ReadUInt16.
Proof.
  apply (takes_bind _ 2 0); [by apply takes_ReadBytes|intros b].
  apply takes_bind_0; [apply takes_gets|intros; apply takes_ret].
Qed.

Lemma takes_ReadUInt32 : bytes_taken 4 ReadUInt32.
Proof.
  apply (takes_bind _ 4 0); [by apply takes_ReadBytes|intros b].
  apply takes_bind_0; [apply takes_gets|intros; apply takes_ret].
Qed.

Lemma takes_ReadUFloat16 : bytes_taken 2 ReadUFloat16.
Proof.
  apply (takes_bind _ 2 0); [apply takes_ReadUInt16|intros v]. by case_match; apply takes_ret.
Qed.

Lemma takes_ReadBytesToUInt64 n : 0 <= n -> bytes_taken n (ReadBytesToUInt64 n).
Proof.
  intros Hn. apply takes_bind_0; [apply takes_fail_if|intros _].
  apply takes_bind_0; [apply takes_gets|intros e].
  rewrite <- (Z.add_0_r n) at 1. apply takes_bind; [by apply takes_ReadBytes|intros; apply takes_ret].
Qed.

(** * The parser of ack frames *)

Section parser.
Context {HM : HandshakeMessages} {VI : MyQuicFramerVisitorInterface} {CI : Ciphers}.
Abbreviation parsed := (takes (fun s : PState => rd s)).

Lemma takes_reading {A} n msg (m : M QuicDataReader A) : bytes_taken n m -> parsed n (reading msg m).
Proof.
  intros Hm s a s' Hs. unfold reading, or_fail, zoom. destruct (m (rd s)) as [[b|] r] eqn:E; [|done].
  intros [= _ <-]. exact (Hm (rd s) b r Hs E).
Qed.

Lemma takes_reject_if b msg : parsed 0 (reject_if b msg).
Proof. apply takes_fail_if. Qed.

Lemma takes_ack_callback cb : parsed 0 (ack_callback cb).
Proof.
  apply takes_bind_0; [|intros; apply takes_reject_if]. intros s a s' Hs. unfold callback.
  destruct (cb _). intros [= _ <-]. cbn in *. lia.
Qed.

Lemma takes_modify_fr (g : PState -> MyQuicFramer -> MyQuicFramer) : parsed 0 (modify (fun s => on_fr (g s) s)).
Proof. intros s a s' Hs [= _ <-]. cbn in *. lia. Qed.

Lemma takes_nothing {A} n msg (m : M QuicDataReader A) : 0 <= n -> bytes_taken n m -> parsed 0 (reading msg m).
Proof. intros Hn Hm. by apply (takes_weaken _ 0 n), takes_reading. Qed.

Lemma takes_ack_block_loop n incremental len first frame :
  0 <= len -> parsed 0 (ack_block_loop n incremental len first frame).
Proof.
  intros Hl. revert first frame. induction n as [|n IH]; intros first frame; cbn [ack_block_loop]; [apply takes_ret|].
  apply takes_bind_0; [by apply (takes_nothing 1), takes_ReadUInt8|intros gap].
  apply takes_bind_0; [by apply (takes_nothing len), takes_ReadBytesToUInt64|intros block].
  apply takes_bind_0; [apply takes_reject_if|intros _]. cbv zeta.
  destruct (_ <? _), incremental; try apply IH. apply takes_bind_0; [apply takes_ack_callback|intros; apply IH].
Qed.

Lemma takes_timestamps_loop n frame : parsed 0 (timestamps_loop n frame).
Proof.
  revert frame. induction n as [|n IH]; intros frame; cbn [timestamps_loop]; [apply takes_ret|].
  apply takes_bind_0; [by apply (takes_nothing 1), takes_ReadUInt8|intros delta].
  apply takes_bind_0; [by apply (takes_nothing 2), takes_ReadUFloat16|intros time].
  apply takes_bind_0; [apply takes_modify_fr|intros _].
  apply takes_bind_0; [apply takes_gets|intros now]. apply IH.
Qed.

Lemma takes_ProcessTimestamps n frame : parsed 0 (ProcessTimestampsInAckFrame n frame).
Proof.
  unfold ProcessTimestampsInAckFrame. destruct (0 <? n); [|apply takes_ret].
  apply takes_bind_0; [by apply (takes_nothing 1), takes_ReadUInt8|intros delta].
  apply takes_bind_0; [by apply (takes_nothing 4), takes_ReadUInt32|intros time].
  apply takes_bind_0; [apply takes_modify_fr|intros _].
  apply takes_bind_0; [apply takes_gets|intros now]. apply takes_timestamps_loop.
Qed.

(** What follows once the version, the type byte and the widths are known. *)
Definition ack_bytes_needed (pre has_blocks : bool) (la lb : Z) : Z :=
  (if has_blocks then 1 else 0) + (1 + (la + (2 + lb))).

Lemma takes_ProcessAckFrame f r t frame :
  let version := transport_version (version_ f) in
  let pre := not_v41 f in
  let has_blocks := ExtractBit t (if pre then kQuicHasMultipleAckBlocksOffset_Pre40 else kQuicHasMultipleAckBlocksOffset) in
  let lb := ReadAckPacketNumberLength version (ExtractBits t kQuicSequenceNumberLengthNumBits kActBlockLengthOffset) in
  let la := ReadAckPacketNumberLength version (ExtractBits t kQuicSequenceNumberLengthNumBits kLargestAckedOffset) in
  0 <= BytesRemaining r < ack_bytes_needed pre has_blocks la lb -> 0 <= la -> 0 <= lb ->
  fst (ProcessAckFrame t frame (mkP f r)) = None.
Proof.
  intros version pre has_blocks lb la Hr Hla Hlb. unfold ProcessAckFrame. rewrite !gets_bind. cbn [fr].
  fold version pre has_blocks. cbv zeta. fold la lb. clearbody version pre has_blocks la lb.
  set (incremental := use_incremental_ack_processing_ f). clearbody incremental.
  eapply (takes_short (fun s : PState => rd s)); [|exact Hr]. unfold ack_bytes_needed.
  set (early := if negb pre && has_blocks then 1 else 0). set (stamps := if pre then 0 else 1).
  set (late := if has_blocks && pre then 1 else 0). set (stamps' := if pre then 1 else 0).
  replace ((if has_blocks then 1 else 0) + (1 + (la + (2 + lb))))
    with (early + (stamps + (la + (2 + (late + (lb + stamps')))))) by (destruct pre, has_blocks; cbn; lia).
  apply takes_bind; [apply takes_if; [apply takes_reading, takes_ReadUInt8|apply takes_ret]|intros count].
  apply takes_bind.
  { unfold stamps. destruct pre; [apply takes_ret|apply takes_reading, takes_ReadUInt8]. }
  intros received. apply takes_bind; [by apply takes_reading, takes_ReadBytesToUInt64|intros largest].
  apply takes_bind; [apply takes_reading, takes_ReadUFloat16|intros delay].
  apply takes_bind_0; [destruct incremental; [apply takes_ack_callback|apply takes_ret]|intros _].
  apply takes_bind; [apply takes_if; [apply takes_reading, takes_ReadUInt8|apply takes_ret]|intros count'].
  apply takes_bind; [by apply takes_reading, takes_ReadBytesToUInt64|intros block].
  do 2 (apply takes_bind_0; [apply takes_reject_if|intros _]).
  apply takes_bind_0; [destruct incremental; [apply takes_ack_callback|apply takes_ret]|intros _].
  apply takes_bind_0; [by apply takes_ack_block_loop|intros frame'].
  rewrite <- (Z.add_0_r stamps'). apply takes_bind; [|intros; apply takes_ProcessTimestamps].
  apply takes_if; [apply takes_reading, takes_ReadUInt8|apply takes_ret].
Qed.

(** An ack frame with further blocks, written without any of them, is not read. *)
Lemma ProcessAck_cut e f frame before :
  let version := transport_version (version_ f) in
  num_ack_blocks (GetAckFrameInfo frame) <> 0 ->
  fst (ProcessAckFrame (ack_type version frame) emptyAckFrame
         (mkP f (reader_at e before (wire_ack e version 0 frame)))) = None.
Proof.
  intros version Hn. pose proof (ack_type_read version frame) as Ht.
  unfold wire_ack. destruct (ack_lengths version frame) as [la lb].
  destruct Ht as (Hm & El & Ea & Hla%valid_length_bounds & Hlb%valid_length_bounds).
  apply takes_ProcessAckFrame; fold version; rewrite ?Ea, ?El; [|lia|lia].
  unfold not_v41. fold version. rewrite Hm, (proj2 (Z.eqb_neq _ _) Hn).
  unfold BytesRemaining, reader_at, ack_bytes_needed. cbn [len_ pos_ negb].
  change (0 <? 0) with false. change (take (Z.to_nat 0) _) with (@nil (Z * Z)).
  rewrite !length_app, !length_wire_uint. destruct (version =? QUIC_VERSION_41); cbn; lia.
Qed.
End parser.

(** * Frames cut in a gap *)

(** If the last block read has no packets, no range is announced as the last one. *)
Lemma ranges_of_unended fr bl gap :
  last bl = Some (gap, 0) -> Forall (fun r => r.2 = false) (ranges_of fr bl).
Proof.
  revert fr. induction bl as [|[g b] bl IH]; intros fr Hl; [done|]. cbn [ranges_of].
  destruct bl as [|b' bl].
  - injection Hl as -> ->. constructor.
  - apply Forall_app. split; [|by apply IH]. destruct (0 <? b); [|constructor]. by constructor.
Qed.

Lemma ack_ranges_unended version room frame gap :
  let num := ack_num version room frame in
  ack_frame_ok version frame -> ack_fixed_size version frame <= room < 2 ^ 31 ->
  last (take (Z.to_nat num) (ack_blocks frame)) = Some (gap, 0) ->
  Forall (fun r => r.2 = false) (ack_ranges num frame).
Proof.
  intros num Hok Hroom Hl. pose proof (ack_num_spec version room frame Hok Hroom) as Hn. cbv zeta in Hn. fold num in Hn.
  destruct (ack_lengths version frame) as [la lb]. unfold ack_ranges, ack_blocks in *.
  destruct (reverse (packets frame)) as [|back itr]; [constructor|]. constructor; [|by eapply ranges_of_unended].
  cbn [snd]. apply Z.eqb_neq. destruct (Z.to_nat num) eqn:E; [done|lia].
Qed.
