(* ===== verification/LibquicAck.v ===== *)
(** The ack frame writer of libquic/net/my_quic_framer.{h,cc}, a second copy of the
    serializer of quic/model/my_quic_framer.cc, built with my_check.h: there a
    failed DCHECK prints its line and calls [abort].

    What the two files share to the letter (the block summary, the packet-number and
    block writers, the loops over the intervals) is taken from [AckFrames] and
    [GoogleFrames]; what differs is defined here. *)
From S2P Require Import Prelude.
From S2P Require Import DataReader.
From S2P Require Import DataWriter.
From S2P Require Import Encodings.
From S2P Require Import PacketNumbers.
From S2P Require Import PacketNumberQueue.
From S2P Require Import FramerTypes.
From S2P Require Import GoogleFrames.
From S2P Require Import AckFrames.
From S2P Require Import AckRoundTrip.

Open Scope Z_scope.

(** * Computations that may abort *)

(** [None]: the process was aborted; otherwise the outcome of a computation of [M]. *)
Definition Checked (S A : Type) : Type := S -> option (option A * S).

#[export] Instance Checked_ret S : MRet (Checked S) := fun A a s => Some (Some a, s).
#[export] Instance Checked_bind S : MBind (Checked S) := fun A B k m s =>
  match m s with
  | Some (Some a, s') => k a s'
  | Some (None, s') => Some (None, s')
  | None => None
  end.

(** A computation without checks. *)
Definition unchecked {S A} (m : M S A) : Checked S A := fun s => Some (m s).
(** [DCHECK_xx]. *)
Definition dcheck {S} (b : bool) : Checked S unit := fun s => if b then Some (Some tt, s) else None.

Module AckWriter.
Record MyQuicFramer := mkFramer {
  process_timestamps_ : bool;
  supported_versions_ : list ParsedQuicVersion;
  version_ : ParsedQuicVersion;
  creation_time_ : Z;
}.

(** [supported_versions_[0]]: [None] when there is no first version. *)
Definition MyQuicFramer_ctor (supported_versions : list ParsedQuicVersion) (creation_time : Z) :
    option MyQuicFramer :=
  version ← head supported_versions;
  Some (mkFramer false supported_versions version creation_time).

Definition set_process_timestamps (process_timestamps : bool) (f : MyQuicFramer) : MyQuicFramer :=
  mkFramer process_timestamps (supported_versions_ f) (version_ f) (creation_time_ f).

Definition GetMinPacketNumberLength (packet_number : Z) : Z :=
  if packet_number <? Z.shiftl 1 (PACKET_1BYTE_PACKET_NUMBER * 8) then PACKET_1BYTE_PACKET_NUMBER
  else if packet_number <? Z.shiftl 1 (PACKET_2BYTE_PACKET_NUMBER * 8) then PACKET_2BYTE_PACKET_NUMBER
  else if packet_number <? Z.shiftl 1 (PACKET_4BYTE_PACKET_NUMBER * 8) then PACKET_4BYTE_PACKET_NUMBER
  else PACKET_6BYTE_PACKET_NUMBER.

Definition QUIC_VERSION_99 : Z := 99.

Definition GetMinAckFrameSize (version largest_observed_length : Z) : Z :=
  if version =? QUIC_VERSION_99 then kQuicFrameTypeSize + 4
  else
    let min_size := kQuicFrameTypeSize + largest_observed_length + kQuicDeltaTimeLargestObservedSize in
    min_size + kQuicNumTimestampsSize.

Definition SetBits {S} (flags val num_bits offset : Z) : Checked S Z :=
  _ ← dcheck (val <=? GetMaskFromNumBits num_bits);
  mret (u8 (Z.lor flags (Z.shiftl val offset))).

Definition SetBit {S} (flags : Z) (val : bool) (offset : Z) : Checked S Z :=
  SetBits flags (if val then 1 else 0) 1 offset.

Definition kQuicFrameTypeAckMask : Z := 0x40.
Definition kQuicHasMultipleAckBlocksOffset : Z := 5.

(** Lines 379-382 and 402-410: the blocks that fit into [room] bytes. *)
Definition num_blocks (version room : Z) (info : AckFrameInfo)
    (largest_acked_length ack_block_length : Z) : Z :=
  let available := i32 (room - ack_block_length - GetMinAckFrameSize version largest_acked_length -
                        (if negb (num_ack_blocks info =? 0) then kNumberOfAckBlocksSize else 0)) in
  let max_num_ack_blocks := u64 (Z.quot available (ack_block_length + PACKET_1BYTE_PACKET_NUMBER)) in
  let num := Z.min (num_ack_blocks info) max_num_ack_blocks in
  if uint8_max <? num then uint8_max else num.

(** Lines 417-421. *)
Definition ack_delay_us {S} (delay : Z) : Checked S Z :=
  if negb (delay =? kQuicInfiniteTimeUs)
  then _ ← dcheck (0 <=? delay); mret (u64 delay)
  else mret kUFloat16MaxValue.

Definition AppendTimestampsToAckFrame (frame : QuicAckFrame) (f : MyQuicFramer) : Checked QuicDataWriter unit :=
  let size := Z.of_nat (length (received_packet_times frame)) in
  _ ← dcheck (size <=? uint8_max);
  _ ← unchecked (fail_if (uint8_max <? size) id);
  let num_received_packets := u8 size in
  _ ← unchecked (WriteBytes (le_bytes 1 num_received_packets));
  match received_packet_times frame with
  | [] => mret tt
  | (packet_number, time) :: ts =>
    let delta_from_largest_observed := u64 (LargestAcked frame - packet_number) in
    _ ← dcheck (delta_from_largest_observed <=? uint8_max);
    _ ← unchecked (fail_if (uint8_max <? delta_from_largest_observed) id);
    _ ← unchecked (WriteUInt8 delta_from_largest_observed);
    _ ← unchecked (WriteUInt32 (Z.land (i64 (time - creation_time_ f)) (Z.shiftl 1 32 - 1)));
    unchecked (append_timestamps_loop (LargestAcked frame) time ts)
  end.

Definition AppendAckFrameAndTypeByte (frame : QuicAckFrame) (f : MyQuicFramer) : Checked QuicDataWriter unit :=
  let version := transport_version (version_ f) in
  let new_ack_info := GetAckFrameInfo frame in
  let largest_acked := LargestAcked frame in
  let largest_acked_length := GetMinPacketNumberLength largest_acked in
  let ack_block_length := GetMinPacketNumberLength (max_block_length new_ack_info) in
  room ← unchecked (gets (fun w => capacity_ w - length_ w));
  type_byte ← SetBit 0 (negb (num_ack_blocks new_ack_info =? 0)) kQuicHasMultipleAckBlocksOffset;
  type_byte ← SetBits type_byte (GetPacketNumberFlags largest_acked_length)
                kQuicSequenceNumberLengthNumBits kLargestAckedOffset;
  type_byte ← SetBits type_byte (GetPacketNumberFlags ack_block_length)
                kQuicSequenceNumberLengthNumBits kActBlockLengthOffset;
  let type_byte := Z.lor type_byte kQuicFrameTypeAckMask in
  _ ← unchecked (WriteUInt8 type_byte);
  let num := num_blocks version room new_ack_info largest_acked_length ack_block_length in
  _ ← unchecked (AppendPacketNumber largest_acked_length largest_acked);
  ack_delay_time_us ← ack_delay_us (ack_delay_time frame);
  _ ← unchecked (WriteUFloat16 ack_delay_time_us);
  _ ← unchecked (if 0 <? num then WriteBytes (le_bytes 1 num) else mret tt);
  _ ← unchecked (AppendPacketNumber ack_block_length (first_block_length new_ack_info));
  _ ← (if 0 <? num then
         match reverse (packets frame) with
         | [] => mret tt
         | back :: itr =>
           num_ack_blocks_written ← unchecked (append_ack_blocks (imin back) ack_block_length 0 num itr);
           dcheck (num =? num_ack_blocks_written)
         end
       else mret tt);
  room_left ← unchecked (gets (fun w => capacity_ w - length_ w));
  if process_timestamps_ f && (GetAckFrameTimeStampSize frame <=? room_left)
  then AppendTimestampsToAckFrame frame f
  else unchecked (WriteBytes (le_bytes 1 0)).
End AckWriter.

(** * The checks hold on the frames of a receiver *)

(** The count of the empty blocks appended before a block, on any writer. *)
Lemma append_empty_blocks_count fuel i gaps lb written num w n w' :
  (Z.to_nat (num - written) <= fuel)%nat ->
  append_empty_blocks fuel i gaps lb written num w = (Some n, w') ->
  n = written + Z.max 0 (Z.min (gaps - i) (num - written)).
Proof.
  revert i written w. induction fuel as [|fuel IH]; intros i written w Hf; cbn [append_empty_blocks].
  - destruct (_ && _); intros [= <- _]; lia.
  - destruct (Z.ltb_spec i gaps), (Z.ltb_spec written num); cbn [andb]; [|intros [= <- _]; lia..].
    unfold mbind, M_bind. destruct (AppendAckBlock _ _ _ w) as [[[]|] w1]; [|done].
    intros H1. apply IH in H1; lia.
Qed.

(** As many blocks are written as the frame has, up to [num]. *)
Lemma append_ack_blocks_count prev lb written num itr w n w' :
  desc prev itr -> prev < 2 ^ 63 -> written <= num ->
  append_ack_blocks prev lb written num itr w = (Some n, w') ->
  n = Z.min num (written + Z.of_nat (length (blocks_of prev itr))).
Proof.
  revert prev written w. induction itr as [|iv itr IH]; intros prev written w Hd Hp Hw; cbn [append_ack_blocks blocks_of].
  { intros [= <- _]. cbn. lia. }
  destruct Hd as (Hiv & Hgap & Hd). rewrite length_app, Nat2Z.inj_add.
  unfold ILength. rewrite (wrap_small 64 (prev - imax iv)) by (unfold fits; lia).
  rewrite length_gap_blocks by lia.
  pose proof (encoded_gaps_spec (prev - imax iv) ltac:(lia)) as Hn. cbv zeta in Hn.
  destruct (Z.ltb_spec written num); [|intros [= <- _]; lia].
  unfold mbind at 1, M_bind at 1.
  destruct (append_empty_blocks _ _ _ _ _ _ w) as [[written1|] w1] eqn:E; [|done].
  apply append_empty_blocks_count in E; [|lia]. destruct (Z.leb_spec num written1); [intros [= <- _]; lia|].
  unfold mbind, M_bind. destruct (AppendAckBlock _ _ _ w1) as [[[]|] w2]; [|done].
  intros H1. apply IH in H1; [lia|done|lia|lia].
Qed.

(** * Agreement with the framer of quic/model *)

Section agreement.
Context {HM : HandshakeMessages} {VI : MyQuicFramerVisitorInterface} {CI : Ciphers}.
Context (WriteUInt8AtOffset : Z -> Z -> M QuicDataWriter unit).

(** The checked computation does not abort and does what the other does. *)
Definition agrees {A} (f : MyQuicFramer) (c : option (option A * QuicDataWriter)) (m : option A * WState) : Prop :=
  exists o w, m = (o, mkW f w) /\ c = Some (o, w).

Lemma agrees_bind {A B} f (c : Checked QuicDataWriter A) (k : A -> Checked QuicDataWriter B)
    (m : M WState A) (k' : A -> M WState B) w :
  agrees f (c w) (m (mkW f w)) ->
  (forall a w', c w = Some (Some a, w') -> agrees f (k a w') (k' a (mkW f w'))) ->
  agrees f ((c ≫= k) w) ((m ≫= k') (mkW f w)).
Proof.
  intros (o & w' & Em & Ec) Hk. unfold mbind, Checked_bind, M_bind. rewrite Ec, Em.
  destruct o as [a|]; [by apply Hk|]. by exists None, w'.
Qed.

Lemma agrees_write {A} f (m : M QuicDataWriter A) w : agrees f (unchecked m w) (write m (mkW f w)).
Proof.
  unfold unchecked, write, zoom. cbn. destruct (m w) as [o w']. by exists o, w'.
Qed.

Lemma agrees_ret {A} f (a : A) w : agrees f ((mret a : Checked _ A) w) ((mret a : M _ A) (mkW f w)).
Proof. by exists (Some a), w. Qed.

Lemma dcheck_bind {S A} (b : bool) (k : unit -> Checked S A) s : b = true -> (dcheck b ≫= k) s = k tt s.
Proof. by intros ->. Qed.

(** The frames whose timestamps the writer can encode: at most 255, the first at
    most 255 packets before the largest acknowledged one. *)
Definition timestamps_ok (frame : QuicAckFrame) : Prop :=
  (length (received_packet_times frame) <= 255)%nat /\
  match received_packet_times frame with
  | [] => True
  | (packet_number, _) :: _ => u64 (LargestAcked frame - packet_number) <= 255
  end.

(** The two framers are set up alike. *)
Record same_setup (f : MyQuicFramer) (a : AckWriter.MyQuicFramer) : Prop := {
  same_version : AckWriter.version_ a = version_ f;
  old_version : transport_version (version_ f) <> QUIC_VERSION_41 /\
                transport_version (version_ f) <> AckWriter.QUIC_VERSION_99;
  same_timestamps : AckWriter.process_timestamps_ a = negb (use_incremental_ack_processing_ f);
  same_creation : AckWriter.creation_time_ a = creation_time_ f;
}.

Lemma same_min_length version pn :
  version <> QUIC_VERSION_41 -> AckWriter.GetMinPacketNumberLength pn = GetMinPacketNumberLength version pn.
Proof.
  intros H. unfold AckWriter.GetMinPacketNumberLength, GetMinPacketNumberLength.
  apply Z.eqb_neq in H. by rewrite H.
Qed.

Lemma same_num_blocks version room info la lb :
  version <> AckWriter.QUIC_VERSION_99 ->
  AckWriter.num_blocks version room info la lb = ack_blocks_that_fit version room info la lb.
Proof.
  intros H. unfold AckWriter.num_blocks, ack_blocks_that_fit, AckWriter.GetMinAckFrameSize, GetMinAckFrameSize.
  apply Z.eqb_neq in H. by rewrite H.
Qed.

Lemma agrees_timestamps f a frame offset w :
  same_setup f a -> timestamps_ok frame ->
  agrees f (AckWriter.AppendTimestampsToAckFrame frame a w)
           (AppendTimestampsToAckFrame WriteUInt8AtOffset frame offset (mkW f w)).
Proof.
  intros [Hv [H41 H99] Ht Hc] [Hl Hd]. unfold AckWriter.AppendTimestampsToAckFrame, AppendTimestampsToAckFrame.
  rewrite !gets_bind. cbn [wfr]. unfold not_v41. rewrite (proj2 (Z.eqb_neq _ _) H41). cbn [negb].
  rewrite dcheck_bind by (unfold uint8_max; zcases).
  rewrite (wrap_small 8) by (unfold fits; lia).
  assert (Hno : forall x, x <= 255 -> (uint8_max <? x) = false) by (intros; unfold uint8_max; zcases; done).
  eapply agrees_bind; [rewrite Hno by lia; apply agrees_ret|]. intros _ w1 _.
  eapply agrees_bind; [apply agrees_write|]. intros _ w2 _.
  destruct (received_packet_times frame) as [|[pn time] ts]; [apply agrees_ret|].
  rewrite dcheck_bind by (unfold uint8_max; zcases).
  eapply agrees_bind; [rewrite Hno by done; apply agrees_ret|]. intros _ w3 _.
  eapply agrees_bind; [apply agrees_write|]. intros _ w4 _.
  rewrite Hc. eapply agrees_bind; [apply agrees_write|]. intros _ w5 _. apply agrees_write.
Qed.
Lemma set_bits_bind {S A} flags val num_bits offset (k : Z -> Checked S A) s :
  val <= GetMaskFromNumBits num_bits ->
  (AckWriter.SetBits flags val num_bits offset ≫= k) s = k (SetBits flags val num_bits offset) s.
Proof.
  intros H%Z.leb_le. unfold AckWriter.SetBits, dcheck, mbind, Checked_bind. by rewrite H.
Qed.

Lemma set_bit_bind {S A} flags (val : bool) offset (k : Z -> Checked S A) s :
  (AckWriter.SetBit flags val offset ≫= k) s = k (SetBit flags val offset) s.
Proof. apply set_bits_bind. by destruct val. Qed.

Lemma unchecked_gets_bind {S A B} (g : S -> A) (k : A -> Checked S B) s :
  (unchecked (gets g) ≫= k) s = k (g s) s.
Proof. done. Qed.

Lemma ack_delay_bind {S A} delay (k : Z -> Checked S A) s :
  0 <= delay -> (AckWriter.ack_delay_us delay ≫= k) s = k (wire_ack_delay delay) s.
Proof.
  intros H%Z.leb_le. unfold AckWriter.ack_delay_us, wire_ack_delay, dcheck, mbind, Checked_bind.
  destruct (delay =? kQuicInfiniteTimeUs); cbn [negb]; [done|]. by rewrite H.
Qed.

Lemma flags_two_bits n : GetPacketNumberFlags n <= GetMaskFromNumBits kQuicSequenceNumberLengthNumBits.
Proof. unfold GetPacketNumberFlags. by repeat case_match. Qed.

(** The blocks: all that were counted are written, so the check on the count holds. *)
Lemma agrees_blocks {B} version frame f la lb room (k : unit -> Checked QuicDataWriter B) (k' : Z -> M WState B) w :
  ack_frame_ok version frame ->
  let num := ack_blocks_that_fit version room (GetAckFrameInfo frame) la lb in
  (forall a w', agrees f (k tt w') (k' a (mkW f w'))) ->
  agrees f
    (((if 0 <? num then
         match reverse (packets frame) with
         | [] => mret tt
         | back :: itr =>
           written ← unchecked (append_ack_blocks (imin back) lb 0 num itr);
           dcheck (num =? written)
         end
       else mret tt) ≫= k) w)
    (((if 0 <? num then
         match reverse (packets frame) with
         | [] => mret 0
         | back :: itr => write (append_ack_blocks (imin back) lb 0 num itr)
         end
       else mret 0) ≫= k') (mkW f w)).
Proof.
  intros Hok num Hk. destruct (ack_info_ok _ _ Hok) as (back & itr & Hrev & Hb & He & Hd & _ & Hn & _).
  unfold ack_blocks in Hn. rewrite Hrev in *.
  assert (Hnum : num <= num_ack_blocks (GetAckFrameInfo frame)).
  { unfold num, ack_blocks_that_fit. set (fit := u64 (Z.quot _ _)).
    destruct (Z.ltb_spec uint8_max (Z.min (num_ack_blocks (GetAckFrameInfo frame)) fit)); lia. }
  destruct (Z.ltb_spec 0 num); [|by apply Hk].
  unfold mbind, Checked_bind, M_bind, unchecked, write, zoom. cbn [wr set_wr].
  destruct (append_ack_blocks (imin back) lb 0 num itr w) as [[written|] w'] eqn:E.
  - apply append_ack_blocks_count in E; [|done| |lia].
    + replace (num =? written) with true by (symmetry; apply Z.eqb_eq; lia). apply Hk.
    + destruct Hok as (_ & _ & _ & Hlt & _). destruct (version =? QUIC_VERSION_41); lia.
  - by exists None, w'.
Qed.

(** A frame of the receiver is written alike by both framers, and no check fails. *)
Lemma agrees_ack f a frame w :
  same_setup f a -> ack_frame_ok (transport_version (version_ f)) frame ->
  (AckWriter.process_timestamps_ a = true -> timestamps_ok frame) ->
  agrees f (AckWriter.AppendAckFrameAndTypeByte frame a w)
           (AppendAckFrameAndTypeByte WriteUInt8AtOffset frame (mkW f w)).
Proof.
  intros Hs Hok Hts. pose proof Hs as [Hv [H41 H99] Ht Hc].
  unfold AckWriter.AppendAckFrameAndTypeByte, AppendAckFrameAndTypeByte. rewrite !gets_bind. cbn [wfr wr].
  rewrite Hv. set (version := transport_version (version_ f)) in *.
  unfold not_v41. fold version. rewrite (proj2 (Z.eqb_neq _ _) H41). cbn [negb].
  rewrite !(same_min_length version) by done. cbv zeta.
  set (la := GetMinPacketNumberLength version (LargestAcked frame)).
  set (lb := GetMinPacketNumberLength version (max_block_length (GetAckFrameInfo frame))).
  rewrite unchecked_gets_bind, same_num_blocks, set_bit_bind, !set_bits_bind by (done || apply flags_two_bits).
  eapply agrees_bind; [apply agrees_write|]. intros _ w1 _. cbn [andb].
  erewrite bind_run by reflexivity.
  eapply agrees_bind; [apply agrees_write|]. intros _ w2 _.
  rewrite ack_delay_bind by apply Hok.
  eapply agrees_bind; [apply agrees_write|]. intros _ w3 _.
  eapply agrees_bind; [destruct (0 <? _); [apply agrees_write|apply agrees_ret]|]. intros _ w4 _.
  eapply agrees_bind; [apply agrees_write|]. intros _ w5 _.
  apply agrees_blocks; [done|]. intros _ w6. rewrite gets_bind.
  rewrite unchecked_gets_bind. cbn [wr]. rewrite Ht.
  destruct (negb (use_incremental_ack_processing_ f) && _) eqn:E; [|apply agrees_write].
  apply andb_true_iff in E as [E _]. apply agrees_timestamps; [done|]. apply Hts. congruence.
Qed.
End agreement.
