(* ===== verification/IetfAck.v ===== *)
(** The IETF-format ACK frame (quic/model/my_quic_framer.cc:1742-1809 and
    2752-2836).  The parser slides both ends of a block by the same amount, so
    every block comes out with the length of the first one: the queue survives
    the trip when its intervals are equally long, and otherwise packets that were
    never received can be reported as acknowledged. *)
From S2P Require Import Prelude.
From S2P Require Import DataReader.
From S2P Require Import DataWriter.
From S2P Require Import Encodings.
From S2P Require Import PacketNumbers.
From S2P Require Import PacketNumberQueue.
From S2P Require Import FramerTypes.
From S2P Require Import GoogleFrames.
From S2P Require Import StreamFrames.
From S2P Require Import IetfFrames.
From S2P Require Import AckRoundTrip.

Open Scope string_scope.
Open Scope list_scope.
Open Scope Z_scope.

Section ietf_ack.
Context {HM : HandshakeMessages} {VI : MyQuicFramerVisitorInterface} {CI : Ciphers}.

(** Lines 2812-2834: the intervals below the first, highest first. *)
Fixpoint append_ietf_ack_blocks (previous_ack_end : Z) (itr : list Interval) : M WState unit :=
  match itr with
  | [] => mret tt
  | iv :: itr =>
    let gap := u64 (u64 (previous_ack_end - imax iv) - 1) in
    _ ← writing "No room for gap block in ack frame" (WriteVarInt62 gap);
    let block_length := u64 (imax iv - imin iv) in
    _ ← fail_if (block_length =? 0) id;
    _ ← writing "No room for nth ack block in ack frame" (WriteVarInt62 (block_length - 1));
    append_ietf_ack_blocks (imin iv) itr
  end.

(** Lines 2752-2836. *)
Definition AppendIetfAckFrame (frame : QuicAckFrame) : M WState unit :=
  _ ← writing "No room for frame-type" (WriteUInt8 IETF_ACK);
  _ ← writing "No room for largest-acked in ack frame" (WriteVarInt62 (LargestAcked frame));
  _ ← fail_if (ack_delay_time frame =? kQuicInfiniteTimeUs) id;
  let ack_delay_time_us := Z.shiftr (u64 (ack_delay_time frame)) kIetfAckTimestampShift in
  _ ← writing "No room for ack-delay in ack frame" (WriteVarInt62 ack_delay_time_us);
  let ack_block_count := NumIntervals (packets frame) in
  _ ← fail_if (ack_block_count =? 0) id;
  _ ← writing "No room for ack block count in ack frame" (WriteVarInt62 (ack_block_count - 1));
  match reverse (packets frame) with
  | [] => mret tt
  | back :: itr =>
    let block_length := u64 (imax back - imin back) in
    _ ← fail_if (block_length =? 0) id;
    _ ← writing "No room for first ack block in ack frame" (WriteVarInt62 (block_length - 1));
    append_ietf_ack_blocks (imin back) itr
  end.

(** Lines 1786-1807.  Each round consumes at least two bytes or fails, so one
    more than the bytes left bounds the rounds. *)
Fixpoint ietf_ack_loop (fuel : nat) (ack_block_count block_low block_high : Z)
    (packets : PacketNumberQueue) : M PState PacketNumberQueue :=
  if ack_block_count =? 0 then mret packets
  else match fuel with
  | O => fail
  | S fuel =>
    gap_block_value ← reading "Unable to read gap block value." ReadVarInt62;
    ack_block_value ← reading "Unable to read gap block value." ReadVarInt62;
    let step := u64 (u64 (ack_block_value + gap_block_value) + 2) in
    let block_high := u64 (block_high - step) in
    let block_low := u64 (block_low - step) in
    ietf_ack_loop fuel (ack_block_count - 1) block_low block_high
      (AddRange block_low block_high packets)
  end.

(** Lines 1742-1809. *)
Definition ProcessIetfAckFrame (frame_type : Z) (ack_frame : QuicAckFrame) : M PState QuicAckFrame :=
  largest_acked ← reading "Unable to read largest acked." ReadVarInt62;
  ack_delay_time_in_us ← reading "Unable to read ack-delay-time." ReadVarInt62;
  let ack_delay_time_in_us := u64 (Z.shiftl ack_delay_time_in_us kIetfAckTimestampShift) in
  let delay := if ack_delay_time_in_us =? 0x3ffffffffff8 then kQuicInfiniteTimeUs
               else ack_delay_time_in_us in
  ack_block_count ← reading "Unable to ack block count." ReadVarInt62;
  ack_block_value ← reading "Unable to read first ack block value." ReadVarInt62;
  let block_high := u64 (largest_acked + 1) in
  let block_low := u64 (largest_acked - ack_block_value) in
  fuel ← gets (fun s : PState => S (Z.to_nat (BytesRemaining (rd s))));
  packets ← ietf_ack_loop fuel ack_block_count block_low block_high
              (AddRange block_low block_high (packets ack_frame));
  mret (mkAckFrame largest_acked delay (received_packet_times ack_frame) packets).

(** * The serializer *)

(** The (gap - 1, length - 1) pairs below [prev]. *)
Fixpoint wire_ietf_blocks (prev : Z) (itr : list Interval) : list Z :=
  match itr with
  | [] => []
  | iv :: itr =>
    varint62_bytes (prev - imax iv - 1) ++ varint62_bytes (imax iv - imin iv - 1) ++
    wire_ietf_blocks (imin iv) itr
  end.

Definition wire_ietf_ack (frame : QuicAckFrame) : list Z :=
  varint62_bytes (largest_acked frame) ++
  varint62_bytes (Z.shiftr (ack_delay_time frame) kIetfAckTimestampShift) ++
  varint62_bytes (NumIntervals (packets frame) - 1) ++
  match reverse (packets frame) with
  | [] => []
  | back :: itr => varint62_bytes (imax back - imin back - 1) ++ wire_ietf_blocks (imin back) itr
  end.

Lemma append_ietf_ack_blocks_writes e f prev itr :
  desc prev itr -> prev <= 2 ^ 62 ->
  writes e (mkW f) (append_ietf_ack_blocks prev itr) (wire_ietf_blocks prev itr) tt.
Proof.
  revert prev; induction itr as [|iv itr IH]; intros prev Hd Hp; [apply writes_ret|].
  destruct Hd as (H1 & H2 & Hd). cbn [append_ietf_ack_blocks wire_ietf_blocks].
  rewrite !(wrap_small 64 (prev - imax iv)), !(wrap_small 64 (prev - imax iv - 1)),
    !(wrap_small 64 (imax iv - imin iv)) by (unfold fits; lia).
  eapply writes_bind; [apply writes_writing, WriteVarInt62_writes; unfold fits; lia|].
  eapply writes_bind_0; [apply writes_fail_if, Z.eqb_neq; lia|].
  eapply writes_bind; [apply writes_writing, WriteVarInt62_writes; unfold fits; lia|].
  apply IH; [done|lia].
Qed.

(** The frames the format can carry. *)
Definition ietf_ack_ok (frame : QuicAckFrame) : Prop :=
  wf (packets frame) /\ packets frame <> [] /\ largest_acked frame = Max (packets frame) /\
  largest_acked frame + 1 < 2 ^ 62 /\ NumIntervals (packets frame) <= 2 ^ 62 /\
  0 <= ack_delay_time frame < kQuicInfiniteTimeUs.

Lemma ietf_ack_shape frame :
  ietf_ack_ok frame ->
  exists back itr, reverse (packets frame) = back :: itr /\ 0 <= imin back < imax back /\
    imax back = largest_acked frame + 1 /\ desc (imin back) itr.
Proof.
  intros (Hwf & Hne & Hmax & Hlt & _). destruct (mem_Max _ Hwf Hne) as (_ & _ & Hend).
  pose proof (wf_desc (-1) (packets frame) (proj1 Hwf) ltac:(lia)) as Hd.
  destruct (reverse (packets frame)) as [|back itr] eqn:Hrev.
  { apply (f_equal reverse) in Hrev. rewrite reverse_involutive in Hrev. done. }
  destruct Hd as (Hb & Hdesc & He). exists back, itr. rewrite Hmax, Hend, He.
  split_and!; auto; lia.
Qed.

Lemma AppendIetfAckFrame_writes e f frame :
  ietf_ack_ok frame ->
  writes e (mkW f) (AppendIetfAckFrame frame) (IETF_ACK :: wire_ietf_ack frame) tt.
Proof.
  intros Hok. destruct (ietf_ack_shape _ Hok) as (back & itr & Hrev & Hb & He & Hd).
  destruct Hok as (Hwf & Hne & _ & Hlt & Hnum & Hdel).
  unfold AppendIetfAckFrame, wire_ietf_ack, LargestAcked. rewrite Hrev.
  unfold kQuicInfiniteTimeUs in *.
  apply writes_type; [done|].
  eapply writes_bind; [apply writes_writing, WriteVarInt62_writes; unfold fits; lia|].
  eapply writes_bind_0; [apply writes_fail_if, Z.eqb_neq; lia|].
  rewrite (wrap_small 64 (ack_delay_time frame)) by (unfold fits; lia).
  unfold kIetfAckTimestampShift. rewrite Z.shiftr_div_pow2 by lia.
  eapply writes_bind; [apply writes_writing, WriteVarInt62_writes; unfold fits; dlia|].
  assert (1 <= NumIntervals (packets frame)).
  { unfold NumIntervals. destruct (packets frame); simpl; [done|lia]. }
  eapply writes_bind_0; [apply writes_fail_if, Z.eqb_neq; lia|].
  eapply writes_bind; [apply writes_writing, WriteVarInt62_writes; unfold fits; lia|].
  rewrite !(wrap_small 64 (imax back - imin back)) by (unfold fits; lia).
  eapply writes_bind_0; [apply writes_fail_if, Z.eqb_neq; lia|].
  eapply writes_bind; [apply writes_writing, WriteVarInt62_writes; unfold fits; lia|].
  apply append_ietf_ack_blocks_writes; [done|lia].
Qed.

(** * The parser *)

(** An interval below the whole queue goes in front. *)
Lemma AddRange_front iv d lo :
  0 <= imin iv < imax iv -> wf_from lo d -> d <> [] -> imax iv < Min d ->
  AddRange (imin iv) (imax iv) d = iv :: d.
Proof.
  intros Hiv Hwf Hne Hlt. unfold AddRange. rewrite (proj2 (Z.leb_gt _ _)) by lia.
  destruct (last_cases d) as [->|(l & back & front & l' & E1 & -> & E3)]; [done|].
  rewrite E3. cbn [Min] in Hlt.
  assert (Hb : imin front < imax back).
  { assert (He : end_of lo (front :: l') = imax back) by (rewrite E1, end_of_app; done).
    rewrite <- He. destruct Hwf as (? & ? & Hl). simpl. apply end_of_ge in Hl. lia. }
  rewrite (proj2 (Z.eqb_neq _ _)), (proj2 (Z.ltb_ge _ _)), (proj2 (Z.eqb_neq _ _)),
    (proj2 (Z.ltb_lt _ _)) by lia. by destruct iv.
Qed.

(** What the parser adds below the first block, of length [n]: both ends slide down to the
    start of the next block, which so gets the length [n]. *)
Definition slide (n : Z) (itr : list Interval) (d : PacketNumberQueue) : PacketNumberQueue :=
  fold_left (fun d iv => AddRange (imin iv) (imin iv + n) d) itr d.

Lemma ietf_ack_loop_reads e f fuel n low d itr :
  desc low itr -> low <= 2 ^ 62 -> 0 < n <= 2 ^ 62 -> (length itr <= fuel)%nat ->
  reads e (mkP f) (ietf_ack_loop fuel (Z.of_nat (length itr)) low (low + n) d)
    (wire_ietf_blocks low itr) (slide n itr d).
Proof.
  revert fuel low d; induction itr as [|iv itr IH]; intros fuel low d Hd Hlow Hn Hfuel.
  { destruct fuel; apply reads_ret. }
  destruct fuel as [|fuel]; [simpl in Hfuel; lia|].
  destruct Hd as (H1 & H2 & Hd). cbn [ietf_ack_loop length wire_ietf_blocks].
  rewrite (proj2 (Z.eqb_neq _ _)) by lia.
  eapply reads_bind; [apply reads_reading, ReadVarInt62_reads; unfold fits; lia|].
  eapply reads_bind; [apply reads_reading, ReadVarInt62_reads; unfold fits; lia|].
  cbv zeta. rewrite (wrap_small 64 (imax iv - imin iv - 1 + (low - imax iv - 1))) by (unfold fits; lia).
  rewrite (wrap_small 64 (_ + 2)) by (unfold fits; lia).
  rewrite (wrap_small 64 (low + n - _)), (wrap_small 64 (low - _)) by (unfold fits; lia).
  replace (low - (imax iv - imin iv - 1 + (low - imax iv - 1) + 2)) with (imin iv) by lia.
  replace (low + n - (imax iv - imin iv - 1 + (low - imax iv - 1) + 2)) with (imin iv + n) by lia.
  replace (Z.of_nat (S (length itr)) - 1) with (Z.of_nat (length itr)) by lia.
  apply IH; [done|lia|done|simpl in Hfuel; lia].
Qed.

(** Equally long intervals. *)
Definition same_length (n : Z) (itr : list Interval) : Prop :=
  Forall (fun iv => imax iv - imin iv = n) itr.

Lemma slide_same n low d itr :
  desc low itr -> same_length n itr -> wf_from (-1) d -> d <> [] -> Min d = low ->
  slide n itr d = reverse itr ++ d.
Proof.
  revert low d; induction itr as [|iv itr IH]; intros low d Hd Hs Hwf Hne Hmin; [done|].
  destruct Hd as (H1 & H2 & Hd). apply Forall_cons_1 in Hs as [Hiv Hs].
  unfold slide. cbn [fold_left]. replace (imin iv + n) with (imax iv) by lia.
  rewrite (AddRange_front iv d (-1)) by (done || lia).
  rewrite reverse_cons, <- (assoc_L (++)). cbn [app].
  apply (IH (imin iv)); [done|done| |done|done].
  destruct d as [|iv' d]; [done|]. cbn [Min] in Hmin. destruct Hwf as (? & ? & ?).
  simpl. split_and!; auto; lia.
Qed.

(** The blocks of the parsed frame below packet [low], for the blocks [itr] of the frame
    written: a block that would overlap what was added before is left out. *)
Fixpoint slid (n low : Z) (itr : list Interval) : list Interval :=
  match itr with
  | [] => []
  | iv :: itr =>
    if imin iv + n <=? low then mkI (imin iv) (imin iv + n) :: slid n (imin iv) itr else slid n low itr
  end.

Lemma AddRange_below lo hi d :
  0 <= lo < hi -> wf_from (-1) d -> d <> [] -> lo < Min d ->
  let d' := AddRange lo hi d in
  if hi <=? Min d then adds (fun x => lo <= x < hi) (-1) d d' /\ d' <> [] /\ Min d' = lo else d' = d.
Proof.
  intros Hlo Hwf Hne Hmin. cbv zeta. destruct (Z.leb_spec hi (Min d)) as [Hle|Hgt].
  - pose proof (AddRange_adds lo hi d ltac:(lia) Hwf ltac:(auto)) as Ha. split; [done|].
    destruct Ha as [Hwf' Hmem].
    assert (Hne' : AddRange lo hi d <> []).
    { intros E. assert (H : mem (AddRange lo hi d) lo) by (apply Hmem; left; lia). rewrite E in H. by apply Exists_nil in H. }
    split; [done|]. destruct (mem_Min (-1) d Hwf Hne) as [_ Hd], (mem_Min (-1) _ Hwf' Hne') as [Hm Hd'].
    apply Hmem in Hm as [Hm|Hm%Hd].
    + pose proof (Hd' lo ltac:(apply Hmem; left; lia)). lia.
    + pose proof (Hd' lo ltac:(apply Hmem; left; lia)). lia.
  - unfold AddRange. rewrite (proj2 (Z.leb_gt _ _)) by lia.
    destruct (last_cases d) as [->|(l & back & front & l' & E1 & -> & E3)]; [done|]. rewrite E3. cbn [Min] in *.
    assert (He : end_of (-1) (front :: l') = imax back) by (rewrite E1, end_of_app; done).
    assert (imin front < imax back) by (rewrite <- He; destruct Hwf as (? & ? & Hw); apply end_of_ge in Hw; simpl; lia).
    by rewrite (proj2 (Z.eqb_neq _ _)), (proj2 (Z.ltb_ge _ _)), (proj2 (Z.eqb_neq _ _)), (proj2 (Z.ltb_ge _ _)) by lia.
Qed.

Lemma slide_mem n low d itr :
  desc low itr -> 0 < n -> wf_from (-1) d -> d <> [] -> low <= Min d ->
  adds (fun x => Exists (in_iv x) (slid n (Min d) itr)) (-1) d (slide n itr d).
Proof.
  revert low d; induction itr as [|iv itr IH]; intros low d Hd Hn Hwf Hne Hmin.
  { split; [done|]. intros x. unfold slid. rewrite Exists_nil. tauto. }
  destruct Hd as (H1 & H2 & Hd). unfold slide. cbn [fold_left slid].
  pose proof (AddRange_below (imin iv) (imin iv + n) d ltac:(lia) Hwf Hne ltac:(lia)) as Hb. cbv zeta in Hb.
  set (d' := AddRange (imin iv) (imin iv + n) d) in *. clearbody d'. destruct (_ <=? Min d).
  - destruct Hb as ([Hwf' Hmem] & Hne' & Em).
    destruct (IH (imin iv) d' Hd Hn Hwf' Hne' ltac:(lia)) as [Hw Hx]. split; [exact Hw|].
    intros x. fold (slide n itr d'). rewrite Hx, Hmem, Em, Exists_cons. unfold in_iv. cbn [imin imax]. tauto.
  - subst d'. apply (IH (imin iv)); auto; lia.
Qed.

(** Where the gap above it is wide enough, a block is in the parsed frame. *)
Lemma slid_elem n low l1 above iv l2 :
  0 < n -> desc low (l1 ++ above :: iv :: l2) -> imin iv + n <= imin above ->
  mkI (imin iv) (imin iv + n) ∈ slid n low (l1 ++ above :: iv :: l2).
Proof.
  intros Hn. revert low. assert (Hlast : forall low, imin above <= low -> imin iv + n <= imin above ->
    mkI (imin iv) (imin iv + n) ∈ slid n low (iv :: l2)).
  { intros low Hl Hr. cbn [slid]. rewrite (proj2 (Z.leb_le _ _)) by lia. left. }
  assert (Hw : forall l low low', desc low l -> low <= low' -> desc low' l) by (intros; by eapply desc_weaken).
  induction l1 as [|x l1 IH]; intros low Hd Hr; cbn [app slid] in *; destruct Hd as (H1 & H2 & Hd).
  - destruct (_ <=? low); [right; apply Hlast; lia|]. apply Hlast; [|done]. lia.
  - destruct (_ <=? low); [right; by apply IH|]. apply IH; [|done]. apply (Hw _ (imin x)); [done|lia].
Qed.

Lemma length_wire_ietf_blocks prev itr : (length itr <= length (wire_ietf_blocks prev itr))%nat.
Proof.
  revert prev; induction itr as [|iv itr IH]; intros prev; simpl; [lia|].
  rewrite !length_app. specialize (IH (imin iv)).
  assert (1 <= length (varint62_bytes (prev - imax iv - 1)))%nat; [|lia].
  unfold varint62_bytes. repeat case_match; rewrite ?length_be_bytes; simpl; lia.
Qed.

(** More fuel does not change a result. *)
Lemma ietf_ack_loop_mono fuel fuel' count low high d s x s' :
  (fuel <= fuel')%nat -> ietf_ack_loop fuel count low high d s = (Some x, s') ->
  ietf_ack_loop fuel' count low high d s = (Some x, s').
Proof.
  revert fuel' count low high d s; induction fuel as [|fuel IH]; intros fuel' count low high d s Hf.
  - destruct fuel'; cbn [ietf_ack_loop]; destruct (count =? 0); done.
  - destruct fuel' as [|fuel']; [lia|]. cbn [ietf_ack_loop]. destruct (count =? 0); [done|].
    unfold mbind, M_bind. destruct (reading _ _ s) as [[g|] s1]; [|done].
    destruct (reading _ _ s1) as [[a|] s2]; [|done]. apply IH. lia.
Qed.

(** The parser on the bytes of the serializer. *)
Lemma ProcessIetfAckFrame_reads e f frame back itr :
  ietf_ack_ok frame -> reverse (packets frame) = back :: itr ->
  Z.shiftl (Z.shiftr (ack_delay_time frame) 3) 3 <> 0x3ffffffffff8 ->
  reads e (mkP f) (ProcessIetfAckFrame IETF_ACK emptyAckFrame) (wire_ietf_ack frame)
    (mkAckFrame (largest_acked frame)
       (Z.shiftl (Z.shiftr (ack_delay_time frame) 3) 3) [] (slide (imax back - imin back) itr [back])).
Proof.
  intros Hok Hrev Hinf. destruct (ietf_ack_shape _ Hok) as (back' & itr' & Hrev' & Hb & He & Hd).
  rewrite Hrev in Hrev'. injection Hrev' as <- <-.
  destruct Hok as (Hwf & Hne & _ & Hlt & Hnum & Hdel). unfold kQuicInfiniteTimeUs in Hdel.
  unfold ProcessIetfAckFrame, wire_ietf_ack. rewrite Hrev.
  change kIetfAckTimestampShift with 3. rewrite Z.shiftr_div_pow2, Z.shiftl_mul_pow2 in * by lia.
  assert (Hni : NumIntervals (packets frame) - 1 = Z.of_nat (length itr)).
  { unfold NumIntervals. rewrite <- length_reverse, Hrev. simpl. lia. }
  eapply reads_bind; [apply reads_reading, ReadVarInt62_reads; unfold fits; lia|].
  eapply reads_bind; [apply reads_reading, ReadVarInt62_reads; unfold fits; dlia|].
  eapply reads_bind; [apply reads_reading, ReadVarInt62_reads; unfold fits; lia|].
  eapply reads_bind; [apply reads_reading, ReadVarInt62_reads; unfold fits; lia|]. cbv zeta.
  rewrite Z.shiftl_mul_pow2 by lia.
  rewrite (wrap_small 64 (_ / _ * _)) by (unfold fits; dlia).
  rewrite (proj2 (Z.eqb_neq _ _)) by exact Hinf.
  rewrite (wrap_small 64 (largest_acked frame + 1)), (wrap_small 64 (largest_acked frame - _))
    by (unfold fits; lia).
  replace (largest_acked frame - (imax back - imin back - 1)) with (imin back) by lia.
  replace (largest_acked frame + 1) with (imin back + (imax back - imin back)) by lia.
  rewrite Hni. cbn [packets emptyAckFrame received_packet_times].
  replace (AddRange (imin back) (imin back + (imax back - imin back)) []) with [back].
  2:{ unfold AddRange. rewrite (proj2 (Z.leb_gt _ _)) by lia. destruct back; simpl. do 2 f_equal. lia. }
  assert (Hloop : forall fuel, (length itr <= fuel)%nat ->
    reads e (mkP f)
      (p ← ietf_ack_loop fuel (Z.of_nat (length itr)) (imin back)
             (imin back + (imax back - imin back)) [back];
       mret (mkAckFrame (largest_acked frame) (ack_delay_time frame / 2 ^ 3 * 2 ^ 3) [] p))
      (wire_ietf_blocks (imin back) itr)
      (mkAckFrame (largest_acked frame) (ack_delay_time frame / 2 ^ 3 * 2 ^ 3) [] (slide (imax back - imin back) itr [back]))).
  { intros fuel Hfuel. eapply reads_bind_nil.
    - apply ietf_ack_loop_reads; auto; lia.
    - apply reads_ret. }
  split.
  - intros pre rest. rewrite gets_bind. apply Hloop. cbn [rd]. unfold BytesRemaining.
    rewrite remaining_reader_at, Nat2Z.id, length_app.
    pose proof (length_wire_ietf_blocks (imin back) itr). lia.
  - intros pre t Ht Hnt. rewrite gets_bind. cbn [rd]. unfold BytesRemaining.
    rewrite remaining_reader_at, Nat2Z.id. unfold mbind, M_bind.
    destruct (ietf_ack_loop _ _ _ _ _ _) as [[x|] s'] eqn:Hl; [|done]. exfalso.
    set (F := Nat.max (S (length t)) (length itr)).
    destruct (Hloop F ltac:(lia)) as [_ Hp]. specialize (Hp pre t Ht Hnt).
    unfold mbind, M_bind in Hp.
    rewrite (ietf_ack_loop_mono (S (length t)) F _ _ _ _ _ x s') in Hp; [done|lia|exact Hl].
Qed.

(** The first block is read as it was written. *)
Lemma first_block frame back itr :
  ietf_ack_ok frame -> reverse (packets frame) = back :: itr ->
  0 <= imin back < imax back /\ desc (imin back) itr /\ wf_from (-1) [back] /\ packets frame = reverse itr ++ [back].
Proof.
  intros Hok Hrev. destruct (ietf_ack_shape _ Hok) as (back' & itr' & Hrev' & Hb & He & Hd).
  rewrite Hrev in Hrev'. injection Hrev' as <- <-. split_and!; try done; cbn; [lia..|].
  rewrite <- (reverse_involutive (packets frame)), Hrev. by rewrite reverse_cons.
Qed.

(** The packets between two neighbouring blocks are not acknowledged. *)
Lemma desc_below low l x : desc low l -> Exists (in_iv x) l -> x < low.
Proof.
  revert low; induction l as [|iv l IH]; intros low Hd Hx; [by apply Exists_nil in Hx|].
  destruct Hd as (H1 & H2 & Hd). apply Exists_cons in Hx as [Hx|Hx]; [unfold in_iv in Hx; lia|].
  specialize (IH _ Hd Hx). lia.
Qed.

Lemma desc_between low l1 above iv l2 x :
  desc low (l1 ++ above :: iv :: l2) -> imax iv <= x < imin above -> ~ Exists (in_iv x) (l1 ++ above :: iv :: l2).
Proof.
  intros Hd Hx. revert low Hd. induction l1 as [|y l1 IH]; intros low (H1 & H2 & Hd); cbn [app]; rewrite Exists_cons.
  - destruct Hd as (H3 & H4 & Hd). rewrite Exists_cons. intros [H|[H|H%(desc_below _ _ _ Hd)]]; unfold in_iv in *; lia.
  - intros [H|H]; [|by apply (IH _ Hd)].
    assert (above ∈ l1 ++ above :: iv :: l2) as Hin by (rewrite elem_of_app; right; left).
    assert (Ha : Exists (in_iv (imin above)) (l1 ++ above :: iv :: l2)).
    { apply Exists_exists. exists above. split; [done|].
      assert (Ho : forall low l z, desc low l -> z ∈ l -> imin z < imax z).
      { clear. intros low l z. revert low. induction l as [|w l IH]; intros low Hd Hz; [by apply elem_of_nil in Hz|].
        destruct Hd as (? & ? & Hd). apply elem_of_cons in Hz as [->|Hz]; [lia|by eapply IH]. }
      specialize (Ho _ _ _ Hd Hin). unfold in_iv. lia. }
    pose proof (desc_below _ _ _ Hd Ha). unfold in_iv in H. lia.
Qed.

(** A block shorter than the first one, with room above it, is read with packets that
    were never received. *)
Lemma slid_more back itr l1 above iv l2 x :
  let n := imax back - imin back in
  0 <= imin back < imax back -> desc (imin back) itr -> back :: itr = l1 ++ above :: iv :: l2 ->
  imin iv + n <= imin above -> imax iv <= x < imin iv + n ->
  Exists (in_iv x) (slid n (imin back) itr) /\ ~ Exists (in_iv x) (back :: itr).
Proof.
  intros n Hb Hd E Hroom Hx. rewrite E.
  assert (Hd' : desc (imax back + 1) (l1 ++ above :: iv :: l2)) by (rewrite <- E; cbn; split_and!; (done || lia)).
  assert (Hiv : imin iv < imax iv).
  { clear -Hd'. revert Hd'. generalize (imax back + 1).
    induction l1 as [|y l1 IH]; intros low; [|intros (_ & _ & H); by eapply IH]. cbn. lia. }
  split; [|apply (desc_between _ _ _ _ _ _ Hd'); lia].
  apply Exists_exists. exists (mkI (imin iv) (imin iv + n)). split; [|unfold in_iv; cbn; lia].
  destruct l1 as [|y l1]; cbn [app] in E; injection E as -> ->.
  - cbn [slid]. rewrite (proj2 (Z.leb_le _ _)) by lia. left.
  - apply slid_elem; [lia|exact Hd|exact Hroom].
Qed.
End ietf_ack.
