(* ===== verification/PacketHeader.v ===== *)
(** Packet headers (quic/model/my_quic_framer.cc): serializing the public header
    and the packet number, parsing them back, and the special packets (version
    negotiation, public reset, stateless reset). *)
From S2P Require Import Prelude.
From S2P Require Import DataReader.
From S2P Require Import DataWriter.
From S2P Require Import Encodings.
From S2P Require Import PacketNumbers.
From S2P Require Import PacketNumberQueue.
From S2P Require Import FramerTypes.
From S2P Require Import GoogleFrames.

Open Scope string_scope.
Open Scope list_scope.
Open Scope Z_scope.

Section header.
Context {HM : HandshakeMessages} {VI : MyQuicFramerVisitorInterface} {CI : Ciphers}
  {VL : VersionLabels}.

(** * Serializing *)

(** The flags of lines 874-901, complete with the connection-id bits. *)
Definition public_flags_of (perspective : Perspective) (header : QuicPacketHeader) : Z :=
  let public_flags := 0 in
  let public_flags := if reset_flag header
                      then Z.lor public_flags PACKET_PUBLIC_FLAGS_RST else public_flags in
  let public_flags := if version_flag header
                      then Z.lor public_flags PACKET_PUBLIC_FLAGS_VERSION else public_flags in
  let public_flags := u8 (Z.lor public_flags
    (Z.shiftl (GetPacketNumberFlags (packet_number_length header)) kPublicHeaderSequenceNumberShift)) in
  let public_flags := match nonce header with
                      | Some _ => Z.lor public_flags PACKET_PUBLIC_FLAGS_NONCE
                      | None => public_flags end in
  if connection_id_length header =? PACKET_0BYTE_CONNECTION_ID
  then Z.lor public_flags PACKET_PUBLIC_FLAGS_0BYTE_CONNECTION_ID
  else
    let public_flags := Z.lor public_flags PACKET_PUBLIC_FLAGS_8BYTE_CONNECTION_ID in
    match perspective with
    | IS_CLIENT => Z.lor public_flags PACKET_PUBLIC_FLAGS_8BYTE_CONNECTION_ID_OLD
    | IS_SERVER => public_flags
    end.

(** Lines 871-934. *)
Definition AppendPacketHeader (header : QuicPacketHeader) : M WState unit :=
  perspective ← gets (fun s : WState => perspective_ (wfr s));
  version ← gets (fun s : WState => version_ (wfr s));
  let public_flags := public_flags_of perspective header in
  _ ← (if connection_id_length header =? PACKET_0BYTE_CONNECTION_ID
       then write (WriteUInt8 public_flags)
       else if connection_id_length header =? PACKET_8BYTE_CONNECTION_ID
       then _ ← write (WriteUInt8 public_flags);
            write (WriteConnectionId (connection_id header))
       else mret tt);
  _ ← modify (on_wfr (set_last_serialized_connection_id (connection_id header)));
  _ ← (if version_flag header
       then write (WriteTag (NetToHost32 (CreateQuicVersionLabel version))) else mret tt);
  _ ← match nonce header with
      | Some n => write (WriteBytes (take (Z.to_nat kDiversificationNonceSize) n))
      | None => mret tt
      end;
  write (AppendPacketNumber (packet_number_length header) (packet_number header)).

(** * Parsing *)

(** Lines 983-1065.  [public_flags & bit] as a condition is [flag]. *)
Definition flag (public_flags bit : Z) : bool := negb (Z.land public_flags bit =? 0).

Definition ProcessPublicHeader : M PState QuicPacketHeader :=
  flags_byte ← reading "Unable to read public flags." (ReadBytes 1);
  let public_flags := le_val flags_byte in
  let reset := flag public_flags PACKET_PUBLIC_FLAGS_RST in
  let version_flag := flag public_flags PACKET_PUBLIC_FLAGS_VERSION in
  validate ← gets (fun s : PState => validate_flags_ (fr s));
  _ ← reject_if (validate && negb version_flag && (PACKET_PUBLIC_FLAGS_MAX <? public_flags))
        "Illegal public flags value.";
  _ ← reject_if (reset && version_flag) "Got version flag in reset packet";
  last_connection_id ← gets (fun s : PState => last_serialized_connection_id_ (fr s));
  id ← (if flag public_flags PACKET_PUBLIC_FLAGS_8BYTE_CONNECTION_ID
        then id ← reading "Unable to read ConnectionId." ReadConnectionId;
             mret (id, PACKET_8BYTE_CONNECTION_ID)
        else mret (last_connection_id, PACKET_0BYTE_CONNECTION_ID));
  let packet_number_length :=
    ReadSequenceNumberLength (Z.shiftr public_flags kPublicHeaderSequenceNumberShift) in
  perspective ← gets (fun s : PState => perspective_ (fr s));
  version ← (if version_flag && bool_decide (perspective = IS_SERVER) then
               version_label ← reading "Unable to read protocol version." ReadTag;
               let version_label := NetToHost32 version_label in
               _ ← modify (on_fr (set_last_version_label version_label));
               let version := ParseQuicVersionLabel version_label in
               current ← gets (fun s : PState => version_ (fr s));
               _ ← reject_if (bool_decide (version = current) &&
                              (PACKET_PUBLIC_FLAGS_MAX <? public_flags))
                     "Illegal public flags value.";
               mret version
             else mret (h_version emptyHeader));
  nonce ← (if flag public_flags PACKET_PUBLIC_FLAGS_NONCE &&
              negb (flag public_flags PACKET_PUBLIC_FLAGS_VERSION) &&
              negb (flag public_flags PACKET_PUBLIC_FLAGS_RST) &&
              bool_decide (perspective = IS_CLIENT) then
             n ← reading "Unable to read nonce." (ReadBytes kDiversificationNonceSize);
             _ ← modify (on_fr (set_last_nonce n));
             mret (Some n)
           else mret None);
  mret (mkHeader (fst id) (snd id) reset version_flag packet_number_length version nonce
          (packet_number emptyHeader)).

(** Lines 1157-1172. *)
Definition ProcessAndCalculatePacketNumber (packet_number_length base_packet_number : Z)
    : M QuicDataReader Z :=
  wire_packet_number ← ReadBytesToUInt64 packet_number_length;
  mret (CalculatePacketNumberFromWire packet_number_length base_packet_number wire_packet_number).

Definition set_packet_number (n : Z) (h : QuicPacketHeader) : QuicPacketHeader :=
  mkHeader (connection_id h) (connection_id_length h) (reset_flag h) (version_flag h)
    (packet_number_length h) (h_version h) (nonce h) n.

(** Lines 1133-1155; [RaiseError] in the first two failures. *)
Definition ProcessUnauthenticatedHeader (header : QuicPacketHeader) : M PState QuicPacketHeader :=
  base_packet_number ← gets (fun s : PState => largest_packet_number_ (fr s));
  packet_number ← or_fail
    (reading "Unable to read packet number."
       (ProcessAndCalculatePacketNumber (packet_number_length header) base_packet_number))
    (on_fr (RaiseError QUIC_INVALID_PACKET_HEADER));
  let header := set_packet_number packet_number header in
  _ ← or_fail (reject_if (packet_number =? 0) "packet numbers cannot be 0.")
        (on_fr (RaiseError QUIC_INVALID_PACKET_HEADER));
  b ← callback (OnUnauthenticatedHeader header);
  _ ← reject_if (negb b) "Visitor asked to stop processing of unauthenticated header.";
  mret header.

(** * Special packets *)

(** Lines 661-668 and 699-706. *)
Fixpoint write_version_labels (versions : list ParsedQuicVersion) : M QuicDataWriter unit :=
  match versions with
  | [] => mret tt
  | version :: versions =>
    _ ← WriteTag (HostToNet32 (CreateQuicVersionLabel version));
    write_version_labels versions
  end.

(** The packet a serializer leaves in a fresh buffer of [len] bytes. *)
Definition build (len : Z) (m : M QuicDataWriter unit) : option (list Z) :=
  match m (make_writer (replicate (Z.to_nat len) 0) NETWORK_BYTE_ORDER) with
  | (Some _, w) => Some (buffer_ w)
  | (None, _) => None
  end.

Definition FLAGS_LONG_HEADER : Z := 0x80.
Definition VERSION_NEGOTIATION : Z := 0.

(** Lines 674-709. *)
Definition BuildIetfVersionNegotiationPacket (connection_id : Z) (versions : list ParsedQuicVersion)
    : option (list Z) :=
  let len := kPacketHeaderTypeSize + PACKET_8BYTE_CONNECTION_ID +
             (Z.of_nat (length versions) + 1) * kQuicVersionSize in
  build len
    (_ ← WriteUInt8 (u8 (Z.lor FLAGS_LONG_HEADER VERSION_NEGOTIATION));
     _ ← WriteConnectionId connection_id;
     _ ← WriteUInt32 0;
     write_version_labels versions).

(** Lines 635-671. *)
Definition BuildVersionNegotiationPacket (connection_id : Z) (ietf_quic : bool)
    (versions : list ParsedQuicVersion) : option (list Z) :=
  if ietf_quic then BuildIetfVersionNegotiationPacket connection_id versions
  else
    let len := GetVersionNegotiationPacketSize (Z.of_nat (length versions)) in
    let flags := u8 (Z.lor (Z.lor PACKET_PUBLIC_FLAGS_VERSION PACKET_PUBLIC_FLAGS_8BYTE_CONNECTION_ID)
                       PACKET_PUBLIC_FLAGS_8BYTE_CONNECTION_ID_OLD) in
    build len
      (_ ← WriteUInt8 flags;
       _ ← WriteConnectionId connection_id;
       write_version_labels versions).

(** The short-header type as a byte. *)
Definition short_header_code (t : QuicShortHeaderType) : Z :=
  match t with
  | SHORT_HEADER_1_BYTE_PACKET_NUMBER => 0
  | SHORT_HEADER_2_BYTE_PACKET_NUMBER => 1
  | SHORT_HEADER_4_BYTE_PACKET_NUMBER => 2
  end.

(** Lines 602-632; the token is the 16 bytes of a [uint128] in memory. *)
Definition BuildIetfStatelessResetPacket (connection_id stateless_reset_token : Z) : option (list Z) :=
  let len := kPacketHeaderTypeSize + PACKET_8BYTE_CONNECTION_ID + 16 in
  let type := Z.lor 0 (short_header_code
                (PacketNumberLengthToShortHeaderType PACKET_1BYTE_PACKET_NUMBER)) in
  build len
    (_ ← WriteUInt8 type;
     _ ← WriteConnectionId connection_id;
     WriteBytes (le_bytes 16 stateless_reset_token)).

(** Lines 575-598, for the serialized handshake message. *)
Definition BuildPublicResetPacket_bytes (connection_id : Z) (reset_serialized : list Z)
    : option (list Z) :=
  let len := kPublicFlagsSize + PACKET_8BYTE_CONNECTION_ID + Z.of_nat (length reset_serialized) in
  let flags := u8 (Z.lor PACKET_PUBLIC_FLAGS_RST PACKET_PUBLIC_FLAGS_8BYTE_CONNECTION_ID) in
  let flags := Z.lor flags (u8 PACKET_PUBLIC_FLAGS_8BYTE_CONNECTION_ID_OLD) in
  build len
    (_ ← WriteUInt8 flags;
     _ ← WriteConnectionId connection_id;
     WriteBytes reset_serialized).

(** The loop of lines 769-779: at least one label; [fuel] bounds the labels in
    the bytes left, each taking four. *)
Fixpoint version_label_loop (fuel : nat) (versions : list ParsedQuicVersion)
    : M PState (list ParsedQuicVersion) :=
  match fuel with
  | O => fail
  | S fuel =>
    version_label ← or_fail
      (reading "Unable to read supported version in negotiation." ReadTag)
      (on_fr (RaiseError QUIC_INVALID_VERSION_NEGOTIATION_PACKET));
    let versions := versions ++ [ParseQuicVersionLabel (NetToHost32 version_label)] in
    finished ← gets (fun s : PState => IsDoneReading (rd s));
    if finished : bool then mret versions else version_label_loop fuel versions
  end.

(** Lines 762-783. *)
Definition ProcessVersionNegotiationPacket (header : QuicPacketHeader) : M PState unit :=
  fuel ← gets (fun s : PState => S (Z.to_nat (BytesRemaining (rd s))));
  versions ← version_label_loop fuel [];
  modify (on_fr (fun f =>
    set_visitor (OnVersionNegotiationPacket
                   (mkVersionNegotiation (connection_id header) versions) (visitor_ f)) f)).

Definition kPRST : Z := le_val [0x50; 0x52; 0x53; 0x54].
Definition kRNON : Z := le_val [0x52; 0x4e; 0x4f; 0x4e].
Definition kCADR : Z := le_val [0x43; 0x41; 0x44; 0x52].

(** Lines 837-869. *)
Definition ProcessPublicResetPacket (header : QuicPacketHeader) : M PState unit :=
  perspective ← gets (fun s : PState => perspective_ (fr s));
  payload ← zoom rd set_rd ReadRemainingPayload;
  let error msg := on_fr (fun f => RaiseError QUIC_INVALID_PUBLIC_RST_PACKET
                                     (set_detailed_error msg f)) in
  match ParseMessage payload perspective with
  | None => fail_if true (error "Unable to read reset message.")
  | Some reset =>
    _ ← fail_if (negb (message_tag reset =? kPRST)) (error "Incorrect message tag.");
    match GetUint64 kRNON reset with
    | None => fail_if true (error "Unable to read nonce proof.")
    | Some nonce_proof =>
      let client_address := address ← GetStringPiece kCADR reset; DecodeAddress address in
      modify (on_fr (fun f =>
        set_visitor (OnPublicResetPacket
          (mkPublicReset _ (connection_id header) nonce_proof client_address) (visitor_ f)) f))
    end
  end.

(** * Round trip of the data-packet header *)

(** What the sender with framer [f] may put in a data packet's header: the
    version only from a client, the nonce only from a server without it. *)
Definition header_ok (f : MyQuicFramer) (header : QuicPacketHeader) : Prop :=
  reset_flag header = false /\
  packet_number_length header ∈ [1; 2; 4; 6] /\
  fits 64 (connection_id header) /\ fits 64 (packet_number header) /\
  (connection_id_length header = 0 \/ connection_id_length header = 8) /\
  (version_flag header = true -> perspective_ f = IS_CLIENT) /\
  (forall n, nonce header = Some n ->
     perspective_ f = IS_SERVER /\ version_flag header = false /\
     Z.of_nat (length n) = kDiversificationNonceSize).

Definition wire_public_header (f : MyQuicFramer) (header : QuicPacketHeader) : list Z :=
  public_flags_of (perspective_ f) header ::
  (if connection_id_length header =? 0 then [] else be_bytes 8 (connection_id header)) ++
  (if version_flag header then be_bytes 4 (CreateQuicVersionLabel (version_ f)) else []) ++
  match nonce header with Some n => n | None => [] end.

Lemma le_bytes_NetToHost32 x : le_bytes 4 (NetToHost32 x) = be_bytes 4 x.
Proof. apply le_bytes_byteswap. Qed.

Lemma NetToHost32_fits x : fits 32 (NetToHost32 x).
Proof.
  pose proof (le_val_bound _ (be_bytes_ok 4 x)) as Hb. by rewrite length_be_bytes in Hb.
Qed.

Lemma NetToHost32_involutive x : fits 32 x -> NetToHost32 (NetToHost32 x) = x.
Proof.
  intros Hx. unfold NetToHost32 at 1, byteswap. rewrite le_bytes_NetToHost32.
  unfold be_bytes. rewrite reverse_involutive, le_val_le_bytes. by apply Z.mod_small.
Qed.

Lemma public_flags_fits p header :
  packet_number_length header ∈ [1; 2; 4; 6] -> fits 8 (public_flags_of p header).
Proof.
  intros Hl. rewrite !elem_of_cons, elem_of_nil in Hl. unfold public_flags_of.
  destruct Hl as [->|[->|[->|[->|[]]]]]; destruct (reset_flag header), (version_flag header),
    (nonce header), (connection_id_length header =? _), p; done.
Qed.

(** The flags as the parser takes them apart. *)
Lemma public_flags_fields p header :
  packet_number_length header ∈ [1; 2; 4; 6] -> reset_flag header = false ->
  (connection_id_length header = 0 \/ connection_id_length header = 8) ->
  let flags := public_flags_of p header in
  flag flags PACKET_PUBLIC_FLAGS_RST = false /\
  flag flags PACKET_PUBLIC_FLAGS_VERSION = version_flag header /\
  flag flags PACKET_PUBLIC_FLAGS_8BYTE_CONNECTION_ID = negb (connection_id_length header =? 0) /\
  (p = IS_SERVER ->
   flag flags PACKET_PUBLIC_FLAGS_NONCE = match nonce header with Some _ => true | None => false end) /\
  (PACKET_PUBLIC_FLAGS_MAX <? flags) = false /\
  ReadSequenceNumberLength (Z.shiftr flags kPublicHeaderSequenceNumberShift) =
    packet_number_length header.
Proof.
  intros Hl Hr Hc. rewrite !elem_of_cons, elem_of_nil in Hl. unfold public_flags_of. rewrite Hr.
  destruct Hl as [->|[->|[->|[->|[]]]]]; destruct Hc as [-> | ->]; destruct (version_flag header),
    (nonce header), p; done.
Qed.

Lemma AppendPacketHeader_writes e f header :
  header_ok f header ->
  writes2 e (mkW f) (mkW (set_last_serialized_connection_id (connection_id header) f))
    (AppendPacketHeader header)
    (wire_public_header f header ++
     wire_uint e (Z.to_nat (packet_number_length header)) (packet_number header)) tt.
Proof.
  intros (Hr & Hl & Hcid & Hpn & Hcl & Hv & Hn). unfold AppendPacketHeader, wire_public_header.
  eapply writes2_bind_keep_0; [by apply (writes_gets e (mkW f) _ (perspective_ f))|].
  eapply writes2_bind_keep_0; [by apply (writes_gets e (mkW f) _ (version_ f))|].
  pose proof (public_flags_fits (perspective_ f) header Hl) as Hf.
  set (flags := public_flags_of (perspective_ f) header) in *.
  set (f2 := set_last_serialized_connection_id (connection_id header) f).
  change (flags :: ?x) with ([flags] ++ x). rewrite (assoc_L (++)), <- !(assoc_L (++)).
  rewrite (assoc_L (++) [flags]).
  eapply writes2_bind_keep.
  { change PACKET_0BYTE_CONNECTION_ID with 0. change PACKET_8BYTE_CONNECTION_ID with 8.
    destruct Hcl as [-> | ->]; cbn [Z.eqb Pos.eqb].
    - rewrite app_nil_r. by apply writes_write, WriteUInt8_writes.
    - eapply writes_bind; [by apply writes_write, WriteUInt8_writes|].
      apply writes_write, WriteConnectionId_writes. }
  eapply writes2_bind_0; [by apply (writes2_pure e _ (mkW f2))|].
  eapply writes2_bind_keep.
  { apply writes_if; [|apply writes_ret]. rewrite <- le_bytes_NetToHost32.
    apply writes_write, WriteTag_writes. }
  eapply writes2_bind_keep.
  { destruct (nonce header) as [n|]; [|apply writes_ret]. destruct (Hn n eq_refl) as (_ & _ & Hlen).
    rewrite take_ge by lia. apply writes_write, WriteBytes_writes. }
  apply writes_write, AppendPacketNumber_writes. unfold valid_length.
  rewrite !elem_of_cons in *. tauto.
Qed.

(** The receiver's view of the header before the packet number is known. *)
Definition received_header (f : MyQuicFramer) (header : QuicPacketHeader) : QuicPacketHeader :=
  mkHeader (connection_id header) (connection_id_length header) false (version_flag header)
    (packet_number_length header)
    (if version_flag header then version_ f else h_version emptyHeader) (nonce header) 0.

(** The receiver remembers the version label and the nonce. *)
Definition received_framer (f f' : MyQuicFramer) (header : QuicPacketHeader) : MyQuicFramer :=
  let f1 := if version_flag header
            then set_last_version_label (CreateQuicVersionLabel (version_ f)) f' else f' in
  match nonce header with Some n => set_last_nonce n f1 | None => f1 end.

Definition opposite (p p' : Perspective) : Prop := p <> p'.

Lemma ProcessPublicHeader_reads e f f' header :
  header_ok f header -> opposite (perspective_ f) (perspective_ f') ->
  (connection_id_length header = 0 ->
     last_serialized_connection_id_ f' = connection_id header) ->
  (version_flag header = true ->
     fits 32 (CreateQuicVersionLabel (version_ f)) /\
     ParseQuicVersionLabel (CreateQuicVersionLabel (version_ f)) = version_ f) ->
  reads2 e (mkP f') (mkP (received_framer f f' header)) ProcessPublicHeader
    (wire_public_header f header) (received_header f header).
Proof.
  intros (Hr & Hl & Hcid & Hpn & Hcl & Hv & Hn) Hop Hlast Hlabel.
  destruct (public_flags_fields (perspective_ f) header Hl Hr Hcl) as (F1 & F2 & F3 & F4 & F5 & F6).
  pose proof (public_flags_fits (perspective_ f) header Hl) as Hf.
  unfold ProcessPublicHeader, wire_public_header.
  set (flags := public_flags_of (perspective_ f) header) in *.
  change (flags :: ?x) with ([flags] ++ x).
  eapply reads2_bind_keep; [by apply reads_reading, ReadBytes_reads'|]. cbv zeta.
  replace (le_val [flags]) with flags by (cbn; lia). rewrite F1, F2, F3, F5, F6.
  eapply reads2_bind_keep_0; [by apply (reads_gets e (mkP f') _ (validate_flags_ f'))|].
  eapply reads2_bind_keep_0; [apply reads_reject_if; by rewrite andb_false_r|].
  eapply reads2_bind_keep_0; [by apply reads_reject_if|].
  eapply reads2_bind_keep_0; [by apply (reads_gets e (mkP f') _ (last_serialized_connection_id_ f'))|].
  eapply (reads2_bind_keep _ _ _ _ _ _ _ (connection_id header, connection_id_length header)).
  { destruct Hcl as [Hc|Hc]; rewrite Hc; cbn [Z.eqb negb].
    - rewrite (Hlast Hc). apply reads_ret.
    - eapply reads_bind_nil; [by apply reads_reading, ReadConnectionId_reads|apply reads_ret]. }
  eapply reads2_bind_keep_0; [by apply (reads_gets e (mkP f') _ (perspective_ f'))|].
  set (f1 := if version_flag header
             then set_last_version_label (CreateQuicVersionLabel (version_ f)) f' else f').
  eapply (reads2_bind _ _ (mkP f1) _ _ _ _ _
    (if version_flag header then version_ f else h_version emptyHeader)).
  { unfold f1. destruct (version_flag header) eqn:Hvf; cbn [andb]; [|apply reads_ret].
    specialize (Hv eq_refl). destruct (Hlabel eq_refl) as [Hfit Hparse].
    rewrite bool_decide_true by (destruct (perspective_ f'); congruence).
    rewrite <- le_bytes_NetToHost32.
    eapply reads2_bind_nil; [apply reads_reading, ReadTag_reads, NetToHost32_fits|].
    cbv zeta. rewrite NetToHost32_involutive by done.
    eapply reads2_bind_0; [by apply (reads2_pure e _ (mkP (set_last_version_label
      (CreateQuicVersionLabel (version_ f)) f')))|].
    eapply reads_bind_0; [by eapply (reads_gets e (mkP _) _ (version_ f'))|].
    rewrite Hparse. eapply reads_bind_0; [|apply reads_ret].
    apply reads_reject_if. by rewrite andb_false_r. }
  unfold received_framer, received_header. fold f1.
  destruct (nonce header) as [n|] eqn:Hno.
  - destruct (Hn n eq_refl) as (Hs & Hvf & Hlen). rewrite (F4 Hs), Hvf.
    rewrite bool_decide_true by (destruct (perspective_ f'); congruence). cbn [andb negb].
    eapply reads2_bind_nil.
    { eapply reads2_bind_nil; [by apply reads_reading, ReadBytes_reads'|].
      eapply reads2_bind_0; [by apply (reads2_pure e _ (mkP (set_last_nonce n f1)))|].
      apply reads_ret. }
    apply reads_ret.
  - eapply reads2_bind_keep_0; [|apply reads_ret].
    destruct (perspective_ f) eqn:Hp.
    + rewrite (F4 eq_refl). apply reads_ret.
    + rewrite bool_decide_false, andb_false_r by (destruct (perspective_ f'); congruence).
      apply reads_ret.
Qed.

(** * The packet number *)

Lemma wire_uint_mod e n v : wire_uint e n v = wire_uint e n (v mod 256 ^ Z.of_nat n).
Proof.
  assert (H : le_bytes n v = le_bytes n (v mod 256 ^ Z.of_nat n)).
  { rewrite <- le_val_le_bytes. rewrite <- (length_le_bytes n v) at 2.
    by rewrite le_bytes_le_val by apply le_bytes_ok. }
  unfold wire_uint, be_bytes. by rewrite <- H.
Qed.

(** The truncated packet number is recovered when it is within half an epoch
    of the one expected next. *)
Lemma ProcessAndCalculate_reads e len base pn :
  len ∈ [1; 2; 4; 6] -> 0 <= base < 2 ^ 62 -> 0 <= pn ->
  2 * Z.abs (pn - (base + 1)) < 2 ^ (8 * len) ->
  reads e id (ProcessAndCalculatePacketNumber len base) (wire_uint e (Z.to_nat len) pn) pn.
Proof.
  intros Hl Hb Hp Hn. unfold ProcessAndCalculatePacketNumber.
  assert (Hlen : 1 <= len <= 6) by (rewrite !elem_of_cons, elem_of_nil in Hl; lia).
  assert (Hpow : 256 ^ Z.of_nat (Z.to_nat len) = 2 ^ (8 * len)).
  { rewrite Z2Nat.id by lia. change 256 with (2 ^ 8). by rewrite <- Z.pow_mul_r by lia. }
  rewrite wire_uint_mod, Hpow.
  assert (Hm : 0 <= pn mod 2 ^ (8 * len) < 2 ^ (8 * len)) by (apply Z.mod_pos_bound; lia).
  eapply reads_bind_nil.
  - apply ReadBytesToUInt64_reads'; [lia|]. rewrite <- Hpow, Z2Nat.id in Hm by lia.
    rewrite Z2Nat.id in Hpow by lia. rewrite <- Hpow. exact Hm.
  - rewrite CalculatePacketNumberFromWire_exact by done. apply reads_ret.
Qed.

Lemma ProcessUnauthenticatedHeader_reads e f h pn v :
  packet_number_length h ∈ [1; 2; 4; 6] -> 0 <= largest_packet_number_ f < 2 ^ 62 -> 0 < pn ->
  2 * Z.abs (pn - (largest_packet_number_ f + 1)) < 2 ^ (8 * packet_number_length h) ->
  OnUnauthenticatedHeader (set_packet_number pn h) (visitor_ f) = (true, v) ->
  reads2 e (mkP f) (mkP (set_visitor v f)) (ProcessUnauthenticatedHeader h)
    (wire_uint e (Z.to_nat (packet_number_length h)) pn) (set_packet_number pn h).
Proof.
  intros Hl Hb Hp Hn Hv. unfold ProcessUnauthenticatedHeader.
  eapply reads2_bind_keep_0; [by apply (reads_gets e (mkP f) _ (largest_packet_number_ f))|].
  eapply reads2_bind_nil.
  { apply reads2_or_fail, reads_reading, ProcessAndCalculate_reads; done || lia. }
  cbv zeta. eapply reads2_bind_keep_0.
  { apply reads2_or_fail, reads_reject_if, Z.eqb_neq. lia. }
  eapply reads2_bind_0; [by apply reads_callback|]. cbn [negb].
  eapply reads_bind_0; [by apply reads_reject_if|apply reads_ret].
Qed.
End header.
