(* ===== verification/Framer.v ===== *)
(** The framer as a whole (quic/model/my_quic_framer.cc): construction, packet
    assembly and its length estimates, the frame dispatch loop, encryption and
    decryption, and [ProcessPacket]. *)
From S2P Require Import Prelude.
From S2P Require Import DataReader.
From S2P Require Import DataWriter.
From S2P Require Import Encodings.
From S2P Require Import PacketNumbers.
From S2P Require Import PacketNumberQueue.
From S2P Require Import FramerTypes.
From S2P Require Import GoogleFrames.
From S2P Require Import StreamFrames.
From S2P Require Import AckFrames.
From S2P Require Import PacketHeader.

Open Scope string_scope.
Open Scope list_scope.
Open Scope Z_scope.

Definition QUIC_VERSION_43 : Z := 43.
Definition kConnectionIdLengthSize : Z := 1.

(** ** Header size (net/third_party/quic/core/quic_packets.cc:24-65) *)
Definition GetPacketHeaderSize (version destination_connection_id_length source_connection_id_length : Z)
    (include_version include_diversification_nonce : bool) (packet_number_length : Z) : Z :=
  if QUIC_VERSION_43 <? version then
    if include_version then
      kPacketHeaderTypeSize + kConnectionIdLengthSize + destination_connection_id_length +
      source_connection_id_length + PACKET_4BYTE_PACKET_NUMBER + kQuicVersionSize +
      (if include_diversification_nonce then kDiversificationNonceSize else 0)
    else kPacketHeaderTypeSize + destination_connection_id_length + packet_number_length
  else
    kPublicFlagsSize + destination_connection_id_length +
    (if include_version then kQuicVersionSize else 0) + packet_number_length +
    (if include_diversification_nonce then kDiversificationNonceSize else 0).

(** A Google QUIC header has no source connection id. *)
Definition GetStartOfEncryptedData (version connection_id_length : Z)
    (include_version include_diversification_nonce : bool) (packet_number_length : Z) : Z :=
  GetPacketHeaderSize version connection_id_length 0 include_version
    include_diversification_nonce packet_number_length.

(** Lines 1965-1978. *)
Definition GetAssociatedDataFromEncryptedPacket (version : Z) (encrypted : list Z)
    (connection_id_length : Z) (includes_version includes_diversification_nonce : bool)
    (packet_number_length : Z) : list Z :=
  take (Z.to_nat (GetStartOfEncryptedData version connection_id_length includes_version
                    includes_diversification_nonce packet_number_length)) encrypted.

Definition EncryptionLevels : list EncryptionLevel :=
  [ENCRYPTION_NONE; ENCRYPTION_INITIAL; ENCRYPTION_FORWARD_SECURE].

Section framer_ops.
Context {HM : HandshakeMessages} {VI : MyQuicFramerVisitorInterface} {CI : Ciphers}
  {VL : VersionLabels}.
Context (WriteUInt8AtOffset : Z -> Z -> M QuicDataWriter unit).

(** * Construction and configuration *)

(** Lines 209-238.  [v] is the visitor installed afterwards with
    [set_visitor]; [null_decrypter] and [null_encrypter] are the objects made
    for the perspective. *)
Definition MyQuicFramer_ctor (v : Visitor) (supported_versions : list ParsedQuicVersion)
    (creation_time : Z) (perspective : Perspective) (null_decrypter : Decrypter)
    (null_encrypter : Encrypter) : MyQuicFramer :=
  mkFramer "" v QUIC_NO_ERROR 0 0 0 false
    (hd (mkVersion PROTOCOL_UNSUPPORTED 0) supported_versions) supported_versions
    (Some null_decrypter) None ENCRYPTION_NONE ENCRYPTION_NONE false
    (fun level => match level with ENCRYPTION_NONE => Some null_encrypter | _ => None end)
    perspective true creation_time 0 [] None true.

(** Lines 346-363. *)
Definition IsSupportedTransportVersion (version : Z) (f : MyQuicFramer) : bool :=
  existsb (fun supported => version =? transport_version supported) (supported_versions_ f).
Definition IsSupportedVersion (version : ParsedQuicVersion) (f : MyQuicFramer) : bool :=
  existsb (fun supported => bool_decide (version = supported)) (supported_versions_ f).

(** Lines 1980-2010. *)
Definition SetDecrypter (level : EncryptionLevel) (decrypter : Decrypter) (f : MyQuicFramer)
    : MyQuicFramer :=
  set_decrypter_level level (set_decrypter (Some decrypter) f).
Definition SetAlternativeDecrypter (level : EncryptionLevel) (decrypter : Decrypter)
    (latch_once_used : bool) (f : MyQuicFramer) : MyQuicFramer :=
  set_alternative_decrypter_latch latch_once_used
    (set_alternative_decrypter_level level (set_alternative_decrypter (Some decrypter) f)).
Definition SetEncrypter (level : EncryptionLevel) (encrypter : Encrypter) (f : MyQuicFramer)
    : MyQuicFramer :=
  set_encrypter (fun l => if bool_decide (l = level) then Some encrypter else encrypter_ f l) f.

(** Lines 2058-2073. *)
Definition GetMaxPlaintextSize (ciphertext_size : Z) (f : MyQuicFramer) : Z :=
  fold_left (fun min_plaintext_size level =>
    match encrypter_ f level with
    | None => min_plaintext_size
    | Some e =>
      let size := GetMaxPlaintextSize_cipher e ciphertext_size in
      if size <? min_plaintext_size then size else min_plaintext_size
    end) EncryptionLevels ciphertext_size.

Definition kCHLO : list Z := [0x43; 0x48; 0x4c; 0x4f].

(** [strncmp] of four characters: equal up to the first NUL. *)
Fixpoint strncmp_eq (n : nat) (a b : list Z) : bool :=
  match n, a, b with
  | S n, x :: a, y :: b => (x =? y) && ((x =? 0) || strncmp_eq n a b)
  | _, _, _ => true
  end.

(** Lines 2946-2962. *)
Definition StartsWithChlo (id offset : Z) (f : MyQuicFramer) : bool :=
  match data_producer_ f with
  | None => false
  | Some WriteStreamData =>
    match WriteStreamData id offset 4 (make_writer (replicate 4 0) (endianness f)) with
    | (None, _) => false
    | (Some _, w) => strncmp_eq 4 (buffer_ w) kCHLO
    end
  end.

(** * Lengths *)

(** Lines 2180-2226. *)
Definition ComputeFrameLength (frame : QuicFrame) (last_frame_in_packet : bool)
    (packet_number_length : Z) (f : MyQuicFramer) : Z :=
  let version := transport_version (version_ f) in
  match frame with
  | STREAM_FRAME s =>
    GetMinStreamFrameSize version (sf_stream_id s) (sf_offset s) last_frame_in_packet +
    sf_data_length s
  | ACK_FRAME a => GetAckFrameSize version (use_incremental_ack_processing_ f) a
  | STOP_WAITING_FRAME _ => GetStopWaitingFrameSize version packet_number_length
  | MTU_DISCOVERY_FRAME | PING_FRAME => kQuicFrameTypeSize
  | RST_STREAM_FRAME _ => GetRstStreamFrameSize
  | CONNECTION_CLOSE_FRAME c =>
    GetMinConnectionCloseFrameSize + Z.of_nat (length (TruncateErrorString (cc_error_details c)))
  | GOAWAY_FRAME g =>
    GetMinGoAwayFrameSize + Z.of_nat (length (TruncateErrorString (ga_reason_phrase g)))
  | WINDOW_UPDATE_FRAME _ => GetWindowUpdateFrameSize
  | BLOCKED_FRAME _ => GetBlockedFrameSize
  | PADDING_FRAME _ => 0
  | OTHER_FRAME _ => 0
  end.

Definition is_ack (frame : QuicFrame) : bool :=
  match frame with ACK_FRAME _ => true | _ => false end.

(** Lines 365-419.  The null-pointer guard has no counterpart: a frame of the
    model owns its payload. *)
Definition GetSerializedFrameLength (frame : QuicFrame) (free_bytes : Z)
    (first_frame last_frame : bool) (packet_number_length : Z) (f : MyQuicFramer) : Z :=
  match frame with
  | PADDING_FRAME p =>
    if num_padding_bytes p =? -1 then free_bytes
    else if free_bytes <? u64 (num_padding_bytes p) then free_bytes
    else u64 (num_padding_bytes p)
  | _ =>
    let frame_len := ComputeFrameLength frame last_frame packet_number_length f in
    if frame_len <=? free_bytes then frame_len
    else if negb first_frame then 0
    else if is_ack frame &&
            (GetMinAckFrameSize (transport_version (version_ f)) PACKET_6BYTE_PACKET_NUMBER
               <=? free_bytes)
    then free_bytes
    else 0
  end.

(** * Assembling a packet *)

(** The switch of lines 447-516. *)
Definition append_frame (header : QuicPacketHeader) (frame : QuicFrame)
    (no_stream_frame_length : bool) : M WState unit :=
  match frame with
  | PADDING_FRAME p => AppendPaddingFrame p
  | STREAM_FRAME s => AppendStreamFrame s no_stream_frame_length
  | ACK_FRAME a => AppendAckFrameAndTypeByte WriteUInt8AtOffset a
  | STOP_WAITING_FRAME w => AppendStopWaitingFrame header w
  | MTU_DISCOVERY_FRAME | PING_FRAME => mret tt
  | RST_STREAM_FRAME r => AppendRstStreamFrame r
  | CONNECTION_CLOSE_FRAME c => AppendConnectionCloseFrame c
  | GOAWAY_FRAME g => AppendGoAwayFrame g
  | WINDOW_UPDATE_FRAME w => AppendWindowUpdateFrame w
  | BLOCKED_FRAME b => AppendBlockedFrame b
  | OTHER_FRAME _ => fail_if true (on_wfr (RaiseError QUIC_INVALID_FRAME_DATA))
  end.

(** The loop of lines 438-518; [no_stream_frame_length] holds for the last frame. *)
Fixpoint append_frames (header : QuicPacketHeader) (frames : list QuicFrame) : M WState unit :=
  match frames with
  | [] => mret tt
  | frame :: frames =>
    let no_stream_frame_length := match frames with [] => true | _ => false end in
    _ ← AppendTypeByte frame no_stream_frame_length;
    _ ← append_frame header frame no_stream_frame_length;
    append_frames header frames
  end.

(** Runs a serializer on the caller's buffer; the result is the bytes written,
    whose number the C++ function returns ([None]: it returns 0). *)
Definition in_buffer (m : M WState unit) (buffer : list Z) : M MyQuicFramer (list Z) := fun f =>
  match m (mkW f (make_writer buffer (endianness f))) with
  | (Some _, s) => (Some (written (wr s)), wfr s)
  | (None, s) => (None, wfr s)
  end.

(** Lines 428-521. *)
Definition BuildDataPacket (header : QuicPacketHeader) (frames : list QuicFrame)
    (buffer : list Z) : M MyQuicFramer (list Z) :=
  in_buffer (_ ← AppendPacketHeader header; append_frames header frames) buffer.

(** Lines 523-554; a default [QuicPaddingFrame] has -1 bytes. *)
Definition BuildConnectivityProbingPacket (header : QuicPacketHeader) (buffer : list Z)
    : M MyQuicFramer (list Z) :=
  in_buffer
    (_ ← AppendPacketHeader header;
     _ ← AppendTypeByte PING_FRAME false;
     _ ← AppendTypeByte (PADDING_FRAME (mkPadding (-1))) true;
     AppendPaddingFrame (mkPadding (-1))) buffer.

(** * Encryption *)

(** Lines 2032-2056.  The packet is its bytes and its header's shape; the
    result is the encrypted packet.  A missing encrypter is a null
    dereference in C++ and is failure here. *)
Definition EncryptPayload (level : EncryptionLevel) (packet_number : Z) (header : QuicPacketHeader)
    (packet : list Z) (buffer_len : Z) : M MyQuicFramer (list Z) := fun f =>
  let version := transport_version (version_ f) in
  let ad_len := Z.to_nat (GetStartOfEncryptedData version (connection_id_length header)
    (version_flag header) (match nonce header with Some _ => true | None => false end)
    (packet_number_length header)) in
  let associated_data := take ad_len packet in
  match encrypter_ f level with
  | None => (None, f)
  | Some e =>
    match EncryptPacket e version packet_number associated_data (drop ad_len packet)
            (buffer_len - Z.of_nat (length associated_data)) with
    | Some output => (Some (associated_data ++ output), f)
    | None => (None, RaiseError QUIC_ENCRYPTION_FAILURE f)
    end
  end.

(** Lines 2012-2030: the same with source and destination in one buffer. *)
Definition EncryptInPlace (level : EncryptionLevel) (packet_number ad_len total_len : Z)
    (buffer : list Z) : M MyQuicFramer (list Z) := fun f =>
  let ad := take (Z.to_nat ad_len) buffer in
  match encrypter_ f level with
  | None => (None, f)
  | Some e =>
    match EncryptPacket e (transport_version (version_ f)) packet_number ad
            (take (Z.to_nat (total_len - ad_len)) (drop (Z.to_nat ad_len) buffer))
            (Z.of_nat (length buffer) - ad_len) with
    | Some output => (Some (ad ++ output), f)
    | None => (None, RaiseError QUIC_ENCRYPTION_FAILURE f)
    end
  end.

(** A visitor callback without an answer. *)
Definition notify (cb : Visitor -> Visitor) (f : MyQuicFramer) : MyQuicFramer :=
  set_visitor (cb (visitor_ f)) f.

(** Lines 2117-2130: after a success of the alternative decrypter. *)
Definition switch_decrypters (f : MyQuicFramer) : MyQuicFramer :=
  if alternative_decrypter_latch_ f then
    let f1 := set_alternative_decrypter None (set_decrypter (alternative_decrypter_ f) f) in
    let f2 := set_decrypter_level (alternative_decrypter_level_ f1) f1 in
    set_alternative_decrypter_level ENCRYPTION_NONE f2
  else
    let f1 := set_alternative_decrypter (decrypter_ f)
                (set_decrypter (alternative_decrypter_ f) f) in
    let level := alternative_decrypter_level_ f1 in
    let f2 := set_alternative_decrypter_level (decrypter_level_ f1) f1 in
    set_decrypter_level level f2.

(** Lines 2099-2109: INITIAL decryption at a client needs the nonce. *)
Definition may_try_alternative (header : QuicPacketHeader) (f : MyQuicFramer) : bool :=
  negb (bool_decide (alternative_decrypter_level_ f = ENCRYPTION_INITIAL) &&
        bool_decide (perspective_ f = IS_CLIENT) &&
        match nonce header with None => true | Some _ => false end).

(** Lines 2075-2140. *)
Definition DecryptPayload (header : QuicPacketHeader) (packet : list Z) (buffer_length : Z)
    : M PState (list Z) :=
  encrypted ← zoom rd set_rd ReadRemainingPayload;
  f ← gets fr;
  let version := transport_version (version_ f) in
  let associated_data := GetAssociatedDataFromEncryptedPacket version packet
    (connection_id_length header) (version_flag header)
    (match nonce header with Some _ => true | None => false end)
    (packet_number_length header) in
  let decrypt d := DecryptPacket d version (packet_number header) associated_data encrypted
                     buffer_length in
  match decrypter_ f ≫= decrypt with
  | Some plaintext =>
    _ ← modify (on_fr (notify (OnDecryptedPacket (decrypter_level_ f))));
    mret plaintext
  | None =>
    match alternative_decrypter_ f with
    | None => fail
    | Some alternative =>
      let alternative := match nonce header with
                         | Some n => SetDiversificationNonce n alternative
                         | None => alternative
                         end in
      _ ← modify (on_fr (set_alternative_decrypter (Some alternative)));
      match (if may_try_alternative header f then decrypt alternative else None) with
      | None => fail
      | Some plaintext =>
        _ ← modify (on_fr (notify (OnDecryptedPacket (alternative_decrypter_level_ f))));
        _ ← modify (on_fr switch_decrypters);
        mret plaintext
      end
    end
  end.

(** * Dispatching frames *)

Definition is_stream_type (version frame_type : Z) : bool :=
  (negb (version =? QUIC_VERSION_41) &&
   negb (Z.land frame_type kQuicFrameTypeStreamMask_Pre40 =? 0)) ||
  ((QUIC_VERSION_41 <=? version) &&
   (Z.land frame_type kQuicFrameTypeStreamMask =? kQuicFrameTypeStreamMask)).

Definition is_ack_type (version frame_type : Z) : bool :=
  (negb (version =? QUIC_VERSION_41) &&
   negb (Z.land frame_type kQuicFrameTypeAckMask_Pre40 =? 0)) ||
  ((QUIC_VERSION_41 <=? version) &&
   (Z.land frame_type kQuicFrameTypeSpecialMask =? kQuicFrameTypeAckMask)).

(** [if (!process) return RaiseError(error); if (!visitor) return true;]: the
    answer is whether the loop goes on. *)
Definition frame_case {A} (error : Z) (process : M PState A) (visit : A -> Visitor -> bool * Visitor)
    : M PState bool :=
  frame ← or_fail process (on_fr (RaiseError error));
  callback (visit frame).

Definition illegal_frame_type : M PState bool :=
  _ ← fail_if true (on_fr (fun f => RaiseError QUIC_INVALID_FRAME_DATA
                                      (set_detailed_error "Illegal frame type." f)));
  mret false.

(** The body of the loop, lines 1187-1348, for the type just read. *)
Definition process_frame (header : QuicPacketHeader) (frame_type : Z) : M PState bool :=
  version ← gets (fun s : PState => transport_version (version_ (fr s)));
  incremental ← gets (fun s : PState => use_incremental_ack_processing_ (fr s));
  if negb (Z.land frame_type kQuicFrameTypeSpecialMask =? 0) then
    if is_stream_type version frame_type then
      frame_case QUIC_INVALID_STREAM_DATA (ProcessStreamFrame frame_type) OnStreamFrame
    else if is_ack_type version frame_type then
      frame ← or_fail (ProcessAckFrame frame_type emptyAckFrame)
                (on_fr (RaiseError QUIC_INVALID_ACK_DATA));
      (if incremental : bool then mret true else callback (OnAckFrame frame))
    else illegal_frame_type
  else if frame_type =? 0 then frame ← ProcessPaddingFrame; callback (OnPaddingFrame frame)
  else if frame_type =? 1 then
    frame_case QUIC_INVALID_RST_STREAM_DATA ProcessRstStreamFrame OnRstStreamFrame
  else if frame_type =? 2 then
    frame_case QUIC_INVALID_CONNECTION_CLOSE_DATA ProcessConnectionCloseFrame OnConnectionCloseFrame
  else if frame_type =? 3 then
    frame_case QUIC_INVALID_GOAWAY_DATA ProcessGoAwayFrame OnGoAwayFrame
  else if frame_type =? 4 then
    frame_case QUIC_INVALID_WINDOW_UPDATE_DATA ProcessWindowUpdateFrame OnWindowUpdateFrame
  else if frame_type =? 5 then
    frame_case QUIC_INVALID_BLOCKED_DATA ProcessBlockedFrame OnBlockedFrame
  else if frame_type =? 6 then
    frame_case QUIC_INVALID_STOP_WAITING_DATA (ProcessStopWaitingFrame header) OnStopWaitingFrame
  else if frame_type =? 7 then callback OnPingFrame
  else illegal_frame_type.

(** The loop of lines 1180-1349; [fuel] bounds the frames left, each of which
    takes a byte at least. *)
Fixpoint frames_loop (fuel : nat) (header : QuicPacketHeader) : M PState unit :=
  finished ← gets (fun s : PState => IsDoneReading (rd s));
  if finished : bool then mret tt else
  match fuel with
  | O => fail
  | S fuel =>
    frame_type ← or_fail (reading "Unable to read frame type." (ReadBytes 1))
                   (on_fr (RaiseError QUIC_INVALID_FRAME_DATA));
    continue ← process_frame header (le_val frame_type);
    if continue : bool then frames_loop fuel header else mret tt
  end.

(** Lines 1174-1352. *)
Definition ProcessFrameData (header : QuicPacketHeader) : M PState unit :=
  finished ← gets (fun s : PState => IsDoneReading (rd s));
  _ ← fail_if finished (on_fr (fun f => RaiseError QUIC_MISSING_PAYLOAD
                                          (set_detailed_error "Packet has no frames." f)));
  fuel ← gets (fun s : PState => Z.to_nat (BytesRemaining (rd s)));
  frames_loop fuel header.

(** * Receiving a packet *)

(** Lines 785-835. *)
Definition ProcessDataPacket (header : QuicPacketHeader) (packet : list Z) (buffer_length : Z)
    : M PState unit :=
  header ← ProcessUnauthenticatedHeader header;
  decrypted ← or_fail (DecryptPayload header packet buffer_length)
    (on_fr (fun f => RaiseError QUIC_DECRYPTION_FAILURE
                       (set_detailed_error "Unable to decrypt payload." f)));
  _ ← modify (fun s : PState => mkP (fr s) (make_reader decrypted (endianness (fr s))));
  _ ← modify (on_fr (fun f => set_largest_packet_number
                                (Z.max (packet_number header) (largest_packet_number_ f)) f));
  accepted ← callback (OnPacketHeader header);
  if negb accepted then mret tt else
  _ ← fail_if (kMaxPacketSize <? Z.of_nat (length packet)) (on_fr (RaiseError QUIC_PACKET_TOO_LARGE));
  _ ← ProcessFrameData header;
  modify (on_fr (notify OnPacketComplete)).

(** Lines 730-736: whether processing goes on after a version mismatch. *)
Definition check_version (header : QuicPacketHeader) : M PState bool := fun s =>
  let f := fr s in
  if bool_decide (perspective_ f = IS_SERVER) && version_flag header &&
     negb (bool_decide (h_version header = version_ f)) then
    let '(b, version, v) := OnProtocolVersionMismatch (h_version header) (visitor_ f) in
    let f := set_visitor v f in
    (Some b, mkP (match version with Some x => set_version x f | None => f end) (rd s))
  else (Some true, s).

(** Lines 711-760; the result is the return value, [None] for [false]. *)
Definition ProcessPacket (packet : list Z) : M MyQuicFramer unit := fun f =>
  let run : M PState unit :=
    _ ← modify (on_fr (fun f => notify OnPacket (set_last_packet_is_ietf_quic false f)));
    header ← or_fail ProcessPublicHeader (on_fr (RaiseError QUIC_INVALID_PACKET_HEADER));
    go_on ← callback (OnUnauthenticatedPublicHeader header);
    if negb go_on then mret tt else
    go_on ← check_version header;
    if negb go_on then mret tt else
    _ ← modify (fun s : PState => mkP (fr s) (set_endianness (endianness (fr s)) (rd s)));
    perspective ← gets (fun s : PState => perspective_ (fr s));
    if bool_decide (perspective = IS_CLIENT) && version_flag header
    then ProcessVersionNegotiationPacket header
    else if reset_flag header then ProcessPublicResetPacket header
    else if Z.of_nat (length packet) <=? kMaxPacketSize
    then ProcessDataPacket header packet kMaxPacketSize
    else ProcessDataPacket header packet (Z.of_nat (length packet)) in
  let '(r, s) := run (mkP f (make_reader packet (endianness f))) in (r, fr s).
End framer_ops.
