(* ===== verification/FramerSafety.v ===== *)
(** Robustness of the parsers against arbitrary input: whatever the bytes and
    whatever the visitor answers, no parser moves the cursor backwards or out of
    the buffer, a failure always leaves a description of the error, and the
    frame loop ends within as many iterations as there are bytes. *)
From S2P Require Import Prelude.
From S2P Require Import DataReader.
From S2P Require Import DataWriter.
From S2P Require Import Encodings.
From S2P Require Import PacketNumbers.
From S2P Require Import PacketNumberQueue.
From S2P Require Import FramerTypes.
From S2P Require Import GoogleFrames.
From S2P Require Import StreamFrames.
From S2P Require Import IetfFrames.
From S2P Require Import AckFrames.
From S2P Require Import IetfAck.
From S2P Require Import PacketHeader.
From S2P Require Import Framer.

Open Scope string_scope.
Open Scope list_scope.
Open Scope Z_scope.

(** A reader over a buffer of bytes with its cursor inside. *)
Definition buffer_ok (r : QuicDataReader) : Prop := reader_ok r /\ bytes_ok (data_ r).

(** The reader [r'] is [r] with its cursor moved forward inside the buffer. *)
Definition advances (r r' : QuicDataReader) : Prop :=
  reader_ok r' /\ pos_ r <= pos_ r' /\ data_ r' = data_ r /\ rd_endianness_ r' = rd_endianness_ r.

Lemma advances_refl r : buffer_ok r -> advances r r.
Proof. unfold advances, buffer_ok. intros []. auto with lia. Qed.

Lemma advances_ok r r' : buffer_ok r -> advances r r' -> buffer_ok r'.
Proof. intros [_ Hb] (H & _ & Hd & _). split; [done|by rewrite Hd]. Qed.

Lemma advances_trans r1 r2 r3 : advances r1 r2 -> advances r2 r3 -> advances r1 r3.
Proof. unfold advances. intros (?&?&?&?) (?&?&?&?). split_and!; [done|lia|congruence|congruence]. Qed.

Lemma advances_remaining r r' :
  buffer_ok r -> advances r r' -> 0 <= BytesRemaining r' <= BytesRemaining r.
Proof.
  unfold BytesRemaining. intros [[Hl Hp] _] ([Hl' Hp'] & Hpos & Hd & _). rewrite Hl', Hl, Hd in *. lia.
Qed.

Section robust.
Context {HM : HandshakeMessages} {VI : MyQuicFramerVisitorInterface} {CI : Ciphers}
  {VL : VersionLabels}.

(** [m] only moves the cursor forward, and when it fails the framer satisfies [E]. *)
Definition robust (E : MyQuicFramer -> Prop) {A} (m : M PState A) : Prop := forall s,
  buffer_ok (rd s) ->
  advances (rd s) (rd (snd (m s))) /\ (fst (m s) = None -> E (fr (snd (m s)))).

(** A failure with a description, and one that also raised an error code. *)
Definition described (f : MyQuicFramer) : Prop := detailed_error_ f <> "".
Definition reported (f : MyQuicFramer) : Prop :=
  detailed_error_ f <> "" /\ error_ f <> QUIC_NO_ERROR.

Lemma robust_ret E {A} (a : A) : robust E (mret a).
Proof. intros s Hs. split; [by apply advances_refl|done]. Qed.

Lemma robust_gets E {A} (g : PState -> A) : robust E (gets g).
Proof. intros s Hs. split; [by apply advances_refl|done]. Qed.

Lemma robust_bind E {A B} (m : M PState A) (k : A -> M PState B) :
  robust E m -> (forall a, robust E (k a)) -> robust E (m ≫= k).
Proof.
  intros Hm Hk s Hs. unfold mbind, M_bind. destruct (Hm s Hs) as [H1 H2].
  destruct (m s) as [[a|] s1]; cbn [fst snd] in *; [|by split; auto].
  destruct (Hk a s1 (advances_ok _ _ Hs H1)) as [H3 H4]. split; [by eapply advances_trans|done].
Qed.

Lemma robust_bind_gets E {A B} (g : PState -> A) (k : A -> M PState B) :
  (forall s, buffer_ok (rd s) ->
     advances (rd s) (rd (snd (k (g s) s))) /\
     (fst (k (g s) s) = None -> E (fr (snd (k (g s) s))))) ->
  robust E (gets g ≫= k).
Proof. done. Qed.

Lemma robust_reading {A} msg (m : M QuicDataReader A) :
  msg <> "" -> safe_read m -> robust described (reading msg m).
Proof.
  intros Hmsg Hm s Hs. unfold reading, or_fail, zoom. specialize (Hm (rd s) (proj1 Hs) (proj2 Hs)).
  destruct (m (rd s)) as [[a|] r]; cbn in *; (split; [exact Hm|done]).
Qed.

Lemma robust_reject_if b msg : msg <> "" -> robust described (reject_if b msg).
Proof.
  intros Hmsg s Hs. unfold reject_if, fail_if. destruct b; cbn;
    split; try done; by apply advances_refl.
Qed.

Lemma robust_callback E cb : robust E (callback cb).
Proof.
  intros s Hs. unfold callback. destruct (cb _) as [b v]. cbn.
  split; [by apply advances_refl|done].
Qed.

Lemma robust_modify_fr E g : robust E (modify (on_fr g)).
Proof. intros s Hs. cbn. split; [by apply advances_refl|done]. Qed.

Lemma robust_raise {A} (m : M PState A) error :
  robust described m -> error <> QUIC_NO_ERROR ->
  robust reported (or_fail m (on_fr (RaiseError error))).
Proof.
  intros Hm He s Hs. unfold or_fail. destruct (Hm s Hs) as [H1 H2].
  destruct (m s) as [[a|] s1]; cbn [fst snd] in *; [done|]. split; [done|].
  intros _. specialize (H2 eq_refl). done.
Qed.

Lemma robust_fail_reported b error msg :
  error <> QUIC_NO_ERROR -> msg <> "" ->
  robust reported (fail_if b (on_fr (fun f => RaiseError error (set_detailed_error msg f)))).
Proof.
  intros He Hm s Hs. unfold fail_if. destruct b; cbn; split; try done; by apply advances_refl.
Qed.

Lemma robust_if E {A} (b : bool) (m1 m2 : M PState A) :
  robust E m1 -> robust E m2 -> robust E (if b then m1 else m2).
Proof. by destruct b. Qed.

Lemma robust_weaken (E E' : MyQuicFramer -> Prop) {A} (m : M PState A) :
  (forall f, E f -> E' f) -> robust E m -> robust E' m.
Proof. intros HE Hm s Hs. destruct (Hm s Hs). split; auto. Qed.

Lemma robust_rest msg : msg <> "" ->
  robust described (remaining ← gets (fun s : PState => BytesRemaining (rd s));
                    reading msg (ReadStringPiece remaining)).
Proof.
  intros Hm. apply robust_bind_gets. intros s Hs.
  apply robust_reading; [done| |done]. apply safe_ReadStringPiece.
  destruct Hs as [[] _]. unfold BytesRemaining. lia.
Qed.
End robust.

Create HintDb robust.
#[export] Hint Resolve robust_ret robust_gets robust_callback robust_modify_fr robust_if
  robust_rest : robust.
#[export] Hint Extern 2 (robust _ (reading _ _)) =>
  apply robust_reading; [discriminate|eauto with safe] : robust.
#[export] Hint Extern 2 (robust _ (reject_if _ _)) => apply robust_reject_if; discriminate : robust.

(** Peels the binds of a parser, each step solved from the rules. *)
Ltac robust_step :=
  repeat (first
    [ progress cbv zeta
    | apply robust_bind; [solve [eauto 8 with robust]|intros ?] ]);
  eauto 8 with robust.

Section parsers.
Context {HM : HandshakeMessages} {VI : MyQuicFramerVisitorInterface} {CI : Ciphers}
  {VL : VersionLabels}.

(** * The frame parsers *)

Lemma land_nonneg x m : 0 <= m -> 0 <= Z.land x m.
Proof. intros. apply Z.land_nonneg. auto. Qed.

Lemma stream_lengths_nonneg (pre : bool) t :
  let '(id_len, off_len, _, _) := if pre then stream_flags_pre40 t else stream_flags_v41 t in
  0 <= id_len /\ 0 <= off_len.
Proof.
  destruct pre; unfold stream_flags_pre40, stream_flags_v41, ExtractBits; cbv zeta.
  - split; [pose proof (land_nonneg (Z.land t (u8 (Z.lnot kQuicFrameTypeStreamMask_Pre40)))
      kQuicStreamIDLengthMask_Pre40 ltac:(done)); lia|].
    match goal with |- context [Z.land ?x kQuicStreamOffsetMask_Pre40] =>
      pose proof (land_nonneg x kQuicStreamOffsetMask_Pre40 ltac:(done)) end.
    case_match; lia.
  - split.
    + match goal with |- context [Z.land ?x ?m] =>
        pose proof (land_nonneg x m ltac:(done)) end. lia.
    + case_match; [lia|]. apply Z.shiftl_nonneg. lia.
Qed.

Lemma ack_length_nonneg v flags : 0 <= ReadAckPacketNumberLength v flags.
Proof. unfold ReadAckPacketNumberLength. repeat case_match; done. Qed.

Lemma robust_ProcessStreamFrame t : robust described (ProcessStreamFrame t).
Proof.
  unfold ProcessStreamFrame. apply robust_bind; [auto with robust|intros pre].
  pose proof (stream_lengths_nonneg pre t) as Hn. cbv beta.
  destruct (if pre then _ else _) as [[[id_len off_len] has_len] fin]. destruct Hn.
  robust_step.
Qed.

Lemma robust_ProcessRstStreamFrame : robust described ProcessRstStreamFrame.
Proof. unfold ProcessRstStreamFrame. robust_step. Qed.
Lemma robust_ProcessConnectionCloseFrame : robust described ProcessConnectionCloseFrame.
Proof. unfold ProcessConnectionCloseFrame. robust_step. Qed.
Lemma robust_ProcessGoAwayFrame : robust described ProcessGoAwayFrame.
Proof. unfold ProcessGoAwayFrame. robust_step. Qed.
Lemma robust_ProcessWindowUpdateFrame : robust described ProcessWindowUpdateFrame.
Proof. unfold ProcessWindowUpdateFrame. robust_step. Qed.
Lemma robust_ProcessBlockedFrame : robust described ProcessBlockedFrame.
Proof. unfold ProcessBlockedFrame. robust_step. Qed.
Lemma robust_ProcessStopWaitingFrame header :
  0 <= packet_number_length header -> robust described (ProcessStopWaitingFrame header).
Proof. intros. unfold ProcessStopWaitingFrame. robust_step. Qed.

Lemma robust_ack_callback cb : robust described (ack_callback cb).
Proof. unfold ack_callback. robust_step. Qed.
Hint Resolve robust_ack_callback : robust.

Lemma robust_ack_block_loop n incremental len first frame :
  0 <= len -> robust described (ack_block_loop n incremental len first frame).
Proof.
  intros Hl. revert first frame. induction n as [|n IH]; intros first frame; cbn [ack_block_loop];
    [eauto with robust|].
  robust_step. destruct (_ <? _), incremental; robust_step.
Qed.

Lemma robust_modify_fr' E g : robust E (modify (fun s => on_fr (g s) s)).
Proof. intros s Hs. cbn. split; [by apply advances_refl|done]. Qed.
Hint Resolve robust_modify_fr' robust_ack_block_loop : robust.
Hint Extern 1 (robust _ (modify (fun s => on_fr (_ s) s))) => apply robust_modify_fr' : robust.

Lemma robust_timestamps_loop n frame : robust described (timestamps_loop n frame).
Proof.
  revert frame. induction n as [|n IH]; intros frame; cbn [timestamps_loop]; robust_step.
Qed.
Hint Resolve robust_timestamps_loop : robust.

Lemma robust_ProcessTimestamps n frame : robust described (ProcessTimestampsInAckFrame n frame).
Proof. unfold ProcessTimestampsInAckFrame. destruct (_ <? _); robust_step. Qed.
Hint Resolve robust_ProcessTimestamps ack_length_nonneg : robust.
Hint Resolve ack_length_nonneg : safe.

Lemma robust_ProcessAckFrame t frame : robust described (ProcessAckFrame t frame).
Proof.
  unfold ProcessAckFrame. robust_step.
Qed.

Lemma padding_loop_advances n c r :
  buffer_ok r -> advances r (snd (padding_loop n c r)).
Proof.
  revert c r. induction n as [|n IH]; intros c r Hr; cbn [padding_loop];
    [by apply advances_refl|].
  destruct (_ && _); [|by apply advances_refl].
  assert (advances r (snd (ReadBytes 1 r))) by (apply safe_ReadBytes; [lia|apply Hr..]).
  eapply advances_trans; [done|]. apply IH. by eapply advances_ok.
Qed.

Lemma robust_ProcessPaddingFrame E : robust E ProcessPaddingFrame.
Proof.
  intros s Hs. unfold ProcessPaddingFrame. destruct (_ <=? _); cbn.
  - split; [|done]. destruct Hs as [[Hl Hp] Hb]. unfold advances, reader_ok. cbn. auto with lia.
  - pose proof (padding_loop_advances (Z.to_nat (BytesRemaining (rd s))) 1 (rd s) Hs).
    destruct (padding_loop _ _ _); cbn in *. done.
Qed.

(** * The dispatch loop *)

Lemma robust_frame_case {A} error (m : M PState A) visit :
  error <> QUIC_NO_ERROR -> robust described m -> robust reported (frame_case error m visit).
Proof.
  intros He Hm. unfold frame_case. apply robust_bind; [by apply robust_raise|].
  intros a. apply robust_callback.
Qed.

Lemma robust_illegal : robust reported illegal_frame_type.
Proof.
  unfold illegal_frame_type. apply robust_bind; [by apply robust_fail_reported|].
  intros _. apply robust_ret.
Qed.

Lemma robust_process_frame header t :
  0 <= packet_number_length header -> robust reported (process_frame header t).
Proof.
  intros Hh. unfold process_frame.
  apply robust_bind; [apply robust_gets|intros version].
  apply robust_bind; [apply robust_gets|intros incremental].
  repeat apply robust_if; try apply robust_illegal; try apply robust_callback;
    try (apply robust_frame_case; [done|]);
    auto using robust_ProcessStreamFrame, robust_ProcessRstStreamFrame,
      robust_ProcessConnectionCloseFrame, robust_ProcessGoAwayFrame,
      robust_ProcessWindowUpdateFrame, robust_ProcessBlockedFrame, robust_ProcessStopWaitingFrame.
  - apply robust_bind; [apply robust_raise; [apply robust_ProcessAckFrame|done]|].
    intros frame. destruct incremental; eauto with robust.
  - apply robust_bind; [apply robust_ProcessPaddingFrame|eauto with robust].
Qed.

Lemma done_reading r : buffer_ok r -> IsDoneReading r = (BytesRemaining r =? 0).
Proof.
  intros [[Hl Hp] _]. unfold IsDoneReading, BytesRemaining.
  destruct (Z.eqb_spec (len_ r) (pos_ r)), (Z.eqb_spec (len_ r - pos_ r) 0); done || lia.
Qed.

(** Reading the type byte always succeeds while bytes are left, and takes one. *)
Lemma read_type_byte s :
  buffer_ok (rd s) -> IsDoneReading (rd s) = false ->
  exists b r, reading "Unable to read frame type." (ReadBytes 1) s = (Some b, mkP (fr s) r) /\
    buffer_ok r /\ advances (rd s) r /\ BytesRemaining r = BytesRemaining (rd s) - 1.
Proof.
  intros Hs Hd. rewrite done_reading in Hd by done. apply Z.eqb_neq in Hd.
  assert (Hr : 1 <= BytesRemaining (rd s)).
  { destruct Hs as [[Hl Hp] _]. unfold BytesRemaining in *. lia. }
  assert (Ha : advances (rd s) (snd (ReadBytes 1 (rd s)))) by (apply safe_ReadBytes; [lia|apply Hs..]).
  unfold reading, or_fail, zoom, ReadBytes, CanRead in *. unfold BytesRemaining in Hr.
  rewrite (proj2 (Z.leb_le _ _)) in * by lia. cbn in *.
  eexists _, _. split; [done|]. split_and!; [by eapply advances_ok|done|].
  unfold BytesRemaining. cbn. lia.
Qed.

(** Fuel does not matter once it covers the bytes left, and then the loop is robust. *)
Lemma frames_loop_spec header n fuel s :
  0 <= packet_number_length header -> buffer_ok (rd s) ->
  BytesRemaining (rd s) <= Z.of_nat n -> (n <= fuel)%nat ->
  frames_loop fuel header s = frames_loop n header s /\
  advances (rd s) (rd (snd (frames_loop n header s))) /\
  (fst (frames_loop n header s) = None -> reported (fr (snd (frames_loop n header s)))).
Proof.
  intros Hh. revert fuel s. induction n as [|n IH]; intros fuel s Hs Hn Hf.
  - assert (Hd : IsDoneReading (rd s) = true).
    { rewrite done_reading by done. destruct Hs as [[Hl Hp] _]. unfold BytesRemaining in *.
      apply Z.eqb_eq. lia. }
    destruct fuel; cbn [frames_loop]; rewrite !gets_bind, Hd; cbn;
      (split_and!; [done|by apply advances_refl|done]).
  - destruct fuel as [|fuel]; [lia|]. cbn [frames_loop]. rewrite !gets_bind.
    destruct (IsDoneReading (rd s)) eqn:Hd.
    { cbn. split_and!; [done|by apply advances_refl|done]. }
    destruct (read_type_byte s Hs Hd) as (b & r & Hread & Hr & Ha & Hlen).
    unfold or_fail, mbind, M_bind. rewrite !Hread.
    destruct (robust_process_frame header (le_val b) Hh (mkP (fr s) r) Hr) as [H1 H2].
    destruct (process_frame header (le_val b) (mkP (fr s) r)) as [[[]|] s2]; cbn [fst snd] in *.
    + pose proof (advances_remaining _ _ Hr H1) as Hrem. cbn [rd] in Hrem, H1.
      destruct (IH fuel s2) as (I1 & I2 & I3); [by eapply advances_ok|lia|lia|].
      split_and!; [done| |done]. eapply advances_trans; [exact Ha|].
      eapply advances_trans; [exact H1|done].
    + split_and!; [done| |done]. eapply advances_trans; [exact Ha|exact H1].
    + split_and!; [done| |intros _; by apply H2]. eapply advances_trans; [exact Ha|exact H1].
Qed.

Lemma robust_ProcessFrameData header :
  0 <= packet_number_length header -> robust reported (ProcessFrameData header).
Proof.
  intros Hh. unfold ProcessFrameData. apply robust_bind; [apply robust_gets|intros finished].
  apply robust_bind; [by apply robust_fail_reported|intros _].
  apply robust_bind_gets. intros s Hs. apply frames_loop_spec with (fuel := Z.to_nat (BytesRemaining (rd s))); try done.
  destruct Hs as [[Hl Hp] _]. unfold BytesRemaining. lia.
Qed.

(** * Whole packets *)

(** [m] keeps the reader inside a buffer of bytes, and [E] holds on failure. *)
Definition sound (E : MyQuicFramer -> Prop) {A} (m : M PState A) : Prop := forall s,
  buffer_ok (rd s) ->
  buffer_ok (rd (snd (m s))) /\ (fst (m s) = None -> E (fr (snd (m s)))).

Lemma robust_sound E E' {A} (m : M PState A) :
  (forall f, E f -> E' f) -> robust E m -> sound E' m.
Proof. intros HE Hm s Hs. destruct (Hm s Hs). split; [by eapply advances_ok|auto]. Qed.

Lemma sound_bind E {A B} (m : M PState A) (k : A -> M PState B) :
  sound E m -> (forall a, sound E (k a)) -> sound E (m ≫= k).
Proof.
  intros Hm Hk s Hs. unfold mbind, M_bind. destruct (Hm s Hs) as [H1 H2].
  destruct (m s) as [[a|] s1]; cbn [fst snd] in *; [by apply Hk|by split; auto].
Qed.

(** Every result of [m] satisfies [P]. *)
Definition yields {S A} (P : A -> Prop) (m : M S A) : Prop := forall s a s',
  m s = (Some a, s') -> P a.

Lemma yields_ret {S A} (P : A -> Prop) a : P a -> yields (S := S) P (mret a).
Proof. by intros Ha s b s' [= <- <-]. Qed.

Lemma yields_bind {S A B} (Q : A -> Prop) (P : B -> Prop) (m : M S A) (k : A -> M S B) :
  yields Q m -> (forall a, Q a -> yields P (k a)) -> yields P (m ≫= k).
Proof.
  intros Hm Hk s b s' Hb. unfold mbind, M_bind in Hb.
  destruct (m s) as [[a|] s1] eqn:Ha; [|done]. by eapply Hk; [eapply Hm|].
Qed.

Lemma yields_any {S A} (m : M S A) : yields (fun _ => True) m.
Proof. done. Qed.

Lemma sound_bind_post E {A B} (P : A -> Prop) (m : M PState A) (k : A -> M PState B) :
  sound E m -> yields P m -> (forall a, P a -> sound E (k a)) -> sound E (m ≫= k).
Proof.
  intros Hm Hy Hk s Hs. unfold mbind, M_bind. destruct (Hm s Hs) as [H1 H2].
  destruct (m s) as [[a|] s1] eqn:Ha; cbn [fst snd] in *; [|by split; auto].
  apply Hk; [by eapply Hy|done].
Qed.

Lemma sound_ret E {A} (a : A) : sound E (mret a).
Proof. done. Qed.
Lemma sound_gets E {A} (g : PState -> A) : sound E (gets g).
Proof. done. Qed.
Lemma sound_on_fr E g : sound E (modify (on_fr g)).
Proof. done. Qed.
Lemma sound_fail {A} : sound (fun _ => True) (fail (A := A)).
Proof. intros s Hs. by split. Qed.
Lemma sound_callback E cb : sound E (callback cb).
Proof. intros s Hs. unfold callback. by destruct (cb _). Qed.
Lemma sound_or_fail (E : MyQuicFramer -> Prop) {A} (m : M PState A) g :
  sound (fun _ => True) m -> (forall f, E (g f)) -> sound E (or_fail m (on_fr g)).
Proof.
  intros Hm Hg s Hs. unfold or_fail. destruct (Hm s Hs) as [H1 _].
  destruct (m s) as [[a|] s1]; cbn in *; auto. done.
Qed.
Lemma sound_fail_if (E : MyQuicFramer -> Prop) b g :
  (forall f, E (g f)) -> sound E (fail_if b (on_fr g)).
Proof. intros Hg s Hs. unfold fail_if. destruct b; cbn; auto. done. Qed.
Lemma sound_if E {A} (b : bool) (m1 m2 : M PState A) : sound E m1 -> sound E m2 ->
  sound E (if b then m1 else m2).
Proof. by destruct b. Qed.

Definition length_ok (h : QuicPacketHeader) : Prop := 0 <= packet_number_length h.

Lemma ReadSequenceNumberLength_nonneg flags : 0 <= ReadSequenceNumberLength flags.
Proof. unfold ReadSequenceNumberLength. repeat case_match; done. Qed.

Lemma robust_ProcessPublicHeader : robust described ProcessPublicHeader.
Proof.
  unfold ProcessPublicHeader. change kDiversificationNonceSize with 32. robust_step.
  do 3 (apply robust_bind; [apply robust_if; robust_step|intros ?; robust_step]).
Qed.

Lemma yields_ProcessPublicHeader : yields length_ok ProcessPublicHeader.
Proof.
  unfold ProcessPublicHeader.
  repeat (eapply yields_bind; [apply yields_any|intros ? _; cbv zeta]).
  apply yields_ret. apply ReadSequenceNumberLength_nonneg.
Qed.

Lemma safe_ProcessAndCalculate len base :
  0 <= len -> safe_read (ProcessAndCalculatePacketNumber len base).
Proof. intros. unfold ProcessAndCalculatePacketNumber. safe_step. Qed.

Lemma robust_ProcessUnauthenticatedHeader header :
  length_ok header -> robust described (ProcessUnauthenticatedHeader header).
Proof.
  intros Hh. unfold ProcessUnauthenticatedHeader.
  assert (Hw : forall f, reported f -> described f) by by intros f [? _].
  apply robust_bind; [apply robust_gets|intros base].
  apply robust_bind.
  { eapply robust_weaken; [exact Hw|]. apply robust_raise; [|done].
    apply robust_reading; [done|by apply safe_ProcessAndCalculate]. }
  intros pn. apply robust_bind.
  { eapply robust_weaken; [exact Hw|]. apply robust_raise; [|done]. by apply robust_reject_if. }
  intros _. robust_step.
Qed.

Lemma yields_ProcessUnauthenticatedHeader header :
  length_ok header -> yields length_ok (ProcessUnauthenticatedHeader header).
Proof.
  intros Hh. unfold ProcessUnauthenticatedHeader.
  repeat (eapply yields_bind; [apply yields_any|intros ? _; cbv zeta]).
  by apply yields_ret.
Qed.

(** A description or an error code: what every rejected packet leaves. *)
Definition explained (f : MyQuicFramer) : Prop :=
  detailed_error_ f <> "" \/ error_ f <> QUIC_NO_ERROR.

Lemma reported_explained f : reported f -> explained f.
Proof. intros [? _]. by left. Qed.
Lemma described_explained f : described f -> explained f.
Proof. by left. Qed.

(** A label takes four bytes, so the fuel of the negotiation loop is enough. *)
Lemma version_label_loop_sound fuel versions s :
  buffer_ok (rd s) -> BytesRemaining (rd s) < Z.of_nat fuel ->
  let r := version_label_loop fuel versions s in
  buffer_ok (rd (snd r)) /\ (fst r = None -> reported (fr (snd r))).
Proof.
  revert versions s. induction fuel as [|fuel IH]; intros versions s Hs Hf.
  { pose proof (advances_remaining _ _ Hs (advances_refl _ Hs)). lia. }
  cbn [version_label_loop].
  assert (Hrob : robust reported (or_fail
    (reading "Unable to read supported version in negotiation." ReadTag)
    (on_fr (RaiseError QUIC_INVALID_VERSION_NEGOTIATION_PACKET)))).
  { apply robust_raise; [|done]. eauto with robust. }
  destruct (Hrob s Hs) as [H1 H2]. unfold mbind, M_bind, gets.
  destruct (or_fail _ _ s) as [[l|] s1] eqn:E; cbn [fst snd] in *.
  2:{ split; [by eapply advances_ok|intros _; by apply H2]. }
  assert (Hr : BytesRemaining (rd s1) < BytesRemaining (rd s)).
  { unfold reading, or_fail, zoom, ReadTag, ReadBytes, mbind, M_bind in E.
    destruct (CanRead 4 (rd s)) eqn:Hc; cbn in E; [injection E as <- <-|discriminate].
    unfold BytesRemaining. cbn. lia. }
  destruct (IsDoneReading (rd s1)).
  - cbn. split; [by eapply advances_ok|intros [=]].
  - apply IH; [by eapply advances_ok|lia].
Qed.

Lemma sound_ProcessVersionNegotiation header :
  sound explained (ProcessVersionNegotiationPacket header).
Proof.
  intros s Hs. unfold ProcessVersionNegotiationPacket. rewrite gets_bind.
  pose proof (version_label_loop_sound (S (Z.to_nat (BytesRemaining (rd s)))) [] s Hs) as Hl.
  cbv zeta in Hl. unfold mbind, M_bind.
  destruct Hl as [H1 H2].
  { destruct Hs as [[Hl Hp] _]. unfold BytesRemaining. lia. }
  destruct (version_label_loop _ _ _) as [[v|] s1]; cbn in *; [done|].
  split; [done|]. intros _. by apply reported_explained, H2.
Qed.

Lemma sound_ReadRemaining E : sound E (zoom rd set_rd ReadRemainingPayload).
Proof.
  intros s Hs. cbn. split; [|done]. destruct Hs as [[Hl Hp] Hb].
  unfold buffer_ok, reader_ok. cbn. auto with lia.
Qed.

Lemma sound_ProcessPublicReset header : sound explained (ProcessPublicResetPacket header).
Proof.
  unfold ProcessPublicResetPacket.
  apply sound_bind; [apply sound_gets|intros perspective].
  apply sound_bind; [apply sound_ReadRemaining|intros payload].
  destruct (ParseMessage _ _) as [reset|]; [|apply sound_fail_if; by right].
  apply sound_bind; [apply sound_fail_if; by right|intros _].
  destruct (GetUint64 _ _); [apply sound_on_fr|apply sound_fail_if; by right].
Qed.

(** Decryption writes bytes. *)
Hypothesis DecryptPacket_bytes : forall d version pn ad encrypted room plaintext,
  DecryptPacket d version pn ad encrypted room = Some plaintext -> bytes_ok plaintext.

Lemma sound_DecryptPayload header packet len :
  sound (fun _ => True) (DecryptPayload header packet len).
Proof.
  unfold DecryptPayload. apply sound_bind; [apply sound_ReadRemaining|intros encrypted].
  apply sound_bind; [apply sound_gets|intros f]. cbv zeta.
  destruct (decrypter_ f ≫= _); [apply sound_bind; [apply sound_on_fr|done]|].
  destruct (alternative_decrypter_ f); [|apply sound_fail].
  apply sound_bind; [apply sound_on_fr|intros _].
  destruct (if may_try_alternative _ _ then _ else _); [|apply sound_fail].
  repeat (apply sound_bind; [apply sound_on_fr|intros _]). apply sound_ret.
Qed.

Lemma yields_DecryptPayload header packet len :
  yields bytes_ok (DecryptPayload header packet len).
Proof.
  unfold DecryptPayload.
  eapply yields_bind; [apply yields_any|intros encrypted _].
  eapply yields_bind; [apply yields_any|intros f _]. cbv zeta.
  destruct (decrypter_ f ≫= _) eqn:Hd.
  - apply bind_Some in Hd as (d & _ & Hd). apply DecryptPacket_bytes in Hd.
    eapply yields_bind; [apply yields_any|intros _ _]. by apply yields_ret.
  - destruct (alternative_decrypter_ f); [|done]. eapply yields_bind; [apply yields_any|intros _ _].
    destruct (may_try_alternative _ _); [|done]. destruct (DecryptPacket _ _ _ _ _ _) eqn:Ha; [|done].
    apply DecryptPacket_bytes in Ha.
    do 2 (eapply yields_bind; [apply yields_any|intros _ _]). by apply yields_ret.
Qed.

Lemma yields_or_fail {S A} (P : A -> Prop) (m : M S A) h : yields P m -> yields P (or_fail m h).
Proof.
  intros Hm s a s' E. unfold or_fail in E. destruct (m s) as [[b|] s1] eqn:Em; [|done].
  injection E as <- <-. by eapply Hm.
Qed.

Lemma sound_ProcessDataPacket header packet len :
  length_ok header -> sound explained (ProcessDataPacket header packet len).
Proof.
  intros Hh. unfold ProcessDataPacket.
  eapply sound_bind_post; [eapply robust_sound, robust_ProcessUnauthenticatedHeader; [exact described_explained|done]
                          |by apply yields_ProcessUnauthenticatedHeader|].
  clear header Hh. intros header Hh.
  eapply sound_bind_post; [apply sound_or_fail; [apply sound_DecryptPayload|by right]
                          |apply yields_or_fail, yields_DecryptPayload|].
  intros decrypted Hd.
  apply sound_bind.
  { intros s Hs. cbn. split; [|done]. split; [|done]. unfold reader_ok. cbn. lia. }
  intros _. apply sound_bind; [apply sound_on_fr|intros _].
  apply sound_bind; [apply sound_callback|intros accepted].
  apply sound_if; [apply sound_ret|].
  apply sound_bind; [apply sound_fail_if; by right|intros _].
  apply sound_bind; [eapply robust_sound, robust_ProcessFrameData; [exact reported_explained|done]|intros _].
  apply sound_on_fr.
Qed.

Lemma sound_check_version E header : sound E (check_version header).
Proof.
  intros s Hs. unfold check_version. destruct (_ && _); [|done].
  by destruct (OnProtocolVersionMismatch _ _) as [[b v] w].
Qed.

Lemma ProcessPacket_explains packet f :
  bytes_ok packet -> fst (ProcessPacket packet f) = None ->
  explained (snd (ProcessPacket packet f)).
Proof.
  intros Hp. unfold ProcessPacket.
  match goal with |- context [?run (mkP f ?r)] => set (m := run); set (r0 := r) end.
  assert (Hm : sound explained m).
  { unfold m. apply sound_bind; [apply sound_on_fr|intros _].
    eapply sound_bind_post.
    { eapply robust_sound; [exact reported_explained|]. apply robust_raise; [|done].
      apply robust_ProcessPublicHeader. }
    { apply yields_or_fail, yields_ProcessPublicHeader. }
    intros header Hh. apply sound_bind; [apply sound_callback|intros b].
    apply sound_if; [apply sound_ret|].
    apply sound_bind; [apply sound_check_version|intros b'].
    apply sound_if; [apply sound_ret|].
    apply sound_bind; [by intros s Hs|intros _].
    apply sound_bind; [apply sound_gets|intros p].
    repeat apply sound_if; auto using sound_ProcessVersionNegotiation, sound_ProcessPublicReset,
      sound_ProcessDataPacket. }
  assert (Hr : buffer_ok (rd (mkP f r0))).
  { unfold buffer_ok, reader_ok. cbn. auto with lia. }
  destruct (Hm _ Hr) as [_ H2]. destruct (m (mkP f r0)) as [o s]. exact H2.
Qed.
End parsers.
