(* ===== verification/PacketRoundTrip.v ===== *)
(** From the sender's frames to the receiver's visitor: the payload
    [BuildDataPacket] writes, frame by frame, is taken apart by
    [ProcessFrameData] into the same frames in the same order; with ciphers that
    invert each other this extends to [EncryptPayload] and [ProcessPacket]. *)
From S2P Require Import Prelude.
From S2P Require Import DataReader.
From S2P Require Import DataWriter.
From S2P Require Import Encodings.
From S2P Require Import PacketNumbers.
From S2P Require Import PacketNumberQueue.
From S2P Require Import FramerTypes.
From S2P Require Import GoogleFrames.
From S2P Require Import StreamFrames.
From S2P Require Import AckFrames.
From S2P Require Import AckRoundTrip.
From S2P Require Import PacketHeader.
From S2P Require Import Framer.
From S2P Require Import FramerSafety.

Open Scope string_scope.
Open Scope list_scope.
Open Scope Z_scope.

Section payload.
Context {HM : HandshakeMessages} {VI : MyQuicFramerVisitorInterface} {CI : Ciphers}
  {VL : VersionLabels}.
Context (WriteUInt8AtOffset : Z -> Z -> M QuicDataWriter unit).

(** * The bytes of a frame *)

(** A padding frame of negative size fills the packet. *)
Definition padding_size (room : Z) (p : QuicPaddingFrame) : Z :=
  if num_padding_bytes p <? 0 then room else num_padding_bytes p.

(** The bytes after the type byte, for the frames whose serializer does not
    look at the room left. *)
Definition frame_body (e : Endianness) (f : MyQuicFramer) (header : QuicPacketHeader)
    (nolen : bool) (frame : QuicFrame) : list Z :=
  match frame with
  | STREAM_FRAME s => wire_stream e (transport_version (version_ f)) s nolen
  | STOP_WAITING_FRAME w => wire_stop_waiting e header w
  | RST_STREAM_FRAME r => wire_rst e (not_v41 f) r
  | CONNECTION_CLOSE_FRAME c => wire_close e c
  | GOAWAY_FRAME g => wire_goaway e g
  | WINDOW_UPDATE_FRAME w => wire_window_update e w
  | BLOCKED_FRAME b => wire_blocked e b
  | _ => []
  end.

(** The whole frame, in a packet with [room] bytes left. *)
Definition wire_frame (e : Endianness) (f : MyQuicFramer) (header : QuicPacketHeader) (room : Z)
    (nolen : bool) (frame : QuicFrame) : list Z :=
  let version := transport_version (version_ f) in
  match frame with
  | ACK_FRAME a => ack_type version a :: wire_ack e version (ack_num version room a) a
  | PADDING_FRAME p => replicate (Z.to_nat (padding_size room p)) 0
  | _ => type_byte_of f frame nolen :: frame_body e f header nolen frame
  end.

(** What a sender may put in a frame. *)
Definition frame_ok (f : MyQuicFramer) (header : QuicPacketHeader) (room : Z) (frame : QuicFrame)
    : Prop :=
  let version := transport_version (version_ f) in
  match frame with
  | STREAM_FRAME s => stream_frame_ok s
  | ACK_FRAME a =>
    ack_frame_ok version a /\ ack_fixed_size version a <= room < 2 ^ 31 /\
    (ack_num version room a = 0 -> num_ack_blocks (GetAckFrameInfo a) = 0)
  | STOP_WAITING_FRAME w =>
    0 <= least_unacked w <= packet_number header /\
    packet_number header - least_unacked w < 256 ^ packet_number_length header
  | RST_STREAM_FRAME r =>
    fits 32 (rst_stream_id r) /\ fits 64 (rst_byte_offset r) /\ fits 32 (rst_error_code r)
  | CONNECTION_CLOSE_FRAME c => fits 32 (cc_error_code c)
  | GOAWAY_FRAME g => fits 32 (ga_error_code g) /\ fits 32 (ga_last_good_stream_id g)
  | WINDOW_UPDATE_FRAME w => fits 32 (wu_stream_id w) /\ fits 64 (wu_byte_offset w)
  | BLOCKED_FRAME b => fits 32 (bl_stream_id b)
  | PADDING_FRAME p => num_padding_bytes p <> 0 /\ 0 < room
  | PING_FRAME | MTU_DISCOVERY_FRAME => True
  | OTHER_FRAME _ => False
  end.

Definition is_padding (frame : QuicFrame) : bool :=
  match frame with PADDING_FRAME _ => true | _ => false end.

(** * What the receiver's visitor is told *)

(** A callback the visitor accepts. *)
Definition offer (cb : Visitor -> bool * Visitor) (v : Visitor) : option Visitor :=
  let '(b, v) := cb v in if b then Some v else None.

Definition deliver (version room : Z) (frame : QuicFrame) : Visitor -> option Visitor :=
  match frame with
  | STREAM_FRAME s => offer (OnStreamFrame s)
  | ACK_FRAME a =>
    ack_feed (largest_acked a) (received_delay (ack_delay_time a))
      (ack_ranges (ack_num version room a) a)
  | STOP_WAITING_FRAME w => offer (OnStopWaitingFrame w)
  | RST_STREAM_FRAME r =>
    offer (OnRstStreamFrame (mkRst (rst_stream_id r)
      (clamp_code QUIC_STREAM_LAST_ERROR (rst_error_code r)) (rst_byte_offset r)))
  | CONNECTION_CLOSE_FRAME c =>
    offer (OnConnectionCloseFrame (mkClose (clamp_code QUIC_LAST_ERROR (cc_error_code c))
      (TruncateErrorString (cc_error_details c))))
  | GOAWAY_FRAME g =>
    offer (OnGoAwayFrame (mkGoAway (clamp_code QUIC_LAST_ERROR (ga_error_code g))
      (ga_last_good_stream_id g) (TruncateErrorString (ga_reason_phrase g))))
  | WINDOW_UPDATE_FRAME w => offer (OnWindowUpdateFrame w)
  | BLOCKED_FRAME b => offer (OnBlockedFrame b)
  | PADDING_FRAME p => offer (OnPaddingFrame (mkPadding (padding_size room p)))
  | PING_FRAME | MTU_DISCOVERY_FRAME => offer OnPingFrame
  | OTHER_FRAME _ => fun _ => None
  end.

(** * Type bytes and dispatch *)

Lemma stream_type_dispatch (v41 : bool) fin nolen off_len id_len :
  off_len ∈ (if v41 then [0; 2; 4; 8] else [0; 2; 3; 4; 5; 6; 7; 8]) -> 1 <= id_len <= 4 ->
  let t := if v41 then stream_type_v41 fin nolen off_len id_len
           else stream_type_pre40 fin nolen off_len id_len in
  fits 8 t /\ t <> 0 /\ Z.land t kQuicFrameTypeSpecialMask <> 0 /\
  (if v41 then Z.land t kQuicFrameTypeStreamMask = kQuicFrameTypeStreamMask
   else Z.land t kQuicFrameTypeStreamMask_Pre40 <> 0).
Proof.
  intros Ho Hi. assert (Hi' : id_len ∈ [1; 2; 3; 4])
    by (rewrite !elem_of_cons, elem_of_nil; lia). clear Hi.
  rewrite !elem_of_cons, elem_of_nil in Hi'.
  destruct v41; rewrite !elem_of_cons, elem_of_nil in Ho;
    destruct_or?; subst; try done; destruct fin, nolen; vm_compute; done.
Qed.

Lemma type_byte_stream f s nolen :
  stream_frame_ok s ->
  let t := type_byte_of f (STREAM_FRAME s) nolen in
  fits 8 t /\ t <> 0 /\ (Z.land t kQuicFrameTypeSpecialMask =? 0) = false /\
  is_stream_type (transport_version (version_ f)) t = true.
Proof.
  intros (Hid & Hoff & _). destruct (GetStreamIdSize_spec _ Hid) as (Hi & _ & _).
  destruct (GetStreamOffsetSize_spec (transport_version (version_ f)) _ Hoff) as [_ Ho].
  cbn [type_byte_of]. unfold not_v41, is_stream_type.
  destruct (Z.eqb_spec (transport_version (version_ f)) QUIC_VERSION_41) as [->|Hv]; cbn [negb] in *.
  - destruct (stream_type_dispatch true (sf_fin s) nolen _ _ Ho Hi) as (H1 & H2 & H3 & H4).
    cbv beta iota zeta in *. split_and!; [done|done|by apply Z.eqb_neq|].
    rewrite H4. done.
  - destruct (stream_type_dispatch false (sf_fin s) nolen _ _ Ho Hi) as (H1 & H2 & H3 & H4).
    cbv beta iota zeta in *. split_and!; [done|done|by apply Z.eqb_neq|].
    rewrite (proj2 (Z.eqb_neq _ _) H4). done.
Qed.

Lemma type_byte_ack version a :
  let t := ack_type version a in
  fits 8 t /\ t <> 0 /\ (Z.land t kQuicFrameTypeSpecialMask =? 0) = false /\
  is_stream_type version t = false /\ is_ack_type version t = true.
Proof.
  unfold ack_type, ack_lengths, is_stream_type, is_ack_type. cbv zeta.
  pose proof (GetMinPacketNumberLength_cases version (largest_acked a)) as Ha.
  pose proof (GetMinPacketNumberLength_cases version (max_block_length (GetAckFrameInfo a))) as Hb.
  rewrite !elem_of_cons, elem_of_nil in Ha. rewrite !elem_of_cons, elem_of_nil in Hb.
  destruct (Z.eqb_spec version QUIC_VERSION_41) as [->|Hv]; cbn [negb andb orb] in *.
  - destruct (num_ack_blocks _ =? 0), Ha as [->|[->|[->|[->|[]]]]], Hb as [->|[->|[->|[->|[]]]]];
      vm_compute; done.
  - destruct (QUIC_VERSION_41 <=? version);
    destruct (num_ack_blocks _ =? 0), Ha as [->|[->|[->|[->|[]]]]], Hb as [->|[->|[->|[->|[]]]]];
      vm_compute; done.
Qed.

Lemma type_byte_fits f frame nolen :
  (forall s, frame = STREAM_FRAME s -> stream_frame_ok s) ->
  (forall t, frame <> OTHER_FRAME t) -> fits 8 (type_byte_of f frame nolen).
Proof.
  intros Hs Ho. destruct frame; try done; [by apply type_byte_stream, Hs|].
  by destruct (Ho type).
Qed.

Lemma AppendTypeByte_writes e f frame nolen :
  is_ack frame = false -> fits 8 (type_byte_of f frame nolen) ->
  writes e (mkW f) (AppendTypeByte frame nolen) [type_byte_of f frame nolen] tt.
Proof.
  intros Ha Hf out tl.
  pose proof (writes_write e f _ _ _ (WriteUInt8_writes e _ Hf) out tl) as Hw.
  by destruct frame.
Qed.

(** * Writing *)

Section writing.
Context (e : Endianness) (f : MyQuicFramer) (header : QuicPacketHeader).
Context (Hlen : valid_length (packet_number_length header))
  (Hpn : fits 64 (packet_number header)) (Hprod : data_producer_ f = None)
  (Hinc : use_incremental_ack_processing_ f = true)
  (Hver : QUIC_VERSION_37 < transport_version (version_ f)).

Lemma append_body_writes nolen frame room :
  frame_ok f header room frame -> is_padding frame = false -> is_ack frame = false ->
  writes e (mkW f) (append_frame WriteUInt8AtOffset header frame nolen)
    (frame_body e f header nolen frame) tt.
Proof.
  destruct frame; intros Hok Hp Ha; try done; cbn [append_frame frame_body].
  - apply AppendRstStreamFrame_writes.
  - apply AppendConnectionCloseFrame_writes.
  - apply AppendGoAwayFrame_writes.
  - apply AppendWindowUpdateFrame_writes.
  - apply AppendBlockedFrame_writes.
  - destruct Hok. by apply AppendStopWaitingFrame_writes.
  - apply writes_ret.
  - by apply AppendStreamFrame_writes.
  - apply writes_ret.
Qed.

(** The bytes one round of the loop writes. *)
Lemma append_one_bytes nolen frame out tl :
  let room := Z.of_nat (length tl) in
  let bs := wire_frame e f header room nolen frame in
  frame_ok f header room frame -> (length bs <= length tl)%nat ->
  (_ ← AppendTypeByte frame nolen; append_frame WriteUInt8AtOffset header frame nolen)
    (mkW f (writer_at e out tl)) =
  (Some tt, mkW f (writer_at e (out ++ bs) (drop (length bs) tl))).
Proof.
  intros room bs Hok Hfit.
  assert (Hgen : forall m bs', writes e (mkW f) m bs' tt -> bs' = bs ->
    m (mkW f (writer_at e out tl)) =
    (Some tt, mkW f (writer_at e (out ++ bs) (drop (length bs) tl)))).
  { intros m bs' Hw ->. specialize (Hw out tl). by rewrite decide_True in Hw. }
  assert (Htype : fits 8 (type_byte_of f frame nolen)).
  { apply type_byte_fits; [|by intros t ->]. by intros s ->. }
  assert (Hsimple : is_padding frame = false -> is_ack frame = false ->
    (_ ← AppendTypeByte frame nolen; append_frame WriteUInt8AtOffset header frame nolen)
      (mkW f (writer_at e out tl)) =
    (Some tt, mkW f (writer_at e (out ++ bs) (drop (length bs) tl)))).
  { intros Hp Ha. apply (Hgen _ ([type_byte_of f frame nolen] ++ frame_body e f header nolen frame)).
    - eapply writes_bind; [|by eapply append_body_writes].
      by apply AppendTypeByte_writes.
    - by destruct frame. }
  destruct frame; try (by apply Hsimple).
  - destruct f0 as [n]. destruct Hok as [Hn Hroom]. cbn [num_padding_bytes] in *.
    subst bs. cbn [wire_frame] in *. unfold padding_size in *. cbn [num_padding_bytes] in *.
    destruct (Z.ltb_spec n 0).
    + unfold mbind, M_bind. pose proof (writes_write e f _ _ _ (WriteUInt8_writes e 0 ltac:(done)) out tl) as Hw.
      rewrite decide_True in Hw by (unfold room in Hroom; cbn; lia). cbn [AppendTypeByte type_byte_of frame_type_code].
      rewrite Hw. cbn [append_frame]. unfold AppendPaddingFrame. cbn [wfr num_padding_bytes].
      rewrite (proj2 (Z.leb_gt _ _)), (proj2 (Z.eqb_neq _ _)), (proj2 (Z.ltb_lt _ _)) by lia.
      unfold write, zoom. cbn [wr]. rewrite WritePadding_fills. cbn [set_wr wfr].
      unfold room. rewrite Nat2Z.id, length_replicate, drop_all.
      destruct tl as [|b tl]; [done|]. cbn [length drop replicate].
      rewrite <- app_assoc. done.
    + apply (Hgen _ ([0] ++ replicate (Z.to_nat (n - 1)) 0)).
      * eapply writes_bind; [by apply (AppendTypeByte_writes e f (PADDING_FRAME (mkPadding n)))|].
        apply AppendPaddingFrame_writes; [done|lia].
      * replace (Z.to_nat n) with (S (Z.to_nat (n - 1))) by lia. done.
  - destruct Hok as (Ha & Hr & _). by apply AppendAck_bytes.
Qed.
End writing.

(** * Reading *)

(** One round of the receiver's loop. *)
Definition frame_step (header : QuicPacketHeader) : M PState bool :=
  frame_type ← or_fail (reading "Unable to read frame type." (ReadBytes 1))
                 (on_fr (RaiseError QUIC_INVALID_FRAME_DATA));
  process_frame header (le_val frame_type).

Lemma offer_Some cb v v' : offer cb v = Some v' -> cb v = (true, v').
Proof. unfold offer. destruct (cb v) as [[] w]; congruence. Qed.

Lemma frame_case_reads {A} e f error (m : M PState A) visit body a v' :
  reads e (mkP f) m body a -> visit a (visitor_ f) = (true, v') ->
  reads2 e (mkP f) (mkP (set_visitor v' f)) (frame_case error m visit) body true.
Proof.
  intros Hm Hv. unfold frame_case. eapply reads2_bind_nil; [by apply reads2_or_fail|].
  by apply reads_callback.
Qed.

Section reading.
Context (e : Endianness) (f f' : MyQuicFramer) (header header' : QuicPacketHeader).
Context (Hver : version_ f' = version_ f)
  (Hinc : use_incremental_ack_processing_ f' = true)
  (Hnew : QUIC_VERSION_37 < transport_version (version_ f))
  (Hlen : valid_length (packet_number_length header))
  (Hlen' : packet_number_length header' = packet_number_length header)
  (Hpn' : packet_number header' = packet_number header).

Lemma frame_step_type t body rest pre :
  fits 8 t ->
  frame_step header' (mkP f' (reader_at e pre ((t :: body) ++ rest))) =
  process_frame header' t (mkP f' (reader_at e (pre ++ [t]) (body ++ rest))).
Proof.
  intros Ht. unfold frame_step.
  pose proof (reads2_or_fail e _ _ _ (on_fr (RaiseError QUIC_INVALID_FRAME_DATA)) _ _
    (reads_reading e f' "Unable to read frame type." _ _ _ (ReadBytes_reads' e 1 [t] eq_refl)))
    as [Hr _].
  unfold mbind at 1, M_bind at 1. change ((t :: body) ++ rest) with ([t] ++ body ++ rest).
  rewrite Hr. cbn [le_val]. do 2 f_equal. lia.
Qed.

Lemma process_frame_special t :
  (Z.land t kQuicFrameTypeSpecialMask =? 0) = false ->
  forall s, process_frame header' t s =
  (if is_stream_type (transport_version (version_ (fr s))) t then
     frame_case QUIC_INVALID_STREAM_DATA (ProcessStreamFrame t) OnStreamFrame
   else if is_ack_type (transport_version (version_ (fr s))) t then
     frame ← or_fail (ProcessAckFrame t emptyAckFrame) (on_fr (RaiseError QUIC_INVALID_ACK_DATA));
     (if use_incremental_ack_processing_ (fr s) then mret true else callback (OnAckFrame frame))
   else illegal_frame_type) s.
Proof. intros Ht s. unfold process_frame. rewrite !gets_bind, Ht. done. Qed.

(** A received frame that is neither special nor padding. *)
Lemma process_simple (P : M PState bool) t body rest pre v' :
  fits 8 t ->
  (forall s, process_frame header' t s = P s) ->
  reads2 e (mkP f') (mkP (set_visitor v' f')) P body true ->
  frame_step header' (mkP f' (reader_at e pre ((t :: body) ++ rest))) =
  (Some true, mkP (set_visitor v' f') (reader_at e (pre ++ t :: body) rest)).
Proof.
  intros Ht Hp [Hr _]. rewrite frame_step_type, Hp, Hr by done.
  by rewrite <- app_assoc.
Qed.

Lemma type_byte_version frame nolen : type_byte_of f' frame nolen = type_byte_of f frame nolen.
Proof. destruct frame; try done. cbn. unfold not_v41. by rewrite Hver. Qed.

Lemma process_stream s nolen rest pre v' :
  stream_frame_ok s -> (nolen = true -> rest = []) ->
  offer (OnStreamFrame s) (visitor_ f') = Some v' ->
  let bs := wire_frame e f header 0 nolen (STREAM_FRAME s) in
  frame_step header' (mkP f' (reader_at e pre (bs ++ rest))) =
  (Some true, mkP (set_visitor v' f') (reader_at e (pre ++ bs) rest)).
Proof.
  intros Hok Hrest Hv. apply offer_Some in Hv. cbn [wire_frame frame_body]. cbv zeta.
  destruct (type_byte_stream f s nolen Hok) as (Ht & _ & Hs & Hd).
  set (t := type_byte_of f (STREAM_FRAME s) nolen) in *.
  assert (Hp : forall s', fr s' = f' -> process_frame header' t s' =
    frame_case QUIC_INVALID_STREAM_DATA (ProcessStreamFrame t) OnStreamFrame s').
  { intros s' Hs'. rewrite process_frame_special by done. by rewrite Hs', Hver, Hd. }
  rewrite frame_step_type, Hp by done. destruct nolen.
  - rewrite (Hrest eq_refl), app_nil_r. unfold frame_case, or_fail, mbind, M_bind.
    unfold t. rewrite <- type_byte_version, <- Hver. rewrite ProcessStreamFrame_last by done.
    unfold callback. cbn [fr]. rewrite Hv. by rewrite <- app_assoc.
  - destruct (frame_case_reads e f' QUIC_INVALID_STREAM_DATA (ProcessStreamFrame t) OnStreamFrame
      (wire_stream e (transport_version (version_ f)) s false) s v') as [Hr _]; [|done|].
    + unfold t. rewrite <- type_byte_version, <- Hver. by apply ProcessStreamFrame_reads.
    + rewrite Hr. by rewrite <- app_assoc.
Qed.

Lemma process_ack a room rest pre v' :
  let version := transport_version (version_ f) in
  ack_frame_ok version a -> ack_fixed_size version a <= room < 2 ^ 31 ->
  (ack_num version room a = 0 -> num_ack_blocks (GetAckFrameInfo a) = 0) ->
  deliver version room (ACK_FRAME a) (visitor_ f') = Some v' ->
  let bs := wire_frame e f header room false (ACK_FRAME a) in
  frame_step header' (mkP f' (reader_at e pre (bs ++ rest))) =
  (Some true, mkP (set_visitor v' f') (reader_at e (pre ++ bs) rest)).
Proof.
  intros version Hok Hroom Hnum Hv bs. subst bs. cbn [wire_frame deliver] in *.
  destruct (type_byte_ack version a) as (Ht & _ & Hs & Hns & Ha).
  pose proof (ack_num_spec version room a Hok Hroom) as Hn. cbv zeta in Hn.
  destruct (ack_lengths version a) as [la lb] eqn:El. fold version.
  destruct (ProcessAck_bytes e f' a (ack_num version room a) v') as [Hr _];
    rewrite ?Hver; fold version; try done; try lia.
  rewrite frame_step_type by done. rewrite process_frame_special by done. cbn [fr].
  rewrite Hver. fold version. rewrite Hns, Ha, Hinc. rewrite Hver in Hr. fold version in Hr.
  unfold or_fail, mbind, M_bind. rewrite Hr. by rewrite <- app_assoc.
Qed.

Lemma process_padding p room rest pre v' :
  num_padding_bytes p <> 0 -> 0 < room -> no_zero_ahead rest ->
  deliver (transport_version (version_ f)) room (PADDING_FRAME p) (visitor_ f') = Some v' ->
  let bs := wire_frame e f header room false (PADDING_FRAME p) in
  frame_step header' (mkP f' (reader_at e pre (bs ++ rest))) =
  (Some true, mkP (set_visitor v' f') (reader_at e (pre ++ bs) rest)).
Proof.
  intros Hn Hroom Hz Hv bs. subst bs. cbn [wire_frame deliver] in *. apply offer_Some in Hv.
  set (n := padding_size room p) in *.
  assert (Hpos : 0 < n) by (unfold n, padding_size; case_match; zbool; lia).
  replace (Z.to_nat n) with (S (Z.to_nat (n - 1))) by lia. cbn [replicate].
  rewrite frame_step_type by done. unfold process_frame. rewrite !gets_bind.
  change (Z.land 0 kQuicFrameTypeSpecialMask) with 0. cbn [Z.eqb negb].
  unfold mbind, M_bind. rewrite ProcessPaddingFrame_run by (rewrite ?Hver; done).
  replace (Z.of_nat (Z.to_nat (n - 1)) + 1) with n by lia.
  unfold callback. cbn [fr]. rewrite Hv. cbn. by rewrite <- app_assoc.
Qed.

(** Every frame of a well-formed packet is handed over as it was sent. *)
Lemma process_one room nolen frame rest pre v' :
  frame_ok f header room frame -> (nolen = true -> rest = []) ->
  (is_padding frame = true -> no_zero_ahead rest) ->
  deliver (transport_version (version_ f)) room frame (visitor_ f') = Some v' ->
  let bs := wire_frame e f header room nolen frame in
  frame_step header' (mkP f' (reader_at e pre (bs ++ rest))) =
  (Some true, mkP (set_visitor v' f') (reader_at e (pre ++ bs) rest)).
Proof.
  intros Hok Hrest Hz Hv.
  destruct frame; cbn [frame_ok deliver] in *;
    [destruct Hok; by apply process_padding; auto| | | | | | | |
     by apply process_stream|destruct Hok as (? & ? & ?); by apply process_ack|
     |done];
    apply offer_Some in Hv; cbn [wire_frame frame_body type_byte_of frame_type_code]; cbv zeta;
    (eapply process_simple; [done|by intros s; unfold process_frame; rewrite !gets_bind|]);
    try (eapply frame_case_reads; [|exact Hv]).
  - destruct Hok as (? & ? & ?). replace (not_v41 f) with (not_v41 f') by (unfold not_v41; by rewrite Hver).
    by apply ProcessRstStreamFrame_reads.
  - by apply ProcessConnectionCloseFrame_reads.
  - destruct Hok. by apply ProcessGoAwayFrame_reads.
  - destruct Hok. by apply ProcessWindowUpdateFrame_reads.
  - by apply ProcessBlockedFrame_reads.
  - destruct Hok. unfold wire_stop_waiting. rewrite <- Hlen', <- Hpn' in *.
    by apply (ProcessStopWaitingFrame_reads e f' header').
  - by apply reads_callback.
  - by apply reads_callback.
Qed.
End reading.

(** * All the frames of a packet *)

Definition is_nil {A} (l : list A) : bool := match l with [] => true | _ => false end.

(** The payload written into [room] bytes. *)
Fixpoint payload (e : Endianness) (f : MyQuicFramer) (header : QuicPacketHeader) (room : Z)
    (frames : list QuicFrame) : list Z :=
  match frames with
  | [] => []
  | frame :: frames =>
    let bs := wire_frame e f header room (is_nil frames) frame in
    bs ++ payload e f header (room - Z.of_nat (length bs)) frames
  end.

(** The visitor after all of them, if it accepts each. *)
Fixpoint deliver_all (e : Endianness) (f : MyQuicFramer) (header : QuicPacketHeader) (room : Z)
    (frames : list QuicFrame) (v : Visitor) : option Visitor :=
  match frames with
  | [] => Some v
  | frame :: frames =>
    v ← deliver (transport_version (version_ f)) room frame v;
    deliver_all e f header
      (room - Z.of_nat (length (wire_frame e f header room (is_nil frames) frame))) frames v
  end.

(** Each frame is well formed and fits in the room left to it; two padding
    frames in a row would be one to the receiver. *)
Fixpoint frames_ok (e : Endianness) (f : MyQuicFramer) (header : QuicPacketHeader) (room : Z)
    (frames : list QuicFrame) : Prop :=
  match frames with
  | [] => True
  | frame :: frames =>
    let n := Z.of_nat (length (wire_frame e f header room (is_nil frames) frame)) in
    frame_ok f header room frame /\ n <= room /\
    (is_padding frame = true -> match frames with g :: _ => is_padding g = false | [] => True end) /\
    frames_ok e f header (room - n) frames
  end.

Lemma length_payload e f header room frames :
  0 <= room -> frames_ok e f header room frames ->
  Z.of_nat (length (payload e f header room frames)) <= room.
Proof.
  revert room. induction frames as [|frame frames IH]; intros room Hr Hok; [done|].
  destruct Hok as (_ & Hn & _ & Hok). cbn [payload]. rewrite length_app.
  apply IH in Hok; lia.
Qed.

Lemma append_frames_bytes e f header frames out tl :
  valid_length (packet_number_length header) -> fits 64 (packet_number header) ->
  data_producer_ f = None -> use_incremental_ack_processing_ f = true ->
  QUIC_VERSION_37 < transport_version (version_ f) ->
  let room := Z.of_nat (length tl) in
  frames_ok e f header room frames ->
  append_frames WriteUInt8AtOffset header frames (mkW f (writer_at e out tl)) =
  (Some tt, mkW f (writer_at e (out ++ payload e f header room frames)
                     (drop (length (payload e f header room frames)) tl))).
Proof.
  intros Hl Hp Hd Hi Hv. revert out tl. induction frames as [|frame frames IH]; intros out tl room Hok.
  { cbn. by rewrite app_nil_r. }
  assert (Htl : room = Z.of_nat (length tl)) by done.
  cbn [append_frames payload frames_ok] in *. destruct Hok as (Hf & Hn & _ & Hok).
  change (match frames with [] => true | _ :: _ => false end) with (is_nil frames).
  set (bs := wire_frame e f header room (is_nil frames) frame) in *.
  pose proof (append_one_bytes e f header Hl Hp Hd Hi Hv (is_nil frames) frame out tl Hf) as Hone.
  fold room bs in Hone. specialize (Hone ltac:(lia)).
  unfold mbind, M_bind in *.
  destruct (AppendTypeByte frame (is_nil frames) _) as [[u|] s1]; [|done].
  rewrite Hone.
  assert (Hroom : Z.of_nat (length (drop (length bs) tl)) = room - Z.of_nat (length bs))
    by (rewrite length_drop; unfold room in *; lia).
  rewrite IH by (rewrite Hroom; done). rewrite Hroom.
  by rewrite <- app_assoc, drop_drop, length_app.
Qed.

Lemma wire_frame_head e f header room nolen frame rest :
  frame_ok f header room frame -> is_padding frame = false ->
  no_zero_ahead (wire_frame e f header room nolen frame ++ rest).
Proof.
  destruct frame; intros Hok Hp; try done.
  - by apply (type_byte_stream f f0 nolen).
  - by apply (type_byte_ack (transport_version (version_ f)) f0).
Qed.

Lemma wire_frame_nonempty e f header room nolen frame :
  frame_ok f header room frame -> (1 <= length (wire_frame e f header room nolen frame))%nat.
Proof.
  destruct frame; intros Hok; cbn; try lia. destruct Hok as [Hn Hr].
  rewrite length_replicate. unfold padding_size. case_match; zbool; lia.
Qed.

Lemma frames_loop_step fuel header s :
  frames_loop (S fuel) header s =
  if IsDoneReading (rd s) then (Some tt, s)
  else match frame_step header s with
       | (Some true, s1) => frames_loop fuel header s1
       | (Some false, s1) => (Some tt, s1)
       | (None, s1) => (None, s1)
       end.
Proof.
  cbn [frames_loop]. rewrite gets_bind. destruct (IsDoneReading (rd s)); [done|].
  unfold frame_step, mbind, M_bind. destruct (or_fail _ _ s) as [[t|] s1]; [|done].
  by destruct (process_frame _ _ _) as [[[]|] s2].
Qed.

Lemma frames_loop_delivers e f f' header header' frames room pre fuel v' :
  version_ f' = version_ f -> use_incremental_ack_processing_ f' = true ->
  QUIC_VERSION_37 < transport_version (version_ f) ->
  valid_length (packet_number_length header) ->
  packet_number_length header' = packet_number_length header ->
  packet_number header' = packet_number header ->
  frames_ok e f header room frames ->
  deliver_all e f header room frames (visitor_ f') = Some v' ->
  let bs := payload e f header room frames in
  (length bs <= fuel)%nat ->
  frames_loop fuel header' (mkP f' (reader_at e pre bs)) =
  (Some tt, mkP (set_visitor v' f') (reader_at e (pre ++ bs) [])).
Proof.
  intros Hv Hi Hnew Hl Hl' Hp'. revert f' room pre fuel Hv Hi.
  induction frames as [|frame frames IH]; intros f' room pre fuel Hv Hi Hok Hdel bs Hfuel.
  { injection Hdel as <-. subst bs. cbn. rewrite app_nil_r, set_visitor_id.
    assert (Hd : IsDoneReading (reader_at e pre []) = true).
    { unfold IsDoneReading. cbn. by rewrite app_nil_r, Z.eqb_refl. }
    destruct fuel; cbn [frames_loop]; rewrite gets_bind; cbn [rd]; by rewrite Hd. }
  cbn [payload frames_ok deliver_all] in *. destruct Hok as (Hf & Hn & Hpad & Hok).
  apply bind_Some in Hdel as (v & Hone & Hdel).
  set (w := wire_frame e f header room (is_nil frames) frame) in *.
  set (rest := payload e f header (room - Z.of_nat (length w)) frames) in *.
  pose proof (wire_frame_nonempty e f header room (is_nil frames) frame Hf) as Hw. fold w in Hw.
  assert (Hd : IsDoneReading (reader_at e pre bs) = false).
  { unfold IsDoneReading, bs. cbn. rewrite !length_app. apply Z.eqb_neq. lia. }
  destruct fuel as [|fuel]; [unfold bs in Hfuel; rewrite length_app in Hfuel; lia|].
  rewrite frames_loop_step. cbn [rd]. rewrite Hd. unfold bs.
  pose proof (process_one e f f' header header' Hv Hi Hnew Hl Hl' Hp' room (is_nil frames) frame
    rest pre v Hf) as Hstep.
  fold w in Hstep. rewrite Hstep; [|by destruct frames| |done].
  2:{ intros Hpd. specialize (Hpad Hpd). unfold rest. destruct frames as [|g frames]; [done|].
      apply wire_frame_head; [apply Hok|done]. }
  rewrite (IH (set_visitor v f') (room - Z.of_nat (length w))); try done.
  - fold rest. by rewrite <- app_assoc.
  - fold rest. unfold bs in Hfuel. rewrite length_app in Hfuel. lia.
Qed.

(** * Whole packets *)

(** The unencrypted packet: header, packet number, payload. *)
Definition wire_header (e : Endianness) (f : MyQuicFramer) (header : QuicPacketHeader) : list Z :=
  wire_public_header f header ++
  wire_uint e (Z.to_nat (packet_number_length header)) (packet_number header).

Lemma header_ok_length f header : header_ok f header -> valid_length (packet_number_length header).
Proof.
  intros (_ & Hl & _). unfold valid_length. rewrite !elem_of_cons in *. tauto.
Qed.

(** The header is as long as [GetStartOfEncryptedData] says. *)
Lemma length_wire_header e f header :
  header_ok f header -> transport_version (version_ f) <= QUIC_VERSION_43 ->
  Z.of_nat (length (wire_header e f header)) =
  GetStartOfEncryptedData (transport_version (version_ f)) (connection_id_length header)
    (version_flag header) (match nonce header with Some _ => true | None => false end)
    (packet_number_length header).
Proof.
  intros Hok Hv. pose proof (valid_length_bounds _ (header_ok_length _ _ Hok)) as Hl.
  destruct Hok as (_ & _ & _ & _ & Hc & _ & Hn).
  unfold wire_header, wire_public_header, GetStartOfEncryptedData, GetPacketHeaderSize.
  rewrite (proj2 (Z.ltb_ge _ _)) by done. rewrite !length_app, length_wire_uint. cbn [length].
  rewrite !length_app. unfold kPublicFlagsSize, kQuicVersionSize.
  assert (Hlen : Z.of_nat (length (match nonce header with Some n => n | None => [] end)) =
                 if match nonce header with Some _ => true | None => false end
                 then kDiversificationNonceSize else 0).
  { destruct (nonce header) as [n|]; [by apply Hn|done]. }
  destruct Hc as [-> | ->], (version_flag header); cbn [Z.eqb]; rewrite ?length_be_bytes; cbn [length]; lia.
Qed.

Lemma BuildDataPacket_bytes f header frames buffer :
  let e := endianness f in
  let n := Z.of_nat (length (wire_header e f header)) in
  let room := Z.of_nat (length buffer) - n in
  header_ok f header -> data_producer_ f = None -> use_incremental_ack_processing_ f = true ->
  QUIC_VERSION_37 < transport_version (version_ f) -> 0 <= room ->
  frames_ok e f header room frames ->
  BuildDataPacket WriteUInt8AtOffset header frames buffer f =
  (Some (wire_header e f header ++ payload e f header room frames),
   set_last_serialized_connection_id (connection_id header) f).
Proof.
  intros e n room Hok Hd Hi Hv Hroom Hfr. unfold BuildDataPacket, in_buffer. fold e.
  change (make_writer buffer e) with (writer_at e [] buffer).
  pose proof (AppendPacketHeader_writes e f header Hok [] buffer) as Hw.
  fold (wire_header e f header) in Hw. rewrite decide_True in Hw by lia.
  unfold mbind, M_bind. rewrite Hw. cbn [app].
  set (f1 := set_last_serialized_connection_id (connection_id header) f).
  assert (Hr : Z.of_nat (length (drop (length (wire_header e f header)) buffer)) = room)
    by (rewrite length_drop; lia).
  pose proof (append_frames_bytes e f1 header frames (wire_header e f header)
    (drop (length (wire_header e f header)) buffer) (header_ok_length _ _ Hok)) as Hb.
  destruct Hok as (_ & _ & _ & Hpn & _). cbv zeta in Hb. rewrite Hr in Hb.
  assert (Hsame : forall rm fs, payload e f1 header rm fs = payload e f header rm fs).
  { intros rm fs. revert rm. induction fs as [|g fs IH]; intros rm; [done|].
    cbn [payload]. rewrite IH. by destruct g. }
  rewrite Hsame in Hb. rewrite Hb; try done.
  - cbn [wr wfr]. do 2 f_equal. unfold written, writer_at. cbn [length_ buffer_].
    by rewrite Nat2Z.id, take_app_length.
  - clear Hb. revert Hfr. clear -Hsame. generalize room. induction frames as [|g fs IH]; [done|].
    intros rm (H1 & H2 & H3 & H4). split_and!; [by destruct g|by destruct g|done|].
    apply IH. by destruct g.
Qed.

(** What the receiver's visitor sees of one packet, in order. *)
Definition packet_events (e : Endianness) (f f' : MyQuicFramer) (header : QuicPacketHeader)
    (room : Z) (frames : list QuicFrame) (v : Visitor) : option Visitor :=
  let h := received_header f header in
  let h' := set_packet_number (packet_number header) h in
  v ← offer (OnUnauthenticatedPublicHeader h) (OnPacket v);
  v ← offer (OnUnauthenticatedHeader h') v;
  v ← offer (OnPacketHeader h') (OnDecryptedPacket (decrypter_level_ f') v);
  v ← deliver_all e f header room frames v;
  Some (OnPacketComplete v).

(** The two ends agree on what the header leaves implicit. *)
Definition ends_agree (f f' : MyQuicFramer) (header : QuicPacketHeader) : Prop :=
  opposite (perspective_ f) (perspective_ f') /\ version_ f' = version_ f /\
  QUIC_VERSION_37 < transport_version (version_ f) <= QUIC_VERSION_43 /\
  use_incremental_ack_processing_ f' = true /\
  (connection_id_length header = 0 -> last_serialized_connection_id_ f' = connection_id header) /\
  (version_flag header = true ->
     fits 32 (CreateQuicVersionLabel (version_ f)) /\
     ParseQuicVersionLabel (CreateQuicVersionLabel (version_ f)) = version_ f) /\
  0 <= largest_packet_number_ f' < 2 ^ 62 /\ 0 < packet_number header /\
  2 * Z.abs (packet_number header - (largest_packet_number_ f' + 1)) <
    2 ^ (8 * packet_number_length header).

Lemma ReadRemainingPayload_at e pre suf :
  ReadRemainingPayload (reader_at e pre suf) = (Some suf, reader_at e (pre ++ suf) []).
Proof.
  unfold ReadRemainingPayload, PeekRemainingPayload.
  rewrite remaining_reader_at, mem_at_reader_at, Nat2Z.id, take_ge by lia.
  unfold set_pos, reader_at. cbn. by rewrite app_nil_r.
Qed.

(** Decrypting a packet whose associated data is its header. *)
Lemma DecryptPayload_first f' h packet e pre ct d plain :
  decrypter_ f' = Some d ->
  DecryptPacket d (transport_version (version_ f')) (packet_number h)
    (GetAssociatedDataFromEncryptedPacket (transport_version (version_ f')) packet
      (connection_id_length h) (version_flag h)
      (match nonce h with Some _ => true | None => false end) (packet_number_length h))
    ct kMaxPacketSize = Some plain ->
  DecryptPayload h packet kMaxPacketSize (mkP f' (reader_at e pre ct)) =
  (Some plain, mkP (notify (OnDecryptedPacket (decrypter_level_ f')) f') (reader_at e (pre ++ ct) [])).
Proof.
  intros Hd Hp. unfold DecryptPayload, zoom. unfold mbind at 1, M_bind at 1. cbn [rd].
  rewrite ReadRemainingPayload_at. rewrite gets_bind. cbv zeta.
  change (set_rd ?r (mkP ?a ?b)) with (mkP a r). cbn [fr].
  rewrite Hd. unfold mbind at 1, option_bind. by rewrite Hp.
Qed.

Lemma ProcessFrameData_delivers e f f' header header' frames room v' :
  version_ f' = version_ f -> use_incremental_ack_processing_ f' = true ->
  QUIC_VERSION_37 < transport_version (version_ f) ->
  valid_length (packet_number_length header) ->
  packet_number_length header' = packet_number_length header ->
  packet_number header' = packet_number header ->
  frames_ok e f header room frames -> frames <> [] ->
  deliver_all e f header room frames (visitor_ f') = Some v' ->
  let bs := payload e f header room frames in
  ProcessFrameData header' (mkP f' (make_reader bs e)) =
  (Some tt, mkP (set_visitor v' f') (reader_at e bs [])).
Proof.
  intros Hv Hi Hn Hl Hl' Hp' Hok Hne Hdel bs. unfold ProcessFrameData.
  change (make_reader bs e) with (reader_at e [] bs). rewrite gets_bind. cbn [rd].
  assert (Hpos : (1 <= length bs)%nat).
  { unfold bs. destruct frames as [|g fs]; [done|]. cbn [payload]. rewrite length_app.
    pose proof (wire_frame_nonempty e f header room (is_nil fs) g (proj1 Hok)). lia. }
  assert (Hd : IsDoneReading (reader_at e [] bs) = false)
    by (unfold IsDoneReading; cbn; apply Z.eqb_neq; lia).
  rewrite Hd. change ((fail_if false ?h ≫= ?k) ?s) with (k tt s). cbv beta.
  rewrite gets_bind. cbn [rd].
  unfold BytesRemaining. rewrite remaining_reader_at, Nat2Z.id.
  unfold bs. rewrite (frames_loop_delivers e f f' header header' frames room [] _ v'); auto.
Qed.

(** The part of the packet after the public header. *)
Lemma ProcessDataPacket_delivers f f3 header frames room ct d v2 v3 v4 :
  let e := endianness f in
  let packet := wire_header e f header ++ ct in
  let h := received_header f header in
  let h' := set_packet_number (packet_number header) h in
  header_ok f header -> QUIC_VERSION_37 < transport_version (version_ f) <= QUIC_VERSION_43 ->
  version_ f3 = version_ f -> decrypter_ f3 = Some d -> use_incremental_ack_processing_ f3 = true ->
  0 <= largest_packet_number_ f3 < 2 ^ 62 -> 0 < packet_number header ->
  2 * Z.abs (packet_number header - (largest_packet_number_ f3 + 1)) < 2 ^ (8 * packet_number_length header) ->
  frames_ok e f header room frames -> frames <> [] ->
  DecryptPacket d (transport_version (version_ f)) (packet_number header) (wire_header e f header)
    ct kMaxPacketSize = Some (payload e f header room frames) ->
  Z.of_nat (length packet) <= kMaxPacketSize ->
  OnUnauthenticatedHeader h' (visitor_ f3) = (true, v2) ->
  OnPacketHeader h' (OnDecryptedPacket (decrypter_level_ f3) v2) = (true, v3) ->
  deliver_all e f header room frames v3 = Some v4 ->
  ProcessDataPacket h packet kMaxPacketSize (mkP f3 (reader_at e
      (wire_public_header f header) (wire_uint e (Z.to_nat (packet_number_length header))
         (packet_number header) ++ ct))) =
    (Some tt, mkP (notify OnPacketComplete (set_visitor v4
       (set_largest_packet_number (Z.max (packet_number header) (largest_packet_number_ f3)) f3)))
                (reader_at e (payload e f header room frames) [])).
Proof.
  intros e packet h h' Hok Hver V3 D3 I3 Hbase Hpn Hnear Hfr Hne Hplain Hsize E2 E3 E4.
  assert (He3 : endianness f3 = e) by (unfold endianness; by rewrite V3).
  pose proof (ProcessUnauthenticatedHeader_reads e f3 h (packet_number header) v2
    (proj1 (proj2 Hok)) Hbase Hpn Hnear E2) as [Hun _].
  set (f4 := set_visitor v2 f3) in Hun.
  pose proof (DecryptPayload_first f4 h' packet e
    (wire_public_header f header ++ wire_uint e (Z.to_nat (packet_number_length header)) (packet_number header))
    ct d (payload e f header room frames) D3) as Hdp.
  cbn [version_ f4 set_visitor] in Hdp. rewrite V3 in Hdp. cbn [h' h set_packet_number received_header
    connection_id_length version_flag nonce packet_number_length packet_number] in Hdp.
  unfold GetAssociatedDataFromEncryptedPacket in Hdp.
  rewrite <- (length_wire_header e f header Hok (proj2 Hver)), Nat2Z.id in Hdp.
  unfold packet in Hdp at 1. rewrite take_app_length in Hdp. specialize (Hdp Hplain).
  set (f5 := notify (OnDecryptedPacket (decrypter_level_ f4)) f4) in Hdp.
  set (f6 := set_largest_packet_number (Z.max (packet_number h') (largest_packet_number_ f5)) f5).
  pose proof (ProcessFrameData_delivers e f (set_visitor v3 f6) header h' frames room v4 V3 I3 (proj1 Hver)
    (header_ok_length _ _ Hok) eq_refl eq_refl Hfr Hne E4) as Hframes. cbv zeta in Hframes.
  unfold ProcessDataPacket. erewrite bind_run by apply Hun. fold h'.
  erewrite bind_run by (apply or_fail_run, Hdp).
  rewrite modify_bind. cbn [fr]. replace (endianness f5) with e by exact (eq_sym He3).
  rewrite modify_bind. change (on_fr ?g (mkP ?a ?b)) with (mkP (g a) b). cbv beta. fold f6.
  erewrite (bind_run (callback _)) by (unfold callback; cbn [fr]; rewrite (E3 : OnPacketHeader h' (visitor_ f6) = _); reflexivity).
  cbn [negb]. rewrite (proj2 (Z.ltb_ge _ _)) by exact Hsize.
  erewrite (bind_run (fail_if false _)) by reflexivity.
  change (on_fr (set_visitor v3) (mkP f6 ?r)) with (mkP (set_visitor v3 f6) r).
  erewrite bind_run by exact Hframes. done.
Qed.

Lemma received_framer_fields f f' header :
  let f2 := received_framer f (notify OnPacket (set_last_packet_is_ietf_quic false f')) header in
  version_ f2 = version_ f' /\ perspective_ f2 = perspective_ f' /\ visitor_ f2 = OnPacket (visitor_ f') /\
  largest_packet_number_ f2 = largest_packet_number_ f' /\ decrypter_ f2 = decrypter_ f' /\
  decrypter_level_ f2 = decrypter_level_ f' /\
  use_incremental_ack_processing_ f2 = use_incremental_ack_processing_ f' /\ error_ f2 = error_ f'.
Proof. cbv zeta. unfold received_framer. by destruct (version_flag header), (nonce header). Qed.

Lemma check_version_agrees f f3 header r :
  version_ f3 = version_ f -> check_version (received_header f header) (mkP f3 r) = (Some true, mkP f3 r).
Proof.
  intros V3. unfold check_version. cbn. rewrite V3. destruct (version_flag header); [|by rewrite andb_false_r].
  rewrite (bool_decide_true (version_ f = version_ f)) by done. by rewrite andb_false_r.
Qed.

Lemma no_client_version_flag f f' header :
  header_ok f header -> opposite (perspective_ f) (perspective_ f') ->
  bool_decide (perspective_ f' = IS_CLIENT) && version_flag header = false.
Proof.
  intros (_ & _ & _ & _ & _ & Hvf & _) Hop. unfold opposite in Hop.
  destruct (version_flag header); [|by rewrite andb_false_r].
  rewrite (Hvf eq_refl) in Hop. by destruct (perspective_ f').
Qed.

Lemma ProcessPacket_delivers f f' header frames room ct d v' :
  let e := endianness f in
  let packet := wire_header e f header ++ ct in
  header_ok f header -> ends_agree f f' header ->
  frames_ok e f header room frames -> frames <> [] ->
  decrypter_ f' = Some d ->
  DecryptPacket d (transport_version (version_ f)) (packet_number header) (wire_header e f header)
    ct kMaxPacketSize = Some (payload e f header room frames) ->
  Z.of_nat (length packet) <= kMaxPacketSize ->
  packet_events e f f' header room frames (visitor_ f') = Some v' ->
  exists f'', ProcessPacket packet f' = (Some tt, f'') /\ visitor_ f'' = v' /\
    largest_packet_number_ f'' = Z.max (packet_number header) (largest_packet_number_ f') /\
    error_ f'' = error_ f'.
Proof.
  intros e packet Hok (Hop & Hv & Hver & Hinc & Hcid & Hlab & Hbase & Hpn & Hnear)
    Hfr Hne Hdec Hplain Hsize Hev.
  unfold packet_events in Hev. cbv zeta in Hev.
  apply bind_Some in Hev as (v1 & E1 & Hev). apply bind_Some in Hev as (v2 & E2 & Hev).
  apply bind_Some in Hev as (v3 & E3 & Hev). apply bind_Some in Hev as (v4 & E4 & Hev).
  injection Hev as <-. apply offer_Some in E1, E2, E3. set (h := received_header f header) in *.
  set (f1 := notify OnPacket (set_last_packet_is_ietf_quic false f')).
  pose proof (ProcessPublicHeader_reads e f f1 header Hok Hop Hcid Hlab) as [Hpub _].
  destruct (received_framer_fields f f' header) as (V2 & P2 & W2 & L2 & D2 & D2' & I2 & X2). fold f1 in V2, P2, W2, L2, D2, D2', I2, X2.
  set (f2 := received_framer f f1 header) in *. set (f3 := set_visitor v1 f2).
  pose proof (eq_trans V2 Hv : version_ f3 = version_ f) as V3.
  assert (He3 : endianness f3 = e) by (unfold endianness; by rewrite V3).
  pose proof (ProcessDataPacket_delivers f f3 header frames room ct d v2 v3 v4 Hok Hver V3 (eq_trans D2 Hdec) (eq_trans I2 Hinc)
    ltac:(cbn; by rewrite L2) Hpn ltac:(cbn; by rewrite L2) Hfr Hne Hplain Hsize E2 ltac:(cbn; by rewrite D2') E4) as Hdata.
  cbv zeta in Hdata. fold e h in Hdata. fold packet in Hdata.
  exists (notify OnPacketComplete (set_visitor v4
    (set_largest_packet_number (Z.max (packet_number header) (largest_packet_number_ f3)) f3))).
  split; [|split_and!; [done|cbn; by rewrite L2|exact X2]].
  unfold ProcessPacket.
  replace (make_reader packet (endianness f')) with (reader_at e [] packet)
    by (unfold e, endianness; by rewrite Hv).
  rewrite modify_bind. change (on_fr ?g (mkP ?a ?b)) with (mkP (g a) b). cbv beta. fold f1.
  unfold packet, wire_header. rewrite <- app_assoc.
  erewrite bind_run by apply or_fail_run, Hpub. cbn [app]. fold h.
  erewrite (bind_run (callback _)) by (unfold callback; cbn [fr]; fold f2; rewrite W2, E1; reflexivity).
  change (on_fr (set_visitor v1) (mkP _ ?r)) with (mkP f3 r). cbn [negb].
  erewrite bind_run by (by apply check_version_agrees). cbn [negb]. rewrite modify_bind. cbn [fr rd]. rewrite He3.
  rewrite gets_bind. cbn [fr]. change (perspective_ f3) with (perspective_ f2). rewrite P2.
  change (version_flag h) with (version_flag header). rewrite (no_client_version_flag f f' header Hok Hop).
  change (reset_flag h) with false. cbv iota. rewrite app_assoc.
  fold (wire_header e f header). fold packet. rewrite (proj2 (Z.leb_le _ _)) by exact Hsize.
  change (set_endianness e (reader_at e ?a ?b)) with (reader_at e a b). by rewrite Hdata.
Qed.
End payload.
