(* ===== verification/FrameLengths.v ===== *)
(** The length estimates a packet creator relies on
    ([ComputeFrameLength], [GetSerializedFrameLength], [GetAckFrameSize]) against
    the bytes the serializers write. *)
From S2P Require Import Prelude.
From S2P Require Import DataReader.
From S2P Require Import DataWriter.
From S2P Require Import Encodings.
From S2P Require Import PacketNumbers.
From S2P Require Import PacketNumberQueue.
From S2P Require Import FramerTypes.
From S2P Require Import GoogleFrames.
From S2P Require Import StreamFrames.
From S2P Require Import AckFrames.
From S2P Require Import AckRoundTrip.
From S2P Require Import PacketHeader.
From S2P Require Import Framer.
From S2P Require Import PacketRoundTrip.

Open Scope Z_scope.

(** Unfolds the size constants. *)
Ltac unfold_sizes := unfold GetMinStreamFrameSize, GetStopWaitingFrameSize, GetRstStreamFrameSize,
  GetMinConnectionCloseFrameSize, GetMinGoAwayFrameSize, GetWindowUpdateFrameSize,
  GetBlockedFrameSize, GetMinAckFrameSize, kQuicFrameTypeSize, kQuicErrorCodeSize,
  kQuicErrorDetailsLengthSize, kQuicMaxStreamIdSize, kQuicMaxStreamOffsetSize,
  kQuicStreamPayloadLengthSize, kQuicDeltaTimeLargestObservedSize, kQuicNumTimestampsSize,
  kNumberOfAckBlocksSize, PACKET_1BYTE_PACKET_NUMBER in *.

(** Normalizes the length of a concatenation of fields. *)
Ltac lengths := rewrite ?length_app, ?length_wire_uint; cbn [length];
  rewrite ?length_app, ?length_wire_uint; cbn [length].

(** The exact length of an ack frame with [num] blocks. *)
Lemma length_ack_exact e version num frame :
  0 <= num <= Z.of_nat (length (ack_blocks frame)) ->
  (num = 0 <-> num_ack_blocks (GetAckFrameInfo frame) = 0) ->
  Z.of_nat (length (wire_ack e version num frame)) + 1 =
  ack_fixed_size version frame + num * (snd (ack_lengths version frame) + 1).
Proof.
  intros Hn Hz. unfold wire_ack, ack_fixed_size, ack_lengths. cbn [snd].
  set (la := GetMinPacketNumberLength version (largest_acked frame)).
  set (lb := GetMinPacketNumberLength version _).
  pose proof (min_length_valid version (largest_acked frame)) as Hla. fold la in Hla.
  assert (Hlb : valid_length lb) by apply min_length_valid.
  apply valid_length_bounds in Hla. pose proof (valid_length_bounds _ Hlb).
  rewrite !length_app, !length_wire_uint, !Nat2Z.inj_add, length_wire_blocks by done.
  rewrite length_take, Nat.min_l by lia. unfold_sizes.
  destruct (version =? QUIC_VERSION_41), (Z.ltb_spec 0 num),
    (Z.eqb_spec (num_ack_blocks (GetAckFrameInfo frame)) 0);
    cbn [negb app length]; rewrite ?length_app; cbn [length]; lia.
Qed.

(** The size estimate is the fixed part and the blocks, at most 255 of them. *)
Lemma GetAckFrameSize_eq version frame :
  GetAckFrameSize version true frame =
  ack_fixed_size version frame +
  Z.min (num_ack_blocks (GetAckFrameInfo frame)) 255 * (snd (ack_lengths version frame) + 1).
Proof.
  unfold GetAckFrameSize, ack_fixed_size, ack_lengths, LargestAcked. cbn [snd]. unfold_sizes.
  change kMaxAckBlocks with 255.
  destruct (Z.eqb_spec (num_ack_blocks (GetAckFrameInfo frame)) 0) as [->|]; cbn [negb]; lia.
Qed.

(** With room for the estimate nothing is truncated. *)
Lemma ack_num_full version room frame :
  ack_frame_ok version frame -> GetAckFrameSize version true frame <= room < 2 ^ 31 ->
  ack_num version room frame = Z.min (num_ack_blocks (GetAckFrameInfo frame)) 255.
Proof.
  intros Hok Hr. rewrite GetAckFrameSize_eq in Hr.
  destruct (ack_info_ok _ _ Hok) as (_ & _ & _ & _ & _ & _ & _ & Hn & _).
  pose proof (valid_length_bounds _ (min_length_valid version
    (max_block_length (GetAckFrameInfo frame)))) as Hlb.
  pose proof (ack_num_spec version room frame Hok) as Hs. cbv zeta in Hs.
  unfold ack_lengths in *. cbn [snd] in *. set (lb := GetMinPacketNumberLength version _) in *.
  destruct Hs as (H1 & H2 & H3 & H4 & H5); [nia|]. nia.
Qed.

Section lengths.
Context {HM : HandshakeMessages} {VI : MyQuicFramerVisitorInterface} {CI : Ciphers}
  {VL : VersionLabels}.

(** Every frame but padding is exactly as long as announced, acks included
    while they are not truncated. *)
Lemma ComputeFrameLength_exact e f header room nolen frame :
  valid_length (packet_number_length header) -> use_incremental_ack_processing_ f = true ->
  frame_ok f header room frame -> is_padding frame = false ->
  ComputeFrameLength frame nolen (packet_number_length header) f <= room ->
  Z.of_nat (length (wire_frame e f header room nolen frame)) =
  ComputeFrameLength frame nolen (packet_number_length header) f.
Proof.
  intros Hl Hinc Hok Hp Hroom. apply valid_length_bounds in Hl.
  destruct frame; try done; cbn [wire_frame frame_body ComputeFrameLength] in *;
    unfold wire_rst, wire_close, wire_goaway, wire_window_update, wire_blocked,
      wire_stop_waiting, wire_stream, wire_stream_fields; cbv zeta; unfold_sizes.
  - destruct (not_v41 f); lengths; lia.
  - lengths. lia.
  - lengths. lia.
  - lengths. lia.
  - lengths. lia.
  - lengths. lia.
  - destruct Hok as (Hid & Hoff & Hlen & Hdata).
    destruct (GetStreamIdSize_spec _ Hid) as (Hi & _).
    destruct (offset_size_range (transport_version (version_ f)) _ Hoff) as [Ho _].
    lengths. rewrite Hdata. destruct nolen; lengths; lia.
  - destruct Hok as (Hok & Hr & Hz). rewrite Hinc in *.
    rewrite GetAckFrameSize_eq.
    pose proof (ack_num_full _ room _ Hok ltac:(lia)) as Hn. rewrite Hn in *.
    destruct (ack_info_ok _ _ Hok) as (_ & _ & _ & _ & _ & _ & _ & Hb & _).
    cbn [length]. rewrite <- (length_ack_exact e _ (Z.min _ 255)); [lia|lia|]. split; lia.
Qed.

(** A truncated ack stays within the room it was given. *)
Lemma wire_ack_fits e version room a :
  ack_frame_ok version a -> ack_fixed_size version a <= room < 2 ^ 31 ->
  Z.of_nat (length (ack_type version a :: wire_ack e version (ack_num version room a) a)) <= room.
Proof.
  intros Hok Hr. pose proof (ack_num_spec version room a Hok Hr) as Hs. cbv zeta in Hs.
  pose proof (length_wire_ack e version (ack_num version room a) a) as Hl.
  unfold ack_lengths in *. cbn [snd length] in *. lia.
Qed.
End lengths.
