(* ===== verification/VersionNegotiation.v ===== *)
(** Version negotiation end to end: the packet a server builds
    ([BuildVersionNegotiationPacket]) as a client's [ProcessPacket] sees it, and
    the decrypter switching of [DecryptPayload]. *)
From S2P Require Import Prelude.
From S2P Require Import DataReader.
From S2P Require Import DataWriter.
From S2P Require Import Encodings.
From S2P Require Import PacketNumbers.
From S2P Require Import PacketNumberQueue.
From S2P Require Import FramerTypes.
From S2P Require Import GoogleFrames.
From S2P Require Import PacketHeader.
From S2P Require Import Framer.
From S2P Require Import PacketRoundTrip.

Open Scope Z_scope.

Section negotiation.
Context {HM : HandshakeMessages} {VI : MyQuicFramerVisitorInterface} {CI : Ciphers}
  {VL : VersionLabels}.

Definition label_ok (v : ParsedQuicVersion) : Prop :=
  fits 32 (CreateQuicVersionLabel v) /\ ParseQuicVersionLabel (CreateQuicVersionLabel v) = v.

Definition wire_label (v : ParsedQuicVersion) : list Z := be_bytes 4 (CreateQuicVersionLabel v).
Definition wire_labels (versions : list ParsedQuicVersion) : list Z := concat (map wire_label versions).

Lemma length_wire_labels versions :
  length (wire_labels versions) = (4 * length versions)%nat.
Proof.
  induction versions as [|v versions IH]; [done|]. unfold wire_labels in *. cbn [map concat].
  rewrite length_app, IH. unfold wire_label. rewrite length_be_bytes. cbn. lia.
Qed.

Lemma write_version_labels_writes e versions :
  writes e id (write_version_labels versions) (wire_labels versions) tt.
Proof.
  induction versions as [|v versions IH]; [apply writes_ret|].
  cbn [write_version_labels]. unfold wire_labels in *. cbn [map concat].
  eapply writes_bind; [|exact IH]. unfold wire_label. rewrite <- le_bytes_NetToHost32.
  apply WriteTag_writes.
Qed.

(** The packet a server sends. *)
Definition wire_negotiation (cid : Z) (versions : list ParsedQuicVersion) : list Z :=
  [13] ++ be_bytes 8 cid ++ wire_labels versions.

Lemma BuildVersionNegotiationPacket_bytes cid versions :
  BuildVersionNegotiationPacket cid false versions = Some (wire_negotiation cid versions).
Proof.
  unfold BuildVersionNegotiationPacket, build.
  set (buffer := replicate _ 0). change (u8 (Z.lor (Z.lor PACKET_PUBLIC_FLAGS_VERSION
    PACKET_PUBLIC_FLAGS_8BYTE_CONNECTION_ID) PACKET_PUBLIC_FLAGS_8BYTE_CONNECTION_ID_OLD)) with 13.
  assert (Hw : writes NETWORK_BYTE_ORDER id
    (_ ← WriteUInt8 13; _ ← WriteConnectionId cid; write_version_labels versions)
    (wire_negotiation cid versions) tt).
  { eapply writes_bind; [by apply WriteUInt8_writes|].
    eapply writes_bind; [apply WriteConnectionId_writes|]. apply write_version_labels_writes. }
  specialize (Hw [] buffer). unfold id in Hw.
  assert (Hlen : length (wire_negotiation cid versions) = length buffer).
  { unfold buffer, wire_negotiation. rewrite length_replicate, !length_app, length_be_bytes,
      length_wire_labels. unfold GetVersionNegotiationPacketSize, kPublicFlagsSize,
      PACKET_8BYTE_CONNECTION_ID, kQuicVersionSize. cbn [length]. lia. }
  rewrite decide_True in Hw by lia.
  change (make_writer buffer NETWORK_BYTE_ORDER) with (writer_at NETWORK_BYTE_ORDER [] buffer).
  rewrite Hw. unfold writer_at. cbn [buffer_ app]. by rewrite Hlen, drop_all, app_nil_r.
Qed.

Lemma version_label_loop_reads e f pre acc versions fuel :
  versions <> [] -> Forall label_ok versions -> (length versions <= fuel)%nat ->
  version_label_loop fuel acc (mkP f (reader_at e pre (wire_labels versions))) =
  (Some (acc ++ versions), mkP f (reader_at e (pre ++ wire_labels versions) [])).
Proof.
  revert pre acc fuel. induction versions as [|v versions IH]; intros pre acc fuel Hne Hok Hf; [done|].
  inversion_clear Hok as [|? ? [Hfit Hparse] Hok'].
  destruct fuel as [|fuel]; [cbn in Hf; lia|]. cbn [version_label_loop].
  unfold wire_labels in *. cbn [map concat]. unfold wire_label at 1 3.
  rewrite <- le_bytes_NetToHost32.
  pose proof (reads_reading e f "Unable to read supported version in negotiation." _ _ _
    (ReadTag_reads e _ (NetToHost32_fits (CreateQuicVersionLabel v)))) as [Hr _].
  erewrite bind_run by (apply or_fail_run, Hr). cbv zeta.
  rewrite NetToHost32_involutive, Hparse by done. rewrite gets_bind. cbn [rd].
  destruct versions as [|w versions].
  - unfold IsDoneReading. cbn [map concat reader_at len_ pos_]. rewrite !app_nil_r, Z.eqb_refl.
    done.
  - assert (Hd : forall p, IsDoneReading (reader_at e p (concat (map wire_label (w :: versions)))) = false).
    { intros p. pose proof (length_wire_labels (w :: versions)) as Hl.
      unfold wire_labels in Hl. unfold IsDoneReading, reader_at. cbn [len_ pos_].
      rewrite length_app, Hl. apply Z.eqb_neq. cbn [length]. lia. }
    rewrite Hd, IH; [|done|done|cbn in *; lia]. by rewrite <- !app_assoc.
Qed.

(** The header a client sees of such a packet. *)
Definition negotiation_header (cid : Z) : QuicPacketHeader :=
  mkHeader cid PACKET_8BYTE_CONNECTION_ID false true PACKET_1BYTE_PACKET_NUMBER
    (h_version emptyHeader) None 0.

Lemma ProcessPublicHeader_negotiation e f cid :
  fits 64 cid -> perspective_ f = IS_CLIENT ->
  reads e (mkP f) ProcessPublicHeader ([13] ++ be_bytes 8 cid) (negotiation_header cid).
Proof.
  intros Hc Hp. unfold ProcessPublicHeader.
  eapply reads_bind; [by apply reads_reading, ReadBytes_reads'|]. cbv zeta.
  change (le_val [13]) with 13.
  eapply reads_bind_0; [by apply (reads_gets e (mkP f) _ (validate_flags_ f))|].
  eapply reads_bind_0; [apply reads_reject_if; by rewrite andb_false_r|].
  eapply reads_bind_0; [by apply reads_reject_if|].
  eapply reads_bind_0; [by apply (reads_gets e (mkP f) _ (last_serialized_connection_id_ f))|].
  eapply (reads_bind_nil _ _ _ _ _ (cid, PACKET_8BYTE_CONNECTION_ID)).
  { change (flag 13 PACKET_PUBLIC_FLAGS_8BYTE_CONNECTION_ID) with true. cbv iota.
    eapply reads_bind_nil; [by apply reads_reading, ReadConnectionId_reads|apply reads_ret]. }
  eapply reads_bind_0; [by apply (reads_gets e (mkP f) _ IS_CLIENT)|].
  eapply reads_bind_0; [apply reads_ret|]. eapply reads_bind_0; [apply reads_ret|]. apply reads_ret.
Qed.

Lemma ProcessPacket_negotiation f cid versions v1 :
  fits 64 cid -> perspective_ f = IS_CLIENT -> versions <> [] -> Forall label_ok versions ->
  offer (OnUnauthenticatedPublicHeader (negotiation_header cid)) (OnPacket (visitor_ f)) = Some v1 ->
  ProcessPacket (wire_negotiation cid versions) f =
  (Some tt, set_visitor (OnVersionNegotiationPacket (mkVersionNegotiation cid versions) v1)
              (set_last_packet_is_ietf_quic false f)).
Proof.
  intros Hc Hp Hne Hok Hv. apply offer_Some in Hv. unfold ProcessPacket.
  set (e := endianness f).
  change (make_reader ?p e) with (reader_at e [] p). rewrite modify_bind.
  change (on_fr ?g (mkP ?a ?b)) with (mkP (g a) b). cbv beta.
  set (f1 := notify OnPacket (set_last_packet_is_ietf_quic false f)).
  destruct (ProcessPublicHeader_negotiation e f1 cid Hc Hp) as [Hpub _].
  unfold wire_negotiation. rewrite (assoc_L (++)).
  erewrite bind_run by (apply or_fail_run, Hpub).
  erewrite (bind_run (callback _)) by (unfold callback; cbn [fr f1 notify]; cbn; rewrite Hv; reflexivity).
  cbn [negb]. change (on_fr (set_visitor v1) (mkP f1 ?r)) with (mkP (set_visitor v1 f1) r).
  erewrite (bind_run (check_version _)).
  2:{ unfold check_version. cbn [fr]. change (perspective_ (set_visitor v1 f1)) with (perspective_ f).
      rewrite Hp. reflexivity. }
  cbn [negb]. rewrite modify_bind, gets_bind. cbn [fr rd].
  change (perspective_ (set_visitor v1 f1)) with (perspective_ f). rewrite Hp.
  change (bool_decide (IS_CLIENT = IS_CLIENT) && version_flag (negotiation_header cid)) with true.
  cbv iota. unfold ProcessVersionNegotiationPacket. rewrite gets_bind. cbn [rd].
  change (set_endianness (endianness (set_visitor v1 f1)) (reader_at e ?a ?b)) with (reader_at e a b).
  erewrite bind_run.
  2:{ apply version_label_loop_reads; [done|done|]. unfold BytesRemaining.
      rewrite remaining_reader_at, length_wire_labels. lia. }
  reflexivity.
Qed.
End negotiation.
