(* ===== verification/Versions.v ===== *)
(** Version labels (net/third_party/quic/core/quic_versions.cc): the four-byte
    tags that stand for a protocol version on the wire.  Gives the framer's
    [VersionLabels] interface its implementation. *)
From S2P Require Import Prelude.
From S2P Require Import PacketNumbers.
From S2P Require Import PacketNumberQueue.
From S2P Require Import FramerTypes.

Open Scope Z_scope.

(** [MakeQuicTag] of quic_tag.cc. *)
Definition MakeQuicTag (a b c d : Z) : Z :=
  Z.lor (Z.lor (Z.lor a (Z.shiftl b 8)) (Z.shiftl c 16)) (Z.shiftl d 24).

(** Lines 20-24: on the wire d, c, b, a. *)
Definition MakeVersionLabel (a b c d : Z) : Z := MakeQuicTag d c b a.

(** quic_versions.h:166-168 *)
Definition kSupportedTransportVersions : list Z := [99; 46; 45; 44; 43; 39; 35].

Definition label_protocol (p : HandshakeProtocol) : option Z :=
  match p with
  | PROTOCOL_QUIC_CRYPTO => Some 0x51
  | PROTOCOL_TLS1_3 => Some 0x54
  | PROTOCOL_UNSUPPORTED => None
  end.

(** The last three characters of the label. *)
Definition label_digits (transport_version : Z) : option (Z * Z * Z) :=
  if transport_version =? 35 then Some (0x30, 0x33, 0x35)
  else if transport_version =? 39 then Some (0x30, 0x33, 0x39)
  else if transport_version =? 43 then Some (0x30, 0x34, 0x33)
  else if transport_version =? 44 then Some (0x30, 0x34, 0x34)
  else if transport_version =? 45 then Some (0x30, 0x34, 0x35)
  else if transport_version =? 46 then Some (0x30, 0x34, 0x36)
  else if transport_version =? 99 then Some (0x30, 0x39, 0x39)
  else None.

(** Lines 42-79. *)
Definition CreateQuicVersionLabel_impl (v : ParsedQuicVersion) : Z :=
  match label_protocol (handshake_protocol v), label_digits (transport_version v) with
  | Some proto, Some (b, c, d) => MakeVersionLabel proto b c d
  | _, _ => 0
  end.

(** The candidates in the order of the nested loops of lines 96-103. *)
Definition label_candidates (tls : bool) : list ParsedQuicVersion :=
  version ← kSupportedTransportVersions;
  handshake ← PROTOCOL_QUIC_CRYPTO :: (if tls then [PROTOCOL_TLS1_3] else []);
  [mkVersion handshake version].

(** Lines 91-108; [tls] is [FLAGS_quic_supports_tls_handshake]. *)
Definition ParseQuicVersionLabel_impl (tls : bool) (version_label : Z) : ParsedQuicVersion :=
  match List.find (fun v => version_label =? CreateQuicVersionLabel_impl v) (label_candidates tls) with
  | Some v => v
  | None => mkVersion PROTOCOL_UNSUPPORTED 0
  end.

#[export] Instance QuicVersionLabels (tls : bool) : VersionLabels := {|
  CreateQuicVersionLabel := CreateQuicVersionLabel_impl;
  ParseQuicVersionLabel := ParseQuicVersionLabel_impl tls;
|}.

Definition version_supported (tls : bool) (v : ParsedQuicVersion) : Prop :=
  v ∈ label_candidates tls.
#[export] Instance version_supported_dec tls v : Decision (version_supported tls v).
Proof. unfold version_supported. apply _. Defined.

(** A label fits a tag and names one supported version only. *)
Lemma version_label_roundtrip tls v :
  version_supported tls v ->
  fits 32 (CreateQuicVersionLabel_impl v) /\
  ParseQuicVersionLabel_impl tls (CreateQuicVersionLabel_impl v) = v.
Proof.
  unfold version_supported. intros Hv.
  assert (Hall : forallb (fun v => (0 <=? CreateQuicVersionLabel_impl v) &&
    (CreateQuicVersionLabel_impl v <? 2 ^ 32) &&
    bool_decide (ParseQuicVersionLabel_impl tls (CreateQuicVersionLabel_impl v) = v))
    (label_candidates tls) = true) by (destruct tls; vm_compute; reflexivity).
  rewrite forallb_forall in Hall. apply list_elem_of_In in Hv. specialize (Hall v Hv).
  rewrite !andb_true_iff, bool_decide_eq_true, Z.leb_le, Z.ltb_lt in Hall. by unfold fits.
Qed.
