(* ===== verification/Visitors.v ===== *)
(** The visitors of quic/model/quic_framer_visitor.h: [AbstractQuicFramerVisitor]
    accepts everything and does nothing; [AckFrameVisitor] prints what it is told
    about acknowledgements.  Both are instances of the framer's visitor
    interface. *)
From S2P Require Import Prelude.
From S2P Require Import PacketNumberQueue.
From S2P Require Import FramerTypes.

Open Scope Z_scope.

(** A line on the standard output. *)
Inductive Line :=
  | on_ack_frame
  | largest_acked_line (n : Z)
  | range_line (s e : Z).

(** [ack_frame_], and what was printed so far. *)
Record AckFrameVisitor := mkAckVisitor { ack_frame_ : QuicAckFrame; stdout : list Line }.

Definition print (l : Line) (v : AckFrameVisitor) : AckFrameVisitor :=
  mkAckVisitor (ack_frame_ v) (stdout v ++ [l]).

Section visitors.
Context {HM : HandshakeMessages}.

(** quic_framer_visitor.h:5-41, over any state; the answers are its constants. *)
Definition AbstractQuicFramerVisitor (State : Type) : MyQuicFramerVisitorInterface := {|
  Visitor := State;
  OnError _ _ v := v;
  OnProtocolVersionMismatch _ v := (true, None, v);
  OnPacket v := v;
  OnPublicResetPacket _ v := v;
  OnVersionNegotiationPacket _ v := v;
  OnUnauthenticatedPublicHeader _ v := (true, v);
  OnUnauthenticatedHeader _ v := (true, v);
  OnDecryptedPacket _ v := v;
  OnPacketHeader _ v := (true, v);
  OnStreamFrame _ v := (true, v);
  OnAckFrame _ v := (true, v);
  OnAckFrameStart _ _ v := (true, v);
  OnAckRange _ _ _ v := (true, v);
  OnStopWaitingFrame _ v := (true, v);
  OnPaddingFrame _ v := (true, v);
  OnPingFrame v := (true, v);
  OnRstStreamFrame _ v := (true, v);
  OnConnectionCloseFrame _ v := (true, v);
  OnGoAwayFrame _ v := (true, v);
  OnWindowUpdateFrame _ v := (true, v);
  OnBlockedFrame _ v := (true, v);
  OnPacketComplete v := v;
|}.

(** quic_framer_visitor.cc:5-22 *)
Definition AckFrameVisitor_OnAckFrame (frame : QuicAckFrame) (v : AckFrameVisitor)
    : bool * AckFrameVisitor :=
  (false, print on_ack_frame (mkAckVisitor frame (stdout v))).
Definition AckFrameVisitor_OnAckFrameStart (largest_acked ack_delay_time : Z) (v : AckFrameVisitor)
    : bool * AckFrameVisitor :=
  (true, print (largest_acked_line largest_acked) v).
Definition AckFrameVisitor_OnAckRange (start end_ : Z) (last_range : bool) (v : AckFrameVisitor)
    : bool * AckFrameVisitor :=
  (true, print (range_line start end_) v).

(** The derived class overrides the three ack callbacks. *)
Definition AckFrameVisitorInterface : MyQuicFramerVisitorInterface := {|
  Visitor := AckFrameVisitor;
  OnError _ _ v := v;
  OnProtocolVersionMismatch _ v := (true, None, v);
  OnPacket v := v;
  OnPublicResetPacket _ v := v;
  OnVersionNegotiationPacket _ v := v;
  OnUnauthenticatedPublicHeader _ v := (true, v);
  OnUnauthenticatedHeader _ v := (true, v);
  OnDecryptedPacket _ v := v;
  OnPacketHeader _ v := (true, v);
  OnStreamFrame _ v := (true, v);
  OnAckFrame := AckFrameVisitor_OnAckFrame;
  OnAckFrameStart := AckFrameVisitor_OnAckFrameStart;
  OnAckRange := AckFrameVisitor_OnAckRange;
  OnStopWaitingFrame _ v := (true, v);
  OnPaddingFrame _ v := (true, v);
  OnPingFrame v := (true, v);
  OnRstStreamFrame _ v := (true, v);
  OnConnectionCloseFrame _ v := (true, v);
  OnGoAwayFrame _ v := (true, v);
  OnWindowUpdateFrame _ v := (true, v);
  OnBlockedFrame _ v := (true, v);
  OnPacketComplete v := v;
|}.
End visitors.
