(* ===== verification/FramerTheorems.v ===== *)
(** The framer's correctness theorems, with their witnesses on a loopback of two
    framers (an [AckFrameVisitor], version 43, a cipher that copies). *)
From S2P Require Import Prelude.
From S2P Require Import DataReader.
From S2P Require Import DataWriter.
From S2P Require Import Encodings.
From S2P Require Import PacketNumbers.
From S2P Require Import PacketNumberQueue.
From S2P Require Import FramerTypes.
From S2P Require Import GoogleFrames.
From S2P Require Import StreamFrames.
From S2P Require Import IetfFrames.
From S2P Require Import AckFrames.
From S2P Require Import AckRoundTrip.
From S2P Require Import AckTruncation.
From S2P Require Import LibquicAck.
From S2P Require Import IetfAck.
From S2P Require Import PacketHeader.
From S2P Require Import Framer.
From S2P Require Import FramerSafety.
From S2P Require Import PacketRoundTrip.
From S2P Require Import FrameLengths.
From S2P Require Import VersionNegotiation.
From S2P Require Import Versions.
From S2P Require Import Visitors.

Open Scope string_scope.
Open Scope list_scope.
Open Scope Z_scope.

(** * A loopback to evaluate the framers on *)
Module Loopback.
(** No handshake message is ever parsed. *)
#[export] Instance NoHandshake : HandshakeMessages := {|
  CryptoHandshakeMessage := unit; ParseMessage _ _ := None; message_tag _ := 0;
  GetUint64 _ _ := None; GetStringPiece _ _ := None;
  SocketAddress := unit; DecodeAddress _ := None;
|}.
#[export] Instance Printer : MyQuicFramerVisitorInterface := AckFrameVisitorInterface.

(** A cipher that copies the bytes that fit. *)
Definition copy (_ : unit) (_ _ : Z) (_ input : list Z) (room : Z) : option (list Z) :=
  if (Z.of_nat (length input) <=? room) && forallb (fun b => (0 <=? b) && (b <? 256)) input
  then Some input else None.

Lemma copy_bytes d v pn ad input room output :
  copy d v pn ad input room = Some output -> bytes_ok output.
Proof.
  unfold copy. destruct (_ <=? _); [|done]. destruct (forallb _ input) eqn:E; [|done].
  cbn. intros [= <-]. apply Forall_forall. intros b Hb. rewrite forallb_forall in E.
  apply list_elem_of_In in Hb. specialize (E b Hb). zbool. unfold byte_ok. lia.
Qed.

Lemma copy_inverse v pn ad input room ct :
  copy tt v pn ad input room = Some ct -> Z.of_nat (length ct) <= kMaxPacketSize ->
  copy tt v pn ad ct kMaxPacketSize = Some input.
Proof.
  unfold copy. destruct (_ <=? _); [|done]. destruct (forallb _ input) eqn:E; [|done].
  cbn. intros [= <-] Hl. by rewrite (proj2 (Z.leb_le _ _)), E.
Qed.
#[export] Instance CopyCiphers : Ciphers := {|
  Decrypter := unit; DecryptPacket := copy; SetDiversificationNonce _ d := d;
  Encrypter := unit; EncryptPacket := copy; GetMaxPlaintextSize_cipher _ n := n;
|}.
#[export] Instance Labels : VersionLabels := QuicVersionLabels false.

Definition v43 : ParsedQuicVersion := mkVersion PROTOCOL_QUIC_CRYPTO 43.
Definition no_offset (_ _ : Z) : M QuicDataWriter unit := fail.
Definition visitor0 : AckFrameVisitor := mkAckVisitor emptyAckFrame [].
Definition client : MyQuicFramer := MyQuicFramer_ctor visitor0 [v43] 0 IS_CLIENT tt tt.
Definition server : MyQuicFramer := MyQuicFramer_ctor visitor0 [v43] 0 IS_SERVER tt tt.

(** The header of the client's third packet, with the version. *)
Definition header : QuicPacketHeader :=
  mkHeader 0x1234 PACKET_8BYTE_CONNECTION_ID false true PACKET_1BYTE_PACKET_NUMBER v43 None 3.
(** Packets 1 to 3 and 7 received. *)
Definition ack : QuicAckFrame := mkAckFrame 7 1000 [] [mkI 1 4; mkI 7 8].
Definition frames : list QuicFrame :=
  [ACK_FRAME ack; STOP_WAITING_FRAME (mkStopWaiting 1);
   STREAM_FRAME (mkStreamFrame 5 true 70000 [1; 2; 3] 3)].
Definition buffer : list Z := replicate 1000 0.
End Loopback.
Import Loopback.

(** Decides a conjunction of concrete facts by evaluation. *)
Ltac concrete :=
  cbn [frames_ok frame_ok is_nil is_padding];
  unfold header_ok, ends_agree, ack_frame_ok, stream_frame_ok, wf, ends_bounded, label_ok, buffer_ok,
    reader_ok, bytes_ok, valid_length, fits in *;
  repeat match goal with
  | |- _ /\ _ => split
  | |- Forall _ _ => constructor
  | |- _ ∈ _ => repeat constructor
  end;
  try done; try (vm_compute; congruence); try (intros; discriminate).

(** * Packets *)

Section packets.
Context {HM : HandshakeMessages} {VI : MyQuicFramerVisitorInterface} {CI : Ciphers}
  {VL : VersionLabels}.
Context (WriteUInt8AtOffset : Z -> Z -> M QuicDataWriter unit).

(** C1: A packet assembled by [BuildDataPacket] from well-formed frames and
    encrypted by [EncryptPayload] is accepted by the peer's [ProcessPacket]:
    the truncated packet number is restored, every frame reaches the visitor
    as it was sent and in order, no error is raised, and the largest packet
    number seen is updated; provided the peer's decrypter inverts the
    encrypter. *)
Theorem packet_roundtrip f f' header frames buffer level enc dec buffer_len v' :
  let e := endianness f in
  let version := transport_version (version_ f) in
  let room := Z.of_nat (length buffer) - Z.of_nat (length (wire_header e f header)) in
  header_ok f header -> ends_agree f f' header ->
  data_producer_ f = None -> use_incremental_ack_processing_ f = true ->
  0 <= room -> frames_ok e f header room frames -> frames <> [] ->
  encrypter_ f level = Some enc -> decrypter_ f' = Some dec ->
  (forall ad plaintext ct n, EncryptPacket enc version (packet_number header) ad plaintext n = Some ct ->
     Z.of_nat (length ct) <= kMaxPacketSize ->
     DecryptPacket dec version (packet_number header) ad ct kMaxPacketSize = Some plaintext) ->
  packet_events e f f' header room frames (visitor_ f') = Some v' ->
  exists packet f1,
    BuildDataPacket WriteUInt8AtOffset header frames buffer f = (Some packet, f1) /\
    forall encrypted f2,
      EncryptPayload level (packet_number header) header packet buffer_len f1 = (Some encrypted, f2) ->
      Z.of_nat (length encrypted) <= kMaxPacketSize ->
      exists f3, ProcessPacket encrypted f' = (Some tt, f3) /\ visitor_ f3 = v' /\
        error_ f3 = error_ f' /\
        largest_packet_number_ f3 = Z.max (packet_number header) (largest_packet_number_ f').
Proof.
  intros e version room Hok Hag Hd Hi Hroom Hfr Hne Henc Hdec Hinv Hev.
  assert (Hver : QUIC_VERSION_37 < version <= QUIC_VERSION_43) by apply Hag.
  eexists _, _. split; [apply BuildDataPacket_bytes; by try apply Hver|]. intros encrypted f2 He Hsize.
  unfold EncryptPayload in He. cbn [encrypter_ set_last_serialized_connection_id version_] in He.
  rewrite Henc in He. cbv zeta in He.
  rewrite <- (length_wire_header e f header Hok (proj2 Hver)), Nat2Z.id in He.
  rewrite take_app_length, drop_app_length in He.
  destruct (EncryptPacket _ _ _ _ _ _) as [ct|] eqn:Hct; [|done].
  assert (wire_header e f header ++ ct = encrypted) as <- by exact (inj Some _ _ (f_equal fst He)).
  apply Hinv in Hct; [|rewrite length_app in Hsize; lia].
  destruct (ProcessPacket_delivers f f' header frames room ct dec v') as (f3 & ? & ? & ? & ?);
    eauto 10.
Qed.

(** C2: Whatever bytes arrive, when [ProcessPacket] returns false it has left an
    explanation: a detailed error message or an error code; provided decrypters
    output bytes. *)
Theorem rejected_packets_are_explained packet f :
  (forall d version pn ad encrypted room plaintext,
     DecryptPacket d version pn ad encrypted room = Some plaintext -> bytes_ok plaintext) ->
  bytes_ok packet -> fst (ProcessPacket packet f) = None ->
  detailed_error_ (snd (ProcessPacket packet f)) <> "" \/
  error_ (snd (ProcessPacket packet f)) <> QUIC_NO_ERROR.
Proof. intros Hd Hb Hn. by apply ProcessPacket_explains. Qed.

(** C3: On any payload the frame loop of [ProcessFrameData] ends within one
    iteration per byte (more iterations change nothing), the cursor only moves
    forward inside the buffer, and a failure has set both an error code and a
    message, as the caller asserts. *)
Theorem frame_loop_terminates header s fuel :
  0 <= packet_number_length header -> buffer_ok (rd s) ->
  let n := Z.to_nat (BytesRemaining (rd s)) in
  (n <= fuel)%nat ->
  frames_loop fuel header s = frames_loop n header s /\
  advances (rd s) (rd (snd (ProcessFrameData header s))) /\
  (fst (ProcessFrameData header s) = None ->
   error_ (fr (snd (ProcessFrameData header s))) <> QUIC_NO_ERROR /\
   detailed_error_ (fr (snd (ProcessFrameData header s))) <> "").
Proof.
  intros Hh Hs n Hf. destruct (robust_ProcessFrameData header Hh s Hs) as [H1 H2].
  split_and!; [|done|intros Hn; by apply H2 in Hn as [? ?]].
  apply frames_loop_spec; auto. destruct Hs as [[Hl Hp] _]. unfold n, BytesRemaining. lia.
Qed.

(** A version negotiation packet built by a server tells the client's
    visitor the connection id and exactly the offered versions, in order. *)
Theorem version_negotiation_roundtrip f cid versions v1 :
  fits 64 cid -> perspective_ f = IS_CLIENT -> versions <> [] -> Forall label_ok versions ->
  offer (OnUnauthenticatedPublicHeader (negotiation_header cid)) (OnPacket (visitor_ f)) = Some v1 ->
  exists packet f',
    BuildVersionNegotiationPacket cid false versions = Some packet /\
    ProcessPacket packet f = (Some tt, f') /\
    visitor_ f' = OnVersionNegotiationPacket (mkVersionNegotiation cid versions) v1.
Proof.
  intros Hc Hp Hne Hok Hv. eexists _, _.
  split; [apply BuildVersionNegotiationPacket_bytes|].
  split; [by apply ProcessPacket_negotiation|done].
Qed.

(** C20: For every well-formed frame but padding, [ComputeFrameLength] is the
    number of bytes the serializer writes when that much room is left, acks
    included. *)
Theorem frame_length_exact header frame nolen f out tl :
  valid_length (packet_number_length header) -> fits 64 (packet_number header) ->
  data_producer_ f = None -> use_incremental_ack_processing_ f = true ->
  QUIC_VERSION_37 < transport_version (version_ f) ->
  frame_ok f header (Z.of_nat (length tl)) frame -> is_padding frame = false ->
  let n := ComputeFrameLength frame nolen (packet_number_length header) f in
  n <= Z.of_nat (length tl) ->
  exists bs, Z.of_nat (length bs) = n /\
    (_ ← AppendTypeByte frame nolen; append_frame WriteUInt8AtOffset header frame nolen)
      (mkW f (writer_at (endianness f) out tl)) =
    (Some tt, mkW f (writer_at (endianness f) (out ++ bs) (drop (length bs) tl))).
Proof.
  intros Hl Hpn Hd Hi Hv Hok Hp n Hn.
  pose proof (ComputeFrameLength_exact (endianness f) f header (Z.of_nat (length tl)) nolen frame
    Hl Hi Hok Hp Hn) as Hlen.
  eexists. split; [exact Hlen|]. apply append_one_bytes; auto. lia.
Qed.
End packets.

(** The visitor's output after the loopback packet. *)
Definition printed : list Line := [largest_acked_line 7; range_line 7 8; range_line 1 4].

Lemma packet_roundtrip_witness :
  exists packet f1,
    BuildDataPacket no_offset header frames buffer client = (Some packet, f1) /\
    forall encrypted f2,
      EncryptPayload ENCRYPTION_NONE 3 header packet 2000 f1 = (Some encrypted, f2) ->
      Z.of_nat (length encrypted) <= kMaxPacketSize ->
      exists f3, ProcessPacket encrypted server = (Some tt, f3) /\
        visitor_ f3 = mkAckVisitor emptyAckFrame printed /\ error_ f3 = QUIC_NO_ERROR /\
        largest_packet_number_ f3 = 3.
Proof.
  apply (packet_roundtrip no_offset client server header frames buffer ENCRYPTION_NONE tt tt 2000
           (mkAckVisitor emptyAckFrame printed)).
  - concrete. by right.
  - concrete.
  - done.
  - done.
  - done.
  - unfold frames. concrete.
  - done.
  - done.
  - done.
  - intros ad plaintext ct n. apply copy_inverse.
  - reflexivity.
Defined.

(** Three bytes that are no QUIC packet. *)
Lemma rejected_packets_are_explained_witness :
  fst (ProcessPacket [1; 2; 3] server) = None /\
  (detailed_error_ (snd (ProcessPacket [1; 2; 3] server)) <> "" \/
   error_ (snd (ProcessPacket [1; 2; 3] server)) <> QUIC_NO_ERROR).
Proof.
  assert (Hn : fst (ProcessPacket [1; 2; 3] server) = None) by reflexivity. split; [exact Hn|].
  apply (rejected_packets_are_explained [1; 2; 3] server).
  - apply copy_bytes.
  - concrete.
  - exact Hn.
Defined.

(** A frame type no version knows. *)
Lemma frame_loop_terminates_witness :
  let s := mkP server (make_reader [31; 0; 0] NETWORK_BYTE_ORDER) in
  frames_loop 3 header s = frames_loop 3 header s /\
  advances (rd s) (rd (snd (ProcessFrameData header s))) /\
  (fst (ProcessFrameData header s) = None ->
   error_ (fr (snd (ProcessFrameData header s))) <> QUIC_NO_ERROR /\
   detailed_error_ (fr (snd (ProcessFrameData header s))) <> "").
Proof. apply (frame_loop_terminates header); concrete. Defined.

Lemma version_negotiation_roundtrip_witness :
  exists packet f',
    BuildVersionNegotiationPacket 77 false [v43; mkVersion PROTOCOL_QUIC_CRYPTO 39] = Some packet /\
    ProcessPacket packet client = (Some tt, f') /\ visitor_ f' = visitor0.
Proof.
  apply (version_negotiation_roundtrip client 77 [v43; mkVersion PROTOCOL_QUIC_CRYPTO 39] visitor0);
    concrete.
Defined.

Lemma frame_length_exact_witness :
  exists bs, Z.of_nat (length bs) = 9 /\
    (_ ← AppendTypeByte (ACK_FRAME ack) false; append_frame no_offset header (ACK_FRAME ack) false)
      (mkW client (writer_at (endianness client) [] buffer)) =
    (Some tt, mkW client (writer_at (endianness client) ([] ++ bs) (drop (length bs) buffer))).
Proof. apply (frame_length_exact no_offset header (ACK_FRAME ack) false client [] buffer); concrete. Defined.

(** * Acknowledgements *)

Section acks.
Context {HM : HandshakeMessages} {VI : MyQuicFramerVisitorInterface} {CI : Ciphers}.
Context (WriteUInt8AtOffset : Z -> Z -> M QuicDataWriter unit).

(** C4: An ack frame is written by [AppendAckFrameAndTypeByte] into any buffer that holds
    its fixed part, with as many of its [num_ack_blocks] further blocks as there is room
    for.  If it has none, or at least one was written, [ProcessAckFrame] reads the frame
    back as a sequence of ranges, for any visitor that accepts them, the first ending at
    the largest acked packet; only packets that were received are acknowledged, and when
    no block had to be left out the ranges are exactly the received intervals, highest
    first, with the last one marked.  If all its further blocks were left out, the type
    byte still announces them: the frame is not read back, and at the end of a packet
    [ProcessAckFrame] rejects it, whatever the visitor answers. *)
Theorem ack_roundtrip e f f' frame out tl :
  let version := transport_version (version_ f) in
  let further := num_ack_blocks (GetAckFrameInfo frame) in
  let num := ack_num version (Z.of_nat (length tl)) frame in
  let ranges := ack_ranges num frame in
  ack_frame_ok version frame -> version_ f' = version_ f ->
  use_incremental_ack_processing_ f = true -> use_incremental_ack_processing_ f' = true ->
  ack_fixed_size version frame <= Z.of_nat (length tl) < 2 ^ 31 ->
  exists type body,
    AppendAckFrameAndTypeByte WriteUInt8AtOffset frame (mkW f (writer_at e out tl)) =
      (Some tt, mkW f (writer_at e (out ++ type :: body) (drop (S (length body)) tl))) /\
    (further = 0 \/ 0 < num -> forall v',
     ack_feed (largest_acked frame) (received_delay (ack_delay_time frame)) ranges (visitor_ f') = Some v' ->
     reads2 e (mkP f') (mkP (set_visitor v' f')) (ProcessAckFrame type emptyAckFrame) body emptyAckFrame) /\
    (forall lo hi last x, (lo, hi, last) ∈ ranges -> lo <= x < hi -> mem (packets frame) x) /\
    (num = Z.of_nat (length (ack_blocks frame)) -> num < 255 ->
     ranges = mark_last (map iv_range (reverse (packets frame)))) /\
    (further <> 0 -> num = 0 -> forall before,
     fst (ProcessAckFrame type emptyAckFrame (mkP f' (reader_at e before body))) = None).
Proof.
  intros version further num ranges Hok Hv Hi Hi' Hroom.
  pose proof (ack_num_spec version _ frame Hok Hroom) as Hn. fold num in Hn. cbv zeta in Hn.
  destruct (ack_lengths version frame) as [la lb]. fold further in Hn.
  exists (ack_type version frame), (wire_ack e version num frame). split_and!.
  - by apply AppendAck_bytes.
  - intros Hz v' Hfeed. unfold version. rewrite <- Hv. apply ProcessAck_bytes; rewrite ?Hv; try done; try lia.
  - intros lo hi l x. by eapply ack_ranges_sound.
  - by eapply ack_ranges_complete.
  - intros Hf -> before. unfold version. rewrite <- Hv. by apply ProcessAck_cut.
Qed.

(** The estimate [GetAckFrameSize] is exact: an ack frame written into a
    buffer that has this room takes exactly this many bytes, and no ack ever
    exceeds the room it was given. *)
Theorem ack_size_bound e f frame out tl :
  let version := transport_version (version_ f) in
  ack_frame_ok version frame -> use_incremental_ack_processing_ f = true ->
  ack_fixed_size version frame <= Z.of_nat (length tl) < 2 ^ 31 ->
  exists bs, AppendAckFrameAndTypeByte WriteUInt8AtOffset frame (mkW f (writer_at e out tl)) =
      (Some tt, mkW f (writer_at e (out ++ bs) (drop (length bs) tl))) /\
    Z.of_nat (length bs) <= Z.of_nat (length tl) /\
    (GetAckFrameSize version true frame <= Z.of_nat (length tl) ->
     Z.of_nat (length bs) = GetAckFrameSize version true frame).
Proof.
  intros version Hok Hi Hroom. eexists. split; [by apply AppendAck_bytes|]. fold version.
  split; [by apply wire_ack_fits|]. intros Hfull. cbn [length].
  rewrite (ack_num_full version _ frame Hok) by lia. rewrite GetAckFrameSize_eq.
  destruct (ack_info_ok _ _ Hok) as (_ & _ & _ & _ & _ & _ & _ & Hb & _).
  rewrite <- (length_ack_exact e version); [lia|lia|]. split; lia.
Qed.

(** An IETF ack frame whose ack blocks all have the same length survives
    serialization and parsing: the same packets, the delay rounded down to a
    multiple of eight microseconds. *)
Theorem ietf_ack_roundtrip e f f' frame back itr :
  ietf_ack_ok frame -> reverse (packets frame) = back :: itr ->
  same_length (imax back - imin back) itr ->
  Z.shiftl (Z.shiftr (ack_delay_time frame) 3) 3 <> 0x3ffffffffff8 ->
  exists body, writes e (mkW f) (AppendIetfAckFrame frame) (IETF_ACK :: body) tt /\
    reads e (mkP f') (ProcessIetfAckFrame IETF_ACK emptyAckFrame) body
      (mkAckFrame (largest_acked frame) (Z.shiftl (Z.shiftr (ack_delay_time frame) 3) 3) []
         (packets frame)).
Proof.
  intros Hok Hrev Hs Hd. exists (wire_ietf_ack frame). split; [by apply AppendIetfAckFrame_writes|].
  destruct (first_block _ _ _ Hok Hrev) as (Hb & Hdesc & Hw & Hp).
  rewrite Hp, <- (slide_same _ (imin back) [back] itr) by done. by apply ProcessIetfAckFrame_reads.
Qed.

(** C18: [ProcessIetfAckFrame] reads every later block of an ack frame with the length of
    the first, highest one, or leaves it out where it would then overlap the blocks
    above.  So whenever a block is shorter than the first one and the gap above it holds
    the difference, the packets after its end count as acknowledged although the frame
    that was written does not acknowledge them. *)
Theorem ietf_ack_overacknowledges e f f' frame back itr :
  let n := imax back - imin back in
  ietf_ack_ok frame -> reverse (packets frame) = back :: itr ->
  Z.shiftl (Z.shiftr (ack_delay_time frame) 3) 3 <> 0x3ffffffffff8 ->
  exists body parsed, writes e (mkW f) (AppendIetfAckFrame frame) (IETF_ACK :: body) tt /\
    reads e (mkP f') (ProcessIetfAckFrame IETF_ACK emptyAckFrame) body
      (mkAckFrame (largest_acked frame) (Z.shiftl (Z.shiftr (ack_delay_time frame) 3) 3) [] parsed) /\
    (forall x, mem parsed x <-> in_iv x back \/ Exists (in_iv x) (slid n (imin back) itr)) /\
    (forall above iv l1 l2 x, back :: itr = l1 ++ above :: iv :: l2 -> imin iv + n <= imin above ->
     imax iv <= x < imin iv + n -> mem parsed x /\ ~ mem (packets frame) x).
Proof.
  clear WriteUInt8AtOffset. intros n Hok Hrev Hd. destruct (first_block _ _ _ Hok Hrev) as (Hb & Hdesc & Hw & Hp).
  destruct (slide_mem n (imin back) [back] itr) as [_ Hmem]; try done; [lia|].
  assert (Hx : forall x, mem (slide n itr [back]) x <-> in_iv x back \/ Exists (in_iv x) (slid n (imin back) itr)).
  { intros x. rewrite Hmem, mem_cons. unfold mem at 1. rewrite Exists_nil. cbn [Min]. tauto. }
  exists (wire_ietf_ack frame), (slide n itr [back]).
  split_and!; [by apply AppendIetfAckFrame_writes|by apply ProcessIetfAckFrame_reads|done|].
  intros above iv l1 l2 x E Hroom Hin. destruct (slid_more back itr l1 above iv l2 x) as [H1 H2]; try done.
  split; [apply Hx; by right|]. intros Hm. apply H2. rewrite <- Hrev. unfold mem in Hm.
  apply Exists_exists in Hm as (z & Hz & Hxz). apply Exists_exists. exists z. by rewrite elem_of_reverse.
Qed.

(** C21: The ack writer of libquic/net and the one of quic/model agree on every ack
    frame of a receiver, into any writer, for every version but 41 and 99:
    both write the same bytes or both return false, and none of the checks that
    would abort the former fails. *)
Theorem ack_writers_agree f a frame w :
  same_setup f a -> ack_frame_ok (transport_version (version_ f)) frame ->
  (AckWriter.process_timestamps_ a = true -> timestamps_ok frame) ->
  let '(result, s) := AppendAckFrameAndTypeByte WriteUInt8AtOffset frame (mkW f w) in
  AckWriter.AppendAckFrameAndTypeByte frame a w = Some (result, wr s).
Proof.
  intros Hs Hok Ht. destruct (agrees_ack WriteUInt8AtOffset f a frame w Hs Hok Ht) as (o & w' & -> & ->). done.
Qed.
End acks.

(** The framer of libquic/net with the client's version, and with timestamps on. *)
Definition ack_writer : AckWriter.MyQuicFramer := AckWriter.mkFramer false [v43] v43 0.
Definition timing_writer : AckWriter.MyQuicFramer := AckWriter.set_process_timestamps true ack_writer.

Lemma ack_writers_agree_witness :
  let w := writer_at NETWORK_BYTE_ORDER [] buffer in
  let '(result, s) := AppendAckFrameAndTypeByte no_offset ack (mkW client w) in
  result = Some tt /\ AckWriter.AppendAckFrameAndTypeByte ack ack_writer w = Some (result, wr s).
Proof.
  cbv zeta. pose proof (ack_writers_agree no_offset client ack_writer ack (writer_at NETWORK_BYTE_ORDER [] buffer)) as H.
  destruct (AppendAckFrameAndTypeByte no_offset ack _) as [result s] eqn:E.
  split; [|apply H; [split; done|concrete|done]].
  apply (f_equal fst) in E. cbn [fst] in E. rewrite <- E. by vm_compute.
Defined.

(** All of 1 to 400 received; the time of packet 100 is to be reported. *)
Definition late_ack : QuicAckFrame := mkAckFrame 400 1000 [(100, 5000)] [mkI 1 401].

(** A receive time that lies more than 255 packets back aborts the writer of
    libquic/net: the DCHECK before the test that would return false is compiled in. *)
Theorem ack_writer_aborts :
  ack_frame_ok 43 late_ack /\
  AckWriter.AppendAckFrameAndTypeByte late_ack timing_writer (writer_at NETWORK_BYTE_ORDER [] buffer) = None.
Proof. split; [concrete|by vm_compute]. Qed.

(** [ack] in a large buffer, and in one that only holds its fixed part. *)
Definition tight : list Z := take (Z.to_nat (ack_fixed_size 43 ack)) buffer.

Lemma ack_roundtrip_witness :
  (exists type body,
    AppendAckFrameAndTypeByte no_offset ack (mkW client (writer_at NETWORK_BYTE_ORDER [] buffer)) =
      (Some tt, mkW client (writer_at NETWORK_BYTE_ORDER ([] ++ type :: body) (drop (S (length body)) buffer))) /\
    reads2 NETWORK_BYTE_ORDER (mkP server)
      (mkP (set_visitor (mkAckVisitor emptyAckFrame printed) server))
      (ProcessAckFrame type emptyAckFrame) body emptyAckFrame) /\
  (exists type body,
    AppendAckFrameAndTypeByte no_offset ack (mkW client (writer_at NETWORK_BYTE_ORDER [] tight)) =
      (Some tt, mkW client (writer_at NETWORK_BYTE_ORDER ([] ++ type :: body) (drop (S (length body)) tight))) /\
    fst (ProcessAckFrame type emptyAckFrame (mkP server (reader_at NETWORK_BYTE_ORDER [] body))) = None).
Proof.
  split.
  - destruct (ack_roundtrip no_offset NETWORK_BYTE_ORDER client server ack [] buffer)
      as (type & body & Hw & Hr & _); [concrete..|].
    exists type, body. split; [exact Hw|]. apply Hr; [right; by vm_compute|concrete].
  - destruct (ack_roundtrip no_offset NETWORK_BYTE_ORDER client server ack [] tight)
      as (type & body & Hw & _ & _ & _ & Hr); [concrete..|].
    exists type, body. split; [exact Hw|]. apply Hr; concrete.
Defined.

Lemma ack_size_bound_witness :
  exists bs, AppendAckFrameAndTypeByte no_offset ack (mkW client (writer_at NETWORK_BYTE_ORDER [] buffer)) =
      (Some tt, mkW client (writer_at NETWORK_BYTE_ORDER ([] ++ bs) (drop (length bs) buffer))) /\
    Z.of_nat (length bs) <= Z.of_nat (length buffer) /\
    (GetAckFrameSize 43 true ack <= Z.of_nat (length buffer) ->
     Z.of_nat (length bs) = GetAckFrameSize 43 true ack).
Proof. apply (ack_size_bound no_offset NETWORK_BYTE_ORDER client ack [] buffer); concrete. Defined.

(** Packets 1 to 2 and 5 to 6. *)
Definition even_ack : QuicAckFrame := mkAckFrame 6 1000 [] [mkI 1 3; mkI 5 7].

Lemma ietf_ack_roundtrip_witness :
  exists body, writes NETWORK_BYTE_ORDER (mkW client) (AppendIetfAckFrame even_ack) (IETF_ACK :: body) tt /\
    reads NETWORK_BYTE_ORDER (mkP server) (ProcessIetfAckFrame IETF_ACK emptyAckFrame) body
      (mkAckFrame 6 1000 [] [mkI 1 3; mkI 5 7]).
Proof.
  apply (ietf_ack_roundtrip NETWORK_BYTE_ORDER client server even_ack (mkI 5 7) [mkI 1 3]);
    unfold ietf_ack_ok, same_length; concrete.
Defined.

(** Packets 1 and 11 to 15. *)
Definition uneven_ack : QuicAckFrame := mkAckFrame 15 1000 [] [mkI 1 2; mkI 11 16].

(** The parser makes of it a frame that acknowledges packets 2 to 5, never received. *)
Lemma ietf_ack_overacknowledges_witness :
  exists body parsed,
    writes NETWORK_BYTE_ORDER (mkW client) (AppendIetfAckFrame uneven_ack) (IETF_ACK :: body) tt /\
    reads NETWORK_BYTE_ORDER (mkP server) (ProcessIetfAckFrame IETF_ACK emptyAckFrame) body
      (mkAckFrame 15 1000 [] parsed) /\
    mem parsed 2 /\ mem parsed 5 /\ ~ mem (packets uneven_ack) 2 /\ ~ mem (packets uneven_ack) 5.
Proof.
  destruct (ietf_ack_overacknowledges NETWORK_BYTE_ORDER client server uneven_ack (mkI 11 16) [mkI 1 2])
    as (body & parsed & Hw & Hr & _ & Hover); [unfold ietf_ack_ok; concrete..|].
  exists body, parsed. split; [exact Hw|]. split; [exact Hr|].
  destruct (Hover (mkI 11 16) (mkI 1 2) [] [] 2) as [H1 H2]; [reflexivity|cbn; lia|cbn; lia|].
  destruct (Hover (mkI 11 16) (mkI 1 2) [] [] 5) as [H3 H4]; [reflexivity|cbn; lia|cbn; lia|].
  exact (conj H1 (conj H3 (conj H2 H4))).
Defined.

(** Packets 1 to 2^39-1 and 2^40. *)
Definition wide_ack : QuicAckFrame := mkAckFrame (2 ^ 40) 1000 [] [mkI 1 (2 ^ 39); mkI (2 ^ 40) (2 ^ 40 + 1)].

(** [GetSerializedFrameLength] accepts a truncated ack whenever 10 bytes are
      free, which is less than its fixed part can take: for this frame it
      announces 12 bytes, and building the packet with 12 bytes left fails. *)
Theorem truncated_ack_does_not_fit :
  GetSerializedFrameLength (ACK_FRAME wide_ack) 12 true true PACKET_6BYTE_PACKET_NUMBER client = 12 /\
  fst (BuildDataPacket no_offset header [ACK_FRAME wide_ack] (replicate (14 + 12) 0) client) = None.
Proof. by vm_compute. Qed.

(** * IETF stream frames *)

Section ietf_stream.
Context {HM : HandshakeMessages} {VI : MyQuicFramerVisitorInterface} {CI : Ciphers}.

(** An IETF stream frame with an explicit length survives serialization and
    parsing, for every stream id, 62-bit offset, fin bit and payload. *)
Theorem ietf_stream_roundtrip e f f' frame :
  fits 32 (sf_stream_id frame) -> fits 62 (sf_offset frame) -> fits 16 (sf_data_length frame) ->
  sf_data_length frame = Z.of_nat (length (sf_data_buffer frame)) -> data_producer_ f = None ->
  exists type body, writes e (mkW f) (AppendIetfStreamFrame frame false) (type :: body) tt /\
    reads e (mkP f') (ProcessIetfStreamFrame type) body frame.
Proof.
  intros H1 H2 H3 H4 Hp. assert (Hok : ietf_stream_ok frame) by done.
  eexists _, _. split; [by apply AppendIetfStreamFrame_writes|by apply ProcessIetfStreamFrame_reads].
Qed.
End ietf_stream.

Lemma ietf_stream_roundtrip_witness :
  let frame := mkStreamFrame 9 true 100000 [7; 8] 2 in
  exists type body,
    writes HOST_BYTE_ORDER (mkW client) (AppendIetfStreamFrame frame false) (type :: body) tt /\
    reads HOST_BYTE_ORDER (mkP server) (ProcessIetfStreamFrame type) body frame.
Proof.
  apply (ietf_stream_roundtrip HOST_BYTE_ORDER client server (mkStreamFrame 9 true 100000 [7; 8] 2));
    concrete.
Defined.
