(* ===== verification/WireTheorems.v ===== *)
(** Correctness theorems of the wire encodings: variable-length integers, the
    16-bit float, packet numbers, the packet-number queue and the IETF frames. *)
From S2P Require Import Prelude.
From S2P Require Import DataReader.
From S2P Require Import DataWriter.
From S2P Require Import Encodings.
From S2P Require Import PacketNumbers.
From S2P Require Import FramerTypes.
From S2P Require Import GoogleFrames.
From S2P Require Import IetfFrames.
From S2P Require Import PacketNumberQueue.

Open Scope Z_scope.

(** [WriteVarInt62] and [ReadVarInt62] are inverse on every value below 2^62,
    in the number of bytes [GetVarInt62Len] announces; a cut-off encoding is
    refused; a larger value is refused by the writer, which stays unchanged. *)
Theorem varint62_roundtrip e v :
  fits 64 v ->
  (v < 2 ^ 62 ->
   exists bs, Z.of_nat (length bs) = GetVarInt62Len v /\ GetVarInt62Len v ∈ [1; 2; 4; 8] /\
     writes e id (WriteVarInt62 v) bs tt /\ reads e id ReadVarInt62 bs v) /\
  (2 ^ 62 <= v -> forall w, WriteVarInt62 v w = (None, w)).
Proof.
  intros Hv. unfold fits in Hv. split.
  - intros Hlt. exists (varint62_bytes v).
    pose proof (length_varint62_bytes v ltac:(unfold fits; lia)) as Hl. split_and!.
    + exact Hl.
    + rewrite <- Hl. unfold varint62_bytes. repeat case_match; cbn; repeat constructor.
    + apply WriteVarInt62_writes. unfold fits. lia.
    + apply ReadVarInt62_reads. unfold fits. lia.
  - intros Hge w. apply WriteVarInt62_too_big; [unfold fits|]; lia.
Qed.

Lemma varint62_roundtrip_witness :
  (15293 < 2 ^ 62 ->
   exists bs, Z.of_nat (length bs) = 2 /\ 2 ∈ [1; 2; 4; 8] /\
     writes NETWORK_BYTE_ORDER id (WriteVarInt62 15293) bs tt /\
     reads NETWORK_BYTE_ORDER id ReadVarInt62 bs 15293) /\
  (2 ^ 62 <= 15293 -> forall w, WriteVarInt62 15293 w = (None, w)).
Proof. apply (varint62_roundtrip NETWORK_BYTE_ORDER 15293). unfold fits. lia. Defined.

(** [WriteUFloat16] then [ReadUFloat16] keeps values below 2^12 exactly, loses
    less than one part in 2^11 of larger ones, never rounds up, and saturates at
    the largest representable value. *)
Theorem ufloat16_roundtrip e v :
  0 <= v ->
  exists d, writes e id (WriteUFloat16 v) (wire_uint e 2 (ufloat16_encode v)) tt /\
    reads e id ReadUFloat16 (wire_uint e 2 (ufloat16_encode v)) d /\
    (v < 2 ^ 12 -> d = v) /\
    (2 ^ 12 <= v < kUFloat16MaxValue -> d <= v /\ (v - d) * 2 ^ 11 < v) /\
    (kUFloat16MaxValue <= v -> d = kUFloat16MaxValue).
Proof.
  intros Hv. exists (ufloat16_decode (ufloat16_encode v)).
  split; [apply WriteUFloat16_writes|].
  split; [by apply ReadUFloat16_reads, ufloat16_encode_fits|by apply ufloat16_precision].
Qed.

Lemma ufloat16_roundtrip_witness :
  exists d, writes HOST_BYTE_ORDER id (WriteUFloat16 123456) (wire_uint HOST_BYTE_ORDER 2 (ufloat16_encode 123456)) tt /\
    reads HOST_BYTE_ORDER id ReadUFloat16 (wire_uint HOST_BYTE_ORDER 2 (ufloat16_encode 123456)) d /\
    (123456 < 2 ^ 12 -> d = 123456) /\
    (2 ^ 12 <= 123456 < kUFloat16MaxValue -> d <= 123456 /\ (123456 - d) * 2 ^ 11 < 123456) /\
    (kUFloat16MaxValue <= 123456 -> d = kUFloat16MaxValue).
Proof. apply (ufloat16_roundtrip HOST_BYTE_ORDER 123456). lia. Defined.

(** C22: [CalculatePacketNumberFromWire] returns, of all packet numbers with the
    truncated value received, one nearest to the number expected next; when the
    true number is less than half an epoch away it is the one returned. *)
Theorem packet_number_recovery len base pn wire :
  len ∈ [1; 2; 4; 6] -> 0 <= base < 2 ^ 62 -> 0 <= wire < 2 ^ (8 * len) ->
  let r := CalculatePacketNumberFromWire len base wire in
  r mod 2 ^ (8 * len) = wire /\
  (forall x, 0 <= x -> x mod 2 ^ (8 * len) = wire -> Z.abs (r - (base + 1)) <= Z.abs (x - (base + 1))) /\
  (0 <= pn -> pn mod 2 ^ (8 * len) = wire -> 2 * Z.abs (pn - (base + 1)) < 2 ^ (8 * len) -> r = pn).
Proof.
  intros Hl Hb Hw r.
  assert (Hr : r = closest_in_epochs (u64 (Z.shiftl 1 (8 * len))) base (base + 1) wire).
  { unfold r, CalculatePacketNumberFromWire. by rewrite (wrap_small 64 (base + 1)) by (unfold fits; lia). }
  destruct (closest_in_epochs_nearest len base (base + 1) wire Hl Hb ltac:(lia) Hw) as (_ & H1 & H2).
  rewrite <- Hr in *. split_and!; [done|done|]. intros Hp <- Hn. by apply CalculatePacketNumberFromWire_exact.
Qed.

Lemma packet_number_recovery_witness :
  let r := CalculatePacketNumberFromWire 1 1000 (1100 mod 256) in
  r mod 2 ^ (8 * 1) = 1100 mod 256 /\
  (forall x, 0 <= x -> x mod 2 ^ (8 * 1) = 1100 mod 256 -> Z.abs (r - (1000 + 1)) <= Z.abs (x - (1000 + 1))) /\
  (0 <= 1100 -> 1100 mod 2 ^ (8 * 1) = 1100 mod 256 -> 2 * Z.abs (1100 - (1000 + 1)) < 2 ^ (8 * 1) -> r = 1100).
Proof.
  apply (packet_number_recovery 1 1000 1100 (1100 mod 256)); [by constructor|lia|]. vm_compute. split; congruence.
Defined.

(** The width [GetMinSeqLength] chooses for a sequence number below 2^48 holds
    it, is the narrowest that does, and comes back from the flag bits of
    [GetPacketNumberFlags] through [ReadSequenceNumberLength]. *)
Theorem min_sequence_length pn :
  0 <= pn < 2 ^ 48 ->
  pn < 256 ^ Header.GetMinSeqLength pn /\
  (forall l, l ∈ [1; 2; 4] -> pn < 256 ^ l -> Header.GetMinSeqLength pn <= l) /\
  Header.ReadSequenceNumberLength (Header.GetPacketNumberFlags (Header.GetMinSeqLength pn)) =
    Header.GetMinSeqLength pn.
Proof.
  intros Hp. split_and!; [by apply Header.GetMinSeqLength_enough| |apply Header.flags_roundtrip].
  intros l Hl Hb. apply Header.GetMinSeqLength_minimal; auto. lia.
Qed.

Lemma min_sequence_length_witness :
  70000 < 256 ^ Header.GetMinSeqLength 70000 /\
  (forall l, l ∈ [1; 2; 4] -> 70000 < 256 ^ l -> Header.GetMinSeqLength 70000 <= l) /\
  Header.ReadSequenceNumberLength (Header.GetPacketNumberFlags (Header.GetMinSeqLength 70000)) = 4.
Proof. apply (min_sequence_length 70000). lia. Defined.

(** C23: [PacketNumberQueue::Add] keeps the intervals ordered, disjoint and merged,
    and the queue then holds the added number besides what it held before. *)
Theorem queue_add pn d :
  wf d -> 0 <= pn < 2 ^ 64 - 1 ->
  wf (Add pn d) /\ (forall x, Contains x (Add pn d) = true <-> x = pn \/ Contains x d = true).
Proof.
  intros Hwf Hp. assert (Ha : adds (eq pn) (-1) d (Add pn d)).
  { apply Add_adds; [lia|unfold fits; lia|apply Hwf]. }
  split; [eapply wf_of_adds; [done|exact Ha|]; intros x <-; lia|]. intros x.
  destruct Ha as [Hw Hm]. rewrite !Contains_spec, Hm by (done || apply Hwf). intuition congruence.
Qed.

Lemma queue_add_witness :
  wf (Add 3 [mkI 1 3; mkI 4 6]) /\
  (forall x, Contains x (Add 3 [mkI 1 3; mkI 4 6]) = true <->
             x = 3 \/ Contains x [mkI 1 3; mkI 4 6] = true).
Proof.
  apply (queue_add 3 [mkI 1 3; mkI 4 6]); [|lia].
  split; [cbn; lia|]. repeat constructor; cbn; lia.
Defined.

(** C24: [PacketNumberQueue::RemoveUpTo] drops exactly the numbers below the bound,
    keeps the queue well formed, and reports whether its minimum changed. *)
Theorem queue_remove_up_to higher d :
  wf d ->
  let '(changed, d') := RemoveUpTo higher d in
  wf d' /\ (forall x, Contains x d' = true <-> Contains x d = true /\ higher <= x) /\
  (changed = true <-> d <> [] /\ (d' = [] \/ Min d <> Min d')).
Proof.
  intros [Hwf Hb]. unfold RemoveUpTo. destruct d as [|iv d]; cbn [Empty].
  { split_and!; [done|intros x; cbn; intuition congruence|intuition congruence]. }
  destruct (RemoveUpTo_loop_spec higher (-1) (iv :: d) Hwf) as [Hw Hm].
  set (d' := RemoveUpTo_loop higher (iv :: d)) in *.
  assert (Hwf' : wf d').
  { split; [done|]. eapply Forall_impl; [apply (wf_ends (-1) d' (2 ^ 64 - 1) Hw)|cbn; intros; lia].
    intros x [Hx _]%Hm. apply Exists_exists in Hx as (jv & Hin & Hx).
    rewrite Forall_forall in Hb. specialize (Hb _ Hin). unfold in_iv in Hx. cbn in Hb. lia. }
  split_and!; [done| |].
  - intros x. by rewrite !Contains_spec, Hm.
  - rewrite orb_true_iff, negb_true_iff, Z.eqb_neq. destruct d'; cbn [Empty]; intuition congruence.
Qed.

Lemma queue_remove_up_to_witness :
  let '(changed, d') := RemoveUpTo 2 [mkI 1 3; mkI 4 6] in
  wf d' /\ (forall x, Contains x d' = true <-> Contains x [mkI 1 3; mkI 4 6] = true /\ 2 <= x) /\
  (changed = true <-> [mkI 1 3; mkI 4 6] <> [] /\ (d' = [] \/ Min [mkI 1 3; mkI 4 6] <> Min d')).
Proof.
  apply (queue_remove_up_to 2 [mkI 1 3; mkI 4 6]).
  split; [cbn; lia|]. repeat constructor; cbn; lia.
Defined.
