(* ===== verification/QuicUnits.v ===== *)
(** Times, bandwidths and the floating-point arithmetic of the congestion
    controllers: quic_time.h, quic_bandwidth.h, and IEEE-754 single and double
    precision as far as the gains use it.

    A [QuicTime] and a [QuicTime::Delta] are their [int64_t] microseconds, a
    [QuicBandwidth] its [int64_t] bits per second.  Signed overflow, undefined in
    C++, is modelled by two's-complement wrap-around. *)
From Stdlib Require Export Floats.SpecFloat.
From S2P Require Import Prelude.

Open Scope Z_scope.

(** * Floating point *)

(** The conversions of integers, rounded to nearest even. *)
Definition f32_of_Z (z : Z) : spec_float := binary_normalize 24 128 z 0 false.
Definition f64_of_Z (z : Z) : spec_float := binary_normalize 53 1024 z 0 false.

Definition f32_mul : spec_float -> spec_float -> spec_float := SFmul 24 128.
Definition f64_mul : spec_float -> spec_float -> spec_float := SFmul 53 1024.

(** The [double] a decimal literal [n / d] denotes, [n] and [d] below 2^53: the
    correctly rounded quotient. *)
Definition literal (n d : Z) : spec_float := SFdiv 53 1024 (f64_of_Z n) (f64_of_Z d).

(** A value moved to another precision. *)
Definition reround (prec emax : Z) (x : spec_float) : spec_float :=
  match x with
  | S754_finite s m e => binary_normalize prec emax (cond_Zopp s (Zpos m)) e s
  | _ => x
  end.

(** [static_cast<float>] of a [double], and the exact way back. *)
Definition narrow : spec_float -> spec_float := reround 24 128.
Definition widen : spec_float -> spec_float := reround 53 1024.

(** [std::llround]: to the nearest integer, halves away from zero.  A value that
    has no [int64_t] gives the "integer indefinite" of the x86-64 conversion. *)
Definition llround (x : spec_float) : Z :=
  match x with
  | S754_zero _ => 0
  | S754_finite s m e =>
    let magnitude := if 0 <=? e then Zpos m * 2 ^ e else (Zpos m + 2 ^ (- e - 1)) / 2 ^ (- e) in
    let value := cond_Zopp s magnitude in
    if (- 2 ^ 63 <=? value) && (value <? 2 ^ 63) then value else - 2 ^ 63
  | _ => - 2 ^ 63
  end.

(** Conversion to [uint64_t], toward zero; undefined outside its range. *)
Definition f32_to_u64 (x : spec_float) : Z :=
  match x with
  | S754_finite s m e =>
    u64 (cond_Zopp s (if 0 <=? e then Zpos m * 2 ^ e else Zpos m / 2 ^ (- e)))
  | _ => 0
  end.

(** * Times *)

Definition kQuicInfiniteTimeUs : Z := 2 ^ 63 - 1.
Definition FromSeconds (secs : Z) : Z := i64 (secs * 1000 * 1000).
Definition FromMilliseconds (ms : Z) : Z := i64 (ms * 1000).
Definition ToMilliseconds (delta : Z) : Z := Z.quot delta 1000.

(** [operator+] and [operator-] of times and deltas, [int * Delta], [double * Delta]. *)
Definition time_add (t d : Z) : Z := i64 (t + d).
Definition time_sub (t1 t2 : Z) : Z := i64 (t1 - t2).
Definition delta_mul_int (k d : Z) : Z := i64 (k * d).
Definition delta_mul (d : Z) (factor : spec_float) : Z := llround (f64_mul (f64_of_Z d) factor).

(** * Bandwidths *)

Definition kNumMicrosPerSecond : Z := 1000 * 1000.

(** The constructor: negative rates become zero. *)
Definition QuicBandwidth (bits_per_second : Z) : Z :=
  let bits_per_second := i64 bits_per_second in
  if 0 <=? bits_per_second then bits_per_second else 0.

Definition BandwidthInfinite : Z := 2 ^ 63 - 1.

(** Division by a zero delta traps: [None]. *)
Definition FromBytesAndTimeDelta (bytes delta : Z) : option Z :=
  if u64 delta =? 0 then None
  else Some (QuicBandwidth (u64 (u64 (bytes * kNumMicrosPerSecond) / u64 delta * 8))).

Definition ToKBitsPerSecond (bw : Z) : Z := Z.quot bw 1000.
Definition ToBytesPerSecond (bw : Z) : Z := Z.quot bw 8.

Definition ToBytesPerPeriod (bw time_period : Z) : Z :=
  u64 (i64 (ToBytesPerSecond bw * time_period)) / kNumMicrosPerSecond.

Definition TransferTime (bw bytes : Z) : Z :=
  if bw =? 0 then 0 else i64 (u64 (bytes * 8 * kNumMicrosPerSecond) / u64 bw).

(** [operator*] of a bandwidth and a [float]. *)
Definition bandwidth_mul (bw : Z) (factor : spec_float) : Z :=
  QuicBandwidth (llround (f32_mul (f32_of_Z bw) factor)).

(** * Ranges *)

(** [x] is a value of [int64_t]. *)
Definition sfits (x : Z) : Prop := - 2 ^ 63 <= x < 2 ^ 63.

(** A bandwidth value: what the constructor can leave. *)
Definition bandwidth_ok (bw : Z) : Prop := 0 <= bw < 2 ^ 63.

Lemma swrap_small x : sfits x -> i64 x = x.
Proof.
  unfold sfits, swrap, wrap. intros H. change (2 ^ (64 - 1)) with (2 ^ 63).
  destruct (decide (0 <= x)).
  - rewrite Z.mod_small by lia. zcases.
  - replace (x mod 2 ^ 64) with (x + 2 ^ 64)
      by (apply (Z.mod_unique_pos _ _ (-1)); lia). zcases.
Qed.

Lemma swrap_sfits x : sfits (i64 x).
Proof.
  unfold sfits, swrap, wrap. change (2 ^ (64 - 1)) with (2 ^ 63).
  assert (0 <= x mod 2 ^ 64 < 2 ^ 64) by (apply Z.mod_pos_bound; lia). zcases.
Qed.

Lemma u64_swrap x : u64 (i64 x) = u64 x.
Proof.
  unfold swrap, wrap. zcases; [apply Z.mod_mod; lia|].
  rewrite <- Zminus_mod_idemp_r, Z.mod_same, Z.sub_0_r by lia. apply Z.mod_mod. lia.
Qed.

Lemma QuicBandwidth_ok x : bandwidth_ok (QuicBandwidth x).
Proof. unfold QuicBandwidth, bandwidth_ok. pose proof (swrap_sfits x). unfold sfits in *. zcases. Qed.

Lemma bandwidth_mul_ok bw g : bandwidth_ok (bandwidth_mul bw g).
Proof. apply QuicBandwidth_ok. Qed.

Lemma FromBytesAndTimeDelta_ok bytes delta bw :
  FromBytesAndTimeDelta bytes delta = Some bw -> bandwidth_ok bw.
Proof. unfold FromBytesAndTimeDelta. case_match; [done|]. intros [= <-]. apply QuicBandwidth_ok. Qed.

(** A difference of distinct times never traps, even where it overflows. *)
Lemma FromBytesAndTimeDelta_defined bytes t1 t2 :
  sfits t1 -> sfits t2 -> t1 <> t2 -> is_Some (FromBytesAndTimeDelta bytes (time_sub t1 t2)).
Proof.
  unfold sfits, FromBytesAndTimeDelta, time_sub. intros H1 H2 Hne. rewrite u64_swrap.
  destruct (Z.eqb_spec (u64 (t1 - t2)) 0) as [E|]; [|eauto].
  unfold wrap in E. apply Z.mod_divide in E; [|lia]. destruct E as [k E]. nia.
Qed.

(** Without overflow the rate is at most the bytes over the time, in bits per
    second, and less than eight bits per second below it. *)
Lemma FromBytesAndTimeDelta_value bytes delta :
  0 < delta < 2 ^ 63 -> 0 <= bytes * kNumMicrosPerSecond * 8 < 2 ^ 63 ->
  FromBytesAndTimeDelta bytes delta = Some (bytes * kNumMicrosPerSecond / delta * 8).
Proof.
  unfold FromBytesAndTimeDelta, kNumMicrosPerSecond. intros Hd Hb.
  assert (0 <= bytes) by lia.
  assert (0 <= bytes * (1000 * 1000) / delta <= bytes * (1000 * 1000)).
  { split; [apply Z.div_pos; lia|]. apply Z.div_le_upper_bound; nia. }
  rewrite !(wrap_small 64) by (unfold fits; rewrite ?(wrap_small 64) by (unfold fits; lia); lia).
  destruct (Z.eqb_spec delta 0); [lia|]. f_equal. unfold QuicBandwidth.
  rewrite swrap_small by (unfold sfits; lia). zcases.
Qed.

(** The time a packet takes at a rate, without overflow. *)
Lemma TransferTime_value bw bytes :
  bandwidth_ok bw -> 0 < bw -> 0 <= bytes -> bytes * 8 * kNumMicrosPerSecond < 2 ^ 63 ->
  TransferTime bw bytes = bytes * 8 * kNumMicrosPerSecond / bw.
Proof.
  unfold bandwidth_ok, TransferTime, kNumMicrosPerSecond. intros Hbw Hpos Hb Hs.
  destruct (Z.eqb_spec bw 0); [lia|]. rewrite !(wrap_small 64) by (unfold fits; lia).
  apply swrap_small. unfold sfits. split; [|apply Z.div_lt_upper_bound; nia].
  pose proof (Z.div_pos (bytes * 8 * (1000 * 1000)) bw). lia.
Qed.
