(* ===== verification/WindowedFilter.v ===== *)
(** The windowed min/max filter of congestion_control/windowed_filter.h, with
    [uint64_t] times (round-trip counts), as the controllers instantiate it. *)
From S2P Require Import Prelude.

Open Scope Z_scope.

(** * The comparison a filter is built with *)

(** [Compare()(lhs, rhs)]: [lhs] is at least as good as [rhs]. *)
Class Compare (T : Type) := {
  better : T -> T -> bool;
  better_total x y : better x y = true \/ better y x = true;
  better_trans x y z : better x y = true -> better y z = true -> better x z = true;
}.

(** windowed_filter.h:41-51 *)
#[refine] Definition MaxFilter : Compare Z := {| better lhs rhs := rhs <=? lhs |}.
Proof.
  - intros x y. destruct (Z.leb_spec y x); [by left|right; lia].
  - intros x y z ??. zbool. lia.
Defined.

#[refine] Definition MinFilter : Compare Z := {| better lhs rhs := lhs <=? rhs |}.
Proof.
  - intros x y. destruct (Z.leb_spec x y); [by left|right; lia].
  - intros x y z ??. zbool. lia.
Defined.

Section filter.
Context {T : Type} {T_eq : EqDecision T} {C : Compare T}.

Record Sample := mkSample { sample : T; time : Z }.

Record WindowedFilter := mkFilter {
  window_length_ : Z;
  zero_value_ : T;
  estimate0 : Sample;
  estimate1 : Sample;
  estimate2 : Sample;
}.

Definition WindowedFilter_ctor (window_length : Z) (zero_value : T) (zero_time : Z) : WindowedFilter :=
  let s := mkSample zero_value zero_time in mkFilter window_length zero_value s s s.

Definition SetWindowLength (window_length : Z) (f : WindowedFilter) : WindowedFilter :=
  mkFilter window_length (zero_value_ f) (estimate0 f) (estimate1 f) (estimate2 f).

Definition Reset (new_sample : T) (new_time : Z) (f : WindowedFilter) : WindowedFilter :=
  let s := mkSample new_sample new_time in mkFilter (window_length_ f) (zero_value_ f) s s s.

(** [new_time - e.time > bound], on unsigned times. *)
Definition older (new_time : Z) (e : Sample) (bound : Z) : bool := bound <? u64 (new_time - time e).

(** The first step: the second and third best take the new sample when it beats them. *)
Definition take_sample (s e1 e2 : Sample) : Sample * Sample :=
  if better (sample s) (sample e1) then (s, s)
  else if better (sample s) (sample e2) then (e1, s) else (e1, e2).

Definition Update (new_sample : T) (new_time : Z) (f : WindowedFilter) : WindowedFilter :=
  let s := mkSample new_sample new_time in
  let w := window_length_ f in
  let with_estimates := mkFilter w (zero_value_ f) in
  let e0 := estimate0 f in
  if bool_decide (sample e0 = zero_value_ f) || better new_sample (sample e0)
     || older new_time (estimate2 f) w
  then Reset new_sample new_time f
  else
    let '(e1, e2) := take_sample s (estimate1 f) (estimate2 f) in
    if older new_time e0 w then
      if older new_time e1 w then with_estimates e2 s s
      else with_estimates e1 e2 s
    else if bool_decide (sample e1 = sample e0) && older new_time e1 (Z.shiftr w 2)
    then with_estimates e0 s s
    else if bool_decide (sample e2 = sample e1) && older new_time e2 (Z.shiftr w 1)
    then with_estimates e0 e1 s
    else with_estimates e0 e1 e2.

Definition GetBest (f : WindowedFilter) : T := sample (estimate0 f).
Definition GetSecondBest (f : WindowedFilter) : T := sample (estimate1 f).
Definition GetThirdBest (f : WindowedFilter) : T := sample (estimate2 f).

(** * What an estimate stands for *)

(** The filter after the samples of a history, oldest first. *)
Definition run (f : WindowedFilter) (h : list Sample) : WindowedFilter :=
  fold_left (fun f s => Update (sample s) (time s) f) h f.

(** [e] is a sample of the history, at least as good as every later one. *)
Definition covers (h : list Sample) (e : Sample) : Prop :=
  exists h1 h2, h = h1 ++ e :: h2 /\ Forall (fun s => better (sample e) (sample s) = true) h2.

(** Histories of times the clock can produce: non-decreasing [uint64_t]s. *)
Fixpoint clocked (from : Z) (h : list Sample) : Prop :=
  match h with
  | [] => True
  | s :: h => from <= time s < 2 ^ 64 /\ clocked (time s) h
  end.

Lemma covers_new h s : covers (h ++ [s]) s.
Proof. exists h, []. by split. Qed.

Lemma covers_old h s e :
  covers h e -> better (sample e) (sample s) = true -> covers (h ++ [s]) e.
Proof.
  intros (h1 & h2 & -> & Hd) Hb. exists h1, (h2 ++ [s]). split; [by rewrite <- app_assoc|].
  apply Forall_app. by split; [|constructor].
Qed.

Lemma not_better x y : better x y = false -> better y x = true.
Proof. intros H. destruct (better_total x y); congruence. Qed.

Lemma better_refl x : better x x = true.
Proof. by destruct (better_total x x). Qed.

(** Invariant: the estimates cover the history, in order, and the best one was
    recorded within the window. *)
Record filter_ok (h : list Sample) (now : Z) (f : WindowedFilter) : Prop := {
  covers0 : covers h (estimate0 f);
  covers1 : covers h (estimate1 f);
  covers2 : covers h (estimate2 f);
  ordered01 : better (GetBest f) (GetSecondBest f) = true;
  ordered12 : better (GetSecondBest f) (GetThirdBest f) = true;
  recent0 : older now (estimate0 f) (window_length_ f) = false;
}.

Lemma older_now s w : 0 <= w -> older (time s) s w = false.
Proof. unfold older. intros Hw. rewrite Z.sub_diag. cbn. apply Z.ltb_ge. done. Qed.

Lemma Reset_ok h x t f :
  0 <= window_length_ f -> filter_ok (h ++ [mkSample x t]) t (Reset x t f).
Proof.
  intros Hw. split; try apply covers_new; try apply better_refl.
  apply (older_now (mkSample x t)), Hw.
Qed.

(** The estimates after the first step: still covering, in order, and the third
    one is fresh or unchanged. *)
Lemma take_sample_ok h s e0 e1 e2 e1' e2' :
  covers h e1 -> covers h e2 ->
  better (sample e0) (sample e1) = true -> better (sample e1) (sample e2) = true ->
  better (sample s) (sample e0) = false -> take_sample s e1 e2 = (e1', e2') ->
  covers (h ++ [s]) e1' /\ covers (h ++ [s]) e2' /\
  better (sample e0) (sample e1') = true /\ better (sample e1') (sample e2') = true /\
  better (sample e2') (sample s) = true /\ (e2' = s \/ e2' = e2).
Proof.
  intros H1 H2 H01 H12 Hs. unfold take_sample.
  destruct (better (sample s) (sample e1)) eqn:E1; [|destruct (better (sample s) (sample e2)) eqn:E2];
    intros [= <- <-]; split_and!; auto using covers_new, covers_old, not_better, better_refl.
Qed.

Lemma Update_ok h now x t f :
  filter_ok h now f -> 0 <= window_length_ f ->
  filter_ok (h ++ [mkSample x t]) t (Update x t f).
Proof.
  intros [H0 H1 H2 H01 H12 _] Hw. unfold Update.
  destruct (bool_decide _ || _ || _) eqn:Er; [by apply Reset_ok|].
  apply orb_false_iff in Er as [Er Hold]. apply orb_false_iff in Er as [_ Hbest].
  destruct (take_sample _ _ _) as [e1 e2] eqn:Et.
  destruct (take_sample_ok h (mkSample x t) (estimate0 f) _ _ e1 e2 H1 H2 H01 H12 Hbest Et)
    as (C1 & C2 & B01 & B12 & B2 & E2).
  assert (C0 := covers_old _ (mkSample x t) _ H0 (not_better _ _ Hbest)).
  assert (Bs0 := not_better _ _ Hbest). cbn in Bs0, B2.
  assert (Hnew := older_now (mkSample x t) _ Hw). cbn in Hnew.
  assert (H2' : older t e2 (window_length_ f) = false) by (by destruct E2 as [-> | ->]).
  repeat case_match; split; cbn; auto using covers_new, better_refl.
  all: try (by eapply better_trans).
Qed.

Lemma Update_window x t f : window_length_ (Update x t f) = window_length_ f.
Proof. unfold Update. destruct (_ || _); [done|]. destruct (take_sample _ _ _). by repeat case_match. Qed.

(** The first sample of a fresh filter replaces the zero value. *)
Lemma first_Update_ok w z t0 x t :
  0 <= w -> filter_ok [mkSample x t] t (Update x t (WindowedFilter_ctor w z t0)).
Proof. intros Hw. unfold Update. cbn. rewrite bool_decide_eq_true_2 by done. by apply (Reset_ok []). Qed.

Lemma run_ok w z t0 h s :
  0 <= w ->
  let f := run (WindowedFilter_ctor w z t0) (h ++ [s]) in
  filter_ok (h ++ [s]) (time s) f /\ window_length_ f = w.
Proof.
  intros Hw. revert s. induction h as [|s' h IH] using rev_ind; intros s.
  - split; [|apply Update_window]. destruct s as [x t]. by apply first_Update_ok.
  - unfold run in *. rewrite fold_left_app. cbn [fold_left].
    destruct (IH s') as [Hok Hwin]. split; [|by rewrite Update_window].
    destruct s as [x t]. apply (Update_ok _ _ _ _ _ Hok). by rewrite Hwin.
Qed.

(** On a clock that does not go back, "recorded within the window" is what it says. *)
Lemma clocked_ge from h e : clocked from h -> e ∈ h -> from <= time e < 2 ^ 64.
Proof.
  induction h as [|s h IH] in from |- *; intros Hc He; [by apply elem_of_nil in He|].
  cbn in Hc. destruct Hc as [Hs Hc]. apply elem_of_cons in He as [-> | He]; [done|].
  specialize (IH _ Hc He). lia.
Qed.

Lemma clocked_app from h1 h2 : clocked from (h1 ++ h2) -> exists from', from <= from' /\ clocked from' h2.
Proof.
  induction h1 as [|s h1 IH] in from |- *; cbn; [intros H; exists from; split; [lia|done]|].
  intros [? (from' & ? & ?)%IH]. exists from'. split; [lia|done].
Qed.

Lemma older_spec h s w e :
  clocked 0 (h ++ [s]) -> e ∈ h ++ [s] -> older (time s) e w = false ->
  time s - w <= time e <= time s.
Proof.
  intros Hc He. assert (Hs : 0 <= time s < 2 ^ 64) by (eapply clocked_ge; [done|apply elem_of_app; right; by left]).
  assert (Hb : 0 <= time e <= time s).
  { apply elem_of_app in He as [He | He%list_elem_of_singleton]; [|subst; lia].
    apply list_elem_of_split in He as (h1 & h2 & ->). rewrite <- app_assoc in Hc.
    apply clocked_app in Hc as (from & ? & Hc). cbn in Hc. destruct Hc as [? Hc].
    pose proof (clocked_ge _ _ s Hc ltac:(apply elem_of_app; right; by left)). lia. }
  unfold older. rewrite wrap_small by (unfold fits; lia). intros. zbool. lia.
Qed.
End filter.

Arguments Sample T : clear implicits.
Arguments WindowedFilter T : clear implicits.
