(* ===== verification/Sampler.v ===== *)
(** The bandwidth sampler of delay-bbr/sampler.{h,cc}: a snapshot of the counters
    is taken when a packet is sent, and its acknowledgement yields the smaller of
    the send rate and the ack rate since that snapshot. *)
From stdpp Require Export gmap fin_maps.
From coqutil Require Export Datatypes.RecordSettersUsingExistingGetters.
From S2P Require Import Prelude.
From S2P Require Import QuicUnits.

Open Scope Z_scope.

(** A field that was just assigned reads as the assigned value. *)
#[global] Arguments RecordSettersUsingExistingGetters.const {E} newValue _ /.

(** [std::map::insert]: an existing entry stays. *)
Definition map_emplace {A} (k : Z) (v : A) (m : gmap Z A) : gmap Z A :=
  match m !! k with Some _ => m | None => <[k := v]> m end.

Module MySampler.

Record PacketState := mkPacketState {
  sent_time : Z;
  size : Z;
  total_bytes_sent : Z;
  total_bytes_sent_at_last_acked_packet : Z;
  last_acked_packet_sent_time : Z;
  last_acked_packet_ack_time : Z;
  total_bytes_acked_at_the_last_acked_packet : Z;
}.

Record MySampler := mkSampler {
  total_bytes_sent_ : Z;
  total_bytes_acked_ : Z;
  total_bytes_sent_at_last_acked_packet_ : Z;
  last_acked_packet_sent_time_ : Z;
  last_acked_packet_ack_time_ : Z;
  last_sent_packet_ : Z;
  packet_infos_ : gmap Z PacketState;
}.

Definition MySampler_ctor : MySampler := mkSampler 0 0 0 0 0 0 ∅.

(** The snapshot constructor. *)
Definition PacketState_ctor (sent_time size : Z) (sampler : MySampler) : PacketState :=
  mkPacketState sent_time size (total_bytes_sent_ sampler)
    (total_bytes_sent_at_last_acked_packet_ sampler) (last_acked_packet_sent_time_ sampler)
    (last_acked_packet_ack_time_ sampler) (total_bytes_acked_ sampler).

Definition OnPacketSent (sent_time packet_number bytes bytes_in_flight : Z) (s : MySampler) : MySampler :=
  let s := s <| total_bytes_sent_ := u64 (total_bytes_sent_ s + bytes) |> in
  let s :=
    if bytes_in_flight =? 0 then
      s <| last_acked_packet_ack_time_ := sent_time |>
        <| total_bytes_sent_at_last_acked_packet_ := total_bytes_sent_ s |>
        <| last_acked_packet_sent_time_ := sent_time |>
    else s in
  let state := PacketState_ctor sent_time bytes s in
  s <| packet_infos_ := map_emplace packet_number state (packet_infos_ s) |>.

Definition GetPacketInfoEntry (seq : Z) (s : MySampler) : option PacketState := packet_infos_ s !! seq.

Definition PacketInfoRemove (seq : Z) (s : MySampler) : MySampler :=
  s <| packet_infos_ := delete seq (packet_infos_ s) |>.

Definition OnPacketLost (packet_number : Z) (s : MySampler) : MySampler :=
  PacketInfoRemove packet_number s.

(** The send rate since the snapshot; [Infinite] when no time has passed. *)
Definition send_rate_of (sent_packet : PacketState) : option Z :=
  if last_acked_packet_sent_time sent_packet <? sent_time sent_packet then
    FromBytesAndTimeDelta
      (u64 (total_bytes_sent sent_packet - total_bytes_sent_at_last_acked_packet sent_packet))
      (time_sub (sent_time sent_packet) (last_acked_packet_sent_time sent_packet))
  else Some BandwidthInfinite.

(** [None] is a division by zero. *)
Definition OnPacketAcknowledgedInner (ack_time packet_number : Z) (sent_packet : PacketState)
    (round_update : bool) (s : MySampler) : option (Z * MySampler) :=
  let s := s <| total_bytes_acked_ := u64 (total_bytes_acked_ s + size sent_packet) |>
             <| total_bytes_sent_at_last_acked_packet_ := total_bytes_sent sent_packet |>
             <| last_acked_packet_sent_time_ := sent_time sent_packet |>
             <| last_acked_packet_ack_time_ := ack_time |> in
  if negb round_update then Some (0, s)
  else if last_acked_packet_sent_time sent_packet =? 0 then Some (0, s)
  else
    send_rate ← send_rate_of sent_packet;
    if ack_time <=? last_acked_packet_ack_time sent_packet then Some (0, s)
    else
      ack_rate ← FromBytesAndTimeDelta
        (u64 (total_bytes_acked_ s - total_bytes_acked_at_the_last_acked_packet sent_packet))
        (time_sub ack_time (last_acked_packet_ack_time sent_packet));
      Some (Z.min send_rate ack_rate, s).

Definition OnPacketAcknowledged (ack_time packet_number : Z) (round_update : bool) (s : MySampler)
    : option (Z * MySampler) :=
  match GetPacketInfoEntry packet_number s with
  | None => Some (0, s)
  | Some state =>
    '(bw, s) ← OnPacketAcknowledgedInner ack_time packet_number state round_update s;
    Some (bw, PacketInfoRemove packet_number s)
  end.

(** * The counters *)

(** Bytes sent and neither acknowledged nor given up. *)
Definition outstanding (m : gmap Z PacketState) : Z := map_fold (fun _ p n => size p + n) 0 m.

Record packet_ok (s : MySampler) (p : PacketState) : Prop := {
  size_nonneg : 0 <= size p;
  sent_before : 0 <= total_bytes_sent_at_last_acked_packet p <= total_bytes_sent p;
  sent_total : total_bytes_sent p <= total_bytes_sent_ s;
  acked_total : 0 <= total_bytes_acked_at_the_last_acked_packet p <= total_bytes_acked_ s;
  times_fit : sfits (sent_time p) /\ sfits (last_acked_packet_sent_time p) /\
              sfits (last_acked_packet_ack_time p);
}.

(** What is acknowledged was sent, once. *)
Record sampler_ok (s : MySampler) : Prop := {
  conservation : total_bytes_acked_ s + outstanding (packet_infos_ s) <= total_bytes_sent_ s;
  sent_fits : total_bytes_sent_ s < 2 ^ 64;
  acked_nonneg : 0 <= total_bytes_acked_ s;
  last_acked_sent : 0 <= total_bytes_sent_at_last_acked_packet_ s <= total_bytes_sent_ s;
  clock_fits : sfits (last_acked_packet_sent_time_ s) /\ sfits (last_acked_packet_ack_time_ s);
  packets_ok : map_Forall (fun _ => packet_ok s) (packet_infos_ s);
}.

Lemma outstanding_insert m k p : m !! k = None -> outstanding (<[k := p]> m) = size p + outstanding m.
Proof. intros H. unfold outstanding. apply (map_fold_insert_L (fun _ p n => size p + n)); [lia|done]. Qed.

Lemma outstanding_delete m k p : m !! k = Some p -> outstanding m = size p + outstanding (delete k m).
Proof. intros H. unfold outstanding. apply (map_fold_delete_L (fun _ p n => size p + n)); [lia|done]. Qed.

Lemma outstanding_nonneg m : map_Forall (fun _ p => 0 <= size p) m -> 0 <= outstanding m.
Proof.
  intros Hm. unfold outstanding. induction m as [|k p m Hk IH] using map_ind; [done|].
  apply map_Forall_insert in Hm as [? Hm]; [|done]. rewrite (map_fold_insert_L (fun _ p n => size p + n)) by (done || lia).
  specialize (IH Hm). lia.
Qed.

Lemma outstanding_ok s : sampler_ok s -> 0 <= outstanding (packet_infos_ s).
Proof. intros H. apply outstanding_nonneg. intros k p Hp. by apply (packets_ok s H k). Qed.

Lemma packet_ok_mono s s' p :
  total_bytes_sent_ s <= total_bytes_sent_ s' -> total_bytes_acked_ s <= total_bytes_acked_ s' ->
  packet_ok s p -> packet_ok s' p.
Proof. intros ?? []. split; try done; lia. Qed.

Lemma ctor_ok : sampler_ok MySampler_ctor.
Proof.
  split; cbn -[Z.pow]; unfold sfits; try lia; [done|apply map_Forall_empty].
Qed.

Lemma OnPacketSent_ok t pn bytes in_flight s :
  sampler_ok s -> sfits t -> 0 <= bytes -> total_bytes_sent_ s + bytes < 2 ^ 64 ->
  packet_infos_ s !! pn = None -> sampler_ok (OnPacketSent t pn bytes in_flight s).
Proof.
  intros Hs Ht Hb Hsum Hpn. pose proof (outstanding_ok s Hs). destruct Hs as [Hc Hf Ha Hl [Hk1 Hk2] Hp].
  unfold OnPacketSent. rewrite (wrap_small 64) by (unfold fits; lia).
  assert (Hmono : forall s', total_bytes_sent_ s' = total_bytes_sent_ s + bytes ->
            total_bytes_acked_ s' = total_bytes_acked_ s ->
            map_Forall (fun _ => packet_ok s') (packet_infos_ s)).
  { intros s' E1 E2 k p Hkp. eapply packet_ok_mono; [| |by apply (Hp k)]; lia. }
  destruct (in_flight =? 0); split; cbn -[Z.pow]; unfold map_emplace; rewrite ?Hpn;
    rewrite ?outstanding_insert by done; cbn -[Z.pow]; try done; try lia.
  all: apply map_Forall_insert; [done|split; [split; cbn -[Z.pow]; try done; lia|]].
  all: by apply Hmono.
Qed.

Lemma PacketInfoRemove_ok pn s : sampler_ok s -> sampler_ok (PacketInfoRemove pn s).
Proof.
  intros Hs. pose proof (outstanding_ok s Hs) as Hout. destruct Hs as [Hc Hf Ha Hl Hk Hp].
  split; cbn -[Z.pow]; try done.
  - destruct (packet_infos_ s !! pn) as [p|] eqn:E; [|by rewrite delete_id].
    rewrite (outstanding_delete _ _ _ E) in Hc. pose proof (size_nonneg _ _ (Hp _ _ E)). lia.
  - apply map_Forall_delete. intros k p Hkp. by eapply packet_ok_mono; [| |by apply (Hp k)].
Qed.

(** The counters after an acknowledgement, whatever the sample. *)
Definition acked_state (ack_time : Z) (p : PacketState) (s : MySampler) : MySampler :=
  s <| total_bytes_acked_ := u64 (total_bytes_acked_ s + size p) |>
    <| total_bytes_sent_at_last_acked_packet_ := total_bytes_sent p |>
    <| last_acked_packet_sent_time_ := sent_time p |>
    <| last_acked_packet_ack_time_ := ack_time |>.

Lemma acked_state_ok t pn p s :
  sampler_ok s -> sfits t -> packet_infos_ s !! pn = Some p ->
  total_bytes_acked_ (acked_state t p s) = total_bytes_acked_ s + size p /\
  sampler_ok (PacketInfoRemove pn (acked_state t p s)).
Proof.
  intros Hs Ht Hpn. pose proof (outstanding_ok _ (PacketInfoRemove_ok pn s Hs)) as Hout.
  cbn in Hout. destruct Hs as [Hc Hf Ha Hl Hk Hp].
  pose proof (Hp _ _ Hpn) as [Hsz Hsb Hst Hat [Ht1 Ht2]].
  rewrite (outstanding_delete _ _ _ Hpn) in Hc.
  assert (E : u64 (total_bytes_acked_ s + size p) = total_bytes_acked_ s + size p)
    by (apply wrap_small; unfold fits; lia).
  unfold acked_state. rewrite E. split; [done|]. split; cbn -[Z.pow]; try done; try lia.
  apply map_Forall_delete. intros k q Hq. eapply packet_ok_mono; [| |by apply (Hp k)]; cbn; lia.
Qed.

(** [bw] bits per second deliver at most [bytes] in [delta] microseconds. *)
Definition rate_at_most (bw bytes delta : Z) : Prop := bw * delta <= bytes * 8 * kNumMicrosPerSecond.

Lemma FromBytes_at_most bytes delta bw :
  0 < delta < 2 ^ 63 -> 0 <= bytes -> bytes * (8 * kNumMicrosPerSecond) < 2 ^ 63 ->
  FromBytesAndTimeDelta bytes delta = Some bw -> rate_at_most bw bytes delta.
Proof.
  unfold rate_at_most. intros Hd Hb Hs. rewrite FromBytesAndTimeDelta_value by (unfold kNumMicrosPerSecond in *; lia).
  intros [= <-]. pose proof (Z.mul_div_le (bytes * kNumMicrosPerSecond) delta ltac:(lia)). lia.
Qed.

Lemma Inner_run t pn p round_update s :
  sampler_ok s -> sfits t -> packet_infos_ s !! pn = Some p ->
  exists bw, OnPacketAcknowledgedInner t pn p round_update s = Some (bw, acked_state t p s) /\
    bandwidth_ok bw.
Proof.
  intros Hs Ht Hpn. destruct (times_fit _ _ (packets_ok s Hs _ _ Hpn)) as (T1 & T2 & T3).
  assert (H0 : bandwidth_ok 0) by (unfold bandwidth_ok; lia).
  assert (Hsend : exists r, send_rate_of p = Some r /\ bandwidth_ok r).
  { unfold send_rate_of. destruct (Z.ltb_spec (last_acked_packet_sent_time p) (sent_time p)).
    - destruct (FromBytesAndTimeDelta_defined
        (u64 (total_bytes_sent p - total_bytes_sent_at_last_acked_packet p))
        (sent_time p) (last_acked_packet_sent_time p)) as [r Hr]; [done..|lia|].
      exists r. split; [done|]. by eapply FromBytesAndTimeDelta_ok.
    - eexists. split; [done|]. unfold bandwidth_ok, BandwidthInfinite. lia. }
  destruct Hsend as (r & Hr & Hrok). unfold OnPacketAcknowledgedInner. fold (acked_state t p s).
  destruct round_update; cbn [negb]; [|eauto]. destruct (_ =? 0); [eauto|]. rewrite Hr. cbn [mbind option_bind].
  destruct (Z.leb_spec t (last_acked_packet_ack_time p)); [eauto|].
  destruct (FromBytesAndTimeDelta_defined
    (u64 (total_bytes_acked_ (acked_state t p s) - total_bytes_acked_at_the_last_acked_packet p))
    t (last_acked_packet_ack_time p)) as [a Ha]; [done..|lia|].
  rewrite Ha. cbn [mbind option_bind]. eexists. split; [done|].
  apply FromBytesAndTimeDelta_ok in Ha. unfold bandwidth_ok in *. lia.
Qed.

(** An acknowledgement never traps, and keeps the counters consistent. *)
Lemma OnPacketAcknowledged_ok t pn round_update s :
  sampler_ok s -> sfits t ->
  exists bw s', OnPacketAcknowledged t pn round_update s = Some (bw, s') /\ sampler_ok s' /\
    bandwidth_ok bw /\ total_bytes_sent_ s' = total_bytes_sent_ s /\
    packet_infos_ s' = delete pn (packet_infos_ s).
Proof.
  intros Hs Ht. unfold OnPacketAcknowledged, GetPacketInfoEntry.
  destruct (packet_infos_ s !! pn) as [p|] eqn:E.
  - destruct (Inner_run t pn p round_update s Hs Ht E) as (bw & Hrun & Hbw). rewrite Hrun.
    eexists _, _. split; [done|]. destruct (acked_state_ok t pn p s Hs Ht E) as [_ Hok]. done.
  - exists 0, s. rewrite delete_id by done. unfold bandwidth_ok. split_and!; auto; lia.
Qed.

(** A sample exceeds neither the rate at which the bytes since the snapshot were
    sent nor the rate at which they were acknowledged. *)
Lemma sample_bounds t pn p bw s s' :
  sampler_ok s -> 0 <= t < 2 ^ 63 -> total_bytes_sent_ s * (8 * kNumMicrosPerSecond) < 2 ^ 63 ->
  packet_infos_ s !! pn = Some p ->
  0 <= last_acked_packet_sent_time p -> 0 <= last_acked_packet_ack_time p ->
  OnPacketAcknowledged t pn true s = Some (bw, s') -> bw <> 0 ->
  last_acked_packet_ack_time p < t /\
  rate_at_most bw (total_bytes_acked_ s' - total_bytes_acked_at_the_last_acked_packet p)
    (t - last_acked_packet_ack_time p) /\
  (last_acked_packet_sent_time p < sent_time p ->
   rate_at_most bw (total_bytes_sent p - total_bytes_sent_at_last_acked_packet p)
     (sent_time p - last_acked_packet_sent_time p)).
Proof.
  intros Hs Ht Hsmall Hpn Hp1 Hp2 HA Hbw.
  destruct (acked_state_ok t pn p s Hs ltac:(unfold sfits; lia) Hpn) as [Ea Hs'].
  pose proof (packets_ok s Hs _ _ Hpn) as [Hsz Hsb Hst Hat (T1 & T2 & T3)]. unfold sfits in *.
  unfold OnPacketAcknowledged, GetPacketInfoEntry in HA. rewrite Hpn in HA.
  unfold OnPacketAcknowledgedInner in HA. fold (acked_state t p s) in HA. cbn [negb] in HA.
  destruct (_ =? 0); [by injection HA as <- <-|].
  destruct (send_rate_of p) as [send|] eqn:Esend; [|done]. cbn [mbind option_bind] in HA.
  destruct (Z.leb_spec t (last_acked_packet_ack_time p)); [by injection HA as <- <-|].
  pose proof (outstanding_ok _ Hs') as Hout. destruct Hs' as [Hc' _ _ _ _ _].
  cbn -[acked_state] in Hc', Hout. rewrite Ea in HA, Hc'. change (total_bytes_sent_ (acked_state t p s)) with (total_bytes_sent_ s) in Hc'.
  unfold kNumMicrosPerSecond in *.
  rewrite (wrap_small 64) in HA by (unfold fits; lia). unfold time_sub in HA.
  rewrite swrap_small in HA by (unfold sfits; lia).
  destruct (FromBytesAndTimeDelta _ _) as [ack|] eqn:Eack; [|done]. cbn [mbind option_bind] in HA.
  injection HA as <- <-. cbn -[acked_state]. rewrite Ea. split; [done|].
  apply FromBytes_at_most in Eack; [|lia|lia|unfold kNumMicrosPerSecond; lia]. split.
  - unfold rate_at_most in *. nia.
  - intros Hlt. unfold send_rate_of in Esend. rewrite (proj2 (Z.ltb_lt _ _) Hlt) in Esend.
    rewrite (wrap_small 64) in Esend by (unfold fits; lia). unfold time_sub in Esend.
    rewrite swrap_small in Esend by (unfold sfits; lia).
    apply FromBytes_at_most in Esend; [|lia|lia|unfold kNumMicrosPerSecond; lia].
    unfold rate_at_most in *. nia.
Qed.
End MySampler.
