(* ===== verification/BbrSenderV5.v ===== *)
(** The delay-aware BBR controller of delay-bbr/bbr_sender_v5.{h,cc}.

    A handler is a function on the controller's fields; [option] because a rate
    over an empty time span would divide by zero ([None]).  What the controller
    tells its trace callback and its observer is the list [outputs_], and the
    values /dev/urandom gives [RandUint64] are the sequence [random_]. *)
From stdpp Require Export list_numbers strings.
From S2P Require Import Prelude.
From S2P Require Import QuicUnits.
From S2P Require Import WindowedFilter.
From S2P Require Import Sampler.

Open Scope Z_scope.

(** * [std::map] with the packet number as its key, in key order *)
Module SentMap.
Definition t (A : Type) := list (Z * A).

Fixpoint insert {A} (k : Z) (v : A) (m : t A) : t A :=
  match m with
  | [] => [(k, v)]
  | (k', v') :: m' =>
    if k <? k' then (k, v) :: m else if k =? k' then m else (k', v') :: insert k v m'
  end.

Fixpoint find {A} (k : Z) (m : t A) : option A :=
  match m with
  | [] => None
  | (k', v) :: m' => if k' =? k then Some v else find k m'
  end.
End SentMap.

Module MyBbrSenderV5.

(** * Constants (lines 5-34) *)

Definition kPacingGain : list spec_float :=
  map (fun '(n, d) => narrow (literal n d))
    [(111, 100); (9, 10); (1, 1); (1, 1); (1, 1); (1, 1); (1, 1); (1, 1)].
Definition kGainCycleLength : Z := 8.
Definition kBandwidthWindowSize : Z := kGainCycleLength + 2.
Definition kDefaultHighGain : spec_float := f32_of_Z 2.
Definition kStartupGrowthTarget : spec_float := narrow (literal 125 100).
Definition kRoundTripsWithoutGrowthBeforeExitingStartup : Z := 3.
Definition kSimilarMinRttThreshold : spec_float := narrow (literal 1125 1000).
Definition kInitialCongestionWindowPackets : Z := 10.
Definition kDefaultSegmentSize : Z := 1000.
Definition kMinRttExpiry : Z := FromSeconds 10.
Definition kTolerableDelayFactor : spec_float := narrow (literal 12 10).
Definition kSmoothRttNum : Z := 95.
Definition kSmoothRttDen : Z := 100.
Definition cc_delay : Z := 2.

Inductive Mode := ST_START | ST_DRAIN | ST_INCREASE | ST_DECREASE.

#[global] Instance Mode_eq_dec : EqDecision Mode.
Proof. solve_decision. Defined.

Record PerPacket := mkPerPacket { sent_ts : Z; bytes : Z }.

(** A call of [trace_state_cb_] or of [observer_->OnBandwidthUpdate]. *)
Inductive Output := TraceState (bps : Z) (state : string) | OnBandwidthUpdate.

Record MyBbrSenderV5 := mkSender {
  trace_state_cb_ : bool;
  observer_ : bool;
  outputs_ : list Output;
  min_bw_ : Z;
  mode_ : Mode;
  last_sent_packet_ : Z;
  last_ack_seq_ : Z;
  current_round_trip_end_ : Z;
  round_trip_count_ : Z;
  last_backoff_count_ : Z;
  seq_at_backoff_ : Z;
  congestion_backoff_flag_ : bool;
  base_line_rtt_ : Z;
  base_line_rtt_timestamp_ : Z;
  sent_packets_map_ : SentMap.t PerPacket;
  min_rtt_ : Z;
  s_rtt_ : Z;
  min_rtt_timestamp_ : Z;
  min_rtt_in_decrease_ : Z;
  min_rtt_timestamp_in_decrease_ : Z;
  min_rtt_record_ : Z;
  exit_probe_rtt_at_ : Z;
  max_bw_in_increase_ : Z;
  pacing_rate_ : Z;
  reference_rate_ : Z;
  max_bandwidth_ : WindowedFilter Z;
  pacing_gain_ : spec_float;
  high_gain_ : spec_float;
  drain_gain_ : spec_float;
  num_startup_rtts_ : Z;
  is_at_full_bandwidth_ : bool;
  cycle_current_offset_ : Z;
  last_cycle_start_ : Z;
  random_ : nat -> Z;
  random_calls_ : nat;
  rounds_without_bandwidth_gain_ : Z;
  bandwidth_at_last_round_ : Z;
  bytes_in_flight_ : Z;
  bdp_ : Z;
  initial_congestion_window_ : Z;
  congestion_recv_seq_ : Z;
  congestion_recv_cut_seq_ : Z;
  min_rtt_expired_ : bool;
  sampler_ : MySampler.MySampler;
}.

Abbreviation in_mode m s := (bool_decide (mode_ s = m)).

Definition EnterStartUpMode (s : MyBbrSenderV5) : MyBbrSenderV5 :=
  s <| mode_ := ST_START |> <| pacing_gain_ := high_gain_ s |>.

Definition MyBbrSenderV5_ctor (min_bps : Z) (observer trace : bool) (random : nat -> Z) : MyBbrSenderV5 :=
  EnterStartUpMode {|
    trace_state_cb_ := trace; observer_ := observer; outputs_ := [];
    min_bw_ := QuicBandwidth min_bps; mode_ := ST_START; last_sent_packet_ := 0; last_ack_seq_ := 0;
    current_round_trip_end_ := 0; round_trip_count_ := 0; last_backoff_count_ := 0;
    seq_at_backoff_ := 0; congestion_backoff_flag_ := false;
    base_line_rtt_ := kQuicInfiniteTimeUs; base_line_rtt_timestamp_ := 0; sent_packets_map_ := [];
    min_rtt_ := 0; s_rtt_ := 0; min_rtt_timestamp_ := 0; min_rtt_in_decrease_ := kQuicInfiniteTimeUs;
    min_rtt_timestamp_in_decrease_ := 0; min_rtt_record_ := 0; exit_probe_rtt_at_ := 0;
    max_bw_in_increase_ := 0; pacing_rate_ := 0; reference_rate_ := 0;
    max_bandwidth_ := WindowedFilter_ctor kBandwidthWindowSize 0 0;
    pacing_gain_ := f32_of_Z 1; high_gain_ := kDefaultHighGain;
    drain_gain_ := narrow (SFdiv 53 1024 (f64_of_Z 1) (widen kDefaultHighGain));
    num_startup_rtts_ := kRoundTripsWithoutGrowthBeforeExitingStartup;
    is_at_full_bandwidth_ := false; cycle_current_offset_ := 0; last_cycle_start_ := 0;
    random_ := random; random_calls_ := 0%nat; rounds_without_bandwidth_gain_ := 0;
    bandwidth_at_last_round_ := 0; bytes_in_flight_ := 0; bdp_ := 0;
    initial_congestion_window_ := kInitialCongestionWindowPackets * kDefaultSegmentSize;
    congestion_recv_seq_ := 0; congestion_recv_cut_seq_ := 0; min_rtt_expired_ := false;
    sampler_ := MySampler.MySampler_ctor;
  |}.

(** * Rates *)

Definition PaceRate (s : MyBbrSenderV5) : Z :=
  if pacing_rate_ s =? 0 then bandwidth_mul (min_bw_ s) (high_gain_ s) else pacing_rate_ s.

Definition GetReferenceRate (s : MyBbrSenderV5) : Z :=
  if (pacing_rate_ s =? 0) || (reference_rate_ s =? 0) then min_bw_ s else reference_rate_ s.

Definition BandwidthEstimate (s : MyBbrSenderV5) : Z := GetBest (max_bandwidth_ s).

Definition ShouldSendProbePacket (s : MyBbrSenderV5) : bool :=
  let ret := false in
  let ret := if SFltb (f32_of_Z 1) (pacing_gain_ s) then true else ret in
  let ret := true in
  ret.

Definition GetMinRtt (s : MyBbrSenderV5) : Z :=
  if negb (min_rtt_ s =? 0) then min_rtt_ s else FromMilliseconds 200.

(** [gain * bytes] converted back to a byte count. *)
Definition scale (gain : spec_float) (bytes : Z) : Z := f32_to_u64 (f32_mul gain (f32_of_Z bytes)).

Definition GetTargetCongestionWindow (gain : spec_float) (s : MyBbrSenderV5) : Z :=
  let bdp := ToBytesPerPeriod (BandwidthEstimate s) (GetMinRtt s) in
  let congestion_window := scale gain bdp in
  if congestion_window =? 0 then scale gain (initial_congestion_window_ s) else congestion_window.

Definition GetTargetInflightInDecrease (gain : spec_float) (s : MyBbrSenderV5) : Z :=
  let bdp := ToBytesPerPeriod (BandwidthEstimate s) (min_rtt_record_ s) in
  let congestion_window := scale gain bdp in
  if congestion_window =? 0 then scale gain (initial_congestion_window_ s) else congestion_window.

Definition emit (o : Output) (s : MyBbrSenderV5) : MyBbrSenderV5 := s <| outputs_ := outputs_ s ++ [o] |>.

Definition GetStateString (s : MyBbrSenderV5) : string :=
  match mode_ s with
  | ST_START => "start"
  | ST_DRAIN => "drain"
  | ST_INCREASE => "increase"
  | ST_DECREASE => "decrease"
  end%string.

Definition PrintDebugInfo (bps : Z) (state : string) (s : MyBbrSenderV5) : MyBbrSenderV5 :=
  if trace_state_cb_ s then emit (TraceState bps state) s else s.

(** Lines 321-330: the callbacks, when the rate has changed. *)
Definition report_rate (last_rate : Z) (s : MyBbrSenderV5) : MyBbrSenderV5 :=
  if pacing_rate_ s =? last_rate then s
  else
    let bps := u64 (ToKBitsPerSecond (pacing_rate_ s) * 1000) in
    let s := if trace_state_cb_ s then emit (TraceState bps (GetStateString s)) s else s in
    if observer_ s then emit OnBandwidthUpdate s else s.

(** The rate before the callbacks, lines 305-320. *)
Definition new_rate (s : MyBbrSenderV5) : option MyBbrSenderV5 :=
  let bw := BandwidthEstimate s in
  let s := s <| reference_rate_ := bw |> <| pacing_rate_ := bandwidth_mul bw (pacing_gain_ s) |> in
  s ← (if pacing_rate_ s =? 0 then
         initial ← FromBytesAndTimeDelta (initial_congestion_window_ s) (GetMinRtt s);
         Some (s <| pacing_rate_ := initial |>)
       else Some s);
  Some (if in_mode ST_INCREASE s && SFeqb (pacing_gain_ s) (f32_of_Z 1) && (pacing_rate_ s <? min_bw_ s)
        then s <| pacing_rate_ := min_bw_ s |> <| reference_rate_ := min_bw_ s |>
        else s).

Definition CalculatePacingRate (s : MyBbrSenderV5) : option MyBbrSenderV5 :=
  let last_rate := pacing_rate_ s in
  s ← new_rate s;
  Some (report_rate last_rate s).

(** * Sending *)

Definition AddPacketInfo (now packet_number payload : Z) (s : MyBbrSenderV5) : MyBbrSenderV5 :=
  s <| sent_packets_map_ := SentMap.insert packet_number (mkPerPacket now payload) (sent_packets_map_ s) |>.

Definition OnPacketSent (event_time packet_number bytes : Z) (s : MyBbrSenderV5) : MyBbrSenderV5 :=
  if packet_number <=? last_sent_packet_ s then s
  else
    let s := s <| last_sent_packet_ := packet_number |>
               <| sampler_ := MySampler.OnPacketSent event_time packet_number bytes
                                (bytes_in_flight_ s) (sampler_ s) |> in
    let s := s <| bytes_in_flight_ := u64 (bytes_in_flight_ s + bytes) |> in
    AddPacketInfo event_time packet_number bytes s.

(** * The steps of an acknowledgement *)

Definition CheckIfFullBandwidthReached (s : MyBbrSenderV5) : MyBbrSenderV5 :=
  let target := bandwidth_mul (bandwidth_at_last_round_ s) kStartupGrowthTarget in
  if target <=? BandwidthEstimate s then
    s <| bandwidth_at_last_round_ := BandwidthEstimate s |> <| rounds_without_bandwidth_gain_ := 0 |>
  else
    let s := s <| rounds_without_bandwidth_gain_ := u64 (rounds_without_bandwidth_gain_ s + 1) |> in
    if u64 (num_startup_rtts_ s) <=? rounds_without_bandwidth_gain_ s
    then s <| is_at_full_bandwidth_ := true |> else s.

Definition CheckIfCongestion (packet_number : Z) (s : MyBbrSenderV5) : Z * MyBbrSenderV5 :=
  let s :=
    if (u64 (congestion_recv_seq_ s + 1) <? packet_number)
       && (congestion_recv_cut_seq_ s <? packet_number)
    then s <| congestion_recv_cut_seq_ := last_sent_packet_ s |> else s in
  let s :=
    if u64 (congestion_recv_seq_ s + 1) <=? packet_number
    then s <| congestion_recv_seq_ := packet_number |> else s in
  let congested :=
    negb (base_line_rtt_ s =? kQuicInfiniteTimeUs)
    && (delta_mul (base_line_rtt_ s) (widen kTolerableDelayFactor) <? s_rtt_ s)
    && in_mode ST_INCREASE s in
  (if congested then cc_delay else 0, s).

Definition RandUint64 (s : MyBbrSenderV5) : Z * MyBbrSenderV5 :=
  (random_ s (random_calls_ s), s <| random_calls_ := S (random_calls_ s) |>).

Definition gain_at (offset : Z) : spec_float := nth (Z.to_nat offset) kPacingGain S754_nan.

Definition EnterIncreaseMode (now : Z) (s : MyBbrSenderV5) : MyBbrSenderV5 :=
  let s := s <| mode_ := ST_INCREASE |> in
  let '(random, s) := RandUint64 s in
  let s := s <| cycle_current_offset_ := random mod (kGainCycleLength - 1) |> in
  let s :=
    if 1 <=? cycle_current_offset_ s
    then s <| cycle_current_offset_ := cycle_current_offset_ s + 1 |> else s in
  s <| last_cycle_start_ := now |> <| pacing_gain_ := gain_at (cycle_current_offset_ s) |>.

Definition MaybeExitStartupOrDrain (now : Z) (s : MyBbrSenderV5) : MyBbrSenderV5 :=
  let s :=
    if in_mode ST_START s && is_at_full_bandwidth_ s
    then s <| mode_ := ST_DRAIN |> <| pacing_gain_ := drain_gain_ s |> else s in
  if in_mode ST_DRAIN s && (bytes_in_flight_ s <=? GetTargetCongestionWindow (f32_of_Z 1) s)
  then EnterIncreaseMode now s else s.

(** Lines 214-246. *)
Definition enter_decrease (min_rtt_expired : bool) (round : Z) (s : MyBbrSenderV5) : MyBbrSenderV5 :=
  let s := s <| seq_at_backoff_ := last_sent_packet_ s |>
             <| s_rtt_ := 0 |>
             <| base_line_rtt_ := kQuicInfiniteTimeUs |>
             <| mode_ := ST_DECREASE |>
             <| min_rtt_record_ := min_rtt_ s |>
             <| exit_probe_rtt_at_ := 0 |>
             <| max_bw_in_increase_ := 0 |>
             <| min_rtt_in_decrease_ := kQuicInfiniteTimeUs |>
             <| pacing_gain_ := narrow (literal 75 100) |> in
  let s := s <| bdp_ := GetTargetCongestionWindow (f32_of_Z 1) s |> in
  s <| min_rtt_expired_ := min_rtt_expired |> <| last_backoff_count_ := u64 round |>.

(** Lines 256-265: the minimum RTT that the drained queue has shown. *)
Definition adopt_min_rtt (now : Z) (s : MyBbrSenderV5) : MyBbrSenderV5 :=
  if min_rtt_expired_ s then
    let s :=
      if min_rtt_in_decrease_ s =? kQuicInfiniteTimeUs
      then s <| min_rtt_ := min_rtt_record_ s |> <| min_rtt_timestamp_ := now |>
      else s <| min_rtt_ := min_rtt_in_decrease_ s |>
             <| min_rtt_timestamp_ := min_rtt_timestamp_in_decrease_ s |> in
    s <| min_rtt_expired_ := false |>
  else s.

Definition MaybeEnterOrExitDecrease (now : Z) (min_rtt_expired : bool) (congestion_reason round : Z)
    (s : MyBbrSenderV5) : MyBbrSenderV5 :=
  let s :=
    if negb (in_mode ST_DECREASE s) && (min_rtt_expired || negb (congestion_reason =? 0))
    then enter_decrease min_rtt_expired round s else s in
  if in_mode ST_DECREASE s then
    let s := if exit_probe_rtt_at_ s =? 0 then s <| exit_probe_rtt_at_ := now |> else s in
    let excess_drained := bytes_in_flight_ s <=? bdp_ s in
    if (min_rtt_expired_ s
        && (delta_mul_int 4 (min_rtt_record_ s) <? time_sub now (exit_probe_rtt_at_ s)))
       || excess_drained
    then EnterIncreaseMode now ((adopt_min_rtt now s) <| congestion_backoff_flag_ := false |>)
    else s
  else s.

Definition UpdateGainCyclePhase (now : Z) (s : MyBbrSenderV5) : MyBbrSenderV5 :=
  if GetMinRtt s <? time_sub now (last_cycle_start_ s) then
    let s := s <| cycle_current_offset_ := (cycle_current_offset_ s + 1) mod kGainCycleLength |> in
    s <| last_cycle_start_ := now |> <| pacing_gain_ := gain_at (cycle_current_offset_ s) |>
  else s.

Definition UpdateRoundTripCounter (last_acked_packet : Z) (s : MyBbrSenderV5) : bool * MyBbrSenderV5 :=
  if current_round_trip_end_ s <? last_acked_packet then
    (true, s <| round_trip_count_ := u64 (round_trip_count_ s + 1) |>
             <| current_round_trip_end_ := last_sent_packet_ s |>)
  else (false, s).

Definition UpdateMaxBw (s : MyBbrSenderV5) : MyBbrSenderV5 :=
  let bw := BandwidthEstimate s in
  if max_bw_in_increase_ s <? bw then s <| max_bw_in_increase_ := bw |> else s.

(** Lines 352-363. *)
Definition update_min_rtt (now rtt : Z) (s : MyBbrSenderV5) : MyBbrSenderV5 :=
  if min_rtt_ s =? 0 then s <| min_rtt_ := rtt |> <| min_rtt_timestamp_ := now |>
  else
    let s :=
      if rtt <? min_rtt_ s then s <| min_rtt_ := rtt |> <| min_rtt_timestamp_ := now |> else s in
    if (min_rtt_ s <? rtt) && (rtt <=? delta_mul (min_rtt_ s) (widen kSimilarMinRttThreshold))
    then s <| min_rtt_timestamp_ := now |> else s.

(** Lines 364-369. *)
Definition update_decrease_rtt (now rtt : Z) (s : MyBbrSenderV5) : MyBbrSenderV5 :=
  if in_mode ST_DECREASE s && (rtt <=? min_rtt_in_decrease_ s)
  then s <| min_rtt_in_decrease_ := rtt |> <| min_rtt_timestamp_in_decrease_ := now |> else s.

(** Line 382, with its truncating division. *)
Definition smooth_ms (old_ms new_ms : Z) : Z :=
  Z.quot (i64 (i64 ((kSmoothRttDen - kSmoothRttNum) * old_ms) + i64 (kSmoothRttNum * new_ms)))
    kSmoothRttDen.

(** Lines 370-386. *)
Definition update_smoothed_rtt (now packet_number rtt : Z) (s : MyBbrSenderV5) : MyBbrSenderV5 :=
  if in_mode ST_INCREASE s && (seq_at_backoff_ s <? packet_number) then
    let s :=
      if rtt <? base_line_rtt_ s
      then s <| base_line_rtt_ := rtt |> <| s_rtt_ := rtt |> <| base_line_rtt_timestamp_ := now |>
      else s in
    if s_rtt_ s =? 0 then s <| s_rtt_ := rtt |>
    else s <| s_rtt_ := FromMilliseconds (smooth_ms (ToMilliseconds (s_rtt_ s)) (ToMilliseconds rtt)) |>
  else s.

(** Lines 388-397: the packets up to the acknowledged one leave the map. *)
Fixpoint drop_acked (packet_number : Z) (m : SentMap.t PerPacket) (in_flight : Z)
    : SentMap.t PerPacket * Z :=
  match m with
  | (first, packet) :: m' =>
    if first <=? packet_number then drop_acked packet_number m' (u64 (in_flight - bytes packet))
    else (m, in_flight)
  | [] => (m, in_flight)
  end.

Definition UpdateRttAndInflight (now packet_number : Z) (s : MyBbrSenderV5) : MyBbrSenderV5 :=
  let s :=
    match SentMap.find packet_number (sent_packets_map_ s) with
    | Some packet =>
      let rtt := time_sub now (sent_ts packet) in
      update_smoothed_rtt now packet_number rtt
        (update_decrease_rtt now rtt (update_min_rtt now rtt s))
    | None => s
    end in
  let '(m, in_flight) := drop_acked packet_number (sent_packets_map_ s) (bytes_in_flight_ s) in
  s <| sent_packets_map_ := m |> <| bytes_in_flight_ := in_flight |>.

(** Lines 104-107: the packets skipped by the acknowledgement are lost. *)
Definition lose_skipped (first packet_number : Z) (sampler : MySampler.MySampler) : MySampler.MySampler :=
  fold_left (fun sampler i => MySampler.OnPacketLost i sampler) (seqZ first (packet_number - first)) sampler.

(** Lines 121-145: the reaction to a bandwidth sample [bw] after the first round. *)
Definition react (event_time packet_number bw current_round : Z) (is_round_update : bool)
    (s : MyBbrSenderV5) : MyBbrSenderV5 :=
  let min_rtt_expired := time_add (min_rtt_timestamp_ s) kMinRttExpiry <? event_time in
  let '(congestion_reason, s) :=
    if in_mode ST_INCREASE s then CheckIfCongestion packet_number s else (0, s) in
  let s := MaybeEnterOrExitDecrease event_time min_rtt_expired congestion_reason current_round s in
  let s :=
    if is_round_update then
      let s := s <| max_bandwidth_ :=
        Update (C := MaxFilter) bw (u64 current_round) (max_bandwidth_ s) |> in
      if in_mode ST_INCREASE s then UpdateMaxBw s else s
    else s in
  let s :=
    if is_round_update && negb (is_at_full_bandwidth_ s) then CheckIfFullBandwidthReached s else s in
  let s := MaybeExitStartupOrDrain event_time s in
  if in_mode ST_INCREASE s then UpdateGainCyclePhase event_time s else s.

Definition OnAck (event_time packet_number : Z) (s : MyBbrSenderV5) : option MyBbrSenderV5 :=
  if packet_number <=? last_ack_seq_ s then Some s
  else
    let s := s <| sampler_ := lose_skipped (last_ack_seq_ s + 1) packet_number (sampler_ s) |>
               <| last_ack_seq_ := packet_number |> in
    let s := UpdateRttAndInflight event_time packet_number s in
    let current_round := i64 (round_trip_count_ s) in
    let '(is_round_update, s) := UpdateRoundTripCounter (last_ack_seq_ s) s in
    '(bw, sampler) ← MySampler.OnPacketAcknowledged event_time packet_number is_round_update (sampler_ s);
    let s := s <| sampler_ := sampler |> in
    if current_round =? 0 then CalculatePacingRate s
    else CalculatePacingRate (react event_time packet_number bw current_round is_round_update s).
End MyBbrSenderV5.
