(* ===== verification/BbrInvariants.v ===== *)
(** Invariants of the BBR controller: what each step of an acknowledgement keeps,
    the gain of each mode, and the times a rate is computed over. *)
From S2P Require Import Prelude.
From S2P Require Import QuicUnits.
From S2P Require Import WindowedFilter.
From S2P Require Import Sampler.
From S2P Require Import BbrSenderV5.
Import MyBbrSenderV5.

Open Scope Z_scope.

(** * The control invariant *)

(** The pacing gain of a mode, at an offset of the gain cycle. *)
Definition gain_of (m : Mode) (offset : Z) : spec_float :=
  match m with
  | ST_START => f32_of_Z 2
  | ST_DRAIN => narrow (literal 1 2)
  | ST_INCREASE => gain_at offset
  | ST_DECREASE => narrow (literal 3 4)
  end.

Record control_ok (s : MyBbrSenderV5) : Prop := {
  high_gain_ok : high_gain_ s = gain_of ST_START 0;
  drain_gain_ok : drain_gain_ s = gain_of ST_DRAIN 0;
  pacing_gain_ok : pacing_gain_ s = gain_of (mode_ s) (cycle_current_offset_ s);
  offset_ok : 0 <= cycle_current_offset_ s < kGainCycleLength;
  min_rtt_ok : sfits (min_rtt_ s);
  record_ok : sfits (min_rtt_record_ s);
  in_decrease_ok : sfits (min_rtt_in_decrease_ s);
  min_bw_ok : bandwidth_ok (min_bw_ s);
  pacing_rate_ok : bandwidth_ok (pacing_rate_ s);
  bdp_ok : 0 <= bdp_ s;
}.

(** The fields that account for packets, and those that never change. *)
Definition flight (s : MyBbrSenderV5) :=
  (last_sent_packet_ s, last_ack_seq_ s, sent_packets_map_ s, bytes_in_flight_ s, sampler_ s).
Definition config (s : MyBbrSenderV5) :=
  (trace_state_cb_ s, observer_ s, min_bw_ s, initial_congestion_window_ s).

(** What the rates are announced with. *)
Definition announced (s : MyBbrSenderV5) := (pacing_rate_ s, outputs_ s).

(** A step from [s] to [s'] that moves no packet and keeps the control invariant. *)
Record keeps (s s' : MyBbrSenderV5) : Prop := {
  keeps_flight : flight s' = flight s;
  keeps_config : config s' = config s;
  keeps_control : control_ok s -> control_ok s';
}.

(** A step that only steers: it does not set the rate either. *)
Record steers (s s' : MyBbrSenderV5) : Prop := {
  steers_keeps : keeps s s';
  steers_announced : announced s' = announced s;
}.

#[global] Instance keeps_preorder : PreOrder keeps.
Proof.
  split; [done|]. intros s1 s2 s3 [F1 C1 K1] [F2 C2 K2]. split; [congruence|congruence|auto].
Qed.

#[global] Instance steers_preorder : PreOrder steers.
Proof.
  split; [done|]. intros s1 s2 s3 [K1 A1] [K2 A2]. split; [by etrans|congruence].
Qed.

(** Evaluates the fields of a handler, branch by branch. *)
Ltac branches := repeat (case_match; cbn -[Z.pow Z.quot Z.modulo]; try done).
Ltac keep := split; [done|done|intros []; split; cbn -[Z.pow Z.modulo]; try done].
Ltac steer := split; [keep|done].

Lemma steers_if (b : bool) s s1 s2 : steers s s1 -> steers s s2 -> steers s (if b then s1 else s2).
Proof. by destruct b. Qed.

Lemma steers_CheckIfFullBandwidthReached s : steers s (CheckIfFullBandwidthReached s).
Proof. unfold CheckIfFullBandwidthReached. repeat apply steers_if; steer. Qed.

Lemma steers_CheckIfCongestion pn s : steers s (CheckIfCongestion pn s).2.
Proof.
  unfold CheckIfCongestion. cbn. repeat case_match; steer.
Qed.

Lemma offset_range r : 0 <= (r mod 7 + 1) < 8 /\ 0 <= r mod 7 < 8.
Proof. pose proof (Z.mod_pos_bound r 7). lia. Qed.

Lemma steers_EnterIncreaseMode now s : steers s (EnterIncreaseMode now s).
Proof.
  unfold EnterIncreaseMode, RandUint64. destruct (offset_range (random_ s (random_calls_ s))).
  case_match; steer.
Qed.

Lemma steers_MaybeExitStartupOrDrain now s : steers s (MaybeExitStartupOrDrain now s).
Proof.
  unfold MaybeExitStartupOrDrain.
  set (s1 := if _ && _ then _ else s).
  assert (H1 : steers s s1) by (apply steers_if; [steer|reflexivity]).
  etrans; [exact H1|]. apply steers_if; [apply steers_EnterIncreaseMode|reflexivity].
Qed.

Lemma sfits_infinite : sfits kQuicInfiniteTimeUs.
Proof. unfold sfits, kQuicInfiniteTimeUs. lia. Qed.

Lemma scale_nonneg gain n : 0 <= scale gain n.
Proof. unfold scale, f32_to_u64. case_match; try done. apply Z.mod_pos_bound. lia. Qed.

Lemma GetTargetCongestionWindow_nonneg gain s : 0 <= GetTargetCongestionWindow gain s.
Proof. unfold GetTargetCongestionWindow. case_match; apply scale_nonneg. Qed.

Lemma steers_enter_decrease e r s : steers s (enter_decrease e r s).
Proof. steer. apply GetTargetCongestionWindow_nonneg. Qed.

Lemma steers_adopt_min_rtt now s : steers s (adopt_min_rtt now s).
Proof. unfold adopt_min_rtt. repeat case_match; steer. Qed.

Lemma steers_MaybeEnterOrExitDecrease now e c r s : steers s (MaybeEnterOrExitDecrease now e c r s).
Proof.
  unfold MaybeEnterOrExitDecrease. set (s1 := if _ && _ then _ else s).
  assert (H1 : steers s s1) by (apply steers_if; [apply steers_enter_decrease|reflexivity]).
  etrans; [exact H1|]. clearbody s1. apply steers_if; [|reflexivity].
  set (s2 := if _ =? 0 then _ else s1).
  assert (H2 : steers s1 s2) by (apply steers_if; [steer|reflexivity]).
  etrans; [exact H2|]. clearbody s2. apply steers_if; [|reflexivity].
  etrans; [|apply steers_EnterIncreaseMode]. etrans; [apply steers_adopt_min_rtt|]. steer.
Qed.

Lemma steers_UpdateGainCyclePhase now s :
  mode_ s = ST_INCREASE -> steers s (UpdateGainCyclePhase now s).
Proof.
  intros Hm. unfold UpdateGainCyclePhase. case_match; [|reflexivity].
  pose proof (Z.mod_pos_bound (cycle_current_offset_ s + 1) kGainCycleLength ltac:(done)).
  steer. by rewrite Hm.
Qed.

Lemma steers_UpdateMaxBw s : steers s (UpdateMaxBw s).
Proof. unfold UpdateMaxBw. apply steers_if; steer. Qed.

Lemma steers_update_min_rtt now t1 t2 s : steers s (update_min_rtt now (time_sub t1 t2) s).
Proof. unfold update_min_rtt. pose proof (swrap_sfits (t1 - t2)). repeat case_match; steer. Qed.

Lemma steers_update_decrease_rtt now t1 t2 s : steers s (update_decrease_rtt now (time_sub t1 t2) s).
Proof. unfold update_decrease_rtt. pose proof (swrap_sfits (t1 - t2)). repeat case_match; steer. Qed.

Lemma steers_update_smoothed_rtt now pn rtt s : steers s (update_smoothed_rtt now pn rtt s).
Proof. unfold update_smoothed_rtt. repeat case_match; steer. Qed.

Lemma steers_UpdateRoundTripCounter pn s : steers s (UpdateRoundTripCounter pn s).2.
Proof. unfold UpdateRoundTripCounter. case_match; steer. Qed.

Lemma steers_sample update bw round s :
  steers s (if update : bool then
    let s := s <| max_bandwidth_ := Update (C := MaxFilter) bw (u64 round) (max_bandwidth_ s) |> in
    if in_mode ST_INCREASE s then UpdateMaxBw s else s
  else s).
Proof.
  destruct update; [|reflexivity]. cbv zeta. set (s1 := s <| max_bandwidth_ := _ |>).
  assert (H1 : steers s s1) by (unfold s1; steer). clearbody s1.
  etrans; [exact H1|]. apply steers_if; [apply steers_UpdateMaxBw|reflexivity].
Qed.

Lemma steers_react t pn bw round update s : steers s (react t pn bw round update s).
Proof.
  unfold react. set (p := if in_mode ST_INCREASE s then _ else _).
  assert (H1 : steers s p.2) by (unfold p; case_match; [apply steers_CheckIfCongestion|reflexivity]).
  clearbody p. destruct p as [c s1]. cbn [snd] in H1. etrans; [exact H1|]. clear H1.
  pose proof (steers_MaybeEnterOrExitDecrease t
    (time_add (min_rtt_timestamp_ s) kMinRttExpiry <? t) c round s1) as H2.
  set (s2 := MaybeEnterOrExitDecrease _ _ _ _ _) in *. clearbody s2. etrans; [exact H2|]. clear H2.
  pose proof (steers_sample update bw round s2) as H3. cbv zeta in H3 |- *.
  set (s3 := if update then _ else s2) in *. clearbody s3. etrans; [exact H3|]. clear H3.
  set (s4 := if _ && _ then _ else s3).
  assert (H4 : steers s3 s4) by (apply steers_if; [apply steers_CheckIfFullBandwidthReached|reflexivity]).
  clearbody s4. etrans; [exact H4|]. clear H4.
  pose proof (steers_MaybeExitStartupOrDrain t s4) as H5.
  set (s5 := MaybeExitStartupOrDrain _ _) in *. clearbody s5. etrans; [exact H5|]. clear H5.
  destruct (bool_decide (mode_ s5 = ST_INCREASE)) eqn:E; [|reflexivity].
  apply steers_UpdateGainCyclePhase. by apply bool_decide_eq_true in E.
Qed.

(** * Rates *)

Lemma GetMinRtt_defined s : control_ok s -> u64 (GetMinRtt s) <> 0.
Proof.
  intros Hc. pose proof (min_rtt_ok s Hc) as Hr. unfold GetMinRtt, sfits in *.
  destruct (Z.eqb_spec (min_rtt_ s) 0); cbn [negb]; [done|]. unfold wrap. intros E.
  apply Z.mod_divide in E; [|lia]. destruct E as [k E]. nia.
Qed.

(** The fields that choose the rate. *)
Definition same_mode (s s' : MyBbrSenderV5) : Prop :=
  mode_ s' = mode_ s /\ pacing_gain_ s' = pacing_gain_ s /\ max_bandwidth_ s' = max_bandwidth_ s /\
  min_rtt_ s' = min_rtt_ s /\ bdp_ s' = bdp_ s /\ is_at_full_bandwidth_ s' = is_at_full_bandwidth_ s.

#[global] Instance same_mode_preorder : PreOrder same_mode.
Proof. split; [done|]. intros s1 s2 s3 ??. unfold same_mode in *. destruct_and!. split_and!; congruence. Qed.

Lemma report_rate_fields last s :
  keeps s (report_rate last s) /\ same_mode s (report_rate last s) /\
  pacing_rate_ (report_rate last s) = pacing_rate_ s.
Proof. unfold report_rate, emit. repeat case_match; split_and!; try done; keep. Qed.

(** The rate is always computed, and only the rates change; in the INCREASE mode
    at gain one it is not below the minimum. *)
Lemma new_rate_spec s :
  control_ok s -> exists s', new_rate s = Some s' /\ keeps s s' /\ same_mode s s' /\
    outputs_ s' = outputs_ s /\ control_ok s' /\
    (mode_ s' = ST_INCREASE -> SFeqb (pacing_gain_ s') (f32_of_Z 1) = true -> min_bw_ s <= pacing_rate_ s').
Proof.
  intros Hc. unfold new_rate.
  set (s1 := s <| reference_rate_ := _ |> <| pacing_rate_ := _ |>).
  assert (K1 : keeps s s1) by (unfold s1; keep; apply bandwidth_mul_ok).
  assert (M1 : same_mode s s1 /\ outputs_ s1 = outputs_ s) by done.
  assert (Hs2 : exists s2, (if pacing_rate_ s1 =? 0 then
       initial ← FromBytesAndTimeDelta (initial_congestion_window_ s1) (GetMinRtt s1);
       Some (s1 <| pacing_rate_ := initial |>) else Some s1) = Some s2 /\ keeps s1 s2 /\
       same_mode s1 s2 /\ outputs_ s2 = outputs_ s1).
  { case_match; [|eexists; by split_and!]. unfold FromBytesAndTimeDelta at 1.
    destruct (Z.eqb_spec (u64 (GetMinRtt s1)) 0) as [E|_];
      [by destruct (GetMinRtt_defined s1 (keeps_control _ _ K1 Hc))|].
    eexists. split; [done|]. split; [keep; apply QuicBandwidth_ok|done]. }
  clearbody s1. destruct Hs2 as (s2 & -> & K2 & M2). cbn [mbind option_bind].
  assert (K : keeps s s2) by (by etrans). assert (B : min_bw_ s2 = min_bw_ s)
    by (pose proof (keeps_config _ _ K) as E; unfold config in E; by injection E).
  eexists. split; [done|]. set (b := in_mode ST_INCREASE s2 && _ && _). 
  assert (K3 : keeps s2 (if b then s2 <| pacing_rate_ := min_bw_ s2 |> <| reference_rate_ := min_bw_ s2 |> else s2))
    by (destruct b; keep).
  destruct M1 as [M1 O1], M2 as [M2 O2].
  split_and!; [by etrans| |by destruct b; cbn; congruence|by apply K3, K|].
  - etrans; [exact M1|]. etrans; [exact M2|]. by destruct b.
  - intros Hm Hg. unfold b in *. destruct (in_mode ST_INCREASE s2 && _ && _) eqn:E; cbn; [lia|].
    cbn -[f32_of_Z] in Hm, Hg. rewrite (bool_decide_eq_true_2 _ Hm), Hg in E. cbn in E. zbool. lia.
Qed.

Lemma CalculatePacingRate_keeps s :
  control_ok s -> exists s', CalculatePacingRate s = Some s' /\ keeps s s' /\ control_ok s'.
Proof.
  intros Hc. destruct (new_rate_spec s Hc) as (s1 & E & K & _ & _ & C & _).
  unfold CalculatePacingRate. rewrite E. cbn [mbind option_bind]. eexists. split; [done|].
  destruct (report_rate_fields (pacing_rate_ s) s1) as (K' & _). split; [by etrans|by apply K'].
Qed.

Lemma gain_at_elem offset : 0 <= offset < kGainCycleLength -> gain_at offset ∈ kPacingGain.
Proof.
  intros Ho. unfold gain_at. apply list_elem_of_In, nth_In. unfold kGainCycleLength in *.
  change (length kPacingGain) with 8%nat. lia.
Qed.
