(* ===== verification/BbrAccounting.v ===== *)
(** The bytes in flight of the BBR controller: over any sequence of sends and of
    acknowledgements of sent packets, no handler traps, and [bytes_in_flight_] is
    the size of the packets sent after the largest acknowledged one. *)
From S2P Require Import Prelude.
From S2P Require Import QuicUnits.
From S2P Require Import WindowedFilter.
From S2P Require Import Sampler.
From S2P Require Import BbrSenderV5.
From S2P Require Import BbrInvariants.
Import MyBbrSenderV5.

Open Scope Z_scope.

(** * The map of sent packets *)

Definition sum_bytes (m : SentMap.t PerPacket) : Z := foldr (fun '(_, p) n => bytes p + n) 0 m.

(** Keys increase within [(lo, hi]]. *)
Fixpoint keyed (lo hi : Z) (m : SentMap.t PerPacket) : Prop :=
  match m with
  | [] => True
  | (k, p) :: m => lo < k <= hi /\ 0 <= bytes p /\ keyed k hi m
  end.

Definition newer (pn : Z) (m : list (Z * PerPacket)) : list (Z * PerPacket) :=
  filter (fun x => pn < x.1) m.

Lemma keyed_weaken lo lo' hi hi' m : lo' <= lo -> hi <= hi' -> keyed lo hi m -> keyed lo' hi' m.
Proof.
  revert lo lo'. induction m as [|[k p] m IH]; cbn; [done|]. intros lo lo' ?? (? & ? & ?).
  split_and!; [lia..|]. by eapply IH.
Qed.

Lemma keyed_insert lo hi m k p :
  lo <= hi -> hi < k -> 0 <= bytes p -> keyed lo hi m ->
  SentMap.insert k p m = m ++ [(k, p)] /\ keyed lo k (m ++ [(k, p)]).
Proof.
  revert lo. induction m as [|[k' p'] m IH]; cbn; intros lo Hle Hk Hp Hm; [split; [done|lia]|].
  destruct Hm as (? & ? & Hm). destruct (IH k') as [-> ?]; [lia..|done|].
  destruct (Z.ltb_spec k k'); [lia|]. destruct (Z.eqb_spec k k'); [lia|].
  split; [done|]. split_and!; [lia..|done].
Qed.

Lemma newer_all lo hi m pn : keyed lo hi m -> pn <= lo -> newer pn m = m.
Proof.
  revert lo. induction m as [|[k p] m IH]; [done|]. intros lo (? & ? & Hm) Hpn.
  unfold newer. rewrite filter_cons_True by (cbn; lia). f_equal. apply (IH k); [done|lia].
Qed.

Lemma newer_keyed lo hi m pn : keyed lo hi m -> lo <= pn -> keyed pn hi (newer pn m).
Proof.
  revert lo. induction m as [|[k p] m IH]; [done|]. intros lo (? & ? & Hm) Hpn. unfold newer.
  destruct (decide (pn < k)).
  - rewrite filter_cons_True by done. cbn. split_and!; [lia..|].
    fold (newer pn m). by rewrite (newer_all k hi) by (done || lia).
  - rewrite filter_cons_False by done. apply (IH k); [done|lia].
Qed.

Lemma sum_bytes_nonneg lo hi m : keyed lo hi m -> 0 <= sum_bytes m.
Proof.
  revert lo. induction m as [|[k p] m IH]; [done|]. intros lo (? & ? & Hm%IH).
  unfold sum_bytes in *. cbn. lia.
Qed.

Lemma drop_acked_spec lo hi m pn in_flight :
  keyed lo hi m -> in_flight = sum_bytes m -> in_flight < 2 ^ 64 ->
  drop_acked pn m in_flight = (newer pn m, sum_bytes (newer pn m)).
Proof.
  revert lo in_flight. induction m as [|[k p] m IH]; intros lo in_flight Hm -> Hf; [done|].
  pose proof Hm as (? & ? & Hm'). cbn [drop_acked]. pose proof (sum_bytes_nonneg _ _ _ Hm').
  unfold newer. destruct (Z.leb_spec k pn).
  - rewrite filter_cons_False by (cbn; lia). cbn [sum_bytes foldr] in Hf |- *.
    fold (sum_bytes m) in *. replace (bytes p + sum_bytes m - bytes p) with (sum_bytes m) by lia.
    rewrite wrap_small by (unfold fits; lia). apply (IH k); [done|done|lia].
  - fold (newer pn ((k, p) :: m)). rewrite (newer_all (k - 1) hi); [done| |lia].
    cbn. split_and!; [lia..|done].
Qed.

Lemma find_newer lo hi m pn k :
  keyed lo hi m -> SentMap.find k (newer pn m) = if pn <? k then SentMap.find k m else None.
Proof.
  revert lo. induction m as [|[k' p] m IH]; intros lo Hm; [cbn; by case_match|].
  destruct Hm as (? & ? & Hm). specialize (IH _ Hm). unfold newer in *.
  destruct (decide (pn < k')).
  - rewrite filter_cons_True by done. cbn. rewrite IH.
    destruct (Z.eqb_spec k' k); [subst|done]. by destruct (Z.ltb_spec pn k); [|lia].
  - rewrite filter_cons_False by done. cbn. rewrite IH.
    destruct (Z.eqb_spec k' k); [subst|done]. by destruct (Z.ltb_spec pn k); [lia|].
Qed.

Lemma find_keyed lo hi m k p : keyed lo hi m -> SentMap.find k m = Some p -> lo < k <= hi.
Proof.
  revert lo. induction m as [|[k' p'] m IH]; intros lo Hm; [done|]. destruct Hm as (? & ? & Hm). cbn.
  destruct (Z.eqb_spec k' k); [intros; lia|]. intros Hf%(IH _ Hm). lia.
Qed.

Lemma find_snoc (m : list (Z * PerPacket)) k p k' :
  SentMap.find k' (m ++ [(k, p)]) =
  match SentMap.find k' m with Some q => Some q | None => if k =? k' then Some p else None end.
Proof. induction m as [|[k1 p1] m IH]; [done|]. cbn. by destruct (k1 =? k'). Qed.

Lemma find_is_Some (m : list (Z * PerPacket)) k : is_Some (SentMap.find k m) <-> k ∈ m.*1.
Proof.
  induction m as [|[k' p] m IH]; cbn; [rewrite elem_of_nil; by split; [intros []|]|].
  rewrite elem_of_cons. destruct (Z.eqb_spec k' k) as [->|Hne]; [split; eauto|].
  rewrite IH. split; [by right|]. by intros [<-|].
Qed.

Lemma keyed_empty lo hi m : keyed lo hi m -> hi <= lo -> m = [].
Proof. destruct m as [|[k p] m]; [done|]. intros (? & _). lia. Qed.

(** * The sampler's map *)

Lemma lost_lookup l sm k :
  MySampler.packet_infos_ (fold_left (fun sm i => MySampler.OnPacketLost i sm) l sm) !! k =
  if bool_decide (k ∈ l) then None else MySampler.packet_infos_ sm !! k.
Proof.
  induction l as [|i l IH] in sm |- *; [done|]. cbn [fold_left]. rewrite IH. cbn.
  destruct (decide (k ∈ l)); [by rewrite (bool_decide_eq_true_2 (k ∈ l)), bool_decide_eq_true_2 by (done || by right)|].
  rewrite (bool_decide_eq_false_2 (k ∈ l)) by done. destruct (decide (k = i)) as [->|].
  - by rewrite bool_decide_eq_true_2, lookup_delete_eq by set_solver.
  - rewrite bool_decide_eq_false_2 by (rewrite elem_of_cons; tauto). by apply lookup_delete_ne.
Qed.

Lemma lost_ok l sm :
  MySampler.sampler_ok sm ->
  let sm' := fold_left (fun sm i => MySampler.OnPacketLost i sm) l sm in
  MySampler.sampler_ok sm' /\ MySampler.total_bytes_sent_ sm' = MySampler.total_bytes_sent_ sm.
Proof.
  induction l as [|i l IH] in sm |- *; intros Hs; [done|]. cbn [fold_left].
  by destruct (IH (MySampler.OnPacketLost i sm) (MySampler.PacketInfoRemove_ok i sm Hs)) as [? ->].
Qed.

(** The sampler follows the packets of the map, with their sizes. *)
Definition tracks (sm : MySampler.MySampler) (m : list (Z * PerPacket)) : Prop :=
  forall k, MySampler.size <$> MySampler.packet_infos_ sm !! k = bytes <$> SentMap.find k m.

Lemma outstanding_sum infos (m : list (Z * PerPacket)) lo hi :
  keyed lo hi m -> (forall k, MySampler.size <$> infos !! k = bytes <$> SentMap.find k m) ->
  MySampler.outstanding infos = sum_bytes m.
Proof.
  revert lo infos. induction m as [|[k p] m IH]; intros lo infos Hm Ht.
  - assert (infos = ∅) as ->; [|done]. apply map_empty. intros k. specialize (Ht k).
    by destruct (infos !! k).
  - destruct Hm as (? & ? & Hm). pose proof (Ht k) as Hk. cbn in Hk. rewrite Z.eqb_refl in Hk.
    destruct (infos !! k) as [q|] eqn:E; [|done]. cbn in Hk. injection Hk as Hk.
    rewrite (MySampler.outstanding_delete _ _ _ E), Hk. unfold sum_bytes. cbn. f_equal.
    apply (IH k); [done|]. intros k'. destruct (decide (k' = k)) as [->|Hne].
    + rewrite lookup_delete_eq. destruct (SentMap.find k m) eqn:F; [|done].
      apply (find_keyed k hi) in F; [lia|done].
    + rewrite lookup_delete_ne by done. rewrite Ht. cbn. by destruct (Z.eqb_spec k k').
Qed.

(** * The accounting invariant *)

Record flight_ok (s : MyBbrSenderV5) : Prop := {
  acked_before_sent : 0 <= last_ack_seq_ s <= last_sent_packet_ s;
  map_keyed : keyed (last_ack_seq_ s) (last_sent_packet_ s) (sent_packets_map_ s);
  in_flight_sum : bytes_in_flight_ s = sum_bytes (sent_packets_map_ s);
  sampler_consistent : MySampler.sampler_ok (sampler_ s);
  sampler_tracks : tracks (sampler_ s) (sent_packets_map_ s);
}.

Lemma flight_ok_steers s s' : flight s' = flight s -> flight_ok s -> flight_ok s'.
Proof. unfold flight. intros [= E1 E2 E3 E4 E5] []. split; congruence. Qed.

Lemma in_flight_bound s :
  flight_ok s -> 0 <= bytes_in_flight_ s < 2 ^ 64 /\
    bytes_in_flight_ s <= MySampler.total_bytes_sent_ (sampler_ s).
Proof.
  intros [_ Hk -> Hs Ht]. rewrite <- (outstanding_sum _ _ _ _ Hk Ht).
  pose proof (MySampler.outstanding_ok _ Hs). destruct Hs. lia.
Qed.

Lemma ctor_flight_ok b o tr r : flight_ok (MyBbrSenderV5_ctor b o tr r).
Proof. by split. Qed.

Lemma ctor_control_ok b o tr r : control_ok (MyBbrSenderV5_ctor b o tr r).
Proof. split; try done. apply QuicBandwidth_ok. Qed.

Lemma sampler_sent_lookup t pn b f sm k :
  MySampler.packet_infos_ sm !! pn = None ->
  MySampler.size <$> MySampler.packet_infos_ (MySampler.OnPacketSent t pn b f sm) !! k =
  if pn =? k then Some b else MySampler.size <$> MySampler.packet_infos_ sm !! k.
Proof.
  intros Hpn. unfold MySampler.OnPacketSent. destruct (f =? 0); cbn; unfold map_emplace; rewrite Hpn;
    (destruct (Z.eqb_spec pn k) as [->|]; [by rewrite lookup_insert_eq|by rewrite lookup_insert_ne]).
Qed.

Lemma sampler_sent_total t pn b f sm :
  MySampler.total_bytes_sent_ (MySampler.OnPacketSent t pn b f sm) =
  u64 (MySampler.total_bytes_sent_ sm + b).
Proof. unfold MySampler.OnPacketSent. by destruct (f =? 0). Qed.

Lemma OnPacketSent_flight t pn b s :
  flight_ok s -> last_sent_packet_ s < pn -> sfits t -> 0 <= b ->
  MySampler.total_bytes_sent_ (sampler_ s) + b < 2 ^ 64 ->
  let s' := OnPacketSent t pn b s in
  flight_ok s' /\ sent_packets_map_ s' = sent_packets_map_ s ++ [(pn, mkPerPacket t b)] /\
  last_sent_packet_ s' = pn /\ last_ack_seq_ s' = last_ack_seq_ s /\
  MySampler.total_bytes_sent_ (sampler_ s') = MySampler.total_bytes_sent_ (sampler_ s) + b.
Proof.
  intros Hok Hpn Ht Hb Hsum. pose proof (in_flight_bound s Hok) as Hin.
  destruct Hok as [Ha Hk Hf Hs Htr].
  destruct (keyed_insert _ _ _ pn (mkPerPacket t b) (proj2 Ha) Hpn Hb Hk) as [Hins Hk'].
  assert (Hfresh : MySampler.packet_infos_ (sampler_ s) !! pn = None).
  { specialize (Htr pn). destruct (SentMap.find pn (sent_packets_map_ s)) eqn:E.
    - apply (find_keyed _ _ _ _ _ Hk) in E. lia.
    - by destruct (MySampler.packet_infos_ (sampler_ s) !! pn). }
  pose proof (MySampler.OnPacketSent_ok t pn b (bytes_in_flight_ s) _ Hs Ht Hb Hsum Hfresh) as Hs'.
  unfold OnPacketSent. destruct (Z.leb_spec pn (last_sent_packet_ s)); [lia|]. unfold AddPacketInfo.
  cbn -[Z.pow MySampler.OnPacketSent]. rewrite Hins, sampler_sent_total, !(wrap_small 64)
    by (unfold fits; destruct Hs; lia).
  split_and!; try done. split; cbn -[Z.pow MySampler.OnPacketSent]; [lia|done| |done|].
  - unfold sum_bytes in *. rewrite foldr_app. cbn. rewrite Hf. clear. 
    induction (sent_packets_map_ s) as [|[k p] m IH]; cbn; lia.
  - intros k. rewrite sampler_sent_lookup by done. rewrite find_snoc, Htr.
    destruct (SentMap.find k (sent_packets_map_ s)) eqn:E; cbn; destruct (Z.eqb_spec pn k); try done.
    apply (find_keyed _ _ _ _ _ Hk) in E. lia.
Qed.

(** * An acknowledgement *)

Lemma UpdateRttAndInflight_flight now pn s lo hi :
  keyed lo hi (sent_packets_map_ s) -> bytes_in_flight_ s = sum_bytes (sent_packets_map_ s) ->
  bytes_in_flight_ s < 2 ^ 64 ->
  flight (UpdateRttAndInflight now pn s) =
    (last_sent_packet_ s, last_ack_seq_ s, newer pn (sent_packets_map_ s),
     sum_bytes (newer pn (sent_packets_map_ s)), sampler_ s) /\
  (control_ok s -> control_ok (UpdateRttAndInflight now pn s)).
Proof.
  intros Hk Hf Hb. unfold UpdateRttAndInflight. set (s1 := match SentMap.find _ _ with Some _ => _ | None => _ end).
  assert (H1 : steers s s1).
  { unfold s1. case_match; [|reflexivity]. etrans; [apply steers_update_min_rtt|].
    etrans; [apply steers_update_decrease_rtt|]. apply steers_update_smoothed_rtt. }
  clearbody s1. destruct H1 as [[F1 _ C1] _]. unfold flight in F1. injection F1 as E1 E2 E3 E4 E5.
  rewrite (drop_acked_spec lo hi) by (by rewrite ?E3, ?E4). rewrite E3.
  split; [unfold flight; cbn -[sum_bytes newer]; by rewrite E1, E2, E5|]. intros []%C1. by split.
Qed.

Lemma lose_skipped_lookup first pn sm k :
  MySampler.packet_infos_ (lose_skipped first pn sm) !! k =
  if (first <=? k) && (k <? pn) then None else MySampler.packet_infos_ sm !! k.
Proof.
  unfold lose_skipped. rewrite lost_lookup.
  destruct (decide (k ∈ seqZ first (pn - first))) as [H|H];
    [rewrite bool_decide_eq_true_2 by done|rewrite bool_decide_eq_false_2 by done];
    rewrite elem_of_seqZ in H; destruct (Z.leb_spec first k), (Z.ltb_spec k pn); cbn; done || lia.
Qed.

(** The sampler after an acknowledgement follows the packets newer than it. *)
Lemma tracks_newer sm sm1 m lo hi pn :
  keyed lo hi m -> tracks sm m -> lo < pn ->
  MySampler.packet_infos_ sm1 = delete pn (MySampler.packet_infos_ (lose_skipped (lo + 1) pn sm)) ->
  tracks sm1 (newer pn m).
Proof.
  intros Hk Ht Hpn E k. rewrite E, (find_newer lo hi) by done.
  destruct (decide (k = pn)) as [->|Hne].
  - rewrite lookup_delete_eq. by destruct (Z.ltb_spec pn pn); [lia|].
  - rewrite lookup_delete_ne, lose_skipped_lookup by done. destruct (SentMap.find k m) as [p|] eqn:F.
    + pose proof (find_keyed _ _ _ _ _ Hk F).
      destruct (Z.leb_spec (lo + 1) k), (Z.ltb_spec k pn), (Z.ltb_spec pn k); try lia; [done|].
      cbn [andb]. by rewrite Ht, F.
    + specialize (Ht k). rewrite F in Ht. case_match; [by case_match|]. rewrite Ht. by case_match.
Qed.

Lemma OnAck_flight t pn s :
  flight_ok s -> control_ok s -> sfits t -> last_ack_seq_ s < pn <= last_sent_packet_ s ->
  exists s', OnAck t pn s = Some s' /\ flight_ok s' /\ control_ok s' /\
    sent_packets_map_ s' = newer pn (sent_packets_map_ s) /\
    last_sent_packet_ s' = last_sent_packet_ s /\ last_ack_seq_ s' = pn /\
    MySampler.total_bytes_sent_ (sampler_ s') = MySampler.total_bytes_sent_ (sampler_ s).
Proof.
  intros Hok Hc Ht Hpn. pose proof (in_flight_bound s Hok) as Hin. destruct Hok as [Ha Hk Hf Hs Htr].
  unfold OnAck. destruct (Z.leb_spec pn (last_ack_seq_ s)); [lia|].
  set (s1 := s <| sampler_ := _ |> <| last_ack_seq_ := pn |>).
  destruct (lost_ok (seqZ (last_ack_seq_ s + 1) (pn - (last_ack_seq_ s + 1))) _ Hs) as [Hs1 Ts1].
  fold (lose_skipped (last_ack_seq_ s + 1) pn (sampler_ s)) in Hs1, Ts1.
  assert (C1 : control_ok s1) by (destruct Hc; by split).
  destruct (UpdateRttAndInflight_flight t pn s1 _ _ Hk Hf ltac:(apply Hin)) as [F2 C2].
  specialize (C2 C1). set (s2 := UpdateRttAndInflight t pn s1) in *. clearbody s2.
  pose proof (steers_UpdateRoundTripCounter (last_ack_seq_ s2) s2) as [[F3 _ C3] _].
  destruct (UpdateRoundTripCounter (last_ack_seq_ s2) s2) as [update s3]. cbn [snd] in F3, C3.
  specialize (C3 C2). rewrite F2 in F3. unfold flight in F3. injection F3 as E1 E2 E3 E4 E5.
  cbn in E1, E2, E3, E4, E5.
  rewrite E5. destruct (MySampler.OnPacketAcknowledged_ok t pn update _ Hs1 Ht)
    as (bw & sm & -> & Hsm & _ & Tsm & Ism). cbn [mbind option_bind].
  set (s4 := s3 <| sampler_ := sm |>).
  assert (C4 : control_ok s4) by (destruct C3; by split).
  assert (F4 : flight_ok s4).
  { split; cbn; rewrite ?E1, ?E2, ?E3, ?E4; [lia|by eapply newer_keyed, Z.lt_le_incl|done|done|].
    by eapply tracks_newer. }
  assert (Hend : forall s5, keeps s4 s5 -> exists s', CalculatePacingRate s5 = Some s' /\ keeps s4 s' /\
            control_ok s').
  { intros s5 H5. destruct (CalculatePacingRate_keeps s5) as (s' & E & H6 & C6);
      [by apply H5|]. exists s'. split_and!; [done|by etrans|done]. }
  assert (Hfin : exists s', (if i64 (round_trip_count_ s2) =? 0 then CalculatePacingRate s4
       else CalculatePacingRate (react t pn bw (i64 (round_trip_count_ s2)) update s4)) = Some s' /\
       keeps s4 s' /\ control_ok s').
  { case_match; apply Hend; [reflexivity|apply steers_react]. }
  destruct Hfin as (s' & E & H5 & C5). exists s'. split; [exact E|].
  pose proof (keeps_flight _ _ H5) as F5. split_and!; [by eapply flight_ok_steers|done|..].
  all: unfold flight in F5; injection F5 as G1 G2 G3 G4 G5; cbn in G1, G2, G3, G4, G5; congruence.
Qed.

(** * Traces, and the ledger they are measured against *)

Inductive Event :=
  | Sent (event_time packet_number bytes : Z)
  | Acked (event_time packet_number : Z).

Definition handle (s : MyBbrSenderV5) (e : Event) : option MyBbrSenderV5 :=
  match e with
  | Sent t pn b => Some (OnPacketSent t pn b s)
  | Acked t pn => OnAck t pn s
  end.

Fixpoint handle_all (s : MyBbrSenderV5) (events : list Event) : option MyBbrSenderV5 :=
  match events with
  | [] => Some s
  | e :: events => s ← handle s e; handle_all s events
  end.

(** The abstract state: every packet that was sent, and the largest numbers sent
    and acknowledged. *)
Record Ledger := mkLedger { sends : list (Z * Z); high_sent : Z; high_acked : Z }.

Definition empty_ledger : Ledger := mkLedger [] 0 0.

Definition record_event (l : Ledger) (e : Event) : Ledger :=
  match e with
  | Sent _ pn b =>
    if pn <=? high_sent l then l else mkLedger (sends l ++ [(pn, b)]) pn (high_acked l)
  | Acked _ pn => mkLedger (sends l) (high_sent l) (Z.max (high_acked l) pn)
  end.

Definition total (l : list (Z * Z)) : Z := foldr (fun '(_, b) n => b + n) 0 l.

(** The packets sent after the largest acknowledged one, and their bytes. *)
Definition unacked (l : Ledger) : list (Z * Z) := filter (fun x => high_acked l < x.1) (sends l).
Definition in_flight (l : Ledger) : Z := total (unacked l).

(** Events a transport produces: sizes that a byte counter can hold, and
    acknowledgements of packets that were sent. *)
Definition plausible (l : Ledger) (e : Event) : Prop :=
  match e with
  | Sent t pn b => sfits t /\ 0 <= b /\ total (sends l) + b < 2 ^ 64
  | Acked t pn => sfits t /\ pn <= high_sent l
  end.

Fixpoint plausible_all (l : Ledger) (events : list Event) : Prop :=
  match events with
  | [] => True
  | e :: events => plausible l e /\ plausible_all (record_event l e) events
  end.

(** The controller stands for the ledger. *)
Record represents (l : Ledger) (s : MyBbrSenderV5) : Prop := {
  rep_flight : flight_ok s;
  rep_control : control_ok s;
  rep_sent : last_sent_packet_ s = high_sent l;
  rep_acked : last_ack_seq_ s = high_acked l;
  rep_total : MySampler.total_bytes_sent_ (sampler_ s) = total (sends l);
  rep_unacked : prod_map id bytes <$> sent_packets_map_ s = unacked l;
}.

Lemma total_app l1 l2 : total (l1 ++ l2) = total l1 + total l2.
Proof. induction l1 as [|[k b] l1 IH]; [done|]. unfold total in *. cbn. lia. Qed.

Lemma sum_bytes_total (m : list (Z * PerPacket)) : sum_bytes m = total (prod_map id bytes <$> m).
Proof. unfold sum_bytes, total. induction m as [|[k p] m IH]; [done|]. cbn. by rewrite IH. Qed.

Lemma newer_total pn (m : list (Z * PerPacket)) :
  prod_map id bytes <$> newer pn m = filter (fun x => pn < x.1) (prod_map id bytes <$> m).
Proof.
  unfold newer. induction m as [|[k p] m IH]; [done|]. rewrite fmap_cons.
  destruct (decide (pn < k)).
  - by rewrite !filter_cons_True, fmap_cons, IH by done.
  - by rewrite !filter_cons_False, IH by done.
Qed.

Lemma filter_twice (a b : Z) (l : list (Z * Z)) :
  a <= b -> filter (fun x => b < x.1) (filter (fun x => a < x.1) l) = filter (fun x => b < x.1) l.
Proof.
  intros Hab. induction l as [|[k n] l IH]; [done|].
  destruct (decide (a < k)); destruct (decide (b < k)); try lia.
  - by rewrite !filter_cons_True, IH by done.
  - by rewrite (filter_cons_True _ (k, n)), !filter_cons_False, IH by done.
  - by rewrite !filter_cons_False, IH by done.
Qed.

Lemma OnPacketSent_control t pn b s : control_ok s -> control_ok (OnPacketSent t pn b s).
Proof. unfold OnPacketSent, AddPacketInfo. case_match; [done|]. intros []. by split. Qed.

Lemma represents_sent l s t pn b :
  represents l s -> plausible l (Sent t pn b) -> represents (record_event l (Sent t pn b)) (OnPacketSent t pn b s).
Proof.
  intros [Hf Hc Hs Ha Ht Hu] (Htime & Hb & Hsum). cbn [record_event].
  destruct (Z.leb_spec pn (high_sent l)) as [Hle|Hlt].
  - unfold OnPacketSent. rewrite (proj2 (Z.leb_le _ _)) by lia. by split.
  - pose proof (acked_before_sent s Hf). rewrite <- Ht in Hsum.
    destruct (OnPacketSent_flight t pn b s Hf ltac:(lia) Htime Hb Hsum) as (F & M & S & A & T).
    split; cbn; [done|by apply OnPacketSent_control|done|congruence| |].
    + rewrite T, total_app, Ht. cbn. lia.
    + rewrite M, fmap_app, Hu. unfold unacked. cbn [sends high_acked]. rewrite filter_app.
      by rewrite (filter_cons_True _ (pn, b)) by (cbn; lia).
Qed.

Lemma represents_acked l s t pn :
  represents l s -> plausible l (Acked t pn) ->
  exists s', OnAck t pn s = Some s' /\ represents (record_event l (Acked t pn)) s'.
Proof.
  intros [Hf Hc Hs Ha Ht Hu] (Htime & Hpn). cbn [record_event].
  destruct (Z.leb_spec pn (last_ack_seq_ s)) as [Hle|Hlt].
  - exists s. unfold OnAck. rewrite (proj2 (Z.leb_le _ _)) by done. split; [done|].
    rewrite Z.max_l by lia. by split.
  - destruct (OnAck_flight t pn s Hf Hc Htime ltac:(lia)) as (s' & E & F & C & M & S & A & T).
    exists s'. split; [done|]. rewrite Z.max_r by lia. split; cbn [sends high_sent high_acked]; [done|done|congruence|done|congruence|].
    rewrite M, newer_total, Hu. unfold unacked. cbn. apply filter_twice. lia.
Qed.

Lemma represents_ctor b o tr r : represents empty_ledger (MyBbrSenderV5_ctor b o tr r).
Proof. by split; [apply ctor_flight_ok|apply ctor_control_ok|..]. Qed.

Lemma in_flight_represented l s : represents l s -> bytes_in_flight_ s = in_flight l.
Proof. intros [Hf _ _ _ _ Hu]. by rewrite (in_flight_sum s Hf), sum_bytes_total, Hu. Qed.

(** * Reachable states *)

(** The controller and the ledger after some plausible events. *)
Inductive reachable (min_bps : Z) (observer trace : bool) (random : nat -> Z)
    : Ledger -> MyBbrSenderV5 -> Prop :=
  | reach_start :
    reachable min_bps observer trace random empty_ledger (MyBbrSenderV5_ctor min_bps observer trace random)
  | reach_event l s e s' :
    reachable min_bps observer trace random l s -> plausible l e -> handle s e = Some s' ->
    reachable min_bps observer trace random (record_event l e) s'.

Section reachable.
Context {min_bps : Z} {observer trace : bool} {random : nat -> Z}.
Abbreviation reachable := (reachable min_bps observer trace random).

Lemma handle_represents l s e :
  represents l s -> plausible l e -> exists s', handle s e = Some s' /\ represents (record_event l e) s'.
Proof.
  destruct e as [t pn b|t pn]; intros Hr Hp; [eexists; split; [done|by apply represents_sent]|].
  by apply represents_acked.
Qed.

Lemma reachable_represents l s : reachable l s -> represents l s.
Proof.
  induction 1 as [|l s e s' _ IH Hp He]; [apply represents_ctor|].
  destruct (handle_represents l s e IH Hp) as (s1 & E & Hr). congruence.
Qed.

Lemma reachable_all l s events s' :
  reachable l s -> plausible_all l events -> handle_all s events = Some s' ->
  reachable (fold_left record_event events l) s'.
Proof.
  revert l s. induction events as [|e events IH]; intros l s Hr Hp He; [by injection He as <-|].
  cbn in He. destruct (handle s e) as [s1|] eqn:E; [|done]. destruct Hp as [Hp1 Hp]. cbn [fold_left].
  apply (IH _ s1); [by eapply reach_event|done|done].
Qed.
End reachable.
