(* ===== verification/BbrModes.v ===== *)
(** The mode machine of the BBR controller, and what it announces. *)
From S2P Require Import Prelude.
From S2P Require Import QuicUnits.
From S2P Require Import WindowedFilter.
From S2P Require Import Sampler.
From S2P Require Import BbrSenderV5.
From S2P Require Import BbrInvariants.
Import MyBbrSenderV5.

Open Scope Z_scope.

(** * The anatomy of an acknowledgement *)

(** The controller when the reaction starts: packets, times and the round counter
    are up to date. *)
Definition noted (s s' : MyBbrSenderV5) : Prop :=
  mode_ s' = mode_ s /\ is_at_full_bandwidth_ s' = is_at_full_bandwidth_ s /\
  announced s' = announced s /\ config s' = config s /\ (control_ok s -> control_ok s').

Lemma UpdateRttAndInflight_noted t pn s :
  noted s (UpdateRttAndInflight t pn s) /\
  round_trip_count_ (UpdateRttAndInflight t pn s) = round_trip_count_ s.
Proof.
  unfold UpdateRttAndInflight. set (s1 := match SentMap.find _ _ with Some _ => _ | None => _ end).
  assert (H1 : steers s s1 /\ mode_ s1 = mode_ s /\ is_at_full_bandwidth_ s1 = is_at_full_bandwidth_ s /\
               round_trip_count_ s1 = round_trip_count_ s).
  { unfold s1. case_match; [|done]. split.
    - etrans; [apply steers_update_min_rtt|]. etrans; [apply steers_update_decrease_rtt|].
      apply steers_update_smoothed_rtt.
    - unfold update_smoothed_rtt, update_decrease_rtt, update_min_rtt. by repeat case_match. }
  clearbody s1. destruct H1 as ([[_ C1 K1] A1] & M1 & F1 & R1).
  destruct (drop_acked _ _ _) as [m f]. split; [|done]. split_and!; [done..|].
  intros []%K1. by split.
Qed.

(** The controller when the round trip time of packet [pn] has been measured, and what is
    read off it there: whether the minimum RTT is older than its time of validity, and
    whether the smoothed RTT exceeds what is tolerated. *)
Definition measured (t pn : Z) (s : MyBbrSenderV5) : MyBbrSenderV5 :=
  UpdateRttAndInflight t pn
    (s <| sampler_ := lose_skipped (last_ack_seq_ s + 1) pn (sampler_ s) |> <| last_ack_seq_ := pn |>).
Definition expired (t : Z) (s : MyBbrSenderV5) : bool := time_add (min_rtt_timestamp_ s) kMinRttExpiry <? t.
Definition delayed (s : MyBbrSenderV5) : bool :=
  negb (base_line_rtt_ s =? kQuicInfiniteTimeUs)
  && (delta_mul (base_line_rtt_ s) (widen kTolerableDelayFactor) <? s_rtt_ s).
Definition signals (s : MyBbrSenderV5) := (min_rtt_timestamp_ s, base_line_rtt_ s, s_rtt_ s).

Lemma signals_read t s s' : signals s' = signals s -> expired t s' = expired t s /\ delayed s' = delayed s.
Proof. unfold signals, expired, delayed. by intros [= -> -> ->]. Qed.

Lemma OnAck_anatomy t pn s s' :
  OnAck t pn s = Some s' -> last_ack_seq_ s < pn ->
  exists s1 bw update, noted s s1 /\ signals s1 = signals (measured t pn s) /\
    (if i64 (round_trip_count_ s) =? 0 then CalculatePacingRate s1
     else CalculatePacingRate (react t pn bw (i64 (round_trip_count_ s)) update s1)) = Some s'.
Proof.
  intros HA Hpn. unfold OnAck in HA. unfold measured. destruct (Z.leb_spec pn (last_ack_seq_ s)); [lia|].
  set (s1 := s <| sampler_ := _ |> <| last_ack_seq_ := pn |>) in HA |- *.
  destruct (UpdateRttAndInflight_noted t pn s1) as [(M2 & F2 & A2 & C2 & K2) R2].
  set (s2 := UpdateRttAndInflight t pn s1) in *. clearbody s2. cbv zeta in HA.
  assert (H3 : steers s2 (UpdateRoundTripCounter (last_ack_seq_ s2) s2).2 /\
    mode_ (UpdateRoundTripCounter (last_ack_seq_ s2) s2).2 = mode_ s2 /\
    is_at_full_bandwidth_ (UpdateRoundTripCounter (last_ack_seq_ s2) s2).2 = is_at_full_bandwidth_ s2 /\
    signals (UpdateRoundTripCounter (last_ack_seq_ s2) s2).2 = signals s2).
  { split; [apply steers_UpdateRoundTripCounter|]. unfold UpdateRoundTripCounter. by destruct (_ <? _). }
  destruct (UpdateRoundTripCounter _ s2) as [update s3]. cbn [snd] in H3.
  destruct H3 as ([[_ C3 K3] A3] & M3 & F3 & S3).
  destruct (MySampler.OnPacketAcknowledged _ _ _ _) as [[bw sm]|]; [|done]. cbn [mbind option_bind] in HA.
  exists (s3 <| sampler_ := sm |>), bw, update. split; [|split; [exact S3|by rewrite R2 in HA]].
  cbn in *. split_and!; cbn; [congruence|congruence| | |].
  - unfold announced in *. cbn in *. congruence.
  - unfold config in *. cbn in *. congruence.
  - intros Hc. assert (Hc3 : control_ok s3) by (apply K3, K2; by destruct Hc; split). by destruct Hc3; split.
Qed.

(** * Modes *)

(** The mode [m'] after an acknowledgement that arrived in mode [m], where [exp] and [del]
    say that the minimum RTT has expired and that the delay is not tolerable, and [full]
    that the full bandwidth has been reached.  An expired minimum RTT ends every mode
    but DECREASE, also START and DRAIN, in favour of DECREASE, which may be left again at
    once for INCREASE. *)
Definition mode_edge (exp del full : bool) (m m' : Mode) : Prop :=
  match m with
  | ST_START =>
    if exp then m' = ST_DECREASE \/ m' = ST_INCREASE
    else if full then m' = ST_DRAIN \/ m' = ST_INCREASE
    else m' = ST_START
  | ST_DRAIN =>
    if exp then m' = ST_DECREASE \/ m' = ST_INCREASE else m' = ST_DRAIN \/ m' = ST_INCREASE
  | ST_INCREASE =>
    if exp || del then m' = ST_DECREASE \/ m' = ST_INCREASE else m' = ST_INCREASE
  | ST_DECREASE => m' = ST_DECREASE \/ m' = ST_INCREASE
  end.

(** DECREASE is entered, or stayed in, before the exits of START and DRAIN are looked at. *)
Lemma mode_edge_steps exp del full m m2 m' :
  (if bool_decide (m = ST_DECREASE) || (exp || bool_decide (m = ST_INCREASE) && del)
   then m2 = ST_DECREASE \/ m2 = ST_INCREASE else m2 = m) ->
  mode_edge false false full m2 m' -> mode_edge exp del full m m'.
Proof. destruct m, exp, del, full, m2; vm_compute; intuition congruence. Qed.

Lemma EnterIncreaseMode_mode now s :
  mode_ (EnterIncreaseMode now s) = ST_INCREASE /\
  cycle_current_offset_ (EnterIncreaseMode now s) <> 1 /\
  last_cycle_start_ (EnterIncreaseMode now s) = now.
Proof.
  unfold EnterIncreaseMode, RandUint64. cbn -[Z.modulo]. change (kGainCycleLength - 1) with 7.
  set (r := random_ s (random_calls_ s) mod 7).
  destruct (Z.leb_spec 1 r); cbn -[r]; split_and!; try done; lia.
Qed.

Lemma EnterIncreaseMode_keeps now s :
  is_at_full_bandwidth_ (EnterIncreaseMode now s) = is_at_full_bandwidth_ s /\
  bytes_in_flight_ (EnterIncreaseMode now s) = bytes_in_flight_ s /\
  GetTargetCongestionWindow (f32_of_Z 1) (EnterIncreaseMode now s) = GetTargetCongestionWindow (f32_of_Z 1) s.
Proof.
  unfold EnterIncreaseMode, RandUint64. cbn -[Z.modulo]. by destruct (1 <=? _).
Qed.

Lemma MaybeEnterOrExitDecrease_mode now e c r s :
  let s' := MaybeEnterOrExitDecrease now e c r s in
  (if in_mode ST_DECREASE s || (e || negb (c =? 0)) then mode_ s' = ST_DECREASE \/ mode_ s' = ST_INCREASE else s' = s) /\
  (mode_ s' = ST_DECREASE -> bdp_ s' < bytes_in_flight_ s').
Proof.
  unfold MaybeEnterOrExitDecrease. cbv zeta. set (called := e || _).
  set (s1 := if negb _ && called then _ else s).
  assert (H1 : if in_mode ST_DECREASE s || called then mode_ s1 = ST_DECREASE else s1 = s /\ mode_ s <> ST_DECREASE).
  { unfold s1. case_bool_decide as Hm; [exact Hm|]. cbn [negb orb andb]. by destruct called. }
  clearbody s1 called. destruct (in_mode ST_DECREASE s || called).
  - rewrite bool_decide_eq_true_2 by done.
    set (s2 := if exit_probe_rtt_at_ s1 =? 0 then _ else s1).
    assert (M2 : mode_ s2 = mode_ s1) by (by unfold s2; destruct (exit_probe_rtt_at_ s1 =? 0)).
    clearbody s2. destruct (_ || _) eqn:E.
    + destruct (EnterIncreaseMode_mode now ((adopt_min_rtt now s2) <| congestion_backoff_flag_ := false |>))
        as (-> & _). split; [by right|done].
    + apply orb_false_iff in E as [_ E]. zbool. split; [left; congruence|done].
  - destruct H1 as [-> Hm]. rewrite bool_decide_eq_false_2 by done. done.
Qed.

Lemma MaybeExitStartupOrDrain_mode now s :
  let s' := MaybeExitStartupOrDrain now s in
  mode_edge false false (is_at_full_bandwidth_ s') (mode_ s) (mode_ s') /\
  (mode_ s' = ST_DRAIN -> GetTargetCongestionWindow (f32_of_Z 1) s' < bytes_in_flight_ s') /\
  (mode_ s' = ST_DECREASE \/ mode_ s = ST_INCREASE \/ mode_ s = ST_DECREASE -> s' = s) /\
  (mode_ s = ST_START \/ mode_ s = ST_DRAIN -> mode_ s' = ST_INCREASE ->
   bytes_in_flight_ s' <= GetTargetCongestionWindow (f32_of_Z 1) s').
Proof.
  unfold MaybeExitStartupOrDrain. cbv zeta. set (leaves := _ && is_at_full_bandwidth_ s).
  set (s1 := if leaves then _ else s).
  assert (H1 : mode_ s1 = if leaves then ST_DRAIN else mode_ s) by (by unfold s1; destruct leaves).
  assert (Hs1 : leaves = false -> s1 = s) by (by unfold s1; intros ->).
  assert (F1 : is_at_full_bandwidth_ s1 = is_at_full_bandwidth_ s) by (by unfold s1; destruct leaves).
  assert (Hl : leaves = bool_decide (mode_ s = ST_START) && is_at_full_bandwidth_ s) by done.
  clearbody s1 leaves. destruct (bool_decide (mode_ s1 = ST_DRAIN) && _) eqn:E.
  - apply andb_true_iff in E as [Hd Hb]. apply bool_decide_eq_true in Hd. rewrite Hd in H1. zbool.
    destruct (EnterIncreaseMode_mode now s1) as (-> & _), (EnterIncreaseMode_keeps now s1) as (-> & -> & ->).
    rewrite F1. destruct leaves.
    + symmetry in Hl. apply andb_true_iff in Hl as [Hm ->]. apply bool_decide_eq_true in Hm. rewrite Hm.
      split_and!; cbn; intuition congruence.
    + rewrite <- H1. split_and!; cbn; intuition congruence.
  - rewrite F1. split_and!.
    + rewrite H1. destruct leaves.
      * symmetry in Hl. apply andb_true_iff in Hl as [Hm ->]. apply bool_decide_eq_true in Hm. rewrite Hm. by left.
      * destruct (mode_ s); cbn; auto. by destruct (is_at_full_bandwidth_ s).
    + intros Hd. rewrite bool_decide_eq_true_2 in E by done. cbn [andb] in E. zbool. lia.
    + intros Hm. apply Hs1. destruct leaves; [|done]. symmetry in Hl. apply andb_true_iff in Hl as [Hs _].
      apply bool_decide_eq_true in Hs. rewrite H1, Hs in Hm. naive_solver.
    + intros Hm Hi. rewrite H1 in Hi. destruct leaves; [done|]. destruct Hm; congruence.
Qed.

(** What the exits of a mode are decided on. *)
Definition exits (s : MyBbrSenderV5) := (mode_ s, bdp_ s, bytes_in_flight_ s, is_at_full_bandwidth_ s).

Lemma exits_sample (update : bool) bw round s :
  exits (if update then
    let s := s <| max_bandwidth_ := Update (C := MaxFilter) bw (u64 round) (max_bandwidth_ s) |> in
    if in_mode ST_INCREASE s then UpdateMaxBw s else s
  else s) = exits s.
Proof. destruct update; [|done]. unfold UpdateMaxBw. by repeat case_match. Qed.

(** The delay is looked at in the INCREASE mode only. *)
Definition reason (pn : Z) (s : MyBbrSenderV5) : Z * MyBbrSenderV5 :=
  if in_mode ST_INCREASE s then CheckIfCongestion pn s else (0, s).

Lemma reason_spec pn s :
  exits (reason pn s).2 = exits s /\ negb ((reason pn s).1 =? 0) = in_mode ST_INCREASE s && delayed s.
Proof.
  unfold reason. case_bool_decide as Hm; [|done]. unfold CheckIfCongestion, delayed.
  set (s1 := if _ && _ then _ else s).
  assert (E1 : exits s1 = exits s /\ base_line_rtt_ s1 = base_line_rtt_ s /\ s_rtt_ s1 = s_rtt_ s)
    by (by unfold s1; destruct (_ && _)).
  clearbody s1. destruct E1 as (X1 & B1 & R1). cbv zeta.
  set (s2 := if _ <=? pn then _ else s1).
  assert (E2 : exits s2 = exits s /\ base_line_rtt_ s2 = base_line_rtt_ s /\ s_rtt_ s2 = s_rtt_ s)
    by (by unfold s2; destruct (_ <=? _)).
  clearbody s2. destruct E2 as (X2 & -> & ->). assert (mode_ s2 = ST_INCREASE) as M2 by (injection X2 as ->; done).
  rewrite bool_decide_eq_true_2 by done. rewrite andb_true_r. split; [done|]. by destruct (_ && _).
Qed.

Lemma mode_CheckIfFull s :
  mode_ (CheckIfFullBandwidthReached s) = mode_ s /\ bdp_ (CheckIfFullBandwidthReached s) = bdp_ s /\
  bytes_in_flight_ (CheckIfFullBandwidthReached s) = bytes_in_flight_ s.
Proof. unfold CheckIfFullBandwidthReached. by repeat case_match. Qed.

Lemma UpdateGainCyclePhase_mode now s : mode_ (UpdateGainCyclePhase now s) = mode_ s.
Proof. unfold UpdateGainCyclePhase. by case_match. Qed.

(** A draining mode lasts only while there is something to drain. *)
Definition draining (s : MyBbrSenderV5) : Prop :=
  (mode_ s = ST_DECREASE -> bdp_ s < bytes_in_flight_ s) /\
  (mode_ s = ST_DRAIN -> GetTargetCongestionWindow (f32_of_Z 1) s < bytes_in_flight_ s).

Lemma UpdateGainCyclePhase_keeps now s :
  is_at_full_bandwidth_ (UpdateGainCyclePhase now s) = is_at_full_bandwidth_ s /\
  bytes_in_flight_ (UpdateGainCyclePhase now s) = bytes_in_flight_ s /\
  GetTargetCongestionWindow (f32_of_Z 1) (UpdateGainCyclePhase now s) = GetTargetCongestionWindow (f32_of_Z 1) s.
Proof. unfold UpdateGainCyclePhase. by case_match. Qed.

(** START and DRAIN end in INCREASE only when what is in flight fits the window, unless
    the minimum RTT has expired. *)
Definition fills (exp : bool) (s s' : MyBbrSenderV5) : Prop :=
  mode_ s = ST_START \/ mode_ s = ST_DRAIN -> exp = false -> mode_ s' = ST_INCREASE ->
  bytes_in_flight_ s' <= GetTargetCongestionWindow (f32_of_Z 1) s'.

(** The reaction, in state [sm], to an acknowledgement: from [s] to [s']. *)
Definition moved (t : Z) (sm s s' : MyBbrSenderV5) : Prop :=
  mode_edge (expired t sm) (delayed sm) (is_at_full_bandwidth_ s') (mode_ s) (mode_ s') /\ draining s' /\
  fills (expired t sm) s s'.

Lemma react_mode t pn bw round update s : moved t s s (react t pn bw round update s).
Proof.
  unfold moved, react. fold (reason pn s). fold (expired t s).
  destruct (reason_spec pn s) as [H1 Hc]. destruct (reason pn s) as [c s1]. cbn [fst snd] in H1, Hc.
  pose proof (MaybeEnterOrExitDecrease_mode t (expired t s) c round s1) as (M2 & D2).
  rewrite Hc in M2. injection H1 as M1 _ _ _. rewrite M1 in M2. clear Hc.
  set (s2 := MaybeEnterOrExitDecrease _ _ _ _ _) in *. clearbody s2.
  assert (M2' : if in_mode ST_DECREASE s || (expired t s || in_mode ST_INCREASE s && delayed s)
                then mode_ s2 = ST_DECREASE \/ mode_ s2 = ST_INCREASE else mode_ s2 = mode_ s)
    by (case_match; [exact M2|congruence]).
  clear M1 M2. pose proof (exits_sample update bw round s2) as H3. cbv zeta in H3 |- *.
  set (s3 := if update then _ else s2) in *. clearbody s3. injection H3 as M3 B3 F3 _.
  set (s4 := if _ && _ then _ else s3).
  assert (H4 : mode_ s4 = mode_ s3 /\ bdp_ s4 = bdp_ s3 /\ bytes_in_flight_ s4 = bytes_in_flight_ s3)
    by (unfold s4; destruct (update && _); [apply mode_CheckIfFull|done]).
  clearbody s4. destruct H4 as (M4 & B4 & F4).
  pose proof (MaybeExitStartupOrDrain_mode t s4) as (M5 & D5 & S5 & I5). rewrite M4, M3 in M5, S5, I5.
  set (s5 := MaybeExitStartupOrDrain _ _) in *. clearbody s5.
  set (s' := if in_mode ST_INCREASE s5 then UpdateGainCyclePhase t s5 else s5).
  assert (Hs' : mode_ s' = mode_ s5 /\ (mode_ s5 <> ST_INCREASE -> s' = s5) /\
            is_at_full_bandwidth_ s' = is_at_full_bandwidth_ s5 /\ bytes_in_flight_ s' = bytes_in_flight_ s5 /\
            GetTargetCongestionWindow (f32_of_Z 1) s' = GetTargetCongestionWindow (f32_of_Z 1) s5).
  { unfold s'. destruct (decide (mode_ s5 = ST_INCREASE)); [|by rewrite bool_decide_eq_false_2].
    rewrite bool_decide_eq_true_2 by done. destruct (UpdateGainCyclePhase_keeps t s5) as (-> & -> & ->).
    by rewrite UpdateGainCyclePhase_mode. }
  clearbody s'. destruct Hs' as (M6 & S6 & F6 & I6 & W6). unfold fills, draining. rewrite M6, F6, I6, W6. split_and!.
  - by eapply mode_edge_steps.
  - intros Hd. rewrite S6, S5 by (auto || congruence). rewrite S5 in Hd by auto.
    rewrite B4, F4, B3, F3. apply D2. congruence.
  - exact D5.
  - intros Hm He Hi. apply I5; [|done]. rewrite He in M2'.
    assert (Hk : mode_ s2 = mode_ s) by (destruct Hm as [Hm|Hm]; by rewrite Hm in M2' |- *).
    by rewrite Hk.
Qed.

(** * Announcements *)

(** The callbacks a change of the pacing rate from [last] calls for. *)
Definition announcements (last : Z) (s : MyBbrSenderV5) : list Output :=
  if pacing_rate_ s =? last then []
  else (if trace_state_cb_ s
        then [TraceState (u64 (ToKBitsPerSecond (pacing_rate_ s) * 1000)) (GetStateString s)] else []) ++
       (if observer_ s then [OnBandwidthUpdate] else []).

Lemma report_rate_outputs last s :
  outputs_ (report_rate last s) = outputs_ s ++ announcements last (report_rate last s).
Proof.
  unfold announcements, report_rate. destruct (pacing_rate_ s =? last) eqn:E.
  - by rewrite E, app_nil_r.
  - destruct (trace_state_cb_ s) eqn:Et, (observer_ s) eqn:Eo; cbn; rewrite ?Et, ?Eo; cbn;
      rewrite ?Eo, ?E, ?Et; cbn; by rewrite <- ?app_assoc, ?app_nil_r.
Qed.

Lemma CalculatePacingRate_spec s :
  control_ok s -> exists s', CalculatePacingRate s = Some s' /\ keeps s s' /\ same_mode s s' /\
    outputs_ s' = outputs_ s ++ announcements (pacing_rate_ s) s' /\
    (mode_ s' = ST_INCREASE -> SFeqb (pacing_gain_ s') (f32_of_Z 1) = true -> min_bw_ s' <= pacing_rate_ s').
Proof.
  intros Hc. destruct (new_rate_spec s Hc) as (s1 & E & K & M & O & C & Fl).
  unfold CalculatePacingRate. rewrite E. cbn [mbind option_bind]. eexists. split; [done|].
  destruct (report_rate_fields (pacing_rate_ s) s1) as (K' & M' & R').
  assert (KK : keeps s (report_rate (pacing_rate_ s) s1)) by (by etrans).
  split_and!; [done|by etrans|by rewrite report_rate_outputs, O|].
  pose proof (keeps_config _ _ KK) as Hcfg. unfold config in Hcfg. injection Hcfg as _ _ -> _.
  destruct M' as (-> & -> & _). rewrite R'. done.
Qed.

Lemma moved_rate t sm s s2 s' : keeps s2 s' -> same_mode s2 s' -> moved t sm s s2 -> moved t sm s s'.
Proof.
  intros K (Mm & Mg & Mb & Mr & Md & Mf).
  pose proof (keeps_flight _ _ K) as KF. unfold flight in KF. injection KF as _ _ _ KB _.
  pose proof (keeps_config _ _ K) as KC. unfold config in KC. injection KC as _ _ _ KI.
  assert (HT : GetTargetCongestionWindow (f32_of_Z 1) s' = GetTargetCongestionWindow (f32_of_Z 1) s2)
    by (unfold GetTargetCongestionWindow, BandwidthEstimate, GetMinRtt; by rewrite Mb, Mr, KI).
  unfold moved, draining, fills. by rewrite HT, KB, Md, Mm, Mf.
Qed.

(** All of an acknowledgement that is not stale. *)
Lemma OnAck_spec t pn s s' :
  control_ok s -> OnAck t pn s = Some s' -> last_ack_seq_ s < pn ->
  (if i64 (round_trip_count_ s) =? 0 then mode_ s' = mode_ s
   else moved t (measured t pn s) s s') /\
  outputs_ s' = outputs_ s ++ announcements (pacing_rate_ s) s' /\
  (mode_ s' = ST_INCREASE -> SFeqb (pacing_gain_ s') (f32_of_Z 1) = true -> min_bw_ s' <= pacing_rate_ s').
Proof.
  intros Hc HA Hpn. destruct (OnAck_anatomy t pn s s' HA Hpn) as (s1 & bw & update & N & S1 & E).
  destruct N as (M1 & _ & A1 & _ & K1). specialize (K1 Hc). clear HA.
  assert (HR : exists s2, CalculatePacingRate s2 = Some s' /\ control_ok s2 /\ announced s2 = announced s /\
    (if i64 (round_trip_count_ s) =? 0 then mode_ s2 = mode_ s else moved t (measured t pn s) s s2)).
  { destruct (_ =? 0); [by exists s1|].
    set (s2 := react t pn bw (i64 (round_trip_count_ s)) update s1) in *.
    pose proof (react_mode t pn bw (i64 (round_trip_count_ s)) update s1) as HM. fold s2 in HM.
    destruct (steers_react t pn bw (i64 (round_trip_count_ s)) update s1) as [K2 A2]. fold s2 in K2, A2.
    clearbody s2. exists s2. split_and!; [done|by apply K2|congruence|].
    unfold moved, fills in *. destruct (signals_read t _ _ S1) as [X1 X2]. by rewrite X1, X2, M1 in HM. }
  clear E M1 A1 K1 S1. destruct HR as (s2 & E & C2 & A2 & M2).
  destruct (CalculatePacingRate_spec s2 C2) as (s3 & E' & K & M & O & Fl).
  rewrite E in E'. injection E' as <-. unfold announced in A2. injection A2 as P2 O2.
  split_and!; [|by rewrite O, O2, P2|done]. destruct (_ =? 0); [by destruct M as [-> _]|]. by eapply moved_rate.
Qed.

Lemma OnAck_control t pn s s' : control_ok s -> OnAck t pn s = Some s' -> control_ok s'.
Proof.
  intros Hc HA. destruct (Z.leb_spec pn (last_ack_seq_ s)) as [Hle|Hlt].
  - unfold OnAck in HA. rewrite (proj2 (Z.leb_le _ _)) in HA by done. by injection HA as <-.
  - destruct (OnAck_anatomy t pn s s' HA Hlt) as (s1 & bw & update & N & _ & E). clear HA.
    assert (C1 : control_ok s1) by (by apply N).
    assert (Hf : forall s2, keeps s1 s2 -> CalculatePacingRate s2 = Some s' -> control_ok s').
    { intros s2 K E2. destruct (CalculatePacingRate_keeps s2) as (s3 & E3 & _ & C3); [by apply K|].
      congruence. }
    destruct (_ =? 0); eapply Hf; try exact E; [reflexivity|apply steers_react].
Qed.

Lemma PaceRate_control s : control_ok s -> bandwidth_ok (PaceRate s).
Proof. intros []. unfold PaceRate. case_match; [apply bandwidth_mul_ok|done]. Qed.
