(* ===== verification/ControllerPacing.v ===== *)
(** The congestion controller interface of libquic/net/my_controller_interface.h
    and the pacer of my_pacing_sender.{h,cc} that drives a controller through it. *)
From S2P Require Import Prelude.
From S2P Require Import QuicUnits.

Open Scope Z_scope.

(** * The interface *)

Class CongestionController := {
  Controller : Type;
  OnAck : Z -> Z -> Controller -> option Controller;
  OnPacketSent : Z -> Z -> Z -> Controller -> option Controller;
  PaceRate : Controller -> Z;
  GetReferenceRate : Controller -> Z;
  ShouldSendProbePacket : Controller -> bool;
}.

(** What a controller promises its pacer: an invariant of its states under which
    the rate is a bandwidth. *)
Class ControllerLaws (CC : CongestionController) := {
  controller_ok : Controller -> Prop;
  OnPacketSent_ok t pn bytes c c' :
    controller_ok c -> OnPacketSent t pn bytes c = Some c' -> controller_ok c';
  OnAck_ok t pn c c' : controller_ok c -> OnAck t pn c = Some c' -> controller_ok c';
  PaceRate_ok c : controller_ok c -> bandwidth_ok (PaceRate c);
}.

Module MyPacingSender.
Section pacer.
Context {CC : CongestionController}.

Record MyPacingSender := mkPacer {
  ideal_next_packet_send_time_ : Z;
  alarm_granularity_ : Z;
  sender_ : option Controller;
  max_pacing_rate_ : Z;
}.

Definition MyPacingSender_ctor : MyPacingSender := mkPacer 0 (FromMilliseconds 1) None 0.

Definition set_sender (sender : Controller) (p : MyPacingSender) : MyPacingSender :=
  mkPacer (ideal_next_packet_send_time_ p) (alarm_granularity_ p) (Some sender) (max_pacing_rate_ p).

Definition set_max_pacing_rate (max_bandwidth : Z) (p : MyPacingSender) : MyPacingSender :=
  mkPacer (ideal_next_packet_send_time_ p) (alarm_granularity_ p) (sender_ p) max_bandwidth.

(** Lines 18-23: the controller's rate under the cap. *)
Definition capped (max_rate pacing_rate : Z) : Z :=
  if negb (max_rate =? 0) && (max_rate <? pacing_rate) then max_rate else pacing_rate.

Definition OnPacketSent (now packet_number bytes : Z) (p : MyPacingSender) : option MyPacingSender :=
  match sender_ p with
  | None => Some p
  | Some sender =>
    sender ← ControllerPacing.OnPacketSent now packet_number bytes sender;
    let pacing_rate := capped (max_pacing_rate_ p) (PaceRate sender) in
    let delay := TransferTime pacing_rate bytes in
    Some (mkPacer (Z.max (time_add (ideal_next_packet_send_time_ p) delay) (time_add now delay))
            (alarm_granularity_ p) (Some sender) (max_pacing_rate_ p))
  end.

Definition OnCongestionEvent (now packet_number : Z) (p : MyPacingSender) : option MyPacingSender :=
  match sender_ p with
  | None => Some p
  | Some sender =>
    sender ← OnAck now packet_number sender;
    Some (mkPacer (ideal_next_packet_send_time_ p) (alarm_granularity_ p) (Some sender) (max_pacing_rate_ p))
  end.

Definition TimeUntilSend (now : Z) (p : MyPacingSender) : Z :=
  if time_add now (alarm_granularity_ p) <? ideal_next_packet_send_time_ p
  then time_sub (ideal_next_packet_send_time_ p) now else 0.

(** * A sender that waits as told *)

Inductive Event :=
  | Send (now packet_number bytes : Z)
  | Ack (now packet_number : Z).

(** The packet can be sent now: the pacer asks for no wait, the controller wants a
    positive rate, and no clock or byte counter overflows. *)
Record sendable (now packet_number bytes : Z) (p : MyPacingSender) (c : Controller) : Prop := {
  no_wait : TimeUntilSend now p = 0;
  now_fits : 0 <= now < 2 ^ 61;
  bytes_fit : 0 <= bytes /\ bytes * 8 * kNumMicrosPerSecond < 2 ^ 62;
  rate_positive c' : ControllerPacing.OnPacketSent now packet_number bytes c = Some c' -> 0 < PaceRate c';
}.

(** A run of the pacer from [p] to [p'] in which every packet waits for its turn. *)
Inductive paced : MyPacingSender -> list Event -> MyPacingSender -> Prop :=
  | paced_nil p : paced p [] p
  | paced_send now pn bytes p c p1 es p' :
    sender_ p = Some c -> sendable now pn bytes p c -> OnPacketSent now pn bytes p = Some p1 ->
    paced p1 es p' -> paced p (Send now pn bytes :: es) p'
  | paced_ack now pn p p1 es p' :
    OnCongestionEvent now pn p = Some p1 -> paced p1 es p' -> paced p (Ack now pn :: es) p'.

Definition bytes_sent (es : list Event) : Z :=
  foldr (fun e n => match e with Send _ _ b => b + n | Ack _ _ => n end) 0 es.
Definition packets_sent (es : list Event) : Z :=
  foldr (fun e n => match e with Send _ _ _ => 1 + n | Ack _ _ => n end) 0 es.

Context {CL : ControllerLaws CC}.

Definition pacer_ok (p : MyPacingSender) : Prop :=
  alarm_granularity_ p = 1000 /\ 0 < max_pacing_rate_ p < 2 ^ 63 /\
  0 <= ideal_next_packet_send_time_ p < 2 ^ 63 /\
  match sender_ p with Some c => controller_ok c | None => True end.

Lemma capped_ok m r : 0 < m < 2 ^ 63 -> bandwidth_ok r -> 0 < r -> 0 < capped m r <= m.
Proof. unfold bandwidth_ok, capped. intros. destruct (Z.eqb_spec m 0), (Z.ltb_spec m r); cbn; lia. Qed.

(** No wait is asked for only when the schedule is due within the granularity. *)
Lemma no_wait_due now p :
  pacer_ok p -> 0 <= now < 2 ^ 61 -> TimeUntilSend now p = 0 ->
  ideal_next_packet_send_time_ p <= now + 1000.
Proof.
  intros (Hg & _ & Hi & _) Hn Hw. unfold TimeUntilSend, time_add, time_sub in Hw. rewrite Hg in Hw.
  rewrite (swrap_small (now + 1000)) in Hw by (unfold sfits; lia).
  rewrite (swrap_small (_ - now)) in Hw by (unfold sfits; lia).
  destruct (Z.ltb_spec (now + 1000) (ideal_next_packet_send_time_ p)); lia.
Qed.

(** The schedule after a send: at least the transfer time later than before, and
    never in the past. *)
Lemma OnPacketSent_schedule now pn bytes p c p' :
  pacer_ok p -> sender_ p = Some c -> sendable now pn bytes p c -> OnPacketSent now pn bytes p = Some p' ->
  pacer_ok p' /\ max_pacing_rate_ p' = max_pacing_rate_ p /\
  exists delay, 0 <= delay /\ bytes * 8 * kNumMicrosPerSecond <= (delay + 1) * max_pacing_rate_ p /\
    ideal_next_packet_send_time_ p' = Z.max (ideal_next_packet_send_time_ p) now + delay.
Proof.
  intros (Hg & Hm & Hi & Hc) Hs [Hw Hn [Hb Hbb] Hr]. rewrite Hs in Hc.
  unfold OnPacketSent. rewrite Hs. intros (c' & E & H)%bind_Some. revert H. specialize (Hr _ E).
  pose proof (ControllerPacing.OnPacketSent_ok now pn bytes c c' Hc E) as Hc'.
  pose proof (capped_ok _ _ Hm (PaceRate_ok c' Hc') Hr) as Hrate.
  set (rate := capped _ _) in *.
  assert (Hd : TransferTime rate bytes = bytes * 8 * kNumMicrosPerSecond / rate)
    by (apply TransferTime_value; unfold bandwidth_ok; lia).
  pose proof (no_wait_due now p ltac:(by unfold pacer_ok; rewrite Hs) Hn Hw) as Hi'.
  set (work := bytes * 8 * kNumMicrosPerSecond) in *.
  assert (Hdelay : 0 <= work / rate < 2 ^ 62 /\ work <= (work / rate + 1) * rate).
  { pose proof (Z.div_mod work rate ltac:(lia)). pose proof (Z.mod_pos_bound work rate ltac:(lia)).
    assert (0 <= work) by (unfold work, kNumMicrosPerSecond; lia). split; [|nia].
    split; [apply Z.div_pos; lia|]. apply Z.div_lt_upper_bound; nia. }
  cbv zeta. fold rate. rewrite Hd. unfold time_add.
  rewrite !swrap_small by (unfold sfits; lia). intros [= <-]. cbn. split; [|split; [done|]].
  - unfold pacer_ok. cbn. split_and!; [done|lia..|done].
  - exists (work / rate). split_and!; [lia| |lia]. nia.
Qed.

Lemma OnCongestionEvent_schedule now pn p p' :
  pacer_ok p -> OnCongestionEvent now pn p = Some p' ->
  pacer_ok p' /\ max_pacing_rate_ p' = max_pacing_rate_ p /\
  ideal_next_packet_send_time_ p' = ideal_next_packet_send_time_ p.
Proof.
  unfold OnCongestionEvent, pacer_ok. intros (Hg & Hm & Hi & Hc). destruct (sender_ p) as [c|] eqn:Hs.
  - destruct (OnAck now pn c) as [c'|] eqn:E; [|done]. cbn. intros [= <-]. cbn.
    split_and!; try done; try lia. by eapply OnAck_ok.
  - intros [= <-]. rewrite Hs. done.
Qed.

Lemma packets_sent_nonneg es : 0 <= packets_sent es.
Proof. unfold packets_sent. induction es as [|[] es IH]; cbn; lia. Qed.

(** The schedule moves by the work that was sent. *)
Lemma paced_schedule p es p' :
  paced p es p' -> pacer_ok p ->
  pacer_ok p' /\ max_pacing_rate_ p' = max_pacing_rate_ p /\
  bytes_sent es * 8 * kNumMicrosPerSecond <=
    (ideal_next_packet_send_time_ p' - ideal_next_packet_send_time_ p + packets_sent es) * max_pacing_rate_ p.
Proof.
  induction 1 as [p|now pn bytes p c p1 es p' Hs Hsend HS _ IH|now pn p p1 es p' HA _ IH]; intros Hp.
  - split_and!; [done|done|]. cbn. lia.
  - destruct (OnPacketSent_schedule now pn bytes p c p1 Hp Hs Hsend HS) as (Hp1 & Hm & d & Hd & Hw & Hi).
    destruct (IH Hp1) as (Hp' & Hm' & Hb). rewrite Hm in Hb, Hm'. split_and!; [done|done|].
    cbn. rewrite Hi in Hb. fold (bytes_sent es) (packets_sent es).
    destruct Hp as (_ & Hmax & _). nia.
  - destruct (OnCongestionEvent_schedule now pn p p1 Hp HA) as (Hp1 & Hm & Hi).
    destruct (IH Hp1) as (Hp' & Hm' & Hb). rewrite Hm in Hb, Hm'. rewrite Hi in Hb. done.
Qed.
End pacer.
End MyPacingSender.
