(* ===== verification/CongestionTheorems.v ===== *)
(** Properties of the congestion controllers and of the pacer, with witnesses on
    a transfer of five packets in flight over a 50 ms path (Module [Transfer]). *)
From S2P Require Import Prelude.
From S2P Require Import QuicUnits.
From S2P Require Import WindowedFilter.
From S2P Require Import Sampler.
From S2P Require Import BbrSenderV5.
From S2P Require Import BbrInvariants.
From S2P Require Import BbrAccounting.
From S2P Require Import BbrModes.
From S2P Require Import ControllerPacing.

Open Scope Z_scope.

(** * The controller behind the interface *)

#[export] Instance BbrController : CongestionController := {|
  Controller := MyBbrSenderV5.MyBbrSenderV5;
  ControllerPacing.OnAck := MyBbrSenderV5.OnAck;
  ControllerPacing.OnPacketSent t pn bytes s := Some (MyBbrSenderV5.OnPacketSent t pn bytes s);
  ControllerPacing.PaceRate := MyBbrSenderV5.PaceRate;
  ControllerPacing.GetReferenceRate := MyBbrSenderV5.GetReferenceRate;
  ControllerPacing.ShouldSendProbePacket := MyBbrSenderV5.ShouldSendProbePacket;
|}.

Lemma OnPacketSent_controlled t pn bytes s s' :
  control_ok s -> Some (MyBbrSenderV5.OnPacketSent t pn bytes s) = Some s' -> control_ok s'.
Proof. intros H [= <-]. by apply OnPacketSent_control. Qed.

#[export] Instance BbrControllerLaws : ControllerLaws BbrController := {|
  controller_ok := control_ok : @Controller BbrController -> Prop;
  OnPacketSent_ok := OnPacketSent_controlled;
  OnAck_ok := OnAck_control;
  PaceRate_ok := PaceRate_control;
|}.

(** * A transfer to evaluate the controller on *)
Module Transfer.
Import MyBbrSenderV5.

Definition start : MyBbrSenderV5 := MyBbrSenderV5_ctor 500000 true true (fun _ => 12345).

(** Packet [i] leaves every 10 ms and is acknowledged five packets later. *)
Fixpoint transfer (n : nat) (i : Z) : list Event :=
  match n with
  | O => []
  | S n => Sent (1000000 + i * 10000) i 1000 ::
           (if 5 <? i then [Acked (1000001 + i * 10000) (i - 5)] else []) ++ transfer n (i + 1)
  end.

Definition after (events : list Event) : MyBbrSenderV5 := default start (handle_all start events).
Definition ledger (events : list Event) : Ledger := fold_left record_event events empty_ledger.

(** Twenty packets: still in start-up, in the third round. *)
Definition events20 : list Event := transfer 20 1.
Definition state20 : MyBbrSenderV5 := after events20.
(** Forty packets: the bandwidth was found, the gain cycle runs. *)
Definition events40 : list Event := transfer 40 1.
Definition state40 : MyBbrSenderV5 := after events40.
End Transfer.
Import Transfer.

Lemma reachable20 : reachable 500000 true true (fun _ => 12345) (ledger events20) state20.
Proof.
  apply (reachable_all empty_ledger start events20); [constructor|by repeat (split; [by vm_compute|])|].
  by vm_compute.
Qed.

Lemma reachable40 : reachable 500000 true true (fun _ => 12345) (ledger events40) state40.
Proof.
  apply (reachable_all empty_ledger start events40); [constructor|by repeat (split; [by vm_compute|])|].
  by vm_compute.
Qed.

(** * The BBR controller *)

Section bbr.
Context (min_bps : Z) (observer trace : bool) (random : nat -> Z).
Abbreviation reachable := (reachable min_bps observer trace random).
Import MyBbrSenderV5.

(** C25: In every state reached by sends and by acknowledgements of sent packets,
    [bytes_in_flight_] is the size of the packets sent after the largest
    acknowledged one, the sampler keeps exactly those packets, and the next event
    is handled without a division by zero. *)
Theorem bbr_in_flight l s e :
  reachable l s -> plausible l e ->
  bytes_in_flight_ s = in_flight l /\ 0 <= bytes_in_flight_ s < 2 ^ 64 /\
  (forall k, is_Some (MySampler.packet_infos_ (sampler_ s) !! k) <-> k ∈ (unacked l).*1) /\
  exists s', handle s e = Some s' /\ bytes_in_flight_ s' = in_flight (record_event l e).
Proof.
  intros Hr%reachable_represents Hp. split_and!; [by apply in_flight_represented|apply in_flight_bound, Hr..| |].
  - intros k. rewrite <- (rep_unacked l s Hr), <- list_fmap_compose, <- find_is_Some.
    pose proof (sampler_tracks s (rep_flight l s Hr) k) as Ht.
    rewrite <- !not_eq_None_Some. by destruct (_ !! k), (SentMap.find k _).
  - destruct (handle_represents l s e Hr Hp) as (s' & E & Hr'). exists s'. split; [done|].
    by apply in_flight_represented.
Qed.

(** The pacing gain is always the one of the mode: 2 in START, 1/2 in DRAIN,
    3/4 in DECREASE, and in INCREASE the entry of the gain cycle at the current
    offset, which stays within the cycle. *)
Theorem bbr_gain_of_mode l s :
  reachable l s ->
  pacing_gain_ s = gain_of (mode_ s) (cycle_current_offset_ s) /\
  0 <= cycle_current_offset_ s < kGainCycleLength /\
  (mode_ s = ST_INCREASE -> pacing_gain_ s ∈ kPacingGain).
Proof.
  intros Hr%reachable_represents. destruct (rep_control l s Hr) as [_ _ Hg Ho _ _ _ _ _ _].
  split_and!; [done|apply Ho..|]. intros Hm. rewrite Hg, Hm. by apply gain_at_elem.
Qed.

(** C26: The mode after an acknowledgement.  A stale one, or one of the first round, leaves
    the mode as it is.  Any other acts on what was measured with it.  If the minimum RTT
    has expired, every mode ends in DECREASE or, when that is left again at once, in
    INCREASE: also START and DRAIN, although the header describes the step as INCREASE ->
    DECREASE only.  Otherwise START stays until the full bandwidth is reached and then
    ends in DRAIN, which ends in INCREASE, both only when what is in flight fits the
    window; INCREASE ends in DECREASE only on an intolerable delay; DECREASE ends in
    INCREASE; there is no way back to START or DRAIN.  DRAIN or DECREASE is the mode
    afterwards only while more is in flight than the mode wants to drain to. *)
Theorem bbr_mode_machine l s t pn s' :
  reachable l s -> OnAck t pn s = Some s' ->
  let seen := measured t pn s in
  if (pn <=? last_ack_seq_ s) || (i64 (round_trip_count_ s) =? 0) then mode_ s' = mode_ s
  else
    mode_edge (expired t seen) (delayed seen) (is_at_full_bandwidth_ s') (mode_ s) (mode_ s') /\
    draining s' /\ fills (expired t seen) s s'.
Proof.
  intros Hr%reachable_represents HA. cbv zeta. destruct (Z.leb_spec pn (last_ack_seq_ s)) as [Hle|Hlt]; cbn [orb].
  - unfold OnAck in HA. rewrite (proj2 (Z.leb_le _ _) Hle) in HA. by injection HA as <-.
  - by destruct (OnAck_spec t pn s s' (rep_control l s Hr) HA Hlt) as (He & _).
Qed.

(** C27: When the last packet sent is acknowledged after the first round, nothing
    is in flight and the controller has left the draining modes: it does not stay
    throttled on an empty path. *)
Theorem bbr_recovers l s t pn :
  reachable l s -> plausible l (Acked t pn) -> last_ack_seq_ s < pn -> pn = last_sent_packet_ s ->
  i64 (round_trip_count_ s) <> 0 ->
  exists s', OnAck t pn s = Some s' /\ bytes_in_flight_ s' = 0 /\
    (mode_ s' = ST_START \/ mode_ s' = ST_INCREASE).
Proof.
  intros Hr%reachable_represents Hp Hlt Hlast Hround.
  destruct (represents_acked l s t pn Hr Hp) as (s' & HA & Hr'). exists s'. split; [done|].
  destruct (OnAck_spec t pn s s' (rep_control l s Hr) HA Hlt) as (Hd & _).
  rewrite (proj2 (Z.eqb_neq _ _) Hround) in Hd. destruct Hd as (_ & Hd & _).
  assert (Hz : bytes_in_flight_ s' = 0).
  { rewrite (in_flight_sum s' (rep_flight _ _ Hr')).
    pose proof (map_keyed s' (rep_flight _ _ Hr')) as Hk. rewrite (rep_sent _ _ Hr'), (rep_acked _ _ Hr') in Hk.
    cbn in Hk. rewrite (rep_sent l s Hr) in Hlast. apply (keyed_empty (Z.max (high_acked l) pn) (high_sent l)) in Hk; [|lia]. by rewrite Hk. }
  split; [done|]. destruct Hd as [Hd1 Hd2]. rewrite Hz in Hd1, Hd2.
  pose proof (bdp_ok s' (rep_control _ _ Hr')).
  pose proof (GetTargetCongestionWindow_nonneg (f32_of_Z 1) s').
  destruct (mode_ s'); [by left|specialize (Hd2 eq_refl); lia|by right|specialize (Hd1 eq_refl); lia].
Qed.

(** The observer and the trace callback are called exactly when an
    acknowledgement has changed the pacing rate, once, with the new rate and mode. *)
Theorem bbr_announces l s t pn s' :
  reachable l s -> OnAck t pn s = Some s' ->
  outputs_ s' = outputs_ s ++ announcements (pacing_rate_ s) s'.
Proof.
  intros Hr%reachable_represents HA. destruct (Z.leb_spec pn (last_ack_seq_ s)) as [Hle|Hlt].
  - unfold OnAck in HA. rewrite (proj2 (Z.leb_le _ _) Hle) in HA. injection HA as <-.
    unfold announcements. by rewrite Z.eqb_refl, app_nil_r.
  - by destruct (OnAck_spec t pn s s' (rep_control l s Hr) HA Hlt) as (_ & Ho & _).
Qed.

(** In the INCREASE mode, at the neutral gain, an acknowledgement leaves a
    pacing rate of at least the configured minimum. *)
Theorem bbr_rate_floor l s t pn s' :
  reachable l s -> OnAck t pn s = Some s' -> last_ack_seq_ s < pn ->
  mode_ s' = ST_INCREASE -> SFeqb (pacing_gain_ s') (f32_of_Z 1) = true ->
  min_bw_ s' <= pacing_rate_ s'.
Proof.
  intros Hr%reachable_represents HA Hlt.
  by destruct (OnAck_spec t pn s s' (rep_control l s Hr) HA Hlt) as (_ & _ & Hf).
Qed.

(** Whatever the random number is, the gain cycle is entered in a phase other
    than the second, so that the probing phase is always followed by the draining
    one. *)
Theorem increase_skips_drain_phase now s :
  let s' := EnterIncreaseMode now s in
  mode_ s' = ST_INCREASE /\ cycle_current_offset_ s' ∈ [0; 2; 3; 4; 5; 6; 7] /\
  pacing_gain_ s' = gain_at (cycle_current_offset_ s').
Proof.
  unfold EnterIncreaseMode, RandUint64. cbn -[Z.modulo gain_at].
  change (kGainCycleLength - 1) with 7. set (r := random_ s (random_calls_ s)).
  pose proof (Z.mod_pos_bound r 7 ltac:(lia)).
  destruct (Z.leb_spec 1 (r mod 7)); cbn -[Z.modulo gain_at]; split_and!; try done;
    rewrite !elem_of_cons, elem_of_nil; lia.
Qed.
End bbr.

Section bbr_witnesses.
Import MyBbrSenderV5.
Abbreviation random := (fun _ : nat => 12345).

Lemma bbr_in_flight_witness :
  bytes_in_flight_ state20 = in_flight (ledger events20) /\ in_flight (ledger events20) = 5000.
Proof.
  split; [|by vm_compute].
  apply (bbr_in_flight 500000 true true random _ _ (Acked 1210001 16) reachable20). by vm_compute.
Defined.

Lemma bbr_gain_of_mode_witness : mode_ state40 = ST_INCREASE /\ pacing_gain_ state40 ∈ kPacingGain.
Proof.
  split; [by vm_compute|].
  apply (bbr_gain_of_mode 500000 true true random _ _ reachable40). by vm_compute.
Defined.

(** The acknowledgement of packet 36. *)
Definition state41 : MyBbrSenderV5 := default start (OnAck 1410001 36 state40).

(** The acknowledgement of packet 16 while the controller starts up, eleven seconds late. *)
Definition state21 : MyBbrSenderV5 := default start (OnAck 12210001 16 state20).

Lemma bbr_mode_machine_witness :
  mode_edge false false (is_at_full_bandwidth_ state41) (mode_ state40) (mode_ state41) /\
  mode_ state20 = ST_START /\ mode_edge true false (is_at_full_bandwidth_ state21) (mode_ state20) (mode_ state21).
Proof.
  split; [|split; [by vm_compute|]].
  - pose proof (bbr_mode_machine 500000 true true random _ _ 1410001 36 state41 reachable40 ltac:(by vm_compute)) as H.
    cbv zeta in H. replace ((36 <=? _) || _) with false in H by (vm_compute; reflexivity).
    replace (expired 1410001 _) with false in H by (vm_compute; reflexivity).
    replace (delayed _) with false in H by (vm_compute; reflexivity). exact (proj1 H).
  - pose proof (bbr_mode_machine 500000 true true random _ _ 12210001 16 state21 reachable20 ltac:(by vm_compute)) as H.
    cbv zeta in H. replace ((16 <=? _) || _) with false in H by (vm_compute; reflexivity).
    replace (expired 12210001 _) with true in H by (vm_compute; reflexivity).
    replace (delayed _) with false in H by (vm_compute; reflexivity). exact (proj1 H).
Defined.

Lemma bbr_recovers_witness :
  exists s', OnAck 1410001 40 state40 = Some s' /\ bytes_in_flight_ s' = 0 /\
    (mode_ s' = ST_START \/ mode_ s' = ST_INCREASE).
Proof.
  apply (bbr_recovers 500000 true true random _ _ 1410001 40 reachable40); by vm_compute.
Defined.

Lemma bbr_announces_witness :
  outputs_ state41 = outputs_ state40 ++ announcements (pacing_rate_ state40) state41.
Proof.
  apply (bbr_announces 500000 true true random _ _ 1410001 36 state41 reachable40). by vm_compute.
Defined.

Lemma bbr_rate_floor_witness : min_bw_ state41 = 500000 /\ min_bw_ state41 <= pacing_rate_ state41.
Proof.
  split; [by vm_compute|].
  apply (bbr_rate_floor 500000 true true random _ _ 1410001 36 state41 reachable40); by vm_compute.
Defined.
End bbr_witnesses.

(** * Bandwidth samples *)

Section samples.
Import MySampler.

(** C28: A bandwidth sample that is not discarded is at most the rate at which
    bytes were acknowledged since the packet's snapshot, and at most the rate at
    which they were sent when time has passed between the sends; the counters it
    is computed from do not underflow. *)
Theorem bandwidth_sample_sound t pn p bw s s' :
  sampler_ok s -> 0 <= t < 2 ^ 63 -> total_bytes_sent_ s * (8 * kNumMicrosPerSecond) < 2 ^ 63 ->
  packet_infos_ s !! pn = Some p ->
  0 <= last_acked_packet_sent_time p -> 0 <= last_acked_packet_ack_time p ->
  OnPacketAcknowledged t pn true s = Some (bw, s') -> bw <> 0 ->
  last_acked_packet_ack_time p < t /\
  rate_at_most bw (total_bytes_acked_ s' - total_bytes_acked_at_the_last_acked_packet p)
    (t - last_acked_packet_ack_time p) /\
  (last_acked_packet_sent_time p < sent_time p ->
   rate_at_most bw (total_bytes_sent p - total_bytes_sent_at_last_acked_packet p)
     (sent_time p - last_acked_packet_sent_time p)).
Proof. apply sample_bounds. Qed.

(** Three packets of 1000 bytes, 10 ms apart; the first was acknowledged after 50 ms. *)
Definition sampler3 : MySampler :=
  OnPacketSent 1030000 3 1000 2000
    (OnPacketSent 1020000 2 1000 1000 (OnPacketSent 1010000 1 1000 0 MySampler_ctor)).

Lemma sampler3_ok : sampler_ok sampler3.
Proof. repeat (apply OnPacketSent_ok; try (by vm_compute); try done). Qed.

Lemma bandwidth_sample_sound_witness :
  exists p bw s', packet_infos_ sampler3 !! 2 = Some p /\
    OnPacketAcknowledged 1070000 2 true sampler3 = Some (bw, s') /\ bw = 133328 /\
    rate_at_most bw (total_bytes_acked_ s' - total_bytes_acked_at_the_last_acked_packet p)
      (1070000 - last_acked_packet_ack_time p).
Proof.
  eexists _, _, _. split; [by vm_compute|]. split; [by vm_compute|]. split; [by vm_compute|].
  eapply (bandwidth_sample_sound 1070000 2 _ _ sampler3); [exact sampler3_ok|by vm_compute..].
Defined.

(** Sends, losses and acknowledgements keep the sampler's conservation law:
    the acknowledged bytes and the sizes of the tracked packets never exceed the
    bytes sent; and an acknowledgement never divides by zero. *)
Theorem sampler_conserves s t pn bytes in_flight round_update :
  sampler_ok s -> sfits t ->
  sampler_ok (OnPacketLost pn s) /\
  (0 <= bytes -> total_bytes_sent_ s + bytes < 2 ^ 64 -> packet_infos_ s !! pn = None ->
   sampler_ok (OnPacketSent t pn bytes in_flight s)) /\
  exists bw s', OnPacketAcknowledged t pn round_update s = Some (bw, s') /\ sampler_ok s' /\
    packet_infos_ s' = delete pn (packet_infos_ s).
Proof.
  intros Hs Ht. split_and!; [by apply PacketInfoRemove_ok|by intros; apply OnPacketSent_ok|].
  destruct (OnPacketAcknowledged_ok t pn round_update s Hs Ht) as (bw & s' & E & Hs' & _ & _ & Hp).
  by exists bw, s'.
Qed.

Lemma sampler_conserves_witness : sampler_ok (OnPacketLost 1 sampler3).
Proof. apply (sampler_conserves sampler3 1070000 1 1000 3000 true sampler3_ok). by vm_compute. Defined.
End samples.

(** * The windowed filter *)

(** C29: After any history of samples with non-decreasing times, the filter's best
    estimate is one of the samples, recorded within the window that ends now, and
    at least as good as every later sample; the second and third best follow in
    order. *)
Theorem windowed_filter_best {T} `{EqDecision T} {C : Compare T} w (z : T) t0 h s :
  0 <= w -> clocked 0 (h ++ [s]) ->
  let f := run (WindowedFilter_ctor w z t0) (h ++ [s]) in
  (exists h1 h2, h ++ [s] = h1 ++ estimate0 f :: h2 /\
     Forall (fun later => better (GetBest f) (sample later) = true) h2) /\
  time s - w <= time (estimate0 f) <= time s /\
  better (GetBest f) (GetSecondBest f) = true /\ better (GetSecondBest f) (GetThirdBest f) = true.
Proof.
  intros Hw Hc. cbv zeta. destruct (run_ok w z t0 h s Hw) as [[H0 _ _ H01 H12 Hr] Hwin].
  set (f := run _ _) in *. clearbody f. pose proof H0 as (h1 & h2 & E & Hd).
  split; [by exists h1, h2|]. split; [|done]. rewrite Hwin in Hr.
  apply (older_spec h s w); [done|rewrite E; apply elem_of_app; right; by left|done].
Qed.

(** Bandwidths of eleven rounds; the peak of round 1 has left a window of ten. *)
Definition peaks : list (Sample Z) :=
  [mkSample 100 1; mkSample 50 2; mkSample 49 3; mkSample 48 4; mkSample 47 5; mkSample 46 8].

Lemma windowed_filter_best_witness :
  let f := run (C := MaxFilter) (WindowedFilter_ctor 10 0 0) (peaks ++ [mkSample 40 12]) in
  GetBest f = 48 /\ 12 - 10 <= time (estimate0 f) <= 12.
Proof.
  cbv zeta. split; [by vm_compute|].
  apply (windowed_filter_best (C := MaxFilter) 10 0 0 peaks (mkSample 40 12)); by vm_compute.
Defined.

(** * Pacing *)

(** C30: A sender that sends only when [TimeUntilSend] is zero respects the cap of
    the pacer with any controller that keeps the interface's promises: the bytes
    sent before a packet may leave are at most what the cap transfers in the time
    since the schedule was last idle, plus the alarm granularity and a microsecond
    of rounding per packet. *)
Theorem pacing_cap {CC : CongestionController} {CL : ControllerLaws CC} p t0 pn0 bytes0 c p1 es p' now :
  MyPacingSender.pacer_ok p ->
  MyPacingSender.ideal_next_packet_send_time_ p <= t0 -> 0 <= now < 2 ^ 61 ->
  MyPacingSender.sender_ p = Some c -> MyPacingSender.sendable t0 pn0 bytes0 p c ->
  MyPacingSender.OnPacketSent t0 pn0 bytes0 p = Some p1 -> MyPacingSender.paced p1 es p' ->
  MyPacingSender.TimeUntilSend now p' = 0 ->
  (bytes0 + MyPacingSender.bytes_sent es) * 8 * kNumMicrosPerSecond <=
    (now - t0 + 1000 + MyPacingSender.packets_sent es + 1) * MyPacingSender.max_pacing_rate_ p.
Proof.
  intros Hp Hidle Hnow Hc Hs HS Hpaced Hw.
  destruct (MyPacingSender.OnPacketSent_schedule t0 pn0 bytes0 p c p1 Hp Hc Hs HS) as (Hp1 & Hm1 & d & Hd & Hb & Hi).
  destruct (MyPacingSender.paced_schedule _ _ _ Hpaced Hp1) as (Hp' & _ & Hbs). rewrite Hm1, Hi in Hbs.
  pose proof (MyPacingSender.no_wait_due now p' Hp' Hnow Hw). pose proof (proj1 (proj2 Hp)). nia.
Qed.

(** The controller of the transfer, capped at 1 Mbit/s, and two packets 8 ms apart. *)
Definition pacer : MyPacingSender.MyPacingSender :=
  MyPacingSender.set_sender (start : Controller)
    (MyPacingSender.set_max_pacing_rate 1000000 MyPacingSender.MyPacingSender_ctor).
Definition pacer1 : MyPacingSender.MyPacingSender :=
  default pacer (MyPacingSender.OnPacketSent 1000000 1 1000 pacer).
Definition pacer2 : MyPacingSender.MyPacingSender :=
  default pacer (MyPacingSender.OnPacketSent 1008000 2 1000 pacer1).

Lemma sendable_by_rate now pn bytes p c :
  MyPacingSender.TimeUntilSend now p = 0 -> 0 <= now < 2 ^ 61 ->
  0 <= bytes /\ bytes * 8 * kNumMicrosPerSecond < 2 ^ 62 ->
  from_option (fun c' => 0 <? ControllerPacing.PaceRate c') true (ControllerPacing.OnPacketSent now pn bytes c) = true ->
  MyPacingSender.sendable now pn bytes p c.
Proof. intros H1 H2 H3 H4. split; [done..|]. intros c' E. rewrite E in H4. by apply Z.ltb_lt in H4. Qed.

Lemma paced2 : MyPacingSender.paced pacer1 [MyPacingSender.Send 1008000 2 1000] pacer2.
Proof.
  eapply (MyPacingSender.paced_send _ _ _ _ _ pacer2);
    [reflexivity|by apply sendable_by_rate; vm_compute|reflexivity|constructor].
Qed.

Lemma pacing_cap_witness :
  (1000 + MyPacingSender.bytes_sent [MyPacingSender.Send 1008000 2 1000]) * 8 * kNumMicrosPerSecond <=
    (1016000 - 1000000 + 1000 + 1 + 1) * 1000000.
Proof.
  apply (pacing_cap pacer 1000000 1 1000 start pacer1 [MyPacingSender.Send 1008000 2 1000] pacer2 1016000);
    [|by vm_compute|done|done|by apply sendable_by_rate; vm_compute|reflexivity|exact paced2|by vm_compute].
  split_and!; by vm_compute.
Defined.
