(* ===== verification/ClusterSender.v ===== *)
(** The cluster-based BBR controller of libquic/net/my_bbr_sender.{h,cc} with the
    clusters of my_controller_interface.{h,cc}.

    The controller and its clusters point at each other: a cluster knows its
    neighbours in sending order and reports its bandwidth to the controller, which
    deletes clusters it no longer needs.  The pointers are addresses of [heap_];
    [new] takes a fresh address, [delete] removes it, and reading a dead address,
    reading past a vector or dividing by zero is [None]. *)
From S2P Require Import Prelude.
From S2P Require Import QuicUnits.
From S2P Require Import WindowedFilter.
From S2P Require Import Sampler.
From S2P Require Import BbrSenderV5.

Open Scope Z_scope.

Record SentPacketInfo := mkPacketInfo { seq : Z; sent_ts : Z; ack_ts : Z; len : Z }.

Module SentClusterInfo.
Record SentClusterInfo := mkCluster {
  cluster_id_ : Z;
  first_send_ts_ : Z;
  last_send_ts_ : Z;
  first_ack_ts_ : Z;
  last_ack_ts_ : Z;
  acked_packets_ : Z;
  sent_packets_ : Z;
  packet_infos_ : list SentPacketInfo;
  prev_ : option Z;
  next_ : option Z;
  bw_ : Z;
  is_probe_ : bool;
}.

Definition SentClusterInfo_ctor (cluster_id : Z) (is_probe : bool) : SentClusterInfo :=
  mkCluster cluster_id 0 0 0 0 0 0 [] None None 0 is_probe.

Definition OnPacketSent (now seq len : Z) (c : SentClusterInfo) : SentClusterInfo :=
  let c := if first_send_ts_ c =? 0 then c <| first_send_ts_ := now |> else c in
  c <| last_send_ts_ := now |>
    <| packet_infos_ := packet_infos_ c ++ [mkPacketInfo seq now 0 len] |>
    <| sent_packets_ := u64 (sent_packets_ c + len) |>.

(** Lines 41-53 of my_controller_interface.cc: the acknowledgement of [seq], found
    by its distance from the first packet; [None] when there is no first packet. *)
Definition note_ack (seq now : Z) (c : SentClusterInfo) : option SentClusterInfo :=
  let c := c <| last_ack_ts_ := now |> in
  head ← head (packet_infos_ c);
  Some (if ClusterSender.seq head <=? seq then
          let offset := u32 (seq - ClusterSender.seq head) in
          match packet_infos_ c !! Z.to_nat offset with
          | Some target =>
            c <| packet_infos_ := <[Z.to_nat offset := target <| ack_ts := now |>]> (packet_infos_ c) |>
              <| acked_packets_ := u64 (acked_packets_ c + len target) |>
          | None => c
          end
        else c).

(** The elapsed milliseconds and the bytes. *)
Definition GetSentInfo (c : SentClusterInfo) : Z * Z :=
  (u64 (ToMilliseconds (time_sub (last_send_ts_ c) (first_send_ts_ c))), sent_packets_ c).
Definition GetAckedInfo (c : SentClusterInfo) : Z * Z :=
  (u64 (ToMilliseconds (time_sub (last_ack_ts_ c) (first_ack_ts_ c))), acked_packets_ c).

(** Lines 66-77 of my_controller_interface.cc: the send and the ack rate, if there
    is anything to estimate. *)
Definition estimate (c : SentClusterInfo) : option (option (Z * Z)) :=
  if (acked_packets_ c =? 0) || (last_ack_ts_ c =? first_ack_ts_ c) then Some None
  else
    send_rate ←
      (if first_send_ts_ c <? last_send_ts_ c
       then FromBytesAndTimeDelta (sent_packets_ c) (time_sub (last_send_ts_ c) (first_send_ts_ c))
       else Some BandwidthInfinite);
    ack_rate ← FromBytesAndTimeDelta (acked_packets_ c) (time_sub (last_ack_ts_ c) (first_ack_ts_ c));
    Some (Some (send_rate, ack_rate)).
End SentClusterInfo.

Module MyBbrSender.
Import SentClusterInfo.

(** * Constants (lines 5-18) *)

Definition kPacingGain : list spec_float :=
  map (fun '(n, d) => narrow (literal n d))
    [(125, 100); (8, 10); (1, 1); (1, 1); (1, 1); (1, 1); (1, 1); (1, 1)].
Definition kBackoffGain : spec_float := SFdiv 24 128 (f32_of_Z 1) (narrow (literal 125 100)).
Definition kGainCycleLength : Z := 8.
Definition kBandwidthWindowSize : Z := kGainCycleLength + 2.
Definition kMinRttExpiry : Z := FromSeconds 10.
Definition kSimilarMinRttThreshold : spec_float := narrow (literal 1125 1000).
Definition kAverageAckRateWindowSize : Z := 10.

Inductive Mode := START_UP | PROBE_BW | PROBE_RTT.

#[global] Instance Mode_eq_dec : EqDecision Mode.
Proof. solve_decision. Defined.

Record MyBbrSender := mkSender {
  min_bps_ : Z;
  mode_ : Mode;
  round_trip_count_ : Z;
  connection_info_ : list (Z * Z);
  seq_round_map_ : gmap Z Z;
  seq_ts_map_ : SentMap.t Z;
  min_rtt_ : Z;
  recored_min_rtt_ : Z;
  global_min_rtt_ : Z;
  min_rtt_timestamp_ : Z;
  exit_probe_rtt_at_ : Z;
  pacing_rate_ : Z;
  pacing_gain_ : spec_float;
  cycle_current_offset_ : Z;
  last_cycle_start_ : Z;
  last_ack_seq_ : Z;
  max_bandwidth_ : WindowedFilter Z;
  avergae_bandwidth_ : WindowedFilter Z;
  max_rate_record_ : Z;
  sending_rate_ : Z;
  recover_rate_ : Z;
  last_target_rate_ : Z;
  is_recover_effective_ : bool;
  insist_factor_ : spec_float;
  insist_back_off_ : spec_float;
  cogestion_back_off_ : spec_float;
  average_round_ : Z;
  acked_clusters_ : list Z;
  random_ : nat -> Z;
  random_calls_ : nat;
  user_period_ : Z;
  observer_ : bool;
  notified_ : nat;
  heap_ : gmap Z SentClusterInfo;
  next_address_ : Z;
}.

Abbreviation in_mode m s := (bool_decide (mode_ s = m)).

Definition MyBbrSender_ctor (min_bps : Z) (observer : bool) (random : nat -> Z) : MyBbrSender := {|
  min_bps_ := min_bps; mode_ := START_UP; round_trip_count_ := 0; connection_info_ := [];
  seq_round_map_ := ∅; seq_ts_map_ := []; min_rtt_ := 0; recored_min_rtt_ := 0; global_min_rtt_ := 0;
  min_rtt_timestamp_ := 0; exit_probe_rtt_at_ := 0; pacing_rate_ := QuicBandwidth min_bps;
  pacing_gain_ := f32_of_Z 1; cycle_current_offset_ := 0; last_cycle_start_ := 0; last_ack_seq_ := 0;
  max_bandwidth_ := WindowedFilter_ctor kBandwidthWindowSize 0 0;
  avergae_bandwidth_ := WindowedFilter_ctor kAverageAckRateWindowSize 0 0;
  max_rate_record_ := 0; sending_rate_ := QuicBandwidth min_bps; recover_rate_ := 0;
  last_target_rate_ := 0; is_recover_effective_ := false; insist_factor_ := narrow (literal 95 100);
  insist_back_off_ := narrow (literal 6 10); cogestion_back_off_ := narrow (literal 5 10);
  average_round_ := 0; acked_clusters_ := []; random_ := random; random_calls_ := 0%nat;
  user_period_ := 0; observer_ := observer; notified_ := 0%nat; heap_ := ∅; next_address_ := 1;
|}.

(** Writing through a pointer. *)
Definition store_cluster (a : Z) (c : SentClusterInfo) (s : MyBbrSender) : MyBbrSender :=
  s <| heap_ := <[a := c]> (heap_ s) |>.

Definition PaceRate (s : MyBbrSender) : Z := pacing_rate_ s.
Definition GetReferenceRate (s : MyBbrSender) : Z := sending_rate_ s.
Definition BandwidthEstimate (s : MyBbrSender) : Z := GetBest (max_bandwidth_ s).
Definition AverageBandwidthEstimate (s : MyBbrSender) : Z := GetBest (avergae_bandwidth_ s).
Definition ShouldSendProbePacket (s : MyBbrSender) : bool :=
  negb (SFleb (pacing_gain_ s) (f32_of_Z 1)).
Definition UserDefinePeriod (ms : Z) (s : MyBbrSender) : MyBbrSender :=
  s <| user_period_ := FromMilliseconds ms |>.

Definition OnEstimateBandwidth (cluster cluster_id sent_bw acked_bw : Z) (is_probe : bool)
    (s : MyBbrSender) : MyBbrSender :=
  let bw := Z.min sent_bw acked_bw in
  let s := s <| acked_clusters_ := acked_clusters_ s ++ [cluster] |> in
  let send_bw :=
    if negb (sent_bw =? BandwidthInfinite) && is_probe then bandwidth_mul sent_bw kBackoffGain
    else sent_bw in
  let '(bw, s) :=
    if negb (sent_bw =? BandwidthInfinite)
       && (acked_bw <=? bandwidth_mul send_bw (narrow (literal 9 10)))
    then
      let bw := bandwidth_mul (BandwidthEstimate s) (narrow (literal 65 100)) in
      (bw, s <| max_bandwidth_ := Reset 0 0 (max_bandwidth_ s) |> <| max_rate_record_ := bw |>)
    else (bw, s) in
  let s := s <| max_bandwidth_ := Update (C := MaxFilter) bw cluster_id (max_bandwidth_ s) |>
             <| is_recover_effective_ := false |> in
  if max_rate_record_ s <? bw then s <| max_rate_record_ := bw |> else s.

(** [SentClusterInfo::TriggerBandwidthEstimate], which calls the controller back. *)
Definition TriggerBandwidthEstimate (a : Z) (s : MyBbrSender) : option MyBbrSender :=
  c ← heap_ s !! a;
  rates ← estimate c;
  match rates with
  | None => Some s
  | Some (send_rate, ack_rate) =>
    let bw := Z.min send_rate ack_rate in
    let s := store_cluster a (c <| bw_ := bw |>) s in
    Some (if 0 <? bw then OnEstimateBandwidth a (cluster_id_ c) send_rate ack_rate (is_probe_ c) s else s)
  end.

(** [SentClusterInfo::OnAck]. *)
Definition ClusterOnAck (a seq now : Z) (s : MyBbrSender) : option MyBbrSender :=
  c ← heap_ s !! a;
  s ← (if first_ack_ts_ c =? 0 then
         let s := store_cluster a (c <| first_ack_ts_ := now |>) s in
         match prev_ c with
         | Some prev => TriggerBandwidthEstimate prev s
         | None => Some s
         end
       else Some s);
  c ← heap_ s !! a;
  c ← note_ack seq now c;
  Some (store_cluster a c s).

(** * Times *)

(** Lines 214-221. *)
Fixpoint drop_until (packet_number : Z) (m : SentMap.t Z) : SentMap.t Z :=
  match m with
  | (first, t) :: m' => if first <=? packet_number then drop_until packet_number m' else m
  | [] => []
  end.

Definition UpdateRtt (now packet_number : Z) (s : MyBbrSender) : MyBbrSender :=
  let s :=
    match SentMap.find packet_number (seq_ts_map_ s) with
    | Some sent =>
      let rtt := time_sub now sent in
      let s := if global_min_rtt_ s =? 0 then s <| global_min_rtt_ := rtt |> else s in
      let s := if rtt <? global_min_rtt_ s then s <| global_min_rtt_ := rtt |> else s in
      if min_rtt_ s =? 0 then s <| min_rtt_ := rtt |> <| min_rtt_timestamp_ := now |>
      else
        let s :=
          if rtt <? min_rtt_ s then s <| min_rtt_ := rtt |> <| min_rtt_timestamp_ := now |> else s in
        if (min_rtt_ s <? rtt) && (rtt <=? delta_mul (min_rtt_ s) (widen kSimilarMinRttThreshold))
        then s <| min_rtt_timestamp_ := now |> else s
    | None => s
    end in
  s <| seq_ts_map_ := drop_until packet_number (seq_ts_map_ s) |>.

Definition AddSeqAndTimestamp (now packet_number : Z) (s : MyBbrSender) : MyBbrSender :=
  s <| seq_ts_map_ := SentMap.insert packet_number now (seq_ts_map_ s) |>.

Definition HasSampledLastMinRtt (s : MyBbrSender) : bool :=
  negb (min_rtt_ s =? 0) && negb (recored_min_rtt_ s =? 0)
  && (min_rtt_ s <? delta_mul (recored_min_rtt_ s) (widen kSimilarMinRttThreshold)).
(** * Phases *)

Definition RandUint64 (s : MyBbrSender) : Z * MyBbrSender :=
  (random_ s (random_calls_ s), s <| random_calls_ := S (random_calls_ s) |>).

(** [kPacingGain[offset]], every use of which is in range. *)
Definition gain_at (offset : Z) : spec_float := nth (Z.to_nat offset) kPacingGain S754_nan.

Definition EnterProbeBandwidthMode (now : Z) (s : MyBbrSender) : MyBbrSender :=
  if in_mode PROBE_BW s then s
  else
    let s := s <| mode_ := PROBE_BW |> in
    let '(random, s) := RandUint64 s in
    let s := s <| cycle_current_offset_ := random mod (kGainCycleLength - 1) |> in
    let s := if 1 <=? cycle_current_offset_ s
             then s <| cycle_current_offset_ := cycle_current_offset_ s + 1 |> else s in
    s <| last_cycle_start_ := now |>
      <| pacing_gain_ := gain_at (cycle_current_offset_ s) |>
      <| round_trip_count_ := u64 (round_trip_count_ s + 1) |>.

Definition UpdateGainCyclePhase (now : Z) (s : MyBbrSender) : MyBbrSender :=
  let threshold := if negb (user_period_ s =? 0) then user_period_ s else min_rtt_ s in
  if threshold <? time_sub now (last_cycle_start_ s) then
    let s := s <| cycle_current_offset_ := (cycle_current_offset_ s + 1) mod kGainCycleLength |> in
    s <| last_cycle_start_ := now |>
      <| pacing_gain_ := gain_at (cycle_current_offset_ s) |>
      <| round_trip_count_ := u64 (round_trip_count_ s + 1) |>
  else s.

(** Lines 356-362 and 43-48: every cluster of the map is deleted. *)
Fixpoint delete_clusters (m : list (Z * Z)) (h : gmap Z SentClusterInfo) :
    option (gmap Z SentClusterInfo) :=
  match m with
  | [] => Some h
  | (_, a) :: m' => _ ← h !! a; delete_clusters m' (delete a h)
  end.

Definition ClusterInfoClear (s : MyBbrSender) : option MyBbrSender :=
  h ← delete_clusters (connection_info_ s) (heap_ s);
  Some (s <| max_bandwidth_ := Reset 0 0 (max_bandwidth_ s) |>
          <| avergae_bandwidth_ := Reset 0 0 (avergae_bandwidth_ s) |>
          <| seq_round_map_ := ∅ |> <| acked_clusters_ := [] |> <| average_round_ := 0 |>
          <| connection_info_ := [] |> <| heap_ := h |>).

(** The destructor: what is left of the heap. *)
Definition MyBbrSender_dtor (s : MyBbrSender) : option (gmap Z SentClusterInfo) :=
  delete_clusters (connection_info_ s) (heap_ s).

(** Lines 252-271. *)
Definition enter_probe_rtt (s : MyBbrSender) : option MyBbrSender :=
  let s := s <| mode_ := PROBE_RTT |> <| pacing_gain_ := f32_of_Z 1 |>
             <| exit_probe_rtt_at_ := 0 |> <| round_trip_count_ := 0 |>
             <| recored_min_rtt_ := min_rtt_ s |> in
  let current_bw := BandwidthEstimate s in
  let s :=
    if negb (max_rate_record_ s =? 0)
       && (bandwidth_mul (max_rate_record_ s) (insist_factor_ s) <=? current_bw)
    then s <| recover_rate_ := bandwidth_mul current_bw (insist_back_off_ s) |>
           <| is_recover_effective_ := true |>
    else s <| recover_rate_ := bandwidth_mul current_bw (cogestion_back_off_ s) |>
           <| is_recover_effective_ := false |> in
  ClusterInfoClear (s <| max_rate_record_ := 0 |> <| min_rtt_ := 0 |> <| seq_ts_map_ := [] |>).

(** Lines 274-285. *)
Definition maybe_exit_probe_rtt (now : Z) (s : MyBbrSender) : MyBbrSender :=
  let s := if exit_probe_rtt_at_ s =? 0
           then s <| exit_probe_rtt_at_ := time_add now (delta_mul_int 4 (global_min_rtt_ s)) |>
           else s in
  if (exit_probe_rtt_at_ s <? now) || HasSampledLastMinRtt s then
    let s := if min_rtt_ s =? 0
             then s <| min_rtt_ := recored_min_rtt_ s |> <| min_rtt_timestamp_ := now |> else s in
    EnterProbeBandwidthMode now (s <| recored_min_rtt_ := 0 |>)
  else s.

Definition MaybeEnterOrExitProbeRtt (now : Z) (min_rtt_expired : bool) (s : MyBbrSender) :
    option MyBbrSender :=
  s ← (if min_rtt_expired && negb (in_mode PROBE_RTT s) then enter_probe_rtt s else Some s);
  Some (if in_mode PROBE_RTT s then maybe_exit_probe_rtt now s else s).

Definition CalculatePacingRate (s : MyBbrSender) : MyBbrSender :=
  let min_rate := QuicBandwidth (min_bps_ s) in
  let s := if in_mode START_UP s then s <| pacing_rate_ := min_rate |> else s in
  let s := if in_mode PROBE_RTT s
           then s <| pacing_rate_ := if is_recover_effective_ s then recover_rate_ s else min_rate |>
           else s in
  let s := s <| sending_rate_ := pacing_rate_ s |> in
  let '(target_rate, s) :=
    if in_mode PROBE_BW s then
      let bw := BandwidthEstimate s in
      let target_rate := if is_recover_effective_ s then recover_rate_ s
                         else if bw =? 0 then min_rate else bw in
      let target_rate := if target_rate <? min_rate then min_rate else target_rate in
      (target_rate, s <| sending_rate_ := target_rate |>
                      <| pacing_rate_ := bandwidth_mul target_rate (pacing_gain_ s) |>)
    else (0, s) in
  let s := if negb (last_target_rate_ s =? 0) && (negb (last_target_rate_ s =? target_rate) && observer_ s)
           then s <| notified_ := S (notified_ s) |> else s in
  s <| last_target_rate_ := target_rate |>.

(** * Clusters *)

(** Lines 334-345: a cluster for the current round, linked behind the last one. *)
Definition new_cluster (s : MyBbrSender) : option MyBbrSender :=
  let a := next_address_ s in
  let prev : option Z := snd <$> last (connection_info_ s) in
  let cluster := (SentClusterInfo_ctor (round_trip_count_ s) (ShouldSendProbePacket s))
                   <| prev_ := prev |> in
  let s := store_cluster a cluster (s <| next_address_ := a + 1 |>) in
  s ← match prev with
      | Some p => c ← heap_ s !! p; Some (store_cluster p (c <| next_ := Some a |>) s)
      | None => Some s
      end;
  Some (s <| connection_info_ := SentMap.insert (round_trip_count_ s) a (connection_info_ s) |>).

Definition AddPacketInfoSampler (now packet_number bytes : Z) (s : MyBbrSender) : option MyBbrSender :=
  s ← match SentMap.find (round_trip_count_ s) (connection_info_ s) with
      | Some _ => Some s
      | None => new_cluster s
      end;
  a ← SentMap.find (round_trip_count_ s) (connection_info_ s);
  cluster ← heap_ s !! a;
  let s := store_cluster a (SentClusterInfo.OnPacketSent now packet_number bytes cluster) s in
  Some (match seq_round_map_ s !! packet_number with
        | Some _ => s
        | None => s <| seq_round_map_ := <[packet_number := round_trip_count_ s]> (seq_round_map_ s) |>
        end).

(** The loop of [RemoveClusterLE]. *)
Fixpoint remove_le (round : Z) (m : list (Z * Z)) (h : gmap Z SentClusterInfo) :
    option (list (Z * Z) * gmap Z SentClusterInfo) :=
  match m with
  | [] => Some ([], h)
  | (id, a) :: m' =>
    if id <=? round then
      cluster ← h !! a;
      h ← match next_ cluster with
          | Some next => c ← h !! next; Some (<[next := c <| prev_ := None |>]> h)
          | None => Some h
          end;
      remove_le round m' (delete a h)
    else Some (m, h)
  end.

Definition RemoveClusterLE (round : Z) (s : MyBbrSender) : option MyBbrSender :=
  '(m, h) ← remove_le round (connection_info_ s) (heap_ s);
  Some (s <| connection_info_ := m |> <| heap_ := h |>).

(** * The events *)

Record Totals := mkTotals {
  total_sent_bytes : Z; total_acked_bytes : Z; acc_sent_delta : Z; acc_ack_delta : Z; last_cluster_id : Z
}.

(** The body of the loop of lines 104-123. *)
Definition count_cluster (c : SentClusterInfo) (t : Totals) : Totals :=
  let '(sent_delta, sent_bytes) := GetSentInfo c in
  let '(ack_delta, acked_bytes) := GetAckedInfo c in
  let t := if negb (sent_delta =? 0)
           then t <| acc_sent_delta := u64 (acc_sent_delta t + sent_delta) |>
                  <| total_sent_bytes := u64 (total_sent_bytes t + sent_bytes) |> else t in
  if negb (ack_delta =? 0)
  then t <| acc_ack_delta := u64 (acc_ack_delta t + ack_delta) |>
         <| total_acked_bytes := u64 (total_acked_bytes t + acked_bytes) |>
         <| last_cluster_id := cluster_id_ c |> else t.

Fixpoint sum_clusters (h : gmap Z SentClusterInfo) (acked : list Z) (t : Totals) : option Totals :=
  match acked with
  | [] => Some t
  | a :: acked' => c ← h !! a; sum_clusters h acked' (count_cluster c t)
  end.

(** Lines 99-139: the average over the acknowledged clusters. *)
Definition update_average (s : MyBbrSender) : option MyBbrSender :=
  t ← sum_clusters (heap_ s) (acked_clusters_ s) (mkTotals 0 0 0 0 0);
  sent_rate ← (if 0 <? acc_sent_delta t
               then FromBytesAndTimeDelta (total_sent_bytes t) (FromMilliseconds (acc_sent_delta t))
               else Some BandwidthInfinite);
  acked_rate ← (if 0 <? acc_ack_delta t
                then FromBytesAndTimeDelta (total_acked_bytes t) (FromMilliseconds (acc_ack_delta t))
                else Some BandwidthInfinite);
  let average_rate := Z.min sent_rate acked_rate in
  let s := s <| average_round_ :=
                  u64 (average_round_ s + last_cluster_id t mod kAverageAckRateWindowSize) |> in
  let average_rate := if average_rate =? BandwidthInfinite then QuicBandwidth (min_bps_ s)
                      else average_rate in
  Some (s <| avergae_bandwidth_ :=
               Update (C := MaxFilter) average_rate (average_round_ s) (avergae_bandwidth_ s) |>).

(** Lines 142-148. *)
Fixpoint drop_stale (stale : nat) (s : MyBbrSender) : option MyBbrSender :=
  match stale with
  | O => Some s
  | S stale =>
    a ← head (acked_clusters_ s);
    cluster ← heap_ s !! a;
    s ← RemoveClusterLE (cluster_id_ cluster) (s <| acked_clusters_ := tail (acked_clusters_ s) |>);
    drop_stale stale s
  end.

(** Lines 86-95. *)
Definition ack_cluster (event_time packet_number : Z) (s : MyBbrSender) : option MyBbrSender :=
  match seq_round_map_ s !! packet_number with
  | Some round =>
    let s := s <| seq_round_map_ := delete packet_number (seq_round_map_ s) |> in
    match SentMap.find round (connection_info_ s) with
    | Some a => ClusterOnAck a packet_number event_time s
    | None => Some s
    end
  | None => Some s
  end.

Definition OnAck (event_time packet_number : Z) (s : MyBbrSender) : option MyBbrSender :=
  if packet_number <=? last_ack_seq_ s then Some s
  else
    let s := s <| last_ack_seq_ := packet_number |> in
    let s := UpdateRtt event_time packet_number s in
    let s := if in_mode START_UP s then EnterProbeBandwidthMode event_time s else s in
    let s := if in_mode PROBE_BW s then UpdateGainCyclePhase event_time s else s in
    let min_rtt_expired := time_add (min_rtt_timestamp_ s) kMinRttExpiry <? event_time in
    s ← MaybeEnterOrExitProbeRtt event_time min_rtt_expired s;
    s ← ack_cluster event_time packet_number s;
    let total := Z.of_nat (length (acked_clusters_ s)) in
    let s := CalculatePacingRate s in
    if kAverageAckRateWindowSize <=? total then
      s ← update_average s;
      drop_stale (Z.to_nat (total - (kAverageAckRateWindowSize - 1))) s
    else Some s.

Definition OnPacketSent (event_time packet_number bytes : Z) (s : MyBbrSender) : option MyBbrSender :=
  let s := AddSeqAndTimestamp event_time packet_number s in
  let s := CalculatePacingRate s in
  if in_mode PROBE_BW s then AddPacketInfoSampler event_time packet_number bytes s else Some s.
End MyBbrSender.
