(* ===== verification/BbrClusters.v ===== *)
(** The doubly linked clusters of [MyBbrSender]: a map in key order whose values
    point into the heap, each cluster pointing at its neighbours.

    [chain P h l] says that the map [l] and the heap [h] fit together: the keys
    ascend, the entry at position [i] is a live cluster with that key, its [prev_]
    and [next_] are the entries before and after it, it satisfies [P], and the heap
    holds nothing else.  The lemmas say what appending a cluster, updating one,
    removing a prefix and deleting all of them do to a chain. *)
From stdpp Require Import gmap sorting.
From S2P Require Import Prelude.
From S2P Require Import QuicUnits.
From S2P Require Import WindowedFilter.
From S2P Require Import Sampler.
From S2P Require Import BbrSenderV5.
From S2P Require Import ClusterSender.

Import SentClusterInfo MyBbrSender.
Open Scope Z_scope.

Abbreviation heap := (gmap Z SentClusterInfo).
Abbreviation entries := (list (Z * Z)).

(** * Maps in key order *)

Definition ascending (l : entries) : Prop := StronglySorted Z.lt (l.*1).

Lemma ascending_app l1 l2 :
  ascending (l1 ++ l2) <->
  ascending l1 /\ ascending l2 /\ (forall p q, p ∈ l1 -> q ∈ l2 -> p.1 < q.1).
Proof.
  unfold ascending. rewrite fmap_app. split.
  - intros H. split_and!; [by eapply StronglySorted_app_1_l|by eapply StronglySorted_app_1_r|].
    intros p q Hp Hq. eapply StronglySorted_app_1_elem_of; eauto; by apply list_elem_of_fmap_2.
  - intros (H1 & H2 & H). apply StronglySorted_app_2; [|done..].
    intros ? ? (p & -> & Hp)%list_elem_of_fmap (q & -> & Hq)%list_elem_of_fmap. eauto.
Qed.

Lemma ascending_inj l i j p q :
  ascending l -> l !! i = Some p -> l !! j = Some q -> p.1 = q.1 -> i = j.
Proof.
  assert (Hlt : forall (l : entries) i j p q, ascending l -> l !! i = Some p -> l !! j = Some q ->
                  (i < j)%nat -> p.1 < q.1).
  { clear. intros l i j p q Hs Hi Hj Hij.
    rewrite <- (take_drop (S i) l) in Hs. apply ascending_app in Hs as (_ & _ & H). apply H.
    - apply list_elem_of_lookup. exists i. by rewrite lookup_take_lt by lia.
    - apply list_elem_of_lookup. exists (j - S i)%nat. rewrite lookup_drop. rewrite <- Hj. f_equal. lia. }
  intros Hs Hi Hj E. destruct (lt_eq_lt_dec i j) as [[H|]|H]; [|done|]; eapply Hlt in H; eauto; lia.
Qed.

Lemma find_Some k (l : entries) a : SentMap.find k l = Some a -> (k, a) ∈ l.
Proof.
  induction l as [|[k' b] l IH]; cbn; [done|]. destruct (Z.eqb_spec k' k); [intros [= ->]; subst; left|].
  right. auto.
Qed.

Lemma find_None k (l : entries) : SentMap.find k l = None -> k ∉ l.*1.
Proof.
  induction l as [|[k' b] l IH]; cbn; [intros _; apply not_elem_of_nil|].
  destruct (Z.eqb_spec k' k); [done|]. intros H. apply not_elem_of_cons. auto.
Qed.

(** A key above all others goes to the end. *)
Lemma insert_last k a (l : entries) :
  (forall p, p ∈ l -> p.1 < k) -> SentMap.insert k a l = l ++ [(k, a)].
Proof.
  induction l as [|[k' b] l IH]; intros H; [done|]. cbn.
  assert (k' < k) by (apply (H (k', b)); left). zcases. rewrite IH; [done|]. intros p Hp. apply H. by right.
Qed.

Lemma find_last k a (l : entries) :
  (forall p, p ∈ l -> p.1 < k) -> SentMap.find k (l ++ [(k, a)]) = Some a.
Proof.
  induction l as [|[k' b] l IH]; intros H; cbn; [by rewrite Z.eqb_refl|].
  assert (k' < k) by (apply (H (k', b)); left). zcases. apply IH. intros p Hp. apply H. by right.
Qed.

(** * Chains *)

(** The entry before position [i]. *)
Definition before {A} (l : list A) (i : nat) : option A :=
  match i with O => None | S j => l !! j end.

Definition node (P : SentClusterInfo -> Prop) (l : entries) (i : nat) (id : Z) (c : SentClusterInfo) : Prop :=
  cluster_id_ c = id /\ prev_ c = snd <$> before l i /\ next_ c = snd <$> l !! S i /\ P c.

Record chain (P : SentClusterInfo -> Prop) (h : heap) (l : entries) : Prop := {
  chain_ascending : ascending l;
  chain_node : forall i id a, l !! i = Some (id, a) -> exists c, h !! a = Some c /\ node P l i id c;
  chain_owns : forall a, is_Some (h !! a) -> a ∈ l.*2;
}.

Lemma chain_nil P : chain P ∅ [].
Proof. split; [constructor|done|]. intros a [? H]. by rewrite lookup_empty in H. Qed.

Section chain.
Context {P : SentClusterInfo -> Prop}.

Lemma chain_impl (Q : SentClusterInfo -> Prop) h l :
  (forall c, P c -> Q c) -> chain P h l -> chain Q h l.
Proof.
  intros HPQ [Hs Hn Ho]. split; [done| |done]. intros i id a H.
  destruct (Hn _ _ _ H) as (c & Hc & (? & ? & ? & ?)). exists c. split; [done|]. repeat split; auto.
Qed.

Lemma chain_live h l a : chain P h l -> a ∈ l.*2 -> exists c, h !! a = Some c /\ P c.
Proof.
  intros H ([id b] & -> & [i Hi]%list_elem_of_lookup)%list_elem_of_fmap.
  destruct (chain_node _ _ _ H _ _ _ Hi) as (c & Hc & (_ & _ & _ & HP)). eauto.
Qed.

Lemma chain_id h l id a : chain P h l -> (id, a) ∈ l -> exists c, h !! a = Some c /\ cluster_id_ c = id.
Proof.
  intros H [i Hi]%list_elem_of_lookup.
  destruct (chain_node _ _ _ H _ _ _ Hi) as (c & Hc & (E & _)). eauto.
Qed.

(** An address occurs once. *)
Lemma chain_inj h l i j id id' a :
  chain P h l -> l !! i = Some (id, a) -> l !! j = Some (id', a) -> i = j.
Proof.
  intros H Hi Hj. destruct (chain_node _ _ _ H _ _ _ Hi) as (c & Hc & (E & _)).
  destruct (chain_node _ _ _ H _ _ _ Hj) as (c' & Hc' & (E' & _)).
  eapply ascending_inj; [apply H|exact Hi|exact Hj|]. cbn. congruence.
Qed.

Lemma chain_NoDup h l : chain P h l -> NoDup (l.*2).
Proof.
  intros H. apply NoDup_alt. intros i j a Hi Hj. rewrite list_lookup_fmap in Hi, Hj.
  destruct (l !! i) as [[id b]|] eqn:Ei; [|done]. destruct (l !! j) as [[id' b']|] eqn:Ej; [|done].
  cbn in *. simplify_eq. eauto using chain_inj.
Qed.

(** Rewriting a cluster in place. *)
Lemma chain_update h l i id a c c' :
  chain P h l -> l !! i = Some (id, a) -> h !! a = Some c ->
  cluster_id_ c' = cluster_id_ c -> prev_ c' = prev_ c -> next_ c' = next_ c -> P c' ->
  chain P (<[a := c']> h) l.
Proof.
  intros H Hi Hc E1 E2 E3 HP. split; [apply H| |].
  - intros j id' b Hj. destruct (chain_node _ _ _ H _ _ _ Hj) as (d & Hd & (F1 & F2 & F3 & F4)).
    destruct (decide (a = b)) as [<-|Hne].
    + simplify_eq. exists c'. rewrite lookup_insert_eq. repeat split; congruence.
    + exists d. rewrite lookup_insert_ne by done. by repeat split.
  - intros b Hb. apply (chain_owns _ _ _ H). destruct (decide (a = b)) as [<-|]; [eauto|].
    by rewrite lookup_insert_ne in Hb.
Qed.

(** Deleting every cluster. *)
Lemma delete_all (l : entries) (h : heap) :
  NoDup (l.*2) -> (forall a, is_Some (h !! a) <-> a ∈ l.*2) -> delete_clusters l h = Some ∅.
Proof.
  revert h; induction l as [|[id a] l IH]; intros h Hnd Ho; cbn.
  - f_equal. apply map_empty. intros a. destruct (h !! a) eqn:E; [|done].
    assert (is_Some (h !! a)) as Ha%Ho by eauto. by apply not_elem_of_nil in Ha.
  - apply NoDup_cons in Hnd as [Ha Hnd]. destruct (h !! a) eqn:E; cbn.
    + apply IH; [done|]. intros b. rewrite lookup_delete_is_Some, Ho. cbn. rewrite elem_of_cons.
      split; [intros [? [?|?]]; congruence|]. intros Hb. split; [|by right]. intros ->. done.
    + assert (is_Some (h !! a)) as [? ?] by (apply Ho; left). congruence.
Qed.

Lemma chain_delete h l : chain P h l -> delete_clusters l h = Some ∅.
Proof.
  intros H. apply delete_all; [by eapply chain_NoDup|]. intros a. split; [apply H|].
  intros (c & Hc & _)%(chain_live _ _ _ H). eauto.
Qed.
(** * Growing and shrinking *)

(** The heap after a cluster [c] was put at [a] behind the last entry. *)
Definition link_last (a : Z) (c : SentClusterInfo) (h : heap) (l : entries) : heap :=
  match snd <$> last l with
  | Some p => match h !! p with
              | Some d => <[p := d <| next_ := Some a |>]> (<[a := c]> h)
              | None => <[a := c]> h
              end
  | None => <[a := c]> h
  end.

Lemma before_app_l {A} (l l' : list A) i : (i <= length l)%nat -> before (l ++ l') i = before l i.
Proof. destruct i; [done|]. intros H. apply lookup_app_l. lia. Qed.

Lemma before_last {A} (l : list A) : before l (length l) = last l.
Proof. rewrite last_lookup. by destruct l. Qed.

Lemma link_last_lookup h l a c b :
  chain P h l -> h !! a = None ->
  link_last a c h l !! b =
    if decide (b = a) then Some c
    else if decide (snd <$> last l = Some b) then (fun d => d <| next_ := Some a |>) <$> h !! b
    else h !! b.
Proof.
  intros H Hfresh. unfold link_last. rewrite last_lookup. destruct (l !! _) as [[id p]|] eqn:E; cbn.
  - destruct (chain_node _ _ _ H _ _ _ E) as (d & Hd & _). rewrite Hd.
    assert (p <> a) by congruence. repeat case_decide; simplify_eq.
    + by rewrite lookup_insert_ne, lookup_insert_eq.
    + by rewrite lookup_insert_eq, Hd.
    + by rewrite !lookup_insert_ne by congruence.
  - repeat case_decide; simplify_eq; [by rewrite lookup_insert_eq|by rewrite lookup_insert_ne].
Qed.

Lemma chain_snoc h l a k c :
  (forall d x, P d -> P (d <| next_ := x |>)) ->
  chain P h l -> h !! a = None -> (forall p, p ∈ l -> p.1 < k) ->
  cluster_id_ c = k -> prev_ c = snd <$> last l -> next_ c = None -> P c ->
  chain P (link_last a c h l) (l ++ [(k, a)]).
Proof.
  intros HPn H Hfresh Hk E1 E2 E3 HP. split.
  - apply ascending_app. split; [apply H|]. split; [repeat constructor|].
    intros p q Hp ->%list_elem_of_singleton. auto.
  - intros i id b Hi. rewrite (link_last_lookup _ _ _ _ _ H Hfresh). unfold node.
    apply lookup_app_Some in Hi as [Hi|[Hge Hi]].
    + assert (Hlt : (i < length l)%nat) by (eapply lookup_lt_Some; eauto).
      destruct (chain_node _ _ _ H _ _ _ Hi) as (d & Hd & (F1 & F2 & F3 & F4)).
      rewrite before_app_l, last_lookup, decide_False by (lia || congruence).
      destruct (decide (S i = length l)) as [Ei|Ei].
      * rewrite <- Ei. cbn [pred]. rewrite Hi, decide_True, Hd by done. eexists. split; [done|].
        rewrite lookup_app_r, Ei, Nat.sub_diag by lia. repeat split; auto.
      * rewrite decide_False.
        -- exists d. rewrite lookup_app_l by lia. by repeat split.
        -- destruct (l !! pred _) as [[id' p]|] eqn:E; cbn; [|done]. intros [= ->].
           pose proof (chain_inj _ _ _ _ _ _ _ H E Hi). lia.
    + destruct (i - length l)%nat as [|n] eqn:En; [|by destruct n]. injection Hi as <- <-.
      assert (i = length l) as -> by lia. exists c. rewrite decide_True by done. split; [done|].
      rewrite before_app_l, before_last, lookup_app_r by lia.
      replace (S (length l) - length l)%nat with 1%nat by lia. by repeat split.
  - intros b. rewrite (link_last_lookup _ _ _ _ _ H Hfresh), fmap_app. intros Hb. apply elem_of_app.
    destruct (decide (b = a)) as [->|]; [right; left|]. left. apply (chain_owns _ _ _ H).
    case_decide; [by apply fmap_is_Some in Hb|done].
Qed.

(** Clusters that differ in their [prev_] at most. *)
Definition same_but_prev (c c' : SentClusterInfo) : Prop := exists x, c' = c <| prev_ := x |>.

Lemma same_but_prev_refl c : same_but_prev c c.
Proof. exists (prev_ c). by destruct c. Qed.

(** What the entries of [l] lose when the clusters before them are removed. *)
Definition shrinks (h h' : heap) : Prop :=
  forall a c', h' !! a = Some c' -> exists c, h !! a = Some c /\ same_but_prev c c'.

Lemma shrinks_trans h1 h2 h3 : shrinks h1 h2 -> shrinks h2 h3 -> shrinks h1 h3.
Proof.
  intros H12 H23 a c3 H3. destruct (H23 _ _ H3) as (c2 & H2 & [x ->]).
  destruct (H12 _ _ H2) as (c1 & H1 & [y ->]). exists c1. split; [done|]. by exists x.
Qed.

(** One iteration of the removal loop: the head goes, its successor forgets it. *)
Lemma chain_pop h id a l :
  (forall d x, P d -> P (d <| prev_ := x |>)) ->
  chain P h ((id, a) :: l) ->
  exists c h',
    h !! a = Some c /\
    match next_ c with
    | Some next => d ← h !! next; Some (<[next := d <| prev_ := None |>]> h)
    | None => Some h
    end = Some h' /\
    chain P (delete a h') l /\ shrinks h (delete a h').
Proof.
  intros HPp H. destruct (chain_node _ _ _ H 0%nat _ _ eq_refl) as (c & Hc & (F1 & F2 & F3 & F4)).
  exists c. rewrite F3. cbn [lookup list_lookup].
  assert (Hnd := chain_NoDup _ _ H). cbn in Hnd. apply NoDup_cons in Hnd as [Hal Hnd].
  assert (Has : ascending l) by (apply (ascending_app [(id, a)] l), H).
  destruct l as [|[id2 b] l]; cbn.
  { exists h. split_and!; [done|done| |].
    - split; [constructor|done|]. intros x [Hx Hs]%lookup_delete_is_Some.
      apply (chain_owns _ _ _ H) in Hs. cbn in Hs. apply list_elem_of_singleton in Hs. congruence.
    - intros x c' [_ Hx]%lookup_delete_Some. exists c'. split; [done|apply same_but_prev_refl]. }
  destruct (chain_node _ _ _ H 1%nat _ _ eq_refl) as (d & Hd & (G1 & G2 & G3 & G4)).
  exists (<[b := d <| prev_ := None |>]> h). rewrite Hd.
  assert (a <> b) by (intros ->; apply Hal; left).
  split_and!; [done|done| |].
  - split; [done| |].
    + intros i id' x Hi. destruct i as [|i].
      * injection Hi as <- <-. exists (d <| prev_ := None |>).
        rewrite lookup_delete_ne, lookup_insert_eq by done. repeat split; auto.
      * destruct (chain_node _ _ _ H (S (S i)) _ _ Hi) as (e & He & (K1 & K2 & K3 & K4)).
        assert (x ∈ l.*2) by (apply list_elem_of_fmap; exists (id', x); split; [done|]; by eapply list_elem_of_lookup_2).
        cbn in Hal. apply not_elem_of_cons in Hal as [_ Hal].
        cbn in Hnd. apply NoDup_cons in Hnd as [Hbl _].
        exists e. rewrite lookup_delete_ne, lookup_insert_ne by (intros ->; done). by repeat split.
    + intros x [Hx Hs]%lookup_delete_is_Some.
      assert (is_Some (h !! x)) as Hin.
      { destruct (decide (x = b)) as [->|]; [eauto|]. by rewrite lookup_insert_ne in Hs. }
      apply (chain_owns _ _ _ H) in Hin. cbn in Hin. apply elem_of_cons in Hin as [->|]; [done|done].
  - intros x c' [Hx Hs]%lookup_delete_Some. apply lookup_insert_Some in Hs as [[<- <-]|[_ Hs]].
    + exists d. split; [done|]. by exists None.
    + exists c'. split; [done|apply same_but_prev_refl].
Qed.

(** The loop removes exactly the entries up to [round]. *)
Lemma chain_remove_le h l1 l2 round :
  (forall d x, P d -> P (d <| prev_ := x |>)) ->
  chain P h (l1 ++ l2) ->
  (forall p, p ∈ l1 -> p.1 <= round) -> (forall p, p ∈ l2 -> round < p.1) ->
  exists h', remove_le round (l1 ++ l2) h = Some (l2, h') /\ chain P h' l2 /\ shrinks h h'.
Proof.
  intros HPp. revert h. induction l1 as [|[id a] l1 IH]; intros h H Hle Hgt.
  - exists h. cbn [app] in *. split_and!; [|done|].
    + destruct l2 as [|[id a] l2]; cbn; [done|]. assert (round < id) by (apply (Hgt (id, a)); left). zcases.
      done.
    + intros a c Hc. exists c. split; [done|apply same_but_prev_refl].
  - cbn [app] in H. destruct (chain_pop _ _ _ _ HPp H) as (c & h' & Hc & Hn & H' & Hs).
    destruct (IH _ H') as (h2 & E2 & H2 & Hs2); [intros p Hp; apply Hle; by right|done|].
    exists h2. split_and!; [|done|by eapply shrinks_trans].
    cbn. assert (id <= round) by (apply (Hle (id, a)); left). destruct (Z.leb_spec id round); [|lia].
    rewrite Hc. cbn. rewrite Hn. cbn. done.
Qed.
End chain.
