(* ===== verification/BbrSafety.v ===== *)
(** Memory safety of [MyBbrSender]: no handler follows a dangling cluster pointer,
    reads an empty packet vector or divides by zero, and no cluster is leaked.

    The argument: rounds ascend with packet numbers and acknowledgements ascend
    too, so clusters get their first acknowledgement in order.  The last cluster
    that has one is the [frontier]; the clusters whose bandwidth was reported lie
    before it, in order, so deleting up to the oldest of them leaves the others
    alive. *)
From stdpp Require Import gmap sorting.
From S2P Require Import Prelude.
From S2P Require Import QuicUnits.
From S2P Require Import WindowedFilter.
From S2P Require Import Sampler.
From S2P Require Import BbrSenderV5.
From S2P Require Import ClusterSender.
From S2P Require Import BbrClusters.

Import SentClusterInfo MyBbrSender.
Open Scope Z_scope.

(** * One cluster *)

(** A cluster at time [now]: it has a packet, and its times are in order. *)
Record cluster_ok (now : Z) (c : SentClusterInfo) : Prop := {
  co_packets : packet_infos_ c <> [];
  co_sent : 0 < first_send_ts_ c <= last_send_ts_ c /\ last_send_ts_ c <= now;
  co_acked : first_ack_ts_ c = 0 /\ last_ack_ts_ c = 0 \/
             0 < first_ack_ts_ c <= last_ack_ts_ c /\ last_ack_ts_ c <= now;
}.

Lemma cluster_ok_later now now' c : now <= now' -> cluster_ok now c -> cluster_ok now' c.
Proof. intros ? [? ? ?]. split; [done|lia|lia]. Qed.

Lemma cluster_ok_prev now c x : cluster_ok now c -> cluster_ok now (c <| prev_ := x |>).
Proof. by intros [? ? ?]. Qed.
Lemma cluster_ok_next now c x : cluster_ok now c -> cluster_ok now (c <| next_ := x |>).
Proof. by intros [? ? ?]. Qed.
Lemma cluster_ok_bw now c x : cluster_ok now c -> cluster_ok now (c <| bw_ := x |>).
Proof. by intros [? ? ?]. Qed.

#[local] Hint Resolve cluster_ok_prev cluster_ok_next cluster_ok_bw : core.

(** The clock of a run: positive microseconds that leave room for differences. *)
Definition clock_ok (now : Z) : Prop := 0 < now < 2 ^ 56.

Lemma estimate_defined now c : clock_ok now -> cluster_ok now c -> is_Some (estimate c).
Proof.
  unfold clock_ok, estimate. intros Hn [_ Hs Ha].
  destruct (Z.eqb_spec (acked_packets_ c) 0); cbn; [eauto|].
  destruct (Z.eqb_spec (last_ack_ts_ c) (first_ack_ts_ c)); cbn; [eauto|].
  assert (is_Some (FromBytesAndTimeDelta (acked_packets_ c) (time_sub (last_ack_ts_ c) (first_ack_ts_ c)))) as [r Hr].
  { apply FromBytesAndTimeDelta_defined; unfold sfits; lia. }
  rewrite Hr. destruct (Z.ltb_spec (first_send_ts_ c) (last_send_ts_ c)); cbn; [|eauto].
  destruct (FromBytesAndTimeDelta_defined (sent_packets_ c) (last_send_ts_ c) (first_send_ts_ c)) as [q Hq];
    [unfold sfits; lia..|]. rewrite Hq. cbn. eauto.
Qed.

(** What [note_ack] leaves alone. *)
Lemma note_ack_ok seq now c :
  clock_ok now -> packet_infos_ c <> [] -> 0 < first_send_ts_ c <= last_send_ts_ c -> last_send_ts_ c <= now ->
  0 < first_ack_ts_ c <= now ->
  exists c', note_ack seq now c = Some c' /\ cluster_ok now c' /\ first_ack_ts_ c' = first_ack_ts_ c /\
             cluster_id_ c' = cluster_id_ c /\ prev_ c' = prev_ c /\ next_ c' = next_ c.
Proof.
  intros Hn Hp Hs Hs' Ha. unfold note_ack. cbn [packet_infos_].
  change (packet_infos_ (c <| last_ack_ts_ := now |>)) with (packet_infos_ c).
  destruct (packet_infos_ c) as [|head infos] eqn:E; [done|]. cbn -[lookup insert].
  destruct (ClusterSender.seq head <=? seq); [|eexists; split; [done|]; split; [split; cbn; [congruence|lia|lia]|done]].
  case_match; eexists; (split; [done|]); (split; [split; cbn|done]); try lia; try congruence.
  apply (f_equal length) in E. intros F%(f_equal length). rewrite length_insert in F. cbn in *. lia.
Qed.

(** A new packet in a cluster, which may be new itself. *)
Lemma sent_ok now seq len c :
  clock_ok now -> (packet_infos_ c <> [] -> cluster_ok now c) ->
  (packet_infos_ c = [] -> first_send_ts_ c = 0 /\ first_ack_ts_ c = 0 /\ last_ack_ts_ c = 0) ->
  cluster_ok now (SentClusterInfo.OnPacketSent now seq len c).
Proof.
  unfold clock_ok. intros Hn Hold Hnew. unfold SentClusterInfo.OnPacketSent.
  assert (first_send_ts_ c = 0 /\ first_ack_ts_ c = 0 /\ last_ack_ts_ c = 0 \/ cluster_ok now c) as Hc.
  { destruct (packet_infos_ c); [left; auto|right; by apply Hold]. }
  destruct (Z.eqb_spec (first_send_ts_ c) 0) as [E|E]; (split; cbn; [intros F; by destruct (packet_infos_ c)| |]);
    destruct Hc as [Hc|[? ? ?]]; lia.
Qed.

(** * The frontier of first acknowledgements *)

Definition acked_at (h : heap) (a : Z) : Prop := exists c, h !! a = Some c /\ first_ack_ts_ c <> 0.

(** [acked]: the clusters reported; [pending]: the rounds an acknowledgement can
    still name. *)
Inductive frontier (h : heap) (l : entries) (acked : list Z) (pending : Z -> Prop) : Prop :=
| frontier_none :
    acked = [] -> (forall a, a ∈ l.*2 -> ~ acked_at h a) -> frontier h l acked pending
| frontier_at (f : entries) (x : Z * Z) (back : entries) :
    l = f ++ x :: back -> acked_at h x.2 -> (forall a, a ∈ back.*2 -> ~ acked_at h a) ->
    acked `sublist_of` f.*2 -> (forall r, pending r -> x.1 <= r) ->
    frontier h l acked pending.

Lemma frontier_live h l acked pending a : frontier h l acked pending -> a ∈ acked -> a ∈ l.*2.
Proof.
  intros [->|f x back -> _ _ Hsub _] Ha; [by apply not_elem_of_nil in Ha|].
  rewrite fmap_app. apply elem_of_app. left. eapply elem_of_sublist; eauto.
Qed.

Lemma frontier_mono h h' l acked (pending pending' : Z -> Prop) :
  (forall a, acked_at h' a <-> acked_at h a) -> (forall r, pending' r -> pending r) ->
  frontier h l acked pending -> frontier h' l acked pending'.
Proof.
  intros Hh Hp [->|f x back -> Hx Hb Hsub Hr].
  - apply frontier_none; [done|]. intros a Ha. rewrite Hh. auto.
  - eapply frontier_at; [done| |..|eauto]; [by apply Hh| |done]. intros a Ha. rewrite Hh. auto.
Qed.

(** A cluster appended at the end has no acknowledgement. *)
Lemma frontier_snoc h h' l acked (pending pending' : Z -> Prop) k a :
  (forall b, b ∈ l.*2 -> acked_at h' b <-> acked_at h b) -> ~ acked_at h' a ->
  (forall r, pending' r -> pending r \/ r = k) -> (forall p, p ∈ l -> p.1 < k) ->
  frontier h l acked pending -> frontier h' (l ++ [(k, a)]) acked pending'.
Proof.
  intros Hh Ha Hp Hk [->|f x back -> Hx Hb Hsub Hr].
  - apply frontier_none; [done|]. intros b Hin. rewrite fmap_app in Hin.
    apply elem_of_app in Hin as [Hin| ->%list_elem_of_singleton]; [|done]. rewrite Hh by done. auto.
  - assert (x ∈ f ++ x :: back) by (apply elem_of_app; right; left).
    eapply (frontier_at _ _ _ _ f x (back ++ [(k, a)])); [by rewrite <- app_assoc| | |done|].
    + apply Hh; [by apply list_elem_of_fmap_2|done].
    + intros b Hin. rewrite fmap_app in Hin.
      apply elem_of_app in Hin as [Hin| ->%list_elem_of_singleton]; [|done].
      rewrite Hh; [auto|]. rewrite fmap_app, fmap_cons. apply elem_of_app. right. by right.
    + intros r [| ->]%Hp; [auto|]. apply Z.lt_le_incl. auto.
Qed.

Lemma last_sublist (l : entries) p : snd <$> last l = Some p -> [p] `sublist_of` l.*2.
Proof.
  rewrite <- fmap_last. intros [l' ->]%last_Some. by apply sublist_inserts_l.
Qed.

(** The first acknowledgement of the cluster at [a], of round [r]: the frontier
    moves there, and the cluster before it may be reported. *)
Lemma frontier_advance h h' l1 r a l2 acked acked' (pending pending' : Z -> Prop) :
  ascending (l1 ++ (r, a) :: l2) -> ~ acked_at h a -> pending r ->
  (forall b, acked_at h' b <-> acked_at h b \/ b = a) -> (forall r', pending' r' -> r <= r') ->
  NoDup ((l1 ++ (r, a) :: l2).*2) ->
  acked' = acked \/ (exists p, snd <$> last l1 = Some p /\ acked' = acked ++ [p]) ->
  frontier h (l1 ++ (r, a) :: l2) acked pending ->
  frontier h' (l1 ++ (r, a) :: l2) acked' pending'.
Proof.
  intros Hs Hna Hr Hh Hr' Hnd Hack Hf.
  assert (Ha2 : a ∉ l2.*2).
  { rewrite fmap_app, fmap_cons in Hnd. apply NoDup_app in Hnd as (_ & _ & Hnd). by apply NoDup_cons in Hnd as [? _]. }
  assert (acked `sublist_of` l1.*2 /\ (forall b, b ∈ l2.*2 -> ~ acked_at h b) /\
          forall p, snd <$> last l1 = Some p -> acked ++ [p] `sublist_of` l1.*2) as (Hsub & Hback & Hpush).
  { destruct Hf as [-> Hno|f x back E Hx Hback Hsub Hp].
    - split_and!; [apply sublist_nil_l| |].
      + intros b Hb. apply Hno. rewrite fmap_app, fmap_cons. apply elem_of_app. right. by right.
      + intros p Hp. by apply last_sublist.
    - assert (exists mid, l1 = f ++ x :: mid /\ back = mid ++ (r, a) :: l2) as (mid & -> & ->).
      { apply app_eq_inv in E as [(k & -> & E)|(k & -> & E)]; destruct k as [|y k]; cbn in E; injection E as E1 E2.
        all: try (subst x; done). { subst y back. eauto. } subst y l2.
        apply ascending_app in Hs as (_ & Hs & _).
        apply (ascending_app [(r, a)]) in Hs as (_ & _ & Hs).
        assert (r < x.1) by (apply (Hs (r, a) x); [left|apply elem_of_app; right; left]).
        specialize (Hp _ Hr). lia. }
      rewrite fmap_app. split_and!; [by apply sublist_inserts_r| |].
      + intros b Hb. apply Hback. rewrite fmap_app, fmap_cons. apply elem_of_app. right. by right.
      + intros p Hl. apply sublist_app; [done|]. rewrite last_app_cons in Hl.
        by apply last_sublist. }
  eapply (frontier_at _ _ _ _ l1 (r, a) l2); [done|..].
  - apply Hh. by right.
  - intros b Hb. rewrite Hh. intros [| ->]; [by eapply Hback|done].
  - destruct Hack as [->|(p & Hp & ->)]; auto.
  - done.
Qed.

Lemma shrinks_acked h h' a : shrinks h h' -> is_Some (h' !! a) -> acked_at h' a <-> acked_at h a.
Proof.
  intros Hs [c' Hc']. destruct (Hs _ _ Hc') as (c & Hc & [x ->]).
  split; intros (d & Hd & Hne); simplify_eq; eexists; eauto.
Qed.

(** The oldest reported cluster is removed, with all before it. *)
Lemma frontier_drop h l a acked pending :
  frontier h l (a :: acked) pending ->
  exists l1 id l2, l = (l1 ++ [(id, a)]) ++ l2 /\
    forall h', shrinks h h' -> (forall b, b ∈ l2.*2 -> is_Some (h' !! b)) -> frontier h' l2 acked pending.
Proof.
  intros [|f x back -> Hx Hback Hsub Hp]; [done|].
  apply sublist_cons_l in Hsub as (k1 & k2 & E & Hsub).
  apply fmap_app_inv in E as (l1 & l3 & -> & E & ->).
  destruct l3 as [|[id b] l3]; [done|]. cbn in E. injection E as <- ->.
  exists l1, id, (l3 ++ x :: back). split; [by rewrite <- !app_assoc|]. intros h' Hs Hlive.
  assert (Hin : forall b, b ∈ (x :: back).*2 -> acked_at h' b <-> acked_at h b).
  { intros b Hb. apply shrinks_acked; [done|]. apply Hlive. rewrite fmap_app. apply elem_of_app. by right. }
  eapply frontier_at; [done| | |done|done].
  - apply Hin; [left|done].
  - intros b Hb. rewrite Hin by by right. auto.
Qed.

(** * The acknowledgement of a packet *)

(** What the acknowledgement of a cluster does not touch. *)
Definition frame (s : MyBbrSender) :=
  (connection_info_ s, seq_round_map_ s, next_address_ s, last_ack_seq_ s, round_trip_count_ s).

Lemma OnEstimateBandwidth_effect a id send ack probe s :
  let s' := OnEstimateBandwidth a id send ack probe s in
  frame s' = frame s /\ heap_ s' = heap_ s /\ acked_clusters_ s' = acked_clusters_ s ++ [a].
Proof.
  cbv zeta. unfold OnEstimateBandwidth. destruct (_ && (_ <=? _)); cbn -[bandwidth_mul Update Z.min]; by case_match.
Qed.

Lemma TriggerBandwidthEstimate_effect a c now s :
  clock_ok now -> heap_ s !! a = Some c -> cluster_ok now c ->
  exists s' bw, TriggerBandwidthEstimate a s = Some s' /\ frame s' = frame s /\
    heap_ s' = <[a := c <| bw_ := bw |>]> (heap_ s) /\
    (acked_clusters_ s' = acked_clusters_ s \/ acked_clusters_ s' = acked_clusters_ s ++ [a]).
Proof.
  intros Hn Hc Hok. unfold TriggerBandwidthEstimate. rewrite Hc. cbn [mbind option_bind].
  destruct (estimate_defined _ _ Hn Hok) as [rates ->]. cbn [mbind option_bind].
  destruct rates as [[send ack]|].
  - eexists _, (Z.min send ack). split; [done|]. destruct (0 <? _); [|by auto].
    set (s1 := store_cluster _ _ _). destruct (OnEstimateBandwidth_effect a (cluster_id_ c) send ack (is_probe_ c) s1)
      as (F1 & F2 & F3). rewrite F1, F2, F3. auto.
  - exists s, (bw_ c). split_and!; [done..| |by auto].
    rewrite insert_id; [done|]. rewrite Hc. by destruct c.
Qed.

Lemma acked_at_dec h a : {acked_at h a} + {~ acked_at h a}.
Proof.
  destruct (h !! a) as [c|] eqn:E; [destruct (Z.eq_dec (first_ack_ts_ c) 0)|].
  - right. intros (d & Hd & ?). congruence.
  - left. by exists c.
  - right. intros (d & Hd & ?). congruence.
Qed.

Lemma acked_at_insert h a c b :
  acked_at (<[a := c]> h) b <-> (b = a /\ first_ack_ts_ c <> 0) \/ (b <> a /\ acked_at h b).
Proof.
  unfold acked_at. destruct (decide (b = a)) as [->|Hne].
  - rewrite lookup_insert_eq. split; [intros (d & [= <-] & ?); auto|]. intros [[_ ?]|[]]; [eauto|done].
  - rewrite lookup_insert_ne by done. split; [by auto|]. intros [[-> _]|[_ ?]]; done.
Qed.

(** The first half of a cluster's [OnAck]: its first acknowledgement makes its
    predecessor report. *)
Definition first_ack (a now : Z) (c : SentClusterInfo) (s : MyBbrSender) : option MyBbrSender :=
  if first_ack_ts_ c =? 0 then
    let s := store_cluster a (c <| first_ack_ts_ := now |>) s in
    match prev_ c with
    | Some prev => TriggerBandwidthEstimate prev s
    | None => Some s
    end
  else Some s.

Lemma first_ack_effect l1 id a l2 now s c :
  clock_ok now -> connection_info_ s = l1 ++ (id, a) :: l2 ->
  chain (cluster_ok now) (heap_ s) (connection_info_ s) -> heap_ s !! a = Some c ->
  exists s' h c', first_ack a now c s = Some s' /\ frame s' = frame s /\
    heap_ s' = <[a := c']> h /\ h !! a = Some c /\ chain (cluster_ok now) h (connection_info_ s) /\
    (forall b, acked_at h b <-> acked_at (heap_ s) b) /\
    c' = c <| first_ack_ts_ := if first_ack_ts_ c =? 0 then now else first_ack_ts_ c |> /\
    (acked_clusters_ s' = acked_clusters_ s \/
     first_ack_ts_ c = 0 /\
     exists p, snd <$> last l1 = Some p /\ acked_clusters_ s' = acked_clusters_ s ++ [p]).
Proof.
  intros Hn E H Hc. unfold first_ack. destruct (Z.eqb_spec (first_ack_ts_ c) 0) as [E0|E0].
  2:{ exists s, (heap_ s), c. split_and!; try done; [by rewrite insert_id| |by auto]. by destruct c. }
  destruct (chain_node _ _ _ H (length l1) id a) as (c' & Hc' & (_ & Hprev & _ & _)).
  { rewrite E, lookup_app_r, Nat.sub_diag by lia. done. }
  assert (c' = c) as -> by congruence. rewrite E, before_app_l, before_last in Hprev by lia. rewrite Hprev.
  destruct (last l1) as [[pid p]|] eqn:El; cbn [fmap option_fmap option_map snd].
  2:{ eexists _, (heap_ s), _. split_and!; try done. by auto. }
  assert (Hp : (pid, p) ∈ connection_info_ s).
  { rewrite E. apply elem_of_app. left. apply last_Some_elem_of in El. done. }
  apply list_elem_of_lookup in Hp as [j Hj].
  destruct (chain_node _ _ _ H j pid p Hj) as (d & Hd & (_ & _ & _ & Hok)).
  assert (Hpa : p <> a).
  { intros ->. assert (pid = id).
    { destruct (chain_id _ _ pid a H) as (? & ? & <-); [by eapply list_elem_of_lookup_2|].
      destruct (chain_id _ _ id a H) as (? & ? & <-); [|congruence]. rewrite E. apply elem_of_app. right. left. }
    subst. pose proof (chain_ascending _ _ _ H) as Ha. rewrite E in Ha. apply ascending_app in Ha as (_ & _ & Ha).
    specialize (Ha (id, a) (id, a)). cbn in Ha. apply last_Some_elem_of in El.
    assert (id < id) by (apply Ha; [done|left]). lia. }
  set (s1 := store_cluster a _ s).
  destruct (TriggerBandwidthEstimate_effect p d now s1) as (s2 & bw & E2 & F2 & H2 & A2);
    [done|subst s1; cbn; by rewrite lookup_insert_ne|done|].
  exists s2, (<[p := d <| bw_ := bw |>]> (heap_ s)), (c <| first_ack_ts_ := now |>).
  split_and!; [done|by rewrite F2| |by rewrite lookup_insert_ne| | |done|].
  - rewrite H2. subst s1. cbn. by rewrite insert_insert_ne.
  - eapply chain_update; eauto.
  - intros b. rewrite acked_at_insert. cbn. split.
    + intros [[-> ?]|[_ ?]]; [exists d; done|done].
    + intros Hb. destruct (decide (b = p)) as [->|]; [|by auto]. left. destruct Hb as (x & Hx & ?).
      split; [done|congruence].
  - destruct A2 as [->| ->]; [by left|right]. split; [done|]. by exists p.
Qed.

Lemma ClusterOnAck_effect l1 id a l2 seq now s :
  clock_ok now -> connection_info_ s = l1 ++ (id, a) :: l2 ->
  chain (cluster_ok now) (heap_ s) (connection_info_ s) ->
  exists s', ClusterOnAck a seq now s = Some s' /\ frame s' = frame s /\
    chain (cluster_ok now) (heap_ s') (connection_info_ s) /\
    (forall b, acked_at (heap_ s') b <-> acked_at (heap_ s) b \/ b = a) /\
    (acked_clusters_ s' = acked_clusters_ s \/
     ~ acked_at (heap_ s) a /\
     exists p, snd <$> last l1 = Some p /\ acked_clusters_ s' = acked_clusters_ s ++ [p]).
Proof.
  intros Hn E H. assert (Hi : connection_info_ s !! length l1 = Some (id, a)).
  { rewrite E, lookup_app_r, Nat.sub_diag by lia. done. }
  destruct (chain_node _ _ _ H _ _ _ Hi) as (c & Hc & (_ & _ & _ & Hok)).
  destruct (first_ack_effect _ _ _ _ _ _ _ Hn E H Hc) as (s1 & h & c1 & E1 & F1 & Hh & Hhc & Hch & Hack & -> & A1).
  unfold ClusterOnAck. rewrite Hc. cbn [mbind option_bind].
  change (if first_ack_ts_ c =? 0 then _ else _) with (first_ack a now c s). rewrite E1. cbn [mbind option_bind].
  rewrite Hh, lookup_insert_eq. cbn [mbind option_bind].
  destruct Hok as [Hp Hs Ha]. unfold clock_ok in Hn.
  destruct (note_ack_ok seq now (c <| first_ack_ts_ := if first_ack_ts_ c =? 0 then now else first_ack_ts_ c |>))
    as (c2 & -> & Hok2 & G1 & G2 & G3 & G4); [done|done|cbn; lia|cbn; lia|cbn; zcases|]. cbn [mbind option_bind].
  eexists. split; [done|]. split; [exact F1|].
  assert (Eh : heap_ (store_cluster a c2 s1) = <[a := c2]> h) by (cbn; by rewrite Hh, insert_insert_eq).
  rewrite Eh. split_and!.
  - eapply chain_update; eauto.
  - intros b. rewrite acked_at_insert, Hack, G1. cbn.
    destruct (decide (b = a)) as [->|]; [|tauto]. split; [by auto|]. intros _. left. split; [done|].
    zcases.
  - destruct A1 as [|(E0 & p & Hl & A1)]; [by left|]. right. split; [|eauto].
    intros (x & Hx & ?). congruence.
Qed.

(** * The invariant *)

(** The rounds that an acknowledgement of packet [next] or later can name. *)
Definition pending (next : Z) (s : MyBbrSender) (r : Z) : Prop :=
  exists pn, next <= pn /\ seq_round_map_ s !! pn = Some r.

Record clusters_ok (clock last_sent next : Z) (s : MyBbrSender) : Prop := {
  cl_chain : chain (cluster_ok clock) (heap_ s) (connection_info_ s);
  cl_fresh : forall a, a ∈ (connection_info_ s).*2 -> a < next_address_ s;
  cl_rounds : forall p, p ∈ connection_info_ s -> p.1 <= round_trip_count_ s;
  cl_sent : forall pn r, seq_round_map_ s !! pn = Some r -> pn <= last_sent /\ r <= round_trip_count_ s;
  cl_mono : forall pn pn' r r', seq_round_map_ s !! pn = Some r -> seq_round_map_ s !! pn' = Some r' ->
              pn <= pn' -> r <= r';
  cl_frontier : frontier (heap_ s) (connection_info_ s) (acked_clusters_ s) (pending next s);
}.

(** What the control part of the handlers leaves alone. *)
Definition store (s : MyBbrSender) :=
  (connection_info_ s, seq_round_map_ s, acked_clusters_ s, heap_ s, next_address_ s, last_ack_seq_ s).

Lemma clusters_ok_mono clock clock' last_sent next next' s s' :
  store s' = store s -> clock <= clock' -> next <= next' -> round_trip_count_ s <= round_trip_count_ s' ->
  clusters_ok clock last_sent next s -> clusters_ok clock' last_sent next' s'.
Proof.
  unfold store. intros [= E1 E2 E3 E4 E5 _] Hc Hn Hr [H1 H2 H3 H4 H5 H6].
  split; rewrite ?E1, ?E2, ?E3, ?E4, ?E5; try done.
  - eapply chain_impl; [|exact H1]. intros c. by apply cluster_ok_later.
  - intros p Hp. specialize (H3 _ Hp). lia.
  - intros pn r Hp. specialize (H4 _ _ Hp). lia.
  - eapply frontier_mono; [done| |exact H6]. intros r (pn & ? & Hp). rewrite E2 in Hp. exists pn. split; [lia|done].
Qed.

(** The memory is untouched and the round advances by at most [k]. *)
Definition quiet (k : Z) (s s' : MyBbrSender) : Prop :=
  store s' = store s /\
  (0 <= round_trip_count_ s < 2 ^ 63 -> round_trip_count_ s <= round_trip_count_ s' <= round_trip_count_ s + k).

Lemma quiet_eq s s' : store s' = store s -> round_trip_count_ s' = round_trip_count_ s -> quiet 0 s s'.
Proof. intros E1 E2. split; [done|lia]. Qed.

Lemma UpdateRtt_quiet now pn s : quiet 0 s (UpdateRtt now pn s).
Proof.
  unfold UpdateRtt. destruct (SentMap.find pn (seq_ts_map_ s)); [|by apply quiet_eq].
  cbv zeta. destruct (global_min_rtt_ s =? 0); destruct (_ <? global_min_rtt_ _); destruct (min_rtt_ _ =? 0);
    repeat case_match; by apply quiet_eq.
Qed.

Lemma next_round s : 0 <= round_trip_count_ s < 2 ^ 63 -> u64 (round_trip_count_ s + 1) = round_trip_count_ s + 1.
Proof. intros H. apply wrap_small. unfold fits. lia. Qed.

Lemma EnterProbeBandwidthMode_quiet now s : quiet 1 s (EnterProbeBandwidthMode now s).
Proof.
  unfold EnterProbeBandwidthMode. case_bool_decide; [split; [done|lia]|]. cbv zeta beta iota delta [RandUint64].
  destruct (1 <=? _); (split; [done|intros Hr]); cbn -[wrap Z.modulo gain_at]; rewrite next_round by done; lia.
Qed.

Lemma UpdateGainCyclePhase_quiet now s : quiet 1 s (UpdateGainCyclePhase now s).
Proof.
  unfold UpdateGainCyclePhase. cbv zeta. destruct (_ <? time_sub _ _); [|split; [done|lia]].
  split; [done|intros Hr]. cbn -[wrap Z.modulo gain_at]. rewrite next_round by done. lia.
Qed.

Lemma quiet_trans k k' s1 s2 s3 :
  0 <= k -> quiet k s1 s2 -> round_trip_count_ s1 + k < 2 ^ 63 -> quiet k' s2 s3 -> quiet (k + k') s1 s3.
Proof. intros Hk [E1 H1] Hb [E2 H2]. split; [congruence|]. intros Hr. specialize (H1 Hr). lia. Qed.

Lemma maybe_exit_probe_rtt_quiet now s : quiet 1 s (maybe_exit_probe_rtt now s).
Proof.
  unfold maybe_exit_probe_rtt. cbv zeta.
  assert (forall x, store x = store s -> round_trip_count_ x = round_trip_count_ s ->
            quiet 1 s (EnterProbeBandwidthMode now x)) as Henter.
  { intros x E1 E2. destruct (EnterProbeBandwidthMode_quiet now x) as [F1 F2]. rewrite E2 in F2.
    split; [congruence|done]. }
  destruct (exit_probe_rtt_at_ s =? 0); (destruct ((_ <? now) || _); [|split; [done|cbn; lia]]);
    destruct (min_rtt_ _ =? 0); by apply Henter.
Qed.

Lemma CalculatePacingRate_quiet s : quiet 0 s (CalculatePacingRate s).
Proof.
  unfold CalculatePacingRate. cbv zeta. destruct (mode_ s) eqn:E; repeat case_bool_decide; try congruence;
    repeat case_match; by apply quiet_eq.
Qed.

(** * The handlers *)

(** Entering PROBE_RTT deletes every cluster and forgets every pointer to one. *)
Lemma enter_probe_rtt_ok clock last_sent next s :
  clusters_ok clock last_sent next s ->
  exists s', enter_probe_rtt s = Some s' /\ clusters_ok clock last_sent next s' /\
    last_ack_seq_ s' = last_ack_seq_ s /\ round_trip_count_ s' = 0 /\ acked_clusters_ s' = [].
Proof.
  intros H. pose proof (chain_delete _ _ (cl_chain _ _ _ _ H)) as Hd.
  unfold enter_probe_rtt, ClusterInfoClear. cbv zeta.
  destruct (negb _ && _); cbn -[delete_clusters bandwidth_mul Reset]; rewrite Hd;
    eexists; (split; [done|]); (split; [|done]).
  all: split; cbn; try (intros ? H0; by apply not_elem_of_nil in H0); try done; [apply chain_nil|].
  all: apply frontier_none; [done|]; intros ? H0; by apply not_elem_of_nil in H0.
Qed.

Lemma MaybeEnterOrExitProbeRtt_ok clock last_sent next now expired s :
  clusters_ok clock last_sent next s -> 0 <= round_trip_count_ s < 2 ^ 62 ->
  exists s', MaybeEnterOrExitProbeRtt now expired s = Some s' /\ clusters_ok clock last_sent next s' /\
    last_ack_seq_ s' = last_ack_seq_ s /\ 0 <= round_trip_count_ s' <= round_trip_count_ s + 1 /\
    (length (acked_clusters_ s') <= length (acked_clusters_ s))%nat.
Proof.
  intros H Hr. unfold MaybeEnterOrExitProbeRtt.
  assert (exists s1, (if expired && negb (in_mode PROBE_RTT s) then enter_probe_rtt s else Some s) = Some s1 /\
            clusters_ok clock last_sent next s1 /\ last_ack_seq_ s1 = last_ack_seq_ s /\
            0 <= round_trip_count_ s1 <= round_trip_count_ s /\
            (length (acked_clusters_ s1) <= length (acked_clusters_ s))%nat)
    as (s1 & -> & H1 & E1 & R1 & L1).
  { destruct (_ && _); [|exists s; split_and!; (done || lia)].
    destruct (enter_probe_rtt_ok _ _ _ _ H) as (s1 & E & H1 & El & Er & Ea).
    exists s1. rewrite Er, Ea. split_and!; [exact E|exact H1|exact El|lia|lia|cbn; lia]. }
  cbn [mbind option_bind]. eexists. split; [done|].
  destruct (in_mode PROBE_RTT s1); [|split_and!; (done || lia)].
  destruct (maybe_exit_probe_rtt_quiet now s1) as [Q1 Q2]. pose proof Q1 as Q. injection Q as _ _ Ea _ _ El.
  specialize (Q2 ltac:(lia)).
  split_and!; [|congruence|lia|lia|by rewrite Ea]. apply (clusters_ok_mono clock clock last_sent next next s1); [exact Q1|lia..|done].
Qed.

(** The acknowledgement reaches its cluster, if that is still there. *)
Lemma ack_cluster_ok clock last_sent pn s :
  clock_ok clock -> clusters_ok clock last_sent pn s ->
  exists s', ack_cluster clock pn s = Some s' /\ clusters_ok clock last_sent (pn + 1) s' /\
    last_ack_seq_ s' = last_ack_seq_ s /\ round_trip_count_ s' = round_trip_count_ s /\
    (length (acked_clusters_ s') <= S (length (acked_clusters_ s)))%nat.
Proof.
  intros Hc H. unfold ack_cluster.
  destruct (seq_round_map_ s !! pn) as [r|] eqn:Em.
  2:{ exists s. split_and!; try done; [|lia]. apply (clusters_ok_mono clock clock last_sent pn _ s); (done || lia). }
  set (s1 := s <| seq_round_map_ := _ |>).
  assert (Hdel : forall pn' r', seq_round_map_ s1 !! pn' = Some r' -> pn' <> pn /\ seq_round_map_ s !! pn' = Some r').
  { intros pn' r' E. subst s1. cbn in E. apply lookup_delete_Some in E as [? ?]. auto. }
  assert (Hpend : forall r', pending (pn + 1) s1 r' -> pending pn s r' /\ r <= r').
  { intros r' (pn' & Hle & [_ Hpn']%Hdel). split; [exists pn'; split; [lia|done]|].
    eapply (cl_mono _ _ _ _ H); [exact Em|exact Hpn'|lia]. }
  destruct H as [H1 H2 H3 H4 H5 H6].
  change (connection_info_ s1) with (connection_info_ s).
  destruct (SentMap.find r (connection_info_ s)) as [a|] eqn:Ef.
  2:{ exists s1. split_and!; try done; [|subst s1; cbn; lia]. split; try done.
      - intros pn' r' [_ ?]%Hdel. eauto.
      - intros pn1 pn2 r1 r2 [_ ?]%Hdel [_ ?]%Hdel. eauto.
      - eapply frontier_mono; [done| |exact H6]. intros r' Hr'. by apply Hpend. }
  apply find_Some, list_elem_of_split in Ef as (l1 & l2 & El).
  destruct (ClusterOnAck_effect l1 r a l2 pn clock s1) as (s2 & E2 & F2 & C2 & A2 & K2); [done|done|done|].
  rewrite E2. injection F2 as F1 F2 F3 F4 F5. exists s2. split_and!; [done| |done|done|].
  - split; rewrite ?F1, ?F2, ?F3, ?F5; try done.
    + intros pn' r' [_ ?]%Hdel. eauto.
    + intros pn1 pn2 r1 r2 [_ ?]%Hdel [_ ?]%Hdel. eauto.
    + assert (Hp2 : forall r', pending (pn + 1) s2 r' -> pending pn s r' /\ r <= r').
      { intros r' (pn' & ? & Hp'). rewrite F2 in Hp'. apply Hpend. by exists pn'. }
      change (connection_info_ s1) with (connection_info_ s) in *. change (heap_ s1) with (heap_ s) in *.
      change (acked_clusters_ s1) with (acked_clusters_ s) in *.
      destruct (acked_at_dec (heap_ s) a) as [Hy|Hno].
      * destruct K2 as [->|[? _]]; [|done].
        apply (frontier_mono (heap_ s) _ _ _ (pending pn s)); [|intros r' Hr'; by apply Hp2|exact H6]. intros b. rewrite A2.
        split; [intros [?| ->]; done|by auto].
      * rewrite El in *. apply (frontier_advance (heap_ s) _ l1 r a l2 (acked_clusters_ s) _ (pending pn s)); [apply H1|done|by exists pn|done| | |..|exact H6].
        -- intros r' Hr'. by apply Hp2.
        -- by eapply chain_NoDup.
        -- destruct K2 as [?|[_ ?]]; auto.
  - change (acked_clusters_ s1) with (acked_clusters_ s) in K2.
    destruct K2 as [->|(_ & p & _ & ->)]; [lia|]. rewrite length_app. cbn. lia.
Qed.

(** ** The average over the reported clusters *)

Lemma count_cluster_bounds now c t :
  clock_ok now -> cluster_ok now c -> 0 <= acc_sent_delta t < 2 ^ 52 -> 0 <= acc_ack_delta t < 2 ^ 52 ->
  0 <= acc_sent_delta (count_cluster c t) <= acc_sent_delta t + 2 ^ 47 /\
  0 <= acc_ack_delta (count_cluster c t) <= acc_ack_delta t + 2 ^ 47.
Proof.
  unfold clock_ok. intros Hn [_ Hs Ha] Bs Ba.
  assert (Hd : forall t1 t2, 0 <= t2 <= t1 -> t1 < 2 ^ 56 -> 0 <= u64 (ToMilliseconds (time_sub t1 t2)) < 2 ^ 47).
  { intros t1 t2 ? ?. unfold ToMilliseconds, time_sub. rewrite swrap_small by (unfold sfits; lia).
    rewrite Z.quot_div_nonneg by lia. rewrite wrap_small; unfold fits; dlia. }
  assert (D1 := Hd (last_send_ts_ c) (first_send_ts_ c)). assert (D2 := Hd (last_ack_ts_ c) (first_ack_ts_ c)).
  unfold count_cluster, GetSentInfo, GetAckedInfo.
  set (ds := u64 (ToMilliseconds (time_sub (last_send_ts_ c) _))) in *.
  set (da := u64 (ToMilliseconds (time_sub (last_ack_ts_ c) _))) in *.
  specialize (D1 ltac:(lia) ltac:(lia)). specialize (D2 ltac:(lia) ltac:(lia)).
  destruct (negb (ds =? 0)), (negb (da =? 0)); cbn -[Z.pow wrap];
    rewrite ?(wrap_small 64) by (unfold fits; lia); lia.
Qed.

Lemma sum_clusters_defined now h acked t :
  clock_ok now -> (forall a, a ∈ acked -> exists c, h !! a = Some c /\ cluster_ok now c) ->
  0 <= acc_sent_delta t -> acc_sent_delta t + Z.of_nat (length acked) * 2 ^ 47 < 2 ^ 52 ->
  0 <= acc_ack_delta t -> acc_ack_delta t + Z.of_nat (length acked) * 2 ^ 47 < 2 ^ 52 ->
  exists t', sum_clusters h acked t = Some t' /\
    0 <= acc_sent_delta t' < 2 ^ 52 /\ 0 <= acc_ack_delta t' < 2 ^ 52.
Proof.
  intros Hn. revert t. induction acked as [|a acked IH]; intros t Hl H1 H2 H3 H4; cbn [sum_clusters length] in *.
  - exists t. split; [done|lia].
  - destruct (Hl a) as (c & Hc & Hok); [left|]. rewrite Hc. cbn [mbind option_bind].
    destruct (count_cluster_bounds now c t) as [B1 B2]; [done|done|lia|lia|].
    apply IH; [intros b Hb; apply Hl; by right|lia..].
Qed.

Lemma rate_over_ms bytes ms : 0 < ms < 2 ^ 52 -> is_Some (FromBytesAndTimeDelta bytes (FromMilliseconds ms)).
Proof.
  intros H. unfold FromMilliseconds, FromBytesAndTimeDelta. rewrite u64_swrap.
  destruct (Z.eqb_spec (u64 (ms * 1000)) 0) as [E|]; [|eauto].
  rewrite wrap_small in E by (unfold fits; lia). lia.
Qed.

Lemma update_average_ok clock last_sent next s :
  clock_ok clock -> clusters_ok clock last_sent next s -> (length (acked_clusters_ s) <= 10)%nat ->
  exists s', update_average s = Some s' /\ quiet 0 s s'.
Proof.
  intros Hc H Hl. unfold update_average.
  destruct (sum_clusters_defined clock (heap_ s) (acked_clusters_ s) (mkTotals 0 0 0 0 0)) as (t & -> & B1 & B2);
    [done| |cbn; lia..|].
  { intros a Ha. eapply chain_live; [apply H|]. eapply frontier_live; [apply H|done]. }
  cbn [mbind option_bind].
  assert (Hrate : forall bytes ms, 0 <= ms < 2 ^ 52 ->
    is_Some (if 0 <? ms then FromBytesAndTimeDelta bytes (FromMilliseconds ms) else Some BandwidthInfinite)).
  { intros bytes ms ?. destruct (Z.ltb_spec 0 ms); [apply rate_over_ms; lia|eauto]. }
  destruct (Hrate (total_sent_bytes t) _ B1) as [r1 ->]. cbn [mbind option_bind].
  destruct (Hrate (total_acked_bytes t) _ B2) as [r2 ->]. cbn [mbind option_bind].
  eexists. split; [done|]. by apply quiet_eq.
Qed.

(** Dropping the oldest reported cluster. *)
Lemma drop_one_ok clock last_sent next s :
  clusters_ok clock last_sent next s -> acked_clusters_ s <> [] ->
  exists s', drop_stale 1 s = Some s' /\ clusters_ok clock last_sent next s' /\
    last_ack_seq_ s' = last_ack_seq_ s /\ round_trip_count_ s' = round_trip_count_ s /\
    acked_clusters_ s' = tail (acked_clusters_ s).
Proof.
  intros [H1 H2 H3 H4 H5 H6] Hne. cbn [drop_stale].
  destruct (acked_clusters_ s) as [|a acked] eqn:Ea; [done|]. cbn [head mbind option_bind].
  destruct (frontier_drop _ _ _ _ _ H6) as (l1 & id & l2 & El & Hf).
  destruct (chain_id _ _ id a H1) as (c & Hc & Hid).
  { rewrite El. apply elem_of_app. left. apply elem_of_app. right. left. }
  rewrite Hc. cbn [mbind option_bind]. rewrite Hid. unfold RemoveClusterLE. cbn [connection_info_ heap_].
  pose proof (chain_ascending _ _ _ H1) as Hs. rewrite El in Hs. apply ascending_app in Hs as (Hs1 & _ & Hs).
  apply ascending_app in Hs1 as (_ & _ & Hs1).
  destruct (chain_remove_le (P := cluster_ok clock) (heap_ s) (l1 ++ [(id, a)]) l2 id) as (h' & Er & C' & S').
  { auto. } { by rewrite <- El. }
  { intros p [Hp| ->%list_elem_of_singleton]%elem_of_app; [|done]. apply Z.lt_le_incl, (Hs1 p (id, a)); [done|left]. }
  { intros p Hp. apply (Hs (id, a) p); [|done]. apply elem_of_app. right. left. }
  change (remove_le id (connection_info_ _) (heap_ _)) with (remove_le id (connection_info_ s) (heap_ s)).
  rewrite El, Er. cbn [mbind option_bind]. eexists. split; [done|]. split; [|done].
  assert (Hin : forall p, p ∈ l2 -> p ∈ connection_info_ s) by (intros p ?; rewrite El; apply elem_of_app; by right).
  split; cbn; rewrite ?El; try done.
  - intros b Hb. apply H2. rewrite El, fmap_app. apply elem_of_app. by right.
  - intros p Hp. auto.
  - apply Hf; [done|]. intros b (d & ? & _)%(chain_live _ _ _ C'). eauto.
Qed.

(** ** Acknowledgements *)

(** Between two calls. *)
Record safe (clock last_sent : Z) (s : MyBbrSender) : Prop := {
  sf_clusters : clusters_ok clock last_sent (last_ack_seq_ s + 1) s;
  sf_window : (length (acked_clusters_ s) <= 9)%nat;
  sf_counter : 0 <= round_trip_count_ s <= 3 * last_ack_seq_ s /\ last_ack_seq_ s < 2 ^ 60;
}.

(** The control part of [OnAck] before the clusters are looked at. *)
Definition ack_phases (now pn : Z) (s : MyBbrSender) : MyBbrSender :=
  let s := s <| last_ack_seq_ := pn |> in
  let s := UpdateRtt now pn s in
  let s := if in_mode START_UP s then EnterProbeBandwidthMode now s else s in
  if in_mode PROBE_BW s then UpdateGainCyclePhase now s else s.

Lemma quiet_if (b : bool) k s s' : 0 <= k -> quiet k s s' -> quiet k s (if b then s' else s).
Proof. intros Hk H. destruct b; [done|]. split; [done|lia]. Qed.

Lemma ack_phases_quiet now pn s :
  0 <= round_trip_count_ s < 2 ^ 62 -> quiet 2 (s <| last_ack_seq_ := pn |>) (ack_phases now pn s).
Proof.
  intros Hr. unfold ack_phases. cbv zeta. pose proof (UpdateRtt_quiet now pn (s <| last_ack_seq_ := pn |>)) as Q.
  set (s1 := s <| last_ack_seq_ := pn |>) in *. assert (Hr1 : 0 <= round_trip_count_ s1 < 2 ^ 62) by done.
  clearbody s1. set (s2 := UpdateRtt now pn s1) in *. clearbody s2. destruct Q as [E Hu]. specialize (Hu ltac:(lia)).
  apply (quiet_trans 0 (1 + 1) s1 s2); [lia|by split|lia|].
  eapply quiet_trans; [|apply quiet_if; [lia|apply EnterProbeBandwidthMode_quiet]|lia|]; [lia|].
  apply quiet_if; [lia|apply UpdateGainCyclePhase_quiet].
Qed.

Lemma OnAck_safe clock last_sent now pn s :
  safe clock last_sent s -> clock_ok now -> clock <= now -> pn < 2 ^ 60 ->
  exists s', OnAck now pn s = Some s' /\ safe now last_sent s'.
Proof.
  intros [Hcl Hw Hct] Hn Hle Hpn. unfold OnAck. destruct (Z.leb_spec pn (last_ack_seq_ s)) as [Hold|Hnew].
  { exists s. split; [done|]. split; [|done|done].
    apply (clusters_ok_mono clock now last_sent (last_ack_seq_ s + 1) _ s); (done || lia). }
  cbv zeta. change (if in_mode PROBE_BW _ then _ else _) with (ack_phases now pn s).
  destruct (ack_phases_quiet now pn s) as [Q1 Q2]; [lia|]. set (s1 := ack_phases now pn s) in *. clearbody s1.
  specialize (Q2 ltac:(cbn; lia)). cbn in Q2. pose proof Q1 as Q. injection Q as _ _ E3 _ _ E6.
  assert (H1 : clusters_ok now last_sent pn s1).
  { apply (clusters_ok_mono now now last_sent pn pn (s <| last_ack_seq_ := pn |>)); [done|lia|lia|cbn; lia|].
    destruct (clusters_ok_mono clock now last_sent (last_ack_seq_ s + 1) pn s s); (done || lia). }
  destruct (MaybeEnterOrExitProbeRtt_ok now last_sent pn now
              (time_add (min_rtt_timestamp_ s1) kMinRttExpiry <? now) s1 H1 ltac:(lia))
    as (s2 & -> & H2 & L2 & R2 & A2). cbn [mbind option_bind].
  destruct (ack_cluster_ok now last_sent pn s2 Hn H2) as (s3 & -> & H3 & L3 & R3 & A3). cbn [mbind option_bind].
  destruct (CalculatePacingRate_quiet s3) as [Q4 R4]. set (s4 := CalculatePacingRate s3) in *. clearbody s4.
  specialize (R4 ltac:(lia)). pose proof Q4 as Q. injection Q as _ _ E4 _ _ E4'.
  assert (H4 : clusters_ok now last_sent (pn + 1) s4).
  { apply (clusters_ok_mono now now last_sent (pn + 1) _ s3); (done || lia). }
  rewrite E3 in A2. cbn in A2, E6. unfold kAverageAckRateWindowSize. rewrite <- E4.
  destruct (Z.leb_spec 10 (Z.of_nat (length (acked_clusters_ s4)))) as [Hten|Hfew].
  2:{ exists s4. split; [done|]. split; [|lia|lia]. replace (last_ack_seq_ s4) with pn by congruence. done. }
  rewrite E4 in *. assert (length (acked_clusters_ s3) = 10%nat) as E10 by lia.
  destruct (update_average_ok now last_sent (pn + 1) s4) as (s5 & -> & Q5 & R5); [done|done|rewrite E4; lia|].
  specialize (R5 ltac:(lia)). pose proof Q5 as Q. injection Q as _ _ E5 _ _ E5'. cbn [mbind option_bind].
  rewrite E10. change (Z.to_nat _) with 1%nat.
  destruct (drop_one_ok now last_sent (pn + 1) s5) as (s6 & -> & H6 & L6 & R6 & A6).
  { apply (clusters_ok_mono now now last_sent (pn + 1) _ s4); (done || lia). }
  { rewrite E5, E4. by destruct (acked_clusters_ s3). }
  exists s6. split; [done|]. split.
  - replace (last_ack_seq_ s6) with pn by congruence. done.
  - rewrite A6, E5, E4. destruct (acked_clusters_ s3); cbn in *; lia.
  - replace (last_ack_seq_ s6) with pn by congruence. lia.
Qed.

(** ** Sending *)

Lemma frontier_pending h l acked (pending pending' : Z -> Prop) :
  (forall r, pending' r -> pending r \/ forall p, p ∈ l -> p.1 <= r) ->
  frontier h l acked pending -> frontier h l acked pending'.
Proof.
  intros Hp [->|f x back -> Hx Hb Hsub Hr]; [by apply frontier_none|].
  eapply frontier_at; [done..|]. intros r [|H]%Hp; [auto|]. apply H, elem_of_app. right. left.
Qed.

Lemma link_last_overwrite now h l a c c' :
  chain (cluster_ok now) h l -> h !! a = None -> <[a := c']> (link_last a c h l) = link_last a c' h l.
Proof.
  intros H Ha. apply map_eq. intros b. rewrite (link_last_lookup _ _ _ _ _ H Ha).
  destruct (decide (b = a)) as [->|Hb]; [by rewrite lookup_insert_eq|].
  rewrite lookup_insert_ne by done. rewrite (link_last_lookup _ _ _ _ _ H Ha). by rewrite decide_False.
Qed.

Lemma next_address_free clock last_sent next s :
  clusters_ok clock last_sent next s -> heap_ s !! next_address_ s = None.
Proof.
  intros H. destruct (heap_ s !! next_address_ s) eqn:E; [|done].
  pose proof (chain_owns _ _ _ (cl_chain _ _ _ _ H) (next_address_ s) ltac:(eauto)) as Hin.
  apply (cl_fresh _ _ _ _ H) in Hin. lia.
Qed.

(** The cluster [new_cluster] makes, and what becomes of the state. *)
Definition fresh_cluster (s : MyBbrSender) : SentClusterInfo :=
  (SentClusterInfo_ctor (round_trip_count_ s) (ShouldSendProbePacket s))
    <| prev_ := snd <$> last (connection_info_ s) |>.

Lemma new_cluster_effect clock last_sent next s :
  clusters_ok clock last_sent next s -> (forall p, p ∈ connection_info_ s -> p.1 < round_trip_count_ s) ->
  exists s', new_cluster s = Some s' /\
    heap_ s' = link_last (next_address_ s) (fresh_cluster s) (heap_ s) (connection_info_ s) /\
    connection_info_ s' = connection_info_ s ++ [(round_trip_count_ s, next_address_ s)] /\
    seq_round_map_ s' = seq_round_map_ s /\ acked_clusters_ s' = acked_clusters_ s /\
    next_address_ s' = next_address_ s + 1 /\ last_ack_seq_ s' = last_ack_seq_ s /\
    round_trip_count_ s' = round_trip_count_ s.
Proof.
  intros H Hk. pose proof (cl_chain _ _ _ _ H) as Hch. unfold new_cluster. cbv zeta.
  change ((SentClusterInfo_ctor _ _) <| prev_ := _ |>) with (fresh_cluster s).
  unfold link_last. rewrite last_lookup. destruct (connection_info_ s !! _) as [[id p]|] eqn:E; cbn [fmap option_fmap option_map snd].
  - destruct (chain_node _ _ _ Hch _ _ _ E) as (d & Hd & _). rewrite Hd.
    assert (next_address_ s <> p).
    { pose proof (cl_fresh _ _ _ _ H p). assert (p < next_address_ s); [|lia]. apply H0.
      apply list_elem_of_fmap. exists (id, p). split; [done|]. by eapply list_elem_of_lookup_2. }
    cbn -[fresh_cluster SentMap.insert lookup insert]. rewrite lookup_insert_ne, Hd by done.
    cbn -[fresh_cluster SentMap.insert lookup insert]. eexists. split; [done|].
    cbn -[fresh_cluster SentMap.insert lookup insert]. split_and!; try done. by apply insert_last.
  - cbn -[fresh_cluster SentMap.insert lookup insert]. eexists. split; [done|].
    cbn -[fresh_cluster SentMap.insert lookup insert]. split_and!; try done. by apply insert_last.
Qed.

(** Noting the round of a packet sent after all others. *)
Lemma note_round_ok clock last_sent next pn s s' :
  last_sent < pn ->
  clusters_ok clock last_sent next s -> connection_info_ s' = connection_info_ s -> heap_ s' = heap_ s ->
  acked_clusters_ s' = acked_clusters_ s -> next_address_ s' = next_address_ s ->
  round_trip_count_ s' = round_trip_count_ s ->
  seq_round_map_ s' = <[pn := round_trip_count_ s]> (seq_round_map_ s) ->
  clusters_ok clock pn next s'.
Proof.
  intros Hpn [H1 H2 H3 H4 H5 H6] E1 E2 E3 E4 E5 E6. split; rewrite ?E1, ?E2, ?E3, ?E4, ?E5; try done.
  - intros pn' r. rewrite E6. intros [[<- <-]|[_ Hp]]%lookup_insert_Some; [lia|]. specialize (H4 _ _ Hp). lia.
  - intros p1 p2 r1 r2. rewrite E6.
    intros [[<- <-]|[_ Hp1]]%lookup_insert_Some [[<- <-]|[_ Hp2]]%lookup_insert_Some Hle; [lia| | |eauto].
    + specialize (H4 _ _ Hp2). lia.
    + specialize (H4 _ _ Hp1). lia.
  - eapply frontier_pending; [|exact H6]. intros r (p & Hle & Hp). rewrite E6 in Hp.
    apply lookup_insert_Some in Hp as [[<- <-]|[_ Hp]]; [by right|]. left. by exists p.
Qed.

(** A packet put in a cluster that is there. *)
Lemma old_cluster_ok clock last_sent next id a c pn bytes s :
  clock_ok clock -> clusters_ok clock last_sent next s -> (id, a) ∈ connection_info_ s -> heap_ s !! a = Some c ->
  clusters_ok clock last_sent next (store_cluster a (SentClusterInfo.OnPacketSent clock pn bytes c) s).
Proof.
  intros Hc [H1 H2 H3 H4 H5 H6] [i Hi]%list_elem_of_lookup Ha.
  destruct (chain_node _ _ _ H1 _ _ _ Hi) as (c' & Hc' & (_ & _ & _ & Hok)). assert (c' = c) as -> by congruence.
  set (c' := SentClusterInfo.OnPacketSent clock pn bytes c).
  assert (cluster_id_ c' = cluster_id_ c /\ prev_ c' = prev_ c /\ next_ c' = next_ c /\
          first_ack_ts_ c' = first_ack_ts_ c) as (E1 & E2 & E3 & E4).
  { subst c'. unfold SentClusterInfo.OnPacketSent. by destruct (_ =? 0). }
  split; try done.
  - eapply chain_update; eauto. apply sent_ok; [done|done|]. intros E. by destruct Hok.
  - eapply frontier_mono; [|intros r Hr; exact Hr|exact H6]. intros b. cbn. rewrite acked_at_insert, E4.
    destruct (decide (b = a)) as [->|]; [|tauto]. split.
    + intros [[_ ?]|[? _]]; [by exists c|done].
    + intros (d & Hd & ?). left. split; [done|congruence].
Qed.

(** A packet put in a new cluster. *)
Lemma new_cluster_ok clock last_sent next pn bytes s s1 :
  clock_ok clock -> clusters_ok clock last_sent next s ->
  (forall p, p ∈ connection_info_ s -> p.1 < round_trip_count_ s) -> new_cluster s = Some s1 ->
  clusters_ok clock last_sent next
    (store_cluster (next_address_ s) (SentClusterInfo.OnPacketSent clock pn bytes (fresh_cluster s)) s1).
Proof.
  intros Hc H Hk E. destruct (new_cluster_effect _ _ _ _ H Hk) as (s1' & E' & F1 & F2 & F3 & F4 & F5 & F6 & F7).
  assert (s1' = s1) as -> by congruence. pose proof (next_address_free _ _ _ _ H) as Hnone.
  destruct H as [H1 H2 H3 H4 H5 H6].
  set (c := SentClusterInfo.OnPacketSent clock pn bytes (fresh_cluster s)).
  assert (Hh : heap_ (store_cluster (next_address_ s) c s1) =
               link_last (next_address_ s) c (heap_ s) (connection_info_ s)).
  { cbn. rewrite F1. by eapply link_last_overwrite. }
  assert (Hlook : forall b, b <> next_address_ s ->
    acked_at (link_last (next_address_ s) c (heap_ s) (connection_info_ s)) b <-> acked_at (heap_ s) b).
  { intros b Hb. unfold acked_at. rewrite (link_last_lookup _ _ _ _ _ H1 Hnone), decide_False by done.
    case_decide; [|done]. destruct (heap_ s !! b) as [d|]; cbn; [|done].
    split; intros (x & [= <-] & Hx); eexists; (split; [done|]); exact Hx. }
  split; rewrite ?Hh; cbn [connection_info_ seq_round_map_ acked_clusters_ next_address_ round_trip_count_ store_cluster];
    change (connection_info_ (store_cluster _ _ s1)) with (connection_info_ s1);
    change (next_address_ (store_cluster _ _ s1)) with (next_address_ s1);
    change (seq_round_map_ (store_cluster _ _ s1)) with (seq_round_map_ s1);
    change (acked_clusters_ (store_cluster _ _ s1)) with (acked_clusters_ s1);
    change (round_trip_count_ (store_cluster _ _ s1)) with (round_trip_count_ s1);
    rewrite ?F2, ?F3, ?F4, ?F5, ?F7; try done.
  - apply chain_snoc; try done; auto. by apply sent_ok.
  - intros b. rewrite fmap_app. intros [Hb| ->%list_elem_of_singleton]%elem_of_app; [|cbn; lia].
    specialize (H2 _ Hb). lia.
  - intros p [Hp| ->%list_elem_of_singleton]%elem_of_app; [|cbn; lia]. auto.
  - apply (frontier_snoc (heap_ s) _ _ _ (pending next s)); [| | |done|done].
    + intros b Hb. apply Hlook. specialize (H2 _ Hb). lia.
    + intros (d & Hd & Hne). rewrite (link_last_lookup _ _ _ _ _ H1 Hnone), decide_True in Hd by done.
      injection Hd as <-. by apply Hne.
    + intros r (p & ? & Hp). left. exists p. split; [done|]. cbn in Hp. congruence.
Qed.

Lemma AddPacketInfoSampler_ok clock last_sent next pn bytes s :
  clock_ok clock -> last_sent < pn -> clusters_ok clock last_sent next s ->
  exists s', AddPacketInfoSampler clock pn bytes s = Some s' /\ clusters_ok clock pn next s' /\
    last_ack_seq_ s' = last_ack_seq_ s /\ round_trip_count_ s' = round_trip_count_ s /\
    acked_clusters_ s' = acked_clusters_ s.
Proof.
  intros Hc Hpn H. unfold AddPacketInfoSampler.
  assert (Hmap : seq_round_map_ s !! pn = None).
  { destruct (seq_round_map_ s !! pn) eqn:E; [|done]. apply (cl_sent _ _ _ _ H) in E. lia. }
  destruct (SentMap.find (round_trip_count_ s) (connection_info_ s)) as [a|] eqn:Ef; cbn [mbind option_bind].
  - rewrite Ef. cbn [mbind option_bind]. apply find_Some in Ef.
    destruct (chain_id _ _ _ _ (cl_chain _ _ _ _ H) Ef) as (c & Ha & _). rewrite Ha. cbn [mbind option_bind].
    cbn [seq_round_map_ store_cluster]. change (seq_round_map_ (store_cluster _ _ s)) with (seq_round_map_ s).
    rewrite Hmap. eexists. split; [done|]. split; [|done].
    eapply note_round_ok; [done|by eapply old_cluster_ok|done..].
  - assert (Hk : forall p, p ∈ connection_info_ s -> p.1 < round_trip_count_ s).
    { intros p Hp. pose proof (cl_rounds _ _ _ _ H _ Hp). apply find_None in Ef.
      assert (p.1 <> round_trip_count_ s); [|lia]. intros E. apply Ef. rewrite <- E. by apply list_elem_of_fmap_2. }
    destruct (new_cluster_effect _ _ _ _ H Hk) as (s1 & E & F1 & F2 & F3 & F4 & F5 & F6 & F7).
    rewrite E. cbn [mbind option_bind]. rewrite F2, F7, find_last by done. cbn [mbind option_bind].
    rewrite F1, (link_last_lookup _ _ _ _ _ (cl_chain _ _ _ _ H) (next_address_free _ _ _ _ H)), decide_True by done.
    cbn [mbind option_bind]. pose proof (new_cluster_ok _ _ _ pn bytes _ _ Hc H Hk E) as H'.
    set (s2 := store_cluster _ _ s1) in *. change (seq_round_map_ s2) with (seq_round_map_ s1).
    rewrite F3, Hmap. eexists. split; [done|]. split; [|done].
    eapply note_round_ok; [done|exact H'|done..|]. cbn. by rewrite F3.
Qed.

Lemma OnPacketSent_safe clock last_sent now pn bytes s :
  safe clock last_sent s -> clock_ok now -> clock <= now -> last_sent < pn ->
  exists s', OnPacketSent now pn bytes s = Some s' /\ safe now pn s'.
Proof.
  intros [Hcl Hw Hct] Hn Hle Hpn. unfold OnPacketSent. cbv zeta.
  destruct (CalculatePacingRate_quiet (AddSeqAndTimestamp now pn s)) as [Q R].
  set (s1 := CalculatePacingRate _) in *. clearbody s1. cbn in R. specialize (R ltac:(lia)).
  assert (Q' : store s1 = store s) by done. pose proof Q' as Q2. injection Q2 as _ _ Ea _ _ El.
  assert (H1 : clusters_ok now last_sent (last_ack_seq_ s + 1) s1).
  { apply (clusters_ok_mono clock now last_sent (last_ack_seq_ s + 1) _ s); (done || lia). }
  destruct (in_mode PROBE_BW s1).
  - destruct (AddPacketInfoSampler_ok _ _ _ pn bytes _ Hn Hpn H1) as (s2 & -> & H2 & L2 & R2 & A2).
    exists s2. split; [done|]. split; [by rewrite L2, El|by rewrite A2, Ea|lia].
  - exists s1. split; [done|]. split; [|by rewrite Ea|lia]. rewrite El.
    destruct H1 as [K1 K2 K3 K4 K5 K6]. split; try done. intros p r Hp. specialize (K4 _ _ Hp). lia.
Qed.

(** * Runs *)

Inductive Event := Sent (now pn bytes : Z) | Acked (now pn : Z).

Definition handle (e : Event) (s : MyBbrSender) : option MyBbrSender :=
  match e with
  | Sent now pn bytes => OnPacketSent now pn bytes s
  | Acked now pn => OnAck now pn s
  end.

Fixpoint run (es : list Event) (s : MyBbrSender) : option MyBbrSender :=
  match es with
  | [] => Some s
  | e :: es => s ← handle e s; run es s
  end.

(** A run in which time does not go back and packets are numbered in sending order;
    the acknowledgements may come in any order and name any packet. *)
Fixpoint in_order (clock last_sent : Z) (es : list Event) : Prop :=
  match es with
  | [] => True
  | Sent now pn _ :: es => clock_ok now /\ clock <= now /\ last_sent < pn /\ in_order now pn es
  | Acked now pn :: es => clock_ok now /\ clock <= now /\ pn < 2 ^ 60 /\ in_order now last_sent es
  end.

Lemma ctor_safe min_bps observer random clock last_sent :
  safe clock last_sent (MyBbrSender_ctor min_bps observer random).
Proof.
  split; [|cbn; lia|cbn; lia]. split; cbn; try done; try (intros ? H; by apply not_elem_of_nil in H).
  - apply chain_nil.
  - apply frontier_none; [done|]. intros ? H. by apply not_elem_of_nil in H.
Qed.

Lemma run_safe es : forall clock last_sent s,
  safe clock last_sent s -> in_order clock last_sent es ->
  exists clock' last_sent' s', run es s = Some s' /\ safe clock' last_sent' s'.
Proof.
  induction es as [|[now pn bytes|now pn] es IH]; intros clock last_sent s Hs Ho; cbn [run handle in_order] in *.
  - eauto.
  - destruct Ho as (? & ? & ? & Ho). destruct (OnPacketSent_safe clock last_sent now pn bytes s) as (s1 & -> & Hs1); eauto.
  - destruct Ho as (? & ? & ? & Ho). destruct (OnAck_safe clock last_sent now pn s) as (s1 & -> & Hs1); eauto.
Qed.
