(* ===== verification/BbrControl.v ===== *)
(** The gains and the rates of [MyBbrSender], and its cluster's acknowledgement
    bookkeeping against a search through the packets. *)
From stdpp Require Import gmap.
From S2P Require Import Prelude.
From S2P Require Import QuicUnits.
From S2P Require Import WindowedFilter.
From S2P Require Import Sampler.
From S2P Require Import BbrSenderV5.
From S2P Require Import ClusterSender.
From S2P Require Import BbrClusters.
From S2P Require Import BbrSafety.

Import SentClusterInfo MyBbrSender.
Open Scope Z_scope.

(** * Gains *)

(** The gain belongs to the mode, and inside PROBE_BW to the phase of the cycle; the
    recovery rate is a bandwidth. *)
Definition gain_ok (s : MyBbrSender) : Prop :=
  bandwidth_ok (recover_rate_ s) /\
  match mode_ s with
  | PROBE_BW => 0 <= cycle_current_offset_ s < kGainCycleLength /\
                pacing_gain_ s = gain_at (cycle_current_offset_ s)
  | _ => pacing_gain_ s = f32_of_Z 1
  end.

Definition phase (s : MyBbrSender) := (mode_ s, pacing_gain_ s, cycle_current_offset_ s, recover_rate_ s).

Lemma gain_ok_phase s s' : phase s' = phase s -> gain_ok s -> gain_ok s'.
Proof. unfold phase, gain_ok. by intros [= -> -> -> ->]. Qed.

Lemma EnterProbeBandwidthMode_gain now s : gain_ok s -> gain_ok (EnterProbeBandwidthMode now s).
Proof.
  intros H. unfold EnterProbeBandwidthMode. case_bool_decide; [done|].
  cbv zeta beta iota delta [RandUint64]. cbn -[Z.modulo gain_at wrap].
  set (o := random_ s (random_calls_ s) mod _).
  assert (0 <= o < 7) by (apply Z.mod_pos_bound; unfold kGainCycleLength; lia).
  destruct (Z.leb_spec 1 o); unfold gain_ok; cbn -[gain_at wrap]; unfold kGainCycleLength; (split; [apply H|split; [lia|done]]).
Qed.

Lemma UpdateGainCyclePhase_gain now s :
  mode_ s = PROBE_BW -> gain_ok s -> gain_ok (UpdateGainCyclePhase now s).
Proof.
  intros Hm H. unfold UpdateGainCyclePhase. cbv zeta. destruct (_ <? time_sub _ _); [|done].
  unfold gain_ok. cbn -[gain_at wrap Z.modulo]. rewrite Hm. split; [apply H|]. split; [|done].
  apply Z.mod_pos_bound. unfold kGainCycleLength. lia.
Qed.

Lemma UpdateRtt_phase now pn s : phase (UpdateRtt now pn s) = phase s.
Proof.
  unfold UpdateRtt. destruct (SentMap.find pn (seq_ts_map_ s)); [|done].
  cbv zeta. destruct (global_min_rtt_ s =? 0); destruct (_ <? global_min_rtt_ _); destruct (min_rtt_ _ =? 0);
    by repeat case_match.
Qed.

Lemma ack_phases_gain now pn s : gain_ok s -> gain_ok (ack_phases now pn s).
Proof.
  intros H. unfold ack_phases. cbv zeta. set (s1 := UpdateRtt _ _ _).
  assert (H1 : gain_ok s1) by (eapply gain_ok_phase; [apply UpdateRtt_phase|done]). clearbody s1.
  set (s2 := if in_mode START_UP s1 then _ else _).
  assert (H2 : gain_ok s2) by (subst s2; case_bool_decide; [by apply EnterProbeBandwidthMode_gain|done]).
  clearbody s2. case_bool_decide; [by apply UpdateGainCyclePhase_gain|done].
Qed.

Lemma MaybeEnterOrExitProbeRtt_gain now expired s s' :
  gain_ok s -> MaybeEnterOrExitProbeRtt now expired s = Some s' -> gain_ok s'.
Proof.
  intros H. unfold MaybeEnterOrExitProbeRtt.
  set (o := if _ && _ then _ else _). assert (Ho : forall x, o = Some x -> gain_ok x).
  { subst o. destruct (_ && _); [|by intros x [= <-]]. unfold enter_probe_rtt, ClusterInfoClear. cbv zeta.
    intros x Hx. apply bind_Some in Hx as (h & _ & [= <-]).
    destruct (negb _ && _); (split; [apply bandwidth_mul_ok|done]). }
  destruct o as [x|]; [|done]. cbn [mbind option_bind]. intros [= <-].
  specialize (Ho x eq_refl). destruct (in_mode PROBE_RTT x); [|done].
  unfold maybe_exit_probe_rtt. cbv zeta.
  destruct (exit_probe_rtt_at_ x =? 0); (destruct ((_ <? now) || _); [|done]);
    destruct (min_rtt_ _ =? 0); apply EnterProbeBandwidthMode_gain; done.
Qed.

(** * Rates *)

(** What the rates are in each mode: [min] in START_UP; in PROBE_RTT the minimum or,
    if it is in effect, the recovery rate; in PROBE_BW the estimate or the recovery
    rate but at least the minimum, scaled by the gain for pacing. *)
Definition target_rate (s : MyBbrSender) : Z :=
  if is_recover_effective_ s then recover_rate_ s
  else if BandwidthEstimate s =? 0 then QuicBandwidth (min_bps_ s) else BandwidthEstimate s.

Definition rate_ok (s : MyBbrSender) : Prop :=
  let min_rate := QuicBandwidth (min_bps_ s) in
  match mode_ s with
  | START_UP => PaceRate s = min_rate /\ GetReferenceRate s = min_rate
  | PROBE_RTT =>
    PaceRate s = (if is_recover_effective_ s then recover_rate_ s else min_rate) /\
    GetReferenceRate s = PaceRate s
  | PROBE_BW =>
    GetReferenceRate s = Z.max min_rate (target_rate s) /\
    PaceRate s = bandwidth_mul (GetReferenceRate s) (pacing_gain_ s)
  end.

(** The fields [gain_ok] and [rate_ok] speak about. *)
Definition control (s : MyBbrSender) :=
  (phase s, pacing_rate_ s, sending_rate_ s, is_recover_effective_ s, max_bandwidth_ s, min_bps_ s).

Lemma control_gain s s' : control s' = control s -> gain_ok s -> gain_ok s'.
Proof. unfold control. intros E. apply gain_ok_phase. congruence. Qed.

Lemma control_rate s s' : control s' = control s -> rate_ok s -> rate_ok s'.
Proof.
  unfold control, phase, rate_ok, target_rate, PaceRate, GetReferenceRate, BandwidthEstimate.
  by intros [= -> -> _ -> -> -> -> -> ->].
Qed.

(** Evaluates the mode tests of a goal whose state has a known mode. *)
Ltac eval_modes :=
  repeat (cbn [mode_ min_bps_ pacing_rate_ sending_rate_];
    match goal with
    | |- context [bool_decide (?a = ?b :> Mode)] =>
      let v := eval vm_compute in (bool_decide (a = b)) in change (bool_decide (a = b)) with v; cbv iota beta
    end).

Lemma CalculatePacingRate_rate s : rate_ok (CalculatePacingRate s) /\ phase (CalculatePacingRate s) = phase s.
Proof.
  destruct s as [? m]. unfold CalculatePacingRate. cbv zeta. destruct m; eval_modes.
  - destruct (negb _ && _); done.
  - unfold rate_ok, target_rate, PaceRate, GetReferenceRate, BandwidthEstimate.
    destruct (_ <? QuicBandwidth _) eqn:El; cbn in El; zbool; destruct (negb _ && _);
      cbn -[Z.max QuicBandwidth bandwidth_mul]; (split; [split; [lia|done]|done]).
  - destruct (negb _ && _); done.
Qed.

Lemma ack_cluster_phase now pn s s' : ack_cluster now pn s = Some s' -> phase s' = phase s.
Proof.
  assert (Hest : forall a id send ack probe s, phase (OnEstimateBandwidth a id send ack probe s) = phase s).
  { clear. intros a id send ack probe s. unfold OnEstimateBandwidth.
    destruct (_ && (_ <=? _)); cbn -[bandwidth_mul Update Z.min]; by destruct (_ <? _). }
  assert (Htrig : forall a s s', TriggerBandwidthEstimate a s = Some s' -> phase s' = phase s).
  { intros a x x'. unfold TriggerBandwidthEstimate. intros (c & _ & H)%bind_Some. apply bind_Some in H as (rates & _ & H).
    destruct rates as [[send ack]|]; injection H as <-; [|done]. destruct (0 <? _); [by rewrite Hest|done]. }
  unfold ack_cluster. destruct (seq_round_map_ s !! pn); [|by intros [= <-]].
  destruct (SentMap.find _ _) as [a|]; [|by intros [= <-]]. unfold ClusterOnAck.
  intros (c & _ & H)%bind_Some. apply bind_Some in H as (s1 & H1 & H).
  apply bind_Some in H as (c1 & _ & H). apply bind_Some in H as (c2 & _ & [= <-]).
  change (phase s1 = phase s). destruct (_ =? 0); [|by injection H1 as <-].
  destruct (prev_ c); [by rewrite (Htrig _ _ _ H1)|by injection H1 as <-].
Qed.

Lemma update_average_control s s' : update_average s = Some s' -> control s' = control s.
Proof.
  unfold update_average. intros (t & _ & H)%bind_Some. apply bind_Some in H as (r1 & _ & H).
  by apply bind_Some in H as (r2 & _ & [= <-]).
Qed.

Lemma drop_stale_control n : forall s s', drop_stale n s = Some s' -> control s' = control s.
Proof.
  induction n as [|n IH]; intros s s'; cbn [drop_stale]; [by intros [= <-]|].
  intros (a & _ & H)%bind_Some. apply bind_Some in H as (c & _ & H). apply bind_Some in H as (s1 & H1 & H).
  rewrite (IH _ _ H). unfold RemoveClusterLE in H1. by apply bind_Some in H1 as ([m h] & _ & [= <-]).
Qed.

Lemma AddPacketInfoSampler_control now pn bytes s s' :
  AddPacketInfoSampler now pn bytes s = Some s' -> control s' = control s.
Proof.
  unfold AddPacketInfoSampler. intros (s1 & H1 & H)%bind_Some.
  apply bind_Some in H as (a & _ & H). apply bind_Some in H as (c & _ & [= <-]).
  transitivity (control s1); [by destruct (seq_round_map_ _ !! pn)|].
  destruct (SentMap.find _ _); [by injection H1 as <-|]. unfold new_cluster in H1. cbv zeta in H1.
  apply bind_Some in H1 as (s2 & H2 & [= <-]). change (control s2 = control s).
  destruct (snd <$> _); [by apply bind_Some in H2 as (d & _ & [= <-])|by injection H2 as <-].
Qed.

(** Every event ends with gains and rates that belong to the mode. *)
Definition governed (s : MyBbrSender) : Prop := gain_ok s /\ rate_ok s.

Lemma OnAck_governed now pn s s' : governed s -> OnAck now pn s = Some s' -> governed s'.
Proof.
  intros [Hg Hr]. unfold OnAck. destruct (_ <=? _); [by intros [= <-]|]. cbv zeta.
  change (if in_mode PROBE_BW _ then _ else _) with (ack_phases now pn s).
  pose proof (ack_phases_gain now pn s Hg) as H1. set (s1 := ack_phases now pn s) in *. clearbody s1.
  intros (s2 & E2 & H)%bind_Some. apply bind_Some in H as (s3 & E3 & H).
  apply MaybeEnterOrExitProbeRtt_gain in E2; [|done]. apply ack_cluster_phase in E3.
  destruct (CalculatePacingRate_rate s3) as [Hr4 Hp4]. set (s4 := CalculatePacingRate s3) in *. clearbody s4.
  assert (H4 : governed s4) by (split; [eapply gain_ok_phase; [|exact E2]; congruence|done]).
  assert (control s' = control s4) as Hc.
  { destruct (_ <=? _); [|by injection H as <-]. apply bind_Some in H as (s5 & E5 & H).
    rewrite (drop_stale_control _ _ _ H). by apply update_average_control. }
  destruct H4. split; [by eapply control_gain|by eapply control_rate].
Qed.

Lemma OnPacketSent_governed now pn bytes s s' :
  governed s -> OnPacketSent now pn bytes s = Some s' -> governed s'.
Proof.
  intros [Hg Hr]. unfold OnPacketSent. cbv zeta.
  destruct (CalculatePacingRate_rate (AddSeqAndTimestamp now pn s)) as [Hr4 Hp4].
  set (s4 := CalculatePacingRate _) in *. clearbody s4.
  assert (H4 : governed s4) by (split; [by eapply gain_ok_phase|done]). intros H.
  assert (control s' = control s4) as Hc.
  { destruct (in_mode PROBE_BW s4); [by eapply AddPacketInfoSampler_control|by injection H as <-]. }
  destruct H4. split; [by eapply control_gain|by eapply control_rate].
Qed.

Lemma ctor_governed min_bps observer random : governed (MyBbrSender_ctor min_bps observer random).
Proof. done. Qed.

Lemma run_governed es : forall s s', governed s -> run es s = Some s' -> governed s'.
Proof.
  induction es as [|[now pn bytes|now pn] es IH]; intros s s' Hg; cbn [run handle]; [by intros [= <-]|..];
    intros (s1 & H1 & H)%bind_Some; eapply IH; [|exact H| |exact H];
    [by eapply OnPacketSent_governed|by eapply OnAck_governed].
Qed.

(** A governed controller paces at a bandwidth, and in PROBE_BW refers to at least the
    minimum. *)
Lemma governed_pace s : governed s -> bandwidth_ok (PaceRate s).
Proof.
  intros [[Hb _] Hr]. unfold rate_ok in Hr. cbv zeta in Hr. destruct (mode_ s); destruct Hr as [H1 H2].
  - rewrite H1. apply QuicBandwidth_ok.
  - rewrite H2. apply bandwidth_mul_ok.
  - rewrite H1. destruct (is_recover_effective_ s); [done|apply QuicBandwidth_ok].
Qed.

(** * Acknowledgements inside a cluster *)

(** The packets of a cluster are numbered without gaps from [first]. *)
Definition consecutive (first : Z) (infos : list SentPacketInfo) : Prop :=
  forall i p, infos !! i = Some p -> ClusterSender.seq p = first + Z.of_nat i.

(** The reference: every packet is compared with the acknowledged number. *)
Definition mark (seq now : Z) (p : SentPacketInfo) : SentPacketInfo :=
  if ClusterSender.seq p =? seq then p <| ack_ts := now |> else p.

Fixpoint acked_bytes (seq : Z) (infos : list SentPacketInfo) : Z :=
  match infos with
  | [] => 0
  | p :: infos => (if ClusterSender.seq p =? seq then len p else 0) + acked_bytes seq infos
  end.

Definition note_ack_by_search (seq now : Z) (c : SentClusterInfo) : SentClusterInfo :=
  c <| last_ack_ts_ := now |>
    <| packet_infos_ := map (mark seq now) (packet_infos_ c) |>
    <| acked_packets_ := u64 (acked_packets_ c + acked_bytes seq (packet_infos_ c)) |>.

Lemma consecutive_cons first p infos :
  consecutive first (p :: infos) <-> ClusterSender.seq p = first /\ consecutive (first + 1) infos.
Proof.
  split.
  - intros H. split; [specialize (H 0%nat p eq_refl); lia|]. intros i q Hi. specialize (H (S i) q Hi). lia.
  - intros [E H] [|i] q Hi; [injection Hi as <-; lia|]. specialize (H i q Hi). lia.
Qed.

(** Below the first number nothing is marked; from there on the packet at the
    distance of [seq] is, if there is one. *)
Lemma mark_missed seq now first infos :
  consecutive first infos -> seq < first \/ first + Z.of_nat (length infos) <= seq ->
  map (mark seq now) infos = infos /\ acked_bytes seq infos = 0.
Proof.
  revert first. induction infos as [|p infos IH]; intros first H Hs; [done|].
  apply consecutive_cons in H as [E H]. cbn [map acked_bytes length] in *. unfold mark at 1.
  destruct (Z.eqb_spec (ClusterSender.seq p) seq); [lia|].
  destruct (IH _ H) as [-> ->]; [lia|done].
Qed.

Lemma mark_hit seq now first infos i p :
  consecutive first infos -> infos !! i = Some p -> seq = first + Z.of_nat i ->
  map (mark seq now) infos = <[i := p <| ack_ts := now |>]> infos /\ acked_bytes seq infos = len p.
Proof.
  revert first i. induction infos as [|q infos IH]; intros first i H Hi ->; [done|].
  apply consecutive_cons in H as [E H]. cbn [map acked_bytes].
  unfold mark at 1. destruct i as [|i]; cbn in Hi.
  - injection Hi as ->. destruct (Z.eqb_spec (ClusterSender.seq p) (first + Z.of_nat 0)); [|lia].
    destruct (mark_missed (first + Z.of_nat 0) now (first + 1) infos) as [-> ->]; [done|lia|]. split; [done|lia].
  - destruct (Z.eqb_spec (ClusterSender.seq q) (first + Z.of_nat (S i))); [lia|].
    destruct (IH (first + 1) i H Hi) as [-> ->]; [lia|]. split; [done|lia].
Qed.

Lemma note_ack_searches first seq now c :
  packet_infos_ c <> [] -> consecutive first (packet_infos_ c) -> seq - first < 2 ^ 32 ->
  fits 64 (acked_packets_ c) ->
  note_ack seq now c = Some (note_ack_by_search seq now c).
Proof.
  intros Hne Hcons Hd Hf. unfold note_ack, note_ack_by_search.
  change (packet_infos_ (c <| last_ack_ts_ := now |>)) with (packet_infos_ c).
  change (acked_packets_ (c <| last_ack_ts_ := now |>)) with (acked_packets_ c).
  assert (exists p, head (packet_infos_ c) = Some p /\ ClusterSender.seq p = first) as (p & -> & Hp).
  { destruct (packet_infos_ c) as [|p infos]; [done|]. exists p. by apply consecutive_cons in Hcons as [? _]. }
  cbn [mbind option_bind]. rewrite Hp.
  assert (Hmiss : map (mark seq now) (packet_infos_ c) = packet_infos_ c /\ acked_bytes seq (packet_infos_ c) = 0 ->
    Some (c <| last_ack_ts_ := now |>) =
    Some (c <| last_ack_ts_ := now |> <| packet_infos_ := map (mark seq now) (packet_infos_ c) |>
            <| acked_packets_ := u64 (acked_packets_ c + acked_bytes seq (packet_infos_ c)) |>)).
  { intros [-> ->]. rewrite Z.add_0_r, wrap_small by done. by destruct c. }
  destruct (Z.leb_spec first seq) as [Hle|Hlt]; [|by eapply Hmiss, mark_missed; [exact Hcons|lia]].
  rewrite wrap_small by (unfold fits; lia).
  destruct (packet_infos_ c !! Z.to_nat (seq - first)) as [t|] eqn:El.
  - destruct (mark_hit seq now first (packet_infos_ c) (Z.to_nat (seq - first)) t) as [-> ->]; [done|done|lia|done].
  - apply lookup_ge_None in El. eapply Hmiss, mark_missed; [exact Hcons|lia].
Qed.
