(* ===== verification/ClusterTheorems.v ===== *)
(** Properties of the cluster-based controller [MyBbrSender], with witnesses on a
    transfer over a 120 ms path (Module [ClusterTransfer]). *)
From stdpp Require Import gmap.
From S2P Require Import Prelude.
From S2P Require Import QuicUnits.
From S2P Require Import WindowedFilter.
From S2P Require Import Sampler.
From S2P Require Import BbrSenderV5.
From S2P Require Import ControllerPacing.
From S2P Require Import ClusterSender.
From S2P Require Import BbrClusters.
From S2P Require Import BbrSafety.
From S2P Require Import BbrControl.

Import SentClusterInfo MyBbrSender.
Open Scope Z_scope.

(** * The controller behind the interface *)

#[export] Instance ClusterController : CongestionController := {|
  Controller := MyBbrSender;
  ControllerPacing.OnAck := OnAck;
  ControllerPacing.OnPacketSent := OnPacketSent;
  ControllerPacing.PaceRate := PaceRate;
  ControllerPacing.GetReferenceRate := GetReferenceRate;
  ControllerPacing.ShouldSendProbePacket := ShouldSendProbePacket;
|}.

#[export] Instance ClusterControllerLaws : ControllerLaws ClusterController := {|
  controller_ok := governed : @Controller ClusterController -> Prop;
  ControllerPacing.OnPacketSent_ok := OnPacketSent_governed;
  ControllerPacing.OnAck_ok := OnAck_governed;
  ControllerPacing.PaceRate_ok := governed_pace;
|}.

(** * A transfer to evaluate the controller on *)
Module ClusterTransfer.
Definition start : MyBbrSender := MyBbrSender_ctor 500000 true (fun _ => 12345).

(** Packet [i] leaves every 40 ms and is acknowledged three packets later. *)
Fixpoint transfer (n : nat) (i : Z) : list Event :=
  match n with
  | O => []
  | S n => Sent (1000000 + i * 40000) i 1000 ::
           (if 3 <? i then [Acked (1000001 + i * 40000) (i - 3)] else []) ++ transfer n (i + 1)
  end.

Definition after (n : nat) : MyBbrSender := default start (run (transfer n 1) start).

(** The first cluster of the transfer, with its packets in flight. *)
Definition cluster3 : SentClusterInfo :=
  SentClusterInfo.OnPacketSent 1120000 7 1000 (SentClusterInfo.OnPacketSent 1080000 6 1200
    (SentClusterInfo.OnPacketSent 1040000 5 1000 (SentClusterInfo_ctor 1 false))).

(** [in_order] as a boolean. *)
Fixpoint in_orderb (clock last_sent : Z) (es : list Event) : bool :=
  match es with
  | [] => true
  | Sent now pn _ :: es =>
    (0 <? now) && (now <? 2 ^ 56) && (clock <=? now) && (last_sent <? pn) && in_orderb now pn es
  | Acked now pn :: es =>
    (0 <? now) && (now <? 2 ^ 56) && (clock <=? now) && (pn <? 2 ^ 60) && in_orderb now last_sent es
  end.

Lemma in_orderb_spec es : forall clock last_sent, in_orderb clock last_sent es = true -> in_order clock last_sent es.
Proof.
  unfold in_order, clock_ok. induction es as [|[] es IH]; intros clock last_sent H; cbn [in_orderb] in H; [done|..];
    zbool; (split_and!; [done..|by apply IH]).
Qed.
End ClusterTransfer.
Import ClusterTransfer.

(** * The controller *)

Section cluster.
Context (min_bps : Z) (observer : bool) (random : nat -> Z).
Abbreviation initial := (MyBbrSender_ctor min_bps observer random).

(** C31: Memory safety.  Packets sent in order at times that do not go back, and
    acknowledgements of any packets in any order, are all handled: no dangling
    cluster is read, no empty packet vector is indexed and nothing is divided by
    zero.  In the state reached the clusters on the heap are exactly the values of
    [connection_info_], in ascending order of their ids and linked to their
    neighbours in both directions; every cluster of [acked_clusters_] is alive, at
    most nine of them are kept, and the destructor frees all memory. *)
Theorem cluster_memory_safe es :
  in_order 0 0 es ->
  exists s, run es initial = Some s /\
    chain (fun _ => True) (heap_ s) (connection_info_ s) /\
    (forall a, a ∈ acked_clusters_ s -> is_Some (heap_ s !! a)) /\
    (length (acked_clusters_ s) <= 9)%nat /\
    MyBbrSender_dtor s = Some ∅.
Proof.
  intros Ho. destruct (run_safe es 0 0 initial) as (clock & last_sent & s & E & [Hc Hw _]); [apply ctor_safe|done|].
  exists s. pose proof (cl_chain _ _ _ _ Hc) as Hch. split_and!; [done| | |done|].
  - by eapply chain_impl.
  - intros a Ha. destruct (chain_live _ _ a Hch) as (c & Hl & _); [|eauto]. eapply frontier_live; [apply Hc|done].
  - by eapply chain_delete.
Qed.

(** After any events the gain and the rates are those of the mode: the minimum
    in START_UP; in PROBE_RTT the recovery rate if it is in effect, else the
    minimum; in PROBE_BW a reference of at least the minimum, multiplied by the
    gain of the current phase of the cycle for pacing. *)
Theorem cluster_rates es s :
  run es initial = Some s ->
  match mode_ s with
  | START_UP => pacing_gain_ s = f32_of_Z 1 /\ PaceRate s = QuicBandwidth (min_bps_ s)
  | PROBE_RTT => pacing_gain_ s = f32_of_Z 1 /\
      PaceRate s = (if is_recover_effective_ s then recover_rate_ s else QuicBandwidth (min_bps_ s))
  | PROBE_BW => 0 <= cycle_current_offset_ s < kGainCycleLength /\
      GetReferenceRate s = Z.max (QuicBandwidth (min_bps_ s)) (target_rate s) /\
      PaceRate s = bandwidth_mul (GetReferenceRate s) (gain_at (cycle_current_offset_ s))
  end /\ bandwidth_ok (PaceRate s).
Proof.
  intros H. apply run_governed in H; [|apply ctor_governed]. split; [|by apply governed_pace].
  destruct H as [[_ Hg] Hr]. unfold rate_ok in Hr. cbv zeta in Hr.
  destruct (mode_ s); destruct Hr as [H1 H2]; [by split| |by split].
  destruct Hg as [Ho Hg]. by rewrite <- Hg.
Qed.
End cluster.

(** In PROBE_RTT the controller can pace below the configured minimum: over a
    path with a constant round-trip time the minimum expires after ten seconds, and
    the recovery rate, a fraction of the estimate, replaces it unchecked. *)
Theorem probe_rtt_below_minimum :
  exists es s, in_order 0 0 es /\ run es start = Some s /\ mode_ s = PROBE_RTT /\
    PaceRate s < QuicBandwidth (min_bps_ s).
Proof.
  exists (transfer 255 1), (after 255). split_and!; [|by vm_compute..].
  apply in_orderb_spec. by vm_compute.
Qed.

(** The acknowledgement of a packet, found in its cluster by its distance from
    the first packet, marks the packets and counts the bytes that a search by
    packet number would, if the cluster's packets are numbered without gaps and the
    distance fits in 32 bits. *)
Theorem note_ack_equiv first seq now c :
  packet_infos_ c <> [] -> consecutive first (packet_infos_ c) -> seq - first < 2 ^ 32 ->
  fits 64 (acked_packets_ c) ->
  note_ack seq now c = Some (note_ack_by_search seq now c).
Proof. apply note_ack_searches. Qed.

(** * Witnesses *)

Lemma cluster_memory_safe_witness :
  exists s, run (transfer 60 1) start = Some s /\ MyBbrSender_dtor s = Some ∅ /\ length (acked_clusters_ (after 60)) = 9%nat.
Proof.
  destruct (cluster_memory_safe 500000 true (fun _ => 12345) (transfer 60 1)) as (s & E & _ & _ & _ & D).
  - apply in_orderb_spec. by vm_compute.
  - exists s. split; [done|]. split; [done|]. by vm_compute.
Defined.

Lemma cluster_rates_witness :
  mode_ (after 60) = PROBE_BW /\
  GetReferenceRate (after 60) = Z.max (QuicBandwidth (min_bps_ (after 60))) (target_rate (after 60)).
Proof.
  assert (E : run (transfer 60 1) (MyBbrSender_ctor 500000 true (fun _ => 12345)) = Some (after 60))
    by (vm_compute; reflexivity).
  assert (M : mode_ (after 60) = PROBE_BW) by (vm_compute; reflexivity).
  destruct (cluster_rates _ _ _ _ _ E) as [H _]. rewrite M in H. split; [exact M|apply H].
Defined.

Lemma note_ack_equiv_witness :
  acked_packets_ <$> note_ack 6 1200000 cluster3 = Some 1200 /\
  note_ack 6 1200000 cluster3 = Some (note_ack_by_search 6 1200000 cluster3).
Proof.
  split; [by vm_compute|]. apply (note_ack_equiv 5); [done| |lia|by vm_compute].
  intros [|[|[|i]]] p; [by intros [= <-]..|done].
Defined.
