(* ===== verification/UnackedPackets.v ===== *)
(** [QuicUnackedPacketMap] (net/third_party/quic/core/quic_unacked_packet_map.cc): the
    packets sent and not yet done with.

    The deque [unacked_packets_] is a list whose first element is packet
    [least_unacked_].  An access outside of it, undefined in C++, is [None].  The
    sender of this repository has no session notifier and does not let a session
    decide what to write, so that the branches for these are left out. *)
From stdpp Require Import list_numbers.
From S2P Require Import Prelude.
From S2P Require Import PacketNumbers.
From S2P Require Import FramerTypes.
From S2P Require Import QuicUnits.
From S2P Require Import WindowedFilter.
From S2P Require Import Sampler.

Open Scope Z_scope.

(** * The types of quic_types.h and quic_packets.h *)

Inductive TransmissionType :=
  | NOT_RETRANSMISSION
  | HANDSHAKE_RETRANSMISSION
  | ALL_UNACKED_RETRANSMISSION
  | ALL_INITIAL_RETRANSMISSION
  | LOSS_RETRANSMISSION
  | RTO_RETRANSMISSION
  | TLP_RETRANSMISSION
  | PROBING_RETRANSMISSION.
#[export] Instance TransmissionType_eq_dec : EqDecision TransmissionType.
Proof. solve_decision. Defined.

Inductive SentPacketState :=
  | OUTSTANDING
  | NEVER_SENT
  | ACKED
  | UNACKABLE
  | HANDSHAKE_RETRANSMITTED
  | LOST
  | TLP_RETRANSMITTED
  | RTO_RETRANSMITTED
  | PROBE_RETRANSMITTED.
#[export] Instance SentPacketState_eq_dec : EqDecision SentPacketState.
Proof. solve_decision. Defined.

(** [QuicUtils::IsAckable]. *)
Definition IsAckable (state : SentPacketState) : bool :=
  match state with NEVER_SENT | ACKED | UNACKABLE => false | _ => true end.

Record SerializedPacket := mkSerialized {
  sp_encrypted_length : Z;
  sp_retransmittable_frames : list QuicFrame;
  sp_has_crypto_handshake : bool;
  sp_num_padding_bytes : Z;
  sp_packet_number : Z;
  sp_packet_number_length : Z;
  sp_encryption_level : EncryptionLevel;
  sp_largest_acked : Z;
}.
Definition SerializedPacket_ctor (packet_number packet_number_length encrypted_length : Z) : SerializedPacket :=
  mkSerialized encrypted_length [] false 0 packet_number packet_number_length ENCRYPTION_NONE 0.

(** quic_pending_retransmission.h. *)
Record QuicPendingRetransmission := mkPending {
  pr_packet_number : Z;
  pr_retransmittable_frames : list QuicFrame;
  pr_transmission_type : TransmissionType;
  pr_has_crypto_handshake : bool;
  pr_num_padding_bytes : Z;
  pr_encryption_level : EncryptionLevel;
  pr_packet_number_length : Z;
}.

Record QuicTransmissionInfo := mkInfo {
  encryption_level : EncryptionLevel;
  ti_packet_number_length : Z;
  bytes_sent : Z;
  sent_time : Z;
  transmission_type : TransmissionType;
  in_flight : bool;
  state : SentPacketState;
  has_crypto_handshake : bool;
  ti_num_padding_bytes : Z;
  retransmission : Z;
  ti_largest_acked : Z;
  retransmittable_frames : list QuicFrame;
}.

(** [QuicTransmissionInfo()]. *)
Definition emptyInfo : QuicTransmissionInfo :=
  mkInfo ENCRYPTION_NONE PACKET_1BYTE_PACKET_NUMBER 0 0 NOT_RETRANSMISSION false OUTSTANDING false 0 0 0 [].
Definition QuicTransmissionInfo_ctor (level : EncryptionLevel) (packet_number_length : Z)
    (transmission_type : TransmissionType) (sent_time bytes_sent : Z) (has_crypto_handshake : bool)
    (num_padding_bytes : Z) : QuicTransmissionInfo :=
  mkInfo level packet_number_length bytes_sent sent_time transmission_type false OUTSTANDING has_crypto_handshake
    num_padding_bytes 0 0 [].

Module QuicUnackedPacketMap.

Record QuicUnackedPacketMap := mkMap {
  largest_sent_packet_ : Z;
  largest_sent_retransmittable_packet_ : Z;
  largest_sent_largest_acked_ : Z;
  largest_acked_ : Z;
  unacked_packets_ : list QuicTransmissionInfo;
  least_unacked_ : Z;
  bytes_in_flight_ : Z;
  pending_crypto_packet_count_ : Z;
  last_crypto_packet_sent_time_ : Z;
}.

Definition QuicUnackedPacketMap_ctor : QuicUnackedPacketMap := mkMap 0 0 0 0 [] 1 0 0 0.

Definition size (m : QuicUnackedPacketMap) : Z := Z.of_nat (length (unacked_packets_ m)).

(** [unacked_packets_[packet_number - least_unacked_]]. *)
Definition GetTransmissionInfo (packet_number : Z) (m : QuicUnackedPacketMap) : option QuicTransmissionInfo :=
  if packet_number <? least_unacked_ m then None
  else unacked_packets_ m !! Z.to_nat (packet_number - least_unacked_ m).

(** An assignment through [GetMutableTransmissionInfo]. *)
Definition update (packet_number : Z) (f : QuicTransmissionInfo -> QuicTransmissionInfo)
    (m : QuicUnackedPacketMap) : QuicUnackedPacketMap :=
  m <| unacked_packets_ := alter f (Z.to_nat (packet_number - least_unacked_ m)) (unacked_packets_ m) |>.

(** * What a packet is still useful for *)

Definition HasRetransmittableFrames (info : QuicTransmissionInfo) : bool :=
  match retransmittable_frames info with [] => false | _ => true end.

Definition IsPacketUsefulForMeasuringRtt (packet_number : Z) (info : QuicTransmissionInfo)
    (m : QuicUnackedPacketMap) : bool :=
  IsAckable (state info) && (largest_acked_ m <? packet_number).

Definition IsPacketUsefulForCongestionControl (info : QuicTransmissionInfo) : bool := in_flight info.

Definition IsPacketUsefulForRetransmittableData (info : QuicTransmissionInfo) (m : QuicUnackedPacketMap) : bool :=
  (largest_acked_ m <? retransmission info) || HasRetransmittableFrames info.

Definition IsPacketUseless (packet_number : Z) (info : QuicTransmissionInfo) (m : QuicUnackedPacketMap) : bool :=
  negb (IsPacketUsefulForMeasuringRtt packet_number info m) &&
  negb (IsPacketUsefulForCongestionControl info) &&
  negb (IsPacketUsefulForRetransmittableData info m).

Definition IsUnacked (packet_number : Z) (m : QuicUnackedPacketMap) : bool :=
  match GetTransmissionInfo packet_number m with
  | Some info => negb (IsPacketUseless packet_number info m)
  | None => false
  end.

(** * Changes of the map *)

(** The loop of [RemoveObsoletePackets], over the packets from [least]. *)
Fixpoint drop_obsolete (m : QuicUnackedPacketMap) (least : Z) (packets : list QuicTransmissionInfo) :
    Z * list QuicTransmissionInfo :=
  match packets with
  | [] => (least, [])
  | info :: rest =>
    if IsPacketUseless least info m then drop_obsolete m (u64 (least + 1)) rest else (least, packets)
  end.
Definition RemoveObsoletePackets (m : QuicUnackedPacketMap) : QuicUnackedPacketMap :=
  let '(least, packets) := drop_obsolete m (least_unacked_ m) (unacked_packets_ m) in
  m <| unacked_packets_ := packets |> <| least_unacked_ := least |>.

(** The new packet's info is passed and returned; [None] when the old one is not in
    the deque. *)
Definition TransferRetransmissionInfo (old_packet_number new_packet_number : Z) (type : TransmissionType)
    (info : QuicTransmissionInfo) (m : QuicUnackedPacketMap) : option (QuicTransmissionInfo * QuicUnackedPacketMap) :=
  if old_packet_number <? least_unacked_ m then Some (info, m)
  else if largest_sent_packet_ m <? old_packet_number then Some (info, m)
  else
    old ← GetTransmissionInfo old_packet_number m;
    let info' := info <| retransmittable_frames := retransmittable_frames old |>
                      <| has_crypto_handshake := has_crypto_handshake old |>
                      <| ti_num_padding_bytes := ti_num_padding_bytes old |> in
    let old' := old <| retransmittable_frames := retransmittable_frames info |> <| has_crypto_handshake := false |> in
    let old' := match type with
                | ALL_INITIAL_RETRANSMISSION | ALL_UNACKED_RETRANSMISSION => old' <| state := UNACKABLE |>
                | _ => old' <| retransmission := new_packet_number |>
                end in
    Some (info', RemoveObsoletePackets (update old_packet_number (fun _ => old') m)).

(** Entries for the packet numbers that were skipped. *)
Definition never_sent : QuicTransmissionInfo := emptyInfo <| state := NEVER_SENT |>.

Definition AddSentPacket (packet : SerializedPacket) (old_packet_number : Z) (type : TransmissionType)
    (sent_time : Z) (set_in_flight : bool) (m : QuicUnackedPacketMap) : option QuicUnackedPacketMap :=
  let packet_number := sp_packet_number packet in
  let bytes_sent := sp_encrypted_length packet in
  let skipped := packet_number - (least_unacked_ m + size m) in
  let m := m <| unacked_packets_ := unacked_packets_ m ++ replicate (Z.to_nat skipped) never_sent |> in
  let info := QuicTransmissionInfo_ctor (sp_encryption_level packet) (sp_packet_number_length packet) type sent_time
                bytes_sent (sp_has_crypto_handshake packet) (sp_num_padding_bytes packet) in
  let info := info <| ti_largest_acked := sp_largest_acked packet |> in
  let m := m <| largest_sent_largest_acked_ := Z.max (largest_sent_largest_acked_ m) (sp_largest_acked packet) |> in
  '(info, m) ← (if 0 <? old_packet_number
                then TransferRetransmissionInfo old_packet_number packet_number type info m
                else Some (info, m));
  let m := m <| largest_sent_packet_ := packet_number |> in
  let '(info, m) :=
    if set_in_flight : bool
    then (info <| in_flight := true |>,
          m <| bytes_in_flight_ := u64 (bytes_in_flight_ m + bytes_sent) |>
            <| largest_sent_retransmittable_packet_ := packet_number |>)
    else (info, m) in
  let '(info, m) :=
    if old_packet_number =? 0 then
      (info <| retransmittable_frames := sp_retransmittable_frames packet |>,
       if sp_has_crypto_handshake packet
       then m <| pending_crypto_packet_count_ := u64 (pending_crypto_packet_count_ m + 1) |>
              <| last_crypto_packet_sent_time_ := sent_time |>
       else m)
    else (info, m) in
  Some (m <| unacked_packets_ := unacked_packets_ m ++ [info] |>).

(** Follows the retransmissions of a packet to the newest; [fuel] bounds their
    number. *)
Fixpoint newest (fuel : nat) (packet_number : Z) (m : QuicUnackedPacketMap) : option Z :=
  match fuel with
  | O => None
  | S fuel =>
    info ← GetTransmissionInfo packet_number m;
    if retransmission info =? 0 then Some packet_number else newest fuel (retransmission info) m
  end.

(** The loop of [RemoveRetransmittability], which also unlinks the packets. *)
Fixpoint unlink (fuel : nat) (packet_number : Z) (m : QuicUnackedPacketMap) : option (Z * QuicUnackedPacketMap) :=
  match fuel with
  | O => None
  | S fuel =>
    info ← GetTransmissionInfo packet_number m;
    if retransmission info =? 0 then Some (packet_number, m)
    else unlink fuel (retransmission info) (update packet_number (fun i => i <| retransmission := 0 |>) m)
  end.

Definition chain_fuel (m : QuicUnackedPacketMap) : nat := S (length (unacked_packets_ m)).

Definition RemoveRetransmittability (packet_number : Z) (m : QuicUnackedPacketMap) : option QuicUnackedPacketMap :=
  '(last, m) ← unlink (chain_fuel m) packet_number m;
  info ← GetTransmissionInfo last m;
  let m := if has_crypto_handshake info
           then m <| pending_crypto_packet_count_ := u64 (pending_crypto_packet_count_ m - 1) |> else m in
  Some (update last (fun i => i <| has_crypto_handshake := false |> <| retransmittable_frames := [] |>) m).

Definition IncreaseLargestAcked (largest_acked : Z) (m : QuicUnackedPacketMap) : QuicUnackedPacketMap :=
  m <| largest_acked_ := largest_acked |>.

Definition RemoveFromInFlight (packet_number : Z) (m : QuicUnackedPacketMap) : option QuicUnackedPacketMap :=
  info ← GetTransmissionInfo packet_number m;
  Some (if in_flight info
        then update packet_number (fun i => i <| in_flight := false |>)
               (m <| bytes_in_flight_ := u64 (bytes_in_flight_ m - bytes_sent info) |>)
        else m).

(** [RemoveFramesForStream] of quic_frame.cc. *)
Definition RemoveFramesForStream (frames : list QuicFrame) (stream_id : Z) : list QuicFrame :=
  filter (fun f => match f with STREAM_FRAME s => negb (sf_stream_id s =? stream_id) | _ => true end = true) frames.

(** The loop of [CancelRetransmissionsForStream], over the given packet numbers. *)
Fixpoint cancel_for_stream (stream_id : Z) (numbers : list Z) (m : QuicUnackedPacketMap) :
    option QuicUnackedPacketMap :=
  match numbers with
  | [] => Some m
  | n :: numbers =>
    info ← GetTransmissionInfo n m;
    if HasRetransmittableFrames info then
      let frames := RemoveFramesForStream (retransmittable_frames info) stream_id in
      let m := update n (fun i => i <| retransmittable_frames := frames |>) m in
      m ← (match frames with [] => RemoveRetransmittability n m | _ => Some m end);
      cancel_for_stream stream_id numbers m
    else cancel_for_stream stream_id numbers m
  end.
Definition packet_numbers (m : QuicUnackedPacketMap) : list Z := seqZ (least_unacked_ m) (size m).
Definition CancelRetransmissionsForStream (stream_id : Z) (m : QuicUnackedPacketMap) : option QuicUnackedPacketMap :=
  cancel_for_stream stream_id (packet_numbers m) m.

(** * Observers *)

Definition HasInFlightPackets (m : QuicUnackedPacketMap) : bool := 0 <? bytes_in_flight_ m.

(** Zero when nothing is in flight. *)
Definition GetLastPacketSentTime (m : QuicUnackedPacketMap) : Z :=
  match list_find (fun i => in_flight i = true) (reverse (unacked_packets_ m)) with
  | Some (_, info) => sent_time info
  | None => 0
  end.
Definition GetLastCryptoPacketSentTime (m : QuicUnackedPacketMap) : Z := last_crypto_packet_sent_time_ m.

Definition kDefaultTCPMSS : Z := 1460.
Definition HasMultipleInFlightPackets (m : QuicUnackedPacketMap) : bool :=
  (kDefaultTCPMSS <? bytes_in_flight_ m) ||
  (1 <? Z.of_nat (length (filter (fun i => in_flight i = true) (unacked_packets_ m)))).

Definition HasPendingCryptoPackets (m : QuicUnackedPacketMap) : bool := 0 <? pending_crypto_packet_count_ m.

Definition HasUnackedRetransmittableFrames (m : QuicUnackedPacketMap) : bool :=
  existsb (fun i => in_flight i && HasRetransmittableFrames i) (unacked_packets_ m).

Definition GetLeastUnacked (m : QuicUnackedPacketMap) : Z := least_unacked_ m.
Definition GetNumUnackedPacketsDebugOnly (m : QuicUnackedPacketMap) : Z :=
  Z.of_nat (length (filter (fun p => IsPacketUseless (least_unacked_ m + Z.of_nat p.1) p.2 m = false)
                      (imap pair (unacked_packets_ m)))).
End QuicUnackedPacketMap.
