(* ===== verification/RttEstimates.v ===== *)
(** [RttStats] (net/third_party/quic/core/congestion_control/rtt_stats.cc): the round
    trip times a sender measures. *)
From S2P Require Import Prelude.
From S2P Require Import QuicUnits.
From S2P Require Import WindowedFilter.
From S2P Require Import Sampler.

Open Scope Z_scope.

Module RttStats.

Record RttStats := mkRtt {
  latest_rtt_ : Z;
  min_rtt_ : Z;
  smoothed_rtt_ : Z;
  previous_srtt_ : Z;
  mean_deviation_ : Z;
  initial_rtt_ : Z;
  max_ack_delay_ : Z;
  ignore_max_ack_delay_ : bool;
}.

Definition kInitialRttMs : Z := 100.
(** The powers of two below are exact in both precisions. *)
Definition kAlpha : spec_float := literal 1 8.
Definition kOneMinusAlpha : spec_float := literal 7 8.
Definition kBeta : spec_float := narrow (literal 1 4).
Definition kOneMinusBeta : spec_float := narrow (literal 3 4).

Definition RttStats_ctor : RttStats := mkRtt 0 0 0 0 0 (FromMilliseconds kInitialRttMs) 0 false.

(** [static_cast<int64_t>] of a [float], toward zero. *)
Definition f32_to_i64 (x : spec_float) : Z :=
  match x with
  | S754_finite s m e => i64 (cond_Zopp s (if 0 <=? e then Zpos m * 2 ^ e else Zpos m / 2 ^ (- e)))
  | _ => 0
  end.
Definition f32_add : spec_float -> spec_float -> spec_float := SFadd 24 128.

Definition ExpireSmoothedMetrics (r : RttStats) : RttStats :=
  r <| mean_deviation_ := Z.max (mean_deviation_ r) (Z.abs (time_sub (smoothed_rtt_ r) (latest_rtt_ r))) |>
    <| smoothed_rtt_ := Z.max (smoothed_rtt_ r) (latest_rtt_ r) |>.

(** Lines 80-91: the averages, with a new sample. *)
Definition smooth (rtt_sample : Z) (r : RttStats) : RttStats :=
  if smoothed_rtt_ r =? 0 then
    r <| smoothed_rtt_ := rtt_sample |> <| mean_deviation_ := Z.quot rtt_sample 2 |>
  else
    let deviation := Z.abs (time_sub (smoothed_rtt_ r) rtt_sample) in
    r <| mean_deviation_ := f32_to_i64 (f32_add (f32_mul kOneMinusBeta (f32_of_Z (mean_deviation_ r)))
                                                 (f32_mul kBeta (f32_of_Z deviation))) |>
      <| smoothed_rtt_ := time_add (delta_mul (smoothed_rtt_ r) kOneMinusAlpha) (delta_mul rtt_sample kAlpha) |>.

Definition UpdateRtt (send_delta ack_delay now : Z) (r : RttStats) : RttStats :=
  if (send_delta =? kQuicInfiniteTimeUs) || (send_delta <=? 0) then r
  else
    let r := if (min_rtt_ r =? 0) || (send_delta <? min_rtt_ r) then r <| min_rtt_ := send_delta |> else r in
    let rtt_sample := send_delta in
    let r := r <| previous_srtt_ := smoothed_rtt_ r |> in
    let ack_delay := if ignore_max_ack_delay_ r then 0 else ack_delay in
    let '(rtt_sample, r) :=
      if (ack_delay <? rtt_sample) && (ack_delay <=? time_sub rtt_sample (min_rtt_ r))
      then (time_sub rtt_sample ack_delay, r <| max_ack_delay_ := Z.max (max_ack_delay_ r) ack_delay |>)
      else (rtt_sample, r) in
    smooth rtt_sample (r <| latest_rtt_ := rtt_sample |>).

Definition OnConnectionMigration (r : RttStats) : RttStats :=
  r <| latest_rtt_ := 0 |> <| min_rtt_ := 0 |> <| smoothed_rtt_ := 0 |> <| mean_deviation_ := 0 |>
    <| initial_rtt_ := FromMilliseconds kInitialRttMs |> <| max_ack_delay_ := 0 |>.

Definition SmoothedOrInitialRtt (r : RttStats) : Z :=
  if smoothed_rtt_ r =? 0 then initial_rtt_ r else smoothed_rtt_ r.

Definition set_initial_rtt (initial_rtt : Z) (r : RttStats) : RttStats :=
  if initial_rtt <=? 0 then r else r <| initial_rtt_ := initial_rtt |>.
Definition set_ignore_max_ack_delay (ignore : bool) (r : RttStats) : RttStats :=
  r <| ignore_max_ack_delay_ := ignore |>.
Definition set_initial_max_ack_delay (initial_max_ack_delay : Z) (r : RttStats) : RttStats :=
  r <| max_ack_delay_ := Z.max (max_ack_delay_ r) initial_max_ack_delay |>.

(** * The minimum *)

(** A sample that counts. *)
Definition valid_sample (send_delta : Z) : Prop := 0 < send_delta < kQuicInfiniteTimeUs.

Definition min_of (samples : list Z) : Z :=
  match samples with [] => 0 | x :: samples => fold_left Z.min samples x end.

(** The minimum is the least of the samples; the latest, corrected for the peer's
    delay, lies between the two. *)
Definition measured (samples : list Z) (r : RttStats) : Prop :=
  min_rtt_ r = min_of samples /\ Forall valid_sample samples /\
  match last samples with
  | Some x => min_rtt_ r <= latest_rtt_ r <= x
  | None => latest_rtt_ r = 0
  end.

Lemma min_of_snoc samples x : min_of (samples ++ [x]) = if decide (samples = []) then x else Z.min (min_of samples) x.
Proof. destruct samples as [|y l]; [done|]. cbn [app min_of]. by rewrite fold_left_app. Qed.

Lemma min_of_valid samples : samples <> [] -> Forall valid_sample samples -> valid_sample (min_of samples).
Proof.
  destruct samples as [|x l]; [done|]. intros _ [Hx Hl]%Forall_cons. cbn [min_of]. revert x Hx.
  induction Hl as [|y l Hy _ IH]; intros x Hx; cbn [fold_left]; [done|]. apply IH. unfold valid_sample in *. lia.
Qed.

Lemma smooth_keeps x r : min_rtt_ (smooth x r) = min_rtt_ r /\ latest_rtt_ (smooth x r) = latest_rtt_ r.
Proof. unfold smooth. by destruct (_ =? 0). Qed.

Lemma UpdateRtt_measured samples send_delta ack_delay now r :
  measured samples r -> valid_sample send_delta -> 0 <= ack_delay -> ignore_max_ack_delay_ r = false ->
  measured (samples ++ [send_delta]) (UpdateRtt send_delta ack_delay now r).
Proof.
  intros (Hm & Hv & _) Hs Ha Hi. unfold UpdateRtt, measured.
  assert (Hv' : Forall valid_sample (samples ++ [send_delta])) by (apply Forall_app; split; [done|by constructor]).
  unfold valid_sample, kQuicInfiniteTimeUs in Hs.
  rewrite (proj2 (Z.eqb_neq _ _)), (proj2 (Z.leb_gt _ _)) by (unfold kQuicInfiniteTimeUs; lia). cbn [orb].
  set (r1 := if _ || _ then _ else r).
  assert (E1 : min_rtt_ r1 = min_of (samples ++ [send_delta]) /\ ignore_max_ack_delay_ r1 = false).
  { rewrite min_of_snoc. unfold r1. destruct (decide (samples = [])) as [->|Hne].
    - change (min_of []) with 0 in Hm. rewrite Hm. cbn [Z.eqb orb]. done.
    - destruct (min_of_valid samples Hne Hv) as [Hpos _]. rewrite (proj2 (Z.eqb_neq _ _)) by lia. cbn [orb].
      destruct (Z.ltb_spec send_delta (min_rtt_ r)); (split; [cbn; lia|done]). }
  clearbody r1. destruct E1 as [E1 Ei]. cbv zeta. cbn -[smooth time_sub Z.ltb Z.leb].
  rewrite Ei. pose proof (min_of_valid (samples ++ [send_delta]) ltac:(by destruct samples) Hv') as Hmv.
  unfold valid_sample, kQuicInfiniteTimeUs in Hmv. rewrite <- E1 in Hmv.
  assert (Hle : min_rtt_ r1 <= send_delta) by (rewrite E1, min_of_snoc; destruct (decide _); lia).
  rewrite last_snoc. unfold time_sub. rewrite (swrap_small (send_delta - min_rtt_ r1)) by (unfold sfits; lia).
  destruct (Z.ltb_spec ack_delay send_delta); cbn [andb]; [destruct (Z.leb_spec ack_delay (send_delta - min_rtt_ r1))|];
    cbv iota beta; match goal with |- context [smooth ?x ?y] => destruct (smooth_keeps x y) as [-> ->] end;
    cbn -[smooth]; rewrite <- ?E1; (split_and!; [done|done| |]); rewrite ?(swrap_small (send_delta - ack_delay)) by (unfold sfits; lia); lia.
Qed.
End RttStats.
