(* ===== verification/LossDetection.v ===== *)
(** [GeneralLossAlgorithm] (net/third_party/quic/core/congestion_control/
    general_loss_algorithm.cc): which packets in flight are given up as lost.  The
    scan, with its shortcuts, is shown to compute the packets a specification
    declares lost. *)
From Stdlib Require Import Sorting.Sorted.
From S2P Require Import Prelude.
From S2P Require Import QuicUnits.
From S2P Require Import WindowedFilter.
From S2P Require Import Sampler.
From S2P Require Import RttEstimates.
From S2P Require Import UnackedPackets.

Import RttStats QuicUnackedPacketMap.
Open Scope Z_scope.

Inductive LossDetectionType := kNack | kTime | kAdaptiveTime | kLazyFack.

(** [AckedPacket] and [LostPacket] of quic_types.h. *)
Record AckedPacket := mkAcked { ap_packet_number : Z; bytes_acked : Z; receive_timestamp : Z }.
Record LostPacket := mkLost { lp_packet_number : Z; bytes_lost : Z }.

Module GeneralLossAlgorithm.

(** The last two fields are the flags quic_eighth_rtt_loss_detection and
    quic_fix_adaptive_time_loss, which are read where they are used. *)
Record GeneralLossAlgorithm := mkLoss {
  loss_detection_timeout_ : Z;
  largest_sent_on_spurious_retransmit_ : Z;
  loss_type_ : LossDetectionType;
  reordering_shift_ : Z;
  largest_previously_acked_ : Z;
  largest_lost_ : Z;
  least_in_flight_ : Z;
  faster_detect_loss_ : bool;
  eighth_rtt_loss_detection : bool;
  fix_adaptive_time_loss : bool;
}.

Definition kMinLossDelayMs : Z := 5.
Definition kDefaultLossDelayShift : Z := 2.
Definition kDefaultAdaptiveLossDelayShift : Z := 4.
Definition kNumberOfNacksBeforeRetransmission : Z := 3.
Definition kInvalidPacketNumber : Z := 0.

Definition SetLossDetectionType (loss_type : LossDetectionType) (g : GeneralLossAlgorithm) : GeneralLossAlgorithm :=
  let shift := match loss_type with kAdaptiveTime => kDefaultAdaptiveLossDelayShift | _ => kDefaultLossDelayShift end in
  let shift := match loss_type with kTime => if eighth_rtt_loss_detection g then 3 else shift | _ => shift end in
  g <| loss_detection_timeout_ := 0 |> <| largest_sent_on_spurious_retransmit_ := 0 |> <| loss_type_ := loss_type |>
    <| reordering_shift_ := shift |> <| largest_previously_acked_ := 0 |>.

Definition GeneralLossAlgorithm_ctor (loss_type : LossDetectionType) (faster eighth fix_adaptive : bool) :
    GeneralLossAlgorithm :=
  SetLossDetectionType loss_type (mkLoss 0 0 loss_type 0 0 0 1 faster eighth fix_adaptive).

Definition GetLossDetectionType (g : GeneralLossAlgorithm) : LossDetectionType := loss_type_ g.
Definition GetLossTimeout (g : GeneralLossAlgorithm) : Z := loss_detection_timeout_ g.

Definition is_time (t : LossDetectionType) : bool := match t with kTime | kAdaptiveTime => true | _ => false end.

Definition max_rtt (r : RttStats) : Z := Z.max (previous_srtt_ r) (latest_rtt_ r).
Definition loss_delay (r : RttStats) (g : GeneralLossAlgorithm) : Z :=
  Z.max (FromMilliseconds kMinLossDelayMs) (time_add (max_rtt r) (Z.shiftr (max_rtt r) (reordering_shift_ g))).

(** Lines 125-142: lost because enough later packets were acknowledged. *)
Definition nacked (largest_newly_acked packet_number : Z) (g : GeneralLossAlgorithm) : bool :=
  match loss_type_ g with
  | kNack => kNumberOfNacksBeforeRetransmission <=? largest_newly_acked - packet_number
  | kLazyFack =>
    (largest_previously_acked_ g <? largest_newly_acked) && (packet_number <? largest_previously_acked_ g) &&
    (kNumberOfNacksBeforeRetransmission - 1 <=? largest_previously_acked_ g - packet_number)
  | _ => false
  end.

(** Lines 147-149: losses are a matter of time. *)
Definition by_time (m : QuicUnackedPacketMap) (largest_newly_acked : Z) (g : GeneralLossAlgorithm) : bool :=
  (largest_sent_retransmittable_packet_ m <=? largest_newly_acked) || is_time (loss_type_ g).

(** The loop of lines 119-173 over the packets from [packet_number]; yields the lost
    packets, the timeout and the first packet left in flight. *)
Fixpoint detect (m : QuicUnackedPacketMap) (time : Z) (r : RttStats) (largest_newly_acked : Z)
    (g : GeneralLossAlgorithm) (packet_number : Z) (packets : list QuicTransmissionInfo)
    (lost : list LostPacket) (least_in_flight : Z) : option (list LostPacket * Z * Z) :=
  match packets with
  | [] => Some (lost, 0, least_in_flight)
  | info :: packets =>
    if largest_newly_acked <? packet_number then Some (lost, 0, least_in_flight)
    else
      let next := detect m time r largest_newly_acked g (u64 (packet_number + 1)) packets in
      let first := if least_in_flight =? kInvalidPacketNumber then packet_number else least_in_flight in
      let this := mkLost packet_number (bytes_sent info) in
      if negb (in_flight info) then next lost least_in_flight
      else if nacked largest_newly_acked packet_number g then next (lost ++ [this]) least_in_flight
      else if by_time m largest_newly_acked g then
        let when_lost := time_add (sent_time info) (loss_delay r g) in
        if time <? when_lost then Some (lost, when_lost, first) else next (lost ++ [this]) least_in_flight
      else
        newest ← GetTransmissionInfo largest_newly_acked m;
        if time_add (sent_time info) (smoothed_rtt_ r) <? sent_time newest then next (lost ++ [this]) least_in_flight
        else next lost first
  end.

(** The first packets that were acknowledged one after the other (lines 79-84). *)
Fixpoint skip_acked (packets_acked : list AckedPacket) (least_in_flight : Z) : Z :=
  match packets_acked with
  | [] => least_in_flight
  | a :: packets_acked =>
    if ap_packet_number a =? least_in_flight then skip_acked packets_acked (u64 (least_in_flight + 1))
    else least_in_flight
  end.

(** Where the scan starts (lines 91-118), and [least_in_flight_] when it does. *)
Definition scan_start (m : QuicUnackedPacketMap) (g : GeneralLossAlgorithm) : Z * Z :=
  let packet_number := GetLeastUnacked m in
  if faster_detect_loss_ g then
    (if packet_number <=? least_in_flight_ g then
       if u64 (largest_sent_packet_ m + 1) <? least_in_flight_ g then packet_number else least_in_flight_ g
     else packet_number, kInvalidPacketNumber)
  else
    (if packet_number <=? largest_lost_ g then
       if largest_sent_packet_ m <? largest_lost_ g then packet_number else u64 (largest_lost_ g + 1)
     else packet_number, least_in_flight_ g).

(** Lines 68-69: whether the first packet acknowledged is the least in flight. *)
Definition front_acked (packets_acked : list AckedPacket) (g : GeneralLossAlgorithm) : bool :=
  faster_detect_loss_ g &&
  match packets_acked with a :: _ => ap_packet_number a =? least_in_flight_ g | [] => false end.

(** The scan from where it starts, and what is kept of it (lines 91-182). *)
Definition scan (m : QuicUnackedPacketMap) (time : Z) (r : RttStats) (largest_newly_acked : Z)
    (packets_lost : list LostPacket) (g : GeneralLossAlgorithm) : option (list LostPacket * GeneralLossAlgorithm) :=
  let '(packet_number, least_in_flight) := scan_start m g in
  let packets := drop (Z.to_nat (packet_number - GetLeastUnacked m)) (unacked_packets_ m) in
  '(lost, timeout, least_in_flight) ←
    detect m time r largest_newly_acked g packet_number packets packets_lost least_in_flight;
  let least_in_flight := if least_in_flight =? kInvalidPacketNumber then u64 (largest_newly_acked + 1)
                         else least_in_flight in
  let g := g <| loss_detection_timeout_ := timeout |> <| least_in_flight_ := least_in_flight |>
             <| largest_previously_acked_ := largest_newly_acked |> in
  Some (lost, match last lost with Some p => g <| largest_lost_ := lp_packet_number p |> | None => g end).

Definition DetectLosses (m : QuicUnackedPacketMap) (time : Z) (r : RttStats) (largest_newly_acked : Z)
    (packets_acked : list AckedPacket) (packets_lost : list LostPacket) (g : GeneralLossAlgorithm) :
    option (list LostPacket * GeneralLossAlgorithm) :=
  let g := g <| loss_detection_timeout_ := 0 |> in
  if front_acked packets_acked g &&
     (u64 (least_in_flight_ g + Z.of_nat (length packets_acked) - 1) =? largest_newly_acked)
  then Some (packets_lost, g <| least_in_flight_ := u64 (largest_newly_acked + 1) |>
                             <| largest_previously_acked_ := largest_newly_acked |>)
  else
    let g := if front_acked packets_acked g
             then g <| least_in_flight_ := skip_acked packets_acked (least_in_flight_ g) |> else g in
    scan m time r largest_newly_acked packets_lost g.

(** The loops of lines 208-211 and 220-223; [shift] decreases at every round. *)
Fixpoint lower_shift (fuel : nat) (continue : Z -> bool) (shift : Z) : Z :=
  match fuel with
  | O => shift
  | S fuel => if continue shift then lower_shift fuel continue (shift - 1) else shift
  end.

Definition SpuriousRetransmitDetected (m : QuicUnackedPacketMap) (time : Z) (r : RttStats)
    (spurious_retransmission : Z) (g : GeneralLossAlgorithm) : option GeneralLossAlgorithm :=
  match loss_type_ g with
  | kAdaptiveTime =>
    if reordering_shift_ g =? 0 then Some g
    else
      info ← GetTransmissionInfo spurious_retransmission m;
      let extra_time_needed := time_sub time (sent_time info) in
      let fuel := Z.to_nat (reordering_shift_ g) in
      let allowed shift := Z.shiftr (max_rtt r) shift in
      if fix_adaptive_time_loss g then
        Some (g <| reordering_shift_ :=
                lower_shift fuel (fun s => (allowed s <=? extra_time_needed) && (0 <? s)) (reordering_shift_ g) |>)
      else if spurious_retransmission <=? largest_sent_on_spurious_retransmit_ g then Some g
      else
        let g := g <| largest_sent_on_spurious_retransmit_ := largest_sent_packet_ m |> in
        (* the body runs once before the condition is tested with the shift lowered *)
        let again s := (allowed (s + 1) <? extra_time_needed) && (0 <? s) in
        Some (g <| reordering_shift_ := lower_shift fuel again (reordering_shift_ g - 1) |>)
  | _ => Some g
  end.

(** * Specification *)

(** Whether a packet in flight is lost, once [largest_newly_acked] was acknowledged. *)
Definition is_lost (m : QuicUnackedPacketMap) (time : Z) (r : RttStats) (lna : Z) (g : GeneralLossAlgorithm)
    (n : Z) (info : QuicTransmissionInfo) : bool :=
  in_flight info && (n <=? lna) &&
  (nacked lna n g ||
   if by_time m lna g then sent_time info + loss_delay r g <=? time
   else match GetTransmissionInfo lna m with
        | Some newest => sent_time info + smoothed_rtt_ r <? sent_time newest
        | None => false
        end).

(** The lost ones of the packets from number [n]. *)
Fixpoint lost_from (m : QuicUnackedPacketMap) (time : Z) (r : RttStats) (lna : Z) (g : GeneralLossAlgorithm)
    (n : Z) (packets : list QuicTransmissionInfo) : list LostPacket :=
  match packets with
  | [] => []
  | info :: packets =>
    (if is_lost m time r lna g n info then [mkLost n (bytes_sent info)] else []) ++
    lost_from m time r lna g (n + 1) packets
  end.
Definition lost_packets (m : QuicUnackedPacketMap) (time : Z) (r : RttStats) (lna : Z) (g : GeneralLossAlgorithm) :
    list LostPacket :=
  lost_from m time r lna g (least_unacked_ m) (unacked_packets_ m).

(** Packets in flight were sent in the order of their numbers. *)
Definition sent_before (a b : QuicTransmissionInfo) : Prop :=
  in_flight a = true -> in_flight b = true -> sent_time a <= sent_time b.
Definition in_order (packets : list QuicTransmissionInfo) : Prop := StronglySorted sent_before packets.

(** Times that do not overflow when a delay is added. *)
Definition timely (r : RttStats) (g : GeneralLossAlgorithm) (info : QuicTransmissionInfo) : Prop :=
  0 <= sent_time info < 2 ^ 61 /\ 0 <= smoothed_rtt_ r < 2 ^ 61 /\ 0 <= loss_delay r g < 2 ^ 61.

Lemma time_add_small a b : 0 <= a < 2 ^ 61 -> 0 <= b < 2 ^ 61 -> time_add a b = a + b.
Proof. intros. unfold time_add. apply swrap_small. unfold sfits. lia. Qed.

Lemma nacked_antitone lna n n' g : n <= n' -> nacked lna n' g = true -> nacked lna n g = true.
Proof.
  unfold nacked, kNumberOfNacksBeforeRetransmission. intros Hn.
  destruct (loss_type_ g); try done; rewrite ?andb_true_iff, ?Z.leb_le, ?Z.ltb_lt; [lia|].
  intros [[? ?] ?]. split_and!; lia.
Qed.

Lemma lost_from_late m time r lna g n packets : lna < n -> lost_from m time r lna g n packets = [].
Proof.
  revert n. induction packets as [|info packets IH]; intros n Hn; [done|]. cbn [lost_from].
  unfold is_lost. rewrite (proj2 (Z.leb_gt n lna)) by done. rewrite andb_false_r. cbn [andb app]. apply IH. lia.
Qed.

(** No packet is lost after one whose time has not come. *)
Lemma lost_from_too_early m time r lna g n n0 packets t0 :
  n0 <= n -> by_time m lna g = true -> nacked lna n0 g = false -> time < t0 + loss_delay r g ->
  Forall (fun info => in_flight info = true -> t0 <= sent_time info) packets ->
  lost_from m time r lna g n packets = [].
Proof.
  intros Hn Hb Hk Ht Hall. revert n Hn. induction Hall as [|info packets Hi _ IH]; intros n Hn; [done|].
  cbn [lost_from]. rewrite IH by lia. rewrite app_nil_r. unfold is_lost. rewrite Hb.
  destruct (in_flight info) eqn:Ef; [|done]. specialize (Hi eq_refl).
  destruct (nacked lna n g) eqn:Ek.
  { apply (nacked_antitone _ n0) in Ek; [congruence|done]. }
  rewrite (proj2 (Z.leb_gt (sent_time info + loss_delay r g) time)) by lia. by rewrite andb_false_r.
Qed.

(** The packets of the scan that stay in flight. *)
Definition survivors_from (least : Z) (m : QuicUnackedPacketMap) (time : Z) (r : RttStats) (lna : Z)
    (g : GeneralLossAlgorithm) (n : Z) (packets : list QuicTransmissionInfo) : Prop :=
  forall i info, packets !! i = Some info -> n + Z.of_nat i < least -> in_flight info = true ->
    is_lost m time r lna g (n + Z.of_nat i) info = true.

Lemma survivors_step least m time r lna g n info packets :
  (in_flight info = true -> n < least -> is_lost m time r lna g n info = true) ->
  survivors_from least m time r lna g (n + 1) packets ->
  survivors_from least m time r lna g n (info :: packets).
Proof.
  intros H0 Hs [|i] x Hx Hlt Hf; cbn in Hx.
  - injection Hx as ->. rewrite Z.add_0_r in *. by apply H0.
  - replace (n + Z.of_nat (S i)) with (n + 1 + Z.of_nat i) in * by lia. by apply (Hs i).
Qed.

(** The first packet left in flight, if the scan started without one. *)
Definition first_left (least least' : Z) (m : QuicUnackedPacketMap) (time : Z) (r : RttStats) (lna : Z)
    (g : GeneralLossAlgorithm) (n : Z) (packets : list QuicTransmissionInfo) : Prop :=
  if least =? kInvalidPacketNumber
  then (least' = 0 /\ survivors_from (lna + 1) m time r lna g n packets) \/
       (n <= least' <= lna /\ survivors_from least' m time r lna g n packets)
  else least' = least.

Section scanning.
Context (m : QuicUnackedPacketMap) (time : Z) (r : RttStats) (lna : Z) (g : GeneralLossAlgorithm).
Abbreviation lost_here n info := (is_lost m time r lna g n info).

(** What the loop yields from packet [n] on, entered with [lost] and [least]. *)
Definition finds (lost : list LostPacket) (least n : Z) (packets : list QuicTransmissionInfo)
    (result : option (list LostPacket * Z * Z)) : Prop :=
  exists timeout least', result = Some (lost ++ lost_from m time r lna g n packets, timeout, least') /\
    first_left least least' m time r lna g n packets.

Lemma is_lost_early n info :
  n <= lna ->
  lost_here n info = in_flight info && (nacked lna n g ||
     if by_time m lna g then sent_time info + loss_delay r g <=? time
     else match GetTransmissionInfo lna m with
        | Some newest => sent_time info + smoothed_rtt_ r <? sent_time newest
        | None => false
        end).
Proof. intros Hn. unfold is_lost. rewrite (proj2 (Z.leb_le n lna)) by lia. by rewrite andb_true_r. Qed.

Lemma first_left_step least least' n info packets :
  0 < n <= lna -> (in_flight info = true -> least = 0 -> lost_here n info = true) ->
  first_left least least' m time r lna g (n + 1) packets ->
  first_left least least' m time r lna g n (info :: packets).
Proof.
  intros Hn Hthis. unfold first_left, kInvalidPacketNumber. destruct (Z.eqb_spec least 0); [|done].
  intros [[-> Hf]|[Hr Hf]]; [left; split; [done|]|right; split; [lia|]]; apply survivors_step; auto.
Qed.

(** The loop ends: no packet is lost from here on. *)
Lemma finds_end lost least n packets timeout :
  (lna < n \/ packets = []) -> finds lost least n packets (Some (lost, timeout, least)).
Proof.
  intros Hend. exists timeout, least. split.
  - assert (E : lost_from m time r lna g n packets = []) by (destruct Hend as [?| ->]; [by apply lost_from_late|done]).
    by rewrite E, app_nil_r.
  - unfold first_left. destruct (Z.eqb_spec least kInvalidPacketNumber); [|done]. left. split; [done|].
    intros i x Hx Hi. destruct Hend as [?| ->]; [lia|done].
Qed.

(** A packet that is passed over, one that is lost, and one that stays in flight. *)
Lemma finds_skip lost least n info packets result :
  0 < n <= lna -> lost_here n info = false -> in_flight info = false \/ least <> 0 ->
  finds lost least (n + 1) packets result -> finds lost least n (info :: packets) result.
Proof.
  intros Hn El Hor (timeout & least' & -> & Hf). exists timeout, least'. cbn [lost_from]. rewrite El. split; [done|].
  apply first_left_step; [done| |done]. intros Hfl Hl. destruct Hor; [congruence|lia].
Qed.
Lemma finds_lost lost least n info packets result :
  0 < n <= lna -> lost_here n info = true ->
  finds (lost ++ [mkLost n (bytes_sent info)]) least (n + 1) packets result -> finds lost least n (info :: packets) result.
Proof.
  intros Hn El (timeout & least' & -> & Hf). exists timeout, least'. cbn [lost_from]. rewrite El, app_assoc. split; [done|].
  by apply first_left_step.
Qed.
Lemma first_left_here least n packets :
  n <= lna -> first_left least (if least =? kInvalidPacketNumber then n else least) m time r lna g n packets.
Proof.
  intros Hn. unfold first_left. destruct (Z.eqb_spec least kInvalidPacketNumber); [|done].
  right. split; [lia|]. intros i x Hx Hi. lia.
Qed.
Lemma finds_left lost least n info packets result :
  0 < n <= lna -> lost_here n info = false ->
  finds lost (if least =? kInvalidPacketNumber then n else least) (n + 1) packets result ->
  finds lost least n (info :: packets) result.
Proof.
  intros Hn El (timeout & least' & -> & Hf). exists timeout, least'. cbn [lost_from]. rewrite El. split; [done|].
  assert (Hne : (if least =? kInvalidPacketNumber then n else least) <> kInvalidPacketNumber).
  { destruct (Z.eqb_spec least kInvalidPacketNumber); unfold kInvalidPacketNumber in *; lia. }
  unfold first_left in Hf. rewrite (proj2 (Z.eqb_neq _ _) Hne) in Hf. rewrite Hf. apply first_left_here. lia.
Qed.

(** The first packet whose time has not come ends the scan. *)
Lemma finds_wait lost least n info packets timeout :
  0 < n <= lna -> in_flight info = true -> nacked lna n g = false -> by_time m lna g = true ->
  time < sent_time info + loss_delay r g -> Forall (sent_before info) packets ->
  finds lost least n (info :: packets) (Some (lost, timeout, if least =? kInvalidPacketNumber then n else least)).
Proof.
  intros Hn Ef Ek Eb Hw Hb. eexists _, _. split; [|apply first_left_here; lia]. repeat f_equal. cbn [lost_from].
  rewrite is_lost_early, Ef, Ek, Eb by lia. cbn [andb orb]. rewrite (proj2 (Z.leb_gt _ _)) by exact Hw. cbn [app].
  rewrite (lost_from_too_early m time r lna g (n + 1) n packets (sent_time info)); [by rewrite app_nil_r|lia|done..|].
  eapply Forall_impl; [exact Hb|]. intros x Hx Hfx. by apply Hx.
Qed.

Lemma detect_spec n packets lost least :
  0 < n -> n + Z.of_nat (length packets) < 2 ^ 62 -> 0 <= lna -> in_order packets ->
  Forall (timely r g) packets -> (n <= lna -> packets <> [] -> is_Some (GetTransmissionInfo lna m)) ->
  finds lost least n packets (detect m time r lna g n packets lost least).
Proof.
  revert n lost least. induction packets as [|info packets IH]; intros n lost least Hn Hlen Hlna Ho Ht Hlook.
  { apply finds_end. by right. }
  cbn [length] in Hlen. apply StronglySorted_inv in Ho as [Ho Hb]. apply Forall_cons in Ht as [(Ht1 & Ht2 & Ht3) Ht].
  cbn [detect]. destruct (Z.ltb_spec lna n) as [Hlate|Hle]; [apply finds_end; by left|].
  rewrite (wrap_small 64) by (unfold fits; lia).
  assert (Hnext : forall lost least, finds lost least (n + 1) packets (detect m time r lna g (n + 1) packets lost least)).
  { intros lost1 least1. apply IH; try done; try lia. intros ? ?. by apply Hlook; [lia|]. }
  pose proof (is_lost_early n info Hle) as Eu.
  destruct (in_flight info) eqn:Ef; cbn [negb andb] in *; [|apply finds_skip; auto].
  destruct (nacked lna n g) eqn:Ek; [by apply finds_lost|]. cbn [orb] in Eu.
  destruct (by_time m lna g) eqn:Eb.
  - rewrite time_add_small by lia. destruct (Z.ltb_spec time (sent_time info + loss_delay r g)) as [Hw|Hw].
    + by apply finds_wait.
    + apply finds_lost; [done| |done]. rewrite Eu. by apply Z.leb_le.
  - destruct (Hlook Hle ltac:(done)) as [newest En]. rewrite En in *. cbn [mbind option_bind].
    rewrite time_add_small by lia. destruct (sent_time info + smoothed_rtt_ r <? sent_time newest).
    + by apply finds_lost.
    + by apply finds_left.
Qed.
End scanning.

(** * The whole of [DetectLosses] *)

(** The packets below this number are not looked at again. *)
Definition scan_floor (g : GeneralLossAlgorithm) : Z :=
  if faster_detect_loss_ g then least_in_flight_ g else largest_lost_ g + 1.
Definition idle_below (m : QuicUnackedPacketMap) (floor : Z) : Prop :=
  forall n info, GetTransmissionInfo n m = Some info -> n < floor -> in_flight info = false.

(** The deque ends at the largest packet sent. *)
Definition covers_sent (m : QuicUnackedPacketMap) : Prop :=
  0 < least_unacked_ m /\ least_unacked_ m + size m = largest_sent_packet_ m + 1 /\ largest_sent_packet_ m < 2 ^ 61.

(** The packets acknowledged are in increasing order and no longer in flight. *)
Definition acks_settled (m : QuicUnackedPacketMap) (lna : Z) (acked : list AckedPacket) : Prop :=
  StronglySorted (fun a b => ap_packet_number a < ap_packet_number b) acked /\
  Forall (fun a => ap_packet_number a <= lna /\
    forall info, GetTransmissionInfo (ap_packet_number a) m = Some info -> in_flight info = false) acked.

Lemma GetTransmissionInfo_lookup n m info :
  GetTransmissionInfo n m = Some info <->
  least_unacked_ m <= n /\ unacked_packets_ m !! Z.to_nat (n - least_unacked_ m) = Some info.
Proof.
  unfold GetTransmissionInfo. destruct (Z.ltb_spec n (least_unacked_ m)); [|naive_solver].
  split; [done|]. lia.
Qed.

Lemma lost_from_app m time r lna g n l1 l2 :
  lost_from m time r lna g n (l1 ++ l2) =
  lost_from m time r lna g n l1 ++ lost_from m time r lna g (n + Z.of_nat (length l1)) l2.
Proof.
  revert n. induction l1 as [|x l1 IH]; intros n; cbn [app lost_from length]; [by rewrite Z.add_0_r|].
  rewrite IH, <- app_assoc. do 3 f_equal. lia.
Qed.

Lemma lost_from_idle m time r lna g n packets :
  (forall i info, packets !! i = Some info -> n + Z.of_nat i <= lna -> in_flight info = false) ->
  lost_from m time r lna g n packets = [].
Proof.
  revert n. induction packets as [|x packets IH]; intros n H; cbn [lost_from]; [done|].
  rewrite IH by (intros i info Hi ?; apply (H (S i)); [done|lia]). rewrite app_nil_r. unfold is_lost.
  destruct (Z.leb_spec n lna); [|by rewrite andb_false_r].
  by rewrite (H 0%nat x) by (done || lia).
Qed.

Lemma lost_packets_drop m time r lna g start :
  least_unacked_ m <= start -> idle_below m start ->
  lost_packets m time r lna g =
  lost_from m time r lna g start (drop (Z.to_nat (start - least_unacked_ m)) (unacked_packets_ m)).
Proof.
  intros Hs Hi. unfold lost_packets. set (k := Z.to_nat (start - least_unacked_ m)).
  rewrite <- (take_drop k (unacked_packets_ m)) at 1. rewrite lost_from_app.
  rewrite (lost_from_idle _ _ _ _ _ _ (take k _)); cycle 1.
  { intros i info Hl _. apply lookup_take_Some in Hl as [Hl Hk].
    apply (Hi (least_unacked_ m + Z.of_nat i)); [|lia]. apply GetTransmissionInfo_lookup. split; [lia|].
    by replace (Z.to_nat _) with i by lia. }
  cbn [app]. destruct (decide (k < length (unacked_packets_ m))%nat).
  - f_equal. rewrite length_take_le by lia. lia.
  - by rewrite drop_ge by lia.
Qed.

(** What [lost_packets] holds. *)
Lemma elem_of_lost_from m time r lna g n packets i info :
  packets !! i = Some info -> is_lost m time r lna g (n + Z.of_nat i) info = true ->
  mkLost (n + Z.of_nat i) (bytes_sent info) ∈ lost_from m time r lna g n packets.
Proof.
  revert n i. induction packets as [|x packets IH]; intros n i Hl El; [done|]. cbn [lost_from].
  destruct i as [|i]; cbn in Hl.
  - injection Hl as ->. rewrite Z.add_0_r in *. rewrite El. set_solver.
  - apply elem_of_app. right. replace (n + Z.of_nat (S i)) with (n + 1 + Z.of_nat i) in * by lia. by apply IH.
Qed.

Lemma lost_from_inv m time r lna g n packets p :
  p ∈ lost_from m time r lna g n packets ->
  exists i info, packets !! i = Some info /\ p = mkLost (n + Z.of_nat i) (bytes_sent info) /\
    is_lost m time r lna g (n + Z.of_nat i) info = true.
Proof.
  revert n. induction packets as [|x packets IH]; intros n Hp; cbn [lost_from] in Hp; [set_solver|].
  apply elem_of_app in Hp as [Hp|Hp].
  - exists 0%nat, x. rewrite Z.add_0_r. destruct (is_lost m time r lna g n x); set_solver.
  - apply IH in Hp as (i & info & Hl & -> & El). exists (S i), info.
    replace (n + Z.of_nat (S i)) with (n + 1 + Z.of_nat i) by lia. done.
Qed.

(** A packet in flight sent before a lost one is lost. *)
Lemma is_lost_before m time r lna g n info n' info' :
  n <= n' -> in_flight info = true -> sent_before info info' ->
  is_lost m time r lna g n' info' = true -> is_lost m time r lna g n info = true.
Proof.
  unfold is_lost, sent_before. intros Hn Hf Ho. rewrite !andb_true_iff, !orb_true_iff, !Z.leb_le.
  intros [[Hf' Hl] H]. specialize (Ho Hf Hf'). split_and!; [done|lia|].
  destruct H as [H|H]; [left; by apply (nacked_antitone _ n n')|right].
  destruct (by_time m lna g); [apply Z.leb_le in H; apply Z.leb_le; lia|].
  destruct (GetTransmissionInfo lna m); [|done]. apply Z.ltb_lt in H. apply Z.ltb_lt. lia.
Qed.

Lemma sorted_room lna acked a :
  StronglySorted (fun a b => ap_packet_number a < ap_packet_number b) (a :: acked) ->
  Forall (fun a => ap_packet_number a <= lna) (a :: acked) ->
  ap_packet_number a + Z.of_nat (length acked) <= lna.
Proof.
  revert a. induction acked as [|b acked IH]; intros a Hs Hf; apply Forall_cons in Hf as [Ha Hf].
  - cbn. lia.
  - apply StronglySorted_inv in Hs as [Hs Hb]. apply Forall_cons in Hb as [Hb _].
    specialize (IH b Hs Hf). cbn [length]. lia.
Qed.

(** As many acknowledged packets as there are numbers up to the largest: each number. *)
Lemma sorted_run lna acked a n :
  StronglySorted (fun a b => ap_packet_number a < ap_packet_number b) (a :: acked) ->
  Forall (fun a => ap_packet_number a <= lna) (a :: acked) ->
  ap_packet_number a + Z.of_nat (length acked) = lna -> ap_packet_number a <= n <= lna ->
  exists b, b ∈ a :: acked /\ ap_packet_number b = n.
Proof.
  revert a. induction acked as [|b acked IH]; intros a Hs Hf Hl Hn.
  - exists a. cbn in Hl. split; [set_solver|lia].
  - destruct (decide (ap_packet_number a = n)) as [|Hne]; [exists a; split; [set_solver|done]|].
    apply StronglySorted_inv in Hs as [Hs Hb]. apply Forall_cons in Hb as [Hb _].
    apply Forall_cons in Hf as [_ Hf]. pose proof (sorted_room _ _ _ Hs Hf). cbn [length] in Hl.
    destruct (IH b Hs Hf) as (x & Hx & E); [lia|lia|]. exists x. split; [set_solver|done].
Qed.

Lemma skip_acked_idle m lna acked least :
  Forall (fun a => ap_packet_number a <= lna /\
    forall info, GetTransmissionInfo (ap_packet_number a) m = Some info -> in_flight info = false) acked ->
  0 <= least <= lna + 1 -> lna < 2 ^ 62 -> idle_below m least ->
  0 <= skip_acked acked least <= lna + 1 /\ idle_below m (skip_acked acked least).
Proof.
  intros Hf Hr Hl. revert least Hr. induction Hf as [|a acked [Ha Hn] _ IH]; intros least Hr Hi; [done|].
  cbn [skip_acked]. destruct (Z.eqb_spec (ap_packet_number a) least) as [E|]; [|done].
  rewrite (wrap_small 64) by (unfold fits; lia). apply IH; [lia|].
  intros n info Hg Hlt. destruct (decide (n = least)) as [->|]; [rewrite <- E in Hg; by apply Hn|].
  apply (Hi n info Hg). lia.
Qed.

Lemma StronglySorted_lookup {A} (R : A -> A -> Prop) (l : list A) i j x y :
  StronglySorted R l -> (i < j)%nat -> l !! i = Some x -> l !! j = Some y -> R x y.
Proof.
  intros Hs. revert i j. induction Hs as [|a l Hs IH Ha]; intros i j Hij Hx Hy; [done|].
  destruct j as [|j]; [lia|]. destruct i as [|i]; cbn in Hx, Hy; [|apply (IH i j); [lia|done|done]].
  injection Hx as ->. rewrite Forall_forall in Ha. apply Ha. by apply list_elem_of_lookup_2 in Hy.
Qed.

(** Every packet in flight below the floor is among the lost ones. *)
Definition floor_lost (m : QuicUnackedPacketMap) (floor : Z) (lost : list LostPacket) : Prop :=
  forall n info, GetTransmissionInfo n m = Some info -> n < floor -> in_flight info = true ->
    mkLost n (bytes_sent info) ∈ lost.

(** All packets up to the largest were acknowledged. *)
Lemma front_run_idle m lna acked g :
  acks_settled m lna acked -> lna < 2 ^ 62 -> idle_below m (least_in_flight_ g) -> 0 <= least_in_flight_ g < 2 ^ 62 ->
  0 < lna -> front_acked acked g = true -> Z.of_nat (length acked) < 2 ^ 62 ->
  u64 (least_in_flight_ g + Z.of_nat (length acked) - 1) = lna -> idle_below m (lna + 1).
Proof.
  intros [Hs Hf] Hl Hi Hr Hl0 Hfr Hlen He n info Hg Hn. unfold front_acked in Hfr.
  apply andb_true_iff in Hfr as [_ Hfr]. destruct acked as [|a acked]; [done|]. apply Z.eqb_eq in Hfr.
  cbn [length] in *. rewrite (wrap_small 64) in He by (unfold fits; lia).
  destruct (decide (n < least_in_flight_ g)); [by apply (Hi n info)|].
  destruct (sorted_run lna acked a n Hs) as (b & Hb & E); [|lia|lia|].
  { eapply Forall_impl; [exact Hf|]. naive_solver. }
  rewrite Forall_forall in Hf. apply (Hf b); [done|by rewrite E].
Qed.

Lemma lost_floor m time r lna g start floor :
  covers_sent m -> in_order (unacked_packets_ m) -> least_unacked_ m <= start -> idle_below m start ->
  survivors_from floor m time r lna g start (drop (Z.to_nat (start - least_unacked_ m)) (unacked_packets_ m)) ->
  floor_lost m floor (lost_packets m time r lna g).
Proof.
  intros Hc Ho Hs Hi Hsv n info Hg Hn Hf. apply GetTransmissionInfo_lookup in Hg as Hg'. destruct Hg' as [Hle Hl].
  destruct (decide (n < start)) as [Hlt|Hge]; [rewrite (Hi n info Hg Hlt) in Hf; done|].
  assert (Hd : drop (Z.to_nat (start - least_unacked_ m)) (unacked_packets_ m) !! Z.to_nat (n - start) = Some info).
  { rewrite lookup_drop. replace (_ + _)%nat with (Z.to_nat (n - least_unacked_ m)) by lia. done. }
  specialize (Hsv (Z.to_nat (n - start)) info Hd ltac:(lia) Hf).
  pose proof (elem_of_lost_from m time r lna g (least_unacked_ m) (unacked_packets_ m) _ _ Hl) as H.
  replace (least_unacked_ m + Z.of_nat (Z.to_nat (n - least_unacked_ m))) with n in H by lia. apply H.
  by replace (start + Z.of_nat (Z.to_nat (n - start))) with n in Hsv by lia.
Qed.

(** The same below the last packet lost: losses come in the order of sending. *)
Lemma lost_floor_last m time r lna g p :
  in_order (unacked_packets_ m) -> last (lost_packets m time r lna g) = Some p ->
  floor_lost m (lp_packet_number p + 1) (lost_packets m time r lna g).
Proof.
  intros Ho Hp n info Hg Hn Hf. apply GetTransmissionInfo_lookup in Hg as [Hle Hl].
  assert (Hin : p ∈ lost_packets m time r lna g) by (apply last_Some_elem_of; done).
  apply lost_from_inv in Hin as (i & info' & Hl' & -> & El). cbn [lp_packet_number] in Hn.
  pose proof (elem_of_lost_from m time r lna g (least_unacked_ m) (unacked_packets_ m) _ _ Hl) as H.
  replace (least_unacked_ m + Z.of_nat (Z.to_nat (n - least_unacked_ m))) with n in H by lia. apply H.
  destruct (decide (n = least_unacked_ m + Z.of_nat i)) as [->|].
  { replace (Z.to_nat _) with i in Hl by lia. congruence. }
  apply (is_lost_before _ _ _ _ _ _ _ (least_unacked_ m + Z.of_nat i) info'); [lia|done| |done].
  by apply (StronglySorted_lookup _ (unacked_packets_ m) (Z.to_nat (n - least_unacked_ m)) i); [|lia|..].
Qed.

Lemma lost_packets_ext m time r lna g g' :
  (forall n info, is_lost m time r lna g n info = is_lost m time r lna g' n info) ->
  lost_packets m time r lna g = lost_packets m time r lna g'.
Proof.
  intros H. unfold lost_packets. generalize (least_unacked_ m) (unacked_packets_ m). intros n packets. revert n.
  induction packets as [|x packets IH]; intros n; cbn [lost_from]; [done|]. by rewrite H, IH.
Qed.

Lemma scan_start_ok m g start least :
  covers_sent m -> 0 <= least_in_flight_ g < 2 ^ 62 -> 0 <= largest_lost_ g < 2 ^ 62 -> idle_below m (scan_floor g) ->
  scan_start m g = (start, least) ->
  least_unacked_ m <= start <= largest_sent_packet_ m + 1 /\ idle_below m start /\
  (faster_detect_loss_ g = true -> least = 0).
Proof.
  intros (Hc1 & Hc2 & Hc3) Hlf Hll Hi. unfold size in Hc2.
  assert (H0 : idle_below m (least_unacked_ m)).
  { intros n info Hg ?. apply GetTransmissionInfo_lookup in Hg as [? _]. lia. }
  unfold scan_start, scan_floor, GetLeastUnacked in *. rewrite (wrap_small 64) by (unfold fits; lia).
  rewrite (wrap_small 64) by (unfold fits; lia).
  destruct (faster_detect_loss_ g); intros [= <- <-];
    repeat match goal with |- context [Z.leb ?a ?b] => destruct (Z.leb_spec a b) end;
    repeat match goal with |- context [Z.ltb ?a ?b] => destruct (Z.ltb_spec a b) end;
    (split_and!; [lia|lia|done|done]).
Qed.

Lemma in_order_drop k packets : in_order packets -> in_order (drop k packets).
Proof.
  unfold in_order. intros H. revert k. induction H as [|a l H IH Ha]; intros [|k]; cbn [drop]; try constructor; auto.
Qed.

(** The scan finds the lost packets and leaves none below where the next one starts. *)
Lemma scan_exact m time r lna g :
  covers_sent m -> 0 < lna <= largest_sent_packet_ m -> in_order (unacked_packets_ m) ->
  Forall (timely r g) (unacked_packets_ m) -> 0 <= least_in_flight_ g < 2 ^ 62 ->
  0 <= largest_lost_ g < 2 ^ 62 -> idle_below m (scan_floor g) ->
  exists g', scan m time r lna [] g = Some (lost_packets m time r lna g, g') /\
    floor_lost m (scan_floor g') (lost_packets m time r lna g).
Proof.
  intros Hc Hlna Ho Ht Hlf Hll Hi. unfold scan. destruct (scan_start m g) as [start least] eqn:Es.
  destruct (scan_start_ok _ _ _ _ Hc Hlf Hll Hi Es) as (Hs & Hidle & Hleast). pose proof Hc as (Hc1 & Hc2 & Hc3).
  unfold size in Hc2. set (packets := drop _ _).
  destruct (detect_spec m time r lna g start packets [] least) as (timeout & least' & E & Hf).
  - lia.
  - subst packets. rewrite length_drop. lia.
  - lia.
  - by apply in_order_drop.
  - by apply Forall_drop.
  - intros Hle _. unfold GetTransmissionInfo. destruct (Z.ltb_spec lna (least_unacked_ m)); [lia|].
    apply lookup_lt_is_Some_2. lia.
  - rewrite E. cbn [mbind option_bind app]. rewrite <- lost_packets_drop by (done || lia).
    eexists. split; [done|].
    assert (Hfast : faster_detect_loss_ g = true ->
      floor_lost m (if least' =? kInvalidPacketNumber then u64 (lna + 1) else least') (lost_packets m time r lna g)).
    { intros Efast. rewrite (Hleast Efast) in Hf. rewrite (wrap_small 64) by (unfold fits; lia).
      apply (lost_floor m time r lna g start); try done; [lia|].
      destruct Hf as [[-> Hf]|[Hr Hf]]; [exact Hf|].
      by rewrite (proj2 (Z.eqb_neq least' kInvalidPacketNumber)) by (unfold kInvalidPacketNumber; lia). }
    unfold scan_floor in *. destruct (last _) as [p|] eqn:El; cbn; destruct (faster_detect_loss_ g) eqn:Efast;
      (by apply Hfast) || (by apply lost_floor_last) || idtac.
    intros n info Hg Hn Hfl. by rewrite (Hi n info Hg Hn) in Hfl.
Qed.

Lemma DetectLosses_exact m time r lna acked g :
  covers_sent m -> 0 < lna <= largest_sent_packet_ m -> in_order (unacked_packets_ m) ->
  Forall (timely r g) (unacked_packets_ m) -> acks_settled m lna acked -> Z.of_nat (length acked) < 2 ^ 61 ->
  0 <= least_in_flight_ g <= lna + 1 -> 0 <= largest_lost_ g <= largest_sent_packet_ m -> idle_below m (scan_floor g) ->
  exists g', DetectLosses m time r lna acked [] g = Some (lost_packets m time r lna g, g') /\
    floor_lost m (scan_floor g') (lost_packets m time r lna g).
Proof.
  intros Hc Hlna Ho Ht Ha Hla Hlf Hll Hi. pose proof Hc as (Hc1 & Hc2 & Hc3). unfold DetectLosses.
  set (g0 := g <| loss_detection_timeout_ := 0 |>).
  destruct (front_acked acked g0 && _) eqn:Ef.
  { apply andb_true_iff in Ef as [Ef Ee]. apply Z.eqb_eq in Ee.
    assert (Efast : faster_detect_loss_ g = true) by (unfold front_acked in Ef; by apply andb_true_iff in Ef as [? _]).
    unfold scan_floor in Hi. rewrite Efast in Hi.
    pose proof (front_run_idle m lna acked g0 Ha ltac:(lia) Hi ltac:(cbn; lia) ltac:(lia) Ef ltac:(lia) Ee) as Hidle.
    eexists. split.
    - rewrite (lost_packets_drop _ _ _ _ _ (Z.max (least_unacked_ m) (lna + 1))); [|lia|].
      + rewrite lost_from_late by lia. done.
      + intros n info Hg Hn. apply (Hidle n info Hg). apply GetTransmissionInfo_lookup in Hg as [? _]. lia.
    - unfold scan_floor. cbn. rewrite Efast. intros n info Hg Hn Hf.
      rewrite (wrap_small 64) in Hn by (unfold fits; lia). by rewrite (Hidle n info Hg Hn) in Hf. }
  destruct (front_acked acked g0) eqn:Ef'; cycle 1.
  { destruct (scan_exact m time r lna g0) as (g' & E & Hfl); try done; try (cbn; lia); [].
    rewrite (lost_packets_ext _ _ _ _ _ g) in E, Hfl by done. by exists g'. }
  assert (Efast : faster_detect_loss_ g = true) by (unfold front_acked in Ef'; by apply andb_true_iff in Ef' as [? _]).
  unfold scan_floor in Hi. rewrite Efast in Hi. destruct Ha as [Has Haf].
  destruct (skip_acked_idle m lna acked (least_in_flight_ g) Haf) as [Hr Hi']; [lia|lia|done|].
  set (g1 := g0 <| least_in_flight_ := skip_acked acked (least_in_flight_ g0) |>).
  destruct (scan_exact m time r lna g1) as (g' & E & Hfl); try done; try (cbn; lia); [|].
  - unfold scan_floor. cbn. by rewrite Efast.
  - rewrite (lost_packets_ext _ _ _ _ _ g) in E, Hfl by done. by exists g'.
Qed.
End GeneralLossAlgorithm.
