(* ===== verification/SendAlgorithm.v ===== *)
(** What a connection is configured with (quic_config.cc, the option tags of
    crypto_protocol.h), as far as the manager of sent packets and the send algorithms read
    it, and the interface of the send algorithms (send_algorithm_interface.h). *)
From Stdlib Require Import Ascii.
From stdpp Require Import list strings.
From S2P Require Import Prelude.
From S2P Require Import FramerTypes.
From S2P Require Import QuicUnits.
From S2P Require Import RttEstimates.
From S2P Require Import UnackedPackets.
From S2P Require Import LossDetection.

Import RttStats QuicUnackedPacketMap.
Open Scope Z_scope.

(** * The options a client asks for *)

(** crypto_protocol.h: [TAG]. *)
Definition TAG (a b c d : Ascii.ascii) : Z :=
  let code ch := Z.of_nat (Ascii.nat_of_ascii ch) in
  u32 (code d * 2 ^ 24 + code c * 2 ^ 16 + code b * 2 ^ 8 + code a).

Section tags.
Local Open Scope char_scope.
Definition k1RTT : Z := TAG "1" "R" "T" "T".
Definition k2RTT : Z := TAG "2" "R" "T" "T".
Definition kLRTT : Z := TAG "L" "R" "T" "T".
Definition kBBS1 : Z := TAG "B" "B" "S" "1".
Definition kBBS2 : Z := TAG "B" "B" "S" "2".
Definition kBBS3 : Z := TAG "B" "B" "S" "3".
Definition kBBS4 : Z := TAG "B" "B" "S" "4".
Definition kBBS5 : Z := TAG "B" "B" "S" "5".
Definition kBBR3 : Z := TAG "B" "B" "R" "3".
Definition kBBR4 : Z := TAG "B" "B" "R" "4".
Definition kBBR5 : Z := TAG "B" "B" "R" "5".
Definition kBBR6 : Z := TAG "B" "B" "R" "6".
Definition kBBR7 : Z := TAG "B" "B" "R" "7".
Definition kBBR8 : Z := TAG "B" "B" "R" "8".
Definition kBBR9 : Z := TAG "B" "B" "R" "9".
Definition kBBRS : Z := TAG "B" "B" "R" "S".
Definition kBBQ1 : Z := TAG "B" "B" "Q" "1".
Definition kBBQ2 : Z := TAG "B" "B" "Q" "2".
Definition kBBQ3 : Z := TAG "B" "B" "Q" "3".
Definition kBBQ4 : Z := TAG "B" "B" "Q" "4".
Definition kBBQ5 : Z := TAG "B" "B" "Q" "5".
Definition kMIN1 : Z := TAG "M" "I" "N" "1".
Definition kQBIC : Z := TAG "Q" "B" "I" "C".
Definition kTBBR : Z := TAG "T" "B" "B" "R".
Definition kRENO : Z := TAG "R" "E" "N" "O".
Definition kTPCC : Z := TAG "P" "C" "C" zero.
Definition kBYTE : Z := TAG "B" "Y" "T" "E".
Definition kIW03 : Z := TAG "I" "W" "0" "3".
Definition kIW10 : Z := TAG "I" "W" "1" "0".
Definition kIW20 : Z := TAG "I" "W" "2" "0".
Definition kIW50 : Z := TAG "I" "W" "5" "0".
Definition k1CON : Z := TAG "1" "C" "O" "N".
Definition kNTLP : Z := TAG "N" "T" "L" "P".
Definition k1TLP : Z := TAG "1" "T" "L" "P".
Definition k1RTO : Z := TAG "1" "R" "T" "O".
Definition kNCON : Z := TAG "N" "C" "O" "N".
Definition kNRTO : Z := TAG "N" "R" "T" "O".
Definition kTIME : Z := TAG "T" "I" "M" "E".
Definition kATIM : Z := TAG "A" "T" "I" "M".
Definition kTLPR : Z := TAG "T" "L" "P" "R".
Definition kMAD0 : Z := TAG "M" "A" "D" "0".
Definition kMAD1 : Z := TAG "M" "A" "D" "1".
Definition kMAD2 : Z := TAG "M" "A" "D" "2".
Definition kMAD3 : Z := TAG "M" "A" "D" "3".
Definition kMAD4 : Z := TAG "M" "A" "D" "4".
Definition kMAD5 : Z := TAG "M" "A" "D" "5".
Definition kCONH : Z := TAG "C" "O" "N" "H".
Definition kLFAK : Z := TAG "L" "F" "A" "K".
Definition kNRTT : Z := TAG "N" "R" "T" "T".
End tags.

(** quic_config.h: a vector of tags that may have been set to be sent, or received. *)
Record QuicFixedTagVector := mkTags {
  send_values_ : list Z;
  has_send_values_ : bool;
  receive_values_ : list Z;
  has_receive_values_ : bool;
}.
Definition QuicFixedTagVector_ctor : QuicFixedTagVector := mkTags [] false [] false.
Definition SetSendValues (values : list Z) (v : QuicFixedTagVector) : QuicFixedTagVector :=
  mkTags values true (receive_values_ v) (has_receive_values_ v).
Definition SetReceivedValues (values : list Z) (v : QuicFixedTagVector) : QuicFixedTagVector :=
  mkTags (send_values_ v) (has_send_values_ v) values true.

(** A number that may have been set to be sent, or received. *)
Record QuicFixedUint32 := mkUint32 {
  send_value_ : Z;
  has_send_value_ : bool;
  receive_value_ : Z;
  has_receive_value_ : bool;
}.
Definition QuicFixedUint32_ctor : QuicFixedUint32 := mkUint32 0 false 0 false.
Definition SetSendValue (value : Z) (v : QuicFixedUint32) : QuicFixedUint32 :=
  mkUint32 value true (receive_value_ v) (has_receive_value_ v).
Definition SetReceivedValue (value : Z) (v : QuicFixedUint32) : QuicFixedUint32 :=
  mkUint32 (send_value_ v) (has_send_value_ v) value true.

(** The values of [QuicConfig] that are read here. *)
Record QuicConfig := mkConfig {
  connection_options_ : QuicFixedTagVector;
  client_connection_options_ : QuicFixedTagVector;
  initial_round_trip_time_us_ : QuicFixedUint32;
}.

Definition ContainsQuicTag (tag_vector : list Z) (tag : Z) : bool := bool_decide (tag ∈ tag_vector).

Definition HasClientSentConnectionOption (config : QuicConfig) (tag : Z) (perspective : Perspective) : bool :=
  match perspective with
  | IS_SERVER => has_receive_values_ (connection_options_ config) &&
                 ContainsQuicTag (receive_values_ (connection_options_ config)) tag
  | IS_CLIENT => has_send_values_ (connection_options_ config) &&
                 ContainsQuicTag (send_values_ (connection_options_ config)) tag
  end.

Definition HasClientRequestedIndependentOption (config : QuicConfig) (tag : Z) (perspective : Perspective) : bool :=
  match perspective with
  | IS_SERVER => has_receive_values_ (connection_options_ config) &&
                 ContainsQuicTag (receive_values_ (connection_options_ config)) tag
  | IS_CLIENT => has_send_values_ (client_connection_options_ config) &&
                 ContainsQuicTag (send_values_ (client_connection_options_ config)) tag
  end.

(** * Send algorithms *)

Inductive CongestionControlType := kCubicBytes | kRenoBytes | kBBR | kPCC | kGoogCC.

(** send_algorithm_interface.h, as far as the manager calls it. *)
Class SendAlgorithmInterface (SA : Type) := {
  sa_OnPacketSent : RttStats -> QuicUnackedPacketMap -> Z -> Z -> Z -> Z -> bool -> SA -> SA;
  sa_OnCongestionEvent : RttStats -> QuicUnackedPacketMap -> bool -> Z -> Z -> list AckedPacket -> list LostPacket ->
    SA -> SA;
  sa_OnRetransmissionTimeout : bool -> SA -> SA;
  sa_OnConnectionMigration : SA -> SA;
  sa_OnApplicationLimited : RttStats -> QuicUnackedPacketMap -> Z -> SA -> SA;
  sa_AdjustNetworkParameters : Z -> Z -> SA -> SA;
  sa_SetNumEmulatedConnections : Z -> SA -> SA;
  sa_CanSend : RttStats -> Z -> SA -> bool;
  sa_BandwidthEstimate : SA -> Z;
  sa_GetCongestionWindow : RttStats -> SA -> Z;
  sa_GetSlowStartThreshold : SA -> Z;
  sa_InSlowStart : SA -> bool;
  sa_InRecovery : SA -> bool;
  sa_PacingRate : RttStats -> Z -> SA -> Z;
  sa_SetFromConfig : QuicConfig -> Perspective -> SA -> SA;
  sa_SetInitialCongestionWindowInPackets : Z -> SA -> SA;
}.

