(* ===== verification/BandwidthRecorder.v ===== *)
(** quic_sustained_bandwidth_recorder.cc: the bandwidth estimate that has lasted for three
    round trip times without a recovery.  A [QuicWallTime] is its microseconds. *)
From S2P Require Import Prelude.
From S2P Require Import QuicUnits.
From S2P Require Import Sampler.

Open Scope Z_scope.

Module QuicSustainedBandwidthRecorder.

Record QuicSustainedBandwidthRecorder := mkRecorder {
  has_estimate_ : bool;
  is_recording_ : bool;
  bandwidth_estimate_recorded_during_slow_start_ : bool;
  bandwidth_estimate_ : Z;
  max_bandwidth_estimate_ : Z;
  max_bandwidth_timestamp_ : Z;
  start_time_ : Z;
}.
Implicit Types s : QuicSustainedBandwidthRecorder.

Definition QuicSustainedBandwidthRecorder_ctor : QuicSustainedBandwidthRecorder := mkRecorder false false false 0 0 0 0.

Definition ToUNIXSeconds (microseconds_ : Z) : Z := microseconds_ / 1000000.

Definition RecordEstimate (in_recovery in_slow_start : bool) (bandwidth estimate_time wall_time srtt : Z) s :
    QuicSustainedBandwidthRecorder :=
  if in_recovery then s <| is_recording_ := false |>
  else if negb (is_recording_ s) then s <| start_time_ := estimate_time |> <| is_recording_ := true |>
  else
    let s := if delta_mul_int 3 srtt <=? time_sub estimate_time (start_time_ s)
             then s <| has_estimate_ := true |> <| bandwidth_estimate_recorded_during_slow_start_ := in_slow_start |>
                    <| bandwidth_estimate_ := bandwidth |> else s in
    if max_bandwidth_estimate_ s <? bandwidth
    then s <| max_bandwidth_estimate_ := bandwidth |> <| max_bandwidth_timestamp_ := ToUNIXSeconds wall_time |> else s.
End QuicSustainedBandwidthRecorder.
