(* ===== verification/PacedSending.v ===== *)
(** libquic's [PacingSender] (congestion_control/pacing_sender.{h,cc}), which the manager of
    sent packets puts in front of its send algorithm when pacing is on: it tells the
    algorithm what happens, and delays packets beyond an initial burst so that they leave
    at the algorithm's rate, in lumps of a few packets.

    The algorithm it has a pointer to is that of the manager, which is passed to it and
    returned; with it go the round trip times and unacked packets that the algorithm
    reads. *)
From stdpp Require Import list.
From S2P Require Import Prelude.
From S2P Require Import QuicUnits.
From S2P Require Import Sampler.
From S2P Require Import RttEstimates.
From S2P Require Import UnackedPackets.
From S2P Require Import LossDetection.
From S2P Require Import SendAlgorithm.

Open Scope Z_scope.

Module PacingSender.
Import RttStats QuicUnackedPacketMap.

Definition kInitialUnpacedBurst : Z := 10.

(** The flags of quic_flags_list.h it reads, and their values there. *)
Record Flags := mkPacingFlags {
  quic_donot_reset_ideal_next_packet_send_time : bool;
  quic_lumpy_pacing_size : Z;
  quic_lumpy_pacing_cwnd_fraction : spec_float;
}.
Definition default_flags : Flags := mkPacingFlags false 1 (widen (narrow (literal 25 100))).

Record PacingSender := mkPacingSender {
  flags_ : Flags;
  max_pacing_rate_ : Z;
  burst_tokens_ : Z;
  ideal_next_packet_send_time_ : Z;
  initial_burst_size_ : Z;
  lumpy_tokens_ : Z;
  alarm_granularity_ : Z;
  pacing_limited_ : bool;
}.
Implicit Types p : PacingSender.

Definition PacingSender_ctor (flags : Flags) : PacingSender :=
  mkPacingSender flags 0 kInitialUnpacedBurst 0 kInitialUnpacedBurst 0 (FromMilliseconds 1) false.

Definition set_max_pacing_rate (max_pacing_rate : Z) p : PacingSender := p <| max_pacing_rate_ := max_pacing_rate |>.
Definition set_alarm_granularity (alarm_granularity : Z) p : PacingSender :=
  p <| alarm_granularity_ := alarm_granularity |>.
Definition OnApplicationLimited p : PacingSender := p <| pacing_limited_ := false |>.

Section pacer.
Context {SA : Type} {SI : SendAlgorithmInterface SA}.
Implicit Types sender : SA.

Definition OnCongestionEvent (r : RttStats) (u : QuicUnackedPacketMap) (rtt_updated : bool) (bytes_in_flight event_time : Z)
    (acked_packets : list AckedPacket) (lost_packets : list LostPacket) p sender : PacingSender * SA :=
  (match lost_packets with [] => p | _ => p <| burst_tokens_ := 0 |> end,
   sa_OnCongestionEvent r u rtt_updated bytes_in_flight event_time acked_packets lost_packets sender).

Definition PacingRate (r : RttStats) (bytes_in_flight : Z) p sender : Z :=
  if max_pacing_rate_ p =? 0 then sa_PacingRate r bytes_in_flight sender
  else QuicBandwidth (Z.min (max_pacing_rate_ p) (sa_PacingRate r bytes_in_flight sender)).

(** Lines 90-96: the packets of the next lump. *)
Definition lump (r : RttStats) p sender : Z :=
  let window := f64_mul (f64_of_Z (sa_GetCongestionWindow r sender)) (quic_lumpy_pacing_cwnd_fraction (flags_ p)) in
  Z.max 1 (Z.min (u32 (quic_lumpy_pacing_size (flags_ p)))
                 (u32 (f32_to_u64 (SFdiv 53 1024 window (f64_of_Z kDefaultTCPMSS))))).

(** Lines 67-74: leaving quiescence allows for a burst. *)
Definition renew_burst (r : RttStats) (bytes_in_flight : Z) p sender : PacingSender :=
  if (bytes_in_flight =? 0) && negb (sa_InRecovery sender)
  then p <| burst_tokens_ := Z.min (initial_burst_size_ p) (u32 (sa_GetCongestionWindow r sender / kDefaultTCPMSS)) |>
  else p.

(** Lines 75-82: a packet of a burst. *)
Definition take_burst_token p : PacingSender :=
  let p := p <| burst_tokens_ := burst_tokens_ p - 1 |> in
  let p := if quic_donot_reset_ideal_next_packet_send_time (flags_ p) then p
           else p <| ideal_next_packet_send_time_ := 0 |> in
  p <| pacing_limited_ := false |>.

(** Lines 83-107: a packet that is paced. *)
Definition pace (r : RttStats) (sent_time bytes_in_flight bytes : Z) p sender : PacingSender :=
  let bytes_in_flight := u64 (bytes_in_flight + bytes) in
  let delay := TransferTime (PacingRate r bytes_in_flight p sender) bytes in
  let p := if negb (pacing_limited_ p) || (lumpy_tokens_ p =? 0) then p <| lumpy_tokens_ := lump r p sender |> else p in
  let p := p <| lumpy_tokens_ := lumpy_tokens_ p - 1 |> in
  let ideal := time_add (ideal_next_packet_send_time_ p) delay in
  let p := p <| ideal_next_packet_send_time_ :=
                  if pacing_limited_ p then ideal else Z.max ideal (time_add sent_time delay) |> in
  p <| pacing_limited_ := sa_CanSend r bytes_in_flight sender |>.

Definition OnPacketSent (r : RttStats) (u : QuicUnackedPacketMap) (sent_time bytes_in_flight packet_number bytes : Z)
    (has_retransmittable_data : bool) p sender : PacingSender * SA :=
  let sender := sa_OnPacketSent r u sent_time bytes_in_flight packet_number bytes has_retransmittable_data sender in
  if negb has_retransmittable_data then (p, sender)
  else
    let p := renew_burst r bytes_in_flight p sender in
    (if 0 <? burst_tokens_ p then take_burst_token p else pace r sent_time bytes_in_flight bytes p sender, sender).

Definition TimeUntilSend (r : RttStats) (now bytes_in_flight : Z) p sender : Z :=
  if negb (sa_CanSend r bytes_in_flight sender) then kQuicInfiniteTimeUs
  else if (0 <? burst_tokens_ p) || (bytes_in_flight =? 0) || (0 <? lumpy_tokens_ p) then 0
  else if time_add now (alarm_granularity_ p) <? ideal_next_packet_send_time_ p
       then time_sub (ideal_next_packet_send_time_ p) now else 0.

(** * What it passes on *)

(** The send algorithm is told the same with and without pacing. *)
Lemma OnPacketSent_sender r u t f n b h p sender :
  (OnPacketSent r u t f n b h p sender).2 = sa_OnPacketSent r u t f n b h sender.
Proof. unfold OnPacketSent. by destruct h. Qed.

Lemma OnCongestionEvent_sender r u updated f t acked lost p sender :
  (OnCongestionEvent r u updated f t acked lost p sender).2 = sa_OnCongestionEvent r u updated f t acked lost sender.
Proof. done. Qed.
(** * Busy periods *)

(** A packet with data is sent when told to, while other packets are in flight and no burst
    is left; the algorithm has a rate, and no clock overflows. *)
Record sendable (r : RttStats) (u : QuicUnackedPacketMap) (t f n b : Z) p sender : Prop := {
  no_wait : TimeUntilSend r t f p sender = 0;
  not_quiescent : f <> 0;
  time_fits : 0 <= t < 2 ^ 61;
  ideal_fits : 0 <= ideal_next_packet_send_time_ p < 2 ^ 62;
  bytes_fit : 0 <= b /\ b * 8 * kNumMicrosPerSecond < 2 ^ 62;
  rate_positive : 0 < sa_PacingRate r (u64 (f + b)) (sa_OnPacketSent r u t f n b true sender);
}.

(** A run with the bytes and the packets with data that were sent. *)
Inductive paced : PacingSender * SA -> Z -> Z -> PacingSender * SA -> Prop :=
  | paced_nil st : paced st 0 0 st
  | paced_send r u t f n b p sender bytes packets st :
      sendable r u t f n b p sender -> paced (OnPacketSent r u t f n b true p sender) bytes packets st ->
      paced (p, sender) (b + bytes) (1 + packets) st
  | paced_ack_only r u t f n b p sender bytes packets st :
      paced (OnPacketSent r u t f n b false p sender) bytes packets st -> paced (p, sender) bytes packets st
  | paced_event r u updated f t acked lost p sender bytes packets st :
      paced (OnCongestionEvent r u updated f t acked lost p sender) bytes packets st -> paced (p, sender) bytes packets st
  | paced_limited p sender bytes packets st :
      paced (OnApplicationLimited p, sender) bytes packets st -> paced (p, sender) bytes packets st.

(** Under a cap, with the bursts spent. *)
Definition capped_at (rate : Z) p : Prop := max_pacing_rate_ p = rate /\ 0 < rate < 2 ^ 63 /\ burst_tokens_ p = 0.

Lemma PacingRate_capped rate r f p sender :
  capped_at rate p -> 0 < sa_PacingRate r f sender -> 0 < PacingRate r f p sender <= rate.
Proof.
  intros (E & Hr & _) Hs. unfold PacingRate. rewrite E, (proj2 (Z.eqb_neq _ _)) by lia.
  unfold QuicBandwidth. rewrite swrap_small by (unfold sfits; lia). rewrite (proj2 (Z.leb_le _ _)) by lia. lia.
Qed.

Lemma TransferTime_bound rate bytes :
  0 < rate < 2 ^ 63 -> 0 <= bytes -> bytes * 8 * kNumMicrosPerSecond < 2 ^ 62 ->
  0 <= TransferTime rate bytes < 2 ^ 62 /\ bytes * 8 * kNumMicrosPerSecond <= (TransferTime rate bytes + 1) * rate.
Proof.
  intros Hr Hb Hbb. rewrite TransferTime_value by (unfold bandwidth_ok; lia).
  set (work := bytes * 8 * kNumMicrosPerSecond) in *. assert (0 <= work) by (unfold work, kNumMicrosPerSecond; lia).
  pose proof (Z.div_mod work rate ltac:(lia)). pose proof (Z.mod_pos_bound work rate ltac:(lia)).
  split; [|nia]. split; [apply Z.div_pos; lia|]. apply Z.div_lt_upper_bound; nia.
Qed.

(** A packet moves the schedule by its transfer time, from now on unless it makes up for
    time that pacing lost. *)
Lemma send_schedule rate r u t f n b p sender :
  capped_at rate p -> sendable r u t f n b p sender ->
  let p' := (OnPacketSent r u t f n b true p sender).1 in
  capped_at rate p' /\ alarm_granularity_ p' = alarm_granularity_ p /\
  exists delay, 0 <= delay /\ b * 8 * kNumMicrosPerSecond <= (delay + 1) * rate /\
    ideal_next_packet_send_time_ p' =
      (if pacing_limited_ p then ideal_next_packet_send_time_ p else Z.max (ideal_next_packet_send_time_ p) t) + delay.
Proof.
  intros Hc [_ Hf Ht Hi [Hb Hbb] Hr]. cbv zeta. unfold OnPacketSent, renew_burst. cbn [negb].
  set (a := sa_OnPacketSent _ _ _ _ _ _ _ _) in *. rewrite (proj2 (Z.eqb_neq f 0) Hf). cbn [andb].
  destruct (PacingRate_capped rate r (u64 (f + b)) p a Hc Hr) as [R1 R2]. destruct Hc as (E & Hrate & Hburst).
  rewrite Hburst. cbn [Z.ltb Z.compare fst]. unfold pace. cbv zeta. set (pr := PacingRate _ _ _ _) in *.
  destruct (TransferTime_bound pr b ltac:(lia) Hb Hbb) as [D1 D2]. set (d := TransferTime pr b) in *. clearbody d pr.
  set (p1 := if _ || _ then _ else p).
  assert (H1 : max_pacing_rate_ p1 = max_pacing_rate_ p /\ burst_tokens_ p1 = burst_tokens_ p /\
    alarm_granularity_ p1 = alarm_granularity_ p /\ ideal_next_packet_send_time_ p1 = ideal_next_packet_send_time_ p /\
    pacing_limited_ p1 = pacing_limited_ p) by (unfold p1; by destruct (_ || _)).
  destruct H1 as (E1 & E2 & E3 & E4 & E5). clearbody p1. unfold capped_at. cbn. rewrite E1, E2, E3, E4, E5.
  split_and!; [done|lia|lia|done|done|]. exists d. split_and!; [lia|nia|]. unfold time_add.
  rewrite !swrap_small by (unfold sfits; lia). destruct (pacing_limited_ p); lia.
Qed.

Lemma busy_schedule rate st bytes packets st' :
  paced st bytes packets st' -> capped_at rate st.1 ->
  capped_at rate st'.1 /\ alarm_granularity_ st'.1 = alarm_granularity_ st.1 /\
  bytes * 8 * kNumMicrosPerSecond <=
    (ideal_next_packet_send_time_ st'.1 - ideal_next_packet_send_time_ st.1 + packets) * rate.
Proof.
  induction 1 as [st|r u t f n b p a B N st Hs _ IH|r u t f n b p a B N st _ IH|r u up f t ak lo p a B N st _ IH|p a B N st _ IH];
    intros Hc; cbn [fst] in *.
  - split_and!; [done|done|lia].
  - destruct (send_schedule rate r u t f n b p a Hc Hs) as (Hc1 & Ha & d & Hd & Hw & Hi).
    destruct (IH Hc1) as (Hc' & Ha' & Hb). split_and!; [done|congruence|]. rewrite Hi in Hb. destruct Hc as (_ & Hr & _).
    destruct (pacing_limited_ p); nia.
  - apply IH. exact Hc.
  - unfold OnCongestionEvent in IH. cbn [fst] in IH. destruct lo; [by apply IH|]. apply IH. destruct Hc as (E & Hr & _).
    exact (conj E (conj Hr eq_refl)).
  - apply IH. exact Hc.
Qed.

(** With no lump left, a packet may leave once the schedule is due within the granularity. *)
Lemma due_when_allowed r now f p sender :
  TimeUntilSend r now f p sender = 0 -> f <> 0 -> burst_tokens_ p = 0 -> lumpy_tokens_ p = 0 ->
  0 <= now < 2 ^ 61 -> 0 <= alarm_granularity_ p < 2 ^ 61 -> 0 <= ideal_next_packet_send_time_ p < 2 ^ 63 ->
  ideal_next_packet_send_time_ p <= now + alarm_granularity_ p.
Proof.
  intros Hw Hf Hb Hl Hn Hg Hi. unfold TimeUntilSend, time_add, time_sub in Hw.
  destruct (negb _); [done|]. rewrite Hb, Hl, (proj2 (Z.eqb_neq f 0) Hf) in Hw. cbn in Hw.
  rewrite (swrap_small (now + _)) in Hw by (unfold sfits; lia).
  rewrite (swrap_small (_ - now)) in Hw by (unfold sfits; lia).
  destruct (Z.ltb_spec (now + alarm_granularity_ p) (ideal_next_packet_send_time_ p)); lia.
Qed.

(** * Bursts *)

(** Packets with data, one after the other: how many of them left quiescence, and how many
    were not paced. *)
Inductive burst : PacingSender * SA -> Z -> Z -> PacingSender * SA -> Prop :=
  | burst_nil st : burst st 0 0 st
  | burst_send r u t f n b p sender quiet unpaced st :
      burst (OnPacketSent r u t f n b true p sender) quiet unpaced st ->
      burst (p, sender) (Z.b2z (f =? 0) + quiet)
        (Z.b2z (0 <? burst_tokens_ (renew_burst r f p (sa_OnPacketSent r u t f n b true sender))) + unpaced) st.

Lemma burst_bound st quiet unpaced st' :
  burst st quiet unpaced st' -> 0 <= burst_tokens_ st.1 -> 0 <= initial_burst_size_ st.1 ->
  unpaced <= burst_tokens_ st.1 + initial_burst_size_ st.1 * quiet.
Proof.
  induction 1 as [st|r u t f n b p a quiet unpaced st _ IH]; intros Ht Hi; [cbn; lia|]. cbn [fst] in *.
  unfold OnPacketSent in IH. cbn [negb fst] in IH. set (a' := sa_OnPacketSent _ _ _ _ _ _ _ _) in *. cbv zeta in IH.
  assert (H1 : 0 <= burst_tokens_ (renew_burst r f p a') <= burst_tokens_ p + initial_burst_size_ p * Z.b2z (f =? 0) /\
    initial_burst_size_ (renew_burst r f p a') = initial_burst_size_ p).
  { unfold renew_burst. pose proof (Z.mod_pos_bound (sa_GetCongestionWindow r a' / kDefaultTCPMSS) (2 ^ 32) ltac:(lia)).
    destruct (f =? 0), (sa_InRecovery a'); cbn [andb negb Z.b2z]; cbn; unfold wrap; lia. }
  destruct H1 as [[T1 T2] T3]. set (p1 := renew_burst r f p a') in *. clearbody p1 a'.
  destruct (Z.ltb_spec 0 (burst_tokens_ p1)); cbn [Z.b2z].
  - unfold take_burst_token in IH. cbv zeta in IH.
    destruct (quic_donot_reset_ideal_next_packet_send_time _); cbn in IH; rewrite T3 in IH; specialize (IH ltac:(lia) Hi); lia.
  - unfold pace in IH. cbv zeta in IH. destruct (_ || _); cbn in IH; rewrite T3 in IH; specialize (IH T1 Hi); lia.
Qed.
End pacer.
End PacingSender.
