(* ===== verification/UnackedInvariants.v ===== *)
(** The invariant of [QuicUnackedPacketMap] and that every operation keeps it: the deque
    covers the packets up to the largest sent, the links between retransmissions lead
    forward inside of it, and the counters of bytes in flight and of crypto packets are
    what they count. *)
From stdpp Require Import list_numbers.
From S2P Require Import Prelude.
From S2P Require Import PacketNumbers.
From S2P Require Import FramerTypes.
From S2P Require Import QuicUnits.
From S2P Require Import WindowedFilter.
From S2P Require Import Sampler.
From S2P Require Import RttEstimates.
From S2P Require Import UnackedPackets.
From S2P Require Import LossDetection.

Import QuicUnackedPacketMap.
Import GeneralLossAlgorithm (GetTransmissionInfo_lookup).
Open Scope Z_scope.

(** * Counting over the deque *)

Fixpoint total (f : QuicTransmissionInfo -> Z) (packets : list QuicTransmissionInfo) : Z :=
  match packets with
  | [] => 0
  | i :: packets => f i + total f packets
  end.

Lemma total_deque_app f l1 l2 : total f (l1 ++ l2) = total f l1 + total f l2.
Proof. induction l1 as [|x l1 IH]; cbn; [lia|]. rewrite IH. lia. Qed.

Lemma total_alter f g l i x :
  l !! i = Some x -> total f (alter g i l) = total f l - f x + f (g x).
Proof.
  revert i. induction l as [|y l IH]; intros [|i] Hx; cbn in *; try done.
  - injection Hx as ->. lia.
  - rewrite (IH i Hx). lia.
Qed.

Lemma total_bound f b l : (forall x, x ∈ l -> 0 <= f x <= b) -> 0 <= total f l <= b * Z.of_nat (length l).
Proof.
  induction l as [|x l IH]; intros H; [cbn; lia|]. cbn [total length].
  pose proof (H x ltac:(set_solver)). specialize (IH ltac:(set_solver)). lia.
Qed.

Lemma total_nonneg f l : (forall x, x ∈ l -> 0 <= f x) -> 0 <= total f l.
Proof.
  induction l as [|x l IH]; intros H; cbn [total]; [lia|].
  pose proof (H x ltac:(set_solver)). specialize (IH ltac:(set_solver)). lia.
Qed.

Lemma total_lookup_le f l k x : (forall y, y ∈ l -> 0 <= f y) -> l !! k = Some x -> f x <= total f l.
Proof.
  revert k. induction l as [|y l IH]; intros [|k] H Hk; cbn in Hk; try done; cbn [total].
  - injection Hk as ->. pose proof (total_nonneg f l ltac:(set_solver)). lia.
  - specialize (IH k ltac:(set_solver) Hk). pose proof (H y ltac:(set_solver)). lia.
Qed.

(** Bytes in flight, and whether a packet counts as a pending crypto packet. *)
Definition flight_bytes (i : QuicTransmissionInfo) : Z := if in_flight i then bytes_sent i else 0.
Definition crypto_weight (i : QuicTransmissionInfo) : Z := Z.b2z (has_crypto_handshake i).

(** * The invariant *)

(** Of packet [n], when [hi] is the largest packet sent. *)
Record info_ok (hi n : Z) (i : QuicTransmissionInfo) : Prop := mk_info_ok {
  io_bytes : 0 <= bytes_sent i < 2 ^ 16;
  io_link : retransmission i = 0 \/ n < retransmission i <= hi;
  io_frames : retransmittable_frames i <> [] -> retransmission i = 0;
  io_crypto : has_crypto_handshake i = true -> retransmittable_frames i <> [];
  io_acked : state i = ACKED -> in_flight i = false /\ retransmittable_frames i = [] /\ retransmission i = 0;
}.

Definition max_packets : Z := 2 ^ 46.

Record unacked_ok (u : QuicUnackedPacketMap) : Prop := mk_unacked_ok {
  uo_least : 0 < least_unacked_ u;
  uo_end : least_unacked_ u + size u = largest_sent_packet_ u + 1;
  uo_max : largest_sent_packet_ u < max_packets;
  uo_info : forall n i, GetTransmissionInfo n u = Some i -> info_ok (largest_sent_packet_ u) n i;
  uo_bytes : bytes_in_flight_ u = total flight_bytes (unacked_packets_ u);
  uo_crypto : pending_crypto_packet_count_ u = total crypto_weight (unacked_packets_ u);
}.

Lemma unacked_ctor_ok : unacked_ok QuicUnackedPacketMap_ctor.
Proof.
  constructor; try done. intros n i H.
  apply GetTransmissionInfo_lookup in H as [_ H]. done.
Qed.

(** The packet numbers in the deque. *)
Definition present (n : Z) (u : QuicUnackedPacketMap) : Prop := least_unacked_ u <= n <= largest_sent_packet_ u.

Lemma present_lookup n u : unacked_ok u -> present n u -> exists i, GetTransmissionInfo n u = Some i.
Proof.
  intros Hu [H1 H2]. pose proof (uo_end _ Hu) as He. unfold size in He. unfold GetTransmissionInfo.
  destruct (Z.ltb_spec n (least_unacked_ u)); [lia|]. apply lookup_lt_is_Some_2. lia.
Qed.

Lemma lookup_present n u i : unacked_ok u -> GetTransmissionInfo n u = Some i -> present n u.
Proof.
  intros Hu H. apply GetTransmissionInfo_lookup in H as [Hn Hl]. pose proof (uo_end _ Hu) as He. unfold size in He.
  apply lookup_lt_Some in Hl. unfold present. lia.
Qed.

Lemma lookup_index n u i :
  GetTransmissionInfo n u = Some i -> unacked_packets_ u !! Z.to_nat (n - least_unacked_ u) = Some i.
Proof. intros H. by apply GetTransmissionInfo_lookup in H as [_ H]. Qed.

Lemma info_ok_mono hi hi' n i : hi <= hi' -> info_ok hi n i -> info_ok hi' n i.
Proof. intros Hh [? Hl ? ? ?]. constructor; try done. destruct Hl; [by left|right; lia]. Qed.

Lemma flight_bytes_bound u x : unacked_ok u -> x ∈ unacked_packets_ u -> 0 <= flight_bytes x <= 2 ^ 16 - 1.
Proof.
  intros Hu Hx. apply list_elem_of_lookup in Hx as [k Hk].
  pose proof (uo_info _ Hu (least_unacked_ u + Z.of_nat k) x) as Hi.
  destruct Hi as [Hb _ _ _ _].
  { apply GetTransmissionInfo_lookup. split; [lia|]. by replace (Z.to_nat _) with k by lia. }
  unfold flight_bytes. destruct (in_flight x); lia.
Qed.

Lemma flight_total_bound u : unacked_ok u -> 0 <= total flight_bytes (unacked_packets_ u) < 2 ^ 62.
Proof.
  intros Hu. pose proof (uo_end _ Hu) as He. pose proof (uo_max _ Hu) as Hm. pose proof (uo_least _ Hu).
  unfold size, max_packets in *.
  enough (0 <= total flight_bytes (unacked_packets_ u) <= (2 ^ 16 - 1) * Z.of_nat (length (unacked_packets_ u))) by nia.
  apply total_bound. intros x Hx. by apply (flight_bytes_bound u).
Qed.

Lemma crypto_total_bound u : unacked_ok u -> 0 <= total crypto_weight (unacked_packets_ u) < 2 ^ 62.
Proof.
  intros Hu. pose proof (uo_end _ Hu) as He. pose proof (uo_max _ Hu) as Hm. pose proof (uo_least _ Hu).
  unfold size, max_packets in *.
  enough (0 <= total crypto_weight (unacked_packets_ u) <= 1 * Z.of_nat (length (unacked_packets_ u))) by nia.
  apply total_bound. intros x _. unfold crypto_weight. destruct (has_crypto_handshake x); cbn; lia.
Qed.

(** * Changes of one packet *)

Lemma lookup_update n f u k :
  least_unacked_ u <= n ->
  GetTransmissionInfo k (update n f u) =
  (if decide (k = n) then f <$> GetTransmissionInfo k u else GetTransmissionInfo k u).
Proof.
  intros Hn. unfold GetTransmissionInfo, update. cbn.
  destruct (Z.ltb_spec k (least_unacked_ u)); [by destruct (decide (k = n))|].
  destruct (decide (k = n)) as [->|Hne]; [by rewrite list_lookup_alter_eq|].
  rewrite list_lookup_alter_ne by lia. done.
Qed.

(** [u'] is [u] with one packet changed, and the counters to match. *)
Record changed (n : Z) (f : QuicTransmissionInfo -> QuicTransmissionInfo) (i : QuicTransmissionInfo)
    (u u' : QuicUnackedPacketMap) : Prop := mk_changed {
  ch_packets : unacked_packets_ u' = alter f (Z.to_nat (n - least_unacked_ u)) (unacked_packets_ u);
  ch_least : least_unacked_ u' = least_unacked_ u;
  ch_sent : largest_sent_packet_ u' = largest_sent_packet_ u;
  ch_bytes : bytes_in_flight_ u' = bytes_in_flight_ u - flight_bytes i + flight_bytes (f i);
  ch_crypto : pending_crypto_packet_count_ u' = pending_crypto_packet_count_ u - crypto_weight i + crypto_weight (f i);
}.

Lemma changed_lookup n f i u u' k :
  changed n f i u u' -> least_unacked_ u <= n ->
  GetTransmissionInfo k u' = (if decide (k = n) then f <$> GetTransmissionInfo k u else GetTransmissionInfo k u).
Proof.
  intros [Hp Hl _ _ _] Hn. rewrite <- lookup_update by done. unfold GetTransmissionInfo, update. cbn. by rewrite Hp, Hl.
Qed.

Lemma changed_ok n f i u u' :
  unacked_ok u -> GetTransmissionInfo n u = Some i -> changed n f i u u' ->
  info_ok (largest_sent_packet_ u) n (f i) -> unacked_ok u'.
Proof.
  intros Hu Hn Hc Hi. pose proof (lookup_present _ _ _ Hu Hn) as [Hp _]. pose proof (lookup_index _ _ _ Hn) as Hx.
  pose proof (fun k => changed_lookup _ _ _ _ _ k Hc Hp) as Hl. destruct Hc as [Ep El Es Eb Ec], Hu as [H1 H2 H3 H4 H5 H6].
  constructor.
  - by rewrite El.
  - rewrite El, Es. unfold size in *. by rewrite Ep, length_alter.
  - by rewrite Es.
  - intros k x Hk. rewrite Es. rewrite Hl in Hk. destruct (decide (k = n)) as [->|]; [|by apply H4].
    rewrite Hn in Hk. injection Hk as <-. done.
  - rewrite Ep, (total_alter _ _ _ _ _ Hx). lia.
  - rewrite Ep, (total_alter _ _ _ _ _ Hx). lia.
Qed.

(** What the operations below keep: the packets, their state, and of those packets that
    satisfy [P] the frames to retransmit; no packet comes back into flight. *)
Record keeps (P : Z -> Prop) (u u' : QuicUnackedPacketMap) : Prop := mk_keeps {
  k_least : least_unacked_ u' = least_unacked_ u;
  k_sent : largest_sent_packet_ u' = largest_sent_packet_ u;
  k_acked : largest_acked_ u' = largest_acked_ u;
  k_info : forall n i', GetTransmissionInfo n u' = Some i' -> exists i, GetTransmissionInfo n u = Some i /\
    state i' = state i /\ bytes_sent i' = bytes_sent i /\ sent_time i' = sent_time i /\
    (retransmission i' = retransmission i \/ retransmission i' = 0) /\ (in_flight i' = true -> in_flight i = true) /\
    (P n -> retransmittable_frames i' = retransmittable_frames i);
}.

Lemma keeps_refl P u : keeps P u u.
Proof. constructor; try done. intros n i Hn. exists i. split_and!; auto. Qed.

Lemma keeps_trans P u1 u2 u3 : keeps P u1 u2 -> keeps P u2 u3 -> keeps P u1 u3.
Proof.
  intros [? ? ? Ha] [? ? ? Hb]. constructor; try congruence. intros n i3 H3.
  destruct (Hb n i3 H3) as (i2 & H2 & ? & ? & ? & Hr2 & ? & ?).
  destruct (Ha n i2 H2) as (i1 & Hi1 & ? & ? & ? & Hr1 & ? & ?).
  exists i1. split_and!; try congruence; [destruct Hr1, Hr2; (left; congruence) || (right; congruence)|naive_solver|naive_solver congruence].
Qed.

Lemma keeps_weaken (P Q : Z -> Prop) u u' : (forall n, Q n -> P n) -> keeps P u u' -> keeps Q u u'.
Proof. intros HPQ [? ? ? H]. constructor; try done. intros n i Hn. destruct (H n i Hn) as (i0 & ?). exists i0. naive_solver. Qed.

Lemma keeps_present P u u' n : keeps P u u' -> present n u' <-> present n u.
Proof. intros [H1 H2 _ _]. unfold present. by rewrite H1, H2. Qed.

Lemma changed_keeps (P : Z -> Prop) n f i u u' :
  GetTransmissionInfo n u = Some i -> changed n f i u u' -> largest_acked_ u' = largest_acked_ u ->
  state (f i) = state i -> bytes_sent (f i) = bytes_sent i -> sent_time (f i) = sent_time i ->
  retransmission (f i) = retransmission i \/ retransmission (f i) = 0 ->
  (in_flight (f i) = true -> in_flight i = true) -> (P n -> retransmittable_frames (f i) = retransmittable_frames i) ->
  keeps P u u'.
Proof.
  intros Hn Hc Ha H1 H2 H3 H4 H5 H6. pose proof Hn as Hn'. apply GetTransmissionInfo_lookup in Hn' as [Hle _].
  constructor; [apply (ch_least _ _ _ _ _ Hc)|apply (ch_sent _ _ _ _ _ Hc)|done|].
  intros k i' Hk. rewrite (changed_lookup _ _ _ _ _ k Hc Hle) in Hk.
  destruct (decide (k = n)) as [->|]; [|exists i'; split_and!; auto].
  rewrite Hn in Hk. injection Hk as <-. exists i. by split_and!.
Qed.

(** * Operations *)

Lemma changed_update n f i u :
  flight_bytes (f i) = flight_bytes i -> crypto_weight (f i) = crypto_weight i -> changed n f i u (update n f u).
Proof. intros H1 H2. constructor; try done; cbn; lia. Qed.

(** The links between retransmissions are the same. *)
Definition same_links (u u' : QuicUnackedPacketMap) : Prop :=
  forall k, retransmission <$> GetTransmissionInfo k u' = retransmission <$> GetTransmissionInfo k u.

Lemma newest_links fuel n u u' : same_links u u' -> newest fuel n u' = newest fuel n u.
Proof.
  intros Hs. revert n. induction fuel as [|fuel IH]; intros n; cbn [newest]; [done|]. specialize (Hs n).
  destruct (GetTransmissionInfo n u'), (GetTransmissionInfo n u); try done. cbn in *. injection Hs as ->. by rewrite IH.
Qed.

Lemma RemoveFromInFlight_ok n u :
  unacked_ok u -> present n u ->
  exists u', RemoveFromInFlight n u = Some u' /\ unacked_ok u' /\ keeps (fun _ => True) u u' /\
    (forall i', GetTransmissionInfo n u' = Some i' -> in_flight i' = false) /\ same_links u u' /\ chain_fuel u' = chain_fuel u.
Proof.
  intros Hu Hp. destruct (present_lookup _ _ Hu Hp) as [i Hi]. unfold RemoveFromInFlight. rewrite Hi. cbn [mbind option_bind].
  destruct (in_flight i) eqn:Ef; cycle 1.
  { exists u. split_and!; try done; [apply keeps_refl|]. intros i' H. congruence. }
  eexists. split; [done|]. set (u' := update _ _ _).
  assert (Hc : changed n (fun i => i <| in_flight := false |>) i u u').
  { assert (flight_bytes i <= total flight_bytes (unacked_packets_ u)).
    { eapply total_lookup_le; [|by apply lookup_index]. intros y Hy. by apply (flight_bytes_bound u). }
    pose proof (flight_total_bound _ Hu). pose proof (uo_bytes _ Hu). pose proof (uo_info _ Hu n i Hi) as [? _ _ _ _].
    constructor; try done; [|unfold crypto_weight; simpl; lia]. unfold flight_bytes in *. cbn -[wrap].
    rewrite Ef in *. rewrite wrap_small; unfold fits; lia. }
  pose proof (uo_info _ Hu n i Hi) as [? ? ? ? ?].
  split_and!.
  - eapply changed_ok; [done|done|exact Hc|]. constructor; try done. intros Hs. cbn in *. naive_solver.
  - eapply changed_keeps; [done|exact Hc|..]; auto.
  - intros i' H'. rewrite (changed_lookup _ _ _ _ _ n Hc) in H' by apply Hp. rewrite decide_True, Hi in H' by done.
    by injection H' as <-.
  - intros k. rewrite (changed_lookup _ _ _ _ _ k Hc) by apply Hp. destruct (decide (k = n)); [|done].
    by destruct (GetTransmissionInfo k u).
  - unfold chain_fuel. cbn. by rewrite length_alter.
Qed.

(** Following the retransmissions of a packet only reads packets after it. *)
Lemma newest_update fuel n k f u :
  unacked_ok u -> least_unacked_ u <= n < k -> newest fuel k (update n f u) = newest fuel k u.
Proof.
  intros Hu. revert k. induction fuel as [|fuel IH]; intros k Hk; [done|]. cbn [newest].
  rewrite lookup_update, decide_False by lia. destruct (GetTransmissionInfo k u) as [i|] eqn:Ei; [|done].
  cbn [mbind option_bind]. destruct (Z.eqb_spec (retransmission i) 0) as [|Hr]; [done|].
  apply IH. pose proof (io_link _ _ _ (uo_info _ Hu k i Ei)). lia.
Qed.

Definition unlinked (n : Z) (u : QuicUnackedPacketMap) : Prop :=
  forall i, GetTransmissionInfo n u = Some i -> retransmission i = 0.

Lemma keeps_unlinked P n u u' : keeps P u u' -> unlinked n u -> unlinked n u'.
Proof.
  intros Hk Hn i' Hi'. destruct (k_info _ _ _ Hk n i' Hi') as (i & Hi & _ & _ & _ & Hr & _).
  specialize (Hn i Hi). destruct Hr; congruence.
Qed.

Lemma unlink_ok fuel n u :
  unacked_ok u -> present n u -> largest_sent_packet_ u - n < Z.of_nat fuel ->
  exists last u', newest fuel n u = Some last /\ unlink fuel n u = Some (last, u') /\ unacked_ok u' /\
    keeps (fun _ => True) u u' /\ present last u /\ n <= last /\ unlinked n u' /\ unlinked last u'.
Proof.
  revert n u. induction fuel as [|fuel IH]; intros n u Hu Hp Hf; [unfold present in Hp; lia|].
  destruct (present_lookup _ _ Hu Hp) as [i Hi]. cbn [newest unlink]. rewrite Hi. cbn [mbind option_bind].
  pose proof (uo_info _ Hu n i Hi) as [? Hl ? ? ?].
  destruct (Z.eqb_spec (retransmission i) 0) as [Hr|Hr].
  { assert (unlinked n u) by (intros i' Hi'; congruence).
    exists n, u. split_and!; try done; try lia. apply keeps_refl. }
  destruct Hl as [|Hl]; [done|]. set (f := fun i => i <| retransmission := 0 |>).
  assert (Hc : changed n f i u (update n f u)) by (by apply changed_update).
  assert (Hu1 : unacked_ok (update n f u)).
  { eapply changed_ok; [done|done|exact Hc|]. constructor; try done; [by left|]. naive_solver. }
  assert (Hk1 : keeps (fun _ => True) u (update n f u)) by (eapply changed_keeps; [done|exact Hc|..]; auto).
  destruct (IH (retransmission i) (update n f u) Hu1) as (last & u' & En & El & Hu' & Hk & Hpl & Hle & _ & Hul).
  { unfold present in *. cbn. lia. }
  { cbn. lia. }
  rewrite newest_update in En by (unfold present in *; done || lia).
  exists last, u'. split_and!; try done; try lia; [by eapply keeps_trans|].
  eapply keeps_unlinked; [exact Hk|]. intros x Hx. rewrite lookup_update, decide_True, Hi in Hx by (apply Hp || done).
  by injection Hx as <-.
Qed.

(** Removing what a packet retransmits clears the newest packet that carries it. *)
Lemma RemoveRetransmittability_ok n u :
  unacked_ok u -> present n u ->
  exists last u', newest (chain_fuel u) n u = Some last /\ RemoveRetransmittability n u = Some u' /\ unacked_ok u' /\
    keeps (fun k => k <> last) u u' /\ present last u /\ unlinked n u' /\
    (forall i, GetTransmissionInfo last u' = Some i -> retransmittable_frames i = []).
Proof.
  intros Hu Hp. unfold RemoveRetransmittability.
  destruct (unlink_ok (chain_fuel u) n u Hu Hp) as (last & u1 & En & El & Hu1 & Hk1 & Hpl & _ & Hun & Hul).
  { pose proof (uo_end _ Hu). unfold chain_fuel, size, present in *. lia. }
  rewrite El. cbn [mbind option_bind]. exists last.
  assert (Hpl1 : present last u1) by (by rewrite (keeps_present _ _ _ _ Hk1)).
  destruct (present_lookup _ _ Hu1 Hpl1) as [i Hi]. rewrite Hi. cbn [mbind option_bind].
  set (f := fun i => i <| has_crypto_handshake := false |> <| retransmittable_frames := [] |>).
  set (u2 := if has_crypto_handshake i then _ else _).
  assert (Hc : changed last f i u1 (update last f u2)).
  { pose proof (crypto_total_bound _ Hu1). pose proof (uo_crypto _ Hu1).
    assert (crypto_weight i <= total crypto_weight (unacked_packets_ u1)).
    { eapply total_lookup_le; [|by apply lookup_index]. intros y _. unfold crypto_weight. destruct (has_crypto_handshake y); cbn; lia. }
    unfold u2, crypto_weight in *. destruct (has_crypto_handshake i) eqn:Ec; constructor; try done;
      unfold flight_bytes, crypto_weight; cbn -[wrap]; rewrite ?Ec; cbn [Z.b2z] in *; try lia.
    rewrite wrap_small; unfold fits; lia. }
  pose proof (uo_info _ Hu1 last i Hi) as [? ? ? ? ?]. exists (update last f u2). split_and!; try done.
  - eapply changed_ok; [exact Hu1|exact Hi|exact Hc|]. constructor; try done. intros Hs. cbn in *. naive_solver.
  - eapply keeps_trans; [eapply keeps_weaken; [|exact Hk1]; done|].
    eapply changed_keeps; [exact Hi|exact Hc|..]; auto; [|done]. unfold u2. by destruct (has_crypto_handshake i).
  - assert (Hu2 : unlinked n u2).
    { intros x Hx. apply (Hun x). unfold u2 in Hx. by destruct (has_crypto_handshake i). }
    intros x Hx. rewrite (changed_lookup _ _ _ _ _ n Hc) in Hx by apply Hpl1.
    destruct (decide (n = last)) as [->|]; [|by apply (Hun x)]. rewrite Hi in Hx. injection Hx as <-. by apply (Hul i).
  - intros x Hx. rewrite (changed_lookup _ _ _ _ _ last Hc), decide_True, Hi in Hx by (apply Hpl1 || done).
    by injection Hx as <-.
Qed.

(** * Obsolete packets *)

(** Nothing is counted for a packet that is no longer useful. *)
Lemma useless_counts hi n i u :
  info_ok hi n i -> IsPacketUseless n i u = true ->
  in_flight i = false /\ retransmittable_frames i = [] /\ flight_bytes i = 0 /\ crypto_weight i = 0.
Proof.
  unfold IsPacketUseless, IsPacketUsefulForCongestionControl, IsPacketUsefulForRetransmittableData, HasRetransmittableFrames.
  rewrite !andb_true_iff, !negb_true_iff, orb_false_iff. intros [_ _ _ Hc _] [[_ Hf] [_ Hr]].
  destruct (retransmittable_frames i) as [|] eqn:Ef; [|done]. unfold flight_bytes, crypto_weight. rewrite Hf.
  destruct (has_crypto_handshake i); [by destruct (Hc eq_refl)|done].
Qed.

Lemma drop_obsolete_spec u least packets :
  0 <= least -> least + Z.of_nat (length packets) < 2 ^ 62 ->
  exists k, drop_obsolete u least packets = (least + Z.of_nat k, drop k packets) /\ (k <= length packets)%nat /\
    (forall j i, (j < k)%nat -> packets !! j = Some i -> IsPacketUseless (least + Z.of_nat j) i u = true).
Proof.
  revert least. induction packets as [|i packets IH]; intros least Hl Hb; cbn [drop_obsolete].
  { exists 0%nat. rewrite Z.add_0_r. split_and!; [done|done|]. lia. }
  cbn [length] in Hb. destruct (IsPacketUseless least i u) eqn:Eu; cycle 1.
  { exists 0%nat. rewrite Z.add_0_r. split_and!; [done|cbn; lia|]. lia. }
  rewrite wrap_small by (unfold fits; lia). destruct (IH (least + 1)) as (k & E & Hk & Hd); [lia|lia|].
  exists (S k). rewrite E. split_and!; [f_equal; lia|cbn; lia|].
  intros [|j] x Hj Hx; cbn in Hx.
  - injection Hx as <-. by rewrite Z.add_0_r.
  - replace (least + Z.of_nat (S j)) with (least + 1 + Z.of_nat j) by lia. apply Hd; [lia|done].
Qed.

(** [u'] is [u] without its first packets. *)
Record trimmed (k : nat) (u u' : QuicUnackedPacketMap) : Prop := mk_trimmed {
  tr_packets : unacked_packets_ u' = drop k (unacked_packets_ u);
  tr_least : least_unacked_ u' = least_unacked_ u + Z.of_nat k;
  tr_sent : largest_sent_packet_ u' = largest_sent_packet_ u;
  tr_acked : largest_acked_ u' = largest_acked_ u;
  tr_bytes : bytes_in_flight_ u' = bytes_in_flight_ u;
  tr_crypto : pending_crypto_packet_count_ u' = pending_crypto_packet_count_ u;
  tr_short : (k <= length (unacked_packets_ u))%nat;
}.

Lemma trimmed_lookup k u u' n :
  trimmed k u u' -> GetTransmissionInfo n u' = (if n <? least_unacked_ u' then None else GetTransmissionInfo n u).
Proof.
  intros [Hp Hl _ _ _ _ _]. unfold GetTransmissionInfo. rewrite Hp, Hl.
  destruct (Z.ltb_spec n (least_unacked_ u + Z.of_nat k)); [done|].
  destruct (Z.ltb_spec n (least_unacked_ u)); [lia|]. rewrite lookup_drop. f_equal. lia.
Qed.

Lemma trimmed_ok k u u' :
  unacked_ok u -> trimmed k u u' ->
  (forall j i, (j < k)%nat -> unacked_packets_ u !! j = Some i -> flight_bytes i = 0 /\ crypto_weight i = 0) ->
  unacked_ok u'.
Proof.
  intros Hu Ht Hz. pose proof (fun n => trimmed_lookup k u u' n Ht) as Hlook.
  destruct Ht as [Ep El Es Ea Eb Ec Hs], Hu as [H1 H2 H3 H4 H5 H6].
  assert (Htot : forall f, (forall j i, (j < k)%nat -> unacked_packets_ u !! j = Some i -> f i = 0) ->
    total f (drop k (unacked_packets_ u)) = total f (unacked_packets_ u)).
  { intros f Hf. rewrite <- (take_drop k (unacked_packets_ u)) at 2. rewrite total_deque_app.
    enough (total f (take k (unacked_packets_ u)) = 0) by lia. clear -Hf.
    generalize dependent (unacked_packets_ u). induction k as [|k IH]; intros [|x l] Hf; cbn; try done.
    rewrite (Hf 0%nat x) by (done || lia). rewrite IH; [done|]. intros j i Hj Hi. apply (Hf (S j)); [lia|done]. }
  constructor.
  - lia.
  - unfold size in *. rewrite Ep, length_drop. lia.
  - lia.
  - intros n i Hn. rewrite Es. rewrite Hlook in Hn. apply H4. by destruct (n <? _).
  - rewrite Ep, Htot, Eb; [done|]. intros j i Hj Hi. by apply (Hz j i).
  - rewrite Ep, Htot, Ec; [done|]. intros j i Hj Hi. by apply (Hz j i).
Qed.

Lemma lookup_at u k i : unacked_packets_ u !! k = Some i -> GetTransmissionInfo (least_unacked_ u + Z.of_nat k) u = Some i.
Proof. intros H. apply GetTransmissionInfo_lookup. split; [lia|]. by replace (Z.to_nat _) with k by lia. Qed.

Lemma RemoveObsoletePackets_ok u :
  unacked_ok u -> exists k, trimmed k u (RemoveObsoletePackets u) /\ unacked_ok (RemoveObsoletePackets u) /\
    (forall n i, GetTransmissionInfo n u = Some i -> n < least_unacked_ (RemoveObsoletePackets u) ->
       IsPacketUseless n i u = true).
Proof.
  intros Hu. pose proof (uo_least _ Hu). pose proof (uo_end _ Hu) as He. pose proof (uo_max _ Hu). unfold size, max_packets in *.
  destruct (drop_obsolete_spec u (least_unacked_ u) (unacked_packets_ u)) as (k & E & Hk & Hd); [lia|lia|].
  assert (Ht : trimmed k u (RemoveObsoletePackets u)) by (unfold RemoveObsoletePackets; rewrite E; done).
  exists k. split_and!; [done| |].
  - eapply trimmed_ok; [done|exact Ht|]. intros j i Hj Hi.
    pose proof (uo_info _ Hu _ i (lookup_at _ _ _ Hi)) as Hok. by apply (useless_counts _ _ _ u) in Hok as (_ & _ & ? & ?); [|apply Hd].
  - intros n i Hn Hlt. rewrite (tr_least _ _ _ Ht) in Hlt. apply GetTransmissionInfo_lookup in Hn as [Hle Hl].
    specialize (Hd (Z.to_nat (n - least_unacked_ u)) i ltac:(lia) Hl). by replace (least_unacked_ u + Z.of_nat (Z.to_nat (n - least_unacked_ u))) with n in Hd by lia.
Qed.

(** * Packets sent *)

(** [u'] is [u] with packets added at the end, and counted. *)
Record extended (more : list QuicTransmissionInfo) (u u' : QuicUnackedPacketMap) : Prop := mk_extended {
  ex_packets : unacked_packets_ u' = unacked_packets_ u ++ more;
  ex_least : least_unacked_ u' = least_unacked_ u;
  ex_sent : largest_sent_packet_ u' = largest_sent_packet_ u + Z.of_nat (length more);
  ex_bytes : bytes_in_flight_ u' = bytes_in_flight_ u + total flight_bytes more;
  ex_crypto : pending_crypto_packet_count_ u' = pending_crypto_packet_count_ u + total crypto_weight more;
}.

Lemma extended_lookup more u u' n :
  unacked_ok u -> extended more u u' ->
  GetTransmissionInfo n u' =
    (if n <=? largest_sent_packet_ u then GetTransmissionInfo n u
     else more !! Z.to_nat (n - (largest_sent_packet_ u + 1))).
Proof.
  intros Hu [Hp Hl _ _ _]. pose proof (uo_end _ Hu) as He. unfold size in He. unfold GetTransmissionInfo. rewrite Hp, Hl.
  destruct (Z.ltb_spec n (least_unacked_ u)), (Z.leb_spec n (largest_sent_packet_ u)); try done; try lia.
  - by rewrite lookup_app_l by lia.
  - rewrite lookup_app_r by lia. f_equal. lia.
Qed.

Lemma extended_ok more u u' :
  unacked_ok u -> extended more u u' -> largest_sent_packet_ u' < max_packets ->
  (forall k i, more !! k = Some i ->
     info_ok (largest_sent_packet_ u') (largest_sent_packet_ u + 1 + Z.of_nat k) i) ->
  unacked_ok u'.
Proof.
  intros Hu Hx Hm Hi. pose proof (fun n => extended_lookup more u u' n Hu Hx) as Hl.
  destruct Hx as [Ep El Es Eb Ec], Hu as [H1 H2 H3 H4 H5 H6]. constructor.
  - lia.
  - unfold size in *. rewrite Ep, length_app. lia.
  - done.
  - intros n i Hn. rewrite Hl in Hn. destruct (Z.leb_spec n (largest_sent_packet_ u)).
    + apply (info_ok_mono (largest_sent_packet_ u)); [lia|]. by apply H4.
    + specialize (Hi _ i Hn). by replace (_ + Z.of_nat _) with n in Hi by lia.
  - rewrite Ep, total_deque_app. lia.
  - rewrite Ep, total_deque_app. lia.
Qed.

(** A packet as it is sent: a number beyond those sent, a length of sixteen bits, a
    handshake message only with frames. *)
Record sendable (packet : SerializedPacket) (u : QuicUnackedPacketMap) : Prop := mk_sendable {
  se_number : largest_sent_packet_ u < sp_packet_number packet < max_packets;
  se_length : 0 <= sp_encrypted_length packet < 2 ^ 16;
  se_crypto : sp_has_crypto_handshake packet = true -> sp_retransmittable_frames packet <> [];
}.

(** The packet that is retransmitted, if any, still has its frames. *)
Definition retransmits (old : Z) (u : QuicUnackedPacketMap) : Prop :=
  old = 0 \/ exists i, GetTransmissionInfo old u = Some i /\ retransmittable_frames i <> [].

Definition skipped_packets (packet : SerializedPacket) (u : QuicUnackedPacketMap) : list QuicTransmissionInfo :=
  replicate (Z.to_nat (sp_packet_number packet - (least_unacked_ u + size u))) never_sent.
Definition sent_info (packet : SerializedPacket) (type : TransmissionType) (sent_time : Z) (set_in_flight : bool)
    (frames : list QuicFrame) (crypto : bool) (padding : Z) : QuicTransmissionInfo :=
  mkInfo (sp_encryption_level packet) (sp_packet_number_length packet) (sp_encrypted_length packet) sent_time type
    set_in_flight OUTSTANDING crypto padding 0 (sp_largest_acked packet) frames.

Lemma total_skipped f packet u : f never_sent = 0 -> total f (skipped_packets packet u) = 0.
Proof. intros Hf. unfold skipped_packets. induction (Z.to_nat _) as [|k IH]; cbn; [done|]. unfold skipped_packets in IH. lia. Qed.

Lemma length_skipped packet u :
  unacked_ok u -> sendable packet u ->
  Z.of_nat (length (skipped_packets packet u)) = sp_packet_number packet - largest_sent_packet_ u - 1.
Proof.
  intros Hu [Hn _ _]. pose proof (uo_end _ Hu). unfold skipped_packets. rewrite length_replicate. lia.
Qed.

(** The packet that was sent, and those whose numbers were skipped. *)
Lemma sent_packets_ok packet type t fl frames crypto padding u k i :
  unacked_ok u -> sendable packet u -> (crypto = true -> frames <> []) ->
  (skipped_packets packet u ++ [sent_info packet type t fl frames crypto padding]) !! k = Some i ->
  info_ok (sp_packet_number packet) (largest_sent_packet_ u + 1 + Z.of_nat k) i.
Proof.
  intros Hu Hs Hcr Hk. pose proof (length_skipped _ _ Hu Hs) as Hlen. destruct Hs as [Hn Hl _].
  apply lookup_app_Some in Hk as [Hk|[Hge Hk]].
  - unfold skipped_packets in Hk. apply lookup_replicate in Hk as [-> _]. constructor; cbn; try done. by left.
  - apply list_lookup_singleton_Some in Hk as [_ <-]. constructor; cbn; try done. by left.
Qed.

(** A first transmission. *)
Lemma AddSentPacket_new packet type t fl u :
  unacked_ok u -> sendable packet u ->
  exists u', AddSentPacket packet 0 type t fl u = Some u' /\ unacked_ok u' /\ largest_acked_ u' = largest_acked_ u /\
    extended (skipped_packets packet u ++
              [sent_info packet type t fl (sp_retransmittable_frames packet) (sp_has_crypto_handshake packet)
                 (sp_num_padding_bytes packet)]) u u'.
Proof.
  intros Hu Hs. pose proof (length_skipped _ _ Hu Hs) as Hlen. pose proof Hs as [Hn Hl Hcr].
  unfold AddSentPacket. cbn [Z.ltb Z.compare mbind option_bind].
  fold (skipped_packets packet u). set (info := sent_info _ _ _ _ _ _ _). set (more := _ ++ [info]).
  assert (Hx : forall u', unacked_packets_ u' = unacked_packets_ u ++ more -> least_unacked_ u' = least_unacked_ u ->
    largest_sent_packet_ u' = sp_packet_number packet ->
    bytes_in_flight_ u' = bytes_in_flight_ u + flight_bytes info ->
    pending_crypto_packet_count_ u' = pending_crypto_packet_count_ u + crypto_weight info ->
    largest_acked_ u' = largest_acked_ u ->
    unacked_ok u' /\ largest_acked_ u' = largest_acked_ u /\ extended more u u').
  { intros u' E1 E2 E3 E4 E5 E6. assert (extended more u u').
    { constructor; try done; unfold more; rewrite ?length_app, ?total_deque_app, ?total_skipped by done; cbn [length total]; lia. }
    split; [|done]. eapply extended_ok; [done|done|lia|]. rewrite E3. intros k i Hk. by eapply sent_packets_ok. }
  pose proof (flight_total_bound _ Hu). pose proof (uo_bytes _ Hu).
  pose proof (crypto_total_bound _ Hu). pose proof (uo_crypto _ Hu).
  unfold flight_bytes, crypto_weight, info in Hx. cbn in Hx.
  destruct fl, (sp_has_crypto_handshake packet) eqn:Ec; cbn [Z.b2z] in Hx;
    (eexists; split; [reflexivity|]); apply Hx; try done; try (symmetry; apply app_assoc);
    cbn -[wrap]; rewrite ?wrap_small by (unfold fits; lia); lia.
Qed.

(** What a packet sent leaves of the others: those with frames stay, but for the one it
    replaces; none becomes acknowledged. *)
Record sent (packet : SerializedPacket) (old : Z) (fl : bool) (t : Z) (u u' : QuicUnackedPacketMap) : Prop := mk_sent {
  st_sent : largest_sent_packet_ u' = sp_packet_number packet;
  st_acked : largest_acked_ u' = largest_acked_ u;
  st_least : least_unacked_ u <= least_unacked_ u';
  st_kept : forall n i, GetTransmissionInfo n u = Some i -> retransmittable_frames i <> [] -> n <> old ->
    GetTransmissionInfo n u' = Some i;
  st_info : forall n i', GetTransmissionInfo n u' = Some i' ->
    (largest_sent_packet_ u < n /\ state i' <> ACKED) \/
    (exists i, GetTransmissionInfo n u = Some i /\ (state i' = ACKED <-> state i = ACKED) /\
       in_flight i' = in_flight i /\ bytes_sent i' = bytes_sent i /\ sent_time i' = sent_time i);
  st_new : exists i, GetTransmissionInfo (sp_packet_number packet) u' = Some i /\ state i = OUTSTANDING /\
    in_flight i = fl /\ sent_time i = t /\ bytes_sent i = sp_encrypted_length packet /\
    (old = 0 -> retransmittable_frames i = sp_retransmittable_frames packet) /\
    (old <> 0 -> forall o, GetTransmissionInfo old u = Some o -> retransmittable_frames i = retransmittable_frames o);
}.

Lemma never_sent_or_sent packet type t fl frames crypto padding u k i :
  (skipped_packets packet u ++ [sent_info packet type t fl frames crypto padding]) !! k = Some i -> state i <> ACKED.
Proof.
  intros Hk. apply lookup_app_Some in Hk as [Hk|[Hge Hk]].
  - unfold skipped_packets in Hk. by apply lookup_replicate in Hk as [-> _].
  - by apply list_lookup_singleton_Some in Hk as [_ <-].
Qed.

Lemma lookup_last_sent packet type t fl frames crypto padding u u' :
  unacked_ok u -> sendable packet u ->
  extended (skipped_packets packet u ++ [sent_info packet type t fl frames crypto padding]) u u' ->
  GetTransmissionInfo (sp_packet_number packet) u' = Some (sent_info packet type t fl frames crypto padding).
Proof.
  intros Hu Hs Hx. pose proof (length_skipped _ _ Hu Hs). pose proof (se_number _ _ Hs).
  rewrite (extended_lookup _ _ _ _ Hu Hx). destruct (Z.leb_spec (sp_packet_number packet) (largest_sent_packet_ u)); [lia|].
  rewrite lookup_app_r by lia. by replace (_ - _)%nat with 0%nat by lia.
Qed.

Lemma AddSentPacket_new_sent packet type t fl u :
  unacked_ok u -> sendable packet u ->
  exists u', AddSentPacket packet 0 type t fl u = Some u' /\ unacked_ok u' /\ sent packet 0 fl t u u'.
Proof.
  intros Hu Hs. destruct (AddSentPacket_new packet type t fl u Hu Hs) as (u' & E & Hu' & Ea & Hx).
  pose proof (length_skipped _ _ Hu Hs). exists u'. split_and!; [done|done|]. constructor.
  - rewrite (ex_sent _ _ _ Hx), length_app. cbn [length]. lia.
  - done.
  - rewrite (ex_least _ _ _ Hx). lia.
  - intros n i Hn _ _. rewrite (extended_lookup _ _ _ _ Hu Hx). pose proof (lookup_present _ _ _ Hu Hn) as [_ Hle].
    by rewrite (proj2 (Z.leb_le n (largest_sent_packet_ u))) by done.
  - intros n i' Hn. rewrite (extended_lookup _ _ _ _ Hu Hx) in Hn.
    destruct (Z.leb_spec n (largest_sent_packet_ u)); [right; by exists i'|left]. split; [done|].
    by eapply never_sent_or_sent.
  - eexists. split; [exact (lookup_last_sent _ _ _ _ _ _ _ _ _ Hu Hs Hx)|]. by split_and!.
Qed.

(** The packet that is replaced: its frames are gone, and it points to the new one. *)
Definition replaced (type : TransmissionType) (packet_number : Z) (o : QuicTransmissionInfo) : QuicTransmissionInfo :=
  let o := o <| retransmittable_frames := [] |> <| has_crypto_handshake := false |> in
  match type with
  | ALL_INITIAL_RETRANSMISSION | ALL_UNACKED_RETRANSMISSION => o <| state := UNACKABLE |>
  | _ => o <| retransmission := packet_number |>
  end.

Lemma replaced_ok type packet_number hi n o :
  info_ok hi n o -> n < packet_number <= hi -> retransmittable_frames o <> [] ->
  info_ok hi n (replaced type packet_number o).
Proof.
  intros [Hb Hl Hf Hc Ha] Hn Hne.
  assert (state o <> ACKED) by (intros E; destruct (Ha E) as (_ & ? & _); done).
  destruct type; constructor; cbn; try done; right; lia.
Qed.

Lemma replaced_fields type packet_number o :
  let o' := replaced type packet_number o in
  in_flight o' = in_flight o /\ bytes_sent o' = bytes_sent o /\ sent_time o' = sent_time o /\
  has_crypto_handshake o' = false /\ retransmittable_frames o' = [] /\ (state o' = ACKED -> state o = ACKED).
Proof. by destruct type. Qed.

Lemma TransferRetransmissionInfo_spec old new type info u o :
  GetTransmissionInfo old u = Some o -> old <= largest_sent_packet_ u -> retransmittable_frames info = [] ->
  TransferRetransmissionInfo old new type info u =
    Some (info <| retransmittable_frames := retransmittable_frames o |>
               <| has_crypto_handshake := has_crypto_handshake o |>
               <| ti_num_padding_bytes := ti_num_padding_bytes o |>,
          RemoveObsoletePackets (update old (replaced type new) u)).
Proof.
  intros Ho Hle Hf. pose proof Ho as Ho'. apply GetTransmissionInfo_lookup in Ho' as [Hge Hx].
  unfold TransferRetransmissionInfo. destruct (Z.ltb_spec old (least_unacked_ u)); [lia|].
  destruct (Z.ltb_spec (largest_sent_packet_ u) old); [lia|]. rewrite Ho. cbn [mbind option_bind]. rewrite Hf.
  do 3 f_equal. unfold update. do 2 f_equal. apply list_alter_ext; [|done]. intros x Hx'.
  assert (x = o) as -> by congruence. by destruct type.
Qed.

(** A retransmission, in three steps: the new packet is added, the old one replaced, and
    the packets in front that are no longer useful removed. *)
Lemma AddSentPacket_retransmission packet old type t fl u o :
  unacked_ok u -> sendable packet u -> GetTransmissionInfo old u = Some o -> retransmittable_frames o <> [] ->
  let info := sent_info packet type t fl (retransmittable_frames o) (has_crypto_handshake o) (ti_num_padding_bytes o) in
  exists u' uE uC k, AddSentPacket packet old type t fl u = Some u' /\
    extended (skipped_packets packet u ++ [info]) u uE /\
    changed old (replaced type (sp_packet_number packet)) o uE uC /\ trimmed k uC u' /\
    largest_acked_ uC = largest_acked_ u /\
    (forall j i, (j < k)%nat -> unacked_packets_ uC !! j = Some i ->
       IsPacketUseless (least_unacked_ u + Z.of_nat j) i uC = true).
Proof.
  intros Hu Hs Ho Hne. cbv zeta. pose proof (length_skipped _ _ Hu Hs) as Hlen. pose proof Hs as [Hn Hl Hcr].
  pose proof (lookup_present _ _ _ Hu Ho) as [Hp1 Hp2]. pose proof (uo_least _ Hu). pose proof (uo_end _ Hu) as He.
  pose proof (uo_max _ Hu). pose proof (lookup_index _ _ _ Ho) as Hx. unfold size, max_packets in *.
  unfold AddSentPacket. rewrite (proj2 (Z.ltb_lt 0 old)) by lia. rewrite (proj2 (Z.eqb_neq old 0)) by lia. cbv zeta.
  fold (skipped_packets packet u). set (info := sent_info _ _ _ _ _ _ _).
  set (u1 := (u <| unacked_packets_ := _ |>) <| largest_sent_largest_acked_ := _ |>).
  assert (Ho1 : GetTransmissionInfo old u1 = Some o).
  { apply GetTransmissionInfo_lookup. split; [done|]. cbn. by apply lookup_app_l_Some. }
  rewrite (TransferRetransmissionInfo_spec _ _ _ _ u1 o) by (exact Ho1 || done). cbn [mbind option_bind].
  set (u2 := update old _ u1).
  destruct (drop_obsolete_spec u2 (least_unacked_ u2) (unacked_packets_ u2)) as (k & E & Hk & Hd); [cbn; lia|..].
  { cbn. rewrite length_alter, length_app. lia. }
  unfold RemoveObsoletePackets. rewrite E. cbv zeta.
  pose proof (flight_total_bound _ Hu). pose proof (uo_bytes _ Hu).
  set (uE := u <| unacked_packets_ := unacked_packets_ u ++ skipped_packets packet u ++ [info] |>
               <| largest_sent_packet_ := sp_packet_number packet |>
               <| bytes_in_flight_ := bytes_in_flight_ u + flight_bytes info |>
               <| pending_crypto_packet_count_ := pending_crypto_packet_count_ u + crypto_weight info |>).
  set (uC := update old (replaced type (sp_packet_number packet)) uE
               <| pending_crypto_packet_count_ := pending_crypto_packet_count_ u |>).
  pose proof (replaced_fields type (sp_packet_number packet) o) as (F1 & F2 & F3 & F4 & F5 & F6).
  assert (HxE : extended (skipped_packets packet u ++ [info]) u uE).
  { constructor; try done; rewrite ?length_app, ?total_deque_app, ?total_skipped by done; cbn [length total].
    - change (largest_sent_packet_ uE) with (sp_packet_number packet). lia.
    - change (bytes_in_flight_ uE) with (bytes_in_flight_ u + flight_bytes info). lia.
    - change (pending_crypto_packet_count_ uE) with (pending_crypto_packet_count_ u + crypto_weight info). lia. }
  assert (Hc : changed old (replaced type (sp_packet_number packet)) o uE uC).
  { constructor; try done; unfold flight_bytes, crypto_weight; rewrite ?F1, ?F2, ?F4.
    - change (bytes_in_flight_ uC) with (bytes_in_flight_ uE). lia.
    - change (pending_crypto_packet_count_ uC) with (pending_crypto_packet_count_ u).
      change (pending_crypto_packet_count_ uE)
        with (pending_crypto_packet_count_ u + Z.b2z (has_crypto_handshake o)). cbn [Z.b2z]. lia. }
  assert (EpC : unacked_packets_ uC = unacked_packets_ u2 ++ [info]).
  { rewrite (ch_packets _ _ _ _ _ Hc). cbn. rewrite app_assoc, alter_app_l; [done|].
    apply lookup_lt_Some in Hx. rewrite length_app. lia. }
  assert (Ht : forall u', unacked_packets_ u' = drop k (unacked_packets_ u2) ++ [info] ->
    least_unacked_ u' = least_unacked_ u + Z.of_nat k -> largest_sent_packet_ u' = sp_packet_number packet ->
    largest_acked_ u' = largest_acked_ u -> bytes_in_flight_ u' = bytes_in_flight_ u + flight_bytes info ->
    pending_crypto_packet_count_ u' = pending_crypto_packet_count_ u -> trimmed k uC u').
  { intros u' E1 E2 E3 E4 E5 E6. constructor; try done; rewrite EpC; [by rewrite drop_app_le|rewrite length_app; lia]. }
  assert (Hd' : forall j i, (j < k)%nat -> unacked_packets_ uC !! j = Some i ->
    IsPacketUseless (least_unacked_ u + Z.of_nat j) i uC = true).
  { intros j i Hj Hi. rewrite EpC, lookup_app_l in Hi by lia. by apply Hd. }
  destruct fl; eexists _, uE, uC, k; (split; [reflexivity|]); split_and!; try done; apply Ht; try done.
  all: cbn -[wrap]; rewrite ?wrap_small by (unfold fits; lia); unfold flight_bytes; cbn; lia.
Qed.

(** A packet with frames is not removed. *)
Lemma trimmed_keeps_frames k u u' n i :
  trimmed k u u' ->
  (forall j i, (j < k)%nat -> unacked_packets_ u !! j = Some i -> IsPacketUseless (least_unacked_ u + Z.of_nat j) i u = true) ->
  GetTransmissionInfo n u = Some i -> retransmittable_frames i <> [] -> GetTransmissionInfo n u' = Some i.
Proof.
  intros Ht Hd Hn Hf. rewrite (trimmed_lookup _ _ _ _ Ht), (tr_least _ _ _ Ht).
  destruct (Z.ltb_spec n (least_unacked_ u + Z.of_nat k)); [|done]. exfalso.
  apply GetTransmissionInfo_lookup in Hn as [Hle Hl].
  specialize (Hd (Z.to_nat (n - least_unacked_ u)) i ltac:(lia) Hl). unfold IsPacketUseless in Hd.
  apply andb_true_iff in Hd as [_ Hd]. unfold IsPacketUsefulForRetransmittableData, HasRetransmittableFrames in Hd.
  destruct (retransmittable_frames i); [done|]. by rewrite orb_true_r in Hd.
Qed.

Lemma AddSentPacket_retransmission_sent packet old type t fl u o :
  unacked_ok u -> sendable packet u -> GetTransmissionInfo old u = Some o -> retransmittable_frames o <> [] ->
  exists u', AddSentPacket packet old type t fl u = Some u' /\ unacked_ok u' /\ sent packet old fl t u u'.
Proof.
  intros Hu Hs Ho Hne. pose proof (length_skipped _ _ Hu Hs) as Hlen. pose proof (se_number _ _ Hs) as Hn.
  destruct (AddSentPacket_retransmission packet old type t fl u o Hu Hs Ho Hne)
    as (u' & uE & uC & k & E & Hx & Hc & Ht & Ea & Hd). set (info := sent_info _ _ _ _ _ _ _) in *.
  assert (EsE : largest_sent_packet_ uE = sp_packet_number packet).
  { rewrite (ex_sent _ _ _ Hx), length_app. cbn [length]. lia. }
  assert (HuE : unacked_ok uE).
  { eapply extended_ok; [done|exact Hx|lia|]. rewrite EsE. intros j i Hj. by eapply sent_packets_ok. }
  pose proof (lookup_present _ _ _ Hu Ho) as Hp.
  assert (HlE : forall n, n <= largest_sent_packet_ u -> GetTransmissionInfo n uE = GetTransmissionInfo n u).
  { intros n Hle. rewrite (extended_lookup _ _ _ _ Hu Hx). by rewrite (proj2 (Z.leb_le n _)). }
  assert (HoE : GetTransmissionInfo old uE = Some o) by (rewrite HlE; [done|apply Hp]).
  assert (HleE : least_unacked_ uE <= old) by (rewrite (ex_least _ _ _ Hx); apply Hp).
  pose proof (fun n => changed_lookup _ _ _ _ _ n Hc HleE) as HlC.
  assert (HuC : unacked_ok uC).
  { eapply changed_ok; [exact HuE|exact HoE|exact Hc|]. rewrite EsE. apply replaced_ok; [|unfold present in Hp; lia|done].
    rewrite <- EsE. by apply (uo_info _ HuE). }
  assert (ElC : least_unacked_ uC = least_unacked_ u) by (rewrite (ch_least _ _ _ _ _ Hc); apply (ex_least _ _ _ Hx)).
  rewrite <- ElC in Hd.
  assert (Hu' : unacked_ok u').
  { eapply trimmed_ok; [exact HuC|exact Ht|]. intros j i Hj Hi.
    pose proof (uo_info _ HuC _ i (lookup_at _ _ _ Hi)) as Hok.
    by apply (useless_counts _ _ _ uC) in Hok as (_ & _ & ? & ?); [|apply Hd]. }
  exists u'. split_and!; [done|done|]. constructor.
  - rewrite (tr_sent _ _ _ Ht), (ch_sent _ _ _ _ _ Hc). done.
  - by rewrite (tr_acked _ _ _ Ht).
  - rewrite (tr_least _ _ _ Ht), ElC. lia.
  - intros n i Hi Hf Hno. eapply trimmed_keeps_frames; [exact Ht|exact Hd| |done].
    rewrite HlC, decide_False by done. rewrite HlE; [done|]. apply (lookup_present _ _ _ Hu Hi).
  - intros n i' Hi'. rewrite (trimmed_lookup _ _ _ _ Ht) in Hi'. destruct (n <? least_unacked_ u'); [done|].
    rewrite HlC in Hi'. destruct (decide (n = old)) as [->|Hno].
    + right. exists o. rewrite HoE in Hi'. injection Hi' as <-.
      pose proof (replaced_fields type (sp_packet_number packet) o) as (F1 & F2 & F3 & _ & _ & F6). split_and!; try done.
      split; [done|]. intros Es. destruct (io_acked _ _ _ (uo_info _ Hu old o Ho) Es) as (_ & ? & _). done.
    + destruct (Z.leb_spec n (largest_sent_packet_ u)).
      * right. exists i'. rewrite HlE in Hi' by done. done.
      * left. split; [done|]. rewrite (extended_lookup _ _ _ _ Hu Hx) in Hi'.
        rewrite (proj2 (Z.leb_gt n _)) in Hi' by done. by eapply never_sent_or_sent.
  - exists info. split.
    + eapply trimmed_keeps_frames; [exact Ht|exact Hd| |done]. rewrite HlC, decide_False by (unfold present in Hp; lia).
      exact (lookup_last_sent _ _ _ _ _ _ _ _ _ Hu Hs Hx).
    + pose proof (uo_least _ Hu). unfold present in Hp. split_and!; try done; [lia|]. intros _ o' Ho'. unfold info. cbn. congruence.
Qed.

Lemma AddSentPacket_ok packet old type t fl u :
  unacked_ok u -> sendable packet u -> retransmits old u ->
  exists u', AddSentPacket packet old type t fl u = Some u' /\ unacked_ok u' /\ sent packet old fl t u u'.
Proof.
  intros Hu Hs [->|(o & Ho & Hne)]; [by apply AddSentPacket_new_sent|by eapply AddSentPacket_retransmission_sent].
Qed.

(** * Streams that are cancelled *)

Lemma cancel_all_frames n i u :
  unacked_ok u -> GetTransmissionInfo n u = Some i -> retransmittable_frames i <> [] ->
  exists u', RemoveRetransmittability n (update n (fun i => i <| retransmittable_frames := [] |>) u) = Some u' /\
    unacked_ok u' /\ keeps (fun _ => False) u u'.
Proof.
  intros Hu Hi Hne. pose proof (uo_info _ Hu n i Hi) as [Hb Hl Hf Hc Ha]. pose proof (lookup_present _ _ _ Hu Hi) as Hp.
  set (u1 := update n _ u). unfold RemoveRetransmittability, chain_fuel. cbn [unlink].
  assert (Hi1 : GetTransmissionInfo n u1 = Some (i <| retransmittable_frames := [] |>)).
  { unfold u1. rewrite lookup_update, decide_True, Hi by (apply Hp || done). done. }
  rewrite Hi1. cbn [mbind option_bind]. change (retransmission (i <| retransmittable_frames := [] |>)) with (retransmission i).
  rewrite (Hf Hne). cbn [Z.eqb mbind option_bind]. rewrite Hi1. cbn [mbind option_bind].
  change (has_crypto_handshake (i <| retransmittable_frames := [] |>)) with (has_crypto_handshake i).
  set (f := fun i => i <| has_crypto_handshake := false |> <| retransmittable_frames := [] |>).
  set (u2 := if has_crypto_handshake i then _ else _).
  assert (Hch : changed n f i u (update n f u2)).
  { pose proof (crypto_total_bound _ Hu). pose proof (uo_crypto _ Hu).
    assert (crypto_weight i <= total crypto_weight (unacked_packets_ u)).
    { eapply total_lookup_le; [|by apply lookup_index]. intros y _. unfold crypto_weight. destruct (has_crypto_handshake y); cbn; lia. }
    assert (Ep : alter f (Z.to_nat (n - least_unacked_ u))
        (alter (fun i => i <| retransmittable_frames := [] |>) (Z.to_nat (n - least_unacked_ u)) (unacked_packets_ u)) =
      alter f (Z.to_nat (n - least_unacked_ u)) (unacked_packets_ u)).
    { rewrite list_alter_alter_eq. by apply list_alter_ext. }
    unfold u2, crypto_weight in *. destruct (has_crypto_handshake i) eqn:Ec; constructor; try done;
      unfold flight_bytes, crypto_weight; cbn -[wrap]; rewrite ?Ec; cbn [Z.b2z] in *; try lia.
    rewrite wrap_small; unfold fits; lia. }
  exists (update n f u2). split_and!; [done| |].
  - eapply changed_ok; [exact Hu|exact Hi|exact Hch|]. constructor; try done. intros Hs. cbn in *. naive_solver.
  - eapply changed_keeps; [exact Hi|exact Hch|..]; auto; [|done]. unfold u2. by destruct (has_crypto_handshake i).
Qed.

Lemma cancel_for_stream_ok stream_id numbers u :
  unacked_ok u -> Forall (fun n => present n u) numbers ->
  exists u', cancel_for_stream stream_id numbers u = Some u' /\ unacked_ok u' /\ keeps (fun _ => False) u u'.
Proof.
  revert u. induction numbers as [|n numbers IH]; intros u Hu Hall.
  { exists u. split_and!; [done|done|apply keeps_refl]. }
  apply Forall_cons in Hall as [Hp Hall]. destruct (present_lookup _ _ Hu Hp) as [i Hi]. cbn [cancel_for_stream].
  rewrite Hi. cbn [mbind option_bind]. unfold HasRetransmittableFrames.
  destruct (retransmittable_frames i) as [|fr frs] eqn:Ef; [by apply IH|]. rewrite <- Ef.
  assert (Hne : retransmittable_frames i <> []) by (by rewrite Ef).
  enough (exists u1, (match RemoveFramesForStream (retransmittable_frames i) stream_id with
      | [] => RemoveRetransmittability n (update n (fun i0 => i0 <| retransmittable_frames :=
                RemoveFramesForStream (retransmittable_frames i) stream_id |>) u)
      | _ => Some (update n (fun i0 => i0 <| retransmittable_frames :=
                RemoveFramesForStream (retransmittable_frames i) stream_id |>) u)
      end) = Some u1 /\ unacked_ok u1 /\ keeps (fun _ => False) u u1) as (u1 & E1 & Hu1 & Hk1).
  { cbv zeta. rewrite E1. cbn [mbind option_bind]. destruct (IH u1 Hu1) as (u' & E & Hu' & Hk).
    - eapply Forall_impl; [exact Hall|]. intros k Hk. by apply (keeps_present _ _ _ _ Hk1).
    - exists u'. split_and!; [done|done|by eapply keeps_trans]. }
  destruct (RemoveFramesForStream (retransmittable_frames i) stream_id) as [|g gs]; [by eapply cancel_all_frames|].
  pose proof (uo_info _ Hu n i Hi) as [Hb Hl Hf Hc Ha]. eexists. split; [done|]. set (f := fun i0 => _).
  assert (Hch : changed n f i u (update n f u)) by (by apply changed_update). split.
  - eapply changed_ok; [exact Hu|exact Hi|exact Hch|]. constructor; try done; cbn; auto. intros Hs. by destruct (Ha Hs) as (_ & ? & _).
  - eapply changed_keeps; [exact Hi|exact Hch|..]; auto. done.
Qed.

Lemma packet_numbers_present u : unacked_ok u -> Forall (fun n => present n u) (packet_numbers u).
Proof.
  intros Hu. apply Forall_forall. intros n Hn. unfold packet_numbers in Hn. apply elem_of_seqZ in Hn.
  pose proof (uo_end _ Hu). unfold present. lia.
Qed.

Lemma CancelRetransmissionsForStream_ok stream_id u :
  unacked_ok u ->
  exists u', CancelRetransmissionsForStream stream_id u = Some u' /\ unacked_ok u' /\ keeps (fun _ => False) u u'.
Proof. intros Hu. by apply cancel_for_stream_ok; [|apply packet_numbers_present]. Qed.
