(* ===== verification/SentPackets.v ===== *)
(** [QuicSentPacketManager] (net/third_party/quic/core/quic_sent_packet_manager.cc):
    what the sending application asks whether it may send, tells what it sent, and
    hands the acknowledgements to.

    The send algorithm is an interface, [SendAlgorithmInterface]; it reads the round
    trip times and the unacked packets it has pointers to, which are passed to it.
    There is no debug delegate, network change visitor or session notifier, as the
    application sets none: the branches for these are left out.  The clock's time is an
    argument [now]; its wall time is the same count of microseconds, as it is for the
    clock of the applications (ns_quic_time.cc).  [None] is undefined behaviour: an access
    outside the deque of unacked packets, or to an empty container. *)
From stdpp Require Import list_numbers.
From S2P Require Import Prelude.
From S2P Require Import PacketNumbers.
From S2P Require Import PacketNumberQueue.
From S2P Require Import FramerTypes.
From S2P Require Import QuicUnits.
From S2P Require Import WindowedFilter.
From S2P Require Import Sampler.
From S2P Require Import RttEstimates.
From S2P Require Import UnackedPackets.
From S2P Require Import LossDetection.
From S2P Require Import SendAlgorithm.
From S2P Require Import BandwidthRecorder.
From S2P Require Import PacedSending.

Import RttStats QuicUnackedPacketMap GeneralLossAlgorithm.
Open Scope Z_scope.

Inductive AddressChangeType :=
  | NO_CHANGE
  | PORT_CHANGE
  | IPV4_SUBNET_CHANGE
  | IPV4_TO_IPV4_CHANGE
  | IPV4_TO_IPV6_CHANGE
  | IPV6_TO_IPV4_CHANGE
  | IPV6_TO_IPV6_CHANGE.

Module QuicSentPacketManager.

(** The fields of [QuicConnectionStats] the manager updates. *)
Record Stats := mkStats {
  packets_lost : Z;
  bytes_spuriously_retransmitted : Z;
  packets_spuriously_retransmitted : Z;
  crypto_retransmit_count : Z;
  loss_timeout_count : Z;
  tlp_count : Z;
  rto_count : Z;
}.

(** [pending_retransmissions_] is a linked hash map: the order is that of insertion.
    [acked_packets_iter_] is what is left of the reversed intervals of
    [last_ack_frame_].  [optimize_inflight_check] is the flag of that name. *)
Record QuicSentPacketManager {SA : Type} := mkManager {
  unacked_packets_ : QuicUnackedPacketMap;
  pending_retransmissions_ : list (Z * TransmissionType);
  stats_ : Stats;
  initial_congestion_window_ : Z;
  rtt_stats_ : RttStats;
  send_algorithm_ : SA;
  using_pacing_ : bool;
  pacing_sender_ : PacingSender.PacingSender;
  sustained_bandwidth_recorder_ : QuicSustainedBandwidthRecorder.QuicSustainedBandwidthRecorder;
  general_loss_algorithm_ : GeneralLossAlgorithm;
  n_connection_simulation_ : bool;
  first_rto_transmission_ : Z;
  consecutive_rto_count_ : Z;
  consecutive_tlp_count_ : Z;
  consecutive_crypto_retransmission_count_ : Z;
  pending_timer_transmission_count_ : Z;
  max_tail_loss_probes_ : Z;
  max_rto_packets_ : Z;
  enable_half_rtt_tail_loss_probe_ : bool;
  use_new_rto_ : bool;
  conservative_handshake_retransmits_ : bool;
  min_tlp_timeout_ : Z;
  min_rto_timeout_ : Z;
  ietf_style_tlp_ : bool;
  ietf_style_2x_tlp_ : bool;
  packets_acked_ : list AckedPacket;
  packets_lost_ : list LostPacket;
  largest_newly_acked_ : Z;
  handshake_confirmed_ : bool;
  largest_packet_peer_knows_is_acked_ : Z;
  delayed_ack_time_ : Z;
  last_ack_frame_ : QuicAckFrame;
  rtt_updated_ : bool;
  acked_packets_iter_ : list Interval;
  fix_mark_for_loss_retransmission_ : bool;
  optimize_inflight_check : bool;
}.
Arguments QuicSentPacketManager : clear implicits.

Definition kDefaultRetransmissionTimeMs : Z := 500.
Definition kMaxRetransmissionTimeMs : Z := 60000.
Definition kMaxRetransmissions : Z := 10.
Definition kMaxRetransmissionsOnTimeout : Z := 2.
Definition kNumRetransmissionDelaysForPathDegradingDelay : Z := 2.
Definition kMinHandshakeTimeoutMs : Z := 10.
Definition kDefaultMaxTailLossProbes : Z := 2.
Definition kInitialCongestionWindow : Z := 32.
Definition kMinTailLossProbeTimeoutMs : Z := 10.
Definition kMinRetransmissionTimeMs : Z := 200.
Definition kDefaultDelayedAckTimeMs : Z := 25.
Definition kMinInitialRoundTripTimeUs : Z := 10 * 1000.
Definition kMaxInitialRoundTripTimeUs : Z := 15 * 1000 * 1000.

Section manager.
Context {SA : Type} {SI : SendAlgorithmInterface SA}.
Implicit Types m : QuicSentPacketManager SA.

Definition QuicSentPacketManager_ctor (send_algorithm : SA) (loss : GeneralLossAlgorithm)
    (fix_mark optimize_inflight : bool) (pacing : PacingSender.Flags) : QuicSentPacketManager SA :=
  mkManager _ QuicUnackedPacketMap_ctor [] (mkStats 0 0 0 0 0 0 0) kInitialCongestionWindow RttStats_ctor
    send_algorithm false (PacingSender.PacingSender_ctor pacing)
    QuicSustainedBandwidthRecorder.QuicSustainedBandwidthRecorder_ctor loss false 0 0 0 0 0 kDefaultMaxTailLossProbes kMaxRetransmissionsOnTimeout false false false
    (FromMilliseconds kMinTailLossProbeTimeoutMs) (FromMilliseconds kMinRetransmissionTimeMs) false false [] [] 0 false
    0 (FromMilliseconds kDefaultDelayedAckTimeMs) emptyAckFrame false [] fix_mark optimize_inflight.

Definition SetHandshakeConfirmed m : QuicSentPacketManager SA := m <| handshake_confirmed_ := true |>.
Definition set_delayed_ack_time (delayed_ack_time : Z) m : QuicSentPacketManager SA :=
  m <| delayed_ack_time_ := delayed_ack_time |>.
Definition SetInitialRtt (rtt : Z) m : QuicSentPacketManager SA :=
  m <| rtt_stats_ := set_initial_rtt (Z.max kMinInitialRoundTripTimeUs (Z.min kMaxInitialRoundTripTimeUs rtt))
                       (rtt_stats_ m) |>.
Definition AdjustNetworkParameters (bandwidth rtt : Z) m : QuicSentPacketManager SA :=
  let m := if rtt =? 0 then m else SetInitialRtt rtt m in
  m <| send_algorithm_ := sa_AdjustNetworkParameters bandwidth rtt (send_algorithm_ m) |>.
Definition SetNumOpenStreams (num_streams : Z) m : QuicSentPacketManager SA :=
  if n_connection_simulation_ m
  then m <| send_algorithm_ := sa_SetNumEmulatedConnections (Z.min 5 (Z.max 1 num_streams)) (send_algorithm_ m) |>
  else m.
Definition OnConnectionMigration (type : AddressChangeType) m : QuicSentPacketManager SA :=
  match type with
  | PORT_CHANGE | IPV4_SUBNET_CHANGE => m
  | _ =>
    m <| consecutive_rto_count_ := 0 |> <| consecutive_tlp_count_ := 0 |>
      <| rtt_stats_ := RttStats.OnConnectionMigration (rtt_stats_ m) |>
      <| send_algorithm_ := sa_OnConnectionMigration (send_algorithm_ m) |>
  end.
Definition OnApplicationLimited m : QuicSentPacketManager SA :=
  let m := if using_pacing_ m then m <| pacing_sender_ := PacingSender.OnApplicationLimited (pacing_sender_ m) |> else m in
  m <| send_algorithm_ := sa_OnApplicationLimited (rtt_stats_ m) (unacked_packets_ m)
                             (bytes_in_flight_ (unacked_packets_ m)) (send_algorithm_ m) |>.

(** * Retransmissions *)

Definition RetransmissionLeavesBytesInFlight (type : TransmissionType) : bool :=
  match type with TLP_RETRANSMISSION | PROBING_RETRANSMISSION | RTO_RETRANSMISSION => true | _ => false end.

Definition erase (packet_number : Z) (pending : list (Z * TransmissionType)) : list (Z * TransmissionType) :=
  filter (fun p => p.1 <> packet_number) pending.
Definition contains_key (packet_number : Z) (pending : list (Z * TransmissionType)) : bool :=
  existsb (fun p => p.1 =? packet_number) pending.

Definition HasPendingRetransmissions m : bool := match pending_retransmissions_ m with [] => false | _ => true end.

Definition MarkForRetransmission (packet_number : Z) (type : TransmissionType) m : option (QuicSentPacketManager SA) :=
  info ← GetTransmissionInfo packet_number (unacked_packets_ m);
  u ← (if RetransmissionLeavesBytesInFlight type then Some (unacked_packets_ m)
       else RemoveFromInFlight packet_number (unacked_packets_ m));
  let m := m <| unacked_packets_ := u |> in
  Some (if fix_mark_for_loss_retransmission_ m && negb (HasRetransmittableFrames info) then m
        else if contains_key packet_number (pending_retransmissions_ m) then m
        else m <| pending_retransmissions_ := pending_retransmissions_ m ++ [(packet_number, type)] |>).

(** Loops over the unacked packets: the callees leave the deque's length alone. *)
Definition each_unacked (body : Z -> QuicSentPacketManager SA -> option (QuicSentPacketManager SA)) m :
    option (QuicSentPacketManager SA) :=
  foldl (fun om n => m ← om; body n m) (Some m) (packet_numbers (unacked_packets_ m)).

Definition RetransmitUnackedPackets (type : TransmissionType) m : option (QuicSentPacketManager SA) :=
  each_unacked (fun n m =>
    info ← GetTransmissionInfo n (unacked_packets_ m);
    if (bool_decide (type = ALL_UNACKED_RETRANSMISSION) || bool_decide (encryption_level info = ENCRYPTION_INITIAL)) &&
       HasRetransmittableFrames info
    then MarkForRetransmission n type m else Some m) m.

Definition NeuterUnencryptedPackets m : option (QuicSentPacketManager SA) :=
  each_unacked (fun n m =>
    info ← GetTransmissionInfo n (unacked_packets_ m);
    if bool_decide (encryption_level info = ENCRYPTION_NONE) && HasRetransmittableFrames info then
      u ← RemoveFromInFlight n (unacked_packets_ m);
      u ← RemoveRetransmittability n u;
      Some (m <| pending_retransmissions_ := erase n (pending_retransmissions_ m) |> <| unacked_packets_ := u |>)
    else Some m) m.

(** The first pending retransmission of a crypto packet, else the first of all. *)
Fixpoint crypto_first (u : QuicUnackedPacketMap) (pending : list (Z * TransmissionType)) (first : Z * TransmissionType) :
    option (Z * TransmissionType) :=
  match pending with
  | [] => Some first
  | p :: pending =>
    info ← GetTransmissionInfo p.1 u;
    if has_crypto_handshake info then Some p else crypto_first u pending first
  end.
Definition NextPendingRetransmission m : option QuicPendingRetransmission :=
  let u := unacked_packets_ m in
  first ← head (pending_retransmissions_ m);
  '(packet_number, type) ←
    (if HasPendingCryptoPackets u then crypto_first u (pending_retransmissions_ m) first else Some first);
  info ← GetTransmissionInfo packet_number u;
  Some (mkPending packet_number (retransmittable_frames info) type (has_crypto_handshake info)
          (ti_num_padding_bytes info) (encryption_level info) (ti_packet_number_length info)).

Definition CancelRetransmissionsForStream (stream_id : Z) m : option (QuicSentPacketManager SA) :=
  u ← QuicUnackedPacketMap.CancelRetransmissionsForStream stream_id (unacked_packets_ m);
  keep ← mapM (fun p => info ← GetTransmissionInfo p.1 u; Some (p, HasRetransmittableFrames info))
           (pending_retransmissions_ m);
  Some (m <| unacked_packets_ := u |>
          <| pending_retransmissions_ := map fst (filter (fun p => p.2 = true) keep) |>).

(** * Packets sent *)

(** Lines 624-632: the send algorithm is told, by the pacing sender when that is in use. *)
Definition tell_sent (sent_time packet_number encrypted_length : Z) (has_retransmittable_data : bool) m :
    QuicSentPacketManager SA :=
  let u := unacked_packets_ m in
  let told :=
    if using_pacing_ m
    then PacingSender.OnPacketSent (rtt_stats_ m) u sent_time (bytes_in_flight_ u) packet_number encrypted_length
           has_retransmittable_data (pacing_sender_ m) (send_algorithm_ m)
    else (pacing_sender_ m, sa_OnPacketSent (rtt_stats_ m) u sent_time (bytes_in_flight_ u) packet_number
                              encrypted_length has_retransmittable_data (send_algorithm_ m)) in
  m <| pacing_sender_ := told.1 |> <| send_algorithm_ := told.2 |>.

Definition OnPacketSent (serialized_packet : SerializedPacket) (original_packet_number sent_time : Z)
    (type : TransmissionType) (has_retransmittable_data : bool) m : option (bool * QuicSentPacketManager SA) :=
  let packet_number := sp_packet_number serialized_packet in
  let m := if original_packet_number =? 0 then m
           else m <| pending_retransmissions_ := erase original_packet_number (pending_retransmissions_ m) |> in
  let m := if 0 <? pending_timer_transmission_count_ m
           then m <| pending_timer_transmission_count_ := pending_timer_transmission_count_ m - 1 |> else m in
  let u := unacked_packets_ m in
  let m := tell_sent sent_time packet_number (sp_encrypted_length serialized_packet) has_retransmittable_data m in
  u ← AddSentPacket serialized_packet original_packet_number type sent_time has_retransmittable_data u;
  Some (has_retransmittable_data, m <| unacked_packets_ := u |>).

Definition TimeUntilSend (now : Z) m : Z :=
  if 0 <? pending_timer_transmission_count_ m then 0
  else if using_pacing_ m
  then PacingSender.TimeUntilSend (rtt_stats_ m) now (bytes_in_flight_ (unacked_packets_ m)) (pacing_sender_ m)
         (send_algorithm_ m)
  else if sa_CanSend (rtt_stats_ m) (bytes_in_flight_ (unacked_packets_ m)) (send_algorithm_ m) then 0
  else kQuicInfiniteTimeUs.

(** * Packets acknowledged *)

(** [GetNewestRetransmission] of a packet in the deque. *)
Definition GetNewestRetransmission (packet_number : Z) m : option Z :=
  newest (chain_fuel (unacked_packets_ m)) packet_number (unacked_packets_ m).

Definition RecordOneSpuriousRetransmission (info : QuicTransmissionInfo) m : QuicSentPacketManager SA :=
  let st := stats_ m in
  m <| stats_ := st <| bytes_spuriously_retransmitted := u64 (bytes_spuriously_retransmitted st + bytes_sent info) |>
                    <| packets_spuriously_retransmitted := u64 (packets_spuriously_retransmitted st + 1) |> |>.

(** The loop over the retransmissions of a packet. *)
Fixpoint record_spurious (fuel : nat) (retransmission_ : Z) m : option (QuicSentPacketManager SA) :=
  if retransmission_ =? 0 then Some m
  else match fuel with
  | O => None
  | S fuel =>
    info ← GetTransmissionInfo retransmission_ (unacked_packets_ m);
    record_spurious fuel (retransmission info) (RecordOneSpuriousRetransmission info m)
  end.

Definition RecordSpuriousRetransmissions (now : Z) (info : QuicTransmissionInfo) m : option (QuicSentPacketManager SA) :=
  m ← record_spurious (chain_fuel (unacked_packets_ m)) (retransmission info) m;
  next ← GetTransmissionInfo (retransmission info) (unacked_packets_ m);
  match transmission_type next with
  | LOSS_RETRANSMISSION =>
    g ← SpuriousRetransmitDetected (unacked_packets_ m) now (rtt_stats_ m) (retransmission info)
          (general_loss_algorithm_ m);
    Some (m <| general_loss_algorithm_ := g |>)
  | _ => Some m
  end.

Definition MarkPacketHandled (now packet_number : Z) (info : QuicTransmissionInfo) m :
    option (QuicSentPacketManager SA) :=
  newest_transmission ← GetNewestRetransmission packet_number m;
  let m := m <| pending_retransmissions_ := erase newest_transmission (pending_retransmissions_ m) |> in
  m ← (if newest_transmission =? packet_number then Some m
       else
         m ← RecordSpuriousRetransmissions now info m;
         newest_info ← GetTransmissionInfo newest_transmission (unacked_packets_ m);
         if has_crypto_handshake newest_info then
           u ← RemoveFromInFlight newest_transmission (unacked_packets_ m);
           Some (m <| unacked_packets_ := u |>)
         else Some m);
  u ← RemoveFromInFlight packet_number (unacked_packets_ m);
  u ← RemoveRetransmittability packet_number u;
  Some (m <| unacked_packets_ := update packet_number (fun i => i <| state := ACKED |>) u |>).

Definition MaybeUpdateRTT (largest_acked ack_delay_time ack_receive_time : Z) m : bool * QuicSentPacketManager SA :=
  if negb (IsUnacked largest_acked (unacked_packets_ m)) then (false, m)
  else match GetTransmissionInfo largest_acked (unacked_packets_ m) with
  | Some info =>
    if sent_time info =? 0 then (false, m)
    else (true, m <| rtt_stats_ := UpdateRtt (time_sub ack_receive_time (sent_time info)) ack_delay_time
                                     ack_receive_time (rtt_stats_ m) |>)
  | None => (false, m)
  end.

Definition OnAckFrameStart (largest_acked ack_delay_time_ ack_receive_time : Z) m : QuicSentPacketManager SA :=
  let '(updated, m) := MaybeUpdateRTT largest_acked ack_delay_time_ ack_receive_time m in
  m <| rtt_updated_ := updated |>
    <| last_ack_frame_ := (last_ack_frame_ m) <| ack_delay_time := ack_delay_time_ |> |>
    <| acked_packets_iter_ := reverse (packets (last_ack_frame_ m)) |>.

(** Packets [start] to [end_ - 1], from the last to the first. *)
Definition descending (start end_ : Z) : list AckedPacket :=
  map (fun n => mkAcked n 0 0) (reverse (seqZ start (end_ - start))).

(** The loop of [OnAckRange]: yields the newly acked packets and the iterator. *)
Fixpoint ack_range (start end_ : Z) (iter : list Interval) : list AckedPacket * list Interval :=
  match iter with
  | [] => (descending start end_, [])
  | iv :: iter' =>
    let newly := descending (Z.max start (imax iv)) end_ in
    if imin iv <? start then (newly, iter)
    else
      let end_ := Z.min end_ (imin iv) in
      if start <? end_ then let '(more, iter) := ack_range start end_ iter' in (newly ++ more, iter)
      else (newly, iter')
  end.

Definition OnAckRange (start end_ : Z) m : QuicSentPacketManager SA :=
  let m := if u64 (largest_acked (last_ack_frame_ m) + 1) <? end_
           then m <| unacked_packets_ := IncreaseLargestAcked (end_ - 1) (unacked_packets_ m) |>
                  <| last_ack_frame_ := (last_ack_frame_ m) <| largest_acked := end_ - 1 |> |>
           else m in
  let least := GetLeastUnacked (unacked_packets_ m) in
  if end_ <=? least then m
  else
    let '(newly, iter) := ack_range (Z.max start least) end_ (acked_packets_iter_ m) in
    m <| packets_acked_ := packets_acked_ m ++ newly |> <| acked_packets_iter_ := iter |>.

(** The timestamp is set in the first packet with the number. *)
Fixpoint stamp (packet_number timestamp : Z) (acked : list AckedPacket) : list AckedPacket :=
  match acked with
  | [] => []
  | a :: acked =>
    if ap_packet_number a =? packet_number then a <| receive_timestamp := timestamp |> :: acked
    else a :: stamp packet_number timestamp acked
  end.
Definition OnAckTimestamp (packet_number timestamp : Z) m : QuicSentPacketManager SA :=
  let frame := last_ack_frame_ m in
  m <| last_ack_frame_ := frame <| received_packet_times := received_packet_times frame ++ [(packet_number, timestamp)] |> |>
    <| packets_acked_ := stamp packet_number timestamp (packets_acked_ m) |>.

(** * Losses *)

(** The loop of [InvokeLossDetection]. *)
Fixpoint lose_packets (lost : list LostPacket) m : option (QuicSentPacketManager SA) :=
  match lost with
  | [] => Some m
  | p :: lost =>
    let n := lp_packet_number p in
    let m := m <| stats_ := (stats_ m) <| packets_lost := u64 (packets_lost (stats_ m) + 1) |> |> in
    info ← GetTransmissionInfo n (unacked_packets_ m);
    m ← (if fix_mark_for_loss_retransmission_ m || HasRetransmittableFrames info
         then MarkForRetransmission n LOSS_RETRANSMISSION m
         else u ← RemoveFromInFlight n (unacked_packets_ m); Some (m <| unacked_packets_ := u |>));
    lose_packets lost m
  end.

Definition InvokeLossDetection (time : Z) m : option (QuicSentPacketManager SA) :=
  let m := match last (packets_acked_ m) with
           | Some a => m <| largest_newly_acked_ := ap_packet_number a |>
           | None => m
           end in
  '(lost, g) ← DetectLosses (unacked_packets_ m) time (rtt_stats_ m) (largest_newly_acked_ m) (packets_acked_ m)
                 (packets_lost_ m) (general_loss_algorithm_ m);
  lose_packets lost (m <| packets_lost_ := lost |> <| general_loss_algorithm_ := g |>).

Definition MaybeInvokeCongestionEvent (rtt_updated : bool) (prior_in_flight event_time : Z) m :
    QuicSentPacketManager SA :=
  match rtt_updated, packets_acked_ m, packets_lost_ m with
  | false, [], [] => m
  | _, _, _ =>
    let told :=
      if using_pacing_ m
      then PacingSender.OnCongestionEvent (rtt_stats_ m) (unacked_packets_ m) rtt_updated prior_in_flight event_time
             (packets_acked_ m) (packets_lost_ m) (pacing_sender_ m) (send_algorithm_ m)
      else (pacing_sender_ m, sa_OnCongestionEvent (rtt_stats_ m) (unacked_packets_ m) rtt_updated prior_in_flight
                                event_time (packets_acked_ m) (packets_lost_ m) (send_algorithm_ m)) in
    m <| pacing_sender_ := told.1 |> <| send_algorithm_ := told.2 |>
      <| packets_acked_ := [] |> <| packets_lost_ := [] |>
  end.

(** Lines 290-306: progress resets the counters of timeouts. *)
Definition reset_backoff m : QuicSentPacketManager SA :=
  let m := if 0 <? consecutive_rto_count_ m then
             if LargestAcked (last_ack_frame_ m) <? first_rto_transmission_ m
             then m <| rtt_stats_ := ExpireSmoothedMetrics (rtt_stats_ m) |>
             else if use_new_rto_ m then m
             else m <| send_algorithm_ := sa_OnRetransmissionTimeout true (send_algorithm_ m) |>
           else m in
  m <| consecutive_rto_count_ := 0 |> <| consecutive_tlp_count_ := 0 |>
    <| consecutive_crypto_retransmission_count_ := 0 |>.

(** Lines 282-285. *)
Definition record_bandwidth (now ack_receive_time : Z) m : QuicSentPacketManager SA :=
  m <| sustained_bandwidth_recorder_ :=
         QuicSustainedBandwidthRecorder.RecordEstimate (sa_InRecovery (send_algorithm_ m)) (sa_InSlowStart (send_algorithm_ m))
           (sa_BandwidthEstimate (send_algorithm_ m)) ack_receive_time now (smoothed_rtt_ (rtt_stats_ m))
           (sustained_bandwidth_recorder_ m) |>.

Definition PostProcessAfterMarkingPacketHandled (now ack_receive_time : Z) (rtt_updated : bool)
    (prior_bytes_in_flight : Z) m : option (QuicSentPacketManager SA) :=
  m ← InvokeLossDetection ack_receive_time m;
  let m := if (0 <? consecutive_rto_count_ m) && negb (use_new_rto_ m) then m <| packets_lost_ := [] |> else m in
  let m := MaybeInvokeCongestionEvent rtt_updated prior_bytes_in_flight ack_receive_time m in
  let m := m <| unacked_packets_ := RemoveObsoletePackets (unacked_packets_ m) |> in
  let m := record_bandwidth now ack_receive_time m in
  let m := if rtt_updated then reset_backoff m else m in
  let frame := last_ack_frame_ m in
  Some (m <| last_ack_frame_ :=
               frame <| packets := (PacketNumberQueue.RemoveUpTo (GetLeastUnacked (unacked_packets_ m)) (packets frame)).2 |>
                     <| received_packet_times := [] |> |>).

(** The loop of [OnAckFrameEnd]; [bytes_acked] is set in the packets. *)
Fixpoint handle_acked (now : Z) (acked : list AckedPacket) m :
    option (list AckedPacket * QuicSentPacketManager SA) :=
  match acked with
  | [] => Some ([], m)
  | a :: acked =>
    let n := ap_packet_number a in
    info ← GetTransmissionInfo n (unacked_packets_ m);
    if negb (IsAckable (state info)) then
      '(acked, m) ← handle_acked now acked m;
      Some (a :: acked, m)
    else
      let frame := last_ack_frame_ m in
      let m := m <| last_ack_frame_ := frame <| packets := PacketNumberQueue.Add n (packets frame) |> |> in
      let m := if 0 <? ti_largest_acked info
               then m <| largest_packet_peer_knows_is_acked_ :=
                           Z.max (largest_packet_peer_knows_is_acked_ m) (ti_largest_acked info) |> else m in
      let '(a, m) := if in_flight info then (a <| bytes_acked := bytes_sent info |>, m)
                     else (a, m <| largest_newly_acked_ := n |>) in
      m ← MarkPacketHandled now n info m;
      '(acked, m) ← handle_acked now acked m;
      Some (a :: acked, m)
  end.

Definition OnAckFrameEnd (now ack_receive_time : Z) m : option (bool * QuicSentPacketManager SA) :=
  let prior_bytes_in_flight := bytes_in_flight_ (unacked_packets_ m) in
  '(acked, m) ← handle_acked now (reverse (packets_acked_ m)) m;
  let acked_new_packet := match acked with [] => false | _ => true end in
  m ← PostProcessAfterMarkingPacketHandled now ack_receive_time (rtt_updated_ m) prior_bytes_in_flight
        (m <| packets_acked_ := acked |>);
  Some (acked_new_packet, m).

(** * Timeouts *)

Inductive RetransmissionTimeoutMode := RTO_MODE | TLP_MODE | HANDSHAKE_MODE | LOSS_MODE.

Definition GetRetransmissionMode m : RetransmissionTimeoutMode :=
  if negb (handshake_confirmed_ m) && HasPendingCryptoPackets (unacked_packets_ m) then HANDSHAKE_MODE
  else if negb (GetLossTimeout (general_loss_algorithm_ m) =? 0) then LOSS_MODE
  else if (consecutive_tlp_count_ m <? max_tail_loss_probes_ m) &&
          (optimize_inflight_check m || HasUnackedRetransmittableFrames (unacked_packets_ m)) then TLP_MODE
  else RTO_MODE.

Definition RetransmitCryptoPackets m : option (QuicSentPacketManager SA) :=
  let m := m <| consecutive_crypto_retransmission_count_ := u64 (consecutive_crypto_retransmission_count_ m + 1) |> in
  each_unacked (fun n m =>
    info ← GetTransmissionInfo n (unacked_packets_ m);
    if negb (in_flight info) || negb (has_crypto_handshake info) || negb (HasRetransmittableFrames info) then Some m
    else
      m ← MarkForRetransmission n HANDSHAKE_RETRANSMISSION m;
      Some (m <| pending_timer_transmission_count_ := u64 (pending_timer_transmission_count_ m + 1) |>)) m.

(** The loop of [MaybeRetransmitOldestPacket], over the given packet numbers. *)
Fixpoint retransmit_oldest (type : TransmissionType) (numbers : list Z) m : option (bool * QuicSentPacketManager SA) :=
  match numbers with
  | [] => Some (false, m)
  | n :: numbers =>
    info ← GetTransmissionInfo n (unacked_packets_ m);
    if negb (in_flight info) || negb (HasRetransmittableFrames info) then retransmit_oldest type numbers m
    else m ← MarkForRetransmission n type m; Some (true, m)
  end.
Definition MaybeRetransmitOldestPacket (type : TransmissionType) m : option (bool * QuicSentPacketManager SA) :=
  retransmit_oldest type (packet_numbers (unacked_packets_ m)) m.

Definition RetransmitRtoPackets m : option (QuicSentPacketManager SA) :=
  m ← each_unacked (fun n m =>
    info ← GetTransmissionInfo n (unacked_packets_ m);
    m ← (if HasRetransmittableFrames info && (pending_timer_transmission_count_ m <? max_rto_packets_ m) then
           m ← MarkForRetransmission n RTO_RETRANSMISSION m;
           Some (m <| pending_timer_transmission_count_ := u64 (pending_timer_transmission_count_ m + 1) |>)
         else Some m);
    if in_flight info && (retransmission info =? 0) && negb (HasRetransmittableFrames info) then
      u ← RemoveFromInFlight n (unacked_packets_ m);
      Some (m <| unacked_packets_ := u |>)
    else Some m) m;
  Some (if 0 <? pending_timer_transmission_count_ m then
          let m := if consecutive_rto_count_ m =? 0
                   then m <| first_rto_transmission_ := u64 (largest_sent_packet_ (unacked_packets_ m) + 1) |> else m in
          m <| consecutive_rto_count_ := u64 (consecutive_rto_count_ m + 1) |>
        else m).

Definition MaybeRetransmitTailLossProbe m : option (bool * QuicSentPacketManager SA) :=
  if pending_timer_transmission_count_ m =? 0 then Some (false, m)
  else
    '(found, m) ← MaybeRetransmitOldestPacket TLP_RETRANSMISSION m;
    if found : bool then Some (true, m)
    else if optimize_inflight_check m then
      m ← RetransmitRtoPackets (m <| pending_timer_transmission_count_ := 0 |>);
      Some (false, m)
    else Some (false, m).

Definition OnRetransmissionTimeout (now : Z) m : option (QuicSentPacketManager SA) :=
  let st := stats_ m in
  match GetRetransmissionMode m with
  | HANDSHAKE_MODE =>
    RetransmitCryptoPackets (m <| stats_ := st <| crypto_retransmit_count := u64 (crypto_retransmit_count st + 1) |> |>)
  | LOSS_MODE =>
    let m := m <| stats_ := st <| loss_timeout_count := u64 (loss_timeout_count st + 1) |> |> in
    let prior_in_flight := bytes_in_flight_ (unacked_packets_ m) in
    m ← InvokeLossDetection now m;
    Some (MaybeInvokeCongestionEvent false prior_in_flight now m)
  | TLP_MODE =>
    Some (m <| stats_ := st <| tlp_count := u64 (tlp_count st + 1) |> |>
            <| consecutive_tlp_count_ := u64 (consecutive_tlp_count_ m + 1) |>
            <| pending_timer_transmission_count_ := 1 |>)
  | RTO_MODE => RetransmitRtoPackets (m <| stats_ := st <| rto_count := u64 (rto_count st + 1) |> |>)
  end.

(** * Delays *)

Definition GetCryptoRetransmissionDelay m : Z :=
  let srtt_ms := ToMilliseconds (SmoothedOrInitialRtt (rtt_stats_ m)) in
  let delay_ms :=
    if conservative_handshake_retransmits_ m then Z.max (ToMilliseconds (delayed_ack_time_ m)) (i64 (2 * srtt_ms))
    else Z.max kMinHandshakeTimeoutMs (f32_to_i64 (f64_mul (literal 3 2) (f64_of_Z srtt_ms))) in
  FromMilliseconds (i64 (Z.shiftl delay_ms (consecutive_crypto_retransmission_count_ m))).

Definition GetTailLossProbeDelay (consecutive_tlp_count : Z) m : Z :=
  let srtt := SmoothedOrInitialRtt (rtt_stats_ m) in
  let half := literal 1 2 in
  let three_halves := literal 3 2 in
  let max_ack_delay := max_ack_delay_ (rtt_stats_ m) in
  if enable_half_rtt_tail_loss_probe_ m && (consecutive_tlp_count =? 0)
  then Z.max (min_tlp_timeout_ m) (delta_mul srtt half)
  else if ietf_style_tlp_ m then Z.max (min_tlp_timeout_ m) (time_add (delta_mul srtt three_halves) max_ack_delay)
  else if ietf_style_2x_tlp_ m then Z.max (min_tlp_timeout_ m) (time_add (delta_mul_int 2 srtt) max_ack_delay)
  else if negb (HasMultipleInFlightPackets (unacked_packets_ m))
  then Z.max (delta_mul_int 2 srtt) (time_add (delta_mul srtt three_halves) (delta_mul (min_rto_timeout_ m) half))
  else Z.max (min_tlp_timeout_ m) (delta_mul_int 2 srtt).

Definition GetRetransmissionDelay (consecutive_rto_count : Z) m : Z :=
  let r := rtt_stats_ m in
  let delay :=
    if smoothed_rtt_ r =? 0 then FromMilliseconds kDefaultRetransmissionTimeMs
    else Z.max (time_add (smoothed_rtt_ r) (delta_mul_int 4 (mean_deviation_ r))) (min_rto_timeout_ m) in
  let delay := delta_mul_int (2 ^ Z.min consecutive_rto_count kMaxRetransmissions) delay in
  if kMaxRetransmissionTimeMs <? ToMilliseconds delay then FromMilliseconds kMaxRetransmissionTimeMs else delay.

Definition GetPathDegradingDelay m : Z :=
  let delay := foldl (fun d i => time_add d (GetTailLossProbeDelay i m)) 0 (seqZ 0 (max_tail_loss_probes_ m)) in
  foldl (fun d i => time_add d (GetRetransmissionDelay i m)) delay (seqZ 0 kNumRetransmissionDelaysForPathDegradingDelay).

Definition GetRetransmissionTime (now : Z) m : Z :=
  let u := unacked_packets_ m in
  if negb (HasInFlightPackets u) || (0 <? pending_timer_transmission_count_ m) then 0
  else if negb (optimize_inflight_check m) && negb (HasUnackedRetransmittableFrames u) then 0
  else match GetRetransmissionMode m with
  | HANDSHAKE_MODE => time_add (GetLastCryptoPacketSentTime u) (GetCryptoRetransmissionDelay m)
  | LOSS_MODE => GetLossTimeout (general_loss_algorithm_ m)
  | TLP_MODE => Z.max now (time_add (GetLastPacketSentTime u) (GetTailLossProbeDelay (consecutive_tlp_count_ m) m))
  | RTO_MODE =>
    Z.max (time_add (GetLastPacketSentTime u) (GetTailLossProbeDelay (consecutive_tlp_count_ m) m))
          (time_add (GetLastPacketSentTime u) (GetRetransmissionDelay (consecutive_rto_count_ m) m))
  end.

(** * Configuration *)

(** The flags of quic_flags_list.h that are read here. *)
Record ConfigFlags := mkConfigFlags {
  quic_default_to_bbr : bool;
  quic_enable_pcc3 : bool;
  quic_unified_iw_options : bool;
  quic_disable_pacing_for_perf_tests : bool;
}.

(** [SendAlgorithmInterface::Create] is [create]: of a type, with an initial window. *)
Definition SetSendAlgorithm (create : CongestionControlType -> Z -> SA) (type : CongestionControlType) m :
    QuicSentPacketManager SA := m <| send_algorithm_ := create type (initial_congestion_window_ m) |>.

Definition SetInitialWindow (window : Z) m : QuicSentPacketManager SA :=
  m <| initial_congestion_window_ := window |>
    <| send_algorithm_ := sa_SetInitialCongestionWindowInPackets window (send_algorithm_ m) |>.

(** Lines 124-134. *)
Definition config_initial_rtt (sent : Z -> bool) (config : QuicConfig) m : QuicSentPacketManager SA :=
  let rtt := initial_round_trip_time_us_ config in
  if has_receive_value_ rtt && (0 <? receive_value_ rtt)
  then if sent kNRTT then m else SetInitialRtt (receive_value_ rtt) m
  else if has_send_value_ rtt && (0 <? send_value_ rtt) then SetInitialRtt (send_value_ rtt) m else m.

(** Lines 158-168. *)
Definition config_algorithm (create : CongestionControlType -> Z -> SA) (flags : ConfigFlags) (requested : Z -> bool) m :
    QuicSentPacketManager SA :=
  if requested kRENO then SetSendAlgorithm create kRenoBytes m
  else if requested kBYTE || (quic_default_to_bbr flags && requested kQBIC) then SetSendAlgorithm create kCubicBytes m
  else if quic_enable_pcc3 flags && requested kTPCC then SetSendAlgorithm create kPCC m else m.

(** The options that are taken one after the other, when they are given. *)
Definition apply_options (options : list (bool * (QuicSentPacketManager SA -> QuicSentPacketManager SA))) m :
    QuicSentPacketManager SA :=
  fold_left (fun m '(given, set) => if given : bool then set m else m) options m.

Definition SetFromConfig (create : CongestionControlType -> Z -> SA) (flags : ConfigFlags) (perspective_ : Perspective)
    (config : QuicConfig) m : QuicSentPacketManager SA :=
  let sent tag := HasClientSentConnectionOption config tag perspective_ in
  let requested tag := HasClientRequestedIndependentOption config tag perspective_ in
  let set_loss type m := m <| general_loss_algorithm_ := SetLossDetectionType type (general_loss_algorithm_ m) |> in
  let m := config_initial_rtt sent config m in
  let m := apply_options [
    (sent kMAD0, fun m => m <| rtt_stats_ := set_ignore_max_ack_delay true (rtt_stats_ m) |>);
    (sent kMAD1, fun m => m <| rtt_stats_ := set_initial_max_ack_delay (delayed_ack_time_ m) (rtt_stats_ m) |>);
    (sent kMAD2, fun m => m <| min_tlp_timeout_ := 0 |>);
    (sent kMAD3, fun m => m <| min_rto_timeout_ := 0 |>);
    (sent kMAD4, fun m => m <| ietf_style_tlp_ := true |>);
    (sent kMAD5, fun m => m <| ietf_style_2x_tlp_ := true |>);
    (requested kTBBR, SetSendAlgorithm create kBBR)] m in
  let m := config_algorithm create flags requested m in
  let m := if quic_unified_iw_options flags then apply_options [
    (requested kIW03, SetInitialWindow 3);
    (requested kIW10, SetInitialWindow 10);
    (requested kIW20, SetInitialWindow 20);
    (requested kIW50, SetInitialWindow 50)] m else m in
  let m := m <| using_pacing_ := negb (quic_disable_pacing_for_perf_tests flags) |> in
  let m := apply_options [
    (sent k1CON, fun m => m <| send_algorithm_ := sa_SetNumEmulatedConnections 1 (send_algorithm_ m) |>);
    (sent kNCON, fun m => m <| n_connection_simulation_ := true |>);
    (sent kNTLP, fun m => m <| max_tail_loss_probes_ := 0 |>);
    (sent k1TLP, fun m => m <| max_tail_loss_probes_ := 1 |>);
    (sent k1RTO, fun m => m <| max_rto_packets_ := 1 |>);
    (sent kTLPR, fun m => m <| enable_half_rtt_tail_loss_probe_ := true |>);
    (sent kNRTO, fun m => m <| use_new_rto_ := true |>);
    (requested kTIME, set_loss kTime);
    (requested kATIM, set_loss kAdaptiveTime);
    (requested kLFAK, set_loss kLazyFack);
    (sent kCONH, fun m => m <| conservative_handshake_retransmits_ := true |>)] m in
  m <| send_algorithm_ := sa_SetFromConfig config perspective_ (send_algorithm_ m) |>.

Definition SetMaxPacingRate (max_pacing_rate : Z) m : QuicSentPacketManager SA :=
  m <| pacing_sender_ := PacingSender.set_max_pacing_rate max_pacing_rate (pacing_sender_ m) |>.
Definition SetPacingAlarmGranularity (alarm_granularity : Z) m : QuicSentPacketManager SA :=
  m <| pacing_sender_ := PacingSender.set_alarm_granularity alarm_granularity (pacing_sender_ m) |>.
Definition MaxPacingRate m : Z := PacingSender.max_pacing_rate_ (pacing_sender_ m).
Definition GetNextReleaseTime m : Z :=
  if using_pacing_ m then PacingSender.ideal_next_packet_send_time_ (pacing_sender_ m) else 0.

(** * Observers *)

Definition BandwidthEstimate m : Z := sa_BandwidthEstimate (send_algorithm_ m).
Definition GetCongestionWindowInBytes m : Z := sa_GetCongestionWindow (rtt_stats_ m) (send_algorithm_ m).
Definition GetCongestionWindowInTcpMss m : Z := GetCongestionWindowInBytes m / kDefaultTCPMSS.
Definition GetSlowStartThresholdInTcpMss m : Z := sa_GetSlowStartThreshold (send_algorithm_ m) / kDefaultTCPMSS.
Definition InSlowStart m : bool := sa_InSlowStart (send_algorithm_ m).
Definition GetBytesInFlight m : Z := bytes_in_flight_ (unacked_packets_ m).
Definition GetLeastUnacked m : Z := QuicUnackedPacketMap.GetLeastUnacked (unacked_packets_ m).
Definition GetLargestObserved m : Z := largest_acked_ (unacked_packets_ m).
Definition GetLargestSentPacket m : Z := largest_sent_packet_ (unacked_packets_ m).
Definition HasUnackedCryptoPackets m : bool := HasPendingCryptoPackets (unacked_packets_ m).
End manager.
End QuicSentPacketManager.
