(* ===== verification/SentInvariants.v ===== *)
(** The invariant of [QuicSentPacketManager]: its operations stay inside the deque of
    unacked packets, packets pending retransmission have frames to retransmit, and the
    packets acknowledged are those of the ranges it keeps. *)
From stdpp Require Import list_numbers.
From S2P Require Import Prelude.
From S2P Require Import PacketNumbers.
From S2P Require Import PacketNumberQueue.
From S2P Require Import FramerTypes.
From S2P Require Import QuicUnits.
From S2P Require Import WindowedFilter.
From S2P Require Import Sampler.
From S2P Require Import RttEstimates.
From S2P Require Import UnackedPackets.
From S2P Require Import LossDetection.
From S2P Require Import SendAlgorithm.
From S2P Require Import PacedSending.
From S2P Require Import UnackedInvariants.
From S2P Require Import SentPackets.

Import RttStats QuicUnackedPacketMap GeneralLossAlgorithm QuicSentPacketManager.
Open Scope Z_scope.

(** * The invariant *)

Record packets_ok (u : QuicUnackedPacketMap) (pending : list (Z * TransmissionType)) (acked : list Interval)
    (newly : Z) : Prop := mk_packets_ok {
  po_unacked : unacked_ok u;
  po_pending : forall p, p ∈ pending -> exists i, GetTransmissionInfo p.1 u = Some i /\ retransmittable_frames i <> [];
  po_wf : wf_from (-1) acked;
  po_acked : forall n i, GetTransmissionInfo n u = Some i -> state i = ACKED <-> mem acked n;
  po_sent : forall n, mem acked n -> n <= largest_sent_packet_ u;
  po_newly : newly <= largest_sent_packet_ u;
}.

(** A change of the deque that keeps the frames of what is pending. *)
Lemma packets_ok_keeps P u u' pending pending' acked newly :
  packets_ok u pending acked newly -> unacked_ok u' -> keeps P u u' ->
  (forall p, p ∈ pending' -> (p ∈ pending /\ P p.1) \/
     exists i, GetTransmissionInfo p.1 u' = Some i /\ retransmittable_frames i <> []) ->
  packets_ok u' pending' acked newly.
Proof.
  intros [Hu Hp Hw Ha Hs Hn] Hu' Hk Hp'. constructor; try done.
  - intros p Hin. destruct (Hp' p Hin) as [[Hin0 HP]|?]; [|done]. destruct (Hp p Hin0) as (i & Hi & Hf).
    assert (Hpr : present p.1 u') by (apply (keeps_present _ _ _ _ Hk), (lookup_present _ _ _ Hu Hi)).
    destruct (present_lookup _ _ Hu' Hpr) as [i' Hi']. exists i'. split; [done|].
    destruct (k_info _ _ _ Hk _ _ Hi') as (i0 & Hi0 & _ & _ & _ & _ & _ & Hf'). rewrite Hf' by done. congruence.
  - intros n i' Hi'. destruct (k_info _ _ _ Hk _ _ Hi') as (i & Hi & -> & _). by apply Ha.
  - intros n Hm. rewrite (k_sent _ _ _ Hk). by apply Hs.
  - by rewrite (k_sent _ _ _ Hk).
Qed.

(** * Loss detection stays inside the deque *)

Definition lost_in (u : QuicUnackedPacketMap) (p : LostPacket) : Prop :=
  exists i, GetTransmissionInfo (lp_packet_number p) u = Some i /\ in_flight i = true.

Lemma detect_Some u time r lna g n packets lost least :
  unacked_ok u -> lna <= largest_sent_packet_ u -> least_unacked_ u <= n ->
  packets = drop (Z.to_nat (n - least_unacked_ u)) (QuicUnackedPacketMap.unacked_packets_ u) ->
  exists new timeout least', detect u time r lna g n packets lost least = Some (lost ++ new, timeout, least') /\
    Forall (lost_in u) new.
Proof.
  intros Hu Hl. revert n lost least. induction packets as [|i packets IH]; intros n lost least Hn Ep; cbn [detect].
  { exists [], 0, least. by rewrite app_nil_r. }
  assert (Hstop : forall timeout least' : Z, exists (new : list LostPacket) (timeout' least'' : Z),
    Some (lost, timeout, least') = Some (lost ++ new, timeout', least'') /\ Forall (lost_in u) new).
  { intros timeout least'. exists [], timeout, least'. by rewrite app_nil_r. }
  destruct (Z.ltb_spec lna n) as [|Hle]; [apply Hstop|].
  assert (Hi : GetTransmissionInfo n u = Some i).
  { apply GetTransmissionInfo_lookup. split; [done|]. apply (f_equal head) in Ep. cbn in Ep.
    rewrite head_lookup, lookup_drop, Nat.add_0_r in Ep. done. }
  pose proof (lookup_present _ _ _ Hu Hi) as Hp. pose proof (uo_max _ Hu). pose proof (uo_least _ Hu).
  unfold max_packets, present in *. rewrite (wrap_small 64 (n + 1)) by (unfold fits; lia).
  assert (Ep' : packets = drop (Z.to_nat (n + 1 - least_unacked_ u)) (QuicUnackedPacketMap.unacked_packets_ u)).
  { rewrite (drop_S _ i) in Ep by (by apply GetTransmissionInfo_lookup). injection Ep as ->. f_equal. lia. }
  assert (Hnext : forall least, exists new timeout least', detect u time r lna g (n + 1) packets lost least =
    Some (lost ++ new, timeout, least') /\ Forall (lost_in u) new) by (intros; apply IH; [lia|done]).
  assert (Hlost : in_flight i = true -> exists new timeout least',
    detect u time r lna g (n + 1) packets (lost ++ [mkLost n (bytes_sent i)]) least =
    Some (lost ++ new, timeout, least') /\ Forall (lost_in u) new).
  { intros Hf. destruct (IH (n + 1) (lost ++ [mkLost n (bytes_sent i)]) least) as (new & timeout & least' & -> & Hnew); [lia|done|].
    exists (mkLost n (bytes_sent i) :: new), timeout, least'. rewrite <- app_assoc. split; [done|].
    constructor; [|done]. by exists i. }
  destruct (in_flight i); cbn [negb]; [|apply Hnext]. destruct (nacked lna n g); [by apply Hlost|].
  destruct (by_time u lna g); [destruct (time <? _); [apply Hstop|by apply Hlost]|].
  destruct (present_lookup lna u Hu) as [j ->]; [unfold present; lia|]. cbn [mbind option_bind].
  destruct (_ <? sent_time j); [by apply Hlost|apply Hnext].
Qed.

Lemma DetectLosses_Some u time r lna acked lost g :
  unacked_ok u -> lna <= largest_sent_packet_ u ->
  exists new g', DetectLosses u time r lna acked lost g = Some (lost ++ new, g') /\ Forall (lost_in u) new.
Proof.
  intros Hu Hl. unfold DetectLosses. destruct (_ && _).
  { eexists [], _. rewrite app_nil_r. by split. }
  set (g1 := if front_acked _ _ then _ else _). clearbody g1. unfold scan.
  destruct (scan_start u g1) as [start least] eqn:Es.
  assert (Hs : least_unacked_ u <= start).
  { pose proof (uo_max _ Hu). pose proof (uo_least _ Hu). unfold max_packets in *.
    unfold scan_start, QuicUnackedPacketMap.GetLeastUnacked in Es. destruct (faster_detect_loss_ g1); injection Es as <- <-;
      repeat match goal with |- context [Z.leb ?a ?b] => destruct (Z.leb_spec a b) end;
      repeat match goal with |- context [Z.ltb ?a ?b] => destruct (Z.ltb_spec a b) end; try lia.
    rewrite wrap_small by (unfold fits; lia). lia. }
  destruct (detect_Some u time r lna g1 start _ lost least Hu Hl Hs eq_refl) as (new & timeout & least' & E & Hnew).
  unfold QuicUnackedPacketMap.GetLeastUnacked. rewrite E. cbn [mbind option_bind]. eexists new, _. by split.
Qed.

Section manager.
Context {SA : Type} {SI : SendAlgorithmInterface SA}.
Implicit Types m : QuicSentPacketManager SA.

Abbreviation unacked m := (QuicSentPacketManager.unacked_packets_ m).

Definition manager_ok m : Prop :=
  packets_ok (unacked m) (pending_retransmissions_ m) (packets (last_ack_frame_ m)) (largest_newly_acked_ m).

(** Between two frames no packet waits to be processed; while an ack frame is, the
    packets collected are in the deque. *)
Definition settled m : Prop := packets_acked_ m = [] /\ packets_lost_ m = [].
Definition acking m : Prop :=
  manager_ok m /\ packets_lost_ m = [] /\ Forall (fun a => present (ap_packet_number a) (unacked m)) (packets_acked_ m).

Lemma sent_manager_ctor_ok algorithm loss fix_mark optimize pacing :
  manager_ok (QuicSentPacketManager_ctor algorithm loss fix_mark optimize pacing) /\
  settled (QuicSentPacketManager_ctor algorithm loss fix_mark optimize pacing).
Proof.
  split; [|done]. constructor; cbn; try done; [apply unacked_ctor_ok|set_solver| |].
  - intros n i Hi. apply GetTransmissionInfo_lookup in Hi as [_ Hi]. done.
  - intros n Hm. by apply Exists_nil in Hm.
Qed.

Lemma elem_of_erase n p pending : p ∈ erase n pending <-> p ∈ pending /\ p.1 <> n.
Proof. unfold erase. rewrite list_elem_of_filter. tauto. Qed.

(** What marking packets leaves alone. *)
Definition same_acks m m' : Prop :=
  packets_acked_ m' = packets_acked_ m /\ packets_lost_ m' = packets_lost_ m /\
  last_ack_frame_ m' = last_ack_frame_ m /\ largest_newly_acked_ m' = largest_newly_acked_ m /\
  rtt_updated_ m' = rtt_updated_ m /\ fix_mark_for_loss_retransmission_ m' = fix_mark_for_loss_retransmission_ m.

Lemma same_acks_refl m : same_acks m m.
Proof. by split_and!. Qed.
Lemma same_acks_trans m1 m2 m3 : same_acks m1 m2 -> same_acks m2 m3 -> same_acks m1 m3.
Proof. unfold same_acks. intuition congruence. Qed.

(** * Retransmissions *)

Definition out_of_flight (n : Z) (u : QuicUnackedPacketMap) : Prop :=
  forall i, GetTransmissionInfo n u = Some i -> in_flight i = false.

(** A packet can be marked if it has frames, or if the manager looks first. *)
Definition markable (n : Z) m : Prop :=
  exists i, GetTransmissionInfo n (unacked m) = Some i /\
    (fix_mark_for_loss_retransmission_ m = true \/ retransmittable_frames i <> []).

Lemma HasRetransmittableFrames_true i : HasRetransmittableFrames i = true <-> retransmittable_frames i <> [].
Proof. unfold HasRetransmittableFrames. by destruct (retransmittable_frames i). Qed.

Lemma MarkForRetransmission_ok n type m :
  manager_ok m -> markable n m ->
  exists m', MarkForRetransmission n type m = Some m' /\ manager_ok m' /\ same_acks m m' /\
    keeps (fun _ => True) (unacked m) (unacked m') /\
    (RetransmissionLeavesBytesInFlight type = false -> out_of_flight n (unacked m')).
Proof.
  intros Hm (i & Hi & Hmark). unfold MarkForRetransmission. rewrite Hi. cbn [mbind option_bind].
  pose proof (po_unacked _ _ _ _ Hm) as Hu. pose proof (lookup_present _ _ _ Hu Hi) as Hp.
  assert (exists u', (if RetransmissionLeavesBytesInFlight type then Some (unacked m) else RemoveFromInFlight n (unacked m))
      = Some u' /\ unacked_ok u' /\ keeps (fun _ => True) (unacked m) u' /\
        (RetransmissionLeavesBytesInFlight type = false -> out_of_flight n u')) as (u' & -> & Hu' & Hk & Hout).
  { destruct (RetransmissionLeavesBytesInFlight type); [exists (unacked m); split_and!; auto; [apply keeps_refl|done]|].
    destruct (RemoveFromInFlight_ok n _ Hu Hp) as (u' & ? & ? & ? & ? & _). by exists u'. }
  cbn [mbind option_bind]. eexists. split; [done|].
  assert (Hold : packets_ok u' (pending_retransmissions_ m) (packets (last_ack_frame_ m)) (largest_newly_acked_ m)).
  { eapply packets_ok_keeps; [exact Hm|done|exact Hk|]. by left. }
  destruct (fix_mark_for_loss_retransmission_ _ && negb (HasRetransmittableFrames i)) eqn:Efix; [by split_and!|].
  destruct (contains_key _ _); [by split_and!|]. split_and!; try done.
  eapply packets_ok_keeps; [exact Hm|done|exact Hk|]. intros p [Hin|Hin]%elem_of_app; [by left|].
  apply list_elem_of_singleton in Hin as ->. right.
  assert (Hf : retransmittable_frames i <> []).
  { destruct Hmark as [Hfix|?]; [|done]. cbn in Efix. rewrite Hfix in Efix. cbn in Efix.
    apply HasRetransmittableFrames_true. by apply negb_false_iff. }
  destruct (present_lookup n u' Hu') as [i' Hi']; [by apply (keeps_present _ _ _ _ Hk)|]. exists i'. split; [done|].
  destruct (k_info _ _ _ Hk _ _ Hi') as (i0 & Hi0 & _ & _ & _ & _ & _ & Hf'). rewrite Hf' by done. congruence.
Qed.

(** A step that keeps the invariant and the packets. *)
Definition steps_to m m' : Prop :=
  manager_ok m' /\ same_acks m m' /\ keeps (fun _ => False) (unacked m) (unacked m').

Lemma steps_refl m : manager_ok m -> steps_to m m.
Proof. intros Hm. split_and!; [done|apply same_acks_refl|apply keeps_refl]. Qed.
Lemma steps_trans m1 m2 m3 : steps_to m1 m2 -> steps_to m2 m3 -> steps_to m1 m3.
Proof.
  intros (_ & Hs1 & Hk1) (? & Hs2 & Hk2). split_and!; [done|by eapply same_acks_trans|by eapply keeps_trans].
Qed.
Lemma steps_present m m' n : steps_to m m' -> present n (unacked m') <-> present n (unacked m).
Proof. intros (_ & _ & Hk). apply (keeps_present _ _ _ _ Hk). Qed.

Lemma MarkForRetransmission_steps n type m :
  manager_ok m -> markable n m -> exists m', MarkForRetransmission n type m = Some m' /\ steps_to m m'.
Proof.
  intros Hm Hn. destruct (MarkForRetransmission_ok n type m Hm Hn) as (m' & E & ? & ? & Hk & _).
  exists m'. split; [done|]. split_and!; try done. by eapply keeps_weaken; [|exact Hk].
Qed.

Lemma RemoveFromInFlight_steps n m :
  manager_ok m -> present n (unacked m) ->
  exists u', RemoveFromInFlight n (unacked m) = Some u' /\
    steps_to m (m <| QuicSentPacketManager.unacked_packets_ := u' |>).
Proof.
  intros Hm Hn. destruct (RemoveFromInFlight_ok n _ (po_unacked _ _ _ _ Hm) Hn) as (u' & E & Hu' & Hk & _).
  exists u'. split; [done|]. split_and!; [|done|by eapply keeps_weaken; [|exact Hk]].
  eapply packets_ok_keeps; [exact Hm|done|exact Hk|]. by left.
Qed.

(** A loop over the unacked packets. *)
Lemma each_unacked_ok body m :
  (forall n m, manager_ok m -> present n (unacked m) -> exists m', body n m = Some m' /\ steps_to m m') ->
  manager_ok m -> exists m', each_unacked body m = Some m' /\ steps_to m m'.
Proof.
  intros Hb Hm. unfold each_unacked.
  pose proof (packet_numbers_present _ (po_unacked _ _ _ _ Hm)) as Hp.
  generalize dependent (packet_numbers (unacked m)). intros ns. revert m Hm.
  induction ns as [|n ns IH]; intros m Hm Hp; cbn [foldl]; [exists m; split; [done|by apply steps_refl]|].
  apply Forall_cons in Hp as [Hn Hp]. cbn [mbind option_bind]. destruct (Hb n m Hm Hn) as (m1 & -> & Hs1).
  destruct (IH m1) as (m' & -> & Hs); [apply Hs1| |].
  - eapply Forall_impl; [exact Hp|]. intros k Hk. by apply (steps_present _ _ _ Hs1).
  - exists m'. split; [done|by eapply steps_trans].
Qed.

Lemma RetransmitUnackedPackets_ok type m :
  manager_ok m -> exists m', RetransmitUnackedPackets type m = Some m' /\ steps_to m m'.
Proof.
  apply each_unacked_ok. intros n m1 Hm1 Hn. destruct (present_lookup _ _ (po_unacked _ _ _ _ Hm1) Hn) as [i Hi].
  rewrite Hi. cbn [mbind option_bind]. destruct (_ && _) eqn:E; [|exists m1; split; [done|by apply steps_refl]].
  apply andb_true_iff in E as [_ E]. apply MarkForRetransmission_steps; [done|]. exists i. split; [done|right].
  by apply HasRetransmittableFrames_true.
Qed.

Lemma NeuterUnencryptedPackets_ok m :
  manager_ok m -> exists m', NeuterUnencryptedPackets m = Some m' /\ steps_to m m'.
Proof.
  apply each_unacked_ok. intros n m1 Hm1 Hn. pose proof (po_unacked _ _ _ _ Hm1) as Hu.
  destruct (present_lookup _ _ Hu Hn) as [i Hi].
  rewrite Hi. cbn [mbind option_bind]. destruct (_ && _) eqn:E; [|exists m1; split; [done|by apply steps_refl]].
  apply andb_true_iff in E as [_ E]. apply HasRetransmittableFrames_true in E.
  destruct (RemoveFromInFlight_ok n _ Hu Hn) as (u1 & -> & Hu1 & Hk1 & _ & _ & _). cbn [mbind option_bind].
  destruct (RemoveRetransmittability_ok n u1 Hu1) as (last & u2 & El & -> & Hu2 & Hk2 & _); [by apply (keeps_present _ _ _ _ Hk1)|].
  cbn [mbind option_bind]. eexists. split; [done|].
  assert (last = n) as ->.
  { destruct (present_lookup n u1 Hu1) as [i1 Hi1]; [by apply (keeps_present _ _ _ _ Hk1)|].
    destruct (k_info _ _ _ Hk1 _ _ Hi1) as (i0 & Hi0 & _ & _ & _ & Hr & _ & Hf).
    unfold chain_fuel in El. cbn [newest] in El. rewrite Hi1 in El. cbn [mbind option_bind] in El.
    assert (Hz : retransmission i1 = 0); [|by rewrite Hz in El; injection El].
    apply (io_frames _ _ _ (uo_info _ Hu1 n i1 Hi1)). rewrite Hf by done. congruence. }
  assert (Hk : keeps (fun k => k <> n) (unacked m1) u2).
  { eapply keeps_trans; [|exact Hk2]. by eapply keeps_weaken; [|exact Hk1]. }
  split_and!; [|done|by eapply keeps_weaken; [|exact Hk]].
  eapply packets_ok_keeps; [exact Hm1|done|exact Hk|]. intros p [? ?]%elem_of_erase. by left.
Qed.

Lemma CancelRetransmissionsForStream_steps stream_id m :
  manager_ok m -> exists m', QuicSentPacketManager.CancelRetransmissionsForStream stream_id m = Some m' /\ steps_to m m'.
Proof.
  intros Hm. destruct (CancelRetransmissionsForStream_ok stream_id _ (po_unacked _ _ _ _ Hm)) as (u' & E & Hu' & Hk).
  unfold QuicSentPacketManager.CancelRetransmissionsForStream. rewrite E. cbn [mbind option_bind].
  set (f := fun p : Z * TransmissionType => _).
  assert (exists keep, mapM f (pending_retransmissions_ m) = Some keep /\
    forall p b, (p, b) ∈ keep -> exists i, GetTransmissionInfo p.1 u' = Some i /\ b = HasRetransmittableFrames i)
    as (keep & -> & Hkeep).
  { pose proof (po_pending _ _ _ _ Hm) as Hp. induction (pending_retransmissions_ m) as [|p ps IH].
    - exists []. split; [done|]. set_solver.
    - destruct IH as (keep & Ek & Hkeep); [set_solver|]. destruct (Hp p) as (i & Hi & _); [set_solver|].
      assert (Hpr : present p.1 u') by (apply (keeps_present _ _ _ _ Hk), (lookup_present _ _ _ (po_unacked _ _ _ _ Hm) Hi)).
      destruct (present_lookup _ _ Hu' Hpr) as [i' Hi'].
      assert (Ef : f p = Some (p, HasRetransmittableFrames i')) by (unfold f; by rewrite Hi').
      exists ((p, HasRetransmittableFrames i') :: keep). split; [cbn; by rewrite Ef, Ek|].
      intros q b [[= -> ->]|Hin]%elem_of_cons; [by exists i'|by apply Hkeep]. }
  cbn [mbind option_bind]. eexists. split; [done|]. split_and!; [|done|done].
  eapply packets_ok_keeps; [exact Hm|done|exact Hk|]. intros p Hp. right.
  apply list_elem_of_fmap in Hp as ([q b] & -> & Hq). apply list_elem_of_filter in Hq as [Hb Hq]. cbn in Hb. subst b.
  destruct (Hkeep q true Hq) as (i & Hi & Hb). exists i. split; [done|]. by apply HasRetransmittableFrames_true.
Qed.

(** * Packets sent *)

Lemma OnPacketSent_keeps packet old t type fl m :
  manager_ok m -> sendable packet (unacked m) -> retransmits old (unacked m) ->
  exists m', OnPacketSent packet old t type fl m = Some (fl, m') /\ manager_ok m' /\ same_acks m m' /\
    sent packet old fl t (unacked m) (unacked m') /\
    pending_retransmissions_ m' = (if old =? 0 then pending_retransmissions_ m else erase old (pending_retransmissions_ m)).
Proof.
  intros Hm Hs Hr. pose proof (po_unacked _ _ _ _ Hm) as Hu.
  destruct (AddSentPacket_ok packet old type t fl (unacked m) Hu Hs Hr) as (u' & E & Hu' & Hst).
  assert (Hok : packets_ok u' (if old =? 0 then pending_retransmissions_ m else erase old (pending_retransmissions_ m))
                  (packets (last_ack_frame_ m)) (largest_newly_acked_ m)).
  { destruct Hm as [_ Hp Hw Ha Hse Hn]. pose proof (se_number _ _ Hs) as Hnum. pose proof (st_sent _ _ _ _ _ _ Hst) as Es.
    constructor; try done; rewrite ?Es.
    - intros p Hin. assert (p ∈ pending_retransmissions_ m /\ p.1 <> old) as [Hin0 Hne].
      { destruct (Z.eqb_spec old 0) as [->|]; [|by apply elem_of_erase]. split; [done|].
        destruct (Hp p Hin) as (i & Hi & _). pose proof (lookup_present _ _ _ Hu Hi) as [? _].
        pose proof (uo_least _ Hu). lia. }
      destruct (Hp p Hin0) as (i & Hi & Hf). exists i. split; [|done]. by apply (st_kept _ _ _ _ _ _ Hst).
    - intros n i' Hi'. destruct (st_info _ _ _ _ _ _ Hst n i' Hi') as [[Hlt Hna]|(i & Hi & -> & _)]; [|by apply Ha].
      split; [done|]. intros Hmem. specialize (Hse n Hmem). lia.
    - intros n Hmem. specialize (Hse n Hmem). lia.
    - lia. }
  unfold OnPacketSent. destruct (old =? 0), (0 <? _); cbn [QuicSentPacketManager.unacked_packets_];
    (eexists; split; [cbv zeta; cbn -[AddSentPacket]; rewrite E; reflexivity|]); by split_and!.
Qed.

(** A packet that is pending can be retransmitted. *)
Lemma pending_retransmits m p : manager_ok m -> p ∈ pending_retransmissions_ m -> retransmits p.1 (unacked m).
Proof. intros Hm Hp. right. by apply (po_pending _ _ _ _ Hm). Qed.

Lemma crypto_first_ok m first pending :
  manager_ok m -> first ∈ pending_retransmissions_ m -> (forall p, p ∈ pending -> p ∈ pending_retransmissions_ m) ->
  exists p, crypto_first (unacked m) pending first = Some p /\ p ∈ pending_retransmissions_ m.
Proof.
  intros Hm Hf. induction pending as [|p ps IH]; intros Hsub; cbn [crypto_first]; [by exists first|].
  destruct (po_pending _ _ _ _ Hm p) as (i & -> & _); [apply Hsub; set_solver|]. cbn [mbind option_bind].
  destruct (has_crypto_handshake i); [|apply IH; set_solver]. exists p. split; [done|]. apply Hsub. set_solver.
Qed.

Lemma NextPendingRetransmission_ok m :
  manager_ok m -> pending_retransmissions_ m <> [] ->
  exists r, NextPendingRetransmission m = Some r /\
    (pr_packet_number r, pr_transmission_type r) ∈ pending_retransmissions_ m /\
    exists i, GetTransmissionInfo (pr_packet_number r) (unacked m) = Some i /\
      pr_retransmittable_frames r = retransmittable_frames i /\ retransmittable_frames i <> [].
Proof.
  intros Hm Hne. unfold NextPendingRetransmission. destruct (pending_retransmissions_ m) as [|first ps] eqn:Ep; [done|].
  cbn [head mbind option_bind].
  assert (exists p, (if HasPendingCryptoPackets (unacked m) then crypto_first (unacked m) (first :: ps) first
    else Some first) = Some p /\ p ∈ pending_retransmissions_ m) as ([n type] & -> & Hin).
  { destruct (HasPendingCryptoPackets _); [|exists first; rewrite Ep; set_solver].
    apply crypto_first_ok; [done|rewrite Ep; set_solver|by rewrite Ep]. }
  cbn [mbind option_bind]. destruct (po_pending _ _ _ _ Hm (n, type) Hin) as (i & Hi & Hf). cbn [fst] in Hi.
  rewrite Hi. cbn [mbind option_bind]. eexists. split; [done|]. rewrite <- Ep. split; [done|]. by exists i.
Qed.

(** * Packets acknowledged *)

Lemma record_spurious_ok fuel r m :
  unacked_ok (unacked m) -> r = 0 \/ present r (unacked m) ->
  (r <> 0 -> largest_sent_packet_ (unacked m) - r < Z.of_nat fuel) ->
  exists st, record_spurious fuel r m = Some (m <| stats_ := st |>).
Proof.
  intros Hu. revert r m Hu. induction fuel as [|fuel IH]; intros r m Hu Hr Hf; cbn [record_spurious].
  all: destruct (Z.eqb_spec r 0) as [|Hne]; [exists (stats_ m); by destruct m|].
  all: destruct Hr as [|Hr]; [done|]; specialize (Hf Hne).
  - unfold present in Hr. lia.
  - destruct (present_lookup _ _ Hu Hr) as [i Hi]. rewrite Hi. cbn [mbind option_bind].
    pose proof (io_link _ _ _ (uo_info _ Hu r i Hi)) as Hl. unfold present in Hr.
    destruct (IH (retransmission i) (RecordOneSpuriousRetransmission i m)) as [st E]; [done|..].
    + destruct Hl as [|Hl]; [by left|right]. unfold present. cbn. lia.
    + cbn. lia.
    + exists st. by rewrite E.
Qed.

Lemma SpuriousRetransmitDetected_Some u now r n g :
  unacked_ok u -> present n u -> exists g', SpuriousRetransmitDetected u now r n g = Some g'.
Proof.
  intros Hu Hn. destruct (present_lookup _ _ Hu Hn) as [i Hi]. unfold SpuriousRetransmitDetected. rewrite Hi.
  cbn [mbind option_bind]. repeat case_match; by eexists.
Qed.

(** Statistics and the loss algorithm apart, nothing changes. *)
Lemma RecordSpuriousRetransmissions_ok now i m :
  unacked_ok (unacked m) -> present (retransmission i) (unacked m) ->
  exists st g, RecordSpuriousRetransmissions now i m = Some (m <| stats_ := st |> <| general_loss_algorithm_ := g |>).
Proof.
  intros Hu Hr. unfold RecordSpuriousRetransmissions.
  destruct (record_spurious_ok (chain_fuel (unacked m)) (retransmission i) m Hu) as [st E].
  { by right. }
  { intros _. pose proof (uo_end _ Hu). unfold chain_fuel, size, present in *. lia. }
  rewrite E. cbn [mbind option_bind]. destruct (present_lookup _ _ Hu Hr) as [i' Hi'].
  change (unacked (m <| stats_ := st |>)) with (unacked m). rewrite Hi'. cbn [mbind option_bind].
  destruct (SpuriousRetransmitDetected_Some (unacked m) now (rtt_stats_ m) (retransmission i) (general_loss_algorithm_ m) Hu Hr)
    as [g Eg].
  exists st. destruct (transmission_type i'); try (exists (general_loss_algorithm_ m); by destruct m).
  exists g. cbn. by rewrite Eg.
Qed.

(** What handling packet [n] does to the deque. *)
Record handled (n : Z) (u u' : QuicUnackedPacketMap) : Prop := mk_handled {
  ha_least : least_unacked_ u' = least_unacked_ u;
  ha_sent : largest_sent_packet_ u' = largest_sent_packet_ u;
  ha_acked : largest_acked_ u' = largest_acked_ u;
  ha_info : forall k i', GetTransmissionInfo k u' = Some i' -> exists i, GetTransmissionInfo k u = Some i /\
    state i' = (if decide (k = n) then ACKED else state i) /\ bytes_sent i' = bytes_sent i /\
    sent_time i' = sent_time i /\ (in_flight i' = true -> in_flight i = true /\ k <> n);
}.

Lemma newest_self fuel n u i :
  GetTransmissionInfo n u = Some i -> retransmittable_frames i <> [] -> unacked_ok u -> newest (S fuel) n u = Some n.
Proof.
  intros Hi Hf Hu. cbn [newest]. rewrite Hi. cbn [mbind option_bind].
  by rewrite (io_frames _ _ _ (uo_info _ Hu n i Hi) Hf).
Qed.

(** The end of [MarkPacketHandled]: the packet leaves flight, its data is no longer
    retransmitted, and it counts as acknowledged. *)
Lemma mark_acked_ok n u last :
  unacked_ok u -> present n u -> newest (chain_fuel u) n u = Some last ->
  exists u1 u2, RemoveFromInFlight n u = Some u1 /\ RemoveRetransmittability n u1 = Some u2 /\
    let u' := update n (fun i => i <| state := ACKED |>) u2 in
    unacked_ok u' /\ handled n u u' /\
    (forall k i', GetTransmissionInfo k u' = Some i' -> k <> last -> exists i, GetTransmissionInfo k u = Some i /\
       retransmittable_frames i' = retransmittable_frames i).
Proof.
  intros Hu Hn El. destruct (RemoveFromInFlight_ok n u Hu Hn) as (u1 & E1 & Hu1 & Hk1 & Hfl & Hsl & Ec).
  assert (Hn1 : present n u1) by (by apply (keeps_present _ _ _ _ Hk1)).
  destruct (RemoveRetransmittability_ok n u1 Hu1 Hn1) as (last1 & u2 & El1 & E2 & Hu2 & Hk2 & _ & Hun & Hfr).
  exists u1, u2. split_and!; [done|done|]. cbv zeta. set (f := fun i => i <| state := ACKED |>).
  assert (last1 = last) as ->.
  { rewrite Ec, (newest_links _ _ _ _ Hsl) in El1. congruence. }
  assert (Hn2 : present n u2) by (by apply (keeps_present _ _ _ _ Hk2)).
  destruct (present_lookup _ _ Hu2 Hn2) as [i2 Hi2].
  assert (Hc : changed n f i2 u2 (update n f u2)) by (by apply changed_update).
  pose proof (fun k => changed_lookup _ _ _ _ _ k Hc (proj1 Hn2)) as Hl.
  assert (Hk : keeps (fun k => k <> last) u u2) by (eapply keeps_trans; [by eapply keeps_weaken; [|exact Hk1]|exact Hk2]).
  assert (Hfl2 : in_flight i2 = false).
  { destruct (k_info _ _ _ Hk2 _ _ Hi2) as (i1 & Hi1 & _ & _ & _ & _ & Hf & _). destruct (in_flight i2); [|done].
    specialize (Hf eq_refl). by rewrite (Hfl i1 Hi1) in Hf. }
  assert (Hfr2 : retransmittable_frames i2 = []).
  { destruct (decide (n = last)) as [->|Hne]; [by apply Hfr|].
    destruct (k_info _ _ _ Hk _ _ Hi2) as (i & Hi & _ & _ & _ & _ & _ & Hf). rewrite Hf by done.
    destruct (retransmittable_frames i) eqn:Ef; [done|]. exfalso. apply Hne.
    assert (newest (chain_fuel u) n u = Some n) by (eapply newest_self; [exact Hi|by rewrite Ef|done]). congruence. }
  split_and!.
  - eapply changed_ok; [exact Hu2|exact Hi2|exact Hc|]. pose proof (uo_info _ Hu2 n i2 Hi2) as [? ? ? ? ?].
    constructor; try done. intros _. split_and!; try done. exact (Hun i2 Hi2).
  - constructor; cbn; try apply Hk. intros k i' Hi'. rewrite Hl in Hi'.
    assert (exists i0, GetTransmissionInfo k u2 = Some i0 /\ i' = (if decide (k = n) then f i0 else i0)) as (i0 & Hi0 & ->).
    { destruct (decide (k = n)); [|by exists i']. destruct (GetTransmissionInfo k u2) as [i0|]; [|done].
      exists i0. split; [done|]. by injection Hi' as <-. }
    destruct (k_info _ _ _ Hk _ _ Hi0) as (i & Hi & ? & ? & ? & _ & ? & _). exists i.
    destruct (decide (k = n)) as [->|]; [|split_and!; try done; by auto]. split_and!; try done.
    assert (i0 = i2) as -> by congruence. cbn. congruence.
  - intros k i' Hi' Hne. rewrite Hl in Hi'.
    assert (exists i0, GetTransmissionInfo k u2 = Some i0 /\ retransmittable_frames i' = retransmittable_frames i0)
      as (i0 & Hi0 & ->).
    { destruct (decide (k = n)); [|by exists i']. destruct (GetTransmissionInfo k u2) as [i0|]; [|done].
      exists i0. split; [done|]. by injection Hi' as <-. }
    destruct (k_info _ _ _ Hk _ _ Hi0) as (i & Hi & _ & _ & _ & _ & _ & Hf). exists i. auto.
Qed.

(** What comes before: the newest transmission is no longer pending. *)
Definition before_acked (last : Z) m m' : Prop :=
  unacked_ok (unacked m') /\ keeps (fun _ => True) (unacked m) (unacked m') /\ same_links (unacked m) (unacked m') /\
  chain_fuel (unacked m') = chain_fuel (unacked m) /\
  pending_retransmissions_ m' = erase last (pending_retransmissions_ m) /\ same_acks m m'.

Lemma MarkPacketHandled_split now n i m :
  unacked_ok (unacked m) -> GetTransmissionInfo n (unacked m) = Some i ->
  exists last m', newest (chain_fuel (unacked m)) n (unacked m) = Some last /\ before_acked last m m' /\
    MarkPacketHandled now n i m =
      (u ← RemoveFromInFlight n (unacked m');
       u ← RemoveRetransmittability n u;
       Some (m' <| QuicSentPacketManager.unacked_packets_ := update n (fun i => i <| state := ACKED |>) u |>)).
Proof.
  intros Hu Hi. pose proof (lookup_present _ _ _ Hu Hi) as Hn. unfold MarkPacketHandled, GetNewestRetransmission.
  destruct (unlink_ok (chain_fuel (unacked m)) n (unacked m) Hu Hn) as (last & _ & El & _ & _ & _ & Hpl & _).
  { pose proof (uo_end _ Hu). unfold chain_fuel, size, present in *. lia. }
  rewrite El. cbn [mbind option_bind]. set (m1 := m <| pending_retransmissions_ := _ |>). exists last.
  destruct (Z.eqb_spec last n) as [->|Hne].
  { exists m1. split_and!; try done. by split_and!; [|apply keeps_refl|..]. }
  assert (Hr : present (retransmission i) (unacked m)).
  { pose proof (io_link _ _ _ (uo_info _ Hu n i Hi)) as Hl. unfold present in *. destruct Hl as [Hz|Hl]; [|lia].
    unfold chain_fuel in El. cbn [newest] in El. rewrite Hi in El. cbn [mbind option_bind] in El. rewrite Hz in El.
    cbn in El. congruence. }
  destruct (RecordSpuriousRetransmissions_ok now i m1 Hu Hr) as (st & g & ->). cbn [mbind option_bind].
  set (m2 := (m1 <| stats_ := st |>) <| general_loss_algorithm_ := g |>).
  change (unacked m2) with (unacked m). destruct (present_lookup _ _ Hu Hpl) as [il Hil]. rewrite Hil. cbn [mbind option_bind].
  destruct (has_crypto_handshake il).
  - destruct (RemoveFromInFlight_ok last (unacked m) Hu Hpl) as (u' & -> & Hu' & Hk & _ & Hsl & Ec). cbn [mbind option_bind].
    eexists. split_and!; [done| |reflexivity]. by split_and!.
  - exists m2. split_and!; try done. by split_and!; [|apply keeps_refl|..].
Qed.

Lemma MarkPacketHandled_ok now n i m acked newly acked' newly' :
  packets_ok (unacked m) (pending_retransmissions_ m) acked newly -> GetTransmissionInfo n (unacked m) = Some i ->
  wf_from (-1) acked' -> (forall x, mem acked' x <-> n = x \/ mem acked x) ->
  newly' <= largest_sent_packet_ (unacked m) ->
  exists m', MarkPacketHandled now n i m = Some m' /\
    packets_ok (unacked m') (pending_retransmissions_ m') acked' newly' /\ same_acks m m' /\
    handled n (unacked m) (unacked m').
Proof.
  intros Hm Hi Hw' Hmem Hnew. pose proof (po_unacked _ _ _ _ Hm) as Hu.
  pose proof (lookup_present _ _ _ Hu Hi) as Hn.
  destruct (MarkPacketHandled_split now n i m Hu Hi) as (last & m1 & El & (Hu1 & Hk1 & Hsl & Ec & Ep & Hsa) & ->).
  destruct (mark_acked_ok n (unacked m1) last Hu1) as (u1 & u2 & -> & E2 & Hu' & Hh & Hfr).
  { by apply (keeps_present _ _ _ _ Hk1). }
  { by rewrite Ec, (newest_links _ _ _ _ Hsl). }
  cbn [mbind option_bind]. rewrite E2. cbn [mbind option_bind]. eexists. split; [done|].
  set (u' := update n _ u2) in *. set (m' := m1 <| QuicSentPacketManager.unacked_packets_ := u' |>).
  change (unacked m') with u'. change (pending_retransmissions_ m') with (pending_retransmissions_ m1).
  assert (Hh' : handled n (unacked m) u').
  { destruct Hh as [? ? ? Hh], Hk1 as [? ? ? Hk1]. constructor; try congruence. intros k i' Hi'.
    destruct (Hh k i' Hi') as (i1 & Hi1 & E & ? & ? & Hf1). destruct (Hk1 k i1 Hi1) as (i0 & Hi0 & ? & ? & ? & _ & Hf0 & _).
    exists i0. split_and!; try congruence; [rewrite E; by case_decide|]. intros Hf. destruct (Hf1 Hf). auto. }
  split_and!; try done. destruct Hm as [_ Hp Hw Ha Hs _].
  pose proof (ha_sent _ _ _ Hh') as Es. constructor; try done; rewrite ?Es.
  - intros p. rewrite Ep, elem_of_erase. intros [Hin Hne]. destruct (Hp p Hin) as (j & Hj & Hf).
    assert (Hpr : present p.1 u').
    { pose proof (lookup_present _ _ _ Hu Hj). unfold present in *. rewrite Es, (ha_least _ _ _ Hh'). done. }
    destruct (present_lookup _ _ Hu' Hpr) as [j' Hj']. exists j'. split; [done|].
    destruct (Hfr _ _ Hj' Hne) as (j1 & Hj1 & ->).
    destruct (k_info _ _ _ Hk1 _ _ Hj1) as (j0 & Hj0 & _ & _ & _ & _ & _ & ->); [|done]. congruence.
  - intros k i' Hi'. destruct (ha_info _ _ _ Hh' k i' Hi') as (i0 & Hi0 & -> & _). rewrite Hmem.
    destruct (decide (k = n)) as [->|Hne]; [by split; [left|]|]. rewrite (Ha k i0 Hi0). naive_solver.
  - intros k [<-|Hk]%Hmem; [apply Hn|by apply Hs].
  - done.
Qed.

(** Whether the packet can be acknowledged. *)
Definition ackable (u : QuicUnackedPacketMap) (n : Z) : Prop :=
  exists i, GetTransmissionInfo n u = Some i /\ IsAckable (state i) = true.

Lemma handled_ackable n u u' k :
  unacked_ok u -> unacked_ok u' -> handled n u u' -> ackable u' k <-> ackable u k /\ k <> n.
Proof.
  intros Hu Hu' Hh. split.
  - intros (i' & Hi' & Ha). destruct (ha_info _ _ _ Hh k i' Hi') as (i & Hi & E & _). rewrite E in Ha.
    case_decide; [done|]. split; [|done]. by exists i.
  - intros [(i & Hi & Ha) Hne]. assert (Hp : present k u').
    { pose proof (lookup_present _ _ _ Hu Hi). unfold present in *. by rewrite (ha_sent _ _ _ Hh), (ha_least _ _ _ Hh). }
    destruct (present_lookup _ _ Hu' Hp) as [i' Hi']. exists i'. split; [done|].
    destruct (ha_info _ _ _ Hh k i' Hi') as (i0 & Hi0 & -> & _). rewrite decide_False by done. congruence.
Qed.

(** The packets are handled one after the other: those that can be are acknowledged. *)
Definition all_handled m m' (numbers : list Z) : Prop :=
  least_unacked_ (unacked m') = least_unacked_ (unacked m) /\
  largest_sent_packet_ (unacked m') = largest_sent_packet_ (unacked m) /\
  largest_acked_ (unacked m') = largest_acked_ (unacked m) /\
  packets_lost_ m' = packets_lost_ m /\ packets_acked_ m' = packets_acked_ m /\ rtt_updated_ m' = rtt_updated_ m /\
  (forall x, mem (packets (last_ack_frame_ m')) x <->
     mem (packets (last_ack_frame_ m)) x \/ (x ∈ numbers /\ ackable (unacked m) x)) /\
  (forall k i', GetTransmissionInfo k (unacked m') = Some i' -> exists i, GetTransmissionInfo k (unacked m) = Some i /\
     bytes_sent i' = bytes_sent i /\ sent_time i' = sent_time i /\
     (in_flight i' = true -> in_flight i = true /\ (k ∈ numbers -> ~ ackable (unacked m) k))).

Lemma handle_acked_ok now acked m :
  manager_ok m -> Forall (fun a => present (ap_packet_number a) (unacked m)) acked ->
  exists acked' m', handle_acked now acked m = Some (acked', m') /\ manager_ok m' /\
    map ap_packet_number acked' = map ap_packet_number acked /\ all_handled m m' (map ap_packet_number acked).
Proof.
  revert m. induction acked as [|a acked IH]; intros m Hm Hall.
  { exists [], m. split_and!; try done. split_and!; try done; [set_solver|]. intros k i Hi. exists i. split_and!; set_solver. }
  apply Forall_cons in Hall as [Hn Hall]. cbn [handle_acked]. pose proof (po_unacked _ _ _ _ Hm) as Hu.
  set (n := ap_packet_number a) in *.
  destruct (present_lookup _ _ Hu Hn) as [i Hi]. rewrite Hi. cbn [mbind option_bind].
  destruct (IsAckable (state i)) eqn:Ea; cbn [negb]; cycle 1.
  { destruct (IH m Hm Hall) as (acked' & m' & -> & Hm' & En & Hh). cbn [mbind option_bind].
    exists (a :: acked'), m'. split_and!; try done; [by cbn; rewrite En|].
    destruct Hh as (?&?&?&?&?&?&Hmem&Hinf). assert (Hna : ~ ackable (unacked m) n).
    { intros (i0 & Hi0 & E0). congruence. }
    split_and!; try done.
    - intros x. rewrite Hmem. cbn [map]. fold n. rewrite elem_of_cons. naive_solver.
    - intros k i' Hk. destruct (Hinf k i' Hk) as (i0 & ? & ? & ? & Hfl). exists i0. split_and!; try done.
      intros Hf. destruct (Hfl Hf). cbn [map]. fold n. rewrite elem_of_cons. naive_solver. }
  set (frame := (last_ack_frame_ m) <| packets := _ |>).
  match goal with |- context [let '(a, m) := ?t in _] => set (am := t) end.
  assert (exists a1 m1, am = (a1, m1) /\ ap_packet_number a1 = n /\ unacked m1 = unacked m /\
    pending_retransmissions_ m1 = pending_retransmissions_ m /\ last_ack_frame_ m1 = frame /\
    (largest_newly_acked_ m1 = largest_newly_acked_ m \/ largest_newly_acked_ m1 = n) /\
    packets_lost_ m1 = packets_lost_ m /\ packets_acked_ m1 = packets_acked_ m /\ rtt_updated_ m1 = rtt_updated_ m)
    as (a1 & m1 & Eam & Ea1 & Eu & Ep & Ef & Enew & El & Eac & Er).
  { unfold am. destruct (in_flight i), (0 <? ti_largest_acked i); eexists _, _; (split; [reflexivity|]); split_and!; auto. }
  clearbody am. subst am.
  pose proof (uo_least _ Hu). pose proof (uo_max _ Hu) as Hmax. unfold max_packets in Hmax. unfold present in Hn.
  destruct (Add_adds n (packets (last_ack_frame_ m)) ltac:(lia) ltac:(unfold fits; lia) (po_wf _ _ _ _ Hm)) as [Hw Hadd].
  destruct (MarkPacketHandled_ok now n i m1 (packets (last_ack_frame_ m)) (largest_newly_acked_ m)
    (packets frame) (largest_newly_acked_ m1)) as (m2 & -> & Hm2 & (S1 & S2 & S3 & S4 & S5 & S6) & Hh2).
  { rewrite Eu, Ep. exact Hm. }
  { by rewrite Eu. }
  { exact Hw. }
  { exact Hadd. }
  { rewrite Eu. pose proof (po_newly _ _ _ _ Hm). destruct Enew as [->| ->]; lia. }
  cbn [mbind option_bind]. rewrite Eu in Hh2.
  assert (Hm2' : manager_ok m2) by (unfold manager_ok; rewrite S3, Ef, S4; exact Hm2).
  pose proof (po_unacked _ _ _ _ Hm2') as Hu2.
  destruct (IH m2 Hm2') as (acked' & m' & -> & Hm' & En & (H1 & H2 & H3 & H4 & H5 & H6 & Hmem & Hinf)).
  { eapply Forall_impl; [exact Hall|]. intros b Hb. unfold present in *.
    by rewrite (ha_sent _ _ _ Hh2), (ha_least _ _ _ Hh2). }
  cbn [mbind option_bind]. exists (a1 :: acked'), m'. split_and!; try done; [cbn; by rewrite En, Ea1|].
  pose proof Hh2 as [G1 G2 G3 G4].
  pose proof (fun k => handled_ackable n _ _ k Hu Hu2 Hh2) as Hack. cbn [map]. fold n.
  assert (Hackn : ackable (unacked m) n) by (by exists i).
  split_and!; try congruence.
  - intros x. rewrite Hmem, S3, Ef. change (packets frame) with (PacketNumberQueue.Add n (packets (last_ack_frame_ m))).
    rewrite (Hadd x), elem_of_cons, Hack. clear -Hackn. destruct (decide (x = n)); naive_solver.
  - intros k i' Hk. destruct (Hinf k i' Hk) as (i1 & Hi1 & ? & ? & Hfl). destruct (G4 k i1 Hi1) as (i0 & Hi0 & _ & ? & ? & Hfl1).
    exists i0. split_and!; try congruence. intros Hf. destruct (Hfl Hf) as [Hf1 Hna]. destruct (Hfl1 Hf1) as [Hf0 Hkn].
    split; [done|]. rewrite elem_of_cons. intros [?|Hin]; [done|]. specialize (Hna Hin). rewrite Hack in Hna. naive_solver.
Qed.

(** * Losses *)

Lemma keeps_out_of_flight P n u u' : keeps P u u' -> out_of_flight n u -> out_of_flight n u'.
Proof.
  intros Hk Hn i' Hi'. destruct (k_info _ _ _ Hk n i' Hi') as (i & Hi & _ & _ & _ & _ & Hf & _).
  destruct (in_flight i'); [|done]. by rewrite (Hn i Hi) in Hf; specialize (Hf eq_refl).
Qed.

Lemma lose_packets_ok lost m :
  manager_ok m -> Forall (fun p => present (lp_packet_number p) (unacked m)) lost ->
  exists m', lose_packets lost m = Some m' /\ steps_to m m' /\
    Forall (fun p => out_of_flight (lp_packet_number p) (unacked m')) lost.
Proof.
  revert m. induction lost as [|p lost IH]; intros m Hm Hall; cbn [lose_packets].
  { exists m. split_and!; [done|by apply steps_refl|done]. }
  apply Forall_cons in Hall as [Hn Hall]. set (n := lp_packet_number p) in *. cbv zeta.
  set (m1 := m <| stats_ := _ |>). assert (Hm1 : manager_ok m1) by exact Hm. assert (Hs1 : steps_to m m1) by (split_and!; [exact Hm|done|apply keeps_refl]).
  change (unacked m) with (unacked m1) in Hn, Hall. clearbody m1.
  destruct (present_lookup _ _ (po_unacked _ _ _ _ Hm1) Hn) as [i Hi]. rewrite Hi. cbn [mbind option_bind].
  assert (exists m2, (if fix_mark_for_loss_retransmission_ m1 || HasRetransmittableFrames i
      then MarkForRetransmission n LOSS_RETRANSMISSION m1
      else u ← RemoveFromInFlight n (unacked m1); Some (m1 <| QuicSentPacketManager.unacked_packets_ := u |>)) = Some m2 /\
      steps_to m1 m2 /\ out_of_flight n (unacked m2)) as (m2 & -> & Hs2 & Hout).
  { destruct (_ || _) eqn:E.
    - destruct (MarkForRetransmission_ok n LOSS_RETRANSMISSION m1 Hm1) as (m2 & E2 & Hm2 & Hsa & Hk & Ho).
      { exists i. split; [done|]. apply orb_true_iff in E as [?|?]; [by left|right; by apply HasRetransmittableFrames_true]. }
      exists m2. split_and!; [done| |by apply Ho]. split_and!; try done. by eapply keeps_weaken; [|exact Hk].
    - destruct (RemoveFromInFlight_ok n _ (po_unacked _ _ _ _ Hm1) Hn) as (u' & E' & _ & _ & Ho & _).
      destruct (RemoveFromInFlight_steps n m1 Hm1 Hn) as (u2 & E2 & Hs). rewrite E2 in *. injection E' as <-.
      eexists. split_and!; [reflexivity|done|done]. }
  cbn [mbind option_bind]. destruct (IH m2) as (m' & -> & Hs3 & Hrest); [apply Hs2| |].
  { eapply Forall_impl; [exact Hall|]. intros q Hq. by apply (steps_present _ _ _ Hs2). }
  exists m'. split_and!; [done|by eapply steps_trans; [|eapply steps_trans]|]. constructor; [|done].
  destruct Hs3 as (_ & _ & Hk). by eapply keeps_out_of_flight.
Qed.

(** What an ack frame's losses change. *)
Record losses_done m m' : Prop := mk_losses_done {
  ld_ok : manager_ok m';
  ld_keeps : keeps (fun _ => False) (unacked m) (unacked m');
  ld_acked : packets_acked_ m' = packets_acked_ m;
  ld_frame : last_ack_frame_ m' = last_ack_frame_ m;
  ld_lost : Forall (fun p => out_of_flight (lp_packet_number p) (unacked m')) (packets_lost_ m');
}.

Lemma InvokeLossDetection_ok time m :
  acking m -> exists m', InvokeLossDetection time m = Some m' /\ losses_done m m'.
Proof.
  intros (Hm & El & Ha). unfold InvokeLossDetection.
  set (m1 := match last (packets_acked_ m) with Some _ => _ | None => _ end).
  assert (manager_ok m1 /\ unacked m1 = unacked m /\ packets_acked_ m1 = packets_acked_ m /\
    packets_lost_ m1 = [] /\ last_ack_frame_ m1 = last_ack_frame_ m) as (Hm1 & Eu & Eac & El1 & Ef).
  { unfold m1. destruct (last (packets_acked_ m)) as [a|] eqn:E; [|done]. split_and!; try done.
    destruct Hm as [? ? ? ? ? ?]. constructor; try done. cbn. rewrite Forall_forall in Ha.
    by apply Ha, last_Some_elem_of. }
  clearbody m1. cbv zeta.
  destruct (DetectLosses_Some (unacked m1) time (rtt_stats_ m1) (largest_newly_acked_ m1) (packets_acked_ m1)
    (packets_lost_ m1) (general_loss_algorithm_ m1)) as (new & g & E & Hnew);
    [apply Hm1|apply (po_newly _ _ _ _ Hm1)|].
  rewrite E, El1. cbn [mbind option_bind app]. set (m2 := (m1 <| packets_lost_ := new |>) <| general_loss_algorithm_ := g |>).
  assert (Hm2 : manager_ok m2) by exact Hm1.
  destruct (lose_packets_ok new m2 Hm2) as (m' & -> & (Hm' & (S1 & S2 & S3 & _) & Hk) & Hout).
  { eapply Forall_impl; [exact Hnew|]. intros p (i & Hi & _). by apply (lookup_present _ _ i (po_unacked _ _ _ _ Hm1)). }
  exists m'. split; [done|]. constructor; try done.
  - rewrite <- Eu. exact Hk.
  - by rewrite S1.
  - by rewrite S3.
  - rewrite S2. exact Hout.
Qed.

Lemma MaybeInvokeCongestionEvent_ok updated prior time m :
  let m' := MaybeInvokeCongestionEvent updated prior time m in
  settled m' /\ unacked m' = unacked m /\ pending_retransmissions_ m' = pending_retransmissions_ m /\
  last_ack_frame_ m' = last_ack_frame_ m /\ largest_newly_acked_ m' = largest_newly_acked_ m.
Proof.
  cbv zeta. unfold MaybeInvokeCongestionEvent, settled.
  destruct updated, (packets_acked_ m) as [|] eqn:E1, (packets_lost_ m) as [|] eqn:E2; by split_and!.
Qed.

Lemma reset_backoff_ok m :
  let m' := reset_backoff m in
  unacked m' = unacked m /\ pending_retransmissions_ m' = pending_retransmissions_ m /\
  last_ack_frame_ m' = last_ack_frame_ m /\ largest_newly_acked_ m' = largest_newly_acked_ m /\
  packets_acked_ m' = packets_acked_ m /\ packets_lost_ m' = packets_lost_ m.
Proof. cbv zeta. unfold reset_backoff. repeat case_match; by split_and!. Qed.

(** Obsolete packets are removed without harm. *)
Lemma packets_ok_obsolete u pending acked newly :
  packets_ok u pending acked newly ->
  packets_ok (RemoveObsoletePackets u) pending acked newly /\
  least_unacked_ u <= least_unacked_ (RemoveObsoletePackets u) /\
  largest_sent_packet_ (RemoveObsoletePackets u) = largest_sent_packet_ u /\
  (forall n, GetTransmissionInfo n (RemoveObsoletePackets u) =
     if n <? least_unacked_ (RemoveObsoletePackets u) then None else GetTransmissionInfo n u).
Proof.
  intros [Hu Hp Hw Ha Hs Hn]. destruct (RemoveObsoletePackets_ok u Hu) as (k & Ht & Hu' & Hd).
  pose proof (fun n => trimmed_lookup _ _ _ n Ht) as Hl. pose proof (tr_sent _ _ _ Ht) as Es.
  split_and!; [|rewrite (tr_least _ _ _ Ht); lia|done|done]. constructor; try done; rewrite ?Es; try done.
  - intros p Hin. destruct (Hp p Hin) as (i & Hi & Hf). exists i. split; [|done]. rewrite Hl.
    destruct (Z.ltb_spec p.1 (least_unacked_ (RemoveObsoletePackets u))) as [Hlt|]; [|done].
    specialize (Hd _ _ Hi Hlt). by apply (useless_counts _ _ _ u (uo_info _ Hu _ _ Hi)) in Hd as (_ & ? & _).
  - intros n i Hi. rewrite Hl in Hi. destruct (n <? _); [done|]. by apply Ha.
Qed.

Lemma RemoveUpTo_mem least d :
  wf_from (-1) d ->
  wf_from (-1) (PacketNumberQueue.RemoveUpTo least d).2 /\
  forall x, mem (PacketNumberQueue.RemoveUpTo least d).2 x <-> mem d x /\ least <= x.
Proof.
  intros Hw. unfold PacketNumberQueue.RemoveUpTo. destruct (PacketNumberQueue.Empty d) eqn:E; [|by apply RemoveUpTo_loop_spec].
  destruct d; [|done]. split; [done|]. intros x. cbn. split; [intros Hx|intros [Hx _]]; by apply Exists_nil in Hx.
Qed.

(** What an ack frame leaves: the packets acknowledged, as far as they are kept. *)
Record frame_done m m' : Prop := mk_frame_done {
  fd_ok : manager_ok m';
  fd_settled : settled m';
  fd_sent : largest_sent_packet_ (unacked m') = largest_sent_packet_ (unacked m);
  fd_least : least_unacked_ (unacked m) <= least_unacked_ (unacked m');
  fd_mem : forall x, mem (packets (last_ack_frame_ m')) x <->
    mem (packets (last_ack_frame_ m)) x /\ least_unacked_ (unacked m') <= x;
  fd_info : forall k i', GetTransmissionInfo k (unacked m') = Some i' ->
    exists i, GetTransmissionInfo k (unacked m) = Some i /\ (in_flight i' = true -> in_flight i = true) /\
      bytes_sent i' = bytes_sent i /\ sent_time i' = sent_time i;
}.

Lemma PostProcess_ok now time updated prior m :
  acking m -> exists m', PostProcessAfterMarkingPacketHandled now time updated prior m = Some m' /\ frame_done m m'.
Proof.
  intros Hm. unfold PostProcessAfterMarkingPacketHandled.
  destruct (InvokeLossDetection_ok time m Hm) as (m1 & -> & [Hm1 Hk1 _ Ef1 _]). cbn [mbind option_bind].
  set (m2 := if _ && _ then _ else m1).
  assert (unacked m2 = unacked m1 /\ pending_retransmissions_ m2 = pending_retransmissions_ m1 /\
    last_ack_frame_ m2 = last_ack_frame_ m1 /\ largest_newly_acked_ m2 = largest_newly_acked_ m1) as (E1 & E2 & E3 & E4).
  { unfold m2. by destruct (_ && _). }
  clearbody m2. destruct (MaybeInvokeCongestionEvent_ok updated prior time m2) as ([C1 C1'] & C2 & C3 & C4 & C5).
  set (m3 := MaybeInvokeCongestionEvent updated prior time m2) in *. clearbody m3.
  set (m4 := record_bandwidth now time (m3 <| QuicSentPacketManager.unacked_packets_ := _ |>)).
  destruct (packets_ok_obsolete _ _ _ _ Hm1) as (Hm4 & Hle & Hsent & Hlook).
  assert (EU : unacked m4 = RemoveObsoletePackets (unacked m1)) by (cbn; by rewrite C2, E1).
  assert (Hm5 : forall m5, m5 = (if updated then reset_backoff m4 else m4) -> unacked m5 = unacked m4 /\
    pending_retransmissions_ m5 = pending_retransmissions_ m4 /\
    last_ack_frame_ m5 = last_ack_frame_ m4 /\ largest_newly_acked_ m5 = largest_newly_acked_ m4 /\
    packets_acked_ m5 = packets_acked_ m4 /\ packets_lost_ m5 = packets_lost_ m4).
  { intros m5 ->. destruct updated; [apply reset_backoff_ok|done]. }
  set (m5 := if updated then reset_backoff m4 else m4). destruct (Hm5 m5 eq_refl) as (F1 & F2 & F3 & F4 & F5 & F6).
  clearbody m5. clear Hm5. eexists. split; [reflexivity|]. set (m' := m5 <| last_ack_frame_ := _ |>).
  assert (EU' : unacked m' = RemoveObsoletePackets (unacked m1)) by (change (unacked m') with (unacked m5); by rewrite F1).
  assert (EF : packets (last_ack_frame_ m') =
    (PacketNumberQueue.RemoveUpTo (least_unacked_ (RemoveObsoletePackets (unacked m1))) (packets (last_ack_frame_ m))).2).
  { cbn. unfold QuicUnackedPacketMap.GetLeastUnacked. rewrite F1, EU, F3.
    change (last_ack_frame_ m4) with (last_ack_frame_ m3). by rewrite C4, E3, Ef1. }
  destruct (RemoveUpTo_mem (least_unacked_ (RemoveObsoletePackets (unacked m1))) (packets (last_ack_frame_ m)))
    as [Hw Hmem]; [rewrite <- Ef1; apply (po_wf _ _ _ _ Hm1)|].
  constructor.
  - unfold manager_ok. rewrite EU', EF. change (pending_retransmissions_ m') with (pending_retransmissions_ m5).
    change (largest_newly_acked_ m') with (largest_newly_acked_ m5). rewrite F2, F4.
    change (pending_retransmissions_ m4) with (pending_retransmissions_ m3).
    change (largest_newly_acked_ m4) with (largest_newly_acked_ m3). rewrite C3, C5, E2, E4.
    rewrite Ef1 in Hm4. destruct Hm4 as [Hu Hp _ Ha Hs Hn]. constructor; try done.
    + intros n i Hi. rewrite Hmem, (Ha n i Hi). pose proof (lookup_present _ _ _ Hu Hi) as [? _]. tauto.
    + intros n [Hn' _]%Hmem. by apply Hs.
  - split; [change (packets_acked_ m') with (packets_acked_ m5)|change (packets_lost_ m') with (packets_lost_ m5)];
      rewrite ?F5, ?F6; [exact C1|exact C1'].
  - rewrite EU', Hsent. apply (k_sent _ _ _ Hk1).
  - rewrite EU'. rewrite (k_least _ _ _ Hk1) in Hle. exact Hle.
  - intros x. by rewrite EF, Hmem, EU'.
  - intros k i'. rewrite EU', Hlook. destruct (k <? _); [done|]. intros Hi'.
    destruct (k_info _ _ _ Hk1 _ _ Hi') as (i & ? & _ & ? & ? & _ & ? & _). exists i. by split_and!.
Qed.

(** * Ack frames *)

Lemma OnAckFrameStart_ok largest delay time m : acking m -> acking (OnAckFrameStart largest delay time m).
Proof.
  intros (Hm & El & Ha). unfold OnAckFrameStart, MaybeUpdateRTT. repeat case_match; simplify_eq/=; by split_and!.
Qed.

Lemma settled_acking m : manager_ok m -> settled m -> acking m.
Proof. intros Hm [Ea El]. split_and!; [done|done|]. by rewrite Ea. Qed.

Lemma elem_of_descending a start end_ : a ∈ descending start end_ <-> exists n, a = mkAcked n 0 0 /\ start <= n < end_.
Proof.
  unfold descending. rewrite list_elem_of_fmap. setoid_rewrite elem_of_reverse. setoid_rewrite elem_of_seqZ.
  split; intros (n & -> & Hn); exists n; (split; [done|lia]).
Qed.

Lemma ack_range_bounds start end_ iter a :
  a ∈ (ack_range start end_ iter).1 -> start <= ap_packet_number a < end_.
Proof.
  revert end_. induction iter as [|iv iter IH]; intros end_; cbn [ack_range].
  { cbn. intros (n & -> & ?)%elem_of_descending. done. }
  assert (Hd : a ∈ descending (Z.max start (imax iv)) end_ -> start <= ap_packet_number a < end_).
  { intros (n & -> & ?)%elem_of_descending. cbn. lia. }
  destruct (imin iv <? start); [done|]. destruct (start <? _); [|done].
  specialize (IH (Z.min end_ (imin iv))). destruct (ack_range _ _ iter) as [more iter']. cbn in *.
  intros [?|?]%elem_of_app; [by apply Hd|]. specialize (IH H). lia.
Qed.

Lemma IncreaseLargestAcked_ok n u pending acked newly :
  packets_ok u pending acked newly -> packets_ok (IncreaseLargestAcked n u) pending acked newly.
Proof. intros [[? ? ? ? ? ?] ? ? ? ? ?]. constructor; try done. Qed.

Lemma OnAckRange_ok start end_ m :
  acking m -> end_ <= largest_sent_packet_ (unacked m) + 1 ->
  let m' := OnAckRange start end_ m in
  acking m' /\ largest_sent_packet_ (unacked m') = largest_sent_packet_ (unacked m) /\
  least_unacked_ (unacked m') = least_unacked_ (unacked m).
Proof.
  intros Hm He. cbv zeta. unfold OnAckRange.
  set (m1 := if _ <? end_ then _ else m).
  assert (acking m1 /\ largest_sent_packet_ (unacked m1) = largest_sent_packet_ (unacked m) /\
    least_unacked_ (unacked m1) = least_unacked_ (unacked m)) as ((Hm1 & El & Ha) & Es & Eleast).
  { unfold m1. destruct (_ <? end_); [|done]. destruct Hm as (Hm & ? & ?). split_and!; try done.
    split_and!; [by apply IncreaseLargestAcked_ok|done|done]. }
  clearbody m1. destruct (Z.leb_spec end_ (QuicUnackedPacketMap.GetLeastUnacked (unacked m1))); [by split_and!|].
  unfold QuicUnackedPacketMap.GetLeastUnacked in *. destruct (ack_range _ _ _) as [newly iter] eqn:E.
  split_and!; try done. split_and!; try done. cbn. apply Forall_app. split; [done|]. apply Forall_forall. intros a Hin.
  pose proof (ack_range_bounds (Z.max start (least_unacked_ (unacked m1))) end_ (acked_packets_iter_ m1) a) as Hb.
  rewrite E in Hb. specialize (Hb Hin). unfold present. cbn. lia.
Qed.

Lemma OnAckFrameEnd_ok now time m :
  acking m ->
  exists b m', OnAckFrameEnd now time m = Some (b, m') /\ manager_ok m' /\ settled m' /\
    (b = true <-> packets_acked_ m <> []) /\
    largest_sent_packet_ (unacked m') = largest_sent_packet_ (unacked m) /\
    least_unacked_ (unacked m) <= least_unacked_ (unacked m') /\
    (forall x, mem (packets (last_ack_frame_ m')) x <->
       (mem (packets (last_ack_frame_ m)) x \/
        (x ∈ map ap_packet_number (packets_acked_ m) /\ ackable (unacked m) x)) /\
       least_unacked_ (unacked m') <= x).
Proof.
  intros (Hm & El & Ha). unfold OnAckFrameEnd.
  destruct (handle_acked_ok now (reverse (packets_acked_ m)) m Hm) as (acked & m1 & -> & Hm1 & En & Hh).
  { apply Forall_forall. intros a Hin. rewrite elem_of_reverse in Hin. rewrite Forall_forall in Ha. by apply Ha. }
  cbn [mbind option_bind]. destruct Hh as (H1 & H2 & H3 & H4 & H5 & H6 & Hmem & Hinf).
  set (m2 := m1 <| packets_acked_ := acked |>). assert (Hnum : forall x, x ∈ map ap_packet_number acked <->
    x ∈ map ap_packet_number (packets_acked_ m)).
  { intros x. rewrite En, !list_elem_of_fmap. by setoid_rewrite elem_of_reverse. }
  assert (Hm2 : acking m2).
  { split_and!; [exact Hm1|change (packets_lost_ m2) with (packets_lost_ m1); congruence|]. cbn. apply Forall_forall.
    intros a Hin. assert (Hin' : ap_packet_number a ∈ map ap_packet_number (packets_acked_ m))
      by (apply Hnum, list_elem_of_fmap; by exists a).
    apply list_elem_of_fmap in Hin' as (b & -> & Hb). rewrite Forall_forall in Ha. specialize (Ha b Hb).
    unfold present in *. by rewrite H1, H2. }
  destruct (PostProcess_ok now time (rtt_updated_ m1) (bytes_in_flight_ (unacked m)) m2 Hm2) as (m' & -> & [? ? G3 G4 G5 _]).
  cbn [mbind option_bind]. eexists _, m'. split; [reflexivity|]. split_and!; try done.
  - assert (length acked = length (packets_acked_ m)).
    { apply (f_equal length) in En. by rewrite !length_map, length_reverse in En. }
    destruct acked, (packets_acked_ m); try done.
  - rewrite G3. exact H2.
  - etransitivity; [|exact G4]. change (unacked m2) with (unacked m1). lia.
  - intros x. rewrite G5. change (last_ack_frame_ m2) with (last_ack_frame_ m1). rewrite Hmem.
    rewrite <- En, Hnum. done.
Qed.
End manager.
