(* ===== verification/AckedRanges.v ===== *)
(** [OnAckRange] of [QuicSentPacketManager]: the walk along the intervals acknowledged
    before finds the packets a range acknowledges for the first time. *)
From Stdlib Require Import Sorting.Sorted.
From stdpp Require Import list_numbers.
From S2P Require Import Prelude.
From S2P Require Import PacketNumbers.
From S2P Require Import PacketNumberQueue.
From S2P Require Import FramerTypes.
From S2P Require Import QuicUnits.
From S2P Require Import WindowedFilter.
From S2P Require Import Sampler.
From S2P Require Import RttEstimates.
From S2P Require Import UnackedPackets.
From S2P Require Import LossDetection.
From S2P Require Import SendAlgorithm.
From S2P Require Import PacedSending.
From S2P Require Import UnackedInvariants.
From S2P Require Import SentPackets.
From S2P Require Import SentInvariants.

Import QuicUnackedPacketMap QuicSentPacketManager.
Open Scope Z_scope.

(** * The iterator *)

(** Intervals from the highest to the lowest, all below [hi]. *)
Fixpoint wf_desc (hi : Z) (iter : list Interval) : Prop :=
  match iter with
  | [] => True
  | iv :: iter => imax iv < hi /\ imin iv < imax iv /\ wf_desc (imin iv) iter
  end.

Lemma wf_desc_snoc hi iter iv :
  wf_desc hi (iter ++ [iv]) <->
  wf_desc hi iter /\ imin iv < imax iv /\ imax iv < match last iter with Some iv' => imin iv' | None => hi end.
Proof.
  revert hi. induction iter as [|x iter IH]; intros hi; cbn [app wf_desc last].
  - intuition lia.
  - rewrite IH. destruct iter as [|y iter]; [cbn; tauto|]. change (last (x :: y :: iter)) with (last (y :: iter)).
    destruct (last (y :: iter)) eqn:E; [tauto|]. by apply last_None in E.
Qed.

Lemma wf_desc_reverse lo d : wf_from lo d -> wf_desc (end_of lo d + 1) (reverse d).
Proof.
  revert lo. induction d as [|iv d IH]; intros lo; cbn [wf_from end_of]; [done|]. intros (H1 & H2 & H3).
  rewrite reverse_cons. apply wf_desc_snoc. split_and!; [by apply IH|done|].
  rewrite last_reverse. destruct d as [|iv' d]; cbn in *; lia.
Qed.

Lemma wf_desc_mem hi iter x : wf_desc hi iter -> mem iter x -> x < hi.
Proof.
  revert hi. induction iter as [|iv iter IH]; intros hi; cbn [wf_desc].
  - intros _ H. by apply Exists_nil in H.
  - intros (H1 & H2 & H3) [H|H]%mem_cons; [unfold in_iv in H; lia|]. specialize (IH _ H3 H). lia.
Qed.

Lemma mem_reverse d x : mem (reverse d) x <-> mem d x.
Proof.
  unfold mem. rewrite !Exists_exists. by setoid_rewrite elem_of_reverse.
Qed.

(** * One range *)

Definition numbers (acked : list AckedPacket) : list Z := map ap_packet_number acked.

Lemma elem_of_numbers_descending x start end_ : x ∈ numbers (descending start end_) <-> start <= x < end_.
Proof.
  unfold numbers. rewrite list_elem_of_fmap. setoid_rewrite elem_of_descending. split.
  - intros (a & -> & n & -> & H). done.
  - intros H. exists (mkAcked x 0 0). split; [done|]. by exists x.
Qed.

(** Strictly decreasing. *)
Definition decreasing (l : list Z) : Prop := StronglySorted (fun a b => b < a) l.

Lemma decreasing_app l1 l2 :
  decreasing l1 -> decreasing l2 -> (forall a b, a ∈ l1 -> b ∈ l2 -> b < a) -> decreasing (l1 ++ l2).
Proof.
  intros H1 H2 H. induction H1 as [|a l1 H1 IH Ha]; [done|]. cbn. constructor; [apply IH; set_solver|].
  apply Forall_app. split; [done|]. apply Forall_forall. intros b Hb. apply H; set_solver.
Qed.

Lemma decreasing_descending start end_ : decreasing (numbers (descending start end_)).
Proof.
  unfold numbers, descending. rewrite map_map. cbn. rewrite map_id.
  remember (end_ - start) as k eqn:Ek. clear Ek end_. destruct (decide (k < 0)); [by rewrite seqZ_nil by lia; constructor|].
  rewrite <- (Z2Nat.id k) by lia. induction (Z.to_nat k) as [|j IH]; [constructor|].
  rewrite seqZ_S, reverse_snoc. constructor; [done|]. apply Forall_forall. intros x Hx.
  rewrite elem_of_reverse, elem_of_seqZ in Hx. lia.
Qed.

Lemma ack_range_spec start end_ iter hi newly iter' :
  wf_desc hi iter -> ack_range start end_ iter = (newly, iter') ->
  (forall x, x ∈ numbers newly <-> start <= x < end_ /\ ~ mem iter x) /\ decreasing (numbers newly) /\
  (forall x, x < start -> mem iter' x <-> mem iter x) /\ (exists hi', wf_desc hi' iter').
Proof.
  revert hi end_ newly iter'. induction iter as [|iv iter IH]; intros hi end_ newly iter' Hw; cbn [ack_range].
  { intros [= <- <-]. split_and!; [|apply decreasing_descending|done|by exists hi].
    intros x. rewrite elem_of_numbers_descending. split; [|tauto]. intros H. split; [done|]. intros Hm. by apply Exists_nil in Hm. }
  destruct Hw as (H1 & H2 & H3).
  assert (Hlow : forall x, mem iter x -> x < imin iv) by (intros x; by apply wf_desc_mem).
  destruct (Z.ltb_spec (imin iv) start) as [Hlt|Hge].
  { intros [= <- <-]. split_and!; [|apply decreasing_descending|done|by exists hi].
    intros x. rewrite elem_of_numbers_descending, mem_cons. unfold in_iv. specialize (Hlow x). intuition lia. }
  destruct (Z.ltb_spec start (Z.min end_ (imin iv))) as [Hs|Hs].
  - destruct (ack_range start (Z.min end_ (imin iv)) iter) as [more iter1] eqn:E. intros [= <- <-].
    destruct (IH _ _ _ _ H3 E) as (G1 & G2 & G3 & G4). unfold numbers in *. rewrite map_app. fold (numbers (descending (Z.max start (imax iv)) end_)).
    split_and!; [| | |done].
    + intros x. rewrite elem_of_app, G1, elem_of_numbers_descending, mem_cons. unfold in_iv. specialize (Hlow x). 
      destruct (decide (x < imin iv)), (decide (x < imax iv)); intuition lia.
    + apply decreasing_app; [apply decreasing_descending|done|]. intros a b Ha Hb.
      rewrite elem_of_numbers_descending in Ha. apply G1 in Hb as [Hb _]. lia.
    + intros x Hx. rewrite G3 by done. rewrite mem_cons. unfold in_iv. intuition lia.
  - intros [= <- <-]. split_and!; [|apply decreasing_descending| |by exists (imin iv)].
    + intros x. rewrite elem_of_numbers_descending, mem_cons. unfold in_iv. specialize (Hlow x). intuition lia.
    + intros x Hx. rewrite mem_cons. unfold in_iv. intuition lia.
Qed.

(** * All ranges of a frame *)

Section frames.
Context {SA : Type} {SI : SendAlgorithmInterface SA}.
Implicit Types m : QuicSentPacketManager SA.
Abbreviation unacked m := (QuicSentPacketManager.unacked_packets_ m).

(** The ranges as the framer passes them on: from the highest to the lowest. *)
Definition read_ranges (ranges : list (Z * Z)) m : QuicSentPacketManager SA :=
  foldl (fun m r => OnAckRange r.1 r.2 m) m ranges.
Definition read_frame (now largest delay time : Z) (ranges : list (Z * Z)) m : option (bool * QuicSentPacketManager SA) :=
  OnAckFrameEnd now time (read_ranges ranges (OnAckFrameStart largest delay time m)).

Fixpoint ranges_below (hi : Z) (ranges : list (Z * Z)) : Prop :=
  match ranges with
  | [] => True
  | r :: ranges => r.1 <= r.2 <= hi /\ ranges_below r.1 ranges
  end.
Definition in_ranges (x : Z) (ranges : list (Z * Z)) : Prop := exists r, r ∈ ranges /\ r.1 <= x < r.2.

Lemma in_ranges_below hi ranges x : ranges_below hi ranges -> in_ranges x ranges -> x < hi.
Proof.
  revert hi. induction ranges as [|r ranges IH]; intros hi; cbn [ranges_below].
  - intros _ (r & Hr & _). set_solver.
  - intros [Hr Hrs] (r' & [->|Hin]%elem_of_cons & Hx); [lia|].
    specialize (IH _ Hrs). enough (x < r.1) by lia. apply IH. by exists r'.
Qed.

(** The packets collected so far, when what is left of the ranges is below [hi]. *)
Record collected (acked : list Interval) (least hi : Z) (P : Z -> Prop) m : Prop := mk_collected {
  co_list : forall x, x ∈ numbers (packets_acked_ m) <-> P x /\ least <= x /\ ~ mem acked x;
  co_order : decreasing (numbers (packets_acked_ m));
  co_hi : forall x, x ∈ numbers (packets_acked_ m) -> hi <= x;
  co_iter : exists top, wf_desc top (acked_packets_iter_ m);
  co_mem : forall x, least <= x < hi -> mem (acked_packets_iter_ m) x <-> mem acked x;
  co_least : least_unacked_ (unacked m) = least;
}.

Lemma OnAckRange_fields start end_ m :
  let m' := OnAckRange start end_ m in
  let least := least_unacked_ (unacked m) in
  least_unacked_ (unacked m') = least /\
  (end_ <= least -> packets_acked_ m' = packets_acked_ m /\ acked_packets_iter_ m' = acked_packets_iter_ m) /\
  (least < end_ -> exists newly, ack_range (Z.max start least) end_ (acked_packets_iter_ m) =
     (newly, acked_packets_iter_ m') /\ packets_acked_ m' = packets_acked_ m ++ newly).
Proof.
  cbv zeta. unfold OnAckRange, QuicUnackedPacketMap.GetLeastUnacked.
  destruct (_ <? end_); cbn -[ack_range Z.leb Z.max];
    (destruct (Z.leb_spec end_ (least_unacked_ (unacked m))); [split_and!; (done || lia)|]);
    destruct (ack_range _ _ _) as [newly iter] eqn:E; (split_and!; [done|lia|]); intros _; by exists newly.
Qed.

Lemma OnAckRange_collected acked least hi P start end_ m :
  collected acked least hi P m -> start <= end_ <= hi ->
  collected acked least start (fun x => P x \/ start <= x < end_) (OnAckRange start end_ m).
Proof.
  intros [C1 C2 C3 [top C4] C5 C6] Hr. destruct (OnAckRange_fields start end_ m) as (E1 & E2 & E3).
  rewrite C6 in *. destruct (Z.le_gt_cases end_ least) as [Hle|Hgt].
  { destruct (E2 Hle) as [Ea Ei]. constructor; rewrite ?Ea, ?Ei; try done.
    - intros x. rewrite C1. intuition lia.
    - intros x Hx. specialize (C3 x Hx). lia.
    - by exists top.
    - intros x Hx. lia. }
  destruct (E3 ltac:(lia)) as (newly & Ea & Ep). destruct (ack_range_spec _ _ _ _ _ _ C4 Ea) as (G1 & G2 & G3 & G4).
  assert (En : numbers (packets_acked_ (OnAckRange start end_ m)) = numbers (packets_acked_ m) ++ numbers newly).
  { unfold numbers. by rewrite Ep, map_app. }
  constructor; rewrite ?En; try done.
  - intros x. rewrite elem_of_app, C1, G1. specialize (C5 x). split.
    { intros [?|[Hx Hn]]; [tauto|]. rewrite C5 in Hn by lia. split_and!; [by right; lia|lia|done]. }
    intros ([HP|Hx] & Hl & Hn); [by left|right]. split; [lia|]. by rewrite C5 by lia.
  - apply decreasing_app; [done|done|]. intros a b Ha Hb. specialize (C3 a Ha). apply G1 in Hb as [Hb _]. lia.
  - intros x [Hx|Hx]%elem_of_app; [specialize (C3 x Hx); lia|]. apply G1 in Hx as [Hx _]. lia.
  - intros x Hx. rewrite G3 by lia. apply C5. lia.
Qed.

Lemma read_ranges_collected ranges acked least hi P m :
  collected acked least hi P m -> ranges_below hi ranges ->
  exists lo, collected acked least lo (fun x => P x \/ in_ranges x ranges) (read_ranges ranges m).
Proof.
  revert hi P m. induction ranges as [|r ranges IH]; intros hi P m Hc Hr; cbn [ranges_below read_ranges foldl] in *.
  - exists hi. destruct Hc as [C1 C2 C3 C4 C5 C6]. constructor; try done. intros x. rewrite C1. unfold in_ranges.
    split; [tauto|]. intros ([HP|(r & Hr' & _)] & ?); [done|set_solver].
  - destruct Hr as [Hr Hrs]. pose proof (OnAckRange_collected _ _ _ _ _ _ _ Hc Hr) as Hc1.
    destruct (IH _ _ _ Hc1 Hrs) as [lo [C1 C2 C3 C4 C5 C6]]. exists lo. constructor; try done.
    intros x. rewrite C1. unfold in_ranges. setoid_rewrite elem_of_cons. split.
    + intros ([[HP|Hx]|(r' & Hr' & Hx)] & ?); (split; [|done]); [by left|right; exists r; auto|right; exists r'; auto].
    + intros ([HP|(r' & [->|Hr'] & Hx)] & ?); (split; [|done]); [by left; left|by left; right|right; by exists r'].
Qed.

(** A frame is read: the packets it acknowledges for the first time, from the highest to
    the lowest. *)
Lemma read_ranges_exact ranges hi largest delay time m :
  manager_ok m -> settled m -> ranges_below hi ranges ->
  let m' := read_ranges ranges (OnAckFrameStart largest delay time m) in
  decreasing (numbers (packets_acked_ m')) /\
  forall x, x ∈ numbers (packets_acked_ m') <->
    in_ranges x ranges /\ least_unacked_ (unacked m) <= x /\ ~ mem (packets (last_ack_frame_ m)) x.
Proof.
  intros Hm [Ea _] Hr. cbv zeta.
  assert (Hc : collected (packets (last_ack_frame_ m)) (least_unacked_ (unacked m)) hi (fun _ => False)
    (OnAckFrameStart largest delay time m)).
  { assert (packets_acked_ (OnAckFrameStart largest delay time m) = packets_acked_ m /\
      acked_packets_iter_ (OnAckFrameStart largest delay time m) = reverse (packets (last_ack_frame_ m)) /\
      unacked (OnAckFrameStart largest delay time m) = unacked m) as (E1 & E2 & E3).
    { unfold OnAckFrameStart, MaybeUpdateRTT. repeat case_match; simplify_eq/=; done. }
    constructor; rewrite ?E1, ?E2, ?E3, ?Ea; try done.
    - intros x. split; [set_solver|tauto].
    - constructor.
    - set_solver.
    - eexists. eapply wf_desc_reverse, Hm.
    - intros x _. apply mem_reverse. }
  destruct (read_ranges_collected _ _ _ _ _ _ Hc Hr) as [lo [C1 C2 _ _ _ _]]. split; [done|].
  intros x. rewrite C1. tauto.
Qed.
End frames.
