(* ===== verification/SentRuns.v ===== *)
(** Runs of [QuicSentPacketManager]: whatever sequence of packets sent, acknowledgements,
    timeouts and cancellations it sees, it stays within its data structures. *)
From stdpp Require Import list_numbers.
From S2P Require Import Prelude.
From S2P Require Import PacketNumbers.
From S2P Require Import PacketNumberQueue.
From S2P Require Import FramerTypes.
From S2P Require Import QuicUnits.
From S2P Require Import WindowedFilter.
From S2P Require Import Sampler.
From S2P Require Import RttEstimates.
From S2P Require Import UnackedPackets.
From S2P Require Import LossDetection.
From S2P Require Import SendAlgorithm.
From S2P Require Import PacedSending.
From S2P Require Import UnackedInvariants.
From S2P Require Import SentPackets.
From S2P Require Import SentInvariants.
From S2P Require Import AckedRanges.

Import RttStats QuicUnackedPacketMap GeneralLossAlgorithm QuicSentPacketManager.
Open Scope Z_scope.

Section runs.
Context {SA : Type} {SI : SendAlgorithmInterface SA}.
Implicit Types m : QuicSentPacketManager SA.
Abbreviation unacked m := (QuicSentPacketManager.unacked_packets_ m).

(** * Timeouts *)

(** The counters of timeouts do not matter for the invariant. *)
Lemma counted_steps m m1 m2 :
  steps_to m m1 -> manager_ok m2 -> same_acks m1 m2 -> unacked m2 = unacked m1 -> steps_to m m2.
Proof.
  intros H1 Hm2 Hs Eu. eapply steps_trans; [exact H1|]. split_and!; [done|done|]. rewrite Eu. apply keeps_refl.
Qed.

Lemma RetransmitCryptoPackets_ok m :
  manager_ok m -> exists m', RetransmitCryptoPackets m = Some m' /\ steps_to m m'.
Proof.
  intros Hm. unfold RetransmitCryptoPackets. set (m1 := m <| consecutive_crypto_retransmission_count_ := _ |>).
  match goal with |- context [each_unacked ?b m1] => destruct (each_unacked_ok b m1) as (m' & -> & Hs) end.
  - intros n m2 Hm2 Hn. destruct (present_lookup _ _ (po_unacked _ _ _ _ Hm2) Hn) as [i Hi]. rewrite Hi. cbn [mbind option_bind].
    destruct (negb _ || _ || _) eqn:E; [exists m2; split; [done|by apply steps_refl]|].
    apply orb_false_iff in E as [_ E]. apply negb_false_iff in E.
    destruct (MarkForRetransmission_steps n HANDSHAKE_RETRANSMISSION m2 Hm2) as (m3 & -> & Hs3).
    { exists i. split; [done|right]. by apply HasRetransmittableFrames_true. }
    cbn [mbind option_bind]. eexists. split; [done|]. eapply counted_steps; [exact Hs3|apply Hs3|done|done].
  - exact Hm.
  - exists m'. split; [done|]. eapply steps_trans; [|exact Hs]. split_and!; [exact Hm|done|apply keeps_refl].
Qed.

Lemma retransmit_oldest_ok type numbers m :
  manager_ok m -> Forall (fun n => present n (unacked m)) numbers ->
  exists b m', retransmit_oldest type numbers m = Some (b, m') /\ steps_to m m'.
Proof.
  intros Hm. induction numbers as [|n numbers IH]; intros Hall; cbn [retransmit_oldest].
  { exists false, m. split; [done|by apply steps_refl]. }
  apply Forall_cons in Hall as [Hn Hall]. destruct (present_lookup _ _ (po_unacked _ _ _ _ Hm) Hn) as [i Hi].
  rewrite Hi. cbn [mbind option_bind]. destruct (negb _ || _) eqn:E; [by apply IH|].
  apply orb_false_iff in E as [_ E]. apply negb_false_iff in E.
  destruct (MarkForRetransmission_steps n type m Hm) as (m' & -> & Hs).
  { exists i. split; [done|right]. by apply HasRetransmittableFrames_true. }
  by exists true, m'.
Qed.

Lemma MaybeRetransmitOldestPacket_ok type m :
  manager_ok m -> exists b m', MaybeRetransmitOldestPacket type m = Some (b, m') /\ steps_to m m'.
Proof. intros Hm. apply retransmit_oldest_ok; [done|]. apply packet_numbers_present. apply Hm. Qed.

(** One packet of [RetransmitRtoPackets]. *)
Lemma rto_step_ok n m i :
  manager_ok m -> GetTransmissionInfo n (unacked m) = Some i ->
  exists m1, (if HasRetransmittableFrames i && (pending_timer_transmission_count_ m <? max_rto_packets_ m) then
           m ← MarkForRetransmission n RTO_RETRANSMISSION m;
           Some (m <| pending_timer_transmission_count_ := u64 (pending_timer_transmission_count_ m + 1) |>)
         else Some m) = Some m1 /\ steps_to m m1.
Proof.
  intros Hm Hi. destruct (_ && _) eqn:E; [|exists m; split; [done|by apply steps_refl]].
  apply andb_true_iff in E as [E _].
  destruct (MarkForRetransmission_steps n RTO_RETRANSMISSION m Hm) as (m1 & -> & Hs1).
  { exists i. split; [done|right]. by apply HasRetransmittableFrames_true. }
  eexists. split; [done|]. eapply counted_steps; [exact Hs1|apply Hs1|done|done].
Qed.

Lemma RetransmitRtoPackets_ok m :
  manager_ok m -> exists m', RetransmitRtoPackets m = Some m' /\ steps_to m m'.
Proof.
  intros Hm. unfold RetransmitRtoPackets.
  match goal with |- context [each_unacked ?b m] => destruct (each_unacked_ok b m) as (m' & -> & Hs) end; [|done|].
  - intros n m1 Hm1 Hn. destruct (present_lookup _ _ (po_unacked _ _ _ _ Hm1) Hn) as [i Hi]. rewrite Hi. cbn [mbind option_bind].
    destruct (rto_step_ok n m1 i Hm1 Hi) as (m2 & E & Hs2). rewrite E. cbn [mbind option_bind].
    destruct (_ && _ && _); [|by exists m2].
    destruct (RemoveFromInFlight_steps n m2) as (u & -> & Hs3); [apply Hs2|by apply (steps_present _ _ _ Hs2)|].
    cbn [mbind option_bind]. eexists. split; [done|by eapply steps_trans].
  - cbn [mbind option_bind]. eexists. split; [reflexivity|].
    destruct (0 <? _); [|done]. destruct (_ =? 0); (eapply counted_steps; [exact Hs|apply Hs|done|done]).
Qed.

Lemma MaybeRetransmitTailLossProbe_ok m :
  manager_ok m -> exists b m', MaybeRetransmitTailLossProbe m = Some (b, m') /\ steps_to m m'.
Proof.
  intros Hm. unfold MaybeRetransmitTailLossProbe.
  destruct (_ =? 0); [exists false, m; split; [done|by apply steps_refl]|].
  destruct (MaybeRetransmitOldestPacket_ok TLP_RETRANSMISSION m Hm) as (b & m1 & -> & Hs). cbn [mbind option_bind].
  destruct b; [by exists true, m1|]. destruct (optimize_inflight_check m1); [|by exists false, m1].
  set (m2 := m1 <| pending_timer_transmission_count_ := 0 |>).
  assert (Hs2 : steps_to m m2) by (eapply counted_steps; [exact Hs|apply Hs|done|done]).
  destruct (RetransmitRtoPackets_ok m2) as (m3 & -> & Hs3); [apply Hs2|]. cbn [mbind option_bind].
  exists false, m3. split; [done|by eapply steps_trans].
Qed.

Lemma steps_settled m m' : steps_to m m' -> settled m -> settled m'.
Proof. intros (_ & (E1 & E2 & _) & _) [H1 H2]. split; congruence. Qed.
Lemma steps_sent m m' : steps_to m m' -> largest_sent_packet_ (unacked m') = largest_sent_packet_ (unacked m).
Proof. intros (_ & _ & Hk). apply (k_sent _ _ _ Hk). Qed.

Lemma OnRetransmissionTimeout_ok now m :
  manager_ok m -> settled m ->
  exists m', OnRetransmissionTimeout now m = Some m' /\ manager_ok m' /\ settled m' /\
    largest_sent_packet_ (unacked m') = largest_sent_packet_ (unacked m).
Proof.
  intros Hm Hse. unfold OnRetransmissionTimeout.
  assert (Hst : forall m0 om, manager_ok m0 -> settled m0 -> unacked m0 = unacked m ->
    (manager_ok m0 -> exists m', om = Some m' /\ steps_to m0 m') ->
    exists m', om = Some m' /\ manager_ok m' /\ settled m' /\
      largest_sent_packet_ (unacked m') = largest_sent_packet_ (unacked m)).
  { intros m0 om Hm0 Hs0 Eu H. destruct (H Hm0) as (m' & -> & Hs). exists m'.
    split_and!; [done|apply Hs|by apply (steps_settled _ _ Hs)|rewrite (steps_sent _ _ Hs); congruence]. }
  destruct (GetRetransmissionMode m); cbv zeta.
  - eapply Hst; [| | |apply RetransmitRtoPackets_ok]; done.
  - eexists. by split_and!.
  - eapply Hst; [| | |apply RetransmitCryptoPackets_ok]; done.
  - set (m1 := m <| stats_ := _ |>).
    destruct (InvokeLossDetection_ok now m1) as (m2 & -> & [Hm2 Hk2 _ _ _]); [by apply settled_acking|].
    cbn [mbind option_bind]. eexists. split; [done|].
    destruct (MaybeInvokeCongestionEvent_ok false (bytes_in_flight_ (unacked m1)) now m2) as (C1 & C2 & C3 & C4 & C5).
    split_and!; try done.
    + unfold manager_ok. by rewrite C2, C3, C4, C5.
    + rewrite C2. apply (k_sent _ _ _ Hk2).
Qed.

(** * Acknowledgements *)

(** Reading a frame changes no packet. *)
Lemma OnAckFrameStart_fields largest delay time m :
  let m' := OnAckFrameStart largest delay time m in
  unacked m' = unacked m /\ packets_acked_ m' = packets_acked_ m /\
  packets (last_ack_frame_ m') = packets (last_ack_frame_ m).
Proof. cbv zeta. unfold OnAckFrameStart, MaybeUpdateRTT. repeat case_match; simplify_eq/=; done. Qed.

Lemma OnAckRange_unchanged start end_ m :
  let m' := OnAckRange start end_ m in
  (forall n, GetTransmissionInfo n (unacked m') = GetTransmissionInfo n (unacked m)) /\
  packets (last_ack_frame_ m') = packets (last_ack_frame_ m).
Proof.
  cbv zeta. unfold OnAckRange. destruct (_ <? end_); cbn -[ack_range Z.leb Z.max];
    (destruct (_ <=? _); [done|]); destruct (ack_range _ _ _); done.
Qed.

Lemma read_ranges_ok hi ranges m :
  acking m -> hi <= largest_sent_packet_ (unacked m) + 1 -> ranges_below hi ranges ->
  let m' := read_ranges ranges m in
  acking m' /\ largest_sent_packet_ (unacked m') = largest_sent_packet_ (unacked m) /\
  least_unacked_ (unacked m') = least_unacked_ (unacked m) /\
  (forall n, GetTransmissionInfo n (unacked m') = GetTransmissionInfo n (unacked m)) /\
  packets (last_ack_frame_ m') = packets (last_ack_frame_ m).
Proof.
  cbv zeta. revert hi m. induction ranges as [|r ranges IH]; intros hi m Hm Hhi Hr; cbn [read_ranges foldl ranges_below] in *; [done|].
  destruct Hr as [Hr Hrs]. destruct (OnAckRange_ok r.1 r.2 m Hm ltac:(lia)) as (Hm1 & E1 & E2).
  destruct (OnAckRange_unchanged r.1 r.2 m) as [E3 E4].
  destruct (IH r.1 (OnAckRange r.1 r.2 m) Hm1 ltac:(lia) Hrs) as (Hm' & F1 & F2 & F3 & F4).
  unfold read_ranges in *. split_and!; try done; congruence.
Qed.

(** A whole frame: the packets of its ranges that can be acknowledged are. *)
Lemma read_frame_ok now largest delay time ranges m :
  manager_ok m -> settled m -> ranges_below (largest_sent_packet_ (unacked m) + 1) ranges ->
  exists b m', read_frame now largest delay time ranges m = Some (b, m') /\ manager_ok m' /\ settled m' /\
    largest_sent_packet_ (unacked m') = largest_sent_packet_ (unacked m) /\
    least_unacked_ (unacked m) <= least_unacked_ (unacked m') /\
    (b = true <-> exists x, in_ranges x ranges /\ least_unacked_ (unacked m) <= x /\ ~ mem (packets (last_ack_frame_ m)) x) /\
    (forall x, mem (packets (last_ack_frame_ m')) x <->
       (mem (packets (last_ack_frame_ m)) x \/ (in_ranges x ranges /\ ackable (unacked m) x)) /\
       least_unacked_ (unacked m') <= x).
Proof.
  intros Hm Hse Hr. unfold read_frame.
  destruct (read_ranges_exact ranges _ largest delay time m Hm Hse Hr) as [_ Hex].
  pose proof (OnAckFrameStart_ok largest delay time m (settled_acking m Hm Hse)) as Hm0.
  destruct (OnAckFrameStart_fields largest delay time m) as (E1 & E2 & E3).
  set (m0 := OnAckFrameStart largest delay time m) in *. clearbody m0. rewrite <- E1 in Hr.
  destruct (read_ranges_ok _ ranges m0 Hm0 (Z.le_refl _) Hr) as (Hm1 & F1 & F2 & F3 & F4). set (m1 := read_ranges ranges m0) in *. clearbody m1.
  destruct (OnAckFrameEnd_ok now time m1 Hm1) as (b & m' & -> & Hm' & Hse' & Hb & Es & El & Hmem).
  exists b, m'. split_and!; try done; try congruence.
  - rewrite Hb. split.
    + destruct (packets_acked_ m1) as [|a l] eqn:Ea; [done|]. intros _. exists (ap_packet_number a). apply Hex.
      cbn. set_solver.
    + intros (x & Hx). apply Hex in Hx. intros Ea. rewrite Ea in Hx. cbn in Hx. set_solver.
  - assert (Hack : forall x, ackable (unacked m1) x <-> ackable (unacked m) x).
    { intros x. unfold ackable. setoid_rewrite F3. by rewrite E1. }
    intros x. rewrite Hmem, F4, E3. fold (numbers (packets_acked_ m1)). rewrite Hex, Hack.
    split; intros [H Hle]; (split; [|done]); [tauto|]. destruct H as [?|[? Ha]]; [by left|].
    destruct Ha as (i & Hi & Hi'). pose proof (lookup_present _ _ _ (po_unacked _ _ _ _ Hm) Hi) as [? _].
    pose proof (po_acked _ _ _ _ Hm x i Hi) as Hst. right. split_and!; try done; [|by exists i].
    intros Hx. apply Hst in Hx. by rewrite Hx in Hi'.
Qed.

(** * Acknowledgements of packets never sent *)

Lemma handle_acked_app now l1 l2 m :
  handle_acked now (l1 ++ l2) m =
  '(a1, m1) ← handle_acked now l1 m; '(a2, m2) ← handle_acked now l2 m1; Some (a1 ++ a2, m2).
Proof.
  revert m. induction l1 as [|a l1 IH]; intros m; cbn -[mbind IsAckable].
  { cbn. by destruct (handle_acked now l2 m) as [[a2 m2]|]. }
  destruct (GetTransmissionInfo _ _) as [i|]; [|done]. cbn [mbind option_bind].
  destruct (negb _); [|destruct (in_flight i); (destruct (MarkPacketHandled _ _ _ _) as [m1|]; [|done]); cbn [mbind option_bind]];
    rewrite IH; (destruct (handle_acked now l1 _) as [[a1 m2]|]; [|done]); cbn [mbind option_bind];
    by destruct (handle_acked now l2 m2) as [[a2 m3]|].
Qed.

(** The loop leaves the deque at the first packet that is not there. *)
Lemma handle_acked_outside now acked m :
  manager_ok m -> Exists (fun a => ~ present (ap_packet_number a) (unacked m)) acked -> handle_acked now acked m = None.
Proof.
  revert m. induction acked as [|a acked IH]; intros m Hm Hex; [by apply Exists_nil in Hex|].
  change (a :: acked) with ([a] ++ acked). rewrite handle_acked_app.
  assert (present (ap_packet_number a) (unacked m) \/ ~ present (ap_packet_number a) (unacked m)) as [Hp|Hp]
    by (unfold present; lia); cycle 1.
  { cbn [handle_acked]. destruct (GetTransmissionInfo _ _) as [i|] eqn:Ei; [|done].
    by apply (lookup_present _ _ _ (po_unacked _ _ _ _ Hm)) in Ei. }
  destruct (handle_acked_ok now [a] m Hm) as (a1 & m1 & -> & Hm1 & _ & (E1 & E2 & _)); [by apply Forall_singleton|].
  cbn [mbind option_bind]. rewrite (IH m1 Hm1); [done|]. unfold present. rewrite E1, E2.
  apply Exists_cons in Hex as [?|?]; [done|done].
Qed.

(** Ranges, of any packets, do not change the deque. *)
Lemma OnAckRange_any start end_ m :
  manager_ok m ->
  let m' := OnAckRange start end_ m in
  manager_ok m' /\ least_unacked_ (unacked m') = least_unacked_ (unacked m) /\
  largest_sent_packet_ (unacked m') = largest_sent_packet_ (unacked m).
Proof.
  intros Hm. cbv zeta. unfold OnAckRange.
  set (m1 := if _ <? end_ then _ else m).
  assert (manager_ok m1 /\ least_unacked_ (unacked m1) = least_unacked_ (unacked m) /\
    largest_sent_packet_ (unacked m1) = largest_sent_packet_ (unacked m)) as (Hm1 & E1 & E2).
  { unfold m1. destruct (_ <? end_); [|done]. split_and!; [by apply IncreaseLargestAcked_ok|done|done]. }
  clearbody m1. destruct (_ <=? _); [done|]. by destruct (ack_range _ _ _).
Qed.
Lemma read_ranges_any ranges m :
  manager_ok m ->
  manager_ok (read_ranges ranges m) /\ least_unacked_ (unacked (read_ranges ranges m)) = least_unacked_ (unacked m) /\
  largest_sent_packet_ (unacked (read_ranges ranges m)) = largest_sent_packet_ (unacked m).
Proof.
  revert m. induction ranges as [|r ranges IH]; intros m Hm; [done|]. cbn [read_ranges foldl].
  destruct (OnAckRange_any r.1 r.2 m Hm) as (Hm1 & E1 & E2). destruct (IH _ Hm1) as (Hm2 & E3 & E4).
  unfold read_ranges in *. split_and!; [done|congruence..].
Qed.

(** An ack frame with a packet that was never sent is undefined behaviour. *)
Lemma read_frame_unsent now largest delay time hi ranges x m :
  manager_ok m -> settled m -> ranges_below hi ranges -> in_ranges x ranges -> largest_sent_packet_ (unacked m) < x ->
  read_frame now largest delay time ranges m = None.
Proof.
  intros Hm Hse Hr Hx Hlt. unfold read_frame, OnAckFrameEnd.
  destruct (read_ranges_exact ranges hi largest delay time m Hm Hse Hr) as [_ Hex].
  set (m1 := read_ranges _ _) in *.
  assert (manager_ok m1 /\ least_unacked_ (unacked m1) = least_unacked_ (unacked m) /\
    largest_sent_packet_ (unacked m1) = largest_sent_packet_ (unacked m)) as (Hm1 & E1 & E2).
  { destruct (OnAckFrameStart_ok largest delay time m (settled_acking m Hm Hse)) as [Hm0 _].
    destruct (OnAckFrameStart_fields largest delay time m) as (E & _).
    destruct (read_ranges_any ranges _ Hm0) as (? & ? & ?). rewrite <- E. by split_and!. }
  rewrite handle_acked_outside; [done|done|].
  apply Exists_exists. pose proof (po_sent _ _ _ _ Hm x) as Hsent. pose proof (uo_end _ (po_unacked _ _ _ _ Hm)) as He. unfold size in He.
  assert (x ∈ numbers (packets_acked_ m1)) as Hin by (apply Hex; split_and!; [done|lia|intros Hx'; apply Hsent in Hx'; lia]).
  apply list_elem_of_fmap in Hin as (a & -> & Ha). exists a. rewrite elem_of_reverse. unfold present. rewrite E2.
  split; [done|lia].
Qed.

(** * Acknowledgements that are not ended *)

(** Packets that are sent after the manager was [m]. *)
Inductive sends m : QuicSentPacketManager SA -> Prop :=
| sends_none : sends m m
| sends_one m1 m2 packet old sent_time type fl result :
    sends m m1 -> sendable packet (unacked m1) -> retransmits old (unacked m1) ->
    OnPacketSent packet old sent_time type fl m1 = Some (result, m2) -> sends m m2.

(** The packets collected from a frame wait for its end. *)
Lemma sends_wait m m' : manager_ok m -> sends m m' -> manager_ok m' /\ packets_acked_ m' = packets_acked_ m.
Proof.
  intros Hm. induction 1 as [|m1 m2 packet old t type fl result _ [Hm1 E1] Hs Hr E]; [done|].
  destruct (OnPacketSent_keeps packet old t type fl m1 Hm1 Hs Hr) as (m2' & E2 & Hm2 & (S1 & _) & _).
  rewrite E2 in E. injection E as _ <-. split; [done|congruence].
Qed.

Lemma OnAckRange_appends start end_ m :
  exists newly, packets_acked_ (OnAckRange start end_ m) = packets_acked_ m ++ newly.
Proof.
  unfold OnAckRange. set (m1 := if _ <? end_ then _ else m).
  assert (packets_acked_ m1 = packets_acked_ m) as <- by (unfold m1; by destruct (_ <? end_)).
  clearbody m1. destruct (_ <=? _); [exists []; by rewrite app_nil_r|].
  destruct (ack_range _ _ _) as [newly iter]. by exists newly.
Qed.

Lemma read_ranges_appends ranges m :
  exists newly, packets_acked_ (read_ranges ranges m) = packets_acked_ m ++ newly.
Proof.
  revert m. induction ranges as [|r ranges IH]; intros m; [exists []; by rewrite app_nil_r|].
  destruct (OnAckRange_appends r.1 r.2 m) as [l1 E1], (IH (OnAckRange r.1 r.2 m)) as [l2 E2].
  exists (l1 ++ l2). cbn [read_ranges foldl]. unfold read_ranges in E2. rewrite E2, E1. by rewrite app_assoc.
Qed.

(** If one of them has left the deque meanwhile, the end of the next frame looks it up
    outside of the deque. *)
Lemma read_frame_waiting now largest delay time ranges x m :
  manager_ok m -> x ∈ numbers (packets_acked_ m) -> x < least_unacked_ (unacked m) ->
  read_frame now largest delay time ranges m = None.
Proof.
  intros Hm Hx Hlt. unfold read_frame, OnAckFrameEnd.
  destruct (OnAckFrameStart_fields largest delay time m) as (E1 & E2 & _).
  assert (Hm0 : manager_ok (OnAckFrameStart largest delay time m)).
  { unfold OnAckFrameStart, MaybeUpdateRTT. repeat case_match; simplify_eq/=; done. }
  set (m0 := OnAckFrameStart largest delay time m) in *. clearbody m0.
  destruct (read_ranges_any ranges m0 Hm0) as (Hm1 & F1 & F2), (read_ranges_appends ranges m0) as [newly Ea].
  set (m1 := read_ranges ranges m0) in *. clearbody m1. rewrite handle_acked_outside; [done|done|].
  apply list_elem_of_fmap in Hx as (a & -> & Ha). apply Exists_exists. exists a.
  split; [rewrite elem_of_reverse, Ea, E2; set_solver|]. unfold present. rewrite F1, E1. lia.
Qed.

(** * Sequences of operations *)

Inductive Op :=
  | SendPacket (packet : SerializedPacket) (old sent_time : Z) (type : TransmissionType) (retransmittable : bool)
  | ReadAckFrame (now largest delay time : Z) (ranges : list (Z * Z))
  | RetransmissionTimeout (now : Z)
  | TailLossProbe
  | RetransmitOldest (type : TransmissionType)
  | RetransmitUnacked (type : TransmissionType)
  | NeuterUnencrypted
  | CancelStream (stream_id : Z)
  | Migrate (type : AddressChangeType)
  | ApplicationLimited
  | Configure (create : CongestionControlType -> Z -> SA) (flags : ConfigFlags) (perspective : Perspective) (config : QuicConfig)
  | CapPacing (max_pacing_rate : Z)
  | OpenStreams (num_streams : Z)
  | AdjustNetwork (bandwidth rtt : Z).

Definition run_op (op : Op) m : option (QuicSentPacketManager SA) :=
  match op with
  | SendPacket packet old t type fl => snd <$> OnPacketSent packet old t type fl m
  | ReadAckFrame now largest delay time ranges => snd <$> read_frame now largest delay time ranges m
  | RetransmissionTimeout now => OnRetransmissionTimeout now m
  | TailLossProbe => snd <$> MaybeRetransmitTailLossProbe m
  | RetransmitOldest type => snd <$> MaybeRetransmitOldestPacket type m
  | RetransmitUnacked type => RetransmitUnackedPackets type m
  | NeuterUnencrypted => NeuterUnencryptedPackets m
  | CancelStream stream_id => QuicSentPacketManager.CancelRetransmissionsForStream stream_id m
  | Migrate type => Some (OnConnectionMigration type m)
  | ApplicationLimited => Some (OnApplicationLimited m)
  | Configure create flags perspective config => Some (SetFromConfig create flags perspective config m)
  | CapPacing max_pacing_rate => Some (SetMaxPacingRate max_pacing_rate m)
  | OpenStreams num_streams => Some (SetNumOpenStreams num_streams m)
  | AdjustNetwork bandwidth rtt => Some (AdjustNetworkParameters bandwidth rtt m)
  end.

(** Packets are numbered upwards and retransmit what is pending; acknowledgements are for
    packets sent, in ranges from the highest to the lowest. *)
Definition legal (op : Op) m : Prop :=
  match op with
  | SendPacket packet old _ _ _ =>
    sendable packet (unacked m) /\ (old = 0 \/ exists type, (old, type) ∈ pending_retransmissions_ m)
  | ReadAckFrame _ _ _ _ ranges => ranges_below (largest_sent_packet_ (unacked m) + 1) ranges
  | _ => True
  end.

Fixpoint run_ops (ops : list Op) m : option (QuicSentPacketManager SA) :=
  match ops with
  | [] => Some m
  | op :: ops => m ← run_op op m; run_ops ops m
  end.
Fixpoint legal_ops (ops : list Op) m : Prop :=
  match ops with
  | [] => True
  | op :: ops => legal op m /\ forall m', run_op op m = Some m' -> legal_ops ops m'
  end.

(** What the packets are known by; configuration leaves it alone. *)
Definition packets_of_manager m :=
  (unacked m, pending_retransmissions_ m, last_ack_frame_ m, largest_newly_acked_ m, packets_acked_ m, packets_lost_ m).

Lemma same_packets_ok m m' :
  packets_of_manager m' = packets_of_manager m -> manager_ok m -> settled m -> manager_ok m' /\ settled m'.
Proof. unfold packets_of_manager, manager_ok, settled. by intros [= -> -> -> -> -> ->]. Qed.

Lemma apply_options_packets options m :
  Forall (fun option => forall m, packets_of_manager (option.2 m) = packets_of_manager m) options ->
  packets_of_manager (apply_options options m) = packets_of_manager m.
Proof.
  unfold apply_options. intros H. revert m. induction H as [|[given set] options Ho _ IH]; intros m; [done|].
  cbn [fold_left]. rewrite IH. destruct given; [apply Ho|done].
Qed.

Lemma config_algorithm_packets create flags requested m :
  packets_of_manager (config_algorithm create flags requested m) = packets_of_manager m.
Proof. unfold config_algorithm. repeat case_match; done. Qed.

Lemma config_initial_rtt_packets sent config m :
  packets_of_manager (config_initial_rtt sent config m) = packets_of_manager m.
Proof. unfold config_initial_rtt. cbv zeta. repeat case_match; done. Qed.

Lemma SetFromConfig_packets create flags perspective config m :
  packets_of_manager (SetFromConfig create flags perspective config m) = packets_of_manager m.
Proof.
  unfold SetFromConfig. cbv zeta. set (sent := fun tag => _ tag _). set (requested := fun tag => _ tag _).
  match goal with |- packets_of_manager (?x <| send_algorithm_ := _ |>) = _ => change (packets_of_manager x = packets_of_manager m) end.
  rewrite apply_options_packets by (repeat constructor; intros; done).
  match goal with |- packets_of_manager (?x <| using_pacing_ := _ |>) = _ => change (packets_of_manager x = packets_of_manager m) end.
  set (m1 := config_algorithm _ _ _ _). transitivity (packets_of_manager m1).
  { destruct (quic_unified_iw_options flags); [|done]. apply apply_options_packets. repeat constructor; intros; done. }
  unfold m1. rewrite config_algorithm_packets, apply_options_packets by (repeat constructor; intros; done).
  apply config_initial_rtt_packets.
Qed.

Lemma run_op_ok op m :
  manager_ok m -> settled m -> legal op m -> exists m', run_op op m = Some m' /\ manager_ok m' /\ settled m'.
Proof.
  intros Hm Hse Hl. assert (Hst : forall om, (exists m', om = Some m' /\ steps_to m m') ->
    exists m', om = Some m' /\ manager_ok m' /\ settled m').
  { intros om (m' & -> & Hs). exists m'. split_and!; [done|apply Hs|by apply (steps_settled _ _ Hs)]. }
  destruct op; cbn [run_op legal] in *.
  - destruct Hl as [Hs Hold]. destruct (OnPacketSent_keeps packet old sent_time type retransmittable m Hm Hs) as (m' & -> & Hm' & Hsa & _).
    { destruct Hold as [->|[type' Hin]]; [by left|]. by apply (pending_retransmits m (old, type')). }
    exists m'. split_and!; [done|done|]. destruct Hsa as (E1 & E2 & _), Hse. split; congruence.
  - destruct (read_frame_ok now largest delay time ranges m Hm Hse Hl) as (b & m' & -> & Hm' & Hse' & _). by exists m'.
  - destruct (OnRetransmissionTimeout_ok now m Hm Hse) as (m' & -> & ? & ? & _). by exists m'.
  - apply Hst. destruct (MaybeRetransmitTailLossProbe_ok m Hm) as (b & m' & -> & ?). by exists m'.
  - apply Hst. destruct (MaybeRetransmitOldestPacket_ok type m Hm) as (b & m' & -> & ?). by exists m'.
  - by apply Hst, RetransmitUnackedPackets_ok.
  - by apply Hst, NeuterUnencryptedPackets_ok.
  - by apply Hst, CancelRetransmissionsForStream_steps.
  - eexists. split; [done|]. unfold OnConnectionMigration. destruct type; done.
  - eexists. split; [done|]. unfold OnApplicationLimited. by destruct (using_pacing_ m).
  - eexists. split; [done|]. apply (same_packets_ok m); [apply SetFromConfig_packets|done|done].
  - eexists. by split_and!.
  - eexists. split; [done|]. unfold SetNumOpenStreams. by destruct (n_connection_simulation_ m).
  - eexists. split; [done|]. unfold AdjustNetworkParameters. by destruct (rtt =? 0).
Qed.

Lemma run_ops_ok ops m :
  manager_ok m -> settled m -> legal_ops ops m -> exists m', run_ops ops m = Some m' /\ manager_ok m' /\ settled m'.
Proof.
  revert m. induction ops as [|op ops IH]; intros m Hm Hse Hl; cbn [run_ops legal_ops] in *; [by exists m|].
  destruct Hl as [Hl Hls]. destruct (run_op_ok op m Hm Hse Hl) as (m1 & E & Hm1 & Hse1). rewrite E. cbn [mbind option_bind].
  apply IH; auto.
Qed.
End runs.
