(* ===== verification/ReceivedPackets.v ===== *)
(** [QuicReceivedPacketManager] (net/third_party/quic/core/
    quic_received_packet_manager.cc): which packets a receiver has got and has still
    to acknowledge.  The manager is shown to keep an ack frame that the framers can
    write, and to refine the set of packets received. *)
From stdpp Require Import gmap.
From S2P Require Import Prelude.
From S2P Require Import PacketNumbers.
From S2P Require Import FramerTypes.
From S2P Require Import AckFrames.
From S2P Require Import AckRoundTrip.
From S2P Require Import QuicUnits.
From S2P Require Import WindowedFilter.
From S2P Require Import Sampler.
From S2P Require Import PacketNumberQueue.

Open Scope Z_scope.

Module QuicReceivedPacketManager.

(** The fields of [QuicConnectionStats] the manager updates. *)
Record Stats := mkStats {
  packets_reordered : Z;
  max_sequence_reordering : Z;
  max_time_reordering_us : Z;
}.

Record QuicReceivedPacketManager := mkManager {
  peer_least_packet_awaiting_ack_ : Z;
  ack_frame_ : QuicAckFrame;
  ack_frame_updated_ : bool;
  max_ack_ranges_ : Z;
  time_largest_observed_ : Z;
  save_timestamps_ : bool;
  stats_ : Stats;
}.

Definition QuicReceivedPacketManager_ctor : QuicReceivedPacketManager :=
  mkManager 0 emptyAckFrame false 0 0 false (mkStats 0 0 0).

Definition set_max_ack_ranges (max_ack_ranges : Z) (m : QuicReceivedPacketManager) : QuicReceivedPacketManager :=
  m <| max_ack_ranges_ := max_ack_ranges |>.
Definition set_save_timestamps (save_timestamps : bool) (m : QuicReceivedPacketManager) :
    QuicReceivedPacketManager :=
  m <| save_timestamps_ := save_timestamps |>.

(** Lines 47-57. *)
Definition note_reordering (packet_number receipt_time : Z) (m : QuicReceivedPacketManager) :
    QuicReceivedPacketManager :=
  let largest := LargestAcked (ack_frame_ m) in
  if packet_number <? largest then
    let st := stats_ m in
    m <| stats_ := mkStats (u64 (packets_reordered st + 1))
                     (Z.max (max_sequence_reordering st) (u64 (largest - packet_number)))
                     (Z.max (max_time_reordering_us st) (time_sub receipt_time (time_largest_observed_ m))) |>
  else m.

(** Lines 64-76. *)
Definition note_time (packet_number receipt_time : Z) (m : QuicReceivedPacketManager) :
    QuicReceivedPacketManager :=
  let times := received_packet_times (ack_frame_ m) in
  let backwards := match last times with Some (_, t) => receipt_time <? t | None => false end in
  if save_timestamps_ m && negb backwards
  then m <| ack_frame_ := (ack_frame_ m) <| received_packet_times := times ++ [(packet_number, receipt_time)] |> |>
  else m.

Definition RecordPacketReceived (packet_number receipt_time : Z) (m : QuicReceivedPacketManager) :
    QuicReceivedPacketManager :=
  let m := if negb (ack_frame_updated_ m)
           then m <| ack_frame_ := (ack_frame_ m) <| received_packet_times := [] |> |> else m in
  let m := m <| ack_frame_updated_ := true |> in
  let m := note_reordering packet_number receipt_time m in
  let m := if LargestAcked (ack_frame_ m) <? packet_number
           then m <| ack_frame_ := (ack_frame_ m) <| largest_acked := packet_number |> |>
                  <| time_largest_observed_ := receipt_time |>
           else m in
  let m := m <| ack_frame_ := (ack_frame_ m) <| packets := Add packet_number (packets (ack_frame_ m)) |> |> in
  note_time packet_number receipt_time m.

Definition IsMissing (packet_number : Z) (m : QuicReceivedPacketManager) : bool :=
  (packet_number <? LargestAcked (ack_frame_ m)) && negb (Contains packet_number (packets (ack_frame_ m))).

Definition IsAwaitingPacket (packet_number : Z) (m : QuicReceivedPacketManager) : bool :=
  (peer_least_packet_awaiting_ack_ m <=? packet_number) &&
  negb (Contains packet_number (packets (ack_frame_ m))).

(** The loop of lines 102-105. *)
Fixpoint limit_ranges (max_ack_ranges : Z) (d : PacketNumberQueue) : PacketNumberQueue :=
  match d with
  | [] => []
  | _ :: d' =>
    if (0 <? max_ack_ranges) && (max_ack_ranges <? NumIntervals d) then limit_ranges max_ack_ranges d' else d
  end.

Definition GetUpdatedAckFrame (approximate_now : Z) (m : QuicReceivedPacketManager) :
    QuicAckFrame * QuicReceivedPacketManager :=
  let m := m <| ack_frame_updated_ := false |> in
  let delay := if time_largest_observed_ m =? 0 then kQuicInfiniteTimeUs
               else if approximate_now <? time_largest_observed_ m then 0
               else time_sub approximate_now (time_largest_observed_ m) in
  let frame := ack_frame_ m in
  let frame := mkAckFrame (largest_acked frame) delay
                 (filter (fun p => u64 (LargestAcked frame - p.1) < uint8_max) (received_packet_times frame))
                 (limit_ranges (max_ack_ranges_ m) (packets frame)) in
  (frame, m <| ack_frame_ := frame |>).

Definition DontWaitForPacketsBefore (least_unacked : Z) (m : QuicReceivedPacketManager) :
    QuicReceivedPacketManager :=
  if peer_least_packet_awaiting_ack_ m <? least_unacked then
    let m := m <| peer_least_packet_awaiting_ack_ := least_unacked |> in
    let '(packets_updated, d) := RemoveUpTo least_unacked (packets (ack_frame_ m)) in
    let m := m <| ack_frame_ := (ack_frame_ m) <| packets := d |> |> in
    if packets_updated : bool then m <| ack_frame_updated_ := true |> else m
  else m.

Definition HasMissingPackets (m : QuicReceivedPacketManager) : bool :=
  let d := packets (ack_frame_ m) in
  (1 <? NumIntervals d) ||
  (negb (Empty d) && (Z.max 1 (peer_least_packet_awaiting_ack_ m) <? Min d)).

Definition kMaxPacketsAfterNewMissing : Z := 4.
Definition HasNewMissingPackets (m : QuicReceivedPacketManager) : bool :=
  HasMissingPackets m && (LastIntervalLength (packets (ack_frame_ m)) <=? kMaxPacketsAfterNewMissing).

Definition ack_frame_updated (m : QuicReceivedPacketManager) : bool := ack_frame_updated_ m.
Definition GetLargestObserved (m : QuicReceivedPacketManager) : Z := LargestAcked (ack_frame_ m).

(** * The invariant *)

(** The ack frame is one the framers can write, or its queue is empty. *)
Record manager_ok (m : QuicReceivedPacketManager) : Prop := {
  mo_wf : wf (packets (ack_frame_ m));
  mo_largest : 0 <= largest_acked (ack_frame_ m) < 2 ^ 48 - 1;
  mo_max : packets (ack_frame_ m) = [] \/ Max (packets (ack_frame_ m)) = largest_acked (ack_frame_ m);
  mo_clock : 0 <= time_largest_observed_ m < 2 ^ 62;
}.

Lemma manager_ctor_ok : manager_ok QuicReceivedPacketManager_ctor.
Proof. split; cbn; [split; [done|constructor]|lia|by left|lia]. Qed.

Lemma mem_nil x : ~ mem [] x.
Proof. intros H. by apply Exists_nil in H. Qed.

Lemma mem_nonempty d x : mem d x -> d <> [].
Proof. intros H ->. by apply mem_nil in H. Qed.

Lemma Max_unique d x : wf d -> mem d x -> (forall y, mem d y -> y <= x) -> Max d = x.
Proof.
  intros Hwf Hx Hle. destruct (mem_Max d Hwf (mem_nonempty _ _ Hx)) as (Hm & Hub & _).
  specialize (Hle _ Hm). specialize (Hub _ Hx). lia.
Qed.

(** The fields of the frame after a packet is recorded. *)
Lemma RecordPacketReceived_frame pn t m :
  let m' := RecordPacketReceived pn t m in
  packets (ack_frame_ m') = Add pn (packets (ack_frame_ m)) /\
  largest_acked (ack_frame_ m') = Z.max pn (largest_acked (ack_frame_ m)) /\
  ack_frame_updated_ m' = true /\
  peer_least_packet_awaiting_ack_ m' = peer_least_packet_awaiting_ack_ m /\
  time_largest_observed_ m' = (if largest_acked (ack_frame_ m) <? pn then t else time_largest_observed_ m).
Proof.
  cbv zeta. unfold RecordPacketReceived, note_reordering, note_time, LargestAcked. cbv zeta.
  destruct (negb (ack_frame_updated_ m)); cbn -[Add Z.ltb Z.max wrap time_sub last].
  all: destruct (Z.ltb_spec pn (largest_acked (ack_frame_ m))); cbn -[Add Z.ltb Z.max wrap time_sub last].
  all: destruct (Z.ltb_spec (largest_acked (ack_frame_ m)) pn); cbn -[Add Z.ltb Z.max wrap time_sub last]; try lia.
  all: destruct (save_timestamps_ m && _); cbn -[Add Z.ltb Z.max wrap time_sub last]; split_and!; (done || lia).
Qed.

Lemma RecordPacketReceived_ok pn t m :
  manager_ok m -> 0 <= pn < 2 ^ 48 - 1 -> 0 <= t < 2 ^ 62 ->
  packets (ack_frame_ m) <> [] \/ largest_acked (ack_frame_ m) < pn ->
  manager_ok (RecordPacketReceived pn t m) /\
  forall x, mem (packets (ack_frame_ (RecordPacketReceived pn t m))) x <->
            pn = x \/ mem (packets (ack_frame_ m)) x.
Proof.
  intros [Hwf Hl Hm Hc] Hpn Ht Hne. destruct (RecordPacketReceived_frame pn t m) as (E1 & E2 & _ & _ & E5).
  set (m' := RecordPacketReceived pn t m) in *. clearbody m'.
  pose proof (Add_adds pn (packets (ack_frame_ m)) ltac:(lia) ltac:(unfold fits; lia) (proj1 Hwf)) as Ha.
  pose proof (wf_of_adds (eq pn) _ _ Hwf Ha ltac:(intros; lia)) as Hwf'. destruct Ha as [_ Ha].
  split; [|intros x; rewrite E1; apply Ha]. split; rewrite ?E1, ?E2, ?E5; [done|lia| |destruct (_ <? _); lia].
  right. apply Max_unique; [done|apply Ha|].
  - destruct Hm as [Hm|Hm]; [destruct Hne as [?|]; [done|left; lia]|].
    destruct (Z.max_spec pn (largest_acked (ack_frame_ m))) as [[Hle ->]|[_ ->]]; [right|by left].
    rewrite <- Hm. apply mem_Max; [done|]. destruct Hne as [?|]; [done|lia].
  - intros y [<-|Hy]%Ha; [lia|]. destruct Hm as [Hm|Hm]; [by rewrite Hm in Hy; apply mem_nil in Hy|].
    destruct (mem_Max _ Hwf (mem_nonempty _ _ Hy)) as (_ & Hub & _). specialize (Hub _ Hy). lia.
Qed.

Lemma DontWaitForPacketsBefore_ok least m :
  manager_ok m ->
  let m' := DontWaitForPacketsBefore least m in
  manager_ok m' /\ peer_least_packet_awaiting_ack_ m' = Z.max least (peer_least_packet_awaiting_ack_ m) /\
  largest_acked (ack_frame_ m') = largest_acked (ack_frame_ m) /\
  forall x, mem (packets (ack_frame_ m')) x <->
    mem (packets (ack_frame_ m)) x /\ (peer_least_packet_awaiting_ack_ m < least -> least <= x).
Proof.
  intros [Hwf Hl Hm Hc]. cbv zeta. unfold DontWaitForPacketsBefore.
  destruct (Z.ltb_spec (peer_least_packet_awaiting_ack_ m) least); [|split_and!; [done|lia|done|intuition lia]].
  unfold RemoveUpTo. cbn [ack_frame_ packets].
  change (ack_frame_ (m <| peer_least_packet_awaiting_ack_ := least |>)) with (ack_frame_ m).
  destruct (packets (ack_frame_ m)) as [|iv d] eqn:E; cbn [Empty].
  { cbn. split_and!; [|lia|done|]; [split; cbn; [split; [done|constructor]|lia|by left|lia]|].
    intros x. split; [intros Hx; by apply mem_nil in Hx|]. intros [Hx _]. by apply mem_nil in Hx. }
  rewrite <- E in *. destruct (RemoveUpTo_loop_spec least (-1) (packets (ack_frame_ m)) (proj1 Hwf)) as [Hw' Hm'].
  set (d' := RemoveUpTo_loop least (packets (ack_frame_ m))) in *. clearbody d'.
  assert (Hwf' : wf d').
  { split; [done|]. destruct Hwf as [_ Hb]. assert (Hub : Forall (fun iv => imax iv <= 2 ^ 64 - 1) d').
    - apply (wf_ends (-1)); [done|]. intros x [Hx _]%Hm'. apply Exists_exists in Hx as (j & Hj & Hx).
      rewrite Forall_forall in Hb. specialize (Hb _ Hj). unfold in_iv in Hx. lia.
    - rewrite Forall_forall in *. intros j Hj. specialize (Hub _ Hj). lia. }
  assert (Hmax : d' = [] \/ Max d' = largest_acked (ack_frame_ m)).
  { destruct d' as [|j l]; [by left|]. right. destruct Hm as [?|Hm]; [congruence|].
    destruct (mem_Max (packets (ack_frame_ m)) Hwf) as (HM & Hub & _); [congruence|].
    assert (mem (j :: l) (imin j)) as Hj by (apply mem_cons; left; unfold in_iv; destruct Hw' as (_ & ? & _); lia).
    apply Max_unique; [done| |].
    - apply Hm'. rewrite <- Hm. split; [done|]. apply Hm' in Hj as [Hj Hle]. specialize (Hub _ Hj). lia.
    - intros y [Hy _]%Hm'. specialize (Hub _ Hy). lia. }
  destruct (_ || _); cbn; (split_and!; [split; cbn; done|lia|done|]); intros x; rewrite Hm'; intuition lia.
Qed.

(** * The frame handed out *)

(** The range limit drops old intervals, never the last one. *)
Lemma limit_ranges_app n d : exists dropped, d = dropped ++ limit_ranges n d /\ (d <> [] -> limit_ranges n d <> []).
Proof.
  induction d as [|iv d IH]; [by exists []|]. cbn [limit_ranges].
  destruct (Z.ltb_spec 0 n); cbn [andb]; [|by exists []].
  destruct (Z.ltb_spec n (NumIntervals (iv :: d))) as [Hn|]; [|by exists []].
  destruct IH as (dropped & E & Hne). exists (iv :: dropped). split; [cbn; by rewrite <- E|].
  intros _. apply Hne. intros ->. unfold NumIntervals in Hn. cbn in Hn. lia.
Qed.

Lemma wf_suffix d1 d2 : wf (d1 ++ d2) -> wf d2.
Proof.
  intros [Hw Hb]. split; [|by apply Forall_app in Hb as [_ ?]]. apply wf_from_app in Hw as [Hw1 Hw2].
  eapply wf_from_weaken; [|exact Hw2]. by apply end_of_ge.
Qed.

Lemma Max_suffix d1 d2 : d2 <> [] -> Max (d1 ++ d2) = Max d2.
Proof.
  intros H. unfold Max. destruct d2 as [|iv d2]; [done|]. by rewrite last_app_cons.
Qed.

(** The frame can be written whenever there is a packet to acknowledge. *)
Lemma GetUpdatedAckFrame_ok version now m :
  manager_ok m -> 0 <= now < 2 ^ 62 ->
  let '(frame, m') := GetUpdatedAckFrame now m in
  manager_ok m' /\ ack_frame_updated_ m' = false /\ ack_frame_ m' = frame /\
  peer_least_packet_awaiting_ack_ m' = peer_least_packet_awaiting_ack_ m /\
  time_largest_observed_ m' = time_largest_observed_ m /\
  largest_acked frame = largest_acked (ack_frame_ m) /\
  (max_ack_ranges_ m = 0 -> packets frame = packets (ack_frame_ m)) /\
  (packets (ack_frame_ m) <> [] -> ack_frame_ok version frame).
Proof.
  intros [Hwf Hl Hm Hc] Hn. unfold GetUpdatedAckFrame. cbv zeta.
  change (ack_frame_ (m <| ack_frame_updated_ := false |>)) with (ack_frame_ m).
  change (max_ack_ranges_ (m <| ack_frame_updated_ := false |>)) with (max_ack_ranges_ m).
  change (time_largest_observed_ (m <| ack_frame_updated_ := false |>)) with (time_largest_observed_ m).
  set (delay := if time_largest_observed_ m =? 0 then _ else _).
  assert (Hd : 0 <= delay < 2 ^ 63).
  { subst delay. unfold kQuicInfiniteTimeUs, time_sub. destruct (Z.eqb_spec (time_largest_observed_ m) 0); [lia|].
    destruct (Z.ltb_spec now (time_largest_observed_ m)); [lia|]. rewrite swrap_small by (unfold sfits; lia). lia. }
  clearbody delay. destruct (limit_ranges_app (max_ack_ranges_ m) (packets (ack_frame_ m))) as (dropped & E & Hne).
  assert (Hz : max_ack_ranges_ m = 0 -> limit_ranges (max_ack_ranges_ m) (packets (ack_frame_ m)) = packets (ack_frame_ m)).
  { intros ->. by destruct (packets (ack_frame_ m)). }
  set (d := limit_ranges _ _) in *. clearbody d.
  assert (Hwf' : wf d) by (apply (wf_suffix dropped); by rewrite <- E).
  assert (Hmax : d = [] \/ Max d = largest_acked (ack_frame_ m)).
  { destruct d as [|iv d]; [by left|]. right. rewrite E in Hm. destruct Hm as [Hm|Hm].
    - by apply app_eq_nil in Hm as [_ ?].
    - by rewrite Max_suffix in Hm. }
  split_and!; try done. intros Hp. specialize (Hne Hp). destruct Hmax as [?|Hmax]; [done|].
  split_and!; cbn; try done; [|lia..]. destruct (version =? QUIC_VERSION_41); lia.
Qed.

(** * Refinement *)

(** A packet arrives, the peer stops waiting for packets, an ack frame is sent. *)
Inductive Note := Received (pn t : Z) | StopWaiting (least : Z) | Acknowledged (now : Z).

Definition note (m : QuicReceivedPacketManager) (e : Note) : QuicReceivedPacketManager :=
  match e with
  | Received pn t => RecordPacketReceived pn t m
  | StopWaiting least => DontWaitForPacketsBefore least m
  | Acknowledged now => (GetUpdatedAckFrame now m).2
  end.

(** The specification: the least packet awaited and the set of packets to
    acknowledge. *)
Definition spec_note (st : Z * gset Z) (e : Note) : Z * gset Z :=
  let '(low, got) := st in
  match e with
  | Received pn _ => (low, {[pn]} ∪ got)
  | StopWaiting least => if low <? least then (least, filter (fun x => least <= x) got) else (low, got)
  | Acknowledged _ => (low, got)
  end.

Definition tracks_set (m : QuicReceivedPacketManager) (st : Z * gset Z) : Prop :=
  manager_ok m /\ max_ack_ranges_ m = 0 /\ peer_least_packet_awaiting_ack_ m = st.1 /\
  forall x, mem (packets (ack_frame_ m)) x <-> x ∈ st.2.

(** What a receiver may note: numbers of 48 bits, and after all packets were
    forgotten none but new ones. *)
Definition notable (m : QuicReceivedPacketManager) (e : Note) : Prop :=
  match e with
  | Received pn t => 0 <= pn < 2 ^ 48 - 1 /\ 0 <= t < 2 ^ 62 /\
                     (packets (ack_frame_ m) <> [] \/ largest_acked (ack_frame_ m) < pn)
  | StopWaiting _ => True
  | Acknowledged now => 0 <= now < 2 ^ 62
  end.

Fixpoint notable_all (m : QuicReceivedPacketManager) (es : list Note) : Prop :=
  match es with
  | [] => True
  | e :: es => notable m e /\ notable_all (note m e) es
  end.

Lemma note_ranges m e : max_ack_ranges_ (note m e) = max_ack_ranges_ m.
Proof.
  destruct e as [pn t|least|now]; cbn [note].
  - unfold RecordPacketReceived, note_reordering, note_time. cbv zeta.
    destruct (negb (ack_frame_updated_ m)); destruct (_ <? _); cbv zeta; destruct (_ <? _); cbv zeta; by destruct (_ && _).
  - unfold DontWaitForPacketsBefore. destruct (_ <? least); [|done]. destruct (RemoveUpTo _ _) as [[] d]; done.
  - done.
Qed.

Lemma tracks_start : tracks_set QuicReceivedPacketManager_ctor (0, ∅).
Proof.
  split_and!; [apply manager_ctor_ok|done|done|]. intros x. cbn. split; [|set_solver]. intros Hx. by apply mem_nil in Hx.
Qed.

Lemma note_tracks e m st : tracks_set m st -> notable m e -> tracks_set (note m e) (spec_note st e).
Proof.
  destruct st as [low got]. intros (Hok & Hz & El & Hm) Hn. unfold tracks_set. rewrite note_ranges.
  cbn [fst snd] in *. destruct e as [pn t|least|now]; cbn [note spec_note].
  - destruct Hn as (H1 & H2 & H3). destruct (RecordPacketReceived_ok pn t m Hok H1 H2 H3) as [Hok' Hm'].
    destruct (RecordPacketReceived_frame pn t m) as (_ & _ & _ & E & _).
    split_and!; [done|done|by rewrite E|]. intros x. cbn [snd]. rewrite Hm', Hm, elem_of_union, elem_of_singleton.
    split; (intros [E'|?]; [left; congruence|by right]).
  - destruct (DontWaitForPacketsBefore_ok least m Hok) as (Hok' & E & _ & Hm').
    destruct (Z.ltb_spec low least); (split_and!; [done|done|cbn; lia|]); intros x; rewrite Hm', Hm; cbn.
    + rewrite elem_of_filter. intuition lia.
    + intuition lia.
  - pose proof (GetUpdatedAckFrame_ok 43 now m Hok Hn) as H. destruct (GetUpdatedAckFrame now m) as [frame m'].
    destruct H as (Hok' & _ & Ef & Ep & _ & _ & Epk & _). cbn [snd]. split_and!; [done|done|cbn; congruence|].
    intros x. rewrite Ef, Epk by done. apply Hm.
Qed.

Lemma notes_track es m st :
  tracks_set m st -> notable_all m es -> tracks_set (fold_left note es m) (fold_left spec_note es st).
Proof.
  revert m st. induction es as [|e es IH]; intros m st Ht Hn; [done|]. destruct Hn as [He Hn].
  cbn [fold_left]. apply IH; [|done]. by apply note_tracks.
Qed.
End QuicReceivedPacketManager.
