(* ===== verification/ReceiverApp.v ===== *)
(** The receiving application quic/model/ns_quic_receiver.{h,cc}.

    A handler is a function on the application's fields at a time of the simulator's
    clock.  The datagrams it sends and the calls of its trace callbacks are the list
    [outputs_].  [heart_timer_] is the time of the scheduled heart beat, [None] when
    it is not pending.  The stack buffer an acknowledgement is written into is not
    initialised; its content is the parameter [stack]. *)
From stdpp Require Import gmap list_numbers.
From S2P Require Import Prelude.
From S2P Require Import DataReader.
From S2P Require Import DataWriter.
From S2P Require Import Encodings.
From S2P Require Import PacketNumbers.
From S2P Require Import FramerTypes.
From S2P Require Import GoogleFrames.
From S2P Require Import AckFrames.
From S2P Require Import AckRoundTrip.
From S2P Require Import PacketHeader.
From S2P Require Import Framer.
From S2P Require Import QuicUnits.
From S2P Require Import WindowedFilter.
From S2P Require Import Sampler.
From S2P Require Import PacketNumberQueue.
From S2P Require Import ReceivedPackets.

Import QuicReceivedPacketManager.
Open Scope Z_scope.

(** ns_quic_time.cc: the clocks, at a time of the simulator in milliseconds.  The
    handlers below take the time that [NsQuicClock.Now] returns. *)
Module Ns3QuicTime.
Definition Now (simulator_ms : Z) : Z := time_add 0 (FromMilliseconds (u32 simulator_ms)).
Definition GetMilliSeconds (simulator_ms : Z) : Z := u32 (ToMilliseconds (time_sub (Now simulator_ms) 0)).
End Ns3QuicTime.
Module NsQuicClock.
Definition Now (simulator_ms : Z) : Z := time_add 0 (FromMilliseconds simulator_ms).
Definition ApproximateNow (simulator_ms : Z) : Z := Now simulator_ms.
(** In microseconds. *)
Definition WallNow (simulator_ms : Z) : Z := i64 (simulator_ms * 1000).
End NsQuicClock.

(** [MyQuicAlarm] is its [m_deadline]. *)
Module MyQuicAlarm.
Definition IsSet (m_deadline : Z) : bool := 0 <? m_deadline.
Definition IsExpired (now_ms m_deadline : Z) : bool * Z :=
  if IsSet m_deadline
  then (m_deadline <=? now_ms, if m_deadline <=? now_ms then 0 else m_deadline)
  else (false, m_deadline).
Definition Update (new_deadline_ms : Z) (m_deadline : Z) : Z := new_deadline_ms.
End MyQuicAlarm.

(** The public header that both applications write and read: one byte of flags, the
    packet number in as many bytes as the flags say. *)
Definition kPublicHeaderSequenceNumberShift : Z := 4.
Definition public_flags (seq_len : Z) : Z :=
  u8 (Z.lor 0 (Z.shiftl (Header.GetPacketNumberFlags seq_len) kPublicHeaderSequenceNumberShift)).

(** What reading into an object leaves there: zero when the read fails. *)
Definition read_or_zero {A} (zero : A) (m : M QuicDataReader A) (r : QuicDataReader) : A * QuicDataReader :=
  let '(o, r) := m r in (default zero o, r).

Module NsQuicReceiver.

Definition mMinReceivedBeforeAckDecimation : Z := 100.
Definition mMaxRetransmittablePacketsBeforeAck : Z := 10.
Definition mMaxDelayedAckTimeMs : Z := 25.
Definition mMinRetransmissionTimeMs : Z := 200.
Definition kMaxBufferSize : Z := 1500.
(** [QuicFrameType] of quic_types.h. *)
Definition STREAM_FRAME : Z := 8.
Definition STOP_WAITING_FRAME : Z := 6.

(** An IPv4 address with a port. *)
Definition Address : Type := Z * Z.

Inductive Output :=
  | TraceLoss (seq owd : Z)
  | TraceOwd (seq owd : Z)
  | TraceRate (kbps : Z)
  | SendTo (datagram : list Z) (peer : Address).

Record NsQuicReceiver := mkReceiver {
  first_ : bool;
  recv_packet_manager_ : QuicReceivedPacketManager;
  versions_ : list ParsedQuicVersion;
  last_rate_ts_ : Z;
  ack_sent_ : bool;
  seq_ : Z;
  base_seq_ : Z;
  running_ : bool;
  ack_alarm_ : Z;
  received_ : Z;
  recv_byte_ : Z;
  m_num_packets_received_since_last_ack_sent : Z;
  trace_loss_cb_ : bool;
  trace_owd_cb_ : bool;
  trace_rate_cb_ : bool;
  owd_ : Z;
  peer_ : Address;
  heart_timer_ : option Z;
  heart_beat_t_ : Z;
  outputs_ : list Output;
}.

Abbreviation unacked s := (m_num_packets_received_since_last_ack_sent s).

Definition NsQuicReceiver_ctor : NsQuicReceiver := {|
  first_ := true; recv_packet_manager_ := QuicReceivedPacketManager_ctor;
  versions_ := [mkVersion PROTOCOL_QUIC_CRYPTO 43]; last_rate_ts_ := 0; ack_sent_ := false; seq_ := 1;
  base_seq_ := 0; running_ := true; ack_alarm_ := 0; received_ := 0; recv_byte_ := 0;
  m_num_packets_received_since_last_ack_sent := 0; trace_loss_cb_ := false; trace_owd_cb_ := false;
  trace_rate_cb_ := false; owd_ := 0; peer_ := (0, 0); heart_timer_ := None; heart_beat_t_ := 1; outputs_ := [];
|}.

Definition SetLossTraceFunc (s : NsQuicReceiver) : NsQuicReceiver := s <| trace_loss_cb_ := true |>.
Definition SetOwdTraceFunc (s : NsQuicReceiver) : NsQuicReceiver := s <| trace_owd_cb_ := true |>.
Definition SetRateTraceFunc (s : NsQuicReceiver) : NsQuicReceiver := s <| trace_rate_cb_ := true |>.

Definition output (o : Output) (s : NsQuicReceiver) : NsQuicReceiver := s <| outputs_ := outputs_ s ++ [o] |>.

Definition SendToNetwork (p : list Z) (s : NsQuicReceiver) : NsQuicReceiver := output (SendTo p (peer_ s)) s.

Definition RecordLoss (seq : Z) (s : NsQuicReceiver) : NsQuicReceiver :=
  if trace_loss_cb_ s then output (TraceLoss seq (owd_ s)) s else s.

Definition RecordOwd (seq owd : Z) (s : NsQuicReceiver) : NsQuicReceiver :=
  if trace_owd_cb_ s then output (TraceOwd seq owd) s else s.

Definition RecordRate (now : Z) (s : NsQuicReceiver) : NsQuicReceiver :=
  if last_rate_ts_ s =? 0 then s <| last_rate_ts_ := time_add now (FromMilliseconds 500) |>
  else if last_rate_ts_ s <? now then
    let kbps := u32 (u64 (recv_byte_ s * 8) / 500) in
    let s := s <| recv_byte_ := 0 |> in
    let s := if trace_rate_cb_ s then output (TraceRate kbps) s else s in
    s <| last_rate_ts_ := time_add now (FromMilliseconds 500) |>
  else s.

Section app.
Context {HM : HandshakeMessages} {VI : MyQuicFramerVisitorInterface} {CI : Ciphers}.
(** The framer's visitor is not set; its null ciphers are not used. *)
Context (no_visitor : Visitor) (null_decrypter : Decrypter) (null_encrypter : Encrypter).
Context (WriteUInt8AtOffset : Z -> Z -> M QuicDataWriter unit).
Context (stack : list Z).

Definition SendAck (now : Z) (s : NsQuicReceiver) : NsQuicReceiver :=
  let '(ackframe, manager) := GetUpdatedAckFrame now (recv_packet_manager_ s) in
  let s := s <| recv_packet_manager_ := manager |> in
  let seq_len := Header.GetMinSeqLength (seq_ s) in
  let header_len := 1 + seq_len in
  let header_writer := make_writer (take (Z.to_nat header_len) stack) NETWORK_BYTE_ORDER in
  let header_writer := snd (WriteBytes [public_flags seq_len] header_writer) in
  let header_writer := snd (WriteBytesToUInt64 seq_len (seq_ s) header_writer) in
  let writer := make_writer (drop (Z.to_nat header_len) stack) NETWORK_BYTE_ORDER in
  let framer := MyQuicFramer_ctor no_visitor (versions_ s) now IS_CLIENT null_decrypter null_encrypter in
  let writer := wr (snd (AppendAckFrameAndTypeByte WriteUInt8AtOffset ackframe (mkW framer writer))) in
  let total_len := length_ writer + header_len in
  let p := take (Z.to_nat total_len) (buffer_ header_writer ++ buffer_ writer) in
  let s := SendToNetwork p s in
  s <| ack_sent_ := true |> <| m_num_packets_received_since_last_ack_sent := 0 |>.

Definition MaybeSendAck (now : Z) (s : NsQuicReceiver) : NsQuicReceiver :=
  let '(should_send, s) :=
    if received_ s <? mMinReceivedBeforeAckDecimation then (true, s)
    else if mMaxRetransmittablePacketsBeforeAck <=? unacked s then (true, s)
    else if negb (MyQuicAlarm.IsSet (ack_alarm_ s)) then
      let ack_delay := Z.min mMaxDelayedAckTimeMs (mMinRetransmissionTimeMs / 2) in
      (false, s <| ack_alarm_ := MyQuicAlarm.Update (time_add now (FromMilliseconds ack_delay)) (ack_alarm_ s) |>)
    else (false, s) in
  if should_send : bool then SendAck now s else s.

(** Lines 61-89: a packet of data. *)
Definition on_stream_packet (now seq len sent_ts : Z) (s : NsQuicReceiver) : NsQuicReceiver :=
  let recv_ts := u32 (ToMilliseconds (time_sub now 0)) in
  let s := s <| owd_ := u32 (recv_ts - sent_ts) |> in
  let s := RecordOwd (u32 seq) (owd_ s) s in
  let s := s <| recv_packet_manager_ := RecordPacketReceived seq now (recv_packet_manager_ s) |> in
  let s := if u64 (base_seq_ s + 1) <=? seq
           then fold_left (fun s i => RecordLoss (u32 i) s)
                  (seqZ (u64 (base_seq_ s + 1)) (seq - u64 (base_seq_ s + 1))) s
           else s in
  let s := if u64 (base_seq_ s + 1) <=? seq then s <| base_seq_ := seq |> else s in
  let s := s <| m_num_packets_received_since_last_ack_sent := u64 (unacked s + 1) |>
             <| received_ := u64 (received_ s + 1) |>
             <| recv_byte_ := u64 (recv_byte_ s + len) |> in
  let s := RecordRate now s in
  if ack_frame_updated (recv_packet_manager_ s) then MaybeSendAck now s else s.

(** The fields of a datagram, as lines 49-59 and 67 or 93 read them. *)
Record Datagram := mkDatagram { d_seq : Z; d_type : Z; d_sent_ts : Z; d_least_unack : Z }.
Definition parse (data : list Z) : Datagram :=
  let reader := make_reader data NETWORK_BYTE_ORDER in
  let '(flags, reader) := read_or_zero [0] (ReadBytes 1) reader in
  let seq_len := Header.ReadSequenceNumberLength (Z.shiftr (le_val flags) kPublicHeaderSequenceNumberShift) in
  let '(seq, reader) := read_or_zero 0 (ReadBytesToUInt64 seq_len) reader in
  let '(type, reader) := read_or_zero [0] (ReadBytes 1) reader in
  mkDatagram seq (le_val type) (read_or_zero 0 ReadUInt32 reader).1
    (read_or_zero 0 (ReadBytesToUInt64 seq_len) reader).1.

Definition OnIncomingData (now : Z) (data : list Z) (s : NsQuicReceiver) : NsQuicReceiver :=
  if negb (running_ s) then s
  else
    let d := parse data in
    let s := if d_type d =? STREAM_FRAME
             then on_stream_packet now (d_seq d) (Z.of_nat (length data)) (d_sent_ts d) s else s in
    if d_type d =? STOP_WAITING_FRAME
    then s <| recv_packet_manager_ := DontWaitForPacketsBefore (d_least_unack d) (recv_packet_manager_ s) |>
    else s.

Definition HeartBeat (now : Z) (s : NsQuicReceiver) : NsQuicReceiver :=
  if negb (running_ s) then s
  else match heart_timer_ s with
  | Some _ => s
  | None =>
    let '(expired, alarm) := MyQuicAlarm.IsExpired now (ack_alarm_ s) in
    let s := s <| ack_alarm_ := alarm |> in
    let s := if expired : bool then SendAck now s else s in
    s <| heart_timer_ := Some (now + FromMilliseconds (heart_beat_t_ s)) |>
  end.

Definition StartApplication (now : Z) (s : NsQuicReceiver) : NsQuicReceiver := s <| heart_timer_ := Some now |>.

Definition StopApplication (s : NsQuicReceiver) : NsQuicReceiver :=
  let s := s <| running_ := false |> <| heart_timer_ := None |> in
  if trace_loss_cb_ s then output (TraceLoss (u32 (base_seq_ s)) 0) s else s.

Definition RecvPacket (now : Z) (remote : Address) (packet : list Z) (s : NsQuicReceiver) : NsQuicReceiver :=
  let s := if first_ s then s <| peer_ := remote |> <| first_ := false |> else s in
  OnIncomingData now packet s.
End app.
End NsQuicReceiver.
