(* ===== verification/SenderApp.v ===== *)
(** The sending application quic/model/ns_quic_sender.{h,cc}.

    It sends packets as fast as libquic's [QuicSentPacketManager] lets it, and is the
    visitor of the framer that parses the acknowledgements.  The manager belongs to
    the libquic the application is compiled against: its interface is the class
    [QuicSentPacketManager].  Undefined behaviour, a copy or a read outside the
    receive buffer, is [None]. *)
From stdpp Require Import gmap list_numbers.
From S2P Require Import Prelude.
From S2P Require Import DataReader.
From S2P Require Import DataWriter.
From S2P Require Import Encodings.
From S2P Require Import PacketNumbers.
From S2P Require Import FramerTypes.
From S2P Require Import GoogleFrames.
From S2P Require Import AckFrames.
From S2P Require Import PacketHeader.
From S2P Require Import Framer.
From S2P Require Import Visitors.
From S2P Require Import QuicUnits.
From S2P Require Import WindowedFilter.
From S2P Require Import Sampler.
From S2P Require Import UnackedPackets.
From S2P Require Import ReceiverApp.

Open Scope Z_scope.

Class QuicSentPacketManager := {
  SentPacketManager : Type;
  spm_OnAckFrameStart : Z -> Z -> Z -> SentPacketManager -> SentPacketManager;
  spm_OnAckRange : Z -> Z -> SentPacketManager -> SentPacketManager;
  spm_OnAckFrameEnd : Z -> SentPacketManager -> bool * SentPacketManager;
  spm_GetLeastUnacked : SentPacketManager -> Z;
  spm_TimeUntilSend : Z -> SentPacketManager -> Z;
  spm_HasPendingRetransmissions : SentPacketManager -> bool;
  spm_NextPendingRetransmission : SentPacketManager -> QuicPendingRetransmission * SentPacketManager;
  spm_OnPacketSent : SerializedPacket -> Z -> Z -> TransmissionType -> SentPacketManager -> SentPacketManager;
  spm_BandwidthEstimate : SentPacketManager -> Z;
}.

Module NsQuicSender.
Section sender.
Context {SM : QuicSentPacketManager}.

Definition kMaxBufferSize : Z := 1500.
Definition kPaddingSize : Z := 1000.

Inductive Output := TraceRate (kbps : Z) | SendTo (datagram : list Z).

Record NsQuicSender := mkSender {
  sent_packet_manager_ : SentPacketManager;
  versions_ : list ParsedQuicVersion;
  time_of_last_received_packet_ : Z;
  last_rate_ts_ : Z;
  running_ : bool;
  trace_rate_cb_ : bool;
  seq_ : Z;
  stop_waiting_count_ : Z;
  largest_acked_ : Z;
  heart_timer_ : option Z;
  heart_beat_t_ : Z;
  outputs_ : list Output;
}.

(** [manager]: a new manager whose handshake is confirmed. *)
Definition NsQuicSender_ctor (manager : SentPacketManager) (now : Z) : NsQuicSender :=
  mkSender manager [mkVersion PROTOCOL_QUIC_CRYPTO 43] now 0 true false 1 0 1 None 1 [].

Definition set_manager (m : SentPacketManager) (s : NsQuicSender) : NsQuicSender :=
  mkSender m (versions_ s) (time_of_last_received_packet_ s) (last_rate_ts_ s) (running_ s) (trace_rate_cb_ s)
    (seq_ s) (stop_waiting_count_ s) (largest_acked_ s) (heart_timer_ s) (heart_beat_t_ s) (outputs_ s).
Definition set_received (t : Z) (s : NsQuicSender) : NsQuicSender :=
  mkSender (sent_packet_manager_ s) (versions_ s) t (last_rate_ts_ s) (running_ s) (trace_rate_cb_ s)
    (seq_ s) (stop_waiting_count_ s) (largest_acked_ s) (heart_timer_ s) (heart_beat_t_ s) (outputs_ s).
Definition set_last_rate_ts (t : Z) (s : NsQuicSender) : NsQuicSender :=
  mkSender (sent_packet_manager_ s) (versions_ s) (time_of_last_received_packet_ s) t (running_ s) (trace_rate_cb_ s)
    (seq_ s) (stop_waiting_count_ s) (largest_acked_ s) (heart_timer_ s) (heart_beat_t_ s) (outputs_ s).
Definition set_running (b : bool) (s : NsQuicSender) : NsQuicSender :=
  mkSender (sent_packet_manager_ s) (versions_ s) (time_of_last_received_packet_ s) (last_rate_ts_ s) b (trace_rate_cb_ s)
    (seq_ s) (stop_waiting_count_ s) (largest_acked_ s) (heart_timer_ s) (heart_beat_t_ s) (outputs_ s).
Definition set_seq (n : Z) (s : NsQuicSender) : NsQuicSender :=
  mkSender (sent_packet_manager_ s) (versions_ s) (time_of_last_received_packet_ s) (last_rate_ts_ s) (running_ s) (trace_rate_cb_ s)
    n (stop_waiting_count_ s) (largest_acked_ s) (heart_timer_ s) (heart_beat_t_ s) (outputs_ s).
Definition set_stop_waiting_count (n : Z) (s : NsQuicSender) : NsQuicSender :=
  mkSender (sent_packet_manager_ s) (versions_ s) (time_of_last_received_packet_ s) (last_rate_ts_ s) (running_ s) (trace_rate_cb_ s)
    (seq_ s) n (largest_acked_ s) (heart_timer_ s) (heart_beat_t_ s) (outputs_ s).
Definition set_largest_acked (n : Z) (s : NsQuicSender) : NsQuicSender :=
  mkSender (sent_packet_manager_ s) (versions_ s) (time_of_last_received_packet_ s) (last_rate_ts_ s) (running_ s) (trace_rate_cb_ s)
    (seq_ s) (stop_waiting_count_ s) n (heart_timer_ s) (heart_beat_t_ s) (outputs_ s).
Definition set_heart_timer (t : option Z) (s : NsQuicSender) : NsQuicSender :=
  mkSender (sent_packet_manager_ s) (versions_ s) (time_of_last_received_packet_ s) (last_rate_ts_ s) (running_ s) (trace_rate_cb_ s)
    (seq_ s) (stop_waiting_count_ s) (largest_acked_ s) t (heart_beat_t_ s) (outputs_ s).
Definition output (o : Output) (s : NsQuicSender) : NsQuicSender :=
  mkSender (sent_packet_manager_ s) (versions_ s) (time_of_last_received_packet_ s) (last_rate_ts_ s) (running_ s) (trace_rate_cb_ s)
    (seq_ s) (stop_waiting_count_ s) (largest_acked_ s) (heart_timer_ s) (heart_beat_t_ s) (outputs_ s ++ [o]).
Definition SetRateTraceFunc (s : NsQuicSender) : NsQuicSender :=
  mkSender (sent_packet_manager_ s) (versions_ s) (time_of_last_received_packet_ s) (last_rate_ts_ s) (running_ s) true
    (seq_ s) (stop_waiting_count_ s) (largest_acked_ s) (heart_timer_ s) (heart_beat_t_ s) (outputs_ s).

Definition GetLeastUnacked (s : NsQuicSender) : Z := spm_GetLeastUnacked (sent_packet_manager_ s).
Definition SendToNetwork (p : list Z) (s : NsQuicSender) : NsQuicSender := output (SendTo p) s.

(** * Acknowledgements *)

Definition OnAckFrame (frame : QuicAckFrame) (s : NsQuicSender) : bool * NsQuicSender := (false, s).

Definition OnAckFrameStart (largest_acked ack_delay_time : Z) (s : NsQuicSender) : bool * NsQuicSender :=
  let s := set_manager (spm_OnAckFrameStart largest_acked ack_delay_time (time_of_last_received_packet_ s)
                          (sent_packet_manager_ s)) s in
  (true, if largest_acked_ s <=? largest_acked then set_largest_acked largest_acked s else s).

Definition PostProcessAfterAckFrame (send_stop_waiting acked_new_packet : bool) (s : NsQuicSender) : NsQuicSender :=
  set_stop_waiting_count (if send_stop_waiting then i32 (stop_waiting_count_ s + 1) else 0) s.

Definition OnAckRange (start end_ : Z) (last_range : bool) (s : NsQuicSender) : bool * NsQuicSender :=
  let s := set_manager (spm_OnAckRange start end_ (sent_packet_manager_ s)) s in
  if negb last_range then (true, s)
  else
    let '(acked_new_packet, m) := spm_OnAckFrameEnd (time_of_last_received_packet_ s) (sent_packet_manager_ s) in
    let s := set_manager m s in
    (true, PostProcessAfterAckFrame (start <? GetLeastUnacked s) acked_new_packet s).

(** The application as the framer's visitor: the callbacks it does not override are
    those of [AbstractQuicFramerVisitor]. *)
Definition SenderVisitor `{HM : HandshakeMessages} : MyQuicFramerVisitorInterface := {|
  Visitor := NsQuicSender;
  FramerTypes.OnError _ _ v := v;
  FramerTypes.OnProtocolVersionMismatch _ v := (true, None, v);
  FramerTypes.OnPacket v := v;
  FramerTypes.OnPublicResetPacket _ v := v;
  FramerTypes.OnVersionNegotiationPacket _ v := v;
  FramerTypes.OnUnauthenticatedPublicHeader _ v := (true, v);
  FramerTypes.OnUnauthenticatedHeader _ v := (true, v);
  FramerTypes.OnDecryptedPacket _ v := v;
  FramerTypes.OnPacketHeader _ v := (true, v);
  FramerTypes.OnStreamFrame _ v := (true, v);
  FramerTypes.OnAckFrame := OnAckFrame;
  FramerTypes.OnAckFrameStart := OnAckFrameStart;
  FramerTypes.OnAckRange := OnAckRange;
  FramerTypes.OnStopWaitingFrame _ v := (true, v);
  FramerTypes.OnPaddingFrame _ v := (true, v);
  FramerTypes.OnPingFrame v := (true, v);
  FramerTypes.OnRstStreamFrame _ v := (true, v);
  FramerTypes.OnConnectionCloseFrame _ v := (true, v);
  FramerTypes.OnGoAwayFrame _ v := (true, v);
  FramerTypes.OnWindowUpdateFrame _ v := (true, v);
  FramerTypes.OnBlockedFrame _ v := (true, v);
  FramerTypes.OnPacketComplete v := v;
|}.

Section incoming.
Context {HM : HandshakeMessages} {CI : Ciphers} {VL : VersionLabels}.
Context (null_decrypter : Decrypter) (null_encrypter : Encrypter).
#[local] Existing Instance SenderVisitor.

(** The datagram after its public header (lines 53-65); [None] when it does not fit
    into the buffer or is shorter than its header. *)
Definition frame_data (data : list Z) : option (list Z) :=
  let len := Z.of_nat (length data) in
  if kMaxBufferSize <? len then None
  else
    let header_reader := make_reader data NETWORK_BYTE_ORDER in
    let '(flags, header_reader) := read_or_zero [0] (ReadBytes 1) header_reader in
    let seq_len :=
      Header.ReadSequenceNumberLength (Z.shiftr (le_val flags) kPublicHeaderSequenceNumberShift) in
    let header_len := 1 + seq_len in
    if len <? header_len then None else Some (drop (Z.to_nat header_len) data).

Definition OnIncomingData (now : Z) (data : list Z) (s : NsQuicSender) : option NsQuicSender :=
  if negb (running_ s) then Some s
  else
    let s := set_received now s in
    frames ← frame_data data;
    let framer := MyQuicFramer_ctor (s : Visitor) (versions_ s) now IS_CLIENT null_decrypter null_encrypter in
    let st := snd (ProcessFrameData emptyHeader (mkP framer (make_reader frames NETWORK_BYTE_ORDER))) in
    Some (visitor_ (fr st)).
End incoming.

(** * Packets sent *)

(** A buffer of zeroes with the public header of packet [seq] and a frame type. *)
Definition write_header (size seq type : Z) : QuicDataWriter :=
  let seq_len := Header.GetMinSeqLength seq in
  let writer := make_writer (replicate (Z.to_nat size) 0) NETWORK_BYTE_ORDER in
  let writer := snd (WriteBytes [public_flags seq_len] writer) in
  let writer := snd (WriteBytesToUInt64 seq_len seq writer) in
  snd (WriteBytes [type] writer).

(** Lines 165-181 and 204-220: the whole buffer is sent. *)
Definition stream_datagram (now seq : Z) : list Z :=
  let writer := write_header kPaddingSize seq NsQuicReceiver.STREAM_FRAME in
  let ts := u32 (ToMilliseconds (time_sub now 0)) in
  buffer_ (snd (WriteUInt32 ts writer)).

(** Lines 182 and 221. *)
Definition payload_of (seq : Z) : Z := u16 (kPaddingSize - (1 + Header.GetMinSeqLength seq + 1)).

(** [QuicStreamFrame()]. *)
Definition newStreamFrame : QuicStreamFrame := mkStreamFrame (u32 (-1)) false 0 [] 0.

Definition OnPacketSent (now packet_number packet_number_length encrypted_length : Z) (s : NsQuicSender) :
    NsQuicSender :=
  let info := (SerializedPacket_ctor packet_number packet_number_length encrypted_length)
                <| sp_retransmittable_frames := [STREAM_FRAME newStreamFrame] |> in
  set_manager (spm_OnPacketSent info 0 now NOT_RETRANSMISSION (sent_packet_manager_ s)) s.

Definition SendFakePacket (now : Z) (s : NsQuicSender) : NsQuicSender :=
  let seq := seq_ s in
  let s := SendToNetwork (stream_datagram now seq) s in
  let s := OnPacketSent now seq (Header.GetMinSeqLength seq) (payload_of seq) s in
  set_seq (u64 (seq_ s + 1)) s.

Definition OnRetransPacket (pending : QuicPendingRetransmission) (now : Z) (s : NsQuicSender) : NsQuicSender :=
  let seq := seq_ s in
  let s := SendToNetwork (stream_datagram now seq) s in
  let info := (SerializedPacket_ctor seq (Header.GetMinSeqLength seq) (payload_of seq))
                <| sp_retransmittable_frames := pr_retransmittable_frames pending |> in
  let s := set_manager (spm_OnPacketSent info (pr_packet_number pending) now LOSS_RETRANSMISSION
                          (sent_packet_manager_ s)) s in
  set_seq (u64 (seq_ s + 1)) s.

(** The loop of [SendRetransmission]; [None] when the fuel does not suffice. *)
Fixpoint SendRetransmission (fuel : nat) (now : Z) (s : NsQuicSender) : option NsQuicSender :=
  match fuel with
  | O => None
  | S fuel =>
    if spm_TimeUntilSend now (sent_packet_manager_ s) =? 0 then
      if spm_HasPendingRetransmissions (sent_packet_manager_ s) then
        let '(pending, m) := spm_NextPendingRetransmission (sent_packet_manager_ s) in
        SendRetransmission fuel now (OnRetransPacket pending now (set_manager m s))
      else Some s
    else Some s
  end.

Definition SendStopWaitingFrame (s : NsQuicSender) : NsQuicSender :=
  let s := set_stop_waiting_count 0 s in
  let unack_seq := spm_GetLeastUnacked (sent_packet_manager_ s) in
  let writer := write_header kMaxBufferSize (seq_ s) NsQuicReceiver.STOP_WAITING_FRAME in
  let writer := snd (WriteBytesToUInt64 (Header.GetMinSeqLength (seq_ s)) unack_seq writer) in
  SendToNetwork (written writer) s.

Definition RecordRate (now : Z) (s : NsQuicSender) : NsQuicSender :=
  if last_rate_ts_ s =? 0 then set_last_rate_ts (time_add now (FromMilliseconds 100)) s
  else if last_rate_ts_ s <? now then
    let bw_kbps := u32 (ToKBitsPerSecond (spm_BandwidthEstimate (sent_packet_manager_ s))) in
    let s := if trace_rate_cb_ s then output (TraceRate bw_kbps) s else s in
    set_last_rate_ts (time_add now (FromMilliseconds 100)) s
  else s.

Definition HeartBeat (fuel : nat) (now : Z) (s : NsQuicSender) : option NsQuicSender :=
  if negb (running_ s) then Some s
  else match heart_timer_ s with
  | Some _ => Some s
  | None =>
    let s := RecordRate now s in
    s ← SendRetransmission fuel now s;
    let s := if 2 <? stop_waiting_count_ s then SendStopWaitingFrame s else s in
    let s := if spm_TimeUntilSend now (sent_packet_manager_ s) =? 0 then SendFakePacket now s else s in
    Some (set_heart_timer (Some (now + FromMilliseconds (heart_beat_t_ s))) s)
  end.

Definition StartApplication (now : Z) (s : NsQuicSender) : NsQuicSender := set_heart_timer (Some now) s.
Definition StopApplication (s : NsQuicSender) : NsQuicSender := set_heart_timer None (set_running false s).
End sender.
End NsQuicSender.
