(* ===== verification/Datagrams.v ===== *)
(** The datagrams the two applications exchange: what one of them writes, the other
    reads.  Data packets and stop-waiting packets go through the receiver's parser,
    acknowledgements through the sender's framer and visitor. *)
From stdpp Require Import gmap list_numbers.
From S2P Require Import Prelude.
From S2P Require Import DataReader.
From S2P Require Import DataWriter.
From S2P Require Import Encodings.
From S2P Require Import PacketNumbers.
From S2P Require Import FramerTypes.
From S2P Require Import GoogleFrames.
From S2P Require Import AckFrames.
From S2P Require Import AckRoundTrip.
From S2P Require Import PacketHeader.
From S2P Require Import Framer.
From S2P Require Import PacketRoundTrip.
From S2P Require Import FrameLengths.
From S2P Require Import Visitors.
From S2P Require Import QuicUnits.
From S2P Require Import WindowedFilter.
From S2P Require Import Sampler.
From S2P Require Import PacketNumberQueue.
From S2P Require Import ReceivedPackets.
From S2P Require Import ReceiverApp.
From S2P Require Import SenderApp.

Import QuicReceivedPacketManager.
Open Scope Z_scope.

Abbreviation NET := NETWORK_BYTE_ORDER.

(** * The public header *)

Abbreviation seq_width seq := (Header.GetMinSeqLength seq).
Abbreviation wire_seq seq := (wire_uint NET (Z.to_nat (seq_width seq)) seq).
Definition wire_public (seq : Z) : list Z := public_flags (seq_width seq) :: wire_seq seq.

Lemma seq_width_bounds seq : 1 <= seq_width seq <= 6.
Proof. destruct (Header.GetMinSeqLength_cases seq) as [->|[->|[->| ->]]]; lia. Qed.

Lemma flags_width seq :
  Header.ReadSequenceNumberLength
    (Z.shiftr (le_val [public_flags (seq_width seq)]) kPublicHeaderSequenceNumberShift) = seq_width seq.
Proof. destruct (Header.GetMinSeqLength_cases seq) as [->|[->|[->| ->]]]; reflexivity. Qed.

Lemma length_wire_public seq : Z.of_nat (length (wire_public seq)) = 1 + seq_width seq.
Proof. unfold wire_public. cbn [length]. rewrite length_wire_uint. pose proof (seq_width_bounds seq). lia. Qed.

(** A writer's method whose result is ignored. *)
Lemma snd_writes {A} (m : M QuicDataWriter A) bs a out tl :
  writes NET id m bs a -> (length bs <= length tl)%nat ->
  snd (m (writer_at NET out tl)) = writer_at NET (out ++ bs) (drop (length bs) tl).
Proof. intros Hw Hl. specialize (Hw out tl). rewrite decide_True in Hw by done. unfold id in Hw. by rewrite Hw. Qed.

(** A reader's method whose failure is ignored. *)
Lemma read_or_zero_reads {A} (z : A) m bs a pre rest :
  reads NET id m bs a -> read_or_zero z m (reader_at NET pre (bs ++ rest)) = (a, reader_at NET (pre ++ bs) rest).
Proof. intros [Hr _]. unfold read_or_zero. specialize (Hr pre rest). unfold id in Hr. by rewrite Hr. Qed.

Lemma read_flags pre flags rest :
  read_or_zero [0] (ReadBytes 1) (reader_at NET pre (flags :: rest)) = ([flags], reader_at NET (pre ++ [flags]) rest).
Proof. apply (read_or_zero_reads [0] (ReadBytes 1) [flags]). by apply ReadBytes_reads'. Qed.

Lemma read_seq w v pre rest :
  1 <= w <= 6 -> 0 <= v < 256 ^ w ->
  read_or_zero 0 (ReadBytesToUInt64 w) (reader_at NET pre (wire_uint NET (Z.to_nat w) v ++ rest)) =
  (v, reader_at NET (pre ++ wire_uint NET (Z.to_nat w) v) rest).
Proof. intros. apply read_or_zero_reads, ReadBytesToUInt64_reads'; lia. Qed.

Section sender.
Context {SM : QuicSentPacketManager}.
Import NsQuicSender.

Lemma write_header_bytes size seq type :
  8 <= size ->
  write_header size seq type =
  writer_at NET (wire_public seq ++ [type]) (replicate (Z.to_nat (size - (2 + seq_width seq))) 0).
Proof.
  intros Hs. unfold write_header. pose proof (seq_width_bounds seq) as Hw.
  change (make_writer ?b NET) with (writer_at NET [] b).
  rewrite (snd_writes _ _ _ _ _ (WriteBytes_writes NET [public_flags (seq_width seq)])) by (rewrite length_replicate; cbn; lia).
  cbn [length app]. rewrite drop_replicate.
  rewrite (snd_writes _ _ _ _ _ (WriteBytesToUInt64_writes' NET (seq_width seq) seq ltac:(lia)))
    by (rewrite length_replicate, length_wire_uint; lia).
  rewrite drop_replicate, length_wire_uint.
  rewrite (snd_writes _ _ _ _ _ (WriteBytes_writes NET [type])) by (rewrite length_replicate; cbn; lia).
  rewrite drop_replicate. cbn [length]. do 2 f_equal. lia.
Qed.

(** The datagram of a data packet. *)
Lemma stream_datagram_bytes now seq :
  stream_datagram now seq =
  wire_public seq ++ [NsQuicReceiver.STREAM_FRAME] ++ wire_uint NET 4 (u32 (ToMilliseconds (time_sub now 0))) ++
  replicate (Z.to_nat (994 - seq_width seq)) 0.
Proof.
  unfold stream_datagram. rewrite write_header_bytes by (unfold kPaddingSize; lia). unfold kPaddingSize.
  pose proof (seq_width_bounds seq) as Hw.
  rewrite (snd_writes _ _ _ _ _ (WriteUInt32_writes NET (u32 (ToMilliseconds (time_sub now 0)))))
    by (rewrite length_replicate, length_wire_uint; lia).
  rewrite drop_replicate, length_wire_uint. cbn [buffer_ writer_at]. rewrite <- !app_assoc. do 4 f_equal. lia.
Qed.

Lemma length_stream_datagram now seq : length (stream_datagram now seq) = 1000%nat.
Proof.
  rewrite stream_datagram_bytes, !length_app, length_wire_uint, length_replicate.
  pose proof (length_wire_public seq). pose proof (seq_width_bounds seq). cbn [length]. lia.
Qed.
End sender.

(** * The receiver's parser *)

Lemma parse_public seq type rest :
  0 <= seq < 2 ^ 48 -> fits 8 type ->
  NsQuicReceiver.parse (wire_public seq ++ [type] ++ rest) =
  let reader := reader_at NET (wire_public seq ++ [type]) rest in
  NsQuicReceiver.mkDatagram seq type (read_or_zero 0 ReadUInt32 reader).1
    (read_or_zero 0 (ReadBytesToUInt64 (seq_width seq)) reader).1.
Proof.
  intros Hs Ht. unfold NsQuicReceiver.parse. change (make_reader ?b NET) with (reader_at NET [] b).
  unfold wire_public at 1. cbn [app]. rewrite read_flags. cbv iota beta. rewrite flags_width.
  pose proof (seq_width_bounds seq). pose proof (Header.GetMinSeqLength_enough seq Hs).
  rewrite read_seq by lia. cbv iota beta. rewrite read_flags. cbv zeta.
  unfold wire_public. cbn [app le_val]. f_equal. lia.
Qed.

Section exchange.
Context {SM : QuicSentPacketManager}.

(** A data packet is read back with its number and the time it was sent. *)
Lemma parse_stream_datagram now seq :
  0 <= seq < 2 ^ 48 ->
  exists least, NsQuicReceiver.parse (NsQuicSender.stream_datagram now seq) =
    NsQuicReceiver.mkDatagram seq NsQuicReceiver.STREAM_FRAME (u32 (ToMilliseconds (time_sub now 0))) least.
Proof.
  intros Hs. rewrite stream_datagram_bytes, parse_public by done. cbv zeta. eexists. f_equal.
  rewrite (read_or_zero_reads 0 ReadUInt32 _ (u32 (ToMilliseconds (time_sub now 0)))); [done|].
  apply ReadUInt32_reads, wrap_fits. lia.
Qed.

(** The datagram of [SendStopWaitingFrame]. *)
Definition stop_waiting_datagram (seq least : Z) : list Z :=
  wire_public seq ++ [NsQuicReceiver.STOP_WAITING_FRAME] ++ wire_uint NET (Z.to_nat (seq_width seq)) least.

Lemma SendStopWaitingFrame_bytes (s : NsQuicSender.NsQuicSender) :
  let least := spm_GetLeastUnacked (NsQuicSender.sent_packet_manager_ s) in
  NsQuicSender.SendStopWaitingFrame s =
  NsQuicSender.SendToNetwork (stop_waiting_datagram (NsQuicSender.seq_ s) least)
    (NsQuicSender.set_stop_waiting_count 0 s).
Proof.
  cbv zeta. unfold NsQuicSender.SendStopWaitingFrame.
  rewrite write_header_bytes by (unfold NsQuicSender.kMaxBufferSize; lia). unfold NsQuicSender.kMaxBufferSize.
  cbn [NsQuicSender.sent_packet_manager_ NsQuicSender.seq_ NsQuicSender.set_stop_waiting_count].
  set (least := spm_GetLeastUnacked _). pose proof (seq_width_bounds (NsQuicSender.seq_ s)) as Hw.
  rewrite (snd_writes _ _ _ _ _ (WriteBytesToUInt64_writes' NET (seq_width (NsQuicSender.seq_ s)) least ltac:(lia)))
    by (rewrite length_replicate, length_wire_uint; lia).
  rewrite written_writer_at. unfold stop_waiting_datagram. by rewrite <- app_assoc.
Qed.

Lemma parse_stop_waiting seq least :
  0 <= seq < 2 ^ 48 -> 0 <= least <= seq ->
  exists ts, NsQuicReceiver.parse (stop_waiting_datagram seq least) =
    NsQuicReceiver.mkDatagram seq NsQuicReceiver.STOP_WAITING_FRAME ts least.
Proof.
  intros Hs Hl. unfold stop_waiting_datagram. rewrite parse_public by done. cbv zeta. eexists. f_equal.
  rewrite <- (app_nil_r (wire_uint NET _ least)).
  pose proof (seq_width_bounds seq). pose proof (Header.GetMinSeqLength_enough seq Hs).
  rewrite read_seq by lia. done.
Qed.
End exchange.

(** * Acknowledgements *)

Section acks.
Context {HM : HandshakeMessages} {CI : Ciphers} {VL : VersionLabels}.
Context (WriteUInt8AtOffset : Z -> Z -> M QuicDataWriter unit) (stack : list Z).
Context (null_decrypter : Decrypter) (null_encrypter : Encrypter).

Abbreviation v43 := (mkVersion PROTOCOL_QUIC_CRYPTO 43).

(** The ack frame in the room the receiver leaves to it. *)
Definition wire_ack_frame (room : Z) (frame : QuicAckFrame) : list Z :=
  ack_type 43 frame :: wire_ack NET 43 (ack_num 43 room frame) frame.

Lemma ack_lengths_bound frame : 1 <= (ack_lengths 43 frame).2 <= 8 /\ 0 <= ack_fixed_size 43 frame <= 21.
Proof.
  unfold ack_fixed_size, ack_lengths. cbv beta iota. cbn [snd]. unfold GetMinAckFrameSize.
  pose proof (valid_length_bounds _ (min_length_valid 43 (largest_acked frame))).
  pose proof (valid_length_bounds _ (min_length_valid 43 (max_block_length (GetAckFrameInfo frame)))).
  unfold kQuicFrameTypeSize, kQuicDeltaTimeLargestObservedSize, kQuicNumTimestampsSize, kNumberOfAckBlocksSize.
  destruct (negb _); lia.
Qed.

(** A buffer of 1493 bytes or more leaves out no block up to the 150th. *)
Lemma ack_num_room room frame :
  ack_frame_ok 43 frame -> 1493 <= room < 2 ^ 31 ->
  let num := ack_num 43 room frame in
  (num = 0 -> num_ack_blocks (GetAckFrameInfo frame) = 0) /\
  (num_ack_blocks (GetAckFrameInfo frame) <= 150 -> num = Z.of_nat (length (ack_blocks frame)) /\ num < 255).
Proof.
  intros Hok Hr. pose proof (ack_lengths_bound frame) as [Hl Hf].
  pose proof (ack_num_spec 43 room frame Hok ltac:(lia)) as Hs. cbv zeta in *.
  destruct (ack_lengths 43 frame) as [la lb]. cbn [snd] in Hl.
  destruct (ack_info_ok _ _ Hok) as (_ & _ & _ & _ & _ & _ & _ & Hn & Hn' & _).
  destruct Hs as (? & ? & ? & ? & [?|[?|?]]); split; intros; try lia; nia.
Qed.

Lemma drop_length_app {A} n (l1 l2 : list A) : n = length l1 -> drop n (l1 ++ l2) = l2.
Proof. intros ->. apply drop_app_length. Qed.

(** The datagram of [SendAck], for a frame whose bytes are [bs] in the room that is left. *)
Lemma SendAck_frame {VI : MyQuicFramerVisitorInterface} (no_visitor : Visitor) now (s : NsQuicReceiver.NsQuicReceiver) frame manager bs :
  length stack = 1500%nat -> NsQuicReceiver.versions_ s = [v43] ->
  GetUpdatedAckFrame now (NsQuicReceiver.recv_packet_manager_ s) = (frame, manager) ->
  (forall f tl, version_ f = v43 -> use_incremental_ack_processing_ f = true ->
   Z.of_nat (length tl) = 1499 - seq_width (NsQuicReceiver.seq_ s) -> exists tl',
   AppendAckFrameAndTypeByte WriteUInt8AtOffset frame (mkW f (writer_at NET [] tl)) =
     (Some tt, mkW f (writer_at NET bs tl'))) ->
  NsQuicReceiver.SendAck no_visitor null_decrypter null_encrypter WriteUInt8AtOffset stack now s =
  s <| NsQuicReceiver.recv_packet_manager_ := manager |>
    <| NsQuicReceiver.outputs_ := NsQuicReceiver.outputs_ s ++
         [NsQuicReceiver.SendTo (wire_public (NsQuicReceiver.seq_ s) ++ bs) (NsQuicReceiver.peer_ s)] |>
    <| NsQuicReceiver.ack_sent_ := true |>
    <| NsQuicReceiver.m_num_packets_received_since_last_ack_sent := 0 |>.
Proof.
  intros Hst Hv Hg Hbs. unfold NsQuicReceiver.SendAck. rewrite Hg. cbv zeta iota beta.
  unfold NsQuicReceiver.SendToNetwork, NsQuicReceiver.output.
  cbn -[take drop make_writer WriteBytes WriteBytesToUInt64 AppendAckFrameAndTypeByte Z.add Z.sub wire_public Header.GetMinSeqLength public_flags].
  rewrite Hv. set (w := seq_width (NsQuicReceiver.seq_ s)) in *.
  pose proof (seq_width_bounds (NsQuicReceiver.seq_ s)) as Hw. fold w in Hw.
  set (f := MyQuicFramer_ctor _ _ _ _ _ _).
  change (make_writer ?b NET) with (writer_at NET [] b).
  rewrite (snd_writes _ _ _ _ _ (WriteBytes_writes NET [public_flags w])) by (rewrite length_take; cbn [length]; lia).
  rewrite (snd_writes _ _ _ _ _ (WriteBytesToUInt64_writes' NET w (NsQuicReceiver.seq_ s) ltac:(lia)))
    by (rewrite length_wire_uint, length_drop, length_take; cbn [length]; lia).
  destruct (Hbs f (drop (Z.to_nat (1 + w)) stack)) as [tl' ->]; [done|done|rewrite length_drop; lia|].
  cbn [snd wr buffer_ length_ writer_at]. rewrite (drop_ge _ (length (wire_uint _ _ _))).
  2:{ rewrite length_drop, length_take, length_wire_uint. cbn [length]. lia. }
  rewrite app_nil_r. repeat f_equal. cbn [app]. rewrite app_comm_cons.
  change (public_flags w :: wire_uint NET (Z.to_nat w) (NsQuicReceiver.seq_ s)) with (wire_public (NsQuicReceiver.seq_ s)).
  pose proof (length_wire_public (NsQuicReceiver.seq_ s)) as Hlp. fold w in Hlp.
  rewrite app_assoc. apply take_app_length'. rewrite length_app. lia.
Qed.

Lemma SendAck_bytes {VI : MyQuicFramerVisitorInterface} (no_visitor : Visitor) now (s : NsQuicReceiver.NsQuicReceiver) frame manager :
  length stack = 1500%nat -> NsQuicReceiver.versions_ s = [v43] ->
  GetUpdatedAckFrame now (NsQuicReceiver.recv_packet_manager_ s) = (frame, manager) ->
  ack_frame_ok 43 frame ->
  NsQuicReceiver.SendAck no_visitor null_decrypter null_encrypter WriteUInt8AtOffset stack now s =
  s <| NsQuicReceiver.recv_packet_manager_ := manager |>
    <| NsQuicReceiver.outputs_ := NsQuicReceiver.outputs_ s ++
         [NsQuicReceiver.SendTo
            (wire_public (NsQuicReceiver.seq_ s) ++ wire_ack_frame (1499 - seq_width (NsQuicReceiver.seq_ s)) frame)
            (NsQuicReceiver.peer_ s)] |>
    <| NsQuicReceiver.ack_sent_ := true |>
    <| NsQuicReceiver.m_num_packets_received_since_last_ack_sent := 0 |>.
Proof.
  intros Hst Hv Hg Hok. apply (SendAck_frame no_visitor now s frame); [done..|]. intros f tl Ef Hi Hl. eexists.
  rewrite (AppendAck_bytes WriteUInt8AtOffset NET f frame) ; rewrite ?Ef; [|done|done|].
  - unfold wire_ack_frame. rewrite <- Hl. done.
  - pose proof (seq_width_bounds (NsQuicReceiver.seq_ s)). pose proof (ack_lengths_bound frame). cbn [transport_version]. lia.
Qed.

(** ** The sender's side *)

Context {SM : QuicSentPacketManager}.
#[local] Existing Instance NsQuicSender.SenderVisitor.
Abbreviation Sender := NsQuicSender.NsQuicSender.

(** The sender is told of an acknowledgement. *)
Definition told (largest delay : Z) (ranges : list (Z * Z * bool)) (s : Sender) : Sender :=
  fold_left (fun s '(lo, hi, is_last) => (NsQuicSender.OnAckRange lo hi is_last s).2) ranges
    (NsQuicSender.OnAckFrameStart largest delay s).2.

(** It never refuses one. *)
Lemma sender_feed ranges (s : Sender) :
  feed ranges (s : Visitor) =
  Some (fold_left (fun s '(lo, hi, is_last) => (NsQuicSender.OnAckRange lo hi is_last s).2) ranges s).
Proof.
  revert s. induction ranges as [|[[lo hi] l] ranges IH]; intros s; [done|]. cbn [feed fold_left].
  change (@FramerTypes.OnAckRange _ NsQuicSender.SenderVisitor lo hi l s) with (NsQuicSender.OnAckRange lo hi l s).
  unfold NsQuicSender.OnAckRange. destruct l; cbn [negb]; [|apply IH].
  destruct (spm_OnAckFrameEnd _ _) as [b m]. apply IH.
Qed.

Lemma sender_ack_feed largest delay ranges (s : Sender) :
  ack_feed largest delay ranges (s : Visitor) = Some (told largest delay ranges s).
Proof.
  unfold ack_feed, told.
  change (@FramerTypes.OnAckFrameStart _ NsQuicSender.SenderVisitor largest delay s)
    with (NsQuicSender.OnAckFrameStart largest delay s).
  destruct (NsQuicSender.OnAckFrameStart largest delay s) as [b s'] eqn:E.
  assert (b = true) as -> by (unfold NsQuicSender.OnAckFrameStart in E; congruence). apply sender_feed.
Qed.

Lemma frame_data_public seq rest :
  Z.of_nat (length (wire_public seq ++ rest)) <= 1500 ->
  NsQuicSender.frame_data (wire_public seq ++ rest) = Some rest.
Proof.
  intros Hl. unfold NsQuicSender.frame_data. pose proof (length_wire_public seq) as Hp.
  rewrite (proj2 (Z.ltb_ge _ _)) by (unfold NsQuicSender.kMaxBufferSize; lia).
  change (make_reader ?b NET) with (reader_at NET [] b). unfold wire_public at 1. cbn [app].
  rewrite read_flags. cbv iota beta. rewrite flags_width.
  rewrite (proj2 (Z.ltb_ge _ _)) by (rewrite length_app in *; lia).
  f_equal. apply drop_length_app. lia.
Qed.

Lemma wire_ack_frame_fits room frame :
  ack_frame_ok 43 frame -> 1493 <= room < 2 ^ 31 -> Z.of_nat (length (wire_ack_frame room frame)) <= room.
Proof. intros Hok Hr. apply wire_ack_fits; [done|]. pose proof (ack_lengths_bound frame). lia. Qed.

Lemma OnIncomingData_ack now seq frame (s : Sender) :
  NsQuicSender.running_ s = true -> NsQuicSender.versions_ s = [v43] -> ack_frame_ok 43 frame ->
  let room := 1499 - seq_width seq in
  NsQuicSender.OnIncomingData null_decrypter null_encrypter now (wire_public seq ++ wire_ack_frame room frame) s =
  Some (told (largest_acked frame) (received_delay (ack_delay_time frame))
          (ack_ranges (ack_num 43 room frame) frame) (NsQuicSender.set_received now s)).
Proof.
  intros Hrun Hv Hok room. pose proof (seq_width_bounds seq) as Hw.
  pose proof (wire_ack_frame_fits room frame Hok ltac:(unfold room; lia)) as Hfit.
  pose proof (length_wire_public seq) as Hp. pose proof (ack_lengths_bound frame) as [_ Hfix].
  unfold NsQuicSender.OnIncomingData. rewrite Hrun. cbn [negb].
  rewrite frame_data_public by (rewrite length_app; unfold room in *; lia). cbn [mbind option_bind].
  change (NsQuicSender.versions_ (NsQuicSender.set_received now s)) with (NsQuicSender.versions_ s). rewrite Hv.
  set (s1 := NsQuicSender.set_received now s). set (f := MyQuicFramer_ctor _ _ _ _ _ _).
  pose proof (ProcessFrameData_delivers NET f f emptyHeader emptyHeader [ACK_FRAME frame] room
    (told (largest_acked frame) (received_delay (ack_delay_time frame)) (ack_ranges (ack_num 43 room frame) frame) s1)) as H.
  cbv zeta in H. cbn [payload] in H. rewrite app_nil_r in H. change (wire_frame NET f emptyHeader room _ _) with (wire_ack_frame room frame) in H.
  rewrite H; try done; clear H.
  - unfold valid_length. cbn. set_solver.
  - cbn [frames_ok is_padding]. change (wire_frame NET f emptyHeader room _ _) with (wire_ack_frame room frame).
    split_and!; try done. cbn [frame_ok]. change (transport_version (version_ f)) with 43.
    split_and!; [done|unfold room; lia..|]. apply ack_num_room; [done|unfold room; lia].
  - cbn [deliver_all deliver]. change (transport_version (version_ f)) with 43. change (visitor_ f) with (s1 : Visitor).
    rewrite sender_ack_feed. done.
Qed.
End acks.
