(* ===== verification/EmptyAcks.v ===== *)
(** Acknowledgements of nothing.  A receiver whose queue of received packets has been
    emptied still sends an ack frame when its alarm expires: its bytes, and what the
    sender's framer and visitor make of them. *)
From stdpp Require Import gmap list_numbers.
From S2P Require Import Prelude.
From S2P Require Import DataReader.
From S2P Require Import DataWriter.
From S2P Require Import Encodings.
From S2P Require Import PacketNumbers.
From S2P Require Import PacketNumberQueue.
From S2P Require Import FramerTypes.
From S2P Require Import GoogleFrames.
From S2P Require Import AckFrames.
From S2P Require Import AckRoundTrip.
From S2P Require Import PacketHeader.
From S2P Require Import Framer.
From S2P Require Import PacketRoundTrip.
From S2P Require Import QuicUnits.
From S2P Require Import WindowedFilter.
From S2P Require Import Sampler.
From S2P Require Import ReceivedPackets.
From S2P Require Import ReceiverApp.
From S2P Require Import SenderApp.
From S2P Require Import Datagrams.

Open Scope string_scope.
Open Scope list_scope.
Open Scope Z_scope.

(** * The bytes *)

Section bytes.
Context {HM : HandshakeMessages} {VI : MyQuicFramerVisitorInterface} {CI : Ciphers}.
Context (WriteUInt8AtOffset : Z -> Z -> M QuicDataWriter unit).

Lemma no_blocks frame : packets frame = [] -> GetAckFrameInfo frame = mkInfo 0 0 0.
Proof. intros E. unfold GetAckFrameInfo. by rewrite E. Qed.

Lemma no_blocks_fit version room la lb : ack_blocks_that_fit version room (mkInfo 0 0 0) la lb = 0.
Proof.
  unfold ack_blocks_that_fit. cbn [num_ack_blocks Z.eqb negb].
  set (q := Z.quot _ _). pose proof (wrap_fits 64 q ltac:(lia)) as [Hq _].
  rewrite Z.min_l by exact Hq. done.
Qed.

(** An ack frame without packets takes the fixed part only. *)
Lemma AppendAck_empty e f frame :
  let version := transport_version (version_ f) in
  packets frame = [] -> use_incremental_ack_processing_ f = true ->
  writes e (mkW f) (AppendAckFrameAndTypeByte WriteUInt8AtOffset frame)
    (ack_type version frame :: wire_ack e version 0 frame) tt.
Proof.
  intros version Hp Hi. unfold AppendAckFrameAndTypeByte, ack_type, wire_ack, ack_lengths, ack_blocks.
  rewrite (no_blocks frame Hp), Hp. cbn [num_ack_blocks first_block_length max_block_length reverse rev_append].
  change (0 <? 0) with false. change (negb (0 =? 0)) with false. rewrite firstn_nil.
  eapply writes_bind_0; [by apply (writes_gets e (mkW f) _ version)|].
  eapply writes_bind_0; [by apply (writes_gets e (mkW f) _ (not_v41 f))|].
  eapply writes_bind_0; [by apply (writes_gets e (mkW f) _ true)|].
  apply writes_gets_any. intros room. unfold not_v41, LargestAcked. fold version.
  set (pre := negb (version =? QUIC_VERSION_41)). set (la := GetMinPacketNumberLength version (largest_acked frame)).
  set (lb := GetMinPacketNumberLength version 0). rewrite no_blocks_fit. change (0 <? 0) with false.
  assert (Hla : valid_length la) by apply min_length_valid.
  assert (Hlb : valid_length lb) by apply min_length_valid.
  destruct (ack_type_bits pre false la lb Hla Hlb) as (Ht & _). cbv zeta.
  change (?t :: ?x) with ([t] ++ x).
  eapply writes_bind; [by apply writes_write, WriteUInt8_writes|].
  apply (writes_v41_counts e f pre (mret tt) []); [apply writes_ret|]. intros off.
  eapply writes_bind; [by apply writes_write, AppendPacketNumber_writes|].
  eapply writes_bind; [apply writes_write, WriteUFloat16_writes|].
  eapply (writes_bind _ _ _ _ (if pre then [] else [])).
  { instantiate (1 := tt). destruct pre; apply writes_ret. }
  eapply writes_bind; [by apply writes_write, AppendPacketNumber_writes|].
  eapply (writes_bind _ _ _ _ []); [apply writes_ret|].
  apply writes_gets_any. intros room_left. cbn [negb andb].
  apply writes_if; [|apply writes_ret].
  rewrite le_bytes_1 by (unfold fits; lia). apply writes_write, WriteBytes_writes.
Qed.

(** * The parser *)

Lemma bind_mret {A B} (a : A) (k : A -> M PState B) s : (mret a ≫= k) s = k a s.
Proof. done. Qed.

Lemma bind_reads {A B} e i1 i2 (m : M PState A) (k : A -> M PState B) bs a pre rest :
  reads2 e i1 i2 m bs a ->
  (m ≫= k) (i1 (reader_at e pre (bs ++ rest))) = k a (i2 (reader_at e (pre ++ bs) rest)).
Proof. intros [Hr _]. unfold mbind, M_bind. by rewrite Hr. Qed.

(** The parser reports the start of the frame and then rejects the first block, which is
    empty although the largest acked packet is not zero. *)
Lemma ProcessAck_empty e f frame before v :
  transport_version (version_ f) = 43 -> use_incremental_ack_processing_ f = true ->
  packets frame = [] -> 0 < largest_acked frame < 2 ^ 48 ->
  OnAckFrameStart (largest_acked frame) (received_delay (ack_delay_time frame)) (visitor_ f) = (true, v) ->
  exists msg r, ProcessAckFrame (ack_type 43 frame) emptyAckFrame (mkP f (reader_at e before (wire_ack e 43 0 frame))) =
    (None, mkP (set_detailed_error msg (set_visitor v f)) r).
Proof.
  intros Hv Hi Hp Hl Hstart. pose proof (ack_type_read 43 frame) as Ht.
  pose proof (ack_delay_fits (ack_delay_time frame)) as Hd.
  unfold ProcessAckFrame, wire_ack, ack_lengths, ack_blocks in *.
  rewrite (no_blocks frame Hp), Hp in *. cbn [num_ack_blocks first_block_length max_block_length reverse rev_append] in *.
  change (negb (43 =? QUIC_VERSION_41)) with true in *. change (0 <? 0) with false. cbn [app].
  set (la := GetMinPacketNumberLength 43 (largest_acked frame)) in *.
  destruct Ht as (Hm & Elb & Ela & Hla%valid_length_bounds & _).
  rewrite !gets_bind. unfold not_v41. cbn [fr]. rewrite Hv, Hi. change (negb (43 =? QUIC_VERSION_41)) with true.
  cbv zeta iota. rewrite Hm, Elb, Ela. change (GetMinPacketNumberLength 43 0) with 1. cbn [negb andb Z.eqb].
  assert (Hen : largest_acked frame < 256 ^ la) by (apply GetMinPacketNumberLength_enough; unfold fits; change (43 =? QUIC_VERSION_41) with false; lia).
  rewrite bind_mret.
  rewrite bind_mret.
  erewrite (bind_reads e (mkP f) (mkP f)); [|apply reads_reading, ReadBytesToUInt64_reads'; lia].
  erewrite (bind_reads e (mkP f) (mkP f)); [|by apply reads_reading, ReadUFloat16_reads].
  change (ack_delay_of_wire (ufloat16_decode ?d)) with (received_delay (ack_delay_time frame)).
  match goal with |- context [(_ ≫= ?k) (mkP f (reader_at e ?p ?r))] =>
    change (reader_at e p r) with (reader_at e p ([] ++ r)) end.
  erewrite (bind_reads e (mkP f) (mkP (set_visitor v f))); [|by apply reads_ack_callback].
  rewrite bind_mret.
  erewrite (bind_reads e (mkP (set_visitor v f)) (mkP (set_visitor v f)));
    [|apply reads_reading, (ReadBytesToUInt64_reads' e 1 0); lia].
  rewrite Z.eqb_refl, (proj2 (Z.eqb_neq _ _)) by lia. cbn [negb andb orb].
  eexists _, _. reflexivity.
Qed.
End bytes.

(** * The two applications *)

Section apps.
Context {HM : HandshakeMessages} {CI : Ciphers} {VL : VersionLabels}.
Context (WriteUInt8AtOffset : Z -> Z -> M QuicDataWriter unit) (stack : list Z).
Context (null_decrypter : Decrypter) (null_encrypter : Encrypter).
Import QuicReceivedPacketManager.
Abbreviation v43 := (mkVersion PROTOCOL_QUIC_CRYPTO 43).

Definition wire_empty_ack (frame : QuicAckFrame) : list Z := ack_type 43 frame :: wire_ack NET 43 0 frame.

Lemma length_wire_empty frame : packets frame = [] -> Z.of_nat (length (wire_empty_ack frame)) <= 20.
Proof.
  intros Hp. unfold wire_empty_ack, wire_ack, ack_lengths, ack_blocks. rewrite (no_blocks frame Hp), Hp.
  pose proof (valid_length_bounds _ (min_length_valid 43 (largest_acked frame))) as Hla.
  cbn [length]. rewrite !length_app, !length_wire_uint. cbn -[Z.of_nat Z.to_nat GetMinPacketNumberLength]. change (GetMinPacketNumberLength 43 0) with 1.
  change (length (wire_blocks _ _ _)) with 0%nat. lia.
Qed.

(** The heart beat of a receiver whose queue is empty sends such a frame. *)
Lemma SendAck_empty {VI : MyQuicFramerVisitorInterface} (no_visitor : Visitor) now (r : NsQuicReceiver.NsQuicReceiver) :
  let '(frame, manager) := GetUpdatedAckFrame now (NsQuicReceiver.recv_packet_manager_ r) in
  length stack = 1500%nat -> NsQuicReceiver.versions_ r = [v43] -> packets frame = [] ->
  NsQuicReceiver.outputs_ (NsQuicReceiver.SendAck no_visitor null_decrypter null_encrypter WriteUInt8AtOffset stack now r) =
    NsQuicReceiver.outputs_ r ++
    [NsQuicReceiver.SendTo (wire_public (NsQuicReceiver.seq_ r) ++ wire_empty_ack frame) (NsQuicReceiver.peer_ r)].
Proof.
  destruct (GetUpdatedAckFrame now (NsQuicReceiver.recv_packet_manager_ r)) as [frame manager] eqn:E. intros Hst Hv Hp.
  rewrite (SendAck_frame WriteUInt8AtOffset stack null_decrypter null_encrypter no_visitor now r frame manager
             (wire_empty_ack frame) Hst Hv E); [done|].
  intros f tl Ef Hi Hl. eexists. pose proof (AppendAck_empty WriteUInt8AtOffset NET f frame) as Hw. cbv zeta in Hw.
  rewrite Ef in Hw. specialize (Hw Hp Hi [] tl).
  pose proof (length_wire_empty frame Hp) as Hlen. pose proof (seq_width_bounds (NsQuicReceiver.seq_ r)).
  rewrite decide_True in Hw by (unfold wire_empty_ack in Hlen; cbn [transport_version]; lia). exact Hw.
Qed.

Context {SM : QuicSentPacketManager}.
#[local] Existing Instance NsQuicSender.SenderVisitor.

(** The sender notes the start of the frame and drops the rest. *)
Lemma OnIncomingData_empty now seq frame (s : NsQuicSender.NsQuicSender) :
  NsQuicSender.running_ s = true -> NsQuicSender.versions_ s = [v43] ->
  packets frame = [] -> 0 < largest_acked frame < 2 ^ 48 ->
  NsQuicSender.OnIncomingData null_decrypter null_encrypter now (wire_public seq ++ wire_empty_ack frame) s =
  Some (NsQuicSender.OnAckFrameStart (largest_acked frame) (received_delay (ack_delay_time frame))
          (NsQuicSender.set_received now s)).2.
Proof.
  intros Hrun Hv Hp Hl. pose proof (length_wire_empty frame Hp) as Hlen. pose proof (length_wire_public seq) as Hpub.
  pose proof (seq_width_bounds seq). unfold NsQuicSender.OnIncomingData. rewrite Hrun. cbn [negb].
  rewrite frame_data_public by (rewrite length_app; lia). cbn [mbind option_bind].
  change (NsQuicSender.versions_ (NsQuicSender.set_received now s)) with (NsQuicSender.versions_ s). rewrite Hv.
  set (s1 := NsQuicSender.set_received now s). set (f := MyQuicFramer_ctor _ _ _ _ _ _).
  set (v := (NsQuicSender.OnAckFrameStart (largest_acked frame) (received_delay (ack_delay_time frame)) s1).2).
  assert (Hstart : FramerTypes.OnAckFrameStart (largest_acked frame) (received_delay (ack_delay_time frame)) (visitor_ f)
    = (true, v : Visitor)) by reflexivity.
  destruct (ProcessAck_empty NET f frame [ack_type 43 frame] v) as (msg & r & E); [done..|].
  destruct (type_byte_ack 43 frame) as (Hfit & _ & Hsp & Hst & Hack).
  unfold wire_empty_ack in *. unfold ProcessFrameData. change (make_reader ?b NET) with (reader_at NET [] b).
  rewrite gets_bind. cbn [rd].
  assert (Hd : forall l x, IsDoneReading (reader_at NET [] (x :: l)) = false)
    by (intros; unfold IsDoneReading; cbn; apply Z.eqb_neq; lia).
  rewrite Hd. change ((fail_if false ?h ≫= ?k) ?s) with (k tt s). cbv beta. rewrite gets_bind. cbn [rd].
  unfold BytesRemaining. rewrite remaining_reader_at, Nat2Z.id. cbn [length]. rewrite frames_loop_step. cbn [rd]. rewrite Hd.
  rewrite <- (app_nil_r (_ :: wire_ack _ _ _ _)), frame_step_type, app_nil_r by done.
  rewrite process_frame_special by done. cbn [fr app]. change (transport_version (version_ f)) with 43. rewrite Hst, Hack.
  unfold mbind at 1, M_bind at 1. unfold or_fail. rewrite E. reflexivity.
Qed.
End apps.
