(* ===== verification/AckPolicy.v ===== *)
(** The receiving application over time: how long an acknowledgement may be delayed,
    and which packets the loss trace reports. *)
From stdpp Require Import gmap list_numbers.
From S2P Require Import Prelude.
From S2P Require Import DataReader.
From S2P Require Import DataWriter.
From S2P Require Import PacketNumbers.
From S2P Require Import FramerTypes.
From S2P Require Import AckFrames.
From S2P Require Import Framer.
From S2P Require Import QuicUnits.
From S2P Require Import WindowedFilter.
From S2P Require Import Sampler.
From S2P Require Import PacketNumberQueue.
From S2P Require Import ReceivedPackets.
From S2P Require Import ReceiverApp.

Import QuicReceivedPacketManager NsQuicReceiver.
Open Scope Z_scope.

Section policy.
Context {HM : HandshakeMessages} {VI : MyQuicFramerVisitorInterface} {CI : Ciphers}.
Context (no_visitor : Visitor) (null_decrypter : Decrypter) (null_encrypter : Encrypter).
Context (WriteUInt8AtOffset : Z -> Z -> M QuicDataWriter unit) (stack : list Z).

Abbreviation send_ack := (SendAck no_visitor null_decrypter null_encrypter WriteUInt8AtOffset stack).
Abbreviation maybe_send_ack := (MaybeSendAck no_visitor null_decrypter null_encrypter WriteUInt8AtOffset stack).
Abbreviation stream_packet := (on_stream_packet no_visitor null_decrypter null_encrypter WriteUInt8AtOffset stack).
Abbreviation recv_packet := (RecvPacket no_visitor null_decrypter null_encrypter WriteUInt8AtOffset stack).
Abbreviation heart_beat := (HeartBeat no_visitor null_decrypter null_encrypter WriteUInt8AtOffset stack).

(** * Effects of the handlers on the policy's fields *)

Definition is_datagram (o : Output) : bool := match o with SendTo _ _ => true | _ => false end.
Definition datagrams (s : NsQuicReceiver) : nat := length (filter (fun o => is_datagram o = true) (outputs_ s)).

(** [s'] differs from [s] in other fields than those of the policy. *)
Definition same_policy (s s' : NsQuicReceiver) : Prop :=
  running_ s' = running_ s /\ ack_alarm_ s' = ack_alarm_ s /\ unacked s' = unacked s /\
  heart_timer_ s' = heart_timer_ s /\ heart_beat_t_ s' = heart_beat_t_ s /\ datagrams s' = datagrams s /\
  received_ s' = received_ s /\ ack_frame_updated (recv_packet_manager_ s') = ack_frame_updated (recv_packet_manager_ s).

Lemma same_policy_trans s1 s2 s3 : same_policy s1 s2 -> same_policy s2 s3 -> same_policy s1 s3.
Proof. unfold same_policy. intros (?&?&?&?&?&?&?&?) (?&?&?&?&?&?&?&?). split_and!; congruence. Qed.

Lemma same_policy_output o s : is_datagram o = false -> same_policy s (output o s).
Proof.
  intros Ho. unfold same_policy, output, datagrams. cbn. split_and!; try done.
  rewrite filter_app, length_app, filter_cons_False by congruence. cbn. lia.
Qed.

Lemma same_policy_RecordLoss n s : same_policy s (RecordLoss n s).
Proof. unfold RecordLoss. destruct (trace_loss_cb_ s); [by apply same_policy_output|done]. Qed.
Lemma same_policy_RecordOwd n d s : same_policy s (RecordOwd n d s).
Proof. unfold RecordOwd. destruct (trace_owd_cb_ s); [by apply same_policy_output|done]. Qed.
Lemma same_policy_RecordRate t s : same_policy s (RecordRate t s).
Proof.
  unfold RecordRate. destruct (_ =? 0); [done|]. destruct (_ <? t); [|done]. cbn -[output].
  destruct (trace_rate_cb_ s); [|done]. change (same_policy s (output (TraceRate (u32 (u64 (recv_byte_ s * 8) / 500))) s)).
  by apply same_policy_output.
Qed.
Lemma same_policy_losses l s : same_policy s (fold_left (fun s i => RecordLoss (u32 i) s) l s).
Proof.
  revert s. induction l as [|i l IH]; intros s; [done|]. cbn [fold_left].
  eapply same_policy_trans; [apply same_policy_RecordLoss|apply IH].
Qed.

(** [SendAck] sends one datagram and starts counting anew. *)
Lemma SendAck_policy now s :
  let s' := send_ack now s in
  unacked s' = 0 /\ ack_alarm_ s' = ack_alarm_ s /\ running_ s' = running_ s /\
  heart_timer_ s' = heart_timer_ s /\ heart_beat_t_ s' = heart_beat_t_ s /\ datagrams s' = S (datagrams s).
Proof.
  cbv zeta. unfold SendAck. destruct (GetUpdatedAckFrame now (recv_packet_manager_ s)) as [frame manager].
  cbv zeta. unfold SendToNetwork, output, datagrams.
  cbn -[AppendAckFrameAndTypeByte WriteBytes WriteBytesToUInt64 take drop filter]. split_and!; try done.
  rewrite filter_app, length_app, filter_cons_True by done. cbn. lia.
Qed.

Definition ack_delay_us : Z := 25000.

Lemma MaybeSendAck_policy now s :
  0 <= now < 2 ^ 62 ->
  let s' := maybe_send_ack now s in
  running_ s' = running_ s /\ heart_timer_ s' = heart_timer_ s /\ heart_beat_t_ s' = heart_beat_t_ s /\
  ((unacked s' = 0 /\ ack_alarm_ s' = ack_alarm_ s /\ datagrams s' = S (datagrams s)) \/
   (unacked s' = unacked s /\ unacked s < 10 /\ datagrams s' = datagrams s /\
    ack_alarm_ s' = if 0 <? ack_alarm_ s then ack_alarm_ s else now + ack_delay_us)).
Proof.
  intros Hn. cbv zeta. unfold MaybeSendAck. pose proof (SendAck_policy now s) as (?&?&?&?&?&?). cbv zeta in *.
  destruct (received_ s <? _); [split_and!; try done; by left|].
  destruct (Z.leb_spec mMaxRetransmittablePacketsBeforeAck (unacked s)) as [|Hu]; [split_and!; try done; by left|].
  unfold mMaxRetransmittablePacketsBeforeAck in Hu. unfold MyQuicAlarm.IsSet, MyQuicAlarm.Update.
  destruct (0 <? ack_alarm_ s) eqn:Ha; cbn -[time_add datagrams]; (split_and!; try done; right; split_and!; try done).
  change (FromMilliseconds _) with ack_delay_us. unfold time_add, ack_delay_us.
  apply swrap_small. unfold sfits. lia.
Qed.

Lemma stream_packet_policy now seq len ts s :
  0 <= now < 2 ^ 62 -> 0 <= unacked s < 10 ->
  let s' := stream_packet now seq len ts s in
  running_ s' = running_ s /\ heart_timer_ s' = heart_timer_ s /\ heart_beat_t_ s' = heart_beat_t_ s /\
  ((unacked s' = 0 /\ ack_alarm_ s' = ack_alarm_ s /\ datagrams s' = S (datagrams s)) \/
   (unacked s' = unacked s + 1 /\ unacked s + 1 < 10 /\ datagrams s' = datagrams s /\
    ack_alarm_ s' = if 0 <? ack_alarm_ s then ack_alarm_ s else now + ack_delay_us)).
Proof.
  intros Hn Hu. cbv zeta. unfold on_stream_packet. cbv zeta.
  set (s0 := s <| owd_ := _ |>). assert (P0 : same_policy s s0) by done. clearbody s0.
  set (s1 := RecordOwd _ _ s0). pose proof (same_policy_RecordOwd _ _ _ : same_policy s0 s1) as P1. clearbody s1.
  pose proof (same_policy_trans _ _ _ P0 P1) as (E1&E2&E3&E4&E5&E6&_&_). clear s0 P0 P1.
  set (s2 := s1 <| recv_packet_manager_ := _ |>).
  assert (P2 : ack_frame_updated (recv_packet_manager_ s2) = true) by apply RecordPacketReceived_frame.
  change (unacked s1) with (unacked s2) in E3. change (datagrams s1) with (datagrams s2) in E6.
  change (running_ s1) with (running_ s2) in E1. change (ack_alarm_ s1) with (ack_alarm_ s2) in E2.
  change (heart_timer_ s1) with (heart_timer_ s2) in E4. change (heart_beat_t_ s1) with (heart_beat_t_ s2) in E5.
  clearbody s2. clear s1.
  set (s3 := if _ <=? seq then fold_left _ _ s2 else s2).
  assert (P3 : same_policy s2 s3) by (unfold s3; destruct (_ <=? seq); [apply same_policy_losses|done]). clearbody s3.
  set (s4 := if _ <=? seq then s3 <| base_seq_ := seq |> else s3).
  assert (P4 : same_policy s2 s4) by (unfold s4; destruct (_ <=? seq); exact P3). clearbody s4. clear s3 P3.
  destruct P4 as (F1&F2&F3&F4&F5&F6&_&F8). rewrite P2 in F8. clear P2.
  set (s5 := s4 <| m_num_packets_received_since_last_ack_sent := _ |> <| received_ := _ |> <| recv_byte_ := _ |>).
  pose proof (same_policy_RecordRate now s5) as (G1&G2&G3&G4&G5&G6&_&G8).
  set (s6 := RecordRate now s5) in *. clearbody s6.
  change (ack_frame_updated (recv_packet_manager_ s5)) with (ack_frame_updated (recv_packet_manager_ s4)) in G8.
  rewrite G8, F8. destruct (MaybeSendAck_policy now s6 Hn) as (H1 & H2 & H3 & Hc).
  assert (U : unacked s6 = unacked s + 1).
  { rewrite G3. unfold s5. cbn. rewrite F3, E3. apply wrap_small. unfold fits. lia. }
  change (running_ s5) with (running_ s4) in G1. change (ack_alarm_ s5) with (ack_alarm_ s4) in G2.
  change (heart_timer_ s5) with (heart_timer_ s4) in G4. change (heart_beat_t_ s5) with (heart_beat_t_ s4) in G5.
  change (datagrams s5) with (datagrams s4) in G6. cbv zeta in *.
  split_and!; try congruence. rewrite U, G2, F2, E2, G6, F6, E6 in Hc. exact Hc.
Qed.

(** * Runs *)

(** The application, the arrival times of the data packets it has received since the
    last acknowledgement left, and the clock. *)
Record Timed := mkTimed { app : NsQuicReceiver; since : list Z; clock : Z }.

Definition is_data (packet : list Z) : bool := d_type (parse packet) =? STREAM_FRAME.

(** What is not acknowledged after a handler. *)
Definition since_after (s s' : NsQuicReceiver) (since : list Z) : list Z :=
  if (datagrams s' =? datagrams s)%nat then since else [].

(** The simulator's queue: an event happens no earlier than the previous one and no
    later than the heart beat that is due. *)
Inductive step : Timed -> Timed -> Prop :=
  | step_arrive st t h remote packet :
      heart_timer_ (app st) = Some h -> clock st <= t <= h -> t < 2 ^ 62 ->
      let s' := recv_packet t remote packet (app st) in
      step st (mkTimed s' (since_after (app st) s' (if is_data packet then since st ++ [t] else since st)) t)
  | step_beat st h :
      heart_timer_ (app st) = Some h -> clock st <= h < 2 ^ 62 ->
      let s' := heart_beat h ((app st) <| heart_timer_ := None |>) in
      step st (mkTimed s' (since_after (app st) s' (since st)) h).

(** The application as it is set up, with any of its three traces. *)
Definition configured (loss owd rate : bool) : NsQuicReceiver :=
  let s := NsQuicReceiver_ctor in
  let s := if loss then SetLossTraceFunc s else s in
  let s := if owd then SetOwdTraceFunc s else s in
  if rate then SetRateTraceFunc s else s.

Inductive reachable : Timed -> Prop :=
  | reach_start loss owd rate t0 :
      0 <= t0 -> reachable (mkTimed (StartApplication t0 (configured loss owd rate)) [] t0)
  | reach_step st st' : reachable st -> step st st' -> reachable st'.

(** An alarm is set while packets wait, and no later than 25 ms after the first of
    them; the next heart beat is at most one millisecond after it. *)
Record policy (st : Timed) : Prop := {
  po_running : running_ (app st) = true;
  po_period : heart_beat_t_ (app st) = 1;
  po_clock : 0 <= clock st;
  po_soon : ack_alarm_ (app st) <= clock st + ack_delay_us;
  po_timer : exists h, heart_timer_ (app st) = Some h /\ clock st <= h <= clock st + 1000 /\
                       (0 < ack_alarm_ (app st) -> h <= ack_alarm_ (app st) + 1000);
  po_count : unacked (app st) = Z.of_nat (length (since st));
  po_few : (length (since st) < 10)%nat;
  po_alarm : Forall (fun t => 0 < ack_alarm_ (app st) <= t + ack_delay_us) (since st);
}.

Lemma policy_start loss owd rate t0 :
  0 <= t0 -> policy (mkTimed (StartApplication t0 (configured loss owd rate)) [] t0).
Proof.
  intros H. split; cbn [app since clock]; try (by destruct loss, owd, rate);
    [destruct loss, owd, rate; cbn; unfold ack_delay_us; lia| |cbn; lia].
  exists t0. split; [done|]. split; [cbn; lia|]. destruct loss, owd, rate; cbn; lia.
Qed.

Lemma since_after_same s s' l : datagrams s' = datagrams s -> since_after s s' l = l.
Proof. unfold since_after. intros ->. by rewrite Nat.eqb_refl. Qed.
Lemma since_after_sent s s' l : datagrams s' = S (datagrams s) -> since_after s s' l = [].
Proof. unfold since_after. intros ->. by rewrite (proj2 (Nat.eqb_neq _ _)) by lia. Qed.

(** Any packet but one of data leaves the policy's fields alone. *)
Lemma recv_packet_other t remote packet s :
  is_data packet = false -> same_policy s ((recv_packet t remote packet s) <| recv_packet_manager_ := recv_packet_manager_ s |>).
Proof.
  intros Hd. unfold RecvPacket, OnIncomingData. unfold is_data in Hd. rewrite Hd.
  destruct (first_ s); cbv zeta; destruct (negb _); try done; by destruct (_ =? STOP_WAITING_FRAME).
Qed.

Lemma policy_arrive st t h remote packet :
  policy st -> heart_timer_ (app st) = Some h -> clock st <= t <= h -> t < 2 ^ 62 ->
  let s' := recv_packet t remote packet (app st) in
  policy (mkTimed s' (since_after (app st) s' (if is_data packet then since st ++ [t] else since st)) t).
Proof.
  intros [Hr Hp Hc Hs (h' & Eh & Hh & Ha) Hn Hf Hall] E Ht Hlt. assert (h' = h) as -> by congruence. cbv zeta.
  destruct (is_data packet) eqn:Hd.
  - unfold RecvPacket, OnIncomingData. unfold is_data in Hd. set (s0 := if first_ _ then _ else _).
    assert (P0 : same_policy (app st) s0) by (unfold s0; by destruct (first_ _)). clearbody s0.
    destruct P0 as (E1&E2&E3&E4&E5&E6&_). rewrite E1, Hr. cbn [negb]. cbv zeta. rewrite Hd.
    assert (Hns : (d_type (parse packet) =? STOP_WAITING_FRAME) = false) by (apply Z.eqb_eq in Hd; by rewrite Hd).
    rewrite Hns. destruct (stream_packet_policy t (d_seq (parse packet)) (Z.of_nat (length packet)) (d_sent_ts (parse packet)) s0)
      as (H1 & H2 & H3 & Hcase); [lia|lia|]. cbv zeta in *. set (s' := on_stream_packet _ _ _ _ _ _ _ _ _ _) in *. clearbody s'.
    destruct Hcase as [(U & A & D)|(U & U' & D & A)].
    + rewrite since_after_sent by congruence. split; cbn [app since clock]; rewrite ?H1, ?H3; try congruence; try (cbn; lia); try done.
      exists h. split; [congruence|]. split; [lia|]. rewrite A, E2. exact Ha.
    + rewrite since_after_same by congruence. split; cbn [app since clock]; rewrite ?H1, ?H3; try congruence; try lia.
      * rewrite A, E2. destruct (Z.ltb_spec 0 (ack_alarm_ (app st))); lia.
      * exists h. split; [congruence|]. split; [lia|]. rewrite A, E2. unfold ack_delay_us.
        destruct (Z.ltb_spec 0 (ack_alarm_ (app st))); lia.
      * rewrite U, E3, Hn, length_app. cbn [length]. lia.
      * rewrite length_app. cbn [length]. lia.
      * rewrite A, E2. unfold ack_delay_us in *. apply Forall_app. split; [|apply Forall_singleton; destruct (Z.ltb_spec 0 (ack_alarm_ (app st))); lia].
        eapply Forall_impl; [exact Hall|]. cbn. intros x Hx. rewrite (proj2 (Z.ltb_lt _ _)) by lia. lia.
  - destruct (recv_packet_other t remote packet (app st) Hd) as (E1&E2&E3&E4&E5&E6&_).
    set (s' := recv_packet t remote packet (app st)) in *. clearbody s'.
    change (running_ s' = running_ (app st)) in E1. change (ack_alarm_ s' = ack_alarm_ (app st)) in E2.
    change (unacked s' = unacked (app st)) in E3. change (heart_timer_ s' = heart_timer_ (app st)) in E4.
    change (heart_beat_t_ s' = heart_beat_t_ (app st)) in E5. change (datagrams s' = datagrams (app st)) in E6.
    rewrite since_after_same by done. split; cbn [app since clock]; rewrite ?E1, ?E2, ?E3, ?E5; try done; [lia..|].
    exists h. split; [congruence|]. split; [lia|done].
Qed.

Lemma policy_beat st h :
  policy st -> heart_timer_ (app st) = Some h -> clock st <= h < 2 ^ 62 ->
  let s' := heart_beat h ((app st) <| heart_timer_ := None |>) in
  policy (mkTimed s' (since_after (app st) s' (since st)) h).
Proof.
  intros [Hr Hp Hc Hs (h' & Eh & Hh & Ha) Hn Hf Hall] E Ht. assert (h' = h) as -> by congruence. cbv zeta.
  unfold HeartBeat. cbn -[MyQuicAlarm.IsExpired SendAck since_after datagrams Z.add FromMilliseconds]. rewrite Hr. cbn [negb].
  unfold MyQuicAlarm.IsExpired, MyQuicAlarm.IsSet. change (FromMilliseconds 1) with 1000.
  destruct (Z.ltb_spec 0 (ack_alarm_ (app st))) as [Hpos|Hz]; [destruct (Z.leb_spec (ack_alarm_ (app st)) h) as [Hle|Hgt]|].
  - cbv beta iota.
    match goal with |- context [SendAck ?v ?d ?n ?w ?k h ?s0] => pose proof (SendAck_policy h s0) as (U & A & R & T & B & D); set (s' := SendAck v d n w k h s0) in * end.
    clearbody s'. cbv zeta in *.
    change (datagrams s' = S (datagrams (app st))) in D. change (running_ s' = running_ (app st)) in R.
    change (ack_alarm_ s' = 0) in A. change (heart_beat_t_ s' = heart_beat_t_ (app st)) in B. rewrite B, Hp.
    change (FromMilliseconds 1) with 1000.
    rewrite since_after_sent by exact D. split; cbn [app since clock]; try done.
    + change (running_ s' = true). congruence.
    + change (heart_beat_t_ s' = 1). congruence.
    + lia.
    + change (ack_alarm_ s' <= h + ack_delay_us). rewrite A. unfold ack_delay_us. lia.
    + exists (h + 1000). split; [done|]. split; [lia|]. change (0 < ack_alarm_ s' -> h + 1000 <= ack_alarm_ s' + 1000). rewrite A. lia.
    + cbn. lia.
  - cbv beta iota. rewrite since_after_same by done. split; cbn -[datagrams Z.add FromMilliseconds]; try done; [lia..|].
    exists (h + 1000). split; [by rewrite Hp|]. lia.
  - cbv beta iota. rewrite since_after_same by done. split; cbn -[datagrams Z.add FromMilliseconds]; try done; [lia..|].
    exists (h + 1000). split; [by rewrite Hp|]. lia.
Qed.

Lemma reachable_policy st : reachable st -> policy st.
Proof.
  induction 1 as [| st st' _ IH Hs]; [by apply policy_start|].
  destruct Hs; [by eapply policy_arrive|by apply policy_beat].
Qed.

(** Several datagrams at the time of the next heart beat. *)
Definition arrive (t : Z) (remote : Address) (st : Timed) (packet : list Z) : Timed :=
  let s' := recv_packet t remote packet (app st) in
  mkTimed s' (since_after (app st) s' (if is_data packet then since st ++ [t] else since st)) t.

Lemma recv_packet_timer t remote packet s :
  0 <= t < 2 ^ 62 -> 0 <= unacked s < 10 -> heart_timer_ (recv_packet t remote packet s) = heart_timer_ s.
Proof.
  intros Ht Hu. destruct (is_data packet) eqn:Hd; [|apply (recv_packet_other t remote packet s Hd)].
  unfold RecvPacket, OnIncomingData. unfold is_data in Hd. set (s0 := if first_ s then _ else s).
  assert (E : heart_timer_ s0 = heart_timer_ s) by (unfold s0; by destruct (first_ s)).
  assert (Eu : unacked s0 = unacked s) by (unfold s0; by destruct (first_ s)). clearbody s0. rewrite <- E.
  destruct (negb (running_ s0)); [reflexivity|]. cbv zeta. rewrite Hd.
  assert (Hns : (d_type (parse packet) =? STOP_WAITING_FRAME) = false) by (apply Z.eqb_eq in Hd; by rewrite Hd).
  rewrite Hns. apply (stream_packet_policy t (d_seq (parse packet)) (Z.of_nat (length packet)) (d_sent_ts (parse packet)) s0); lia.
Qed.

Lemma reach_arrivals t remote packets st :
  reachable st -> heart_timer_ (app st) = Some t -> clock st <= t < 2 ^ 62 ->
  reachable (fold_left (arrive t remote) packets st).
Proof.
  revert st. induction packets as [|packet packets IH]; intros st Hr Et Ht; [done|]. cbn [fold_left].
  pose proof (reachable_policy st Hr) as [_ _ Hc _ _ Hn Hf _].
  apply IH; [|rewrite <- Et; apply recv_packet_timer; lia|cbn; lia].
  eapply reach_step; [exact Hr|]. by apply (step_arrive st t t); [|lia..].
Qed.

(** * The loss trace *)

Definition loss_of (o : Output) : option Z := match o with TraceLoss n _ => Some n | _ => None end.
Definition losses (s : NsQuicReceiver) : list Z := omap loss_of (outputs_ s).

Definition same_losses (s s' : NsQuicReceiver) : Prop :=
  losses s' = losses s /\ base_seq_ s' = base_seq_ s /\ trace_loss_cb_ s' = trace_loss_cb_ s /\ running_ s' = running_ s.

Lemma same_losses_trans s1 s2 s3 : same_losses s1 s2 -> same_losses s2 s3 -> same_losses s1 s3.
Proof. unfold same_losses. intros (?&?&?&?) (?&?&?&?). split_and!; congruence. Qed.

Lemma same_losses_output o s : loss_of o = None -> same_losses s (output o s).
Proof.
  intros Ho. unfold same_losses, losses, output. cbn -[omap]. split_and!; try done.
  rewrite omap_app. cbn. by rewrite Ho, app_nil_r.
Qed.

Lemma same_losses_RecordOwd n d s : same_losses s (RecordOwd n d s).
Proof. unfold RecordOwd. destruct (trace_owd_cb_ s); [by apply same_losses_output|done]. Qed.
Lemma same_losses_RecordRate t s : same_losses s (RecordRate t s).
Proof.
  unfold RecordRate. destruct (_ =? 0); [done|]. destruct (_ <? t); [|done]. cbn -[output].
  destruct (trace_rate_cb_ s); [|done]. change (same_losses s (output (TraceRate (u32 (u64 (recv_byte_ s * 8) / 500))) s)).
  by apply same_losses_output.
Qed.
Lemma same_losses_SendAck now s : same_losses s (send_ack now s).
Proof.
  unfold SendAck. destruct (GetUpdatedAckFrame now (recv_packet_manager_ s)) as [frame manager]. cbv zeta.
  match goal with |- context [SendToNetwork ?p ?s1] => set (pkt := p); set (s2 := s1) end.
  change (same_losses s2 (SendToNetwork pkt s2)). by apply same_losses_output.
Qed.
Lemma same_losses_MaybeSendAck now s : same_losses s (maybe_send_ack now s).
Proof.
  unfold MaybeSendAck. destruct (received_ s <? _); [apply same_losses_SendAck|].
  destruct (_ <=? unacked s); [apply same_losses_SendAck|]. by destruct (negb _).
Qed.

Lemma losses_fold l s :
  trace_loss_cb_ s = true -> Forall (fits 32) l ->
  let s' := fold_left (fun s i => RecordLoss (u32 i) s) l s in
  losses s' = losses s ++ l /\ base_seq_ s' = base_seq_ s /\ trace_loss_cb_ s' = true /\ running_ s' = running_ s.
Proof.
  revert s. induction l as [|i l IH]; intros s Ht Hl; cbn [fold_left]; [by rewrite app_nil_r|].
  apply Forall_cons in Hl as [Hi Hl]. destruct (IH (RecordLoss (u32 i) s)) as (E1 & E2 & E3 & E4);
    [unfold RecordLoss; by rewrite Ht|done|]. unfold RecordLoss in *. rewrite Ht in *. cbv zeta in *.
  split_and!; try done. rewrite E1. unfold losses, output. cbn -[omap]. rewrite omap_app. cbn.
  rewrite wrap_small by done. by rewrite <- app_assoc.
Qed.

(** A data packet reports the numbers between the highest so far and its own. *)
Lemma stream_packet_losses now seq len ts s :
  trace_loss_cb_ s = true -> fits 32 (base_seq_ s) -> fits 32 seq ->
  let s' := stream_packet now seq len ts s in
  losses s' = losses s ++ seqZ (base_seq_ s + 1) (seq - (base_seq_ s + 1)) /\
  base_seq_ s' = Z.max (base_seq_ s) seq /\ trace_loss_cb_ s' = true /\ running_ s' = running_ s.
Proof.
  unfold fits. intros Ht Hb Hs. cbv zeta. unfold on_stream_packet. cbv zeta.
  set (s1 := RecordOwd _ _ _). assert (P1 : same_losses s s1).
  { eapply same_losses_trans; [|apply same_losses_RecordOwd]. done. }
  clearbody s1. set (s2 := s1 <| recv_packet_manager_ := _ |>).
  assert (P2 : same_losses s s2) by (eapply same_losses_trans; [exact P1|done]). clearbody s2. clear s1 P1.
  destruct P2 as (E1 & E2 & E3 & E4). rewrite Ht in E3. set (s3 := if _ <=? seq then fold_left _ _ s2 else s2).
  assert (P3 : losses s3 = losses s ++ seqZ (base_seq_ s + 1) (seq - (base_seq_ s + 1)) /\
               base_seq_ s3 = base_seq_ s /\ trace_loss_cb_ s3 = true /\ running_ s3 = running_ s).
  { unfold s3. rewrite E2, (wrap_small 64 (base_seq_ s + 1)) by (unfold fits; lia). destruct (Z.leb_spec (base_seq_ s + 1) seq).
    - destruct (losses_fold (seqZ (base_seq_ s + 1) (seq - (base_seq_ s + 1))) s2 E3) as (F1 & F2 & F3 & F4).
      + apply Forall_forall. intros x Hx%elem_of_seqZ. unfold fits. lia.
      + cbv zeta in *. split_and!; congruence.
    - rewrite seqZ_nil by lia. rewrite app_nil_r. done. }
  clearbody s3. clear E1 E2 E3 E4. destruct P3 as (F1 & F2 & F3 & F4).
  rewrite F2, (wrap_small 64 (base_seq_ s + 1)) by (unfold fits; lia).
  set (s4 := if _ <=? seq then _ else s3).
  assert (P4 : losses s4 = losses s3 /\ base_seq_ s4 = Z.max (base_seq_ s) seq /\ trace_loss_cb_ s4 = true /\ running_ s4 = running_ s).
  { unfold s4. destruct (Z.leb_spec (base_seq_ s + 1) seq); (split_and!; try done); [cbn; lia|lia]. }
  clearbody s4. destruct P4 as (G1 & G2 & G3 & G4). set (s5 := s4 <| m_num_packets_received_since_last_ack_sent := _ |> <| received_ := _ |> <| recv_byte_ := _ |>).
  assert (P6 : same_losses s5 (if ack_frame_updated (recv_packet_manager_ (RecordRate now s5))
     then maybe_send_ack now (RecordRate now s5) else RecordRate now s5)).
  { destruct (ack_frame_updated _); [eapply same_losses_trans; [|apply same_losses_MaybeSendAck]|]; apply same_losses_RecordRate. }
  destruct P6 as (J1 & J2 & J3 & J4).
  rewrite J1, J2, J3, J4. change (losses s5) with (losses s4). rewrite G1, F1. done.
Qed.

Lemma recv_data_losses t remote packet s :
  running_ s = true -> trace_loss_cb_ s = true -> fits 32 (base_seq_ s) ->
  is_data packet = true -> fits 32 (d_seq (parse packet)) ->
  let n := d_seq (parse packet) in
  let s' := recv_packet t remote packet s in
  losses s' = losses s ++ seqZ (base_seq_ s + 1) (n - (base_seq_ s + 1)) /\
  base_seq_ s' = Z.max (base_seq_ s) n /\ trace_loss_cb_ s' = true /\ running_ s' = true.
Proof.
  intros Hr Ht Hb Hd Hn. cbv zeta. unfold RecvPacket, OnIncomingData. set (s0 := if first_ s then _ else s).
  assert (P0 : same_losses s s0) by (unfold s0; by destruct (first_ s)). clearbody s0. destruct P0 as (E1 & E2 & E3 & E4).
  rewrite E4, Hr. cbn [negb]. cbv zeta. unfold is_data in Hd. rewrite Hd.
  assert (Hns : (d_type (parse packet) =? STOP_WAITING_FRAME) = false) by (apply Z.eqb_eq in Hd; by rewrite Hd).
  rewrite Hns, <- E1, <- E2. replace true with (running_ s0) at 2 by congruence. apply stream_packet_losses; congruence.
Qed.

(** The packets that arrive ahead of all before them, above [b]. *)
Fixpoint records (b : Z) (arrivals : list Z) : list Z :=
  match arrivals with
  | [] => []
  | n :: arrivals => if b <? n then n :: records n arrivals else records b arrivals
  end.

Lemma records_above b l x : x ∈ records b l -> b < x.
Proof.
  revert b. induction l as [|n l IH]; intros b; cbn [records]; [by rewrite elem_of_nil|].
  destruct (Z.ltb_spec b n); [|apply IH]. rewrite elem_of_cons. intros [->|Hx]; [done|]. apply IH in Hx. lia.
Qed.

Abbreviation Arrival := (Z * Address * list Z)%type.
Definition arrival_number (a : Arrival) : Z := d_seq (parse a.2).
Definition deliver_arrival (s : NsQuicReceiver) (a : Arrival) : NsQuicReceiver := recv_packet a.1.1 a.1.2 a.2 s.

Lemma max_records b l : Forall (fun n => 0 <= n) l -> 0 <= b -> b <= fold_left Z.max l b.
Proof.
  revert b. induction l as [|n l IH]; intros b Hl Hb; cbn [fold_left]; [lia|].
  apply Forall_cons in Hl as [Hn Hl]. specialize (IH (Z.max b n) Hl). lia.
Qed.

Lemma filter_all {A} (P : A -> Prop) `{!forall x, Decision (P x)} (l : list A) : Forall P l -> filter P l = l.
Proof. induction 1 as [|x l Hx _ IH]; [done|]. by rewrite filter_cons_True, IH. Qed.

Lemma filter_agree {A} (P Q : A -> Prop) `{!forall x, Decision (P x), !forall x, Decision (Q x)} (l : list A) :
  (forall x, x ∈ l -> P x <-> Q x) -> filter P l = filter Q l.
Proof.
  induction l as [|x l IH]; intros Hl; [done|]. rewrite !filter_cons, IH by (intros; apply Hl; by right).
  pose proof (Hl x ltac:(left)) as Hx. destruct (decide (P x)), (decide (Q x)); tauto.
Qed.

(** The losses reported are the numbers above [b] that did not arrive in order. *)
Lemma arrivals_losses l s :
  running_ s = true -> trace_loss_cb_ s = true -> fits 32 (base_seq_ s) ->
  Forall (fun a => is_data a.2 = true /\ fits 32 (arrival_number a)) l ->
  let b := base_seq_ s in
  let numbers := map arrival_number l in
  let s' := fold_left deliver_arrival l s in
  base_seq_ s' = fold_left Z.max numbers b /\
  losses s' = losses s ++ filter (fun n => n ∉ records b numbers) (seqZ (b + 1) (fold_left Z.max numbers b - b)).
Proof.
  cbv zeta. revert s. induction l as [|a l IH]; intros s Hr Ht Hb Hl; cbn [map fold_left records].
  { split; [done|]. by rewrite Z.sub_diag, app_nil_r. }
  apply Forall_cons in Hl as [[Hd Hn] Hl].
  destruct (recv_data_losses a.1.1 a.1.2 a.2 s Hr Ht Hb Hd Hn) as (E1 & E2 & E3 & E4). cbv zeta in *.
  fold (deliver_arrival s a) in *. fold (arrival_number a) in *. set (n := arrival_number a) in *.
  destruct (IH (deliver_arrival s a)) as [F1 F2]; try done; [rewrite E2; unfold fits in *; lia|].
  split; [by rewrite F1, E2|]. rewrite F2, E1, E2. set (b := base_seq_ s) in *.
  assert (Hmax : Z.max b n <= fold_left Z.max (map arrival_number l) (Z.max b n)).
  { apply max_records; [|unfold fits in *; lia]. apply Forall_map. eapply Forall_impl; [exact Hl|].
    cbn. intros x [_ Hx]. unfold fits in Hx. lia. }
  set (top := fold_left Z.max (map arrival_number l) (Z.max b n)) in *. clearbody top.
  rewrite <- app_assoc. f_equal. destruct (Z.ltb_spec b n).
  - rewrite Z.max_r in * by lia.
    replace (top - b) with ((n - (b + 1)) + (1 + (top - n))) by lia.
    rewrite (seqZ_app (b + 1) (n - (b + 1))), (seqZ_app _ 1) by lia. replace (b + 1 + (n - (b + 1))) with n by lia. rewrite !filter_app. f_equal.
    + symmetry. apply filter_all, Forall_forall. intros x Hx%elem_of_seqZ. rewrite elem_of_cons.
      intros [->|Hrec%records_above]; lia.
    + rewrite (seqZ_cons n 1) by lia. rewrite filter_cons_False by (rewrite elem_of_cons; tauto).
      rewrite (seqZ_nil (Z.succ n) (Z.pred 1)) by lia. cbn [app]. apply filter_agree. intros x Hx%elem_of_seqZ.
      rewrite elem_of_cons. split; [intros Hnot [->|]; [lia|tauto]|tauto].
  - rewrite Z.max_l in * by lia. rewrite (seqZ_nil (b + 1)) by lia. done.
Qed.
End policy.
