(* ===== verification/SenderLoop.v ===== *)
(** The sending application's heart beat: its loop ends, because every round takes a
    packet off the list of pending retransmissions, and the packets it sends are
    numbered one after the other. *)
From stdpp Require Import gmap list_numbers.
From S2P Require Import Prelude.
From S2P Require Import DataWriter.
From S2P Require Import PacketNumbers.
From S2P Require Import FramerTypes.
From S2P Require Import QuicUnits.
From S2P Require Import WindowedFilter.
From S2P Require Import Sampler.
From S2P Require Import UnackedPackets.
From S2P Require Import ReceiverApp.
From S2P Require Import SenderApp.
From S2P Require Import Datagrams.

Import NsQuicSender.
Open Scope Z_scope.

(** What libquic's manager promises.  [spm_ok n] holds between two calls when [n] is the
    next packet number, [spm_acking n] while an ack frame is passed to it.  Of the pending
    retransmissions, the next one is one of them, and a packet sent in its place takes it
    off the list. *)
Class SentPacketManagerLaws (SM : QuicSentPacketManager) := {
  spm_ok : Z -> SentPacketManager -> Prop;
  spm_acking : Z -> SentPacketManager -> Prop;
  spm_pending : SentPacketManager -> gset Z;
  spm_limit : Z;
  limit_law : spm_limit < 2 ^ 64;
  HasPending_law n m : spm_ok n m -> spm_HasPendingRetransmissions m = bool_decide (spm_pending m <> ∅);
  NextPending_law n m p m' :
    spm_ok n m -> spm_pending m <> ∅ -> spm_NextPendingRetransmission m = (p, m') ->
    pr_packet_number p ∈ spm_pending m /\ pr_packet_number p <> 0 /\ spm_pending m' = spm_pending m /\ spm_ok n m';
  OnPacketSent_law n len size frames old now type m :
    spm_ok n m -> n < spm_limit -> 0 <= size < 2 ^ 16 -> old = 0 \/ old ∈ spm_pending m ->
    let packet := (SerializedPacket_ctor n len size) <| sp_retransmittable_frames := frames |> in
    let m' := spm_OnPacketSent packet old now type m in
    spm_pending m' = spm_pending m ∖ {[old]} /\ spm_ok (n + 1) m';
  OnAckFrameStart_law n largest delay time m : spm_ok n m -> spm_ok n (spm_OnAckFrameStart largest delay time m);
  acking_law n m : spm_ok n m -> spm_acking n m;
  OnAckRange_law n start end_ m : spm_acking n m -> end_ <= n -> spm_acking n (spm_OnAckRange start end_ m);
  OnAckFrameEnd_law n time m : spm_acking n m -> spm_ok n (spm_OnAckFrameEnd time m).2;
}.

Section loop.
Context {SM : QuicSentPacketManager} {SL : SentPacketManagerLaws SM}.
Implicit Types s : NsQuicSender.

Abbreviation pending s := (spm_pending (sent_packet_manager_ s)).
(** The manager and the application agree on the next packet number. *)
Definition in_step s : Prop := spm_ok (seq_ s) (sent_packet_manager_ s).

Lemma payload_of_bound seq : 0 <= payload_of seq < 2 ^ 16.
Proof. unfold payload_of. apply wrap_fits. lia. Qed.

(** The datagrams of packets [n] to [n + k - 1]. *)
Definition data_packets (now n k : Z) : list Output := map (fun i => SendTo (stream_datagram now i)) (seqZ n k).

(** The fields no packet sent changes. *)
Definition same_timers (s s' : NsQuicSender) : Prop :=
  stop_waiting_count_ s' = stop_waiting_count_ s /\ running_ s' = running_ s /\ heart_beat_t_ s' = heart_beat_t_ s /\
  heart_timer_ s' = heart_timer_ s.

(** The packet of number [n], as the application hands it to the manager. *)
Definition data_packet (n : Z) (frames : list QuicFrame) : SerializedPacket :=
  (SerializedPacket_ctor n (Header.GetMinSeqLength n) (payload_of n)) <| sp_retransmittable_frames := frames |>.

(** What manager [m] lets out at [now], the first of the packets under number [n]:
    while it allows a packet at once and one is pending, the next one pending goes out;
    after [k] of them the manager is [m']. *)
Inductive lets_out (now : Z) : Z -> SentPacketManager -> nat -> SentPacketManager -> Prop :=
| lets_out_stop n m :
    spm_pending m = ∅ \/ spm_TimeUntilSend now m <> 0 -> lets_out now n m 0 m
| lets_out_send n m p m1 k m' :
    spm_TimeUntilSend now m = 0 -> spm_pending m <> ∅ -> spm_NextPendingRetransmission m = (p, m1) ->
    lets_out now (n + 1)
      (spm_OnPacketSent (data_packet n (pr_retransmittable_frames p)) (pr_packet_number p) now LOSS_RETRANSMISSION m1) k m' ->
    lets_out now n m (S k) m'.

Lemma lets_out_end now n m k m' : lets_out now n m k m' -> spm_pending m' = ∅ \/ spm_TimeUntilSend now m' <> 0.
Proof. by induction 1. Qed.

Lemma SendRetransmission_spec fuel now s :
  in_step s -> (size (pending s) < fuel)%nat -> 0 <= seq_ s -> seq_ s + Z.of_nat fuel <= spm_limit ->
  exists s' k, in_step s' /\ SendRetransmission fuel now s = Some s' /\
    size (pending s) = (k + size (pending s'))%nat /\
    seq_ s' = seq_ s + Z.of_nat k /\
    outputs_ s' = outputs_ s ++ data_packets now (seq_ s) (Z.of_nat k) /\
    lets_out now (seq_ s) (sent_packet_manager_ s) k (sent_packet_manager_ s') /\ same_timers s s'.
Proof.
  revert s. induction fuel as [|fuel IH]; intros s Hin Hf Hs Hlt; [lia|]. cbn [SendRetransmission].
  assert (Hstop : pending s = ∅ \/ spm_TimeUntilSend now (sent_packet_manager_ s) <> 0 ->
    exists s' k, in_step s' /\ Some s = Some s' /\ size (pending s) = (k + size (pending s'))%nat /\ seq_ s' = seq_ s + Z.of_nat k /\
      outputs_ s' = outputs_ s ++ data_packets now (seq_ s) (Z.of_nat k) /\
      lets_out now (seq_ s) (sent_packet_manager_ s) k (sent_packet_manager_ s') /\ same_timers s s').
  { intros H. exists s, 0%nat. split_and!; try done; [lia| |by apply lets_out_stop]. by rewrite app_nil_r. }
  destruct (Z.eqb_spec (spm_TimeUntilSend now (sent_packet_manager_ s)) 0) as [E|E]; [|apply Hstop; by right].
  rewrite (HasPending_law (seq_ s)) by exact Hin. case_bool_decide as Hp; [|apply Hstop; left; exact Hp].
  clear Hstop. destruct (spm_NextPendingRetransmission (sent_packet_manager_ s)) as [p m] eqn:En.
  destruct (NextPending_law _ _ _ _ Hin Hp En) as (Hpin & Hnz & Em & Hok).
  set (s1 := OnRetransPacket p now (set_manager m s)).
  pose proof limit_law as Hlim.
  destruct (OnPacketSent_law (seq_ s) (Header.GetMinSeqLength (seq_ s)) (payload_of (seq_ s)) (pr_retransmittable_frames p)
    (pr_packet_number p) now LOSS_RETRANSMISSION m Hok ltac:(lia) (payload_of_bound _)) as [Hp1 Hok1]; [right; by rewrite Em|].
  rewrite Em in Hp1.
  assert (Hsize : size (pending s) = S (size (pending s1))).
  { change (pending s1) with (spm_pending (spm_OnPacketSent ((SerializedPacket_ctor (seq_ s) (Header.GetMinSeqLength (seq_ s))
      (payload_of (seq_ s))) <| sp_retransmittable_frames := pr_retransmittable_frames p |>) (pr_packet_number p) now
      LOSS_RETRANSMISSION m)).
    rewrite Hp1, size_difference, size_singleton by set_solver.
    pose proof (subseteq_size {[pr_packet_number p]} (pending s) ltac:(set_solver)) as Hle.
    rewrite size_singleton in Hle. lia. }
  assert (Hs1 : seq_ s1 = seq_ s + 1).
  { unfold s1, OnRetransPacket. cbn -[stream_datagram payload_of Header.GetMinSeqLength wrap]. apply wrap_small. unfold fits. lia. }
  destruct (IH s1) as (s' & k & E0 & E1 & E2 & E3 & E4 & E5 & E6); [unfold in_step; rewrite Hs1; exact Hok1|lia..|].
  exists s', (S k). split_and!; [done|done|lia|lia| |rewrite Hs1 in E5; exact (lets_out_send _ _ _ _ _ _ _ E Hp En E5)|exact E6].
  rewrite E4, Hs1. unfold s1, OnRetransPacket. cbn -[stream_datagram payload_of Header.GetMinSeqLength wrap data_packets Z.of_nat].
  rewrite <- app_assoc. f_equal. unfold data_packets. rewrite (seqZ_cons _ (Z.of_nat (S k))) by lia. cbn [map app].
  do 3 f_equal; lia.
Qed.

Definition optional (b : bool) (o : Output) : list Output := if b then [o] else [].
Definition is_packet (o : Output) : bool := match o with SendTo _ => true | _ => false end.
(** The datagrams sent. *)
Definition packets_of s : list Output := filter (fun o => is_packet o = true) (outputs_ s).

Lemma RecordRate_effect now s :
  exists ts traced, RecordRate now s = set_last_rate_ts ts (if traced : bool
    then output (TraceRate (u32 (ToKBitsPerSecond (spm_BandwidthEstimate (sent_packet_manager_ s))))) s else s).
Proof.
  unfold RecordRate. destruct (_ =? 0); [by exists (time_add now (FromMilliseconds 100)), false|].
  destruct (_ <? now); [|exists (last_rate_ts_ s), false; by destruct s].
  by exists (time_add now (FromMilliseconds 100)), (trace_rate_cb_ s).
Qed.

Lemma filter_packets now n k : filter (fun o => is_packet o = true) (data_packets now n k) = data_packets now n k.
Proof. unfold data_packets. induction (seqZ n k) as [|x l IH]; [done|]. cbn [map]. by rewrite filter_cons_True, IH. Qed.

Lemma RecordRate_spec now s :
  let s' := RecordRate now s in
  packets_of s' = packets_of s /\ seq_ s' = seq_ s /\ sent_packet_manager_ s' = sent_packet_manager_ s /\ same_timers s s'.
Proof.
  cbv zeta. destruct (RecordRate_effect now s) as (ts & traced & ->). unfold packets_of.
  destruct traced; [|done]. cbn -[filter]. split_and!; try done. rewrite filter_app, filter_cons_False by done.
  by rewrite app_nil_r.
Qed.

(** The manager after the new packet of number [n], if one was sent. *)
Definition with_fresh (now n : Z) (fresh : bool) (m : SentPacketManager) : SentPacketManager :=
  if fresh then spm_OnPacketSent (data_packet n [STREAM_FRAME newStreamFrame]) 0 now NOT_RETRANSMISSION m else m.

(** The last part of a heart beat: lines 104-109. *)
Definition beat_tail (now : Z) s : NsQuicSender :=
  let s := if 2 <? stop_waiting_count_ s then SendStopWaitingFrame s else s in
  if spm_TimeUntilSend now (sent_packet_manager_ s) =? 0 then SendFakePacket now s else s.

Lemma beat_tail_spec now s :
  0 <= seq_ s < 2 ^ 64 - 1 ->
  let fresh := spm_TimeUntilSend now (sent_packet_manager_ s) =? 0 in
  let stop := 2 <? stop_waiting_count_ s in
  let least := spm_GetLeastUnacked (sent_packet_manager_ s) in
  let s' := beat_tail now s in
  packets_of s' = packets_of s ++ optional stop (SendTo (stop_waiting_datagram (seq_ s) least)) ++
                  data_packets now (seq_ s) (Z.b2z fresh) /\
  seq_ s' = seq_ s + Z.b2z fresh /\ stop_waiting_count_ s' = (if stop then 0 else stop_waiting_count_ s) /\
  running_ s' = running_ s /\ heart_beat_t_ s' = heart_beat_t_ s /\
  sent_packet_manager_ s' = with_fresh now (seq_ s) fresh (sent_packet_manager_ s).
Proof.
  intros Hs. cbv zeta. unfold beat_tail, with_fresh. set (stop := 2 <? _).
  set (s1 := if stop then SendStopWaitingFrame s else s).
  assert (P1 : packets_of s1 = packets_of s ++ optional stop
      (SendTo (stop_waiting_datagram (seq_ s) (spm_GetLeastUnacked (sent_packet_manager_ s)))) /\
    seq_ s1 = seq_ s /\ stop_waiting_count_ s1 = (if stop then 0 else stop_waiting_count_ s) /\
    running_ s1 = running_ s /\ heart_beat_t_ s1 = heart_beat_t_ s /\ sent_packet_manager_ s1 = sent_packet_manager_ s).
  { unfold s1. destruct stop; [|split_and!; try done; cbn; by rewrite app_nil_r].
    rewrite SendStopWaitingFrame_bytes. unfold packets_of. cbn -[filter stop_waiting_datagram]. split_and!; try done.
    by rewrite filter_app, filter_cons_True. }
  clearbody s1. destruct P1 as (E1 & E2 & E3 & E4 & E5 & E6). cbv zeta. rewrite E6.
  destruct (spm_TimeUntilSend now (sent_packet_manager_ s) =? 0); cbn [Z.b2z].
  - unfold SendFakePacket, OnPacketSent, packets_of in *. cbn -[filter stream_datagram payload_of Header.GetMinSeqLength wrap data_packets].
    rewrite filter_app, filter_cons_True by done. rewrite E1, E2. split_and!; try done;
      [|apply wrap_small; unfold fits; lia|by rewrite E6].
    rewrite <- app_assoc. unfold data_packets. by rewrite seqZ_cons by lia.
  - rewrite E1, E2. unfold data_packets. rewrite seqZ_nil by lia. cbn [map]. rewrite app_nil_r. split_and!; (done || lia).
Qed.

Lemma beat_tail_in_step now s :
  in_step s -> 0 <= seq_ s < spm_limit -> in_step (beat_tail now s).
Proof.
  intros Hin Hs. pose proof limit_law. unfold beat_tail. set (s1 := if 2 <? stop_waiting_count_ s then _ else s).
  assert (sent_packet_manager_ s1 = sent_packet_manager_ s /\ seq_ s1 = seq_ s) as [E1 E2].
  { unfold s1. by destruct (2 <? _). }
  assert (Hin1 : in_step s1) by (unfold in_step; by rewrite E1, E2). rewrite <- E2 in Hs. clear E1 E2 Hin. clearbody s1.
  destruct (_ =? 0); [|done]. unfold in_step. change (seq_ (SendFakePacket now s1)) with (u64 (seq_ s1 + 1)).
  rewrite wrap_small by (unfold fits; lia).
  apply (OnPacketSent_law (seq_ s1) (Header.GetMinSeqLength (seq_ s1)) (payload_of (seq_ s1)) [STREAM_FRAME newStreamFrame]
    0 now NOT_RETRANSMISSION (sent_packet_manager_ s1) Hin1 ltac:(lia) (payload_of_bound _)). by left.
Qed.

(** One heart beat: it ends; the packets it sends are the pending retransmissions the
    manager lets out, numbered from [seq_], a stop-waiting frame after three
    acknowledgements that asked for one, and a new packet if the manager still allows
    one. *)
Lemma HeartBeat_spec fuel now s :
  in_step s -> running_ s = true -> heart_timer_ s = None -> (size (pending s) < fuel)%nat ->
  0 <= seq_ s -> seq_ s + Z.of_nat fuel <= spm_limit ->
  exists s' k m, in_step s' /\ running_ s' = true /\ HeartBeat fuel now s = Some s' /\
    lets_out now (seq_ s) (sent_packet_manager_ s) k m /\
    let fresh := spm_TimeUntilSend now m =? 0 in
    packets_of s' = packets_of s ++ data_packets now (seq_ s) (Z.of_nat k) ++
      optional (2 <? stop_waiting_count_ s) (SendTo (stop_waiting_datagram (seq_ s + Z.of_nat k) (spm_GetLeastUnacked m))) ++
      data_packets now (seq_ s + Z.of_nat k) (Z.b2z fresh) /\
    seq_ s' = seq_ s + Z.of_nat k + Z.b2z fresh /\
    sent_packet_manager_ s' = with_fresh now (seq_ s + Z.of_nat k) fresh m /\
    (k <= size (pending s))%nat /\ (fresh = true -> k = size (pending s)) /\
    heart_timer_ s' = Some (now + FromMilliseconds (heart_beat_t_ s)).
Proof.
  intros Hin Hr Ht Hf Hs Hlt. pose proof limit_law as Hlim. unfold HeartBeat. rewrite Hr, Ht. cbn [negb]. cbv zeta.
  destruct (RecordRate_spec now s) as (R1 & R2 & R3 & R4 & R5 & R6 & R7). set (s1 := RecordRate now s) in *. clearbody s1.
  destruct (SendRetransmission_spec fuel now s1) as (s2 & k & Q1 & -> & Q2 & Q3 & Q4 & Q5 & Q6 & Q7 & Q8 & Q9);
    [unfold in_step; rewrite R2, R3; exact Hin|by rewrite R3|lia|lia|]. cbn [mbind option_bind].
  rewrite R3 in Q2. rewrite R2 in Q3, Q4.
  pose proof (beat_tail_spec now s2 ltac:(lia)) as (T1 & T2 & T3 & T4 & T5 & T6). cbv zeta in *.
  set (fresh := spm_TimeUntilSend now (sent_packet_manager_ s2) =? 0) in *.
  pose proof (beat_tail_in_step now s2 Q1 ltac:(lia)) as T0.
  fold (beat_tail now s2). set (s3 := beat_tail now s2) in *. clearbody s3.
  exists (set_heart_timer (Some (now + FromMilliseconds (heart_beat_t_ s3))) s3), k, (sent_packet_manager_ s2).
  rewrite R2, R3 in Q5. cbv zeta. fold fresh.
  split_and!; [exact T0|change (running_ s3 = true); congruence|done|exact Q5| |
    change (seq_ (set_heart_timer _ s3)) with (seq_ s3); lia|by rewrite <- Q3|lia| |].
  - change (packets_of (set_heart_timer _ s3)) with (packets_of s3). rewrite T1.
    unfold packets_of at 1. rewrite Q4, filter_app, filter_packets. fold (packets_of s1).
    rewrite R1, Q3, Q6, R4. by rewrite <- !app_assoc.
  - intros Hfresh. unfold fresh in Hfresh. apply Z.eqb_eq in Hfresh. apply lets_out_end in Q5 as [Q5|?]; [|done].
    rewrite Q5, size_empty in Q2. lia.
  - cbn. by rewrite T5, Q8, R6.
Qed.
End loop.
