(* ===== verification/AppTheorems.v ===== *)
(** What the two applications do, with witnesses on a run in which the sender's packet
    manager is a plain queue. *)
From stdpp Require Import gmap list_numbers.
From S2P Require Import Prelude.
From S2P Require Import DataReader.
From S2P Require Import DataWriter.
From S2P Require Import PacketNumbers.
From S2P Require Import PacketNumberQueue.
From S2P Require Import FramerTypes.
From S2P Require Import AckFrames.
From S2P Require Import AckRoundTrip.
From S2P Require Import Framer.
From S2P Require Import FramerTheorems.
From S2P Require Import QuicUnits.
From S2P Require Import WindowedFilter.
From S2P Require Import Sampler.
From S2P Require Import UnackedPackets.
From S2P Require Import ReceivedPackets.
From S2P Require Import ReceiverApp.
From S2P Require Import SenderApp.
From S2P Require Import Datagrams.
From S2P Require Import EmptyAcks.
From S2P Require Import AckPolicy.
From S2P Require Import SenderLoop.

Import QuicReceivedPacketManager.
Open Scope list_scope.
Open Scope Z_scope.

(** * A queue as the sender's packet manager *)
Module Queue.
(** The packets to send again, and the ranges acknowledged. *)
Record QueueManager := mkQueue { waiting : list positive; acked : list (Z * Z) }.

#[export] Instance QueueSentPackets : QuicSentPacketManager := {|
  SentPacketManager := QueueManager;
  spm_OnAckFrameStart _ _ _ m := m;
  spm_OnAckRange start end_ m := mkQueue (waiting m) (acked m ++ [(start, end_)]);
  spm_OnAckFrameEnd _ m := (true, m);
  spm_GetLeastUnacked _ := 2;
  spm_TimeUntilSend _ _ := 0;
  spm_HasPendingRetransmissions m := bool_decide (waiting m <> []);
  spm_NextPendingRetransmission m :=
    (mkPending (Z.pos (hd 1%positive (waiting m))) [] LOSS_RETRANSMISSION false 0 ENCRYPTION_NONE 1, m);
  spm_OnPacketSent _ old _ _ m := mkQueue (filter (fun p => Z.pos p <> old) (waiting m)) (acked m);
  spm_BandwidthEstimate _ := 8000000;
|}.

#[export] Program Instance QueueLaws : SentPacketManagerLaws QueueSentPackets := {|
  spm_ok _ _ := True;
  spm_acking _ _ := True;
  spm_pending m := list_to_set (Z.pos <$> waiting m) : gset Z;
  spm_limit := 2 ^ 64 - 1;
|}.
Next Obligation. lia. Qed.
Next Obligation.
  intros n [w a] _. apply bool_decide_ext. cbn. destruct w; cbn; set_solver.
Qed.
Next Obligation.
  intros n [[|p w] a] q m' _ Hne [= <- <-]; cbn in *; [set_solver|]. split_and!; [set_solver|lia|done|done].
Qed.
Next Obligation.
  intros n len size frames old now type [w a] _ _ _ _. cbn. split; [|done]. apply set_eq. intros x.
  rewrite elem_of_difference, !elem_of_list_to_set, !list_elem_of_fmap, elem_of_singleton.
  setoid_rewrite list_elem_of_filter. naive_solver.
Qed.
Solve Obligations with done.
End Queue.
Import Queue.

(** * The manager of received packets *)

(** C35: Whatever packets arrive, whatever the peer says it no longer waits for and
    whenever an ack is sent, the manager's ack frame lists exactly the packets that
    were received and not given up by the peer, and whenever there is one the
    framers can write the frame. *)
Theorem received_packets_refine notes now low got :
  notable_all QuicReceivedPacketManager_ctor notes -> 0 <= now < 2 ^ 62 ->
  fold_left spec_note notes (0, ∅) = (low, got) ->
  let m := fold_left note notes QuicReceivedPacketManager_ctor in
  let frame := (GetUpdatedAckFrame now m).1 in
  peer_least_packet_awaiting_ack_ m = low /\
  (forall x, mem (packets frame) x <-> x ∈ got) /\
  (got <> ∅ -> ack_frame_ok 43 frame).
Proof.
  intros Hn Hnow E m frame. pose proof (notes_track _ _ _ tracks_start Hn) as (Hok & Hz & Hl & Hm).
  fold m in Hok, Hz, Hl, Hm. rewrite E in Hl, Hm. clearbody m.
  pose proof (GetUpdatedAckFrame_ok 43 now m Hok Hnow) as Hf. subst frame.
  destruct (GetUpdatedAckFrame now m) as [frame m']. destruct Hf as (_ & _ & _ & _ & _ & _ & Ep & Hw). cbn [fst snd] in *.
  rewrite Ep by done. split_and!; [done|done|]. intros Hne. apply Hw. intros Hnil.
  apply Hne, set_eq. intros x. rewrite <- Hm, Hnil. split; [|set_solver]. intros Hx. by apply mem_nil in Hx.
Qed.

(** Packets 1, 3 and 2 arrive, an ack leaves, the peer gives up 1, and 5 arrives. *)
Lemma received_packets_refine_witness :
  let notes := [Received 1 10; Received 3 20; Received 2 30; Acknowledged 40; StopWaiting 2; Received 5 50] in
  let m := fold_left note notes QuicReceivedPacketManager_ctor in
  let frame := (GetUpdatedAckFrame 60 m).1 in
  (fold_left spec_note notes (0, ∅)).2 = {[2; 3; 5]} /\
  (forall x, mem (packets frame) x <-> x ∈ (fold_left spec_note notes (0, ∅)).2) /\ ack_frame_ok 43 frame.
Proof.
  cbv zeta. set (notes := [Received 1 10; _; _; _; _; _]).
  destruct (received_packets_refine notes 60 2 {[2; 3; 5]}) as (_ & Hm & Hw).
  - cbn. repeat split; first [lia | by (left + right) | right; vm_compute; done | left; vm_compute; discriminate].
  - lia.
  - vm_compute. reflexivity.
  - split; [vm_compute; reflexivity|]. split; [exact Hm|]. apply Hw. by vm_compute.
Defined.

(** * The two applications *)

Abbreviation only_43 := [mkVersion PROTOCOL_QUIC_CRYPTO 43].

Section apps.
Context {HM : HandshakeMessages} {CI : Ciphers} {VL : VersionLabels}.
Context (null_decrypter : Decrypter) (null_encrypter : Encrypter).
Context (WriteUInt8AtOffset : Z -> Z -> M QuicDataWriter unit) (stack : list Z).

(** C32: The datagram in which the receiver acknowledges its packets is understood by
    the sender: its manager is told the largest packet received, the delay as the
    16-bit float carries it and a list of ranges, none of which has a packet the
    receiver did not get; up to 150 ack blocks, the ranges are exactly the intervals
    received, highest first. *)
Theorem ack_reaches_sender {VI : MyQuicFramerVisitorInterface} {SM : QuicSentPacketManager}
    (no_visitor : Visitor) now now' (r : NsQuicReceiver.NsQuicReceiver) (s : NsQuicSender.NsQuicSender) :
  let m := NsQuicReceiver.recv_packet_manager_ r in
  let frame := (GetUpdatedAckFrame now m).1 in
  length stack = 1500%nat -> NsQuicReceiver.versions_ r = only_43 -> manager_ok m ->
  packets (ack_frame_ m) <> [] -> 0 <= now < 2 ^ 62 ->
  NsQuicSender.running_ s = true -> NsQuicSender.versions_ s = only_43 ->
  exists datagram ranges,
    NsQuicReceiver.outputs_ (NsQuicReceiver.SendAck no_visitor null_decrypter null_encrypter WriteUInt8AtOffset stack now r) =
      NsQuicReceiver.outputs_ r ++ [NsQuicReceiver.SendTo datagram (NsQuicReceiver.peer_ r)] /\
    NsQuicSender.OnIncomingData null_decrypter null_encrypter now' datagram s =
      Some (told (largest_acked (ack_frame_ m)) (received_delay (ack_delay_time frame)) ranges
              (NsQuicSender.set_received now' s)) /\
    (forall lo hi last x, (lo, hi, last) ∈ ranges -> lo <= x < hi -> mem (packets frame) x) /\
    (num_ack_blocks (GetAckFrameInfo frame) <= 150 ->
     ranges = mark_last (map iv_range (reverse (packets frame)))).
Proof.
  intros m frame Hst Hv Hok Hne Hnow Hrun Hv'. pose proof (GetUpdatedAckFrame_ok 43 now m Hok Hnow) as Hf.
  subst frame. destruct (GetUpdatedAckFrame now m) as [frame m'] eqn:E. cbn [fst].
  destruct Hf as (_ & _ & _ & _ & _ & El & _ & Hw). specialize (Hw Hne).
  set (room := 1499 - seq_width (NsQuicReceiver.seq_ r)).
  pose proof (seq_width_bounds (NsQuicReceiver.seq_ r)) as Hsw.
  exists (wire_public (NsQuicReceiver.seq_ r) ++ wire_ack_frame room frame), (ack_ranges (ack_num 43 room frame) frame).
  split_and!.
  - rewrite (SendAck_bytes WriteUInt8AtOffset stack null_decrypter null_encrypter no_visitor now r frame m' Hst Hv E Hw).
    reflexivity.
  - rewrite <- El. by apply OnIncomingData_ack.
  - intros lo hi l x. by eapply ack_ranges_sound.
  - intros Hb. destruct (ack_num_room room frame Hw ltac:(unfold room; lia)) as [_ Hn].
    destruct (Hn Hb). by eapply ack_ranges_complete.
Qed.

Context {VI : MyQuicFramerVisitorInterface} (no_visitor : Visitor).
Abbreviation reached := (reachable no_visitor null_decrypter null_encrypter WriteUInt8AtOffset stack).

(** C33: No matter which datagrams arrive and when, fewer than ten data packets wait for
    an acknowledgement, none of them longer than 26 milliseconds, and the next heart
    beat, which may send it, is at most a millisecond away. *)
Theorem ack_delay_bound st :
  reached st ->
  (length (since st) < 10)%nat /\ Forall (fun t => clock st <= t + 26000) (since st) /\
  exists h, NsQuicReceiver.heart_timer_ (app st) = Some h /\ clock st <= h <= clock st + 1000.
Proof.
  intros [_ _ _ _ (h & Eh & Hh & Ha) _ Hf Hall]%reachable_policy. split_and!; [done| |by exists h].
  eapply Forall_impl; [exact Hall|]. unfold ack_delay_us. cbn. intros t Ht. specialize (Ha ltac:(lia)). lia.
Qed.

(** The datagrams of data packets with these numbers, as the sender builds them. *)
Definition data_arrival (a : Z * NsQuicReceiver.Address * (Z * Z)) : Z * NsQuicReceiver.Address * list Z :=
  let '(t, remote, (sent, n)) := a in (t, remote, NsQuicSender.stream_datagram sent n).

(** C36: The loss trace of the receiver reports each packet number below the highest
    received exactly once, in increasing order, unless the packet arrived ahead of
    all before it: a packet that was overtaken counts as lost although it arrives. *)
Theorem loss_trace arrivals owd rate :
  Forall (fun a => fits 32 a.2.2) arrivals ->
  let numbers := map (fun a => a.2.2) arrivals in
  let r := fold_left (deliver_arrival no_visitor null_decrypter null_encrypter WriteUInt8AtOffset stack)
             (map data_arrival arrivals) (configured true owd rate) in
  NsQuicReceiver.base_seq_ r = fold_left Z.max numbers 0 /\
  losses r = filter (fun n => n ∉ records 0 numbers) (seqZ 1 (fold_left Z.max numbers 0)).
Proof.
  intros Hfit. cbv zeta.
  assert (Hparse : Forall (fun a => is_data (data_arrival a).2 = true /\ arrival_number (data_arrival a) = a.2.2) arrivals).
  { eapply Forall_impl; [exact Hfit|]. intros [[t remote] [sent n]] Hn. cbn in Hn.
    destruct (parse_stream_datagram sent n) as [least E]; [unfold fits in Hn; lia|].
    unfold is_data, arrival_number. cbn [data_arrival fst snd]. by rewrite E. }
  destruct (arrivals_losses no_visitor null_decrypter null_encrypter WriteUInt8AtOffset stack
              (map data_arrival arrivals) (configured true owd rate)) as [E1 E2]; try (by destruct owd, rate).
  { apply Forall_map, Forall_forall. intros a Ha. rewrite Forall_forall in Hparse, Hfit.
    destruct (Hparse a Ha) as [? ->]. split; [done|by apply Hfit]. }
  assert (Hnum : map arrival_number (map data_arrival arrivals) = map (fun a => a.2.2) arrivals).
  { rewrite map_map. apply map_ext_in. intros a Ha%list_elem_of_In. rewrite Forall_forall in Hparse. by apply Hparse. }
  rewrite Hnum in E1, E2. replace (NsQuicReceiver.base_seq_ (configured true owd rate)) with 0 in E1, E2 by (by destruct owd, rate).
  rewrite Z.sub_0_r in E2. replace (losses (configured true owd rate)) with (@nil Z) in E2 by (by destruct owd, rate).
  by rewrite E1, E2.
Qed.
End apps.

(** C34: The sender's heart beat ends, for a manager that takes a retransmission off its
    list when it is sent again.  It sends, under new consecutive numbers, the pending
    retransmissions the manager lets out ([lets_out]: one after the other, the next one
    pending, as long as [TimeUntilSend] is zero before each and one is left), then a
    stop-waiting frame with the manager's least unacknowledged packet when three
    acknowledgements called for it, then a new packet exactly if [TimeUntilSend] is still
    zero, which is then only when no retransmission is left.  The manager has been told of
    these packets and of nothing else, and is ready for the next packet number; the next
    heart beat is scheduled. *)
Theorem sender_heart_beat {SM : QuicSentPacketManager} {SL : SentPacketManagerLaws SM} fuel now (s : NsQuicSender.NsQuicSender) :
  let manager := NsQuicSender.sent_packet_manager_ s in
  let pending := spm_pending manager in
  let seq := NsQuicSender.seq_ s in
  in_step s -> NsQuicSender.running_ s = true -> NsQuicSender.heart_timer_ s = None ->
  (size pending < fuel)%nat -> 0 <= seq -> seq + Z.of_nat fuel <= spm_limit ->
  exists s' k manager', in_step s' /\ NsQuicSender.HeartBeat fuel now s = Some s' /\
    lets_out now seq manager k manager' /\
    let next := seq + Z.of_nat k in
    let fresh := spm_TimeUntilSend now manager' =? 0 in
    packets_of s' = packets_of s ++ data_packets now seq (Z.of_nat k) ++
      optional (2 <? NsQuicSender.stop_waiting_count_ s)
        (NsQuicSender.SendTo (stop_waiting_datagram next (spm_GetLeastUnacked manager'))) ++
      data_packets now next (Z.b2z fresh) /\
    NsQuicSender.seq_ s' = next + Z.b2z fresh /\
    NsQuicSender.sent_packet_manager_ s' = with_fresh now next fresh manager' /\
    (k <= size pending)%nat /\ (fresh = true -> k = size pending) /\
    NsQuicSender.heart_timer_ s' = Some (now + FromMilliseconds (NsQuicSender.heart_beat_t_ s)).
Proof.
  cbv zeta. intros Hin Hr Ht Hf Hs Hl.
  destruct (HeartBeat_spec fuel now s Hin Hr Ht Hf Hs Hl) as (s' & k & manager' & Hin' & _ & H).
  by exists s', k, manager'.
Qed.

(** * Witnesses *)
Import FramerTheorems.Loopback.

Definition cipher0 : Decrypter := tt.
Definition cipher1 : Encrypter := tt.
Definition visitor1 : Visitor := visitor0.
Definition here : NsQuicReceiver.Address := (167772161, 1234).
Definition stack0 : list Z := replicate 1500 0.

(** The receiver with packets 1 and 3. *)
Definition with_1_3 : NsQuicReceiver.NsQuicReceiver :=
  NsQuicReceiver.NsQuicReceiver_ctor
    <| NsQuicReceiver.recv_packet_manager_ := fold_left note [Received 1 10; Received 3 20] QuicReceivedPacketManager_ctor |>
    <| NsQuicReceiver.peer_ := here |>.
(** The sender, with packets 5 and 7 to send again and a stop-waiting frame due. *)
Definition with_5_7 : NsQuicSender.NsQuicSender :=
  NsQuicSender.set_stop_waiting_count 3
    (NsQuicSender.set_seq 10 (NsQuicSender.NsQuicSender_ctor (mkQueue [5; 7]%positive []) 0)).

Lemma ack_reaches_sender_witness :
  exists datagram ranges,
    NsQuicReceiver.outputs_ (NsQuicReceiver.SendAck visitor1 cipher0 cipher1 no_offset stack0 1000 with_1_3) =
      [NsQuicReceiver.SendTo datagram here] /\
    NsQuicSender.OnIncomingData cipher0 cipher1 5000 datagram with_5_7 =
      Some (told 3 (received_delay 980) ranges (NsQuicSender.set_received 5000 with_5_7)) /\
    ranges = [(3, 4, false); (1, 2, true)].
Proof.
  destruct (ack_reaches_sender cipher0 cipher1 no_offset stack0 visitor1 1000 5000 with_1_3 with_5_7)
    as (datagram & ranges & E1 & E2 & _ & E3).
  - reflexivity.
  - reflexivity.
  - apply (notes_track [Received 1 10; Received 3 20] _ _ tracks_start). cbn. repeat split; try lia; by (right; vm_compute).
  - by vm_compute.
  - lia.
  - reflexivity.
  - reflexivity.
  - exists datagram, ranges. split_and!; [exact E1|exact E2|]. rewrite E3; [|by vm_compute]. vm_compute. reflexivity.
Defined.

(** A hundred packets at the first heart beat, the last not yet acknowledged. *)
Lemma ack_delay_bound_witness :
  let st := fold_left (arrive visitor1 cipher0 cipher1 no_offset stack0 1000 here)
              (map (fun n => [0; n; 8]) (seqZ 1 100)) (mkTimed (NsQuicReceiver.StartApplication 1000 (configured false false false)) [] 1000) in
  since st = [1000] /\ Forall (fun t => clock st <= t + 26000) (since st).
Proof.
  cbv zeta. split; [vm_compute; reflexivity|].
  apply (ack_delay_bound cipher0 cipher1 no_offset stack0 visitor1). apply reach_arrivals; [|reflexivity|cbn; lia].
  by apply reach_start.
Defined.

(** Packets 1, 4, 2 and 6 arrive: 2, 3 and 5 are reported. *)
Lemma loss_trace_witness :
  losses (fold_left (deliver_arrival visitor1 cipher0 cipher1 no_offset stack0)
            (map data_arrival [(1000, here, (0, 1)); (2000, here, (0, 4)); (3000, here, (0, 2)); (4000, here, (0, 6))])
            (configured true false true)) = [2; 3; 5].
Proof.
  destruct (loss_trace cipher0 cipher1 no_offset stack0 visitor1
    [(1000, here, (0, 1)); (2000, here, (0, 4)); (3000, here, (0, 2)); (4000, here, (0, 6))] false true) as [_ E].
  - repeat apply Forall_cons_2; try apply Forall_nil_2; unfold fits; cbn; lia.
  - rewrite E. vm_compute. reflexivity.
Defined.

Lemma sender_heart_beat_witness :
  exists s' least, NsQuicSender.HeartBeat 3 2000 with_5_7 = Some s' /\
    packets_of s' = data_packets 2000 10 2 ++
      [NsQuicSender.SendTo (stop_waiting_datagram 12 least)] ++ data_packets 2000 12 1 /\
    NsQuicSender.seq_ s' = 13 /\ NsQuicSender.heart_timer_ s' = Some 3000.
Proof.
  destruct (sender_heart_beat 3 2000 with_5_7) as (s' & k & m & _ & E & _ & P & Q & _ & Hk & Hfresh & Ht);
    [exact I|reflexivity|reflexivity|vm_compute; lia|by vm_compute|by vm_compute|].
  assert (Hseq : NsQuicSender.seq_ s' = 13) by (vm_compute in E; injection E as <-; reflexivity).
  change (NsQuicSender.seq_ with_5_7) with 10 in *. rewrite Hseq in Q.
  replace (size _) with 2%nat in Hk by (vm_compute; reflexivity).
  destruct (spm_TimeUntilSend 2000 m =? 0); cbn [Z.b2z] in Q; [|lia].
  assert (Ek : k = 2%nat) by lia.
  subst k. exists s', (spm_GetLeastUnacked m). split_and!; [exact E|exact P|exact Hseq|exact Ht].
Defined.

(** * Behaviours that were not intended *)

(** The receiver has acknowledged packets 1 to 3; its alarm is still set when the
    sender says it waits for nothing before packet 4. *)
Definition forgotten : NsQuicReceiver.NsQuicReceiver :=
  NsQuicReceiver.OnIncomingData visitor1 cipher0 cipher1 no_offset stack0 30000 (stop_waiting_datagram 4 4)
    (NsQuicReceiver.NsQuicReceiver_ctor
       <| NsQuicReceiver.recv_packet_manager_ :=
            fold_left note [Received 1 10; Received 2 20; Received 3 30; Acknowledged 40] QuicReceivedPacketManager_ctor |>
       <| NsQuicReceiver.ack_alarm_ := 31000 |>).

(** C37: A receiver whose queue of received packets is empty, although it has received
    packets (the sender told it to forget them all), still acts on its ack alarm: the
    heart beat at or after the deadline sends an acknowledgement without packets, with
    the largest packet received as the largest acknowledged.  Every sender takes note of
    the start of that frame and then drops it: no packet is acknowledged and the frame
    is not ended. *)
Theorem stale_ack_rejected {HM : HandshakeMessages} {CI : Ciphers} {VL : VersionLabels}
    (null_decrypter : Decrypter) (null_encrypter : Encrypter) (WriteUInt8AtOffset : Z -> Z -> M QuicDataWriter unit)
    (stack : list Z) {VI : MyQuicFramerVisitorInterface} {SM : QuicSentPacketManager} (no_visitor : Visitor)
    now now' (r : NsQuicReceiver.NsQuicReceiver) (s : NsQuicSender.NsQuicSender) :
  let m := NsQuicReceiver.recv_packet_manager_ r in
  let frame := (GetUpdatedAckFrame now m).1 in
  length stack = 1500%nat -> NsQuicReceiver.versions_ r = only_43 ->
  NsQuicReceiver.running_ r = true -> NsQuicReceiver.heart_timer_ r = None -> 0 < NsQuicReceiver.ack_alarm_ r <= now ->
  packets (ack_frame_ m) = [] -> 0 < largest_acked (ack_frame_ m) < 2 ^ 48 ->
  NsQuicSender.running_ s = true -> NsQuicSender.versions_ s = only_43 ->
  exists datagram,
    NsQuicReceiver.outputs_ (NsQuicReceiver.HeartBeat no_visitor null_decrypter null_encrypter WriteUInt8AtOffset stack now r) =
      NsQuicReceiver.outputs_ r ++ [NsQuicReceiver.SendTo datagram (NsQuicReceiver.peer_ r)] /\
    NsQuicSender.OnIncomingData null_decrypter null_encrypter now' datagram s =
      Some (NsQuicSender.OnAckFrameStart (largest_acked (ack_frame_ m)) (received_delay (ack_delay_time frame))
              (NsQuicSender.set_received now' s)).2.
Proof.
  intros m frame Hst Hv Hrun Ht Ha Hp Hl Hrun' Hv'. unfold NsQuicReceiver.HeartBeat. rewrite Hrun, Ht. cbn [negb].
  unfold MyQuicAlarm.IsExpired, MyQuicAlarm.IsSet.
  rewrite (proj2 (Z.ltb_lt 0 _)), (proj2 (Z.leb_le _ now)) by lia. cbv zeta iota beta.
  set (r1 := r <| NsQuicReceiver.ack_alarm_ := 0 |>).
  pose proof (SendAck_empty WriteUInt8AtOffset stack null_decrypter null_encrypter no_visitor now r1) as Hs.
  change (NsQuicReceiver.recv_packet_manager_ r1) with m in Hs.
  assert (Hf : packets frame = [] /\ largest_acked frame = largest_acked (ack_frame_ m)).
  { subst frame. unfold GetUpdatedAckFrame. cbn. by rewrite Hp. }
  subst frame. destruct (GetUpdatedAckFrame now m) as [frame m']. cbn [fst] in *. destruct Hf as [Hf El].
  exists (wire_public (NsQuicReceiver.seq_ r) ++ wire_empty_ack frame). rewrite <- El in *. split.
  - exact (Hs Hst Hv Hf).
  - by apply OnIncomingData_empty.
Qed.

Lemma stale_ack_rejected_witness :
  packets (ack_frame_ (NsQuicReceiver.recv_packet_manager_ forgotten)) = [] /\
  exists datagram,
    NsQuicReceiver.outputs_ (NsQuicReceiver.HeartBeat visitor1 cipher0 cipher1 no_offset stack0 31000 forgotten) =
      [NsQuicReceiver.SendTo datagram (0, 0)] /\
    NsQuicSender.OnIncomingData cipher0 cipher1 32000 datagram with_5_7 =
      Some (NsQuicSender.OnAckFrameStart 3 (received_delay 30970) (NsQuicSender.set_received 32000 with_5_7)).2.
Proof.
  split; [vm_compute; reflexivity|].
  apply (stale_ack_rejected cipher0 cipher1 no_offset stack0 visitor1 31000 32000 forgotten with_5_7);
    try (vm_compute; reflexivity); vm_compute; split; discriminate || reflexivity.
Defined.

(** A datagram longer than the sender's buffer, or shorter than its header, makes it
    write or read out of bounds. *)
Theorem datagram_out_of_bounds {SM : QuicSentPacketManager} now data (s : NsQuicSender.NsQuicSender) :
  NsQuicSender.running_ s = true -> 1500 < Z.of_nat (length data) \/ data = [] ->
  NsQuicSender.OnIncomingData cipher0 cipher1 now data s = None.
Proof.
  intros Hr Hl. unfold NsQuicSender.OnIncomingData. rewrite Hr. cbn [negb].
  assert (NsQuicSender.frame_data data = None) as ->; [|done]. destruct Hl as [Hl| ->]; [|done].
  unfold NsQuicSender.frame_data. by rewrite (proj2 (Z.ltb_lt _ _)).
Qed.
