(* ===== verification/SentManager.v ===== *)
(** libquic's [QuicSentPacketManager] as the manager of the sending application: it
    keeps the promises the application relies on, and so the application, fed with
    acknowledgements of packets it sent, never leaves the bounds of the manager's
    deque. *)
From stdpp Require Import gmap list_numbers.
From S2P Require Import Prelude.
From S2P Require Import DataReader.
From S2P Require Import DataWriter.
From S2P Require Import PacketNumbers.
From S2P Require Import PacketNumberQueue.
From S2P Require Import FramerTypes.
From S2P Require Import AckFrames.
From S2P Require Import AckRoundTrip.
From S2P Require Import Framer.
From S2P Require Import QuicUnits.
From S2P Require Import WindowedFilter.
From S2P Require Import Sampler.
From S2P Require Import RttEstimates.
From S2P Require Import UnackedPackets.
From S2P Require Import LossDetection.
From S2P Require Import SendAlgorithm.
From S2P Require Import PacedSending.
From S2P Require Import UnackedInvariants.
From S2P Require Import SentPackets.
From S2P Require Import SentInvariants.
From S2P Require Import AckedRanges.
From S2P Require Import SentRuns.
From S2P Require Import ReceivedPackets.
From S2P Require Import ReceiverApp.
From S2P Require Import SenderApp.
From S2P Require Import Datagrams.
From S2P Require Import SenderLoop.

Import QuicUnackedPacketMap.
Module SPM := QuicSentPacketManager.
Open Scope Z_scope.

(** * The application over time *)

(** The ranges read from a frame go down. *)
Lemma desc_ranges_below hi k l : desc hi l -> ranges_below hi (map iv_range (take k l)).
Proof.
  revert hi k. induction l as [|iv l IH]; intros hi [|k] Hd; try done. destruct Hd as (H1 & H2 & Hd).
  cbn [take map ranges_below iv_range fst snd]. split; [lia|by apply IH].
Qed.

Lemma ack_ranges_below version num frame :
  ack_frame_ok version frame -> ranges_below (largest_acked frame + 1) (map fst (ack_ranges num frame)).
Proof.
  intros Hok. destruct (ack_ranges_prefix version num frame Hok) as [k ->].
  destruct (ack_info_ok version frame Hok) as (back & itr & -> & Hb & He & Hd & _).
  cbn [take map ranges_below iv_range fst snd]. split; [lia|by apply desc_ranges_below].
Qed.

Section application.
Context {SM : QuicSentPacketManager} {SL : SentPacketManagerLaws SM}.
Import NsQuicSender.
Implicit Types s : NsQuicSender.

Definition same_app s s' : Prop :=
  seq_ s' = seq_ s /\ running_ s' = running_ s /\ versions_ s' = versions_ s /\ heart_timer_ s' = heart_timer_ s /\
  heart_beat_t_ s' = heart_beat_t_ s.

Lemma same_app_trans s1 s2 s3 : same_app s1 s2 -> same_app s2 s3 -> same_app s1 s3.
Proof. unfold same_app. intros (?&?&?&?&?) (?&?&?&?&?). split_and!; congruence. Qed.

Lemma OnAckRange_step n lo hi is_last s :
  spm_acking n (sent_packet_manager_ s) -> hi <= n ->
  let s' := (OnAckRange lo hi is_last s).2 in
  same_app s s' /\ spm_acking n (sent_packet_manager_ s') /\ (is_last = true -> spm_ok n (sent_packet_manager_ s')).
Proof.
  intros Hs Hh. cbv zeta. unfold OnAckRange. pose proof (OnAckRange_law n lo hi _ Hs Hh) as H1.
  set (s1 := set_manager _ s). change (spm_acking n (sent_packet_manager_ s1)) in H1. destruct is_last; cbn [negb].
  - pose proof (OnAckFrameEnd_law n (time_of_last_received_packet_ s1) _ H1) as H2.
    destruct (spm_OnAckFrameEnd _ _) as [b m]. cbn in *. split_and!; [by split_and!|by apply acking_law|done].
  - split_and!; [by split_and!|done|done].
Qed.

(** Ranges of packets sent, of which the last is marked. *)
Lemma ranges_in_step n ranges s :
  spm_acking n (sent_packet_manager_ s) -> Forall (fun r => r.2 <= n) ranges ->
  let s' := fold_left (fun s '(lo, hi, is_last) => (OnAckRange lo hi is_last s).2) (mark_last ranges) s in
  same_app s s' /\ (ranges <> [] -> spm_ok n (sent_packet_manager_ s')).
Proof.
  cbv zeta. revert s. induction ranges as [|[lo hi] ranges IH]; intros s Hs Hall; [by split_and!|].
  apply Forall_cons in Hall as [Hr Hall]. cbn [mark_last fold_left].
  destruct (OnAckRange_step n lo hi (match ranges with [] => true | _ => false end) s Hs Hr) as (E & Ha & Hl).
  set (s1 := (OnAckRange lo hi _ s).2) in *. clearbody s1. destruct (IH s1 Ha Hall) as [E' Hok].
  split; [by eapply same_app_trans|]. intros _. destruct ranges as [|r ranges]; [by apply Hl|]. by apply Hok.
Qed.

(** Acknowledgements of packets sent keep the manager and the application in step. *)
Lemma told_in_step largest delay ranges s :
  in_step s -> Forall (fun r => r.2 <= seq_ s) ranges ->
  same_app s (told largest delay (mark_last ranges) s) /\ in_step (told largest delay (mark_last ranges) s).
Proof.
  intros Hs Hall. unfold told. set (s1 := (OnAckFrameStart largest delay s).2).
  assert (same_app s s1 /\ spm_ok (seq_ s) (sent_packet_manager_ s1)) as [E1 H1].
  { unfold s1, OnAckFrameStart. cbv zeta.
    pose proof (OnAckFrameStart_law (seq_ s) largest delay (time_of_last_received_packet_ s) _ Hs) as H.
    destruct (_ <=? largest); (split; [by split_and!|exact H]). }
  clearbody s1. destruct (ranges_in_step (seq_ s) ranges s1 (acking_law _ _ H1) Hall) as [E2 H2].
  set (s2 := fold_left _ _ s1) in *. assert (H2' : spm_ok (seq_ s) (sent_packet_manager_ s2)).
  { destruct ranges; [exact H1|by apply H2]. }
  clearbody s2. pose proof (same_app_trans _ _ _ E1 E2) as E. split; [done|]. unfold in_step. by destruct E as [-> _].
Qed.

(** Of a frame whose last range is not marked the manager hears the start and the ranges,
    but not the end. *)
Lemma told_unended largest delay ranges s :
  Forall (fun r => r.2 = false) ranges ->
  sent_packet_manager_ (told largest delay ranges s) =
  foldl (fun m r => spm_OnAckRange r.1 r.2 m)
    (spm_OnAckFrameStart largest delay (time_of_last_received_packet_ s) (sent_packet_manager_ s)) (map fst ranges).
Proof.
  intros Hall. unfold told. set (s1 := (OnAckFrameStart largest delay s).2).
  assert (E : spm_OnAckFrameStart largest delay (time_of_last_received_packet_ s) (sent_packet_manager_ s) =
              sent_packet_manager_ s1) by (unfold s1, OnAckFrameStart; cbv zeta; by destruct (_ <=? largest)).
  rewrite E. clearbody s1. clear E. revert s1. induction Hall as [|[[lo hi] l] ranges Hl _ IH]; intros s1; [done|].
  cbn in Hl. subst l. cbn [fold_left map foldl]. rewrite IH. done.
Qed.

Context {HM : HandshakeMessages} {CI : Ciphers} {VL : VersionLabels} {VI : MyQuicFramerVisitorInterface}.
Context (null_decrypter : Decrypter) (null_encrypter : Encrypter) (no_visitor : Visitor).
Context (WriteUInt8AtOffset : Z -> Z -> M QuicDataWriter unit) (stack : list Z).

(** A receiver that has got nothing but packets below [n], in not too many ranges. *)
Record honest (n t : Z) (r : NsQuicReceiver.NsQuicReceiver) : Prop := mk_honest {
  ho_versions : NsQuicReceiver.versions_ r = [mkVersion PROTOCOL_QUIC_CRYPTO 43];
  ho_manager : QuicReceivedPacketManager.manager_ok (NsQuicReceiver.recv_packet_manager_ r);
  ho_some : packets (QuicReceivedPacketManager.ack_frame_ (NsQuicReceiver.recv_packet_manager_ r)) <> [];
  ho_blocks : num_ack_blocks (GetAckFrameInfo (QuicReceivedPacketManager.GetUpdatedAckFrame t
                (NsQuicReceiver.recv_packet_manager_ r)).1) <= 150;
  ho_time : 0 <= t < 2 ^ 62;
  ho_below : forall x, mem (packets (QuicReceivedPacketManager.GetUpdatedAckFrame t
               (NsQuicReceiver.recv_packet_manager_ r)).1) x -> x < n;
}.

(** The events of the sending application: its heart beat, and an acknowledgement that
    some receiver wrote, however old.  Time and losses are up to the network. *)
Inductive sender_step s : option NsQuicSender -> Prop :=
  | step_beat now :
      heart_timer_ s = Some now -> seq_ s + Z.of_nat (S (base.size (spm_pending (sent_packet_manager_ s)))) <= spm_limit ->
      sender_step s (HeartBeat (S (base.size (spm_pending (sent_packet_manager_ s)))) now (set_heart_timer None s))
  | step_ack now t r datagram :
      honest (seq_ s) t r ->
      NsQuicReceiver.outputs_ (NsQuicReceiver.SendAck no_visitor null_decrypter null_encrypter WriteUInt8AtOffset stack t r) =
        NsQuicReceiver.outputs_ r ++ [NsQuicReceiver.SendTo datagram (NsQuicReceiver.peer_ r)] ->
      sender_step s (OnIncomingData null_decrypter null_encrypter now datagram s).

Inductive sender_reaches (manager : SentPacketManager) (now : Z) : option NsQuicSender -> Prop :=
  | reach_start t0 : sender_reaches manager now (Some (StartApplication t0 (NsQuicSender_ctor manager now)))
  | reach_next s o : sender_reaches manager now (Some s) -> sender_step s o -> sender_reaches manager now o.

Definition well s : Prop :=
  in_step s /\ running_ s = true /\ versions_ s = [mkVersion PROTOCOL_QUIC_CRYPTO 43] /\ 0 <= seq_ s.

(** The datagram of an honest receiver is read without a fault. *)
Lemma honest_ack now t r datagram s :
  length stack = 1500%nat -> well s -> honest (seq_ s) t r ->
  NsQuicReceiver.outputs_ (NsQuicReceiver.SendAck no_visitor null_decrypter null_encrypter WriteUInt8AtOffset stack t r) =
    NsQuicReceiver.outputs_ r ++ [NsQuicReceiver.SendTo datagram (NsQuicReceiver.peer_ r)] ->
  exists s', OnIncomingData null_decrypter null_encrypter now datagram s = Some s' /\ well s' /\ same_app s s'.
Proof.
  intros Hst (Hin & Hrun & Hver & Hseq) [Hv Hm Hne Hb Ht Hbelow] Eout.
  pose proof (QuicReceivedPacketManager.GetUpdatedAckFrame_ok 43 t (NsQuicReceiver.recv_packet_manager_ r) Hm Ht) as Hf.
  destruct (QuicReceivedPacketManager.GetUpdatedAckFrame t (NsQuicReceiver.recv_packet_manager_ r)) as [frame m'] eqn:E.
  cbn [fst] in *. destruct Hf as (_ & _ & _ & _ & _ & _ & _ & Hw). specialize (Hw Hne).
  rewrite (SendAck_bytes WriteUInt8AtOffset stack null_decrypter null_encrypter no_visitor t r frame m' Hst Hv E Hw) in Eout.
  cbn [NsQuicReceiver.outputs_] in Eout. apply app_inj_tail in Eout as [_ Eout].
  match type of Eout with NsQuicReceiver.SendTo ?d _ = _ => assert (Ed : datagram = d) by (by injection Eout) end.
  rewrite Ed, OnIncomingData_ack by done. clear Ed Eout.
  set (room := 1499 - _). pose proof (seq_width_bounds (NsQuicReceiver.seq_ r)) as Hsw.
  destruct (ack_num_room room frame Hw ltac:(unfold room; lia)) as [_ Hn]. destruct (Hn Hb) as [Hn1 Hn2].
  rewrite (ack_ranges_complete 43 (ack_num 43 room frame) frame Hw) by done.
  eexists. split; [done|]. set (s1 := set_received now s).
  destruct (told_in_step (largest_acked frame) (received_delay (ack_delay_time frame))
    (map iv_range (reverse (packets frame))) s1) as [Hs Hin1]; [exact Hin| |].
  { apply Forall_map, Forall_forall. intros iv Hiv. rewrite elem_of_reverse in Hiv. cbn.
    destruct Hw as ([Hwf _] & _). assert (Hlt : imin iv < imax iv).
    { clear -Hwf Hiv. revert Hwf. generalize (-1). induction (packets frame) as [|x d IH]; [set_solver|].
      intros lo (_ & ? & Hd). apply elem_of_cons in Hiv as [->|Hiv]; [done|by eapply IH]. }
    specialize (Hbelow (imax iv - 1)). enough (imax iv - 1 < seq_ s) by lia. apply Hbelow.
    apply Exists_exists. exists iv. split; [done|]. unfold in_iv. lia. }
  assert (Hs' : same_app s (told (largest_acked frame) (received_delay (ack_delay_time frame))
    (mark_last (map iv_range (reverse (packets frame)))) s1)) by (destruct Hs as (?&?&?&?&?); by split_and!).
  split; [|done]. destruct Hs' as (E1 & E2 & E3 & _ & _). split_and!; [done|congruence..|lia].
Qed.

Lemma HeartBeat_versions fuel now s s' : HeartBeat fuel now s = Some s' -> versions_ s' = versions_ s.
Proof.
  unfold HeartBeat. destruct (negb (running_ s)); [by intros [= <-]|]. destruct (heart_timer_ s); [by intros [= <-]|].
  assert (Hr : versions_ (RecordRate now s) = versions_ s).
  { unfold RecordRate. repeat case_match; done. }
  assert (Hl : forall fuel s0 s1, SendRetransmission fuel now s0 = Some s1 -> versions_ s1 = versions_ s0).
  { clear. induction fuel as [|fuel IH]; intros s0 s1; cbn [SendRetransmission]; [done|].
    destruct (_ =? 0); [|by intros [= <-]]. destruct (spm_HasPendingRetransmissions _); [|by intros [= <-]].
    destruct (spm_NextPendingRetransmission _) as [p m]. intros H. by rewrite (IH _ _ H). }
  cbv zeta. destruct (SendRetransmission fuel now (RecordRate now s)) as [s1|] eqn:E; [|done]. cbn [mbind option_bind].
  intros [= <-]. rewrite <- Hr, <- (Hl _ _ _ E). by repeat case_match.
Qed.

(** Heart beats at these times. *)
Fixpoint beats (fuel : nat) (times : list Z) s : option NsQuicSender :=
  match times with
  | [] => Some s
  | now :: times => s ← HeartBeat fuel now (set_heart_timer None s); beats fuel times s
  end.

(** When the manager does not let a packet out and no stop-waiting frame is due, a heart
    beat does nothing but schedule the next. *)
Lemma HeartBeat_blocked fuel now s :
  running_ s = true -> stop_waiting_count_ s <= 2 -> spm_TimeUntilSend now (sent_packet_manager_ s) <> 0 ->
  exists s', HeartBeat (S fuel) now (set_heart_timer None s) = Some s' /\ packets_of s' = packets_of s /\
    seq_ s' = seq_ s /\ sent_packet_manager_ s' = sent_packet_manager_ s /\ running_ s' = true /\
    stop_waiting_count_ s' = stop_waiting_count_ s.
Proof.
  intros Hr Hc Ht. unfold HeartBeat. rewrite (Hr : running_ (set_heart_timer None s) = true).
  change (heart_timer_ (set_heart_timer None s)) with (@None Z). cbn [negb]. cbv zeta.
  destruct (RecordRate_spec now (set_heart_timer None s)) as (R1 & R2 & R3 & R4).
  set (s1 := RecordRate now _) in *. clearbody s1. cbn [SendRetransmission].
  change (sent_packet_manager_ (set_heart_timer None s)) with (sent_packet_manager_ s) in R3. rewrite R3.
  destruct (Z.eqb_spec (spm_TimeUntilSend now (sent_packet_manager_ s)) 0) as [|_]; [done|]. cbn [mbind option_bind].
  destruct R4 as (R4 & R5 & R6 & R7). change (stop_waiting_count_ (set_heart_timer None s)) with (stop_waiting_count_ s) in *.
  assert (Es : stop_waiting_count_ s1 = stop_waiting_count_ s) by congruence.
  rewrite (proj2 (Z.ltb_ge 2 (stop_waiting_count_ s1))) by lia. rewrite R3.
  destruct (Z.eqb_spec (spm_TimeUntilSend now (sent_packet_manager_ s)) 0) as [|_]; [done|].
  eexists. split; [done|]. split_and!; [exact R1|exact R2|exact R3|exact (eq_trans R5 Hr)|exact Es].
Qed.

Lemma beats_blocked fuel times s :
  running_ s = true -> stop_waiting_count_ s <= 2 ->
  Forall (fun now => spm_TimeUntilSend now (sent_packet_manager_ s) <> 0) times ->
  exists s', beats (S fuel) times s = Some s' /\ packets_of s' = packets_of s /\ seq_ s' = seq_ s /\
    sent_packet_manager_ s' = sent_packet_manager_ s.
Proof.
  revert s. induction times as [|now times IH]; intros s Hr Hc Ht; [by exists s|]. apply Forall_cons in Ht as [Ht Hts].
  destruct (HeartBeat_blocked fuel now s Hr Hc Ht) as (s1 & E & P1 & P2 & P3 & P4 & P5). cbn [beats]. rewrite E.
  cbn [mbind option_bind]. destruct (IH s1) as (s' & -> & Q1 & Q2 & Q3); [done|lia|by rewrite P3|].
  exists s'. split_and!; congruence.
Qed.

Lemma sender_step_well s o :
  length stack = 1500%nat -> well s -> sender_step s o -> exists s', o = Some s' /\ well s'.
Proof.
  intros Hst (Hin & Hrun & Hver & Hseq) Hstep. destruct Hstep as [now Ht Hl|now t r datagram Hh Eout].
  - destruct (HeartBeat_spec (S (base.size (spm_pending (sent_packet_manager_ s)))) now (set_heart_timer None s))
      as (s' & k & m & Hin' & Hrun' & E & _ & _ & Eseq & _); try done;
      [apply Nat.lt_succ_diag_r|].
    exists s'. split; [done|]. split_and!; [done|done|by rewrite (HeartBeat_versions _ _ _ _ E)|].
    rewrite Eseq. change (seq_ (set_heart_timer None s)) with (seq_ s). destruct (_ =? 0); cbn [Z.b2z]; lia.
  - destruct (honest_ack now t r datagram s) as (s' & -> & Hw & _); [done|by split_and!|done|done|]. by exists s'.
Qed.

Lemma sender_reaches_well manager now o :
  length stack = 1500%nat -> spm_ok 1 manager -> sender_reaches manager now o -> exists s, o = Some s /\ well s.
Proof.
  intros Hst Hm. induction 1 as [t0|s o _ (s' & [= <-] & Hw) Hstep].
  - eexists. split; [done|]. by split_and!.
  - by eapply sender_step_well.
Qed.
End application.

Section libquic.
Context {SA : Type} {SI : SendAlgorithmInterface SA}.

(** What is never returned: the result of a call that was undefined. *)
Definition no_pending : QuicPendingRetransmission := mkPending 0 [] NOT_RETRANSMISSION false 0 ENCRYPTION_NONE 0.

(** The manager, or [None] after undefined behaviour.  The application's clock shows the
    time the ack was received. *)
#[export] Instance LibquicManager : QuicSentPacketManager := {|
  SentPacketManager := option (SPM.QuicSentPacketManager SA);
  spm_OnAckFrameStart largest delay time m := SPM.OnAckFrameStart largest delay time <$> m;
  spm_OnAckRange start end_ m := SPM.OnAckRange start end_ <$> m;
  spm_OnAckFrameEnd time m :=
    match m ≫= SPM.OnAckFrameEnd time time with Some (b, m) => (b, Some m) | None => (false, None) end;
  spm_GetLeastUnacked m := default 0 (SPM.GetLeastUnacked <$> m);
  spm_TimeUntilSend now m := default 0 (SPM.TimeUntilSend now <$> m);
  spm_HasPendingRetransmissions m := default false (SPM.HasPendingRetransmissions <$> m);
  spm_NextPendingRetransmission m :=
    match m ≫= SPM.NextPendingRetransmission with Some p => (p, m) | None => (no_pending, None) end;
  spm_OnPacketSent packet old now type m := snd <$> (m ≫= SPM.OnPacketSent packet old now type true);
  spm_BandwidthEstimate m := default 0 (SPM.BandwidthEstimate <$> m);
|}.

Definition libquic_ok (n : Z) (m : option (SPM.QuicSentPacketManager SA)) : Prop :=
  exists x, m = Some x /\ manager_ok x /\ settled x /\ largest_sent_packet_ (SPM.unacked_packets_ x) + 1 = n.
Definition libquic_acking (n : Z) (m : option (SPM.QuicSentPacketManager SA)) : Prop :=
  exists x, m = Some x /\ acking x /\ largest_sent_packet_ (SPM.unacked_packets_ x) + 1 = n.
Definition libquic_pending (m : option (SPM.QuicSentPacketManager SA)) : gset Z :=
  list_to_set (fst <$> default [] (SPM.pending_retransmissions_ <$> m)).

Lemma elem_of_pending x (m : SPM.QuicSentPacketManager SA) :
  x ∈ libquic_pending (Some m) <-> exists type, (x, type) ∈ SPM.pending_retransmissions_ m.
Proof.
  unfold libquic_pending. cbn. rewrite elem_of_list_to_set, list_elem_of_fmap. split.
  - intros ([n type] & -> & H). by exists type.
  - intros [type H]. by exists (x, type).
Qed.

Lemma pending_nonempty (m : SPM.QuicSentPacketManager SA) :
  libquic_pending (Some m) <> ∅ <-> SPM.pending_retransmissions_ m <> [].
Proof. unfold libquic_pending. cbn. destruct (SPM.pending_retransmissions_ m); [done|]. cbn. set_solver. Qed.

#[export] Program Instance LibquicLaws : SentPacketManagerLaws LibquicManager := {|
  spm_ok := libquic_ok;
  spm_acking := libquic_acking;
  spm_pending := libquic_pending;
  spm_limit := max_packets;
|}.
Next Obligation. unfold max_packets. lia. Qed.
Next Obligation.
  intros n m (x & -> & _). symmetry. pose proof (pending_nonempty x) as Hpn. generalize dependent (libquic_pending (Some x)).
  intros P Hpn. cbn. unfold SPM.HasPendingRetransmissions. destruct (SPM.pending_retransmissions_ x) eqn:E.
  - apply bool_decide_false. rewrite Hpn. tauto.
  - apply bool_decide_true. by apply Hpn.
Qed.
Next Obligation.
  intros n m p m' (x & -> & Hx & Hse & En) Hne. apply pending_nonempty in Hne. cbn.
  destruct (NextPendingRetransmission_ok x Hx Hne) as (r & Er & Hin & i & Hi & _). rewrite Er. intros [= <- <-].
  pose proof (lookup_present _ _ _ (po_unacked _ _ _ _ Hx) Hi) as [? _]. pose proof (uo_least _ (po_unacked _ _ _ _ Hx)).
  split_and!; [|lia|done|by exists x]. apply elem_of_pending. by eexists.
Qed.
Next Obligation.
  intros n len size frames old now type m (x & -> & Hx & Hse & En) Hn Hsize Hold packet m'.
  assert (Hs : sendable packet (SPM.unacked_packets_ x)) by (constructor; cbn; [lia|done|done]).
  destruct (OnPacketSent_keeps packet old now type true x Hx Hs) as (x' & Ex & Hx' & (S1 & S2 & _) & Hst & Hp).
  { destruct Hold as [->|Hold]; [by left|]. apply elem_of_pending in Hold as [t Hin].
    by apply (pending_retransmits x (old, t)). }
  assert (Em : m' = Some x') by (unfold m'; cbn; by rewrite Ex). clearbody m'. subst m'. split.
  - apply set_eq. intros y. rewrite elem_of_difference, elem_of_singleton, !elem_of_pending, Hp.
    destruct (Z.eqb_spec old 0) as [->|].
    + split; [|naive_solver]. intros [t Ht]. split; [by exists t|]. intros ->.
      destruct (po_pending _ _ _ _ Hx _ Ht) as (i & Hi & _).
      pose proof (lookup_present _ _ _ (po_unacked _ _ _ _ Hx) Hi) as [? _].
      pose proof (uo_least _ (po_unacked _ _ _ _ Hx)). cbn in *. lia.
    + setoid_rewrite elem_of_erase. cbn. naive_solver.
  - exists x'. split_and!; [done|done| |by rewrite (st_sent _ _ _ _ _ _ Hst)].
    destruct Hse. split; congruence.
Qed.
Next Obligation.
  intros n largest delay time m (x & -> & Hx & [Ea El] & En). cbn. eexists. split; [done|].
  destruct (OnAckFrameStart_fields largest delay time x) as (E1 & E2 & _).
  destruct (OnAckFrameStart_ok largest delay time x) as (Hm & Hl & _); [by apply settled_acking|].
  split_and!; [done| |by rewrite E1]. split; congruence.
Qed.
Next Obligation.
  intros n m (x & -> & Hx & Hse & En). exists x. split_and!; [done|by apply settled_acking|done].
Qed.
Next Obligation.
  intros n start end_ m (x & -> & Hx & En) He. cbn. eexists. split; [done|].
  destruct (OnAckRange_ok start end_ x Hx ltac:(lia)) as (? & E & _). split; [done|]. by rewrite E.
Qed.
Next Obligation.
  intros n time m (x & -> & Hx & En). cbn.
  destruct (OnAckFrameEnd_ok time time x Hx) as (b & x' & E & Hx' & Hse & _ & Es & _). rewrite E. exists x'.
  split_and!; try done. by rewrite Es.
Qed.

Lemma libquic_ranges ranges (m : SPM.QuicSentPacketManager SA) :
  foldl (fun m r => spm_OnAckRange r.1 r.2 m) (Some m) ranges = Some (read_ranges ranges m).
Proof. revert m. induction ranges as [|r ranges IH]; intros m; [done|]. cbn [foldl read_ranges]. apply IH. Qed.

(** The application with a new manager; it never turns pacing on, so that the flags of the
    pacing sender do not matter. *)
Definition new_manager (algorithm : SA) (loss : GeneralLossAlgorithm.GeneralLossAlgorithm) (fix_mark optimize : bool) :
    option (SPM.QuicSentPacketManager SA) :=
  Some (SPM.SetHandshakeConfirmed (SPM.QuicSentPacketManager_ctor algorithm loss fix_mark optimize PacingSender.default_flags)).

Lemma new_manager_ok algorithm loss fix_mark optimize : libquic_ok 1 (new_manager algorithm loss fix_mark optimize).
Proof.
  eexists. split; [done|]. destruct (sent_manager_ctor_ok algorithm loss fix_mark optimize PacingSender.default_flags) as [Hm Hs].
  by split_and!.
Qed.
End libquic.
