(* ===== verification/SentTheorems.v ===== *)
(** The theorems on the packets sent: loss detection, the manager of sent packets on
    its own, and the sending application with that manager. *)
From stdpp Require Import gmap list_numbers.
From S2P Require Import Prelude.
From S2P Require Import DataReader.
From S2P Require Import DataWriter.
From S2P Require Import PacketNumbers.
From S2P Require Import PacketNumberQueue.
From S2P Require Import FramerTypes.
From S2P Require Import AckFrames.
From S2P Require Import AckRoundTrip.
From S2P Require Import AckTruncation.
From S2P Require Import Framer.
From S2P Require Import FramerTheorems.
From S2P Require Import QuicUnits.
From S2P Require Import WindowedFilter.
From S2P Require Import Sampler.
From S2P Require Import RttEstimates.
From S2P Require Import UnackedPackets.
From S2P Require Import LossDetection.
From S2P Require Import SendAlgorithm.
From S2P Require Import PacedSending.
From S2P Require Import UnackedInvariants.
From S2P Require Import SentPackets.
From S2P Require Import SentInvariants.
From S2P Require Import AckedRanges.
From S2P Require Import SentRuns.
From S2P Require Import ReceivedPackets.
From S2P Require Import ReceiverApp.
From S2P Require Import SenderApp.
From S2P Require Import Datagrams.
From S2P Require Import SenderLoop.
From S2P Require Import AppTheorems.
From S2P Require Import SentManager.

Import QuicUnackedPacketMap GeneralLossAlgorithm.
Open Scope Z_scope.

(** * Loss detection *)

(** C17: [DetectLosses], which starts at a remembered packet, skips the packets just
    acknowledged and stops early, finds exactly the packets of the whole deque that
    are lost by the rule of the loss detection type, in order; and the packets it will
    not look at again are lost or not in flight. *)
Theorem loss_detection_exact m time r lna acked g :
  covers_sent m -> 0 < lna <= largest_sent_packet_ m -> in_order (unacked_packets_ m) ->
  Forall (timely r g) (unacked_packets_ m) -> acks_settled m lna acked -> Z.of_nat (length acked) < 2 ^ 61 ->
  0 <= least_in_flight_ g <= lna + 1 -> 0 <= largest_lost_ g <= largest_sent_packet_ m -> idle_below m (scan_floor g) ->
  exists g', DetectLosses m time r lna acked [] g = Some (lost_packets m time r lna g, g') /\
    floor_lost m (scan_floor g') (lost_packets m time r lna g).
Proof. apply DetectLosses_exact. Qed.

(** * The manager *)

Section manager.
Context {SA : Type} {SI : SendAlgorithmInterface SA}.
Implicit Types m : SPM.QuicSentPacketManager SA.
Abbreviation unacked m := (SPM.unacked_packets_ m).

(** C6: From a new manager, any sequence of packets sent, acknowledgements of sent
    packets, timeouts, probes, neutered and cancelled packets, migrations and
    configurations, which may turn pacing on and replace the send algorithm, returns,
    without an access outside of the deque: the deque then holds the packets from the
    least unacked to the largest sent, the links between retransmissions lead to later
    packets in it, the bytes in flight are those of its packets in flight, every pending
    retransmission has frames to send, and no packet waits to be processed. *)
Theorem manager_runs algorithm loss fix_mark optimize pacing ops :
  let m0 := SPM.QuicSentPacketManager_ctor algorithm loss fix_mark optimize pacing in
  legal_ops ops m0 ->
  exists m, run_ops ops m0 = Some m /\
    GetLeastUnacked (unacked m) + size (unacked m) = SPM.GetLargestSentPacket m + 1 /\
    (forall n i, GetTransmissionInfo n (unacked m) = Some i -> info_ok (SPM.GetLargestSentPacket m) n i) /\
    SPM.GetBytesInFlight m = total flight_bytes (unacked_packets_ (unacked m)) /\
    (forall n type, (n, type) ∈ SPM.pending_retransmissions_ m ->
       exists i, GetTransmissionInfo n (unacked m) = Some i /\ HasRetransmittableFrames i = true) /\
    SPM.packets_acked_ m = [] /\ SPM.packets_lost_ m = [].
Proof.
  intros m0 Hl. destruct (sent_manager_ctor_ok algorithm loss fix_mark optimize pacing) as [Hm0 Hs0].
  destruct (run_ops_ok ops m0 Hm0 Hs0 Hl) as (m & E & Hm & Ha & Hp). exists m.
  pose proof (po_unacked _ _ _ _ Hm) as Hu. split_and!; [done|apply Hu|apply Hu|apply Hu| |done|done].
  intros n type Hin. destruct (po_pending _ _ _ _ Hm _ Hin) as (i & Hi & Hf). exists i. split; [done|].
  unfold HasRetransmittableFrames. by destruct (retransmittable_frames i).
Qed.

(** C16: An ack frame for sent packets is processed completely: the manager reports a new
    packet exactly when a range has one from the least unacked on that was not
    acknowledged, and then the packets acknowledged are those before and the
    acknowledgeable ones of the ranges, less what left the deque. *)
Theorem ack_frame_exact now largest delay time ranges m :
  manager_ok m -> settled m -> ranges_below (SPM.GetLargestSentPacket m + 1) ranges ->
  let acked m := packets (SPM.last_ack_frame_ m) in
  exists acked_new_packet m', read_frame now largest delay time ranges m = Some (acked_new_packet, m') /\
    manager_ok m' /\ settled m' /\ SPM.GetLargestSentPacket m' = SPM.GetLargestSentPacket m /\
    SPM.GetLeastUnacked m <= SPM.GetLeastUnacked m' /\
    (acked_new_packet = true <-> exists x, in_ranges x ranges /\ SPM.GetLeastUnacked m <= x /\ ~ mem (acked m) x) /\
    (forall x, mem (acked m') x <->
       (mem (acked m) x \/ (in_ranges x ranges /\ ackable (unacked m) x)) /\ SPM.GetLeastUnacked m' <= x).
Proof. apply read_frame_ok. Qed.

(** C38: An ack frame with a range of packets never sent is processed with an access
    beyond the end of the deque, whatever else the frame acknowledges: the manager leaves
    the check to its caller. *)
Theorem unsent_ack_faults now largest delay time hi ranges x m :
  manager_ok m -> settled m -> ranges_below hi ranges -> in_ranges x ranges -> SPM.GetLargestSentPacket m < x ->
  read_frame now largest delay time ranges m = None.
Proof. apply read_frame_unsent. Qed.
End manager.

(** * The application *)

Section application.
Context {SA : Type} {SI : SendAlgorithmInterface SA}.
Context {HM : HandshakeMessages} {CI : Ciphers} {VL : VersionLabels} {VI : MyQuicFramerVisitorInterface}.
Context (null_decrypter : Decrypter) (null_encrypter : Encrypter) (no_visitor : Visitor).
Context (WriteUInt8AtOffset : Z -> Z -> M QuicDataWriter unit) (stack : list Z).

(** C5: Started with a new manager and any send algorithm, after any heart beats (for up
    to 2^46 packets) and any acknowledgements of receivers that got no packet but those
    sent, in at most 150 ack blocks, however late, lost or repeated they are, the sender
    is running and its manager has never left the deque: its largest packet sent is the
    one before the sender's next number. *)
Theorem sender_never_faults algorithm loss fix_mark optimize now o :
  length stack = 1500%nat ->
  sender_reaches null_decrypter null_encrypter no_visitor WriteUInt8AtOffset stack
    (new_manager algorithm loss fix_mark optimize) now o ->
  exists s m, o = Some s /\ NsQuicSender.running_ s = true /\ NsQuicSender.sent_packet_manager_ s = Some m /\
    manager_ok m /\ settled m /\ NsQuicSender.seq_ s = SPM.GetLargestSentPacket m + 1.
Proof.
  intros Hst H. destruct (sender_reaches_well (SM := LibquicManager) (SL := LibquicLaws) _ _ _ _ _ _ _ _ Hst (new_manager_ok algorithm loss fix_mark optimize) H)
    as (s & -> & (m & Em & Hm & Hse & Hn) & Hr & _ & _).
  by exists s, m.
Qed.


(** C39: When the ack frame of a receiver is cut for lack of room inside a gap of more than
    255 packets, so that its last block has no packets, the framer marks no range as the
    last one, and the sender never ends the frame: the packets it acknowledges for the
    first time wait in the manager, also while packets are sent, and if one of them has
    left the deque by then, the end of the next frame, whatever it acknowledges, looks
    that packet up outside of the deque. *)
Theorem unended_ack_faults now now' (r : NsQuicReceiver.NsQuicReceiver) (s : NsQuicSender.NsQuicSender)
    (m : SPM.QuicSentPacketManager SA) gap :
  let received := NsQuicReceiver.recv_packet_manager_ r in
  let frame := (QuicReceivedPacketManager.GetUpdatedAckFrame now received).1 in
  let num := ack_num 43 (1499 - seq_width (NsQuicReceiver.seq_ r)) frame in
  length stack = 1500%nat -> NsQuicReceiver.versions_ r = [mkVersion PROTOCOL_QUIC_CRYPTO 43] ->
  QuicReceivedPacketManager.manager_ok received ->
  packets (QuicReceivedPacketManager.ack_frame_ received) <> [] -> 0 <= now < 2 ^ 62 ->
  last (take (Z.to_nat num) (ack_blocks frame)) = Some (gap, 0) ->
  NsQuicSender.running_ s = true -> NsQuicSender.versions_ s = [mkVersion PROTOCOL_QUIC_CRYPTO 43] ->
  NsQuicSender.sent_packet_manager_ s = Some m -> manager_ok m -> settled m ->
  exists datagram ranges s',
    NsQuicReceiver.outputs_ (NsQuicReceiver.SendAck no_visitor null_decrypter null_encrypter WriteUInt8AtOffset stack now r) =
      NsQuicReceiver.outputs_ r ++ [NsQuicReceiver.SendTo datagram (NsQuicReceiver.peer_ r)] /\
    NsQuicSender.OnIncomingData null_decrypter null_encrypter now' datagram s = Some s' /\
    let m' := read_ranges ranges (SPM.OnAckFrameStart (largest_acked frame) (received_delay (ack_delay_time frame)) now' m) in
    NsQuicSender.sent_packet_manager_ s' = Some m' /\
    (forall x, in_ranges x ranges -> mem (packets frame) x) /\
    (forall x, x ∈ numbers (SPM.packets_acked_ m') <->
       in_ranges x ranges /\ SPM.GetLeastUnacked m <= x /\ ~ mem (packets (SPM.last_ack_frame_ m)) x) /\
    (forall m2, sends m' m2 -> SPM.packets_acked_ m2 = SPM.packets_acked_ m' /\
       forall x, x ∈ numbers (SPM.packets_acked_ m') -> x < SPM.GetLeastUnacked m2 ->
       forall now2 largest delay time next, read_frame now2 largest delay time next m2 = None).
Proof.
  intros received frame num Hst Hv Hok Hne Hnow Hlast Hrun Hv' Em Hm Hse.
  pose proof (QuicReceivedPacketManager.GetUpdatedAckFrame_ok 43 now received Hok Hnow) as Hf.
  subst frame. destruct (QuicReceivedPacketManager.GetUpdatedAckFrame now received) as [frame received'] eqn:E. cbn [fst] in *.
  destruct Hf as (_ & _ & _ & _ & _ & El & _ & Hw). specialize (Hw Hne).
  pose proof (seq_width_bounds (NsQuicReceiver.seq_ r)) as Hsw. pose proof (ack_lengths_bound frame) as [_ Hfix].
  pose proof (ack_ranges_unended 43 (1499 - seq_width (NsQuicReceiver.seq_ r)) frame gap Hw ltac:(lia) Hlast) as Hun. fold num in Hun.
  exists (wire_public (NsQuicReceiver.seq_ r) ++ wire_ack_frame (1499 - seq_width (NsQuicReceiver.seq_ r)) frame),
    (map fst (ack_ranges num frame)). eexists.
  split; [by rewrite (SendAck_bytes WriteUInt8AtOffset stack null_decrypter null_encrypter no_visitor now r frame received' Hst Hv E Hw)|].
  split; [by apply OnIncomingData_ack|]. cbv zeta. fold num.
  destruct (read_ranges_exact (map fst (ack_ranges num frame)) _ (largest_acked frame) (received_delay (ack_delay_time frame))
    now' m Hm Hse (ack_ranges_below 43 num frame Hw)) as [_ Hex].
  split; [|split; [|split; [exact Hex|]]].
  - rewrite told_unended by done. change (NsQuicSender.sent_packet_manager_ (NsQuicSender.set_received now' s))
      with (NsQuicSender.sent_packet_manager_ s). rewrite Em. apply libquic_ranges.
  - intros x ([lo hi] & Hin & Hx). apply list_elem_of_fmap in Hin as ([[lo' hi'] l] & [= -> ->] & Hin).
    by eapply ack_ranges_sound.
  - set (m' := read_ranges _ _). assert (Hm' : manager_ok m').
    { apply read_ranges_any, (OnAckFrameStart_ok _ _ _ m (settled_acking m Hm Hse)). }
    intros m2 Hs. destruct (sends_wait m' m2 Hm' Hs) as [Hm2 E2]. split; [done|]. intros x Hx Hlt now2 largest delay time next.
    apply (read_frame_waiting _ _ _ _ _ x); [done|by rewrite E2|done].
Qed.
End application.

(** * Witnesses *)
Import FramerTheorems.Loopback.

(** A window in bytes, halved when packets are lost. *)
Instance HalvedWindow : SendAlgorithmInterface Z := {|
  sa_OnPacketSent _ _ _ _ _ _ _ w := w;
  sa_OnCongestionEvent _ _ _ _ _ _ lost w := match lost with [] => w | _ => w / 2 end;
  sa_OnRetransmissionTimeout _ w := w;
  sa_OnConnectionMigration w := w;
  sa_OnApplicationLimited _ _ _ w := w;
  sa_AdjustNetworkParameters _ _ w := w;
  sa_SetNumEmulatedConnections _ w := w;
  sa_CanSend _ in_flight w := in_flight <? w;
  sa_BandwidthEstimate _ := 0;
  sa_GetCongestionWindow _ w := w;
  sa_GetSlowStartThreshold _ := 0;
  sa_InSlowStart _ := false;
  sa_InRecovery _ := false;
  sa_PacingRate _ _ w := 8 * w;
  sa_SetFromConfig _ _ w := w;
  sa_SetInitialCongestionWindowInPackets packets _ := 1460 * packets;
|}.

Definition nacks : GeneralLossAlgorithm := GeneralLossAlgorithm_ctor kNack true true true.
Definition manager0 : SPM.QuicSentPacketManager Z := SPM.QuicSentPacketManager_ctor 5000 nacks true true PacingSender.default_flags.

Definition data_packet (n : Z) : SerializedPacket :=
  (SerializedPacket_ctor n 1 1000) <| sp_retransmittable_frames := [STREAM_FRAME NsQuicSender.newStreamFrame] |>.
Definition send (n : Z) : Op (SA := Z) := SendPacket (data_packet n) 0 (n * 1000) NOT_RETRANSMISSION true.
Definition resend (old n : Z) : Op (SA := Z) := SendPacket (data_packet n) old (n * 1000) LOSS_RETRANSMISSION true.

(** Of five packets the last is acknowledged, so that two are lost; one is sent again. *)
Definition five_sent : list (Op (SA := Z)) := map send [1; 2; 3; 4; 5].
Definition one_again : list (Op (SA := Z)) := five_sent ++ [ReadAckFrame 50000 5 0 50000 [(5, 6)]; resend 1 6].

Lemma one_again_legal : legal_ops one_again manager0.
Proof.
  cbn [legal_ops one_again five_sent map app].
  repeat (split; [|let m := fresh "m" in let E := fresh "E" in intros m E; vm_compute in E; injection E as <-]);
    try exact I; unfold send, resend; cbn [legal].
  all: try (split; [constructor; by vm_compute|by left]).
  - cbn. lia.
  - split; [constructor; by vm_compute|]. right. exists LOSS_RETRANSMISSION. vm_compute. left.
Qed.

(** The manager after that: packets 2 to 6 and, for its retransmission, 1. *)
Definition again : SPM.QuicSentPacketManager Z := default manager0 (run_ops one_again manager0).
Lemma again_ok : manager_ok again /\ settled again.
Proof.
  destruct (sent_manager_ctor_ok 5000 nacks true true PacingSender.default_flags) as [Hm Hs].
  destruct (run_ops_ok one_again manager0 Hm Hs one_again_legal) as (m & E & H). unfold again. by rewrite E.
Qed.

Lemma manager_runs_witness :
  exists m, run_ops one_again manager0 = Some m /\ SPM.GetBytesInFlight m = 3000 /\
    SPM.pending_retransmissions_ m = [(2, LOSS_RETRANSMISSION)].
Proof.
  destruct (manager_runs 5000 nacks true true PacingSender.default_flags one_again one_again_legal) as (m & E & _ & _ & B & _).
  exists m. split; [exact E|]. rewrite B. vm_compute in E. injection E as <-. done.
Defined.

(** Packets 6, 1 and, once more, 5. *)
Lemma ack_frame_exact_witness :
  exists m, read_frame 60000 6 0 60000 [(5, 7); (1, 2)] again = Some (true, m) /\
    mem (packets (SPM.last_ack_frame_ m)) 6 /\ ~ mem (packets (SPM.last_ack_frame_ m)) 1.
Proof.
  destruct again_ok as [Hm Hs].
  destruct (ack_frame_exact 60000 6 0 60000 [(5, 7); (1, 2)] again Hm Hs) as (b & m & E & _ & _ & _ & _ & Hb & Hmem).
  - assert (El : SPM.GetLargestSentPacket again = 6) by (vm_compute; reflexivity). rewrite El. cbn. lia.
  - assert (Eb : b = true).
    { apply Hb. exists 6. split_and!; [exists (5, 7); split; [left|cbn; lia]|vm_compute; done|].
      intros H. apply Exists_exists in H as (iv & Hin & H). vm_compute in Hin. apply list_elem_of_singleton in Hin as ->.
      unfold in_iv in H. cbn in H. lia. }
    subst b. exists m. split; [exact E|]. rewrite !Hmem. vm_compute in E. injection E as <-. split.
    + split; [|by vm_compute]. right. split; [exists (5, 7); split; [left|cbn; lia]|].
      eexists. split; vm_compute; reflexivity.
    + intros [_ H]. vm_compute in H. by apply H.
Defined.

(** Packet 6, which was sent, and 7, which was not. *)
Lemma unsent_ack_faults_witness : read_frame 60000 7 0 60000 [(6, 8)] again = None.
Proof.
  destruct again_ok as [Hm Hs]. apply (unsent_ack_faults _ _ _ _ 8 _ 7); [exact Hm|exact Hs| | |].
  - cbn. lia.
  - exists (6, 8). split; [left|cbn; lia].
  - by vm_compute.
Defined.

(** With the last of five packets acknowledged, the first two are lost. *)
Definition five : QuicUnackedPacketMap :=
  match run_ops (five_sent) manager0 with
  | Some m => update 5 (fun i => i <| in_flight := false |>) (SPM.unacked_packets_ m)
  | None => QuicUnackedPacketMap_ctor
  end.
Definition measured : RttStats.RttStats := RttStats.UpdateRtt 45000 0 50000 RttStats.RttStats_ctor.
Lemma loss_detection_exact_witness :
  exists g', DetectLosses five 50000 measured 5 [mkAcked 5 1000 0] [] nacks =
    Some ([mkLost 1 1000; mkLost 2 1000], g').
Proof.
  destruct (loss_detection_exact five 50000 measured 5 [mkAcked 5 1000 0] nacks) as (g' & E & _).
  - unfold covers_sent. split_and!; vm_compute; reflexivity.
  - by vm_compute.
  - vm_compute. repeat constructor; by vm_compute.
  - match goal with |- Forall _ ?l => let l' := eval vm_compute in l in change l with l' end.
    repeat apply Forall_cons_2; try apply Forall_nil_2; unfold timely; split_and!; by vm_compute.
  - split; [repeat constructor|]. apply Forall_singleton. split; [by vm_compute|]. intros info H. vm_compute in H.
    by injection H as <-.
  - by vm_compute.
  - by vm_compute.
  - by vm_compute.
  - intros n info H Hn. apply GetTransmissionInfo_lookup in H as [H _].
    assert (El : least_unacked_ five = 1) by (vm_compute; reflexivity).
    assert (Ef : scan_floor nacks = 1) by (vm_compute; reflexivity). lia.
  - exists g'. rewrite E. vm_compute. reflexivity.
Defined.


(** The sender that has sent as much as the window of 5000 bytes lets out. *)
Definition started : NsQuicSender.NsQuicSender :=
  NsQuicSender.StartApplication 1000 (NsQuicSender.NsQuicSender_ctor (new_manager 5000 nacks true true) 0).


(** Three packets sent and the acknowledgement of the first and the last. *)
Definition next_beat (o : option NsQuicSender.NsQuicSender) : option NsQuicSender.NsQuicSender :=
  s ← o; now ← NsQuicSender.heart_timer_ s; NsQuicSender.HeartBeat 1 now (NsQuicSender.set_heart_timer None s).
Definition three_out : option NsQuicSender.NsQuicSender := next_beat (next_beat (next_beat (Some started))).
Definition ack_1_3 : list Z := wire_public 1 ++ wire_ack_frame 1498 (QuicReceivedPacketManager.GetUpdatedAckFrame 1000
  (NsQuicReceiver.recv_packet_manager_ with_1_3)).1.

Definition beat_due (o : option NsQuicSender.NsQuicSender) : bool :=
  match o with
  | Some s =>
    match NsQuicSender.heart_timer_ s, NsQuicSender.sent_packet_manager_ s with
    | Some _, Some m =>
      match SPM.pending_retransmissions_ m with [] => NsQuicSender.seq_ s <? max_packets | _ => false end
    | _, _ => false
    end
  | None => false
  end.
Definition flight_of (s : NsQuicSender.NsQuicSender) : option (Z * Z) :=
  m ← NsQuicSender.sent_packet_manager_ s; Some (NsQuicSender.seq_ s, SPM.GetBytesInFlight m).
Lemma sender_never_faults_witness :
  exists s m, (three_out ≫= NsQuicSender.OnIncomingData cipher0 cipher1 50000 ack_1_3) = Some s /\
    NsQuicSender.sent_packet_manager_ s = Some m /\ manager_ok m /\ NsQuicSender.seq_ s = 4 /\ SPM.GetBytesInFlight m = 997.
Proof.
  destruct (sender_never_faults cipher0 cipher1 visitor1 no_offset stack0 5000 nacks true true 0
    (three_out ≫= NsQuicSender.OnIncomingData cipher0 cipher1 50000 ack_1_3)) as (s & m & E & _ & Em & Hm & _ & Hn).
  - reflexivity.
  - assert (Hbeat : forall o, sender_reaches cipher0 cipher1 visitor1 no_offset stack0 (new_manager 5000 nacks true true) 0 o ->
      beat_due o = true ->
      sender_reaches cipher0 cipher1 visitor1 no_offset stack0 (new_manager 5000 nacks true true) 0 (next_beat o)).
    { intros [s|] Ho Hd; [|discriminate Hd]. unfold beat_due in Hd.
      destruct (NsQuicSender.heart_timer_ s) as [now|] eqn:Ht; [|discriminate Hd].
      destruct (NsQuicSender.sent_packet_manager_ s) as [m|] eqn:Em; [|discriminate Hd].
      destruct (SPM.pending_retransmissions_ m) eqn:Hp; [|discriminate Hd]. apply Z.ltb_lt in Hd. apply (reach_next _ _ _ _ _ _ _ s); [exact Ho|]. unfold next_beat.
      cbn [mbind option_bind]. rewrite Ht. cbn [mbind option_bind].
      assert (Hpend : libquic_pending (NsQuicSender.sent_packet_manager_ s) = ∅) by (rewrite Em; unfold libquic_pending; cbn; by rewrite Hp).
      pose proof (step_beat cipher0 cipher1 visitor1 no_offset stack0 s now Ht) as H.
      change (spm_pending (NsQuicSender.sent_packet_manager_ s)) with (libquic_pending (NsQuicSender.sent_packet_manager_ s)) in H.
      rewrite Hpend in H. apply H. change (NsQuicSender.seq_ s + 1 <= max_packets). lia. }
    assert (Hthree : sender_reaches cipher0 cipher1 visitor1 no_offset stack0 (new_manager 5000 nacks true true) 0 three_out).
    { unfold three_out. do 3 (apply Hbeat; [|vm_compute; reflexivity]).
      apply reach_start. }
    assert (Hseq : NsQuicSender.seq_ <$> three_out = Some 4) by (vm_compute; reflexivity).
    destruct three_out as [s|]; [|discriminate Hseq]. injection Hseq as Hseq. cbn [mbind option_bind].
    apply (reach_next _ _ _ _ _ _ _ s); [exact Hthree|].
    apply (step_ack _ _ _ _ _ s 50000 1000 with_1_3); [|vm_compute; reflexivity].
    rewrite Hseq. constructor.
    + reflexivity.
    + apply (QuicReceivedPacketManager.notes_track
        [QuicReceivedPacketManager.Received 1 10; QuicReceivedPacketManager.Received 3 20] _ _ QuicReceivedPacketManager.tracks_start). cbn. repeat split; try lia; by (right; vm_compute).
    + by vm_compute.
    + by vm_compute.
    + lia.
    + intros x Hx. apply Exists_exists in Hx as (iv & Hin & Hx). vm_compute in Hin. unfold in_iv in Hx.
      repeat (apply elem_of_cons in Hin as [->|Hin]; [cbn in Hx; lia|]). by apply elem_of_nil in Hin.
  - assert (Hv : ((three_out ≫= NsQuicSender.OnIncomingData cipher0 cipher1 50000 ack_1_3) ≫= flight_of) = Some (4, 997))
      by (vm_compute; reflexivity).
    rewrite E in Hv. unfold flight_of in Hv. cbn [mbind option_bind] in Hv. rewrite Em in Hv. injection Hv as Hs Hf.
    exists s, m. exact (conj E (conj Em (conj Hm (conj Hs Hf)))).
Defined.

(** * Behaviours that were not intended *)

(** A datagram with an acknowledgement of one packet, and one with packets 6 and 1 whose
    last ack block has no packets. *)
Definition ack_one (n : Z) : list Z := wire_public 1 ++ [64; n; 0; 0; 1; 0].
Definition ack_6_1_gap : list Z := wire_public 1 ++ [96; 6; 0; 0; 2; 1; 4; 1; 1; 0; 0].

Definition hear (now : Z) (datagram : list Z) (o : option NsQuicSender.NsQuicSender) : option NsQuicSender.NsQuicSender :=
  o ≫= NsQuicSender.OnIncomingData cipher0 cipher1 now datagram.
Definition beat_at (now : Z) (o : option NsQuicSender.NsQuicSender) : option NsQuicSender.NsQuicSender :=
  o ≫= beats 5 [now].

(** Five packets are sent.  The acknowledgement of 5 makes 1 and 2 lost and halves the
    window, so that only 1 is sent again, as 6; that of 3 makes room for 2. *)
Definition room_for_2 : option NsQuicSender.NsQuicSender :=
  hear 51000 (ack_one 3) (beat_at 50000 (hear 50000 (ack_one 5) (beats 5 [1000; 2000; 3000; 4000; 5000] started))).
Definition waiting_packets (o : option NsQuicSender.NsQuicSender) : option (list Z) :=
  match o with
  | Some s =>
    match NsQuicSender.sent_packet_manager_ s with
    | Some m => Some (numbers (SPM.packets_acked_ m))
    | None => None
    end
  | None => None
  end.

(** A receiver of packets 1 and 70000: of the 275 blocks for the gap 255 are written.  The
    frame reports packet 70000 only, and is not ended. *)
Definition with_gap : NsQuicReceiver.NsQuicReceiver :=
  NsQuicReceiver.NsQuicReceiver_ctor
    <| NsQuicReceiver.recv_packet_manager_ :=
         fold_left QuicReceivedPacketManager.note
           [QuicReceivedPacketManager.Received 1 10; QuicReceivedPacketManager.Received 70000 20]
           QuicReceivedPacketManager.QuicReceivedPacketManager_ctor |>
    <| NsQuicReceiver.peer_ := here |>.

Lemma unended_ack_faults_witness :
  exists datagram ranges s' m m',
    NsQuicReceiver.outputs_ (NsQuicReceiver.SendAck visitor1 cipher0 cipher1 no_offset stack0 1000 with_gap) =
      [NsQuicReceiver.SendTo datagram here] /\
    NsQuicSender.sent_packet_manager_ started = Some m /\
    NsQuicSender.OnIncomingData cipher0 cipher1 5000 datagram started = Some s' /\
    m' = read_ranges ranges (SPM.OnAckFrameStart 70000 (received_delay 980) 5000 m) /\
    NsQuicSender.sent_packet_manager_ s' = Some m' /\
    (forall m2, sends m' m2 -> SPM.packets_acked_ m2 = SPM.packets_acked_ m').
Proof.
  destruct (new_manager_ok 5000 nacks true true) as (m & Em & Hm & Hse & _).
  destruct (unended_ack_faults cipher0 cipher1 visitor1 no_offset stack0 1000 5000 with_gap started m 255)
    as (datagram & ranges & s' & E1 & E2 & E3 & _ & _ & E4).
  - reflexivity.
  - reflexivity.
  - apply (QuicReceivedPacketManager.notes_track
      [QuicReceivedPacketManager.Received 1 10; QuicReceivedPacketManager.Received 70000 20] _ _
      QuicReceivedPacketManager.tracks_start). cbn. repeat split; try lia; by (right; vm_compute).
  - by vm_compute.
  - lia.
  - vm_compute. reflexivity.
  - reflexivity.
  - reflexivity.
  - exact Em.
  - exact Hm.
  - exact Hse.
  - exists datagram, ranges, s', m. eexists. split; [exact E1|]. split; [exact Em|]. split; [exact E2|].
    split; [reflexivity|]. split; [exact E3|]. intros m2 Hs. exact (proj1 (E4 m2 Hs)).
Defined.

(** A trace: the acknowledged packets 6 and 1 of a frame that is not ended wait.  Sending 2
    again takes packet 1 off the deque, and the next acknowledgement makes the manager look
    it up there, outside of the deque.  Without the first acknowledgement nothing happens. *)
Theorem unended_ack_trace :
  waiting_packets (hear 52000 ack_6_1_gap room_for_2) = Some [6; 1] /\
  waiting_packets (beat_at 53000 (hear 52000 ack_6_1_gap room_for_2)) = Some [6; 1] /\
  (NsQuicSender.sent_packet_manager_ <$> hear 54000 (ack_one 7) (beat_at 53000 (hear 52000 ack_6_1_gap room_for_2))) = Some None /\
  waiting_packets (hear 54000 (ack_one 7) (beat_at 53000 room_for_2)) = Some [].
Proof. split_and!; vm_compute; reflexivity. Qed.
