(* ===== verification/IndexedQueue.v ===== *)
(** [PacketNumberIndexedQueue] (net/third_party/quic/core/packet_number_indexed_queue.h):
    a deque of entries with consecutive packet numbers, of which some are absent, and
    its refinement of a finite map from packet numbers. *)
From stdpp Require Import gmap list.
From S2P Require Import Prelude.

Open Scope Z_scope.

Module PacketNumberIndexedQueue.
Section queue.
Context {T : Type}.

(** An [EntryWrapper] is [Some] of its [T] when it is present; the [T] of an absent
    entry is never read. *)
Record PacketNumberIndexedQueue := mkQueue {
  entries_ : list (option T);
  number_of_present_entries_ : Z;
  first_packet_ : Z;
}.
Implicit Types q : PacketNumberIndexedQueue.

Definition PacketNumberIndexedQueue_ctor : PacketNumberIndexedQueue := mkQueue [] 0 0.

Definition IsEmpty q : bool := number_of_present_entries_ q =? 0.
Definition number_of_present_entries q : Z := number_of_present_entries_ q.
Definition entry_slots_used q : Z := Z.of_nat (length (entries_ q)).
Definition first_packet q : Z := first_packet_ q.
Definition last_packet q : Z :=
  if IsEmpty q then 0 else u64 (first_packet_ q + entry_slots_used q - 1).

Definition GetEntryWrapper (offset : Z) q : option T :=
  if offset <? first_packet_ q then None
  else
    let offset := offset - first_packet_ q in
    if entry_slots_used q <=? offset then None else entries_ q !! Z.to_nat offset ≫= id.

Definition GetEntry (packet_number : Z) q : option T := GetEntryWrapper packet_number q.

Definition Emplace (packet_number : Z) (args : T) q : bool * PacketNumberIndexedQueue :=
  if IsEmpty q then (true, mkQueue (entries_ q ++ [Some args]) 1 packet_number)
  else if packet_number <=? last_packet q then (false, q)
  else
    let offset := u64 (packet_number - first_packet_ q) in
    let entries := if entry_slots_used q <? offset
                   then entries_ q ++ replicate (Z.to_nat (offset - entry_slots_used q)) None else entries_ q in
    (true, mkQueue (entries ++ [Some args]) (u64 (number_of_present_entries_ q + 1)) (first_packet_ q)).

(** The loop of [Cleanup]. *)
Fixpoint pop_absent (entries : list (option T)) (first_packet : Z) : list (option T) * Z :=
  match entries with
  | None :: entries => pop_absent entries (u64 (first_packet + 1))
  | _ => (entries, first_packet)
  end.

Definition Cleanup q : PacketNumberIndexedQueue :=
  let '(entries, first) := pop_absent (entries_ q) (first_packet_ q) in
  mkQueue entries (number_of_present_entries_ q) (match entries with [] => 0 | _ => first end).

Definition Remove (packet_number : Z) q : bool * PacketNumberIndexedQueue :=
  match GetEntryWrapper packet_number q with
  | None => (false, q)
  | Some _ =>
    let q' := mkQueue (<[Z.to_nat (packet_number - first_packet_ q) := None]> (entries_ q))
                (u64 (number_of_present_entries_ q - 1)) (first_packet_ q) in
    (true, if packet_number =? first_packet_ q then Cleanup q' else q')
  end.

(** * Refinement of a finite map *)

(** The queue holds the entries of [m]; it starts at the least of them. *)
Record represents q (m : gmap Z T) : Prop := {
  re_entries : forall n, GetEntry n q = m !! n;
  re_count : number_of_present_entries_ q = Z.of_nat (base.size m);
  re_front : match entries_ q with [] => first_packet_ q = 0 | e :: _ => is_Some e end;
  re_range : 0 <= first_packet_ q /\ first_packet_ q + entry_slots_used q <= 2 ^ 64;
}.

Lemma GetEntry_lookup n q :
  0 <= first_packet_ q ->
  GetEntry n q = if bool_decide (first_packet_ q <= n) then entries_ q !! Z.to_nat (n - first_packet_ q) ≫= id else None.
Proof.
  intros H0. unfold GetEntry, GetEntryWrapper, entry_slots_used. cbv zeta.
  destruct (Z.ltb_spec n (first_packet_ q)); [by rewrite bool_decide_eq_false_2 by lia|].
  rewrite bool_decide_eq_true_2 by lia.
  destruct (Z.leb_spec (Z.of_nat (length (entries_ q))) (n - first_packet_ q)); [|done].
  by rewrite lookup_ge_None_2 by lia.
Qed.

Lemma ctor_represents : represents PacketNumberIndexedQueue_ctor ∅.
Proof.
  split; [|done|done|split; by vm_compute]. intros n. rewrite lookup_empty, GetEntry_lookup by done. by case_bool_decide.
Qed.

(** The entries are few enough for their count. *)
Lemma represents_bound q m : represents q m -> Z.of_nat (base.size m) <= entry_slots_used q.
Proof.
  intros H. unfold entry_slots_used. apply Nat2Z.inj_le.
  transitivity (base.size (list_to_set (C := gset Z) ((fun i => first_packet_ q + Z.of_nat i) <$> seq 0 (length (entries_ q))))).
  - rewrite <- (size_dom m). apply subseteq_size. intros n [x Hx]%elem_of_dom. rewrite <- (re_entries _ _ H) in Hx.
    rewrite GetEntry_lookup in Hx by apply (re_range _ _ H).
    destruct (bool_decide_reflect (first_packet_ q <= n)) as [Hn|]; [|done].
    destruct (entries_ q !! _) as [e|] eqn:E; [|done]. apply lookup_lt_Some in E.
    rewrite elem_of_list_to_set, list_elem_of_fmap. exists (Z.to_nat (n - first_packet_ q)).
    split; [lia|]. apply elem_of_seq. lia.
  - rewrite size_list_to_set; [by rewrite length_fmap, length_seq|].
    apply NoDup_fmap_2; [intros ??; lia|apply NoDup_seq].
Qed.

Lemma represents_empty q m : represents q m -> IsEmpty q = bool_decide (m = ∅).
Proof.
  intros H. unfold IsEmpty. rewrite (re_count _ _ H). case_bool_decide as Hm.
  - subst. by rewrite map_size_empty.
  - apply Z.eqb_neq. intros E. apply Hm, map_size_empty_inv. lia.
Qed.

Lemma represents_no_entries q m : represents q m -> entries_ q = [] <-> m = ∅.
Proof.
  intros H. split.
  - intros E. apply map_empty. intros n. rewrite <- (re_entries _ _ H), GetEntry_lookup by apply (re_range _ _ H).
    rewrite E. by case_bool_decide.
  - intros ->. pose proof (re_front _ _ H) as Hf. destruct (entries_ q) as [|e l] eqn:E; [done|]. destruct Hf as [x ->].
    pose proof (re_entries _ _ H (first_packet_ q)) as He. rewrite GetEntry_lookup in He by apply (re_range _ _ H).
    rewrite bool_decide_eq_true_2, E, Z.sub_diag in He by lia. done.
Qed.

(** The first packet is the least entry, the last one no less than any. *)
Lemma represents_first q m :
  represents q m -> m <> ∅ -> is_Some (m !! first_packet q) /\ forall n, is_Some (m !! n) -> first_packet q <= n <= last_packet q.
Proof.
  intros H Hm. pose proof (re_range _ _ H) as [H0 Hr]. unfold last_packet, first_packet.
  rewrite (represents_empty q m H), bool_decide_eq_false_2 by done.
  assert (Hl : entries_ q <> []) by (by rewrite (represents_no_entries q m H)).
  assert (0 < entry_slots_used q) by (unfold entry_slots_used; destruct (entries_ q); [done|cbn; lia]).
  rewrite wrap_small by (unfold fits; lia). split.
  - rewrite <- (re_entries _ _ H), GetEntry_lookup by done. rewrite bool_decide_eq_true_2, Z.sub_diag by lia.
    pose proof (re_front _ _ H) as Hf. by destruct (entries_ q).
  - intros n [x Hx]. rewrite <- (re_entries _ _ H), GetEntry_lookup in Hx by done.
    destruct (bool_decide_reflect (first_packet_ q <= n)) as [Hn|]; [|done].
    destruct (entries_ q !! _) eqn:E; [|done]. apply lookup_lt_Some in E. unfold entry_slots_used. lia.
Qed.

Lemma represents_last q m :
  represents q m -> m <> ∅ -> 0 < entry_slots_used q /\ last_packet q = first_packet_ q + entry_slots_used q - 1.
Proof.
  intros H Hm. pose proof (re_range _ _ H) as [H0 Hr].
  assert (Hl : entries_ q <> []) by (by rewrite (represents_no_entries q m H)).
  assert (0 < entry_slots_used q) by (unfold entry_slots_used; destruct (entries_ q); [done|cbn; lia]).
  split; [done|]. unfold last_packet. rewrite (represents_empty q m H), bool_decide_eq_false_2 by done.
  apply wrap_small. unfold fits. lia.
Qed.

Lemma represents_single n (x : T) : 0 <= n < 2 ^ 64 - 1 -> represents (mkQueue [Some x] 1 n) (<[n := x]> ∅).
Proof.
  intros Hn. split; cbn [entries_ number_of_present_entries_ first_packet_].
  - intros k. rewrite GetEntry_lookup by (cbn; lia). cbn [entries_ first_packet_]. case_bool_decide.
    + destruct (decide (k = n)) as [->|]; [by rewrite Z.sub_diag, lookup_insert_eq|].
      rewrite lookup_insert_ne by done. destruct (Z.to_nat (k - n)) eqn:Ek; [lia|done].
    + by rewrite lookup_insert_ne by lia.
  - by rewrite map_size_insert_None.
  - by eexists.
  - unfold entry_slots_used. cbn [entries_ length]. lia.
Qed.

(** Absent entries up to packet [n], then its entry. *)
Definition extended n (x : T) q : PacketNumberIndexedQueue :=
  mkQueue ((entries_ q ++ replicate (Z.to_nat (n - first_packet_ q - entry_slots_used q)) None) ++ [Some x])
    (number_of_present_entries_ q + 1) (first_packet_ q).

Lemma extended_slots n x q :
  entry_slots_used q <= n - first_packet_ q -> entry_slots_used (extended n x q) = n - first_packet_ q + 1.
Proof.
  intros H. unfold entry_slots_used at 1, extended. cbn [entries_]. rewrite !length_app, length_replicate. cbn [length].
  unfold entry_slots_used in *. lia.
Qed.

Lemma GetEntry_extended n x q k :
  0 <= first_packet_ q -> entry_slots_used q <= n - first_packet_ q ->
  GetEntry k (extended n x q) = if decide (k = n) then Some x else GetEntry k q.
Proof.
  intros H0 Hn. rewrite !GetEntry_lookup by done. unfold extended. cbn [entries_ first_packet_].
  set (gap := Z.to_nat (n - first_packet_ q - entry_slots_used q)).
  assert (Hlen : length (entries_ q ++ replicate gap None) = Z.to_nat (n - first_packet_ q)).
  { rewrite length_app, length_replicate. unfold gap, entry_slots_used in *. lia. }
  destruct (decide (k = n)) as [->|Hk].
  - assert (0 <= entry_slots_used q) by (unfold entry_slots_used; lia).
    rewrite bool_decide_eq_true_2, lookup_app_r, Hlen, Nat.sub_diag by lia. done.
  - case_bool_decide; [|done]. destruct (decide (k < n)).
    + rewrite lookup_app_l by lia.
      destruct (decide (Z.to_nat (k - first_packet_ q) < length (entries_ q))%nat); [by rewrite lookup_app_l|].
      rewrite lookup_app_r, (lookup_ge_None_2 (entries_ q)) by lia.
      destruct (replicate gap None !! _) as [y|] eqn:E; [|done]. by apply lookup_replicate in E as [-> _].
    + rewrite !lookup_ge_None_2; [done| |]; rewrite ?length_app, ?length_replicate; cbn [length]; unfold gap, entry_slots_used in *; lia.
Qed.

Lemma represents_extended n x q m :
  represents q m -> m <> ∅ -> last_packet q < n < 2 ^ 64 - 1 -> represents (extended n x q) (<[n := x]> m).
Proof.
  intros H Hm Hn. pose proof (re_range _ _ H) as [H0 Hr]. destruct (represents_last q m H Hm) as [Hs EL].
  assert (Hnew : m !! n = None).
  { destruct (m !! n) eqn:E; [|done]. pose proof (represents_first q m H Hm) as [_ Hf].
    specialize (Hf n (mk_is_Some _ _ E)). lia. }
  split.
  - intros k. rewrite GetEntry_extended by lia. destruct (decide (k = n)) as [->|].
    + by rewrite lookup_insert_eq.
    + by rewrite lookup_insert_ne, (re_entries _ _ H) by done.
  - cbn. rewrite (re_count _ _ H), map_size_insert_None by done. lia.
  - cbn. pose proof (re_front _ _ H) as Hf. unfold entry_slots_used in Hs. destruct (entries_ q); [cbn in Hs; lia|done].
  - rewrite extended_slots by lia. cbn [extended first_packet_]. lia.
Qed.

(** [Emplace] inserts past the last entry, and into an empty queue anywhere. *)
Lemma Emplace_refines n x q m :
  represents q m -> 0 <= n < 2 ^ 64 - 1 ->
  let '(b, q') := Emplace n x q in
  b = bool_decide (m = ∅ \/ last_packet q < n) /\ represents q' (if b then <[n := x]> m else m) /\
  (if b then last_packet q' = n else q' = q).
Proof.
  intros H Hn. unfold Emplace. rewrite (represents_empty q m H).
  destruct (bool_decide_reflect (m = ∅)) as [->|Hm].
  - rewrite bool_decide_eq_true_2 by tauto. assert (E : entries_ q = []) by (by apply (represents_no_entries q ∅ H)).
    rewrite E. split_and!; [done|by apply represents_single|].
    unfold last_packet, IsEmpty, entry_slots_used. cbn [entries_ length first_packet_ number_of_present_entries_ app].
    rewrite wrap_small by (unfold fits; lia). cbn. lia.
  - destruct (represents_last q m H Hm) as [Hs EL]. pose proof (re_range _ _ H) as [H0 Hr].
    destruct (Z.leb_spec n (last_packet q)); [rewrite bool_decide_eq_false_2 by (intros [?|?]; [done|lia]); by split_and!|].
    rewrite bool_decide_eq_true_2 by (right; lia). rewrite (wrap_small 64 (n - _)) by (unfold fits; lia).
    pose proof (represents_bound q m H) as Hb.
    rewrite (wrap_small 64 (_ + 1)) by (unfold fits; rewrite (re_count _ _ H); lia).
    assert (E : mkQueue ((if entry_slots_used q <? n - first_packet_ q
        then entries_ q ++ replicate (Z.to_nat (n - first_packet_ q - entry_slots_used q)) None else entries_ q) ++ [Some x])
        (number_of_present_entries_ q + 1) (first_packet_ q) = extended n x q).
    { unfold extended. destruct (Z.ltb_spec (entry_slots_used q) (n - first_packet_ q)); [done|].
      replace (Z.to_nat (n - _ - _)) with 0%nat by lia. cbn [replicate]. by rewrite app_nil_r. }
    rewrite E. assert (Hx := represents_extended n x q m H Hm ltac:(lia)). split_and!; [done|done|].
    assert (Hne : <[n := x]> m <> ∅) by apply insert_non_empty.
    rewrite (proj2 (represents_last _ _ Hx Hne)), extended_slots by lia. cbn [extended first_packet_]. lia.
Qed.

(** [pop_absent] drops absent entries until the front is present. *)
Lemma pop_absent_spec l first :
  0 <= first /\ first + Z.of_nat (length l) <= 2 ^ 64 ->
  exists k, (k <= length l)%nat /\ (pop_absent l first).1 = drop k l /\
    (drop k l <> [] -> (pop_absent l first).2 = first + Z.of_nat k) /\
    (forall i, (i < k)%nat -> l !! i = Some None) /\ match drop k l with [] => True | e :: _ => is_Some e end.
Proof.
  revert first. induction l as [|[x|] l IH]; intros first Hr; cbn [length pop_absent] in *.
  - exists 0%nat. split_and!; try done; lia.
  - exists 0%nat. cbn. split_and!; try done; lia.
  - destruct l as [|e l].
    + exists 1%nat. split_and!; try done. intros [|i] Hi; [done|lia].
    + rewrite wrap_small by (unfold fits; cbn in *; lia).
      destruct (IH (first + 1)) as (k & Hk & E1 & E2 & Ha & Hf); [cbn in *; lia|]. exists (S k).
      split_and!; [lia|done|intros Hd; rewrite E2 by done; lia| |done].
      intros [|i] Hi; [done|apply Ha; lia].
Qed.

Lemma Cleanup_refines q m :
  (forall n, GetEntry n q = m !! n) -> number_of_present_entries_ q = Z.of_nat (base.size m) ->
  0 <= first_packet_ q /\ first_packet_ q + entry_slots_used q <= 2 ^ 64 ->
  represents (Cleanup q) m /\ (m <> ∅ -> last_packet (Cleanup q) = last_packet q).
Proof.
  intros He Hc Hr. destruct (pop_absent_spec (entries_ q) (first_packet_ q) Hr) as (k & Hk & E1 & E2 & Ha & Hf).
  unfold Cleanup. destruct (pop_absent _ _) as [l first]. cbn [fst snd] in *. subst l.
  assert (Hent : forall n, m !! n = if bool_decide (first_packet_ q + Z.of_nat k <= n)
                     then drop k (entries_ q) !! Z.to_nat (n - first_packet_ q - Z.of_nat k) ≫= id else None).
  { intros n. rewrite <- He, GetEntry_lookup by lia. destruct (decide (first_packet_ q <= n)).
    - rewrite bool_decide_eq_true_2 by done. case_bool_decide.
      + rewrite lookup_drop. do 2 f_equal. lia.
      + by rewrite Ha by lia.
    - by rewrite !bool_decide_eq_false_2 by lia. }
  assert (Hlen : length (drop k (entries_ q)) = (length (entries_ q) - k)%nat) by apply length_drop.
  destruct (drop k (entries_ q)) as [|e l] eqn:Ed.
  - assert (Hm : m = ∅) by (apply map_empty; intros n; rewrite Hent; by case_bool_decide).
    split; [|done]. subst m. split; cbn [entries_ first_packet_ number_of_present_entries_]; [|done|done|split; by vm_compute].
    intros n. rewrite lookup_empty, GetEntry_lookup by done. by case_bool_decide.
  - rewrite E2 by done. cbn [length] in Hlen. split.
    + split; cbn [entries_ first_packet_ number_of_present_entries_]; [|done|done|].
      * intros n. rewrite Hent, GetEntry_lookup by (cbn; lia). cbn [entries_ first_packet_].
        case_bool_decide; [|done]. do 2 f_equal. lia.
      * unfold entry_slots_used in *. cbn [entries_ length]. lia.
    + intros Hm. unfold last_packet, IsEmpty. cbn [number_of_present_entries_ first_packet_]. case_match; [done|].
      f_equal. unfold entry_slots_used in *. cbn [entries_ length]. lia.
Qed.

(** [Remove] deletes the entry, if there is one. *)
Lemma Remove_refines n q m :
  represents q m ->
  let '(b, q') := Remove n q in
  b = bool_decide (is_Some (m !! n)) /\ represents q' (delete n m) /\
  (delete n m <> ∅ -> last_packet q' = last_packet q).
Proof.
  intros H. pose proof (re_range _ _ H) as [H0 Hr]. unfold Remove. change (GetEntryWrapper n q) with (GetEntry n q).
  rewrite (re_entries _ _ H). destruct (m !! n) as [x|] eqn:En.
  2: { rewrite delete_id by done. split_and!; [by rewrite bool_decide_eq_false_2 by (by intros [? ?])|done|done]. }
  assert (Hm : m <> ∅) by (intros ->; done).
  destruct (represents_first q m H Hm) as [_ Hf]. specialize (Hf n (mk_is_Some _ _ En)). unfold first_packet in Hf.
  destruct (represents_last q m H Hm) as [Hs EL]. pose proof (represents_bound q m H) as Hb.
  assert (Hsize : base.size m = S (base.size (delete n m))).
  { rewrite map_size_delete_Some by (by eexists). assert (base.size m <> 0%nat) by (by rewrite map_size_non_empty_iff). lia. }
  rewrite (wrap_small 64 (_ - 1)) by (unfold fits; rewrite (re_count _ _ H); lia).
  set (q1 := mkQueue _ _ _).
  assert (He : forall k, GetEntry k q1 = delete n m !! k).
  { intros k. rewrite GetEntry_lookup by done. cbn [q1 entries_ first_packet_].
    destruct (decide (k = n)) as [->|Hk].
    - rewrite lookup_delete_eq, bool_decide_eq_true_2 by lia. rewrite list_lookup_insert_eq; [done|].
      unfold entry_slots_used in *. lia.
    - rewrite lookup_delete_ne, <- (re_entries _ _ H), GetEntry_lookup by done. case_bool_decide; [|done].
      by rewrite list_lookup_insert_ne by lia. }
  assert (Hc : number_of_present_entries_ q1 = Z.of_nat (base.size (delete n m))) by (cbn; rewrite (re_count _ _ H); lia).
  assert (Eslots : entry_slots_used q1 = entry_slots_used q) by (unfold entry_slots_used; cbn; by rewrite length_insert).
  assert (Hr1 : 0 <= first_packet_ q1 /\ first_packet_ q1 + entry_slots_used q1 <= 2 ^ 64) by (rewrite Eslots; cbn; lia).
  assert (E1 : delete n m <> ∅ -> last_packet q1 = last_packet q).
  { intros Hne. rewrite EL. unfold last_packet, IsEmpty. rewrite Hc, Eslots. cbn [q1 first_packet_].
    apply map_size_non_empty_iff in Hne. destruct (Z.eqb_spec (Z.of_nat (base.size (delete n m))) 0); [lia|].
    apply wrap_small. unfold fits. lia. }
  split; [by rewrite bool_decide_eq_true_2 by (by eexists)|]. destruct (Z.eqb_spec n (first_packet_ q)) as [Efirst|].
  - destruct (Cleanup_refines q1 (delete n m) He Hc Hr1) as [? E2]. split; [done|]. intros Hne.
    by rewrite E2, E1.
  - split; [|done]. split; [done|done| |done]. cbn [q1 entries_ first_packet_].
    pose proof (re_front _ _ H) as Hfr. destruct (entries_ q) as [|e l]; [done|].
    destruct (Z.to_nat (n - first_packet_ q)) eqn:Ei; [lia|done].
Qed.

(** The entries the queue keeps were put into it. *)
Lemma GetEntry_elem n q x : GetEntry n q = Some x -> Some x ∈ entries_ q.
Proof.
  unfold GetEntry, GetEntryWrapper. destruct (_ <? _); [done|]. cbv zeta. destruct (_ <=? _); [done|].
  destruct (entries_ q !! _) as [e|] eqn:E; [|done]. cbn. intros ->. by eapply list_elem_of_lookup_2.
Qed.

Lemma Emplace_elem n x q y : Some y ∈ entries_ (Emplace n x q).2 -> y = x \/ Some y ∈ entries_ q.
Proof.
  unfold Emplace. destruct (IsEmpty q); cbn.
  - rewrite elem_of_app, list_elem_of_singleton. intros [?|[= ->]]; auto.
  - destruct (_ <=? _); cbn; [auto|]. rewrite elem_of_app, list_elem_of_singleton. intros [H|[= ->]]; [|auto].
    destruct (_ <? _); [|auto]. apply elem_of_app in H as [?|H]; [auto|]. by apply elem_of_replicate in H as [? _].
Qed.

Lemma pop_absent_elem l first e : e ∈ (pop_absent l first).1 -> e ∈ l.
Proof. revert first. induction l as [|[x|] l IH]; intros first; [done|done|]. cbn. intros H%IH. by right. Qed.

Lemma Remove_elem n q y : Some y ∈ entries_ (Remove n q).2 -> Some y ∈ entries_ q.
Proof.
  unfold Remove. destruct (GetEntryWrapper n q); [|done]. cbn.
  assert (Hi : forall i, Some y ∈ <[i := None]> (entries_ q) -> Some y ∈ entries_ q).
  { intros i [j Hj]%list_elem_of_lookup. destruct (decide (i = j)) as [->|].
    - destruct (decide (j < length (entries_ q))%nat).
      + by rewrite list_lookup_insert_eq in Hj.
      + rewrite list_insert_ge in Hj by lia. by eapply list_elem_of_lookup_2.
    - rewrite list_lookup_insert_ne in Hj by done. by eapply list_elem_of_lookup_2. }
  destruct (n =? first_packet_ q); [|apply Hi]. unfold Cleanup. cbn [entries_ first_packet_ number_of_present_entries_].
  match goal with |- context [pop_absent ?l ?f] => pose proof (pop_absent_elem l f (Some y)) as Hp; destruct (pop_absent l f) as [l' f'] end.
  cbn in *. intros H. by eapply Hi, Hp.
Qed.

(** The queue driven by a sequence of operations, and the map with the number it has
    to exceed. *)
Inductive QueueOp := OpEmplace (n : Z) (x : T) | OpRemove (n : Z).

Definition queue_op (o : QueueOp) q : bool * PacketNumberIndexedQueue :=
  match o with OpEmplace n x => Emplace n x q | OpRemove n => Remove n q end.

Definition map_op (o : QueueOp) (st : gmap Z T * Z) : bool * (gmap Z T * Z) :=
  let '(m, last) := st in
  match o with
  | OpEmplace n x => if bool_decide (m = ∅) || (last <? n) then (true, (<[n := x]> m, n)) else (false, st)
  | OpRemove n => (bool_decide (is_Some (m !! n)), (delete n m, last))
  end.

Definition op_ok (o : QueueOp) : Prop := match o with OpEmplace n _ => 0 <= n < 2 ^ 64 - 1 | OpRemove _ => True end.

Definition simulates q (st : gmap Z T * Z) : Prop :=
  represents q st.1 /\ (st.1 <> ∅ -> last_packet q = st.2).

Lemma queue_op_simulates o q st :
  simulates q st -> op_ok o ->
  (queue_op o q).1 = (map_op o st).1 /\ simulates (queue_op o q).2 (map_op o st).2.
Proof.
  destruct st as [m last]. intros [H Hl] Ho. cbn [fst snd] in *. destruct o as [n x|n]; cbn [queue_op map_op op_ok] in *.
  - pose proof (Emplace_refines n x q m H Ho) as HE. destruct (Emplace n x q) as [b q']. cbn [fst snd].
    destruct HE as (Hb & Hq & Hlast).
    assert (Eb : b = bool_decide (m = ∅) || (last <? n)).
    { rewrite Hb. destruct (bool_decide_reflect (m = ∅)) as [Hm|Hm]; [by rewrite bool_decide_eq_true_2 by tauto|].
      rewrite Hl by done. cbn [orb]. destruct (Z.ltb_spec last n).
      - by rewrite bool_decide_eq_true_2 by tauto.
      - rewrite bool_decide_eq_false_2; [done|]. intros [?|?]; [done|lia]. }
    rewrite <- Eb. clear Eb Hb. destruct b; cbn [fst snd]; (split; [done|]); (split; [done|]); [done|by subst].
  - pose proof (Remove_refines n q m H) as HR. destruct (Remove n q) as [b q']. cbn [fst snd].
    destruct HR as (Hb & Hq & Hlast). split; [done|]. split; [done|]. intros Hne. rewrite Hlast by done. apply Hl.
    intros ->. by rewrite delete_empty in Hne.
Qed.

(** The answers of a sequence of operations. *)
Fixpoint run_ops {S : Type} (op : QueueOp -> S -> bool * S) (ops : list QueueOp) (s : S) : list bool * S :=
  match ops with
  | [] => ([], s)
  | o :: ops => let '(b, s) := op o s in let '(bs, s) := run_ops op ops s in (b :: bs, s)
  end.

Lemma run_ops_simulates ops q st :
  simulates q st -> Forall op_ok ops ->
  (run_ops queue_op ops q).1 = (run_ops map_op ops st).1 /\ simulates (run_ops queue_op ops q).2 (run_ops map_op ops st).2.
Proof.
  revert q st. induction ops as [|o ops IH]; intros q st Hs Hall; [done|]. apply Forall_cons_1 in Hall as [Ho Hall].
  destruct (queue_op_simulates o q st Hs Ho) as [Eb Hs']. cbn [run_ops].
  destruct (queue_op o q) as [b q1]. destruct (map_op o st) as [b1 st1]. cbn [fst snd] in *. subst b1.
  destruct (IH q1 st1 Hs' Hall) as [Ebs Hs'']. destruct (run_ops queue_op ops q1) as [bs q''].
  destruct (run_ops map_op ops st1) as [bs' st'']. cbn [fst snd] in *. by subst.
Qed.
End queue.
End PacketNumberIndexedQueue.
