(* ===== verification/BandwidthSamplers.v ===== *)
(** libquic's [BandwidthSampler] (net/third_party/quic/core/congestion_control/
    bandwidth_sampler.{h,cc}), which keeps its snapshots in a [PacketNumberIndexedQueue]
    and marks samples as application limited, and the sampler of delay-bbr it mirrors:
    the same packets give the same samples. *)
From stdpp Require Import gmap list.
From S2P Require Import Prelude.
From S2P Require Import QuicUnits.
From S2P Require Import Sampler.
From S2P Require Import IndexedQueue.

Open Scope Z_scope.

Module BandwidthSampler.
Import PacketNumberIndexedQueue.

Record ConnectionStateOnSentPacket := mkState {
  sent_time : Z;
  size : Z;
  total_bytes_sent : Z;
  total_bytes_sent_at_last_acked_packet : Z;
  last_acked_packet_sent_time : Z;
  last_acked_packet_ack_time : Z;
  total_bytes_acked_at_the_last_acked_packet : Z;
  state_is_app_limited : bool;
}.

Record BandwidthSample := mkBandwidthSample { bandwidth : Z; rtt : Z; sample_is_app_limited : bool }.
Definition BandwidthSample_ctor : BandwidthSample := mkBandwidthSample 0 0 false.

Record BandwidthSampler := mkSampler {
  total_bytes_sent_ : Z;
  total_bytes_acked_ : Z;
  total_bytes_sent_at_last_acked_packet_ : Z;
  last_acked_packet_sent_time_ : Z;
  last_acked_packet_ack_time_ : Z;
  last_sent_packet_ : Z;
  is_app_limited_ : bool;
  end_of_app_limited_phase_ : Z;
  connection_state_map_ : PacketNumberIndexedQueue (T := ConnectionStateOnSentPacket);
}.
Implicit Types s : BandwidthSampler.

Definition BandwidthSampler_ctor : BandwidthSampler :=
  mkSampler 0 0 0 0 0 0 false 0 PacketNumberIndexedQueue_ctor.

(** The snapshot constructor. *)
Definition ConnectionStateOnSentPacket_ctor (sent_time size : Z) (sampler : BandwidthSampler) :
    ConnectionStateOnSentPacket :=
  mkState sent_time size (total_bytes_sent_ sampler) (total_bytes_sent_at_last_acked_packet_ sampler)
    (last_acked_packet_sent_time_ sampler) (last_acked_packet_ack_time_ sampler) (total_bytes_acked_ sampler)
    (is_app_limited_ sampler).

(** A packet that cannot be inserted is only logged. *)
Definition OnPacketSent (sent_time packet_number bytes bytes_in_flight : Z) (has_retransmittable_data : bool) s :
    BandwidthSampler :=
  let s := s <| last_sent_packet_ := packet_number |> in
  if negb has_retransmittable_data then s
  else
    let s := s <| total_bytes_sent_ := u64 (total_bytes_sent_ s + bytes) |> in
    let s :=
      if bytes_in_flight =? 0 then
        s <| last_acked_packet_ack_time_ := sent_time |>
          <| total_bytes_sent_at_last_acked_packet_ := total_bytes_sent_ s |>
          <| last_acked_packet_sent_time_ := sent_time |>
      else s in
    s <| connection_state_map_ :=
           (Emplace packet_number (ConnectionStateOnSentPacket_ctor sent_time bytes s) (connection_state_map_ s)).2 |>.

Definition send_rate_of (sent_packet : ConnectionStateOnSentPacket) : option Z :=
  if last_acked_packet_sent_time sent_packet <? sent_time sent_packet then
    FromBytesAndTimeDelta
      (u64 (total_bytes_sent sent_packet - total_bytes_sent_at_last_acked_packet sent_packet))
      (time_sub (sent_time sent_packet) (last_acked_packet_sent_time sent_packet))
  else Some BandwidthInfinite.

(** [None] is a division by zero. *)
Definition OnPacketAcknowledgedInner (ack_time packet_number : Z) (sent_packet : ConnectionStateOnSentPacket) s :
    option (BandwidthSample * BandwidthSampler) :=
  let s := s <| total_bytes_acked_ := u64 (total_bytes_acked_ s + size sent_packet) |>
             <| total_bytes_sent_at_last_acked_packet_ := total_bytes_sent sent_packet |>
             <| last_acked_packet_sent_time_ := sent_time sent_packet |>
             <| last_acked_packet_ack_time_ := ack_time |> in
  let s := if is_app_limited_ s && (end_of_app_limited_phase_ s <? packet_number)
           then s <| is_app_limited_ := false |> else s in
  if last_acked_packet_sent_time sent_packet =? 0 then Some (BandwidthSample_ctor, s)
  else
    send_rate ← send_rate_of sent_packet;
    if ack_time <=? last_acked_packet_ack_time sent_packet then Some (BandwidthSample_ctor, s)
    else
      ack_rate ← FromBytesAndTimeDelta
        (u64 (total_bytes_acked_ s - total_bytes_acked_at_the_last_acked_packet sent_packet))
        (time_sub ack_time (last_acked_packet_ack_time sent_packet));
      Some (mkBandwidthSample (Z.min send_rate ack_rate) (time_sub ack_time (sent_time sent_packet))
              (state_is_app_limited sent_packet), s).

Definition remove (packet_number : Z) s : BandwidthSampler :=
  s <| connection_state_map_ := (Remove packet_number (connection_state_map_ s)).2 |>.

Definition OnPacketAcknowledged (ack_time packet_number : Z) s : option (BandwidthSample * BandwidthSampler) :=
  match GetEntry packet_number (connection_state_map_ s) with
  | None => Some (BandwidthSample_ctor, s)
  | Some sent_packet =>
    '(sample, s) ← OnPacketAcknowledgedInner ack_time packet_number sent_packet s;
    Some (sample, remove packet_number s)
  end.

Definition OnPacketLost (packet_number : Z) s : BandwidthSampler := remove packet_number s.

Definition OnAppLimited s : BandwidthSampler :=
  s <| is_app_limited_ := true |> <| end_of_app_limited_phase_ := last_sent_packet_ s |>.

(** The loop of [RemoveObsoletePackets]. *)
Fixpoint remove_obsolete (fuel : nat) (least_unacked : Z) s : BandwidthSampler :=
  match fuel with
  | O => s
  | S fuel =>
    let q := connection_state_map_ s in
    if negb (IsEmpty q) && (first_packet q <? least_unacked)
    then remove_obsolete fuel least_unacked (remove (first_packet q) s) else s
  end.
(** Every round removes an entry. *)
Definition RemoveObsoletePackets (least_unacked : Z) s : BandwidthSampler :=
  remove_obsolete (length (entries_ (connection_state_map_ s))) least_unacked s.

Definition total_bytes_acked s : Z := total_bytes_acked_ s.
Definition is_app_limited s : bool := is_app_limited_ s.
Definition end_of_app_limited_phase s : Z := end_of_app_limited_phase_ s.

(** * The sampler of delay-bbr *)

Definition packet_state (c : ConnectionStateOnSentPacket) : MySampler.PacketState :=
  MySampler.mkPacketState (sent_time c) (size c) (total_bytes_sent c) (total_bytes_sent_at_last_acked_packet c)
    (last_acked_packet_sent_time c) (last_acked_packet_ack_time c) (total_bytes_acked_at_the_last_acked_packet c).

(** The counters are those of [my], the queue holds its packets, and they were sent in
    order. *)
Record mirrors s (my : MySampler.MySampler) : Prop := {
  mi_sent : total_bytes_sent_ s = MySampler.total_bytes_sent_ my;
  mi_acked : total_bytes_acked_ s = MySampler.total_bytes_acked_ my;
  mi_last : total_bytes_sent_at_last_acked_packet_ s = MySampler.total_bytes_sent_at_last_acked_packet_ my;
  mi_sent_time : last_acked_packet_sent_time_ s = MySampler.last_acked_packet_sent_time_ my;
  mi_ack_time : last_acked_packet_ack_time_ s = MySampler.last_acked_packet_ack_time_ my;
  mi_packets : exists m, represents (connection_state_map_ s) m /\ MySampler.packet_infos_ my = packet_state <$> m /\
    (m <> ∅ -> last_packet (connection_state_map_ s) <= last_sent_packet_ s);
}.

Lemma mirrors_ctor : mirrors BandwidthSampler_ctor MySampler.MySampler_ctor.
Proof. split; try done. exists ∅. split_and!; [apply ctor_represents|by rewrite fmap_empty|done]. Qed.

Lemma mirrors_remove n s my : mirrors s my -> mirrors (remove n s) (MySampler.PacketInfoRemove n my).
Proof.
  intros [H1 H2 H3 H4 H5 (m & Hm & Em & Hl)]. split; try done. exists (delete n m). cbn.
  pose proof (Remove_refines n _ m Hm) as HR. destruct (Remove n _) as [b q]. cbn. destruct HR as (_ & Hq & Hlast).
  split_and!; [done|by rewrite Em, fmap_delete|]. intros Hne. rewrite Hlast by done. apply Hl. intros ->.
  by rewrite delete_empty in Hne.
Qed.

(** Packets sent in order. *)
Lemma mirrors_sent t n bytes in_flight s my :
  mirrors s my -> last_sent_packet_ s < n < 2 ^ 64 - 1 -> 0 <= n ->
  mirrors (OnPacketSent t n bytes in_flight true s) (MySampler.OnPacketSent t n bytes in_flight my) /\
  MySampler.packet_infos_ my !! n = None.
Proof.
  intros [H1 H2 H3 H4 H5 (m & Hm & Em & Hl)] Hn Hn0.
  assert (Hnone : m !! n = None).
  { destruct (m !! n) as [c|] eqn:E; [|done]. assert (Hne : m <> ∅) by (intros ->; done).
    pose proof (represents_first _ _ Hm Hne) as [_ Hf]. specialize (Hf n (mk_is_Some _ _ E)). specialize (Hl Hne). lia. }
  assert (HE : forall x, represents (Emplace n x (connection_state_map_ s)).2 (<[n := x]> m) /\
                         last_packet (Emplace n x (connection_state_map_ s)).2 = n).
  { intros x. pose proof (Emplace_refines n x _ m Hm ltac:(lia)) as HE. destruct (Emplace n x _) as [b q].
    destruct HE as (Hb & Hq & Hlast). cbn. rewrite bool_decide_eq_true_2 in Hb; [by subst b|].
    destruct (decide (m = ∅)); [by left|right]. specialize (Hl n0). lia. }
  assert (Hnone' : MySampler.packet_infos_ my !! n = None) by (by rewrite Em, lookup_fmap, Hnone).
  split; [|done]. unfold OnPacketSent, MySampler.OnPacketSent. cbn [negb].
  destruct (in_flight =? 0); (split; cbn; try congruence; [..|]).
  all: eexists; split_and!; [apply HE| |intros _; rewrite (proj2 (HE _)); cbn; lia].
  all: unfold map_emplace; rewrite Hnone', fmap_insert, Em.
  all: f_equal; unfold packet_state, MySampler.PacketState_ctor, ConnectionStateOnSentPacket_ctor; cbn; congruence.
Qed.

Lemma mirrors_idle t n bytes in_flight s my :
  mirrors s my -> last_sent_packet_ s <= n -> mirrors (OnPacketSent t n bytes in_flight false s) my.
Proof.
  intros [H1 H2 H3 H4 H5 (m & Hm & Em & Hl)] Hn. split; try done. exists m. split_and!; [done|done|].
  intros Hne. specialize (Hl Hne). cbn. lia.
Qed.

Lemma mirrors_app_limited s my : mirrors s my -> mirrors (OnAppLimited s) my.
Proof. by intros []. Qed.

(** Both samplers divide by zero, or take the same sample. *)
Lemma mirrors_acked t n s my :
  mirrors s my ->
  option_Forall2 (fun a b => bandwidth a.1 = b.1 /\ mirrors a.2 b.2) (OnPacketAcknowledged t n s)
    (MySampler.OnPacketAcknowledged t n true my).
Proof.
  intros H. pose proof H as [H1 H2 H3 H4 H5 (m & Hm & Em & Hl)].
  unfold OnPacketAcknowledged, MySampler.OnPacketAcknowledged, MySampler.GetPacketInfoEntry.
  rewrite Em, lookup_fmap, (re_entries _ _ Hm). destruct (m !! n) as [c|]; [|by constructor].
  unfold OnPacketAcknowledgedInner, MySampler.OnPacketAcknowledgedInner. cbn [negb fmap option_fmap option_map].
  set (s1 := s <| total_bytes_acked_ := _ |> <| _ := _ |> <| _ := _ |> <| _ := _ |>). cbv zeta.
  set (s2 := if is_app_limited_ s1 && _ then _ else s1). set (my1 := my <| MySampler.total_bytes_acked_ := _ |> <| _ := _ |> <| _ := _ |> <| _ := _ |>).
  assert (Hs2 : mirrors s2 my1).
  { unfold s2. destruct (is_app_limited_ s1 && _); (split; cbn; [congruence..|by exists m]). }
  clearbody s2 my1. clear s1. assert (Hr := mirrors_remove n s2 my1 Hs2).
  change (MySampler.last_acked_packet_sent_time (packet_state c)) with (last_acked_packet_sent_time c).
  change (MySampler.send_rate_of (packet_state c)) with (send_rate_of c).
  change (MySampler.last_acked_packet_ack_time (packet_state c)) with (last_acked_packet_ack_time c).
  change (MySampler.total_bytes_acked_at_the_last_acked_packet (packet_state c))
    with (total_bytes_acked_at_the_last_acked_packet c).
  rewrite <- (mi_acked _ _ Hs2). destruct (_ =? 0); [by constructor|]. destruct (send_rate_of c); [|by constructor].
  cbn [mbind option_bind]. destruct (_ <=? _); [by constructor|]. destruct (FromBytesAndTimeDelta _ _); by constructor.
Qed.

Lemma OnPacketAcknowledged_last t n s sample s' :
  OnPacketAcknowledged t n s = Some (sample, s') -> last_sent_packet_ s' = last_sent_packet_ s.
Proof.
  unfold OnPacketAcknowledged. destruct (GetEntry n _) as [c|]; [|by intros [= <- <-]].
  unfold OnPacketAcknowledgedInner. cbv zeta. set (s1 := if _ && _ then _ else _).
  assert (E : last_sent_packet_ s1 = last_sent_packet_ s) by (unfold s1; by destruct (_ && _)). clearbody s1.
  destruct (_ =? 0); [by intros [= <- <-]|]. destruct (send_rate_of c); [|done]. cbn [mbind option_bind].
  destruct (_ <=? _); [by intros [= <- <-]|]. destruct (FromBytesAndTimeDelta _ _); [|done]. by intros [= <- <-].
Qed.

(** The loop of [RemoveObsoletePackets] ends with the packets from [least] on. *)
Lemma remove_obsolete_spec fuel least s my :
  mirrors s my -> MySampler.sampler_ok my -> (base.size (MySampler.packet_infos_ my) <= fuel)%nat ->
  exists my', mirrors (remove_obsolete fuel least s) my' /\ MySampler.sampler_ok my' /\
    MySampler.total_bytes_sent_ my' = MySampler.total_bytes_sent_ my /\
    MySampler.packet_infos_ my' = filter (fun kv => least <= kv.1) (MySampler.packet_infos_ my).
Proof.
  revert s my. induction fuel as [|fuel IH]; intros s my H Hok Hsize; cbn [remove_obsolete].
  - exists my. assert (E : MySampler.packet_infos_ my = ∅) by (apply map_size_empty_inv; lia).
    split_and!; [done|done|done|]. by rewrite E, map_filter_empty.
  - destruct (mi_packets _ _ H) as (m & Hm & Em & _).
    assert (Hkept : m = ∅ \/ least <= first_packet (connection_state_map_ s) ->
      MySampler.packet_infos_ my = filter (fun kv => least <= kv.1) (MySampler.packet_infos_ my)).
    { intros Hc. symmetry. apply map_filter_id. intros n p Hn. rewrite Em, lookup_fmap in Hn.
      destruct (m !! n) as [c|] eqn:E; [|done]. destruct Hc as [->|Hc]; [done|]. assert (Hne : m <> ∅) by (intros ->; done).
      pose proof (represents_first _ _ Hm Hne) as [_ Hf]. specialize (Hf n (mk_is_Some _ _ E)). cbn. lia. }
    rewrite (represents_empty _ _ Hm). destruct (bool_decide_reflect (m = ∅)) as [Hempty|Hne]; cbn [negb andb].
    { exists my. split_and!; auto. }
    destruct (Z.ltb_spec (first_packet (connection_state_map_ s)) least) as [Hlt|]; [|exists my; split_and!; auto].
    set (k := first_packet _) in *. destruct (represents_first _ _ Hm Hne) as [[c Hc] _]. fold k in Hc.
    assert (Hk : MySampler.packet_infos_ my !! k = Some (packet_state c)) by (by rewrite Em, lookup_fmap, Hc).
    destruct (IH (remove k s) (MySampler.PacketInfoRemove k my)) as (my' & M & O & T & P).
    + by apply mirrors_remove.
    + by apply MySampler.PacketInfoRemove_ok.
    + cbn. rewrite map_size_delete_Some by (by eexists). lia.
    + exists my'. split_and!; [done|done|done|]. rewrite P. cbn. rewrite map_filter_delete, delete_id; [done|].
      apply map_lookup_filter_None. right. intros p _. cbn. lia.
Qed.

Lemma mirrors_obsolete least s my :
  mirrors s my -> MySampler.sampler_ok my ->
  exists my', mirrors (RemoveObsoletePackets least s) my' /\ MySampler.sampler_ok my' /\
    MySampler.total_bytes_sent_ my' = MySampler.total_bytes_sent_ my /\
    MySampler.packet_infos_ my' = filter (fun kv => least <= kv.1) (MySampler.packet_infos_ my).
Proof.
  intros H Hok. apply remove_obsolete_spec; [done|done|]. destruct (mi_packets _ _ H) as (m & Hm & -> & _).
  rewrite map_size_fmap. pose proof (represents_bound _ _ Hm). unfold entry_slots_used in *. lia.
Qed.

Lemma RemoveObsoletePackets_acked least s : total_bytes_acked (RemoveObsoletePackets least s) = total_bytes_acked s.
Proof.
  unfold RemoveObsoletePackets. generalize (length (entries_ (connection_state_map_ s))) as fuel. intros fuel. revert s.
  induction fuel as [|fuel IH]; intros s; cbn [remove_obsolete]; [done|]. destruct (_ && _); [|done]. by rewrite IH.
Qed.

(** * Times *)

(** The times of the sampler are values of [int64_t]; then no rate is taken over no time. *)
Definition packet_times (c : ConnectionStateOnSentPacket) : Prop :=
  sfits (sent_time c) /\ sfits (last_acked_packet_sent_time c) /\ sfits (last_acked_packet_ack_time c).

Record sampler_times s : Prop := {
  st_sent : sfits (last_acked_packet_sent_time_ s);
  st_ack : sfits (last_acked_packet_ack_time_ s);
  st_packets : forall c, Some c ∈ entries_ (connection_state_map_ s) -> packet_times c;
}.

Lemma sampler_times_ctor : sampler_times BandwidthSampler_ctor.
Proof. split; [split; by vm_compute|split; by vm_compute|]. intros c H. by apply elem_of_nil in H. Qed.

Lemma OnPacketSent_times t n bytes in_flight retransmittable s :
  sfits t -> sampler_times s -> sampler_times (OnPacketSent t n bytes in_flight retransmittable s).
Proof.
  intros Ht [H1 H2 H3]. unfold OnPacketSent. destruct retransmittable; cbn [negb]; [|by split]. cbv zeta.
  destruct (in_flight =? 0); (split; cbn; [done|done|]); intros c Hc; apply Emplace_elem in Hc as [->|Hc]; auto;
    by split_and!.
Qed.

Lemma remove_times n s : sampler_times s -> sampler_times (remove n s).
Proof. intros [H1 H2 H3]. split; [done|done|]. intros c Hc. apply H3. exact (Remove_elem n _ c Hc). Qed.

Lemma OnAppLimited_times s : sampler_times s -> sampler_times (OnAppLimited s).
Proof. intros []. by split. Qed.

Lemma RemoveObsoletePackets_times least s : sampler_times s -> sampler_times (RemoveObsoletePackets least s).
Proof.
  unfold RemoveObsoletePackets. generalize (length (entries_ (connection_state_map_ s))) as fuel. intros fuel. revert s.
  induction fuel as [|fuel IH]; intros s Hs; cbn [remove_obsolete]; [done|]. destruct (_ && _); [|done].
  by apply IH, remove_times.
Qed.

Lemma OnPacketAcknowledged_times t n s :
  sfits t -> sampler_times s -> exists sample s', OnPacketAcknowledged t n s = Some (sample, s') /\ sampler_times s'.
Proof.
  intros Ht Hs. unfold OnPacketAcknowledged. destruct (GetEntry n _) as [c|] eqn:Ec; [|eauto].
  destruct (st_packets _ Hs c (GetEntry_elem _ _ _ Ec)) as (T1 & T2 & T3).
  unfold OnPacketAcknowledgedInner. cbv zeta. set (s1 := if _ && _ then _ else _).
  assert (H1 : sampler_times s1) by (unfold s1; destruct Hs; destruct (_ && _); by split). clearbody s1.
  pose proof (remove_times n s1 H1) as Hr. destruct (_ =? 0); [eauto|].
  assert (exists rate, send_rate_of c = Some rate) as [rate ->].
  { unfold send_rate_of. destruct (Z.ltb_spec (last_acked_packet_sent_time c) (sent_time c)); [|eauto].
    apply FromBytesAndTimeDelta_defined; [done|done|lia]. }
  cbn [mbind option_bind]. destruct (Z.leb_spec t (last_acked_packet_ack_time c)); [eauto|].
  match goal with |- context [FromBytesAndTimeDelta ?b (time_sub t ?t0)] =>
    destruct (FromBytesAndTimeDelta_defined b t t0 Ht T3) as [ack ->]; [lia|] end.
  cbn [mbind option_bind]. eauto.
Qed.

(** * Runs *)

Inductive SamplerOp :=
  | Sent (sent_time packet_number bytes bytes_in_flight : Z)
  | SentUnretransmittable (sent_time packet_number bytes bytes_in_flight : Z)
  | Acked (ack_time packet_number : Z)
  | Lost (packet_number : Z)
  | AppLimited.

Definition no_sample s : option (BandwidthSample * BandwidthSampler) := Some (BandwidthSample_ctor, s).

Definition sampler_op (o : SamplerOp) s : option (BandwidthSample * BandwidthSampler) :=
  match o with
  | Sent t n b f => no_sample (OnPacketSent t n b f true s)
  | SentUnretransmittable t n b f => no_sample (OnPacketSent t n b f false s)
  | Acked t n => OnPacketAcknowledged t n s
  | Lost n => no_sample (OnPacketLost n s)
  | AppLimited => no_sample (OnAppLimited s)
  end.

Definition my_op (o : SamplerOp) (my : MySampler.MySampler) : option (Z * MySampler.MySampler) :=
  match o with
  | Sent t n b f => Some (0, MySampler.OnPacketSent t n b f my)
  | SentUnretransmittable _ _ _ _ | AppLimited => Some (0, my)
  | Acked t n => MySampler.OnPacketAcknowledged t n true my
  | Lost n => Some (0, MySampler.OnPacketLost n my)
  end.

(** The results of a run, in order; [None] after a division by zero. *)
Fixpoint run {S R : Type} (op : SamplerOp -> S -> option (R * S)) (ops : list SamplerOp) (s : S) : option (list R * S) :=
  match ops with
  | [] => Some ([], s)
  | o :: ops => '(r, s) ← op o s; '(rs, s) ← run op ops s; Some (r :: rs, s)
  end.

(** Packets are sent in order, at times and with sizes of their types, and fewer than
    2^64 bytes in all; a pair of the last packet sent and the bytes sent. *)
Definition legal_op (o : SamplerOp) (st : Z * Z) : Prop :=
  match o with
  | Sent t n b _ => sfits t /\ st.1 < n < 2 ^ 64 - 1 /\ 0 <= b /\ st.2 + b < 2 ^ 64
  | SentUnretransmittable _ n _ _ => st.1 <= n < 2 ^ 64 - 1
  | Acked t _ => sfits t
  | _ => True
  end.

Definition progress (o : SamplerOp) (st : Z * Z) : Z * Z :=
  match o with
  | Sent _ n b _ => (n, st.2 + b)
  | SentUnretransmittable _ n _ _ => (n, st.2)
  | _ => st
  end.

Fixpoint in_order (ops : list SamplerOp) (st : Z * Z) : Prop :=
  match ops with
  | [] => True
  | o :: ops => legal_op o st /\ in_order ops (progress o st)
  end.

Lemma op_mirrors o s my :
  let st := (last_sent_packet_ s, MySampler.total_bytes_sent_ my) in
  mirrors s my -> MySampler.sampler_ok my -> 0 <= last_sent_packet_ s -> legal_op o st ->
  exists sample s' bw my', sampler_op o s = Some (sample, s') /\ my_op o my = Some (bw, my') /\ bandwidth sample = bw /\
    mirrors s' my' /\ MySampler.sampler_ok my' /\
    (last_sent_packet_ s', MySampler.total_bytes_sent_ my') = progress o st.
Proof.
  intros st H Hok H0 Ho. unfold st in *. clear st.
  destruct o as [t n b f|t n b f|t n|n|]; cbn [sampler_op my_op legal_op progress fst snd] in *; unfold no_sample.
  - destruct Ho as (Ht & Hn & Hb & Htot). destruct (mirrors_sent t n b f s my H Hn ltac:(lia)) as [Hm Hnone].
    do 4 eexists. split_and!; [done|done|done|exact Hm|by apply MySampler.OnPacketSent_ok|].
    rewrite <- (mi_sent _ _ Hm). pose proof (mi_sent _ _ H). pose proof (MySampler.conservation _ Hok).
    pose proof (MySampler.outstanding_ok _ Hok). pose proof (MySampler.acked_nonneg _ Hok).
    unfold OnPacketSent. cbn [negb]. assert (u64 (total_bytes_sent_ s + b) = MySampler.total_bytes_sent_ my + b).
    { rewrite mi_sent with (my := my) by done. apply wrap_small. unfold fits. lia. }
    destruct (f =? 0); cbn; by f_equal.
  - do 4 eexists. split_and!; [done|done|done|apply mirrors_idle; [done|lia]|done|done].
  - pose proof (mirrors_acked t n s my H) as HA.
    destruct (MySampler.OnPacketAcknowledged_ok t n true my Hok Ho) as (bw & my' & E & Hok' & _ & Es & _). rewrite E in *.
    destruct (OnPacketAcknowledged t n s) as [[sample s']|] eqn:Es'; [|by inversion HA].
    inversion HA as [? ? [Hb Hm]|]; subst. cbn [fst snd] in *. do 4 eexists. split_and!; [done|done|done|done|done|].
    rewrite Es. f_equal. by eapply OnPacketAcknowledged_last.
  - do 4 eexists. split_and!; [done|done|done|by apply mirrors_remove|by apply MySampler.PacketInfoRemove_ok|done].
  - do 4 eexists. split_and!; [done|done|done|by apply mirrors_app_limited|done|done].
Qed.

Lemma run_mirrors ops s my :
  mirrors s my -> MySampler.sampler_ok my -> 0 <= last_sent_packet_ s ->
  in_order ops (last_sent_packet_ s, MySampler.total_bytes_sent_ my) ->
  exists samples s' my', run sampler_op ops s = Some (samples, s') /\ run my_op ops my = Some (map bandwidth samples, my') /\
    mirrors s' my' /\ MySampler.sampler_ok my'.
Proof.
  revert s my. induction ops as [|o ops IH]; intros s my H Hok H0 Ho; [by exists [], s, my|]. destruct Ho as [Ho1 Ho].
  destruct (op_mirrors o s my H Hok H0 Ho1) as (sample & s1 & bw & my1 & E1 & E2 & Hb & Hm & Hok1 & EL).
  destruct (IH s1 my1 Hm Hok1) as (samples & s' & my' & E3 & E4 & Hm' & Hok').
  - assert (E : last_sent_packet_ s1 = (progress o (last_sent_packet_ s, MySampler.total_bytes_sent_ my)).1) by (by rewrite <- EL).
    rewrite E. destruct o; cbn in *; lia.
  - by rewrite EL.
  - exists (sample :: samples), s', my'. cbn [run map]. rewrite E1. cbn [mbind option_bind]. rewrite E3, E2.
    cbn [mbind option_bind]. rewrite E4. cbn [mbind option_bind]. by rewrite Hb.
Qed.
End BandwidthSampler.
