(* ===== verification/LibquicBbr.v ===== *)
(** libquic's [BbrSender] (net/third_party/quic/core/congestion_control/bbr_sender.{h,cc}),
    the send algorithm the sending application's manager is created with.

    The round trip times and the unacked packets the sender has pointers to are the
    section variables [rtt_stats_] and [unacked_packets_].  The reloadable flags are read
    from [flags_], and what the source of random numbers gives is the sequence [random_].
    A handler yields [None] where a bandwidth is computed over no time.  The debug state is
    modelled, its printing is not. *)
From stdpp Require Import list strings.
From S2P Require Import Prelude.
From S2P Require Import FramerTypes.
From S2P Require Import QuicUnits.
From S2P Require Import WindowedFilter.
From S2P Require Import Sampler.
From S2P Require Import RttEstimates.
From S2P Require Import UnackedPackets.
From S2P Require Import LossDetection.
From S2P Require Import SendAlgorithm.
From S2P Require Import IndexedQueue.
From S2P Require Import BandwidthSamplers.

Open Scope Z_scope.

Module BbrSender.

(** * Constants *)

Definition kMaxSegmentSize : Z := QuicUnackedPacketMap.kDefaultTCPMSS.
Definition kDefaultMaxCongestionWindowPackets : Z := 2000.
Definition kDefaultMinimumCongestionWindow : Z := 4 * kMaxSegmentSize.

(** A [float] literal [n / d]. *)
Definition float (n d : Z) : spec_float := SFdiv 24 128 (f32_of_Z n) (f32_of_Z d).

Definition kDefaultHighGain : spec_float := float 2885 1000.
Definition kDerivedHighGain : spec_float := float 2773 1000.
Definition kDerivedHighCWNDGain : spec_float := float 2773 1000.
Definition kStartupAfterLossGain : spec_float := float 15 10.
Definition kPacingGain : list spec_float :=
  map (fun '(n, d) => narrow (literal n d))
    [(125, 100); (75, 100); (1, 1); (1, 1); (1, 1); (1, 1); (1, 1); (1, 1)].
Definition kGainCycleLength : Z := 8.
Definition kBandwidthWindowSize : Z := kGainCycleLength + 2.
Definition kMinRttExpiry : Z := FromSeconds 10.
Definition kProbeRttTime : Z := FromMilliseconds 200.
Definition kStartupGrowthTarget : spec_float := narrow (literal 125 100).
Definition kRoundTripsWithoutGrowthBeforeExitingStartup : Z := 3.
Definition kModerateProbeRttMultiplier : spec_float := narrow (literal 75 100).
Definition kSimilarMinRttThreshold : spec_float := narrow (literal 1125 1000).

(** * State *)

Inductive Mode := STARTUP | DRAIN | PROBE_BW | PROBE_RTT.
Inductive RecoveryState := NOT_IN_RECOVERY | CONSERVATION | MEDIUM_GROWTH | GROWTH.

#[global] Instance Mode_eq_dec : EqDecision Mode.
Proof. solve_decision. Defined.
#[global] Instance RecoveryState_eq_dec : EqDecision RecoveryState.
Proof. solve_decision. Defined.

(** The flags of quic_flags_list.h. *)
Record Flags := mkFlags {
  quic_bbr_cwnd_gain : spec_float;
  quic_bbr_startup_rate_reduction : bool;
  quic_bbr_less_probe_rtt : bool;
  quic_bbr_flexible_app_limited : bool;
  quic_bbr_slower_startup3 : bool;
  quic_bbr_slower_startup4 : bool;
  quic_bbr_app_limited_recovery : bool;
  quic_bbr_no_bytes_acked_in_startup_recovery : bool;
  quic_bbr_one_mss_conservation : bool;
}.

Record BbrSender := mkBbr {
  flags_ : Flags;
  random_ : nat -> Z;
  random_calls_ : nat;
  mode_ : Mode;
  sampler_ : BandwidthSampler.BandwidthSampler;
  round_trip_count_ : Z;
  last_sent_packet_ : Z;
  current_round_trip_end_ : Z;
  max_bandwidth_ : WindowedFilter Z;
  max_ack_height_ : WindowedFilter Z;
  aggregation_epoch_start_time_ : Z;
  aggregation_epoch_bytes_ : Z;
  min_rtt_ : Z;
  min_rtt_timestamp_ : Z;
  congestion_window_ : Z;
  initial_congestion_window_ : Z;
  max_congestion_window_ : Z;
  min_congestion_window_ : Z;
  high_gain_ : spec_float;
  high_cwnd_gain_ : spec_float;
  drain_gain_ : spec_float;
  pacing_rate_ : Z;
  pacing_gain_ : spec_float;
  congestion_window_gain_ : spec_float;
  congestion_window_gain_constant_ : spec_float;
  num_startup_rtts_ : Z;
  exit_startup_on_loss_ : bool;
  cycle_current_offset_ : Z;
  last_cycle_start_ : Z;
  is_at_full_bandwidth_ : bool;
  rounds_without_bandwidth_gain_ : Z;
  bandwidth_at_last_round_ : Z;
  exiting_quiescence_ : bool;
  exit_probe_rtt_at_ : Z;
  probe_rtt_round_passed_ : bool;
  last_sample_is_app_limited_ : bool;
  has_non_app_limited_sample_ : bool;
  flexible_app_limited_ : bool;
  recovery_state_ : RecoveryState;
  end_recovery_at_ : Z;
  recovery_window_ : Z;
  is_app_limited_recovery_ : bool;
  slower_startup_ : bool;
  rate_based_startup_ : bool;
  startup_rate_reduction_multiplier_ : Z;
  startup_bytes_lost_ : Z;
  initial_conservation_in_startup_ : RecoveryState;
  enable_ack_aggregation_during_startup_ : bool;
  expire_ack_aggregation_in_startup_ : bool;
  drain_to_target_ : bool;
  probe_rtt_based_on_bdp_ : bool;
  probe_rtt_skipped_if_similar_rtt_ : bool;
  probe_rtt_disabled_if_app_limited_ : bool;
  app_limited_since_last_probe_rtt_ : bool;
  min_rtt_since_last_probe_rtt_ : Z;
}.
Implicit Types s : BbrSender.

Abbreviation in_mode m s := (bool_decide (mode_ s = m)).

Definition EnterStartupMode s : BbrSender :=
  s <| mode_ := STARTUP |> <| pacing_gain_ := high_gain_ s |> <| congestion_window_gain_ := high_cwnd_gain_ s |>.

Definition BbrSender_ctor (flags : Flags) (random : nat -> Z)
    (initial_tcp_congestion_window max_tcp_congestion_window : Z) : BbrSender :=
  let initial := u64 (initial_tcp_congestion_window * QuicUnackedPacketMap.kDefaultTCPMSS) in
  let max := u64 (max_tcp_congestion_window * QuicUnackedPacketMap.kDefaultTCPMSS) in
  EnterStartupMode {|
    flags_ := flags; random_ := random; random_calls_ := 0%nat; mode_ := STARTUP;
    sampler_ := BandwidthSampler.BandwidthSampler_ctor;
    round_trip_count_ := 0; last_sent_packet_ := 0; current_round_trip_end_ := 0;
    max_bandwidth_ := WindowedFilter_ctor kBandwidthWindowSize 0 0;
    max_ack_height_ := WindowedFilter_ctor kBandwidthWindowSize 0 0;
    aggregation_epoch_start_time_ := 0; aggregation_epoch_bytes_ := 0;
    min_rtt_ := 0; min_rtt_timestamp_ := 0; congestion_window_ := initial;
    initial_congestion_window_ := initial; max_congestion_window_ := max;
    min_congestion_window_ := kDefaultMinimumCongestionWindow;
    high_gain_ := kDefaultHighGain; high_cwnd_gain_ := kDefaultHighGain;
    drain_gain_ := SFdiv 24 128 (f32_of_Z 1) kDefaultHighGain;
    pacing_rate_ := 0; pacing_gain_ := f32_of_Z 1; congestion_window_gain_ := f32_of_Z 1;
    congestion_window_gain_constant_ := narrow (quic_bbr_cwnd_gain flags);
    num_startup_rtts_ := kRoundTripsWithoutGrowthBeforeExitingStartup; exit_startup_on_loss_ := false;
    cycle_current_offset_ := 0; last_cycle_start_ := 0; is_at_full_bandwidth_ := false;
    rounds_without_bandwidth_gain_ := 0; bandwidth_at_last_round_ := 0; exiting_quiescence_ := false;
    exit_probe_rtt_at_ := 0; probe_rtt_round_passed_ := false; last_sample_is_app_limited_ := false;
    has_non_app_limited_sample_ := false; flexible_app_limited_ := false;
    recovery_state_ := NOT_IN_RECOVERY; end_recovery_at_ := 0; recovery_window_ := max;
    is_app_limited_recovery_ := false; slower_startup_ := false; rate_based_startup_ := false;
    startup_rate_reduction_multiplier_ := 0; startup_bytes_lost_ := 0;
    initial_conservation_in_startup_ := CONSERVATION; enable_ack_aggregation_during_startup_ := false;
    expire_ack_aggregation_in_startup_ := false; drain_to_target_ := false; probe_rtt_based_on_bdp_ := false;
    probe_rtt_skipped_if_similar_rtt_ := false; probe_rtt_disabled_if_app_limited_ := false;
    app_limited_since_last_probe_rtt_ := false; min_rtt_since_last_probe_rtt_ := kQuicInfiniteTimeUs;
  |}.

Definition SetInitialCongestionWindowInPackets (congestion_window : Z) s : BbrSender :=
  if in_mode STARTUP s
  then s <| initial_congestion_window_ := u64 (congestion_window * QuicUnackedPacketMap.kDefaultTCPMSS) |>
         <| congestion_window_ := u64 (congestion_window * QuicUnackedPacketMap.kDefaultTCPMSS) |>
  else s.

Definition InSlowStart s : bool := in_mode STARTUP s.
Definition InRecovery s : bool := negb (bool_decide (recovery_state_ s = NOT_IN_RECOVERY)).
Definition BandwidthEstimate s : Z := GetBest (max_bandwidth_ s).
Definition GetSlowStartThreshold s : Z := 0.

(** * Configuration *)

Definition set_high_gain (high_gain : spec_float) s : BbrSender :=
  let s := s <| high_gain_ := high_gain |> in
  if in_mode STARTUP s then s <| pacing_gain_ := high_gain |> else s.
Definition set_high_cwnd_gain (high_cwnd_gain : spec_float) s : BbrSender :=
  let s := s <| high_cwnd_gain_ := high_cwnd_gain |> in
  if in_mode STARTUP s then s <| congestion_window_gain_ := high_cwnd_gain |> else s.
Definition set_drain_gain (drain_gain : spec_float) s : BbrSender := s <| drain_gain_ := drain_gain |>.

(** The [if] statements of [SetFromConfig], in order. *)
Definition config_options (requested : Z -> bool) (flags : Flags) : list (bool * (BbrSender -> BbrSender)) := [
  (requested kLRTT, fun s => s <| exit_startup_on_loss_ := true |>);
  (requested k1RTT, fun s => s <| num_startup_rtts_ := 1 |>);
  (requested k2RTT, fun s => s <| num_startup_rtts_ := 2 |>);
  (requested kBBRS, fun s => s <| slower_startup_ := true |>);
  (requested kBBR3, fun s => s <| drain_to_target_ := true |>);
  (requested kBBS1, fun s => s <| rate_based_startup_ := true |>);
  (requested kBBS2, fun s => s <| initial_conservation_in_startup_ := MEDIUM_GROWTH |>);
  (requested kBBS3, fun s => s <| initial_conservation_in_startup_ := GROWTH |>);
  (quic_bbr_startup_rate_reduction flags && requested kBBS4, fun s =>
     s <| rate_based_startup_ := true |> <| startup_rate_reduction_multiplier_ := 1 |>);
  (quic_bbr_startup_rate_reduction flags && requested kBBS5, fun s =>
     s <| rate_based_startup_ := true |> <| startup_rate_reduction_multiplier_ := 2 |>);
  (requested kBBR4, fun s => s <| max_ack_height_ := SetWindowLength (2 * kBandwidthWindowSize) (max_ack_height_ s) |>);
  (requested kBBR5, fun s => s <| max_ack_height_ := SetWindowLength (4 * kBandwidthWindowSize) (max_ack_height_ s) |>);
  (quic_bbr_less_probe_rtt flags && requested kBBR6, fun s => s <| probe_rtt_based_on_bdp_ := true |>);
  (quic_bbr_less_probe_rtt flags && requested kBBR7, fun s => s <| probe_rtt_skipped_if_similar_rtt_ := true |>);
  (quic_bbr_less_probe_rtt flags && requested kBBR8, fun s => s <| probe_rtt_disabled_if_app_limited_ := true |>);
  (quic_bbr_flexible_app_limited flags && requested kBBR9, fun s => s <| flexible_app_limited_ := true |>);
  (quic_bbr_slower_startup3 flags && requested kBBQ1, fun s =>
     set_drain_gain (SFdiv 24 128 (f32_of_Z 1) kDerivedHighGain)
       (set_high_cwnd_gain kDerivedHighGain (set_high_gain kDerivedHighGain s)));
  (quic_bbr_slower_startup3 flags && requested kBBQ2, set_high_cwnd_gain kDerivedHighCWNDGain);
  (quic_bbr_slower_startup3 flags && requested kBBQ3, fun s => s <| enable_ack_aggregation_during_startup_ := true |>);
  (quic_bbr_slower_startup3 flags && requested kBBQ4, set_drain_gain kModerateProbeRttMultiplier);
  (quic_bbr_slower_startup4 flags && requested kBBQ5, fun s => s <| expire_ack_aggregation_in_startup_ := true |>);
  (requested kMIN1, fun s => s <| min_congestion_window_ := kMaxSegmentSize |>)].

Definition SetFromConfig (config : QuicConfig) (perspective : Perspective) s : BbrSender :=
  let requested tag := HasClientRequestedIndependentOption config tag perspective in
  fold_left (fun s '(condition, set) => if condition : bool then set s else s) (config_options requested (flags_ s)) s.

Definition AdjustNetworkParameters (bandwidth rtt : Z) s : BbrSender :=
  let s := if bandwidth =? 0 then s
           else s <| max_bandwidth_ := Update (C := MaxFilter) bandwidth (round_trip_count_ s) (max_bandwidth_ s) |> in
  if negb (rtt =? 0) && ((rtt <? min_rtt_ s) || (min_rtt_ s =? 0)) then s <| min_rtt_ := rtt |> else s.

Section sender.
Context (rtt_stats_ : RttStats.RttStats) (unacked_packets_ : QuicUnackedPacketMap.QuicUnackedPacketMap).
Abbreviation bytes_in_flight := (QuicUnackedPacketMap.bytes_in_flight_ unacked_packets_).

(** * Windows and rates *)

Definition GetMinRtt s : Z := if negb (min_rtt_ s =? 0) then min_rtt_ s else RttStats.initial_rtt_ rtt_stats_.

(** [float * QuicByteCount], converted to a [QuicByteCount]. *)
Definition scale (gain : spec_float) (bytes : Z) : Z := f32_to_u64 (f32_mul gain (f32_of_Z bytes)).

Definition GetTargetCongestionWindow (gain : spec_float) s : Z :=
  let bdp := ToBytesPerPeriod (BandwidthEstimate s) (GetMinRtt s) in
  let congestion_window := scale gain bdp in
  let congestion_window := if congestion_window =? 0 then scale gain (initial_congestion_window_ s)
                           else congestion_window in
  Z.max congestion_window (min_congestion_window_ s).

Definition ProbeRttCongestionWindow s : Z :=
  if probe_rtt_based_on_bdp_ s then GetTargetCongestionWindow kModerateProbeRttMultiplier s
  else min_congestion_window_ s.

Definition GetCongestionWindow s : Z :=
  if in_mode PROBE_RTT s then ProbeRttCongestionWindow s
  else if InRecovery s && negb (rate_based_startup_ s && in_mode STARTUP s)
  then Z.min (congestion_window_ s) (recovery_window_ s)
  else congestion_window_ s.

Definition CanSend (in_flight : Z) s : bool := in_flight <? GetCongestionWindow s.

Definition PacingRate s : option Z :=
  if pacing_rate_ s =? 0 then
    rate ← FromBytesAndTimeDelta (initial_congestion_window_ s) (GetMinRtt s);
    Some (bandwidth_mul rate (high_gain_ s))
  else Some (pacing_rate_ s).

Definition IsPipeSufficientlyFull s : bool :=
  if in_mode STARTUP s then GetTargetCongestionWindow (narrow (literal 15 10)) s <=? bytes_in_flight
  else if SFltb (f32_of_Z 1) (pacing_gain_ s) then GetTargetCongestionWindow (pacing_gain_ s) s <=? bytes_in_flight
  else GetTargetCongestionWindow (narrow (literal 11 10)) s <=? bytes_in_flight.

Definition ShouldSendProbingPacket s : bool :=
  if SFleb (pacing_gain_ s) (f32_of_Z 1) then false
  else if flexible_app_limited_ s then negb (IsPipeSufficientlyFull s) else true.

(** * Packets sent *)

Definition OnPacketSent (sent_time in_flight packet_number bytes : Z) (is_retransmittable : bool) s : BbrSender :=
  let s := s <| last_sent_packet_ := packet_number |> in
  let s := if (in_flight =? 0) && BandwidthSampler.is_app_limited (sampler_ s)
           then s <| exiting_quiescence_ := true |> else s in
  let s := if aggregation_epoch_start_time_ s =? 0 then s <| aggregation_epoch_start_time_ := sent_time |> else s in
  s <| sampler_ := BandwidthSampler.OnPacketSent sent_time packet_number bytes in_flight is_retransmittable (sampler_ s) |>.

Definition OnApplicationLimited (in_flight : Z) s : BbrSender :=
  if GetCongestionWindow s <=? in_flight then s
  else if flexible_app_limited_ s && IsPipeSufficientlyFull s then s
  else s <| app_limited_since_last_probe_rtt_ := true |> <| sampler_ := BandwidthSampler.OnAppLimited (sampler_ s) |>.

(** * The steps of a congestion event *)

Definition gain_at (offset : Z) : spec_float := nth (Z.to_nat offset) kPacingGain S754_nan.

Definition EnterProbeBandwidthMode (now : Z) s : BbrSender :=
  let s := s <| mode_ := PROBE_BW |> <| congestion_window_gain_ := congestion_window_gain_constant_ s |> in
  let offset := random_ s (random_calls_ s) mod (kGainCycleLength - 1) in
  let offset := if 1 <=? offset then offset + 1 else offset in
  s <| random_calls_ := S (random_calls_ s) |> <| cycle_current_offset_ := offset |>
    <| last_cycle_start_ := now |> <| pacing_gain_ := gain_at offset |>.

Definition DiscardLostPackets (lost_packets : list LostPacket) s : BbrSender :=
  fold_left (fun s packet =>
    let s := s <| sampler_ := BandwidthSampler.OnPacketLost (lp_packet_number packet) (sampler_ s) |> in
    if negb (startup_rate_reduction_multiplier_ s =? 0) && in_mode STARTUP s
    then s <| startup_bytes_lost_ := u64 (startup_bytes_lost_ s + bytes_lost packet) |> else s) lost_packets s.

Definition UpdateRoundTripCounter (last_acked_packet : Z) s : bool * BbrSender :=
  if current_round_trip_end_ s <? last_acked_packet
  then (true, s <| round_trip_count_ := u64 (round_trip_count_ s + 1) |> <| current_round_trip_end_ := last_sent_packet_ s |>)
  else (false, s).

(** The loop of [UpdateBandwidthAndMinRtt]. *)
Fixpoint take_samples (now sample_min_rtt : Z) (acked_packets : list AckedPacket) s : option (Z * BbrSender) :=
  match acked_packets with
  | [] => Some (sample_min_rtt, s)
  | packet :: acked_packets =>
    if bytes_acked packet =? 0 then take_samples now sample_min_rtt acked_packets s
    else
      '(sample, sampler) ← BandwidthSampler.OnPacketAcknowledged now (ap_packet_number packet) (sampler_ s);
      let limited := BandwidthSampler.sample_is_app_limited sample in
      let bandwidth := BandwidthSampler.bandwidth sample in
      let s := s <| sampler_ := sampler |> <| last_sample_is_app_limited_ := limited |>
                 <| has_non_app_limited_sample_ := has_non_app_limited_sample_ s || negb limited |> in
      let rtt := BandwidthSampler.rtt sample in
      let sample_min_rtt := if negb (rtt =? 0) then Z.min sample_min_rtt rtt else sample_min_rtt in
      let s := if negb limited || (BandwidthEstimate s <? bandwidth)
               then s <| max_bandwidth_ := Update (C := MaxFilter) bandwidth (round_trip_count_ s) (max_bandwidth_ s) |>
               else s in
      take_samples now sample_min_rtt acked_packets s
  end.

Definition ShouldExtendMinRttExpiry s : bool :=
  if probe_rtt_disabled_if_app_limited_ s && app_limited_since_last_probe_rtt_ s then true
  else
    let min_rtt_increased_since_last_probe :=
      delta_mul (min_rtt_ s) (widen kSimilarMinRttThreshold) <? min_rtt_since_last_probe_rtt_ s in
    probe_rtt_skipped_if_similar_rtt_ s && app_limited_since_last_probe_rtt_ s &&
    negb min_rtt_increased_since_last_probe.

Definition UpdateBandwidthAndMinRtt (now : Z) (acked_packets : list AckedPacket) s : option (bool * BbrSender) :=
  '(sample_min_rtt, s) ← take_samples now kQuicInfiniteTimeUs acked_packets s;
  if sample_min_rtt =? kQuicInfiniteTimeUs then Some (false, s)
  else
    let s := s <| min_rtt_since_last_probe_rtt_ := Z.min (min_rtt_since_last_probe_rtt_ s) sample_min_rtt |> in
    let min_rtt_expired := negb (min_rtt_ s =? 0) && (time_add (min_rtt_timestamp_ s) kMinRttExpiry <? now) in
    if min_rtt_expired || (sample_min_rtt <? min_rtt_ s) || (min_rtt_ s =? 0) then
      let '(min_rtt_expired, s) :=
        if min_rtt_expired && ShouldExtendMinRttExpiry s then (false, s)
        else (min_rtt_expired, s <| min_rtt_ := sample_min_rtt |>) in
      Some (min_rtt_expired,
            s <| min_rtt_timestamp_ := now |> <| min_rtt_since_last_probe_rtt_ := kQuicInfiniteTimeUs |>
              <| app_limited_since_last_probe_rtt_ := false |>)
    else Some (min_rtt_expired, s).

Definition UpdateGainCyclePhase (now prior_in_flight : Z) (has_losses : bool) s : BbrSender :=
  let gain := pacing_gain_ s in
  let should_advance := GetMinRtt s <? time_sub now (last_cycle_start_ s) in
  let should_advance :=
    if SFltb (f32_of_Z 1) gain && negb has_losses && (prior_in_flight <? GetTargetCongestionWindow gain s)
    then false else should_advance in
  let should_advance :=
    if SFltb gain (f32_of_Z 1) && (bytes_in_flight <=? GetTargetCongestionWindow (f32_of_Z 1) s)
    then true else should_advance in
  if should_advance then
    let s := s <| cycle_current_offset_ := (cycle_current_offset_ s + 1) mod kGainCycleLength |>
               <| last_cycle_start_ := now |> in
    if drain_to_target_ s && SFltb gain (f32_of_Z 1) && SFeqb (gain_at (cycle_current_offset_ s)) (f32_of_Z 1) &&
       (GetTargetCongestionWindow (f32_of_Z 1) s <? bytes_in_flight)
    then s else s <| pacing_gain_ := gain_at (cycle_current_offset_ s) |>
  else s.

Definition CheckIfFullBandwidthReached s : BbrSender :=
  if last_sample_is_app_limited_ s then s
  else
    let target := bandwidth_mul (bandwidth_at_last_round_ s) kStartupGrowthTarget in
    if target <=? BandwidthEstimate s then
      let s := s <| bandwidth_at_last_round_ := BandwidthEstimate s |> <| rounds_without_bandwidth_gain_ := 0 |> in
      if expire_ack_aggregation_in_startup_ s
      then s <| max_ack_height_ := Reset 0 (round_trip_count_ s) (max_ack_height_ s) |> else s
    else
      let s := s <| rounds_without_bandwidth_gain_ := u64 (rounds_without_bandwidth_gain_ s + 1) |> in
      if (num_startup_rtts_ s <=? rounds_without_bandwidth_gain_ s) || (exit_startup_on_loss_ s && InRecovery s)
      then s <| is_at_full_bandwidth_ := true |> else s.

Definition MaybeExitStartupOrDrain (now : Z) s : BbrSender :=
  let s := if in_mode STARTUP s && is_at_full_bandwidth_ s
           then s <| mode_ := DRAIN |> <| pacing_gain_ := drain_gain_ s |> <| congestion_window_gain_ := high_cwnd_gain_ s |>
           else s in
  if in_mode DRAIN s && (bytes_in_flight <=? GetTargetCongestionWindow (f32_of_Z 1) s)
  then EnterProbeBandwidthMode now s else s.

(** The part of [MaybeEnterOrExitProbeRtt] for a sender in PROBE_RTT. *)
Definition in_probe_rtt (now : Z) (is_round_start : bool) s : BbrSender :=
  let s := s <| sampler_ := BandwidthSampler.OnAppLimited (sampler_ s) |> in
  if exit_probe_rtt_at_ s =? 0 then
    if bytes_in_flight <? u64 (ProbeRttCongestionWindow s + kMaxPacketSize)
    then s <| exit_probe_rtt_at_ := time_add now kProbeRttTime |> <| probe_rtt_round_passed_ := false |>
    else s
  else
    let s := if is_round_start then s <| probe_rtt_round_passed_ := true |> else s in
    if (exit_probe_rtt_at_ s <=? now) && probe_rtt_round_passed_ s then
      let s := s <| min_rtt_timestamp_ := now |> in
      if negb (is_at_full_bandwidth_ s) then EnterStartupMode s else EnterProbeBandwidthMode now s
    else s.

Definition MaybeEnterOrExitProbeRtt (now : Z) (is_round_start min_rtt_expired : bool) s : BbrSender :=
  let s := if min_rtt_expired && negb (exiting_quiescence_ s) && negb (in_mode PROBE_RTT s)
           then s <| mode_ := PROBE_RTT |> <| pacing_gain_ := f32_of_Z 1 |> <| exit_probe_rtt_at_ := 0 |> else s in
  let s := if in_mode PROBE_RTT s then in_probe_rtt now is_round_start s else s in
  s <| exiting_quiescence_ := false |>.

(** The case of NOT_IN_RECOVERY with a loss. *)
Definition enter_recovery s : BbrSender :=
  let s := s <| recovery_state_ := if in_mode STARTUP s then initial_conservation_in_startup_ s else CONSERVATION |>
             <| recovery_window_ := 0 |> <| current_round_trip_end_ := last_sent_packet_ s |> in
  if quic_bbr_app_limited_recovery (flags_ s) && last_sample_is_app_limited_ s
  then s <| is_app_limited_recovery_ := true |> else s.

(** The case of GROWTH, which the cases before it fall through to. *)
Definition maybe_exit_recovery (last_acked_packet : Z) (has_losses : bool) s : BbrSender :=
  if negb has_losses && (end_recovery_at_ s <? last_acked_packet)
  then s <| recovery_state_ := NOT_IN_RECOVERY |> <| is_app_limited_recovery_ := false |> else s.

Definition UpdateRecoveryState (last_acked_packet : Z) (has_losses is_round_start : bool) s : BbrSender :=
  let s := if has_losses then s <| end_recovery_at_ := last_sent_packet_ s |> else s in
  let s :=
    match recovery_state_ s with
    | NOT_IN_RECOVERY => if has_losses then enter_recovery s else s
    | CONSERVATION | MEDIUM_GROWTH => maybe_exit_recovery last_acked_packet has_losses
        (if is_round_start then s <| recovery_state_ := GROWTH |> else s)
    | GROWTH => maybe_exit_recovery last_acked_packet has_losses s
    end in
  if negb (bool_decide (recovery_state_ s = NOT_IN_RECOVERY)) && is_app_limited_recovery_ s
  then s <| sampler_ := BandwidthSampler.OnAppLimited (sampler_ s) |> else s.

Definition UpdateAckAggregationBytes (ack_time newly_acked_bytes : Z) s : Z * BbrSender :=
  let expected_bytes_acked := ToBytesPerPeriod (BandwidthEstimate s) (time_sub ack_time (aggregation_epoch_start_time_ s)) in
  if aggregation_epoch_bytes_ s <=? expected_bytes_acked
  then (0, s <| aggregation_epoch_bytes_ := newly_acked_bytes |> <| aggregation_epoch_start_time_ := ack_time |>)
  else
    let s := s <| aggregation_epoch_bytes_ := u64 (aggregation_epoch_bytes_ s + newly_acked_bytes) |> in
    let excess := u64 (aggregation_epoch_bytes_ s - expected_bytes_acked) in
    (excess, s <| max_ack_height_ := Update (C := MaxFilter) excess (round_trip_count_ s) (max_ack_height_ s) |>).

Definition CalculatePacingRate s : option BbrSender :=
  if BandwidthEstimate s =? 0 then Some s
  else
    let target_rate := bandwidth_mul (BandwidthEstimate s) (pacing_gain_ s) in
    let has_ever_detected_loss := 0 <? end_recovery_at_ s in
    if is_at_full_bandwidth_ s then Some (s <| pacing_rate_ := target_rate |>)
    else if (pacing_rate_ s =? 0) && negb (RttStats.min_rtt_ rtt_stats_ =? 0) then
      rate ← FromBytesAndTimeDelta (initial_congestion_window_ s) (RttStats.min_rtt_ rtt_stats_);
      Some (s <| pacing_rate_ := rate |>)
    else if slower_startup_ s && has_ever_detected_loss && has_non_app_limited_sample_ s
    then Some (s <| pacing_rate_ := bandwidth_mul (BandwidthEstimate s) kStartupAfterLossGain |>)
    else if negb (startup_rate_reduction_multiplier_ s =? 0) && has_ever_detected_loss && has_non_app_limited_sample_ s then
      let lost := f32_of_Z (u64 (startup_bytes_lost_ s * startup_rate_reduction_multiplier_ s)) in
      let share := SFdiv 24 128 (f32_mul lost (f32_of_Z 1)) (f32_of_Z (congestion_window_ s)) in
      let reduced := bandwidth_mul target_rate (SFsub 24 128 (f32_of_Z 1) share) in
      Some (s <| pacing_rate_ := Z.max reduced (bandwidth_mul (BandwidthEstimate s) kStartupGrowthTarget) |>)
    else Some (s <| pacing_rate_ := Z.max (pacing_rate_ s) target_rate |>).

Definition CalculateCongestionWindow (acked excess_acked : Z) s : BbrSender :=
  if in_mode PROBE_RTT s then s
  else
    let target_window := GetTargetCongestionWindow (congestion_window_gain_ s) s in
    let target_window :=
      if is_at_full_bandwidth_ s then u64 (target_window + GetBest (max_ack_height_ s))
      else if enable_ack_aggregation_during_startup_ s then u64 (target_window + excess_acked) else target_window in
    let add_bytes_acked := negb (quic_bbr_no_bytes_acked_in_startup_recovery (flags_ s)) || negb (InRecovery s) in
    let s :=
      if is_at_full_bandwidth_ s
      then s <| congestion_window_ := Z.min target_window (u64 (congestion_window_ s + acked)) |>
      else if add_bytes_acked && ((congestion_window_ s <? target_window) ||
                (BandwidthSampler.total_bytes_acked (sampler_ s) <? initial_congestion_window_ s))
      then s <| congestion_window_ := u64 (congestion_window_ s + acked) |> else s in
    s <| congestion_window_ := Z.min (Z.max (congestion_window_ s) (min_congestion_window_ s)) (max_congestion_window_ s) |>.

Definition CalculateRecoveryWindow (acked lost : Z) s : BbrSender :=
  if rate_based_startup_ s && in_mode STARTUP s then s
  else if bool_decide (recovery_state_ s = NOT_IN_RECOVERY) then s
  else if recovery_window_ s =? 0
  then s <| recovery_window_ := Z.max (min_congestion_window_ s) (u64 (bytes_in_flight + acked)) |>
  else
    let window := if lost <=? recovery_window_ s then recovery_window_ s - lost else kMaxSegmentSize in
    let window := match recovery_state_ s with
                  | GROWTH => u64 (window + acked)
                  | MEDIUM_GROWTH => u64 (window + acked / 2)
                  | _ => window
                  end in
    let window := Z.max window (u64 (bytes_in_flight + acked)) in
    let window := if quic_bbr_one_mss_conservation (flags_ s)
                  then Z.max window (u64 (bytes_in_flight + kMaxSegmentSize)) else window in
    s <| recovery_window_ := Z.max (min_congestion_window_ s) window |>.

(** * Congestion events *)

(** Lines 366-377: whether a round starts, whether the min RTT has expired, and the
    excess of acknowledged bytes. *)
Definition process_acked (event_time total_bytes_acked_before : Z) (acked_packets : list AckedPacket) (has_losses : bool) s :
    option (bool * bool * Z * BbrSender) :=
  match last acked_packets with
  | None => Some (false, false, 0, s)
  | Some packet =>
    let last_acked_packet := ap_packet_number packet in
    let '(is_round_start, s) := UpdateRoundTripCounter last_acked_packet s in
    '(min_rtt_expired, s) ← UpdateBandwidthAndMinRtt event_time acked_packets s;
    let s := UpdateRecoveryState last_acked_packet has_losses is_round_start s in
    let acked := u64 (BandwidthSampler.total_bytes_acked (sampler_ s) - total_bytes_acked_before) in
    let '(excess_acked, s) := UpdateAckAggregationBytes event_time acked s in
    Some (is_round_start, min_rtt_expired, excess_acked, s)
  end.

(** Lines 379-391: the modes. *)
Definition update_mode (event_time prior_in_flight : Z) (has_losses is_round_start min_rtt_expired : bool) s : BbrSender :=
  let s := if in_mode PROBE_BW s then UpdateGainCyclePhase event_time prior_in_flight has_losses s else s in
  let s := if is_round_start && negb (is_at_full_bandwidth_ s) then CheckIfFullBandwidthReached s else s in
  let s := MaybeExitStartupOrDrain event_time s in
  MaybeEnterOrExitProbeRtt event_time is_round_start min_rtt_expired s.

Definition total_lost (lost_packets : list LostPacket) : Z :=
  fold_left (fun n packet => u64 (n + bytes_lost packet)) lost_packets 0.

Definition OnCongestionEvent (prior_in_flight event_time : Z) (acked_packets : list AckedPacket)
    (lost_packets : list LostPacket) s : option BbrSender :=
  let total_bytes_acked_before := BandwidthSampler.total_bytes_acked (sampler_ s) in
  let has_losses := match lost_packets with [] => false | _ => true end in
  let s := DiscardLostPackets lost_packets s in
  '(is_round_start, min_rtt_expired, excess_acked, s) ←
    process_acked event_time total_bytes_acked_before acked_packets has_losses s;
  let s := update_mode event_time prior_in_flight has_losses is_round_start min_rtt_expired s in
  let acked := u64 (BandwidthSampler.total_bytes_acked (sampler_ s) - total_bytes_acked_before) in
  s ← CalculatePacingRate s;
  let s := CalculateCongestionWindow acked excess_acked s in
  let s := CalculateRecoveryWindow acked (total_lost lost_packets) s in
  Some (s <| sampler_ := BandwidthSampler.RemoveObsoletePackets (QuicUnackedPacketMap.GetLeastUnacked unacked_packets_)
                           (sampler_ s) |>).
End sender.

(** * The debug state *)

Record DebugState := mkDebug {
  mode : Mode;
  max_bandwidth : Z;
  round_trip_count : Z;
  gain_cycle_index : Z;
  congestion_window : Z;
  is_at_full_bandwidth : bool;
  bandwidth_at_last_round : Z;
  rounds_without_bandwidth_gain : Z;
  min_rtt : Z;
  min_rtt_timestamp : Z;
  recovery_state : RecoveryState;
  recovery_window : Z;
  last_sample_is_app_limited : bool;
  end_of_app_limited_phase : Z;
}.
Definition ExportDebugState s : DebugState :=
  mkDebug (mode_ s) (GetBest (max_bandwidth_ s)) (round_trip_count_ s) (cycle_current_offset_ s) (congestion_window_ s)
    (is_at_full_bandwidth_ s) (bandwidth_at_last_round_ s) (rounds_without_bandwidth_gain_ s) (min_rtt_ s)
    (min_rtt_timestamp_ s) (recovery_state_ s) (recovery_window_ s) (last_sample_is_app_limited_ s)
    (BandwidthSampler.end_of_app_limited_phase (sampler_ s)).

Definition ModeToString (m : Mode) : string :=
  match m with STARTUP => "STARTUP" | DRAIN => "DRAIN" | PROBE_BW => "PROBE_BW" | PROBE_RTT => "PROBE_RTT" end.
End BbrSender.
