(* ===== verification/BbrWindows.v ===== *)
(** Invariants of libquic's [BbrSender]: its windows stay between their limits, its modes
    agree with whether the full bandwidth was reached, and no handler computes a rate
    over no time. *)
From stdpp Require Import list.
From S2P Require Import Prelude.
From S2P Require Import FramerTypes.
From S2P Require Import QuicUnits.
From S2P Require Import WindowedFilter.
From S2P Require Import Sampler.
From S2P Require Import RttEstimates.
From S2P Require Import UnackedPackets.
From S2P Require Import LossDetection.
From S2P Require Import SendAlgorithm.
From S2P Require Import IndexedQueue.
From S2P Require Import BandwidthSamplers.
From S2P Require Import LibquicBbr.

Import BbrSender.
Open Scope Z_scope.

Implicit Types s : BbrSender.

(** * The invariant *)

(** The sender is limited by its recovery window. *)
Definition recovering s : bool := InRecovery s && negb (rate_based_startup_ s && in_mode STARTUP s).

Record windows_ok s : Prop := {
  wo_min : kMaxSegmentSize <= min_congestion_window_ s <= max_congestion_window_ s;
  wo_window : min_congestion_window_ s <= congestion_window_ s <= max_congestion_window_ s;
  wo_recovery : recovering s = true -> min_congestion_window_ s <= recovery_window_ s;
  wo_conservation : initial_conservation_in_startup_ s <> NOT_IN_RECOVERY;
}.

Record gains_ok s : Prop := {
  mo_full : mode_ s = DRAIN \/ mode_ s = PROBE_BW -> is_at_full_bandwidth_ s = true;
  mo_startup_gain : mode_ s = STARTUP -> pacing_gain_ s = high_gain_ s /\ congestion_window_gain_ s = high_cwnd_gain_ s;
  mo_probe_gain : mode_ s = PROBE_BW -> pacing_gain_ s ∈ kPacingGain;
  mo_offset : 0 <= cycle_current_offset_ s < kGainCycleLength;
}.

Record modes_ok s : Prop := {
  mo_gains : gains_ok s;
  mo_startup : mode_ s = STARTUP -> is_at_full_bandwidth_ s = false;
}.

(** * What the steps of a congestion event leave alone *)

Definition limits s := (min_congestion_window_ s, max_congestion_window_ s, rate_based_startup_ s,
  initial_conservation_in_startup_ s, probe_rtt_based_on_bdp_ s).
Definition mode_state s := (mode_ s, is_at_full_bandwidth_ s, pacing_gain_ s, high_gain_ s, congestion_window_gain_ s,
  high_cwnd_gain_ s, cycle_current_offset_ s).
Definition recovery_of s := (recovery_state_ s, recovery_window_ s, end_recovery_at_ s).
Definition probe_state s := (exit_probe_rtt_at_ s, probe_rtt_round_passed_ s).
Definition static s := (limits s, congestion_window_ s, mode_state s, probe_state s, last_sent_packet_ s).

Lemma static_eq s s' :
  static s' = static s -> limits s' = limits s /\ congestion_window_ s' = congestion_window_ s /\
    mode_state s' = mode_state s /\ probe_state s' = probe_state s /\ last_sent_packet_ s' = last_sent_packet_ s.
Proof.
  intros H. split_and!;
    [exact (f_equal (fun x => x.1.1.1.1) H)|exact (f_equal (fun x => x.1.1.1.2) H)|exact (f_equal (fun x => x.1.1.2) H)|
     exact (f_equal (fun x => x.1.2) H)|exact (f_equal snd H)].
Qed.

Lemma modes_ok_same s s' : mode_state s' = mode_state s -> modes_ok s -> modes_ok s'.
Proof.
  unfold mode_state. intros [= H1 H2 H3 H4 H5 H6 H7] [[] ?].
  split; [split|]; rewrite ?H1, ?H2, ?H3, ?H4, ?H5, ?H6, ?H7; auto.
Qed.

Lemma windows_ok_same s s' :
  limits s' = limits s -> congestion_window_ s' = congestion_window_ s -> recovery_of s' = recovery_of s ->
  mode_ s' = mode_ s -> windows_ok s -> windows_ok s'.
Proof.
  unfold limits, recovery_of. intros [= H1 H2 H3 H4 H5] H6 [= H7 H8 _] H9 []. split; rewrite ?H1, ?H2, ?H4, ?H6, ?H8; try done.
  unfold recovering, InRecovery in *. by rewrite H3, H7, H9.
Qed.

(** ** The steps before the windows are computed *)

Lemma DiscardLostPackets_frame lost s :
  let s' := DiscardLostPackets lost s in static s' = static s /\ recovery_of s' = recovery_of s /\
    min_rtt_ s' = min_rtt_ s /\ min_rtt_timestamp_ s' = min_rtt_timestamp_ s.
Proof.
  cbv zeta. unfold DiscardLostPackets. revert s. induction lost as [|p lost IH]; intros s; cbn [fold_left]; [done|].
  match goal with |- context [fold_left _ lost ?x] => specialize (IH x); set (s1 := x) in * end.
  assert (static s1 = static s /\ recovery_of s1 = recovery_of s /\
    min_rtt_ s1 = min_rtt_ s /\ min_rtt_timestamp_ s1 = min_rtt_timestamp_ s) as (E1 & E2 & E3 & E4).
  { unfold s1. by destruct (_ && _). }
  by rewrite <- E1, <- E2, <- E3, <- E4.
Qed.

Lemma DiscardLostPackets_round lost s : current_round_trip_end_ (DiscardLostPackets lost s) = current_round_trip_end_ s.
Proof.
  unfold DiscardLostPackets. revert s. induction lost as [|p lost IH]; intros s; cbn [fold_left]; [done|]. rewrite IH.
  by destruct (_ && _).
Qed.

Lemma UpdateRoundTripCounter_frame n s :
  let s' := (UpdateRoundTripCounter n s).2 in static s' = static s /\ recovery_of s' = recovery_of s /\
    min_rtt_ s' = min_rtt_ s /\ min_rtt_timestamp_ s' = min_rtt_timestamp_ s.
Proof. unfold UpdateRoundTripCounter. by destruct (_ <? _). Qed.

Lemma take_samples_frame now rtt acked s rtt' s' :
  take_samples now rtt acked s = Some (rtt', s') -> static s' = static s /\ recovery_of s' = recovery_of s /\
    min_rtt_ s' = min_rtt_ s /\ min_rtt_timestamp_ s' = min_rtt_timestamp_ s.
Proof.
  revert rtt s. induction acked as [|p acked IH]; intros rtt s; cbn [take_samples]; [by intros [= <- <-]|].
  destruct (_ =? 0); [apply IH|].
  destruct (BandwidthSampler.OnPacketAcknowledged _ _ _) as [[sample sampler]|]; [|done]. cbn [mbind option_bind].
  intros H. apply IH in H. by destruct (negb _ || _).
Qed.

Lemma UpdateBandwidthAndMinRtt_frame now acked s expired s' :
  UpdateBandwidthAndMinRtt now acked s = Some (expired, s') -> static s' = static s /\ recovery_of s' = recovery_of s /\
    (expired = true -> min_rtt_ s <> 0 /\ time_add (min_rtt_timestamp_ s) kMinRttExpiry < now).
Proof.
  unfold UpdateBandwidthAndMinRtt. destruct (take_samples _ _ _ _) as [[rtt s1]|] eqn:E; [|done].
  apply take_samples_frame in E as (E1 & E2 & E3 & E4). cbn [mbind option_bind].
  destruct (rtt =? kQuicInfiniteTimeUs); [by intros [= <- <-]|]. cbv zeta. cbn [min_rtt_ min_rtt_timestamp_].
  rewrite <- E3, <- E4, <- E1, <- E2. set (old := negb (_ =? 0) && _).
  assert (Hold : old = true -> min_rtt_ s1 <> 0 /\ time_add (min_rtt_timestamp_ s1) kMinRttExpiry < now).
  { intros [H1%negb_true_iff%Z.eqb_neq H2%Z.ltb_lt]%andb_true_iff. done. }
  clearbody old. destruct (old || _ || _); [destruct (old && _)|]; intros [= <- <-]; done.
Qed.

(** A sender that was not recovering enters recovery with no window yet. *)
Lemma UpdateRecoveryState_frame n losses round s :
  let s' := UpdateRecoveryState n losses round s in
  static s' = static s /\
  (recovery_state_ s' <> NOT_IN_RECOVERY ->
   recovery_state_ s = NOT_IN_RECOVERY /\ recovery_window_ s' = 0 \/
   recovery_state_ s <> NOT_IN_RECOVERY /\ recovery_window_ s' = recovery_window_ s).
Proof.
  cbv zeta. unfold UpdateRecoveryState. cbv zeta. set (s1 := if losses then _ else s).
  assert (static s1 = static s /\ recovery_state_ s1 = recovery_state_ s /\ recovery_window_ s1 = recovery_window_ s)
    as [E1 [E2 E3]] by (unfold s1; by destruct losses).
  rewrite <- E1, <- E2, <- E3. clearbody s1. clear E1 E2 E3 s.
  set (s2 := match recovery_state_ s1 with NOT_IN_RECOVERY => _ | _ => _ end).
  assert (Hexit : forall s3, static (maybe_exit_recovery n losses s3) = static s3 /\
    recovery_window_ (maybe_exit_recovery n losses s3) = recovery_window_ s3)
    by (intros s3; unfold maybe_exit_recovery; by destruct (_ && _)).
  assert (H2 : static s2 = static s1 /\ (recovery_state_ s2 <> NOT_IN_RECOVERY ->
    recovery_state_ s1 = NOT_IN_RECOVERY /\ recovery_window_ s2 = 0 \/
    recovery_state_ s1 <> NOT_IN_RECOVERY /\ recovery_window_ s2 = recovery_window_ s1)).
  { unfold s2. destruct (recovery_state_ s1) eqn:E.
    - destruct losses; [|split; [done|congruence]]. unfold enter_recovery. destruct (_ && _); split; auto.
    - destruct round; rewrite (proj1 (Hexit _)), (proj2 (Hexit _)); (split; [done|by right]).
    - destruct round; rewrite (proj1 (Hexit _)), (proj2 (Hexit _)); (split; [done|by right]).
    - rewrite (proj1 (Hexit _)), (proj2 (Hexit _)). split; [done|by right]. }
  clearbody s2. destruct (_ && _); exact H2.
Qed.

Lemma UpdateAckAggregationBytes_frame t bytes s :
  let s' := (UpdateAckAggregationBytes t bytes s).2 in static s' = static s /\ recovery_of s' = recovery_of s.
Proof. unfold UpdateAckAggregationBytes. by destruct (_ <=? _). Qed.

(** Acknowledged packets: the recovery window is as it was, or to be set. *)
Definition recovery_step s s' : Prop :=
  recovery_state_ s' <> NOT_IN_RECOVERY ->
  recovery_state_ s = NOT_IN_RECOVERY /\ recovery_window_ s' = 0 \/
  recovery_state_ s <> NOT_IN_RECOVERY /\ recovery_window_ s' = recovery_window_ s.

Lemma process_acked_frame t before acked losses s round expired excess s' :
  process_acked t before acked losses s = Some (round, expired, excess, s') ->
  static s' = static s /\ recovery_step s s' /\
  (expired = true -> min_rtt_ s <> 0 /\ time_add (min_rtt_timestamp_ s) kMinRttExpiry < t).
Proof.
  unfold process_acked, recovery_step. destruct (last acked) as [p|].
  2: { intros [= <- <- <- <-]. split_and!; [done| |done]. intros H. by right. }
  pose proof (UpdateRoundTripCounter_frame (ap_packet_number p) s) as F1. destruct (UpdateRoundTripCounter _ s) as [rs s1].
  cbn [snd] in F1. destruct F1 as (F1 & [= F2 F3 _] & F4 & F5).
  destruct (UpdateBandwidthAndMinRtt _ _ _) as [[ex s2]|] eqn:E; [|done].
  apply UpdateBandwidthAndMinRtt_frame in E as (G1 & [= G2 G3 _] & G4). cbn [mbind option_bind].
  pose proof (UpdateRecoveryState_frame (ap_packet_number p) losses rs s2) as [K1 K2].
  set (s3 := UpdateRecoveryState _ _ _ _) in *. clearbody s3. cbv zeta.
  match goal with |- context [UpdateAckAggregationBytes t ?b s3] => set (newly := b) end.
  pose proof (UpdateAckAggregationBytes_frame t newly s3) as [L1 [= L2 L3 _]]. destruct (UpdateAckAggregationBytes _ _ _) as [e s4].
  cbn [snd] in *. intros [= <- <- <- <-]. split_and!; [congruence| |rewrite <- F4, <- F5; exact G4].
  intros H. rewrite L2 in H. specialize (K2 H). rewrite L3, <- F2, <- F3, <- G2, <- G3. exact K2.
Qed.

(** ** The modes *)

(** What the changes of mode leave alone. *)
Definition fixed s := (limits s, congestion_window_ s, recovery_of s).

Lemma fixed_eq s s' :
  fixed s' = fixed s -> limits s' = limits s /\ congestion_window_ s' = congestion_window_ s /\ recovery_of s' = recovery_of s.
Proof.
  intros H. split_and!; [exact (f_equal (fun x => x.1.1) H)|exact (f_equal (fun x => x.1.2) H)|exact (f_equal snd H)].
Qed.

#[local] Arguments gain_at : simpl never.
#[local] Arguments EnterProbeBandwidthMode : simpl never.

Lemma gain_at_cycle offset : 0 <= offset < kGainCycleLength -> gain_at offset ∈ kPacingGain.
Proof.
  intros H. unfold gain_at. apply list_elem_of_In, nth_In. change (length kPacingGain) with 8%nat.
  unfold kGainCycleLength in H. lia.
Qed.

Lemma EnterProbeBandwidthMode_ok now s :
  is_at_full_bandwidth_ s = true ->
  let s' := EnterProbeBandwidthMode now s in
  fixed s' = fixed s /\ modes_ok s' /\ mode_ s' = PROBE_BW /\ is_at_full_bandwidth_ s' = true.
Proof.
  intros Hf. unfold EnterProbeBandwidthMode. cbv zeta.
  match goal with |- context [gain_at ?o] => set (offset := o) end.
  assert (Ho : 0 <= offset < kGainCycleLength).
  { unfold offset, kGainCycleLength. match goal with |- context [?x mod (8 - 1)] => pose proof (Z.mod_pos_bound x 7 eq_refl);
      change (x mod (8 - 1)) with (x mod 7); destruct (Z.leb_spec 1 (x mod 7)); lia end. }
  clearbody offset. split_and!; [done| |done|done]. split; [split|done]; try done.
  intros _. by apply gain_at_cycle.
Qed.

Section modes.
Context (r : RttStats.RttStats) (u : QuicUnackedPacketMap.QuicUnackedPacketMap).

Lemma UpdateGainCyclePhase_ok now prior losses s :
  mode_ s = PROBE_BW -> modes_ok s ->
  let s' := UpdateGainCyclePhase r u now prior losses s in
  fixed s' = fixed s /\ modes_ok s' /\ mode_ s' = PROBE_BW /\ exit_probe_rtt_at_ s' = exit_probe_rtt_at_ s /\
  is_at_full_bandwidth_ s' = is_at_full_bandwidth_ s /\ exiting_quiescence_ s' = exiting_quiescence_ s.
Proof.
  intros Hm Hs. cbv zeta. unfold UpdateGainCyclePhase. cbv zeta. destruct (if _ && _ then true else _); [|by split_and!].
  pose proof (Z.mod_pos_bound (cycle_current_offset_ s + 1) kGainCycleLength eq_refl) as Ho.
  destruct Hs as [[H1 H2 H3 H4] H5].
  destruct (_ && _ && _ && _); (split_and!; [done| |done..]); (split; [split|]); cbn; rewrite ?Hm in *; try done; auto.
  intros _. by apply gain_at_cycle.
Qed.

Lemma CheckIfFullBandwidthReached_ok s :
  gains_ok s -> is_at_full_bandwidth_ s = false ->
  let s' := CheckIfFullBandwidthReached s in
  fixed s' = fixed s /\ gains_ok s' /\ mode_ s' = mode_ s /\ exit_probe_rtt_at_ s' = exit_probe_rtt_at_ s /\
  exiting_quiescence_ s' = exiting_quiescence_ s /\ probe_rtt_round_passed_ s' = probe_rtt_round_passed_ s.
Proof.
  intros Hg Hf. cbv zeta. unfold CheckIfFullBandwidthReached. cbv zeta.
  assert (Hn : mode_ s <> DRAIN /\ mode_ s <> PROBE_BW).
  { split; intros E; rewrite (mo_full s Hg) in Hf; try done; auto. }
  destruct Hg as [H1 H2 H3 H4].
  destruct (last_sample_is_app_limited_ s); [by split_and!|]. destruct (_ <=? _).
  - cbn [expire_ack_aggregation_in_startup_]. destruct (expire_ack_aggregation_in_startup_ _); by split_and!.
  - destruct (_ || _); (split_and!; [done| |done..]); (split; cbn; try done).
Qed.

Lemma MaybeExitStartupOrDrain_ok now s :
  gains_ok s ->
  let s' := MaybeExitStartupOrDrain r u now s in
  fixed s' = fixed s /\ modes_ok s' /\ is_at_full_bandwidth_ s' = is_at_full_bandwidth_ s /\
  exit_probe_rtt_at_ s' = exit_probe_rtt_at_ s /\ exiting_quiescence_ s' = exiting_quiescence_ s /\
  probe_rtt_round_passed_ s' = probe_rtt_round_passed_ s /\ (mode_ s' = PROBE_RTT <-> mode_ s = PROBE_RTT) /\
  (mode_ s = PROBE_BW -> mode_ s' = PROBE_BW) /\ (mode_ s' = STARTUP -> mode_ s = STARTUP).
Proof.
  intros Hg. cbv zeta. unfold MaybeExitStartupOrDrain. set (s1 := if in_mode STARTUP s && _ then _ else s).
  assert (H1 : fixed s1 = fixed s /\ modes_ok s1 /\ is_at_full_bandwidth_ s1 = is_at_full_bandwidth_ s /\
    exit_probe_rtt_at_ s1 = exit_probe_rtt_at_ s /\ exiting_quiescence_ s1 = exiting_quiescence_ s /\
    probe_rtt_round_passed_ s1 = probe_rtt_round_passed_ s /\ (mode_ s1 = PROBE_RTT <-> mode_ s = PROBE_RTT) /\
    (mode_ s = PROBE_BW -> mode_ s1 = PROBE_BW) /\ (mode_ s1 = STARTUP -> mode_ s = STARTUP)).
  { unfold s1. destruct (bool_decide_reflect (mode_ s = STARTUP)) as [E|E]; cbn [andb].
    - destruct (is_at_full_bandwidth_ s) eqn:Ef.
      + destruct Hg as [G1 G2 G3 G4]. split_and!; cbn; rewrite ?E; done.
      + by split_and!.
    - split_and!; try done. }
  clearbody s1. destruct H1 as (F1 & F2 & F3 & F4 & F5 & F6 & F7 & F8 & F9).
  destruct (bool_decide_reflect (mode_ s1 = DRAIN)) as [E|E]; cbn [andb]; [|by split_and!].
  destruct (_ <=? _); [|by split_and!].
  pose proof (EnterProbeBandwidthMode_ok now s1) as HE. destruct HE as (K1 & K2 & K3 & K4); [by apply (mo_full _ (mo_gains _ F2)); left|].
  assert (mode_ s <> PROBE_RTT) by (rewrite <- F7; congruence).
  split_and!; try done; try congruence.
Qed.

(** Leaving PROBE_RTT takes the time and a round. *)
Lemma in_probe_rtt_ok now round s :
  mode_ s = PROBE_RTT -> modes_ok s ->
  let s' := in_probe_rtt r u now round s in
  fixed s' = fixed s /\ modes_ok s' /\ is_at_full_bandwidth_ s' = is_at_full_bandwidth_ s /\
  (mode_ s' = PROBE_RTT \/
   exit_probe_rtt_at_ s <> 0 /\ exit_probe_rtt_at_ s <= now /\ (round = true \/ probe_rtt_round_passed_ s = true) /\
   mode_ s' = if is_at_full_bandwidth_ s then PROBE_BW else STARTUP).
Proof.
  intros Hm Hs. cbv zeta. unfold in_probe_rtt. cbv zeta. set (s1 := s <| sampler_ := _ |>).
  assert (H1 : modes_ok s1) by (by apply (modes_ok_same s)).
  destruct (Z.eqb_spec (exit_probe_rtt_at_ s1) 0) as [E0|E0]; cbn in E0.
  - destruct (_ <? _); (split_and!; [done|by apply (modes_ok_same s)|done|by left]).
  - set (s2 := if round then _ else s1).
    assert (H2 : fixed s2 = fixed s /\ mode_state s2 = mode_state s /\ exit_probe_rtt_at_ s2 = exit_probe_rtt_at_ s /\
      (probe_rtt_round_passed_ s2 = true -> round = true \/ probe_rtt_round_passed_ s = true)).
    { unfold s2. destruct round; split_and!; auto. }
    clearbody s2. destruct H2 as (F1 & F2 & F3 & F4). pose proof F2 as [= G1 G2 G3 G4 G5 G6 G7].
    destruct (Z.leb_spec (exit_probe_rtt_at_ s2) now) as [Hn|]; cbn [andb].
    2: { split_and!; [done|by apply (modes_ok_same s)|done|left; congruence]. }
    destruct (probe_rtt_round_passed_ s2) eqn:Ep.
    2: { split_and!; [done|by apply (modes_ok_same s)|done|left; congruence]. }
    change (is_at_full_bandwidth_ (s2 <| min_rtt_timestamp_ := now |>)) with (is_at_full_bandwidth_ s2). rewrite G2. rewrite F3 in Hn. specialize (F4 eq_refl).
    destruct (is_at_full_bandwidth_ s) eqn:Ef; cbn [negb].
    + destruct (EnterProbeBandwidthMode_ok now (s2 <| min_rtt_timestamp_ := now |>)) as (K1 & K2 & K3 & K4); [done|].
      split_and!; [by rewrite K1, <- F1|done|done|by right; split_and!].
    + split_and!; [done| |done|by right; split_and!]. destruct Hs as [[] ?].
      split; [split|]; cbn; rewrite ?G2, ?G4, ?G6, ?G7; done || by intros [].
Qed.

Lemma ProbeRtt_step_ok now round expired s :
  modes_ok s ->
  let s' := MaybeEnterOrExitProbeRtt r u now round expired s in
  fixed s' = fixed s /\ modes_ok s' /\ is_at_full_bandwidth_ s' = is_at_full_bandwidth_ s /\
  (mode_ s <> PROBE_RTT -> mode_ s' = mode_ s \/ mode_ s' = PROBE_RTT /\ expired = true) /\
  (mode_ s = PROBE_RTT -> mode_ s' = PROBE_RTT \/
   exit_probe_rtt_at_ s <> 0 /\ exit_probe_rtt_at_ s <= now /\ (round = true \/ probe_rtt_round_passed_ s = true) /\
   mode_ s' = if is_at_full_bandwidth_ s then PROBE_BW else STARTUP).
Proof.
  intros Hs. cbv zeta. unfold MaybeEnterOrExitProbeRtt. cbv zeta.
  destruct (bool_decide_reflect (mode_ s = PROBE_RTT)) as [E|E]; cbn [negb andb].
  - rewrite andb_false_r, bool_decide_eq_true_2 by done.
    destruct (in_probe_rtt_ok now round s E Hs) as (F1 & F2 & F3 & F4). split_and!; [done|by apply (modes_ok_same (in_probe_rtt r u now round s))|done|done|by intros _].
  - rewrite andb_true_r. destruct (expired && negb (exiting_quiescence_ s)) eqn:Ee.
    2: { rewrite bool_decide_eq_false_2 by done. split_and!; [done|by apply (modes_ok_same s)|done|by left|done]. }
    apply andb_true_iff in Ee as [-> _]. set (s1 := s <| mode_ := PROBE_RTT |> <| _ := _ |> <| _ := _ |>).
    rewrite bool_decide_eq_true_2 by done.
    assert (H1 : modes_ok s1) by (destruct Hs as [[] ?]; split; [split|]; cbn; done || by intros []).
    destruct (in_probe_rtt_ok now round s1 eq_refl H1) as (F1 & F2 & F3 & F4).
    split_and!; [done|by apply (modes_ok_same (in_probe_rtt r u now round s1))|done| |done]. intros _. right. split; [|done]. destruct F4 as [F4|(F4 & _)]; [done|].
    by destruct F4.
Qed.

(** The changes of mode an event at time [now] may make. *)
Record mode_edges (now : Z) (round expired : bool) s s' : Prop := {
  me_full : is_at_full_bandwidth_ s = true -> is_at_full_bandwidth_ s' = true;
  me_probe_bw : mode_ s = PROBE_BW -> mode_ s' = PROBE_BW \/ mode_ s' = PROBE_RTT;
  me_drain : mode_ s = DRAIN -> mode_ s' <> STARTUP;
  me_enter : mode_ s <> PROBE_RTT -> mode_ s' = PROBE_RTT -> expired = true;
  me_exit : mode_ s = PROBE_RTT -> mode_ s' <> PROBE_RTT ->
    exit_probe_rtt_at_ s <> 0 /\ exit_probe_rtt_at_ s <= now /\ (round = true \/ probe_rtt_round_passed_ s = true) /\
    mode_ s' = if is_at_full_bandwidth_ s' then PROBE_BW else STARTUP;
}.

Lemma update_mode_ok now prior losses round expired s :
  modes_ok s ->
  let s' := update_mode r u now prior losses round expired s in
  fixed s' = fixed s /\ modes_ok s' /\ mode_edges now round expired s s'.
Proof.
  intros Hs. cbv zeta. unfold update_mode. cbv zeta. set (s1 := if in_mode PROBE_BW s then _ else s).
  assert (H1 : fixed s1 = fixed s /\ modes_ok s1 /\ mode_ s1 = mode_ s /\ exit_probe_rtt_at_ s1 = exit_probe_rtt_at_ s /\
    is_at_full_bandwidth_ s1 = is_at_full_bandwidth_ s /\
    (mode_ s = PROBE_RTT -> probe_rtt_round_passed_ s1 = probe_rtt_round_passed_ s)).
  { unfold s1. case_bool_decide as E; [|by split_and!].
    destruct (UpdateGainCyclePhase_ok now prior losses s E Hs) as (?&?&?&?&?&?). split_and!; congruence. }
  clearbody s1. destruct H1 as (F1 & F2 & F3 & F4 & F5 & F6).
  set (s2 := if round && _ then _ else s1).
  assert (H2 : fixed s2 = fixed s1 /\ gains_ok s2 /\ mode_ s2 = mode_ s1 /\ exit_probe_rtt_at_ s2 = exit_probe_rtt_at_ s1 /\
    (is_at_full_bandwidth_ s1 = true -> is_at_full_bandwidth_ s2 = true) /\
    probe_rtt_round_passed_ s2 = probe_rtt_round_passed_ s1).
  { unfold s2. destruct round; [|by destruct F2]. destruct (is_at_full_bandwidth_ s1) eqn:Ef; [by destruct F2|].
    destruct (CheckIfFullBandwidthReached_ok s1 (mo_gains _ F2) Ef) as (?&?&?&?&?&?). by split_and!. }
  clearbody s2. destruct H2 as (G1 & G2 & G3 & G4 & G5 & G6).
  pose proof (MaybeExitStartupOrDrain_ok now s2 G2) as (K1 & K2 & K3 & K4 & _ & K6 & K7 & K8 & K9).
  set (s3 := MaybeExitStartupOrDrain _ _ _ _) in *. clearbody s3.
  pose proof (ProbeRtt_step_ok now round expired s3 K2) as (L1 & L2 & L3 & L4 & L5).
  set (s4 := MaybeEnterOrExitProbeRtt _ _ _ _ _ _) in *. clearbody s4.
  assert (EM : mode_ s2 = mode_ s) by congruence. rewrite EM in K7, K8, K9.
  split_and!; [congruence|done|]. split.
  - intros H. rewrite L3, K3. apply G5. congruence.
  - intros E. rewrite K8 in L4 by done. destruct L4 as [->|[-> _]]; auto.
  - intros E E4. assert (E3 : mode_ s3 <> PROBE_RTT) by (rewrite K7, E; done).
    destruct (L4 E3) as [E'|[E' _]]; [|congruence]. rewrite E' in E4. apply K9 in E4. congruence.
  - intros E E4. rewrite <- K7 in E. destruct (L4 E) as [E'|[_ ?]]; [congruence|done].
  - intros E E4. assert (E3 : mode_ s3 = PROBE_RTT) by (by rewrite K7).
    destruct (L5 E3) as [|(X1 & X2 & X3 & X4)]; [done|]. specialize (F6 E).
    split_and!; [congruence|lia|destruct X3; [by left|right; congruence]|]. by rewrite L3.
Qed.

(** ** The windows *)

Lemma CalculatePacingRate_frame s s' :
  CalculatePacingRate r s = Some s' -> fixed s' = fixed s /\ mode_state s' = mode_state s /\ sampler_ s' = sampler_ s /\
    probe_state s' = probe_state s.
Proof.
  unfold CalculatePacingRate. destruct (_ =? 0); [by intros [= <-]|]. cbv zeta.
  destruct (is_at_full_bandwidth_ s); [by intros [= <-]|]. destruct (_ && _).
  - destruct (FromBytesAndTimeDelta _ _); [|done]. by intros [= <-].
  - destruct (_ && _ && _); [by intros [= <-]|]. destruct (_ && _ && _); by intros [= <-].
Qed.

Lemma CalculateCongestionWindow_ok acked excess s :
  let s' := CalculateCongestionWindow r acked excess s in
  limits s' = limits s /\ mode_state s' = mode_state s /\ recovery_of s' = recovery_of s /\ sampler_ s' = sampler_ s /\
  probe_state s' = probe_state s /\
  (min_congestion_window_ s <= max_congestion_window_ s ->
   min_congestion_window_ s <= congestion_window_ s <= max_congestion_window_ s ->
   min_congestion_window_ s' <= congestion_window_ s' <= max_congestion_window_ s').
Proof.
  cbv zeta. unfold CalculateCongestionWindow. destruct (in_mode PROBE_RTT s); [by split_and!|]. cbv zeta.
  match goal with |- context [Z.min (Z.max (congestion_window_ ?x) _) _] => set (s1 := x) end.
  assert (limits s1 = limits s /\ mode_state s1 = mode_state s /\ recovery_of s1 = recovery_of s /\ sampler_ s1 = sampler_ s /\
    probe_state s1 = probe_state s) as (E1 & E2 & E3 & E4 & E5).
  { unfold s1. destruct (is_at_full_bandwidth_ s); [done|]. by destruct (_ && _). }
  clearbody s1. rewrite <- E1, <- E2, <- E3, <- E4, <- E5. split_and!; [done..|]. pose proof E1 as [= X1 X2 _ _ _]. cbn.
  rewrite X1, X2. lia.
Qed.

Lemma CalculateRecoveryWindow_ok acked lost s :
  let s' := CalculateRecoveryWindow u acked lost s in
  static s' = static s /\ recovery_state_ s' = recovery_state_ s /\ sampler_ s' = sampler_ s /\
  (recovering s' = true -> min_congestion_window_ s' <= recovery_window_ s').
Proof.
  cbv zeta. unfold CalculateRecoveryWindow.
  destruct (rate_based_startup_ s && in_mode STARTUP s) eqn:Er.
  { split_and!; try done. unfold recovering. by rewrite Er, andb_false_r. }
  destruct (bool_decide (recovery_state_ s = NOT_IN_RECOVERY)) eqn:En.
  { split_and!; try done. unfold recovering, InRecovery. by rewrite En. }
  destruct (_ =? 0); (split_and!; [done..|]); intros _; cbn; lia.
Qed.
End modes.

(** * Congestion events *)

Lemma mode_edges_same now round expired s1 s1' s2 s2' :
  mode_state s1' = mode_state s1 -> probe_state s1' = probe_state s1 -> mode_state s2' = mode_state s2 ->
  mode_edges now round expired s1 s2 -> mode_edges now round expired s1' s2'.
Proof.
  unfold mode_state, probe_state. intros [= A1 A2 _ _ _ _ _] [= A8 A9] [= B1 B2 _ _ _ _ _] [].
  split; rewrite ?A1, ?A2, ?A8, ?A9, ?B1, ?B2; done.
Qed.

Lemma OnCongestionEvent_frame r u prior now acked lost s s' :
  OnCongestionEvent r u prior now acked lost s = Some s' -> modes_ok s ->
  exists expired round, limits s' = limits s /\ modes_ok s' /\ mode_edges now round expired s s' /\
    (expired = true -> min_rtt_ s <> 0 /\ time_add (min_rtt_timestamp_ s) kMinRttExpiry < now) /\
    (windows_ok s -> windows_ok s').
Proof.
  intros H Hm. unfold OnCongestionEvent in H. cbv zeta in H.
  pose proof (DiscardLostPackets_frame lost s) as (D1 & _ & D3 & D4). set (s1 := DiscardLostPackets lost s) in *. clearbody s1.
  destruct (process_acked _ _ _ _ _) as [[[[round expired] excess] s2]|] eqn:E; [|done].
  apply process_acked_frame in E as (P1 & _ & P3). cbn [mbind option_bind] in H.
  assert (S2 : static s2 = static s) by congruence. apply static_eq in S2 as (L2 & C2 & M2 & B2 & _).
  match type of H with context [update_mode ?a ?b ?c ?d ?e ?f ?g s2] =>
    pose proof (update_mode_ok a b c d e f g s2) as HU; set (s3 := update_mode a b c d e f g s2) in * end.
  destruct HU as ((L3 & C3 & R3)%fixed_eq & U2 & U3); [by apply (modes_ok_same s)|]. clearbody s3.
  destruct (CalculatePacingRate r s3) as [s4|] eqn:EP; [|done].
  apply CalculatePacingRate_frame in EP as ((L4 & C4 & R4)%fixed_eq & M4 & _). cbn [mbind option_bind] in H.
  match type of H with context [CalculateCongestionWindow r ?a ?b s4] =>
    pose proof (CalculateCongestionWindow_ok r a b s4) as HC; set (s5 := CalculateCongestionWindow r a b s4) in * end.
  clearbody s5. destruct HC as (L5 & M5 & R5 & _ & _ & W5).
  match type of H with context [CalculateRecoveryWindow u ?a ?b s5] =>
    pose proof (CalculateRecoveryWindow_ok u a b s5) as HR; set (s6 := CalculateRecoveryWindow u a b s5) in * end.
  clearbody s6. destruct HR as ((L6 & C6 & M6 & _ & _)%static_eq & _ & _ & W6). injection H as <-.
  assert (M63 : mode_state s6 = mode_state s3) by congruence. assert (L64 : limits s6 = limits s4) by congruence.
  assert (L4s : limits s4 = limits s) by congruence. assert (C4s : congestion_window_ s4 = congestion_window_ s) by congruence.
  exists expired, round. split_and!.
  - exact (eq_trans L64 L4s).
  - by apply (modes_ok_same s3).
  - by apply (mode_edges_same _ _ _ s2 _ s3).
  - intros Hx. destruct (P3 Hx). split; congruence.
  - intros [V1 V2 _ V4]. apply (windows_ok_same s6); [done..|]. unfold limits in L4s, L64, L6.
    injection L4s as A1 A2 _ A4 _. injection L64 as A6 A7 _ A9 _. injection L6 as A11 A12 _ _ _.
    rewrite C4s, A1, A2 in W5. split; [congruence| |exact W6|congruence].
    rewrite A11, A12, C6. apply W5; [lia|done].
Qed.

(** * The other operations *)

Lemma BbrSender_ctor_ok flags random initial max :
  4 <= initial <= max -> max * 1460 < 2 ^ 64 ->
  windows_ok (BbrSender_ctor flags random initial max) /\ modes_ok (BbrSender_ctor flags random initial max).
Proof.
  intros H1 H2. unfold BbrSender_ctor, QuicUnackedPacketMap.kDefaultTCPMSS.
  rewrite !(wrap_small 64) by (unfold fits; lia). split.
  - split; [split|split|done|done]; cbn -[Z.mul]; unfold kDefaultMinimumCongestionWindow, kMaxSegmentSize,
      QuicUnackedPacketMap.kDefaultTCPMSS; lia.
  - split; [split|]; try done. by intros [].
Qed.

Lemma OnApplicationLimited_frame r u in_flight s :
  let s' := OnApplicationLimited r u in_flight s in static s' = static s /\ recovery_of s' = recovery_of s.
Proof. cbv zeta. unfold OnApplicationLimited. destruct (_ <=? _); [done|]. by destruct (_ && _). Qed.

Lemma AdjustNetworkParameters_frame bandwidth rtt s :
  let s' := AdjustNetworkParameters bandwidth rtt s in static s' = static s /\ recovery_of s' = recovery_of s.
Proof. cbv zeta. unfold AdjustNetworkParameters. cbv zeta. destruct (bandwidth =? 0); by destruct (_ && _). Qed.

Definition bbr_ok s : Prop := windows_ok s /\ modes_ok s.

Lemma same_ok s s' : static s' = static s -> recovery_of s' = recovery_of s -> bbr_ok s -> bbr_ok s'.
Proof.
  intros (L & C & M & _ & _)%static_eq R [Hw Hm]. split; [|by apply (modes_ok_same s)].
  apply (windows_ok_same s); [done..| |done]. by injection M.
Qed.

Lemma bbr_OnPacketSent_ok t in_flight n bytes retransmittable s : bbr_ok s -> bbr_ok (OnPacketSent t in_flight n bytes retransmittable s).
Proof.
  intros [Hw Hm]. unfold OnPacketSent. cbv zeta. destruct (_ && _); destruct (aggregation_epoch_start_time_ _ =? 0);
    (split; [by apply (windows_ok_same s)|by apply (modes_ok_same s)]).
Qed.

Lemma rate_based_ok s : bbr_ok s -> bbr_ok (s <| rate_based_startup_ := true |>).
Proof.
  intros [[H1 H2 H3 H4] Hm]. split; [|by apply (modes_ok_same s)]. split; try done. intros H. apply H3. revert H.
  unfold recovering, InRecovery. cbn. by destruct (rate_based_startup_ s), (in_mode STARTUP s), (bool_decide _).
Qed.

Lemma conservation_ok state s :
  state <> NOT_IN_RECOVERY -> bbr_ok s -> bbr_ok (s <| initial_conservation_in_startup_ := state |>).
Proof. intros H [[H1 H2 H3 H4] Hm]. split; [by split|by apply (modes_ok_same s)]. Qed.

Lemma probe_bdp_ok s : bbr_ok s -> bbr_ok (s <| probe_rtt_based_on_bdp_ := true |>).
Proof. intros [[H1 H2 H3 H4] Hm]. split; [by split|by apply (modes_ok_same s)]. Qed.

Lemma min_window_ok s : bbr_ok s -> bbr_ok (s <| min_congestion_window_ := kMaxSegmentSize |>).
Proof.
  intros [[H1 H2 H3 H4] Hm]. split; [|by apply (modes_ok_same s)]. split; cbn; [lia|lia| |done].
  intros H. specialize (H3 H). lia.
Qed.

Lemma set_high_gain_ok gain s : bbr_ok s -> bbr_ok (set_high_gain gain s).
Proof.
  intros [Hw [[H1 H2 H3 H4] H5]]. unfold set_high_gain. cbv zeta. case_bool_decide as E; cbn in E.
  all: split; [by apply (windows_ok_same s)|split; [split|]; cbn; try done].
  - intros Hs. by destruct (H2 Hs).
  - congruence.
Qed.

Lemma set_high_cwnd_gain_ok gain s : bbr_ok s -> bbr_ok (set_high_cwnd_gain gain s).
Proof.
  intros [Hw [[H1 H2 H3 H4] H5]]. unfold set_high_cwnd_gain. cbv zeta. case_bool_decide as E; cbn in E.
  all: split; [by apply (windows_ok_same s)|split; [split|]; cbn; try done].
  intros Hs. by destruct (H2 Hs).
Qed.

Lemma SetFromConfig_ok config perspective s : bbr_ok s -> bbr_ok (SetFromConfig config perspective s).
Proof.
  unfold SetFromConfig. cbv zeta.
  assert (Hall : Forall (fun o => forall x, bbr_ok x -> bbr_ok (o.2 x))
    (config_options (fun tag => HasClientRequestedIndependentOption config tag perspective) (flags_ s))).
  { unfold config_options. repeat apply Forall_cons_2; try apply Forall_nil_2; intros x Hx; cbn [snd].
    all: try (apply (same_ok x); [done|done|exact Hx]).
    all: try by apply conservation_ok. all: try by apply probe_bdp_ok. all: try by apply min_window_ok.
    all: try (match goal with |- bbr_ok ?y => apply (same_ok (x <| rate_based_startup_ := true |>));
      [done|done|by apply rate_based_ok] end).
    all: try by apply set_high_cwnd_gain_ok.
    match goal with |- bbr_ok (set_drain_gain _ ?y) => apply (same_ok y); [done|done|] end.
    by apply set_high_cwnd_gain_ok, set_high_gain_ok. }
  generalize dependent (config_options (fun tag => HasClientRequestedIndependentOption config tag perspective) (flags_ s)).
  intros options Hall. revert s. induction options as [|[c set] options IH]; intros s Hs; [done|].
  apply Forall_cons_1 in Hall as [Hset Hall]. cbn [fold_left]. apply IH; [done|]. destruct c; [by apply Hset|done].
Qed.

Lemma SetInitialCongestionWindowInPackets_ok packets s :
  bbr_ok s -> 4 <= packets -> min_congestion_window_ s <= packets * 1460 <= max_congestion_window_ s ->
  max_congestion_window_ s < 2 ^ 64 -> bbr_ok (SetInitialCongestionWindowInPackets packets s).
Proof.
  intros Hs Hp Hr Hx. pose proof Hs as [[H1 H2 H3 H4] Hm]. unfold SetInitialCongestionWindowInPackets, QuicUnackedPacketMap.kDefaultTCPMSS.
  rewrite (wrap_small 64) by (unfold fits; lia). case_bool_decide; [|done].
  split; [|by apply (modes_ok_same s)]. by split.
Qed.

(** A window that lets [min_congestion_window_] out. *)
Lemma GetCongestionWindow_bounds r s :
  bbr_ok s -> min_congestion_window_ s <= GetCongestionWindow r s /\
  (probe_rtt_based_on_bdp_ s = false -> GetCongestionWindow r s <= max_congestion_window_ s).
Proof.
  intros [[H1 H2 H3 _] _]. unfold GetCongestionWindow. case_bool_decide.
  - unfold ProbeRttCongestionWindow. destruct (probe_rtt_based_on_bdp_ s); [|split; [done|intros _; lia]].
    split; [|done]. unfold GetTargetCongestionWindow. cbv zeta. lia.
  - fold (recovering s). unfold recovering in *. destruct (_ && _).
    + specialize (H3 eq_refl). split; [lia|intros _; lia].
    + split; [lia|intros _; lia].
Qed.

(** * No rate over no time *)

(** The invariant of a run. *)
Definition bbr_good s : Prop := bbr_ok s /\ BandwidthSampler.sampler_times (sampler_ s).

Lemma DiscardLostPackets_times lost s :
  BandwidthSampler.sampler_times (sampler_ s) -> BandwidthSampler.sampler_times (sampler_ (DiscardLostPackets lost s)).
Proof.
  unfold DiscardLostPackets. revert s. induction lost as [|p lost IH]; intros s Hs; cbn [fold_left]; [done|]. apply IH.
  destruct (_ && _); by apply BandwidthSampler.remove_times.
Qed.

Lemma take_samples_defined now rtt acked s :
  sfits now -> BandwidthSampler.sampler_times (sampler_ s) ->
  exists rtt' s', take_samples now rtt acked s = Some (rtt', s') /\ BandwidthSampler.sampler_times (sampler_ s').
Proof.
  intros Hn. revert rtt s. induction acked as [|p acked IH]; intros rtt s Hs; cbn [take_samples]; [eauto|].
  destruct (_ =? 0); [by apply IH|].
  destruct (BandwidthSampler.OnPacketAcknowledged_times now (ap_packet_number p) _ Hn Hs) as (sample & sampler & -> & H1).
  cbn [mbind option_bind]. apply IH. by destruct (negb _ || _).
Qed.

Lemma UpdateRecoveryState_times n losses round s :
  BandwidthSampler.sampler_times (sampler_ s) -> BandwidthSampler.sampler_times (sampler_ (UpdateRecoveryState n losses round s)).
Proof.
  intros Hs. unfold UpdateRecoveryState. cbv zeta. set (s1 := if losses then _ else s).
  assert (H1 : sampler_ s1 = sampler_ s) by (unfold s1; by destruct losses). clearbody s1.
  set (s2 := match recovery_state_ s1 with NOT_IN_RECOVERY => _ | _ => _ end).
  assert (H2 : sampler_ s2 = sampler_ s1).
  { assert (He : forall x, sampler_ (maybe_exit_recovery n losses x) = sampler_ x)
      by (intros x; unfold maybe_exit_recovery; by destruct (_ && _)).
    unfold s2. destruct (recovery_state_ s1); rewrite ?He; try (by destruct round).
    destruct losses; [|done]. unfold enter_recovery. by destruct (_ && _). }
  clearbody s2. rewrite <- H1, <- H2 in Hs. destruct (_ && _); [by apply BandwidthSampler.OnAppLimited_times|done].
Qed.

Lemma UpdateBandwidthAndMinRtt_defined now acked s :
  sfits now -> BandwidthSampler.sampler_times (sampler_ s) ->
  exists expired s', UpdateBandwidthAndMinRtt now acked s = Some (expired, s') /\ BandwidthSampler.sampler_times (sampler_ s').
Proof.
  intros Hn Hs. unfold UpdateBandwidthAndMinRtt.
  destruct (take_samples_defined now kQuicInfiniteTimeUs acked s Hn Hs) as (rtt & s2 & -> & H2). cbn [mbind option_bind].
  destruct (rtt =? _); [eauto|]. cbv zeta. destruct (_ || _); [|eauto]. destruct (_ && ShouldExtendMinRttExpiry _); eauto.
Qed.

Lemma process_acked_defined t before acked losses s :
  sfits t -> BandwidthSampler.sampler_times (sampler_ s) ->
  exists round expired excess s', process_acked t before acked losses s = Some (round, expired, excess, s') /\
    BandwidthSampler.sampler_times (sampler_ s').
Proof.
  intros Ht Hs. unfold process_acked. destruct (last acked) as [p|]; [|by eauto 10].
  destruct (UpdateRoundTripCounter _ s) as [round s1] eqn:E1.
  assert (H1 : sampler_ s1 = sampler_ s).
  { unfold UpdateRoundTripCounter in E1. destruct (_ <? _); by injection E1 as <- <-. }
  rewrite <- H1 in Hs. destruct (UpdateBandwidthAndMinRtt_defined t acked s1 Ht Hs) as (expired & s3 & -> & H3).
  cbn [mbind option_bind]. pose proof (UpdateRecoveryState_times (ap_packet_number p) losses round s3 H3) as H4.
  set (s4 := UpdateRecoveryState _ _ _ _) in *. clearbody s4. unfold UpdateAckAggregationBytes. cbv zeta.
  destruct (_ <=? _); by eauto 10.
Qed.

Lemma update_mode_times r u now prior losses round expired s :
  BandwidthSampler.sampler_times (sampler_ s) ->
  BandwidthSampler.sampler_times (sampler_ (update_mode r u now prior losses round expired s)).
Proof.
  intros Hs. unfold update_mode. cbv zeta. set (s1 := if in_mode PROBE_BW s then _ else s).
  assert (H1 : sampler_ s1 = sampler_ s).
  { unfold s1. case_bool_decide; [|done]. unfold UpdateGainCyclePhase. cbv zeta. destruct (if _ && _ then true else _); [|done].
    by destruct (_ && _ && _ && _). }
  clearbody s1. set (s2 := if round && _ then _ else s1).
  assert (H2 : sampler_ s2 = sampler_ s1).
  { unfold s2. destruct (_ && _); [|done]. unfold CheckIfFullBandwidthReached. destruct (last_sample_is_app_limited_ s1); [done|].
    cbv zeta. destruct (_ <=? _); [by destruct (expire_ack_aggregation_in_startup_ _)|by destruct (_ || _)]. }
  clearbody s2. set (s3 := MaybeExitStartupOrDrain r u now s2).
  assert (H3 : sampler_ s3 = sampler_ s2).
  { unfold s3, MaybeExitStartupOrDrain. set (s4 := if in_mode STARTUP s2 && _ then _ else s2).
    assert (sampler_ s4 = sampler_ s2) as <- by (unfold s4; by destruct (_ && _)). clearbody s4. by destruct (_ && _). }
  clearbody s3. rewrite <- H1, <- H2, <- H3 in Hs. unfold MaybeEnterOrExitProbeRtt. cbv zeta.
  set (s4 := if _ && negb _ && negb _ then _ else s3). assert (H4 : sampler_ s4 = sampler_ s3) by (unfold s4; by destruct (_ && _ && _)).
  clearbody s4. rewrite <- H4 in Hs. case_bool_decide; [|exact Hs].
  enough (sampler_ (in_probe_rtt r u now round s4) = BandwidthSampler.OnAppLimited (sampler_ s4)) as E.
  { change (BandwidthSampler.sampler_times (sampler_ (in_probe_rtt r u now round s4))). rewrite E.
    by apply BandwidthSampler.OnAppLimited_times. }
  unfold in_probe_rtt. cbv zeta. destruct (_ =? 0); [by destruct (_ <? _)|].
  set (s5 := if round then _ else _). assert (H5 : sampler_ s5 = BandwidthSampler.OnAppLimited (sampler_ s4)) by (unfold s5; by destruct round).
  clearbody s5. destruct (_ && _); [|done]. by destruct (negb _).
Qed.

Lemma CalculatePacingRate_defined r s : sfits (RttStats.min_rtt_ r) -> is_Some (CalculatePacingRate r s).
Proof.
  intros Hr. unfold CalculatePacingRate. destruct (_ =? 0); [done|]. cbv zeta. destruct (is_at_full_bandwidth_ s); [done|].
  destruct (Z.eqb_spec (RttStats.min_rtt_ r) 0) as [|Hne]; cbn [negb].
  - rewrite andb_false_r. destruct (_ && _ && _); [done|]. by destruct (_ && _ && _).
  - rewrite andb_true_r. destruct (pacing_rate_ s =? 0).
    + assert (H0 : sfits 0) by (split; by vm_compute).
      destruct (FromBytesAndTimeDelta_defined (initial_congestion_window_ s) (RttStats.min_rtt_ r) 0 Hr H0 Hne) as [rate E].
      unfold time_sub in E. rewrite Z.sub_0_r, swrap_small in E by done. rewrite E. by eexists.
    + destruct (_ && _ && _); [done|]. by destruct (_ && _ && _).
Qed.

(** A congestion event at a time of its type always returns. *)
Lemma OnCongestionEvent_good r u prior now acked lost s :
  bbr_good s -> sfits now -> sfits (RttStats.min_rtt_ r) ->
  exists s', OnCongestionEvent r u prior now acked lost s = Some s' /\ bbr_good s'.
Proof.
  intros [[Hw Hm] Hs] Hn Hr.
  enough (exists s', OnCongestionEvent r u prior now acked lost s = Some s' /\ BandwidthSampler.sampler_times (sampler_ s'))
    as (s' & E & Ht).
  { exists s'. split; [done|]. destruct (OnCongestionEvent_frame r u prior now acked lost s s' E Hm) as (?&?&_&Hm'&_&_&Hw').
    by split_and!; [split; [apply Hw'|]|]. }
  unfold OnCongestionEvent. cbv zeta. pose proof (DiscardLostPackets_times lost s Hs) as H1.
  set (s1 := DiscardLostPackets lost s) in *. clearbody s1.
  match goal with |- context [process_acked now ?b acked ?l s1] =>
    destruct (process_acked_defined now b acked l s1 Hn H1) as (round & expired & excess & s2 & -> & H2);
    cbn [mbind option_bind]; pose proof (update_mode_times r u now prior l round expired s2 H2) as H3 end.
  set (s3 := update_mode _ _ _ _ _ _ _ s2) in *. clearbody s3.
  destruct (CalculatePacingRate_defined r s3 Hr) as [s4 E4]. rewrite E4. cbn [mbind option_bind].
  eexists. split; [done|]. cbn [sampler_]. apply CalculatePacingRate_frame in E4 as (_ & _ & E4 & _).
  apply BandwidthSampler.RemoveObsoletePackets_times.
  match goal with |- context [CalculateRecoveryWindow u ?a ?b ?x] =>
    destruct (CalculateRecoveryWindow_ok u a b x) as (_ & _ & -> & _) end.
  match goal with |- context [CalculateCongestionWindow r ?a ?b ?x] =>
    destruct (CalculateCongestionWindow_ok r a b x) as (_ & _ & _ & -> & _) end.
  by rewrite E4.
Qed.
