(* ===== verification/BbrEvents.v ===== *)
(** What one congestion event does to the recovery of libquic's [BbrSender], to its
    recovery window and to a sender in PROBE_RTT. *)
From stdpp Require Import list.
From S2P Require Import Prelude.
From S2P Require Import FramerTypes.
From S2P Require Import QuicUnits.
From S2P Require Import WindowedFilter.
From S2P Require Import Sampler.
From S2P Require Import RttEstimates.
From S2P Require Import UnackedPackets.
From S2P Require Import LossDetection.
From S2P Require Import SendAlgorithm.
From S2P Require Import IndexedQueue.
From S2P Require Import BandwidthSamplers.
From S2P Require Import LibquicBbr.
From S2P Require Import BbrWindows.

Import BbrSender.
Open Scope Z_scope.

Implicit Types s : BbrSender.

(** * Recovery *)

(** The state of recovery after an acknowledgement of packet [n] in state [s]: a loss enters
    recovery; a round moves it to GROWTH; it ends with an acknowledgement beyond
    [end_recovery_at_] without a loss. *)
Definition next_recovery (n : Z) (losses : bool) s : RecoveryState :=
  match recovery_state_ s with
  | NOT_IN_RECOVERY =>
    if losses then if in_mode STARTUP s then initial_conservation_in_startup_ s else CONSERVATION else NOT_IN_RECOVERY
  | state =>
    if negb losses && (end_recovery_at_ s <? n) then NOT_IN_RECOVERY
    else if current_round_trip_end_ s <? n then GROWTH else state
  end.

Lemma UpdateRecoveryState_state n losses round s :
  let s' := UpdateRecoveryState n losses round s in
  end_recovery_at_ s' = (if losses then last_sent_packet_ s else end_recovery_at_ s) /\
  recovery_state_ s' =
    match recovery_state_ s with
    | NOT_IN_RECOVERY =>
      if losses then if in_mode STARTUP s then initial_conservation_in_startup_ s else CONSERVATION else NOT_IN_RECOVERY
    | state => if negb losses && (end_recovery_at_ s <? n) then NOT_IN_RECOVERY else if round then GROWTH else state
    end.
Proof.
  cbv zeta. unfold UpdateRecoveryState. cbv zeta.
  match goal with |- context [if negb ?b && is_app_limited_recovery_ ?x then _ else _] => set (s2 := x) end.
  assert (H : end_recovery_at_ s2 = (if losses then last_sent_packet_ s else end_recovery_at_ s) /\
    recovery_state_ s2 = match recovery_state_ s with
    | NOT_IN_RECOVERY =>
      if losses then if in_mode STARTUP s then initial_conservation_in_startup_ s else CONSERVATION else NOT_IN_RECOVERY
    | state => if negb losses && (end_recovery_at_ s <? n) then NOT_IN_RECOVERY else if round then GROWTH else state
    end).
  { unfold s2. destruct losses; cbn [negb andb].
    - change (recovery_state_ (s <| end_recovery_at_ := last_sent_packet_ s |>)) with (recovery_state_ s).
      destruct (recovery_state_ s) eqn:E; [unfold enter_recovery; by destruct (_ && _)|..]; unfold maybe_exit_recovery; cbn [negb andb];
        by destruct round.
    - unfold maybe_exit_recovery. cbn [negb andb].
      destruct (recovery_state_ s) eqn:E; [done|..]; destruct round; cbn [end_recovery_at_];
        change (end_recovery_at_ (s <| recovery_state_ := GROWTH |>)) with (end_recovery_at_ s);
        by destruct (end_recovery_at_ s <? n). }
  clearbody s2. by destruct (_ && is_app_limited_recovery_ s2).
Qed.

Lemma recovery_eq s s' :
  recovery_of s' = recovery_of s -> recovery_state_ s' = recovery_state_ s /\ recovery_window_ s' = recovery_window_ s /\
    end_recovery_at_ s' = end_recovery_at_ s.
Proof. unfold recovery_of. by intros [= ? ? ?]. Qed.

Lemma CalculateRecoveryWindow_end u acked lost s : end_recovery_at_ (CalculateRecoveryWindow u acked lost s) = end_recovery_at_ s.
Proof.
  unfold CalculateRecoveryWindow. destruct (rate_based_startup_ s && in_mode STARTUP s); [done|].
  destruct (bool_decide (recovery_state_ s = NOT_IN_RECOVERY)); [done|]. by destruct (recovery_window_ s =? 0).
Qed.

Section event.
Context (r : RttStats.RttStats) (u : QuicUnackedPacketMap.QuicUnackedPacketMap).

Lemma process_acked_recovery t before acked losses s round expired excess s' :
  process_acked t before acked losses s = Some (round, expired, excess, s') ->
  match last acked with
  | None => recovery_of s' = recovery_of s /\ round = false
  | Some p =>
    recovery_state_ s' = next_recovery (ap_packet_number p) losses s /\
    end_recovery_at_ s' = (if losses then last_sent_packet_ s else end_recovery_at_ s) /\
    round = (current_round_trip_end_ s <? ap_packet_number p)
  end.
Proof.
  unfold process_acked. destruct (last acked) as [p|]; [|by intros [= <- <- <- <-]].
  pose proof (UpdateRoundTripCounter_frame (ap_packet_number p) s) as F1.
  assert (Er : (UpdateRoundTripCounter (ap_packet_number p) s).1 = (current_round_trip_end_ s <? ap_packet_number p))
    by (unfold UpdateRoundTripCounter; by destruct (_ <? _)).
  destruct (UpdateRoundTripCounter _ s) as [rs s1]. cbn [fst snd] in *. destruct F1 as (F1 & F2 & _).
  destruct (UpdateBandwidthAndMinRtt _ _ _) as [[ex s2]|] eqn:E; [|done].
  apply UpdateBandwidthAndMinRtt_frame in E as (G1 & G2 & _). cbn [mbind option_bind].
  pose proof (UpdateRecoveryState_state (ap_packet_number p) losses rs s2) as [K1 K2].
  set (s3 := UpdateRecoveryState _ _ _ _) in *. clearbody s3. cbv zeta.
  match goal with |- context [UpdateAckAggregationBytes t ?b s3] => set (newly := b) end.
  pose proof (UpdateAckAggregationBytes_frame t newly s3) as [_ [= L2 _ L4]]. destruct (UpdateAckAggregationBytes _ _ _) as [e s4].
  cbn [snd] in *. intros [= <- <- <- <-].
  assert (S2 : static s2 = static s) by congruence. apply static_eq in S2 as ([= _ _ _ I2 _] & _ & [= M2 _ _ _ _ _ _] & _ & B2).
  assert (R2 : recovery_of s2 = recovery_of s) by congruence. injection R2 as R2 _ R4.
  rewrite L2, L4, K1, K2, B2, R2, R4, M2, I2. split_and!; [|done|done]. unfold next_recovery. subst rs. reflexivity.
Qed.

Lemma OnCongestionEvent_recovery prior now acked lost s s' :
  OnCongestionEvent r u prior now acked lost s = Some s' -> modes_ok s ->
  let losses := match lost with [] => false | _ => true end in
  match last acked with
  | None => recovery_state_ s' = recovery_state_ s /\ end_recovery_at_ s' = end_recovery_at_ s
  | Some p =>
    recovery_state_ s' = next_recovery (ap_packet_number p) losses s /\
    end_recovery_at_ s' = (if losses then last_sent_packet_ s else end_recovery_at_ s)
  end.
Proof.
  intros H Hm. cbv zeta. unfold OnCongestionEvent in H. cbv zeta in H. set (losses := match lost with [] => false | _ => true end) in *.
  pose proof (DiscardLostPackets_frame lost s) as (D1 & D2 & _).
  pose proof (DiscardLostPackets_round lost s) as D3.
  set (s1 := DiscardLostPackets lost s) in *. clearbody s1.
  destruct (process_acked _ _ _ _ _) as [[[[round expired] excess] s2]|] eqn:E; [|done]. pose proof E as E'.
  apply process_acked_frame in E as (P1 & _ & _). apply process_acked_recovery in E' as R.
  assert (S2 : static s2 = static s) by congruence. apply static_eq in S2 as (_ & _ & M2 & _). cbn [mbind option_bind] in H.
  match type of H with context [update_mode ?a ?b ?c ?d ?e ?f ?g s2] =>
    pose proof (update_mode_ok a b c d e f g s2) as HU; set (s3 := update_mode a b c d e f g s2) in * end.
  destruct HU as ((_ & _ & (X1 & _ & X3)%recovery_eq)%fixed_eq & _ & _); [by apply (modes_ok_same s)|]. clearbody s3.
  destruct (CalculatePacingRate r s3) as [s4|] eqn:EP; [|done].
  apply CalculatePacingRate_frame in EP as ((_ & _ & (Y1 & _ & Y3)%recovery_eq)%fixed_eq & _ & _). cbn [mbind option_bind] in H.
  match type of H with context [CalculateCongestionWindow r ?a ?b s4] =>
    destruct (CalculateCongestionWindow_ok r a b s4) as (_ & _ & (Z1 & _ & Z3)%recovery_eq & _);
    set (s5 := CalculateCongestionWindow r a b s4) in * end.
  match type of H with context [CalculateRecoveryWindow u ?a ?b s5] =>
    destruct (CalculateRecoveryWindow_ok u a b s5) as (_ & Z2 & _); pose proof (CalculateRecoveryWindow_end u a b s5) as Z4;
    set (s6 := CalculateRecoveryWindow u a b s5) in * end.
  clearbody s5 s6. injection H as <-.
  apply recovery_eq in D2 as (D21 & _ & D23). apply static_eq in D1 as ([= _ _ _ I1 _] & _ & [= M1 _ _ _ _ _ _] & _ & B1).
  destruct (last acked) as [p|].
  - destruct R as (R1 & R2 & _). split.
    + change (recovery_state_ s6 = next_recovery (ap_packet_number p) losses s). rewrite Z2, Z1, Y1, X1, R1.
      unfold next_recovery. by rewrite D21, D23, D3, I1, M1.
    + change (end_recovery_at_ s6 = if losses then last_sent_packet_ s else end_recovery_at_ s).
      rewrite Z4, Z3, Y3, X3, R2. by rewrite B1, D23.
  - destruct R as ([= R1 R2 R3] & _). split; [change (recovery_state_ s6 = recovery_state_ s)|change (end_recovery_at_ s6 = end_recovery_at_ s)]; congruence.
Qed.

(** * The recovery window *)

(** The bytes an event acknowledges, and what is then in flight or was just acknowledged. *)
Definition newly_acked s s' : Z :=
  u64 (BandwidthSampler.total_bytes_acked (sampler_ s') - BandwidthSampler.total_bytes_acked (sampler_ s)).
Definition delivered s s' : Z := u64 (QuicUnackedPacketMap.bytes_in_flight_ u + newly_acked s s').

Lemma CalculateRecoveryWindow_value acked lost s :
  let s' := CalculateRecoveryWindow u acked lost s in
  let sent := u64 (QuicUnackedPacketMap.bytes_in_flight_ u + acked) in
  recovering s' = true ->
  sent <= recovery_window_ s' /\ (recovery_window_ s = 0 -> recovery_window_ s' = Z.max (min_congestion_window_ s) sent).
Proof.
  cbv zeta. unfold CalculateRecoveryWindow.
  destruct (rate_based_startup_ s && in_mode STARTUP s) eqn:Er; [unfold recovering; by rewrite Er, andb_false_r|].
  destruct (bool_decide (recovery_state_ s = NOT_IN_RECOVERY)) eqn:En; [unfold recovering, InRecovery; by rewrite En|].
  intros _. destruct (Z.eqb_spec (recovery_window_ s) 0) as [E|E].
  - cbn. split; [lia|done].
  - split; [|done]. cbv zeta. match goal with |- ?a <= recovery_window_ (s <| recovery_window_ := ?w |>) => change (a <= w) end.
    destruct (quic_bbr_one_mss_conservation (flags_ s)); lia.
Qed.

Lemma OnCongestionEvent_window prior now acked lost s s' :
  OnCongestionEvent r u prior now acked lost s = Some s' -> modes_ok s -> recovering s' = true ->
  delivered s s' <= recovery_window_ s' /\
  (recovery_state_ s = NOT_IN_RECOVERY -> recovery_window_ s' = Z.max (min_congestion_window_ s) (delivered s s')).
Proof.
  intros H Hm Hr. unfold OnCongestionEvent in H. cbv zeta in H.
  pose proof (DiscardLostPackets_frame lost s) as (D1 & (D2 & _ & _)%recovery_eq & _). set (s1 := DiscardLostPackets lost s) in *. clearbody s1.
  destruct (process_acked _ _ _ _ _) as [[[[round expired] excess] s2]|] eqn:E; [|done].
  apply process_acked_frame in E as (P1 & P2 & _). cbn [mbind option_bind] in H.
  assert (S2 : static s2 = static s) by congruence. apply static_eq in S2 as (L2 & _ & M2 & _).
  match type of H with context [update_mode ?a ?b ?c ?d ?e ?f ?g s2] =>
    pose proof (update_mode_ok a b c d e f g s2) as HU; set (s3 := update_mode a b c d e f g s2) in * end.
  destruct HU as ((L3 & _ & (X1 & X2 & _)%recovery_eq)%fixed_eq & _ & _); [by apply (modes_ok_same s)|]. clearbody s3.
  destruct (CalculatePacingRate r s3) as [s4|] eqn:EP; [|done].
  apply CalculatePacingRate_frame in EP as ((L4 & _ & (Y1 & Y2 & _)%recovery_eq)%fixed_eq & _ & B4 & _). cbn [mbind option_bind] in H.
  match type of H with context [CalculateCongestionWindow r ?a ?b s4] =>
    destruct (CalculateCongestionWindow_ok r a b s4) as (L5 & _ & (Z1 & Z2 & _)%recovery_eq & B5 & _);
    set (s5 := CalculateCongestionWindow r a b s4) in * end.
  match type of H with context [CalculateRecoveryWindow u ?a ?b s5] =>
    pose proof (CalculateRecoveryWindow_value a b s5) as V; destruct (CalculateRecoveryWindow_ok u a b s5) as (_ & Z3 & B6 & _);
    set (s6 := CalculateRecoveryWindow u a b s5) in * end.
  clearbody s5 s6. injection H as <-. destruct (V Hr) as [V1 V2].
  assert (EB : newly_acked s (s6 <| sampler_ := BandwidthSampler.RemoveObsoletePackets
      (QuicUnackedPacketMap.GetLeastUnacked u) (sampler_ s6) |>) =
    u64 (BandwidthSampler.total_bytes_acked (sampler_ s3) - BandwidthSampler.total_bytes_acked (sampler_ s))).
  { unfold newly_acked. rewrite <- B4, <- B5, <- B6. do 2 f_equal. apply BandwidthSampler.RemoveObsoletePackets_acked. }
  unfold delivered. rewrite EB. split; [exact V1|]. intros Hn.
  assert (Hin : recovery_state_ s2 <> NOT_IN_RECOVERY).
  { rewrite <- X1, <- Y1, <- Z1, <- Z3. intros En. unfold recovering, InRecovery in Hr. cbn [recovery_state_] in Hr.
    rewrite bool_decide_eq_true_2 in Hr by exact En. done. }
  assert (H0 : recovery_window_ s5 = 0).
  { rewrite Z2, Y2, X2. destruct (P2 Hin) as [[_ ?]|[Hne _]]; [done|]. by rewrite D2 in Hne. }
  assert (EL : limits s5 = limits s) by congruence. injection EL as EL _ _ _ _. rewrite <- EL. by apply V2.
Qed.

(** * PROBE_RTT *)

Lemma update_mode_probe_rtt now prior losses round expired s :
  mode_ s = PROBE_RTT -> modes_ok s ->
  let s' := update_mode r u now prior losses round expired s in
  (exit_probe_rtt_at_ s <> 0 -> exit_probe_rtt_at_ s <= now -> round = true ->
   mode_ s' = if is_at_full_bandwidth_ s' then PROBE_BW else STARTUP) /\
  (exit_probe_rtt_at_ s = 0 -> probe_rtt_based_on_bdp_ s = false ->
   QuicUnackedPacketMap.bytes_in_flight_ u < u64 (min_congestion_window_ s + kMaxPacketSize) ->
   mode_ s' = PROBE_RTT /\ exit_probe_rtt_at_ s' = time_add now kProbeRttTime).
Proof.
  intros Hm Hs. cbv zeta. unfold update_mode. rewrite bool_decide_eq_false_2 by (by rewrite Hm). cbv zeta.
  set (s1 := if round && _ then _ else s).
  assert (H1 : mode_ s1 = PROBE_RTT /\ exit_probe_rtt_at_ s1 = exit_probe_rtt_at_ s /\ limits s1 = limits s).
  { unfold s1. destruct round; [|done]. destruct (is_at_full_bandwidth_ s) eqn:Ef; [done|]. cbn [andb negb].
    destruct (CheckIfFullBandwidthReached_ok s (mo_gains _ Hs) Ef) as ((?&_&_)%fixed_eq&_&?&?&_). split_and!; congruence. }
  clearbody s1. destruct H1 as (M1 & X1 & L1).
  assert (E2 : MaybeExitStartupOrDrain r u now s1 = s1).
  { unfold MaybeExitStartupOrDrain. by rewrite (bool_decide_eq_false_2 (mode_ s1 = STARTUP)) by (by rewrite M1);
      cbn [andb]; rewrite (bool_decide_eq_false_2 (mode_ s1 = DRAIN)) by (by rewrite M1). }
  rewrite E2. unfold MaybeEnterOrExitProbeRtt. rewrite (bool_decide_eq_true_2 (mode_ s1 = PROBE_RTT)) by done. cbn [negb].
  rewrite andb_false_r. cbv zeta. rewrite (bool_decide_eq_true_2 (mode_ s1 = PROBE_RTT)) by done.
  injection L1 as A1 _ _ _ A5. rewrite <- X1, <- A1, <- A5. clear - M1. split.
  - intros H0 Hn ->. unfold in_probe_rtt. cbv zeta. set (s2 := s1 <| sampler_ := _ |>).
    change (exit_probe_rtt_at_ s2) with (exit_probe_rtt_at_ s1). rewrite (proj2 (Z.eqb_neq _ 0) H0).
    set (s3 := s2 <| probe_rtt_round_passed_ := true |>). change (probe_rtt_round_passed_ s3) with true.
    change (exit_probe_rtt_at_ s3) with (exit_probe_rtt_at_ s1). rewrite (proj2 (Z.leb_le _ _) Hn). cbn [andb].
    change (is_at_full_bandwidth_ (s3 <| min_rtt_timestamp_ := now |>)) with (is_at_full_bandwidth_ s1).
    destruct (is_at_full_bandwidth_ s1) eqn:Ef; cbn [negb].
    + change (is_at_full_bandwidth_ (?x <| exiting_quiescence_ := false |>)) with (is_at_full_bandwidth_ s1). by rewrite Ef.
    + change (is_at_full_bandwidth_ (?x <| exiting_quiescence_ := false |>)) with (is_at_full_bandwidth_ s1). by rewrite Ef.
  - intros H0 Hb Hf. unfold in_probe_rtt. cbv zeta. set (s2 := s1 <| sampler_ := _ |>).
    change (exit_probe_rtt_at_ s2) with (exit_probe_rtt_at_ s1). rewrite H0. cbn [Z.eqb].
    assert (EP : ProbeRttCongestionWindow r s2 = min_congestion_window_ s1).
    { unfold ProbeRttCongestionWindow. change (probe_rtt_based_on_bdp_ s2) with (probe_rtt_based_on_bdp_ s1). by rewrite Hb. }
    rewrite EP, (proj2 (Z.ltb_lt _ _) Hf). done.
Qed.

Lemma OnCongestionEvent_probe_rtt prior now acked lost s s' :
  OnCongestionEvent r u prior now acked lost s = Some s' -> modes_ok s -> mode_ s = PROBE_RTT ->
  (forall p, last acked = Some p -> current_round_trip_end_ s < ap_packet_number p ->
   exit_probe_rtt_at_ s <> 0 -> exit_probe_rtt_at_ s <= now ->
   mode_ s' = if is_at_full_bandwidth_ s' then PROBE_BW else STARTUP) /\
  (exit_probe_rtt_at_ s = 0 -> probe_rtt_based_on_bdp_ s = false ->
   QuicUnackedPacketMap.bytes_in_flight_ u < u64 (min_congestion_window_ s + kMaxPacketSize) ->
   mode_ s' = PROBE_RTT /\ exit_probe_rtt_at_ s' = time_add now kProbeRttTime).
Proof.
  intros H Hs Hm. unfold OnCongestionEvent in H. cbv zeta in H.
  pose proof (DiscardLostPackets_frame lost s) as (D1 & _).
  pose proof (DiscardLostPackets_round lost s) as D3.
  set (s1 := DiscardLostPackets lost s) in *. clearbody s1.
  destruct (process_acked _ _ _ _ _) as [[[[round expired] excess] s2]|] eqn:E; [|done]. pose proof E as E'.
  apply process_acked_frame in E as (P1 & _ & _). apply process_acked_recovery in E' as R. cbn [mbind option_bind] in H.
  assert (S2 : static s2 = static s) by congruence. apply static_eq in S2 as ([= A1 _ _ _ A5] & _ & M2 & [= B1 _] & _).
  pose proof M2 as [= C1 C2 _ _ _ _ _].
  match type of H with context [update_mode ?a ?b ?c ?d ?e ?f ?g s2] =>
    pose proof (update_mode_probe_rtt c d e f g s2) as HU; set (s3 := update_mode a b c d e f g s2) in * end.
  destruct HU as [U1 U2]; [congruence|by apply (modes_ok_same s)|]. clearbody s3.
  destruct (CalculatePacingRate r s3) as [s4|] eqn:EP; [|done].
  apply CalculatePacingRate_frame in EP as (_ & M4 & _ & [= X4 _]). cbn [mbind option_bind] in H.
  match type of H with context [CalculateCongestionWindow r ?a ?b s4] =>
    destruct (CalculateCongestionWindow_ok r a b s4) as (_ & M5 & _ & _ & [= X5 _] & _);
    set (s5 := CalculateCongestionWindow r a b s4) in * end.
  match type of H with context [CalculateRecoveryWindow u ?a ?b s5] =>
    destruct (CalculateRecoveryWindow_ok u a b s5) as ((_ & _ & M6 & [= X6 _] & _)%static_eq & _);
    set (s6 := CalculateRecoveryWindow u a b s5) in * end.
  clearbody s5 s6. injection H as <-. assert (M63 : mode_state s6 = mode_state s3) by congruence.
  pose proof M63 as [= Q1 Q2 _ _ _ _ _]. split.
  - intros p Hp Hn Hx Ht. rewrite Hp in R. destruct R as (_ & _ & ->).
    change (mode_ s6 = if is_at_full_bandwidth_ s6 then PROBE_BW else STARTUP). rewrite Q1, Q2.
    apply U1; [by rewrite B1|by rewrite B1|]. rewrite D3. by apply Z.ltb_lt.
  - intros H0 Hb Hf. destruct U2 as [V1 V2]; [congruence|congruence|by rewrite A1|].
    split; [change (mode_ s6 = PROBE_RTT)|change (exit_probe_rtt_at_ s6 = time_add now kProbeRttTime)]; congruence.
Qed.
End event.
