(* ===== verification/AlgorithmLaws.v ===== *)
(** What the manager of sent packets does to its send algorithm: it tells it of packets
    sent, of congestion events and of timeouts, and nothing else of what the sending
    application asks for reaches it.  So an invariant of the algorithm that these keep
    holds in every state of the application. *)
From stdpp Require Import gmap list_numbers.
From S2P Require Import Prelude.
From S2P Require Import DataReader.
From S2P Require Import DataWriter.
From S2P Require Import PacketNumbers.
From S2P Require Import PacketNumberQueue.
From S2P Require Import FramerTypes.
From S2P Require Import AckFrames.
From S2P Require Import AckRoundTrip.
From S2P Require Import Framer.
From S2P Require Import QuicUnits.
From S2P Require Import WindowedFilter.
From S2P Require Import Sampler.
From S2P Require Import RttEstimates.
From S2P Require Import UnackedPackets.
From S2P Require Import LossDetection.
From S2P Require Import SendAlgorithm.
From S2P Require Import PacedSending.
From S2P Require Import UnackedInvariants.
From S2P Require Import SentPackets.
From S2P Require Import SentInvariants.
From S2P Require Import AckedRanges.
From S2P Require Import SentRuns.
From S2P Require Import ReceivedPackets.
From S2P Require Import ReceiverApp.
From S2P Require Import SenderApp.
From S2P Require Import Datagrams.
From S2P Require Import SenderLoop.
From S2P Require Import SentManager.

Import QuicUnackedPacketMap.
Open Scope Z_scope.

(** An invariant of a send algorithm, whose callers' round trip times are values of
    [int64_t]. *)
Class AlgorithmInvariant {SA : Type} (SI : SendAlgorithmInterface SA) (P : SA -> Prop) := {
  inv_sent r u t f n b h a : P a -> P (sa_OnPacketSent r u t f n b h a);
  inv_event r u updated prior t acked lost a :
    sfits (RttStats.min_rtt_ r) -> P a -> P (sa_OnCongestionEvent r u updated prior t acked lost a);
  inv_timeout retransmitted a : P a -> P (sa_OnRetransmissionTimeout retransmitted a);
}.

Section fed.
Context {SA : Type} {SI : SendAlgorithmInterface SA}.
Implicit Types m : SPM.QuicSentPacketManager SA.

(** What the send algorithm is and reads of the manager, and whether it is paced. *)
Definition feeds m := (SPM.rtt_stats_ m, SPM.send_algorithm_ m, SPM.using_pacing_ m).

Lemma MarkForRetransmission_feeds n type m m' : SPM.MarkForRetransmission n type m = Some m' -> feeds m' = feeds m.
Proof.
  unfold SPM.MarkForRetransmission. destruct (GetTransmissionInfo n _); [|done]. cbn [mbind option_bind].
  destruct (if SPM.RetransmissionLeavesBytesInFlight type then _ else _); [|done]. cbn [mbind option_bind]. intros [= <-].
  destruct (_ && _); [done|]. by destruct (SPM.contains_key _ _).
Qed.

Lemma record_spurious_feeds fuel n m m' : SPM.record_spurious fuel n m = Some m' -> feeds m' = feeds m.
Proof.
  revert n m. induction fuel as [|fuel IH]; intros n m; cbn [SPM.record_spurious]; destruct (n =? 0); try done; try (by intros [= <-]).
  destruct (GetTransmissionInfo n _); [|done]. cbn [mbind option_bind]. intros H. by apply IH in H.
Qed.

Lemma RecordSpuriousRetransmissions_feeds now info m m' :
  SPM.RecordSpuriousRetransmissions now info m = Some m' -> feeds m' = feeds m.
Proof.
  unfold SPM.RecordSpuriousRetransmissions. destruct (SPM.record_spurious _ _ _) as [m1|] eqn:E; [|done].
  apply record_spurious_feeds in E. cbn [mbind option_bind]. destruct (GetTransmissionInfo _ _) as [next|]; [|done].
  cbn [mbind option_bind]. destruct (transmission_type next); try (by intros [= <-]).
  destruct (GeneralLossAlgorithm.SpuriousRetransmitDetected _ _ _ _ _); [|done]. by intros [= <-].
Qed.

Lemma MarkPacketHandled_feeds now n info m m' : SPM.MarkPacketHandled now n info m = Some m' -> feeds m' = feeds m.
Proof.
  unfold SPM.MarkPacketHandled. destruct (SPM.GetNewestRetransmission n m) as [newest|]; [|done]. cbn [mbind option_bind].
  set (m1 := m <| SPM.pending_retransmissions_ := _ |>).
  destruct (if newest =? n then _ else _) as [m2|] eqn:E; [|done]. cbn [mbind option_bind].
  assert (H2 : feeds m2 = feeds m).
  { destruct (newest =? n); [by injection E as <-|].
    destruct (SPM.RecordSpuriousRetransmissions now info m1) as [m3|] eqn:E3; [|done].
    apply RecordSpuriousRetransmissions_feeds in E3. cbn [mbind option_bind] in E.
    destruct (GetTransmissionInfo newest _) as [i|]; [|done]. cbn [mbind option_bind] in E.
    destruct (has_crypto_handshake i); [|by injection E as <-].
    destruct (RemoveFromInFlight newest _); [|done]. by injection E as <-. }
  destruct (RemoveFromInFlight n _); [|done]. cbn [mbind option_bind]. destruct (RemoveRetransmittability n _); [|done].
  by intros [= <-].
Qed.

Lemma handle_acked_feeds now acked m acked' m' : SPM.handle_acked now acked m = Some (acked', m') -> feeds m' = feeds m.
Proof.
  revert m acked'. induction acked as [|a acked IH]; intros m acked'; cbn [SPM.handle_acked]; [by intros [= <- <-]|].
  destruct (GetTransmissionInfo _ _) as [info|]; [|done]. cbn [mbind option_bind]. destruct (negb _).
  - destruct (SPM.handle_acked now acked m) as [[l m1]|] eqn:E; [|done]. intros [= <- <-]. by eapply IH.
  - set (m1 := m <| SPM.last_ack_frame_ := _ |>). set (m2 := if 0 <? ti_largest_acked info then _ else m1).
    assert (H2 : feeds m2 = feeds m) by (unfold m2; by destruct (0 <? _)). clearbody m2.
    set (pair := if in_flight info then _ else _).
    assert (H3 : feeds pair.2 = feeds m) by (unfold pair; by destruct (in_flight info)).
    destruct pair as [a' m3]. cbn [snd] in H3. destruct (SPM.MarkPacketHandled _ _ _ _) as [m4|] eqn:E4; [|done].
    apply MarkPacketHandled_feeds in E4. cbn [mbind option_bind].
    destruct (SPM.handle_acked now acked m4) as [[l m5]|] eqn:E5; [|done]. intros [= <- <-]. apply IH in E5. congruence.
Qed.

Lemma lose_packets_feeds lost m m' : SPM.lose_packets lost m = Some m' -> feeds m' = feeds m.
Proof.
  revert m. induction lost as [|p lost IH]; intros m; cbn [SPM.lose_packets]; [by intros [= <-]|]. cbv zeta.
  set (m1 := m <| SPM.stats_ := _ |>). destruct (GetTransmissionInfo _ _) as [info|]; [|done]. cbn [mbind option_bind].
  destruct (if _ || _ then _ else _) as [m2|] eqn:E; [|done]. cbn [mbind option_bind]. intros H. apply IH in H. rewrite H.
  destruct (_ || _); [by apply MarkForRetransmission_feeds in E|].
  destruct (RemoveFromInFlight _ _); [|done]. by injection E as <-.
Qed.

Lemma InvokeLossDetection_feeds time m m' : SPM.InvokeLossDetection time m = Some m' -> feeds m' = feeds m.
Proof.
  unfold SPM.InvokeLossDetection. set (m1 := match last _ with Some a => _ | None => m end).
  assert (H1 : feeds m1 = feeds m) by (unfold m1; by destruct (last _)). clearbody m1.
  destruct (GeneralLossAlgorithm.DetectLosses _ _ _ _ _ _ _) as [[lost g]|]; [|done]. cbn [mbind option_bind].
  intros H. apply lose_packets_feeds in H. rewrite H. exact H1.
Qed.

Context (P : SA -> Prop) {AI : AlgorithmInvariant SI P}.

Definition fed m : Prop :=
  sfits (RttStats.min_rtt_ (SPM.rtt_stats_ m)) /\ P (SPM.send_algorithm_ m) /\ SPM.using_pacing_ m = false.

Lemma fed_same m m' : feeds m' = feeds m -> fed m -> fed m'.
Proof. unfold feeds, fed. by intros [= -> -> ->]. Qed.

Lemma UpdateRtt_min d a now r :
  sfits d -> sfits (RttStats.min_rtt_ r) -> sfits (RttStats.min_rtt_ (RttStats.UpdateRtt d a now r)).
Proof.
  intros Hd Hr. unfold RttStats.UpdateRtt. destruct (_ || _); [done|]. cbv zeta.
  set (r1 := if _ || _ then _ else r). assert (H1 : sfits (RttStats.min_rtt_ r1)) by (unfold r1; by destruct (_ || _)).
  clearbody r1. destruct (_ && _); unfold RttStats.smooth; destruct (_ =? 0); exact H1.
Qed.

(** The algorithm is told of a packet the same way with and without pacing. *)
Lemma tell_sent_algorithm t n len h m :
  SPM.send_algorithm_ (SPM.tell_sent t n len h m) =
  sa_OnPacketSent (SPM.rtt_stats_ m) (SPM.unacked_packets_ m) t (bytes_in_flight_ (SPM.unacked_packets_ m)) n len h
    (SPM.send_algorithm_ m).
Proof.
  unfold SPM.tell_sent. cbv zeta. cbn -[PacingSender.OnPacketSent].
  destruct (SPM.using_pacing_ m); [apply PacingSender.OnPacketSent_sender|done].
Qed.

Lemma OnPacketSent_fed packet old t type h m b m' : SPM.OnPacketSent packet old t type h m = Some (b, m') -> fed m -> fed m'.
Proof.
  unfold SPM.OnPacketSent. cbv zeta. set (m1 := if old =? 0 then m else _).
  assert (H1 : feeds m1 = feeds m) by (unfold m1; by destruct (old =? 0)). clearbody m1.
  set (m2 := if 0 <? SPM.pending_timer_transmission_count_ m1 then _ else m1).
  assert (H2 : feeds m2 = feeds m) by (unfold m2; by destruct (0 <? _)). clearbody m2.
  destruct (AddSentPacket _ _ _ _ _ _) as [u|]; [|done]. intros [= <- <-] Hm. apply (fed_same m m2 H2) in Hm as (Hr & Hp & Hu).
  split_and!; [exact Hr| |exact Hu]. change (P (SPM.send_algorithm_ (SPM.tell_sent t (sp_packet_number packet) (sp_encrypted_length packet) h m2))).
  rewrite tell_sent_algorithm. by apply inv_sent.
Qed.

Lemma OnAckFrameStart_fed largest delay time m : fed m -> fed (SPM.OnAckFrameStart largest delay time m).
Proof.
  intros Hm. unfold SPM.OnAckFrameStart, SPM.MaybeUpdateRTT. destruct (negb _); [done|].
  destruct (GetTransmissionInfo _ _) as [info|]; [|done]. destruct (_ =? 0); [done|]. destruct Hm as [Hr Hp].
  split; [|exact Hp]. apply UpdateRtt_min; [apply swrap_sfits|exact Hr].
Qed.

Lemma OnAckRange_fed lo hi m : fed m -> fed (SPM.OnAckRange lo hi m).
Proof.
  intros Hm. unfold SPM.OnAckRange. cbv zeta. set (m1 := if _ <? hi then _ else m).
  assert (H1 : feeds m1 = feeds m) by (unfold m1; by destruct (_ <? hi)). clearbody m1. apply (fed_same m m1 H1) in Hm.
  destruct (_ <=? _); [done|]. by destruct (SPM.ack_range _ _ _).
Qed.

Lemma MaybeInvokeCongestionEvent_fed updated prior time m : fed m -> fed (SPM.MaybeInvokeCongestionEvent updated prior time m).
Proof.
  intros (Hr & Hp & Hu). unfold SPM.MaybeInvokeCongestionEvent. rewrite Hu.
  destruct updated, (SPM.packets_acked_ m), (SPM.packets_lost_ m);
    try (split_and!; [exact Hr| |exact Hu]; by apply inv_event). by split_and!.
Qed.

Lemma reset_backoff_fed m : fed m -> fed (SPM.reset_backoff m).
Proof.
  intros (Hr & Hp & Hu). unfold SPM.reset_backoff. cbv zeta. destruct (0 <? _); [|by split_and!].
  destruct (_ <? _); [by split_and!|]. destruct (SPM.use_new_rto_ m); [by split_and!|]. split_and!; [exact Hr| |exact Hu].
  by apply inv_timeout.
Qed.

Lemma OnAckFrameEnd_fed now time m b m' : SPM.OnAckFrameEnd now time m = Some (b, m') -> fed m -> fed m'.
Proof.
  unfold SPM.OnAckFrameEnd. cbv zeta. destruct (SPM.handle_acked _ _ _) as [[acked m1]|] eqn:E; [|done].
  apply handle_acked_feeds in E. cbn [mbind option_bind]. unfold SPM.PostProcessAfterMarkingPacketHandled.
  set (m2 := m1 <| SPM.packets_acked_ := _ |>). destruct (SPM.InvokeLossDetection _ m2) as [m3|] eqn:E3; [|done].
  apply InvokeLossDetection_feeds in E3. cbn [mbind option_bind]. set (m4 := if _ && negb _ then _ else m3).
  assert (H4 : feeds m4 = feeds m) by (transitivity (feeds m3); [unfold m4; by destruct (_ && _)|rewrite E3; exact E]).
  clearbody m4. intros [= <- <-] Hm. apply (fed_same m m4 H4) in Hm.
  match goal with |- fed (?x <| SPM.last_ack_frame_ := _ |>) => enough (Hx : fed x) by exact Hx end.
  match goal with |- fed (if ?c then SPM.reset_backoff ?x else ?x) => enough (Hx : fed x)
    by (destruct c; [by apply reset_backoff_fed|done]) end.
  match goal with |- fed (SPM.record_bandwidth _ _ ?x) => enough (Hx : fed x) by exact Hx end.
  match goal with |- fed (?x <| SPM.unacked_packets_ := _ |>) => enough (Hx : fed x) by exact Hx end.
  by apply MaybeInvokeCongestionEvent_fed.
Qed.
End fed.

(** * The application *)

Section laws.
Context {SA : Type} {SI : SendAlgorithmInterface SA} (P : SA -> Prop) {AI : AlgorithmInvariant SI P}.
Abbreviation Manager := (option (SPM.QuicSentPacketManager SA)).

Definition all_fed (m : Manager) : Prop := forall x, m = Some x -> fed P x.

(** The promises of the manager, with the invariant of its algorithm. *)
Program Definition FedLaws : SentPacketManagerLaws (LibquicManager (SA := SA)) := {|
  spm_ok n m := libquic_ok n m /\ all_fed m;
  spm_acking n m := libquic_acking n m /\ all_fed m;
  spm_pending := libquic_pending;
  spm_limit := max_packets;
|}.
Next Obligation. exact (limit_law (SentPacketManagerLaws := LibquicLaws)). Qed.
Next Obligation. intros n m [H _]. exact (HasPending_law (SentPacketManagerLaws := LibquicLaws) n m H). Qed.
Next Obligation.
  intros n m p m' [H Hf] Hne E.
  destruct (NextPending_law (SentPacketManagerLaws := LibquicLaws) n m p m' H Hne E) as (H1 & H2 & H3 & H4).
  split_and!; [done..|]. cbn in E. destruct (m ≫= SPM.NextPendingRetransmission); by injection E as <- <-.
Qed.
Next Obligation.
  intros n len size frames old now type m [H Hf] Hn Hs Hold packet m'.
  destruct (OnPacketSent_law (SentPacketManagerLaws := LibquicLaws) n len size frames old now type m H Hn Hs Hold) as [H1 H2].
  split_and!; [done|done|]. intros x E. unfold m' in E. cbn in E. destruct m as [y|]; [|done]. cbn in E.
  destruct (SPM.OnPacketSent _ _ _ _ _ y) as [[b z]|] eqn:Ey; [|done]. injection E as <-.
  eapply (OnPacketSent_fed P); [exact Ey|]. by apply Hf.
Qed.
Next Obligation.
  intros n largest delay time m [H Hf].
  split; [exact (OnAckFrameStart_law (SentPacketManagerLaws := LibquicLaws) n largest delay time m H)|].
  intros x E. destruct m as [y|]; [|done]. injection E as <-. by apply OnAckFrameStart_fed, Hf.
Qed.
Next Obligation. intros n m [H Hf]. split; [exact (acking_law (SentPacketManagerLaws := LibquicLaws) n m H)|done]. Qed.
Next Obligation.
  intros n lo hi m [H Hf] Hh. split; [exact (OnAckRange_law (SentPacketManagerLaws := LibquicLaws) n lo hi m H Hh)|].
  intros x E. destruct m as [y|]; [|done]. injection E as <-. by apply OnAckRange_fed, Hf.
Qed.
Next Obligation.
  intros n time m [H Hf]. split; [exact (OnAckFrameEnd_law (SentPacketManagerLaws := LibquicLaws) n time m H)|].
  intros x E. cbn in E. destruct m as [y|]; [|done]. cbn in E.
  destruct (SPM.OnAckFrameEnd time time y) as [[b z]|] eqn:Ey; [|done]. injection E as <-.
  eapply (OnAckFrameEnd_fed P); [exact Ey|]. by apply Hf.
Qed.

Context {HM : HandshakeMessages} {CI : Ciphers} {VL : VersionLabels} {VI : MyQuicFramerVisitorInterface}.
Context (null_decrypter : Decrypter) (null_encrypter : Encrypter) (no_visitor : Visitor).
Context (WriteUInt8AtOffset : Z -> Z -> M QuicDataWriter unit) (stack : list Z).
Abbreviation reaches L := (sender_reaches (SL := L) null_decrypter null_encrypter no_visitor WriteUInt8AtOffset stack).

(** The states the application reaches do not depend on the laws. *)
Lemma reaches_fed_laws (manager : Manager) now o :
  reaches LibquicLaws manager now o -> reaches FedLaws manager now o.
Proof.
  induction 1 as [t0|s o _ IH Hstep]; [constructor|]. apply (reach_next (SL := FedLaws) _ _ _ _ _ _ _ s); [exact IH|].
  destruct Hstep as [now' Ht Hl|now' t r datagram Hh E]; [exact (step_beat (SL := FedLaws) _ _ _ _ _ s now' Ht Hl)|].
  by eapply (step_ack (SL := FedLaws)).
Qed.

(** The invariant of the algorithm holds in every state of the application. *)
Lemma reaches_fed algorithm loss fix_mark optimize now o :
  length stack = 1500%nat -> P algorithm ->
  reaches LibquicLaws (new_manager algorithm loss fix_mark optimize) now o ->
  exists s m, o = Some s /\ NsQuicSender.running_ s = true /\ 0 <= NsQuicSender.seq_ s /\
    NsQuicSender.sent_packet_manager_ s = Some m /\ manager_ok m /\ settled m /\ fed P m.
Proof.
  intros Hst Hp H%reaches_fed_laws.
  assert (Hok : spm_ok (SentPacketManagerLaws := FedLaws) 1 (new_manager algorithm loss fix_mark optimize)).
  { split; [apply new_manager_ok|]. intros x [= <-]. split; [split; by vm_compute|split; [exact Hp|done]]. }
  destruct (sender_reaches_well (SL := FedLaws) null_decrypter null_encrypter no_visitor WriteUInt8AtOffset stack _ now o Hst Hok H)
    as (s & -> & [(m & Em & Hm & Hse & _) Hf] & Hr & _ & Hs).
  exists s, m. split_and!; [done|done|done|done|done|done|]. by apply Hf.
Qed.
End laws.

(** When the manager lets a packet out and none waits to be sent again, a heart beat sends
    the next new packet. *)
Lemma HeartBeat_sends {SM : QuicSentPacketManager} fuel now (s : NsQuicSender.NsQuicSender) :
  NsQuicSender.running_ s = true -> 0 <= NsQuicSender.seq_ s < 2 ^ 64 - 1 ->
  spm_TimeUntilSend now (NsQuicSender.sent_packet_manager_ s) = 0 ->
  spm_HasPendingRetransmissions (NsQuicSender.sent_packet_manager_ s) = false ->
  exists s' stop_waiting, NsQuicSender.HeartBeat (S fuel) now (NsQuicSender.set_heart_timer None s) = Some s' /\
    packets_of s' = packets_of s ++ stop_waiting ++ data_packets now (NsQuicSender.seq_ s) 1 /\
    NsQuicSender.seq_ s' = NsQuicSender.seq_ s + 1.
Proof.
  intros Hr Hs Ht Hp. unfold NsQuicSender.HeartBeat.
  rewrite (Hr : NsQuicSender.running_ (NsQuicSender.set_heart_timer None s) = true).
  change (NsQuicSender.heart_timer_ (NsQuicSender.set_heart_timer None s)) with (@None Z). cbn [negb]. cbv zeta.
  destruct (RecordRate_spec now (NsQuicSender.set_heart_timer None s)) as (R1 & R2 & R3 & _).
  set (s1 := NsQuicSender.RecordRate now _) in *. clearbody s1.
  change (NsQuicSender.sent_packet_manager_ (NsQuicSender.set_heart_timer None s)) with (NsQuicSender.sent_packet_manager_ s) in R3.
  change (NsQuicSender.seq_ (NsQuicSender.set_heart_timer None s)) with (NsQuicSender.seq_ s) in R2.
  cbn [NsQuicSender.SendRetransmission]. rewrite R3, Ht, Hp. cbn [Z.eqb mbind option_bind].
  pose proof (beat_tail_spec now s1 ltac:(lia)) as (T1 & T2 & _). cbv zeta in T1, T2. rewrite R3, Ht in T1, T2. cbn [Z.eqb Z.b2z] in T1, T2.
  fold (beat_tail now s1). set (s2 := beat_tail now s1) in *. clearbody s2.
  eexists _, _. split; [done|]. split; [|change (NsQuicSender.seq_ s2 = NsQuicSender.seq_ s + 1); lia].
  change (packets_of (NsQuicSender.set_heart_timer ?a s2)) with (packets_of s2). rewrite T1, R2.
  f_equal. exact R1.
Qed.
