(* ===== verification/BbrTheorems.v ===== *)
(** The theorems on libquic's [BbrSender], its bandwidth sampler and the queue under it,
    alone and as the send algorithm of the sending application. *)
From stdpp Require Import gmap list_numbers.
From S2P Require Import Prelude.
From S2P Require Import DataReader.
From S2P Require Import DataWriter.
From S2P Require Import PacketNumbers.
From S2P Require Import PacketNumberQueue.
From S2P Require Import FramerTypes.
From S2P Require Import AckFrames.
From S2P Require Import AckRoundTrip.
From S2P Require Import Framer.
From S2P Require Import FramerTheorems.
From S2P Require Import QuicUnits.
From S2P Require Import WindowedFilter.
From S2P Require Import Sampler.
From S2P Require Import RttEstimates.
From S2P Require Import UnackedPackets.
From S2P Require Import LossDetection.
From S2P Require Import SendAlgorithm.
From S2P Require Import PacedSending.
From S2P Require Import UnackedInvariants.
From S2P Require Import SentPackets.
From S2P Require Import SentInvariants.
From S2P Require Import AckedRanges.
From S2P Require Import SentRuns.
From S2P Require Import ReceivedPackets.
From S2P Require Import ReceiverApp.
From S2P Require Import SenderApp.
From S2P Require Import Datagrams.
From S2P Require Import SenderLoop.
From S2P Require Import AppTheorems.
From S2P Require Import SentManager.
From S2P Require Import IndexedQueue.
From S2P Require Import BandwidthSamplers.
From S2P Require Import LibquicBbr.
From S2P Require Import BbrWindows.
From S2P Require Import BbrEvents.
From S2P Require Import AlgorithmLaws.

Import BbrSender.
Open Scope Z_scope.

(** * The queue and the sampler *)

(** C15: The deque of entries that may be absent behaves as a finite map: over any inserts
    and removals it gives the answers of a map that accepts a number when it is empty or
    the number is past the last one inserted, and then holds the entries of the map, the
    least of which is its first packet. *)
Theorem indexed_queue_refines {T : Type} (ops : list (PacketNumberIndexedQueue.QueueOp (T := T))) :
  Forall PacketNumberIndexedQueue.op_ok ops ->
  let '(answers, q) := PacketNumberIndexedQueue.run_ops PacketNumberIndexedQueue.queue_op ops
                         PacketNumberIndexedQueue.PacketNumberIndexedQueue_ctor in
  let '(answers', (m, _)) := PacketNumberIndexedQueue.run_ops PacketNumberIndexedQueue.map_op ops (∅, 0) in
  answers = answers' /\ (forall n, PacketNumberIndexedQueue.GetEntry n q = m !! n) /\
  PacketNumberIndexedQueue.number_of_present_entries q = Z.of_nat (size m) /\
  PacketNumberIndexedQueue.IsEmpty q = bool_decide (m = ∅) /\
  (m <> ∅ -> is_Some (m !! PacketNumberIndexedQueue.first_packet q) /\
             forall n, is_Some (m !! n) -> PacketNumberIndexedQueue.first_packet q <= n).
Proof.
  intros Hall.
  destruct (PacketNumberIndexedQueue.run_ops_simulates ops PacketNumberIndexedQueue.PacketNumberIndexedQueue_ctor (∅, 0))
    as [E [H _]]; [|done|]; [split; [apply PacketNumberIndexedQueue.ctor_represents|done]|].
  destruct (PacketNumberIndexedQueue.run_ops PacketNumberIndexedQueue.queue_op _ _) as [answers q].
  destruct (PacketNumberIndexedQueue.run_ops PacketNumberIndexedQueue.map_op _ _) as [answers' [m last]]. cbn [fst snd] in *.
  split_and!; [done|apply H|apply H|by apply PacketNumberIndexedQueue.represents_empty|].
  intros Hm. destruct (PacketNumberIndexedQueue.represents_first q m H Hm) as [H1 H2]. split; [done|].
  intros n Hn. by destruct (H2 n Hn).
Qed.

(** C14: Over any packets sent in order, acknowledgements, losses and application limits,
    libquic's sampler never divides by zero and takes exactly the bandwidth samples of the
    sampler of delay-bbr for the same packets; what it counts as acknowledged, and what it
    still tracks, was sent. *)
Theorem samplers_agree ops :
  BandwidthSampler.in_order ops (0, 0) ->
  exists samples s my,
    BandwidthSampler.run BandwidthSampler.sampler_op ops BandwidthSampler.BandwidthSampler_ctor = Some (samples, s) /\
    BandwidthSampler.run BandwidthSampler.my_op ops MySampler.MySampler_ctor = Some (map BandwidthSampler.bandwidth samples, my) /\
    (forall n, BandwidthSampler.packet_state <$> PacketNumberIndexedQueue.GetEntry n (BandwidthSampler.connection_state_map_ s) =
       MySampler.packet_infos_ my !! n) /\
    BandwidthSampler.total_bytes_acked s + MySampler.outstanding (MySampler.packet_infos_ my) <=
      BandwidthSampler.total_bytes_sent_ s.
Proof.
  intros H. destruct (BandwidthSampler.run_mirrors ops BandwidthSampler.BandwidthSampler_ctor MySampler.MySampler_ctor)
    as (samples & s & my & E1 & E2 & Hm & Hok); [apply BandwidthSampler.mirrors_ctor|apply MySampler.ctor_ok|done|done|].
  exists samples, s, my. split_and!; [done|done| |].
  - intros n. destruct (BandwidthSampler.mi_packets _ _ Hm) as (m & Hq & -> & _).
    by rewrite (PacketNumberIndexedQueue.re_entries _ _ Hq), lookup_fmap.
  - unfold BandwidthSampler.total_bytes_acked. rewrite (BandwidthSampler.mi_acked _ _ Hm), (BandwidthSampler.mi_sent _ _ Hm).
    apply Hok.
Qed.

(** * The sender on its own *)

(** Every operation of the interface, with any round trip times and unacked packets. *)
Inductive bbr_reaches : BbrSender -> Prop :=
  | br_new flags random initial max :
      4 <= initial <= max -> max * 1460 < 2 ^ 64 -> bbr_reaches (BbrSender_ctor flags random initial max)
  | br_sent t in_flight n bytes retransmittable s :
      bbr_reaches s -> bbr_reaches (OnPacketSent t in_flight n bytes retransmittable s)
  | br_event r u prior now acked lost s s' :
      bbr_reaches s -> OnCongestionEvent r u prior now acked lost s = Some s' -> bbr_reaches s'
  | br_limited r u in_flight s : bbr_reaches s -> bbr_reaches (OnApplicationLimited r u in_flight s)
  | br_adjust bandwidth rtt s : bbr_reaches s -> bbr_reaches (AdjustNetworkParameters bandwidth rtt s)
  | br_config config perspective s : bbr_reaches s -> bbr_reaches (SetFromConfig config perspective s)
  | br_initial packets s :
      bbr_reaches s -> 4 <= packets -> min_congestion_window_ s <= packets * 1460 <= max_congestion_window_ s ->
      max_congestion_window_ s < 2 ^ 64 -> bbr_reaches (SetInitialCongestionWindowInPackets packets s).

Lemma reaches_ok s : bbr_reaches s -> bbr_ok s.
Proof.
  induction 1.
  - by apply BbrSender_ctor_ok.
  - by apply bbr_OnPacketSent_ok.
  - destruct IHbbr_reaches as [Hw Hm].
    destruct (OnCongestionEvent_frame _ _ _ _ _ _ _ _ H0 Hm) as (? & ? & _ & Hm' & _ & _ & Hw'). split; [by apply Hw'|done].
  - destruct (OnApplicationLimited_frame r u in_flight s). by apply (same_ok s).
  - destruct (AdjustNetworkParameters_frame bandwidth rtt s). by apply (same_ok s).
  - by apply SetFromConfig_ok.
  - by apply SetInitialCongestionWindowInPackets_ok.
Qed.


(** C9: A congestion event changes the mode along these edges only: the full bandwidth,
    once reached, stays reached; STARTUP lasts until then, and DRAIN and PROBE_BW come
    after it; from DRAIN and PROBE_BW there is no way back to STARTUP, from PROBE_BW none
    but to PROBE_RTT; PROBE_RTT is entered only when the last min RTT is more than ten
    seconds old, and left, for PROBE_BW or STARTUP, only at the time that was set for it. *)
Theorem bbr_mode_edges r u prior now acked lost s s' :
  bbr_reaches s -> OnCongestionEvent r u prior now acked lost s = Some s' ->
  (is_at_full_bandwidth_ s = true -> is_at_full_bandwidth_ s' = true) /\
  (mode_ s' = STARTUP -> is_at_full_bandwidth_ s' = false /\ pacing_gain_ s' = high_gain_ s') /\
  (mode_ s' = DRAIN \/ mode_ s' = PROBE_BW -> is_at_full_bandwidth_ s' = true) /\
  (mode_ s' = PROBE_BW -> pacing_gain_ s' ∈ kPacingGain) /\
  (mode_ s = DRAIN -> mode_ s' <> STARTUP) /\
  (mode_ s = PROBE_BW -> mode_ s' = PROBE_BW \/ mode_ s' = PROBE_RTT) /\
  (mode_ s <> PROBE_RTT -> mode_ s' = PROBE_RTT -> min_rtt_ s <> 0 /\ time_add (min_rtt_timestamp_ s) kMinRttExpiry < now) /\
  (mode_ s = PROBE_RTT -> mode_ s' <> PROBE_RTT ->
   exit_probe_rtt_at_ s <> 0 /\ exit_probe_rtt_at_ s <= now /\ mode_ s' = if is_at_full_bandwidth_ s' then PROBE_BW else STARTUP).
Proof.
  intros [Hw Hm]%reaches_ok E.
  destruct (OnCongestionEvent_frame r u prior now acked lost s s' E Hm) as (expired & round & _ & [[G1 G2 G3 _] G5] & Hedges & Hexp & _).
  destruct Hedges as [E1 E2 E3 E4 E5]. split_and!; [done| |done|done|done|done|auto|].
  - intros H. split; [by apply G5|by apply G2].
  - intros H1 H2. destruct (E5 H1 H2) as (?&?&_&?). by split_and!.
Qed.

(** C11: PROBE_RTT ends: with so little in flight as its window lets out, an event sets the
    time to leave it 200 milliseconds ahead, and an event from that time on that starts a
    round leaves it. *)
Theorem probe_rtt_ends r u prior now acked lost s s' :
  bbr_reaches s -> OnCongestionEvent r u prior now acked lost s = Some s' -> mode_ s = PROBE_RTT ->
  (exit_probe_rtt_at_ s = 0 -> probe_rtt_based_on_bdp_ s = false ->
   QuicUnackedPacketMap.bytes_in_flight_ u < u64 (min_congestion_window_ s + kMaxPacketSize) ->
   mode_ s' = PROBE_RTT /\ exit_probe_rtt_at_ s' = time_add now kProbeRttTime) /\
  (forall p, last acked = Some p -> current_round_trip_end_ s < ap_packet_number p ->
   exit_probe_rtt_at_ s <> 0 -> exit_probe_rtt_at_ s <= now ->
   mode_ s' = if is_at_full_bandwidth_ s' then PROBE_BW else STARTUP).
Proof.
  intros [_ Hm]%reaches_ok E H. destruct (OnCongestionEvent_probe_rtt r u prior now acked lost s s' E Hm H). by split.
Qed.

(** C10: An event without acknowledgements leaves recovery alone.  Otherwise a loss enters
    it, in the state configured for STARTUP or in CONSERVATION; the first round turns it
    into GROWTH; it ends with the first loss-free acknowledgement of a packet sent after
    the last loss.  In recovery the window is no less than the bytes in flight and those
    the event acknowledged, and on entering it is just these, or the minimum window. *)
Theorem bbr_recovery r u prior now acked lost s s' :
  bbr_reaches s -> OnCongestionEvent r u prior now acked lost s = Some s' ->
  let losses := match lost with [] => false | _ => true end in
  match last acked with
  | None => recovery_state_ s' = recovery_state_ s /\ end_recovery_at_ s' = end_recovery_at_ s
  | Some p =>
    recovery_state_ s' = next_recovery (ap_packet_number p) losses s /\
    end_recovery_at_ s' = (if losses then last_sent_packet_ s else end_recovery_at_ s)
  end /\
  (recovering s' = true ->
   delivered u s s' <= recovery_window_ s' /\
   (recovery_state_ s = NOT_IN_RECOVERY -> recovery_window_ s' = Z.max (min_congestion_window_ s) (delivered u s s'))).
Proof.
  intros [_ Hm]%reaches_ok E losses. split; [by apply (OnCongestionEvent_recovery r u prior now acked lost)|].
  by apply (OnCongestionEvent_window r u prior now acked lost).
Qed.

(** * The sender as the send algorithm of the application *)

(** The times it is given are values of [int64_t].  [sender_with_bbr] shows that no event
    is undefined. *)
#[export] Instance BbrAlgorithm : SendAlgorithmInterface BbrSender := {|
  sa_OnPacketSent _ _ t in_flight n bytes retransmittable s := OnPacketSent (i64 t) in_flight n bytes retransmittable s;
  sa_OnCongestionEvent r u _ prior t acked lost s := default s (OnCongestionEvent r u prior (i64 t) acked lost s);
  sa_OnRetransmissionTimeout _ s := s;
  sa_OnConnectionMigration s := s;
  sa_OnApplicationLimited := OnApplicationLimited;
  sa_AdjustNetworkParameters := AdjustNetworkParameters;
  sa_SetNumEmulatedConnections _ s := s;
  sa_CanSend := CanSend;
  sa_BandwidthEstimate := BandwidthEstimate;
  sa_GetCongestionWindow := GetCongestionWindow;
  sa_GetSlowStartThreshold := GetSlowStartThreshold;
  sa_InSlowStart := InSlowStart;
  sa_InRecovery := InRecovery;
  sa_PacingRate r _ s := default 0 (PacingRate r s);
  sa_SetFromConfig := SetFromConfig;
  sa_SetInitialCongestionWindowInPackets := SetInitialCongestionWindowInPackets;
|}.

(** The sender as [SendAlgorithmInterface::Create] makes it for the manager. *)
Definition created (flags : Flags) (random : nat -> Z) : BbrSender :=
  BbrSender_ctor flags random SPM.kInitialCongestionWindow kDefaultMaxCongestionWindowPackets.

(** Its invariant: the limits of its windows are those it was created with. *)
Definition created_good (s : BbrSender) : Prop :=
  bbr_good s /\ min_congestion_window_ s = 4 * 1460 /\ max_congestion_window_ s = 2000 * 1460 /\ probe_rtt_based_on_bdp_ s = false.

Lemma created_is_good flags random : created_good (created flags random).
Proof.
  split; [|by split_and!]. split; [by apply BbrSender_ctor_ok|apply BandwidthSampler.sampler_times_ctor].
Qed.

#[export] Instance BbrInvariant : AlgorithmInvariant BbrAlgorithm created_good.
Proof.
  split.
  - intros r u t f n b h s [[Hs Ht] H]. cbn. split; [split; [by apply bbr_OnPacketSent_ok|]|].
    + unfold OnPacketSent. cbv zeta. assert (sfits (i64 t)) by apply swrap_sfits.
      destruct (_ && _); destruct (aggregation_epoch_start_time_ _ =? 0); by apply BandwidthSampler.OnPacketSent_times.
    + unfold OnPacketSent. cbv zeta. by destruct (_ && _); destruct (aggregation_epoch_start_time_ _ =? 0).
  - intros r u updated prior t acked lost s Hr [Hs H]. cbn.
    destruct (OnCongestionEvent_good r u prior (i64 t) acked lost s Hs (swrap_sfits t) Hr) as (s' & E & Hs'). rewrite E. cbn.
    destruct (OnCongestionEvent_frame r u prior (i64 t) acked lost s s' E (proj2 (proj1 Hs))) as (_ & _ & [= L1 L2 _ _ L5] & _).
    split; [done|]. by rewrite L1, L2, L5.
  - by intros retransmitted s H.
Qed.

Section application.
Context {HM : HandshakeMessages} {CI : Ciphers} {VL : VersionLabels} {VI : MyQuicFramerVisitorInterface}.
Context (null_decrypter : Decrypter) (null_encrypter : Encrypter) (no_visitor : Visitor).
Context (WriteUInt8AtOffset : Z -> Z -> M QuicDataWriter unit) (stack : list Z).
Context (flags : Flags) (random : nat -> Z) (loss : GeneralLossAlgorithm.GeneralLossAlgorithm) (fix_mark optimize : bool).
Abbreviation with_bbr := (new_manager (created flags random) loss fix_mark optimize).
Abbreviation reaches := (sender_reaches null_decrypter null_encrypter no_visitor WriteUInt8AtOffset stack with_bbr).

Lemma fed_can_send m now : fed created_good m -> SPM.GetBytesInFlight m < 4 * 1460 -> SPM.TimeUntilSend now m = 0.
Proof.
  intros (_ & ([Hok _] & Hmin & _) & Hpacing) Hf. destruct (GetCongestionWindow_bounds (SPM.rtt_stats_ m) _ Hok) as [H1 _].
  unfold SPM.TimeUntilSend. destruct (0 <? _); [done|]. rewrite Hpacing.
  change (sa_CanSend (SPM.rtt_stats_ m) ?f (SPM.send_algorithm_ m)) with (CanSend (SPM.rtt_stats_ m) f (SPM.send_algorithm_ m)).
  unfold CanSend. unfold SPM.GetBytesInFlight in Hf. rewrite Hmin in H1. by rewrite (proj2 (Z.ltb_lt _ _)) by lia.
Qed.

(** C7: In every state of the application with [BbrSender] as its send algorithm, whatever
    the ack frames it will read at any time acknowledge or lose, the next congestion event
    is defined, without a division by zero; and the congestion window lies between 4 and
    2000 segments. *)
Theorem sender_with_bbr now o :
  length stack = 1500%nat -> reaches now o ->
  exists s m, o = Some s /\ NsQuicSender.sent_packet_manager_ s = Some m /\
    (forall prior t acked lost,
       is_Some (OnCongestionEvent (SPM.rtt_stats_ m) (SPM.unacked_packets_ m) prior (i64 t) acked lost (SPM.send_algorithm_ m))) /\
    4 * kMaxSegmentSize <= SPM.GetCongestionWindowInBytes m <= 2000 * kMaxSegmentSize.
Proof.
  intros Hst H.
  destruct (reaches_fed created_good null_decrypter null_encrypter no_visitor WriteUInt8AtOffset stack _ _ _ _ _ _ Hst
    (created_is_good flags random) H) as (s & m & -> & _ & _ & Em & _ & _ & Hr & (Hg & Hmin & Hmax & Hp) & _).
  exists s, m. split_and!; [done|done| | |].
  - intros prior t acked lost.
    destruct (OnCongestionEvent_good (SPM.rtt_stats_ m) (SPM.unacked_packets_ m) prior (i64 t) acked lost _ Hg (swrap_sfits t) Hr)
      as (a & E & _). by exists a.
  - destruct (GetCongestionWindow_bounds (SPM.rtt_stats_ m) _ (proj1 Hg)) as [H1 H2]. rewrite Hmin in H1. exact H1.
  - destruct (GetCongestionWindow_bounds (SPM.rtt_stats_ m) _ (proj1 Hg)) as [H1 H2]. rewrite Hmax in H2. exact (H2 Hp).
Qed.

(** C12: The application with [BbrSender] does not stall while less than four segments are
    in flight: in every such state in which no packet waits to be sent again, the heart
    beat sends the next new packet, whatever was lost before. *)
Theorem bbr_keeps_sending now s m fuel t :
  length stack = 1500%nat -> reaches now (Some s) -> NsQuicSender.sent_packet_manager_ s = Some m ->
  NsQuicSender.seq_ s < 2 ^ 64 - 1 -> SPM.pending_retransmissions_ m = [] -> SPM.GetBytesInFlight m < 4 * kMaxSegmentSize ->
  exists s' stop_waiting, NsQuicSender.HeartBeat (S fuel) t (NsQuicSender.set_heart_timer None s) = Some s' /\
    packets_of s' = packets_of s ++ stop_waiting ++ data_packets t (NsQuicSender.seq_ s) 1 /\
    NsQuicSender.seq_ s' = NsQuicSender.seq_ s + 1.
Proof.
  intros Hst H Em Hn Hp Hf.
  destruct (reaches_fed created_good null_decrypter null_encrypter no_visitor WriteUInt8AtOffset stack _ _ _ _ _ _ Hst
    (created_is_good flags random) H) as (s' & m' & [= <-] & Hr & H0 & Em' & _ & _ & Hfed).
  rewrite Em in Em'. injection Em' as <-. apply HeartBeat_sends; [done|lia| |]; rewrite Em.
  - cbn. by apply fed_can_send.
  - cbn. unfold SPM.HasPendingRetransmissions. by rewrite Hp.
Qed.
End application.

(** * Pacing *)

(** C13: Paced by libquic's pacing sender under a cap, a busy connection with any send
    algorithm respects it: when packets are sent as [TimeUntilSend] allows, the bytes sent
    since the schedule was idle, until a packet may leave again with no lump of packets
    left, are at most what the cap transfers in that time, plus the granularity of alarms
    and a microsecond of rounding per packet.  Acknowledgements, losses and application
    limits in between do not change that. *)
Theorem pacing_sender_cap {SA : Type} {SI : SendAlgorithmInterface SA} rate r0 u0 t0 f0 n0 b0 p a bytes packets p' a' r now f :
  PacingSender.capped_at rate p -> 0 <= PacingSender.alarm_granularity_ p < 2 ^ 61 ->
  PacingSender.pacing_limited_ p = false -> PacingSender.ideal_next_packet_send_time_ p <= t0 ->
  PacingSender.sendable r0 u0 t0 f0 n0 b0 p a ->
  PacingSender.paced (PacingSender.OnPacketSent r0 u0 t0 f0 n0 b0 true p a) bytes packets (p', a') ->
  PacingSender.TimeUntilSend r now f p' a' = 0 -> f <> 0 -> 0 <= now < 2 ^ 61 -> PacingSender.lumpy_tokens_ p' = 0 ->
  0 <= PacingSender.ideal_next_packet_send_time_ p' < 2 ^ 63 ->
  (b0 + bytes) * 8 * kNumMicrosPerSecond <=
    (now - t0 + PacingSender.alarm_granularity_ p + packets + 1) * rate.
Proof.
  intros Hc Hg Hl Hi Hs Hp Hw Hf Hn Htok Hfit.
  destruct (PacingSender.send_schedule rate r0 u0 t0 f0 n0 b0 p a Hc Hs) as (Hc1 & Ha1 & d & Hd & Hb & Hi1).
  destruct (PacingSender.busy_schedule rate _ _ _ _ Hp Hc1) as (Hc' & Ha' & Hbs). cbn [fst] in *.
  rewrite Hl in Hi1. rewrite Hi1 in Hbs. rewrite Ha1 in Ha'.
  pose proof (PacingSender.due_when_allowed r now f p' a' Hw Hf (proj2 (proj2 Hc')) Htok Hn ltac:(lia) Hfit).
  destruct Hc as (_ & Hr & _). nia.
Qed.

(** * Witnesses *)
Import FramerTheorems.Loopback.

(** Of entries 5 and 7, the first is removed; 6 and, once more, 5 come too late. *)
Definition queue_ops : list (PacketNumberIndexedQueue.QueueOp (T := Z)) :=
  [PacketNumberIndexedQueue.OpEmplace 5 50; PacketNumberIndexedQueue.OpEmplace 7 70; PacketNumberIndexedQueue.OpRemove 5;
   PacketNumberIndexedQueue.OpEmplace 6 60; PacketNumberIndexedQueue.OpRemove 5].
Definition five_seven : PacketNumberIndexedQueue.PacketNumberIndexedQueue (T := Z) :=
  (PacketNumberIndexedQueue.run_ops PacketNumberIndexedQueue.queue_op queue_ops PacketNumberIndexedQueue.PacketNumberIndexedQueue_ctor).2.

Lemma indexed_queue_refines_witness :
  PacketNumberIndexedQueue.GetEntry 7 five_seven = Some 70 /\ PacketNumberIndexedQueue.GetEntry 6 five_seven = None /\
  PacketNumberIndexedQueue.first_packet five_seven = 7.
Proof.
  pose proof (indexed_queue_refines queue_ops ltac:(repeat constructor; cbn; lia)) as H. unfold five_seven.
  destruct (PacketNumberIndexedQueue.run_ops PacketNumberIndexedQueue.queue_op queue_ops _) as [answers q] eqn:E.
  destruct (PacketNumberIndexedQueue.run_ops PacketNumberIndexedQueue.map_op queue_ops (∅, 0)) as [answers' [m last]] eqn:E'.
  destruct H as (_ & Hm & _). cbn [snd]. rewrite !Hm. vm_compute in E, E'. injection E as <- <-. injection E' as <- <- <-.
  split_and!; vm_compute; reflexivity.
Defined.

(** Three packets of which the first two are acknowledged and the last is lost. *)
Definition sampler_ops : list BandwidthSampler.SamplerOp :=
  [BandwidthSampler.Sent 1000 1 1000 0; BandwidthSampler.Sent 2000 2 1000 1000; BandwidthSampler.Sent 3000 3 1000 2000;
   BandwidthSampler.Acked 51000 1; BandwidthSampler.Acked 52000 2; BandwidthSampler.Lost 3].

Lemma samplers_agree_witness :
  exists samples s my,
    BandwidthSampler.run BandwidthSampler.sampler_op sampler_ops BandwidthSampler.BandwidthSampler_ctor = Some (samples, s) /\
    BandwidthSampler.run BandwidthSampler.my_op sampler_ops MySampler.MySampler_ctor = Some (map BandwidthSampler.bandwidth samples, my) /\
    map BandwidthSampler.bandwidth samples = [0; 0; 0; 160000; 313720; 0].
Proof.
  destruct (samplers_agree sampler_ops) as (samples & s & my & E1 & E2 & _).
  - repeat split; cbn; lia.
  - exists samples, s, my. split_and!; [exact E1|exact E2|]. vm_compute in E1. by injection E1 as <- <-.
Defined.

Definition plain : Flags := mkFlags (literal 2 1) false false false false false false false false.
Definition sent_to (n : Z) (s : BbrSender) : BbrSender := OnPacketSent (n * 1000) ((n - 1) * 1000) n 1000 true s.
Definition five_out : BbrSender := sent_to 5 (sent_to 4 (sent_to 3 (sent_to 2 (sent_to 1 (created plain (fun _ => 7)))))).
Abbreviation event := (OnCongestionEvent RttStats.RttStats_ctor QuicUnackedPacketMap.QuicUnackedPacketMap_ctor 5000).

(** A loss; after twenty seconds PROBE_RTT; the acknowledgement of a new packet ends it. *)
Definition after_loss : BbrSender := default five_out (event 50000 [mkAcked 3 1000 0] [mkLost 1 1000] five_out).
Definition probing : BbrSender := default five_out (event 20000000 [mkAcked 4 1000 0] [] after_loss).
Definition probed : BbrSender := default five_out (event 22000000 [mkAcked 6 1000 0] [] (sent_to 6 probing)).
Definition is_defined (now : Z) acked lost s : bool := match event now acked lost s with Some _ => true | None => false end.

Lemma event_default now acked lost s : is_defined now acked lost s = true -> event now acked lost s = Some (default five_out (event now acked lost s)).
Proof. unfold is_defined. by destruct (event now acked lost s). Qed.
Lemma after_loss_event : event 50000 [mkAcked 3 1000 0] [mkLost 1 1000] five_out = Some after_loss.
Proof. apply event_default. vm_compute. reflexivity. Qed.
Lemma probing_event : event 20000000 [mkAcked 4 1000 0] [] after_loss = Some probing.
Proof. apply event_default. vm_compute. reflexivity. Qed.
Lemma probed_event : event 22000000 [mkAcked 6 1000 0] [] (sent_to 6 probing) = Some probed.
Proof. apply event_default. vm_compute. reflexivity. Qed.

Lemma event_reached now acked lost s s' : event now acked lost s = Some s' -> bbr_reaches s -> bbr_reaches s'.
Proof. intros E H. exact (br_event _ _ _ _ _ _ _ _ H E). Qed.
Lemma five_out_reached : bbr_reaches five_out.
Proof. do 5 apply br_sent. by apply br_new. Qed.
Lemma after_loss_reached : bbr_reaches after_loss.
Proof. exact (event_reached _ _ _ _ _ after_loss_event five_out_reached). Qed.
Lemma probing_reached : bbr_reaches probing.
Proof. exact (event_reached _ _ _ _ _ probing_event after_loss_reached). Qed.


Lemma bbr_mode_edges_witness :
  mode_ after_loss = STARTUP /\ mode_ probing = PROBE_RTT /\ min_rtt_ after_loss <> 0 /\
  time_add (min_rtt_timestamp_ after_loss) kMinRttExpiry < 20000000.
Proof.
  destruct (bbr_mode_edges RttStats.RttStats_ctor QuicUnackedPacketMap.QuicUnackedPacketMap_ctor 5000 20000000 [mkAcked 4 1000 0] []
    after_loss probing after_loss_reached probing_event) as (_ & _ & _ & _ & _ & _ & H & _).
  assert (H1 : mode_ after_loss = STARTUP) by (vm_compute; reflexivity).
  assert (H2 : mode_ probing = PROBE_RTT) by (vm_compute; reflexivity).
  destruct (H ltac:(rewrite H1; discriminate) H2) as [H3 H4]. exact (conj H1 (conj H2 (conj H3 H4))).
Defined.

Lemma probe_rtt_ends_witness : exit_probe_rtt_at_ probing = 20200000 /\ mode_ probed = STARTUP.
Proof.
  assert (H1 : exit_probe_rtt_at_ (sent_to 6 probing) = 20200000) by (vm_compute; reflexivity).
  destruct (probe_rtt_ends RttStats.RttStats_ctor QuicUnackedPacketMap.QuicUnackedPacketMap_ctor 5000 22000000 [mkAcked 6 1000 0] []
    (sent_to 6 probing) probed (br_sent 6000 5000 6 1000 true probing probing_reached) probed_event) as [_ H].
  - vm_compute. reflexivity.
  - split; [vm_compute; reflexivity|]. rewrite (H (mkAcked 6 1000 0)); [vm_compute; reflexivity|reflexivity|vm_compute; reflexivity| |].
    + change (exit_probe_rtt_at_ (sent_to 6 probing) <> 0). rewrite H1. discriminate.
    + change (exit_probe_rtt_at_ (sent_to 6 probing) <= 22000000). rewrite H1. discriminate.
Defined.

Lemma bbr_recovery_witness :
  recovery_state_ five_out = NOT_IN_RECOVERY /\ recovery_state_ after_loss = CONSERVATION /\ end_recovery_at_ after_loss = 5 /\
  recovery_window_ after_loss = 5840.
Proof.
  assert (H0 : recovery_state_ five_out = NOT_IN_RECOVERY) by (vm_compute; reflexivity).
  destruct (bbr_recovery RttStats.RttStats_ctor QuicUnackedPacketMap.QuicUnackedPacketMap_ctor 5000 50000 [mkAcked 3 1000 0] [mkLost 1 1000]
    five_out after_loss five_out_reached after_loss_event) as [[H1 H2] H3].
  destruct H3 as [_ H3]; [vm_compute; reflexivity|]. specialize (H3 H0). split_and!; [exact H0|rewrite H1|rewrite H2|rewrite H3];
    vm_compute; reflexivity.
Defined.

(** The application with [BbrSender], started, and after its first two heart beats. *)
Definition bbr_manager : option (SPM.QuicSentPacketManager BbrSender) :=
  new_manager (created plain (fun _ => 7)) (GeneralLossAlgorithm.GeneralLossAlgorithm_ctor kNack true true true) true true.
Definition bbr_started : NsQuicSender.NsQuicSender :=
  NsQuicSender.StartApplication 1000 (NsQuicSender.NsQuicSender_ctor bbr_manager 0).
Definition bbr_beat (s : NsQuicSender.NsQuicSender) : NsQuicSender.NsQuicSender :=
  default s (now ← NsQuicSender.heart_timer_ s; NsQuicSender.HeartBeat 1 now (NsQuicSender.set_heart_timer None s)).
Definition two_out : NsQuicSender.NsQuicSender := bbr_beat (bbr_beat bbr_started).

(** Whether a heart beat is due with nothing to be sent again, and gets through. *)
Definition can_beat (s : NsQuicSender.NsQuicSender) : bool :=
  match NsQuicSender.heart_timer_ s, NsQuicSender.sent_packet_manager_ s with
  | Some now, Some m =>
    match SPM.pending_retransmissions_ m, NsQuicSender.HeartBeat 1 now (NsQuicSender.set_heart_timer None s) with
    | [], Some _ => NsQuicSender.seq_ s <? max_packets
    | _, _ => false
    end
  | _, _ => false
  end.
Abbreviation bbr_app_reaches := (sender_reaches cipher0 cipher1 visitor1 no_offset stack0 bbr_manager 0).

Lemma bbr_beat_reached s : bbr_app_reaches (Some s) -> can_beat s = true -> bbr_app_reaches (Some (bbr_beat s)).
Proof.
  intros H Hc. unfold can_beat in Hc. destruct (NsQuicSender.heart_timer_ s) as [now|] eqn:Ht; [|done].
  destruct (NsQuicSender.sent_packet_manager_ s) as [m|] eqn:Em; [|done].
  destruct (SPM.pending_retransmissions_ m) eqn:Hp; [|done].
  destruct (NsQuicSender.HeartBeat 1 _ _) as [s'|] eqn:E; [|done]. apply Z.ltb_lt in Hc.
  apply (reach_next _ _ _ _ _ _ _ s); [exact H|]. unfold bbr_beat. rewrite Ht. cbn [mbind option_bind]. rewrite E. cbn [default].
  pose proof (step_beat cipher0 cipher1 visitor1 no_offset stack0 s now Ht) as Hs.
  assert (Hpend : libquic_pending (NsQuicSender.sent_packet_manager_ s) = ∅) by (rewrite Em; unfold libquic_pending; cbn; by rewrite Hp).
  change (spm_pending (NsQuicSender.sent_packet_manager_ s)) with (libquic_pending (NsQuicSender.sent_packet_manager_ s)) in Hs.
  rewrite Hpend in Hs. change (base.size (∅ : gset Z)) with 0%nat in Hs. rewrite E in Hs. apply Hs.
  change (NsQuicSender.seq_ s + 1 <= max_packets). lia.
Qed.

Lemma two_out_reached : bbr_app_reaches (Some two_out).
Proof. do 2 (apply bbr_beat_reached; [|vm_compute; reflexivity]). apply reach_start. Qed.

Lemma sender_with_bbr_witness :
  exists s m, Some two_out = Some s /\ NsQuicSender.sent_packet_manager_ s = Some m /\
    4 * kMaxSegmentSize <= SPM.GetCongestionWindowInBytes m <= 2000 * kMaxSegmentSize.
Proof.
  destruct (sender_with_bbr cipher0 cipher1 visitor1 no_offset stack0 plain (fun _ => 7) _ _ _ 0 (Some two_out) eq_refl two_out_reached)
    as (s & m & E & Em & _ & H). exists s, m. exact (conj E (conj Em H)).
Defined.

Lemma bbr_keeps_sending_witness :
  exists s' stop_waiting, NsQuicSender.HeartBeat 1 90000 (NsQuicSender.set_heart_timer None two_out) = Some s' /\
    packets_of s' = packets_of two_out ++ stop_waiting ++ data_packets 90000 3 1.
Proof.
  destruct (NsQuicSender.sent_packet_manager_ two_out) as [m|] eqn:Em; [|exfalso; revert Em; vm_compute; discriminate].
  assert (Hs : NsQuicSender.seq_ two_out = 3) by (vm_compute; reflexivity).
  assert (Hm : (m ← NsQuicSender.sent_packet_manager_ two_out; Some (SPM.pending_retransmissions_ m, SPM.GetBytesInFlight m)) = Some ([], 1994))
    by (vm_compute; reflexivity).
  rewrite Em in Hm. cbn [mbind option_bind] in Hm. injection Hm as Hp Hf.
  destruct (bbr_keeps_sending cipher0 cipher1 visitor1 no_offset stack0 plain (fun _ => 7) _ _ _ 0 two_out m 0 90000 eq_refl
    two_out_reached Em) as (s' & w & E & P & _).
  - rewrite Hs. reflexivity.
  - exact Hp.
  - rewrite Hf. reflexivity.
  - exists s', w. split; [exact E|]. rewrite P, Hs. reflexivity.
Defined.

(** [BbrSender] under a cap of 1 Mbit/s: with its burst spent and a packet in flight, two
    packets of 1000 bytes take 8 milliseconds each. *)
Definition paced0 : PacingSender.PacingSender :=
  PacingSender.set_max_pacing_rate 1000000
    ((PacingSender.PacingSender_ctor PacingSender.default_flags) <| PacingSender.burst_tokens_ := 0 |>).
Definition bbr_paced (t n : Z) (st : PacingSender.PacingSender * BbrSender) : PacingSender.PacingSender * BbrSender :=
  PacingSender.OnPacketSent RttStats.RttStats_ctor QuicUnackedPacketMap.QuicUnackedPacketMap_ctor t 1000 n 1000 true st.1 st.2.
Definition paced1 : PacingSender.PacingSender * BbrSender := bbr_paced 1000000 6 (paced0, five_out).
Definition paced2 : PacingSender.PacingSender * BbrSender := bbr_paced 1007000 7 paced1.

Lemma bbr_sendable t n st :
  PacingSender.TimeUntilSend RttStats.RttStats_ctor t 1000 st.1 st.2 = 0 -> 0 <= t < 2 ^ 61 ->
  0 <= PacingSender.ideal_next_packet_send_time_ st.1 < 2 ^ 62 ->
  0 < sa_PacingRate RttStats.RttStats_ctor (u64 (1000 + 1000)) (bbr_paced t n st).2 ->
  PacingSender.sendable RttStats.RttStats_ctor QuicUnackedPacketMap.QuicUnackedPacketMap_ctor t 1000 n 1000 st.1 st.2.
Proof. intros H1 H2 H3 H4. split; [done|done|done|done|done|]. unfold bbr_paced in H4. by rewrite PacingSender.OnPacketSent_sender in H4. Qed.

Lemma paced2_due : PacingSender.TimeUntilSend RttStats.RttStats_ctor 1015000 1000 paced2.1 paced2.2 = 0.
Proof. vm_compute. reflexivity. Qed.

Lemma pacing_sender_cap_witness :
  PacingSender.TimeUntilSend RttStats.RttStats_ctor 1015000 1000 paced2.1 paced2.2 = 0 /\
  (1000 + (1000 + 0)) * 8 * kNumMicrosPerSecond <= (1015000 - 1000000 + 1000 + (1 + 0) + 1) * 1000000.
Proof.
  split; [exact paced2_due|].
  apply (pacing_sender_cap 1000000 RttStats.RttStats_ctor QuicUnackedPacketMap.QuicUnackedPacketMap_ctor 1000000 1000 6 1000
    paced0 five_out (1000 + 0) (1 + 0) paced2.1 paced2.2 RttStats.RttStats_ctor 1015000 1000).
  - split_and!; by vm_compute.
  - by vm_compute.
  - reflexivity.
  - by vm_compute.
  - apply (bbr_sendable 1000000 6 (paced0, five_out)); by vm_compute.
  - change (PacingSender.paced paced1 (1000 + 0) (1 + 0) (paced2.1, paced2.2)). rewrite (surjective_pairing paced1) at 1.
    apply (PacingSender.paced_send RttStats.RttStats_ctor QuicUnackedPacketMap.QuicUnackedPacketMap_ctor 1007000 1000 7 1000).
    + apply (bbr_sendable 1007000 7 paced1); by vm_compute.
    + rewrite <- surjective_pairing. apply PacingSender.paced_nil.
  - exact paced2_due.
  - discriminate.
  - lia.
  - by vm_compute.
  - by vm_compute.
Defined.
